(* ===== verification/_CoqProject ===== *)
-Q . S2P
Prelude.v
Def.v
Ip4Addr.v
Alloc.v
Mem.v
Memp.v
Pbuf.v
PbufChain.v
PbufAlloc.v
Chksum.v
Timeouts.v
T41.v
Etharp.v
World.v
Ip4Frag.v
Ip4.v
Icmp.v
Igmp.v
Ip4Reass.v
ReassQueue.v
ReassJoin.v
Udp.v
Ip4Input.v
Stack.v
Netif.v
Network.v
Slip.v
SlipProps.v
Board.v
Dns.v
DnsTable.v
Tcp.v
TcpOut.v
TcpCore.v
TcpIn.v
TcpFrame.v
TcpLists.v
TcpSafe.v
TcpState.v
TcpProps.v
TcpWrite.v
TcpExample.v
DhcpParse.v
Dhcp.v
DhcpProps.v
DhcpState.v
DhcpLease.v
AppTimers.v
Tftp.v
TftpProps.v
TftpSend.v
TftpExample.v
Sntp.v
SntpProps.v
SntpExample.v
Netbios.v
MqttReq.v
Mqtt.v
MqttProps.v
MqttParse.v
MqttExample.v
