(* ===== verification/Prelude.v ===== *)
(** * lwIP on the Teensy 4.1: a verification library

    The repository is the lwIP 2.0.2 TCP/IP stack with an Ethernet driver for the
    Teensy 4.1 board (all paths below are under [src/t41ether/lwip/src/]).  Frames
    move between the ENET controller and the stack through two descriptor rings
    ([lwip_t41.c]); in memory they are chains of packet buffers ([core/pbuf.c]) that
    come from a heap ([core/mem.c]) and from pools of fixed-size elements
    ([core/memp.c]); outgoing IP packets get their Ethernet header from the ARP
    module ([core/ipv4/etharp.c], [netif/ethernet.c]), incoming ones go through
    [ip4_input] ([core/ipv4/ip4.c]), with fragments put together on the way
    ([core/ipv4/ip4_frag.c]), to ICMP, IGMP, UDP or TCP ([core/ipv4/icmp.c],
    [core/ipv4/igmp.c], [core/udp.c], [core/tcp.c], [core/tcp_in.c], [core/tcp_out.c]) and
    from there to the callbacks of the clients: DNS ([core/dns.c]), DHCP
    ([core/ipv4/dhcp.c]), which configures the interface, and applications such as the TFTP
    server ([apps/tftp/tftp_server.c]), the SNTP client ([apps/sntp/sntp.c]), the NetBIOS
    responder ([apps/netbiosns/netbiosns.c]) and the MQTT client ([apps/mqtt/mqtt.c]);
    [core/netif.c] keeps the interfaces.  Protocol timers run from a list of timeouts
    ([core/timeouts.c]); the checksum functions ([core/inet_chksum.c], [arch/checksum.c])
    and the address and string helpers ([core/ipv4/ip4_addr.c], [core/def.c]) serve all of
    them.

    The code is modelled as [lwipopts.h] configures it: [NO_SYS], IPv4 only,
    [MEM_ALIGNMENT] 4, [MEM_SIZE] 24000, statistics on, [LWIP_ASSERT] without
    effect, [ETH_PAD_SIZE] 2, no ARP queues, a little-endian 32-bit machine.

    ** Files

    Memory and helpers:
    - [Prelude] (this file): machine integers and their wrap-around, the byte memory,
      alignment, the fuelled loop [loop], the hint databases and tactics.
    - [Def]: [core/def.c].
    - [Ip4Addr]: [core/ipv4/ip4_addr.c], and the fields of [struct netif] in use.
    - [Alloc]: what an allocator promises ([Allocator], [Shrinking]), in terms of the
      regions its client holds.
    - [Mem]: [core/mem.c], as an instance of both classes.
    - [Memp]: [core/memp.c], as an instance of [Allocator].
    - [Pbuf]: data and operations of [core/pbuf.c].
    - [PbufChain]: the operations that walk, read, write, join and move within chains,
      against the byte string a chain holds.
    - [PbufAlloc]: the operations that allocate and release, against [Alloc].
    - [Chksum]: the four summing routines as instances of the class [Chksum], and the
      checksums of chains and pseudo headers against that class.
    - [Timeouts]: [core/timeouts.c] on top of [Memp].

    The link layer:
    - [T41]: the rings of [lwip_t41.c] on top of [Pbuf].
    - [Etharp]: [core/ipv4/etharp.c] and [ethernet_output], on a record of pbuf
      operations that [Pbuf] instantiates.

    The IP layer, over one record of its static variables:
    - [World]: that record, its frames ([ip_frame]), and the accesses to headers.
    - [Ip4Frag]: [ip4_frag]; [Ip4]: routing and output of [core/ipv4/ip4.c];
      [Icmp]: [core/ipv4/icmp.c]; [Igmp]: [core/ipv4/igmp.c].
    - [Ip4Reass]: reassembly in [core/ipv4/ip4_frag.c]; [ReassQueue] and [ReassJoin]: the
      queue of fragments, and the datagram that is returned.
    - [Udp]: [core/udp.c]; [Ip4Input]: [ip4_input] and [ethernet_input].
    - [Stack]: the layers composed the way [netif_add] composes them.
    - [Netif]: [core/netif.c]; [Network]: the events of the whole stack below TCP.
    - [Board]: the set-up of the board's interface and its link ([lwip_t41.c],
      [core/init.c]); [Slip], [SlipProps]: the interface of [netif/slipif.c].

    Above it:
    - [Dns]: [core/dns.c]; [DnsTable]: the invariant of its tables, the end of queries.
    - [Tcp]: the data of TCP ([lwip/tcp.h], [lwip/priv/tcp_priv.h]) and the operations on
      segments; [TcpOut]: [core/tcp_out.c]; [TcpCore]: [core/tcp.c]; [TcpIn]:
      [core/tcp_in.c].
    - [TcpFrame]: what these functions leave alone, by the classes [seg_frame] and
      [tcp_frame] and the tactic [keep].
    - [TcpLists], [TcpSafe]: the lists of PCBs under all operations, timers and segments,
      for applications that keep the contract [tcp_client].
    - [TcpState]: the states of a connection against the diagram of RFC 793.
    - [TcpProps]: sequence numbers, the announced window, options, ports, TIME-WAIT, the
      congestion window; [TcpWrite]: [tcp_write].
    - [TcpExample]: two boards that connect to each other; the witnesses for TCP.
    - [DhcpParse]: the options of a DHCP message, written and read; [Dhcp]: the client of
      [core/ipv4/dhcp.c]; [DhcpProps]: what its functions change, in the relations [quiet]
      and [calm]; [DhcpState]: the states of a client against the diagram of RFC 2131;
      [DhcpLease]: the lease, and a board that takes up an address.
    - [AppTimers]: the timers of applications, in the list of [Timeouts].
    - [Tftp]: [apps/tftp/tftp_server.c]; [TftpProps]: the calls of the application's file
      functions and the end of a transfer; [TftpSend]: the bytes of the blocks;
      [TftpExample]: transfers on a board, and the witnesses.
    - [Sntp]: [apps/sntp/sntp.c]; [SntpProps]: the reaction to a datagram, the time and the
      timers; [SntpExample]: a client on a board, and the witness.
    - [Netbios]: [apps/netbiosns/netbiosns.c].
    - [MqttReq]: the requests of [apps/mqtt/mqtt.c] that wait for an answer; [Mqtt]: the rest
      of it; [MqttProps]: time-outs, the ring buffer and the messages that go out;
      [MqttParse]: the messages that come in; [MqttExample]: a client that talks to a server
      through two boards with TCP, and the witnesses.

    ** How the code is represented

    An [uN_t] is an integer of [Z] and every conversion to the type is written out
    ([u8], [u16], [u32], [s16], [s32]).  A pointer is a [Z] and [NULL] is 0.  Bytes
    (payloads, strings, frame buffers) are in a [memory], a function from addresses
    to bytes.  The headers of the heap, the links of a pool's free list and the
    [struct pbuf]s are in finite maps from their addresses, next to that memory: the
    model does not have a client that writes into a header, and the theorems show
    that the regions clients hold never meet one.  State is passed explicitly; the
    state of a module is a record of its static variables ([heap], [pool], [pstate],
    [tstate], [drv], [estate], [world], [dns_vars], [tcp_vars], [dhcp_vars], [tftp_state],
    [sntp_vars], [mqtt_vars]) and an operation returns the new state with its result.  The modules of the IP layer call each other through
    callbacks and share one state, the record [world X]; the type [X] stands for what is
    below [netif->output] and above the callbacks, and a module that keeps its variables
    there says so with a class of accessors ([tcp_store], [timer_store], [tftp_store]).
    Lists that the code links through [next] members are lists of addresses, next to a map
    from addresses to their elements; the requests of MQTT, which point to themselves when
    they are free, are kept with their [next] pointers.  Errors are the [err_t] codes and [NULL]s of the code.

    A [while] or [for] loop that is not over a fixed range is [loop] with a bound on
    the rounds, and [None] is running out of it.  Theorems about results are stated
    as [f fuel ... = Some r] for every bound above an explicit number (the length of
    the chain, of the string, of the list), so they include that the code returns.
    The heap's own walks use the fixed bound [mem_fuel] (1300), above the at most
    1200 blocks of at least 20 bytes in 24000; [Mem] proves that it suffices.

    In TCP, DHCP, TFTP and MQTT one bound [fuel] limits all loops; a result [None] is also a step
    that the code cannot make (a call through [NULL], a PCB that was freed).  The theorems
    about lists, states and leases say what is true of every result; [TcpExample] runs a
    connection from both ends, [DhcpLease] a client from the first discover message to the
    end of its lease, [TftpExample] transfers in both directions, and [MqttExample] a session
    with a server; the theorems about loops of their own ([parseopt_total], [timewait_expires],
    [tcp_new_port_first_free]) give the bound that is enough.

    What the code calls and the library does not model is a parameter: the handlers
    of timers, the [custom_free_function] of custom pbufs, [linkoutput], the
    controller's side of the rings, [netif->input], [rand], the MAC filter, the callbacks
    of UDP, DNS and TCP, the file functions of the TFTP server, the clock that
    SNTP sets, and [tcp_timer_needed].
    DHCP's [dhcp_arp_reply], [dhcp_network_changed] and [dhcp_cleanup] are parameters of
    [Etharp], [Network] and [Netif], whose states are smaller than DHCP's, and functions of
    [Dhcp].

    ** What the theorems show

    - Heap: in all reachable states, for sizes of all 16 bits and with illegal frees and
      trims, the block list is well formed and held regions are disjoint ([heap_safe]);
      [mem_malloc] is first fit ([malloc_is_first_fit]), [mem_free] undoes it, [mem_trim]
      shrinks in place; the 16-bit size computations wrap.
    - Pools: held and free elements partition the pool in all reachable states
      ([pool_safe]); free and allocate are inverse; [memp_sanity] decides cycles.
    - Packet buffers: allocation gives a fresh chain or takes nothing, freeing returns
      exactly the pbufs whose last reference is dropped, truncation and coalescing
      keep the content; copies, writes, searches, concatenation and header moves are
      the byte string operations they stand for.
    - Checksums: all four summing routines compute the RFC 1071 sum, for odd and even
      addresses; the sums of chains do not depend on their division into pbufs;
      filling in a checksum makes a packet verify.
    - Timeouts: what setting, cancelling and checking timers do to the times at which
      all timers are due.
    - Driver: the receive ring is a FIFO queue of frames, delivered as fresh chains
      with the bytes of the frames; transmission hands over the bytes of the chain.
    - ARP: the table's invariant in all reachable states, the choice of the entry to
      recycle, resolution and expiry.
    - IPv4: which interface a packet is routed to and accepted by, what is sent, and every
      refusal ([route_choice], [output_sends], [output_errors], [input_verdict]);
      reassembly places each fragment in a queue ordered by offset or refuses it, where an
      overlap in front of the whole queue is not seen ([fragment_placed],
      [overlap_in_front_linked]), and returns the datagram that was cut up
      ([reass_rebuilds]).
    - ICMP and IGMP: the echo reply; the use counts of groups, and the invariant of the
      membership lists in all reachable states.
    - UDP: to which PCB a datagram goes, what is sent, the ports, and the PCBs in all
      reachable states.
    - Interfaces and the stack: adding and removing an interface, and the invariants of
      ARP, IGMP and the interfaces over all events in any order, for an application that
      joins groups only on a started interface ([stack_safe], [network_safe]); a frame
      with a datagram reaches its receiver ([frame_delivered]); the board's interface comes up with its addresses ([board_comes_up]) and follows the PHY
      ([link_follows]); what SLIP sends it receives ([slip_roundtrip]).
    - DNS: the tables' invariant over all operations ([dns_safe]), and that every query is
      answered, by its timer at the latest ([query_ends]).
    - TCP: the four lists of PCBs in all reachable states, with three of the four axioms of
      [tcp_priv.h] ([tcp_lists_safe]; the first one fails, [slowtmr_loses_pcb]); the state
      after every segment of an open connection ([process_moves]); the announced window
      does not shrink; from the end of the handshake on the congestion window stays in its
      bounds ([congestion_window]); [tcp_write] queues the segments of what it accounts for
      or changes nothing ([write_accounts]); options are read as RFC 793 says, and
      connections leave TIME-WAIT exactly when their time is over.
    - DHCP: every event moves a client along the edges of its diagram and leaves the others
      alone ([dhcp_moves]), with the socket's use count and the fields of all clients in
      order in all states that an application which keeps the contract of [dhcp_next]
      reaches ([dhcp_safe]); how long a lease lasts ([lease_ends]) and
      what an acknowledgement sets ([lease_taken]); options that are written are read back
      from one pbuf, the overload option apart ([dhcp_options_roundtrip]), and reading ends
      for any division into pbufs ([dhcp_parse_total]).
    - TFTP: the file functions are called in order in all reachable states ([tftp_safe]), a
      transfer with a silent client ends after five retransmissions ([transfer_ends]), and a block is sent with the
      bytes that were read ([block_sent]).
    - SNTP: the reaction to a datagram is a function of its bytes ([sntp_response]).
    - MQTT: the linked request objects are a list of identifiers with their times
      ([requests_refine], [requests_time_out]); publishing and subscribing put exactly one
      message behind the others or change nothing ([publish_queued], [subscribe_queued]); a
      message is put together from any segments ([message_assembled]).
    - NetBIOS: decoding undoes the encoding of RFC 1001 ([name_decode_encode]).
    - Helpers: byte order, string search and comparison, [itoa], address tests, and
      the round trip of printing and parsing an address.

    The theorems that say what the code does and hardly means to do are kept in the
    files as well ([strnicmp_compares_len_plus_one], [aton_accepts_overflow],
    [malloc_size_wraps], [rearmed_timer_fires_early], [application_timer_not_set],
    [full_mtu_overruns_buffer], [bad_frame_stops_input], [rom_head_packet_dropped],
    [use_wraps], [first_group_dangles], [callback_takes_entry], [slowtmr_loses_pcb],
    [bind_twice], [mss_option_raises], [rto_overflow], [renew_without_pcb],
    [cleanup_keeps_reference], [expired_address_kept], [infinite_lease_ends],
    [long_lease_wraps], [overload_reads_null], [option_spans_pbuf], [netascii_refused],
    [block_written_twice], [refused_leave_timers], [stray_silences], [stop_while_asking],
    [no_phy_link_up], [long_packet_cut], [packet_without_head], [illegal_name_answered],
    [short_query_answered], [long_header_overruns], [long_topic_accepted],
    [empty_message_disconnects], [message_without_callback], [disconnect_in_callback],
    [long_message_fits], [second_request_late]).

    ** Not modelled

    The accesses to registers, clocks, pins, PHY and fuses in [lwip_t41.c] are parameters
    or left out.  IPv6, PPP, 6LoWPAN, raw PCBs, AutoIP and the sequential API ([api/]) are not
    compiled in this configuration.  [core/stats.c] prints counters that are part of the
    states here.  The other applications in [apps/] are clients of all this. *)

From Stdlib Require Import ZArith Lia.
From stdpp Require Import base tactics numbers list.

#[global] Open Scope Z_scope.

(** ** Machine integers

    [u8_t], [u16_t], [u32_t], [s16_t] and [s32_t] of [arch/cc.h] are integers
    of [Z]; a conversion to the type is the wrap-around written out. *)

Definition u8 (z : Z) : Z := z mod 256.
Definition u16 (z : Z) : Z := z mod 65536.
Definition u32 (z : Z) : Z := z mod 4294967296.
Definition s16 (z : Z) : Z := (z + 32768) mod 65536 - 32768.
Definition s32 (z : Z) : Z := (z + 2147483648) mod 4294967296 - 2147483648.

Create HintDb lwip.
Create Rewrite HintDb lwip.

Lemma u8_range z : 0 <= u8 z < 256.
Proof. unfold u8. apply Z.mod_pos_bound. lia. Qed.
Lemma u16_range z : 0 <= u16 z < 65536.
Proof. unfold u16. apply Z.mod_pos_bound. lia. Qed.
Lemma u32_range z : 0 <= u32 z < 4294967296.
Proof. unfold u32. apply Z.mod_pos_bound. lia. Qed.
Lemma u8_small z : 0 <= z < 256 -> u8 z = z.
Proof. apply Z.mod_small. Qed.
Lemma u16_small z : 0 <= z < 65536 -> u16 z = z.
Proof. apply Z.mod_small. Qed.
Lemma u32_small z : 0 <= z < 4294967296 -> u32 z = z.
Proof. apply Z.mod_small. Qed.
Lemma s32_small z : -2147483648 <= z < 2147483648 -> s32 z = z.
Proof. intros. unfold s32. rewrite Z.mod_small by lia. lia. Qed.
Lemma s16_small z : -32768 <= z < 32768 -> s16 z = z.
Proof. intros. unfold s16. rewrite Z.mod_small by lia. lia. Qed.
Lemma u16_cases z :
  -65536 <= z < 131072 ->
  u16 z = (if z <? 0 then z + 65536 else if z <? 65536 then z else z - 65536).
Proof.
  unfold u16. intros.
  destruct (Z.ltb_spec z 0); [|destruct (Z.ltb_spec z 65536)].
  - rewrite <- (Z.mod_add z 1) by lia. apply Z.mod_small. lia.
  - apply Z.mod_small. lia.
  - replace z with (z - 65536 + 1 * 65536) at 1 by lia.
    rewrite Z.mod_add by lia. apply Z.mod_small. lia.
Qed.

#[export] Hint Resolve u8_range u16_range u32_range : lwip.

(** [zb] turns every boolean comparison of the context and of the goal into the
    proposition it decides and splits on the comparisons that are still open. *)

Ltac zb_hyp :=
  match goal with
  | H : (_ && _)%bool = true |- _ => apply andb_prop in H; destruct H
  | H : (_ || _)%bool = false |- _ => apply orb_false_elim in H; destruct H
  | H : negb _ = true |- _ => apply negb_true_iff in H
  | H : negb _ = false |- _ => apply negb_false_iff in H
  | H : (_ =? _) = true |- _ => apply Z.eqb_eq in H
  | H : (_ =? _) = false |- _ => apply Z.eqb_neq in H
  | H : (_ <? _) = true |- _ => apply Z.ltb_lt in H
  | H : (_ <? _) = false |- _ => apply Z.ltb_ge in H
  | H : (_ <=? _) = true |- _ => apply Z.leb_le in H
  | H : (_ <=? _) = false |- _ => apply Z.leb_gt in H
  end.

Ltac zb_split :=
  match goal with
  | |- context [?a =? ?b] => destruct (Z.eqb_spec a b)
  | |- context [?a <? ?b] => destruct (Z.ltb_spec a b)
  | |- context [?a <=? ?b] => destruct (Z.leb_spec a b)
  | H : context [?a =? ?b] |- _ => destruct (Z.eqb_spec a b)
  | H : context [?a <? ?b] |- _ => destruct (Z.ltb_spec a b)
  | H : context [?a <=? ?b] |- _ => destruct (Z.leb_spec a b)
  end.

Ltac zb := repeat zb_hyp.
Ltac zbs := repeat (zb_hyp || zb_split); simpl in *; try lia.

(** [dm] makes the quotients and remainders by constants visible to
    [lia]. *)
Ltac dm := Z.div_mod_to_equations; lia.

(** ** Byte memory

    The data bytes of the machine: a total map from addresses to byte values
    (uninitialised memory has some value).  [NULL] is address 0. *)

Definition memory := Z -> Z.
Definition NULL : Z := 0.

Definition mem_ok (m : memory) : Prop := forall a, 0 <= m a < 256.

Definition upd (m : memory) (a v : Z) : memory :=
  fun x => if x =? a then v else m x.

Fixpoint bytes_at (m : memory) (a : Z) (n : nat) : list Z :=
  match n with
  | O => []
  | S n => m a :: bytes_at m (a + 1) n
  end.

Fixpoint write_bytes (m : memory) (a : Z) (bs : list Z) : memory :=
  match bs with
  | [] => m
  | b :: bs => write_bytes (upd m a b) (a + 1) bs
  end.

(** [MEMCPY(dst, src, len)] for regions that do not overlap. *)
Definition memcpy (m : memory) (dst src len : Z) : memory :=
  write_bytes m dst (bytes_at m src (Z.to_nat len)).

Definition is_byte (b : Z) : Prop := 0 <= b < 256.

Lemma upd_eq m a v : upd m a v a = v.
Proof. unfold upd. by rewrite Z.eqb_refl. Qed.
Lemma upd_ne m a v x : x <> a -> upd m a v x = m x.
Proof. unfold upd. intros. destruct (Z.eqb_spec x a); congruence. Qed.

Lemma length_bytes_at m a n : length (bytes_at m a n) = n.
Proof. revert a. induction n; intros; simpl; auto. Qed.

Lemma bytes_at_app m a n k :
  bytes_at m a (n + k) = bytes_at m a n ++ bytes_at m (a + Z.of_nat n) k.
Proof.
  revert a. induction n; intros; simpl.
  - by rewrite Z.add_0_r.
  - rewrite IHn. do 3 f_equal. lia.
Qed.

Lemma bytes_at_ext m m' a n :
  (forall x, a <= x < a + Z.of_nat n -> m x = m' x) -> bytes_at m a n = bytes_at m' a n.
Proof.
  revert a. induction n; intros a H; simpl; auto.
  f_equal; [apply H; lia|]. apply IHn. intros; apply H; lia.
Qed.

Lemma bytes_at_ok m a n : mem_ok m -> Forall is_byte (bytes_at m a n).
Proof. intros H. revert a. induction n; intros; simpl; constructor; auto. apply H. Qed.

Lemma bytes_at_lookup m a n i :
  (i < n)%nat -> bytes_at m a n !! i = Some (m (a + Z.of_nat i)).
Proof.
  revert a i. induction n; intros a i H; [lia|]. destruct i; simpl.
  - by rewrite Z.add_0_r.
  - rewrite IHn by lia. do 2 f_equal. lia.
Qed.

Lemma bytes_at_take m a n k : (k <= n)%nat -> take k (bytes_at m a n) = bytes_at m a k.
Proof.
  intros. replace n with (k + (n - k))%nat by lia. rewrite bytes_at_app.
  by rewrite take_app_length' by (symmetry; apply length_bytes_at).
Qed.

Lemma bytes_at_drop m a n k :
  (k <= n)%nat -> drop k (bytes_at m a n) = bytes_at m (a + Z.of_nat k) (n - k).
Proof.
  intros. replace n with (k + (n - k))%nat at 1 by lia. rewrite bytes_at_app.
  by rewrite drop_app_length' by (symmetry; apply length_bytes_at).
Qed.

Lemma write_bytes_out m a bs x :
  x < a \/ a + Z.of_nat (length bs) <= x -> write_bytes m a bs x = m x.
Proof.
  revert m a. induction bs; intros m a' H; simpl in *; auto.
  rewrite IHbs by lia. apply upd_ne. lia.
Qed.

Lemma bytes_at_write_eq m a bs :
  bytes_at (write_bytes m a bs) a (length bs) = bs.
Proof.
  revert m a. induction bs; intros m a'; simpl; auto. f_equal; [|apply IHbs].
  rewrite write_bytes_out by lia. apply upd_eq.
Qed.

Lemma bytes_at_write_out m a bs b n :
  b + Z.of_nat n <= a \/ a + Z.of_nat (length bs) <= b ->
  bytes_at (write_bytes m a bs) b n = bytes_at m b n.
Proof. intros. apply bytes_at_ext. intros. apply write_bytes_out. lia. Qed.

Lemma write_bytes_app m a bs bs' :
  write_bytes m a (bs ++ bs') = write_bytes (write_bytes m a bs) (a + Z.of_nat (length bs)) bs'.
Proof.
  revert m a. induction bs; intros; simpl; [by rewrite Z.add_0_r|].
  rewrite IHbs. f_equal. lia.
Qed.

Lemma write_bytes_ok m a bs : mem_ok m -> Forall is_byte bs -> mem_ok (write_bytes m a bs).
Proof.
  revert m a. induction bs; intros m a' Hm Hb; simpl; auto. inversion Hb; subst.
  apply IHbs; auto. intros x. unfold upd. destruct (x =? a'); auto.
Qed.

#[export] Hint Rewrite length_bytes_at : lwip.
#[export] Hint Resolve bytes_at_ok write_bytes_ok : lwip.

(** [existsb] as a quantifier. *)
Lemma existsb_elem {A} (f : A -> bool) (l : list A) : existsb f l = true <-> exists x, x ∈ l /\ f x = true.
Proof.
  rewrite existsb_exists. split; intros (x & Hx & Hf); exists x; (split; [|done]); by apply list_elem_of_In.
Qed.

(** [List.find] is the first element. *)
Lemma find_first {A} (f : A -> bool) (P : A -> Prop) (l : list A) :
  (forall x, f x = true <-> P x) ->
  match List.find f l with
  | Some x => exists l1 l2, l = l1 ++ x :: l2 /\ P x /\ Forall (fun y => ~ P y) l1
  | None => Forall (fun y => ~ P y) l
  end.
Proof.
  intros Hf. induction l as [|x l IH]; simpl; [constructor|]. destruct (f x) eqn:E.
  - exists [], l. split; [done|]. split; [by apply Hf|constructor].
  - assert (~ P x) by (intros H%Hf; congruence). destruct (List.find f l) as [y|]; [|by constructor].
    destruct IH as (l1 & l2 & -> & Hy & Hl). exists (x :: l1), l2. split; [done|]. split; [done|by constructor].
Qed.

Lemma Forall2_impl_l {A B} (P Q : A -> B -> Prop) l k :
  (forall x y, x ∈ l -> P x y -> Q x y) -> Forall2 P l k -> Forall2 Q l k.
Proof.
  intros H HF. induction HF as [|x y l k Hxy HF IH]; constructor; [apply H; [left|done]|].
  apply IH. intros x' y' Hx'. apply H. by right.
Qed.

(** ** Little-endian words

    The Cortex-M7 of the board is little endian: a [u16_t] or [u32_t] load. *)

Definition ld16 (m : memory) (a : Z) : Z := m a + 256 * m (a + 1).
Definition ld32 (m : memory) (a : Z) : Z :=
  m a + 256 * m (a + 1) + 65536 * m (a + 2) + 16777216 * m (a + 3).

Lemma ld16_range m a : mem_ok m -> 0 <= ld16 m a < 65536.
Proof. intros H. unfold ld16. pose proof (H a). pose proof (H (a + 1)). lia. Qed.
Lemma ld32_range m a : mem_ok m -> 0 <= ld32 m a < 4294967296.
Proof.
  intros H. unfold ld32.
  pose proof (H a). pose proof (H (a + 1)). pose proof (H (a + 2)). pose proof (H (a + 3)). lia.
Qed.

(** ** Alignment ([lwip/arch.h], [MEM_ALIGNMENT] = 4 in [lwipopts.h]) *)

Definition MEM_ALIGNMENT : Z := 4.

(** [LWIP_MEM_ALIGN_SIZE]: an [unsigned int] expression. *)
Definition LWIP_MEM_ALIGN_SIZE (size : Z) : Z :=
  Z.land (u32 (size + MEM_ALIGNMENT - 1)) (u32 (Z.lnot (MEM_ALIGNMENT - 1))).

Definition LWIP_MEM_ALIGN (addr : Z) : Z :=
  Z.land (u32 (addr + MEM_ALIGNMENT - 1)) (u32 (Z.lnot (MEM_ALIGNMENT - 1))).

Lemma land_align z : 0 <= z < 4294967296 -> Z.land z 4294967292 = z - z mod 4.
Proof.
  intros Hz. replace 4294967292 with (Z.shiftl (Z.ones 30) 2) by reflexivity.
  replace (z - z mod 4) with (Z.shiftl (Z.shiftr z 2) 2).
  2:{ rewrite Z.shiftl_mul_pow2, Z.shiftr_div_pow2 by lia. change (2 ^ 2) with 4. dm. }
  apply Z.bits_inj'. intros n Hn. rewrite Z.land_spec, !Z.shiftl_spec by lia.
  destruct (Z.ltb_spec n 2).
  - rewrite !(Z.testbit_neg_r _ (n - 2)) by lia. apply andb_false_r.
  - rewrite Z.shiftr_spec by lia. replace (n - 2 + 2) with n by lia.
    rewrite Z.testbit_ones_nonneg by lia.
    destruct (Z.ltb_spec (n - 2) 30); [apply andb_true_r|].
    rewrite <- (Z.mod_small z (2 ^ 32)) by lia.
    rewrite Z.mod_pow2_bits_high by lia. reflexivity.
Qed.

Lemma LWIP_MEM_ALIGN_SIZE_eq z :
  0 <= z < 4294967293 -> LWIP_MEM_ALIGN_SIZE z = z + 3 - (z + 3) mod 4.
Proof.
  intros. unfold LWIP_MEM_ALIGN_SIZE, MEM_ALIGNMENT. replace (z + 4 - 1) with (z + 3) by lia.
  rewrite u32_small by lia. change (u32 (Z.lnot (4 - 1))) with 4294967292.
  apply land_align. lia.
Qed.

Lemma LWIP_MEM_ALIGN_eq z :
  0 <= z < 4294967293 -> LWIP_MEM_ALIGN z = z + 3 - (z + 3) mod 4.
Proof. apply LWIP_MEM_ALIGN_SIZE_eq. Qed.

(** ** Loops of the C code

    [loop fuel step s] iterates [step]; [inl] continues with the next state and
    [inr] leaves the loop with its result.  [None] is running out of fuel, and
    every theorem about a loop proves that it does not happen. *)

Fixpoint loop {S R : Type} (fuel : nat) (step : S -> S + R) (s : S) : option R :=
  match fuel with
  | O => None
  | S fuel => match step s with inl s' => loop fuel step s' | inr r => Some r end
  end.

(** A loop whose variant decreases ends with its invariant's conclusion. *)
Lemma loop_total {S R} (step : S -> S + R) (Inv : S -> Prop) (Post : R -> Prop)
    (variant : S -> nat) :
  (forall s s', Inv s -> step s = inl s' -> Inv s' /\ (variant s' < variant s)%nat) ->
  (forall s r, Inv s -> step s = inr r -> Post r) ->
  forall fuel s, Inv s -> (variant s < fuel)%nat ->
  exists r, loop fuel step s = Some r /\ Post r.
Proof.
  intros Hstep Hend. induction fuel; intros s Hs Hv; [lia|]. simpl.
  destruct (step s) eqn:E.
  - destruct (Hstep _ _ Hs E). apply IHfuel; auto. lia.
  - eauto.
Qed.

(** What the rounds of a loop preserve. *)
Lemma loop_keeps {S R} (step : S -> S + R) (Inv : S -> Prop) (Post : R -> Prop) fuel s r :
  (forall s, Inv s -> match step s with inl s' => Inv s' | inr r => Post r end) ->
  loop fuel step s = Some r -> Inv s -> Post r.
Proof.
  intros Hs. revert s. induction fuel; intros s H Hi; [discriminate|]. simpl in H. specialize (Hs s Hi).
  destruct (step s); [by apply (IHfuel s0)|]. by injection H as <-.
Qed.

(** More fuel does not change a result. *)
Lemma loop_mono {S R} (step : S -> S + R) f f' s r :
  loop f step s = Some r -> (f <= f')%nat -> loop f' step s = Some r.
Proof.
  revert f' s. induction f; intros f' s H Hf; [discriminate|].
  destruct f'; [lia|]. simpl in *. destruct (step s); auto. apply IHf; auto. lia.
Qed.

(** ** Bit fields as arithmetic *)

Lemma land_ones_mod x n : 0 <= n -> Z.land x (Z.ones n) = x mod 2 ^ n.
Proof. apply Z.land_ones. Qed.

Lemma lor_shiftl_add a b n : 0 <= n -> 0 <= b < 2 ^ n -> Z.lor (Z.shiftl a n) b = a * 2 ^ n + b.
Proof.
  intros Hn Hb. rewrite <- Z.shiftl_mul_pow2 by lia.
  rewrite <- Z.lxor_lor; [symmetry; apply Z.add_nocarry_lxor|];
    apply Z.bits_inj'; intros i Hi; rewrite Z.land_spec, Z.bits_0, Z.shiftl_spec by lia;
    (destruct (Z.ltb_spec i n);
      [by rewrite (Z.testbit_neg_r a) by lia|]);
    rewrite <- (Z.mod_small b (2 ^ n)) by lia; rewrite Z.mod_pow2_bits_high by lia;
    apply andb_false_r.
Qed.

Lemma lor_mul_add a b n : 0 <= n -> 0 <= b < 2 ^ n -> Z.lor (a * 2 ^ n) b = a * 2 ^ n + b.
Proof. intros. rewrite <- Z.shiftl_mul_pow2 by lia. rewrite lor_shiftl_add by lia.
  by rewrite Z.shiftl_mul_pow2 by lia. Qed.

(** The field of [w] bits at position [n], the form the masks of the code take. *)
Lemma land_field x n w :
  0 <= n -> 0 <= w -> Z.land x (Z.shiftl (Z.ones w) n) = (x / 2 ^ n) mod 2 ^ w * 2 ^ n.
Proof.
  intros. rewrite <- Z.shiftr_div_pow2, <- Z.land_ones, <- Z.shiftl_mul_pow2 by lia.
  rewrite Z.shiftl_land. apply Z.bits_inj'. intros i Hi. rewrite !Z.land_spec.
  destruct (Z.ltb_spec i n).
  - rewrite !(Z.shiftl_spec _ n) by lia. rewrite !(Z.testbit_neg_r _ (i - n)) by lia.
    by rewrite !andb_false_r.
  - rewrite !(Z.shiftl_spec _ n), Z.shiftr_spec by lia. do 2 f_equal. lia.
Qed.

(** A result that was computed. *)
Definition returns {A} (o : option A) : bool := match o with Some _ => true | None => false end.
Lemma returned {A} (o : option A) : returns o = true -> exists x, o = Some x.
Proof. destruct o; [eauto|done]. Qed.
