(* ===== verification/Def.v ===== *)
(** * [core/def.c]: byte order and the string helpers

    C strings live in the byte memory of [Prelude]; [cstr m p s] says that [p]
    points to the NUL-terminated string [s]. *)

From Stdlib Require Import ZArith Lia Ascii String.
From stdpp Require Import base tactics numbers list.
From S2P Require Import Prelude.

(** ** Byte order (the target is little endian) *)

(** [PP_HTONS] of [lwip/def.h], an [unsigned long] expression. *)
Definition PP_HTONS (x : Z) : Z :=
  Z.lor (Z.shiftl (Z.land x 0xff) 8) (Z.shiftr (Z.land x 0xff00) 8).

Definition PP_HTONL (x : Z) : Z :=
  Z.lor (Z.lor (Z.lor (Z.shiftl (Z.land x 0xff) 24) (Z.shiftl (Z.land x 0xff00) 8))
    (Z.shiftr (Z.land x 0xff0000) 8)) (Z.shiftr (Z.land x 0xff000000) 24).

Definition lwip_htons (n : Z) : Z := u16 (PP_HTONS n).
Definition lwip_htonl (n : Z) : Z := u32 (PP_HTONL n).

(** ** C strings *)

Definition cstr (m : memory) (p : Z) (s : list Z) : Prop :=
  bytes_at m p (List.length s) = s /\ m (p + Z.of_nat (List.length s)) = 0 /\
  Forall (fun c => c <> 0) s.

(** The C library's [strlen]. *)
Definition strlen (fuel : nat) (m : memory) (p : Z) : option Z :=
  loop fuel (fun q => if m q =? 0 then inr (q - p) else inl (q + 1)) p.

(** The C library's [strncmp]: the difference of the first two characters that
    differ among the first [n] ones, 0 when there are none before a NUL. *)
Fixpoint strncmp (m : memory) (p q : Z) (n : nat) : Z :=
  match n with
  | O => 0
  | S n => if negb (m p =? m q) then m p - m q
           else if m p =? 0 then 0 else strncmp m (p + 1) (q + 1) n
  end.

(** The tests of the loop and of its body, in the order of the C code.  The
    loop makes at most [n] iterations, since the token is not empty there. *)
Definition lwip_strnstr (fuel : nat) (m : memory) (buffer token n : Z) : option Z :=
  match strlen fuel m token with
  | None => None
  | Some tokenlen =>
      if tokenlen =? 0 then Some buffer
      else loop (S (Z.to_nat n)) (fun p =>
        if negb (m p =? 0) && (p + tokenlen <=? buffer + n) then
          if (m p =? m token) && (strncmp m p token (Z.to_nat tokenlen) =? 0)
          then inr p else inl (p + 1)
        else inr NULL) buffer
  end.

(** The body shared by [lwip_stricmp] and [lwip_strnicmp]: whether two
    characters differ for the comparison.  [char] is unsigned on ARM. *)
Definition icmp_differ (c1 c2 : Z) : bool :=
  if negb (c1 =? c2) then
    let c1_upc := u8 (Z.lor c1 0x20) in
    if (97 <=? c1_upc) && (c1_upc <=? 122) then
      let c2_upc := u8 (Z.lor c2 0x20) in
      negb (c1_upc =? c2_upc)
    else true
  else false.

Definition lwip_stricmp (fuel : nat) (m : memory) (str1 str2 : Z) : option Z :=
  loop fuel (fun '(str1, str2) =>
    let c1 := m str1 in
    let c2 := m str2 in
    if icmp_differ c1 c2 then inr 1
    else if negb (c1 =? 0) then inl (str1 + 1, str2 + 1) else inr 0) (str1, str2).

Definition lwip_strnicmp (fuel : nat) (m : memory) (str1 str2 len : Z) : option Z :=
  loop fuel (fun '(str1, str2, len) =>
    let c1 := m str1 in
    let c2 := m str2 in
    if icmp_differ c1 c2 then inr 1
    else (* while (len-- && c1 != 0) *)
      if negb (len =? 0) && negb (c1 =? 0)
      then inl (str1 + 1, str2 + 1, len - 1) else inr 0) (str1, str2, len).

(** ** [lwip_itoa] *)

Definition itoa_table : list Z :=
  List.map (fun c => Z.of_nat (nat_of_ascii c))
    (list_ascii_of_string
       "zyxwvutsrqponmlkjihgfedcba9876543210123456789abcdefghijklmnopqrstuvwxyz").

Definition itoa_digit (d : Z) : Z := nth (Z.to_nat (35 + d)) itoa_table 0.

(** The do-while that stores the digits, least significant first. *)
Definition itoa_digits (fuel : nat) (m : memory) (ptr number : Z) : option (memory * Z * Z) :=
  loop fuel (fun '(m, ptr, number) =>
    let tmp_value := number in
    let number := Z.quot number 10 in
    let m := upd m ptr (itoa_digit (tmp_value - number * 10)) in
    if number =? 0 then inr (m, ptr + 1, tmp_value) else inl (m, ptr + 1, number))
    (m, ptr, number).

(** The loop that reverses the characters between [ptr1] and [ptr] in place. *)
Definition itoa_reverse (fuel : nat) (m : memory) (ptr1 ptr : Z) : option memory :=
  loop fuel (fun '(m, ptr1, ptr) =>
    if ptr1 <? ptr then
      let tmp_char := m ptr in
      let m := upd m ptr (m ptr1) in
      let m := upd m ptr1 tmp_char in
      inl (m, ptr1 + 1, ptr - 1)
    else inr m) (m, ptr1, ptr).

(** An [int] has at most ten digits and a sign, so the loops make at most ten
    and six iterations; the fuel is more than that. *)
Definition lwip_itoa (m : memory) (result bufsize number : Z) : option memory :=
  match itoa_digits 11 m result number with
  | None => None
  | Some (m, ptr, tmp_value) =>
      let '(m, ptr) := if tmp_value <? 0 then (upd m ptr 45, ptr + 1) else (m, ptr) in
      let m := upd m ptr 0 in
      itoa_reverse 12 m result (ptr - 1)
  end.

(** ** Lemmas: byte order *)

Lemma lwip_htons_eq n : 0 <= n < 65536 -> lwip_htons n = n mod 256 * 256 + n / 256.
Proof.
  intros Hn. unfold lwip_htons, PP_HTONS.
  change 0xff with (Z.shiftl (Z.ones 8) 0). change 0xff00 with (Z.shiftl (Z.ones 8) 8).
  rewrite !land_field by lia.
  rewrite Z.shiftl_mul_pow2, Z.shiftr_div_pow2, Z.div_mul by lia.
  rewrite Z.pow_0_r, Z.mul_1_r, Z.div_1_r. change (2 ^ 8) with 256.
  rewrite (lor_mul_add _ _ 8) by (change (2 ^ 8) with 256; dm).
  change (2 ^ 8) with 256. rewrite u16_small; dm.
Qed.

Lemma lwip_htonl_eq n :
  0 <= n < 4294967296 ->
  lwip_htonl n = n mod 256 * 16777216 + (n / 256) mod 256 * 65536
                 + (n / 65536) mod 256 * 256 + n / 16777216.
Proof.
  intros Hn. unfold lwip_htonl, PP_HTONL.
  change 0xff with (Z.shiftl (Z.ones 8) 0). change 0xff00 with (Z.shiftl (Z.ones 8) 8).
  change 0xff0000 with (Z.shiftl (Z.ones 8) 16). change 0xff000000 with (Z.shiftl (Z.ones 8) 24).
  rewrite !land_field by lia.
  rewrite !Z.shiftl_mul_pow2, !Z.shiftr_div_pow2, Z.div_mul by lia.
  rewrite Z.pow_0_r, Z.mul_1_r, Z.div_1_r.
  change (2 ^ 24) with 16777216. change (2 ^ 16) with 65536. change (2 ^ 8) with 256.
  pose proof (Z.mod_pos_bound n 256). pose proof (Z.mod_pos_bound (n / 256) 256).
  pose proof (Z.mod_pos_bound (n / 65536) 256).
  replace ((n / 16777216) mod 256) with (n / 16777216) by (rewrite Z.mod_small; dm).
  replace ((n / 65536) mod 256 * 65536 / 256) with ((n / 65536) mod 256 * 256) by dm.
  assert (0 <= n / 16777216 < 256) by dm.
  rewrite (lor_mul_add _ _ 24) by lia. change (2 ^ 24) with 16777216.
  set (f0 := n mod 256) in *. set (f1 := (n / 256) mod 256) in *.
  set (f2 := (n / 65536) mod 256) in *. set (f3 := n / 16777216) in *.
  replace (f0 * 16777216 + f1 * 256 * 256) with ((f0 * 256 + f1) * 2 ^ 16) by lia.
  rewrite (lor_mul_add _ _ 16) by lia.
  replace ((f0 * 256 + f1) * 2 ^ 16 + f2 * 256) with (((f0 * 256 + f1) * 256 + f2) * 2 ^ 8) by lia.
  rewrite (lor_mul_add _ _ 8) by lia. rewrite u32_small; lia.
Qed.

Lemma lwip_htons_range n : 0 <= lwip_htons n < 65536.
Proof. apply u16_range. Qed.
Lemma lwip_htonl_range n : 0 <= lwip_htonl n < 4294967296.
Proof. apply u32_range. Qed.

Lemma lwip_htons_inv n : 0 <= n < 65536 -> lwip_htons (lwip_htons n) = n.
Proof.
  intros. rewrite (lwip_htons_eq (lwip_htons n)) by apply lwip_htons_range.
  rewrite lwip_htons_eq by lia. dm.
Qed.

Lemma lwip_htonl_inv n : 0 <= n < 4294967296 -> lwip_htonl (lwip_htonl n) = n.
Proof.
  intros. rewrite (lwip_htonl_eq (lwip_htonl n)) by apply lwip_htonl_range.
  rewrite lwip_htonl_eq by lia.
  assert (n = n mod 256 + (n / 256) mod 256 * 256 + (n / 65536) mod 256 * 65536
              + n / 16777216 * 16777216) by dm.
  assert (0 <= n / 16777216 < 256) by dm.
  pose proof (Z.mod_pos_bound n 256). pose proof (Z.mod_pos_bound (n / 256) 256).
  pose proof (Z.mod_pos_bound (n / 65536) 256).
  set (f0 := n mod 256) in *. set (f1 := (n / 256) mod 256) in *.
  set (f2 := (n / 65536) mod 256) in *. set (f3 := n / 16777216) in *. clearbody f0 f1 f2 f3.
  dm.
Qed.

(** The value in memory: storing [lwip_htonl n] little endian stores the bytes
    of [n] most significant first. *)
Lemma lwip_htonl_bytes a b c d :
  is_byte a -> is_byte b -> is_byte c -> is_byte d ->
  lwip_htonl (a * 16777216 + b * 65536 + c * 256 + d)
  = d * 16777216 + c * 65536 + b * 256 + a.
Proof.
  unfold is_byte. intros. rewrite lwip_htonl_eq by lia. dm.
Qed.

#[export] Hint Resolve lwip_htons_range lwip_htonl_range : lwip.

(** ** Lemmas: strings *)

Lemma cstr_nil m p : cstr m p [] -> m p = 0.
Proof. intros (_ & H & _). by rewrite Z.add_0_r in H. Qed.

Lemma cstr_cons m p c s : cstr m p (c :: s) -> m p = c /\ c <> 0 /\ cstr m (p + 1) s.
Proof.
  intros (H1 & H2 & H3). simpl in *. injection H1 as Hc Hs. inversion H3; subst.
  repeat split; auto. rewrite <- H2. f_equal. lia.
Qed.

(** [strlen] counts the characters before the NUL. *)
Lemma strlen_loop m p s q fuel :
  cstr m q s -> (List.length s < fuel)%nat ->
  loop fuel (fun q => if m q =? 0 then inr (q - p) else inl (q + 1)) q
  = Some (q + Z.of_nat (List.length s) - p).
Proof.
  revert q fuel. induction s; intros q fuel Hs Hf; (destruct fuel; [simpl in *; lia|]); simpl.
  - rewrite (cstr_nil _ _ Hs). simpl. f_equal. lia.
  - apply cstr_cons in Hs as (-> & Hc & Hs). destruct (Z.eqb_spec a 0); [lia|].
    simpl in Hf. rewrite IHs by (auto || lia). f_equal. lia.
Qed.

Lemma strlen_eq m p s fuel :
  cstr m p s -> (List.length s < fuel)%nat -> strlen fuel m p = Some (Z.of_nat (List.length s)).
Proof. intros. unfold strlen. rewrite (strlen_loop _ _ s) by auto. f_equal. lia. Qed.

Lemma strncmp_prefix m p q s t :
  cstr m p s -> cstr m q t -> strncmp m p q (List.length t) = 0 <-> t `prefix_of` s.
Proof.
  revert p q s. induction t; intros p q s Hs Ht; simpl.
  - split; [intros; apply prefix_nil|auto].
  - apply cstr_cons in Ht as (-> & Ha & Ht). destruct s as [|c s].
    + rewrite (cstr_nil _ _ Hs). destruct (Z.eqb_spec 0 a); simpl; [lia|].
      split; [lia|]. intros Hp. by apply prefix_nil_not in Hp.
    + apply cstr_cons in Hs as (-> & Hc & Hs). destruct (Z.eqb_spec c a); simpl.
      * subst. destruct (Z.eqb_spec a 0); [lia|]. rewrite (IHt _ _ s) by auto.
        split; [intros; by apply prefix_cons|apply prefix_cons_inv_2].
      * split; [lia|]. intros Hp. apply prefix_cons_inv_1 in Hp. congruence.
Qed.

(** The search loop of [lwip_strnstr] from a suffix [s] of the buffer, [k] bytes
    of the window being left. *)
Lemma strnstr_loop m token t lim fuel p s :
  cstr m token t -> cstr m p s -> t <> [] -> (Z.to_nat (lim - p) < fuel)%nat ->
  let r := loop fuel (fun p =>
        if negb (m p =? 0) && (p + Z.of_nat (List.length t) <=? lim) then
          if (m p =? m token) && (strncmp m p token (Z.to_nat (Z.of_nat (List.length t))) =? 0)
          then inr p else inl (p + 1)
        else inr NULL) p in
  (exists i, r = Some (p + Z.of_nat i) /\ p + Z.of_nat i + Z.of_nat (List.length t) <= lim /\
     t `prefix_of` drop i s /\ forall j, (j < i)%nat -> ~ t `prefix_of` drop j s) \/
  (r = Some NULL /\
     forall j, p + Z.of_nat j + Z.of_nat (List.length t) <= lim -> ~ t `prefix_of` drop j s).
Proof.
  intros Ht Hs Hne. revert p s Hs.
  induction fuel as [|fuel IH]; intros p s Hs Hf; [lia|]; cbn [loop].
  rewrite Nat2Z.id. destruct s as [|c s].
  { rewrite (cstr_nil _ _ Hs). right. simpl. split; [done|]. intros j _ Hp.
    rewrite drop_nil in Hp. destruct t; [done|]. by apply prefix_nil_not in Hp. }
  pose proof (strncmp_prefix m p token (c :: s) t Hs Ht) as Hcmp.
  assert (Htok : m token = hd 0 t).
  { destruct t; [done|]. by apply cstr_cons in Ht as (-> & _). }
  pose proof (cstr_cons _ _ _ _ Hs) as (Hmp & Hc & Hs').
  rewrite Hmp, Htok. destruct (Z.eqb_spec c 0); [lia|]. simpl.
  destruct (Z.leb_spec (p + Z.of_nat (List.length t)) lim) as [Hl|Hl]; simpl.
  2:{ right. split; [done|]. intros j Hj. lia. }
  assert (Hdec : (c =? hd 0 t) && (strncmp m p token (List.length t) =? 0) = true
                 <-> t `prefix_of` c :: s).
  { rewrite andb_true_iff, !Z.eqb_eq, Hcmp. split; [by intros []|]. intros Hp. split; [|done].
    destruct t; [done|]. apply prefix_cons_inv_1 in Hp. by subst. }
  destruct ((c =? hd 0 t) && (strncmp m p token (List.length t) =? 0)).
  { left. exists 0%nat. rewrite Z.add_0_r. split; [done|]. split; [lia|].
    split; [by apply Hdec|]. intros j Hj. lia. }
  assert (Hno : ~ t `prefix_of` c :: s) by (intros H; apply Hdec in H; discriminate).
  assert (Hlen : t <> [] -> (1 <= List.length t)%nat) by (destruct t; simpl; [done|lia]).
  specialize (Hlen Hne).
  specialize (IH (p + 1) s Hs' ltac:(lia)) as [(i & Hr & Hi & Hp & Hmin)|(Hr & Hno')];
    rewrite Nat2Z.id, ?Htok in Hr.
  - left. exists (S i). rewrite Hr. split; [f_equal; lia|]. split; [lia|]. split; [done|].
    intros [|j] Hj; [done|]. apply Hmin. lia.
  - right. rewrite Hr. split; [done|]. intros [|j] Hj; [done|]. apply Hno'. lia.
Qed.

(** Case folding of ASCII letters, the relation the comparisons decide. *)
Definition lower (c : Z) : Z := if (65 <=? c) && (c <=? 90) then c + 32 else c.
#[local] Arguments lower : simpl never.
#[local] Arguments Z.eqb : simpl never.

Definition all_bytes : list Z := List.map Z.of_nat (seq 0 256).

Lemma all_bytes_In c : is_byte c -> In c all_bytes.
Proof.
  intros H. unfold is_byte in H. apply in_map_iff. exists (Z.to_nat c).
  split; [lia|]. apply in_seq. lia.
Qed.

(** Properties of bytes that are decided by running them on all of them. *)
Lemma byte_check (f : Z -> bool) :
  forallb f all_bytes = true -> forall a, is_byte a -> f a = true.
Proof. intros H a Ha. rewrite forallb_forall in H. apply H. by apply all_bytes_In. Qed.

Lemma byte_pairs_check (f : Z -> Z -> bool) :
  forallb (fun a => forallb (f a) all_bytes) all_bytes = true ->
  forall a b, is_byte a -> is_byte b -> f a b = true.
Proof.
  intros H a b Ha Hb. rewrite forallb_forall in H.
  specialize (H a (all_bytes_In a Ha)). rewrite forallb_forall in H.
  apply H. by apply all_bytes_In.
Qed.

Lemma icmp_differ_lower c1 c2 :
  is_byte c1 -> is_byte c2 -> icmp_differ c1 c2 = negb (lower c1 =? lower c2).
Proof.
  intros H1 H2. apply eqb_prop.
  apply (byte_pairs_check (fun a b => eqb (icmp_differ a b) (negb (lower a =? lower b))));
    [vm_compute; reflexivity|auto..].
Qed.

Lemma lower_0 c : is_byte c -> lower c = 0 -> c = 0.
Proof. unfold lower, is_byte. intros ? H. zbs. Qed.

(** One step of a comparison loop on two strings (NUL included). *)
Lemma cstr_step m p q s t :
  mem_ok m -> cstr m p s -> cstr m q t ->
  icmp_differ (m p) (m q) = negb (lower (hd 0 s) =? lower (hd 0 t)) /\ m p = hd 0 s.
Proof.
  intros Hm Hs Ht. rewrite icmp_differ_lower by apply Hm.
  assert (Hp : m p = hd 0 s).
  { destruct s; [by apply cstr_nil|]. by apply cstr_cons in Hs as (-> & _). }
  assert (Hq : m q = hd 0 t).
  { destruct t; [by apply cstr_nil|]. by apply cstr_cons in Ht as (-> & _). }
  by rewrite Hp, Hq.
Qed.

Lemma cstr_bytes m p s : mem_ok m -> cstr m p s -> Forall is_byte s.
Proof. intros Hm (<- & _). by apply bytes_at_ok. Qed.

(** [lwip_strnicmp] looks at the first [len + 1] characters of the strings, the
    terminating NUL counting as one. *)
Lemma strnicmp_loop m s t p q len fuel :
  mem_ok m -> cstr m p s -> cstr m q t -> (List.length s < fuel)%nat ->
  lwip_strnicmp fuel m p q (Z.of_nat len)
  = Some (if decide (lower <$> take (S len) (s ++ [0]) = lower <$> take (S len) (t ++ [0]))
          then 0 else 1).
Proof.
  intros Hm. unfold lwip_strnicmp. revert t p q len fuel.
  induction s as [|c s IH]; intros t p q len fuel Hs Ht Hf;
    (destruct fuel as [|fuel]; [simpl in Hf; lia|]); cbn [loop];
    pose proof (cstr_step m p q _ t Hm Hs Ht) as [-> ->].
  - simpl. destruct t as [|d t]; simpl.
    + rewrite andb_false_r. by rewrite decide_True by done.
    + pose proof (cstr_bytes _ _ _ Hm Ht) as Hb. inversion Hb; subst.
      apply cstr_cons in Ht as (_ & Hd & _).
      destruct (Z.eqb_spec (lower 0) (lower d)) as [E|E]; cbn [negb].
      * exfalso. apply Hd. apply lower_0; auto.
      * rewrite decide_False; [done|]. intros [= ? _]. by apply E.
  - simpl. pose proof (cstr_bytes _ _ _ Hm Hs) as Hb. inversion Hb; subst.
    pose proof (cstr_cons _ _ _ _ Hs) as (_ & Hc & Hs'). destruct t as [|d t]; simpl.
    + destruct (Z.eqb_spec (lower c) (lower 0)) as [E|E]; simpl.
      * exfalso. apply Hc. apply lower_0; auto.
      * rewrite decide_False; [done|]. intros [= ? _]. by apply E.
    + destruct (Z.eqb_spec (lower c) (lower d)) as [E|E]; simpl.
      2:{ rewrite decide_False; [done|]. intros [= ? _]. by apply E. }
      apply cstr_cons in Ht as (_ & _ & Ht). destruct (Z.eqb_spec c 0); [lia|].
      destruct len as [|len]; simpl.
      * by rewrite decide_True by (simpl; by rewrite E).
      * replace (Z.of_nat (S len) - 1) with (Z.of_nat len) by lia.
        destruct (Z.eqb_spec (Z.of_nat (S len)) 0); [lia|]. simpl in *.
        rewrite (IH t) by (auto || lia). f_equal. rewrite E. apply decide_ext.
        split; [intros D; f_equal; exact D|intros [= D]; exact D].
Qed.

Lemma stricmp_loop m s t p q fuel :
  mem_ok m -> cstr m p s -> cstr m q t -> (List.length s < fuel)%nat ->
  lwip_stricmp fuel m p q = Some (if decide (lower <$> s = lower <$> t) then 0 else 1).
Proof.
  intros Hm. unfold lwip_stricmp. revert t p q fuel.
  induction s as [|c s IH]; intros t p q fuel Hs Ht Hf;
    (destruct fuel as [|fuel]; [simpl in Hf; lia|]); cbn [loop];
    pose proof (cstr_step m p q _ t Hm Hs Ht) as [-> ->].
  - destruct t as [|d t]; simpl; [done|].
    pose proof (cstr_bytes _ _ _ Hm Ht) as Hb. inversion Hb; subst.
    apply cstr_cons in Ht as (_ & Hd & _).
    destruct (Z.eqb_spec (lower 0) (lower d)) as [E|E]; simpl; [|done].
    exfalso. apply Hd. apply lower_0; auto.
  - pose proof (cstr_bytes _ _ _ Hm Hs) as Hb. inversion Hb; subst.
    pose proof (cstr_cons _ _ _ _ Hs) as (_ & Hc & Hs'). destruct t as [|d t]; simpl.
    + destruct (Z.eqb_spec (lower c) (lower 0)) as [E|E]; simpl; [|done].
      exfalso. apply Hc. apply lower_0; auto.
    + destruct (Z.eqb_spec (lower c) (lower d)) as [E|E]; simpl.
      2:{ rewrite decide_False; [done|]. intros [= ? _]. by apply E. }
      apply cstr_cons in Ht as (_ & _ & Ht). destruct (Z.eqb_spec c 0); [lia|]. simpl in *.
      rewrite (IH t) by (auto || lia). f_equal. rewrite E. apply decide_ext.
      split; [intros D; f_equal; exact D|intros [= D]; exact D].
Qed.

(** ** Lemmas: [lwip_itoa] *)

(** The value of decimal digits, least significant first (as they are stored)
    and most significant first (as they are read). *)
Definition lsd_val (ds : list Z) : Z := foldr (fun c acc => (c - 48) + 10 * acc) 0 ds.
Definition msd_val (ds : list Z) : Z := fold_left (fun acc c => 10 * acc + (c - 48)) ds 0.

Definition dec_value (s : list Z) : Z :=
  match s with
  | [] => 0
  | c :: ds => if c =? 45 then - msd_val ds else msd_val s
  end.

Definition is_digit (c : Z) : Prop := 48 <= c <= 57.

Lemma msd_val_rev ds : msd_val (rev ds) = lsd_val ds.
Proof.
  unfold msd_val, lsd_val. rewrite <- fold_left_rev_right, rev_involutive.
  induction ds; simpl; auto. rewrite IHds. lia.
Qed.

Lemma itoa_digit_eq d : -9 <= d <= 9 -> itoa_digit d = 48 + Z.abs d.
Proof.
  intros H.
  assert (In (d + 9) (List.map Z.of_nat (seq 0 19))) as Hin.
  { apply in_map_iff. exists (Z.to_nat (d + 9)). split; [lia|]. apply in_seq. lia. }
  assert (Hall : forallb (fun e => itoa_digit (e - 9) =? 48 + Z.abs (e - 9))
                   (List.map Z.of_nat (seq 0 19)) = true) by (vm_compute; reflexivity).
  rewrite forallb_forall in Hall. specialize (Hall _ Hin). apply Z.eqb_eq in Hall.
  by replace (d + 9 - 9) with d in Hall by lia.
Qed.

Lemma quot10 n :
  let q := Z.quot n 10 in
  -9 <= n - q * 10 <= 9 /\ Z.abs n = Z.abs (n - q * 10) + 10 * Z.abs q /\
  (0 <= n -> 0 <= q) /\ (n <= 0 -> q <= 0).
Proof.
  simpl. pose proof (Z.quot_rem n 10 ltac:(lia)).
  pose proof (Z.rem_bound_abs n 10 ltac:(lia)).
  assert (0 <= n -> 0 <= Z.rem n 10) by (intros; apply Z.rem_nonneg; lia).
  assert (n <= 0 -> Z.rem n 10 <= 0) by (intros; apply Z.rem_nonpos; lia).
  assert (0 <= n -> 0 <= Z.quot n 10) by (intros; apply Z.quot_pos; lia).
  assert (n <= 0 -> Z.quot n 10 <= 0).
  { intros. rewrite <- (Z.opp_involutive n), Z.quot_opp_l by lia.
    pose proof (Z.quot_pos (- n) 10). lia. }
  lia.
Qed.

Lemma itoa_digits_eq fuel m ptr number :
  Z.abs number < 10 ^ Z.of_nat fuel -> (0 < fuel)%nat ->
  exists ds tmp,
    itoa_digits fuel m ptr number
    = Some (write_bytes m ptr ds, ptr + Z.of_nat (List.length ds), tmp) /\
    lsd_val ds = Z.abs number /\ Forall is_digit ds /\
    (1 <= List.length ds <= fuel)%nat /\ (tmp < 0 <-> number < 0) /\
    (number <> 0 -> List.last ds 0 <> 48).
Proof.
  unfold itoa_digits. revert m ptr number.
  induction fuel as [|fuel IH]; intros m ptr number Hn Hf; [lia|]. cbn [loop].
  destruct (quot10 number) as (Hd & Habs & Hpos & Hneg).
  set (q := Z.quot number 10) in *. set (d := number - q * 10) in *.
  destruct (Z.eqb_spec q 0) as [Hq|Hq].
  - exists [itoa_digit d], number. rewrite itoa_digit_eq by lia. simpl.
    split; [by rewrite ?Z.add_0_r|]. unfold lsd_val; simpl.
    repeat split; try lia; repeat constructor; unfold is_digit; lia.
  - destruct fuel as [|fuel'] eqn:Ef.
    { change (10 ^ Z.of_nat 1) with 10 in Hn. lia. }
    rewrite <- Ef in *.
    replace (Z.of_nat (S fuel)) with (Z.of_nat fuel + 1) in Hn by lia.
    rewrite Z.pow_add_r in Hn by lia.
    destruct (IH (upd m ptr (itoa_digit d)) (ptr + 1) q) as
        (ds & tmp & Hr & Hv & Hdig & Hlen & Hsgn & Hlast); [lia..|].
    exists (itoa_digit d :: ds), tmp. rewrite Hr. simpl. rewrite itoa_digit_eq in * by lia.
    split; [do 2 f_equal; f_equal; lia|].
    split; [unfold lsd_val in *; simpl; rewrite Hv; lia|].
    split; [constructor; [unfold is_digit; lia|done]|].
    split; [lia|]. split; [lia|]. intros _.
    destruct ds; [simpl in Hlen; lia|]. apply Hlast. lia.
Qed.

Lemma itoa_reverse_eq fuel : forall l m a,
  bytes_at m a (List.length l) = l -> (List.length l < fuel)%nat ->
  exists m', itoa_reverse fuel m a (a + Z.of_nat (List.length l) - 1) = Some m' /\
    bytes_at m' a (List.length l) = rev l /\
    forall x, x < a \/ a + Z.of_nat (List.length l) <= x -> m' x = m x.
Proof.
  unfold itoa_reverse.
  induction fuel as [|fuel IH]; intros l m a Hl Hf; [lia|]. cbn [loop].
  destruct l as [|x l]; [|destruct l as [|y l _] using rev_ind].
  - destruct (Z.ltb_spec a (a + Z.of_nat (List.length (@nil Z)) - 1)); [simpl in *; lia|].
    eexists. split; [done|]. auto.
  - destruct (Z.ltb_spec a (a + Z.of_nat (List.length [x]) - 1)); [simpl in *; lia|].
    eexists. split; [done|]. auto.
  - set (b := a + Z.of_nat (List.length (x :: l ++ [y])) - 1).
    assert (Hb : b = a + 1 + Z.of_nat (List.length l)).
    { unfold b. simpl. rewrite length_app. simpl. lia. }
    destruct (Z.ltb_spec a b); [|lia].
    assert (Hsplit : m a = x /\ bytes_at m (a + 1) (List.length l) = l /\ m b = y).
    { simpl in Hl. injection Hl as Hx Hl. rewrite length_app, bytes_at_app in Hl. simpl in Hl.
      apply app_inj_2 in Hl as [Hl Hy]; [|done]. injection Hy as Hy.
      repeat split; auto. by rewrite Hb. }
    destruct Hsplit as (Hx & Hin & Hy).
    set (m2 := upd (upd m b (m a)) a (m b)).
    destruct (IH l m2 (a + 1)) as (m' & Hr & Hrev & Hout).
    + rewrite <- Hin at 2. apply bytes_at_ext. intros z Hz. unfold m2.
      rewrite !upd_ne by lia. done.
    + rewrite length_cons, length_app in Hf. simpl in Hf. lia.
    + replace (a + 1 + Z.of_nat (List.length l) - 1) with (b - 1) in Hr by lia.
      exists m'. split; [exact Hr|].
      simpl List.length. rewrite length_app. simpl List.length. simpl bytes_at.
      simpl rev. rewrite rev_app_distr. simpl. split.
      * rewrite bytes_at_app, Hrev. simpl. rewrite <- Hb, !Hout by lia. unfold m2.
        rewrite upd_eq, upd_ne, upd_eq by lia. by rewrite Hx, Hy.
      * intros z Hz. rewrite Hout by lia. unfold m2. rewrite !upd_ne by lia. done.
Qed.

Lemma dec_value_digits ds : Forall is_digit ds -> dec_value ds = msd_val ds.
Proof.
  intros H. destruct ds; [done|]. inversion H; subst. unfold dec_value, is_digit in *.
  destruct (Z.eqb_spec z 45); [lia|done].
Qed.

(** ** Theorems *)

(** The byte-order conversions are involutions on their types, so
    [lwip_ntohs] and [lwip_ntohl], which the headers define as the same
    functions, undo [lwip_htons] and [lwip_htonl]; and [lwip_htonl] reverses the
    four bytes of its argument. *)
Theorem byte_order_roundtrip (s l a b c d : Z)
    (Hs : 0 <= s < 65536) (Hl : 0 <= l < 4294967296)
    (Ha : is_byte a) (Hb : is_byte b) (Hc : is_byte c) (Hd : is_byte d) :
  lwip_htons (lwip_htons s) = s /\ lwip_htonl (lwip_htonl l) = l /\
  lwip_htonl (a * 16777216 + b * 65536 + c * 256 + d)
  = d * 16777216 + c * 65536 + b * 256 + a.
Proof. auto using lwip_htons_inv, lwip_htonl_inv, lwip_htonl_bytes. Qed.

Lemma byte_order_roundtrip_witness :
  lwip_htons (lwip_htons 0x1234) = 0x1234 /\ lwip_htonl (lwip_htonl 0xc0a80001) = 0xc0a80001 /\
  lwip_htonl (192 * 16777216 + 168 * 65536 + 0 * 256 + 1)
  = 1 * 16777216 + 0 * 65536 + 168 * 256 + 192.
Proof. apply (byte_order_roundtrip 0x1234 0xc0a80001 192 168 0 1); unfold is_byte; lia. Defined.

(** [lwip_strnstr] returns the first position of the buffer's string at
    which the (non-empty) token occurs and that keeps the token inside the first
    [n] bytes, and NULL when there is none; it always returns. *)
Theorem strnstr_first (m : memory) (buffer token n : Z) (s t : list Z) (fuel : nat)
    (Hs : cstr m buffer s) (Ht : cstr m token t) (Hne : t <> [])
    (Hf : (List.length t < fuel)%nat) :
  (exists i, lwip_strnstr fuel m buffer token n = Some (buffer + Z.of_nat i) /\
     Z.of_nat i + Z.of_nat (List.length t) <= n /\ t `prefix_of` drop i s /\
     forall j, (j < i)%nat -> ~ t `prefix_of` drop j s) \/
  (lwip_strnstr fuel m buffer token n = Some NULL /\
     forall j, Z.of_nat j + Z.of_nat (List.length t) <= n -> ~ t `prefix_of` drop j s).
Proof.
  unfold lwip_strnstr. rewrite (strlen_eq _ _ t) by auto.
  destruct (Z.eqb_spec (Z.of_nat (List.length t)) 0); [destruct t; simpl in *; [done|lia]|].
  destruct (strnstr_loop m token t (buffer + n) (S (Z.to_nat n)) buffer s)
    as [(i & Hr & Hi & Hp)|(Hr & Hno)]; auto; [lia|..]; rewrite Hr.
  - left. exists i. split; [done|]. split; [lia|done].
  - right. split; [done|]. intros j Hj. apply Hno. lia.
Qed.

Definition demo_strings : memory :=
  write_bytes (write_bytes (fun _ => 0) 100 [71; 69; 84; 32; 47]) 200 [84; 32].

Lemma strnstr_first_witness :
  cstr demo_strings 100 [71; 69; 84; 32; 47] /\ cstr demo_strings 200 [84; 32] /\
  ((exists i, lwip_strnstr 3 demo_strings 100 200 5 = Some (100 + Z.of_nat i) /\
     Z.of_nat i + Z.of_nat (List.length [84; 32]) <= 5 /\
     [84; 32] `prefix_of` drop i [71; 69; 84; 32; 47] /\
     forall j, (j < i)%nat -> ~ [84; 32] `prefix_of` drop j [71; 69; 84; 32; 47]) \/
  (lwip_strnstr 3 demo_strings 100 200 5 = Some NULL /\
     forall j, Z.of_nat j + Z.of_nat (List.length [84; 32]) <= 5 ->
       ~ [84; 32] `prefix_of` drop j [71; 69; 84; 32; 47])).
Proof.
  assert (H1 : cstr demo_strings 100 [71; 69; 84; 32; 47])
    by (repeat split; repeat constructor; discriminate).
  assert (H2 : cstr demo_strings 200 [84; 32])
    by (repeat split; repeat constructor; discriminate).
  split; [exact H1|split; [exact H2|]].
  apply (strnstr_first demo_strings 100 200 5 _ _ 3 H1 H2); [discriminate|simpl; lia].
Defined.

(** [lwip_stricmp] returns 0 exactly when the two strings are equal up to
    the case of ASCII letters, and 1 otherwise. *)
Theorem stricmp_decides_case_insensitive_equality
    (m : memory) (p q : Z) (s t : list Z) (fuel : nat)
    (Hm : mem_ok m) (Hs : cstr m p s) (Ht : cstr m q t) (Hf : (List.length s < fuel)%nat) :
  (lwip_stricmp fuel m p q = Some 0 <-> lower <$> s = lower <$> t) /\
  (lwip_stricmp fuel m p q = Some 1 <-> lower <$> s <> lower <$> t).
Proof.
  rewrite (stricmp_loop m s t) by auto. case_decide; split; split; congruence || done.
Qed.

Lemma demo_strings_ok : mem_ok demo_strings.
Proof.
  unfold demo_strings. repeat apply write_bytes_ok;
    [intros a; lia|repeat constructor; lia..].
Qed.

Lemma stricmp_witness :
  (lwip_stricmp 6 demo_strings 100 100 = Some 0
   <-> lower <$> [71; 69; 84; 32; 47] = lower <$> [71; 69; 84; 32; 47]) /\
  (lwip_stricmp 6 demo_strings 100 100 = Some 1
   <-> lower <$> [71; 69; 84; 32; 47] <> lower <$> [71; 69; 84; 32; 47]).
Proof.
  apply (stricmp_decides_case_insensitive_equality demo_strings 100 100
           [71; 69; 84; 32; 47] [71; 69; 84; 32; 47] 6);
    [apply demo_strings_ok|repeat split; repeat constructor; discriminate..|simpl; lia].
Defined.

(** [lwip_strnicmp] compares one character more than it is asked to: its
    result is decided by the first [len + 1] characters (the NUL included), not
    by the first [len] ones. *)
Theorem strnicmp_compares_len_plus_one
    (m : memory) (p q : Z) (s t : list Z) (len fuel : nat)
    (Hm : mem_ok m) (Hs : cstr m p s) (Ht : cstr m q t) (Hf : (List.length s < fuel)%nat) :
  lwip_strnicmp fuel m p q (Z.of_nat len) = Some 0
  <-> lower <$> take (len + 1) (s ++ [0]) = lower <$> take (len + 1) (t ++ [0]).
Proof.
  rewrite (strnicmp_loop m s t) by auto. replace (len + 1)%nat with (S len) by lia.
  case_decide; split; congruence || done.
Qed.

(** Two strings that agree on their first two characters and not on the third:
    a comparison of two characters says that they differ. *)
Lemma strnicmp_witness :
  take 2 [71; 69; 84] = take 2 [71; 69; 90] /\
  (lwip_strnicmp 4 (write_bytes (write_bytes (fun _ => 0) 100 [71; 69; 84]) 200 [71; 69; 90])
     100 200 (Z.of_nat 2) = Some 0
   <-> lower <$> take (2 + 1) ([71; 69; 84] ++ [0]) = lower <$> take (2 + 1) ([71; 69; 90] ++ [0])).
Proof.
  split; [reflexivity|].
  apply (strnicmp_compares_len_plus_one
    (write_bytes (write_bytes (fun _ => 0) 100 [71; 69; 84]) 200 [71; 69; 90])
    100 200 [71; 69; 84] [71; 69; 90] 2 4);
    [repeat apply write_bytes_ok; [intros a; lia|repeat constructor; lia..]
    |repeat split; repeat constructor; discriminate..|simpl; lia].
Defined.

(** [lwip_itoa] stores at [result] the NUL-terminated decimal
    representation of any [int], without leading zeros, and touches no byte
    outside of it; at most 12 bytes are written, whatever [bufsize] says. *)
Theorem itoa_correct (m : memory) (result bufsize number : Z)
    (Hn : -2147483648 <= number <= 2147483647) :
  exists m' s, lwip_itoa m result bufsize number = Some m' /\
    cstr m' result s /\ dec_value s = number /\ (List.length s <= 11)%nat /\
    (number <> 0 -> forall ds, s = ds \/ s = 45 :: ds -> Forall is_digit ds -> hd 0 ds <> 48) /\
    forall x, x < result \/ result + Z.of_nat (List.length s) + 1 <= x -> m' x = m x.
Proof.
  destruct (itoa_digits_eq 10 m result number) as
      (ds & tmp & Hrun & Hv & Hdig & Hlen & Hsgn & Hlast); [change (10 ^ Z.of_nat 10) with 10000000000; lia|lia|].
  set (cs := ds ++ if tmp <? 0 then [45] else []).
  set (m1 := write_bytes m result cs). set (n := Z.of_nat (List.length cs)).
  assert (Hcs : (List.length cs <= 11)%nat).
  { unfold cs. rewrite length_app. destruct (tmp <? 0); simpl; lia. }
  assert (Hstep : lwip_itoa m result bufsize number
                  = itoa_reverse 12 (upd m1 (result + n) 0) result (result + n - 1)).
  { unfold lwip_itoa, itoa_digits in *. rewrite (loop_mono _ 10 11 _ _ Hrun) by lia.
    unfold m1, n, cs. destruct (tmp <? 0).
    - rewrite write_bytes_app, length_app. simpl.
      replace (result + Z.of_nat (List.length ds) + 1)
        with (result + Z.of_nat (List.length ds + 1)) by lia. done.
    - by rewrite app_nil_r. }
  destruct (itoa_reverse_eq 12 cs (upd m1 (result + n) 0) result) as (m' & Hr & Hrev & Hout);
    [|lia|].
  { rewrite <- (bytes_at_write_eq m result cs) at 2. apply bytes_at_ext.
    intros x Hx. apply upd_ne. lia. }
  exists m', (rev cs). rewrite length_rev. rewrite Hstep. split; [done|].
  split; [|split; [|split; [done|split]]].
  - split; [by rewrite length_rev|]. split.
    + rewrite length_rev, Hout by lia. apply upd_eq.
    + apply Forall_rev. unfold cs. apply Forall_app. split.
      * eapply Forall_impl; [exact Hdig|]. unfold is_digit. lia.
      * destruct (tmp <? 0); repeat constructor. lia.
  - unfold cs. destruct (Z.ltb_spec tmp 0).
    + rewrite rev_app_distr. simpl. rewrite msd_val_rev. lia.
    + rewrite app_nil_r, dec_value_digits by by apply Forall_rev. rewrite msd_val_rev. lia.
  - intros Hnz ds' Hds' Hdig'. assert (ds' = rev ds) as ->.
    { unfold cs in Hds'. destruct (tmp <? 0).
      - rewrite rev_app_distr in Hds'. destruct Hds' as [<-|[= <-]]; [|done].
        simpl in Hdig'. inversion Hdig'; subst. unfold is_digit in *. lia.
      - rewrite app_nil_r in Hds'. destruct Hds' as [<-|E]; [done|].
        apply Forall_rev in Hdig. rewrite E in Hdig. inversion Hdig; subst.
        unfold is_digit in *. lia. }
    specialize (Hlast Hnz). destruct ds as [|c ds] using rev_ind; [simpl in Hlen; lia|].
    rewrite rev_app_distr. simpl. by rewrite last_last in Hlast.
  - intros x Hx. rewrite Hout by lia. rewrite upd_ne by lia. apply write_bytes_out. lia.
Qed.

Lemma itoa_witness :
  exists m' s, lwip_itoa (fun _ => 7) 100 12 (-2147483648) = Some m' /\
    cstr m' 100 s /\ dec_value s = -2147483648 /\ (List.length s <= 11)%nat /\
    (-2147483648 <> 0 -> forall ds, s = ds \/ s = 45 :: ds -> Forall is_digit ds -> hd 0 ds <> 48) /\
    forall x, x < 100 \/ 100 + Z.of_nat (List.length s) + 1 <= x -> m' x = 7.
Proof. apply (itoa_correct (fun _ => 7) 100 12 (-2147483648)). lia. Defined.
