(* ===== verification/Ip4Addr.v ===== *)
(** * [core/ipv4/ip4_addr.c]: IPv4 addresses

    An [ip4_addr_t] is a [u32_t] in network byte order.  Holds the broadcast and
    netmask tests and the conversions from and to dotted notation. *)

From Stdlib Require Import ZArith Lia.
From stdpp Require Import base tactics numbers list.
From S2P Require Import Prelude.
From S2P Require Import Def.

(** [struct netif] of [lwip/netif.h], the fields the modelled code uses. *)
Record netif := mk_netif {
  netif_ip_addr : Z;
  netif_netmask : Z;
  netif_gw : Z;
  netif_mtu : Z;
  netif_hwaddr : list Z;
  netif_hwaddr_len : Z;
  netif_flags : Z
}.

Definition NETIF_FLAG_UP : Z := 0x01.
Definition NETIF_FLAG_BROADCAST : Z := 0x02.
Definition NETIF_FLAG_LINK_UP : Z := 0x04.
Definition NETIF_FLAG_ETHARP : Z := 0x08.
Definition NETIF_FLAG_ETHERNET : Z := 0x10.
Definition NETIF_FLAG_IGMP : Z := 0x20.

Definition IPADDR_ANY : Z := 0x00000000.
Definition IPADDR_BROADCAST : Z := 0xffffffff.
Definition IPADDR_NONE : Z := 0xffffffff.

(** [ip4_addr_netcmp] of [lwip/ip4_addr.h]. *)
Definition ip4_addr_netcmp (addr1 addr2 mask : Z) : bool :=
  Z.land addr1 mask =? Z.land addr2 mask.

Definition ip4_addr_isbroadcast_u32 (addr : Z) (nif : netif) : Z :=
  if (u32 (Z.lnot addr) =? IPADDR_ANY) || (addr =? IPADDR_ANY) then 1
  else if Z.land (netif_flags nif) NETIF_FLAG_BROADCAST =? 0 then 0
  else if addr =? netif_ip_addr nif then 0
  else if ip4_addr_netcmp addr (netif_ip_addr nif) (netif_netmask nif) &&
          (Z.land addr (u32 (Z.lnot (netif_netmask nif)))
           =? Z.land IPADDR_BROADCAST (u32 (Z.lnot (netif_netmask nif)))) then 1
  else 0.

(** The address tests of [lwip/ip4_addr.h]. *)
Definition ip4_addr_isany (a : Z) : bool := a =? IPADDR_ANY.
Definition ip4_addr_ismulticast (a : Z) : bool := Z.land a (PP_HTONL 0xf0000000) =? PP_HTONL 0xe0000000.
Definition ip4_addr_islinklocal (a : Z) : bool := Z.land a (PP_HTONL 0xffff0000) =? PP_HTONL 0xa9fe0000.
Definition ip4_addr_isloopback (a : Z) : bool := Z.land a (PP_HTONL 0xff000000) =? PP_HTONL (Z.shiftl 127 24).

(** The two loops over [mask], from [1UL << 31] down to 0: at most 33 tests. *)
Definition ip4_addr_netmask_valid (netmask : Z) : option Z :=
  let nm_hostorder := lwip_htonl netmask in
  match loop 33 (fun mask =>
          if negb (mask =? 0) then
            if Z.land nm_hostorder mask =? 0 then inr mask else inl (Z.shiftr mask 1)
          else inr mask) (Z.shiftl 1 31) with
  | None => None
  | Some mask =>
      loop 33 (fun mask =>
        if negb (mask =? 0) then
          if negb (Z.land nm_hostorder mask =? 0) then inr 0 else inl (Z.shiftr mask 1)
        else inr 1) mask
  end.

(** ** [ip4addr_aton] *)

Definition in_range (c lo up : Z) : bool := (lo <=? u8 c) && (u8 c <=? up).
Definition isdigit (c : Z) : bool := in_range c 48 57.
Definition isxdigit (c : Z) : bool := isdigit c || in_range c 97 102 || in_range c 65 70.
Definition islower (c : Z) : bool := in_range c 97 122.
Definition isspace (c : Z) : bool :=
  (c =? 32) || (c =? 12) || (c =? 10) || (c =? 13) || (c =? 9) || (c =? 11).

(** The loop that collects the digits of one number; [c] is always [*cp]. *)
Definition aton_digits (fuel : nat) (m : memory) (base val cp : Z) : option (Z * Z) :=
  loop fuel (fun '(val, cp) =>
    let c := m cp in
    if isdigit c then inl (u32 (u32 (val * base) + u32 (c - 48)), cp + 1)
    else if (base =? 16) && isxdigit c then
      inl (Z.lor (u32 (Z.shiftl val 4)) (u32 (c + 10 - (if islower c then 97 else 65))), cp + 1)
    else inr (val, cp)) (val, cp).

(** The prefix that selects the base: 0x hexadecimal, 0 octal, else decimal. *)
Definition aton_base (m : memory) (cp : Z) : Z * Z :=
  if m cp =? 48 then
    let cp := cp + 1 in
    let c := m cp in
    if (c =? 120) || (c =? 88) then (16, cp + 1) else (8, cp)
  else (10, cp).

(** The outer loop over the parts separated by dots.  [None] is out of fuel,
    [Some None] is [return 0], otherwise the parts before the last number, the
    last number and the position of the character after it. *)
Definition aton_parts (fuel : nat) (m : memory) (cp : Z) : option (option (list Z * Z * Z)) :=
  match loop fuel (fun '(cp, parts) =>
    if negb (isdigit (m cp)) then inr (Some None)
    else
      let '(base, cp) := aton_base m cp in
      match aton_digits fuel m base 0 cp with
      | None => inr None
      | Some (val, cp) =>
          if m cp =? 46 then
            if (3 <=? length parts)%nat then inr (Some None)
            else inl (cp + 1, parts ++ [val])
          else inr (Some (Some (parts, val, cp)))
      end) (cp, []) with
  | None => None
  | Some r => r
  end.

(** The [switch] on the number of parts. *)
Definition aton_concoct (parts : list Z) (val : Z) : option Z :=
  match parts with
  | [] => Some val
  | [p0] =>
      if 0xffffff <? val then None else if 0xff <? p0 then None
      else Some (Z.lor val (u32 (Z.shiftl p0 24)))
  | [p0; p1] =>
      if 0xffff <? val then None else if (0xff <? p0) || (0xff <? p1) then None
      else Some (Z.lor val (Z.lor (u32 (Z.shiftl p0 24)) (u32 (Z.shiftl p1 16))))
  | [p0; p1; p2] =>
      if 0xff <? val then None
      else if (0xff <? p0) || (0xff <? p1) || (0xff <? p2) then None
      else Some (Z.lor val (Z.lor (Z.lor (u32 (Z.shiftl p0 24)) (u32 (Z.shiftl p1 16)))
                              (u32 (Z.shiftl p2 8))))
  | _ => Some val
  end.

(** [Some None] is the result 0, [Some (Some a)] the result 1 with [a] stored
    through [addr]. *)
Definition ip4addr_aton (fuel : nat) (m : memory) (cp : Z) : option (option Z) :=
  match aton_parts fuel m cp with
  | None => None
  | Some None => Some None
  | Some (Some (parts, val, cp)) =>
      let c := m cp in
      if negb (c =? 0) && negb (isspace c) then Some None
      else match aton_concoct parts val with
           | None => Some None
           | Some val => Some (Some (lwip_htonl val))
           end
  end.

Definition ipaddr_addr (fuel : nat) (m : memory) (cp : Z) : option Z :=
  match ip4addr_aton fuel m cp with
  | None => None
  | Some (Some val) => Some val
  | Some None => Some IPADDR_NONE
  end.

(** ** [ip4addr_ntoa_r] *)

(** The do-while that fills [inv], least significant digit first; a byte has at
    most three digits. *)
Definition ntoa_digits (b : Z) : option (list Z) :=
  loop 3 (fun '(b, inv) =>
    let rem := b mod 10 in
    let b := b / 10 in
    let inv := inv ++ [u8 (48 + rem)] in
    if b =? 0 then inr inv else inl (b, inv)) (b, []).

(** [if (len++ >= buflen) return NULL; *rp++ = c;] over the characters [cs]. *)
Fixpoint ntoa_put (buflen : Z) (m : memory) (rp len : Z) (cs : list Z)
    : memory * option (Z * Z) :=
  match cs with
  | [] => (m, Some (rp, len))
  | c :: cs =>
      if buflen <=? len then (m, None)
      else ntoa_put buflen (upd m rp c) (rp + 1) (len + 1) cs
  end.

(** The characters stored for one byte: the digits from the last of [inv] to the
    first, then the dot. *)
Definition ntoa_chars (b : Z) : option (list Z) :=
  match ntoa_digits b with None => None | Some inv => Some (rev inv ++ [46]) end.

(** The loop over the four bytes of [s_addr], in memory order.  [None] is out of
    fuel; otherwise the memory and the returned pointer. *)
Fixpoint ntoa_bytes (buflen : Z) (m : memory) (rp len : Z) (bs : list Z)
    : option (memory * option (Z * Z)) :=
  match bs with
  | [] => Some (m, Some (rp, len))
  | b :: bs =>
      match ntoa_chars b with
      | None => None
      | Some cs =>
          match ntoa_put buflen m rp len cs with
          | (m, None) => Some (m, None)
          | (m, Some (rp, len)) => ntoa_bytes buflen m rp len bs
          end
      end
  end.

(** The bytes of a [u32_t] in memory order. *)
Definition u32_bytes (a : Z) : list Z :=
  [a mod 256; (a / 256) mod 256; (a / 65536) mod 256; a / 16777216].

Definition ip4addr_ntoa_r (m : memory) (addr buf buflen : Z) : option (memory * Z) :=
  match ntoa_bytes buflen m buf 0 (u32_bytes addr) with
  | None => None
  | Some (m, None) => Some (m, NULL)
  | Some (m, Some (rp, _)) => Some (upd m (rp - 1) 0, buf)
  end.

Definition IP4ADDR_STRLEN_MAX : Z := 16.

Definition ip4addr_ntoa (m : memory) (addr str : Z) : option (memory * Z) :=
  ip4addr_ntoa_r m addr str IP4ADDR_STRLEN_MAX.

(** ** Lemmas: netmasks *)

Lemma land_pow2_testbit x i : 0 <= i -> (Z.land x (2 ^ i) =? 0) = negb (Z.testbit x i).
Proof.
  intros Hi. destruct (Z.testbit x i) eqn:E; simpl.
  - apply Z.eqb_neq. intros H. assert (Z.testbit (Z.land x (2 ^ i)) i = false) as H'
      by by rewrite H, Z.bits_0. rewrite Z.land_spec, E, Z.pow2_bits_true in H' by lia. done.
  - apply Z.eqb_eq. apply Z.bits_inj'. intros j Hj. rewrite Z.land_spec, Z.bits_0.
    destruct (Z.eq_dec i j) as [->|]; [by rewrite E|].
    rewrite Z.pow2_bits_false by lia. apply andb_false_r.
Qed.

Lemma pow2_eqb_0 i : (2 ^ Z.of_nat i =? 0) = false.
Proof. apply Z.eqb_neq. lia. Qed.

Lemma shiftr_pow2 i : Z.shiftr (2 ^ Z.of_nat (S i)) 1 = 2 ^ Z.of_nat i.
Proof.
  rewrite Z.shiftr_div_pow2 by lia. replace (Z.of_nat (S i)) with (Z.of_nat i + 1) by lia.
  rewrite Z.pow_add_r by lia. change (2 ^ 1) with 2. by rewrite Z.div_mul by lia.
Qed.

(** The first loop stops at the highest clear bit of the bits [i .. 0]. *)
Lemma netmask_loop1 nm i fuel :
  (i + 1 < fuel)%nat ->
  exists mask, loop fuel (fun mask =>
          if negb (mask =? 0) then
            if Z.land nm mask =? 0 then inr mask else inl (Z.shiftr mask 1)
          else inr mask) (2 ^ Z.of_nat i) = Some mask /\
  ((mask = 0 /\ forall j, 0 <= j <= Z.of_nat i -> Z.testbit nm j = true) \/
   exists k, (k <= i)%nat /\ mask = 2 ^ Z.of_nat k /\ Z.testbit nm (Z.of_nat k) = false /\
     forall j, Z.of_nat k < j <= Z.of_nat i -> Z.testbit nm j = true).
Proof.
  revert fuel. induction i as [|i IH]; intros fuel Hf;
    (destruct fuel as [|fuel]; [lia|]); cbn [loop];
    rewrite pow2_eqb_0; cbn [negb]; rewrite land_pow2_testbit by lia;
    destruct (Z.testbit nm _) eqn:E; cbn [negb].
  - destruct fuel; [lia|]. simpl. eexists. split; [done|]. left. split; [done|].
    intros j Hj. by replace j with 0 by lia.
  - eexists. split; [done|]. right. exists 0%nat. repeat split; auto. lia.
  - rewrite shiftr_pow2. destruct (IH fuel ltac:(lia)) as (mask & Hm & [[-> Hb]|(k & Hk & -> & Hz & Hb)]).
    + eexists. split; [exact Hm|]. left. split; [done|]. intros j Hj.
      destruct (Z.eq_dec j (Z.of_nat (S i))) as [->|]; [done|]. apply Hb. lia.
    + eexists. split; [exact Hm|]. right. exists k. split; [lia|]. split; [done|]. split; [done|].
      intros j Hj. destruct (Z.eq_dec j (Z.of_nat (S i))) as [->|]; [done|]. apply Hb. lia.
  - eexists. split; [done|]. right. exists (S i). repeat split; auto. lia.
Qed.

(** The second loop accepts exactly when the bits [i .. 0] are clear. *)
Lemma netmask_loop2 nm i fuel :
  (i + 1 < fuel)%nat ->
  let r := loop fuel (fun mask =>
        if negb (mask =? 0) then
          if negb (Z.land nm mask =? 0) then inr 0 else inl (Z.shiftr mask 1)
        else inr 1) (2 ^ Z.of_nat i) in
  (r = Some 1 /\ forall j, 0 <= j <= Z.of_nat i -> Z.testbit nm j = false) \/
  (r = Some 0 /\ exists j, 0 <= j <= Z.of_nat i /\ Z.testbit nm j = true).
Proof.
  revert fuel. induction i as [|i IH]; intros fuel Hf;
    (destruct fuel as [|fuel]; [lia|]); cbn [loop];
    rewrite pow2_eqb_0; cbn [negb]; rewrite land_pow2_testbit, negb_involutive by lia;
    destruct (Z.testbit nm _) eqn:E.
  - right. split; [done|]. exists 0. split; [lia|done].
  - destruct fuel; [lia|]. simpl. left. split; [done|].
    intros j Hj. by replace j with 0 by lia.
  - right. split; [done|]. eexists. split; [|exact E]. lia.
  - rewrite shiftr_pow2. destruct (IH fuel ltac:(lia)) as [[-> Hb]|[-> (j & Hj & Hb)]].
    + left. split; [done|]. intros j Hj.
      destruct (Z.eq_dec j (Z.of_nat (S i))) as [->|]; [done|]. apply Hb. lia.
    + right. split; [done|]. exists j. split; [lia|done].
Qed.

Lemma prefix_mask_bits k j :
  0 <= k <= 32 -> 0 <= j -> Z.testbit (2 ^ 32 - 2 ^ k) j = (k <=? j) && (j <? 32).
Proof.
  intros Hk Hj. replace (2 ^ 32 - 2 ^ k) with (Z.shiftl (Z.ones (32 - k)) k).
  2:{ rewrite Z.shiftl_mul_pow2, Z.ones_equiv by lia.
      replace 32 with (k + (32 - k)) at 2 by lia. rewrite Z.pow_add_r by lia. lia. }
  rewrite Z.shiftl_spec by lia. destruct (Z.leb_spec k j); simpl.
  - rewrite Z.testbit_ones_nonneg by lia.
    destruct (Z.ltb_spec (j - k) (32 - k)), (Z.ltb_spec j 32); lia || done.
  - apply Z.testbit_neg_r. lia.
Qed.

(** [nm] is a prefix mask when its bits are those of one. *)
Lemma prefix_mask_of_bits nm k :
  0 <= nm < 4294967296 -> 0 <= k <= 32 ->
  (forall j, 0 <= j < 32 -> Z.testbit nm j = (k <=? j)) -> nm = 2 ^ 32 - 2 ^ k.
Proof.
  intros Hnm Hk Hb. apply Z.bits_inj'. intros j Hj. rewrite prefix_mask_bits by lia.
  destruct (Z.ltb_spec j 32); [rewrite andb_true_r; apply Hb; lia|].
  rewrite andb_false_r. rewrite <- (Z.mod_small nm (2 ^ 32)) by lia.
  apply Z.mod_pow2_bits_high. lia.
Qed.

(** ** Theorems: netmasks and broadcast addresses *)

(** [ip4_addr_netmask_valid] always returns, 1 exactly for the 33 masks of
    the form 1...10...0 (in host order) and 0 for every other value. *)
Theorem netmask_valid_iff_prefix (netmask : Z) :
  (ip4_addr_netmask_valid netmask = Some 1 /\
     exists k, 0 <= k <= 32 /\ lwip_htonl netmask = 2 ^ 32 - 2 ^ k) \/
  (ip4_addr_netmask_valid netmask = Some 0 /\
     forall k, 0 <= k <= 32 -> lwip_htonl netmask <> 2 ^ 32 - 2 ^ k).
Proof.
  unfold ip4_addr_netmask_valid. pose proof (lwip_htonl_range netmask) as Hr.
  set (nm := lwip_htonl netmask) in *. change (Z.shiftl 1 31) with (2 ^ Z.of_nat 31).
  destruct (netmask_loop1 nm 31 33 ltac:(lia)) as (mask & -> & [[-> Hb]|(k & Hk & -> & Hz & Hb)]).
  - left. split; [done|]. exists 0. split; [lia|]. apply prefix_mask_of_bits; [lia..|].
    intros j Hj. rewrite Hb by lia. symmetry. apply Z.leb_le. lia.
  - destruct (netmask_loop2 nm k 33 ltac:(lia)) as [[-> Hc]|[-> (j & Hj & Hc)]].
    + left. split; [done|]. exists (Z.of_nat k + 1). split; [lia|].
      apply prefix_mask_of_bits; [lia..|]. intros j Hj.
      destruct (Z.leb_spec (Z.of_nat k + 1) j); [apply Hb; lia|apply Hc; lia].
    + right. split; [done|]. intros k' Hk' E. rewrite E in Hz, Hc.
      rewrite prefix_mask_bits in Hz, Hc by lia. zb.
      assert ((Z.of_nat k <? 32) = true) as Hlt by (apply Z.ltb_lt; lia).
      rewrite Hlt, andb_true_r in Hz. zb. lia.
Qed.

Lemma u32_lnot_bits x j : 0 <= j < 32 -> Z.testbit (u32 (Z.lnot x)) j = negb (Z.testbit x j).
Proof.
  intros. unfold u32. change 4294967296 with (2 ^ 32).
  rewrite Z.mod_pow2_bits_low by lia. apply Z.lnot_spec. lia.
Qed.

Lemma u32_bits_high x j : 0 <= x < 4294967296 -> 32 <= j -> Z.testbit x j = false.
Proof.
  intros. rewrite <- (Z.mod_small x (2 ^ 32)) by lia. apply Z.mod_pow2_bits_high. lia.
Qed.

(** The two tests of the code on the network and the host part say that the
    address is the network's part of [ip] with all host bits set. *)
Lemma directed_broadcast_eq addr ip mask :
  0 <= addr < 4294967296 -> 0 <= ip < 4294967296 -> 0 <= mask < 4294967296 ->
  (Z.land addr mask = Z.land ip mask /\
   Z.land addr (u32 (Z.lnot mask)) = Z.land IPADDR_BROADCAST (u32 (Z.lnot mask)))
  <-> addr = Z.lor (Z.land ip mask) (u32 (Z.lnot mask)).
Proof.
  intros Ha Hi Hm. split.
  - intros [H1 H2]. apply Z.bits_inj'. intros j Hj. rewrite Z.lor_spec, Z.land_spec.
    destruct (Z.ltb_spec j 32).
    + assert (E1 := f_equal (fun z => Z.testbit z j) H1).
      assert (E2 := f_equal (fun z => Z.testbit z j) H2). simpl in E1, E2.
      rewrite !Z.land_spec in E1, E2. rewrite u32_lnot_bits in * by lia.
      change IPADDR_BROADCAST with (Z.ones 32) in E2.
      rewrite (Z.ones_spec_low 32 j) in E2 by lia. simpl in E2.
      destruct (Z.testbit mask j), (Z.testbit addr j), (Z.testbit ip j); simpl in *; congruence.
    + rewrite !u32_bits_high by (auto with lwip; lia). done.
  - intros ->. split; apply Z.bits_inj'; intros j Hj; rewrite !Z.land_spec, Z.lor_spec, Z.land_spec;
      (destruct (Z.ltb_spec j 32); [rewrite u32_lnot_bits by lia|rewrite !(u32_bits_high mask),
         !(u32_bits_high (u32 _)) by (auto with lwip; lia); by rewrite !andb_false_r]).
    + destruct (Z.testbit mask j), (Z.testbit ip j); done.
    + change IPADDR_BROADCAST with (Z.ones 32). rewrite (Z.ones_spec_low 32 j) by lia.
      destruct (Z.testbit mask j), (Z.testbit ip j); done.
Qed.

(** Apart from 0.0.0.0 and 255.255.255.255, which always are, an address is
    a broadcast address of an interface exactly when the interface supports
    broadcast and the address is its network's directed broadcast address and
    not its own address; the function returns 0 or 1 and nothing else. *)
Theorem isbroadcast_iff (addr : Z) (nif : netif)
    (Ha : 0 <= addr < 4294967296) (Hi : 0 <= netif_ip_addr nif < 4294967296)
    (Hm : 0 <= netif_netmask nif < 4294967296) :
  (ip4_addr_isbroadcast_u32 addr nif = 1 <->
     addr = IPADDR_ANY \/ addr = IPADDR_BROADCAST \/
     (Z.land (netif_flags nif) NETIF_FLAG_BROADCAST <> 0 /\ addr <> netif_ip_addr nif /\
      addr = Z.lor (Z.land (netif_ip_addr nif) (netif_netmask nif))
                   (u32 (Z.lnot (netif_netmask nif))))) /\
  (ip4_addr_isbroadcast_u32 addr nif = 0 \/ ip4_addr_isbroadcast_u32 addr nif = 1).
Proof.
  pose proof (directed_broadcast_eq addr _ _ Ha Hi Hm) as Hd.
  unfold ip4_addr_isbroadcast_u32, ip4_addr_netcmp.
  assert (Hn : u32 (Z.lnot addr) = IPADDR_ANY <-> addr = IPADDR_BROADCAST).
  { unfold u32, IPADDR_ANY, IPADDR_BROADCAST, Z.lnot. dm. }
  destruct (Z.eqb_spec (u32 (Z.lnot addr)) IPADDR_ANY); simpl; [intuition (discriminate || auto)|].
  destruct (Z.eqb_spec addr IPADDR_ANY); simpl; [intuition (discriminate || auto)|].
  destruct (Z.eqb_spec (Z.land (netif_flags nif) NETIF_FLAG_BROADCAST) 0); [intuition (discriminate || auto)|].
  destruct (Z.eqb_spec addr (netif_ip_addr nif)); [intuition (discriminate || auto)|].
  destruct (Z.eqb_spec (Z.land addr (netif_netmask nif))
              (Z.land (netif_ip_addr nif) (netif_netmask nif))); simpl; [|intuition (discriminate || auto)].
  destruct (Z.eqb_spec (Z.land addr (u32 (Z.lnot (netif_netmask nif))))
              (Z.land IPADDR_BROADCAST (u32 (Z.lnot (netif_netmask nif))))); intuition (discriminate || auto).
Qed.

Definition demo_netif : netif :=
  mk_netif (lwip_htonl 0xc0a80102) (lwip_htonl 0xffffff00) (lwip_htonl 0xc0a80101) 1522
    [2; 4; 6; 8; 10; 12] 6 (NETIF_FLAG_BROADCAST + NETIF_FLAG_ETHARP).

Lemma isbroadcast_witness :
  (ip4_addr_isbroadcast_u32 (lwip_htonl 0xc0a801ff) demo_netif = 1 <->
     lwip_htonl 0xc0a801ff = IPADDR_ANY \/ lwip_htonl 0xc0a801ff = IPADDR_BROADCAST \/
     (Z.land (netif_flags demo_netif) NETIF_FLAG_BROADCAST <> 0 /\
      lwip_htonl 0xc0a801ff <> netif_ip_addr demo_netif /\
      lwip_htonl 0xc0a801ff = Z.lor (Z.land (netif_ip_addr demo_netif) (netif_netmask demo_netif))
                   (u32 (Z.lnot (netif_netmask demo_netif))))) /\
  (ip4_addr_isbroadcast_u32 (lwip_htonl 0xc0a801ff) demo_netif = 0 \/
   ip4_addr_isbroadcast_u32 (lwip_htonl 0xc0a801ff) demo_netif = 1).
Proof. apply (isbroadcast_iff (lwip_htonl 0xc0a801ff) demo_netif); apply lwip_htonl_range. Defined.

(** ** Lemmas: dotted notation *)

(** The canonical decimal digits of a byte and the dotted string. *)
Definition dec_byte (b : Z) : list Z :=
  if b <? 10 then [48 + b]
  else if b <? 100 then [48 + b / 10; 48 + b mod 10]
  else [48 + b / 100; 48 + (b / 10) mod 10; 48 + b mod 10].

Definition dotted (bs : list Z) : list Z :=
  match bs with
  | [b0; b1; b2; b3] =>
      dec_byte b0 ++ 46 :: dec_byte b1 ++ 46 :: dec_byte b2 ++ 46 :: dec_byte b3
  | _ => []
  end.

Lemma ntoa_chars_eq b : is_byte b -> ntoa_chars b = Some (dec_byte b ++ [46]).
Proof.
  intros Hb. apply (bool_decide_eq_true_1 (ntoa_chars b = Some (dec_byte b ++ [46]))).
  revert b Hb. apply byte_check. vm_compute. reflexivity.
Qed.

Lemma dec_byte_chars b :
  is_byte b -> (1 <= length (dec_byte b) <= 3)%nat /\ Forall is_digit (dec_byte b).
Proof.
  unfold is_byte, dec_byte, is_digit. intros. zbs; split; try lia; repeat constructor; dm.
Qed.

Lemma ntoa_put_eq buflen m rp len cs :
  (len + Z.of_nat (length cs) <= buflen ->
     ntoa_put buflen m rp len cs
     = (write_bytes m rp cs, Some (rp + Z.of_nat (length cs), len + Z.of_nat (length cs)))) /\
  (buflen < len + Z.of_nat (length cs) -> len <= buflen ->
     exists m', ntoa_put buflen m rp len cs = (m', None)).
Proof.
  revert m rp len. induction cs as [|c cs IH]; intros m rp len; simpl.
  - split; [by rewrite !Z.add_0_r|lia].
  - destruct (Z.leb_spec buflen len).
    + split; [lia|]. eauto.
    + destruct (IH (upd m rp c) (rp + 1) (len + 1)) as [IH1 IH2]. split.
      * intros. rewrite IH1 by lia. do 2 f_equal. f_equal; lia.
      * intros. apply IH2; lia.
Qed.

Definition dotted_all (bs : list Z) : list Z := List.concat (List.map (fun b => dec_byte b ++ [46]) bs).

Lemma ntoa_bytes_eq buflen bs m rp len :
  Forall is_byte bs -> len <= buflen ->
  (len + Z.of_nat (length (dotted_all bs)) <= buflen ->
     ntoa_bytes buflen m rp len bs
     = Some (write_bytes m rp (dotted_all bs),
             Some (rp + Z.of_nat (length (dotted_all bs)),
                   len + Z.of_nat (length (dotted_all bs))))) /\
  (buflen < len + Z.of_nat (length (dotted_all bs)) ->
     exists m', ntoa_bytes buflen m rp len bs = Some (m', None)).
Proof.
  intros Hbs. revert m rp len. induction Hbs as [|b bs Hb Hbs IH]; intros m rp len Hl; cbn [ntoa_bytes].
  - unfold dotted_all. simpl. split; [by rewrite !Z.add_0_r|lia].
  - rewrite ntoa_chars_eq by done. unfold dotted_all. cbn [List.map List.concat].
    fold (dotted_all bs). rewrite length_app.
    destruct (ntoa_put_eq buflen m rp len (dec_byte b ++ [46])) as [P1 P2].
    destruct (Z.le_gt_cases (len + Z.of_nat (length (dec_byte b ++ [46]))) buflen) as [Hle|Hgt].
    + rewrite P1 by done. destruct (IH (write_bytes m rp (dec_byte b ++ [46]))
        (rp + Z.of_nat (length (dec_byte b ++ [46])))
        (len + Z.of_nat (length (dec_byte b ++ [46]))) Hle) as [IH1 IH2]. split.
      * intros. rewrite IH1 by lia. rewrite (write_bytes_app m rp (dec_byte b ++ [46])).
        by rewrite Nat2Z.inj_add, !Z.add_assoc.
      * intros. apply IH2. lia.
    + destruct P2 as [m' ->]; [lia..|]. split; [lia|eauto].
Qed.

Lemma dotted_all_snoc b0 b1 b2 b3 :
  dotted_all [b0; b1; b2; b3] = dotted [b0; b1; b2; b3] ++ [46].
Proof.
  unfold dotted_all, dotted. cbn [List.map List.concat]. rewrite app_nil_r.
  repeat (rewrite <- !app_assoc || rewrite <- !app_comm_cons). done.
Qed.

Lemma u32_bytes_ok a : 0 <= a < 4294967296 -> Forall is_byte (u32_bytes a).
Proof. intros. unfold u32_bytes, is_byte. repeat constructor; dm. Qed.

Lemma isdigit_spec c : 48 <= c <= 57 -> isdigit c = true.
Proof. intros. unfold isdigit, in_range. rewrite u8_small by lia. zbs. Qed.

(** One decimal digit step of the number loop. *)
Lemma aton_digits_step fuel m base val cp d :
  m cp = 48 + d -> 0 <= d <= 9 -> 0 <= val -> val * base + d < 4294967296 -> 0 <= base ->
  aton_digits (S fuel) m base val cp = aton_digits fuel m base (val * base + d) (cp + 1).
Proof.
  intros E Hd Hv Ho Hb. unfold aton_digits. cbn [loop]. rewrite E, isdigit_spec by lia.
  replace (48 + d - 48) with d by lia. rewrite (u32_small d) by lia.
  rewrite (u32_small (val * base)) by nia. by rewrite u32_small by nia.
Qed.

Lemma aton_digits_stop fuel m base val cp :
  m cp = 46 \/ m cp = 0 -> aton_digits (S fuel) m base val cp = Some (val, cp).
Proof.
  intros [E|E]; unfold aton_digits; cbn [loop]; rewrite E; cbn; by rewrite andb_false_r.
Qed.

(** A canonical number followed by a dot or the NUL is read as its value. *)
Lemma aton_number_eq fuel m cp b t :
  is_byte b -> bytes_at m cp (S (length (dec_byte b))) = dec_byte b ++ [t] ->
  t = 46 \/ t = 0 -> (3 < fuel)%nat ->
  isdigit (m cp) = true /\
  (let '(base, cp') := aton_base m cp in aton_digits fuel m base 0 cp')
  = Some (b, cp + Z.of_nat (length (dec_byte b))) /\
  m (cp + Z.of_nat (length (dec_byte b))) = t.
Proof.
  unfold is_byte. intros Hb Hm Ht Hf. destruct fuel as [|[|[|[|fuel]]]]; try lia.
  unfold dec_byte in *. destruct (Z.ltb_spec b 10); [|destruct (Z.ltb_spec b 100)]; simpl in Hm.
  - injection Hm as E0 E1. rewrite E0. simpl. split; [apply isdigit_spec; lia|].
    change (Z.of_nat 1) with 1. split; [|by rewrite E1]. unfold aton_base. rewrite E0.
    destruct (Z.eqb_spec (48 + b) 48).
    + cbv zeta. rewrite E1. replace b with 0 by lia. destruct Ht as [->| ->]; simpl;
        rewrite aton_digits_stop by (rewrite E1; auto); done.
    + rewrite (aton_digits_step _ _ _ _ _ b) by (lia || auto).
      rewrite aton_digits_stop by (rewrite E1; auto). do 2 f_equal; lia.
  - injection Hm as E0 E1 E2. rewrite E0. simpl. split; [apply isdigit_spec; dm|].
    change (Z.of_nat 2) with 2. replace (cp + 1 + 1) with (cp + 2) in E2 by lia.
    split; [|by rewrite E2]. unfold aton_base. rewrite E0.
    destruct (Z.eqb_spec (48 + b / 10) 48); [dm|].
    rewrite (aton_digits_step _ _ _ _ _ (b / 10)) by (dm || auto).
    rewrite (aton_digits_step _ _ _ _ _ (b mod 10)) by (dm || auto).
    replace (cp + 1 + 1) with (cp + 2) by lia.
    rewrite aton_digits_stop by (rewrite E2; auto). do 2 f_equal; dm.
  - injection Hm as E0 E1 E2 E3. rewrite E0. simpl. split; [apply isdigit_spec; dm|].
    change (Z.of_nat 3) with 3. replace (cp + 1 + 1 + 1) with (cp + 3) in E3 by lia.
    split; [|by rewrite E3]. unfold aton_base. rewrite E0.
    destruct (Z.eqb_spec (48 + b / 100) 48); [dm|].
    rewrite (aton_digits_step _ _ _ _ _ (b / 100)) by (dm || auto).
    rewrite (aton_digits_step _ _ _ _ _ ((b / 10) mod 10)) by (dm || auto).
    rewrite (aton_digits_step _ _ _ _ _ (b mod 10)) by (dm || auto).
    replace (cp + 1 + 1 + 1) with (cp + 3) by lia.
    rewrite aton_digits_stop by (rewrite E3; auto). do 2 f_equal; dm.
Qed.

Lemma bytes_at_split m a l1 l2 :
  bytes_at m a (length (l1 ++ l2)) = l1 ++ l2 ->
  bytes_at m a (length l1) = l1 /\ bytes_at m (a + Z.of_nat (length l1)) (length l2) = l2.
Proof.
  rewrite length_app, bytes_at_app. intros H. apply app_inj_1 in H; [done|].
  apply length_bytes_at.
Qed.

(** One round of the outer loop on [n.rest]. *)
Lemma aton_round m cp b t rest :
  bytes_at m cp (length (dec_byte b ++ t :: rest)) = dec_byte b ++ t :: rest ->
  bytes_at m cp (S (length (dec_byte b))) = dec_byte b ++ [t] /\
  bytes_at m (cp + Z.of_nat (length (dec_byte b)) + 1) (length rest) = rest.
Proof.
  intros H. replace (dec_byte b ++ t :: rest) with ((dec_byte b ++ [t]) ++ rest) in H
    by by rewrite <- app_assoc.
  apply bytes_at_split in H as [H1 H2]. rewrite length_app in H1, H2. simpl in H1, H2.
  rewrite Nat.add_1_r in H1. split; [done|]. rewrite <- H2 at 2. f_equal. lia.
Qed.

Lemma quad_lor b0 b1 b2 b3 :
  is_byte b0 -> is_byte b1 -> is_byte b2 -> is_byte b3 ->
  Z.lor b3 (Z.lor (Z.lor (u32 (Z.shiftl b0 24)) (u32 (Z.shiftl b1 16))) (u32 (Z.shiftl b2 8)))
  = b0 * 16777216 + b1 * 65536 + b2 * 256 + b3.
Proof.
  unfold is_byte. intros. rewrite !Z.shiftl_mul_pow2 by lia.
  change (2 ^ 24) with 16777216. change (2 ^ 16) with 65536. change (2 ^ 8) with 256.
  rewrite !u32_small by lia. change 16777216 with (2 ^ 24) at 1.
  rewrite (lor_mul_add b0 (b1 * 65536) 24) by (change (2 ^ 24) with 16777216; lia).
  replace (b0 * 2 ^ 24 + b1 * 65536) with ((b0 * 256 + b1) * 2 ^ 16) by lia.
  rewrite (lor_mul_add _ (b2 * 256) 16) by (change (2 ^ 16) with 65536; lia).
  rewrite Z.lor_comm.
  replace ((b0 * 256 + b1) * 2 ^ 16 + b2 * 256) with (((b0 * 256 + b1) * 256 + b2) * 2 ^ 8) by lia.
  rewrite (lor_mul_add _ b3 8) by (change (2 ^ 8) with 256; lia). lia.
Qed.

(** [ip4addr_aton] on a dotted quad. *)
Lemma aton_dotted fuel m cp b0 b1 b2 b3 :
  Forall is_byte [b0; b1; b2; b3] -> cstr m cp (dotted [b0; b1; b2; b3]) -> (4 < fuel)%nat ->
  ip4addr_aton fuel m cp
  = Some (Some (lwip_htonl (b0 * 16777216 + b1 * 65536 + b2 * 256 + b3))).
Proof.
  intros Hb (Hm & Hz & _) Hf. rewrite !Forall_cons in Hb. destruct Hb as (H0 & H1 & H2 & H3 & _).
  assert (Hm' : bytes_at m cp (length (dotted [b0; b1; b2; b3] ++ [0]))
                = dotted [b0; b1; b2; b3] ++ [0]).
  { rewrite length_app, bytes_at_app, Hm. change (length [0]) with 1%nat.
    cbn [bytes_at]. by rewrite Hz. }
  clear Hm Hz. unfold dotted in Hm'.
  repeat (rewrite <- ?app_assoc in Hm'; rewrite <- ?app_comm_cons in Hm').
  apply aton_round in Hm' as [R0 Hm']. apply aton_round in Hm' as [R1 Hm'].
  apply aton_round in Hm' as [R2 Hm']. apply aton_round in Hm' as [R3 _].
  destruct (aton_number_eq fuel m cp b0 46 H0 R0) as (D0 & N0 & T0); [auto|lia|].
  destruct (aton_number_eq fuel m _ b1 46 H1 R1) as (D1 & N1 & T1); [auto|lia|].
  destruct (aton_number_eq fuel m _ b2 46 H2 R2) as (D2 & N2 & T2); [auto|lia|].
  destruct (aton_number_eq fuel m _ b3 0 H3 R3) as (D3 & N3 & T3); [auto|lia|].
  unfold ip4addr_aton, aton_parts.
  destruct fuel as [|[|[|[|fuel]]]]; try lia.
  cbn [loop]. rewrite D0. cbn [negb]. destruct (aton_base m cp) as [base0 cp0]. rewrite N0, T0.
  cbn [Z.eqb Pos.eqb length Nat.leb app].
  rewrite D1. cbn [negb]. destruct (aton_base m _) as [base1 cp1]. rewrite N1, T1.
  cbn [Z.eqb Pos.eqb length Nat.leb app].
  rewrite D2. cbn [negb]. destruct (aton_base m _) as [base2 cp2]. rewrite N2, T2.
  cbn [Z.eqb Pos.eqb length Nat.leb app].
  rewrite D3. cbn [negb]. destruct (aton_base m _) as [base3 cp3]. rewrite N3, T3.
  cbn [Z.eqb]. rewrite T3. cbn [Z.eqb negb andb]. unfold aton_concoct, is_byte in *.
  rewrite !(proj2 (Z.ltb_ge 255 _)) by lia. cbn [orb].
  by rewrite quad_lor by (unfold is_byte; lia).
Qed.

(** ** Termination of the parser *)

Lemma isdigit_0 c : isdigit c = true -> c <> 0.
Proof. intros H ->. vm_compute in H. discriminate. Qed.
Lemma isxdigit_0 c : isxdigit c = true -> c <> 0.
Proof. intros H ->. vm_compute in H. discriminate. Qed.

(** From a position of a string, the number loop ends at a later position. *)
Lemma aton_digits_total fuel m base val cp s :
  cstr m cp s -> (length s < fuel)%nat ->
  exists val' cp' s', aton_digits fuel m base val cp = Some (val', cp') /\
    cstr m cp' s' /\ (length s' <= length s)%nat.
Proof.
  intros Hs Hf.
  destruct (loop_total
    (fun '(val, cp) =>
      let c := m cp in
      if isdigit c then inl (u32 (u32 (val * base) + u32 (c - 48)), cp + 1)
      else if (base =? 16) && isxdigit c then
        inl (Z.lor (u32 (Z.shiftl val 4)) (u32 (c + 10 - (if islower c then 97 else 65))), cp + 1)
      else inr (val, cp))
    (fun '(_, cp') => exists s', cstr m cp' s' /\ s' = drop (Z.to_nat (cp' - cp)) s /\
                        cp <= cp' <= cp + Z.of_nat (length s))
    (fun '(_, cp') => exists s', cstr m cp' s' /\ (length s' <= length s)%nat)
    (fun '(_, cp') => Z.to_nat (cp + Z.of_nat (length s) - cp'))) with (fuel := fuel) (s := (val, cp))
    as ([val' cp'] & Hr & s' & Hs' & Hl).
  - intros [v c] [v' c'] (s' & Hs' & E & Hc) Hstep.
    assert (c' = c + 1 /\ m c <> 0) as [-> Hnz].
    { simpl in Hstep. destruct (isdigit (m c)) eqn:Ed.
      - injection Hstep as _ <-. split; [done|]. by apply isdigit_0.
      - destruct ((base =? 16) && isxdigit (m c)) eqn:Ex; [|discriminate].
        injection Hstep as _ <-. split; [done|]. apply andb_prop in Ex as [_ Ex].
        by apply isxdigit_0. }
    destruct s' as [|x s']; [by apply cstr_nil in Hs'|].
    apply cstr_cons in Hs' as (_ & _ & Hs').
    assert (Hlt : (Z.to_nat (c - cp) < length s)%nat).
    { apply (f_equal length) in E. rewrite length_drop in E. simpl in E. lia. }
    split; [|lia]. exists s'. split; [done|]. split; [|lia].
    replace (Z.to_nat (c + 1 - cp)) with (Z.to_nat (c - cp) + 1)%nat by lia.
    rewrite <- drop_drop, <- E. done.
  - intros [v c] [v' c'] (s' & Hs' & E & Hc) Hstep.
    assert (c' = c) as -> by (simpl in Hstep; repeat case_match; congruence).
    exists s'. split; [done|]. subst s'. rewrite length_drop. lia.
  - exists s. rewrite Z.sub_diag. split; [done|]. split; [done|lia].
  - lia.
  - eauto 10.
Qed.

Lemma aton_base_total m cp s :
  cstr m cp s -> isdigit (m cp) = true ->
  exists s', cstr m (snd (aton_base m cp)) s' /\ (length s' <= length s)%nat.
Proof.
  intros Hs Hd. unfold aton_base. destruct (m cp =? 48); [|eauto].
  destruct s as [|x s]; [apply cstr_nil in Hs; by apply isdigit_0 in Hd|].
  apply cstr_cons in Hs as (_ & _ & Hs). cbv zeta.
  destruct ((m (cp + 1) =? 120) || (m (cp + 1) =? 88)) eqn:E; simpl.
  - destruct s as [|y s].
    { apply cstr_nil in Hs. rewrite Hs in E. vm_compute in E. discriminate. }
    apply cstr_cons in Hs as (_ & _ & Hs). exists s. split; [done|]. simpl. lia.
  - exists s. split; [done|]. lia.
Qed.

Lemma aton_parts_total fuel m cp s :
  cstr m cp s -> (length s < fuel)%nat -> exists r, aton_parts fuel m cp = Some r.
Proof.
  intros Hs Hf. unfold aton_parts.
  match goal with |- context [loop fuel ?f _] => set (step := f) end.
  assert (H : forall n cp parts s, cstr m cp s -> (length s < n)%nat -> (length s < fuel)%nat ->
            exists r, loop n step (cp, parts) = Some (Some r)).
  { clear cp s Hs Hf. induction n as [|n IH]; intros cp parts s Hs Hn Hf; [lia|].
    cbn [loop]. unfold step at 1. destruct (isdigit (m cp)) eqn:Ed; cbn [negb]; [|eauto].
    destruct (aton_base_total m cp s Hs Ed) as (s1 & Hs1 & Hl1).
    destruct (aton_base m cp) as [base cp1]. simpl in Hs1.
    destruct (aton_digits_total fuel m base 0 cp1 s1 Hs1 ltac:(lia))
      as (val & cp2 & s2 & -> & Hs2 & Hl2).
    destruct (Z.eqb_spec (m cp2) 46) as [E|]; [|eauto].
    destruct (3 <=? length parts)%nat; [eauto|].
    destruct s2 as [|x s2]; [apply cstr_nil in Hs2; lia|].
    apply cstr_cons in Hs2 as (_ & _ & Hs2). simpl in Hl2. apply (IH _ _ s2); auto; lia. }
  destruct (H fuel cp [] s Hs Hf Hf) as [r ->]. eauto.
Qed.

(** ** Theorems: dotted notation *)

(** [ip4addr_aton] returns on every NUL-terminated string: its loops
    consume the string and never run past its end. *)
Theorem aton_terminates (m : memory) (cp : Z) (s : list Z) (fuel : nat)
    (Hs : cstr m cp s) (Hf : (length s < fuel)%nat) :
  exists r, ip4addr_aton fuel m cp = Some r.
Proof.
  unfold ip4addr_aton. destruct (aton_parts_total fuel m cp s Hs Hf) as [[[[parts val] c]|] ->];
    repeat case_match; eauto.
Qed.

Lemma aton_terminates_witness :
  exists r, ip4addr_aton 6 (write_bytes (fun _ => 0) 10 [48; 120; 49; 46; 32]) 10 = Some r.
Proof.
  apply (aton_terminates _ 10 [48; 120; 49; 46; 32]);
    [repeat split; repeat constructor; discriminate|simpl; lia].
Defined.

(** [ip4addr_ntoa_r] succeeds exactly when the buffer holds the dotted
    decimal string and its NUL, writes only inside the buffer, and
    [ip4addr_aton] reads the string back to the same address. *)
Theorem ntoa_aton_roundtrip (m : memory) (addr buf buflen : Z) (fuel : nat)
    (Ha : 0 <= addr < 4294967296) (Hb : 0 <= buflen) (Hf : (4 < fuel)%nat) :
  let s := dotted (u32_bytes addr) in
  (length s <= 15)%nat /\
  (Z.of_nat (length s) < buflen ->
     exists m', ip4addr_ntoa_r m addr buf buflen = Some (m', buf) /\ cstr m' buf s /\
       (forall x, x < buf \/ buf + Z.of_nat (length s) < x -> m' x = m x) /\
       ip4addr_aton fuel m' buf = Some (Some addr)) /\
  (buflen <= Z.of_nat (length s) -> exists m', ip4addr_ntoa_r m addr buf buflen = Some (m', NULL)).
Proof.
  pose proof (u32_bytes_ok addr Ha) as Hok. unfold ip4addr_ntoa_r, u32_bytes in *. cbv zeta.
  set (b0 := addr mod 256) in *. set (b1 := (addr / 256) mod 256) in *.
  set (b2 := (addr / 65536) mod 256) in *. set (b3 := addr / 16777216) in *.
  set (s := dotted [b0; b1; b2; b3]).
  destruct (ntoa_bytes_eq buflen [b0; b1; b2; b3] m buf 0 Hok ltac:(lia)) as [N1 N2].
  rewrite dotted_all_snoc in N1, N2. fold s in N1, N2. rewrite length_app in N1, N2.
  cbn [length] in N1, N2.
  assert (Hs : Forall (fun c => c <> 0) s /\ (length s <= 15)%nat).
  { unfold s, dotted. rewrite !Forall_cons in Hok. destruct Hok as (H0 & H1 & H2 & H3 & _).
    apply dec_byte_chars in H0 as [L0 D0]. apply dec_byte_chars in H1 as [L1 D1].
    apply dec_byte_chars in H2 as [L2 D2]. apply dec_byte_chars in H3 as [L3 D3].
    assert (Hd : forall l, Forall is_digit l -> Forall (fun c => c <> 0) l).
    { intros l Hl. eapply Forall_impl; [exact Hl|]. unfold is_digit. lia. }
    split; [|repeat (rewrite length_app; simpl); lia].
    repeat (apply Forall_app; split; [by apply Hd|]; apply Forall_cons; split; [lia|]). by apply Hd. }
  destruct Hs as [Hnz Hlen]. split; [done|]. split.
  - intros Hl. rewrite N1 by lia. eexists. split; [done|].
    set (m' := upd _ _ _).
    assert (Hc : cstr m' buf s).
    { unfold m'. split; [|split; [|done]].
      - transitivity (bytes_at (write_bytes m buf s) buf (length s));
          [|apply bytes_at_write_eq]. apply bytes_at_ext. intros x Hx.
        rewrite upd_ne by lia. rewrite write_bytes_app. apply write_bytes_out. lia.
      - replace (buf + Z.of_nat (length s)) with (buf + Z.of_nat (length s + 1) - 1) by lia.
        apply upd_eq. }
    split; [done|]. split.
    + intros x Hx. unfold m'. rewrite upd_ne by lia. apply write_bytes_out.
      rewrite length_app. simpl. lia.
    + rewrite (aton_dotted fuel m' buf b0 b1 b2 b3 Hok Hc Hf). do 2 f_equal.
      rewrite !Forall_cons in Hok. destruct Hok as (H0 & H1 & H2 & H3 & _).
      rewrite lwip_htonl_bytes by done. unfold b0, b1, b2, b3. dm.
  - intros Hl. destruct N2 as [m' ->]; [lia|]. eauto.
Qed.

Lemma ntoa_aton_witness :
  let s := dotted (u32_bytes 0x0100007f) in
  (length s <= 15)%nat /\
  (Z.of_nat (length s) < 16 ->
     exists m', ip4addr_ntoa_r (fun _ => 1) 0x0100007f 100 16 = Some (m', 100) /\ cstr m' 100 s /\
       (forall x, x < 100 \/ 100 + Z.of_nat (length s) < x -> m' x = 1) /\
       ip4addr_aton 5 m' 100 = Some (Some 0x0100007f)) /\
  (16 <= Z.of_nat (length s) ->
     exists m', ip4addr_ntoa_r (fun _ => 1) 0x0100007f 100 16 = Some (m', NULL)).
Proof. apply (ntoa_aton_roundtrip (fun _ => 1) 0x0100007f 100 16 5); lia. Defined.

(** The value of a number too large for 32 bits is its remainder. *)
Lemma aton_digits_wrap m ds t val cp fuel :
  Forall is_digit ds -> bytes_at m cp (S (length ds)) = ds ++ [t] -> t = 46 \/ t = 0 ->
  (length ds < fuel)%nat ->
  aton_digits fuel m 10 (u32 val) cp
  = Some (u32 (fold_left (fun acc c => 10 * acc + (c - 48)) ds val), cp + Z.of_nat (length ds)).
Proof.
  revert val cp fuel. induction ds as [|d ds IH]; intros val cp fuel Hd Hm Ht Hf;
    (destruct fuel as [|fuel]; [simpl in Hf; lia|]).
  - simpl in Hm. injection Hm as Hm. rewrite aton_digits_stop by (rewrite Hm; auto).
    simpl. by rewrite Z.add_0_r.
  - inversion Hd; subst. change (S (length (d :: ds))) with (S (S (length ds))) in Hm.
    cbn [bytes_at app] in Hm. injection Hm as E Hm. unfold is_digit in *.
    unfold aton_digits. cbn [loop]. rewrite E, isdigit_spec by lia.
    fold (aton_digits fuel m 10 (u32 (u32 (u32 val * 10) + u32 (d - 48))) (cp + 1)).
    replace (u32 (u32 (u32 val * 10) + u32 (d - 48))) with (u32 (10 * val + (d - 48))).
    2:{ unfold u32. rewrite Z.mul_mod_idemp_l, <- Z.add_mod by lia. f_equal. lia. }
    rewrite IH by (auto; simpl in Hf; lia). simpl. do 2 f_equal. lia.
Qed.

(** [ip4addr_aton] does not notice numbers that do not fit 32 bits: a
    single decimal number without a leading zero is accepted whatever its size
    and stands for its remainder modulo 2^32. *)
Theorem aton_accepts_overflow (m : memory) (cp : Z) (ds : list Z) (fuel : nat)
    (Hd : Forall is_digit ds) (Hne : ds <> []) (H0 : hd 0 ds <> 48) (Hs : cstr m cp ds)
    (Hf : (length ds < fuel)%nat) :
  ip4addr_aton fuel m cp = Some (Some (lwip_htonl (u32 (msd_val ds)))).
Proof.
  destruct Hs as (Hm & Hz & _).
  assert (Hm' : bytes_at m cp (S (length ds)) = ds ++ [0]).
  { rewrite <- Nat.add_1_r, bytes_at_app, Hm. cbn [bytes_at]. by rewrite Hz. }
  unfold ip4addr_aton, aton_parts. destruct fuel as [|fuel]; [lia|]. cbn [loop].
  destruct ds as [|d ds]; [done|]. cbn [hd] in H0. inversion Hd; subst. unfold is_digit in *.
  assert (Ed : m cp = d) by (cbn [length bytes_at] in Hm; congruence).
  unfold aton_base. rewrite Ed, isdigit_spec by lia. cbn [negb].
  destruct (Z.eqb_spec d 48); [lia|].
  pose proof (aton_digits_wrap m (d :: ds) 0 0 cp (S fuel) Hd Hm' ltac:(auto) Hf) as Hw.
  change (u32 0) with 0 in Hw. rewrite Hw, Hz. cbn [Z.eqb]. rewrite Hz. done.
Qed.

(** The string 4294967297 is accepted as 0.0.0.1. *)
Lemma aton_overflow_witness :
  let ds := [52; 50; 57; 52; 57; 54; 55; 50; 57; 55] in
  ip4addr_aton 11 (write_bytes (fun _ => 0) 10 ds) 10 = Some (Some (lwip_htonl (u32 (msd_val ds)))) /\
  u32 (msd_val ds) = 1.
Proof.
  split; [|reflexivity].
  apply (aton_accepts_overflow (write_bytes (fun _ => 0) 10 [52; 50; 57; 52; 57; 54; 55; 50; 57; 55])
           10 [52; 50; 57; 52; 57; 54; 55; 50; 57; 55] 11).
  - unfold is_digit. repeat constructor; lia.
  - discriminate.
  - discriminate.
  - repeat split; repeat constructor; discriminate.
  - simpl. lia.
Defined.
