(* ===== verification/Alloc.v ===== *)
(** * The interface of an allocator

    What the heap of [core/mem.c] and the pools of [core/memp.c] promise to
    their clients: the regions a client holds are non-null, aligned, inside the
    address space and pairwise disjoint, an allocation adds a region or returns
    [NULL] and leaves the held regions alone, and freeing a held region gives
    back exactly that one.  [core/pbuf.c] is proved against this interface. *)

From Stdlib Require Import ZArith Lia.
From stdpp Require Import base tactics numbers list.
From S2P Require Import Prelude.

(** A region: its address and its number of bytes. *)
Definition region : Type := Z * Z.

Definition separate (x y : region) : Prop := x.1 + x.2 <= y.1 \/ y.1 + y.2 <= x.1.

Definition region_ok (x : region) : Prop :=
  0 < x.1 /\ x.1 mod 4 = 0 /\ 0 <= x.2 /\ x.1 + x.2 < 4294967296.

(** Pairwise disjoint regions. *)
Fixpoint all_separate (L : list region) : Prop :=
  match L with
  | [] => True
  | x :: L => Forall (separate x) L /\ all_separate L
  end.

Lemma separate_sym x y : separate x y -> separate y x.
Proof. unfold separate. tauto. Qed.

Lemma all_separate_perm L L' : L ≡ₚ L' -> all_separate L -> all_separate L'.
Proof.
  induction 1 as [|x L L' HP IH|x y L|L1 L2 L3 H1 IH1 H2 IH2]; simpl; auto.
  - intros [Hx HL]. split; [by rewrite <- HP|auto].
  - intros [Hy [Hx HL]]. inversion Hy; subst. split; [|split; auto].
    constructor; auto using separate_sym.
Qed.

#[global] Instance all_separate_proper : Proper ((≡ₚ) ==> iff) all_separate.
Proof. intros L L' HP. split; apply all_separate_perm; [done|by symmetry]. Qed.

Lemma all_separate_in L x y : all_separate L -> x ∈ L -> y ∈ L -> x = y \/ separate x y.
Proof.
  induction L as [|z L IH]; [inversion 2|]. intros [Hz HL] Hx Hy. rewrite Forall_forall in Hz.
  apply elem_of_cons in Hx as [->|Hx], Hy as [->|Hy]; auto using separate_sym.
Qed.

Lemma all_separate_app L L' :
  all_separate (L ++ L') <->
  all_separate L /\ all_separate L' /\ Forall (fun x => Forall (separate x) L') L.
Proof.
  induction L as [|x L IH]; simpl.
  - split; [intros H; split; [done|split; [done|constructor]]|tauto].
  - rewrite IH, Forall_app, Forall_cons. tauto.
Qed.

(** A part of a held region is as separate as the region. *)
Lemma separate_shrink x n y : n <= x.2 -> separate x y -> separate (x.1, n) y.
Proof. unfold separate. simpl. lia. Qed.

(** [malloc a n] is the allocation of [n] bytes ([None] is a walk that does not
    end), [free a p] gives a region back, [fits n] is a size that can be asked
    for and [owns a L] says that the regions [L] are held by the client. *)
Class Allocator (A : Type) (malloc : A -> Z -> option (A * Z)) (free : A -> Z -> A)
    (fits : Z -> Prop) (owns : A -> list region -> Prop) : Prop := {
  owns_perm : forall a, Proper ((≡ₚ) ==> iff) (owns a);
  owns_ok : forall a L, owns a L -> Forall region_ok L /\ all_separate L;
  malloc_owns : forall a L n, owns a L -> fits n ->
    exists a' p, malloc a n = Some (a', p) /\
      ((p = NULL /\ owns a' L) \/ (p <> NULL /\ owns a' ((p, n) :: L)));
  free_owns : forall a L p n, owns a ((p, n) :: L) -> owns (free a p) L
}.

#[export] Existing Instance owns_perm.

(** An allocator that can shrink a held region in place. *)
Class Shrinking (A : Type) (trim : A -> Z -> Z -> A * Z) (fits : Z -> Prop)
    (owns : A -> list region -> Prop) : Prop := {
  trim_owns : forall a L p n k, owns a ((p, n) :: L) -> fits k -> k <= n ->
    exists a', trim a p k = (a', p) /\ owns a' ((p, k) :: L)
}.
