(* ===== verification/Mem.v ===== *)
(** * [core/mem.c]: the heap

    The allocator that the configuration selects: neither [MEM_LIBC_MALLOC] nor
    [MEM_USE_POOLS], [MEM_SIZE] = 24000, [MEM_ALIGNMENT] = 4, [NO_SYS] = 1 (the
    mutex and the protection macros are empty) and [MEM_STATS] = 1.  [LWIP_ASSERT]
    does nothing in this configuration ([LWIP_PLATFORM_ASSERT] is empty).

    The [struct mem] headers inside [ram] are kept in a finite map from their
    offset in [ram]; [ram] itself is the (aligned) address of offset 0. *)

From Stdlib Require Import ZArith Lia.
From stdpp Require Import base tactics numbers list gmap.
From S2P Require Import Prelude.
From S2P Require Import Alloc.

(** ** Constants *)

Definition MEM_SIZE : Z := 24000.
Definition MIN_SIZE : Z := 12.
(** [sizeof (struct mem)]: two [mem_size_t] ([u16_t]) and a [u8_t]. *)
Definition sizeof_struct_mem : Z := 6.
Definition MIN_SIZE_ALIGNED : Z := LWIP_MEM_ALIGN_SIZE MIN_SIZE.
Definition SIZEOF_STRUCT_MEM : Z := LWIP_MEM_ALIGN_SIZE sizeof_struct_mem.
Definition MEM_SIZE_ALIGNED : Z := LWIP_MEM_ALIGN_SIZE MEM_SIZE.

(** ** State *)

(** [struct mem]; [next] and [prev] are offsets in [ram]. *)
Record mem := mk_mem { next : Z; prev : Z; used : Z }.

(** [struct stats_mem] of [lwip/stats.h]: all fields are 16 bits wide. *)
Record stats_mem := mk_stats {
  st_err : Z; st_avail : Z; st_used : Z; st_max : Z; st_illegal : Z
}.

Record heap := mk_heap {
  ram : Z;
  hdrs : gmap Z mem;
  lfree : Z;
  stats : stats_mem
}.

(** The header at an offset; memory that was never written as a header has some
    value, and the invariant shows that no operation reads it. *)
Definition hdr (h : heap) (off : Z) : mem := default (mk_mem 0 0 0) (hdrs h !! off).

Definition set_hdr (h : heap) (off : Z) (x : mem) : heap :=
  mk_heap (ram h) (<[off := x]> (hdrs h)) (lfree h) (stats h).
Definition set_next (h : heap) (off v : Z) : heap :=
  set_hdr h off (mk_mem v (prev (hdr h off)) (used (hdr h off))).
Definition set_prev (h : heap) (off v : Z) : heap :=
  set_hdr h off (mk_mem (next (hdr h off)) v (used (hdr h off))).
Definition set_used (h : heap) (off v : Z) : heap :=
  set_hdr h off (mk_mem (next (hdr h off)) (prev (hdr h off)) v).
Definition set_lfree (h : heap) (v : Z) : heap := mk_heap (ram h) (hdrs h) v (stats h).
Definition set_stats (h : heap) (s : stats_mem) : heap := mk_heap (ram h) (hdrs h) (lfree h) s.

(** [MEM_STATS_INC_USED], [MEM_STATS_DEC_USED], [MEM_STATS_INC(err)] and
    [MEM_STATS_INC(illegal)]. *)
Definition stats_inc_used (h : heap) (y : Z) : heap :=
  let s := stats h in
  let u := u16 (st_used s + y) in
  set_stats h (mk_stats (st_err s) (st_avail s) u
                 (if st_max s <? u then u else st_max s) (st_illegal s)).
Definition stats_dec_used (h : heap) (y : Z) : heap :=
  let s := stats h in
  set_stats h (mk_stats (st_err s) (st_avail s) (u16 (st_used s - y)) (st_max s) (st_illegal s)).
Definition stats_inc_err (h : heap) : heap :=
  let s := stats h in
  set_stats h (mk_stats (u16 (st_err s + 1)) (st_avail s) (st_used s) (st_max s) (st_illegal s)).
Definition stats_inc_illegal (h : heap) : heap :=
  let s := stats h in
  set_stats h (mk_stats (st_err s) (st_avail s) (st_used s) (st_max s) (u16 (st_illegal s + 1))).

(** ** Operations *)

(** [plug_holes(mem)], [mem] given by its offset. *)
Definition plug_holes (h : heap) (mem : Z) : heap :=
  (* plug hole forward *)
  let nmem := next (hdr h mem) in
  let h :=
    if negb (mem =? nmem) && (used (hdr h nmem) =? 0) && negb (nmem =? MEM_SIZE_ALIGNED) then
      let h := if lfree h =? nmem then set_lfree h mem else h in
      let h := set_next h mem (next (hdr h nmem)) in
      set_prev h (next (hdr h nmem)) (u16 mem)
    else h in
  (* plug hole backward *)
  let pmem := prev (hdr h mem) in
  if negb (pmem =? mem) && (used (hdr h pmem) =? 0) then
    let h := if lfree h =? mem then set_lfree h pmem else h in
    let h := set_next h pmem (next (hdr h mem)) in
    set_prev h (next (hdr h mem)) (u16 pmem)
  else h.

(** [mem_init]: [ram_heap] is the address of the static array and [s] the
    statistics before the call. *)
Definition mem_init (ram_heap : Z) (s : stats_mem) : heap :=
  let h := mk_heap (LWIP_MEM_ALIGN ram_heap) ∅ 0 s in
  let h := set_hdr h 0 (mk_mem MEM_SIZE_ALIGNED 0 0) in
  let h := set_hdr h MEM_SIZE_ALIGNED (mk_mem MEM_SIZE_ALIGNED MEM_SIZE_ALIGNED 1) in
  let h := set_lfree h 0 in
  set_stats h (mk_stats (st_err s) MEM_SIZE_ALIGNED (st_used s) (st_max s) (st_illegal s)).

(** [mem_free(rmem)]; the bounds are compared as machine addresses. *)
Definition mem_free (h : heap) (rmem : Z) : heap :=
  if rmem =? NULL then h
  else if (rmem <? ram h) || (ram h + MEM_SIZE_ALIGNED <=? rmem) then stats_inc_illegal h
  else
    let mem := rmem - ram h - SIZEOF_STRUCT_MEM in
    let h := set_used h mem 0 in
    let h := if mem <? lfree h then set_lfree h mem else h in
    let h := stats_dec_used h (next (hdr h mem) - u16 mem) in
    plug_holes h mem.

(** [mem_trim(rmem, newsize)]: the heap and the returned pointer. *)
Definition mem_trim (h : heap) (rmem newsize : Z) : heap * Z :=
  let newsize := u16 (LWIP_MEM_ALIGN_SIZE newsize) in
  let newsize := if newsize <? MIN_SIZE_ALIGNED then MIN_SIZE_ALIGNED else newsize in
  if MEM_SIZE_ALIGNED <? newsize then (h, NULL)
  else if (rmem <? ram h) || (ram h + MEM_SIZE_ALIGNED <=? rmem) then (stats_inc_illegal h, rmem)
  else
    let mem := rmem - ram h - SIZEOF_STRUCT_MEM in
    let ptr := u16 mem in
    let size := u16 (next (hdr h mem) - ptr - SIZEOF_STRUCT_MEM) in
    if size <? newsize then (h, NULL)
    else if newsize =? size then (h, rmem)
    else
      let mem2 := next (hdr h mem) in
      if used (hdr h mem2) =? 0 then
        (* move the following free header *)
        let nxt := next (hdr h mem2) in
        let ptr2 := u16 (ptr + SIZEOF_STRUCT_MEM + newsize) in
        let h := if lfree h =? mem2 then set_lfree h ptr2 else h in
        let h := set_used h ptr2 0 in
        let h := set_next h ptr2 nxt in
        let h := set_prev h ptr2 ptr in
        let h := set_next h mem ptr2 in
        let h := if negb (next (hdr h ptr2) =? MEM_SIZE_ALIGNED)
                 then set_prev h (next (hdr h ptr2)) ptr2 else h in
        (stats_dec_used h (size - newsize), rmem)
      else if newsize + SIZEOF_STRUCT_MEM + MIN_SIZE_ALIGNED <=? size then
        (* cut a free block off the end *)
        let ptr2 := u16 (ptr + SIZEOF_STRUCT_MEM + newsize) in
        let h := if ptr2 <? lfree h then set_lfree h ptr2 else h in
        let h := set_used h ptr2 0 in
        let h := set_next h ptr2 (next (hdr h mem)) in
        let h := set_prev h ptr2 ptr in
        let h := set_next h mem ptr2 in
        let h := if negb (next (hdr h ptr2) =? MEM_SIZE_ALIGNED)
                 then set_prev h (next (hdr h ptr2)) ptr2 else h in
        (stats_dec_used h (size - newsize), rmem)
      else (h, rmem).

(** Enough for a walk over all headers: each block takes at least 20 bytes. *)
Definition mem_fuel : nat := 1300.

(** The search of [mem_malloc] from the lowest free block: the offset of the
    first free block that is big enough, or [None] when the loop ends.  The room
    of a block is an [unsigned int] expression. *)
Definition mem_search (h : heap) (size : Z) : option (option Z) :=
  loop mem_fuel (fun ptr =>
    if ptr <? MEM_SIZE_ALIGNED - size then
      if (used (hdr h ptr) =? 0) && (size <=? u32 (next (hdr h ptr) - (ptr + SIZEOF_STRUCT_MEM)))
      then inr (Some ptr) else inl (next (hdr h ptr))
    else inr None) (lfree h).

(** The walk that finds the new lowest free block. *)
Definition mem_next_free (h : heap) : option Z :=
  loop mem_fuel (fun cur =>
    if negb (used (hdr h cur) =? 0) && negb (cur =? MEM_SIZE_ALIGNED)
    then inl (next (hdr h cur)) else inr cur) (lfree h).

(** The part of [mem_malloc] that takes the block found at [ptr]. *)
Definition mem_take (h : heap) (ptr size : Z) : heap :=
  if size + SIZEOF_STRUCT_MEM + MIN_SIZE_ALIGNED
     <=? u32 (next (hdr h ptr) - (ptr + SIZEOF_STRUCT_MEM)) then
    (* split the block *)
    let ptr2 := u16 (ptr + SIZEOF_STRUCT_MEM + size) in
    let h := set_used h ptr2 0 in
    let h := set_next h ptr2 (next (hdr h ptr)) in
    let h := set_prev h ptr2 ptr in
    let h := set_next h ptr ptr2 in
    let h := set_used h ptr 1 in
    let h := if negb (next (hdr h ptr2) =? MEM_SIZE_ALIGNED)
             then set_prev h (next (hdr h ptr2)) ptr2 else h in
    stats_inc_used h (size + SIZEOF_STRUCT_MEM)
  else
    let h := set_used h ptr 1 in
    stats_inc_used h (next (hdr h ptr) - u16 ptr).

(** [mem_malloc(size)]: [None] is out of fuel, otherwise the heap and the
    returned pointer. *)
Definition mem_malloc (h : heap) (size : Z) : option (heap * Z) :=
  if size =? 0 then Some (h, NULL)
  else
    let size := u16 (LWIP_MEM_ALIGN_SIZE size) in
    let size := if size <? MIN_SIZE_ALIGNED then MIN_SIZE_ALIGNED else size in
    if MEM_SIZE_ALIGNED <? size then Some (h, NULL)
    else
      match mem_search h size with
      | None => None
      | Some None => Some (stats_inc_err h, NULL)
      | Some (Some ptr) =>
          let h := mem_take h ptr size in
          if ptr =? lfree h then
            match mem_next_free h with
            | None => None
            | Some cur => Some (set_lfree h cur, ram h + ptr + SIZEOF_STRUCT_MEM)
            end
          else Some (h, ram h + ptr + SIZEOF_STRUCT_MEM)
      end.

(** [mem_calloc(count, size)]: the product is computed as an [int] and passed as
    a [mem_size_t]; the memory is cleared over the full product. *)
Definition mem_calloc (h : heap) (m : memory) (count size : Z) : option (heap * memory * Z) :=
  match mem_malloc h (u16 (count * size)) with
  | None => None
  | Some (h, p) =>
      if p =? NULL then Some (h, m, p)
      else Some (h, write_bytes m p (replicate (Z.to_nat (count * size)) 0), p)
  end.

(** ** The heap as a list of blocks

    The abstract heap: the blocks in address order, each with its length
    (header included) and whether it is in use. *)

Definition block : Type := Z * bool.

Definition END : Z := 24000.
Definition HDR : Z := 8.
Definition MINB : Z := 20.

Lemma MEM_SIZE_ALIGNED_eq : MEM_SIZE_ALIGNED = END.
Proof. reflexivity. Qed.
Lemma SIZEOF_STRUCT_MEM_eq : SIZEOF_STRUCT_MEM = HDR.
Proof. reflexivity. Qed.
Lemma MIN_SIZE_ALIGNED_eq : MIN_SIZE_ALIGNED = 12.
Proof. reflexivity. Qed.
#[export] Hint Rewrite MEM_SIZE_ALIGNED_eq SIZEOF_STRUCT_MEM_eq MIN_SIZE_ALIGNED_eq : lwip.

(** The bytes of a list of blocks, and of its used blocks. *)
Fixpoint total (bs : list block) : Z :=
  match bs with [] => 0 | (len, _) :: r => len + total r end.
Fixpoint used_total (bs : list block) : Z :=
  match bs with [] => 0 | (len, u) :: r => (if (u : bool) then len else 0) + used_total r end.

Definition all_used (bs : list block) : bool := forallb snd bs.

(** The offset of the first free block, or the end of the list. *)
Fixpoint first_free (off : Z) (bs : list block) : Z :=
  match bs with
  | [] => off
  | (len, u) :: r => if (u : bool) then first_free (off + len) r else off
  end.

(** No two adjacent free blocks, [pf] saying that the block before is free. *)
Fixpoint no_holes (pf : bool) (bs : list block) : Prop :=
  match bs with
  | [] => True
  | (_, u) :: r => ~ (pf = true /\ u = false) /\ no_holes (negb u) r
  end.

Definition last_free (pf : bool) (bs : list block) : bool :=
  fold_left (fun _ b => negb (snd b)) bs pf.

(** First fit: the offset of the first free block with room for [size] bytes. *)
Fixpoint first_fit (size off : Z) (bs : list block) : option Z :=
  match bs with
  | [] => None
  | (len, u) :: r =>
      if negb u && (size <=? len - HDR) then Some off else first_fit size (off + len) r
  end.

(** Taking [size] bytes of a free block: the rest becomes a free block when it
    can hold a header and 12 bytes. *)
Definition split_block (size len : Z) : list block :=
  if size + HDR + 12 <=? len - HDR then [(size + HDR, true); (len - (size + HDR), false)]
  else [(len, true)].

(** Merging adjacent free blocks. *)
Fixpoint coalesce (bs : list block) : list block :=
  match bs with
  | [] => []
  | (len, u) :: r =>
      match u, coalesce r with
      | false, (len2, false) :: r2 => (len + len2, false) :: r2
      | _, r' => (len, u) :: r'
      end
  end.

(** [seg F off pv bs e ep]: the headers [F] from offset [off] to [e] are those
    of the blocks [bs]; [pv] is the offset of the block before, [ep] of the last. *)
Fixpoint seg (F : Z -> mem) (off pv : Z) (bs : list block) (e ep : Z) : Prop :=
  match bs with
  | [] => off = e /\ pv = ep
  | (len, u) :: r =>
      F off = mk_mem (off + len) pv (if u : bool then 1 else 0) /\
      MINB <= len /\ len mod 4 = 0 /\ seg F (off + len) off r e ep
  end.

(** The heap [h] holds the blocks [bs]. *)
Record heap_rep (h : heap) (bs : list block) : Prop := {
  rep_ram : ram h mod 4 = 0 /\ 0 < ram h /\ ram h + END + 16 < 4294967296;
  rep_chain : exists ep, seg (hdr h) 0 0 bs END ep;
  rep_end : used (hdr h END) = 1 /\ next (hdr h END) = END;
  rep_holes : no_holes false bs;
  rep_lfree : lfree h = first_free 0 bs;
  rep_stats : st_used (stats h) = used_total bs
}.

(** The type invariant of the heap. *)
Definition heap_ok (h : heap) : Prop := exists bs, heap_rep h bs.

(** ** Lemmas on block lists *)

Lemma total_app l r : total (l ++ r) = total l + total r.
Proof. induction l as [|[len u] l IH]; simpl; [done|]. rewrite IH. lia. Qed.
Lemma used_total_app l r : used_total (l ++ r) = used_total l + used_total r.
Proof. induction l as [|[len u] l IH]; simpl; [done|]. rewrite IH. lia. Qed.

Lemma first_free_app off l r :
  first_free off (l ++ r) = if all_used l then first_free (off + total l) r else first_free off l.
Proof.
  revert off. induction l as [|[len [|]] l IH]; intros off; simpl.
  - by rewrite Z.add_0_r.
  - rewrite IH. destruct (all_used l); [f_equal; lia|done].
  - done.
Qed.

Lemma no_holes_app pf l r :
  no_holes pf (l ++ r) <-> no_holes pf l /\ no_holes (last_free pf l) r.
Proof.
  revert pf. induction l as [|[len u] l IH]; intros pf; simpl; [tauto|]. rewrite IH. tauto.
Qed.

Lemma last_free_app pf l r : last_free pf (l ++ r) = last_free (last_free pf l) r.
Proof. apply fold_left_app. Qed.

Lemma no_holes_weaken pf bs : no_holes pf bs -> no_holes false bs.
Proof. destruct bs as [|[len u] r]; simpl; [done|]. intuition discriminate. Qed.

(** ** Lemmas on segments *)

Lemma seg_total F off pv bs e ep :
  seg F off pv bs e ep ->
  e = off + total bs /\ 0 <= used_total bs <= total bs /\ (bs = [] \/ MINB <= total bs).
Proof.
  revert off pv. induction bs as [|[len u] r IH]; intros off pv; simpl.
  - intros [-> _]. split; [lia|]. split; [lia|auto].
  - intros (_ & Hl & _ & Hr). apply IH in Hr as (He & Ht & _). unfold MINB in *.
    split; [lia|]. split; [destruct u; lia|right; lia].
Qed.

Lemma seg_app F off pv l r e ep :
  seg F off pv (l ++ r) e ep <-> exists m mp, seg F off pv l m mp /\ seg F m mp r e ep.
Proof.
  revert off pv. induction l as [|[len u] l IH]; intros off pv; simpl.
  - split; [eauto|]. by intros (m & mp & [-> ->] & ?).
  - rewrite IH. split.
    + intros (H1 & H2 & H3 & m & mp & H4 & H5). exists m, mp. auto.
    + intros (m & mp & (H1 & H2 & H3 & H4) & H5). repeat split; auto. eauto.
Qed.

Lemma seg_frame F F' off pv bs e ep :
  seg F off pv bs e ep -> (forall k, off <= k < e -> F' k = F k) -> seg F' off pv bs e ep.
Proof.
  revert off pv. induction bs as [|[len u] r IH]; intros off pv Hs Hf; simpl in *; [done|].
  destruct Hs as (H1 & H2 & H3 & H4). unfold MINB in *.
  pose proof (seg_total _ _ _ _ _ _ H4) as (He & Ht & _). repeat split; auto.
  - rewrite Hf by lia. done.
  - apply IH; auto. intros k Hk. apply Hf. lia.
Qed.

(** Changing the [prev] field of the first header of a segment. *)
Lemma seg_relink F F' off pv pv' bs e ep :
  seg F off pv bs e ep ->
  (bs <> [] -> F' off = mk_mem (next (F off)) pv' (used (F off))) ->
  (forall k, off < k < e -> F' k = F k) ->
  exists ep', seg F' off pv' bs e ep'.
Proof.
  destruct bs as [|[len u] r]; simpl.
  - intros [-> ->] _ _. eauto.
  - intros (H1 & H2 & H3 & H4) Hh Hf. exists ep. rewrite Hh, H1 by done.
    repeat split; auto. unfold MINB in *.
    pose proof (seg_total _ _ _ _ _ _ H4) as (He & Ht & _).
    eapply seg_frame; [exact H4|]. intros k Hk. apply Hf. lia.
Qed.

(** The offset of the last block of a segment. *)
Lemma seg_last F off pv bs e ep : seg F off pv bs e ep -> bs <> [] -> off <= ep < e.
Proof.
  revert off pv. induction bs as [|[len u] r IH]; intros off pv Hs Hne; [done|].
  simpl in Hs. destruct Hs as (H1 & H2 & H3 & H4). unfold MINB in *.
  pose proof (seg_total _ _ _ _ _ _ H4) as (He & Ht & _).
  destruct r; simpl in *; [lia|]. apply IH in H4; [lia|done].
Qed.

Lemma seg_mod F off pv bs e ep : seg F off pv bs e ep -> off mod 4 = 0 -> e mod 4 = 0.
Proof.
  revert off pv. induction bs as [|[len u] r IH]; intros off pv Hs Hm; simpl in *.
  - by destruct Hs as [-> _].
  - destruct Hs as (_ & _ & H3 & H4). apply (IH _ _ H4). rewrite Z.add_mod, Hm, H3 by lia. done.
Qed.

(** The header of a block inside a segment. *)
Lemma seg_mid F pv l len u r e ep off :
  seg F off pv (l ++ (len, u) :: r) e ep ->
  exists mp, seg F off pv l (off + total l) mp /\
    F (off + total l) = mk_mem (off + total l + len) mp (if u then 1 else 0) /\
    MINB <= len /\ len mod 4 = 0 /\ seg F (off + total l + len) (off + total l) r e ep.
Proof.
  rewrite seg_app. intros (m & mp & Hl & Hr). pose proof (seg_total _ _ _ _ _ _ Hl) as (-> & _).
  simpl in Hr. exists mp. tauto.
Qed.

(** ** Reading and writing headers *)

Lemma hdr_set_hdr h a x k : hdr (set_hdr h a x) k = if k =? a then x else hdr h k.
Proof.
  unfold hdr, set_hdr. simpl. destruct (Z.eqb_spec k a) as [->|].
  - by rewrite lookup_insert_eq.
  - by rewrite lookup_insert_ne by done.
Qed.
Lemma hdr_set_lfree h v k : hdr (set_lfree h v) k = hdr h k.
Proof. done. Qed.
Lemma hdr_set_stats h s k : hdr (set_stats h s) k = hdr h k.
Proof. done. Qed.
Lemma if_app {A B} (f : A -> B) (b : bool) x y : f (if b then x else y) = if b then f x else f y.
Proof. by destruct b. Qed.

(** The writes that put a new free header at [p2] between [ptr] and [nx]: the
    splits of [mem_malloc] and of [mem_trim] end with them. *)
Definition link_free (h : heap) (ptr p2 nx : Z) : heap :=
  let h := set_used h p2 0 in
  let h := set_next h p2 nx in
  let h := set_prev h p2 ptr in
  let h := set_next h ptr p2 in
  if negb (next (hdr h p2) =? MEM_SIZE_ALIGNED) then set_prev h (next (hdr h p2)) p2 else h.

Lemma link_free_hdr h ptr p2 nx k :
  p2 <> ptr -> nx <> p2 -> nx <> ptr ->
  hdr (link_free h ptr p2 nx) k =
  if k =? p2 then mk_mem nx ptr 0
  else if k =? ptr then mk_mem p2 (prev (hdr h ptr)) (used (hdr h ptr))
  else if (k =? nx) && negb (nx =? END) then mk_mem (next (hdr h nx)) p2 (used (hdr h nx))
  else hdr h k.
Proof.
  intros H1 H2 H3. unfold link_free. cbv zeta. rewrite (if_app (fun h => hdr h k)).
  unfold set_prev, set_next, set_used. repeat (rewrite hdr_set_hdr; cbn [next prev used]).
  rewrite MEM_SIZE_ALIGNED_eq, !Z.eqb_refl. cbn [next prev used].
  destruct (Z.eqb_spec ptr p2); [congruence|]. destruct (Z.eqb_spec p2 ptr); [congruence|].
  cbn [next prev used]. destruct (Z.eqb_spec nx END); cbn [negb]; rewrite ?andb_false_r, ?andb_true_r.
  - destruct (Z.eqb_spec k ptr), (Z.eqb_spec k p2); subst; congruence.
  - destruct (Z.eqb_spec nx p2); [congruence|]. destruct (Z.eqb_spec nx ptr); [congruence|].
    destruct (Z.eqb_spec k ptr), (Z.eqb_spec k p2), (Z.eqb_spec k nx); subst; congruence.
Qed.

Lemma link_free_other h ptr p2 nx :
  ram (link_free h ptr p2 nx) = ram h /\ lfree (link_free h ptr p2 nx) = lfree h /\
  stats (link_free h ptr p2 nx) = stats h.
Proof. unfold link_free. cbv zeta. by destruct (negb _). Qed.

(** The header writes of [mem_malloc] on a block it splits. *)
Lemma mem_take_split_hdr h ptr size len mp k :
  hdr h ptr = mk_mem (ptr + len) mp 0 -> 0 <= ptr -> 0 <= size -> ptr + len <= END ->
  size + HDR + 12 <= len - HDR ->
  let p2 := ptr + HDR + size in
  hdr (mem_take h ptr size) k =
  if k =? p2 then mk_mem (ptr + len) ptr 0
  else if k =? ptr then mk_mem p2 mp 1
  else if (k =? ptr + len) && negb (ptr + len =? END)
  then mk_mem (next (hdr h (ptr + len))) p2 (used (hdr h (ptr + len)))
  else hdr h k.
Proof.
  intros Eh Hp Hs He Hf p2. unfold mem_take.
  rewrite MEM_SIZE_ALIGNED_eq, SIZEOF_STRUCT_MEM_eq, MIN_SIZE_ALIGNED_eq, Eh. cbn [next].
  unfold END, HDR in *. rewrite (u32_small (ptr + len - (ptr + 8))) by lia.
  rewrite (proj2 (Z.leb_le _ _)) by lia.
  rewrite (u16_small (ptr + 8 + size)) by lia. fold p2. cbv zeta.
  assert (H1 : p2 <> ptr) by lia. assert (H2 : ptr + len <> p2) by lia.
  assert (H3 : ptr + len <> ptr) by lia. clearbody p2. clear Hp Hs He Hf.
  unfold stats_inc_used. rewrite hdr_set_stats, (if_app (fun h => hdr h k)).
  set (nx := ptr + len) in *. clearbody nx.
  unfold set_prev, set_next, set_used. repeat (rewrite hdr_set_hdr; cbn [next prev used]).
  rewrite !Z.eqb_refl. cbn [next prev used]. rewrite Eh.
  destruct (Z.eqb_spec ptr p2); [congruence|]. destruct (Z.eqb_spec p2 ptr); [congruence|].
  cbn [next prev used].
  destruct (Z.eqb_spec nx 24000); cbn [negb]; rewrite ?andb_false_r, ?andb_true_r.
  - destruct (Z.eqb_spec k ptr), (Z.eqb_spec k p2); subst; congruence.
  - destruct (Z.eqb_spec nx p2); [congruence|]. destruct (Z.eqb_spec nx ptr); [congruence|].
    destruct (Z.eqb_spec k ptr), (Z.eqb_spec k p2), (Z.eqb_spec k nx); subst; congruence.
Qed.

(** A split block as a segment: the used part, the free rest, what follows. *)
Lemma seg_split F F' m mp pv len a r ep :
  seg F (m + len) pv r END ep ->
  MINB <= a -> a mod 4 = 0 -> MINB <= len - a -> len mod 4 = 0 ->
  (forall k, m <= k < END -> F' k =
     if k =? m + a then mk_mem (m + len) m 0
     else if k =? m then mk_mem (m + a) mp 1
     else if (k =? m + len) && negb (m + len =? END)
     then mk_mem (next (F (m + len))) (m + a) (used (F (m + len)))
     else F k) ->
  exists ep', seg F' m mp ((a, true) :: (len - a, false) :: r) END ep'.
Proof.
  unfold MINB. intros Hr Ha Ha4 Hrest Hlen4 HF. pose proof (seg_total _ _ _ _ _ _ Hr) as (HE & Ht & Hne).
  destruct (seg_relink F F' (m + len) pv (m + a) r END ep Hr) as [ep' Hr'].
  - intros Hne'. rewrite HF by (destruct Hne; [done|unfold MINB in *; lia]).
    destruct Hne as [?|Hne]; [done|]. unfold MINB in *.
    rewrite (proj2 (Z.eqb_neq (m + len) (m + a))) by lia.
    rewrite (proj2 (Z.eqb_neq (m + len) m)) by lia.
    rewrite Z.eqb_refl, (proj2 (Z.eqb_neq (m + len) END)) by lia. done.
  - intros k Hk. rewrite HF by lia.
    rewrite (proj2 (Z.eqb_neq k (m + a))), (proj2 (Z.eqb_neq k m)),
      (proj2 (Z.eqb_neq k (m + len))) by lia. done.
  - exists ep'. cbn [seg]. unfold MINB. rewrite !HF by lia.
    rewrite (proj2 (Z.eqb_neq m (m + a))) by lia. rewrite !Z.eqb_refl.
    replace (m + a + (len - a)) with (m + len) by lia.
    repeat split; auto; try lia. rewrite Zminus_mod, Hlen4, Ha4. done.
Qed.

(** ** [mem_malloc]: taking the block that was found *)

Lemma mem_take_correct h l len r size :
  heap_rep h (l ++ (len, false) :: r) -> 12 <= size -> size mod 4 = 0 -> size <= len - HDR ->
  let h' := mem_take h (total l) size in
  ram h' = ram h /\ lfree h' = lfree h /\
  (exists ep, seg (hdr h') 0 0 (l ++ split_block size len ++ r) END ep) /\
  (used (hdr h' END) = 1 /\ next (hdr h' END) = END) /\
  st_used (stats h') = used_total (l ++ split_block size len ++ r).
Proof.
  intros Hrep H12 Hm4 Hfit h'. pose proof (rep_chain _ _ Hrep) as [ep Hs].
  pose proof (rep_end _ _ Hrep) as [Heu Hen]. pose proof (rep_stats _ _ Hrep) as Hst.
  apply seg_mid in Hs as (mp & Hl & Hh & Hmin & Hlen4 & Hr). rewrite Z.add_0_l in *.
  pose proof (seg_total _ _ _ _ _ _ Hl) as (_ & Hl0 & _).
  pose proof (seg_total _ _ _ _ _ _ Hr) as (HE & Hr0 & Hrne).
  rewrite used_total_app in Hst. simpl in Hst. set (m := total l) in *.
  assert (Hlf : ram h' = ram h /\ lfree h' = lfree h /\
            st_used (stats h') = used_total (l ++ split_block size len ++ r)).
  { subst h'. unfold mem_take, split_block.
    rewrite SIZEOF_STRUCT_MEM_eq, MIN_SIZE_ALIGNED_eq, Hh. cbn [next].
    unfold END, HDR, MINB in *. rewrite (u32_small (m + len - (m + 8))) by lia.
    replace (m + len - (m + 8)) with (len - 8) by lia.
    rewrite used_total_app. destruct (Z.leb_spec (size + 8 + 12) (len - 8)); cbv zeta;
      (split; [done || by destruct (negb _)|split; [done || by destruct (negb _)|]]).
    - match goal with |- context [stats_inc_used ?x _] => set (hh := x) end.
      assert (stats hh = stats h) as Es by (subst hh; by destruct (negb _)).
      unfold stats_inc_used. rewrite Es. cbn [stats set_stats st_used app used_total].
      rewrite u16_small; lia.
    - unfold stats_inc_used. unfold set_used. rewrite hdr_set_hdr, Z.eqb_refl, Hh.
      cbn [stats set_stats st_used set_hdr next prev used app used_total].
      rewrite !u16_small; try lia. rewrite u16_small; lia. }
  destruct Hlf as (Hram & Hlf & Hus). split; [done|]. split; [done|].
  unfold split_block in *. destruct (Z.leb_spec (size + HDR + 12) (len - HDR)) as [Hsp|Hsp].
  - assert (HF := fun k => mem_take_split_hdr h m size len mp k Hh).
    unfold END, HDR, MINB in *. specialize (fun k => HF k ltac:(lia) ltac:(lia) ltac:(lia) ltac:(lia)).
    cbv zeta in HF. fold h' in HF.
    replace (m + 8 + size) with (m + (size + 8)) in HF by lia.
    split; [|split].
    + destruct (seg_split (hdr h) (hdr h') m mp m len (size + 8) r ep) as [ep' Hs']; auto.
      { unfold MINB; lia. } { rewrite Z.add_mod, Hm4 by lia. done. } { unfold MINB; lia. }
      exists ep'. rewrite app_assoc in *. rewrite <- app_assoc. apply seg_app. exists m, mp.
      split; [|exact Hs']. eapply seg_frame; [exact Hl|]. intros k Hk. rewrite HF.
      rewrite (proj2 (Z.eqb_neq k (m + (size + 8)))), (proj2 (Z.eqb_neq k m)),
        (proj2 (Z.eqb_neq k (m + len))) by lia. done.
    + rewrite HF. rewrite (proj2 (Z.eqb_neq 24000 (m + (size + 8)))), (proj2 (Z.eqb_neq 24000 m)) by lia.
      destruct (Z.eqb_spec 24000 (m + len)) as [<-|]; simpl; auto.
    + done.
  - assert (HF : forall k, hdr h' k = if k =? m then mk_mem (m + len) mp 1 else hdr h k).
    { intros k. subst h'. unfold mem_take.
      rewrite SIZEOF_STRUCT_MEM_eq, MIN_SIZE_ALIGNED_eq, Hh. cbn [next].
      unfold END, HDR, MINB in *. rewrite (u32_small (m + len - (m + 8))) by lia.
      rewrite (proj2 (Z.leb_gt _ _)) by lia. cbv zeta. unfold stats_inc_used.
      rewrite hdr_set_stats. unfold set_used. rewrite hdr_set_hdr, Hh. done. }
    unfold END, HDR, MINB in *. split; [|split].
    + exists (match r with [] => m | _ => ep end). apply seg_app. exists m, mp. split.
      { eapply seg_frame; [exact Hl|]. intros k Hk. rewrite HF.
        rewrite (proj2 (Z.eqb_neq k m)) by lia. done. }
      cbn [seg app]. rewrite HF, Z.eqb_refl. unfold MINB. repeat split; auto.
      assert (Hr' : seg (hdr h') (m + len) m r 24000 ep).
      { eapply seg_frame; [exact Hr|]. intros k Hk. rewrite HF.
        rewrite (proj2 (Z.eqb_neq k m)) by lia. done. }
      destruct r; [|done]. simpl in *. lia.
    + rewrite !HF. rewrite (proj2 (Z.eqb_neq 24000 m)) by lia. done.
    + done.
Qed.

(** ** [mem_malloc]: the searches *)

(** First fit on the abstract heap: the offset and the new list. *)
Fixpoint a_malloc (size off : Z) (bs : list block) : option (Z * list block) :=
  match bs with
  | [] => None
  | (len, u) :: r =>
      if negb u && (size <=? len - HDR) then Some (off, split_block size len ++ r)
      else match a_malloc size (off + len) r with
           | None => None
           | Some (p, r') => Some (p, (len, u) :: r')
           end
  end.

Lemma a_malloc_first_fit size off bs : first_fit size off bs = fst <$> a_malloc size off bs.
Proof.
  revert off. induction bs as [|[len u] r IH]; intros off; simpl; [done|].
  destruct (negb u && (size <=? len - HDR)); [done|]. rewrite IH.
  by destruct (a_malloc size (off + len) r) as [[]|].
Qed.

Lemma a_malloc_split size off bs p bs' :
  a_malloc size off bs = Some (p, bs') ->
  exists l len r, bs = l ++ (len, false) :: r /\ bs' = l ++ split_block size len ++ r /\
    p = off + total l /\ size <= len - HDR.
Proof.
  revert off p bs'. induction bs as [|[len u] r IH]; intros off p bs'; simpl; [done|].
  destruct (negb u && (size <=? len - HDR)) eqn:E.
  - intros [= <- <-]. zb. subst. exists [], len, r. simpl. split; [done|].
    split; [done|]. split; lia.
  - destruct (a_malloc size (off + len) r) as [[p1 r1]|] eqn:Er; [|done].
    intros [= <- <-]. destruct (IH _ _ _ Er) as (l & len1 & r2 & -> & -> & -> & Hs).
    exists ((len, u) :: l), len1, r2. simpl. split; [done|]. split; [done|]. split; [lia|done].
Qed.

Lemma first_fit_used size off l r :
  all_used l = true -> first_fit size off (l ++ r) = first_fit size (off + total l) r.
Proof.
  revert off. induction l as [|[len u] l IH]; intros off Hu; simpl in *.
  - by rewrite Z.add_0_r.
  - apply andb_prop in Hu as [-> Hu]. simpl. rewrite IH by done. f_equal. lia.
Qed.

(** A free block that fits in what the rest of the heap can hold. *)
Lemma first_fit_none size off bs F pv ep :
  seg F off pv bs END ep -> END - size <= off -> first_fit size off bs = None.
Proof.
  revert off pv. induction bs as [|[len u] r IH]; intros off pv Hs Hg; simpl in *; [done|].
  destruct Hs as (_ & Hm & _ & Hs). pose proof (seg_total _ _ _ _ _ _ Hs) as (HE & Ht & _).
  unfold MINB, HDR in *.
  rewrite (proj2 (Z.leb_gt size (len - 8))) by lia. rewrite andb_false_r. eapply IH; [done|]. lia.
Qed.

Lemma mem_search_loop h size off pv r ep fuel :
  seg (hdr h) off pv r END ep -> 0 <= off -> (length r < fuel)%nat -> 0 <= size ->
  loop fuel (fun ptr =>
    if ptr <? MEM_SIZE_ALIGNED - size then
      if (used (hdr h ptr) =? 0) && (size <=? u32 (next (hdr h ptr) - (ptr + SIZEOF_STRUCT_MEM)))
      then inr (Some ptr) else inl (next (hdr h ptr))
    else inr None) off = Some (first_fit size off r).
Proof.
  rewrite MEM_SIZE_ALIGNED_eq, SIZEOF_STRUCT_MEM_eq. revert off pv fuel.
  induction r as [|[len u] r IH]; intros off pv fuel Hs Ho Hf Hz;
    (destruct fuel as [|fuel]; [simpl in Hf; lia|]); cbn [loop].
  - simpl in Hs. destruct Hs as [-> _]. by rewrite (proj2 (Z.ltb_ge _ _)) by lia.
  - destruct (Z.ltb_spec off (END - size)) as [Hg|Hg].
    2:{ by rewrite (first_fit_none _ _ _ _ _ _ Hs) by done. }
    simpl in Hs. destruct Hs as (Hh & Hm & _ & Hs). rewrite Hh. cbn [next used].
    pose proof (seg_total _ _ _ _ _ _ Hs) as (HE & Ht & _). unfold MINB, END, HDR in *.
    rewrite u32_small by lia. replace (off + len - (off + 8)) with (len - 8) by lia.
    cbn [first_fit]. unfold HDR. replace ((if u then 1 else 0) =? 0) with (negb u) by by destruct u.
    destruct (negb u && (size <=? len - 8)); [done|]. simpl in Hf. apply (IH _ off); auto; lia.
Qed.

Lemma seg_length F off pv bs ep : seg F off pv bs END ep -> 0 <= off -> (length bs <= 1200)%nat.
Proof.
  intros Hs Ho. assert (H : 20 * Z.of_nat (length bs) <= total bs).
  { revert off pv Hs Ho. induction bs as [|[len u] r IH]; intros off pv Hs Ho; simpl in *; [lia|].
    destruct Hs as (_ & Hm & _ & Hs). unfold MINB in *. apply IH in Hs; lia. }
  apply seg_total in Hs as (HE & _). unfold END in *. lia.
Qed.

(** The blocks before the lowest free one are all used. *)
Lemma first_free_split off bs :
  exists l r, bs = l ++ r /\ all_used l = true /\ first_free off bs = off + total l /\
    (r = [] \/ exists len r', r = (len, false) :: r').
Proof.
  revert off. induction bs as [|[len u] r IH]; intros off.
  - exists [], []. simpl. split; [done|]. split; [done|]. split; [lia|auto].
  - destruct u; simpl.
    + destruct (IH (off + len)) as (l & r' & -> & Hu & Hf & Hr). exists ((len, true) :: l), r'.
      simpl. split; [done|]. split; [done|]. split; [lia|done].
    + exists [], ((len, false) :: r). simpl. split; [done|]. split; [done|]. split; [lia|eauto].
Qed.

Lemma first_free_lt F off pv l e ep :
  seg F off pv l e ep -> all_used l = false -> first_free off l < e.
Proof.
  revert off pv. induction l as [|[len u] l IH]; intros off pv Hs Hu; simpl in *; [done|].
  destruct Hs as (_ & Hm & _ & Hs). pose proof (seg_total _ _ _ _ _ _ Hs) as (HE & Ht & _).
  unfold MINB in *. destruct u; simpl in *; [|lia]. by apply (IH _ _ Hs).
Qed.

Lemma mem_search_correct h bs size :
  heap_rep h bs -> 0 <= size -> mem_search h size = Some (first_fit size 0 bs).
Proof.
  intros Hrep Hz. destruct (rep_chain _ _ Hrep) as [ep Hs].
  destruct (first_free_split 0 bs) as (l & r & -> & Hu & Hf & _).
  unfold mem_search. rewrite (rep_lfree _ _ Hrep), Hf. rewrite first_fit_used by done.
  pose proof (seg_length _ _ _ _ _ Hs ltac:(lia)) as Hlen. rewrite length_app in Hlen.
  apply seg_app in Hs as (m & mp & Hl & Hr). pose proof (seg_total _ _ _ _ _ _ Hl) as (-> & ? & _).
  apply (mem_search_loop h size _ mp _ ep); auto; [lia|]. unfold mem_fuel. lia.
Qed.

Lemma mem_next_free_loop h off pv r ep fuel :
  seg (hdr h) off pv r END ep -> (length r < fuel)%nat -> used (hdr h END) = 1 ->
  loop fuel (fun cur =>
    if negb (used (hdr h cur) =? 0) && negb (cur =? MEM_SIZE_ALIGNED)
    then inl (next (hdr h cur)) else inr cur) off = Some (first_free off r).
Proof.
  rewrite MEM_SIZE_ALIGNED_eq. revert off pv fuel.
  induction r as [|[len u] r IH]; intros off pv fuel Hs Hf He;
    (destruct fuel as [|fuel]; [simpl in Hf; lia|]); cbn [loop].
  - simpl in Hs. destruct Hs as [-> _]. by rewrite He, Z.eqb_refl.
  - simpl in Hs. destruct Hs as (Hh & Hm & _ & Hs). rewrite Hh. cbn [next used].
    pose proof (seg_total _ _ _ _ _ _ Hs) as (HE & Ht & _). unfold MINB in *. simpl in Hf.
    rewrite (proj2 (Z.eqb_neq off END)) by lia. destruct u; simpl; [|done].
    apply (IH _ off); auto; lia.
Qed.

(** ** [mem_malloc] *)

(** The size of the block that is searched for, as [mem_malloc] and [mem_trim]
    compute it in 16 bits. *)
Definition req_size (size : Z) : Z :=
  let s := u16 (LWIP_MEM_ALIGN_SIZE size) in if s <? 12 then 12 else s.

Lemma req_size_mod size : 0 <= size < 65536 -> req_size size mod 4 = 0 /\ 12 <= req_size size.
Proof.
  intros. unfold req_size. rewrite LWIP_MEM_ALIGN_SIZE_eq by lia.
  destruct (Z.ltb_spec (u16 (size + 3 - (size + 3) mod 4)) 12) as [?|Hge]; [done|].
  split; [|done]. unfold u16. dm.
Qed.

Lemma no_holes_split pf len size r :
  no_holes pf ((len, false) :: r) -> no_holes pf (split_block size len ++ r).
Proof.
  unfold split_block. destruct (_ <=? _); simpl; intros [_ H]; (split; [intros []; done|]).
  - split; [intros []; done|done].
  - by apply no_holes_weaken in H.
Qed.

Lemma first_free_split_block off size len r :
  first_free off (split_block size len ++ r)
  = if size + HDR + 12 <=? len - HDR then off + (size + HDR) else first_free (off + len) r.
Proof. unfold split_block. by destruct (_ <=? _). Qed.

Lemma total_split_block size len : total (split_block size len) = len.
Proof. unfold split_block. destruct (_ <=? _); simpl; lia. Qed.

(** The main lemma: [mem_malloc] is first fit on the list of blocks. *)
Lemma mem_malloc_correct h bs size :
  heap_rep h bs -> 0 < size < 65536 -> req_size size <= END ->
  match a_malloc (req_size size) 0 bs with
  | None => mem_malloc h size = Some (stats_inc_err h, NULL)
  | Some (p, bs') =>
      exists h', mem_malloc h size = Some (h', ram h + p + HDR) /\ heap_rep h' bs' /\ ram h' = ram h
  end.
Proof.
  intros Hrep Hsz Hmax. destruct (req_size_mod size ltac:(lia)) as [Hm4 H12].
  unfold mem_malloc. rewrite (proj2 (Z.eqb_neq size 0)) by lia.
  rewrite MIN_SIZE_ALIGNED_eq, SIZEOF_STRUCT_MEM_eq, MEM_SIZE_ALIGNED_eq. cbv zeta.
  fold (req_size size). set (sz := req_size size) in *.
  rewrite (proj2 (Z.ltb_ge END sz)) by lia.
  rewrite (mem_search_correct h bs sz) by (auto; lia). rewrite a_malloc_first_fit.
  destruct (a_malloc sz 0 bs) as [[p bs']|] eqn:Ea; cbn [fmap option_fmap option_map fst]; [|done].
  destruct (a_malloc_split _ _ _ _ _ Ea) as (l & len & r & -> & -> & -> & Hfit).
  rewrite Z.add_0_l. destruct (mem_take_correct h l len r sz Hrep H12 Hm4 Hfit)
    as (Hram & Hlf & [ep Hseg] & Hend & Hst). set (h1 := mem_take h (total l) sz) in *.
  pose proof (rep_holes _ _ Hrep) as Hno. apply no_holes_app in Hno as [Hno1 Hno2].
  pose proof (rep_lfree _ _ Hrep) as Hlf0. rewrite first_free_app in Hlf0.
  destruct (rep_ram _ _ Hrep) as (Hr4 & Hr0 & Hrm).
  assert (Hholes : no_holes false (l ++ split_block sz len ++ r))
    by (apply no_holes_app; split; [done|]; by apply no_holes_split).
  destruct (rep_chain _ _ Hrep) as [ep0 Hs0]. apply seg_mid in Hs0 as (mp0 & Hl & _).
  rewrite Z.add_0_l in Hl.
  assert (Hl0 : 0 <= total l) by (apply seg_total in Hl; lia).
  assert (Hwit : forall lf, lf = first_free 0 (l ++ split_block sz len ++ r) ->
             heap_rep (set_lfree h1 lf) (l ++ split_block sz len ++ r)).
  { intros lf Elf. constructor; simpl; auto; [by rewrite Hram|eauto]. }
  rewrite Hlf. destruct (Z.eqb_spec (total l) (lfree h)) as [E|E].
  - (* the lowest free block was taken: all blocks of l are used *)
    assert (Hu : all_used l = true).
    { destruct (all_used l) eqn:Hu; [done|exfalso].
      pose proof (first_free_lt _ _ _ _ _ _ Hl Hu). lia. }
    unfold mem_next_free. rewrite Hlf, <- E.
    assert (Hsuf : exists mp, seg (hdr h1) (total l) mp (split_block sz len ++ r) END ep).
    { apply seg_app in Hseg as (m & mp & Hs1 & Hs2). apply seg_total in Hs1 as (-> & _). eauto. }
    destruct Hsuf as [mp Hsuf].
    assert (Hlen : (length (split_block sz len ++ r) < mem_fuel)%nat)
      by (apply seg_length in Hsuf; [unfold mem_fuel; lia|done]).
    rewrite (mem_next_free_loop h1 (total l) mp _ ep mem_fuel Hsuf Hlen (proj1 Hend)).
    rewrite Hram. eexists. split; [done|]. split; [|done].
    apply Hwit. by rewrite (first_free_app 0 l), Hu.
  - rewrite Hram. eexists. split; [done|]. split; [|done].
    replace h1 with (set_lfree h1 (lfree h1)) by by destruct h1.
    apply Hwit. rewrite Hlf, Hlf0, (first_free_app 0 l). destruct (all_used l); [|done].
    simpl in Hlf0. lia.
Qed.

(** ** [mem_free] *)

(** The representation without the condition that free blocks are merged. *)
Definition heap_weak (h : heap) (bs : list block) : Prop :=
  (ram h mod 4 = 0 /\ 0 < ram h /\ ram h + END + 16 < 4294967296) /\
  (exists ep, seg (hdr h) 0 0 bs END ep) /\
  (used (hdr h END) = 1 /\ next (hdr h END) = END) /\
  lfree h = first_free 0 bs /\
  st_used (stats h) = used_total bs.

Lemma heap_rep_weak h bs : heap_rep h bs <-> heap_weak h bs /\ no_holes false bs.
Proof.
  split.
  - intros [? ? ? ? ? ?]. unfold heap_weak. tauto.
  - intros [(? & ? & ? & ? & ?) ?]. by constructor.
Qed.

(** The two writes by which [plug_holes] merges the free block at [n] into the
    one at [p]. *)
Definition merge (h : heap) (p n : Z) : heap :=
  let h := set_next h p (next (hdr h n)) in set_prev h (next (hdr h n)) (u16 p).

Lemma merge_hdr h p n k :
  n <> p -> next (hdr h n) <> p -> 0 <= p < 65536 ->
  hdr (merge h p n) k =
  if k =? next (hdr h n)
  then mk_mem (next (hdr h (next (hdr h n)))) p (used (hdr h (next (hdr h n))))
  else if k =? p then mk_mem (next (hdr h n)) (prev (hdr h p)) (used (hdr h p))
  else hdr h k.
Proof.
  intros H1 H2 H3. unfold merge, set_prev, set_next. rewrite u16_small by done.
  repeat (rewrite hdr_set_hdr; cbn [next prev used]).
  rewrite (proj2 (Z.eqb_neq n p) H1). rewrite (proj2 (Z.eqb_neq (next (hdr h n)) p) H2).
  destruct (Z.eqb_spec k (next (hdr h n))); [done|]. by destruct (Z.eqb_spec k p).
Qed.

Lemma first_free_merge l a b r :
  first_free 0 (l ++ (a + b, false) :: r) = first_free 0 (l ++ (a, false) :: (b, false) :: r).
Proof. rewrite !first_free_app. by destruct (all_used l). Qed.

Lemma merge_correct h l a b r :
  heap_weak h (l ++ (a, false) :: (b, false) :: r) ->
  heap_weak (merge h (total l) (total l + a)) (l ++ (a + b, false) :: r).
Proof.
  intros (Hram & [ep Hs] & [Heu Hen] & Hlf & Hst). set (m := total l).
  apply seg_mid in Hs as (mp & Hl & Hh & Ha & Ha4 & Hr). rewrite Z.add_0_l in *. fold m in Hl, Hh, Hr.
  cbn [seg] in Hr. destruct Hr as (Hhb & Hb & Hb4 & Hr). unfold MINB in *.
  pose proof (seg_total _ _ _ _ _ _ Hl) as (_ & Hl0 & _). fold m in Hl0.
  pose proof (seg_total _ _ _ _ _ _ Hr) as (HE & Hr0 & Hrne).
  assert (HF := fun k => merge_hdr h m (m + a) k). rewrite Hhb in HF. cbn [next] in HF.
  unfold END, MINB in *. specialize (fun k => HF k ltac:(lia) ltac:(lia) ltac:(lia)). rewrite Hh in HF.
  cbn [prev used] in HF. set (h' := merge h m (m + a)) in *.
  split; [done|]. split; [|split; [|split]].
  - assert (Hr' : exists ep', seg (hdr h') (m + a + b) m r 24000 ep').
    { eapply (seg_relink (hdr h)); [exact Hr| |].
      - intros Hne. rewrite HF, Z.eqb_refl. done.
      - intros k Hk. rewrite HF, !(proj2 (Z.eqb_neq _ _)) by lia. done. }
    destruct Hr' as [ep' Hr']. exists ep'. apply seg_app. exists m, mp. split.
    + eapply seg_frame; [exact Hl|]. intros k Hk. rewrite HF, !(proj2 (Z.eqb_neq _ _)) by lia. done.
    + cbn [seg]. rewrite HF, Z.eqb_refl, (proj2 (Z.eqb_neq m (m + a + b))) by lia.
      rewrite Z.add_assoc. unfold MINB. repeat split; auto; [lia|].
      rewrite Z.add_mod, Ha4, Hb4 by lia. done.
  - unfold END. rewrite HF, (proj2 (Z.eqb_neq 24000 m)) by lia.
    destruct (Z.eqb_spec 24000 (m + a + b)) as [E|]; [|done]. by rewrite <- E.
  - rewrite first_free_merge. done.
  - change (st_used (stats h') = used_total (l ++ (a + b, false) :: r)).
    rewrite used_total_app in *. simpl in *. done.
Qed.

(** The lowest free block is not after a block that is free. *)
Lemma first_free_le h l len r :
  heap_weak h (l ++ (len, false) :: r) ->
  0 <= total l /\ lfree h <= total l /\ (last_free false l = true -> lfree h < total l).
Proof.
  intros (_ & [ep Hs] & _ & -> & _). apply seg_mid in Hs as (mp & Hl & _). rewrite Z.add_0_l in Hl.
  pose proof (seg_total _ _ _ _ _ _ Hl) as (_ & ? & _). rewrite first_free_app.
  split; [lia|]. destruct (all_used l) eqn:Hu.
  - simpl. split; [lia|]. intros Hlast. exfalso. revert Hu Hlast. clear.
    assert (forall pf, all_used l = true -> last_free pf l = true -> l = [] /\ pf = true).
    { induction l as [|[a u] l IH]; intros pf; simpl; [done|]. intros Hu Hla.
      apply andb_prop in Hu as [Hu1 Hu2]. destruct (IH _ Hu2 Hla) as [_ E]. simpl in *. by subst. }
    intros Hu Hla. by destruct (H false Hu Hla).
  - pose proof (first_free_lt _ _ _ _ _ _ Hl Hu). lia.
Qed.

(** *** Merging on the list of blocks *)

Definition head_free (bs : list block) : bool :=
  match bs with (_, false) :: _ => true | _ => false end.

Lemma head_free_coalesce bs : head_free (coalesce bs) = head_free bs.
Proof. destruct bs as [|[a u] r]; [done|]. simpl. by destruct u, (coalesce r) as [|[? []] ?]. Qed.

Lemma coalesce_free a r :
  coalesce ((a, false) :: r) =
  match coalesce r with (b, false) :: r2 => (a + b, false) :: r2 | r' => (a, false) :: r' end.
Proof. simpl. by destruct (coalesce r) as [|[? []] ?]. Qed.

Lemma coalesce_free_used a r : head_free r = false -> coalesce ((a, false) :: r) = (a, false) :: coalesce r.
Proof.
  intros H. rewrite coalesce_free. rewrite <- head_free_coalesce in H.
  by destruct (coalesce r) as [|[? []] ?].
Qed.

Lemma coalesce_app pf l x :
  no_holes pf l -> last_free pf l = false \/ head_free x = false ->
  coalesce (l ++ x) = l ++ coalesce x.
Proof.
  revert pf. induction l as [|[a u] l IH]; intros pf Hn Hl; [done|]. simpl in Hn.
  destruct Hn as [_ Hn]. specialize (IH _ Hn Hl). change (coalesce (((a, u) :: l) ++ x)) with (coalesce ((a, u) :: (l ++ x))).
  destruct u; [simpl; by rewrite IH|]. rewrite coalesce_free_used; [by rewrite IH|].
  destruct l as [|[b []] l]; simpl in *; auto; [by destruct Hl|]. exfalso. tauto.
Qed.

Lemma coalesce_no_holes pf bs : no_holes pf bs -> coalesce bs = bs.
Proof. intros H. rewrite <- (app_nil_r bs) at 1. rewrite (coalesce_app pf); auto. apply app_nil_r. Qed.

(** What the blocks are after the merge forward and after the merge backward. *)
Definition merge_fwd (len : Z) (r : list block) : list block :=
  match r with (b, false) :: r' => (len + b, false) :: r' | _ => (len, false) :: r end.

Lemma merge_fwd_coalesce len r : no_holes true r \/ no_holes false r -> coalesce ((len, false) :: r) = merge_fwd len r.
Proof.
  intros H. assert (Hn : no_holes false r) by (destruct H; eauto using no_holes_weaken).
  rewrite coalesce_free, (coalesce_no_holes _ _ Hn). by destruct r as [|[b []] r].
Qed.

Lemma last_free_snoc pf l a u : last_free pf (l ++ [(a, u)]) = negb u.
Proof. by rewrite last_free_app. Qed.

Lemma last_cases (l : list block) : l = [] \/ exists l' a u, l = l' ++ [(a, u)].
Proof. destruct l as [|[a u] l'] using rev_ind; eauto. Qed.

(** [plug_holes] as the two merges: forward, then backward. *)
Definition plug_fwd (h : heap) (mem : Z) : heap :=
  let nmem := next (hdr h mem) in
  if negb (mem =? nmem) && (used (hdr h nmem) =? 0) && negb (nmem =? MEM_SIZE_ALIGNED) then
    merge (if lfree h =? nmem then set_lfree h mem else h) mem nmem
  else h.
Definition plug_bwd (h : heap) (mem : Z) : heap :=
  let pmem := prev (hdr h mem) in
  if negb (pmem =? mem) && (used (hdr h pmem) =? 0) then
    merge (if lfree h =? mem then set_lfree h pmem else h) pmem mem
  else h.
Lemma plug_holes_eq h mem : plug_holes h mem = plug_bwd (plug_fwd h mem) mem.
Proof. done. Qed.

Lemma plug_fwd_correct h l len r :
  heap_weak h (l ++ (len, false) :: r) ->
  heap_weak (plug_fwd h (total l)) (l ++ merge_fwd len r).
Proof.
  intros Hw. pose proof (first_free_le _ _ _ _ Hw) as (Hp & Hlf & _).
  pose proof Hw as (_ & [ep Hs] & [Heu _] & _). apply seg_mid in Hs as (mp & Hl & Hh & Hm & _ & Hr).
  rewrite Z.add_0_l in *. unfold MINB in *. unfold plug_fwd. rewrite Hh, MEM_SIZE_ALIGNED_eq. cbn [next].
  rewrite (proj2 (Z.eqb_neq (total l) (total l + len))), (proj2 (Z.eqb_neq (lfree h) (total l + len))) by lia.
  destruct r as [|[b u] r]; cbn [seg merge_fwd] in *.
  - destruct Hr as [-> _]. rewrite Heu. done.
  - destruct Hr as (Hhb & Hb & _ & Hr). pose proof (seg_total _ _ _ _ _ _ Hr) as (HE & ? & _).
    unfold MINB in *. rewrite Hhb. cbn [used]. rewrite (proj2 (Z.eqb_neq (total l + len) END)) by lia.
    destruct u; simpl; [done|]. by apply merge_correct.
Qed.

Lemma plug_bwd_used h l len r :
  heap_weak h (l ++ (len, false) :: r) -> last_free false l = false -> plug_bwd h (total l) = h.
Proof.
  intros (_ & [ep Hs] & _) Hlast. apply seg_mid in Hs as (mp & Hl & Hh & Hm & _).
  rewrite Z.add_0_l in *. unfold plug_bwd. rewrite Hh. cbn [prev].
  destruct (last_cases l) as [->|(l' & a & u & ->)].
  - simpl in *. destruct Hl as [_ <-]. done.
  - rewrite last_free_snoc in Hlast. destruct u; [|done].
    apply seg_mid in Hl as (mp' & _ & Hh' & _ & _ & [_ <-]). rewrite Hh'. simpl. by rewrite andb_false_r.
Qed.

Lemma plug_bwd_free h l a len r :
  heap_weak h (l ++ (a, false) :: (len, false) :: r) ->
  heap_weak (plug_bwd h (total l + a)) (l ++ (a + len, false) :: r).
Proof.
  intros Hw. pose proof (first_free_le _ _ _ _ Hw) as (Hp & Hlf & _).
  pose proof Hw as (_ & [ep Hs] & _ & _). apply seg_mid in Hs as (mp & Hl & Hh & Hm & _ & Hr).
  rewrite Z.add_0_l in *. cbn [seg] in Hr. destruct Hr as (Hhb & Hb & _). unfold MINB in *.
  unfold plug_bwd. rewrite Hhb. cbn [prev]. rewrite Hh. cbn [used].
  rewrite (proj2 (Z.eqb_neq (total l) (total l + a))), (proj2 (Z.eqb_neq (lfree h) (total l + a))) by lia.
  simpl. by apply merge_correct.
Qed.

Lemma plug_holes_correct h l len r :
  heap_weak h (l ++ (len, false) :: r) -> no_holes false l -> no_holes false r ->
  heap_weak (plug_holes h (total l)) (coalesce (l ++ (len, false) :: r)).
Proof.
  intros Hw Hnl Hnr. rewrite plug_holes_eq. apply plug_fwd_correct in Hw.
  rewrite <- merge_fwd_coalesce in Hw by auto.
  destruct (last_free false l) eqn:Hlast.
  - destruct (last_cases l) as [->|(l' & a & u & ->)]; [done|].
    rewrite last_free_snoc in Hlast. destruct u; [done|].
    rewrite total_app in *. simpl total in *. rewrite Z.add_0_r in *.
    rewrite <- app_assoc in *. simpl in Hw |- *. apply no_holes_app in Hnl as [Hnl Hna].
    change (heap_weak (plug_bwd (plug_fwd h (total l' + a)) (total l' + a))
              (coalesce (l' ++ (a, false) :: (len, false) :: r))).
    change (heap_weak (plug_fwd h (total l' + a)) (l' ++ (a, false) :: coalesce ((len, false) :: r))) in Hw.
    rewrite (coalesce_app false); auto; [|left; simpl in Hna; destruct (last_free false l'); tauto].
    rewrite (coalesce_free a), merge_fwd_coalesce in * by auto.
    unfold merge_fwd in *. destruct r as [|[b []] r]; by apply plug_bwd_free.
  - rewrite (coalesce_app false) by auto. rewrite merge_fwd_coalesce in * by auto.
    unfold merge_fwd in *. destruct r as [|[b []] r]; by erewrite plug_bwd_used by eauto.
Qed.

Lemma no_holes_coalesce pf bs : pf = false \/ head_free bs = false -> no_holes pf (coalesce bs).
Proof.
  revert pf. induction bs as [|[a u] r IH]; intros pf H; [done|]. destruct u.
  - simpl. split; [intros []; done|]. apply IH. auto.
  - rewrite coalesce_free. destruct H as [->|]; [|done].
    specialize (IH false (or_introl eq_refl)).
    destruct (coalesce r) as [|[b []] r2]; simpl in *; intuition congruence.
Qed.

(** [mem_free] of a used block: the block becomes free and is merged with its
    neighbours. *)
Lemma mem_free_correct h l len r :
  heap_rep h (l ++ (len, true) :: r) ->
  let h' := mem_free h (ram h + total l + HDR) in
  heap_rep h' (coalesce (l ++ (len, false) :: r)) /\ ram h' = ram h.
Proof.
  intros Hrep. pose proof (rep_ram _ _ Hrep) as (Hr4 & Hr0 & Hrm).
  destruct (rep_chain _ _ Hrep) as [ep Hs]. pose proof (rep_end _ _ Hrep) as [Heu Hen].
  pose proof (rep_holes _ _ Hrep) as Hno. apply no_holes_app in Hno as [Hnl Hnr]. simpl in Hnr.
  destruct Hnr as [_ Hnr]. apply seg_mid in Hs as (mp & Hl & Hh & Hm & Hm4 & Hr). rewrite Z.add_0_l in *.
  pose proof (seg_total _ _ _ _ _ _ Hl) as (_ & Hl0 & _).
  pose proof (seg_total _ _ _ _ _ _ Hr) as (HE & Hr1 & _).
  unfold mem_free. unfold END, HDR, MINB, NULL in *. set (m := total l) in *.
  rewrite MEM_SIZE_ALIGNED_eq, SIZEOF_STRUCT_MEM_eq. unfold END, HDR.
  rewrite (proj2 (Z.eqb_neq _ 0)) by lia. rewrite (proj2 (Z.ltb_ge _ (ram h))) by lia.
  rewrite (proj2 (Z.leb_gt (ram h + 24000) _)) by lia. cbn [orb]. cbv zeta.
  replace (ram h + m + 8 - ram h - 8) with m by lia.
  set (h1 := set_used h m 0). set (h2 := if m <? lfree h1 then _ else _).
  assert (HF : forall k, hdr h2 k = if k =? m then mk_mem (m + len) mp 0 else hdr h k).
  { intros k. unfold h2. rewrite (if_app (fun x => hdr x k)), hdr_set_lfree.
    replace (if m <? lfree h1 then hdr h1 k else hdr h1 k) with (hdr h1 k) by by destruct (_ <? _).
    unfold h1, set_used. by rewrite hdr_set_hdr, Hh. }
  assert (Hram2 : ram h2 = ram h) by (unfold h2; by destruct (_ <? _)).
  assert (Hst2 : stats h2 = stats h) by (unfold h2; by destruct (_ <? _)).
  rewrite HF, Z.eqb_refl. cbn [next]. rewrite u16_small by lia.
  set (h3 := stats_dec_used _ _).
  assert (Hw : heap_weak h3 (l ++ (len, false) :: r)).
  { split; [simpl; rewrite Hram2; unfold END; auto|]. split; [|split; [|split]].
    - exists ep. apply seg_app. exists m, mp. split.
      + eapply seg_frame; [exact Hl|]. intros k Hk. change (hdr h2 k = hdr h k).
        rewrite HF, (proj2 (Z.eqb_neq _ _)) by lia. done.
      + cbn [seg]. change (hdr h3) with (hdr h2). rewrite HF, Z.eqb_refl. repeat split; auto.
        eapply seg_frame; [exact Hr|]. intros k Hk. rewrite HF, (proj2 (Z.eqb_neq _ _)) by lia. done.
    - unfold END. change (hdr h3) with (hdr h2). rewrite !HF, !(proj2 (Z.eqb_neq _ _)) by lia. done.
    - change (lfree h3) with (lfree h2). unfold h2. change (lfree h1) with (lfree h).
      pose proof (rep_lfree _ _ Hrep) as Hlf. rewrite first_free_app in *. rewrite Z.add_0_l in *.
      fold m in Hlf |- *.
      destruct (all_used l) eqn:Hu; simpl in Hlf.
      + rewrite (proj2 (Z.ltb_lt m _)); [simpl; lia|]. rewrite Hlf.
        destruct (first_free_split (m + len) r) as (l2 & r2 & -> & _ & Hff & _). rewrite Hff.
        apply seg_app in Hr as (x & y & Hr & _). apply seg_total in Hr. lia.
      + pose proof (first_free_lt _ _ _ _ _ _ Hl Hu). rewrite (proj2 (Z.ltb_ge m _)) by lia. done.
    - simpl. rewrite Hst2. pose proof (rep_stats _ _ Hrep) as Hst. rewrite used_total_app in *.
      simpl in *. rewrite Hst. rewrite u16_small; lia. }
  split.
  - apply heap_rep_weak. split; [|apply no_holes_coalesce; auto].
    apply plug_holes_correct; auto.
  - change (ram (plug_holes h3 m) = ram h). rewrite <- Hram2. change (ram h2) with (ram h3).
    rewrite plug_holes_eq. unfold plug_bwd, plug_fwd, merge. cbv zeta.
    repeat (match goal with |- context [if ?b then _ else _] => destruct b end); done.
Qed.

(** ** [mem_trim] *)

Lemma set_lfree_id h : set_lfree h (lfree h) = h.
Proof. by destruct h. Qed.

(** What the shrinking of a used block does to the list of blocks: a free block
    behind it takes the cut bytes; otherwise they become a free block when they
    can hold a header and 12 bytes. *)
Definition a_trim (l : list block) (len : Z) (r : list block) (ns : Z) : list block :=
  match r with
  | (b, false) :: r' => l ++ (ns + HDR, true) :: (len + b - (ns + HDR), false) :: r'
  | _ => if ns + HDR + 12 <=? len - HDR
         then l ++ (ns + HDR, true) :: (len - (ns + HDR), false) :: r
         else l ++ (len, true) :: r
  end.

Lemma link_free_seg h l mp nx len pv a r ep :
  seg (hdr h) 0 0 l (total l) mp -> hdr h (total l) = mk_mem nx mp 1 ->
  seg (hdr h) (total l + len) pv r END ep ->
  (used (hdr h END) = 1 /\ next (hdr h END) = END) ->
  MINB <= a -> a mod 4 = 0 -> MINB <= len - a -> len mod 4 = 0 ->
  let h' := link_free h (total l) (total l + a) (total l + len) in
  (exists ep', seg (hdr h') 0 0 (l ++ (a, true) :: (len - a, false) :: r) END ep') /\
  (used (hdr h' END) = 1 /\ next (hdr h' END) = END).
Proof.
  intros Hl Hh Hr Hend Ha Ha4 Hrest Hlen4 h'. unfold MINB in *. set (m := total l) in *.
  pose proof (seg_total _ _ _ _ _ _ Hl) as (_ & Hl0 & _). fold m in Hl0.
  pose proof (seg_total _ _ _ _ _ _ Hr) as (HE & Hr0 & _).
  assert (HF := fun k => link_free_hdr h m (m + a) (m + len) k ltac:(lia) ltac:(lia) ltac:(lia)).
  fold h' in HF. rewrite Hh in HF. cbn [prev used] in HF. split.
  - destruct (seg_split (hdr h) (hdr h') m mp pv len a r ep) as [ep' Hs]; auto.
    exists ep'. apply seg_app. exists m, mp. split; [|done].
    eapply seg_frame; [exact Hl|]. intros k Hk.
    rewrite HF, !(proj2 (Z.eqb_neq _ _)) by lia. done.
  - rewrite HF. rewrite (proj2 (Z.eqb_neq END (m + a))), (proj2 (Z.eqb_neq END m)) by lia.
    destruct (Z.eqb_spec END (m + len)) as [E|]; [rewrite <- E, Z.eqb_refl|]; done.
Qed.

(** The free block that [mem_trim] makes out of the end of a used block. *)
Lemma trim_link_rep h l mp nx len pv a r ep lf d :
  (ram h mod 4 = 0 /\ 0 < ram h /\ ram h + END + 16 < 4294967296) ->
  seg (hdr h) 0 0 l (total l) mp -> hdr h (total l) = mk_mem nx mp 1 ->
  seg (hdr h) (total l + len) pv r END ep ->
  (used (hdr h END) = 1 /\ next (hdr h END) = END) ->
  MINB <= a -> a mod 4 = 0 -> MINB <= len - a -> len mod 4 = 0 ->
  no_holes false l -> no_holes true r ->
  lf = first_free 0 (l ++ (a, true) :: (len - a, false) :: r) ->
  u16 (st_used (stats h) - d) = used_total (l ++ (a, true) :: (len - a, false) :: r) ->
  heap_rep (stats_dec_used (link_free (set_lfree h lf) (total l) (total l + a) (total l + len)) d)
    (l ++ (a, true) :: (len - a, false) :: r).
Proof.
  intros Hram Hl Hh Hr Hend Ha Ha4 Hrest Hlen4 Hnl Hnr Hlf Hst.
  destruct (link_free_seg (set_lfree h lf) l mp nx len pv a r ep) as [Hs He]; auto.
  destruct (link_free_other (set_lfree h lf) (total l) (total l + a) (total l + len)) as (E1 & E2 & E3).
  constructor.
  - simpl. by rewrite E1.
  - exact Hs.
  - exact He.
  - apply no_holes_app. simpl. intuition congruence.
  - simpl. by rewrite E2.
  - simpl. by rewrite E3.
Qed.

Lemma mem_trim_correct h l len r newsize :
  heap_rep h (l ++ (len, true) :: r) -> 0 <= newsize < 65536 ->
  let rmem := ram h + total l + HDR in
  let ns := req_size newsize in
  (len - HDR < ns -> mem_trim h rmem newsize = (h, NULL)) /\
  (ns <= len - HDR -> exists h', mem_trim h rmem newsize = (h', rmem) /\
     heap_rep h' (if ns =? len - HDR then l ++ (len, true) :: r else a_trim l len r ns) /\
     ram h' = ram h).
Proof.
  intros Hrep Hn rmem ns. destruct (req_size_mod newsize ltac:(lia)) as [Hm4 H12]. fold ns in Hm4, H12.
  pose proof (rep_ram _ _ Hrep) as Hram. pose proof (rep_stats _ _ Hrep) as Hst.
  destruct (rep_chain _ _ Hrep) as [ep Hs]. pose proof (rep_end _ _ Hrep) as Hend.
  pose proof (rep_holes _ _ Hrep) as Hno. apply no_holes_app in Hno as [Hnl Hnr]. simpl in Hnr.
  destruct Hnr as [_ Hnr]. pose proof (rep_lfree _ _ Hrep) as Hlf.
  apply seg_mid in Hs as (mp & Hl & Hh & Hm & Hlen4 & Hr). rewrite Z.add_0_l in *.
  pose proof (seg_total _ _ _ _ _ _ Hl) as (_ & Hl0 & _).
  pose proof (seg_total _ _ _ _ _ _ Hr) as (HE & Hr1 & _).
  rewrite first_free_app, used_total_app, Z.add_0_l in *. cbn [first_free used_total] in Hlf, Hst.
  unfold mem_trim. rewrite MEM_SIZE_ALIGNED_eq, SIZEOF_STRUCT_MEM_eq, MIN_SIZE_ALIGNED_eq.
  cbv zeta. fold (req_size newsize). fold ns. set (m := total l) in *.
  unfold rmem. unfold END, HDR, MINB in *.
  replace (ram h + m + 8 - ram h - 8) with m by lia.
  rewrite (proj2 (Z.ltb_ge _ (ram h))) by lia. rewrite (proj2 (Z.leb_gt (ram h + 24000) _)) by lia.
  cbn [orb]. rewrite (u16_small m), Hh by lia. cbn [next].
  replace (m + len - m - 8) with (len - 8) by lia. rewrite (u16_small (len - 8)) by lia.
  split; intros Hfit.
  { destruct (24000 <? ns); [done|]. by rewrite (proj2 (Z.ltb_lt _ _)) by lia. }
  rewrite (proj2 (Z.ltb_ge 24000 ns)), (proj2 (Z.ltb_ge (len - 8) ns)) by lia.
  destruct (Z.eqb_spec ns (len - 8)) as [E|E]; [by exists h|].
  rewrite (u16_small (m + 8 + ns)) by lia. replace (m + 8 + ns) with (m + (ns + 8)) by lia.
  assert (Ha4 : (ns + 8) mod 4 = 0) by (rewrite Z.add_mod, Hm4 by lia; done).
  assert (Hlow : all_used l = false -> lfree h < m).
  { intros Hu. rewrite Hu in Hlf. rewrite Hlf. apply (first_free_lt _ _ _ _ _ _ Hl Hu). }
  assert (Hfree : (head_free r = true -> exists b r', r = (b, false) :: r')
                  /\ (head_free r = false -> (used (hdr h (m + len)) =? 0) = false /\
                      no_holes true r /\ a_trim l len r ns =
                      if ns + 8 + 12 <=? len - 8
                      then l ++ (ns + 8, true) :: (len - (ns + 8), false) :: r
                      else l ++ (len, true) :: r)).
  { destruct r as [|[b []] r]; simpl in Hr |- *; (split; [try done; eauto|intros Hf]); try done.
    - destruct Hr as [-> _]. destruct Hend as [-> _]. done.
    - destruct Hr as [-> _]. simpl in Hnr. intuition congruence. }
  destruct (head_free r) eqn:Ehf.
  - destruct Hfree as [Hfree _]. destruct (Hfree eq_refl) as (b & r' & ->).
    cbn [seg] in Hr. destruct Hr as (Hhb & Hb & Hb4 & Hr). unfold MINB in Hb.
    pose proof (seg_total _ _ _ _ _ _ Hr) as (HE' & Hr2 & _). cbn [total used_total first_free] in *.
    rewrite Hhb. cbn [used next]. rewrite Z.eqb_refl. eexists. split; [done|]. unfold a_trim, HDR.
    set (lf := if lfree h =? m + len then m + (ns + 8) else lfree h).
    match goal with |- heap_rep (stats_dec_used ?x _) _ /\ _ =>
      replace x with (link_free (set_lfree h lf) m (m + (ns + 8)) (m + (len + b))) end.
    2:{ unfold link_free. rewrite (Z.add_assoc m len b), MEM_SIZE_ALIGNED_eq. unfold END. subst lf.
        destruct (lfree h =? m + len); [|rewrite set_lfree_id]; done. }
    split.
    + apply (trim_link_rep _ _ mp (m + len) _ (m + len) _ _ ep); auto; unfold MINB, END in *; try lia.
      * by rewrite Z.add_assoc.
      * rewrite Z.add_mod, Hlen4, Hb4 by lia. done.
      * simpl in Hnr. tauto.
      * rewrite first_free_app, Z.add_0_l. simpl. subst lf. fold m. destruct (all_used l); zbs.
      * rewrite used_total_app, Hst. simpl. rewrite u16_small; lia.
    + simpl. by destruct (link_free_other (set_lfree h lf) m (m + (ns + 8)) (m + (len + b))) as (-> & _).
  - destruct Hfree as [_ Hfree]. destruct (Hfree eq_refl) as (-> & Hnr' & ->).
    destruct (Z.leb_spec (ns + 8 + 12) (len - 8)) as [Hcut|Hcut]; [|by exists h].
    eexists. split; [done|].
    set (lf := if m + (ns + 8) <? lfree h then m + (ns + 8) else lfree h).
    match goal with |- heap_rep (stats_dec_used ?x _) _ /\ _ =>
      replace x with (link_free (set_lfree h lf) m (m + (ns + 8)) (m + len)) end.
    2:{ unfold link_free. rewrite MEM_SIZE_ALIGNED_eq. unfold END. subst lf.
        assert (En : forall h0, hdr h0 = hdr h -> next (hdr (set_used h0 (m + (ns + 8)) 0) m) = m + len).
        { intros h0 E0. unfold set_used. rewrite hdr_set_hdr, (proj2 (Z.eqb_neq _ _)), E0, Hh by lia. done. }
        destruct (m + (ns + 8) <? lfree h); rewrite En by done; [|rewrite set_lfree_id]; done. }
    split.
    + apply (trim_link_rep _ _ mp (m + len) _ m _ _ ep); auto; unfold MINB, END in *; try lia.
      * rewrite first_free_app, Z.add_0_l. simpl. subst lf. fold m.
        destruct (all_used l); [|specialize (Hlow eq_refl); zbs].
        destruct (first_free_split (m + len) r) as (l2 & r2 & -> & _ & Hff & _).
        apply seg_app in Hr as (x & y & Hr & _). apply seg_total in Hr. zbs.
      * rewrite used_total_app, Hst. simpl. rewrite u16_small; lia.
    + simpl. by destruct (link_free_other (set_lfree h lf) m (m + (ns + 8)) (m + len)) as (-> & _).
Qed.

(** ** The heap as an allocator *)

(** The data regions of the used blocks of a heap at address [base]. *)
Fixpoint used_regions (base : Z) (bs : list block) : list region :=
  match bs with
  | [] => []
  | (len, u) :: r =>
      if (u : bool) then (base + HDR, len - HDR) :: used_regions (base + len) r
      else used_regions (base + len) r
  end.

(** The client holds [L]: every used block is the room of one held region. *)
Definition heap_owns (h : heap) (L : list region) : Prop :=
  exists bs rooms, heap_rep h bs /\ used_regions (ram h) bs ≡ₚ rooms /\
    Forall2 (fun x y => x.1 = y.1 /\ 0 <= x.2 <= y.2) L rooms.

Lemma used_regions_app base l r :
  used_regions base (l ++ r) = used_regions base l ++ used_regions (base + total l) r.
Proof.
  revert base. induction l as [|[len u] l IH]; intros base; simpl; [by rewrite Z.add_0_r|].
  rewrite IH, Z.add_assoc. by destruct u.
Qed.

Lemma used_regions_coalesce base bs : used_regions base (coalesce bs) = used_regions base bs.
Proof.
  revert base. induction bs as [|[len u] r IH]; intros base; [done|]. simpl. rewrite <- IH.
  destruct u; [done|]. destruct (coalesce r) as [|[b []] r2]; simpl; try done.
  by rewrite Z.add_assoc.
Qed.

Lemma used_regions_bounds F off pv bs e ep base x :
  seg F off pv bs e ep -> x ∈ used_regions base bs ->
  base + HDR <= x.1 /\ x.1 + x.2 <= base + (e - off) /\ 12 <= x.2 /\
  (base mod 4 = 0 -> x.1 mod 4 = 0).
Proof.
  revert off pv base. induction bs as [|[len u] r IH]; intros off pv base Hs Hx; simpl in *; [inversion Hx|].
  destruct Hs as (_ & Hm & Hm4 & Hs). pose proof (seg_total _ _ _ _ _ _ Hs) as (HE & Ht & _).
  unfold MINB, HDR in *.
  assert (Hrec : x ∈ used_regions (base + len) r ->
    base + 8 <= x.1 /\ x.1 + x.2 <= base + (e - off) /\ 12 <= x.2 /\ (base mod 4 = 0 -> x.1 mod 4 = 0)).
  { intros Hx'. destruct (IH _ _ _ Hs Hx') as (H1 & H2 & H3 & H4). repeat split; try lia.
    intros Hb. apply H4. rewrite Z.add_mod, Hb, Hm4 by lia. done. }
  destruct u; [|auto]. apply elem_of_cons in Hx as [->|Hx]; [|auto]. simpl.
  repeat split; try lia. intros Hb. rewrite Z.add_mod, Hb by lia. done.
Qed.

Lemma used_regions_separate F off pv bs e ep base :
  seg F off pv bs e ep -> all_separate (used_regions base bs).
Proof.
  revert off pv base. induction bs as [|[len u] r IH]; intros off pv base Hs; simpl in *; [done|].
  destruct Hs as (_ & Hm & Hm4 & Hs). destruct u; [|eauto]. simpl. split; [|eauto].
  apply Forall_forall. intros y Hy. apply (used_regions_bounds _ _ _ _ _ _ _ _ Hs) in Hy.
  unfold separate, HDR in *. simpl. lia.
Qed.

(** A used block found from its data region. *)
Lemma used_regions_inv base bs x :
  x ∈ used_regions base bs ->
  exists l len r, bs = l ++ (len, true) :: r /\ x = (base + total l + HDR, len - HDR) /\
    used_regions base bs ≡ₚ x :: used_regions base (l ++ (len, false) :: r).
Proof.
  revert base. induction bs as [|[len u] r IH]; intros base Hx; simpl in Hx; [inversion Hx|].
  assert (Hrec : x ∈ used_regions (base + len) r -> exists l len0 r0,
    (len, u) :: r = l ++ (len0, true) :: r0 /\ x = (base + total l + HDR, len0 - HDR) /\
    used_regions base ((len, u) :: r) ≡ₚ x :: used_regions base (l ++ (len0, false) :: r0)).
  { intros H. destruct (IH _ H) as (l & len0 & r0 & -> & -> & HP).
    exists ((len, u) :: l), len0, r0. simpl. split; [done|]. split; [f_equal; lia|].
    destruct u; rewrite HP; [apply perm_swap|done]. }
  destruct u; [|auto]. apply elem_of_cons in Hx as [->|Hx]; [|auto].
  exists [], len, r. simpl. rewrite Z.add_0_r. auto.
Qed.

Lemma heap_owns_proper h : Proper ((≡ₚ) ==> iff) (heap_owns h).
Proof.
  assert (forall L L', L ≡ₚ L' -> heap_owns h L -> heap_owns h L').
  { intros L L' HP (bs & rooms & Hr & Hu & Hf). destruct (Permutation_Forall2 HP Hf) as (rooms' & HP' & Hf').
    exists bs, rooms'. split; [done|]. split; [by rewrite Hu|done]. }
  intros L L' HP. split; apply H; [done|by symmetry].
Qed.

Lemma rooms_ok L rooms :
  Forall2 (fun x y => x.1 = y.1 /\ 0 <= x.2 <= y.2) L rooms -> Forall region_ok rooms ->
  all_separate rooms -> Forall region_ok L /\ all_separate L.
Proof.
  induction 1 as [|[p n] [q k] L rooms [Hp Hn] HL IH]; [done|]. simpl in *. subst q.
  intros Hok [Hs Hss]. inversion Hok as [|? ? [] Hok']; subst. destruct (IH Hok' Hss) as [IH1 IH2].
  split; constructor; auto.
  - unfold region_ok in *. simpl in *. lia.
  - clear -Hs HL Hn. revert Hs. induction HL as [|[q j] [q' j'] L rooms [Hq Hj] HL IH]; intros Hs; constructor.
    + inversion Hs; subst. unfold separate in *. simpl in *. lia.
    + apply IH. by inversion Hs.
Qed.

Lemma heap_owns_ok h L : heap_owns h L -> Forall region_ok L /\ all_separate L.
Proof.
  intros (bs & rooms & Hr & Hu & Hf). apply (rooms_ok _ _ Hf); rewrite <- Hu.
  - destruct (rep_chain _ _ Hr) as [ep Hs]. destruct (rep_ram _ _ Hr) as (H4 & H0 & Hmax).
    apply Forall_forall. intros x Hx. apply (used_regions_bounds _ _ _ _ _ _ _ _ Hs) in Hx.
    unfold region_ok, END, HDR in *. intuition lia.
  - destruct (rep_chain _ _ Hr) as [ep Hs]. by apply (used_regions_separate _ _ _ _ _ _ _ Hs).
Qed.

Lemma req_size_ge size : 0 < size < 65533 -> size <= req_size size.
Proof.
  intros. unfold req_size. rewrite LWIP_MEM_ALIGN_SIZE_eq by lia. rewrite u16_small by dm.
  destruct (Z.ltb_spec (size + 3 - (size + 3) mod 4) 12); dm.
Qed.

Lemma heap_rep_stats_err h bs : heap_rep h bs -> heap_rep (stats_inc_err h) bs.
Proof. intros []. by constructor. Qed.

Lemma used_regions_split_block base size len r :
  size <= len - HDR ->
  exists room, size <= room /\
    used_regions base (split_block size len ++ r) = (base + HDR, room) :: used_regions (base + len) r.
Proof.
  intros. unfold split_block. destruct (_ <=? _); simpl; eexists; (split; [|f_equal; f_equal]); lia || auto.
Qed.

Lemma mem_malloc_owns h L n :
  heap_owns h L -> 0 < n < 65533 ->
  exists h' p, mem_malloc h n = Some (h', p) /\
    ((p = NULL /\ heap_owns h' L) \/ (p <> NULL /\ heap_owns h' ((p, n) :: L))).
Proof.
  intros (bs & rooms & Hr & Hu & Hf) Hn. pose proof (req_size_ge n Hn) as Hge.
  destruct (Z.leb_spec (req_size n) END) as [Hmax|Hmax].
  - pose proof (mem_malloc_correct h bs n Hr ltac:(lia) Hmax) as Hm.
    destruct (a_malloc (req_size n) 0 bs) as [[p bs']|] eqn:Ea.
    + destruct Hm as (h' & Hm & Hr' & Hram).
      destruct (a_malloc_split _ _ _ _ _ Ea) as (l & len & r & -> & -> & -> & Hfit).
      destruct (rep_ram _ _ Hr) as (_ & H0 & _). destruct (rep_chain _ _ Hr) as [ep Hs].
      apply seg_mid in Hs as (mp & Hl & _). apply seg_total in Hl as (_ & Hl0 & _).
      exists h', (ram h + (0 + total l) + HDR). split; [done|]. right.
      split; [unfold NULL, HDR; lia|].
      destruct (used_regions_split_block (ram h + total l) (req_size n) len r Hfit) as (room & Hroom & HE).
      exists (l ++ split_block (req_size n) len ++ r), ((ram h + total l + HDR, room) :: rooms).
      split; [done|]. rewrite Hram. split; [|constructor; [simpl; lia|done]].
      rewrite <- Hu, !(used_regions_app _ l), HE. simpl. by rewrite Permutation_middle.
    + exists (stats_inc_err h), NULL. split; [done|]. left. split; [done|].
      exists bs, rooms. eauto using heap_rep_stats_err.
  - exists h, NULL. split; [|left; split; [done|by exists bs, rooms]].
    unfold mem_malloc. rewrite (proj2 (Z.eqb_neq n 0)) by lia. cbv zeta.
    rewrite MIN_SIZE_ALIGNED_eq, MEM_SIZE_ALIGNED_eq. fold (req_size n).
    by rewrite (proj2 (Z.ltb_lt _ _)) by lia.
Qed.

Lemma mem_free_owns h L p n : heap_owns h ((p, n) :: L) -> heap_owns (mem_free h p) L.
Proof.
  intros (bs & rooms & Hr & Hu & Hf). inversion Hf as [|? [q room] ? rooms' [Hq Hn] Hf']; subst.
  simpl in Hq. subst q. destruct (used_regions_inv (ram h) bs (p, room)) as (l & len & r & -> & E & HP).
  { rewrite Hu. left. }
  injection E as -> ->. destruct (mem_free_correct h l len r Hr) as [Hr' Hram].
  exists (coalesce (l ++ (len, false) :: r)), rooms'. split; [done|]. split; [|done].
  rewrite Hram, used_regions_coalesce. apply (Permutation_cons_inv (a := (ram h + total l + HDR, len - HDR))).
  by rewrite <- HP.
Qed.

#[export] Instance heap_allocator : Allocator heap mem_malloc mem_free (fun n => 0 < n < 65533) heap_owns.
Proof.
  constructor.
  - apply heap_owns_proper.
  - apply heap_owns_ok.
  - apply mem_malloc_owns.
  - apply mem_free_owns.
Qed.

Lemma used_regions_trim base l len r ns :
  ns < len - HDR ->
  exists room, ns <= room /\
    used_regions base (a_trim l len r ns) ≡ₚ
    (base + total l + HDR, room) :: used_regions base (l ++ (len, false) :: r).
Proof.
  intros Hns. unfold a_trim.
  assert (Hcut : forall k r', k = len + (total r - total r') ->
    used_regions (base + total l + k) r' = used_regions (base + total l + len) r ->
    used_regions base (l ++ (ns + HDR, true) :: (k - (ns + HDR), false) :: r') ≡ₚ
    (base + total l + HDR, ns) :: used_regions base (l ++ (len, false) :: r)).
  { intros k r' Hk HE. rewrite !used_regions_app. simpl.
    replace (ns + HDR - HDR) with ns by lia.
    replace (base + total l + (ns + HDR) + (k - (ns + HDR))) with (base + total l + k) by lia.
    rewrite HE. by rewrite Permutation_middle. }
  assert (Hkeep : used_regions base (l ++ (len, true) :: r) ≡ₚ
    (base + total l + HDR, len - HDR) :: used_regions base (l ++ (len, false) :: r)).
  { rewrite !used_regions_app. simpl. by rewrite Permutation_middle. }
  destruct r as [|[b []] r'].
  - destruct (_ <=? _); [exists ns|exists (len - HDR)]; (split; [lia|]); [apply Hcut; [lia|done]|done].
  - destruct (_ <=? _); [exists ns|exists (len - HDR)]; (split; [lia|]); [apply Hcut; [lia|done]|done].
  - exists ns. split; [lia|]. apply Hcut; simpl; [lia|]. f_equal. lia.
Qed.

(** A successful trim to [k] bytes leaves the client a region of [k] bytes. *)
Lemma mem_trim_owns h L p n k :
  heap_owns h ((p, n) :: L) -> 0 < k < 65533 ->
  exists h' q, mem_trim h p k = (h', q) /\
    ((q = NULL /\ h' = h) \/ (q = p /\ heap_owns h' ((p, k) :: L))).
Proof.
  intros (bs & rooms & Hr & Hu & Hf) Hk. inversion Hf as [|? [q room] ? rooms' [Hq Hn] Hf']; subst.
  simpl in Hq. subst q. destruct (used_regions_inv (ram h) bs (p, room)) as (l & len & r & -> & E & HP).
  { rewrite Hu. left. }
  pose proof (req_size_ge k Hk) as Hge. injection E as -> ->.
  destruct (mem_trim_correct h l len r k Hr ltac:(lia)) as [Hfail Hok].
  destruct (Z.ltb_spec (len - HDR) (req_size k)) as [Hlt|Hle].
  { exists h, NULL. split; [auto|]. by left. }
  destruct (Hok Hle) as (h' & Hm & Hr' & Hram). exists h', (ram h + total l + HDR).
  split; [done|]. right. split; [done|].
  assert (HP' : used_regions (ram h) (l ++ (len, false) :: r) ≡ₚ rooms').
  { apply (Permutation_cons_inv (a := (ram h + total l + HDR, len - HDR))). by rewrite <- HP. }
  destruct (Z.eqb_spec (req_size k) (len - HDR)) as [E|E].
  - exists (l ++ (len, true) :: r), ((ram h + total l + HDR, len - HDR) :: rooms').
    split; [done|]. rewrite Hram. split; [done|]. constructor; [simpl; lia|done].
  - destruct (used_regions_trim (ram h) l len r (req_size k)) as (room & Hroom & HT); [lia|].
    eexists _, ((ram h + total l + HDR, room) :: rooms'). split; [done|]. rewrite Hram.
    split; [by rewrite HT, HP'|]. constructor; [simpl; lia|done].
Qed.

Lemma req_size_le k room : 0 < k <= room -> 12 <= room < 65533 -> room mod 4 = 0 -> req_size k <= room.
Proof.
  intros. unfold req_size. rewrite LWIP_MEM_ALIGN_SIZE_eq by lia. rewrite u16_small by dm.
  destruct (Z.ltb_spec (k + 3 - (k + 3) mod 4) 12); dm.
Qed.

(** Shrinking always succeeds. *)
#[export] Instance heap_shrinking : Shrinking heap mem_trim (fun n => 0 < n < 65533) heap_owns.
Proof.
  constructor. intros h L p n k Ho Hk Hle.
  destruct (mem_trim_owns h L p n k Ho Hk) as (h' & q & Hm & [[-> ->] | [-> Hq]]); [|eauto]. exfalso.
  destruct Ho as (bs & rooms & Hr & Hu & Hf). inversion Hf as [|? [q room] ? rooms' [Hq Hn] _]; subst.
  simpl in Hq. subst q. destruct (used_regions_inv (ram h) bs (p, room)) as (l & len & r & -> & E & _).
  { rewrite Hu. left. }
  injection E as -> ->. simpl in Hn. destruct (mem_trim_correct h l len r k Hr ltac:(lia)) as [_ Hok].
  destruct (rep_chain _ _ Hr) as [ep Hs]. apply seg_mid in Hs as (mp & Hl & _ & Hm1 & Hm4 & Hs).
  apply seg_total in Hl as (_ & Hl0 & _), Hs as (HE & Hs0 & _). destruct (rep_ram _ _ Hr) as (_ & Hr0 & _).
  unfold END, HDR, MINB, NULL in *.
  destruct Hok as (h2 & Hm2 & _); [apply req_size_le; [lia|lia|dm]|].
  rewrite Hm in Hm2. injection Hm2 as _ E. lia.
Qed.

Lemma mem_init_owns a s :
  0 < a -> a + END + 32 < 4294967296 -> st_used s = 0 -> heap_owns (mem_init a s) [].
Proof.
  intros Ha Hmax Hs. exists [(END, false)], []. split; [|done]. unfold END in *.
  constructor; simpl.
  - rewrite LWIP_MEM_ALIGN_eq by lia. unfold END. dm.
  - exists 0. done.
  - done.
  - split; [by intros []|done].
  - done.
  - done.
Qed.

(** ** Runs of the heap under its clients

    The bytes that a request of [n] bytes is granted: the aligned size is kept in 16 bits, so
    that the three largest requests wrap around to 0, and 0 is raised to the minimum of 12. *)
Definition granted (n : Z) : Z := if (0 <? n) && (n <? 65533) then n else 12.

Lemma granted_small n : 0 < n < 65533 -> granted n = n.
Proof. intros. unfold granted. by rewrite (proj2 (Z.ltb_lt 0 n)), (proj2 (Z.ltb_lt n 65533)) by lia. Qed.

(** A request that wraps around is one for 12 bytes. *)
Lemma granted_wraps n :
  0 <= n < 65536 -> 0 < n < 65533 \/ (granted n = 12 /\ (n <> 0 -> forall h, mem_malloc h n = mem_malloc h 12) /\
    forall h p, mem_trim h p n = mem_trim h p 12).
Proof.
  intros Hn. destruct (decide (0 < n < 65533)) as [|Hd]; [by left|]. right.
  assert (n = 0 \/ n = 65533 \/ n = 65534 \/ n = 65535) as [-> | [-> | [-> | ->]]] by lia; by split_and!.
Qed.

Lemma malloc_grants h L n :
  heap_owns h L -> 0 < n < 65536 ->
  exists h' p, mem_malloc h n = Some (h', p) /\
    ((p = NULL /\ heap_owns h' L) \/ (p <> NULL /\ heap_owns h' ((p, granted n) :: L))).
Proof.
  intros Ho Hn. destruct (granted_wraps n ltac:(lia)) as [Hs|(-> & Hm & _)].
  - rewrite granted_small by done. by apply mem_malloc_owns.
  - rewrite Hm by lia. apply mem_malloc_owns; [done|lia].
Qed.

Lemma trim_grants h L p n k :
  heap_owns h ((p, n) :: L) -> 0 <= k < 65536 ->
  exists h' q, mem_trim h p k = (h', q) /\
    ((q = NULL /\ h' = h) \/ (q = p /\ heap_owns h' ((p, granted k) :: L))).
Proof.
  intros Ho Hk. destruct (granted_wraps k Hk) as [Hs|(-> & _ & Hm)].
  - rewrite granted_small by done. by apply (mem_trim_owns h L p n).
  - rewrite Hm. apply (mem_trim_owns h L p n); [done|lia].
Qed.

(** An address that is not in the heap. *)
Definition outside_heap (h : heap) (p : Z) : Prop := p < ram h \/ ram h + END <= p.

(** A client allocates, frees and trims the regions it holds, with any size that fits the
    16 bits of [mem_size_t]; it may also pass [NULL] and addresses outside of the heap. *)
Inductive heap_step : heap * list region -> heap * list region -> Prop :=
| step_malloc h L n h' p : 0 <= n < 65536 -> mem_malloc h n = Some (h', p) ->
    heap_step (h, L) (h', if p =? NULL then L else (p, granted n) :: L)
| step_free h L L' p n : L ≡ₚ (p, n) :: L' -> heap_step (h, L) (mem_free h p, L')
| step_free_illegal h L p : p = NULL \/ outside_heap h p -> heap_step (h, L) (mem_free h p, L)
| step_trim h L L' p n k h' q : L ≡ₚ (p, n) :: L' -> 0 <= k < 65536 -> mem_trim h p k = (h', q) ->
    heap_step (h, L) (h', if q =? NULL then L else (p, granted k) :: L')
| step_trim_illegal h L p k : outside_heap h p -> heap_step (h, L) ((mem_trim h p k).1, L).

Lemma outside_heap_test h p : outside_heap h p -> (p <? ram h) || (ram h + END <=? p) = true.
Proof. intros [Hp|Hp]; apply orb_true_iff; [left; by apply Z.ltb_lt|right; by apply Z.leb_le]. Qed.

Lemma stats_illegal_owns h L : heap_owns h L -> heap_owns (stats_inc_illegal h) L.
Proof. intros (bs & rooms & Hr & Hu & Hf). exists bs, rooms. split; [|done]. destruct Hr. by constructor. Qed.

Lemma mem_free_illegal h p L : p = NULL \/ outside_heap h p -> heap_owns h L -> heap_owns (mem_free h p) L.
Proof.
  intros Hp Ho. unfold mem_free. rewrite MEM_SIZE_ALIGNED_eq. destruct (Z.eqb_spec p NULL); [done|].
  rewrite outside_heap_test by tauto. by apply stats_illegal_owns.
Qed.

Lemma mem_trim_illegal h p k L : outside_heap h p -> heap_owns h L -> heap_owns (mem_trim h p k).1 L.
Proof.
  intros Hp Ho. unfold mem_trim. cbv zeta. destruct (MEM_SIZE_ALIGNED <? _); [done|].
  rewrite MEM_SIZE_ALIGNED_eq, outside_heap_test by done. by apply stats_illegal_owns.
Qed.

Lemma heap_step_owns h L h' L' : heap_step (h, L) (h', L') -> heap_owns h L -> heap_owns h' L'.
Proof.
  intros Hstep Ho. inversion Hstep as [? ? n ? p Hn Hm|? ? ? p n HP|? ? p Hp|? ? ? p n k ? q HP Hk Hm|? ? p k Hp]; subst.
  - destruct (decide (n = 0)) as [->|Hn0]; [by injection Hm as <- <-|].
    destruct (malloc_grants h L n Ho ltac:(lia)) as (h2 & p2 & E & [[-> H2]|[Hne H2]]);
      rewrite Hm in E; injection E as -> ->; [done|].
    by rewrite (proj2 (Z.eqb_neq _ _) Hne).
  - apply (mem_free_owns h L' p n). by rewrite <- HP.
  - by apply mem_free_illegal.
  - rewrite HP in Ho. destruct (trim_grants h L'0 p n k Ho Hk) as (h2 & q2 & E & [[-> ->]|[-> H2]]);
      rewrite Hm in E; injection E as -> ->; [simpl; by rewrite HP|].
    destruct (Z.eqb_spec p NULL) as [->|]; [|done].
    destruct (heap_owns_ok _ _ Ho) as [Hok _]. inversion Hok as [|? ? [H0 _]]; subst. done.
  - by apply mem_trim_illegal.
Qed.

Lemma heap_steps_owns x y : rtc heap_step x y -> heap_owns x.1 x.2 -> heap_owns y.1 y.2.
Proof.
  induction 1 as [|[h L] [h1 L1] [h2 L2] H1 _ IH]; [done|]. intros Ho. apply IH.
  by apply (heap_step_owns h L).
Qed.

Lemma heap_owns_inside h L :
  heap_owns h L -> Forall (fun x => ram h + HDR <= x.1 /\ x.1 + x.2 <= ram h + END) L.
Proof.
  intros (bs & rooms & Hr & Hu & Hf). destruct (rep_chain _ _ Hr) as [ep Hs].
  assert (Hb : Forall (fun x => ram h + HDR <= x.1 /\ x.1 + x.2 <= ram h + END) rooms).
  { rewrite <- Hu. apply Forall_forall. intros x Hx.
    apply (used_regions_bounds _ _ _ _ _ _ _ _ Hs) in Hx. lia. }
  clear Hu. induction Hf as [|x y L rooms [Hx Hxy] Hf IH]; constructor; inversion Hb; subst; auto. lia.
Qed.

(** ** The properties *)

(** A heap as it is after [mem_init] at a concrete address, and two steps. *)
Definition heap0 : heap := mem_init 536870914 (mk_stats 0 0 0 0 0).
Definition after_malloc (h : heap) (n : Z) : heap * Z := default (h, NULL) (mem_malloc h n).
Definition heap1 : heap := (after_malloc heap0 100).1.
Definition heap2 : heap := (after_malloc heap1 50).1.

Lemma heap0_owns : heap_owns heap0 [].
Proof. apply mem_init_owns; done. Qed.
Lemma heap0_rep : heap_rep heap0 [(24000, false)].
Proof.
  destruct heap0_owns as (bs & rooms & Hr & _). constructor; try done.
  - exists 0. done.
  - simpl. split; [by intros []|done].
Qed.

(** C1: In every state that clients reach from [mem_init] (at an address that leaves room for
    the heap, with no bytes counted as used) by [mem_malloc] and [mem_trim] with any 16-bit
    size and [mem_free], of the regions they hold or of addresses outside of the heap, the
    heap is well formed: its headers form the doubly linked list of the blocks, no two free
    blocks are adjacent, [lfree] is the lowest free block and the statistics count the used
    bytes; and the regions the clients are granted are 4-aligned, non-null, inside the heap
    and pairwise disjoint.  A client is granted the bytes it asked for, except that a size of
    65533 and more wraps around and is granted 12 bytes, as is a trim to 0. *)
Theorem heap_safe a s h L :
  0 < a -> a + END + 32 < 4294967296 -> st_used s = 0 ->
  rtc heap_step (mem_init a s, []) (h, L) ->
  heap_ok h /\ Forall region_ok L /\ all_separate L /\
  Forall (fun x => ram h + HDR <= x.1 /\ x.1 + x.2 <= ram h + END) L.
Proof.
  intros Ha Hmax Hs Hsteps.
  pose proof (heap_steps_owns _ _ Hsteps (mem_init_owns a s Ha Hmax Hs)) as Ho. simpl in Ho.
  destruct (owns_ok _ _ Ho) as [H1 H2]. pose proof (heap_owns_inside _ _ Ho).
  destruct Ho as (bs & _ & Hr & _). repeat split; auto. by exists bs.
Qed.

Lemma heap_safe_witness :
  exists h L, rtc heap_step (heap0, []) (h, L) /\ length L = 1%nat /\ heap_ok h.
Proof.
  assert (Hs : rtc heap_step (heap0, []) (mem_free heap2 536870924, [(536871032, 50)])).
  { apply (rtc_l _ _ (heap1, [(536870924, 100)]));
      [exact (step_malloc heap0 [] 100 heap1 536870924 ltac:(lia) ltac:(vm_compute; reflexivity))|].
    apply (rtc_l _ _ (heap2, [(536871032, 50); (536870924, 100)]));
      [exact (step_malloc heap1 [(536870924, 100)] 50 heap2 536871032 ltac:(lia) ltac:(vm_compute; reflexivity))|].
    apply rtc_once, (step_free heap2 _ _ 536870924 100), perm_swap. }
  exists (mem_free heap2 536870924), [(536871032, 50)]. split; [exact Hs|]. split; [reflexivity|].
  apply (heap_safe 536870914 (mk_stats 0 0 0 0 0) _ [(536871032, 50)]);
    [lia|unfold END; lia|reflexivity|exact Hs].
Defined.

(** C8: [mem_malloc] is first fit, for every size from 1 to 65535: on a well-formed heap with
    the blocks [bs] it returns the data address of the first free block with room for the
    size as 16 bits hold it, aligned to 4 and at least 12 bytes, marks that block used and
    splits off the rest when the rest can hold a header and 12 bytes, so that the heap has
    exactly the blocks of the reference definition [a_malloc]; when no block fits it returns
    [NULL] and the blocks are unchanged.  It always ends. *)
Theorem malloc_is_first_fit h bs size :
  heap_rep h bs -> 0 < size < 65536 ->
  match a_malloc (req_size size) 0 bs with
  | None => exists h', mem_malloc h size = Some (h', NULL) /\ heap_rep h' bs
  | Some (p, bs') => exists h', mem_malloc h size = Some (h', ram h + p + HDR) /\ heap_rep h' bs'
  end.
Proof.
  intros Hr Hn. destruct (Z.leb_spec (req_size size) END) as [Hmax|Hmax].
  - pose proof (mem_malloc_correct h bs size Hr ltac:(lia) Hmax) as Hm.
    destruct (a_malloc (req_size size) 0 bs) as [[p bs']|].
    + destruct Hm as (h' & ? & ? & _). eauto.
    + eauto using heap_rep_stats_err.
  - destruct (a_malloc (req_size size) 0 bs) as [[p bs']|] eqn:Ea.
    + exfalso. destruct (a_malloc_split _ _ _ _ _ Ea) as (l & len & r & -> & _ & _ & Hfit).
      destruct (rep_chain _ _ Hr) as [ep Hs]. apply seg_total in Hs as (HE & Hut & _).
      destruct (rep_chain _ _ Hr) as [ep' Hs]. apply seg_mid in Hs as (mp & Hl & _ & _ & _ & Hs).
      apply seg_total in Hl as (_ & Hl0 & _), Hs as (HE2 & Hs0 & _). unfold HDR, END in *. lia.
    + exists h. split; [|done]. unfold mem_malloc. rewrite (proj2 (Z.eqb_neq size 0)) by lia. cbv zeta.
      rewrite MIN_SIZE_ALIGNED_eq, MEM_SIZE_ALIGNED_eq. fold (req_size size).
      by rewrite (proj2 (Z.ltb_lt _ _)) by lia.
Qed.

Lemma malloc_first_fit_witness :
  heap_rep heap0 [(24000, false)] /\
  exists h', mem_malloc heap0 100 = Some (h', ram heap0 + 0 + HDR) /\
    heap_rep h' [(108, true); (23892, false)].
Proof.
  split; [exact heap0_rep|].
  exact (malloc_is_first_fit heap0 [(24000, false)] 100 heap0_rep ltac:(lia)).
Defined.

(** Freeing what [mem_malloc] returned restores the blocks of the heap:
    the block is merged with the rest that was split off, and the statistics and
    the lowest free block are those of before. *)
Theorem malloc_free_roundtrip h bs size h' p :
  heap_rep h bs -> 0 < size < 65533 -> mem_malloc h size = Some (h', p) -> p <> NULL ->
  heap_rep (mem_free h' p) bs /\ lfree (mem_free h' p) = lfree h /\
  st_used (stats (mem_free h' p)) = st_used (stats h).
Proof.
  intros Hr Hn Hm Hp. destruct (Z.leb_spec (req_size size) END) as [Hmax|Hmax].
  2:{ exfalso. revert Hm. unfold mem_malloc. rewrite (proj2 (Z.eqb_neq size 0)) by lia. cbv zeta.
      rewrite MIN_SIZE_ALIGNED_eq, MEM_SIZE_ALIGNED_eq. fold (req_size size).
      rewrite (proj2 (Z.ltb_lt _ _)) by lia. intros [= _ <-]. done. }
  pose proof (mem_malloc_correct h bs size Hr ltac:(lia) Hmax) as Hc.
  destruct (a_malloc (req_size size) 0 bs) as [[q bs']|] eqn:Ea; [|rewrite Hc in Hm; injection Hm as _ <-; done].
  destruct Hc as (h2 & E & Hr2 & Hram). rewrite Hm in E. injection E as <- ->.
  destruct (a_malloc_split _ _ _ _ _ Ea) as (l & len & r & -> & -> & -> & Hfit).
  assert (Hback : heap_rep (mem_free h' (ram h + (0 + total l) + HDR)) (l ++ (len, false) :: r)).
  { rewrite <- Hram, Z.add_0_l. pose proof (rep_holes _ _ Hr) as Hno.
    apply no_holes_app in Hno as [Hnl [Hh Hnr]]. simpl in Hnr.
    assert (Hlast : last_free false l = false) by (destruct (last_free false l); tauto).
    unfold split_block in Hr2. destruct (_ <=? _); simpl in Hr2.
    - destruct (mem_free_correct h' _ _ _ Hr2) as [H3 _].
      rewrite (coalesce_app false), (coalesce_free (req_size size + HDR)), coalesce_free_used in H3;
        auto; [|by destruct r as [|[b []] r]; simpl in *; auto; exfalso; tauto].
      rewrite (coalesce_no_holes _ _ Hnr) in H3.
      by replace (req_size size + HDR + (len - (req_size size + HDR))) with len in H3 by lia.
    - destruct (mem_free_correct h' _ _ _ Hr2) as [H3 _].
      by rewrite (coalesce_no_holes false) in H3 by (apply no_holes_app; done). }
  split; [done|]. split.
  - by rewrite (rep_lfree _ _ Hback), (rep_lfree _ _ Hr).
  - by rewrite (rep_stats _ _ Hback), (rep_stats _ _ Hr).
Qed.

Lemma malloc_free_witness :
  mem_malloc heap0 100 = Some (heap1, 536870924) /\
  heap_rep (mem_free heap1 536870924) [(24000, false)].
Proof.
  split; [vm_compute; reflexivity|].
  apply (malloc_free_roundtrip heap0 [(24000, false)] 100 heap1 536870924);
    [exact heap0_rep|lia|vm_compute; reflexivity|unfold NULL; lia].
Defined.

(** [mem_trim] on a used block of length [len] (header included): a new
    size that does not fit returns [NULL] and touches nothing; an equal size
    returns the pointer and touches nothing; a smaller one returns the pointer,
    the block shrinks to the aligned size (at least 12 bytes), a free block
    behind it grows by the cut bytes, and with a used block behind it the cut
    bytes become a free block when they can hold a header and 12 bytes and stay
    with the block otherwise. *)
Theorem trim_shrinks h l len r newsize :
  heap_rep h (l ++ (len, true) :: r) -> 0 <= newsize < 65536 ->
  let rmem := ram h + total l + HDR in
  let ns := req_size newsize in
  (len - HDR < ns -> mem_trim h rmem newsize = (h, NULL)) /\
  (ns <= len - HDR -> exists h', mem_trim h rmem newsize = (h', rmem) /\
     heap_rep h' (if ns =? len - HDR then l ++ (len, true) :: r else a_trim l len r ns)).
Proof.
  intros Hr Hn rmem ns. destruct (mem_trim_correct h l len r newsize Hr Hn) as [H1 H2].
  split; [done|]. intros Hle. destruct (H2 Hle) as (h' & ? & ? & _). eauto.
Qed.

Lemma heap1_rep : heap_rep heap1 [(108, true); (23892, false)].
Proof.
  pose proof (mem_malloc_correct heap0 [(24000, false)] 100 heap0_rep ltac:(lia)) as H.
  destruct (H ltac:(vm_compute; congruence)) as (h' & Hm & Hr & _).
  assert (E : mem_malloc heap0 100 = Some (heap1, ram heap0 + 0 + HDR)) by (vm_compute; reflexivity).
  rewrite Hm in E. injection E as <-. done.
Qed.

Lemma trim_witness :
  exists h', mem_trim heap1 (ram heap1 + 0 + HDR) 40 = (h', ram heap1 + 0 + HDR) /\
    heap_rep h' [(48, true); (23952, false)].
Proof.
  apply (trim_shrinks heap1 [] 108 [(23892, false)] 40); [exact heap1_rep|lia|].
  vm_compute. congruence.
Defined.

(** The aligned size is kept in 16 bits: a request of 65533, 65534 or 65535
    bytes wraps around to 0 and is served as a request of 12 bytes, on every
    heap. *)
Theorem malloc_size_wraps h size :
  65533 <= size <= 65535 -> mem_malloc h size = mem_malloc h 12.
Proof.
  intros Hs. assert (size = 65533 \/ size = 65534 \/ size = 65535) as [-> | [-> | ->]] by lia; reflexivity.
Qed.

Lemma malloc_size_wraps_witness : mem_malloc heap0 65535 = mem_malloc heap0 12.
Proof. apply (malloc_size_wraps heap0 65535). lia. Defined.

(** [mem_calloc] allocates the product of its arguments truncated to 16
    bits and, when the allocation succeeds, the full product of bytes from the
    returned address on is zero: the client holds a cleared region of
    [count * size] bytes when the product is below 65533, and a product from
    65537 on clears more bytes than were allocated. *)
Theorem calloc_clears h m L count size :
  heap_owns h L -> 0 < count < 65536 -> 0 < size < 65536 -> 0 < u16 (count * size) < 65533 ->
  exists h' m' p, mem_calloc h m count size = Some (h', m', p) /\
    (p = NULL -> m' = m /\ heap_owns h' L) /\
    (p <> NULL -> heap_owns h' ((p, u16 (count * size)) :: L) /\
       bytes_at m' p (Z.to_nat (count * size)) = replicate (Z.to_nat (count * size)) 0 /\
       (forall x, x < p \/ p + count * size <= x -> m' x = m x)).
Proof.
  intros Ho Hc Hs Hu. destruct (malloc_owns h L _ Ho Hu) as (h' & p & Hm & Hp).
  unfold mem_calloc. rewrite Hm. destruct (Z.eqb_spec p NULL) as [->|Hne].
  - exists h', m, NULL. split; [done|]. split; [|done]. by destruct Hp as [[_ Ho'] | [? _]].
  - eexists h', _, p. split; [done|]. split; [done|]. intros _.
    destruct Hp as [[? _] | [_ Ho']]; [done|]. split; [done|]. split.
    + rewrite <- (length_replicate (Z.to_nat (count * size)) 0) at 2. apply bytes_at_write_eq.
    + intros x Hx. apply write_bytes_out. rewrite length_replicate, Z2Nat.id by nia. done.
Qed.

Lemma calloc_witness :
  exists h' m' p, mem_calloc heap0 (fun _ => 7) 3 20 = Some (h', m', p) /\
    (p <> NULL -> heap_owns h' [(p, 60)]).
Proof.
  destruct (calloc_clears heap0 (fun _ => 7) [] 3 20 heap0_owns) as (h' & m' & p & H1 & _ & H2);
    [lia|lia|unfold u16; vm_compute; split; reflexivity|].
  exists h', m', p. split; [exact H1|]. intros Hp. exact (proj1 (H2 Hp)).
Defined.
