(* ===== verification/Memp.v ===== *)
(** * [core/memp.c]: the fixed-size pools

    The configuration has neither [MEMP_MEM_MALLOC] nor [MEMP_OVERFLOW_CHECK]:
    [MEMP_SIZE] is 0, a free element holds the link of the free list in its first
    word, and [MEMP_STATS] = 1.  [memp_sanity], which [MEMP_SANITY_CHECK] would
    call after a free, is modelled too. *)

From Stdlib Require Import ZArith Lia.
From stdpp Require Import base tactics numbers list gmap.
From S2P Require Import Prelude.
From S2P Require Import Alloc.
From S2P Require Import Mem.

Definition MEMP_SIZE : Z := 0.

(** ** State *)

(** [struct memp_desc]: the constant description of a pool. *)
Record memp_desc := mk_desc { d_size : Z; d_num : Z; d_base : Z }.

(** What the code changes of a pool: [*desc->tab], the [next] words of the
    elements and [desc->stats]. *)
Record pool := mk_pool { tab : Z; links : gmap Z Z; pstats : stats_mem }.

(** [memp->next] *)
Definition lnk (p : pool) (a : Z) : Z := default 0 (links p !! a).

Definition set_link (p : pool) (a v : Z) : pool := mk_pool (tab p) (<[a := v]> (links p)) (pstats p).
Definition set_tab (p : pool) (a : Z) : pool := mk_pool a (links p) (pstats p).
Definition set_pstats (p : pool) (s : stats_mem) : pool := mk_pool (tab p) (links p) s.

(** ** Operations *)

(** Floyd's cycle search over the free list: 1 when it ends, 0 on a circle. *)
Definition memp_sanity (fuel : nat) (p : pool) : option Z :=
  let t := tab p in
  if t =? NULL then Some 1
  else
    loop fuel (fun '(t, h) =>
      if negb (t =? NULL) && negb (h =? NULL) then
        if t =? h then inr 0
        else inl (lnk p t, if negb (lnk p h =? NULL) then lnk p (lnk p h) else NULL)
      else inr 1) (t, lnk p t).

(** [memp_init_pool]; [p] is the pool before the call. *)
Fixpoint init_elements (d : memp_desc) (n : nat) (memp : Z) (p : pool) : pool :=
  match n with
  | O => p
  | S n =>
      let p := set_link p memp (tab p) in
      let p := set_tab p memp in
      init_elements d n (memp + MEMP_SIZE + d_size d) p
  end.

Definition memp_init_pool (d : memp_desc) (p : pool) : pool :=
  let p := set_tab p NULL in
  let p := init_elements d (Z.to_nat (d_num d)) (LWIP_MEM_ALIGN (d_base d)) p in
  let s := pstats p in
  set_pstats p (mk_stats (st_err s) (d_num d) (st_used s) (st_max s) (st_illegal s)).

(** [memp_init]: every built-in pool. *)
Definition memp_init (ds : list memp_desc) (ps : list pool) : list pool :=
  zip_with memp_init_pool ds ps.

(** [do_memp_malloc_pool] *)
Definition do_memp_malloc_pool (p : pool) : pool * Z :=
  let memp := tab p in
  if negb (memp =? NULL) then
    let p := set_tab p (lnk p memp) in
    let s := pstats p in
    let u := u16 (st_used s + 1) in
    let mx := if st_max s <? u then u else st_max s in
    (set_pstats p (mk_stats (st_err s) (st_avail s) u mx (st_illegal s)), memp + MEMP_SIZE)
  else
    let s := pstats p in
    (set_pstats p (mk_stats (u16 (st_err s + 1)) (st_avail s) (st_used s) (st_max s) (st_illegal s)), NULL).

(** [do_memp_free_pool] *)
Definition do_memp_free_pool (p : pool) (mem : Z) : pool :=
  let memp := mem - MEMP_SIZE in
  let s := pstats p in
  let p := set_pstats p (mk_stats (st_err s) (st_avail s) (u16 (st_used s - 1)) (st_max s) (st_illegal s)) in
  let p := set_link p memp (tab p) in
  set_tab p memp.

(** [memp_malloc_pool] and [memp_free_pool]: a [NULL] descriptor is [None]. *)
Definition memp_malloc_pool (desc : option pool) : option pool * Z :=
  match desc with
  | None => (None, NULL)
  | Some p => let '(p, a) := do_memp_malloc_pool p in (Some p, a)
  end.

Definition memp_free_pool (desc : option pool) (mem : Z) : option pool :=
  match desc with
  | None => None
  | Some p => if mem =? NULL then Some p else Some (do_memp_free_pool p mem)
  end.

(** [memp_malloc(type)] and [memp_free(type, mem)] on the array of the built-in
    pools; [MEMP_MAX] is its length. *)
Definition memp_malloc (ps : list pool) (type : Z) : list pool * Z :=
  if Z.of_nat (length ps) <=? type then (ps, NULL)
  else
    match ps !! Z.to_nat type with
    | None => (ps, NULL)
    | Some p => let '(p, a) := do_memp_malloc_pool p in (<[Z.to_nat type := p]> ps, a)
    end.

Definition memp_free (ps : list pool) (type mem : Z) : list pool :=
  if Z.of_nat (length ps) <=? type then ps
  else if mem =? NULL then ps
  else
    match ps !! Z.to_nat type with
    | None => ps
    | Some p => <[Z.to_nat type := do_memp_free_pool p mem]> ps
    end.

(** ** The free list *)

(** The elements of a pool. *)
Fixpoint elements_from (a size : Z) (n : nat) : list Z :=
  match n with O => [] | S n => a :: elements_from (a + size) size n end.
Definition elements (d : memp_desc) : list Z :=
  elements_from (LWIP_MEM_ALIGN (d_base d)) (d_size d) (Z.to_nat (d_num d)).

(** The free list from [a] holds the elements [l] in this order. *)
Fixpoint chain (p : pool) (a : Z) (l : list Z) : Prop :=
  match l with
  | [] => a = NULL
  | x :: l => a = x /\ x <> NULL /\ chain p (lnk p x) l
  end.

Definition desc_ok (d : memp_desc) : Prop :=
  0 < d_base d /\ 4 <= d_size d /\ d_size d mod 4 = 0 /\ 0 <= d_num d < 65536 /\
  d_base d + 4 + d_num d * d_size d < 4294967296.

(** The elements [fr] are free and the elements [us] are in use. *)
Record pool_rep (d : memp_desc) (p : pool) (fr us : list Z) : Prop := {
  prep_desc : desc_ok d;
  prep_chain : chain p (tab p) fr;
  prep_elems : fr ++ us ≡ₚ elements d;
  prep_used : st_used (pstats p) = Z.of_nat (length us);
  prep_avail : st_avail (pstats p) = d_num d
}.

Lemma lnk_set_link p a v k : lnk (set_link p a v) k = if k =? a then v else lnk p k.
Proof.
  unfold lnk, set_link. simpl. destruct (Z.eqb_spec k a) as [->|].
  - by rewrite lookup_insert_eq.
  - by rewrite lookup_insert_ne by done.
Qed.

Lemma chain_ext p p' a l : (forall x, x ∈ l -> lnk p' x = lnk p x) -> chain p a l -> chain p' a l.
Proof.
  revert a. induction l as [|x l IH]; intros a Hx; simpl; [done|]. intros (-> & Hn & Hc).
  split; [done|]. split; [done|]. rewrite Hx by left. apply IH; [|done]. intros; apply Hx; by right.
Qed.

Lemma length_elements_from a size n : length (elements_from a size n) = n.
Proof. revert a. induction n; intros; simpl; auto. Qed.

Lemma elements_from_bounds a size n x :
  0 < size -> x ∈ elements_from a size n ->
  a <= x /\ x + size <= a + Z.of_nat n * size /\ (x - a) mod size = 0.
Proof.
  intros Hs. revert a. induction n as [|n IH]; intros a Hx; simpl in Hx; [inversion Hx|].
  apply elem_of_cons in Hx as [->|Hx].
  - split; [lia|]. split; [nia|]. by rewrite Z.sub_diag, Z.mod_0_l by lia.
  - destruct (IH _ Hx) as (H1 & H2 & H3). split; [lia|]. split; [nia|].
    replace (x - a) with (x - (a + size) + 1 * size) by lia. by rewrite Z.mod_add by lia.
Qed.

Lemma elements_from_separate a size n :
  0 < size -> all_separate (map (fun x => (x, size)) (elements_from a size n)).
Proof.
  intros Hs. revert a. induction n as [|n IH]; intros a; simpl; [done|]. split; [|auto].
  apply Forall_forall. intros y Hy. apply list_elem_of_In, in_map_iff in Hy as (x & <- & Hx).
  apply list_elem_of_In in Hx. apply elements_from_bounds in Hx; [|done]. unfold separate. simpl. lia.
Qed.

Lemma all_separate_nodup size l :
  0 < size -> all_separate (map (fun x => (x, size)) l) -> NoDup l.
Proof.
  intros Hs. induction l as [|x l IH]; simpl; [constructor|]. intros [Hx Hl]. constructor; [|auto].
  intros Hin. rewrite Forall_forall in Hx. specialize (Hx (x, size)).
  assert (H : (x, size) ∈ map (fun y => (y, size)) l) by by apply list_elem_of_fmap_2' with x.
  apply Hx in H. unfold separate in H. simpl in H. lia.
Qed.

Lemma elements_ok d x :
  desc_ok d -> x ∈ elements d -> 0 < x /\ x mod 4 = 0 /\ x + d_size d < 4294967296.
Proof.
  intros (Hb & Hs & Hs4 & Hn & Hmax) Hx. unfold elements in Hx.
  rewrite LWIP_MEM_ALIGN_eq in Hx by nia. apply elements_from_bounds in Hx as (H1 & H2 & H3); [|lia].
  rewrite Z2Nat.id in H2 by lia. split; [dm|]. split; [|dm].
  apply Z.mod_divide in H3 as [k Hk]; [|lia]. apply Z.mod_divide in Hs4 as [j Hj]; [|lia].
  replace x with (d_base d + 3 - (d_base d + 3) mod 4 + k * j * 4) by lia.
  rewrite Z.mod_add by lia. dm.
Qed.

Lemma elements_nodup d : desc_ok d -> NoDup (elements d).
Proof.
  intros (_ & Hs & _). apply (all_separate_nodup (d_size d)); [lia|]. apply elements_from_separate. lia.
Qed.

(** ** The operations on the free list *)

Lemma do_malloc_some d p x fr us :
  pool_rep d p (x :: fr) us ->
  exists p', do_memp_malloc_pool p = (p', x) /\ pool_rep d p' fr (x :: us) /\ x <> NULL.
Proof.
  intros [Hd Hc He Hu Ha]. simpl in Hc. destruct Hc as (Ht & Hn & Hc). unfold do_memp_malloc_pool.
  rewrite Ht, (proj2 (Z.eqb_neq _ _) Hn). cbn [negb]. eexists. unfold MEMP_SIZE. rewrite Z.add_0_r.
  split; [done|]. split; [|done].
  assert (Hlen : Z.of_nat (length (fr ++ us)) + 1 = d_num d).
  { replace (Z.of_nat (length (fr ++ us)) + 1) with (Z.of_nat (length ((x :: fr) ++ us))) by (simpl; lia).
    rewrite He. unfold elements. rewrite length_elements_from. destruct Hd. lia. }
  rewrite length_app in Hlen. pose proof Hd as (_ & _ & _ & Hnum & _). constructor; simpl; auto.
  - by eapply chain_ext; [|exact Hc].
  - by rewrite <- He, <- Permutation_middle.
  - rewrite Hu. rewrite u16_small; lia.
Qed.

Lemma do_malloc_none d p us :
  pool_rep d p [] us -> exists p', do_memp_malloc_pool p = (p', NULL) /\ pool_rep d p' [] us.
Proof.
  intros [Hd Hc He Hu Ha]. simpl in Hc. unfold do_memp_malloc_pool. rewrite Hc. simpl. eexists.
  split; [done|]. by constructor.
Qed.

Lemma do_free_rep d p fr x us :
  pool_rep d p fr (x :: us) -> pool_rep d (do_memp_free_pool p x) (x :: fr) us.
Proof.
  intros [Hd Hc He Hu Ha]. pose proof (elements_nodup d Hd) as Hnd. rewrite <- He in Hnd.
  apply NoDup_app in Hnd as (Hfr & Hdis & Hus).
  assert (Hin : x ∈ elements d) by (rewrite <- He; apply elem_of_app; right; left).
  destruct (elements_ok d x Hd Hin) as (H0 & _).
  assert (HL : forall k, lnk (do_memp_free_pool p x) k = if k =? x then tab p else lnk p k).
  { intros k. unfold do_memp_free_pool, MEMP_SIZE. rewrite Z.sub_0_r.
    exact (lnk_set_link (set_pstats p _) x (tab p) k). }
  constructor; auto.
  - cbn [chain]. rewrite HL, Z.eqb_refl. split; [apply Z.sub_0_r|]. split; [unfold NULL; lia|].
    eapply chain_ext; [|exact Hc]. intros y Hy. rewrite HL.
    destruct (Z.eqb_spec y x) as [->|]; [|done]. exfalso. apply (Hdis x Hy). left.
  - rewrite <- He. simpl. by rewrite Permutation_middle.
  - simpl. rewrite Hu. simpl length. rewrite u16_small; [lia|].
    assert (Z.of_nat (length (fr ++ x :: us)) = d_num d).
    { rewrite He. unfold elements. rewrite length_elements_from. destruct Hd. lia. }
    rewrite length_app in *. simpl in *. destruct Hd as (? & ? & ? & ? & ?). lia.
Qed.

(** *** Initialisation *)

Lemma init_elements_chain d n a p l :
  0 < a -> 0 < d_size d -> chain p (tab p) l -> Forall (fun x => x < a) l ->
  let p' := init_elements d n a p in
  chain p' (tab p') (rev (elements_from a (d_size d) n) ++ l) /\ pstats p' = pstats p.
Proof.
  intros Ha Hs. revert a p l Ha. induction n as [|n IH]; intros a p l Ha Hc Hl; [done|].
  cbn [init_elements elements_from rev]. rewrite <- app_assoc. cbn [app]. unfold MEMP_SIZE. rewrite Z.add_0_r.
  set (p1 := set_tab (set_link p a (tab p)) a).
  assert (HL : forall k, lnk p1 k = if k =? a then tab p else lnk p k) by apply lnk_set_link.
  destruct (IH (a + d_size d) p1 (a :: l)) as [H1 H2]; auto; [lia| |].
  - cbn [chain]. split; [done|]. split; [unfold NULL; lia|]. rewrite HL, Z.eqb_refl.
    eapply chain_ext; [|exact Hc]. intros x Hx. rewrite HL. rewrite Forall_forall in Hl.
    apply Hl in Hx. by rewrite (proj2 (Z.eqb_neq _ _)) by lia.
  - constructor; [lia|]. eapply Forall_impl; [exact Hl|]. simpl. lia.
Qed.

Lemma init_pool_rep d p :
  desc_ok d -> st_used (pstats p) = 0 -> pool_rep d (memp_init_pool d p) (rev (elements d)) [].
Proof.
  intros Hd Hu. pose proof Hd as (Hb & Hs & _ & Hn & Hmax).
  destruct (init_elements_chain d (Z.to_nat (d_num d)) (LWIP_MEM_ALIGN (d_base d)) (set_tab p NULL) [])
    as [Hc Hst]; auto; [rewrite LWIP_MEM_ALIGN_eq by nia; dm|lia|done|].
  rewrite app_nil_r in Hc. unfold memp_init_pool. constructor; cbn [pstats set_pstats tab st_used st_avail]; auto.
  - eapply chain_ext; [|exact Hc]. done.
  - rewrite app_nil_r. unfold elements. symmetry. apply Permutation_rev.
  - by rewrite Hst.
Qed.

(** ** A pool as an allocator *)

Definition pool_owns (d : memp_desc) (p : pool) (L : list region) : Prop :=
  (exists fr, pool_rep d p fr (map fst L)) /\ Forall (fun x => 0 <= x.2 <= d_size d) L.

Definition pool_malloc (p : pool) (n : Z) : option (pool * Z) := Some (do_memp_malloc_pool p).

Lemma pool_rep_perm d p fr us us' : us ≡ₚ us' -> pool_rep d p fr us -> pool_rep d p fr us'.
Proof. intros HP [? ? ? ? ?]. constructor; auto; [by rewrite <- HP|by rewrite <- HP]. Qed.

Lemma pool_owns_proper d p : Proper ((≡ₚ) ==> iff) (pool_owns d p).
Proof.
  assert (forall L L', L ≡ₚ L' -> pool_owns d p L -> pool_owns d p L').
  { intros L L' HP [[fr Hr] Hf]. split; [|by rewrite <- HP].
    exists fr. eapply pool_rep_perm; [|exact Hr]. apply (fmap_Permutation fst). done. }
  intros L L' HP. split; apply H; [done|by symmetry].
Qed.

Lemma all_separate_app_r L L' : all_separate (L ++ L') -> all_separate L'.
Proof. induction L; simpl; [done|]. intros [_ ?]. auto. Qed.

Lemma all_separate_shrink size L :
  Forall (fun x => 0 <= x.2 <= size) L -> all_separate (map (fun x => (x, size)) (map fst L)) ->
  all_separate L.
Proof.
  induction 1 as [|[x n] L Hx HL IH]; simpl in *; [done|]. intros [Hs Hss]. split; [|auto].
  clear IH Hss. induction HL as [|[y k] L Hy HL IH]; simpl in *; constructor.
  - inversion Hs; subst. unfold separate in *. simpl in *. lia.
  - apply IH. by inversion Hs.
Qed.

Lemma pool_owns_ok d p L : pool_owns d p L -> Forall region_ok L /\ all_separate L.
Proof.
  intros [[fr [Hd _ He _ _]] Hf]. split.
  - rewrite Forall_forall in *. intros x Hx. specialize (Hf x Hx).
    destruct (elements_ok d x.1 Hd) as (H1 & H2 & H3).
    { rewrite <- He. apply elem_of_app. right. apply (list_elem_of_fmap_2 fst _ _ Hx). }
    unfold region_ok. lia.
  - apply (all_separate_shrink (d_size d)); [done|]. apply (all_separate_app_r (map (fun x => (x, d_size d)) fr)).
    rewrite <- map_app. assert (HP : map (fun x => (x, d_size d)) (fr ++ map fst L)
      ≡ₚ map (fun x => (x, d_size d)) (elements d)) by by apply fmap_Permutation.
    rewrite HP. destruct Hd as (_ & Hs & _). apply elements_from_separate. lia.
Qed.

#[export] Instance pool_allocator d :
  Allocator pool pool_malloc do_memp_free_pool (fun n => 0 < n <= d_size d) (pool_owns d).
Proof.
  constructor.
  - apply pool_owns_proper.
  - apply pool_owns_ok.
  - intros p L n [[fr Hr] Hf] Hn. unfold pool_malloc. destruct fr as [|x fr].
    + destruct (do_malloc_none d p _ Hr) as (p' & -> & Hr'). exists p', NULL. split; [done|].
      left. split; [done|]. split; [eauto|done].
    + destruct (do_malloc_some d p x fr _ Hr) as (p' & -> & Hr' & Hx). exists p', x. split; [done|].
      right. split; [done|]. split; [by exists fr|]. constructor; [simpl; lia|done].
  - intros p L x n [[fr Hr] Hf]. split; [|by inversion Hf]. eexists. by apply do_free_rep.
Qed.

(** ** The cycle search *)

Fixpoint walk (p : pool) (a : Z) (n : nat) : Z :=
  match n with O => a | S n => if a =? NULL then NULL else walk p (lnk p a) n end.

Lemma walk_NULL p n : walk p NULL n = NULL.
Proof. by destruct n. Qed.

Lemma walk_add p a n k : walk p a (n + k) = walk p (walk p a n) k.
Proof.
  revert a. induction n as [|n IH]; intros a; simpl; [done|].
  destruct (a =? NULL); [by rewrite walk_NULL|]. apply IH.
Qed.

Lemma walk_step p a n : walk p a n <> NULL -> walk p a (S n) = lnk p (walk p a n).
Proof.
  intros H. replace (S n) with (n + 1)%nat by lia. rewrite walk_add. simpl.
  by rewrite (proj2 (Z.eqb_neq _ _) H).
Qed.

(** The state of the search after [k] rounds: the slow pointer made [k] steps
    and the fast one [2 k + 1]. *)
Lemma sanity_loop p a fuel k m :
  (m < fuel)%nat ->
  (walk p a (k + m) = NULL \/ walk p a (2 * (k + m) + 1) = NULL \/
   walk p a (k + m) = walk p a (2 * (k + m) + 1)) ->
  exists j r, (k <= j <= k + m)%nat /\
  loop fuel (fun '(t, h) =>
    if negb (t =? NULL) && negb (h =? NULL) then
      if t =? h then inr 0
      else inl (lnk p t, if negb (lnk p h =? NULL) then lnk p (lnk p h) else NULL)
    else inr 1) (walk p a k, walk p a (2 * k + 1)) = Some r /\
  ((r = 1 /\ walk p a (2 * j + 1) = NULL) \/
   (r = 0 /\ walk p a j <> NULL /\ walk p a j = walk p a (2 * j + 1))).
Proof.
  revert k m. induction fuel as [|fuel IH]; intros k m Hm Hend; [lia|]. cbn [loop].
  assert (Hmono : walk p a k = NULL -> walk p a (2 * k + 1) = NULL).
  { intros E. replace (2 * k + 1)%nat with (k + (k + 1))%nat by lia. by rewrite walk_add, E, walk_NULL. }
  destruct (Z.eqb_spec (walk p a k) NULL) as [E1|E1]; cbn [negb andb].
  { exists k, 1. split; [lia|]. auto. }
  destruct (Z.eqb_spec (walk p a (2 * k + 1)) NULL) as [E2|E2]; cbn [negb].
  { exists k, 1. split; [lia|]. auto. }
  destruct (Z.eqb_spec (walk p a k) (walk p a (2 * k + 1))) as [E3|E3].
  { exists k, 0. split; [lia|]. auto. }
  destruct m as [|m]; [exfalso; rewrite Nat.add_0_r in Hend; tauto|].
  destruct (IH (S k) m ltac:(lia)) as (j & r & Hj & Hl & Hr).
  { by replace (S k + m)%nat with (k + S m)%nat by lia. }
  exists j, r. split; [lia|]. split; [|done]. rewrite <- Hl. f_equal. f_equal.
  - by rewrite walk_step.
  - replace (2 * S k + 1)%nat with (S (S (2 * k + 1))) by lia. rewrite <- (walk_step p a (2 * k + 1)) by done.
    destruct (Z.eqb_spec (walk p a (S (2 * k + 1))) NULL) as [E|E]; cbn [negb].
    + replace (S (S (2 * k + 1))) with (S (2 * k + 1) + 1)%nat by lia. by rewrite walk_add, E.
    + by rewrite (walk_step p a (S (2 * k + 1))).
Qed.

(** A walk that comes back to a place goes around for ever. *)
Lemma walk_period p a i q k :
  walk p a (i + q) = walk p a i -> (i <= k)%nat -> forall n, walk p a (k + n * q) = walk p a k.
Proof.
  intros E Hk n. induction n as [|n IH]; [by rewrite Nat.add_0_r|].
  replace (k + S n * q)%nat with ((i + q) + (k - i + n * q))%nat by lia.
  rewrite walk_add, E, <- walk_add. by replace (i + (k - i + n * q))%nat with (k + n * q)%nat by lia.
Qed.

Lemma walk_period_nonnull p a i q :
  (0 < q)%nat -> walk p a (i + q) = walk p a i -> walk p a i <> NULL -> forall k, walk p a k <> NULL.
Proof.
  intros Hq E Hn k Hk. apply Hn. rewrite <- (walk_period p a i q i E ltac:(lia) (k + 1)).
  replace (i + (k + 1) * q)%nat with (k + (i + (k + 1) * q - k))%nat by nia.
  by rewrite walk_add, Hk, walk_NULL.
Qed.

(** The operations on the array of pools, at a type in range. *)
Lemma memp_malloc_at ps type p :
  0 <= type -> ps !! Z.to_nat type = Some p ->
  memp_malloc ps type = (<[Z.to_nat type := (do_memp_malloc_pool p).1]> ps, (do_memp_malloc_pool p).2).
Proof.
  intros Ht Hp. pose proof (lookup_lt_Some _ _ _ Hp). unfold memp_malloc.
  rewrite (proj2 (Z.leb_gt _ _)), Hp by lia. by destruct (do_memp_malloc_pool p).
Qed.

Lemma memp_free_at ps type p mem :
  0 <= type -> ps !! Z.to_nat type = Some p -> mem <> NULL ->
  memp_free ps type mem = <[Z.to_nat type := do_memp_free_pool p mem]> ps.
Proof.
  intros Ht Hp Hm. pose proof (lookup_lt_Some _ _ _ Hp). unfold memp_free.
  by rewrite (proj2 (Z.leb_gt _ _)), (proj2 (Z.eqb_neq _ _) Hm), Hp by lia.
Qed.

(** ** Runs of a pool under its clients *)

Inductive pool_step (d : memp_desc) : pool * list Z -> pool * list Z -> Prop :=
| pstep_malloc p us p' a : memp_malloc_pool (Some p) = (Some p', a) ->
    pool_step d (p, us) (p', if a =? NULL then us else a :: us)
| pstep_free p us us' a p' : us ≡ₚ a :: us' -> memp_free_pool (Some p) a = Some p' ->
    pool_step d (p, us) (p', us')
| pstep_free_null p us p' : memp_free_pool (Some p) NULL = Some p' -> pool_step d (p, us) (p', us).

Lemma pool_step_rep d x y :
  pool_step d x y -> (exists fr, pool_rep d x.1 fr x.2) -> exists fr, pool_rep d y.1 fr y.2.
Proof.
  intros Hstep [fr Hr]. inversion Hstep as [p us p' a Hm|p us us' a p' HP Hm|p us p' Hm]; subst; simpl in *.
  - destruct fr as [|e fr].
    + destruct (do_malloc_none d p us Hr) as (p2 & E & Hr2). rewrite E in Hm.
      injection Hm as <- <-. by exists [].
    + destruct (do_malloc_some d p e fr us Hr) as (p2 & E & Hr2 & He). rewrite E in Hm.
      injection Hm as <- <-. exists fr. by rewrite (proj2 (Z.eqb_neq _ _) He).
  - apply (pool_rep_perm _ _ _ _ _ HP) in Hr. destruct (Z.eqb_spec a NULL) as [->|Hn].
    + exfalso. destruct (elements_ok d NULL (prep_desc _ _ _ _ Hr)) as [H0 _]; [|unfold NULL in H0; lia].
      rewrite <- (prep_elems _ _ _ _ Hr). apply elem_of_app. right. left.
    + injection Hm as <-. exists (a :: fr). by apply do_free_rep.
  - injection Hm as <-. by exists fr.
Qed.

Lemma pool_steps_rep d x y :
  rtc (pool_step d) x y -> (exists fr, pool_rep d x.1 fr x.2) -> exists fr, pool_rep d y.1 fr y.2.
Proof. induction 1 as [|x y z Hxy _ IH]; [done|]. intros H. apply IH. by eapply pool_step_rep. Qed.

(** ** The properties *)

(** The pool of [struct pbuf] headers: 16 elements of 20 bytes. *)
Definition desc0 : memp_desc := mk_desc 20 16 536900001.
Definition pool0 : pool := memp_init_pool desc0 (mk_pool 0 ∅ (mk_stats 0 0 0 0 0)).
Definition pool1 : pool := (do_memp_malloc_pool pool0).1.

Lemma desc0_ok : desc_ok desc0.
Proof. unfold desc_ok. simpl. repeat split; lia. Qed.
Lemma pool0_rep : pool_rep desc0 pool0 (rev (elements desc0)) [].
Proof. apply init_pool_rep; [exact desc0_ok|reflexivity]. Qed.

(** In every state that clients reach from [memp_init_pool] by
    [memp_malloc_pool] and [memp_free_pool], the elements in use are distinct
    elements of the pool, the free list holds exactly the others, the statistics
    count the elements in use and never exceed the size of the pool, and the
    next allocation fails exactly when all elements are in use. *)
Theorem pool_safe d p0 p us :
  desc_ok d -> st_used (pstats p0) = 0 ->
  rtc (pool_step d) (memp_init_pool d p0, []) (p, us) ->
  NoDup us /\ (forall x, x ∈ us -> x ∈ elements d /\ 0 < x /\ x mod 4 = 0) /\
  (exists fr, chain p (tab p) fr /\ fr ++ us ≡ₚ elements d) /\
  st_used (pstats p) = Z.of_nat (length us) /\ Z.of_nat (length us) <= d_num d /\
  ((memp_malloc_pool (Some p)).2 = NULL <-> Z.of_nat (length us) = d_num d).
Proof.
  intros Hd Hu Hsteps. destruct (pool_steps_rep _ _ _ Hsteps) as [fr Hr].
  { exists (rev (elements d)). by apply init_pool_rep. }
  simpl in Hr. destruct Hr as [_ Hc He Hst _]. pose proof (elements_nodup d Hd) as Hnd.
  assert (Hlen : Z.of_nat (length fr + length us) = d_num d).
  { rewrite <- length_app, He. unfold elements. rewrite length_elements_from. destruct Hd. lia. }
  rewrite <- He in Hnd. apply NoDup_app in Hnd as (_ & _ & Hnd).
  split; [done|]. split; [|split; [by exists fr|split; [done|split; [lia|]]]].
  - intros x Hx. assert (Hin : x ∈ elements d) by (rewrite <- He; apply elem_of_app; auto).
    split; [done|]. by destruct (elements_ok d x Hd Hin) as (? & ? & _).
  - cbn [memp_malloc_pool]. unfold do_memp_malloc_pool. destruct fr as [|e fr]; simpl in Hc.
    + rewrite Hc. simpl in *. split; [intros; lia|done].
    + destruct Hc as (-> & Hn & _). rewrite (proj2 (Z.eqb_neq _ _) Hn). unfold MEMP_SIZE. simpl in *.
      split; [intros; lia|intros; lia].
Qed.

Lemma pool_safe_witness :
  rtc (pool_step desc0) (pool0, []) (pool1, [536900304]) /\ NoDup [536900304].
Proof.
  assert (Hs : rtc (pool_step desc0) (pool0, []) (pool1, [536900304])).
  { apply rtc_once. apply (pstep_malloc desc0 pool0 [] pool1 536900304). vm_compute. reflexivity. }
  split; [exact Hs|].
  apply (pool_safe desc0 (mk_pool 0 ∅ (mk_stats 0 0 0 0 0)) pool1 [536900304]);
    [exact desc0_ok|reflexivity|exact Hs].
Defined.

(** An element that is freed is the next one allocated, and the free list
    and the elements in use are then those of before: [memp_free_pool] and
    [memp_malloc_pool] are inverse to each other. *)
Theorem pool_free_malloc_roundtrip d p fr x us :
  pool_rep d p fr (x :: us) ->
  exists p1 p2, memp_free_pool (Some p) x = Some p1 /\ pool_rep d p1 (x :: fr) us /\
    memp_malloc_pool (Some p1) = (Some p2, x) /\ pool_rep d p2 fr (x :: us) /\
    tab p2 = tab p /\ st_used (pstats p2) = st_used (pstats p).
Proof.
  intros Hr. pose proof (do_free_rep d p fr x us Hr) as Hr1.
  destruct (do_malloc_some d _ _ _ _ Hr1) as (p2 & Hm & Hr2 & Hx).
  exists (do_memp_free_pool p x), p2. cbn [memp_free_pool memp_malloc_pool].
  rewrite (proj2 (Z.eqb_neq _ _) Hx), Hm. do 4 (split; [done|]). split.
  - pose proof (prep_chain _ _ _ _ Hr2) as H2. pose proof (prep_chain _ _ _ _ Hr) as H1.
    destruct fr; simpl in *; [congruence|]. destruct H1 as [-> _], H2 as [-> _]. done.
  - by rewrite (prep_used _ _ _ _ Hr), (prep_used _ _ _ _ Hr2).
Qed.

Lemma pool_roundtrip_witness :
  exists fr p1 p2, memp_free_pool (Some pool1) 536900304 = Some p1 /\
    memp_malloc_pool (Some p1) = (Some p2, 536900304) /\ pool_rep desc0 p2 fr [536900304].
Proof.
  pose (fr := tail (rev (elements desc0))).
  assert (Hr : pool_rep desc0 pool1 fr [536900304]).
  { destruct (do_malloc_some desc0 pool0 536900304 fr [] pool0_rep) as (p' & E & Hr & _).
    unfold pool1. rewrite E. exact Hr. }
  destruct (pool_free_malloc_roundtrip desc0 pool1 fr 536900304 [] Hr)
    as (p1 & p2 & H1 & _ & H2 & H3 & _).
  exists fr, p1, p2. auto.
Defined.

(** [memp_sanity] decides whether the free list is circular: it returns 1
    when the list ends after [n] elements and 0 when it comes back, after [q]
    more steps, to the place it reaches after [i] steps; the rounds it needs are
    bounded by [n] and by [q * (i + 1)]. *)
Theorem sanity_decides_cycles p fuel :
  (forall n, walk p (tab p) n = NULL -> (n < fuel)%nat -> memp_sanity fuel p = Some 1) /\
  (forall i q, (0 < q)%nat -> walk p (tab p) (i + q) = walk p (tab p) i ->
     walk p (tab p) i <> NULL -> (q * (i + 1) <= fuel)%nat -> memp_sanity fuel p = Some 0).
Proof.
  split.
  - intros n Hn Hf. unfold memp_sanity. destruct (Z.eqb_spec (tab p) NULL) as [|Ht]; [done|].
    destruct (sanity_loop p (tab p) fuel 0 n Hf (or_introl Hn)) as (j & r & _ & Hl & Hr).
    simpl in Hl. rewrite (proj2 (Z.eqb_neq _ _) Ht) in Hl. rewrite Hl.
    destruct Hr as [[-> _] | (_ & Hj & E)]; [done|exfalso].
    apply (walk_period_nonnull p (tab p) j (j + 1)) with n; [lia| |done|done].
    rewrite E. f_equal. lia.
  - intros i q Hq E Hi Hf. pose proof (walk_period_nonnull p (tab p) i q Hq E Hi) as Hnn.
    unfold memp_sanity. destruct (Z.eqb_spec (tab p) NULL) as [Ht|Ht]; [by destruct (Hnn 0%nat)|].
    destruct (sanity_loop p (tab p) fuel 0 (q * (i + 1) - 1)) as (j & r & _ & Hl & Hr); [nia| |].
    { right. right. symmetry.
      replace (2 * (0 + (q * (i + 1) - 1)) + 1)%nat with ((q * (i + 1) - 1) + (i + 1) * q)%nat by nia.
      rewrite (walk_period p (tab p) i q) by (done || nia). done. }
    simpl in Hl. rewrite (proj2 (Z.eqb_neq _ _) Ht) in Hl. rewrite Hl.
    destruct Hr as [(_ & Hj) | (-> & _)]; [by destruct (Hnn _ Hj)|done].
Qed.

(** [memp_malloc] and [memp_free] on the array of pools: a type out of range
    and a [NULL] element change nothing; otherwise exactly the pool of the type
    is changed, as by the operations on that pool. *)
Theorem memp_by_type ps type p mem :
  0 <= type < 65536 ->
  (Z.of_nat (length ps) <= type ->
     memp_malloc ps type = (ps, NULL) /\ memp_free ps type mem = ps) /\
  (ps !! Z.to_nat type = Some p -> Z.of_nat (length ps) > type /\
     memp_malloc ps type =
       (<[Z.to_nat type := (do_memp_malloc_pool p).1]> ps, (do_memp_malloc_pool p).2) /\
     memp_free ps type mem =
       (if mem =? NULL then ps else <[Z.to_nat type := do_memp_free_pool p mem]> ps)).
Proof.
  intros Ht. split.
  - intros Hl. unfold memp_malloc, memp_free. by rewrite (proj2 (Z.leb_le _ _)) by lia.
  - intros Hp. pose proof (lookup_lt_Some _ _ _ Hp) as Hl. split; [lia|].
    split; [apply memp_malloc_at; [lia|done]|].
    destruct (Z.eqb_spec mem NULL) as [->|Hm]; [unfold memp_free; by destruct (Z.of_nat (length ps) <=? type)|]. apply (memp_free_at _ _ p); [lia|done|done].
Qed.

Lemma memp_by_type_witness :
  memp_malloc [pool0; pool1] 0 = ([pool1; pool1], 536900304) /\
  memp_malloc [pool0; pool1] 7 = ([pool0; pool1], NULL).
Proof.
  split.
  - destruct (memp_by_type [pool0; pool1] 0 pool0 0 ltac:(lia)) as [_ H].
    destruct (H eq_refl) as (_ & E & _). rewrite E. vm_compute. reflexivity.
  - destruct (memp_by_type [pool0; pool1] 7 pool0 0 ltac:(lia)) as [H _].
    apply H. simpl. lia.
Defined.
