(* ===== verification/Pbuf.v ===== *)
(** * [core/pbuf.c]: packet buffers

    The data and all operations of packet buffers.  A [struct pbuf] is kept in a
    finite map from its address, the payload bytes are those of the byte memory,
    and the allocators are the heap of [Mem] and the pools of [Memp].  The
    configuration: [LWIP_SUPPORT_CUSTOM_PBUF] = 1 (fragments of outgoing packets
    are custom pbufs), [PBUF_POOL_SIZE] = 16, 1516 bytes per pool buffer, link,
    IP and transport headers of 16, 20 and 20 bytes, [PBUF_POOL_FREE_OOSEQ] = 1.
    The loops over a chain take a bound on the number of rounds; [None] is
    running out of it, and the theorems of [PbufChain] and [PbufAlloc] show that
    any bound above the length of the chain is enough. *)

From Stdlib Require Import ZArith Lia.
From stdpp Require Import base tactics numbers list option gmap.
From S2P Require Import Prelude.
From S2P Require Import Def.
From S2P Require Import Mem.
From S2P Require Import Memp.

(** ** Constants *)

(** [pbuf_layer] *)
Inductive pbuf_layer := PBUF_TRANSPORT | PBUF_IP | PBUF_LINK | PBUF_RAW_TX | PBUF_RAW.

(** [pbuf_type]; the field of the struct holds its number. *)
Inductive pbuf_type := PBUF_RAM | PBUF_ROM | PBUF_REF | PBUF_POOL.
#[export] Instance pbuf_type_eq_dec : EqDecision pbuf_type.
Proof. solve_decision. Defined.

Definition PBUF_FLAG_IS_CUSTOM : Z := 0x02.
Definition PBUF_FLAG_TCP_FIN : Z := 0x20.
Definition PBUF_TRANSPORT_HLEN : Z := 20.
Definition PBUF_IP_HLEN : Z := 20.
Definition PBUF_LINK_HLEN : Z := 16.
Definition PBUF_LINK_ENCAPSULATION_HLEN : Z := 0.
Definition SIZEOF_STRUCT_PBUF : Z := LWIP_MEM_ALIGN_SIZE 20.
Definition PBUF_POOL_BUFSIZE : Z := LWIP_MEM_ALIGN_SIZE (1460 + 40 + 0 + 16).
Definition PBUF_POOL_BUFSIZE_ALIGNED : Z := LWIP_MEM_ALIGN_SIZE PBUF_POOL_BUFSIZE.

(** The indices of the pools in [memp_pools]. *)
Definition MEMP_PBUF : Z := 8.
Definition MEMP_PBUF_POOL : Z := 9.

(** [err_t] *)
Definition ERR_OK : Z := 0.
Definition ERR_MEM : Z := -1.
Definition ERR_BUF : Z := -2.
Definition ERR_RTE : Z := -4.
Definition ERR_VAL : Z := -6.
Definition ERR_USE : Z := -8.
Definition ERR_ARG : Z := -16.

(** ** State *)

(** [struct pbuf] *)
Record pbuf := mk_pbuf {
  pb_next : Z; pb_payload : Z; pb_tot_len : Z; pb_len : Z;
  pb_type : pbuf_type; pb_flags : Z; pb_ref : Z
}.

Record pstate := mk_ps {
  pbufs : gmap Z pbuf;
  data : memory;
  ps_heap : heap;
  ps_pools : list pool;
  pbuf_free_ooseq_pending : Z
}.

(** The struct at an address. *)
Definition pb (st : pstate) (p : Z) : pbuf :=
  default (mk_pbuf 0 0 0 0 PBUF_RAM 0 0) (pbufs st !! p).

Definition set_pb (st : pstate) (p : Z) (x : pbuf) : pstate :=
  mk_ps (<[p := x]> (pbufs st)) (data st) (ps_heap st) (ps_pools st) (pbuf_free_ooseq_pending st).
Definition set_data (st : pstate) (m : memory) : pstate :=
  mk_ps (pbufs st) m (ps_heap st) (ps_pools st) (pbuf_free_ooseq_pending st).
Definition set_heap (st : pstate) (h : heap) : pstate :=
  mk_ps (pbufs st) (data st) h (ps_pools st) (pbuf_free_ooseq_pending st).
Definition set_pools (st : pstate) (ps : list pool) : pstate :=
  mk_ps (pbufs st) (data st) (ps_heap st) ps (pbuf_free_ooseq_pending st).

Definition with_next (x : pbuf) (v : Z) : pbuf :=
  mk_pbuf v (pb_payload x) (pb_tot_len x) (pb_len x) (pb_type x) (pb_flags x) (pb_ref x).
Definition with_payload (x : pbuf) (v : Z) : pbuf :=
  mk_pbuf (pb_next x) v (pb_tot_len x) (pb_len x) (pb_type x) (pb_flags x) (pb_ref x).
Definition with_tot_len (x : pbuf) (v : Z) : pbuf :=
  mk_pbuf (pb_next x) (pb_payload x) v (pb_len x) (pb_type x) (pb_flags x) (pb_ref x).
Definition with_len (x : pbuf) (v : Z) : pbuf :=
  mk_pbuf (pb_next x) (pb_payload x) (pb_tot_len x) v (pb_type x) (pb_flags x) (pb_ref x).
Definition with_type (x : pbuf) (v : pbuf_type) : pbuf :=
  mk_pbuf (pb_next x) (pb_payload x) (pb_tot_len x) (pb_len x) v (pb_flags x) (pb_ref x).
Definition with_flags (x : pbuf) (v : Z) : pbuf :=
  mk_pbuf (pb_next x) (pb_payload x) (pb_tot_len x) (pb_len x) (pb_type x) v (pb_ref x).
Definition with_ref (x : pbuf) (v : Z) : pbuf :=
  mk_pbuf (pb_next x) (pb_payload x) (pb_tot_len x) (pb_len x) (pb_type x) (pb_flags x) v.

(** [p->field = v] *)
Definition upd_pb (st : pstate) (p : Z) (f : pbuf -> pbuf) : pstate := set_pb st p (f (pb st p)).

Section Ops.
(** [pc->custom_free_function(p)]: a function pointer that the owner of a custom
    pbuf stores in it. *)
Context (custom_free : pstate -> Z -> pstate).
(** The bound on the rounds of a loop. *)
Context (fuel : nat).

(** ** Allocation and release *)

(** [pbuf_pool_is_empty] *)
Definition pbuf_pool_is_empty (st : pstate) : pstate :=
  mk_ps (pbufs st) (data st) (ps_heap st) (ps_pools st) 1.

(** [pbuf_free(p)]: the state and the number of pbufs that were freed, a [u8_t]. *)
Definition pbuf_free (st : pstate) (p : Z) : option (pstate * Z) :=
  if p =? NULL then Some (st, 0)
  else
    loop fuel (fun '(st, p, count) =>
      if negb (p =? NULL) then
        let ref := u16 (pb_ref (pb st p) - 1) in
        let st := upd_pb st p (fun x => with_ref x ref) in
        if ref =? 0 then
          let q := pb_next (pb st p) in
          let type := pb_type (pb st p) in
          let st :=
            if negb (Z.land (pb_flags (pb st p)) PBUF_FLAG_IS_CUSTOM =? 0) then custom_free st p
            else match type with
                 | PBUF_POOL => set_pools st (memp_free (ps_pools st) MEMP_PBUF_POOL p)
                 | PBUF_ROM | PBUF_REF => set_pools st (memp_free (ps_pools st) MEMP_PBUF p)
                 | PBUF_RAM => set_heap st (mem_free (ps_heap st) p)
                 end in
          inl (st, q, u8 (count + 1))
        else inl (st, NULL, count)
      else inr (st, count)) (st, p, 0).

(** The switch over the layer. *)
Definition pbuf_offset (layer : pbuf_layer) : Z :=
  match layer with
  | PBUF_TRANSPORT =>
      PBUF_LINK_ENCAPSULATION_HLEN + PBUF_LINK_HLEN + PBUF_IP_HLEN + PBUF_TRANSPORT_HLEN
  | PBUF_IP => PBUF_LINK_ENCAPSULATION_HLEN + PBUF_LINK_HLEN + PBUF_IP_HLEN
  | PBUF_LINK => PBUF_LINK_ENCAPSULATION_HLEN + PBUF_LINK_HLEN
  | PBUF_RAW_TX => PBUF_LINK_ENCAPSULATION_HLEN
  | PBUF_RAW => 0
  end.

(** The loop of [pbuf_alloc] that chains further pool buffers behind [r]: the
    state and whether the pool was not empty. *)
Definition pool_rest (st : pstate) (r rem_len : Z) : option (pstate * bool) :=
  loop fuel (fun '(st, r, rem_len) =>
    if 0 <? rem_len then
      let '(ps, q) := memp_malloc (ps_pools st) MEMP_PBUF_POOL in
      let st := set_pools st ps in
      if q =? NULL then inr (pbuf_pool_is_empty st, false)
      else
        let st := upd_pb st q (fun x => with_next (with_flags (with_type x PBUF_POOL) 0) NULL) in
        let st := upd_pb st r (fun x => with_next x q) in
        let len := Z.min (u16 rem_len) PBUF_POOL_BUFSIZE_ALIGNED in
        let st := upd_pb st q (fun x =>
          with_ref (with_payload (with_len (with_tot_len x (u16 rem_len)) len)
                      (q + SIZEOF_STRUCT_PBUF)) 1) in
        inl (st, q, s32 (rem_len - len))
    else inr (st, true)) (st, r, rem_len).

(** [pbuf_alloc(layer, length, type)].  The fields that the code has not set yet
    keep what the memory held before. *)
Definition pbuf_alloc (st : pstate) (layer : pbuf_layer) (length : Z) (type : pbuf_type)
    : option (pstate * Z) :=
  let offset := pbuf_offset layer in
  let finish st p :=
    Some (upd_pb st p (fun x => with_flags (with_ref x 1) 0), p) in
  match type with
  | PBUF_POOL =>
      let '(ps, p) := memp_malloc (ps_pools st) MEMP_PBUF_POOL in
      let st := set_pools st ps in
      if p =? NULL then Some (pbuf_pool_is_empty st, NULL)
      else
        let st := upd_pb st p (fun x => with_next (with_type x type) NULL) in
        let payload := LWIP_MEM_ALIGN (p + (SIZEOF_STRUCT_PBUF + offset)) in
        let len := Z.min length (PBUF_POOL_BUFSIZE_ALIGNED - LWIP_MEM_ALIGN_SIZE offset) in
        let st := upd_pb st p (fun x =>
          with_ref (with_len (with_tot_len (with_payload x payload) length) len) 1) in
        match pool_rest st p (length - len) with
        | None => None
        | Some (st, true) => finish st p
        | Some (st, false) =>
            match pbuf_free st p with None => None | Some (st, _) => Some (st, NULL) end
        end
  | PBUF_RAM =>
      let alloc_len := u16 (LWIP_MEM_ALIGN_SIZE (SIZEOF_STRUCT_PBUF + offset) + LWIP_MEM_ALIGN_SIZE length) in
      if alloc_len <? LWIP_MEM_ALIGN_SIZE length then Some (st, NULL)
      else
        match mem_malloc (ps_heap st) alloc_len with
        | None => None
        | Some (h, p) =>
            let st := set_heap st h in
            if p =? NULL then Some (st, NULL)
            else
              let payload := LWIP_MEM_ALIGN (p + SIZEOF_STRUCT_PBUF + offset) in
              let st := upd_pb st p (fun x =>
                with_type (with_next (with_len (with_tot_len (with_payload x payload) length) length)
                             NULL) type) in
              finish st p
        end
  | PBUF_ROM | PBUF_REF =>
      let '(ps, p) := memp_malloc (ps_pools st) MEMP_PBUF in
      let st := set_pools st ps in
      if p =? NULL then Some (st, NULL)
      else
        let st := upd_pb st p (fun x =>
          with_type (with_next (with_len (with_tot_len (with_payload x NULL) length) length) NULL)
            type) in
        finish st p
  end.

(** [pbuf_alloced_custom]: the struct is the caller's. *)
Definition pbuf_alloced_custom (st : pstate) (l : pbuf_layer) (length : Z) (type : pbuf_type)
    (p payload_mem payload_mem_len : Z) : pstate * Z :=
  let offset := pbuf_offset l in
  if payload_mem_len <? LWIP_MEM_ALIGN_SIZE offset + length then (st, NULL)
  else
    let payload := if negb (payload_mem =? NULL) then payload_mem + LWIP_MEM_ALIGN_SIZE offset else NULL in
    (set_pb st p (mk_pbuf NULL payload length length type PBUF_FLAG_IS_CUSTOM 1), p).

(** [pbuf_realloc(p, new_len)] *)
Definition pbuf_realloc (st : pstate) (p new_len : Z) : option pstate :=
  if pb_tot_len (pb st p) <=? new_len then Some st
  else
    let grow := new_len - pb_tot_len (pb st p) in
    match loop fuel (fun '(st, q, rem_len) =>
            if pb_len (pb st q) <? rem_len then
              let rem_len := u16 (rem_len - pb_len (pb st q)) in
              let st := upd_pb st q (fun x => with_tot_len x (u16 (pb_tot_len x + u16 grow))) in
              inl (st, pb_next (pb st q), rem_len)
            else inr (st, q, rem_len)) (st, p, new_len) with
    | None => None
    | Some (st, q, rem_len) =>
        let '(st, q) :=
          if bool_decide (pb_type (pb st q) = PBUF_RAM) && negb (rem_len =? pb_len (pb st q))
             && (Z.land (pb_flags (pb st q)) PBUF_FLAG_IS_CUSTOM =? 0) then
            let '(h, q') := mem_trim (ps_heap st) q (u16 (u16 (pb_payload (pb st q) - q) + rem_len)) in
            (set_heap st h, q')
          else (st, q) in
        let st := upd_pb st q (fun x => with_len x rem_len) in
        let st := upd_pb st q (fun x => with_tot_len x (pb_len x)) in
        match (if negb (pb_next (pb st q) =? NULL) then pbuf_free st (pb_next (pb st q))
               else Some (st, 0)) with
        | None => None
        | Some (st, _) => Some (upd_pb st q (fun x => with_next x NULL))
        end
    end.

(** [pbuf_header_impl(p, header_size_increment, force)]: the state and 0 for
    success, 1 for failure. *)
Definition pbuf_header_impl (st : pstate) (p header_size_increment : Z) (force : bool) : pstate * Z :=
  if (header_size_increment =? 0) || (p =? NULL) then (st, 0)
  else
    let increment_magnitude := u16 (Z.abs header_size_increment) in
    if (header_size_increment <? 0) && negb (increment_magnitude <=? pb_len (pb st p)) then (st, 1)
    else
      let payload := pb_payload (pb st p) in
      let moved := upd_pb st p (fun x => with_payload x (payload - header_size_increment)) in
      let resized st := (upd_pb st p (fun x =>
        with_tot_len (with_len x (u16 (pb_len x + header_size_increment)))
          (u16 (pb_tot_len x + header_size_increment))), 0) in
      match pb_type (pb st p) with
      | PBUF_RAM | PBUF_POOL =>
          if pb_payload (pb moved p) <? p + SIZEOF_STRUCT_PBUF
          then (upd_pb moved p (fun x => with_payload x payload), 1)
          else resized moved
      | PBUF_REF | PBUF_ROM =>
          if (header_size_increment <? 0) && (increment_magnitude <=? pb_len (pb st p)) then resized moved
          else if (0 <? header_size_increment) && force then resized moved
          else (st, 1)
      end.

Definition pbuf_header (st : pstate) (p header_size_increment : Z) : pstate * Z :=
  pbuf_header_impl st p header_size_increment false.
Definition pbuf_header_force (st : pstate) (p header_size_increment : Z) : pstate * Z :=
  pbuf_header_impl st p header_size_increment true.

(** ** Chains *)

(** [pbuf_clen(p)] *)
Definition pbuf_clen (st : pstate) (p : Z) : option Z :=
  loop fuel (fun '(p, len) =>
    if negb (p =? NULL) then inl (pb_next (pb st p), u16 (len + 1)) else inr len) (p, 0).

(** [pbuf_ref(p)] *)
Definition pbuf_ref (st : pstate) (p : Z) : pstate :=
  if negb (p =? NULL) then upd_pb st p (fun x => with_ref x (u16 (pb_ref x + 1))) else st.

(** [pbuf_cat(h, t)] *)
Definition pbuf_cat (st : pstate) (h t : Z) : option pstate :=
  if (h =? NULL) || (t =? NULL) then Some st
  else
    match loop fuel (fun '(st, p) =>
            if negb (pb_next (pb st p) =? NULL) then
              let st := upd_pb st p (fun x => with_tot_len x (u16 (pb_tot_len x + pb_tot_len (pb st t)))) in
              inl (st, pb_next (pb st p))
            else inr (st, p)) (st, h) with
    | None => None
    | Some (st, p) =>
        let st := upd_pb st p (fun x => with_tot_len x (u16 (pb_tot_len x + pb_tot_len (pb st t)))) in
        Some (upd_pb st p (fun x => with_next x t))
    end.

(** [pbuf_chain(h, t)] *)
Definition pbuf_chain (st : pstate) (h t : Z) : option pstate :=
  match pbuf_cat st h t with None => None | Some st => Some (pbuf_ref st t) end.

(** [pbuf_dechain(p)]: the state and the rest of the chain, or [NULL] when it was
    freed. *)
Definition pbuf_dechain (st : pstate) (p : Z) : option (pstate * Z) :=
  let q := pb_next (pb st p) in
  if negb (q =? NULL) then
    let st := upd_pb st q (fun x => with_tot_len x (u16 (pb_tot_len (pb st p) - pb_len (pb st p)))) in
    let st := upd_pb st p (fun x => with_next x NULL) in
    let st := upd_pb st p (fun x => with_tot_len x (pb_len x)) in
    match pbuf_free st q with
    | None => None
    | Some (st, tail_gone) => Some (st, if 0 <? tail_gone then NULL else q)
    end
  else Some (st, NULL).

(** ** Copying *)

(** The body of the loop of [pbuf_copy]. *)
Definition copy_step (s : pstate * Z * Z * Z * Z) : (pstate * Z * Z * Z * Z) + (pstate * Z) :=
  let '(st, p_to, p_from, offset_to, offset_from) := s in
  let len := u16 (if pb_len (pb st p_from) - offset_from <=? pb_len (pb st p_to) - offset_to
                  then pb_len (pb st p_from) - offset_from
                  else pb_len (pb st p_to) - offset_to) in
  let st := set_data st (memcpy (data st) (pb_payload (pb st p_to) + offset_to)
                           (pb_payload (pb st p_from) + offset_from) len) in
  let offset_to := u16 (offset_to + len) in
  let offset_from := u16 (offset_from + len) in
  let '(offset_from, p_from) :=
    if pb_len (pb st p_from) <=? offset_from then (0, pb_next (pb st p_from))
    else (offset_from, p_from) in
  let to_done := offset_to =? pb_len (pb st p_to) in
  let '(offset_to, p_to) :=
    if to_done then (0, pb_next (pb st p_to)) else (offset_to, p_to) in
  if to_done && negb (negb (p_to =? NULL) || (p_from =? NULL)) then inr (st, ERR_ARG)
  else if negb (p_from =? NULL) &&
          ((pb_len (pb st p_from) =? pb_tot_len (pb st p_from)) && negb (pb_next (pb st p_from) =? NULL))
       then inr (st, ERR_VAL)
  else if negb (p_to =? NULL) &&
          ((pb_len (pb st p_to) =? pb_tot_len (pb st p_to)) && negb (pb_next (pb st p_to) =? NULL))
       then inr (st, ERR_VAL)
  else if negb (p_from =? NULL) then inl (st, p_to, p_from, offset_to, offset_from)
  else inr (st, ERR_OK).

(** [pbuf_copy(p_to, p_from)] *)
Definition pbuf_copy (st : pstate) (p_to p_from : Z) : option (pstate * Z) :=
  if negb (negb (p_to =? NULL) && negb (p_from =? NULL)
           && (pb_tot_len (pb st p_from) <=? pb_tot_len (pb st p_to))) then Some (st, ERR_ARG)
  else loop fuel copy_step (st, p_to, p_from, 0, 0).

(** [pbuf_copy_partial(buf, dataptr, len, offset)]: the memory and the number of
    bytes copied. *)
Definition pbuf_copy_partial (st : pstate) (buf dataptr len offset : Z) : option (pstate * Z) :=
  if (buf =? NULL) || (dataptr =? NULL) then Some (st, 0)
  else
    loop fuel (fun '(st, p, len, offset, left_, copied_total) =>
      if negb (len =? 0) && negb (p =? NULL) then
        if negb (offset =? 0) && (pb_len (pb st p) <=? offset) then
          inl (st, pb_next (pb st p), len, u16 (offset - pb_len (pb st p)), left_, copied_total)
        else
          let buf_copy_len := u16 (pb_len (pb st p) - offset) in
          let buf_copy_len := if len <? buf_copy_len then len else buf_copy_len in
          let st := set_data st (memcpy (data st) (dataptr + left_)
                                   (pb_payload (pb st p) + offset) buf_copy_len) in
          inl (st, pb_next (pb st p), u16 (len - buf_copy_len), 0,
               u16 (left_ + buf_copy_len), u16 (copied_total + buf_copy_len))
      else inr (st, copied_total)) (st, buf, len, offset, 0, 0).

(** [pbuf_skip_const] and [pbuf_skip]: the pbuf and the offset in it. *)
Definition pbuf_skip_const (st : pstate) (in_ in_offset : Z) : option (Z * Z) :=
  loop fuel (fun '(q, offset_left) =>
    if negb (q =? NULL) && (pb_len (pb st q) <=? offset_left)
    then inl (pb_next (pb st q), u16 (offset_left - pb_len (pb st q)))
    else inr (q, offset_left)) (in_, in_offset).
Definition pbuf_skip (st : pstate) (in_ in_offset : Z) : option (Z * Z) :=
  pbuf_skip_const st in_ in_offset.

(** [pbuf_take(buf, dataptr, len)] *)
Definition pbuf_take (st : pstate) (buf dataptr len : Z) : option (pstate * Z) :=
  if buf =? NULL then Some (st, ERR_ARG)
  else if dataptr =? NULL then Some (st, ERR_ARG)
  else if pb_tot_len (pb st buf) <? len then Some (st, ERR_MEM)
  else
    loop fuel (fun '(st, p, total_copy_len, copied_total) =>
      if negb (total_copy_len =? 0) then
        let buf_copy_len := if pb_len (pb st p) <? total_copy_len then pb_len (pb st p) else total_copy_len in
        let st := set_data st (memcpy (data st) (pb_payload (pb st p)) (dataptr + copied_total) buf_copy_len) in
        inl (st, pb_next (pb st p), u16 (total_copy_len - buf_copy_len), u16 (copied_total + buf_copy_len))
      else inr (st, ERR_OK)) (st, buf, len, 0).

(** [pbuf_take_at(buf, dataptr, len, offset)] *)
Definition pbuf_take_at (st : pstate) (buf dataptr len offset : Z) : option (pstate * Z) :=
  match pbuf_skip st buf offset with
  | None => None
  | Some (q, target_offset) =>
      if negb (q =? NULL) && (target_offset + len <=? pb_tot_len (pb st q)) then
        let first_copy_len := u16 (Z.min (pb_len (pb st q) - target_offset) len) in
        let st := set_data st (memcpy (data st) (pb_payload (pb st q) + target_offset) dataptr first_copy_len) in
        let remaining_len := u16 (len - first_copy_len) in
        if 0 <? remaining_len
        then pbuf_take st (pb_next (pb st q)) (dataptr + first_copy_len) remaining_len
        else Some (st, ERR_OK)
      else Some (st, ERR_MEM)
  end.

(** [pbuf_coalesce(p, layer)] *)
Definition pbuf_coalesce (st : pstate) (p : Z) (layer : pbuf_layer) : option (pstate * Z) :=
  if pb_next (pb st p) =? NULL then Some (st, p)
  else
    match pbuf_alloc st layer (pb_tot_len (pb st p)) PBUF_RAM with
    | None => None
    | Some (st, q) =>
        if q =? NULL then Some (st, p)
        else
          match pbuf_copy st q p with
          | None => None
          | Some (st, _) =>
              match pbuf_free st p with None => None | Some (st, _) => Some (st, q) end
          end
    end.

(** [pbuf_split_64k(p, &rest)] (compiled with [LWIP_WND_SCALE]): the state and
    [*rest]. *)
Definition pbuf_split_64k (st : pstate) (p : Z) : option (pstate * Z) :=
  if negb (p =? NULL) && negb (pb_next (pb st p) =? NULL) then
    match loop fuel (fun '(tot_len_front, i, r) =>
            if negb (r =? NULL) && (tot_len_front <? u16 (tot_len_front + pb_len (pb st r)))
            then inl (u16 (tot_len_front + pb_len (pb st r)), r, pb_next (pb st r))
            else inr (i, r)) (pb_len (pb st p), p, pb_next (pb st p)) with
    | None => None
    | Some (i, r) =>
        let st := upd_pb st i (fun x => with_next x NULL) in
        if negb (r =? NULL) then
          match loop fuel (fun '(st, i) =>
                  if negb (i =? NULL) then
                    let st := upd_pb st i (fun x => with_tot_len x (u16 (pb_tot_len x - pb_tot_len (pb st r)))) in
                    inl (st, pb_next (pb st i))
                  else inr st) (st, p) with
          | None => None
          | Some st =>
              let st := if negb (Z.land (pb_flags (pb st p)) PBUF_FLAG_TCP_FIN =? 0)
                        then upd_pb st r (fun x => with_flags x (Z.lor (pb_flags x) PBUF_FLAG_TCP_FIN))
                        else st in
              Some (st, r)
          end
        else Some (st, NULL)
    end
  else Some (st, NULL).

(** ** Bytes and searches *)

(** [pbuf_try_get_at(p, offset)]: the byte, or -1. *)
Definition pbuf_try_get_at (st : pstate) (p offset : Z) : option Z :=
  match pbuf_skip_const st p offset with
  | None => None
  | Some (q, q_idx) =>
      if negb (q =? NULL) && (q_idx <? pb_len (pb st q))
      then Some (data st (pb_payload (pb st q) + q_idx)) else Some (-1)
  end.

(** [pbuf_get_at(p, offset)] *)
Definition pbuf_get_at (st : pstate) (p offset : Z) : option Z :=
  match pbuf_try_get_at st p offset with
  | None => None
  | Some ret => if 0 <=? ret then Some (u8 ret) else Some 0
  end.

(** [pbuf_put_at(p, offset, data)] *)
Definition pbuf_put_at (st : pstate) (p offset d : Z) : option pstate :=
  match pbuf_skip st p offset with
  | None => None
  | Some (q, q_idx) =>
      if negb (q =? NULL) && (q_idx <? pb_len (pb st q))
      then Some (set_data st (upd (data st) (pb_payload (pb st q) + q_idx) d)) else Some st
  end.

(** [pbuf_memcmp(p, offset, s2, n)] *)
Definition pbuf_memcmp (st : pstate) (p offset s2 n : Z) : option Z :=
  if pb_tot_len (pb st p) <? offset + n then Some 0xffff
  else
    match pbuf_skip_const st p offset with
    | None => None
    | Some (q, start) =>
        match loop (S (Z.to_nat n)) (fun i =>
                if i <? n then
                  match pbuf_get_at st q (u16 (start + i)) with
                  | None => inr None
                  | Some a => if negb (a =? data st (s2 + i)) then inr (Some (u16 (i + 1)))
                              else inl (u16 (i + 1))
                  end
                else inr (Some 0)) 0 with
        | None => None
        | Some r => r
        end
    end.

(** [pbuf_memfind(p, mem, mem_len, start_offset)] *)
Definition pbuf_memfind (st : pstate) (p mem mem_len start_offset : Z) : option Z :=
  let max := u16 (pb_tot_len (pb st p) - mem_len) in
  if mem_len + start_offset <=? pb_tot_len (pb st p) then
    match loop (S (S (Z.to_nat max))) (fun i =>
            if i <=? max then
              match pbuf_memcmp st p i mem mem_len with
              | None => inr None
              | Some plus => if plus =? 0 then inr (Some i) else inl (u16 (i + 1))
              end
            else inr (Some 0xFFFF)) start_offset with
    | None => None
    | Some r => r
    end
  else Some 0xFFFF.

(** [pbuf_strstr(p, substr)] *)
Definition pbuf_strstr (st : pstate) (p substr : Z) : option Z :=
  if (substr =? NULL) || (data st substr =? 0) || (pb_tot_len (pb st p) =? 0xFFFF) then Some 0xFFFF
  else
    match strlen fuel (data st) substr with
    | None => None
    | Some substr_len =>
        if 0xFFFF <=? substr_len then Some 0xFFFF
        else pbuf_memfind st p substr (u16 substr_len) 0
    end.

End Ops.
