(* ===== verification/PbufChain.v ===== *)
(** * Packet buffer chains: contents, searches and copies

    A chain as the list of its pbufs and its content as a byte string, and the
    theorems that the operations of [Pbuf] which walk a chain are the byte
    string operations they stand for. *)

From Stdlib Require Import ZArith Lia.
From stdpp Require Import base tactics numbers list option gmap.
From S2P Require Import Prelude.
From S2P Require Import Def.
From S2P Require Import Alloc.
From S2P Require Import Mem.
From S2P Require Import Memp.
From S2P Require Import Pbuf.

(** ** Chains *)

(** The pbufs from [p] to the [NULL] link are [l]. *)
Fixpoint pchain (st : pstate) (p : Z) (l : list Z) : Prop :=
  match l with
  | [] => p = NULL
  | x :: l => p = x /\ x <> NULL /\ pchain st (pb_next (pb st x)) l
  end.

(** The bytes in the pbufs of a list. *)
Fixpoint plen (st : pstate) (l : list Z) : Z :=
  match l with [] => 0 | x :: l => pb_len (pb st x) + plen st l end.

(** [tot_len] is the sum of the [len] of the pbuf and of those behind it, and
    fits in 16 bits. *)
Fixpoint sizes (st : pstate) (l : list Z) : Prop :=
  match l with
  | [] => True
  | x :: r => 0 <= pb_len (pb st x) /\ pb_tot_len (pb st x) = pb_len (pb st x) + plen st r /\
              pb_tot_len (pb st x) < 65536 /\ sizes st r
  end.

Definition payload_bytes (st : pstate) (x : Z) : list Z :=
  bytes_at (data st) (pb_payload (pb st x)) (Z.to_nat (pb_len (pb st x))).

(** The byte string a chain holds. *)
Fixpoint content (st : pstate) (l : list Z) : list Z :=
  match l with [] => [] | x :: l => payload_bytes st x ++ content st l end.

(** The payload of a pbuf as a region. *)
Definition payload_region (st : pstate) (x : Z) : region := (pb_payload (pb st x), pb_len (pb st x)).
Definition payloads (st : pstate) (l : list Z) : list region := map (payload_region st) l.

(** *** Field updates *)

Lemma pb_set_pb st p x k : pb (set_pb st p x) k = if k =? p then x else pb st k.
Proof.
  unfold pb, set_pb. simpl. destruct (Z.eqb_spec k p) as [->|].
  - by rewrite lookup_insert_eq.
  - by rewrite lookup_insert_ne by done.
Qed.
Lemma pb_upd_pb st p f k : pb (upd_pb st p f) k = if k =? p then f (pb st p) else pb st k.
Proof. apply pb_set_pb. Qed.
Lemma pb_upd_eq st p f : pb (upd_pb st p f) p = f (pb st p).
Proof. by rewrite pb_upd_pb, Z.eqb_refl. Qed.
Lemma pb_upd_ne st p f k : k <> p -> pb (upd_pb st p f) k = pb st k.
Proof. intros. by rewrite pb_upd_pb, (proj2 (Z.eqb_neq _ _)). Qed.
Lemma pb_set_data st m p : pb (set_data st m) p = pb st p.
Proof. done. Qed.
Lemma data_upd_pb st p f : data (upd_pb st p f) = data st.
Proof. done. Qed.

#[export] Hint Rewrite pb_upd_eq pb_set_data data_upd_pb : lwip.

(** *** Extensionality: what a chain depends on *)

Lemma pchain_ext st st' p l :
  (forall x, x ∈ l -> pb_next (pb st' x) = pb_next (pb st x)) -> pchain st p l -> pchain st' p l.
Proof.
  revert p. induction l as [|x l IH]; intros p He; simpl; [done|]. intros (-> & Hx & Hc).
  split; [done|]. split; [done|]. rewrite He by left. apply IH; [|done]. intros; apply He; by right.
Qed.

Lemma plen_ext st st' l :
  (forall x, x ∈ l -> pb_len (pb st' x) = pb_len (pb st x)) -> plen st' l = plen st l.
Proof.
  induction l as [|x l IH]; intros He; simpl; [done|]. rewrite IH, He; [done|left|].
  intros; apply He; by right.
Qed.

Lemma sizes_ext st st' l :
  (forall x, x ∈ l -> pb_len (pb st' x) = pb_len (pb st x) /\ pb_tot_len (pb st' x) = pb_tot_len (pb st x)) ->
  sizes st l -> sizes st' l.
Proof.
  induction l as [|x l IH]; intros He; simpl; [done|]. intros (H1 & H2 & H3 & H4).
  destruct (He x ltac:(left)) as [-> ->]. rewrite (plen_ext st st').
  - repeat split; auto. apply IH; [|done]. intros; apply He; by right.
  - intros y Hy. apply He. by right.
Qed.

Lemma content_ext st st' l :
  (forall x, x ∈ l -> payload_bytes st' x = payload_bytes st x) -> content st' l = content st l.
Proof.
  induction l as [|x l IH]; intros He; simpl; [done|]. rewrite IH, He; [done|left|].
  intros; apply He; by right.
Qed.

(** *** Basic facts *)

Lemma plen_app st l l' : plen st (l ++ l') = plen st l + plen st l'.
Proof. induction l; simpl; lia. Qed.

Lemma content_app st l l' : content st (l ++ l') = content st l ++ content st l'.
Proof. induction l; simpl; [done|]. by rewrite IHl, app_assoc. Qed.

Lemma payloads_app st l l' : payloads st (l ++ l') = payloads st l ++ payloads st l'.
Proof. apply map_app. Qed.

Lemma sizes_nonneg st l : sizes st l -> 0 <= plen st l /\ Forall (fun x => 0 <= pb_len (pb st x)) l.
Proof.
  induction l as [|x l IH]; simpl; [split; [lia|constructor]|]. intros (H1 & _ & _ & H4).
  destruct (IH H4). split; [lia|by constructor].
Qed.

Lemma sizes_lt st l : sizes st l -> plen st l < 65536.
Proof. destruct l; simpl; [lia|]. intros (_ & -> & H & _). done. Qed.

Lemma sizes_app_r st l l' : sizes st (l ++ l') -> sizes st l'.
Proof. induction l; simpl; [done|]. intros (_ & _ & _ & ?). auto. Qed.

Lemma sizes_head st x l : sizes st (x :: l) -> pb_tot_len (pb st x) = plen st (x :: l).
Proof. simpl. tauto. Qed.

Lemma length_payload_bytes st x : length (payload_bytes st x) = Z.to_nat (pb_len (pb st x)).
Proof. apply length_bytes_at. Qed.

Lemma length_content st l : sizes st l -> length (content st l) = Z.to_nat (plen st l).
Proof.
  induction l as [|x l IH]; simpl; [done|]. intros (H1 & _ & _ & H4).
  rewrite length_app, length_payload_bytes, IH by done. pose proof (sizes_nonneg _ _ H4). lia.
Qed.

(** The link to the rest of a chain. *)
Lemma pchain_suffix st p l x l' : pchain st p (l ++ x :: l') -> pchain st x (x :: l').
Proof.
  revert p. induction l as [|y l IH]; intros p; simpl; [tauto|]. intros (_ & _ & Hc). by apply (IH _ Hc).
Qed.

Lemma pchain_det st p l l' : pchain st p l -> pchain st p l' -> l = l'.
Proof.
  revert p l'. induction l as [|x l IH]; intros p [|x' l']; simpl; try done.
  - by intros -> (<- & ? & _).
  - intros (-> & Hx & _). done.
  - intros (-> & _ & H1) (-> & _ & H2). f_equal. by apply (IH _ _ H1).
Qed.

Lemma pchain_nodup st p l : pchain st p l -> NoDup l.
Proof.
  revert p. induction l as [|x l IH]; intros p Hc; [constructor|]. constructor.
  - intros Hin. apply list_elem_of_split in Hin as (l1 & l2 & ->).
    pose proof Hc as (-> & _ & _). pose proof (pchain_suffix st x (x :: l1) x l2 Hc) as Hs.
    pose proof (pchain_det _ _ _ _ Hc Hs) as E. apply (f_equal length) in E. simpl in E.
    rewrite length_app in E. simpl in E. lia.
  - destruct Hc as (_ & _ & Hc). by apply (IH _ Hc).
Qed.

Lemma pchain_nonnull st p l x : pchain st p l -> x ∈ l -> x <> NULL.
Proof.
  revert p. induction l as [|y l IH]; intros p Hc Hx; [inversion Hx|]. destruct Hc as (_ & Hy & Hc).
  apply elem_of_cons in Hx as [->|Hx]; [done|]. by apply (IH _ Hc).
Qed.

(** *** Memory writes and contents *)

(** A write outside of the payloads does not change the content. *)
Lemma content_write_out st a bs l :
  Forall (separate (a, Z.of_nat (length bs))) (payloads st l) ->
  content (set_data st (write_bytes (data st) a bs)) l = content st l.
Proof.
  intros Hs. apply content_ext. intros x Hx. unfold payload_bytes. simpl.
  rewrite !pb_set_data. apply bytes_at_ext. intros y Hy. apply write_bytes_out.
  unfold payloads in Hs. rewrite Forall_map, Forall_forall in Hs. specialize (Hs x Hx).
  unfold separate, payload_region in Hs. simpl in Hs.
  destruct (Z.le_gt_cases 0 (pb_len (pb st x))); lia.
Qed.

(** ** [pbuf_skip_const] *)

(** The walk stops at the pbuf that holds the offset, or at the end. *)
Lemma skip_correct fuel st p l off :
  pchain st p l -> sizes st l -> 0 <= off < 65536 -> (length l < fuel)%nat ->
  exists q o, pbuf_skip_const fuel st p off = Some (q, o) /\
    ((off < plen st l /\ exists l1 l2, l = l1 ++ q :: l2 /\ o = off - plen st l1 /\ 0 <= o < pb_len (pb st q)) \/
     (plen st l <= off /\ q = NULL /\ o = off - plen st l)).
Proof.
  unfold pbuf_skip_const. revert p off fuel. induction l as [|x l IH]; intros p off fuel Hc Hs Ho Hf;
    (destruct fuel as [|fuel]; [simpl in Hf; lia|]); cbn [loop].
  - simpl in Hc. subst p. exists NULL, off. split; [done|]. right. simpl. split; [lia|]. split; [done|lia].
  - simpl in Hc. destruct Hc as (-> & Hx & Hc). simpl in Hs. destruct Hs as (H0 & Ht & Hm & Hs).
    pose proof (sizes_nonneg _ _ Hs) as [Hpl _].
    rewrite (proj2 (Z.eqb_neq _ _) Hx). cbn [negb andb].
    destruct (Z.leb_spec (pb_len (pb st x)) off) as [Hle|Hgt].
    + rewrite u16_small by lia. simpl in Hf.
      destruct (IH (pb_next (pb st x)) (off - pb_len (pb st x)) fuel) as (q & o & Hl & Hq); auto; [lia|lia|].
      exists q, o. split; [done|]. simpl. destruct Hq as [(Hlt & l1 & l2 & -> & -> & Hr) | (Hge & -> & ->)].
      * left. split; [lia|]. exists (x :: l1), l2. simpl. split; [done|]. split; lia.
      * right. split; [lia|]. split; [done|lia].
    + exists x, off. split; [done|]. left. simpl. split; [lia|]. exists [], l. simpl. split; [done|]. lia.
Qed.

Lemma content_lookup st l1 x l2 o :
  sizes st (l1 ++ x :: l2) -> 0 <= o < pb_len (pb st x) ->
  content st (l1 ++ x :: l2) !! Z.to_nat (plen st l1 + o) = Some (data st (pb_payload (pb st x) + o)).
Proof.
  intros Hs Ho. assert (Hl : length (content st l1) = Z.to_nat (plen st l1) /\ 0 <= plen st l1).
  { clear Ho. induction l1 as [|y l1 IH]; simpl in *; [split; [done|lia]|]. destruct Hs as (H1 & _ & _ & H4).
    destruct (IH H4). rewrite length_app, length_payload_bytes. lia. }
  destruct Hl as [Hl Hp]. rewrite content_app. simpl. rewrite lookup_app_r by lia.
  rewrite lookup_app_l by (rewrite length_payload_bytes; lia). unfold payload_bytes.
  rewrite bytes_at_lookup by lia. do 2 f_equal. lia.
Qed.

(** [pbuf_try_get_at] is the lookup in the content. *)
Lemma try_get_correct fuel st p l off :
  pchain st p l -> sizes st l -> 0 <= off < 65536 -> (length l < fuel)%nat ->
  pbuf_try_get_at fuel st p off = Some (default (-1) (content st l !! Z.to_nat off)).
Proof.
  intros Hc Hs Ho Hf. unfold pbuf_try_get_at.
  destruct (skip_correct fuel st p l off Hc Hs Ho Hf) as (q & o & -> & [(Hlt & l1 & l2 & -> & -> & Hr) | (Hge & -> & ->)]).
  - rewrite (proj2 (Z.eqb_neq q NULL)) by (eapply pchain_nonnull; [exact Hc|]; apply elem_of_app; right; left).
    rewrite (proj2 (Z.ltb_lt _ _)) by lia. cbn [negb andb].
    pose proof (content_lookup st l1 q l2 (off - plen st l1) Hs Hr) as E.
    replace (plen st l1 + (off - plen st l1)) with off in E by lia. by rewrite E.
  - simpl. rewrite lookup_ge_None_2; [done|]. rewrite length_content by done. lia.
Qed.

Lemma get_correct fuel st p l off :
  pchain st p l -> sizes st l -> mem_ok (data st) -> 0 <= off < 65536 -> (length l < fuel)%nat ->
  pbuf_get_at fuel st p off = Some (default 0 (content st l !! Z.to_nat off)).
Proof.
  intros Hc Hs Hm Ho Hf. unfold pbuf_get_at. rewrite (try_get_correct fuel st p l) by done.
  destruct (content st l !! Z.to_nat off) as [b|] eqn:E; simpl; [|done].
  assert (Hb : is_byte b).
  { assert (Hall : Forall is_byte (content st l)).
    { clear -Hm. induction l as [|x l IH]; simpl; [constructor|].
      apply Forall_app. split; [apply bytes_at_ok, Hm|done]. }
    rewrite Forall_lookup in Hall. by apply (Hall (Z.to_nat off)). }
  unfold is_byte in Hb. rewrite (proj2 (Z.leb_le _ _)) by lia. by rewrite u8_small by done.
Qed.

(** ** [pbuf_memcmp], [pbuf_memfind] and [pbuf_strstr] *)

(** The bytes of the content from [off] on. *)
Definition slice (bs : list Z) (off n : Z) : list Z := take (Z.to_nat n) (drop (Z.to_nat off) bs).

(** The position of the first difference of two byte strings of equal length. *)
Fixpoint first_diff (a b : list Z) : option nat :=
  match a, b with
  | x :: a, y :: b => if x =? y then S <$> first_diff a b else Some O
  | _, _ => None
  end.

Definition memcmp_result (a b : list Z) : Z :=
  match first_diff a b with None => 0 | Some i => Z.of_nat i + 1 end.

Lemma memcmp_result_zero a b : length a = length b -> memcmp_result a b = 0 <-> a = b.
Proof.
  intros Hl. unfold memcmp_result. assert (H : first_diff a b = None <-> a = b).
  { revert b Hl. induction a as [|x a IH]; intros [|y b] Hl; simpl in *; try done.
    destruct (Z.eqb_spec x y) as [->|Hn].
    - specialize (IH b ltac:(lia)). destruct (first_diff a b); simpl.
      + split; [done|]. intros [= E]. by apply IH in E.
      + split; [|done]. intros _. f_equal. by apply IH.
    - split; [done|]. intros [= -> ->]. done. }
  rewrite <- H. destruct (first_diff a b); [split; [lia|done]|done].
Qed.

(** The comparison loop on two byte strings read through [get] and [s2]. *)
Lemma memcmp_loop (get : Z -> option Z) (s2 : Z -> Z) a b n i fuel :
  length a = Z.to_nat n -> length b = Z.to_nat n -> 0 <= i <= n -> n < 65536 ->
  (forall k, 0 <= k < n -> get k = a !! Z.to_nat k) ->
  (forall k, 0 <= k < n -> Some (s2 k) = b !! Z.to_nat k) ->
  (Z.to_nat (n - i) < fuel)%nat ->
  loop fuel (fun i =>
    if i <? n then
      match get i with
      | None => inr None
      | Some c => if negb (c =? s2 i) then inr (Some (u16 (i + 1))) else inl (u16 (i + 1))
      end
    else inr (Some 0)) i
  = Some (Some (match first_diff (drop (Z.to_nat i) a) (drop (Z.to_nat i) b) with
                | None => 0 | Some j => i + Z.of_nat j + 1 end)).
Proof.
  intros Ha Hb Hi Hn Hg Hs Hf. revert i Hi Hf. induction fuel as [|fuel IH]; intros i Hi Hf; [lia|].
  cbn [loop]. destruct (Z.ltb_spec i n) as [Hlt|Hge].
  - destruct (lookup_lt_is_Some_2 a (Z.to_nat i)) as [x Hx]; [lia|].
    rewrite (Hg i), Hx by lia. specialize (Hs i ltac:(lia)).
    rewrite (drop_S a x (Z.to_nat i)), (drop_S b (s2 i) (Z.to_nat i)) by done. cbn [first_diff].
    rewrite u16_small by lia. destruct (Z.eqb_spec x (s2 i)) as [->|Hd]; cbn [negb].
    + rewrite IH by lia. replace (Z.to_nat (i + 1)) with (S (Z.to_nat i)) by lia.
      destruct (first_diff _ _); simpl; [|done]. do 2 f_equal. lia.
    + do 2 f_equal. lia.
  - assert (i = n) by lia. subst i. rewrite !drop_ge by lia. done.
Qed.

Lemma length_slice bs off n :
  0 <= off -> 0 <= n -> off + n <= Z.of_nat (length bs) -> length (slice bs off n) = Z.to_nat n.
Proof. intros. unfold slice. rewrite length_take, length_drop. lia. Qed.

Lemma lookup_slice bs off n k :
  0 <= off -> 0 <= k < n -> slice bs off n !! Z.to_nat k = bs !! Z.to_nat (off + k).
Proof.
  intros. unfold slice. rewrite lookup_take, decide_True by lia. rewrite lookup_drop. f_equal. lia.
Qed.

Lemma memcmp_correct fuel st p l off s2 n :
  pchain st p l -> l <> [] -> sizes st l -> mem_ok (data st) -> (length l < fuel)%nat ->
  0 <= off < 65536 -> 0 <= n < 65536 ->
  pbuf_memcmp fuel st p off s2 n =
  Some (if plen st l <? off + n then 0xffff
        else memcmp_result (slice (content st l) off n) (bytes_at (data st) s2 (Z.to_nat n))).
Proof.
  intros Hc Hne Hs Hm Hf Ho Hn. unfold pbuf_memcmp.
  assert (Htot : pb_tot_len (pb st p) = plen st l).
  { destruct l as [|x l]; [done|]. destruct Hc as (-> & _). by apply sizes_head. }
  rewrite Htot. destruct (Z.ltb_spec (plen st l) (off + n)) as [Hlt|Hge]; [done|].
  pose proof (length_content _ _ Hs) as Hlen. pose proof (sizes_lt _ _ Hs) as Hmax.
  destruct (skip_correct fuel st p l off Hc Hs Ho Hf) as (q & o & -> & Hq).
  rewrite (memcmp_loop (fun i => pbuf_get_at fuel st q (u16 (o + i))) (fun i => data st (s2 + i))
             (slice (content st l) off n) (bytes_at (data st) s2 (Z.to_nat n))); auto.
  - by rewrite length_slice by lia.
  - apply length_bytes_at.
  - lia.
  - lia.
  - intros k Hk. destruct Hq as [(Hlt & l1 & l2 & E & -> & Hr) | (Hge' & _)]; [|lia].
    assert (Hpl : plen st l = plen st l1 + plen st (q :: l2)) by (subst; apply plen_app).
    assert (Hs2 : sizes st (q :: l2)) by (subst; by eapply sizes_app_r).
    assert (Hl1 : length (content st l1) = Z.to_nat (plen st l1) /\ 0 <= plen st l1).
    { subst l. apply (f_equal Z.of_nat) in Hlen. rewrite content_app, length_app, (length_content st (q :: l2) Hs2) in Hlen.
      pose proof (sizes_nonneg _ _ Hs) as [_ Hall]. apply Forall_app in Hall as [Hall _].
      assert (0 <= plen st l1) by (clear -Hall; induction Hall; simpl; lia).
      pose proof (sizes_nonneg _ _ Hs2) as [? _]. lia. }
    rewrite u16_small by lia. rewrite (get_correct fuel st q (q :: l2)); auto.
    2:{ subst. by eapply pchain_suffix. } 2:{ lia. }
    2:{ subst. rewrite length_app in Hf. lia. }
    rewrite lookup_slice by lia.
    assert (Hdrop : content st l !! Z.to_nat (off + k) = content st (q :: l2) !! Z.to_nat (off - plen st l1 + k)).
    { subst l. rewrite content_app.
      rewrite lookup_app_r by lia. f_equal. lia. }
    rewrite Hdrop. destruct (lookup_lt_is_Some_2 (content st (q :: l2)) (Z.to_nat (off - plen st l1 + k))) as [x ->]; [|done].
    rewrite length_content by done. lia.
  - intros k Hk. rewrite bytes_at_lookup by lia. do 2 f_equal. lia.
  - lia.
Qed.

(** The position of the first occurrence of [w] at or after [i]. *)
Fixpoint find_from (fuel : nat) (bs w : list Z) (i : Z) : option Z :=
  match fuel with
  | O => None
  | S fuel =>
      if bool_decide (slice bs i (Z.of_nat (length w)) = w) then Some i
      else find_from fuel bs w (i + 1)
  end.

(** The meaning of [find_from]. *)
Lemma find_from_spec fuel bs w i :
  match find_from fuel bs w i with
  | Some j => i <= j < i + Z.of_nat fuel /\ slice bs j (Z.of_nat (length w)) = w /\
              forall k, i <= k < j -> slice bs k (Z.of_nat (length w)) <> w
  | None => forall k, i <= k < i + Z.of_nat fuel -> slice bs k (Z.of_nat (length w)) <> w
  end.
Proof.
  revert i. induction fuel as [|fuel IH]; intros i; simpl; [lia|].
  case_bool_decide as E; [split; [lia|]; split; [done|lia]|].
  specialize (IH (i + 1)). destruct (find_from fuel bs w (i + 1)) as [j|].
  - destruct IH as (H1 & H2 & H3). split; [lia|]. split; [done|]. intros k Hk.
    destruct (Z.eq_dec k i) as [->|]; [done|]. apply H3. lia.
  - intros k Hk. destruct (Z.eq_dec k i) as [->|]; [done|]. apply IH. lia.
Qed.

Lemma memfind_loop fuel st p l mem n max i f :
  pchain st p l -> l <> [] -> sizes st l -> mem_ok (data st) -> (length l < fuel)%nat ->
  0 <= n < 65536 -> max = plen st l - n -> 0 <= i <= max + 1 -> (n = 0 -> i <= max) ->
  (Z.to_nat (max + 1 - i) < f)%nat ->
  loop f (fun i =>
    if i <=? max then
      match pbuf_memcmp fuel st p i mem n with
      | None => inr None
      | Some plus => if plus =? 0 then inr (Some i) else inl (u16 (i + 1))
      end
    else inr (Some 0xFFFF)) i
  = Some (Some (default 0xFFFF (find_from (Z.to_nat (max + 1 - i)) (content st l)
                                  (bytes_at (data st) mem (Z.to_nat n)) i))).
Proof.
  intros Hc Hne Hs Hm Hf Hn Hmax Hi Hn0 Hff. pose proof (sizes_lt _ _ Hs) as Hlt.
  pose proof (length_content _ _ Hs) as Hlen. revert i Hi Hn0 Hff.
  induction f as [|f IH]; intros i Hi Hn0 Hff; [lia|]. cbn [loop].
  destruct (Z.leb_spec i max) as [Hle|Hgt].
  - rewrite (memcmp_correct fuel st p l) by (auto; lia). rewrite (proj2 (Z.ltb_ge _ _)) by lia.
    replace (Z.to_nat (max + 1 - i)) with (S (Z.to_nat (max + 1 - (i + 1)))) by lia. cbn [find_from].
    rewrite length_bytes_at, Z2Nat.id by lia.
    assert (Hz := memcmp_result_zero (slice (content st l) i n) (bytes_at (data st) mem (Z.to_nat n))).
    rewrite length_bytes_at, length_slice in Hz by lia. specialize (Hz eq_refl).
    case_bool_decide as E; destruct (Z.eqb_spec (memcmp_result (slice (content st l) i n)
      (bytes_at (data st) mem (Z.to_nat n))) 0) as [E0|E0]; try tauto.
    assert (n <> 0).
    { intros ->. apply E. reflexivity. }
    rewrite u16_small by lia. rewrite IH by lia. done.
  - replace (Z.to_nat (max + 1 - i)) with O by lia. done.
Qed.

(** [pbuf_memfind] on the content. *)
Definition memfind_result (bs w : list Z) (start : Z) : Z :=
  if Z.of_nat (length w) + start <=? Z.of_nat (length bs)
  then default 0xFFFF (find_from (Z.to_nat (Z.of_nat (length bs) - Z.of_nat (length w) + 1 - start)) bs w start)
  else 0xFFFF.

Lemma memfind_correct fuel st p l mem n start :
  pchain st p l -> l <> [] -> sizes st l -> mem_ok (data st) -> (length l < fuel)%nat ->
  0 <= n < 65536 -> 0 <= start < 65536 ->
  pbuf_memfind fuel st p mem n start =
  Some (memfind_result (content st l) (bytes_at (data st) mem (Z.to_nat n)) start).
Proof.
  intros Hc Hne Hs Hm Hf Hn Hst. unfold pbuf_memfind, memfind_result.
  assert (Htot : pb_tot_len (pb st p) = plen st l).
  { destruct l as [|x l]; [done|]. destruct Hc as (-> & _). by apply sizes_head. }
  pose proof (length_content _ _ Hs) as Hlen. pose proof (sizes_lt _ _ Hs) as Hmax.
  pose proof (sizes_nonneg _ _ Hs) as [Hpos _].
  rewrite Htot, length_bytes_at, Hlen, !Z2Nat.id by lia.
  destruct (Z.leb_spec (n + start) (plen st l)) as [Hle|Hgt]; [|done].
  rewrite (u16_small (plen st l - n)) by lia.
  rewrite (memfind_loop fuel st p l mem n (plen st l - n) start); auto; lia.
Qed.

(** ** [pbuf_copy_partial] *)

Lemma memcpy_eq m dst src n : memcpy m dst src n = write_bytes m dst (bytes_at m src (Z.to_nat n)).
Proof. done. Qed.

Lemma slice_app_r a b off n :
  Z.of_nat (length a) <= off -> slice (a ++ b) off n = slice b (off - Z.of_nat (length a)) n.
Proof. intros. unfold slice. rewrite drop_app_ge by lia. do 2 f_equal. lia. Qed.

Lemma slice_app_l a b off n :
  0 <= off <= Z.of_nat (length a) -> 0 <= n ->
  slice (a ++ b) off n = slice a off n ++ slice b 0 (n - Z.of_nat (length (slice a off n))).
Proof.
  intros. unfold slice. rewrite drop_app_le by lia. rewrite take_app, !length_take, length_drop.
  rewrite drop_0. f_equal. f_equal. lia.
Qed.

Lemma slice_bytes_at m a k off n :
  0 <= off <= Z.of_nat k -> 0 <= n ->
  slice (bytes_at m a k) off n = bytes_at m (a + off) (Z.to_nat (Z.min n (Z.of_nat k - off))).
Proof.
  intros. unfold slice. rewrite bytes_at_drop by lia. rewrite Z2Nat.id by lia.
  destruct (Z.le_gt_cases n (Z.of_nat k - off)).
  - rewrite bytes_at_take by lia. f_equal. lia.
  - rewrite take_ge by (rewrite length_bytes_at; lia). f_equal. lia.
Qed.

Lemma set_data_twice st m m' : set_data (set_data st m) m' = set_data st m'.
Proof. done. Qed.
Lemma set_data_id st : set_data st (data st) = st.
Proof. by destruct st. Qed.

Lemma copy_partial_loop fuel st p l dst len off lft cop :
  pchain st p l -> sizes st l -> (length l < fuel)%nat ->
  0 <= len -> 0 <= off < 65536 -> 0 <= lft -> 0 <= cop -> lft + len < 65536 -> cop + len < 65536 ->
  Forall (separate (dst + lft, len)) (payloads st l) ->
  let out := slice (content st l) off len in
  loop fuel (fun '(st, p, len, offset, left_, copied_total) =>
      if negb (len =? 0) && negb (p =? NULL) then
        if negb (offset =? 0) && (pb_len (pb st p) <=? offset) then
          inl (st, pb_next (pb st p), len, u16 (offset - pb_len (pb st p)), left_, copied_total)
        else
          let buf_copy_len := u16 (pb_len (pb st p) - offset) in
          let buf_copy_len := if len <? buf_copy_len then len else buf_copy_len in
          let st := set_data st (memcpy (data st) (dst + left_)
                                   (pb_payload (pb st p) + offset) buf_copy_len) in
          inl (st, pb_next (pb st p), u16 (len - buf_copy_len), 0,
               u16 (left_ + buf_copy_len), u16 (copied_total + buf_copy_len))
      else inr (st, copied_total)) (st, p, len, off, lft, cop)
  = Some (set_data st (write_bytes (data st) (dst + lft) out), cop + Z.of_nat (length out)).
Proof.
  revert st p len off lft cop fuel.
  induction l as [|x l IH]; intros st p len off lft cop fuel Hc Hs Hf Hl Ho Hlf Hco Hm1 Hm2 Hd out;
    (destruct fuel as [|fuel]; [simpl in Hf; lia|]); cbn [loop].
  - simpl in Hc. subst p. rewrite Z.eqb_refl, andb_false_r. unfold out, slice. simpl.
    rewrite drop_nil, take_nil. simpl. rewrite set_data_id. do 2 f_equal. lia.
  - destruct Hc as (-> & Hx & Hc). destruct Hs as (H0 & Ht & Hm & Hs).
    pose proof (sizes_nonneg _ _ Hs) as [Hpl _]. simpl in Hf.
    cbn [payloads map] in Hd. inversion Hd as [|? ? Hdx Hdl]; subst. unfold payload_region in Hdx.
    destruct (Z.eqb_spec len 0) as [->|Hlen]; cbn [negb andb].
    { unfold out, slice. simpl. rewrite set_data_id. do 2 f_equal. lia. }
    rewrite (proj2 (Z.eqb_neq _ _) Hx). cbn [negb].
    pose proof (length_payload_bytes st x) as Hpb. unfold out. cbn [content].
    destruct (negb (off =? 0) && (pb_len (pb st x) <=? off)) eqn:Eo.
    + zb. rewrite u16_small by lia. rewrite IH; auto; try lia.
      rewrite slice_app_r by lia. rewrite Hpb, Z2Nat.id by lia. done.
    + assert (Hoff : off <= pb_len (pb st x)).
      { apply andb_false_iff in Eo as [Eo|Eo]; zb; lia. }
      rewrite slice_app_l by lia. unfold payload_bytes. rewrite slice_bytes_at by lia.
      rewrite length_bytes_at, !Z2Nat.id by lia. set (n := Z.min len (pb_len (pb st x) - off)).
      rewrite (u16_small (pb_len (pb st x) - off)) by lia.
      replace (if len <? pb_len (pb st x) - off then len else pb_len (pb st x) - off) with n
        by (unfold n; zbs). cbv zeta.
      rewrite !u16_small by lia. rewrite memcpy_eq.
      set (bs := bytes_at (data st) (pb_payload (pb st x) + off) (Z.to_nat n)).
      assert (Hbs : Z.of_nat (length bs) = n) by (unfold bs; rewrite length_bytes_at; lia).
      set (st1 := set_data st (write_bytes (data st) (dst + lft) bs)).
      assert (Hct : content st1 l = content st l).
      { apply content_write_out. eapply Forall_impl; [exact Hdl|]. intros y. unfold separate. simpl. lia. }
      rewrite (IH st1); auto; try lia.
      2:{ by apply (pchain_ext st). } 2:{ by apply (sizes_ext st). }
      2:{ change (payloads st1 l) with (payloads st l). eapply Forall_impl; [exact Hdl|].
          intros y. unfold separate. simpl. lia. }
      rewrite Hct. unfold st1. rewrite set_data_twice, length_app, write_bytes_app, Hbs. cbn [data set_data].
      do 2 f_equal; [|lia]. do 2 f_equal. lia.
Qed.

Lemma copy_partial_correct fuel st p l dst len off :
  pchain st p l -> l <> [] -> sizes st l -> (length l < fuel)%nat -> dst <> NULL ->
  0 <= len < 65536 -> 0 <= off < 65536 -> Forall (separate (dst, len)) (payloads st l) ->
  let out := slice (content st l) off len in
  pbuf_copy_partial fuel st p dst len off =
  Some (set_data st (write_bytes (data st) dst out), Z.of_nat (length out)).
Proof.
  intros Hc Hne Hs Hf Hdst Hl Ho Hd out. unfold pbuf_copy_partial.
  rewrite (proj2 (Z.eqb_neq p NULL)) by (destruct l as [|x l]; [done|]; by destruct Hc as (-> & ? & _)).
  rewrite (proj2 (Z.eqb_neq _ _) Hdst). cbn [orb].
  rewrite (copy_partial_loop fuel st p l); auto; try lia.
  - by rewrite !Z.add_0_r, Z.add_0_l.
  - by rewrite Z.add_0_r.
Qed.

(** ** [pbuf_take] *)

(** Writing [bs] over the bytes from [off] on. *)
Definition splice (c : list Z) (off : nat) (bs : list Z) : list Z :=
  take off c ++ bs ++ drop (off + length bs) c.

(** A write inside of one payload. *)
Lemma payload_write_in st x a bs :
  0 <= a -> a + Z.of_nat (length bs) <= pb_len (pb st x) ->
  payload_bytes (set_data st (write_bytes (data st) (pb_payload (pb st x) + a) bs)) x
  = splice (payload_bytes st x) (Z.to_nat a) bs.
Proof.
  intros Ha Hb. unfold payload_bytes, splice. cbn [data set_data]. rewrite pb_set_data.
  set (P := pb_payload (pb st x)). set (L := pb_len (pb st x)) in *.
  replace (Z.to_nat L) with (Z.to_nat a + (length bs + (Z.to_nat L - Z.to_nat a - length bs)))%nat at 1 by lia.
  rewrite !bytes_at_app. rewrite bytes_at_write_out by lia.
  rewrite bytes_at_take by lia. f_equal. rewrite Z2Nat.id by lia. rewrite bytes_at_write_eq. f_equal.
  rewrite bytes_at_write_out by lia. rewrite bytes_at_drop by lia. f_equal; lia.
Qed.

Lemma content_write_in st l1 x l2 a bs :
  all_separate (payloads st (l1 ++ x :: l2)) -> Forall (fun y => 0 <= pb_len (pb st y)) (l1 ++ x :: l2) ->
  0 <= a -> a + Z.of_nat (length bs) <= pb_len (pb st x) ->
  content (set_data st (write_bytes (data st) (pb_payload (pb st x) + a) bs)) (l1 ++ x :: l2)
  = content st l1 ++ splice (payload_bytes st x) (Z.to_nat a) bs ++ content st l2.
Proof.
  intros Hsep Hpos Ha Hb. rewrite content_app. cbn [content]. rewrite payload_write_in by done.
  assert (Hperm : all_separate (payload_region st x :: payloads st l1 ++ payloads st l2)).
  { eapply all_separate_perm; [|exact Hsep]. rewrite payloads_app. simpl.
    by rewrite <- Permutation_middle. }
  destruct Hperm as [Hx _]. apply Forall_app in Hx as [Hx1 Hx2].
  assert (Hsh : forall y, separate (payload_region st x) y ->
            separate (pb_payload (pb st x) + a, Z.of_nat (length bs)) y).
  { intros y. unfold separate, payload_region. simpl. lia. }
  rewrite !content_write_out by (eapply Forall_impl; [eassumption|auto]). done.
Qed.

(** Memory that a copy into the regions [R] leaves alone. *)
Definition only_in (R : list region) (m m' : memory) : Prop :=
  forall y, Forall (fun r => y < r.1 \/ r.1 + r.2 <= y) R -> m' y = m y.

Lemma only_in_refl R m : only_in R m m.
Proof. done. Qed.
Lemma only_in_trans R m1 m2 m3 : only_in R m1 m2 -> only_in R m2 m3 -> only_in R m1 m3.
Proof. intros H1 H2 y Hy. by rewrite H2, H1. Qed.
Lemma only_in_mono R R' m m' : (forall r, r ∈ R -> r ∈ R') -> only_in R m m' -> only_in R' m m'.
Proof.
  intros Hr H y Hy. apply H. rewrite Forall_forall in *. auto.
Qed.
Lemma only_in_write R m r a bs :
  r ∈ R -> r.1 <= a -> a + Z.of_nat (length bs) <= r.1 + r.2 -> only_in R m (write_bytes m a bs).
Proof.
  intros Hr H1 H2 y Hy. rewrite Forall_forall in Hy. apply write_bytes_out. specialize (Hy _ Hr). lia.
Qed.

Lemma only_in_bytes R m m' a n :
  only_in R m m' -> Forall (separate (a, Z.of_nat n)) R -> bytes_at m' a n = bytes_at m a n.
Proof.
  intros H Hs. apply bytes_at_ext. intros y Hy. apply H. eapply Forall_impl; [exact Hs|].
  intros r. unfold separate. simpl. lia.
Qed.

Lemma only_in_content R st m l :
  only_in R (data st) m -> (forall x, x ∈ l -> Forall (separate (payload_region st x)) R) ->
  Forall (fun y => 0 <= pb_len (pb st y)) l ->
  content (set_data st m) l = content st l.
Proof.
  intros H Hs Hpos. apply content_ext. intros x Hx. unfold payload_bytes. cbn [data set_data].
  rewrite pb_set_data. apply (only_in_bytes R); [done|]. rewrite Forall_forall in Hpos.
  rewrite Z2Nat.id by (by apply Hpos). by apply Hs.
Qed.

Lemma take_loop fuel st p l src n C :
  pchain st p l -> sizes st l -> all_separate (payloads st l) -> (length l < fuel)%nat ->
  0 <= n -> 0 <= C -> C + n < 65536 -> n <= plen st l ->
  Forall (separate (src + C, n)) (payloads st l) ->
  exists m', loop fuel (fun '(st, p, total_copy_len, copied_total) =>
      if negb (total_copy_len =? 0) then
        let buf_copy_len := if pb_len (pb st p) <? total_copy_len then pb_len (pb st p) else total_copy_len in
        let st := set_data st (memcpy (data st) (pb_payload (pb st p)) (src + copied_total) buf_copy_len) in
        inl (st, pb_next (pb st p), u16 (total_copy_len - buf_copy_len), u16 (copied_total + buf_copy_len))
      else inr (st, ERR_OK)) (st, p, n, C) = Some (set_data st m', ERR_OK) /\
    only_in (payloads st l) (data st) m' /\
    content (set_data st m') l = splice (content st l) 0 (bytes_at (data st) (src + C) (Z.to_nat n)).
Proof.
  revert st p n C fuel. induction l as [|x l IH]; intros st p n C fuel Hc Hs Hsep Hf Hn HC Hmax Hle Hsrc;
    (destruct fuel as [|fuel]; [simpl in Hf; lia|]); cbn [loop].
  - simpl in Hle. assert (n = 0) by lia. subst n. exists (data st). rewrite set_data_id. done.
  - destruct (Z.eqb_spec n 0) as [->|Hn0]; cbn [negb].
    { exists (data st). rewrite set_data_id. done. }
    pose proof Hc as (-> & Hx & Hc'). pose proof Hs as (H0 & Ht & Hm & Hs').
    pose proof (sizes_nonneg _ _ Hs) as [_ Hpos]. cbn [payloads map] in Hsrc, Hsep.
    inversion Hsrc as [|? ? Hsx Hsl]; subst. destruct Hsep as [Hsepx Hsepl]. cbn [plen] in Hle.
    set (k := if pb_len (pb st x) <? n then pb_len (pb st x) else n).
    assert (Hk : k = Z.min (pb_len (pb st x)) n) by (unfold k; zbs). cbv zeta.
    rewrite !u16_small by lia. rewrite memcpy_eq.
    set (bs := bytes_at (data st) (src + C) (Z.to_nat k)).
    assert (Hbs : length bs = Z.to_nat k) by apply length_bytes_at.
    set (st1 := set_data st (write_bytes (data st) (pb_payload (pb st x)) bs)).
    destruct (IH st1 (pb_next (pb st x)) (n - k) (C + k) fuel) as (m' & Hl & Hon & Hct).
    { by apply (pchain_ext st). } { by apply (sizes_ext st). } { exact Hsepl. } { simpl in Hf; lia. }
    { lia. } { lia. } { lia. } { rewrite (plen_ext st st1) by done. pose proof (sizes_nonneg _ _ Hs') as [? _]. lia. }
    { change (payloads st1 l) with (payloads st l). eapply Forall_impl; [exact Hsl|].
      intros y. unfold separate. simpl. lia. }
    exists m'. split; [exact Hl|].
    assert (Hon1 : only_in (payloads st (x :: l)) (data st) (data st1)).
    { apply (only_in_write _ _ (payload_region st x)); [left|simpl; lia|simpl; lia]. }
    assert (Hon2 : only_in (payloads st (x :: l)) (data st1) m').
    { apply (only_in_mono (payloads st l)); [intros r Hr; by right|exact Hon]. }
    split; [by eapply only_in_trans|].
    change (set_data st1 m') with (set_data st m') in Hct. cbn [content]. rewrite Hct.
    assert (Hx1 : payload_bytes (set_data st m') x = splice (payload_bytes st x) 0 bs).
    { change 0%nat with (Z.to_nat 0). rewrite <- (payload_write_in st x 0 bs) by lia.
      rewrite Z.add_0_r. fold st1. unfold payload_bytes.
      cbn [data set_data]. rewrite pb_set_data. change (pb st1 x) with (pb st x).
      apply (only_in_bytes (payloads st l)); [exact Hon|]. rewrite Z2Nat.id by lia. exact Hsepx. }
    assert (Hc1 : content st1 l = content st l).
    { apply (only_in_content [payload_region st x]).
      - apply (only_in_write _ _ (payload_region st x)); [left|simpl; lia|simpl; lia].
      - intros y Hy. constructor; [|constructor]. apply separate_sym. rewrite Forall_forall in Hsepx.
        apply Hsepx. by apply list_elem_of_fmap_2.
      - by inversion Hpos. }
    assert (Hsrc1 : bytes_at (data st1) (src + (C + k)) (Z.to_nat (n - k))
                    = bytes_at (data st) (src + (C + k)) (Z.to_nat (n - k))).
    { apply bytes_at_write_out. unfold separate, payload_region in Hsx. simpl in Hsx. lia. }
    rewrite Hx1, Hc1, Hsrc1. unfold splice. rewrite !take_0. cbn [app].
    replace (Z.to_nat n) with (Z.to_nat k + Z.to_nat (n - k))%nat by lia.
    rewrite bytes_at_app. fold bs. rewrite Z2Nat.id by lia. rewrite Z.add_assoc.
    rewrite <- !app_assoc. f_equal. rewrite !length_app, !length_bytes_at. cbn [Nat.add].
    pose proof (length_payload_bytes st x) as Hlx. rewrite Hbs.
    destruct (Z.leb_spec n (pb_len (pb st x))) as [Hsm|Hbig].
    + replace (Z.to_nat (n - k)) with O by lia. cbn [bytes_at app]. rewrite drop_0.
      rewrite drop_app_le by lia. do 2 f_equal. lia.
    + rewrite (drop_ge (payload_bytes st x)) by lia. cbn [app]. rewrite drop_app_ge by lia.
      do 2 f_equal. lia.
Qed.

Lemma take_correct fuel st p l src n :
  pchain st p l -> l <> [] -> sizes st l -> all_separate (payloads st l) -> (length l < fuel)%nat ->
  0 <= n < 65536 -> src <> NULL -> Forall (separate (src, n)) (payloads st l) ->
  if plen st l <? n then pbuf_take fuel st p src n = Some (st, ERR_MEM)
  else exists m', pbuf_take fuel st p src n = Some (set_data st m', ERR_OK) /\
    only_in (payloads st l) (data st) m' /\
    content (set_data st m') l = splice (content st l) 0 (bytes_at (data st) src (Z.to_nat n)).
Proof.
  intros Hc Hne Hs Hsep Hf Hn Hsrc Hd. unfold pbuf_take.
  assert (Htot : p <> NULL /\ pb_tot_len (pb st p) = plen st l).
  { destruct l as [|x l]; [done|]. destruct Hc as (-> & Hx & _). split; [done|]. by apply sizes_head. }
  destruct Htot as [Hp Htot].
  rewrite (proj2 (Z.eqb_neq _ _) Hp), (proj2 (Z.eqb_neq _ _) Hsrc), Htot.
  destruct (Z.ltb_spec (plen st l) n) as [Hlt|Hge]; [done|].
  destruct (take_loop fuel st p l src n 0) as (m' & H1 & H2 & H3); auto; try lia.
  { by rewrite Z.add_0_r. }
  rewrite Z.add_0_r in H3. eauto.
Qed.

(** ** [pbuf_take_at] and [pbuf_put_at] *)

Lemma splice_l A B off bs :
  (off + length bs <= length A)%nat -> splice (A ++ B) off bs = splice A off bs ++ B.
Proof.
  intros. unfold splice. rewrite take_app_le, drop_app_le by lia. by rewrite <- !app_assoc.
Qed.
Lemma splice_r A B off bs :
  (length A <= off)%nat -> splice (A ++ B) off bs = A ++ splice B (off - length A) bs.
Proof.
  intros. unfold splice. rewrite take_app_ge, drop_app_ge by lia. rewrite <- app_assoc.
  do 4 f_equal. lia.
Qed.
Lemma splice_span A B off bs1 bs2 :
  (off + length bs1 = length A)%nat ->
  splice (A ++ B) off (bs1 ++ bs2) = splice A off bs1 ++ splice B 0 bs2.
Proof.
  intros. unfold splice. rewrite take_app_le by lia. rewrite (drop_ge A) by lia.
  rewrite length_app, drop_app_ge by lia. rewrite take_0, !app_nil_r, <- !app_assoc. cbn [app].
  do 4 f_equal. lia.
Qed.

Lemma length_content_prefix st l1 l2 :
  sizes st (l1 ++ l2) -> length (content st l1) = Z.to_nat (plen st l1) /\ 0 <= plen st l1.
Proof.
  induction l1 as [|x l1 IH]; intros Hs; simpl in *; [split; [done|lia]|].
  destruct Hs as (H0 & _ & _ & Hs). destruct (IH Hs). rewrite length_app, length_payload_bytes. lia.
Qed.

Lemma separate_part (a n b k : Z) R :
  a <= b -> b + k <= a + n -> Forall (separate (a, n)) R -> Forall (separate (b, k)) R.
Proof. intros. eapply Forall_impl; [eassumption|]. intros r. unfold separate. simpl. lia. Qed.

Lemma take_at_correct fuel st p l src n off :
  pchain st p l -> sizes st l -> all_separate (payloads st l) -> (length l < fuel)%nat ->
  0 <= n < 65536 -> 0 <= off < 65536 -> 0 < src -> Forall (separate (src, n)) (payloads st l) ->
  if (off <? plen st l) && (off + n <=? plen st l) then
    exists m', pbuf_take_at fuel st p src n off = Some (set_data st m', ERR_OK) /\
      only_in (payloads st l) (data st) m' /\
      content (set_data st m') l = splice (content st l) (Z.to_nat off) (bytes_at (data st) src (Z.to_nat n))
  else pbuf_take_at fuel st p src n off = Some (st, ERR_MEM).
Proof.
  intros Hc Hs Hsep Hf Hn Ho Hsrc Hd. unfold pbuf_take_at, pbuf_skip.
  destruct (skip_correct fuel st p l off Hc Hs Ho Hf) as (q & o & -> & [(Hlt & l1 & l2 & -> & -> & Hr) | (Hge & -> & ->)]).
  2:{ rewrite (proj2 (Z.ltb_ge _ _)) by lia. done. }
  rewrite (proj2 (Z.ltb_lt off _)) by lia. cbn [andb].
  destruct (length_content_prefix st l1 (q :: l2) Hs) as [Hl1 Hp1].
  pose proof (sizes_app_r _ _ _ Hs) as Hsq. pose proof Hsq as (H0 & Htot & Hmax & Hs2).
  pose proof (sizes_nonneg _ _ Hs) as [_ Hpos]. pose proof (sizes_nonneg _ _ Hs2) as [Hpl2 _].
  pose proof (pchain_suffix _ _ _ _ _ Hc) as (_ & Hq & Hc2). rewrite plen_app in *. cbn [plen] in *.
  rewrite (proj2 (Z.eqb_neq _ _) Hq), Htot. cbn [negb andb]. set (o := off - plen st l1) in *.
  replace (o + n <=? pb_len (pb st q) + plen st l2) with (off + n <=? plen st l1 + (pb_len (pb st q) + plen st l2))
    by (unfold o; zbs).
  destruct (Z.leb_spec (off + n) (plen st l1 + (pb_len (pb st q) + plen st l2))) as [Hfit|]; [|done].
  set (k := Z.min (pb_len (pb st q) - o) n). rewrite (u16_small k), memcpy_eq by lia. cbv zeta.
  set (bs := bytes_at (data st) src (Z.to_nat k)).
  assert (Hbs : length bs = Z.to_nat k) by apply length_bytes_at.
  rewrite (u16_small (n - k)) by lia.
  set (st1 := set_data st (write_bytes (data st) (pb_payload (pb st q) + o) bs)).
  assert (Hin : payload_region st q ∈ payloads st (l1 ++ q :: l2))
    by (rewrite payloads_app; apply elem_of_app; right; left).
  assert (Hon1 : only_in (payloads st (l1 ++ q :: l2)) (data st) (data st1))
    by (apply (only_in_write _ _ _ _ _ Hin); simpl; lia).
  assert (Hct1 := content_write_in st l1 q l2 o bs Hsep Hpos ltac:(lia) ltac:(lia)). fold st1 in Hct1.
  replace (content st (l1 ++ q :: l2)) with (content st l1 ++ payload_bytes st q ++ content st l2)
    by by rewrite content_app.
  rewrite splice_r by lia. replace (Z.to_nat off - length (content st l1))%nat with (Z.to_nat o) by lia.
  pose proof (length_payload_bytes st q) as Hlq.
  destruct (Z.ltb_spec 0 (n - k)) as [Hrem|Hrem].
  - assert (Hne : l2 <> []) by (intros ->; simpl in *; lia).
    pose proof (take_correct fuel st1 (pb_next (pb st q)) l2 (src + k) (n - k)) as Ht.
    change (pb st1 q) with (pb st q).
    rewrite payloads_app in Hd. apply Forall_app in Hd as [Hd1 Hd2]. cbn [payloads map] in Hd2.
    inversion Hd2 as [|? ? Hdq Hd2']; subst.
    assert (Hsep2 : all_separate (payload_region st q :: payloads st l2))
      by (rewrite payloads_app in Hsep; by apply all_separate_app_r in Hsep).
    rewrite (plen_ext st st1), (proj2 (Z.ltb_ge _ _)) in Ht by (done || lia).
    destruct Ht as (m' & -> & Hon2 & Hct2); auto.
    { by apply (pchain_ext st). } { by apply (sizes_ext st). } { by destruct Hsep2. }
    { rewrite length_app in Hf. simpl in Hf. lia. } { lia. } { unfold NULL; lia. }
    { apply (separate_part src n); [lia|lia|exact Hd2']. }
    change (set_data st1 m') with (set_data st m') in *. exists m'. split; [done|].
    assert (Hon2' : only_in (payloads st (l1 ++ q :: l2)) (data st1) m').
    { apply (only_in_mono (payloads st l2)); [|exact Hon2]. intros r Hr'. rewrite payloads_app.
      apply elem_of_app. right. by right. }
    split; [by eapply only_in_trans|].
    replace (Z.to_nat n) with (Z.to_nat k + Z.to_nat (n - k))%nat by lia. rewrite bytes_at_app. fold bs.
    rewrite splice_span by (rewrite Hbs, Hlq; lia). rewrite Z2Nat.id by lia.
    assert (Hsrc2 : bytes_at (data st1) (src + k) (Z.to_nat (n - k)) = bytes_at (data st) (src + k) (Z.to_nat (n - k))).
    { apply (only_in_bytes (payloads st (l1 ++ q :: l2))); [exact Hon1|]. rewrite Z2Nat.id by lia.
      rewrite payloads_app. apply (separate_part src n); [lia|lia|]. by apply Forall_app. }
    assert (Hl12 : l1 ++ q :: l2 = (l1 ++ [q]) ++ l2) by by rewrite <- app_assoc.
    rewrite Hl12, payloads_app, all_separate_app in Hsep. destruct Hsep as (_ & _ & Hcross).
    rewrite Hl12, Forall_app in Hpos. destruct Hpos as [Hpos1 Hpos2].
    assert (Hc12 : content st1 l2 = content st l2).
    { apply (only_in_content [payload_region st q]); [|intros x Hx|done].
      - apply (only_in_write _ _ (payload_region st q)); [left|simpl; lia|simpl; lia].
      - constructor; [|constructor]. apply separate_sym. rewrite Forall_forall in Hcross.
        specialize (Hcross (payload_region st q)). rewrite Forall_forall in Hcross.
        apply Hcross; [rewrite payloads_app; apply elem_of_app; right; left|by apply list_elem_of_fmap_2]. }
    assert (Hpre : content (set_data st m') (l1 ++ [q]) = content st1 (l1 ++ [q])).
    { change (set_data st m') with (set_data st1 m').
      apply (only_in_content (payloads st l2)); [exact Hon2|intros x Hx|done].
      rewrite Forall_forall in Hcross. apply Hcross. by apply list_elem_of_fmap_2. }
    rewrite Hsrc2, Hc12 in Hct2. rewrite <- Hct2, Hl12, content_app, Hpre.
    rewrite Hl12, content_app, Hc12 in Hct1. rewrite !app_assoc in *.
    f_equal. by apply app_inv_tail in Hct1.
  - exists (data st1). change (set_data st (data st1)) with st1. split; [done|]. split; [done|].
    rewrite Hct1. rewrite splice_l by (rewrite Hlq, length_bytes_at; lia).
    replace n with k by lia. done.
Qed.

Lemma put_correct fuel st p l off d :
  pchain st p l -> sizes st l -> all_separate (payloads st l) -> (length l < fuel)%nat -> 0 <= off < 65536 ->
  exists m', pbuf_put_at fuel st p off d = Some (set_data st m') /\
    content (set_data st m') l = <[Z.to_nat off := d]> (content st l) /\
    (plen st l <= off -> m' = data st) /\ only_in (payloads st l) (data st) m'.
Proof.
  intros Hc Hs Hsep Hf Ho. unfold pbuf_put_at, pbuf_skip.
  destruct (skip_correct fuel st p l off Hc Hs Ho Hf) as (q & o & -> & [(Hlt & l1 & l2 & -> & -> & Hr) | (Hge & -> & ->)]).
  - rewrite (proj2 (Z.eqb_neq q NULL)) by (eapply pchain_nonnull; [exact Hc|]; apply elem_of_app; right; left).
    rewrite (proj2 (Z.ltb_lt _ _)) by lia. cbn [negb andb].
    destruct (length_content_prefix st l1 (q :: l2) Hs) as [Hl1 Hp1].
    pose proof (sizes_nonneg _ _ Hs) as [_ Hpos].
    set (o := off - plen st l1) in *. eexists. split; [done|].
    change (upd (data st) (pb_payload (pb st q) + o) d) with (write_bytes (data st) (pb_payload (pb st q) + o) [d]).
    split; [|split; [lia|]].
    + rewrite content_write_in by (auto; simpl; lia). rewrite content_app. cbn [content].
      pose proof (length_payload_bytes st q) as Hlq.
      rewrite insert_app_r_alt by lia. rewrite insert_app_l by (rewrite Hlq; lia).
      replace (Z.to_nat off - length (content st l1))%nat with (Z.to_nat o) by lia.
      do 2 f_equal. rewrite insert_take_drop by (rewrite Hlq; lia). unfold splice. cbn [length app].
      by rewrite Nat.add_1_r.
    + apply (only_in_write _ _ (payload_region st q)); [|simpl; lia|simpl; lia].
      rewrite payloads_app. apply elem_of_app. right. left.
  - simpl. exists (data st). rewrite set_data_id. split; [done|]. split; [|done].
    rewrite list_insert_ge; [done|]. rewrite length_content by done. lia.
Qed.

(** ** [pbuf_clen] and [pbuf_cat] *)

Lemma clen_correct fuel st p l :
  pchain st p l -> (length l < fuel)%nat -> pbuf_clen fuel st p = Some (u16 (Z.of_nat (length l))).
Proof.
  intros Hc Hf. unfold pbuf_clen.
  assert (H : forall n, 0 <= n < 65536 -> loop fuel (fun '(p, len) =>
    if negb (p =? NULL) then inl (pb_next (pb st p), u16 (len + 1)) else inr len) (p, n)
    = Some (u16 (n + Z.of_nat (length l)))).
  { revert p fuel Hc Hf. induction l as [|x l IH]; intros p fuel Hc Hf n Hn;
      (destruct fuel as [|fuel]; [simpl in Hf; lia|]); cbn [loop].
    - simpl in Hc. subst p. simpl. rewrite Z.add_0_r, u16_small by lia. done.
    - destruct Hc as (-> & Hx & Hc). rewrite (proj2 (Z.eqb_neq _ _) Hx). cbn [negb]. simpl in Hf.
      rewrite IH by (auto; try lia; apply u16_range). f_equal. unfold u16.
      rewrite Zplus_mod_idemp_l. f_equal. simpl length. lia. }
  rewrite H by lia. done.
Qed.

(** The walk of [pbuf_cat] to the last pbuf: it adds [T] to the [tot_len] of
    every pbuf it leaves. *)
Lemma cat_loop fuel st p l x t :
  pchain st p (l ++ [x]) -> (length l < fuel)%nat -> t ∉ l ++ [x] ->
  let T := pb_tot_len (pb st t) in
  exists st', loop fuel (fun '(st, p) =>
      if negb (pb_next (pb st p) =? NULL) then
        let st := upd_pb st p (fun y => with_tot_len y (u16 (pb_tot_len y + pb_tot_len (pb st t)))) in
        inl (st, pb_next (pb st p))
      else inr (st, p)) (st, p) = Some (st', x) /\
    data st' = data st /\
    (forall y, pb st' y = if decide (y ∈ l) then with_tot_len (pb st y) (u16 (pb_tot_len (pb st y) + T)) else pb st y).
Proof.
  revert st p fuel. induction l as [|y l IH]; intros st p fuel Hc Hf Ht T;
    (destruct fuel as [|fuel]; [simpl in Hf; lia|]); cbn [loop app].
  - destruct Hc as (-> & Hx & Hn). simpl in Hn. rewrite Hn, Z.eqb_refl. cbn [negb].
    exists st. split; [done|]. split; [done|]. intros y. by rewrite decide_False by (intros H; inversion H).
  - pose proof Hc as (-> & Hy & Hc'). pose proof (pchain_nodup _ _ _ Hc) as Hnd. apply NoDup_cons in Hnd as [Hyl Hnd].
    assert (Hn : pb_next (pb st y) <> NULL).
    { destruct (l ++ [x]) as [|z r] eqn:E; [by destruct l|]. destruct Hc' as (-> & Hz & _). done. }
    rewrite (proj2 (Z.eqb_neq _ _) Hn). cbn [negb].
    set (st1 := upd_pb st y (fun y => with_tot_len y (u16 (pb_tot_len y + T)))). assert (Hty : t <> y) by (intros ->; apply Ht; left).
    assert (HF : forall k, pb st1 k = if k =? y then with_tot_len (pb st y) (u16 (pb_tot_len (pb st y) + T)) else pb st k)
      by (intros k; apply pb_upd_pb).
    assert (Hnx : forall k, pb_next (pb st1 k) = pb_next (pb st k)) by (intros k; rewrite HF; by destruct (Z.eqb_spec k y) as [->|]).
    destruct (IH st1 (pb_next (pb st1 y)) fuel) as (st' & Hl & Hd & HF').
    { rewrite Hnx. apply (pchain_ext st); [done|exact Hc']. } { simpl in Hf. lia. } { intros H. apply Ht. by right. }
    exists st'. split; [exact Hl|]. split; [by rewrite Hd|]. intros k. rewrite HF', !HF.
    rewrite (proj2 (Z.eqb_neq t y)) by done. fold T. rewrite elem_of_app in Hyl.
    destruct (Z.eqb_spec k y) as [->|Hk].
    + rewrite decide_False by tauto. by rewrite decide_True by left.
    + destruct (decide (k ∈ l)) as [Hin|Hin].
      * by rewrite decide_True by (by right).
      * by rewrite decide_False by (intros H; apply elem_of_cons in H as [?|?]; done).
Qed.

Lemma sizes_snoc_add st st' l l2 :
  sizes st l -> sizes st l2 -> plen st l + plen st l2 < 65536 ->
  (forall x, x ∈ l -> pb_len (pb st' x) = pb_len (pb st x) /\
                      pb_tot_len (pb st' x) = u16 (pb_tot_len (pb st x) + plen st l2)) ->
  (forall x, x ∈ l2 -> pb st' x = pb st x) ->
  sizes st' (l ++ l2).
Proof.
  intros Hs Hs2 Hmax Hl Hl2. pose proof (sizes_nonneg _ _ Hs2) as [Hp2 _].
  assert (E2 : plen st' l2 = plen st l2) by (apply plen_ext; intros; by rewrite Hl2).
  assert (Hs2' : sizes st' l2) by (apply (sizes_ext st); [|done]; intros; by rewrite Hl2).
  induction l as [|x l IH]; simpl; [done|]. destruct Hs as (H0 & H1 & H2 & H3).
  destruct (Hl x ltac:(left)) as [-> ->]. simpl in Hmax. pose proof (sizes_nonneg _ _ H3) as [Hp _].
  rewrite plen_app, E2. assert (E1 : plen st' l = plen st l).
  { apply plen_ext. intros y Hy. apply Hl. by right. }
  rewrite E1, u16_small by lia. repeat split; try lia. apply IH; auto; [lia|]. intros y Hy. apply Hl. by right.
Qed.

Lemma list_snoc {A} (l : list A) : l <> [] -> exists l' x, l = l' ++ [x].
Proof. induction l as [|x l' _] using rev_ind; [done|]. eauto. Qed.

Lemma pchain_replace_end st st' p l x l' t l2 :
  pchain st p (l ++ x :: l') -> (forall y, y ∈ l -> pb_next (pb st' y) = pb_next (pb st y)) ->
  pb_next (pb st' x) = t -> pchain st' t l2 -> pchain st' p (l ++ x :: l2).
Proof.
  revert p. induction l as [|y l IH]; intros p Hc Hn Hx Ht; simpl in *.
  - destruct Hc as (-> & ? & _). rewrite Hx. done.
  - destruct Hc as (-> & ? & Hc). rewrite Hn by left. split; [done|]. split; [done|].
    apply IH; auto. intros z Hz. apply Hn. by right.
Qed.

Lemma cat_correct fuel st h t l1 l2 :
  pchain st h l1 -> l1 <> [] -> sizes st l1 -> pchain st t l2 -> l2 <> [] -> sizes st l2 ->
  (forall x, x ∈ l1 -> x ∉ l2) -> plen st l1 + plen st l2 < 65536 -> (length l1 <= fuel)%nat ->
  exists st', pbuf_cat fuel st h t = Some st' /\ data st' = data st /\
    pchain st' h (l1 ++ l2) /\ sizes st' (l1 ++ l2) /\
    content st' (l1 ++ l2) = content st l1 ++ content st l2 /\
    (forall x, x ∉ l1 -> pb st' x = pb st x) /\
    (forall x, pb_ref (pb st' x) = pb_ref (pb st x)) /\
    (forall x, payload_region st' x = payload_region st x).
Proof.
  intros Hc1 Hne1 Hs1 Hc2 Hne2 Hs2 Hdis Hmax Hf. unfold pbuf_cat.
  assert (Hh : h <> NULL) by (destruct l1; [done|]; by destruct Hc1 as (-> & ? & _)).
  assert (Ht : t <> NULL /\ t ∈ l2 /\ pb_tot_len (pb st t) = plen st l2).
  { destruct l2 as [|y l2]; [done|]. destruct Hc2 as (-> & ? & _). split; [done|]. split; [left|by apply sizes_head]. }
  destruct Ht as (Ht & Htl2 & HT). rewrite (proj2 (Z.eqb_neq _ _) Hh), (proj2 (Z.eqb_neq _ _) Ht). cbv beta iota delta [orb].
  destruct (list_snoc l1 Hne1) as (l & x & ->).
  assert (Htn : t ∉ l ++ [x]) by (intros H; by apply (Hdis t)).
  destruct (cat_loop fuel st h l x t Hc1) as (st1 & Hl & Hd1 & HF1); [rewrite length_app in Hf; simpl in Hf; lia|done|].
  match goal with |- context [loop fuel ?f (st, h)] =>
    replace (loop fuel f (st, h)) with (Some (st1, x)) by (symmetry; exact Hl) end.
  pose proof (pchain_nodup _ _ _ Hc1) as Hnd. apply NoDup_app in Hnd as (_ & Hxl & _).
  assert (Hxl' : x ∉ l) by (intros H; apply (Hxl x H); left).
  set (f := fun y => with_tot_len y (u16 (pb_tot_len y + pb_tot_len (pb st1 t)))).
  set (st2 := upd_pb (upd_pb st1 x f) x (fun y => with_next y t)).
  assert (HT1 : pb_tot_len (pb st1 t) = plen st l2).
  { rewrite HF1, decide_False; [done|]. intros H. apply Htn, elem_of_app. by left. }
  assert (HF : forall y, pb st2 y =
    if decide (y ∈ l ++ [x]) then
      with_next (with_tot_len (pb st y) (u16 (pb_tot_len (pb st y) + plen st l2)))
        (if y =? x then t else pb_next (pb st y))
    else pb st y).
  { intros y. unfold st2, f. rewrite !pb_upd_pb, Z.eqb_refl, HT1.
    destruct (Z.eqb_spec y x) as [->|Hyx].
    - rewrite decide_True by (apply elem_of_app; right; left). rewrite HF1, decide_False by done. done.
    - rewrite HF1, HT. destruct (decide (y ∈ l)) as [Hin|Hin].
      + rewrite decide_True by (apply elem_of_app; by left). by destruct (pb st y).
      + rewrite decide_False; [done|]. intros H. apply elem_of_app in H as [?|H]; [done|].
        apply list_elem_of_singleton in H. done. }
  exists st2. split; [done|]. split; [done|].
  assert (Hout : forall y, y ∉ l ++ [x] -> pb st2 y = pb st y) by (intros y Hy; by rewrite HF, decide_False).
  assert (H2 : forall y, y ∈ l2 -> pb st2 y = pb st y) by (intros y Hy; apply Hout; intros H; by apply (Hdis y)).
  assert (Hpay : forall y, payload_region st2 y = payload_region st y).
  { intros y. unfold payload_region. rewrite HF. by destruct (decide _). }
  split; [|split; [|split; [|split; [done|split; [|done]]]]].
  - rewrite <- app_assoc. cbn [app]. apply (pchain_replace_end st _ _ _ _ [] t); auto.
    + intros y Hy. rewrite HF. destruct (decide _); [|done]. simpl.
      destruct (Z.eqb_spec y x) as [->|]; [done|done].
    + rewrite HF, decide_True by (apply elem_of_app; right; left). simpl. by rewrite Z.eqb_refl.
    + apply (pchain_ext st); [|done]. intros y Hy. by rewrite H2.
  - apply (sizes_snoc_add st); auto. intros y Hy. rewrite HF, decide_True by done. done.
  - rewrite content_app. f_equal; apply content_ext; intros y Hy; unfold payload_bytes;
      specialize (Hpay y); unfold payload_region in Hpay; injection Hpay as -> ->;
      change (data st2) with (data st1); by rewrite Hd1.
  - intros y. rewrite HF. by destruct (decide _).
Qed.

(** ** [pbuf_header] *)

(** Whether [pbuf_header_impl] accepts an increment. *)
Definition header_fits (st : pstate) (p inc : Z) (force : bool) : bool :=
  if inc <? 0 then
    (- inc <=? pb_len (pb st p)) &&
    match pb_type (pb st p) with
    | PBUF_RAM | PBUF_POOL => p + 20 <=? pb_payload (pb st p) - inc
    | _ => true
    end
  else
    match pb_type (pb st p) with
    | PBUF_RAM | PBUF_POOL => p + 20 <=? pb_payload (pb st p) - inc
    | _ => force
    end.

(** The pbuf after its payload pointer moved back by [inc] bytes. *)
Definition header_moved (x : pbuf) (inc : Z) : pbuf :=
  mk_pbuf (pb_next x) (pb_payload x - inc) (u16 (pb_tot_len x + inc)) (u16 (pb_len x + inc))
    (pb_type x) (pb_flags x) (pb_ref x).

Lemma SIZEOF_STRUCT_PBUF_eq : SIZEOF_STRUCT_PBUF = 20.
Proof. reflexivity. Qed.

Lemma header_correct st p inc force :
  p <> NULL -> inc <> 0 -> -32768 <= inc < 32768 ->
  let '(st', r) := pbuf_header_impl st p inc force in
  data st' = data st /\ ps_heap st' = ps_heap st /\ ps_pools st' = ps_pools st /\
  (forall k, k <> p -> pb st' k = pb st k) /\
  (if header_fits st p inc force then r = 0 /\ pb st' p = header_moved (pb st p) inc
   else r = 1 /\ pb st' p = pb st p).
Proof.
  intros Hp Hi Hr. unfold pbuf_header_impl, header_fits.
  rewrite (proj2 (Z.eqb_neq _ _) Hp), (proj2 (Z.eqb_neq _ _) Hi), SIZEOF_STRUCT_PBUF_eq.
  cbn [orb]. rewrite u16_small by lia. rewrite pb_upd_eq. cbn [pb_payload with_payload].
  assert (Hm : inc < 0 -> Z.abs inc = - inc) by lia.
  assert (Hres : forall st1, st1 = upd_pb st p (fun x => with_payload x (pb_payload (pb st p) - inc)) ->
    let st2 := upd_pb st1 p (fun x => with_tot_len (with_len x (u16 (pb_len x + inc))) (u16 (pb_tot_len x + inc))) in
    data st2 = data st /\ ps_heap st2 = ps_heap st /\ ps_pools st2 = ps_pools st /\
    (forall k, k <> p -> pb st2 k = pb st k) /\ 0 = 0 /\ pb st2 p = header_moved (pb st p) inc).
  { intros st1 -> st2. split; [done|]. split; [done|]. split; [done|]. split.
    - intros k Hk. unfold st2. by rewrite !pb_upd_ne.
    - split; [done|]. unfold st2. rewrite !pb_upd_eq. done. }
  assert (Hback : let st2 := upd_pb (upd_pb st p (fun x => with_payload x (pb_payload (pb st p) - inc))) p
                               (fun x => with_payload x (pb_payload (pb st p))) in
    data st2 = data st /\ ps_heap st2 = ps_heap st /\ ps_pools st2 = ps_pools st /\
    (forall k, k <> p -> pb st2 k = pb st k) /\ 1 = 1 /\ pb st2 p = pb st p).
  { intros st2. split; [done|]. split; [done|]. split; [done|]. split.
    - intros k Hk. unfold st2. by rewrite !pb_upd_ne.
    - split; [done|]. unfold st2. rewrite !pb_upd_eq. by destruct (pb st p). }
  specialize (Hres _ eq_refl). cbv zeta in Hres, Hback.
  destruct (Z.ltb_spec inc 0) as [Hneg|Hpos].
  - rewrite Hm by lia. destruct (Z.leb_spec (- inc) (pb_len (pb st p))) as [Hle|Hgt]; cbn [negb andb]; [|done].
    destruct (pb_type (pb st p)); cbn [andb]; try exact Hres;
      (destruct (Z.ltb_spec (pb_payload (pb st p) - inc) (p + 20)), (Z.leb_spec (p + 20) (pb_payload (pb st p) - inc));
       try lia; assumption).
  - cbn [andb]. rewrite (proj2 (Z.ltb_lt 0 inc)) by lia. cbn [andb].
    destruct (pb_type (pb st p)); try (destruct force; [exact Hres|done]);
      (destruct (Z.ltb_spec (pb_payload (pb st p) - inc) (p + 20)), (Z.leb_spec (p + 20) (pb_payload (pb st p) - inc));
       try lia; assumption).
Qed.

(** What a moved header does to the content of the chain. *)
Lemma header_content st st' p l inc :
  sizes st (p :: l) -> p ∉ l -> -32768 <= inc < 32768 ->
  0 <= pb_len (pb st p) + inc -> pb_tot_len (pb st p) + inc < 65536 ->
  data st' = data st -> (forall k, k <> p -> pb st' k = pb st k) ->
  pb st' p = header_moved (pb st p) inc ->
  sizes st' (p :: l) /\
  (inc <= 0 -> content st' (p :: l) = drop (Z.to_nat (- inc)) (content st (p :: l))) /\
  (0 <= inc -> content st' (p :: l) =
     bytes_at (data st) (pb_payload (pb st p) - inc) (Z.to_nat inc) ++ content st (p :: l)).
Proof.
  intros (H0 & H1 & H2 & Hs) Hp Hi Hlen Htot Hd Hk Hpp.
  assert (Hl : forall x, x ∈ l -> pb st' x = pb st x) by (intros x Hx; apply Hk; by intros ->).
  assert (E : plen st' l = plen st l) by (apply plen_ext; intros; by rewrite Hl).
  pose proof (sizes_nonneg _ _ Hs) as [Hpl _].
  assert (Ec : content st' l = content st l).
  { apply content_ext. intros x Hx. unfold payload_bytes. by rewrite Hl, Hd. }
  split; [|split].
  - simpl. rewrite Hpp. simpl. rewrite E, !u16_small by lia. repeat split; try lia.
    apply (sizes_ext st); [|done]. intros x Hx. by rewrite Hl.
  - intros Hneg. cbn [content]. rewrite Ec. unfold payload_bytes. rewrite Hpp, Hd. simpl.
    rewrite u16_small by lia.
    rewrite drop_app_le by (rewrite length_bytes_at; lia). f_equal. rewrite bytes_at_drop by lia.
    f_equal; lia.
  - intros Hpos. cbn [content]. rewrite Ec. unfold payload_bytes. rewrite Hpp, Hd. simpl.
    rewrite u16_small by lia. rewrite app_assoc. f_equal.
    replace (Z.to_nat (pb_len (pb st p) + inc)) with (Z.to_nat inc + Z.to_nat (pb_len (pb st p)))%nat by lia.
    rewrite bytes_at_app. do 2 f_equal. lia.
Qed.

(** ** [pbuf_copy] *)

(** Every pbuf behind the first holds data: what [pbuf_copy] takes for a chain
    that is not a packet queue. *)
Definition no_queue (st : pstate) (l : list Z) : Prop :=
  Forall (fun x => 0 < pb_len (pb st x)) (tail l).

Lemma no_queue_tail st x l : no_queue st (x :: l) -> no_queue st l.
Proof. unfold no_queue. simpl. destruct l; [done|]. by inversion 1. Qed.

(** The test for a queue fails on such a chain. *)
Lemma no_queue_next st x l :
  pchain st x (x :: l) -> sizes st (x :: l) -> no_queue st (x :: l) ->
  (pb_len (pb st x) =? pb_tot_len (pb st x)) && negb (pb_next (pb st x) =? NULL) = false.
Proof.
  intros (_ & _ & Hc) (H0 & H1 & _ & Hs) Hq. destruct l as [|y l].
  - simpl in Hc. rewrite Hc, Z.eqb_refl. apply andb_false_r.
  - unfold no_queue in Hq. simpl in Hq. inversion Hq as [|? ? Hy _]; subst. simpl in H1, Hs.
    destruct Hs as (_ & _ & _ & Hs). pose proof (sizes_nonneg _ _ Hs) as [? _].
    rewrite (proj2 (Z.eqb_neq _ _)) by lia. done.
Qed.

Lemma splice_splice c off bs R :
  (off + length bs <= length c)%nat ->
  splice (splice c off bs) (off + length bs) R = splice c off (bs ++ R).
Proof.
  intros H. unfold splice. rewrite (app_assoc (take off c) bs (drop _ c)).
  assert (Hl : length (take off c ++ bs) = (off + length bs)%nat) by (rewrite length_app, length_take; lia).
  rewrite take_app_length' by lia. rewrite drop_app_ge by lia. rewrite Hl, drop_drop, length_app, <- !app_assoc.
  do 4 f_equal. lia.
Qed.

(** The part of a chain that is left from an offset in its first pbuf on. *)
Definition rest (st : pstate) (l : list Z) (o : Z) : list Z := drop (Z.to_nat o) (content st l).

Lemma rest_split st x l o k :
  0 <= pb_len (pb st x) -> 0 <= o -> 0 <= k -> o + k <= pb_len (pb st x) ->
  rest st (x :: l) o = bytes_at (data st) (pb_payload (pb st x) + o) (Z.to_nat k)
    ++ (if o + k =? pb_len (pb st x) then rest st l 0 else rest st (x :: l) (o + k)).
Proof.
  intros H0 Ho Hk Hle. unfold rest. cbn [content]. pose proof (length_payload_bytes st x) as Hlx.
  rewrite !drop_app_le by (rewrite Hlx; lia). unfold payload_bytes. rewrite !bytes_at_drop by lia.
  replace (Z.to_nat (pb_len (pb st x)) - Z.to_nat o)%nat
    with (Z.to_nat k + (Z.to_nat (pb_len (pb st x)) - Z.to_nat (o + k)))%nat by lia.
  rewrite bytes_at_app, <- app_assoc. f_equal; [f_equal; lia|].
  destruct (Z.eqb_spec (o + k) (pb_len (pb st x))) as [->|].
  - by rewrite Nat.sub_diag.
  - f_equal. f_equal; lia.
Qed.

(** Chains that a copy goes between: payloads that do not overlap. *)
Definition apart (st : pstate) (l l' : list Z) : Prop :=
  Forall (fun x => Forall (separate (payload_region st x)) (payloads st l')) l.

Lemma apart_content st l l' m :
  apart st l l' -> Forall (fun y => 0 <= pb_len (pb st y)) l -> only_in (payloads st l') (data st) m ->
  content (set_data st m) l = content st l.
Proof.
  intros Ha Hp Ho. apply (only_in_content (payloads st l')); auto.
  intros x Hx. unfold apart in Ha. rewrite Forall_forall in Ha. auto.
Qed.

(** A copy in progress: chains, sizes, no queues, no overlap, room enough. *)
Record copying (st : pstate) (lt lf : list Z) (ot fo : Z) : Prop := {
  cp_to : exists x r, lt = x :: r /\ pchain st x lt /\ 0 <= ot <= pb_len (pb st x);
  cp_from : exists x r, lf = x :: r /\ pchain st x lf /\ 0 <= fo <= pb_len (pb st x);
  cp_sizes : sizes st lt /\ sizes st lf;
  cp_queue : no_queue st lt /\ no_queue st lf;
  cp_sep : all_separate (payloads st lt);
  cp_apart : apart st lf lt;
  cp_room : plen st lf - fo <= plen st lt - ot
}.

Lemma splice_nil c o : splice c o [] = c.
Proof. unfold splice. simpl. by rewrite Nat.add_0_r, take_drop. Qed.

Lemma apart_tail st l y r : apart st l (y :: r) -> apart st l r.
Proof. intros Ha. eapply Forall_impl; [exact Ha|]. intros z Hz. by inversion Hz. Qed.

(** A chain is no queue: the test of [pbuf_copy] in its first and second pbuf. *)
Lemma no_queue_head2 st x y r :
  pchain st x (x :: y :: r) -> sizes st (x :: y :: r) -> no_queue st (x :: y :: r) ->
  (pb_len (pb st y) =? pb_tot_len (pb st y)) && negb (pb_next (pb st y) =? NULL) = false.
Proof.
  intros (_ & _ & E & H) (_ & _ & _ & Hs) Hq. apply (no_queue_next st y r); [by split|done|by eapply no_queue_tail].
Qed.

(** *** One round of the copy *)

Section CopyRound.
Context (st : pstate) (xt xf : Z) (lt lf : list Z) (ot fo : Z).
Hypothesis Hcp : copying st (xt :: lt) (xf :: lf) ot fo.

(** The bytes the round copies, and the state behind it. *)
Definition round_len : Z := Z.min (pb_len (pb st xf) - fo) (pb_len (pb st xt) - ot).
Definition round_bytes : list Z := bytes_at (data st) (pb_payload (pb st xf) + fo) (Z.to_nat round_len).
Definition round_st : pstate := set_data st (write_bytes (data st) (pb_payload (pb st xt) + ot) round_bytes).

Lemma round_facts :
  pchain st xt (xt :: lt) /\ pchain st xf (xf :: lf) /\ sizes st (xt :: lt) /\ sizes st (xf :: lf) /\
  no_queue st (xt :: lt) /\ no_queue st (xf :: lf) /\ 0 <= ot <= pb_len (pb st xt) /\ 0 <= fo <= pb_len (pb st xf) /\
  pb_len (pb st xt) < 65536 /\ pb_len (pb st xf) < 65536 /\ 0 <= plen st lt /\ 0 <= plen st lf /\
  pb_len (pb st xf) + plen st lf - fo <= pb_len (pb st xt) + plen st lt - ot /\ length round_bytes = Z.to_nat round_len.
Proof.
  destruct Hcp as [(? & ? & [= <- <-] & Hct & Hot) (? & ? & [= <- <-] & Hcf & Hof) [Hst Hsf] [Hqt Hqf] Hsep Hap Hroom].
  pose proof Hst as (Ht0 & Ht1 & Ht2 & Hst'). pose proof Hsf as (Hf0 & Hf1 & Hf2 & Hsf').
  pose proof (sizes_nonneg _ _ Hst') as [Hplt _]. pose proof (sizes_nonneg _ _ Hsf') as [Hplf _].
  cbn [plen] in Hroom. repeat (split; [done || lia|]). apply length_bytes_at.
Qed.

Lemma round_only_in : only_in [payload_region st xt] (data st) (data round_st).
Proof.
  destruct round_facts as (_ & _ & _ & _ & _ & _ & Hot & Hof & _ & _ & _ & _ & _ & Hl).
  apply (only_in_write _ _ (payload_region st xt)); [left|simpl; lia|]. rewrite Hl. unfold round_len. simpl. lia.
Qed.

Lemma round_only_in_all : only_in (payloads st (xt :: lt)) (data st) (data round_st).
Proof. eapply only_in_mono; [|exact round_only_in]. intros r Hr. apply list_elem_of_singleton in Hr as ->. left. Qed.

Lemma round_from l : (forall x, x ∈ l -> x ∈ xf :: lf) -> content round_st l = content st l.
Proof.
  intros Hin. destruct Hcp as [_ _ [_ Hsf] _ _ Hap _]. pose proof (sizes_nonneg _ _ Hsf) as [_ Hpf].
  unfold apart in Hap. rewrite Forall_forall in Hap, Hpf.
  apply (apart_content st _ (xt :: lt)); [| |exact round_only_in_all]; unfold apart; apply Forall_forall; auto.
Qed.

Lemma round_to :
  payload_bytes round_st xt = splice (payload_bytes st xt) (Z.to_nat ot) round_bytes /\ content round_st lt = content st lt.
Proof.
  destruct round_facts as (_ & _ & Hst & _ & _ & _ & Hot & Hof & _ & _ & _ & _ & _ & Hl). split.
  - apply payload_write_in; [lia|]. rewrite Hl. unfold round_len. lia.
  - destruct Hcp as [_ _ _ _ [Hsx _] _ _]. pose proof (sizes_nonneg _ _ Hst) as [_ Hpt].
    apply (only_in_content [payload_region st xt]); [exact round_only_in| |by inversion Hpt].
    intros y Hy. constructor; [|constructor]. apply separate_sym. rewrite Forall_forall in Hsx. apply Hsx.
    by apply list_elem_of_fmap_2.
Qed.

(** Continuing in the same target pbuf. *)
Lemma round_stay m' R :
  only_in (payloads st (xt :: lt)) (data round_st) m' ->
  content (set_data round_st m') (xt :: lt) = splice (content round_st (xt :: lt)) (Z.to_nat (ot + round_len)) R ->
  only_in (payloads st (xt :: lt)) (data st) m' /\
  content (set_data st m') (xt :: lt) = splice (content st (xt :: lt)) (Z.to_nat ot) (round_bytes ++ R).
Proof.
  intros Ho E. split; [eapply only_in_trans; [exact round_only_in_all|exact Ho]|].
  change (set_data round_st m') with (set_data st m') in E. destruct round_to as [Hx Hl].
  destruct round_facts as (_ & _ & _ & _ & _ & _ & Hot & Hof & _ & _ & _ & _ & _ & Hb).
  pose proof (length_payload_bytes st xt) as Hlx. assert (Hk : 0 <= round_len <= pb_len (pb st xt) - ot) by (unfold round_len; lia).
  rewrite E. cbn [content]. rewrite Hx, Hl. rewrite <- splice_l by lia.
  replace (Z.to_nat (ot + round_len)) with (Z.to_nat ot + length round_bytes)%nat by lia.
  apply splice_splice. rewrite length_app. lia.
Qed.

(** Continuing in the next one, when this one is full. *)
Lemma round_move m' R :
  ot + round_len = pb_len (pb st xt) -> only_in (payloads st lt) (data round_st) m' ->
  content (set_data round_st m') lt = splice (content round_st lt) 0 R ->
  only_in (payloads st (xt :: lt)) (data st) m' /\
  content (set_data st m') (xt :: lt) = splice (content st (xt :: lt)) (Z.to_nat ot) (round_bytes ++ R).
Proof.
  intros Hk Ho E. destruct round_to as [Hx Hl]. pose proof (length_payload_bytes st xt) as Hlx.
  destruct round_facts as (_ & _ & _ & _ & _ & _ & Hot & Hof & _ & _ & _ & _ & _ & Hb). split.
  - eapply only_in_trans; [exact round_only_in_all|]. eapply only_in_mono; [|exact Ho]. intros r Hr. by right.
  - cbn [content]. change (set_data round_st m') with (set_data st m') in E. rewrite E, Hl.
    assert (Hx' : payload_bytes (set_data st m') xt = payload_bytes round_st xt).
    { unfold payload_bytes. cbn [data set_data]. change (pb (set_data st m') xt) with (pb st xt).
      change (pb round_st xt) with (pb st xt). apply (only_in_bytes (payloads st lt)); [exact Ho|].
      rewrite Z2Nat.id by lia. by destruct Hcp as [_ _ _ _ [Hsx _] _ _]. }
    rewrite Hx', Hx. symmetry. apply splice_span. unfold round_len in *. lia.
Qed.

Lemma round_next lt' lf' ot' fo' : copying st lt' lf' ot' fo' -> copying round_st lt' lf' ot' fo'.
Proof.
  intros [H1 H2 [H3 H4] H5 H6 H7 H8]. constructor; auto.
  - destruct H1 as (y & r & -> & Hy & ?). exists y, r. split; [done|]. split; [|done]. by apply (pchain_ext st).
  - destruct H2 as (y & r & -> & Hy & ?). exists y, r. split; [done|]. split; [|done]. by apply (pchain_ext st).
  - split; by apply (sizes_ext st).
  - rewrite !(plen_ext st round_st) by done. done.
Qed.

(** The chains that are left for the next rounds. *)
Lemma copying_left : fo + round_len < pb_len (pb st xf) ->
  exists yt lt', lt = yt :: lt' /\ copying st (yt :: lt') (xf :: lf) 0 (fo + round_len).
Proof.
  intros Hlt. destruct round_facts as (Hct & Hcf & Hst & Hsf & Hqt & Hqf & Hot & Hof & _ & _ & Hplt & Hplf & Hroom & _).
  assert (Hk : ot + round_len = pb_len (pb st xt) /\ 0 <= round_len) by (unfold round_len in *; lia).
  destruct lt as [|yt lt'] eqn:El; [simpl in Hroom; unfold round_len in *; lia|]. exists yt, lt'. split; [done|].
  destruct Hct as (_ & _ & Hct). destruct Hst as (_ & _ & _ & Hst). destruct Hcp as [_ _ _ _ [_ Hsep] Hap _].
  constructor; auto.
  - exists yt, lt'. split; [done|]. split; [by destruct Hct as (_ & ?)|]. destruct Hst. lia.
  - exists xf, lf. split; [done|]. split; [done|]. lia.
  - split; [by eapply no_queue_tail|done].
  - by eapply apart_tail.
  - cbn [plen] in *. lia.
Qed.

Lemma copying_right yf lf' : lf = yf :: lf' -> fo + round_len = pb_len (pb st xf) -> ot + round_len < pb_len (pb st xt) ->
  copying st (xt :: lt) lf (ot + round_len) 0.
Proof.
  intros El Hk Hlt. destruct round_facts as (Hct & Hcf & Hst & Hsf & Hqt & Hqf & Hot & Hof & _ & _ & Hplt & Hplf & Hroom & _). subst lf.
  destruct Hcp as [_ _ _ _ Hsep Hap _]. destruct Hcf as (_ & _ & E & Hcf). destruct Hsf as (_ & _ & _ & Hsf). constructor; auto.
  - exists xt, lt. split; [done|]. split; [done|]. unfold round_len in *. lia.
  - exists yf, lf'. split; [done|]. split; [by split|]. destruct Hsf. lia.
  - split; [done|by eapply no_queue_tail].
  - by inversion Hap.
  - cbn [plen] in *. lia.
Qed.

Lemma copying_both yf lf' : lf = yf :: lf' -> fo + round_len = pb_len (pb st xf) -> ot + round_len = pb_len (pb st xt) ->
  exists yt lt', lt = yt :: lt' /\ copying st (yt :: lt') lf 0 0.
Proof.
  intros Ef Hk Hk2. destruct round_facts as (Hct & Hcf & Hst & Hsf & Hqt & Hqf & Hot & Hof & _ & _ & Hplt & Hplf & Hroom & _). subst lf.
  destruct Hcf as (_ & _ & E & Hcf). destruct Hsf as (_ & _ & _ & Hsf). pose proof Hsf as (Hyf & _ & _ & Hsf').
  pose proof (sizes_nonneg _ _ Hsf') as [Hplf' _].
  assert (Hyf0 : 0 < pb_len (pb st yf)) by by inversion Hqf. cbn [plen] in *.
  destruct lt as [|yt lt'] eqn:El; [simpl in Hroom; lia|]. exists yt, lt'. split; [done|].
  destruct Hct as (_ & _ & Et & Hct). destruct Hst as (_ & _ & _ & Hst). destruct Hcp as [_ _ _ _ [_ Hsep] Hap _].
  constructor; auto.
  - exists yt, lt'. split; [done|]. split; [by split|]. destruct Hst. lia.
  - exists yf, lf'. split; [done|]. split; [by split|]. lia.
  - split; by eapply no_queue_tail.
  - inversion Hap. by eapply apart_tail.
  - cbn [plen] in *. lia.
Qed.

(** What the round does: it ends when the source is used up, and otherwise goes on
    with what is left. *)
Lemma copy_step_cases :
  copy_step (st, xt, xf, ot, fo) =
    match lf with
    | yf :: _ =>
        if pb_len (pb st xf) <=? fo + round_len then
          if ot + round_len =? pb_len (pb st xt) then inl (round_st, hd 0 lt, yf, 0, 0)
          else inl (round_st, xt, yf, ot + round_len, 0)
        else inl (round_st, hd 0 lt, xf, 0, fo + round_len)
    | [] =>
        if pb_len (pb st xf) <=? fo + round_len then inr (round_st, ERR_OK)
        else inl (round_st, hd 0 lt, xf, 0, fo + round_len)
    end.
Proof.
  destruct round_facts as (Hct & Hcf & Hst & Hsf & Hqt & Hqf & Hot & Hof & Hmt & Hmf & Hplt & Hplf & Hroom & _).
  pose proof copying_left as Hleft. pose proof copying_both as Hboth.
  pose proof (no_queue_next _ _ _ Hct Hst Hqt) as Nt. pose proof (no_queue_next _ _ _ Hcf Hsf Hqf) as Nf.
  pose proof (no_queue_head2 st xt) as Nt2. pose proof (no_queue_head2 st xf) as Nf2.
  pose proof Hct as (_ & Hxt & Hct'). pose proof Hcf as (_ & Hxf & Hcf').
  unfold copy_step. replace (if _ <=? _ then _ else _) with round_len by (unfold round_len; zbs).
  assert (Hk : 0 <= round_len <= pb_len (pb st xf) - fo /\ round_len <= pb_len (pb st xt) - ot) by (unfold round_len; lia).
  rewrite (u16_small round_len), memcpy_eq by lia. fold round_bytes round_st. rewrite !u16_small by lia.
  change (pb round_st) with (pb st).
  destruct (Z.leb_spec (pb_len (pb st xf)) (fo + round_len)) as [Hfd|Hfd].
  - destruct lf as [|yf lf'].
    + simpl in Hcf'. rewrite Hcf'. cbv beta iota zeta.
      destruct (ot + round_len =? pb_len (pb st xt)); cbv beta iota; rewrite Z.eqb_refl, ?orb_true_r; cbn [negb andb].
      * destruct lt as [|yt lt']; simpl in Hct'; [by rewrite Hct'|]. pose proof Hct' as (-> & _).
        by rewrite (Nt2 yt lt' Hct Hst Hqt), andb_false_r.
      * by rewrite Nt, andb_false_r.
    + pose proof Hcf' as (-> & Hyf & _). cbv beta iota zeta.
      destruct (Z.eqb_spec (ot + round_len) (pb_len (pb st xt))) as [Htd|Htd]; cbv beta iota;
        rewrite (proj2 (Z.eqb_neq _ _) Hyf), (Nf2 yf lf' Hcf Hsf Hqf), ?orb_false_r; cbn [negb andb].
      * destruct (Hboth yf lf' eq_refl ltac:(lia) Htd) as (yt & lt' & -> & _). pose proof Hct' as (-> & Hyt & _).
        by rewrite (proj2 (Z.eqb_neq _ _) Hyt), (Nt2 yt lt' Hct Hst Hqt).
      * by rewrite Nt, andb_false_r.
  - destruct (Hleft ltac:(lia)) as (yt & lt' & -> & _).
    assert (Htd : ot + round_len = pb_len (pb st xt)) by (unfold round_len in *; lia). rewrite (proj2 (Z.eqb_eq _ _) Htd).
    cbv beta iota zeta. rewrite (proj2 (Z.eqb_neq _ _) Hxf), Nf. cbn [negb andb orb]. pose proof Hct' as (-> & Hyt & _).
    rewrite (proj2 (Z.eqb_neq _ _) Hyt), (Nt2 yt lt' Hct Hst Hqt). cbn [negb andb orb]. by destruct lf.
Qed.
End CopyRound.

Lemma copy_loop fuel st xt lt xf lf ot fo :
  copying st (xt :: lt) (xf :: lf) ot fo -> (length (xt :: lt) + length (xf :: lf) < fuel)%nat ->
  exists m', loop fuel copy_step (st, xt, xf, ot, fo) = Some (set_data st m', ERR_OK) /\
    only_in (payloads st (xt :: lt)) (data st) m' /\
    content (set_data st m') (xt :: lt) = splice (content st (xt :: lt)) (Z.to_nat ot) (rest st (xf :: lf) fo).
Proof.
  revert st xt lt xf lf ot fo. induction fuel as [|fuel IH]; intros st xt lt xf lf ot fo Hcp Hf; [lia|].
  destruct (round_facts _ _ _ _ _ _ _ Hcp) as (_ & _ & _ & _ & _ & _ & Hot & Hof & _).
  cbn [loop]. rewrite (copy_step_cases _ _ _ _ _ _ _ Hcp). set (k := round_len st xt xf ot fo).
  assert (Hk : 0 <= k <= pb_len (pb st xf) - fo /\ k <= pb_len (pb st xt) - ot) by (unfold k, round_len; lia).
  rewrite (rest_split st xf lf fo k ltac:(lia) ltac:(lia) ltac:(lia) ltac:(lia)).
  pose proof (round_stay _ _ _ _ _ _ _ Hcp) as Hstay. pose proof (round_move _ _ _ _ _ _ _ Hcp) as Hmove.
  pose proof (round_next st xt xf ot fo) as Hnext. pose proof (round_from _ _ _ _ _ _ _ Hcp) as Hfrom.
  unfold round_bytes in Hstay, Hmove. fold k in Hstay, Hmove.
  destruct (Z.leb_spec (pb_len (pb st xf)) (fo + k)) as [Hfd|Hfd].
  - rewrite (proj2 (Z.eqb_eq (fo + k) _)) by lia. destruct lf as [|yf lf'].
    + eexists. split; [done|]. apply Hstay; [done|]. change (rest st [] 0) with (@nil Z). by rewrite splice_nil, set_data_id.
    + assert (Er : rest st (yf :: lf') 0 = rest (round_st st xt xf ot fo) (yf :: lf') 0)
        by (unfold rest; f_equal; symmetry; apply Hfrom; intros; by right).
      rewrite Er. destruct (Z.eqb_spec (ot + k) (pb_len (pb st xt))) as [Htd|Htd].
      * destruct (copying_both _ _ _ _ _ _ _ Hcp yf lf' eq_refl ltac:(unfold k in *; lia) Htd) as (yt & lt' & -> & Hc).
        destruct (IH _ yt lt' yf lf' 0 0 (Hnext _ _ _ _ Hc)) as (m' & Hl & Ho & Hc'); [simpl in *; lia|].
        exists m'. split; [exact Hl|]. by apply Hmove.
      * pose proof (copying_right _ _ _ _ _ _ _ Hcp yf lf' eq_refl ltac:(unfold k in *; lia) ltac:(unfold k in *; lia)) as Hc.
        destruct (IH _ xt lt yf lf' (ot + k) 0 (Hnext _ _ _ _ Hc)) as (m' & Hl & Ho & Hc'); [simpl in *; lia|].
        exists m'. split; [exact Hl|]. by apply Hstay.
  - rewrite (proj2 (Z.eqb_neq (fo + k) _)) by lia.
    destruct (copying_left _ _ _ _ _ _ _ Hcp Hfd) as (yt & lt' & -> & Hc).
    assert (Er : rest st (xf :: lf) (fo + k) = rest (round_st st xt xf ot fo) (xf :: lf) (fo + k))
      by (unfold rest; f_equal; symmetry; by apply Hfrom).
    rewrite Er. destruct (IH _ yt lt' xf lf 0 (fo + k) (Hnext _ _ _ _ Hc)) as (m' & Hl & Ho & Hc'); [simpl in *; lia|].
    exists m'. split; [destruct lf; exact Hl|]. apply Hmove; [unfold k, round_len in *; lia|done|done].
Qed.

Lemma copy_correct fuel st pt pf lt lf :
  copying st lt lf 0 0 -> pchain st pt lt -> pchain st pf lf -> (length lt + length lf < fuel)%nat ->
  exists m', pbuf_copy fuel st pt pf = Some (set_data st m', ERR_OK) /\
    only_in (payloads st lt) (data st) m' /\
    content (set_data st m') lt = content st lf ++ drop (length (content st lf)) (content st lt).
Proof.
  intros Hcp Hct Hcf Hf. pose proof Hcp as [(xt & rt & -> & _) (xf & rf & -> & _) [Hst Hsf] _ _ _ Hroom].
  destruct Hct as (-> & Hxt & _), Hcf as (-> & Hxf & _).
  destruct (copy_loop fuel st xt rt xf rf 0 0 Hcp Hf) as (m' & Hl & Ho & Hc). unfold pbuf_copy.
  rewrite (proj2 (Z.eqb_neq _ _) Hxt), (proj2 (Z.eqb_neq _ _) Hxf), (sizes_head _ _ _ Hst), (sizes_head _ _ _ Hsf).
  rewrite (proj2 (Z.leb_le _ _)) by lia. cbn [negb andb]. exists m'. split; [exact Hl|]. split; [done|].
  rewrite Hc. done.
Qed.

(** ** The properties *)

(** A chain of two pbufs that holds the bytes of ABCDEFG, and a string. *)
Definition demo_st : pstate :=
  mk_ps (<[1000 := mk_pbuf 2000 1040 7 3 PBUF_RAM 0 1]>
          (<[2000 := mk_pbuf 0 2040 4 4 PBUF_RAM 0 1]> (∅ : gmap Z pbuf)))
    (write_bytes (write_bytes (write_bytes (fun _ => 0) 1040 [65; 66; 67]) 2040 [68; 69; 70; 71])
       3000 [67; 68; 0])
    heap0 [] 0.
Definition demo_l : list Z := [1000; 2000].

Lemma demo_chain : pchain demo_st 1000 demo_l.
Proof. repeat split; vm_compute; congruence. Qed.
Lemma demo_sizes : sizes demo_st demo_l.
Proof. repeat split; vm_compute; congruence. Qed.
Lemma demo_mem_ok : mem_ok (data demo_st).
Proof.
  cbn [data demo_st]. repeat apply write_bytes_ok; [intros a; lia|..];
    (repeat constructor; unfold is_byte; lia).
Qed.
Lemma demo_separate : all_separate (payloads demo_st demo_l).
Proof.
  change (payloads demo_st demo_l) with [(1040, 3); (2040, 4)].
  simpl. split; [constructor; [|constructor]|split; [constructor|done]]. unfold separate. simpl. lia.
Qed.
Lemma demo_outside a n : 3000 <= a -> Forall (separate (a, n)) (payloads demo_st demo_l).
Proof.
  intros. change (payloads demo_st demo_l) with [(1040, 3); (2040, 4)].
  repeat constructor; unfold separate; simpl; lia.
Qed.

(** Searching a chain is searching the byte string it holds, whatever its
    division into pbufs: [pbuf_memcmp] returns 0xffff when the range ends behind
    the chain, 0 when the range equals the given bytes and otherwise one more
    than the position of the first difference; [pbuf_strstr] returns the
    position of the first occurrence of a C string, 0xFFFF when there is none.
    Both end when the bound on the rounds exceeds the number of pbufs and the
    length of the string. *)
Theorem search_is_string_search fuel st p l off s2 n sub w :
  pchain st p l -> l <> [] -> sizes st l -> mem_ok (data st) -> (length l < fuel)%nat ->
  0 <= off < 65536 -> 0 <= n < 65536 ->
  cstr (data st) sub w -> sub <> NULL -> w <> [] -> (length w < fuel)%nat -> plen st l < 65535 ->
  pbuf_memcmp fuel st p off s2 n =
    Some (if plen st l <? off + n then 0xffff
          else memcmp_result (slice (content st l) off n) (bytes_at (data st) s2 (Z.to_nat n))) /\
  exists r, pbuf_strstr fuel st p sub = Some r /\
    ((0 <= r <= plen st l - Z.of_nat (length w) /\ slice (content st l) r (Z.of_nat (length w)) = w /\
      forall k, 0 <= k < r -> slice (content st l) k (Z.of_nat (length w)) <> w) \/
     (r = 0xFFFF /\
      forall k, 0 <= k <= plen st l - Z.of_nat (length w) -> slice (content st l) k (Z.of_nat (length w)) <> w)).
Proof.
  intros Hc Hne Hs Hm Hf Ho Hn [Hw1 [Hw2 Hw3]] Hsub Hwne Hwf Hmax.
  split; [by apply memcmp_correct|]. unfold pbuf_strstr.
  assert (Htot : pb_tot_len (pb st p) = plen st l).
  { destruct l as [|x l]; [done|]. destruct Hc as (-> & _). by apply sizes_head. }
  assert (Hfirst : data st sub <> 0).
  { destruct w as [|c w]; [done|]. simpl in Hw1. injection Hw1 as -> _. by inversion Hw3. }
  rewrite (proj2 (Z.eqb_neq _ _) Hsub), (proj2 (Z.eqb_neq _ _) Hfirst), Htot.
  rewrite (proj2 (Z.eqb_neq (plen st l) 65535)) by lia. cbn [orb].
  rewrite (strlen_eq (data st) sub w) by (done || by split).
  pose proof (length_content _ _ Hs) as Hlen. pose proof (sizes_nonneg _ _ Hs) as [Hpos _].
  destruct (Z.leb_spec 65535 (Z.of_nat (length w))) as [Hlong|Hshort].
  { eexists. split; [done|]. right. split; [done|]. intros k Hk. lia. }
  rewrite u16_small by lia. rewrite (memfind_correct fuel st p l) by (auto; lia). rewrite Nat2Z.id, Hw1.
  eexists. split; [done|]. unfold memfind_result. rewrite Hlen, Z2Nat.id, Z.add_0_r, Z.sub_0_r by lia.
  destruct (Z.leb_spec (Z.of_nat (length w)) (plen st l)) as [Hle|Hgt].
  - pose proof (find_from_spec (Z.to_nat (plen st l - Z.of_nat (length w) + 1)) (content st l) w 0) as Hff.
    destruct (find_from _ _ _ _) as [j|]; simpl.
    + left. destruct Hff as (H1 & H2 & H3). split; [lia|done].
    + right. split; [done|]. intros k Hk. apply Hff. lia.
  - right. split; [done|]. intros k Hk. lia.
Qed.

Lemma search_witness :
  pbuf_memcmp 10 demo_st 1000 2 3000 2 = Some 0 /\ exists r, pbuf_strstr 10 demo_st 1000 3000 = Some r.
Proof.
  destruct (search_is_string_search 10 demo_st 1000 demo_l 2 3000 2 3000 [67; 68]) as [H1 (r & H2 & _)];
    [exact demo_chain|done|exact demo_sizes|exact demo_mem_ok|simpl; lia|lia|lia
    |split; [vm_compute; reflexivity|split; [vm_compute; reflexivity|repeat constructor; lia]]
    |unfold NULL; lia|done|simpl; lia|vm_compute; reflexivity|].
  split; [rewrite H1; vm_compute; reflexivity|]. exists r. exact H2.
Defined.

Lemma slice_splice c off bs :
  (off + length bs <= length c)%nat -> slice (splice c off bs) (Z.of_nat off) (Z.of_nat (length bs)) = bs.
Proof.
  intros. unfold slice, splice. rewrite !Nat2Z.id. rewrite drop_app_ge by (rewrite length_take; lia).
  rewrite length_take, Nat.min_l, Nat.sub_diag, drop_0 by lia. apply take_app_length.
Qed.

Lemma length_splice c off bs :
  (off + length bs <= length c)%nat -> length (splice c off bs) = length c.
Proof. intros. unfold splice. rewrite !length_app, length_take, length_drop. lia. Qed.

(** Writing bytes into a chain with [pbuf_take_at] and reading the same
    range back with [pbuf_copy_partial] gives the bytes that were written, over
    any boundary between pbufs: the write replaces exactly that range of the
    content, touches no memory outside of the payloads and returns [ERR_OK]; the
    read stores the range at the destination and returns its length.  A range
    that ends behind the chain returns [ERR_MEM] and writes nothing. *)
Theorem take_at_copy_partial_roundtrip fuel st p l src dst n off :
  pchain st p l -> sizes st l -> all_separate (payloads st l) -> (length l < fuel)%nat ->
  0 <= n < 65536 -> 0 <= off < 65536 -> 0 < src -> dst <> NULL ->
  Forall (separate (src, n)) (payloads st l) -> Forall (separate (dst, n)) (payloads st l) ->
  (plen st l <= off \/ plen st l < off + n -> pbuf_take_at fuel st p src n off = Some (st, ERR_MEM)) /\
  (off < plen st l -> off + n <= plen st l ->
   exists st1 st2, pbuf_take_at fuel st p src n off = Some (st1, ERR_OK) /\
     only_in (payloads st l) (data st) (data st1) /\
     content st1 l = splice (content st l) (Z.to_nat off) (bytes_at (data st) src (Z.to_nat n)) /\
     pbuf_copy_partial fuel st1 p dst n off = Some (st2, n) /\
     bytes_at (data st2) dst (Z.to_nat n) = bytes_at (data st) src (Z.to_nat n)).
Proof.
  intros Hc Hs Hsep Hf Hn Ho Hsrc Hdst Hds Hdd.
  pose proof (take_at_correct fuel st p l src n off Hc Hs Hsep Hf Hn Ho Hsrc Hds) as Ht. split.
  - intros Hout. replace ((off <? plen st l) && (off + n <=? plen st l)) with false in Ht; [done|].
    symmetry. apply andb_false_iff. zbs; tauto || lia.
  - intros Hlt Hle. rewrite (proj2 (Z.ltb_lt _ _)), (proj2 (Z.leb_le _ _)) in Ht by lia.
    destruct Ht as (m' & Ht & Hon & Hct).
    assert (Hne : l <> []) by (intros ->; simpl in *; lia).
    assert (Hs1 : sizes (set_data st m') l) by by apply (sizes_ext st).
    assert (Hc1 : pchain (set_data st m') p l) by by apply (pchain_ext st).
    pose proof (copy_partial_correct fuel (set_data st m') p l dst n off Hc1 Hne Hs1 Hf Hdst Hn Ho Hdd) as Hcp.
    cbv zeta in Hcp. set (bs := bytes_at (data st) src (Z.to_nat n)) in *.
    assert (Hbs : length bs = Z.to_nat n) by apply length_bytes_at.
    pose proof (length_content _ _ Hs) as Hlen.
    assert (Hsl : slice (content (set_data st m') l) off n = bs).
    { rewrite Hct. replace off with (Z.of_nat (Z.to_nat off)) at 2 by lia.
      replace n with (Z.of_nat (length bs)) by lia. apply slice_splice. lia. }
    rewrite Hsl, Hbs, Z2Nat.id in Hcp by lia. eexists _, _. split; [exact Ht|].
    split; [exact Hon|]. split; [exact Hct|]. split; [exact Hcp|].
    cbn [data set_data]. rewrite <- Hbs. apply bytes_at_write_eq.
Qed.

Lemma take_at_witness :
  exists st1 st2, pbuf_take_at 10 demo_st 1000 3000 2 2 = Some (st1, ERR_OK) /\
    pbuf_copy_partial 10 st1 1000 4000 2 2 = Some (st2, 2) /\
    bytes_at (data st2) 4000 2 = bytes_at (data demo_st) 3000 2.
Proof.
  destruct (take_at_copy_partial_roundtrip 10 demo_st 1000 demo_l 3000 4000 2 2) as [_ H];
    [exact demo_chain|exact demo_sizes|exact demo_separate|simpl; lia|lia|lia|lia|unfold NULL; lia
    |apply demo_outside; lia|apply demo_outside; lia|].
  destruct H as (st1 & st2 & H1 & _ & _ & H2 & H3); [vm_compute; reflexivity|vm_compute; congruence|].
  exists st1, st2. auto.
Defined.

(** [pbuf_cat] concatenates: the result is the chain of the pbufs of both,
    its content is the concatenation of the contents, every [tot_len] is again
    the sum of the lengths from its pbuf on (the total fits in 16 bits), and
    neither reference counts nor payloads nor pbufs outside of the first chain
    change. *)
Theorem cat_concatenates fuel st h t l1 l2 :
  pchain st h l1 -> l1 <> [] -> sizes st l1 -> pchain st t l2 -> l2 <> [] -> sizes st l2 ->
  (forall x, x ∈ l1 -> x ∉ l2) -> plen st l1 + plen st l2 < 65536 -> (length l1 <= fuel)%nat ->
  exists st', pbuf_cat fuel st h t = Some st' /\ data st' = data st /\
    pchain st' h (l1 ++ l2) /\ sizes st' (l1 ++ l2) /\
    content st' (l1 ++ l2) = content st l1 ++ content st l2 /\
    (forall x, x ∉ l1 -> pb st' x = pb st x) /\
    (forall x, pb_ref (pb st' x) = pb_ref (pb st x)).
Proof.
  intros H1 H2 H3 H4 H5 H6 H7 H8 H9.
  destruct (cat_correct fuel st h t l1 l2 H1 H2 H3 H4 H5 H6 H7 H8 H9) as (st' & ? & ? & ? & ? & ? & ? & ? & _).
  by exists st'.
Qed.

Definition demo_two : pstate := set_pb demo_st 1000 (mk_pbuf 0 1040 3 3 PBUF_RAM 0 1).

Lemma cat_witness :
  exists st', pbuf_cat 5 demo_two 1000 2000 = Some st' /\ pchain st' 1000 [1000; 2000] /\
    content st' [1000; 2000] = [65; 66; 67; 68; 69; 70; 71].
Proof.
  destruct (cat_concatenates 5 demo_two 1000 2000 [1000] [2000]) as (st' & H1 & _ & H2 & _ & H3 & _);
    [repeat split; vm_compute; congruence|done|repeat split; vm_compute; congruence
    |repeat split; vm_compute; congruence|done|repeat split; vm_compute; congruence
    |intros x Hx; apply list_elem_of_singleton in Hx; subst; intros H; apply list_elem_of_singleton in H; lia
    |vm_compute; reflexivity|simpl; lia|].
  exists st'. split; [exact H1|]. split; [exact H2|].
  etransitivity; [exact H3|]. vm_compute. reflexivity.
Defined.

(** [pbuf_header] moves the payload pointer and nothing else: it succeeds
    exactly when the increment fits ([header_fits]: the pointer stays behind the
    struct for RAM and POOL pbufs, ROM and REF pbufs only shrink unless forced,
    and a pbuf never shrinks below 0); a failure changes nothing; hiding [n]
    bytes drops them from the front of the content, and revealing [n] bytes and
    hiding them again restores the pbuf. *)
Theorem header_moves st p l n :
  sizes st (p :: l) -> p ∉ l -> p <> NULL -> 0 < n < 32768 ->
  (let '(st1, r) := pbuf_header st p (- n) in
   if header_fits st p (- n) false
   then r = 0 /\ sizes st1 (p :: l) /\ content st1 (p :: l) = drop (Z.to_nat n) (content st (p :: l))
   else r = 1 /\ forall k, pb st1 k = pb st k) /\
  (pb_tot_len (pb st p) + n < 65536 -> header_fits st p n false = true ->
   let '(st1, r1) := pbuf_header st p n in
   let '(st2, r2) := pbuf_header st1 p (- n) in
   r1 = 0 /\ r2 = 0 /\ sizes st1 (p :: l) /\
   content st1 (p :: l) = bytes_at (data st) (pb_payload (pb st p) - n) (Z.to_nat n) ++ content st (p :: l) /\
   forall k, pb st2 k = pb st k).
Proof.
  intros Hs Hpl Hp Hn. pose proof Hs as (H0 & H1 & H2 & Hs'). pose proof (sizes_nonneg _ _ Hs') as [Hl0 _].
  split.
  - pose proof (header_correct st p (- n) false Hp ltac:(lia) ltac:(lia)) as H. unfold pbuf_header.
    destruct (pbuf_header_impl st p (- n) false) as [st1 r]. destruct H as (Hd & _ & _ & Hk & H).
    destruct (header_fits st p (- n) false) eqn:Ef.
    + destruct H as [-> Hpp]. split; [done|]. unfold header_fits in Ef.
      rewrite (proj2 (Z.ltb_lt (- n) 0)) in Ef by lia. apply andb_prop in Ef as [Ef _]. zb.
      destruct (header_content st st1 p l (- n) Hs Hpl) as (H3 & H4 & _); auto; try lia.
      split; [done|]. rewrite H4 by lia. f_equal. lia.
    + destruct H as [-> Hpp]. split; [done|]. intros k. destruct (Z.eq_dec k p) as [->|]; auto.
  - intros Hmax Hfit. pose proof (header_correct st p n false Hp ltac:(lia) ltac:(lia)) as H. unfold pbuf_header.
    destruct (pbuf_header_impl st p n false) as [st1 r1]. rewrite Hfit in H.
    destruct H as (Hd & _ & _ & Hk & -> & Hpp).
    pose proof (header_correct st1 p (- n) false Hp ltac:(lia) ltac:(lia)) as H.
    destruct (pbuf_header_impl st1 p (- n) false) as [st2 r2].
    assert (Hfit2 : header_fits st1 p (- n) false = true).
    { unfold header_fits in *. rewrite Hpp. simpl. rewrite (proj2 (Z.ltb_lt (- n) 0)) by lia.
      rewrite (proj2 (Z.ltb_ge n 0)) in Hfit by lia. rewrite u16_small by lia.
      apply andb_true_intro. split; [zbs|]. destruct (pb_type (pb st p)); zbs; done. }
    rewrite Hfit2 in H. destruct H as (Hd2 & _ & _ & Hk2 & -> & Hpp2).
    destruct (header_content st st1 p l n Hs Hpl) as (H3 & _ & H4); auto; try lia.
    split; [done|]. split; [done|]. split; [done|]. split; [apply H4; lia|].
    intros k. destruct (Z.eq_dec k p) as [->|Hkp]; [|by rewrite Hk2, Hk].
    rewrite Hpp2, Hpp. unfold header_moved. simpl. rewrite !(u16_small (_ + n)) by lia.
    rewrite !u16_small by lia. destruct (pb st p); simpl in *. f_equal; lia.
Qed.

Lemma header_witness :
  content (pbuf_header demo_st 1000 (-2)).1 demo_l = [67; 68; 69; 70; 71] /\
  (pbuf_header demo_st 1000 16).2 = 0.
Proof.
  destruct (header_moves demo_st 1000 [2000] 2 demo_sizes) as [H1 _];
    [intros H; apply list_elem_of_singleton in H; lia|unfold NULL; lia|lia|].
  destruct (header_moves demo_st 1000 [2000] 16 demo_sizes) as [_ H2];
    [intros H; apply list_elem_of_singleton in H; lia|unfold NULL; lia|lia|].
  change (- (2)) with (-2) in H1. split.
  - destruct (pbuf_header demo_st 1000 (-2)) as [st1 r]. destruct H1 as (_ & _ & H1).
    etransitivity; [exact H1|]. vm_compute. reflexivity.
  - specialize (H2 ltac:(vm_compute; reflexivity) ltac:(vm_compute; reflexivity)).
    destruct (pbuf_header demo_st 1000 16) as [st1 r1]. destruct (pbuf_header st1 1000 (-(16))) as [st2 r2].
    simpl. exact (proj1 H2).
Defined.

(** [pbuf_copy] copies the content of the source chain over the front of the
    target chain, whatever the divisions into pbufs, and returns [ERR_OK]; the
    rest of the target and all memory outside of the target payloads stay as
    they are.  It ends within as many rounds as there are pbufs. *)
Theorem copy_copies fuel st pt pf lt lf :
  copying st lt lf 0 0 -> pchain st pt lt -> pchain st pf lf -> (length lt + length lf < fuel)%nat ->
  exists m', pbuf_copy fuel st pt pf = Some (set_data st m', ERR_OK) /\
    only_in (payloads st lt) (data st) m' /\
    content (set_data st m') lt = content st lf ++ drop (length (content st lf)) (content st lt) /\
    (forall y n, Forall (separate (y, Z.of_nat n)) (payloads st lt) -> bytes_at m' y n = bytes_at (data st) y n).
Proof.
  intros Hcp Hct Hcf Hf. destruct (copy_correct fuel st pt pf lt lf Hcp Hct Hcf Hf) as (m' & H1 & H2 & H3).
  exists m'. split; [done|]. split; [done|]. split; [done|]. intros y n Hy. by apply (only_in_bytes (payloads st lt)).
Qed.

(** The chain of before and a single pbuf of eight bytes behind it. *)
Definition demo_copy : pstate := set_pb demo_st 5000 (mk_pbuf 0 5040 8 8 PBUF_RAM 0 1).

Lemma copy_witness :
  exists m', pbuf_copy 10 demo_copy 5000 1000 = Some (set_data demo_copy m', ERR_OK) /\
    content (set_data demo_copy m') [5000] = [65; 66; 67; 68; 69; 70; 71; 0].
Proof.
  assert (Hct : pchain demo_copy 5000 [5000]) by (repeat split; vm_compute; congruence).
  assert (Hcf : pchain demo_copy 1000 [1000; 2000]) by (repeat split; vm_compute; congruence).
  destruct (copy_copies 10 demo_copy 5000 1000 [5000] [1000; 2000]) as (m' & H1 & _ & H2 & _);
    [|exact Hct|exact Hcf|simpl; lia|].
  - constructor.
    + exists 5000, []. split; [done|]. split; [exact Hct|]. vm_compute. split; congruence.
    + exists 1000, [2000]. split; [done|]. split; [exact Hcf|]. vm_compute. split; congruence.
    + split; repeat split; vm_compute; congruence.
    + split; [constructor|]. constructor; [vm_compute; reflexivity|constructor].
    + split; [constructor|done].
    + change (payloads demo_copy [5000]) with [(5040, 8)].
      assert (H : forall x, x.1 + x.2 <= 5040 -> Forall (separate x) [(5040, 8)])
        by (intros x Hx; constructor; [left; exact Hx|constructor]).
      constructor; [|constructor; [|constructor]]; apply H; vm_compute; congruence.
    + vm_compute. congruence.
  - exists m'. split; [exact H1|]. rewrite H2. vm_compute. reflexivity.
Defined.
