(* ===== verification/PbufAlloc.v ===== *)
(** * Packet buffers and their allocators

    [pbuf_alloc], [pbuf_free], [pbuf_realloc], [pbuf_dechain] and
    [pbuf_coalesce] against the [Allocator] interface: which regions of the heap
    and of the two pools the pbufs of a chain hold, that an allocation gives a
    fresh well-formed chain or takes nothing, and that freeing gives back exactly
    the pbufs whose last reference it drops. *)

From Stdlib Require Import ZArith Lia.
From stdpp Require Import base tactics numbers list option gmap.
From S2P Require Import Prelude.
From S2P Require Import Alloc.
From S2P Require Import Mem.
From S2P Require Import Memp.
From S2P Require Import Pbuf.
From S2P Require Import PbufChain.

(** ** Who holds what *)

(** Where the struct of a pbuf comes from. *)
Inductive kind := KHeap | KPbuf | KPool.
#[export] Instance kind_eq_dec : EqDecision kind.
Proof. solve_decision. Defined.

Definition kind_of (t : pbuf_type) : kind :=
  match t with PBUF_RAM => KHeap | PBUF_ROM | PBUF_REF => KPbuf | PBUF_POOL => KPool end.

(** The regions held, each with its allocator. *)
Definition holding : Type := list (kind * region).
Definition held (k : kind) (O : holding) : list region :=
  omap (fun x => if decide (x.1 = k) then Some x.2 else None) O.

Lemma held_cons k k' r O : held k ((k', r) :: O) = if decide (k' = k) then r :: held k O else held k O.
Proof. unfold held. simpl. by destruct (decide (k' = k)). Qed.
#[export] Instance held_proper k : Proper ((≡ₚ) ==> (≡ₚ)) (held k).
Proof. intros O O' H. unfold held. by rewrite H. Qed.

Lemma held_perm O : map snd O ≡ₚ held KHeap O ++ held KPbuf O ++ held KPool O.
Proof.
  induction O as [|[k r] O IH]; [done|]. rewrite !held_cons. simpl. rewrite IH.
  destruct k; simpl; [done| |].
  - by rewrite Permutation_middle.
  - rewrite (app_assoc _ _ (r :: _)), <- Permutation_middle, <- app_assoc. done.
Qed.

Lemma elem_of_held k r O : r ∈ held k O <-> (k, r) ∈ O.
Proof.
  unfold held. rewrite list_elem_of_omap. split.
  - intros ([k' r'] & Hin & E). simpl in E. destruct (decide (k' = k)) as [->|]; [|done]. by injection E as ->.
  - intros Hin. exists (k, r). split; [done|]. simpl. by rewrite decide_True.
Qed.

(** The memory of a pool. *)
Definition arena (d : memp_desc) : region := (LWIP_MEM_ALIGN (d_base d), d_num d * d_size d).

Definition inside (x y : region) : Prop := y.1 <= x.1 /\ x.1 + x.2 <= y.1 + y.2.

Lemma inside_separate x y x' y' : inside x x' -> inside y y' -> separate x' y' -> separate x y.
Proof. unfold inside, separate. lia. Qed.

Section Holding.
(** The address of the heap and the descriptors of the pools of pbuf structs and
    of pool buffers. *)
Context (hb : Z) (dp dq : memp_desc).

Record st_owns (st : pstate) (O : holding) : Prop := {
  so_heap : ram (ps_heap st) = hb /\ heap_owns (ps_heap st) (held KHeap O);
  so_pbuf : exists p, ps_pools st !! Z.to_nat MEMP_PBUF = Some p /\ pool_owns dp p (held KPbuf O);
  so_pool : exists p, ps_pools st !! Z.to_nat MEMP_PBUF_POOL = Some p /\ pool_owns dq p (held KPool O);
  so_sizes : d_size dp = SIZEOF_STRUCT_PBUF /\ d_size dq = SIZEOF_STRUCT_PBUF + PBUF_POOL_BUFSIZE_ALIGNED;
  so_arenas : separate (hb, END) (arena dp) /\ separate (hb, END) (arena dq) /\ separate (arena dp) (arena dq);
  so_pos : Forall (fun x => 0 < x.2.2) O;
  so_flags : forall x, x ∈ elements dq -> Z.land (pb_flags (pb st x)) PBUF_FLAG_IS_CUSTOM = 0
}.

Lemma pool_owns_inside d p L : pool_owns d p L -> Forall (fun x => inside x (arena d)) L.
Proof.
  intros [[fr [Hd _ He _ _]] Hf]. rewrite Forall_forall in *. intros x Hx. specialize (Hf x Hx).
  assert (Hin : x.1 ∈ elements d).
  { rewrite <- He. apply elem_of_app. right. apply (list_elem_of_fmap_2 fst _ _ Hx). }
  destruct Hd as (Hb & Hs & _ & Hn & _). apply elements_from_bounds in Hin as (H1 & H2 & _); [|lia].
  unfold inside, arena. simpl. lia.
Qed.

Lemma heap_owns_inside' h L : heap_owns h L -> Forall (fun x => inside x (ram h, END)) L.
Proof.
  intros Ho. eapply Forall_impl; [apply (heap_owns_inside _ _ Ho)|]. intros x. unfold inside, HDR. simpl. lia.
Qed.

(** All regions that are held are disjoint. *)
Lemma st_owns_separate st O : st_owns st O -> all_separate (map snd O) /\ Forall region_ok (map snd O).
Proof.
  intros [[Hr Hh] (p8 & _ & Hp) (p9 & _ & Hq) _ (Ha1 & Ha2 & Ha3) _ _]. rewrite !held_perm.
  pose proof (heap_owns_inside' _ _ Hh) as Ih. rewrite Hr in Ih.
  pose proof (pool_owns_inside _ _ _ Hp) as Ip. pose proof (pool_owns_inside _ _ _ Hq) as Iq.
  destruct (owns_ok _ _ Hh) as [Oh Sh]. destruct (pool_owns_ok _ _ _ Hp) as [Op Sp].
  destruct (pool_owns_ok _ _ _ Hq) as [Oq Sq].
  assert (Hcross : forall A B a b, Forall (fun x => inside x a) A -> Forall (fun x => inside x b) B ->
            separate a b -> Forall (fun x => Forall (separate x) B) A).
  { intros A B a b HA HB Hab. eapply Forall_impl; [exact HA|]. intros x Hx. eapply Forall_impl; [exact HB|].
    intros y Hy. by apply (inside_separate x y a b). }
  split; [|by rewrite !Forall_app].
  rewrite !all_separate_app. split; [done|]. split; [split; [done|]; split; [done|eauto]|].
  pose proof (Hcross _ _ _ _ Ih Ip Ha1) as H1. pose proof (Hcross _ _ _ _ Ih Iq Ha2) as H2.
  rewrite Forall_forall in *. intros x Hx. apply Forall_app. split; [by apply H1|by apply H2].
Qed.

#[export] Instance st_owns_proper st : Proper ((≡ₚ) ==> iff) (st_owns st).
Proof.
  assert (H : forall O O', O ≡ₚ O' -> st_owns st O -> st_owns st O').
  { intros O O' HP [[H1 H1'] (p & H2 & H2') (q & H3 & H3') H4 H5 H6 H7]. constructor; auto.
    - split; [done|]. by rewrite <- HP.
    - exists p. split; [done|]. rewrite (pool_owns_proper dp p _ (held KPbuf O)); [done|by rewrite HP].
    - exists q. split; [done|]. rewrite (pool_owns_proper dq q _ (held KPool O)); [done|by rewrite HP].
    - by rewrite <- HP. }
  intros O O' HP. split; apply H; [done|by symmetry].
Qed.

(** The address of a held region is not that of another one. *)
Lemma st_owns_fresh st k p n O :
  st_owns st ((k, (p, n)) :: O) -> forall x, x ∈ O -> x.2.1 <> p.
Proof.
  intros Ho x Hx E. destruct (st_owns_separate _ _ Ho) as [[Hs _] _]. pose proof (so_pos _ _ Ho) as Hpos.
  inversion Hpos as [|? ? Hn HO]; subst. rewrite Forall_forall in Hs. rewrite Forall_forall in HO. specialize (HO x Hx). simpl in Hn.
  specialize (Hs x.2 ltac:(by apply list_elem_of_fmap_2)). unfold separate in Hs. simpl in Hs. lia.
Qed.

Lemma st_owns_nonnull st k p n O : st_owns st ((k, (p, n)) :: O) -> p <> NULL /\ p mod 4 = 0 /\ p + n < 4294967296.
Proof.
  intros Ho. destruct (st_owns_separate _ _ Ho) as [_ Hok]. inversion Hok as [|? ? (H1 & H2 & H3 & H4) _]; subst.
  unfold NULL. simpl in *. lia.
Qed.

(** Ownership does not depend on the structs, the custom flags of the pool apart. *)
Lemma st_owns_ext st st' O :
  ps_heap st' = ps_heap st -> ps_pools st' = ps_pools st ->
  (forall x, x ∈ elements dq -> Z.land (pb_flags (pb st' x)) PBUF_FLAG_IS_CUSTOM = 0) ->
  st_owns st O -> st_owns st' O.
Proof. intros E1 E2 E3 [? ? ? ? ? ? ?]. constructor; rewrite ?E1, ?E2; auto. Qed.

(** ** One allocation, one release *)

Lemma ram_mem_malloc h n h' p : mem_malloc h n = Some (h', p) -> ram h' = ram h.
Proof.
  unfold mem_malloc. destruct (n =? 0); [by intros [= <- _]|]. cbv zeta.
  destruct (MEM_SIZE_ALIGNED <? _); [by intros [= <- _]|].
  destruct (mem_search h _) as [[ptr|]|]; [|by intros [= <- _]|done].
  assert (Ht : forall s, ram (mem_take h ptr s) = ram h).
  { intros s. unfold mem_take. cbv zeta. destruct (_ <=? _); [|done]. by destruct (negb _). }
  destruct (ptr =? _); [destruct (mem_next_free _) as [c|]; [|done]|]; intros [= <- _]; simpl; by rewrite ?Ht.
Qed.

Lemma ram_mem_free h p : ram (mem_free h p) = ram h.
Proof.
  unfold mem_free. destruct (p =? NULL); [done|]. destruct (_ || _); [done|]. cbv zeta.
  rewrite plug_holes_eq. unfold plug_bwd, plug_fwd, merge. cbv zeta.
  repeat (match goal with |- context [if ?b then _ else _] => destruct b end); done.
Qed.

Lemma heap_take st O n :
  st_owns st O -> 0 < n < 65533 ->
  exists h p, mem_malloc (ps_heap st) n = Some (h, p) /\
    ((p = NULL /\ st_owns (set_heap st h) O) \/
     (p <> NULL /\ st_owns (set_heap st h) ((KHeap, (p, n)) :: O))).
Proof.
  intros [[Hr Hh] H2 H3 H4 H5 H6 H7] Hn.
  destruct (malloc_owns (Allocator := heap_allocator) _ _ n Hh Hn) as (h & p & Hm & Hp). exists h, p. split; [done|].
  pose proof (ram_mem_malloc _ _ _ _ Hm) as Hram.
  destruct Hp as [[-> Hp] | [Hne Hp]]; [left|right]; (split; [done|]); constructor; simpl; auto; try (by rewrite Hram).
  constructor; [simpl; lia|done].
Qed.

Lemma heap_release st O p n :
  st_owns st ((KHeap, (p, n)) :: O) -> st_owns (set_heap st (mem_free (ps_heap st) p)) O.
Proof.
  intros [[Hr Hh] H2 H3 H4 H5 H6 H7]. constructor; simpl; auto.
  - rewrite ram_mem_free. split; [done|]. by apply (free_owns _ _ p n).
  - by inversion H6.
Qed.

(** The pool and the descriptor behind a kind of pbuf. *)
Definition pool_index (k : kind) : Z := match k with KPool => MEMP_PBUF_POOL | _ => MEMP_PBUF end.
Definition pool_desc (k : kind) : memp_desc := match k with KPool => dq | _ => dp end.

Lemma so_at st O k :
  st_owns st O -> k <> KHeap ->
  exists p, ps_pools st !! Z.to_nat (pool_index k) = Some p /\ pool_owns (pool_desc k) p (held k O).
Proof. intros [_ H1 H2 _ _ _ _] Hk. by destruct k. Qed.

(** Replacing the pool of one kind. *)
Lemma so_replace st O O' k p' :
  k <> KHeap -> st_owns st O -> pool_owns (pool_desc k) p' (held k O') ->
  (forall k', k' <> k -> held k' O' ≡ₚ held k' O) -> Forall (fun x => 0 < x.2.2) O' ->
  st_owns (set_pools st (<[Z.to_nat (pool_index k) := p']> (ps_pools st))) O'.
Proof.
  intros Hk [[Hr Hh] (p8 & Hp8 & Hp) (p9 & Hp9 & Hq) Hs Ha Hpos Hfl] Hp' Hheld Hpos'.
  pose proof (lookup_lt_Some _ _ _ Hp8) as Hl8. pose proof (lookup_lt_Some _ _ _ Hp9) as Hl9.
  constructor; simpl; auto.
  - split; [done|]. rewrite (heap_owns_proper _ _ (held KHeap O)); [done|]. apply Hheld. by intros <-.
  - destruct (decide (k = KPbuf)) as [->|Hne].
    + exists p'. split; [|done]. by apply list_lookup_insert_eq.
    + destruct k; try done. exists p8. split; [by rewrite list_lookup_insert_ne|].
      rewrite (pool_owns_proper dp p8 _ (held KPbuf O)); [done|]. by apply Hheld.
  - destruct (decide (k = KPool)) as [->|Hne].
    + exists p'. split; [|done]. by apply list_lookup_insert_eq.
    + destruct k; try done. exists p9. split; [by rewrite list_lookup_insert_ne|].
      rewrite (pool_owns_proper dq p9 _ (held KPool O)); [done|]. by apply Hheld.
Qed.

Lemma pool_take st O k n :
  k <> KHeap -> st_owns st O -> 0 < n <= d_size (pool_desc k) ->
  exists ps p, memp_malloc (ps_pools st) (pool_index k) = (ps, p) /\
    ((p = NULL /\ st_owns (set_pools st ps) O) \/
     (p <> NULL /\ st_owns (set_pools st ps) ((k, (p, n)) :: O) /\ p ∈ elements (pool_desc k))).
Proof.
  intros Hk Ho Hn. destruct (so_at st O k Ho Hk) as (p0 & Hp0 & Hown).
  rewrite (memp_malloc_at _ _ p0) by (destruct k; done).
  destruct (malloc_owns (Allocator := pool_allocator (pool_desc k)) _ _ n Hown Hn) as (p1 & a & Hm & Ha).
  injection Hm as Hm. rewrite Hm. simpl. eexists _, a. split; [done|].
  destruct Ha as [[-> Ha] | [Hne Ha]]; [left|right]; (split; [done|]).
  - apply (so_replace st O O k); auto. by destruct Ho.
  - split.
    + apply (so_replace st O _ k); auto.
      * by rewrite held_cons, decide_True.
      * intros k' Hk'. rewrite held_cons, decide_False by done. done.
      * constructor; [simpl; lia|by destruct Ho].
    + destruct Ha as [[fr [_ _ He _ _]] _]. rewrite <- He. apply elem_of_app. right. left.
Qed.

Lemma pool_release st O k p n :
  k <> KHeap -> st_owns st ((k, (p, n)) :: O) ->
  st_owns (set_pools st (memp_free (ps_pools st) (pool_index k) p)) O.
Proof.
  intros Hk Ho. destruct (so_at _ _ k Ho Hk) as (p0 & Hp0 & Hown).
  destruct (st_owns_nonnull _ _ _ _ _ Ho) as [Hp _].
  rewrite (memp_free_at _ _ p0) by (done || by destruct k).
  rewrite held_cons, decide_True in Hown by done.
  apply (so_replace st ((k, (p, n)) :: O) O k); auto.
  - by apply (free_owns (Allocator := pool_allocator (pool_desc k)) _ _ p n).
  - intros k' Hk'. by rewrite held_cons, decide_False.
  - destruct Ho as [_ _ _ _ _ Hpos _]. by inversion Hpos.
Qed.

(** ** [pbuf_free] *)

Section Free.
Context (custom_free : pstate -> Z -> pstate).

(** A pbuf that is not custom and whose struct is the region [r]. *)
Definition held_as (st : pstate) (x : Z) (r : kind * region) : Prop :=
  r.1 = kind_of (pb_type (pb st x)) /\ r.2.1 = x /\
  Z.land (pb_flags (pb st x)) PBUF_FLAG_IS_CUSTOM = 0.

(** What freeing writes into the structs: only reference counts. *)
Definition only_refs (st st' : pstate) : Prop :=
  data st' = data st /\ forall y, exists v, pb st' y = with_ref (pb st y) v.

Lemma only_refs_trans st1 st2 st3 : only_refs st1 st2 -> only_refs st2 st3 -> only_refs st1 st3.
Proof.
  intros [E1 H1] [E2 H2]. split; [by rewrite E2|]. intros y. destruct (H1 y) as [v1 E], (H2 y) as [v2 ->].
  exists v2. by rewrite E.
Qed.

(** The release of one pbuf. *)
Definition release (st : pstate) (p : Z) : pstate :=
  match pb_type (pb st p) with
  | PBUF_POOL => set_pools st (memp_free (ps_pools st) MEMP_PBUF_POOL p)
  | PBUF_ROM | PBUF_REF => set_pools st (memp_free (ps_pools st) MEMP_PBUF p)
  | PBUF_RAM => set_heap st (mem_free (ps_heap st) p)
  end.

Lemma release_owns st O p r :
  st_owns st (r :: O) -> held_as st p r ->
  st_owns (release st p) O /\ forall y, pb (release st p) y = pb st y.
Proof.
  intros Ho (Hk & Ha & _). destruct r as [k [a n]]. simpl in *. subst a. unfold release.
  destruct (pb_type (pb st p)); simpl in Hk; subst k; (split; [|done]).
  - by apply (heap_release _ _ p n).
  - by apply (pool_release _ _ KPbuf p n).
  - by apply (pool_release _ _ KPbuf p n).
  - by apply (pool_release _ _ KPool p n).
Qed.

Lemma st_owns_ref st O p v : st_owns st O -> st_owns (upd_pb st p (fun x => with_ref x v)) O.
Proof.
  intros Ho. apply (st_owns_ext st); auto. intros x Hx. rewrite pb_upd_pb. pose proof (so_flags _ _ Ho x Hx).
  by destruct (Z.eqb_spec x p) as [->|].
Qed.

(** The loop: it frees the pbufs [l1], whose only reference it drops, and stops
    at the end or at the first pbuf of [l2], which has other references. *)
Lemma free_loop fuel st p l1 l2 R O c :
  pchain st p (l1 ++ l2) -> (length l1 + 1 < fuel)%nat -> 0 <= c < 256 ->
  Forall (fun x => pb_ref (pb st x) = 1) l1 -> Forall2 (held_as st) l1 R -> st_owns st (R ++ O) ->
  match l2 with [] => True | y :: _ => 1 < pb_ref (pb st y) < 65536 end ->
  exists st', loop fuel (fun '(st, p, count) =>
      if negb (p =? NULL) then
        let ref := u16 (pb_ref (pb st p) - 1) in
        let st := upd_pb st p (fun x => with_ref x ref) in
        if ref =? 0 then
          let q := pb_next (pb st p) in
          let type := pb_type (pb st p) in
          let st :=
            if negb (Z.land (pb_flags (pb st p)) PBUF_FLAG_IS_CUSTOM =? 0) then custom_free st p
            else match type with
                 | PBUF_POOL => set_pools st (memp_free (ps_pools st) MEMP_PBUF_POOL p)
                 | PBUF_ROM | PBUF_REF => set_pools st (memp_free (ps_pools st) MEMP_PBUF p)
                 | PBUF_RAM => set_heap st (mem_free (ps_heap st) p)
                 end in
          inl (st, q, u8 (count + 1))
        else inl (st, NULL, count)
      else inr (st, count)) (st, p, c) = Some (st', u8 (c + Z.of_nat (length l1))) /\
    st_owns st' O /\ only_refs st st' /\
    (forall y, y ∉ l1 -> pb_ref (pb st' y) = pb_ref (pb st y) - (if decide (head l2 = Some y) then 1 else 0)).
Proof.
  revert st p R c fuel. induction l1 as [|x l1 IH]; intros st p R c fuel Hc Hf Hcc Hr HR Ho H2;
    (destruct fuel as [|fuel]; [simpl in Hf; lia|]); cbn [loop].
  - inversion HR; subst. simpl in Ho.
    replace (u8 (c + Z.of_nat (length []))) with c by (cbn [length]; rewrite Z.add_0_r, u8_small; lia).
    destruct l2 as [|y l2].
    + simpl in Hc. subst p. simpl. exists st. split; [done|]. split; [done|].
      split; [split; [done|]; intros y; exists (pb_ref (pb st y)); by destruct (pb st y)|]. intros y _.
      lia.
    + simpl in Hc. destruct Hc as (-> & Hy & _). rewrite (proj2 (Z.eqb_neq _ _) Hy). cbn [negb].
      rewrite u16_small by lia. rewrite (proj2 (Z.eqb_neq (pb_ref (pb st y) - 1) 0)) by lia.
      destruct fuel as [|fuel]; [simpl in Hf; lia|]. cbn [loop]. rewrite Z.eqb_refl. cbn [negb].
      eexists. split; [done|]. split; [by apply st_owns_ref|]. split.
      * split; [done|]. intros z. rewrite pb_upd_pb. destruct (Z.eqb_spec z y) as [->|]; [eauto|].
        exists (pb_ref (pb st z)). by destruct (pb st z).
      * intros z _. rewrite pb_upd_pb. simpl. destruct (Z.eqb_spec z y) as [->|Hz].
        -- by rewrite decide_True.
        -- rewrite decide_False by congruence. lia.
  - simpl in Hc. destruct Hc as (-> & Hx & Hc). inversion Hr as [|? ? Hrx Hr']; subst.
    inversion HR as [|? r ? R' Hh HR']; subst. rewrite (proj2 (Z.eqb_neq _ _) Hx). cbn [negb].
    rewrite Hrx. change (u16 (1 - 1)) with 0. cbn [Z.eqb].
    set (st1 := upd_pb st x (fun y => with_ref y 0)). pose proof Hh as (_ & _ & Hfl).
    assert (Hx1 : pb st1 x = with_ref (pb st x) 0) by apply pb_upd_eq.
    assert (Ho1 : st_owns st1 (r :: (R' ++ O))) by by apply st_owns_ref.
    assert (Hh1 : held_as st1 x r) by (unfold held_as; by rewrite Hx1).
    destruct (release_owns st1 (R' ++ O) x r Ho1 Hh1) as [Ho2 Hpb2].
    assert (Hne : x ∉ l1 ++ l2).
    { assert (Hnd : NoDup (x :: l1 ++ l2)) by (apply (pchain_nodup st x); by split). by apply NoDup_cons in Hnd as [? _]. }
    assert (Hsame : forall y, y ∈ l1 ++ l2 -> pb (release st1 x) y = pb st y).
    { intros y Hy. rewrite Hpb2. apply pb_upd_ne. by intros ->. }
    rewrite !Hx1. cbn [pb_flags pb_next pb_type with_ref]. rewrite Hfl. cbn [Z.eqb negb].
    destruct (IH (release st1 x) (pb_next (pb st x)) R' (u8 (c + 1)) fuel) as (st' & Hl & Ho' & Hor & Hrf).
    { apply (pchain_ext st); [|done]. intros y Hy. by rewrite Hsame. }
    { simpl in Hf. lia. } { apply u8_range. }
    { rewrite Forall_forall in *. intros y Hy. rewrite Hsame by (apply elem_of_app; by left). by apply Hr'. }
    { eapply Forall2_impl_l; [|exact HR']. intros y r0 Hy. unfold held_as.
      rewrite Hsame by (apply elem_of_app; by left). done. }
    { done. }
    { destruct l2 as [|y l2]; [done|]. rewrite Hsame; [done|]. apply elem_of_app. right. left. }
    exists st'. split; [|split; [done|split]].
    + unfold release in Hl. rewrite Hx1 in Hl. cbn [pb_type with_ref] in Hl.
      destruct (pb_type (pb st x)); rewrite Hl; f_equal; f_equal; unfold u8; rewrite Zplus_mod_idemp_l; f_equal; simpl length; lia.
    + eapply only_refs_trans; [|exact Hor]. split; [unfold release; by destruct (pb_type _)|]. intros y. rewrite Hpb2.
      unfold st1. rewrite pb_upd_pb. destruct (Z.eqb_spec y x) as [->|]; [eauto|].
      exists (pb_ref (pb st y)). by destruct (pb st y).
    + intros y Hy. rewrite Hrf by (intros H; apply Hy; by right). rewrite Hpb2. unfold st1. rewrite pb_upd_ne; [done|].
      intros ->. apply Hy. left.
Qed.

Lemma free_correct fuel st p l1 l2 R O :
  pchain st p (l1 ++ l2) -> (length l1 + 1 < fuel)%nat ->
  Forall (fun x => pb_ref (pb st x) = 1) l1 -> Forall2 (held_as st) l1 R -> st_owns st (R ++ O) ->
  match l2 with [] => True | y :: _ => 1 < pb_ref (pb st y) < 65536 end ->
  exists st', pbuf_free custom_free fuel st p = Some (st', u8 (Z.of_nat (length l1))) /\
    st_owns st' O /\ only_refs st st' /\
    (forall y, y ∉ l1 -> pb_ref (pb st' y) = pb_ref (pb st y) - (if decide (head l2 = Some y) then 1 else 0)).
Proof.
  intros Hc Hf Hr HR Ho H2. unfold pbuf_free. destruct (Z.eqb_spec p NULL) as [->|Hp].
  - destruct l1 as [|x l1]; [|by destruct Hc as (? & ? & _)]. destruct l2 as [|y l2]; [|by destruct Hc as (? & ? & _)].
    inversion HR; subst. exists st. split; [done|]. split; [done|].
    split; [split; [done|]; intros y; exists (pb_ref (pb st y)); by destruct (pb st y)|]. intros y _.
    simpl. lia.
  - destruct (free_loop fuel st p l1 l2 R O 0 Hc Hf ltac:(lia) Hr HR Ho H2) as (st' & Hl & H). exists st'. by split.
Qed.

(** ** [pbuf_alloc] *)

Lemma PBUF_POOL_BUFSIZE_ALIGNED_eq : PBUF_POOL_BUFSIZE_ALIGNED = 1516.
Proof. reflexivity. Qed.

(** The region of a pool buffer. *)
Definition pool_rgn (x : Z) : kind * region := (KPool, (x, 1536)).

(** A pool buffer in the middle of a chain that was just allocated. *)
Definition fresh_pool (st : pstate) (x : Z) : Prop :=
  pb_type (pb st x) = PBUF_POOL /\ pb_flags (pb st x) = 0 /\ pb_ref (pb st x) = 1 /\
  pb_payload (pb st x) = x + 20 /\ 0 <= pb_len (pb st x) <= 1516.

Lemma pool_rest_correct fuel st r rem O :
  st_owns st O -> pool_rgn r ∈ O -> pb_next (pb st r) = NULL -> 0 <= rem < 65536 -> (Z.to_nat rem < fuel)%nat ->
  exists st' b l, pool_rest fuel st r rem = Some (st', b) /\
    st_owns st' (map pool_rgn l ++ O) /\ data st' = data st /\
    pchain st' (pb_next (pb st' r)) l /\ Forall (fresh_pool st') l /\
    (forall y, y ∉ l -> y <> r -> pb st' y = pb st y) /\
    pb st' r = with_next (pb st r) (pb_next (pb st' r)) /\
    (b = true -> sizes st' l /\ plen st' l = rem) /\ (length l <= Z.to_nat rem)%nat.
Proof.
  unfold pool_rest. revert st r rem O. induction fuel as [|fuel IH]; intros st r rem O Ho Hin Hnx Hrem Hf; [lia|].
  cbn [loop]. destruct (Z.ltb_spec 0 rem) as [Hpos|Hz].
  2:{ exists st, true, []. split; [done|]. split; [done|]. split; [done|]. split; [done|]. split; [constructor|].
      split; [done|]. split; [by destruct (pb st r)|]. split; [|simpl; lia]. intros _. simpl. split; [done|lia]. }
  destruct (so_sizes _ _ Ho) as [_ Hdq]. rewrite SIZEOF_STRUCT_PBUF_eq, PBUF_POOL_BUFSIZE_ALIGNED_eq in Hdq.
  destruct (pool_take st O KPool 1536 ltac:(done) Ho ltac:(simpl; lia)) as (ps & q & Hm & Hq).
  change (pool_index KPool) with MEMP_PBUF_POOL in Hm. rewrite Hm. destruct Hq as [[-> Hq] | (Hne & Hq & Hqe)].
  { exists (pbuf_pool_is_empty (set_pools st ps)), false, []. rewrite Z.eqb_refl. split; [done|].
    split; [by apply (st_owns_ext (set_pools st ps)); [| |apply (so_flags _ _ Hq)|]|]. split; [done|].
    split; [done|]. split; [constructor|]. split; [done|].
    split; [change (pb st r = with_next (pb st r) (pb_next (pb st r))); by destruct (pb st r)|].
    split; [done|simpl; lia]. }
  rewrite (proj2 (Z.eqb_neq _ _) Hne). rewrite PBUF_POOL_BUFSIZE_ALIGNED_eq, SIZEOF_STRUCT_PBUF_eq, !(u16_small rem) by lia.
  set (len := Z.min rem 1516). rewrite s32_small by lia.
  assert (Hqr : r <> q) by (apply (st_owns_fresh _ _ _ _ _ Hq (pool_rgn r) Hin)).
  set (st1 := upd_pb (upd_pb (upd_pb (set_pools st ps) q _) r _) q _).
  assert (HF : forall y, pb st1 y = if y =? q then mk_pbuf NULL (q + 20) rem len PBUF_POOL 0 1
                                     else if y =? r then with_next (pb st r) q else pb st y).
  { intros y. unfold st1. rewrite pb_upd_pb, (pb_upd_ne _ _ _ q) by congruence. rewrite pb_upd_eq.
    destruct (Z.eqb_spec y q) as [->|Hy]; [done|]. rewrite pb_upd_pb. destruct (Z.eqb_spec y r) as [->|Hyr].
    - rewrite pb_upd_ne by done. done.
    - by rewrite pb_upd_ne. }
  destruct (IH st1 q (rem - len) (pool_rgn q :: O)) as (st' & b & l & Hl & Ho' & Hd & Hc & Hfr & Hout & Hq' & Hb & Hlen).
  - apply (st_owns_ext (set_pools st ps)); [done|done| |exact Hq]. intros y Hy. rewrite HF.
    destruct (y =? q); [done|]. pose proof (so_flags _ _ Hq y Hy). by destruct (Z.eqb_spec y r) as [->|].
  - left.
  - by rewrite HF, Z.eqb_refl.
  - lia.
  - lia.
  - assert (Hrn : r ∉ q :: l).
    { intros H. apply elem_of_cons in H as [?|H]; [done|]. clear -Ho' H Hin.
      apply list_elem_of_split in H as (l1 & l2 & ->).
      assert (HP : map pool_rgn (l1 ++ r :: l2) ++ pool_rgn q :: O ≡ₚ
                   pool_rgn r :: (map pool_rgn l1 ++ map pool_rgn l2) ++ pool_rgn q :: O).
      { rewrite map_app, <- !app_assoc. simpl. by rewrite <- Permutation_middle. }
      rewrite HP in Ho'. apply (st_owns_fresh _ _ _ _ _ Ho' (pool_rgn r)); [|done].
      apply elem_of_app. right. by right. }
    assert (Hr' : pb st' r = with_next (pb st r) q).
    { assert (r ∉ l) by (intros H; apply Hrn; by right). rewrite Hout, HF by done.
      rewrite (proj2 (Z.eqb_neq r q)), Z.eqb_refl by done. done. }
    rewrite HF, Z.eqb_refl in Hq'. exists st', b, (q :: l). split; [exact Hl|].
    split. { simpl. by rewrite Permutation_middle. }
    split; [by rewrite Hd|]. rewrite Hr'. cbn [pb_next with_next]. split; [by split|].
    split. { constructor; [|done]. unfold fresh_pool. rewrite Hq'. simpl. repeat split; lia. }
    split. { intros y Hy Hyr. apply not_elem_of_cons in Hy as [Hyq Hyl]. rewrite Hout, HF by done.
             by rewrite !(proj2 (Z.eqb_neq _ _)). }
    split; [done|]. split; [|simpl; lia].
    intros Hbt. destruct (Hb Hbt) as [Hs Hpl]. cbn [sizes plen]. rewrite Hq'. simpl. repeat split; auto; lia.
Qed.

(** A chain that [pbuf_alloc] returned: its pbufs [l] hold the regions [R]. *)
Record allocated (st st' : pstate) (O : holding) (p : Z) (l : list Z) (R : holding)
    (offset length : Z) (type : pbuf_type) : Prop := {
  al_chain : pchain st' p l;
  al_nonempty : l <> [];
  al_sizes : sizes st' l /\ plen st' l = length;
  al_held : Forall2 (held_as st') l R;
  al_owns : st_owns st' (R ++ O);
  al_fields : Forall (fun x => pb_type (pb st' x) = type /\ pb_flags (pb st' x) = 0 /\ pb_ref (pb st' x) = 1) l;
  al_data : data st' = data st;
  al_others : forall y, y ∉ l -> pb st' y = pb st y;
  al_room : type = PBUF_RAM \/ type = PBUF_POOL ->
    Forall2 (fun x r => x + 20 <= pb_payload (pb st' x) /\ pb_payload (pb st' x) + pb_len (pb st' x) <= x + r.2.2) l R
    /\ pb_payload (pb st' p) = p + 20 + offset;
  al_ref : type = PBUF_ROM \/ type = PBUF_REF -> pb_payload (pb st' p) = NULL;
  al_single : type <> PBUF_POOL -> l = [p];
  al_count : (Datatypes.length l <= S (Z.to_nat length))%nat
}.

(** The outcome of a failed allocation: nothing is held that was not before, and
    no struct that is held has changed. *)
Definition unchanged (st st' : pstate) (O : holding) : Prop :=
  st_owns st' O /\ data st' = data st /\ forall k y n, (k, (y, n)) ∈ O -> pb st' y = pb st y.

Lemma offset_facts layer :
  0 <= pbuf_offset layer <= 56 /\ pbuf_offset layer mod 4 = 0 /\
  LWIP_MEM_ALIGN_SIZE (pbuf_offset layer) = pbuf_offset layer.
Proof. destruct layer; repeat split; vm_compute; congruence. Qed.

Lemma align_payload p o : 0 <= p -> p + 20 + o < 4294967296 -> p mod 4 = 0 -> 0 <= o -> o mod 4 = 0 ->
  LWIP_MEM_ALIGN (p + 20 + o) = p + 20 + o.
Proof. intros. rewrite LWIP_MEM_ALIGN_eq by dm. dm. Qed.

(** The single pbuf that the RAM, ROM and REF cases return. *)
Lemma alloc_single st st0 O k p n x type offset length :
  st_owns st0 ((k, (p, n)) :: O) -> data st0 = data st -> (forall y, pb st0 y = pb st y) ->
  kind_of type = k -> k <> KPool -> 0 <= length < 65536 ->
  x = mk_pbuf NULL (pb_payload x) length length type 0 1 ->
  (type = PBUF_RAM \/ type = PBUF_POOL ->
     p + 20 <= pb_payload x /\ pb_payload x + length <= p + n /\ pb_payload x = p + 20 + offset) ->
  (type = PBUF_ROM \/ type = PBUF_REF -> pb_payload x = NULL) ->
  allocated st (set_pb st0 p x) O p [p] [(k, (p, n))] offset length type.
Proof.
  intros Ho Hd Hpb Hk Hkp Hlen Hx Hram Hrom. destruct (st_owns_nonnull _ _ _ _ _ Ho) as (Hp & _).
  assert (HF : pb (set_pb st0 p x) p = x) by by rewrite pb_set_pb, Z.eqb_refl. rewrite Hx in HF at 2.
  constructor; auto.
  - simpl. by rewrite HF.
  - simpl. rewrite HF. simpl. repeat split; lia.
  - constructor; [|constructor]. unfold held_as. rewrite HF. simpl. by subst k.
  - apply (st_owns_ext st0); auto. intros y Hy. rewrite pb_set_pb.
    destruct (Z.eqb_spec y p) as [->|]; [by rewrite Hx|]. by apply (so_flags _ _ Ho).
  - constructor; [|constructor]. by rewrite HF.
  - intros y Hy. rewrite pb_set_pb, (proj2 (Z.eqb_neq _ _)); [auto|]. intros ->. apply Hy. left.
  - intros Ht. rewrite HF. simpl. destruct (Hram Ht) as (H1 & H2 & H3). split; [|done].
    constructor; [|constructor]. rewrite HF. simpl. lia.
  - intros Ht. rewrite HF. simpl. auto.
  - simpl. lia.
Qed.

(** A single pbuf with all fields set, whatever the struct held before. *)
Lemma upd_upd st p f g : upd_pb (upd_pb st p f) p g = set_pb st p (g (f (pb st p))).
Proof. unfold upd_pb at 1. rewrite pb_upd_eq. unfold upd_pb, set_pb. simpl. by rewrite insert_insert_eq. Qed.

Lemma alloc_ram fuel st O layer length :
  st_owns st O -> 0 <= length < 65536 ->
  exists st' p, pbuf_alloc custom_free fuel st layer length PBUF_RAM = Some (st', p) /\
    ((p = NULL /\ unchanged st st' O) \/
     (p <> NULL /\ exists l R, allocated st st' O p l R (pbuf_offset layer) length PBUF_RAM)).
Proof.
  intros Ho Hl. destruct (offset_facts layer) as (Hoff & Hoff4 & _). unfold pbuf_alloc.
  rewrite SIZEOF_STRUCT_PBUF_eq. set (off := pbuf_offset layer) in *. cbv zeta.
  rewrite !LWIP_MEM_ALIGN_SIZE_eq by lia. replace ((20 + off + 3) mod 4) with 3 by dm.
  set (al := length + 3 - (length + 3) mod 4). assert (Hal : length <= al < length + 4 /\ al mod 4 = 0) by (unfold al; dm).
  replace (20 + off + 3 - 3 + al) with (20 + off + al) by lia.
  assert (Hmod : (20 + off + al) mod 4 = 0) by dm.
  destruct (Z.ltb_spec (u16 (20 + off + al)) al) as [Hov|Hok].
  { exists st, NULL. split; [done|]. by left. }
  assert (Hsmall : 20 + off + al < 65536).
  { destruct (Z.lt_ge_cases (20 + off + al) 65536); [done|]. exfalso. revert Hok. rewrite u16_cases by lia. zbs. }
  rewrite u16_small by lia.
  destruct (heap_take st O (20 + off + al) Ho) as (h & p & -> & Hp); [dm|].
  destruct Hp as [[-> Hp] | [Hne Hp]].
  { rewrite Z.eqb_refl. exists (set_heap st h), NULL. split; [done|]. left. by split. }
  rewrite (proj2 (Z.eqb_neq _ _) Hne). eexists _, p. split; [done|]. right. split; [done|].
  exists [p], [(KHeap, (p, 20 + off + al))]. rewrite upd_upd.
  destruct (st_owns_nonnull _ _ _ _ _ Hp) as (_ & Hp4 & Hpm).
  destruct (st_owns_separate _ _ Hp) as [_ Hreg]. inversion Hreg as [|? ? (Hp0 & _) _]; subst. simpl in Hp0.
  apply (alloc_single st (set_heap st h)); auto; try done.
  - intros _. simpl. rewrite align_payload by lia. lia.
  - by intros [?|?].
Qed.

Lemma alloc_rom fuel st O layer length type :
  type = PBUF_ROM \/ type = PBUF_REF -> st_owns st O -> 0 <= length < 65536 ->
  exists st' p, pbuf_alloc custom_free fuel st layer length type = Some (st', p) /\
    ((p = NULL /\ unchanged st st' O) \/
     (p <> NULL /\ exists l R, allocated st st' O p l R (pbuf_offset layer) length type)).
Proof.
  intros Ht Ho Hl. destruct (so_sizes _ _ Ho) as [Hdp _]. rewrite SIZEOF_STRUCT_PBUF_eq in Hdp.
  destruct (pool_take st O KPbuf 20 ltac:(done) Ho ltac:(simpl; lia)) as (ps & q & Hm & Hq).
  change (pool_index KPbuf) with MEMP_PBUF in Hm. unfold pbuf_alloc.
  assert (Hk : kind_of type = KPbuf) by (by destruct Ht as [-> | ->]).
  destruct Hq as [[-> Hq] | (Hne & Hq & _)].
  - exists (set_pools st ps), NULL. split; [destruct Ht as [-> | ->]; by rewrite Hm|]. left. by split.
  - destruct Ht as [-> | ->]; rewrite Hm; rewrite (proj2 (Z.eqb_neq _ _) Hne); (eexists _, q; split; [done|]; right; split; [done|]);
      exists [q], [(KPbuf, (q, 20))]; rewrite upd_upd; apply (alloc_single st (set_pools st ps)); auto; try done;
      by intros [?|?].
Qed.

Lemma fresh_pool_held st l : Forall (fresh_pool st) l -> Forall2 (held_as st) l (map pool_rgn l).
Proof.
  induction 1 as [|x l (Ht & Hf & _) _ IH]; simpl; constructor; [|done].
  unfold held_as. rewrite Ht, Hf. done.
Qed.

Lemma fresh_pool_ext st st' l :
  (forall x, x ∈ l -> pb st' x = pb st x) -> Forall (fresh_pool st) l -> Forall (fresh_pool st') l.
Proof.
  rewrite !Forall_forall. intros E H x Hx. unfold fresh_pool. rewrite E by done. by apply H.
Qed.

(** The first buffer of a pool chain, before its flags are set. *)
Lemma pool_first st O p ps layer length st1 :
  st_owns (set_pools st ps) (pool_rgn p :: O) -> p ∈ elements dq -> 0 <= length < 65536 ->
  let off := pbuf_offset layer in
  let len := Z.min length (1516 - off) in
  st1 = upd_pb (upd_pb (set_pools st ps) p (fun x => with_next (with_type x PBUF_POOL) NULL)) p (fun x =>
          with_ref (with_len (with_tot_len (with_payload x (LWIP_MEM_ALIGN (p + (20 + off)))) length) len) 1) ->
  st_owns st1 (pool_rgn p :: O) /\ data st1 = data st /\ (forall y, y <> p -> pb st1 y = pb st y) /\
  exists fl, Z.land fl PBUF_FLAG_IS_CUSTOM = 0 /\
    pb st1 p = mk_pbuf NULL (p + 20 + off) length len PBUF_POOL fl 1.
Proof.
  intros Ho Hp Hl off len ->. destruct (offset_facts layer) as (Hoff & Hoff4 & _). fold off in Hoff, Hoff4.
  destruct (st_owns_nonnull _ _ _ _ _ Ho) as (Hne & Hp4 & Hpm).
  destruct (st_owns_separate _ _ Ho) as [_ Hreg]. inversion Hreg as [|? ? (Hp0 & _) _]; subst. simpl in Hp0.
  rewrite upd_upd. replace (p + (20 + off)) with (p + 20 + off) by lia. rewrite align_payload by lia.
  assert (HF : pb (set_pb (set_pools st ps) p (with_ref (with_len (with_tot_len (with_payload
    (with_next (with_type (pb (set_pools st ps) p) PBUF_POOL) NULL) (p + 20 + off)) length) len) 1)) p
    = mk_pbuf NULL (p + 20 + off) length len PBUF_POOL (pb_flags (pb st p)) 1).
  { by rewrite pb_set_pb, Z.eqb_refl. }
  pose proof (so_flags _ _ Ho p Hp) as Hfl. change (pb (set_pools st ps) p) with (pb st p) in Hfl.
  split; [|split; [done|split]].
  - apply (st_owns_ext (set_pools st ps)); auto. intros y Hy. destruct (Z.eq_dec y p) as [->|Hyp].
    + by rewrite HF.
    + rewrite pb_set_pb, (proj2 (Z.eqb_neq _ _) Hyp). by apply (so_flags _ _ Ho).
  - intros y Hy. by rewrite pb_set_pb, (proj2 (Z.eqb_neq _ _) Hy).
  - exists (pb_flags (pb st p)). split; [done|]. exact HF.
Qed.

Lemma alloc_pool fuel st O layer length :
  st_owns st O -> 0 <= length < 65536 -> (Z.to_nat length + 3 < fuel)%nat ->
  exists st' p, pbuf_alloc custom_free fuel st layer length PBUF_POOL = Some (st', p) /\
    ((p = NULL /\ unchanged st st' O) \/
     (p <> NULL /\ exists l R, allocated st st' O p l R (pbuf_offset layer) length PBUF_POOL)).
Proof.
  intros Ho Hl Hf. destruct (so_sizes _ _ Ho) as [_ Hdq].
  rewrite SIZEOF_STRUCT_PBUF_eq, PBUF_POOL_BUFSIZE_ALIGNED_eq in Hdq.
  destruct (pool_take st O KPool 1536 ltac:(done) Ho ltac:(simpl; lia)) as (ps & p & Hm & Hp).
  change (pool_index KPool) with MEMP_PBUF_POOL in Hm. unfold pbuf_alloc. rewrite Hm.
  destruct (offset_facts layer) as (Hoff & Hoff4 & Hoffa).
  destruct Hp as [[-> Hp] | (Hne & Hp & Hpe)].
  { rewrite Z.eqb_refl. exists (pbuf_pool_is_empty (set_pools st ps)), NULL. split; [done|]. left.
    split; [done|]. split; [|by split]. apply (st_owns_ext (set_pools st ps)); auto. apply (so_flags _ _ Hp). }
  rewrite (proj2 (Z.eqb_neq _ _) Hne), Hoffa, PBUF_POOL_BUFSIZE_ALIGNED_eq, SIZEOF_STRUCT_PBUF_eq.
  set (off := pbuf_offset layer) in *. set (len := Z.min length (1516 - off)). cbv zeta.
  set (st1 := upd_pb (upd_pb (set_pools st ps) p _) p _).
  destruct (pool_first st O p ps layer length st1 Hp Hpe Hl eq_refl) as (Ho1 & Hd1 & Hout1 & fl & Hfl & Hp1).
  fold off in Hp1. fold len in Hp1.
  destruct (pool_rest_correct fuel st1 p (length - len) (pool_rgn p :: O) Ho1 ltac:(left))
    as (st2 & b & l & -> & Ho2 & Hd2 & Hc2 & Hfr & Hout2 & Hp2 & Hb & Hlen); [by rewrite Hp1|lia|lia|].
  rewrite Hp1 in Hp2. cbn [with_next] in Hp2.
  assert (Hc : pchain st2 p (p :: l)) by by split.
  assert (Hpl : p ∉ l) by (apply pchain_nodup in Hc; by apply NoDup_cons in Hc as [? _]).
  assert (Ho2' : st_owns st2 (map pool_rgn (p :: l) ++ O)) by (simpl; by rewrite Permutation_middle).
  destruct b.
  - destruct (Hb eq_refl) as [Hs Hpn]. eexists _, p. split; [done|]. right. split; [done|].
    exists (p :: l), (map pool_rgn (p :: l)). set (st3 := upd_pb st2 p _).
    assert (Hp3 : pb st3 p = mk_pbuf (pb_next (pb st2 p)) (p + 20 + off) length len PBUF_POOL 0 1)
      by (unfold st3; rewrite pb_upd_eq, Hp2; done).
    assert (Hout3 : forall y, y <> p -> pb st3 y = pb st2 y) by (intros y Hy; by apply pb_upd_ne).
    assert (Hin3 : forall y, y ∈ l -> pb st3 y = pb st2 y) by (intros y Hy; apply Hout3; by intros ->).
    assert (Hfr3 : Forall (fresh_pool st3) l) by by apply (fresh_pool_ext st2).
    constructor; auto; try done.
    + split; [done|]. split; [done|]. rewrite Hp3. cbn [pb_next]. apply (pchain_ext st2); [|done].
      intros y Hy. by rewrite Hin3.
    + cbn [sizes plen]. rewrite Hp3. cbn [pb_len pb_tot_len].
      rewrite (plen_ext st2 st3), Hpn by (intros y Hy; by rewrite Hin3).
      repeat split; try lia. apply (sizes_ext st2); [|done]. intros y Hy. by rewrite Hin3.
    + constructor; [|by apply fresh_pool_held]. unfold held_as. by rewrite Hp3.
    + apply (st_owns_ext st2); auto. intros y Hy. destruct (Z.eq_dec y p) as [->|]; [by rewrite Hp3|].
      rewrite Hout3 by done. by apply (so_flags _ _ Ho2).
    + constructor; [by rewrite Hp3|]. eapply Forall_impl; [exact Hfr3|]. intros x (? & ? & ? & _). done.
    + intros y Hy. apply not_elem_of_cons in Hy as [Hyp Hyl]. rewrite Hout3, Hout2, Hout1; done.
    + intros _. rewrite Hp3. simpl. split; [|done]. constructor; [rewrite Hp3; simpl; lia|].
      clear -Hfr3. induction Hfr3 as [|x l (_ & _ & _ & H4 & H5) _ IH]; simpl; constructor; [simpl; lia|done].
    + by intros [?|?].
    + simpl. lia.
  - assert (Hheld : Forall2 (held_as st2) (p :: l) (map pool_rgn (p :: l))).
    { constructor; [|by apply fresh_pool_held]. unfold held_as. rewrite Hp2. done. }
    destruct (free_correct fuel st2 p (p :: l) [] (map pool_rgn (p :: l)) O) as (st3 & -> & Ho3 & [Hd3 Hr3] & Hrf);
      [by rewrite app_nil_r|simpl; lia| |done|done|done|].
    { constructor; [by rewrite Hp2|]. eapply Forall_impl; [exact Hfr|]. intros x (_ & _ & ? & _). done. }
    exists st3, NULL. split; [done|]. left. split; [done|]. split; [done|]. split; [by rewrite Hd3, Hd2|].
    intros k y n Hy.
    assert (Hyl : y ∉ p :: l).
    { intros Hin. apply list_elem_of_split in Hin as (l1 & l2 & E). rewrite E in Ho2'.
      assert (HP : map pool_rgn (l1 ++ y :: l2) ++ O ≡ₚ pool_rgn y :: (map pool_rgn l1 ++ map pool_rgn l2) ++ O).
      { rewrite map_app, <- !app_assoc. simpl. by rewrite <- Permutation_middle. }
      rewrite HP in Ho2'. apply (st_owns_fresh _ _ _ _ _ Ho2' (k, (y, n))); [|done]. apply elem_of_app. by right. }
    specialize (Hrf y Hyl). destruct (Hr3 y) as [v Hv]. rewrite Hv in Hrf |- *. simpl in Hrf.
    apply not_elem_of_cons in Hyl as [Hyp Hyl]. rewrite Hout2, Hout1 in * by done. rewrite Z.sub_0_r in Hrf.
    rewrite Hrf. by destruct (pb st y).
Qed.

Lemma alloc_correct fuel st O layer length type :
  st_owns st O -> 0 <= length < 65536 -> (Z.to_nat length + 3 < fuel)%nat ->
  exists st' p, pbuf_alloc custom_free fuel st layer length type = Some (st', p) /\
    ((p = NULL /\ unchanged st st' O) \/
     (p <> NULL /\ exists l R, allocated st st' O p l R (pbuf_offset layer) length type)).
Proof. intros. destruct type; [by apply alloc_ram|apply alloc_rom; auto|apply alloc_rom; auto|by apply alloc_pool]. Qed.

(** ** [pbuf_realloc] *)

Lemma ram_mem_trim h p k h' q : mem_trim h p k = (h', q) -> ram h' = ram h.
Proof.
  unfold mem_trim. cbv zeta. repeat (match goal with |- context [if ?b then _ else _] => destruct b end);
    by intros [= <- _].
Qed.

Lemma heap_shrink st O p n k :
  st_owns st ((KHeap, (p, n)) :: O) -> 0 < k < 65533 -> k <= n ->
  exists h, mem_trim (ps_heap st) p k = (h, p) /\ st_owns (set_heap st h) ((KHeap, (p, k)) :: O).
Proof.
  intros [[Hr Hh] H2 H3 H4 H5 H6 H7] Hk Hle. rewrite held_cons, decide_True in Hh by done.
  destruct (trim_owns (Shrinking := heap_shrinking) _ _ p n k Hh Hk Hle) as (h & Hm & Hh').
  exists h. split; [done|]. pose proof (ram_mem_trim _ _ _ _ _ Hm) as Hram.
  constructor; cbn [set_heap ps_heap ps_pools]; auto.
  - rewrite Hram. split; [done|]. by rewrite held_cons, decide_True.
  - inversion H6; subst. constructor; [simpl; lia|done].
Qed.

(** The walk to the pbuf in which the new end lies. *)
Lemma realloc_loop fuel st p l1 q l2 rem g :
  pchain st p (l1 ++ q :: l2) -> sizes st (l1 ++ q :: l2) -> (length l1 < fuel)%nat ->
  (l1 = [] \/ plen st l1 < rem) -> rem <= plen st l1 + pb_len (pb st q) -> 0 <= rem < 65536 ->
  exists st', loop fuel (fun '(st, q, rem_len) =>
            if pb_len (pb st q) <? rem_len then
              let rem_len := u16 (rem_len - pb_len (pb st q)) in
              let st := upd_pb st q (fun x => with_tot_len x (u16 (pb_tot_len x + u16 g))) in
              inl (st, pb_next (pb st q), rem_len)
            else inr (st, q, rem_len)) (st, p, rem) = Some (st', q, rem - plen st l1) /\
    data st' = data st /\ ps_heap st' = ps_heap st /\ ps_pools st' = ps_pools st /\
    (forall y, pb st' y = if decide (y ∈ l1) then with_tot_len (pb st y) (u16 (pb_tot_len (pb st y) + u16 g)) else pb st y).
Proof.
  revert st p rem fuel. induction l1 as [|x l1 IH]; intros st p rem fuel Hc Hs Hf Hlo Hhi Hr;
    (destruct fuel as [|fuel]; [simpl in Hf; lia|]); cbn [loop].
  - destruct Hc as (-> & _). simpl in Hhi. rewrite (proj2 (Z.ltb_ge _ _)) by lia. exists st. cbn [plen].
    rewrite Z.sub_0_r. split; [done|]. split; [done|]. split; [done|]. split; [done|]. intros y.
    by rewrite decide_False by (intros H; inversion H).
  - pose proof Hc as (-> & Hx & Hc'). destruct Hs as (H0 & _ & Hmx & Hs). destruct Hlo as [?|Hlo]; [done|]. simpl in Hlo, Hhi, Hf.
    destruct (length_content_prefix st l1 (q :: l2) Hs) as [_ Hp1].
    rewrite (proj2 (Z.ltb_lt _ _)) by lia. rewrite (u16_small (rem - _)) by lia.
    pose proof (pchain_nodup _ _ _ Hc) as Hnd. apply NoDup_cons in Hnd as [Hxn _]. rewrite elem_of_app in Hxn.
    set (st1 := upd_pb st x (fun y => with_tot_len y (u16 (pb_tot_len y + u16 g)))).
    assert (HF : forall k, pb st1 k = if k =? x then with_tot_len (pb st x) (u16 (pb_tot_len (pb st x) + u16 g)) else pb st k)
      by (intros k; apply pb_upd_pb).
    assert (Hnx : forall k, pb_next (pb st1 k) = pb_next (pb st k)) by (intros k; rewrite HF; by destruct (Z.eqb_spec k x) as [->|]).
    assert (Hsame : forall y, y ∈ l1 ++ q :: l2 -> pb st1 y = pb st y).
    { intros y Hy. rewrite HF, (proj2 (Z.eqb_neq _ _)); [done|]. intros ->. rewrite elem_of_app in Hy. tauto. }
    assert (Hpl1 : plen st1 l1 = plen st l1).
    { apply plen_ext. intros y Hy. rewrite Hsame; [done|]. apply elem_of_app. by left. }
    destruct (IH st1 (pb_next (pb st1 x)) (rem - pb_len (pb st x)) fuel) as (st' & Hl & Hd & Hh & Hps & HF').
    { rewrite Hnx. apply (pchain_ext st); [done|exact Hc']. }
    { apply (sizes_ext st); [|done]. intros y Hy. by rewrite Hsame. }
    { lia. } { rewrite Hpl1. destruct l1; [by left|right; simpl in *; lia]. }
    { rewrite Hpl1, Hsame by (apply elem_of_app; right; left). lia. } { lia. }
    exists st'. rewrite Hpl1 in Hl. split; [|split; [by rewrite Hd|split; [by rewrite Hh|split; [by rewrite Hps|]]]].
    + change (plen st (x :: l1)) with (pb_len (pb st x) + plen st l1).
      replace (rem - (pb_len (pb st x) + plen st l1)) with (rem - pb_len (pb st x) - plen st l1) by lia. exact Hl.
    + intros k. rewrite HF', !HF. destruct (Z.eqb_spec k x) as [->|Hk].
      * rewrite decide_False by tauto. by rewrite decide_True by left.
      * destruct (decide (k ∈ l1)) as [Hin|Hin].
        -- by rewrite decide_True by (by right).
        -- by rewrite decide_False by (intros H; apply elem_of_cons in H as [?|?]; done).
Qed.

Lemma u16_sub t g : 0 <= t + g < 65536 -> u16 (t + u16 g) = t + g.
Proof. intros. unfold u16. rewrite Zplus_mod_idemp_r. by apply Z.mod_small. Qed.

(** The lengths of a chain that was cut inside of [q]. *)
Lemma sizes_cut st st' l1 q l2 rem :
  sizes st (l1 ++ q :: l2) -> 0 <= rem <= pb_len (pb st q) ->
  let d := rem - (pb_len (pb st q) + plen st l2) in
  (forall x, x ∈ l1 -> pb_len (pb st' x) = pb_len (pb st x) /\
                       pb_tot_len (pb st' x) = u16 (pb_tot_len (pb st x) + u16 d)) ->
  pb_len (pb st' q) = rem -> pb_tot_len (pb st' q) = rem ->
  sizes st' (l1 ++ [q]) /\ plen st' (l1 ++ [q]) = plen st l1 + rem.
Proof.
  intros Hs Hrem d Hl Hq1 Hq2. induction l1 as [|x l1 IH]; simpl in *.
  - destruct Hs as (H0 & H1 & H2 & Hs). pose proof (sizes_nonneg _ _ Hs) as [? _].
    rewrite Hq1, Hq2. repeat split; lia.
  - destruct Hs as (H0 & H1 & H2 & Hs). destruct IH as [IH1 IH2]; [done|intros y Hy; apply Hl; by right|].
    destruct (Hl x ltac:(left)) as [E1 E2]. rewrite E1, E2, IH2. rewrite plen_app in H1. simpl in H1.
    destruct (length_content_prefix st l1 (q :: l2) Hs) as [_ Hp1].
    pose proof (sizes_app_r _ _ _ Hs) as (_ & _ & _ & Hs2). pose proof (sizes_nonneg _ _ Hs2) as [? _].
    rewrite u16_sub by (unfold d; lia). unfold d. repeat split; auto; lia.
Qed.

Lemma content_cut st st' l1 q l2 rem :
  sizes st (l1 ++ q :: l2) -> 0 <= rem <= pb_len (pb st q) -> data st' = data st ->
  (forall x, x ∈ l1 -> payload_region st' x = payload_region st x) ->
  pb_payload (pb st' q) = pb_payload (pb st q) -> pb_len (pb st' q) = rem ->
  content st' (l1 ++ [q]) = take (Z.to_nat (plen st l1 + rem)) (content st (l1 ++ q :: l2)).
Proof.
  intros Hs Hrem Hd Hl Hq1 Hq2. destruct (length_content_prefix st l1 (q :: l2) Hs) as [Hl1 Hp1].
  rewrite !content_app. cbn [content]. rewrite app_nil_r. rewrite take_app_ge by lia. f_equal.
  - apply content_ext. intros x Hx. unfold payload_bytes. specialize (Hl x Hx).
    unfold payload_region in Hl. injection Hl as -> ->. by rewrite Hd.
  - rewrite take_app_le by (rewrite length_payload_bytes; lia). unfold payload_bytes.
    rewrite Hd, Hq1, Hq2, bytes_at_take by lia. f_equal. lia.
Qed.

(** The pbuf in which the chain is cut, and what holds it. *)
Definition cut_room (st : pstate) (q : Z) (r : kind * region) : Prop :=
  pb_type (pb st q) = PBUF_RAM ->
  q < pb_payload (pb st q) /\ pb_payload (pb st q) + pb_len (pb st q) <= q + r.2.2 /\ r.2.2 < 65533.

(** The trim of [pbuf_realloc]. *)
Lemma realloc_trim st q rem r O :
  st_owns st (r :: O) -> held_as st q r -> cut_room st q r -> 0 <= rem <= pb_len (pb st q) ->
  exists h r', (if bool_decide (pb_type (pb st q) = PBUF_RAM) && negb (rem =? pb_len (pb st q))
             && (Z.land (pb_flags (pb st q)) PBUF_FLAG_IS_CUSTOM =? 0) then
            let '(h, q') := mem_trim (ps_heap st) q (u16 (u16 (pb_payload (pb st q) - q) + rem)) in
            (set_heap st h, q')
          else (st, q)) = (set_heap st h, q) /\
    st_owns (set_heap st h) (r' :: O) /\ r'.1 = r.1 /\ r'.2.1 = q.
Proof.
  intros Ho (Hk & Ha & Hfl) Hroom Hrem. rewrite Hfl, Z.eqb_refl, andb_true_r.
  destruct (bool_decide_reflect (pb_type (pb st q) = PBUF_RAM)) as [Ht|Ht]; cbn [andb].
  - destruct (Hroom Ht) as (H1 & H2 & H3). destruct r as [k [a n]]. simpl in *. subst a. rewrite Ht in Hk. subst k.
    destruct (Z.eqb_spec rem (pb_len (pb st q))) as [E|E]; cbn [negb].
    + exists (ps_heap st), (KHeap, (q, n)). replace (set_heap st (ps_heap st)) with st by by destruct st. done.
    + rewrite (u16_small (pb_payload (pb st q) - q)), u16_small by lia.
      destruct (heap_shrink st O q n (pb_payload (pb st q) - q + rem) Ho) as (h & -> & Ho'); [lia|lia|].
      exists h. eexists. split; [done|]. split; [exact Ho'|done].
  - exists (ps_heap st), r. replace (set_heap st (ps_heap st)) with st by by destruct st. done.
Qed.

Lemma realloc_correct fuel st p l1 q la lb Ra r O new_len :
  let l2 := la ++ lb in
  pchain st p (l1 ++ q :: l2) -> sizes st (l1 ++ q :: l2) -> (length (l1 ++ q :: l2) + 1 < fuel)%nat ->
  (l1 = [] \/ plen st l1 < new_len) -> 0 <= new_len <= plen st l1 + pb_len (pb st q) ->
  new_len < plen st (l1 ++ q :: l2) ->
  st_owns st (r :: Ra ++ O) -> held_as st q r -> cut_room st q r ->
  Forall (fun x => pb_ref (pb st x) = 1) la -> Forall2 (held_as st) la Ra ->
  match lb with [] => True | y :: _ => 1 < pb_ref (pb st y) < 65536 end ->
  exists st' r', pbuf_realloc custom_free fuel st p new_len = Some st' /\
    pchain st' p (l1 ++ [q]) /\ sizes st' (l1 ++ [q]) /\ plen st' (l1 ++ [q]) = new_len /\
    content st' (l1 ++ [q]) = take (Z.to_nat new_len) (content st (l1 ++ q :: l2)) /\
    st_owns st' (r' :: O) /\ r'.2.1 = q /\ data st' = data st.
Proof.
  intros l2 Hc Hs Hf Hlo Hhi Hlt Ho Hhq Hroom Hra HRa Hlb.
  assert (Htot : pb_tot_len (pb st p) = plen st (l1 ++ q :: l2)).
  { destruct l1 as [|x l1]; destruct Hc as (-> & _); by apply sizes_head. }
  pose proof (sizes_lt _ _ Hs) as Hmax. destruct (length_content_prefix st l1 (q :: l2) Hs) as [_ Hp1].
  pose proof (sizes_app_r _ _ _ Hs) as (Hq0 & _ & _ & Hs2). rewrite plen_app in Hlt, Hmax, Htot. cbn [plen] in Hlt, Hmax, Htot.
  pose proof (pchain_nodup _ _ _ Hc) as Hnd. apply NoDup_app in Hnd as (_ & Hd1 & Hnd2). apply NoDup_cons in Hnd2 as [Hql2 _].
  assert (Hql1 : q ∉ l1) by (intros H; apply (Hd1 q H); left).
  unfold pbuf_realloc. rewrite Htot, (proj2 (Z.leb_gt _ _)) by lia.
  set (g := new_len - (plen st l1 + (pb_len (pb st q) + plen st l2))).
  rewrite length_app in Hf. cbn [length] in Hf.
  destruct (realloc_loop fuel st p l1 q l2 new_len g Hc Hs) as (st1 & Hl & Hd & Hh & Hps & HF1); [lia|done|lia|lia|].
  match goal with |- context [loop fuel ?f (st, p, new_len)] =>
    replace (loop fuel f (st, p, new_len)) with (Some (st1, q, new_len - plen st l1)) by (symmetry; exact Hl) end.
  set (rem := new_len - plen st l1). assert (Hrem : 0 <= rem <= pb_len (pb st q)).
  { unfold rem. destruct Hlo as [->|?]; simpl in *; lia. }
  assert (Hsame : forall y, y ∉ l1 -> pb st1 y = pb st y) by (intros y Hy; by rewrite HF1, decide_False).
  assert (Ho1 : st_owns st1 (r :: Ra ++ O)).
  { apply (st_owns_ext st); auto. intros y Hy. rewrite HF1. pose proof (so_flags _ _ Ho y Hy). by destruct (decide _). }
  destruct (realloc_trim st1 q rem r (Ra ++ O)) as (h & r' & E & Ho2 & Hk' & Hr'); auto;
    [unfold held_as; by rewrite Hsame|unfold cut_room; by rewrite Hsame|by rewrite Hsame|].
  rewrite E. cbv beta iota zeta. rewrite upd_upd. set (st2 := set_heap st1 h) in *.
  change (pb st2 q) with (pb st1 q). rewrite Hsame by done.
  set (st4 := set_pb st2 q _).
  assert (HF4 : forall y, pb st4 y = if y =? q then with_tot_len (with_len (pb st q) rem) rem else pb st1 y)
    by (intros y; exact (pb_set_pb st2 q _ y)).
  assert (Hin2 : forall y, y ∈ l2 -> pb st4 y = pb st y).
  { intros y Hy. rewrite HF4, (proj2 (Z.eqb_neq _ _)) by (by intros ->). apply Hsame. intros H. apply (Hd1 y H). by right. }
  assert (Ho4 : st_owns st4 (Ra ++ (r' :: O))).
  { rewrite <- Permutation_middle. apply (st_owns_ext st2); auto. intros y Hy. rewrite HF4.
    pose proof (so_flags _ _ Ho y Hy). pose proof (so_flags _ _ Ho1 y Hy). by destruct (Z.eqb_spec y q) as [->|]. }
  pose proof (pchain_suffix _ _ _ _ _ Hc) as (_ & Hqn & Hc2).
  assert (Hc4 : pchain st4 (pb_next (pb st4 q)) (la ++ lb)).
  { rewrite HF4, Z.eqb_refl. cbn [pb_next with_tot_len with_len]. apply (pchain_ext st); [|exact Hc2]. intros y Hy. by rewrite Hin2. }
  assert (Hfree : exists st5 c, (if negb (pb_next (pb st4 q) =? NULL) then pbuf_free custom_free fuel st4 (pb_next (pb st4 q))
                    else Some (st4, 0)) = Some (st5, c) /\ st_owns st5 (r' :: O) /\ only_refs st4 st5).
  { destruct (free_correct fuel st4 (pb_next (pb st4 q)) la lb Ra (r' :: O)) as (st5 & Hfr & Ho5 & Hor & _); auto.
    - unfold l2 in Hf. rewrite length_app in Hf. lia.
    - rewrite Forall_forall in *. intros y Hy. rewrite Hin2; [auto|]. apply elem_of_app. by left.
    - eapply Forall2_impl_l; [|exact HRa]. intros y r0 Hy. unfold held_as. rewrite Hin2; [done|]. apply elem_of_app. by left.
    - destruct lb as [|y lb]; [done|]. rewrite Hin2; [done|]. apply elem_of_app. right. left.
    - exists st5, (u8 (Z.of_nat (length la))). split; [|done]. revert Hfr. unfold pbuf_free.
      by destruct (pb_next (pb st4 q) =? NULL). }
  destruct Hfree as (st5 & c & -> & Ho5 & Hd5 & Hor5).
  set (st6 := upd_pb st5 q (fun x => with_next x NULL)).
  assert (HF6 : forall y, exists v, pb st6 y = if y =? q then with_next (with_ref (with_tot_len (with_len (pb st q) rem) rem) v) NULL
                                     else with_ref (pb st1 y) v).
  { intros y. destruct (Hor5 y) as [v Hv]. exists v. unfold st6. rewrite pb_upd_pb.
    destruct (Z.eqb_spec y q) as [->|Hy]; rewrite Hv, HF4; [by rewrite Z.eqb_refl|by rewrite (proj2 (Z.eqb_neq _ _) Hy)]. }
  assert (Hq6 : pb_len (pb st6 q) = rem /\ pb_tot_len (pb st6 q) = rem /\ pb_next (pb st6 q) = NULL /\
                pb_payload (pb st6 q) = pb_payload (pb st q)).
  { destruct (HF6 q) as [v ->]. by rewrite Z.eqb_refl. }
  assert (Hx6 : forall x, x ∈ l1 -> pb_next (pb st6 x) = pb_next (pb st x) /\ payload_region st6 x = payload_region st x /\
     pb_len (pb st6 x) = pb_len (pb st x) /\ pb_tot_len (pb st6 x) = u16 (pb_tot_len (pb st x) + u16 g)).
  { intros x Hx. unfold payload_region. destruct (HF6 x) as [v ->]. rewrite (proj2 (Z.eqb_neq _ _)) by (by intros ->).
    rewrite HF1, decide_True by done. done. }
  destruct Hq6 as (Hq6a & Hq6b & Hq6c & Hq6d). assert (Eg : g = rem - (pb_len (pb st q) + plen st l2)) by (unfold g, rem; lia).
  destruct (sizes_cut st st6 l1 q l2 rem Hs Hrem) as [Hs6 Hp6]; auto.
  { intros x Hx. rewrite <- Eg. split; apply (Hx6 x Hx). }
  assert (Hdata : data st6 = data st) by (change (data st6) with (data st5); by rewrite Hd5).
  exists st6, r'. split; [done|]. split; [|split; [done|split; [unfold rem in *; lia|split; [|split; [|done]]]]].
  - apply (pchain_replace_end st _ _ _ _ l2 NULL []); auto; [intros x Hx; by apply Hx6|done].
  - rewrite (content_cut st st6 l1 q l2 rem Hs Hrem Hdata); auto.
    + f_equal. unfold rem. lia.
    + intros x Hx. by apply Hx6.
  - apply (st_owns_ext st5); auto. intros y Hy. pose proof (so_flags _ _ Ho5 y Hy). unfold st6.
    rewrite pb_upd_pb. by destruct (Z.eqb_spec y q) as [->|].
Qed.

(** ** [pbuf_coalesce] *)

(** The payload of a pbuf lies in the region that holds it. *)
Definition payload_in (st : pstate) (x : Z) (r : kind * region) : Prop :=
  r.2.1 <= pb_payload (pb st x) /\ pb_payload (pb st x) + pb_len (pb st x) <= r.2.1 + r.2.2.

Lemma held_elem st l R O x : Forall2 (held_as st) l R -> x ∈ l -> exists k n, (k, (x, n)) ∈ R ++ O.
Proof.
  intros H Hx. apply list_elem_of_lookup_1 in Hx as [i Hi]. destruct (Forall2_lookup_l _ _ _ _ _ H Hi) as ([k [a n]] & Hr & _ & Ha & _).
  simpl in Ha. subst a. exists k, n. apply elem_of_app. left. by eapply list_elem_of_lookup_2.
Qed.

Lemma only_refs_content st st' l : only_refs st st' -> content st' l = content st l.
Proof.
  intros [Hd H]. apply content_ext. intros x _. unfold payload_bytes. destruct (H x) as [v ->]. by rewrite Hd.
Qed.

Lemma coalesce_correct fuel st p l R O layer :
  pchain st p l -> (1 < length l)%nat -> sizes st l -> no_queue st l ->
  Forall (fun x => pb_ref (pb st x) = 1) l -> Forall2 (held_as st) l R -> Forall2 (payload_in st) l R ->
  st_owns st (R ++ O) -> (Z.to_nat (plen st l) + length l + 3 < fuel)%nat ->
  exists st' q, pbuf_coalesce custom_free fuel st p layer = Some (st', q) /\
    ((q = p /\ st_owns st' (R ++ O) /\ pchain st' p l /\ sizes st' l /\ content st' l = content st l) \/
     (q <> p /\ pchain st' q [q] /\ sizes st' [q] /\ content st' [q] = content st l /\
      exists n, st_owns st' ((KHeap, (q, n)) :: O))).
Proof.
  intros Hc Hlen Hs Hnq Hr HR Hin Ho Hf. destruct l as [|x [|y l]]; [simpl in *; lia|simpl in *; lia|].
  pose proof Hc as (-> & Hx & Hyc & Hy & _). set (L := x :: y :: l) in *.
  unfold pbuf_coalesce. rewrite Hyc, (proj2 (Z.eqb_neq _ _) Hy), (sizes_head _ _ _ Hs). fold L. clear Hyc.
  pose proof (sizes_nonneg _ _ Hs) as [Hpos Hpl]. pose proof (sizes_lt _ _ Hs) as Hmax.
  destruct (alloc_correct fuel st (R ++ O) layer (plen st L) PBUF_RAM Ho ltac:(lia) ltac:(lia)) as (st1 & q & -> & Hq).
  destruct Hq as [[-> (Ho1 & Hd1 & Hpb1)] | (Hq & l0 & R0 & Hal)].
  { rewrite Z.eqb_refl. exists st1, x. split; [done|]. left. split; [done|]. split; [done|].
    assert (Hsame : forall z, z ∈ L -> pb st1 z = pb st z).
    { intros z Hz. destruct (held_elem st L R O z HR Hz) as (k & n & H). by apply (Hpb1 k z n). }
    split; [apply (pchain_ext st); [|exact Hc]; intros z Hz; by rewrite Hsame|].
    split; [apply (sizes_ext st); [|exact Hs]; intros z Hz; by rewrite Hsame|].
    apply content_ext. intros z Hz. unfold payload_bytes. by rewrite Hsame, Hd1. }
  rewrite (proj2 (Z.eqb_neq _ _) Hq). pose proof (al_single _ _ _ _ _ _ _ _ _ Hal ltac:(done)) as ->.
  pose proof (al_held _ _ _ _ _ _ _ _ _ Hal) as HR0. inversion HR0 as [|? r0 ? R0' Hh0 HR0']; subst. inversion HR0'; subst.
  pose proof (al_owns _ _ _ _ _ _ _ _ _ Hal) as Ho1. simpl in Ho1.
  pose proof (al_others _ _ _ _ _ _ _ _ _ Hal) as Hpb1. pose proof (al_data _ _ _ _ _ _ _ _ _ Hal) as Hd1.
  pose proof (al_chain _ _ _ _ _ _ _ _ _ Hal) as Hc1. pose proof (al_sizes _ _ _ _ _ _ _ _ _ Hal) as [Hs1 Hp1].
  pose proof (al_fields _ _ _ _ _ _ _ _ _ Hal) as Hfl. inversion Hfl as [|? ? (Ht0 & _) _]; subst.
  destruct (al_room _ _ _ _ _ _ _ _ _ Hal (or_introl eq_refl)) as [Hroom _]. inversion Hroom as [|? ? ? ? [Hra Hrb] _]; subst.
  destruct r0 as [k0 [a0 n0]]. destruct Hh0 as (Hk0 & Ha0 & _). simpl in Hk0, Ha0, Hrb. subst a0. rewrite Ht0 in Hk0. simpl in Hk0. subst k0.
  assert (HqL : q ∉ L).
  { intros H. destruct (held_elem st L R O q HR H) as (k & n & Hkn). by apply (st_owns_fresh _ _ _ _ _ Ho1 _ Hkn). }
  assert (Hsame : forall z, z ∈ L -> pb st1 z = pb st z).
  { intros z Hz. apply Hpb1. intros H. apply list_elem_of_singleton in H. subst. done. }
  assert (HcL : pchain st1 x L) by (apply (pchain_ext st); [|exact Hc]; intros z Hz; by rewrite Hsame).
  assert (HsL : sizes st1 L) by (apply (sizes_ext st); [|exact Hs]; intros z Hz; by rewrite Hsame).
  assert (HplL : plen st1 L = plen st L) by (apply plen_ext; intros z Hz; by rewrite Hsame).
  assert (Hcop : copying st1 [q] L 0 0).
  { pose proof Hs1 as (Hq0 & _). constructor; auto.
    - exists q, []. split; [done|]. split; [done|]. lia.
    - exists x, (y :: l). split; [done|]. split; [done|]. destruct HsL as (? & _). lia.
    - split; [constructor|]. unfold no_queue, L in *. simpl in *. rewrite Forall_forall in *. intros z Hz.
      rewrite Hsame by (by right). auto.
    - simpl. split; [constructor|done].
    - unfold apart. apply Forall_forall. intros z Hz. constructor; [|constructor]. apply separate_sym.
      apply list_elem_of_lookup_1 in Hz as [i Hi]. destruct (Forall2_lookup_l _ _ _ _ _ Hin Hi) as (r & Hri & [Hz1 Hz2]).
      destruct (st_owns_separate _ _ Ho1) as [[Hsep _] _]. rewrite Forall_forall in Hsep.
      assert (Hrs : separate (q, n0) r.2).
      { apply Hsep. apply list_elem_of_fmap_2. apply elem_of_app. left. by eapply list_elem_of_lookup_2. }
      unfold payload_region. rewrite (Hsame z) by (by eapply list_elem_of_lookup_2).
      unfold separate in *. simpl in *. lia.
    - rewrite HplL, Hp1. lia. }
  destruct (copy_correct fuel st1 q x [q] L Hcop Hc1 HcL ltac:(simpl in *; lia)) as (m' & -> & Hon & Hct).
  set (st2 := set_data st1 m') in *.
  assert (HctL : content st1 L = content st L).
  { apply content_ext. intros z Hz. unfold payload_bytes. by rewrite Hsame, Hd1. }
  assert (Ho2 : st_owns st2 (R ++ (KHeap, (q, n0)) :: O)).
  { rewrite <- Permutation_middle. apply (st_owns_ext st1); auto. apply (so_flags _ _ Ho1). }
  destruct (free_correct fuel st2 x L [] R ((KHeap, (q, n0)) :: O)) as (st3 & -> & Ho3 & Hor & _); auto.
  - rewrite app_nil_r. by apply (pchain_ext st1).
  - lia.
  - rewrite Forall_forall in *. intros z Hz. change (pb st2 z) with (pb st1 z). rewrite Hsame by done. auto.
  - eapply Forall2_impl_l; [|exact HR]. intros z r Hz. unfold held_as. change (pb st2 z) with (pb st1 z). by rewrite Hsame.
  - exists st3, q. split; [done|]. right. split; [intros ->; apply HqL; left|].
    destruct Hor as [Hd3 Hor3]. assert (Hor : only_refs st2 st3) by by split.
    split; [apply (pchain_ext st2); [|by apply (pchain_ext st1)]; intros z _; by destruct (Hor3 z) as [v ->]|].
    split; [apply (sizes_ext st2); [|by apply (sizes_ext st1)]; intros z _; by destruct (Hor3 z) as [v ->]|].
    split; [|by exists n0].
    rewrite (only_refs_content st2 st3 _ Hor), Hct, HctL. rewrite drop_ge; [apply app_nil_r|].
    rewrite !length_content by done. rewrite Hp1. lia.
Qed.

End Free.
End Holding.

(** ** The properties *)

(** A machine after [mem_init] and [memp_init]. *)
Definition dp0 : memp_desc := mk_desc 20 16 537000000.
Definition dq0 : memp_desc := mk_desc 1536 16 537100000.
Definition zero_pool : pool := mk_pool 0 ∅ (mk_stats 0 0 0 0 0).
Definition st0 : pstate :=
  mk_ps ∅ (fun _ => 0) heap0
    (replicate 8 zero_pool ++ [memp_init_pool dp0 zero_pool; memp_init_pool dq0 zero_pool]) 0.

Lemma st0_owns : st_owns (ram heap0) dp0 dq0 st0 [].
Proof.
  constructor.
  - split; [done|]. exact heap0_owns.
  - exists (memp_init_pool dp0 zero_pool). split; [done|]. split; [|constructor].
    exists (rev (elements dp0)). apply init_pool_rep; [|done]. unfold desc_ok. simpl. repeat split; lia.
  - exists (memp_init_pool dq0 zero_pool). split; [done|]. split; [|constructor].
    exists (rev (elements dq0)). apply init_pool_rep; [|done]. unfold desc_ok. simpl. repeat split; lia.
  - done.
  - unfold separate, arena. vm_compute. split; [left|split; left]; congruence.
  - constructor.
  - done.
Qed.

(** C2: [pbuf_alloc] returns [NULL] with nothing held that was not held before
    and no held pbuf changed (when the pool runs out in the middle of a chain,
    the part already allocated is given back), or a fresh chain: its lengths add
    up to the requested one, every pbuf has one reference, no flags and the
    requested type, it is held by the right allocator and disjoint from
    everything held before, and in the RAM and POOL cases the payload of each
    pbuf lies in its own region behind the struct, with room for the headers of
    the layer in front of the first payload. *)
Theorem alloc_fresh_or_nothing hb dp dq custom_free fuel st O layer length type :
  st_owns hb dp dq st O -> 0 <= length < 65536 -> (Z.to_nat length + 3 < fuel)%nat ->
  exists st' p, pbuf_alloc custom_free fuel st layer length type = Some (st', p) /\
    ((p = NULL /\ unchanged hb dp dq st st' O) \/
     (p <> NULL /\ exists l R, allocated hb dp dq st st' O p l R (pbuf_offset layer) length type)).
Proof. apply alloc_correct. Qed.

Lemma alloc_witness :
  exists st' p, pbuf_alloc (fun s _ => s) 4000 st0 PBUF_RAW 3000 PBUF_POOL = Some (st', p) /\
    (p <> NULL -> exists l R, allocated (ram heap0) dp0 dq0 st0 st' [] p l R 0 3000 PBUF_POOL).
Proof.
  destruct (alloc_fresh_or_nothing (ram heap0) dp0 dq0 (fun s _ => s) 4000 st0 [] PBUF_RAW 3000 PBUF_POOL st0_owns)
    as (st' & p & H1 & H2); [lia|lia|].
  exists st', p. split; [exact H1|]. intros Hp. destruct H2 as [[H2 _]|[_ H2]]; [contradiction|exact H2].
Defined.

(** C3: [pbuf_free] drops one reference: it frees the pbufs of the chain up to
    the first one that has other references, gives exactly their regions back,
    takes one reference from that one, and changes nothing but reference counts;
    it returns the number of freed pbufs modulo 256. *)
Theorem free_drops_one_reference hb dp dq custom_free fuel st p l1 l2 R O :
  pchain st p (l1 ++ l2) -> (length l1 + 1 < fuel)%nat ->
  Forall (fun x => pb_ref (pb st x) = 1) l1 -> Forall2 (held_as st) l1 R -> st_owns hb dp dq st (R ++ O) ->
  match l2 with [] => True | y :: _ => 1 < pb_ref (pb st y) < 65536 end ->
  exists st', pbuf_free custom_free fuel st p = Some (st', Z.of_nat (length l1) mod 256) /\
    st_owns hb dp dq st' O /\ only_refs st st' /\
    (forall y, y ∉ l1 -> pb_ref (pb st' y) = pb_ref (pb st y) - (if decide (head l2 = Some y) then 1 else 0)).
Proof. apply free_correct. Qed.

Definition alloc_st (st : pstate) (layer : pbuf_layer) (len : Z) (t : pbuf_type) : pstate * Z :=
  default (st, NULL) (pbuf_alloc (fun s _ => s) 2000 st layer len t).

(** A RAM pbuf of 100 bytes on the fresh machine. *)
Definition st1 : pstate := (alloc_st st0 PBUF_TRANSPORT 100 PBUF_RAM).1.
Definition ram1 : Z := 536870924.

Lemma st1_allocated :
  exists n, allocated (ram heap0) dp0 dq0 st0 st1 [] ram1 [ram1] [(KHeap, (ram1, n))] 56 100 PBUF_RAM.
Proof.
  destruct (alloc_correct (ram heap0) dp0 dq0 (fun s _ => s) 2000 st0 [] PBUF_TRANSPORT 100 PBUF_RAM st0_owns)
    as (st' & p & H1 & H2); [lia|lia|].
  assert (E1 : st' = st1) by (unfold st1, alloc_st; by rewrite H1).
  assert (E2 : p = ram1).
  { transitivity (alloc_st st0 PBUF_TRANSPORT 100 PBUF_RAM).2; [unfold alloc_st; by rewrite H1|vm_compute; reflexivity]. }
  clear H1. subst st' p. destruct H2 as [[H2 _] | (_ & l & R & H2)]; [done|].
  pose proof (al_single _ _ _ _ _ _ _ _ _ _ _ _ H2 ltac:(done)) as ->.
  pose proof (al_held _ _ _ _ _ _ _ _ _ _ _ _ H2) as HR. inversion HR as [|? [k [a n]] ? ? (Hk & Ha & _) HR']; subst.
  inversion HR'; subst. pose proof (al_fields _ _ _ _ _ _ _ _ _ _ _ _ H2) as Hf. inversion Hf as [|? ? (Ht & _) _]; subst.
  cbn [fst snd] in Hk, Ha. rewrite Ht in Hk. cbn [kind_of] in Hk. subst. by exists n.
Qed.

Lemma free_witness :
  exists st', pbuf_free (fun s _ => s) 10 st1 ram1 = Some (st', 1) /\ st_owns (ram heap0) dp0 dq0 st' [].
Proof.
  destruct st1_allocated as [n Hal].
  destruct (free_drops_one_reference (ram heap0) dp0 dq0 (fun s _ => s) 10 st1 ram1 [ram1] [] [(KHeap, (ram1, n))] [])
    as (st' & H1 & H2 & _).
  - exact (al_chain _ _ _ _ _ _ _ _ _ _ _ _ Hal).
  - simpl. lia.
  - pose proof (al_fields _ _ _ _ _ _ _ _ _ _ _ _ Hal) as Hf. inversion Hf as [|? ? (_ & _ & Hr) _].
    constructor; [exact Hr|constructor].
  - exact (al_held _ _ _ _ _ _ _ _ _ _ _ _ Hal).
  - exact (al_owns _ _ _ _ _ _ _ _ _ _ _ _ Hal).
  - exact I.
  - exists st'. split; [exact H1|exact H2].
Defined.

(** [pbuf_realloc] to a shorter length cuts the chain: it keeps the pbufs up
    to the one in which the new end lies, the content becomes its prefix of
    [new_len] bytes, every [tot_len] is right again, a RAM pbuf at the end is
    shrunk in the heap, and the pbufs behind are freed like by [pbuf_free]; a
    length that is not shorter changes nothing. *)
Theorem realloc_truncates hb dp dq custom_free fuel st p l1 q la lb Ra r O new_len :
  let l2 := la ++ lb in
  pchain st p (l1 ++ q :: l2) -> sizes st (l1 ++ q :: l2) -> (length (l1 ++ q :: l2) + 1 < fuel)%nat ->
  (l1 = [] \/ plen st l1 < new_len) -> 0 <= new_len <= plen st l1 + pb_len (pb st q) ->
  st_owns hb dp dq st (r :: Ra ++ O) -> held_as st q r -> cut_room st q r ->
  Forall (fun x => pb_ref (pb st x) = 1) la -> Forall2 (held_as st) la Ra ->
  match lb with [] => True | y :: _ => 1 < pb_ref (pb st y) < 65536 end ->
  if plen st (l1 ++ q :: l2) <=? new_len then pbuf_realloc custom_free fuel st p new_len = Some st
  else exists st' r', pbuf_realloc custom_free fuel st p new_len = Some st' /\
    pchain st' p (l1 ++ [q]) /\ sizes st' (l1 ++ [q]) /\ plen st' (l1 ++ [q]) = new_len /\
    content st' (l1 ++ [q]) = take (Z.to_nat new_len) (content st (l1 ++ q :: l2)) /\
    st_owns hb dp dq st' (r' :: O) /\ r'.2.1 = q /\ data st' = data st.
Proof.
  intros l2 Hc Hs Hf Hlo Hhi Ho Hq Hroom Hra HRa Hlb.
  destruct (Z.leb_spec (plen st (l1 ++ q :: l2)) new_len) as [Hle|Hgt].
  - unfold pbuf_realloc. assert (Htot : pb_tot_len (pb st p) = plen st (l1 ++ q :: l2)).
    { destruct l1 as [|x l1]; destruct Hc as (-> & _); by apply sizes_head. }
    by rewrite Htot, (proj2 (Z.leb_le _ _)) by lia.
  - by apply (realloc_correct hb dp dq custom_free fuel st p l1 q la lb Ra r O new_len).
Qed.

Lemma realloc_witness :
  exists st', pbuf_realloc (fun s _ => s) 10 st1 ram1 40 = Some st' /\ sizes st' [ram1] /\ plen st' [ram1] = 40.
Proof.
  destruct st1_allocated as [n Hal].
  pose proof (al_held _ _ _ _ _ _ _ _ _ _ _ _ Hal) as HR. inversion HR as [|? ? ? ? Hh _]; subst.
  destruct (al_room _ _ _ _ _ _ _ _ _ _ _ _ Hal (or_introl eq_refl)) as [Hroom _]. inversion Hroom as [|? ? ? ? [Hra Hrb] _]; subst.
  pose proof (al_owns _ _ _ _ _ _ _ _ _ _ _ _ Hal) as Ho.
  pose proof (heap_owns_inside _ _ (proj2 (so_heap _ _ _ _ _ Ho))) as Hins. rewrite (proj1 (so_heap _ _ _ _ _ Ho)) in Hins.
  change (held KHeap ([(KHeap, (ram1, n))] ++ [])) with [(ram1, n)] in Hins. inversion Hins as [|? ? [Hi1 Hi2] _]; subst.
  pose proof (realloc_truncates (ram heap0) dp0 dq0 (fun s _ => s) 10 st1 ram1 [] ram1 [] [] [] (KHeap, (ram1, n)) [] 40) as H.
  assert (E : plen st1 [ram1] = 100) by exact (proj2 (al_sizes _ _ _ _ _ _ _ _ _ _ _ _ Hal)).
  cbv zeta in H. cbn [app] in H. rewrite E in H. change (100 <=? 40) with false in H.
  destruct H as (st' & r' & H1 & _ & H2 & H3 & _).
  - exact (al_chain _ _ _ _ _ _ _ _ _ _ _ _ Hal).
  - exact (proj1 (al_sizes _ _ _ _ _ _ _ _ _ _ _ _ Hal)).
  - simpl. lia.
  - left. reflexivity.
  - cbn [plen] in E |- *. lia.
  - exact Ho.
  - exact Hh.
  - intros _. cbn [fst snd] in *. assert (Hb : ram heap0 = 536870916) by reflexivity. rewrite Hb in Hi2.
    unfold ram1, END in Hra, Hrb, Hi2 |- *. split; [lia|]. split; [lia|]. lia.
  - constructor.
  - constructor.
  - exact I.
  - exists st'. auto.
Defined.

(** [pbuf_coalesce] of a chain that nobody else references: on success the
    result is one fresh RAM pbuf with the content of the chain and the regions of
    the chain are given back; when no memory is left it returns the chain as it
    was. *)
Theorem coalesce_keeps_content hb dp dq custom_free fuel st p l R O layer :
  pchain st p l -> (1 < length l)%nat -> sizes st l -> no_queue st l ->
  Forall (fun x => pb_ref (pb st x) = 1) l -> Forall2 (held_as st) l R -> Forall2 (payload_in st) l R ->
  st_owns hb dp dq st (R ++ O) -> (Z.to_nat (plen st l) + length l + 3 < fuel)%nat ->
  exists st' q, pbuf_coalesce custom_free fuel st p layer = Some (st', q) /\
    ((q = p /\ st_owns hb dp dq st' (R ++ O) /\ pchain st' p l /\ sizes st' l /\ content st' l = content st l) \/
     (q <> p /\ pchain st' q [q] /\ sizes st' [q] /\ content st' [q] = content st l /\
      exists n, st_owns hb dp dq st' ((KHeap, (q, n)) :: O))).
Proof. apply coalesce_correct. Qed.

(** A chain of two pool buffers on the fresh machine. *)
Definition st2 : pstate := (alloc_st st0 PBUF_RAW 1600 PBUF_POOL).1.
Definition pool2 : list Z := [537123040; 537121504].

Lemma st2_allocated :
  exists R, allocated (ram heap0) dp0 dq0 st0 st2 [] 537123040 pool2 R 0 1600 PBUF_POOL.
Proof.
  destruct (alloc_correct (ram heap0) dp0 dq0 (fun s _ => s) 2000 st0 [] PBUF_RAW 1600 PBUF_POOL st0_owns)
    as (st' & p & H1 & H2); [lia|lia|].
  assert (E1 : st' = st2) by (unfold st2, alloc_st; by rewrite H1).
  assert (E2 : p = 537123040).
  { transitivity (alloc_st st0 PBUF_RAW 1600 PBUF_POOL).2; [unfold alloc_st; by rewrite H1|vm_compute; reflexivity]. }
  clear H1. subst st' p. destruct H2 as [[H2 _] | (_ & l & R & H2)]; [done|].
  assert (Hc : pchain st2 537123040 pool2) by (repeat split; vm_compute; congruence).
  pose proof (pchain_det _ _ _ _ (al_chain _ _ _ _ _ _ _ _ _ _ _ _ H2) Hc) as ->. by exists R.
Qed.

Lemma room_payload_in st l R :
  Forall2 (held_as st) l R ->
  Forall2 (fun x r => x + 20 <= pb_payload (pb st x) /\ pb_payload (pb st x) + pb_len (pb st x) <= x + r.2.2) l R ->
  Forall2 (payload_in st) l R.
Proof.
  induction 1 as [|x [k [a n]] l R (_ & Ha & _) HR IH]; intros Hroom; [constructor|].
  inversion Hroom as [|? ? ? ? [H1 H2] Hroom']; subst. constructor; [|exact (IH Hroom')].
  unfold payload_in. simpl in *. lia.
Qed.

Lemma coalesce_witness :
  exists st' q, pbuf_coalesce (fun s _ => s) 2000 st2 537123040 PBUF_RAW = Some (st', q).
Proof.
  destruct st2_allocated as [R Hal]. pose proof (al_held _ _ _ _ _ _ _ _ _ _ _ _ Hal) as HR.
  destruct (al_sizes _ _ _ _ _ _ _ _ _ _ _ _ Hal) as [Hs Hpl].
  destruct (coalesce_keeps_content (ram heap0) dp0 dq0 (fun s _ => s) 2000 st2 537123040 pool2 R [] PBUF_RAW)
    as (st' & q & H & _).
  - exact (al_chain _ _ _ _ _ _ _ _ _ _ _ _ Hal).
  - simpl. lia.
  - exact Hs.
  - constructor; [vm_compute; reflexivity|constructor].
  - pose proof (al_fields _ _ _ _ _ _ _ _ _ _ _ _ Hal) as Hf. eapply Forall_impl; [exact Hf|].
    intros x (_ & _ & Hr). exact Hr.
  - exact HR.
  - destruct (al_room _ _ _ _ _ _ _ _ _ _ _ _ Hal (or_intror eq_refl)) as [Hroom _].
    exact (room_payload_in st2 pool2 R HR Hroom).
  - exact (al_owns _ _ _ _ _ _ _ _ _ _ _ _ Hal).
  - rewrite Hpl. simpl. lia.
  - exists st', q. exact H.
Defined.
