(* ===== verification/Chksum.v ===== *)
(** * [core/inet_chksum.c] and [arch/checksum.c]: the Internet checksum

    The three C versions of [lwip_standard_chksum], the Thumb-2 routine that the
    board uses as [LWIP_CHKSUM], and the functions that sum over pbuf chains and
    pseudo headers.  The machine is little endian. *)

From Stdlib Require Import ZArith Lia Zdiv.
From stdpp Require Import base tactics numbers list option.
From S2P Require Import Prelude.
From S2P Require Import Def.
From S2P Require Import Ip4Addr.
From S2P Require Import Alloc.
From S2P Require Import Pbuf.
From S2P Require Import PbufChain.

(** ** The macros of [lwip/inet_chksum.h] *)

Definition FOLD_U32T (u : Z) : Z := u32 (Z.shiftr u 16 + Z.land u 0x0000ffff).
Definition SWAP_BYTES_IN_WORD (w : Z) : Z :=
  Z.lor (Z.shiftl (Z.land w 0xff) 8) (Z.shiftr (Z.land w 0xff00) 8).

(** ** [lwip_standard_chksum], version 1: octets in network order *)

Definition chksum1 (m : memory) (dataptr len : Z) : option Z :=
  match loop (S (Z.to_nat len)) (fun '(octetptr, len, acc) =>
          if 1 <? len then
            let src := u16 (Z.shiftl (m octetptr) 8) in
            let src := Z.lor src (m (octetptr + 1)) in
            inl (octetptr + 2, len - 2, u32 (acc + src))
          else inr (octetptr, len, acc)) (dataptr, len, 0) with
  | None => None
  | Some (octetptr, len, acc) =>
      let acc := if 0 <? len then u32 (acc + u16 (Z.shiftl (m octetptr) 8)) else acc in
      let acc := u32 (Z.shiftr acc 16 + Z.land acc 0x0000ffff) in
      let acc := if negb (Z.land acc 0xffff0000 =? 0)
                 then u32 (Z.shiftr acc 16 + Z.land acc 0x0000ffff) else acc in
      Some (lwip_htons (u16 acc))
  end.

(** ** Version 2: aligned half words *)

(** The loop over half words that versions 2 and 3 share: pointer, length and
    sum behind it. *)
Definition add_halves (m : memory) (ps len sum : Z) : option (Z * Z * Z) :=
  loop (S (Z.to_nat len)) (fun '(ps, len, sum) =>
    if 1 <? len then inl (ps + 2, len - 2, u32 (sum + ld16 m ps)) else inr (ps, len, sum)) (ps, len, sum).

Definition chksum2 (m : memory) (dataptr len : Z) : option Z :=
  let odd := negb (Z.land dataptr 1 =? 0) in
  let '(t, pb, len) :=
    if odd && (0 <? len) then (256 * m dataptr, dataptr + 1, len - 1) else (0, dataptr, len) in
  match add_halves m pb len 0 with
  | None => None
  | Some (ps, len, sum) =>
      let t := if 0 <? len then m ps + 256 * (t / 256) else t in
      let sum := u32 (sum + t) in
      let sum := FOLD_U32T sum in
      let sum := FOLD_U32T sum in
      let sum := if odd then SWAP_BYTES_IN_WORD sum else sum in
      Some (u16 sum)
  end.

(** ** Version 3: eight bytes a round *)

(** [tmp = sum + w; if (tmp < sum) tmp++;] *)
Definition add_back_carry (sum w : Z) : Z :=
  let tmp := u32 (sum + w) in if tmp <? sum then u32 (tmp + 1) else tmp.

Definition chksum3 (m : memory) (dataptr len : Z) : option Z :=
  let odd := negb (Z.land dataptr 1 =? 0) in
  let '(t, pb, len) :=
    if odd && (0 <? len) then (256 * m dataptr, dataptr + 1, len - 1) else (0, dataptr, len) in
  let '(ps, len, sum) :=
    if negb (Z.land pb 3 =? 0) && (1 <? len) then (pb + 2, len - 2, u32 (0 + ld16 m pb)) else (pb, len, 0) in
  match loop (S (Z.to_nat len)) (fun '(pl, len, sum) =>
          if 7 <? len then
            let tmp := add_back_carry sum (ld32 m pl) in
            let sum := add_back_carry tmp (ld32 m (pl + 4)) in
            inl (pl + 8, len - 8, sum)
          else inr (pl, len, sum)) (ps, len, sum) with
  | None => None
  | Some (pl, len, sum) =>
      let sum := FOLD_U32T sum in
      match add_halves m pl len sum with
      | None => None
      | Some (ps, len, sum) =>
          let t := if 0 <? len then m ps + 256 * (t / 256) else t in
          let sum := u32 (sum + t) in
          let sum := FOLD_U32T sum in
          let sum := FOLD_U32T sum in
          let sum := if odd then SWAP_BYTES_IN_WORD sum else sum in
          Some (u16 sum)
      end
  end.

(** ** The Thumb-2 routine

    The labels of the assembly code; [r0] is the pointer, [r1] the length, [r2]
    the sum, [r3] whether the address was odd and [r4] a scratch register. *)

(** [adds r2, r4; adc r2, r2, #0] *)
Definition adds_adc (r2 r4 : Z) : Z :=
  u32 (u32 (r2 + r4) + (if 4294967296 <=? r2 + r4 then 1 else 0)).

(** Label 8: fold, swap and return. *)
Definition t2_fold (r2 r3 : Z) : Z :=
  let r4 := Z.land (Z.shiftr r2 16) 0xffff in
  let r2 := Z.land r2 0xffff in
  let r2 := u32 (r2 + r4) in
  let r4 := Z.land (Z.shiftr r2 16) 0xffff in
  let r2 := Z.land r2 0xffff in
  let r2 := u32 (r2 + r4) in
  if r3 =? 0 then r2
  else (* rev16 *)
    Z.lor (Z.lor (Z.shiftl (Z.land r2 0xff) 8) (Z.shiftr (Z.land r2 0xff00) 8))
      (Z.lor (Z.shiftl (Z.land r2 0xff0000) 8) (Z.shiftr (Z.land r2 0xff000000) 8)).

(** Label 7: the trailing byte. *)
Definition t2_tail (m : memory) (r0 r1 r2 r3 : Z) : Z :=
  let r2 := if r1 =? 0 then r2 else adds_adc r2 (m r0) in t2_fold r2 r3.

(** Label 3: the remaining half words. *)
Definition t2_halves (m : memory) (r0 r1 r2 r3 : Z) : option Z :=
  match loop (S (Z.to_nat r1)) (fun '(r0, r1, r2) =>
          if r1 <? 2 then inr (r0, r1, r2)
          else inl (r0 + 2, r1 - 2, adds_adc r2 (ld16 m r0))) (r0, r1, r2) with
  | None => None
  | Some (r0, r1, r2) => Some (t2_tail m r0 r1 r2 r3)
  end.

(** Label 2: two words a round. *)
Definition t2_words (m : memory) (r0 r1 r2 r3 : Z) : option Z :=
  match loop (S (Z.to_nat r1)) (fun '(r0, r1, r2) =>
          if r1 <? 8 then inr (r0, r1, r2)
          else
            let r2 := adds_adc r2 (ld32 m r0) in
            let r2 := adds_adc r2 (ld32 m (r0 + 4)) in
            inl (r0 + 8, r1 - 8, r2)) (r0, r1, r2) with
  | None => None
  | Some (r0, r1, r2) => t2_halves m r0 r1 r2 r3
  end.

(** Label 1: align to four bytes. *)
Definition t2_align (m : memory) (r0 r1 r2 r3 : Z) : option Z :=
  if Z.land r0 3 =? 0 then t2_words m r0 r1 r2 r3
  else if r1 <? 2 then Some (t2_tail m r0 r1 r2 r3)
  else t2_words m (r0 + 2) (r1 - 2) (u32 (r2 + ld16 m r0)) r3.

Definition thumb2_checksum (m : memory) (pData length : Z) : option Z :=
  let r3 := Z.land pData 1 in
  if r3 =? 0 then t2_align m pData length 0 r3
  else if length =? 0 then Some 0
  else t2_align m (pData + 1) (length - 1) (u32 (Z.shiftl (m pData) 8)) r3.

(** ** Sums over chains *)

Section Chains.
(** [LWIP_CHKSUM], the routine the port chooses. *)
Context (LWIP_CHKSUM : memory -> Z -> Z -> option Z).
Context (fuel : nat).

(** [inet_chksum] *)
Definition inet_chksum (m : memory) (dataptr len : Z) : option Z :=
  match LWIP_CHKSUM m dataptr len with None => None | Some c => Some (u16 (Z.lnot c)) end.

(** A round of the loop over the chain of [inet_chksum_pbuf] and of the pseudo
    header functions; [chksum_len] bounds the bytes for the partial versions
    ([None] for the others). *)
Definition chain_step (st : pstate) :
    Z * option Z * Z * bool -> (Z * option Z * Z * bool) + option (Z * bool) :=
  fun '(q, chksum_len, acc, swapped) =>
    if negb (q =? NULL) && match chksum_len with None => true | Some n => 0 <? n end then
      let chklen := match chksum_len with
                    | None => pb_len (pb st q)
                    | Some n => if n <? pb_len (pb st q) then n else pb_len (pb st q)
                    end in
      match LWIP_CHKSUM (data st) (pb_payload (pb st q)) chklen with
      | None => inr None
      | Some c =>
          let acc := u32 (acc + c) in
          let chksum_len := match chksum_len with None => None | Some n => Some (u16 (n - chklen)) end in
          let acc := FOLD_U32T acc in
          if negb (pb_len (pb st q) mod 2 =? 0)
          then inl (pb_next (pb st q), chksum_len, SWAP_BYTES_IN_WORD acc, negb swapped)
          else inl (pb_next (pb st q), chksum_len, acc, swapped)
      end
    else inr (Some (acc, swapped)).

(** The accumulator behind the loop, swapped back. *)
Definition sum_chain (st : pstate) (p : Z) (chksum_len : option Z) (acc : Z) : option Z :=
  match loop fuel (chain_step st) (p, chksum_len, acc, false) with
  | None | Some None => None
  | Some (Some (acc, swapped)) => Some (if (swapped : bool) then SWAP_BYTES_IN_WORD acc else acc)
  end.

(** [inet_chksum_pbuf] *)
Definition inet_chksum_pbuf (st : pstate) (p : Z) : option Z :=
  match sum_chain st p None 0 with
  | None => None
  | Some acc => Some (u16 (Z.lnot (Z.land acc 0xffff)))
  end.

(** The end of [inet_cksum_pseudo_base] and [inet_cksum_pseudo_partial_base]. *)
Definition pseudo_end (acc proto proto_len : Z) : Z :=
  let acc := u32 (acc + lwip_htons (u16 proto)) in
  let acc := u32 (acc + lwip_htons proto_len) in
  let acc := FOLD_U32T acc in
  let acc := FOLD_U32T acc in
  u16 (Z.lnot (Z.land acc 0xffff)).

Definition inet_cksum_pseudo_base (st : pstate) (p proto proto_len acc : Z) : option Z :=
  match sum_chain st p None acc with
  | None => None
  | Some acc => Some (pseudo_end acc proto proto_len)
  end.

Definition inet_cksum_pseudo_partial_base (st : pstate) (p proto proto_len chksum_len acc : Z) : option Z :=
  match sum_chain st p (Some chksum_len) acc with
  | None => None
  | Some acc => Some (pseudo_end acc proto proto_len)
  end.

(** The addresses of the pseudo header, folded. *)
Definition pseudo_addrs (src dest : Z) : Z :=
  let acc := Z.land src 0xffff in
  let acc := u32 (acc + Z.land (Z.shiftr src 16) 0xffff) in
  let acc := u32 (acc + Z.land dest 0xffff) in
  let acc := u32 (acc + Z.land (Z.shiftr dest 16) 0xffff) in
  FOLD_U32T (FOLD_U32T acc).

Definition inet_chksum_pseudo (st : pstate) (p proto proto_len src dest : Z) : option Z :=
  inet_cksum_pseudo_base st p proto proto_len (pseudo_addrs src dest).
Definition inet_chksum_pseudo_partial (st : pstate) (p proto proto_len chksum_len src dest : Z) : option Z :=
  inet_cksum_pseudo_partial_base st p proto proto_len chksum_len (pseudo_addrs src dest).

(** Without IPv6 the functions for both families are those for IPv4. *)
Definition ip_chksum_pseudo (st : pstate) (p proto proto_len src dest : Z) : option Z :=
  inet_chksum_pseudo st p proto proto_len src dest.
Definition ip_chksum_pseudo_partial (st : pstate) (p proto proto_len chksum_len src dest : Z) : option Z :=
  inet_chksum_pseudo_partial st p proto proto_len chksum_len src dest.

(** [lwip_chksum_copy] (compiled with [LWIP_CHKSUM_COPY_ALGORITHM] 1). *)
Definition lwip_chksum_copy (m : memory) (dst src len : Z) : memory * option Z :=
  let m := memcpy m dst src len in (m, LWIP_CHKSUM m dst len).

(** [pbuf_fill_chksum] of [core/pbuf.c] (compiled with [LWIP_CHECKSUM_ON_COPY]):
    the state, the updated [*chksum] and the error. *)
Definition pbuf_fill_chksum (st : pstate) (p start_offset dataptr len chksum : Z) : option (pstate * Z * Z) :=
  if (pb_len (pb st p) <=? start_offset) || (pb_len (pb st p) <? start_offset + len)
  then Some (st, chksum, ERR_ARG)
  else
    let dst_ptr := pb_payload (pb st p) + start_offset in
    let '(m, c) := lwip_chksum_copy (data st) dst_ptr dataptr len in
    match c with
    | None => None
    | Some copy_chksum =>
        let copy_chksum := if negb (Z.land start_offset 1 =? 0) then u16 (SWAP_BYTES_IN_WORD copy_chksum)
                           else copy_chksum in
        let acc := u32 (chksum + copy_chksum) in
        Some (set_data st m, u16 (FOLD_U32T acc), ERR_OK)
    end.

End Chains.

(** ** Ones' complement sums

    Two non-negative sums are equivalent when they are equal modulo 65535 and
    both or neither are zero: what folding, swapping and carrying preserve.  It
    is a partial equivalence (non-negative numbers), and addition and shifting
    by a byte respect it. *)

Definition oceq (a b : Z) : Prop :=
  0 <= a /\ 0 <= b /\ a mod 65535 = b mod 65535 /\ (a = 0 <-> b = 0).

Infix "≡oc" := oceq (at level 70).

#[export] Instance oceq_per : RelationClasses.PER oceq.
Proof.
  split.
  - intros a b (H1 & H2 & H3 & H4). unfold oceq. intuition congruence.
  - intros a b c (H1 & H2 & H3 & H4) (H5 & H6 & H7 & H8). unfold oceq. rewrite H3, H7. tauto.
Qed.

Lemma oceq_refl a : 0 <= a -> a ≡oc a.
Proof. unfold oceq. tauto. Qed.

#[export] Instance oceq_add : Proper (oceq ==> oceq ==> oceq) Z.add.
Proof.
  intros a a' (H1 & H2 & H3 & H4) b b' (H5 & H6 & H7 & H8). unfold oceq.
  split; [lia|]. split; [lia|]. split; [|lia]. by rewrite Z.add_mod, H3, H7, <- Z.add_mod by lia.
Qed.

Lemma oceq_mult k a b : 0 < k -> a ≡oc b -> k * a ≡oc k * b.
Proof.
  intros Hk (H1 & H2 & H3 & H4). unfold oceq. split; [nia|]. split; [nia|].
  split; [|nia]. by rewrite Z.mul_mod, H3, <- Z.mul_mod by lia.
Qed.

#[export] Instance oceq_mul256 : Proper (oceq ==> oceq) (Z.mul 256).
Proof. intros a b H. by apply oceq_mult. Qed.

(** A multiple of 65535 can be dropped as long as something is left. *)
Lemma oceq_drop a k : 0 < a -> 0 < a - 65535 * k -> a - 65535 * k ≡oc a.
Proof.
  intros. unfold oceq. split; [lia|]. split; [lia|]. split; [|lia].
  replace (a - 65535 * k) with (a + (- k) * 65535) by lia. by rewrite Z.mod_add by lia.
Qed.

Lemma oceq_65536 a : 0 <= a -> 65536 * a ≡oc a.
Proof.
  intros Ha. destruct (Z.eq_dec a 0) as [->|]; [by apply oceq_refl|]. symmetry.
  replace a with (65536 * a - 65535 * a) at 1 by lia. apply oceq_drop; lia.
Qed.

Lemma oceq_65536_pow j x : 0 <= j -> 0 <= x -> 65536 ^ j * x ≡oc x.
Proof.
  intros Hj Hx. revert j Hj. apply natlike_ind; [rewrite Z.pow_0_r, Z.mul_1_l; by apply oceq_refl|].
  intros j Hj IH. rewrite Z.pow_succ_r, <- Z.mul_assoc by done. rewrite oceq_65536; [done|]. nia.
Qed.

(** Equivalent 16-bit sums are equal. *)
Lemma oceq_eq a b : a ≡oc b -> a <= 65535 -> b <= 65535 -> a = b.
Proof.
  intros (H1 & H2 & H3 & H4) Ha Hb.
  destruct (Z.eq_dec a 0) as [->|Ha0]; [symmetry; tauto|].
  destruct (Z.eq_dec b 0) as [->|Hb0]; [tauto|]. dm.
Qed.

Lemma FOLD_eq u : 0 <= u < 4294967296 -> FOLD_U32T u = u / 65536 + u mod 65536.
Proof.
  intros. unfold FOLD_U32T. rewrite Z.shiftr_div_pow2 by lia. change 65535 with (Z.ones 16).
  rewrite Z.land_ones by lia. change (2 ^ 16) with 65536. rewrite u32_small; [done|dm].
Qed.

Lemma FOLD_oceq u : 0 <= u < 4294967296 -> FOLD_U32T u ≡oc u.
Proof.
  intros. rewrite FOLD_eq by done. destruct (Z.eq_dec u 0) as [->|]; [by apply oceq_refl|].
  replace (u / 65536 + u mod 65536) with (u - 65535 * (u / 65536)) by dm.
  apply oceq_drop; [lia|]. dm.
Qed.

Lemma FOLD_bound1 u : 0 <= u < 4294967296 -> 0 <= FOLD_U32T u <= 131070.
Proof. intros. rewrite FOLD_eq by done. dm. Qed.
Lemma FOLD_bound2 u : 0 <= u <= 131070 -> 0 <= FOLD_U32T u <= 65535.
Proof. intros. rewrite FOLD_eq by lia. dm. Qed.

(** Two folds bring any 32-bit sum to 16 bits. *)
Lemma FOLD_twice u :
  0 <= u < 4294967296 -> 0 <= FOLD_U32T (FOLD_U32T u) <= 65535 /\ FOLD_U32T (FOLD_U32T u) ≡oc u.
Proof.
  intros H. pose proof (FOLD_bound1 u H). split; [by apply FOLD_bound2|].
  rewrite FOLD_oceq by lia. by apply FOLD_oceq.
Qed.

Lemma SWAP_eq w : 0 <= w <= 65535 -> SWAP_BYTES_IN_WORD w = 256 * (w mod 256) + w / 256.
Proof.
  intros. unfold SWAP_BYTES_IN_WORD.
  replace (Z.land w 0xff) with (w mod 256) by (change 0xff with (Z.ones 8); by rewrite Z.land_ones).
  replace (Z.land w 0xff00) with ((w / 256) mod 256 * 256)
    by (change 0xff00 with (Z.shiftl (Z.ones 8) 8); by rewrite land_field by lia).
  rewrite Z.shiftr_div_pow2 by lia. change (2 ^ 8) with 256. rewrite Z.div_mul by lia.
  rewrite (Z.mod_small (w / 256)) by dm. rewrite lor_shiftl_add; [change (2 ^ 8) with 256; lia|lia|].
  change (2 ^ 8) with 256. dm.
Qed.

Lemma SWAP_oceq w : 0 <= w <= 65535 -> 0 <= SWAP_BYTES_IN_WORD w <= 65535 /\ SWAP_BYTES_IN_WORD w ≡oc 256 * w.
Proof.
  intros. rewrite SWAP_eq by done. split; [dm|].
  destruct (Z.eq_dec w 0) as [->|]; [by apply oceq_refl|].
  replace (256 * (w mod 256) + w / 256) with (256 * w - 65535 * (w / 256)) by dm.
  apply oceq_drop; [lia|dm].
Qed.

(** The end-around carry of the 32-bit additions. *)
Lemma carry_oceq s w :
  0 <= s < 4294967296 -> 0 <= w < 4294967296 ->
  let r := if 4294967296 <=? s + w then s + w - 4294967295 else s + w in
  0 <= r < 4294967296 /\ r ≡oc s + w.
Proof.
  intros Hs Hw. cbv zeta. destruct (Z.leb_spec 4294967296 (s + w)).
  - split; [lia|]. replace (s + w - 4294967295) with (s + w - 65535 * 65537) by lia. apply oceq_drop; lia.
  - split; [lia|]. apply oceq_refl. lia.
Qed.

Lemma adds_adc_oceq s w :
  0 <= s < 4294967296 -> 0 <= w < 4294967296 -> 0 <= adds_adc s w < 4294967296 /\ adds_adc s w ≡oc s + w.
Proof.
  intros Hs Hw. pose proof (carry_oceq s w Hs Hw) as H. cbv zeta in H. unfold adds_adc.
  destruct (Z.leb_spec 4294967296 (s + w)).
  - replace (u32 (u32 (s + w) + 1)) with (s + w - 4294967295); [done|].
    unfold u32. rewrite Zplus_mod_idemp_l. rewrite <- (Z.mod_add _ (-1)) by lia. rewrite Z.mod_small; lia.
  - rewrite Z.add_0_r, !u32_small; [done|lia|]. rewrite u32_small; lia.
Qed.

Lemma add_back_carry_oceq s w :
  0 <= s < 4294967296 -> 0 <= w < 4294967296 -> 0 <= add_back_carry s w < 4294967296 /\ add_back_carry s w ≡oc s + w.
Proof.
  intros Hs Hw. pose proof (carry_oceq s w Hs Hw) as H. cbv zeta in H. unfold add_back_carry.
  destruct (Z.leb_spec 4294967296 (s + w)).
  - assert (E : u32 (s + w) = s + w - 4294967296).
    { unfold u32. rewrite <- (Z.mod_add _ (-1)) by lia. rewrite Z.mod_small; lia. }
    rewrite E, (proj2 (Z.ltb_lt _ _)), u32_small by lia. by replace (s + w - 4294967296 + 1) with (s + w - 4294967295) by lia.
  - rewrite u32_small by lia. rewrite (proj2 (Z.ltb_ge _ _)) by lia. done.
Qed.

(** ** The sum of a byte string *)

(** The byte string as one little-endian number: 2^16 is 1 modulo 65535, so it
    is equivalent to the sum of its words. *)
Fixpoint le_val (bs : list Z) : Z :=
  match bs with [] => 0 | b :: r => b + 256 * le_val r end.

Lemma le_val_nonneg bs : Forall is_byte bs -> 0 <= le_val bs.
Proof. induction 1 as [|b r Hb _ IH]; simpl; [lia|]. unfold is_byte in Hb. lia. Qed.

Lemma le_val_app a b : le_val (a ++ b) = le_val a + 256 ^ Z.of_nat (length a) * le_val b.
Proof.
  induction a as [|x a IH]; simpl le_val; [simpl; lia|]. rewrite IH. simpl length.
  rewrite Nat2Z.inj_succ, Z.pow_succ_r by lia. lia.
Qed.

(** The number of a string at an address, split after a byte, a half word or a word. *)
Definition num (m : memory) (a n : Z) : Z := le_val (bytes_at m a (Z.to_nat n)).

Lemma num_0 m a : num m a 0 = 0.
Proof. done. Qed.

Lemma num_nonneg m a n : mem_ok m -> 0 <= num m a n.
Proof. intros. apply le_val_nonneg. by apply bytes_at_ok. Qed.

Lemma num_step m a n k :
  0 <= k <= n -> num m a n = num m a k + 256 ^ k * num m (a + k) (n - k).
Proof.
  intros. unfold num. replace (Z.to_nat n) with (Z.to_nat k + Z.to_nat (n - k))%nat by lia.
  rewrite bytes_at_app, le_val_app, length_bytes_at, Z2Nat.id by lia. done.
Qed.

Lemma num_1 m a : num m a 1 = m a.
Proof. unfold num. simpl. lia. Qed.
Lemma num_2 m a : num m a 2 = ld16 m a.
Proof. unfold num, ld16. simpl. lia. Qed.
Lemma num_4 m a : num m a 4 = ld32 m a.
Proof. unfold num, ld32. simpl. rewrite <- !Z.add_assoc. change (1 + 1) with 2. change (1 + 2) with 3.
  simpl. replace (a + 1 + 1) with (a + 2) by lia. replace (a + 2 + 1) with (a + 3) by lia. lia. Qed.

(** Rewriting with the partial equivalence needs the terms it leaves alone to be
    non-negative. *)
Ltac oc_pos :=
  repeat match goal with
         | |- 0 <= _ + _ => apply Z.add_nonneg_nonneg
         | |- 0 <= _ * _ => apply Z.mul_nonneg_nonneg
         end;
  first [lia | apply num_nonneg; assumption].
#[export] Hint Extern 1 (ProperProxy oceq _) => (red; apply oceq_refl; oc_pos) : typeclass_instances.
#[export] Hint Extern 1 (Proper oceq _) => (red; apply oceq_refl; oc_pos) : typeclass_instances.

(** Taking an even number of bytes off the front. *)
Lemma num_even m a n k :
  mem_ok m -> 0 <= k <= n -> k mod 2 = 0 -> num m a n ≡oc num m a k + num m (a + k) (n - k).
Proof.
  intros Hm Hk He. rewrite (num_step m a n k) by done. pose proof (num_nonneg m (a + k) (n - k) Hm).
  apply oceq_add; [apply oceq_refl, num_nonneg, Hm|].
  replace k with (2 * (k / 2)) at 1 by dm. rewrite Z.pow_mul_r by dm. change (256 ^ 2) with 65536.
  apply oceq_65536_pow; [dm|done].
Qed.

(** ** The summing loops *)

(** A loop that takes [k] bytes a round (an even number) adds them, with weight
    [w], to the sum: what is left is less than [k] bytes. *)
Lemma sum_loop_w (m : memory) w k (add : Z -> Z -> Z) (bnd : Z -> Z -> Prop) fuel a len s :
  mem_ok m -> 0 < w -> 0 < k -> k mod 2 = 0 -> 0 <= len -> (Z.to_nat len < fuel)%nat -> 0 <= s -> bnd len s ->
  (forall a len s, k <= len -> 0 <= s -> bnd len s ->
     0 <= add a s /\ add a s ≡oc s + w * num m a k /\ bnd (len - k) (add a s)) ->
  exists s', loop fuel (fun '(a, len, s) => if len <? k then inr (a, len, s) else inl (a + k, len - k, add a s)) (a, len, s)
    = Some (a + (len - len mod k), len mod k, s') /\
    0 <= s' /\ bnd (len mod k) s' /\ s' + w * num m (a + (len - len mod k)) (len mod k) ≡oc s + w * num m a len.
Proof.
  intros Hm Hw Hk He Hl Hf Hs Hb Hadd. revert a len s Hl Hf Hs Hb.
  induction fuel as [|fuel IH]; intros a len s Hl Hf Hs Hb; [lia|]. cbn [loop].
  destruct (Z.ltb_spec len k) as [Hlt|Hge].
  - rewrite !(Z.mod_small len k) by lia. rewrite Z.sub_diag, Z.add_0_r. exists s. split; [done|].
    split; [done|]. split; [done|]. apply oceq_refl. oc_pos.
  - destruct (Hadd a len s Hge Hs Hb) as (H1 & H2 & H3).
    destruct (IH (a + k) (len - k) (add a s)) as (s' & Hlp & H4 & H5 & H6); [lia|lia|done|done|].
    assert (Emod : (len - k) mod k = len mod k).
    { replace (len - k) with (len + (-1) * k) by lia. by rewrite Z.mod_add by lia. }
    rewrite Emod in *. replace (a + k + (len - k - len mod k)) with (a + (len - len mod k)) in * by lia.
    exists s'. split; [done|]. split; [done|]. split; [done|]. rewrite H6, H2.
    rewrite <- Z.add_assoc, <- Z.mul_add_distr_l. apply oceq_add; [by apply oceq_refl|].
    apply oceq_mult; [done|]. symmetry. apply num_even; [done|lia|done].
Qed.

Lemma sum_loop (m : memory) k (add : Z -> Z -> Z) (bnd : Z -> Z -> Prop) fuel a len s :
  mem_ok m -> 0 < k -> k mod 2 = 0 -> 0 <= len -> (Z.to_nat len < fuel)%nat -> 0 <= s -> bnd len s ->
  (forall a len s, k <= len -> 0 <= s -> bnd len s ->
     0 <= add a s /\ add a s ≡oc s + num m a k /\ bnd (len - k) (add a s)) ->
  exists s', loop fuel (fun '(a, len, s) => if len <? k then inr (a, len, s) else inl (a + k, len - k, add a s)) (a, len, s)
    = Some (a + (len - len mod k), len mod k, s') /\
    0 <= s' /\ bnd (len mod k) s' /\ s' + num m (a + (len - len mod k)) (len mod k) ≡oc s + num m a len.
Proof.
  intros Hm Hk He Hl Hf Hs Hb Hadd.
  destruct (sum_loop_w m 1 k add bnd fuel a len s) as (s' & Hlp & H); auto; [lia|intros; rewrite Z.mul_1_l; auto|].
  rewrite !Z.mul_1_l in H. eauto.
Qed.

Lemma loop_ext {S R} (f g : S -> S + R) n s : (forall s, f s = g s) -> loop n f s = loop n g s.
Proof. intros E. revert s. induction n as [|n IH]; intros s; simpl; [done|]. rewrite E. by destruct (g s). Qed.

(** The half word loop of versions 2 and 3, whose sums do not overflow. *)
Lemma add_halves_spec m ps len s :
  mem_ok m -> 0 <= len < 65536 -> 0 <= s -> s + 32768 * len < 4294901760 ->
  exists s', add_halves m ps len s = Some (ps + (len - len mod 2), len mod 2, s') /\
    0 <= s' /\ s' + 32768 * (len mod 2) < 4294901760 /\
    s' + num m (ps + (len - len mod 2)) (len mod 2) ≡oc s + num m ps len.
Proof.
  intros Hm Hl Hs Hb. unfold add_halves.
  destruct (sum_loop m 2 (fun a s => u32 (s + ld16 m a)) (fun len s => s + 32768 * len < 4294901760)
              (S (Z.to_nat len)) ps len s) as (s' & Hlp & H); auto; try lia.
  - intros a n x Hn Hx Hxb. pose proof (ld16_range m a Hm). rewrite u32_small by lia. split; [lia|].
    split; [rewrite num_2; apply oceq_refl; lia|lia].
  - exists s'. split; [|done]. rewrite <- Hlp. apply loop_ext. intros [[a n] x].
    destruct (Z.ltb_spec 1 n), (Z.ltb_spec n 2); try lia; done.
Qed.

(** The tail byte in the low half of [t]. *)
Lemma tail_byte m a n : 0 <= n < 2 -> num m a n = if 0 <? n then m a else 0.
Proof. intros. assert (n = 0 \/ n = 1) as [-> | ->] by lia; simpl; [done|]. apply num_1. Qed.

(** What a summing routine promises to the functions that use it. *)
Class Chksum (f : memory -> Z -> Z -> option Z) : Prop :=
  chksum_spec : forall m a len, mem_ok m -> 0 <= a -> 0 <= len < 65536 ->
    exists c, f m a len = Some c /\ 0 <= c <= 65535 /\ c ≡oc num m a len.

(** The end of versions 2 and 3: two folds, and a swap when the data started at
    an odd address, where the sum is that of the bytes shifted by one. *)
Lemma finish_odd (odd : bool) sum total :
  0 <= sum < 4294967296 -> 0 <= total -> sum ≡oc (if odd then 256 * total else total) ->
  let r := FOLD_U32T (FOLD_U32T sum) in
  let r := u16 (if odd then SWAP_BYTES_IN_WORD r else r) in
  0 <= r <= 65535 /\ r ≡oc total.
Proof.
  intros Hs Ht E. cbv zeta. destruct (FOLD_twice sum Hs) as [Hb Hf]. destruct odd.
  - destruct (SWAP_oceq _ Hb) as [Hb2 Hs2]. rewrite u16_small by lia. split; [done|].
    rewrite Hs2, Hf, E. replace (256 * (256 * total)) with (65536 * total) by lia. by apply oceq_65536.
  - rewrite u16_small by lia. split; [done|]. by rewrite Hf, E.
Qed.

Lemma odd_bit a : 0 <= a -> Z.land a 1 = a mod 2.
Proof. intros. change 1 with (Z.ones 1) at 1. by rewrite Z.land_ones. Qed.

(** The bytes from an odd address on: the first one in the high half. *)
Lemma num_odd m a n :
  mem_ok m -> 0 < n -> 256 * m a + num m (a + 1) (n - 1) ≡oc 256 * num m a n.
Proof.
  intros Hm Hn. rewrite (num_step m a n 1) by lia. rewrite num_1. change (256 ^ 1) with 256.
  pose proof (Hm a). pose proof (num_nonneg m (a + 1) (n - 1) Hm).
  replace (256 * (m a + 256 * num m (a + 1) (n - 1))) with (256 * m a + 65536 * num m (a + 1) (n - 1)) by lia.
  apply oceq_add; [apply oceq_refl; lia|]. symmetry. by apply oceq_65536.
Qed.

(** The start of versions 2 and 3: a byte at an odd address goes to the high half
    of [t]. *)
Lemma odd_start m a len :
  mem_ok m -> 0 <= a -> 0 <= len < 65536 ->
  let odd := negb (Z.land a 1 =? 0) in
  exists t pb n,
    (if odd && (0 <? len) then (256 * m a, a + 1, len - 1) else (0, a, len)) = (t, pb, n) /\
    0 <= n <= len /\ 0 <= pb /\ 0 <= t <= 65280 /\ t mod 256 = 0 /\
    t + num m pb n ≡oc (if odd then 256 * num m a len else num m a len).
Proof.
  intros Hm Ha Hl odd. pose proof (Hm a) as Hma. destruct odd; cbn [andb].
  - destruct (Z.ltb_spec 0 len) as [Hp|Hz].
    + exists (256 * m a), (a + 1), (len - 1). split; [done|]. split; [lia|]. split; [lia|]. split; [lia|].
      split; [dm|]. apply num_odd; [done|lia].
    + assert (len = 0) by lia. subst len. exists 0, a, 0. split; [done|]. split; [lia|]. split; [lia|].
      split; [lia|]. split; [done|]. by apply oceq_refl.
  - exists 0, a, len. split; [done|]. split; [lia|]. split; [lia|]. split; [lia|]. split; [done|].
    apply oceq_refl. oc_pos.
Qed.

(** The end of versions 2 and 3: half words, the tail byte and [t], fold, swap. *)
Lemma halves_finish m (odd : bool) t pb n s0 total :
  mem_ok m -> 0 <= n < 65536 -> 0 <= t <= 65280 -> t mod 256 = 0 -> 0 <= s0 <= 131070 -> 0 <= total ->
  t + (s0 + num m pb n) ≡oc (if odd then 256 * total else total) ->
  exists c, match add_halves m pb n s0 with
    | None => None
    | Some (ps, len, sum) =>
        let t := if 0 <? len then m ps + 256 * (t / 256) else t in
        let sum := u32 (sum + t) in
        let sum := FOLD_U32T sum in
        let sum := FOLD_U32T sum in
        let sum := if odd then SWAP_BYTES_IN_WORD sum else sum in
        Some (u16 sum)
    end = Some c /\ 0 <= c <= 65535 /\ c ≡oc total.
Proof.
  intros Hm Hn Ht Ht256 Hs0 Htot Et.
  destruct (add_halves_spec m pb n s0 Hm ltac:(lia) ltac:(lia) ltac:(lia)) as (s & -> & Hs & Hsb & Es).
  assert (Hmod : 0 <= n mod 2 < 2) by dm. pose proof (Hm (pb + (n - n mod 2))) as Hmt.
  set (t' := if 0 <? n mod 2 then m (pb + (n - n mod 2)) + 256 * (t / 256) else t).
  assert (Et' : t' = t + num m (pb + (n - n mod 2)) (n mod 2)).
  { unfold t'. rewrite tail_byte by done. destruct (0 <? n mod 2); dm. }
  assert (Ht' : 0 <= t' <= 65535) by (unfold t'; destruct (0 <? n mod 2); dm).
  eexists. split; [done|]. apply (finish_odd odd); [rewrite u32_small; lia|done|].
  rewrite u32_small by lia. rewrite Et'.
  replace (s + (t + num m (pb + (n - n mod 2)) (n mod 2))) with (t + (s + num m (pb + (n - n mod 2)) (n mod 2))) by lia.
  rewrite Es. exact Et.
Qed.

#[export] Instance chksum2_spec : Chksum chksum2.
Proof.
  intros m a len Hm Ha Hl. unfold chksum2.
  destruct (odd_start m a len Hm Ha Hl) as (t & pb & n & -> & Hn & _ & Ht & Ht256 & Et).
  apply halves_finish; auto; try lia. apply num_nonneg, Hm.
Qed.

(** The word loop of version 3. *)
Lemma words_loop m add a len s :
  mem_ok m -> 0 <= len -> 0 <= s < 4294967296 ->
  (forall s w, 0 <= s < 4294967296 -> 0 <= w < 4294967296 -> 0 <= add s w < 4294967296 /\ add s w ≡oc s + w) ->
  exists s', loop (S (Z.to_nat len)) (fun '(a, len, s) =>
      if len <? 8 then inr (a, len, s) else inl (a + 8, len - 8, add (add s (ld32 m a)) (ld32 m (a + 4)))) (a, len, s)
    = Some (a + (len - len mod 8), len mod 8, s') /\
    0 <= s' < 4294967296 /\ s' + num m (a + (len - len mod 8)) (len mod 8) ≡oc s + num m a len.
Proof.
  intros Hm Hl Hs Hadd.
  destruct (sum_loop m 8 (fun a s => add (add s (ld32 m a)) (ld32 m (a + 4))) (fun _ s => s < 4294967296)
              (S (Z.to_nat len)) a len s) as (s' & Hlp & H1 & H2 & H3); auto; try lia.
  - intros b n x Hn Hx Hxb. pose proof (ld32_range m b Hm). pose proof (ld32_range m (b + 4) Hm).
    destruct (Hadd x (ld32 m b)) as [Hb1 He1]; [lia|lia|].
    destruct (Hadd (add x (ld32 m b)) (ld32 m (b + 4))) as [Hb2 He2]; [lia|lia|].
    split; [lia|]. split; [|lia]. rewrite He2, He1. rewrite (num_even m b 8 4) by (done || lia).
    rewrite num_4. change (8 - 4) with 4. rewrite num_4, Z.add_assoc. apply oceq_refl. lia.
  - exists s'. split; [done|]. split; [lia|done].
Qed.

#[export] Instance chksum3_spec : Chksum chksum3.
Proof.
  intros m a len Hm Ha Hl. unfold chksum3.
  destruct (odd_start m a len Hm Ha Hl) as (t & pb & n & -> & Hn & Hpb & Ht & Ht256 & Et).
  pose proof (ld16_range m pb Hm) as Hld.
  assert (Hx : exists ps n1 s1,
    (if negb (Z.land pb 3 =? 0) && (1 <? n) then (pb + 2, n - 2, u32 (0 + ld16 m pb)) else (pb, n, 0)) = (ps, n1, s1) /\
    0 <= n1 <= n /\ 0 <= s1 <= 65535 /\ s1 + num m ps n1 ≡oc num m pb n).
  { destruct (negb (Z.land pb 3 =? 0)); cbn [andb]; [|exists pb, n, 0; repeat split; try lia; apply oceq_refl; oc_pos].
    destruct (Z.ltb_spec 1 n) as [H1|H1]; [|exists pb, n, 0; repeat split; try lia; apply oceq_refl; oc_pos].
    exists (pb + 2), (n - 2), (ld16 m pb). rewrite u32_small by lia. split; [done|]. split; [lia|]. split; [lia|].
    rewrite (num_even m pb n 2), num_2 by (done || lia). apply oceq_refl. oc_pos. }
  destruct Hx as (ps & n1 & s1 & -> & Hn1 & Hs1 & Es1).
  destruct (words_loop m add_back_carry ps n1 s1 Hm ltac:(lia) ltac:(lia) add_back_carry_oceq) as (s & Hlp & Hs & Es).
  erewrite loop_ext; [rewrite Hlp|intros [[x y] z]; destruct (Z.ltb_spec 7 y), (Z.ltb_spec y 8); try lia; reflexivity].
  apply halves_finish; auto; try lia; [dm|apply FOLD_bound1; lia|apply num_nonneg, Hm|].
  rewrite FOLD_oceq by lia. rewrite Es, Es1. exact Et.
Qed.

(** The Thumb-2 labels, from the last to the first: [r3] is 1 when the bytes
    summed so far are shifted by one, and then the sum is [256] times the total. *)
Definition shifted (r3 total : Z) : Z := if r3 =? 0 then total else 256 * total.

Lemma ubfx_fold u : 0 <= u < 4294967296 -> u32 (Z.land u 0xffff + Z.land (Z.shiftr u 16) 0xffff) = FOLD_U32T u.
Proof.
  intros Hu. rewrite FOLD_eq by done. rewrite Z.shiftr_div_pow2 by lia. change 0xffff with (Z.ones 16).
  rewrite !Z.land_ones by lia. change (2 ^ 16) with 65536. rewrite (Z.mod_small (u / 65536)) by dm.
  rewrite u32_small; dm.
Qed.

(** [rev16] of a 16-bit value swaps its bytes. *)
Lemma rev16_swap f : 0 <= f <= 65535 ->
  Z.lor (Z.lor (Z.shiftl (Z.land f 0xff) 8) (Z.shiftr (Z.land f 0xff00) 8))
    (Z.lor (Z.shiftl (Z.land f 0xff0000) 8) (Z.shiftr (Z.land f 0xff000000) 8)) = SWAP_BYTES_IN_WORD f.
Proof.
  intros Hf. assert (H16 : f / 2 ^ 16 = 0) by (apply Z.div_small; lia).
  assert (H24 : f / 2 ^ 24 = 0) by (apply Z.div_small; lia).
  replace (Z.land f 0xff0000) with 0
    by (change 0xff0000 with (Z.shiftl (Z.ones 8) 16); rewrite land_field by lia; by rewrite H16).
  replace (Z.land f 0xff000000) with 0
    by (change 0xff000000 with (Z.shiftl (Z.ones 8) 24); rewrite land_field by lia; by rewrite H24).
  change (Z.shiftl 0 8) with 0. change (Z.shiftr 0 8) with 0. change (Z.lor 0 0) with 0. apply Z.lor_0_r.
Qed.

Lemma t2_fold_spec r2 r3 total :
  0 <= r2 < 4294967296 -> 0 <= total -> r2 ≡oc shifted r3 total ->
  0 <= t2_fold r2 r3 <= 65535 /\ t2_fold r2 r3 ≡oc total.
Proof.
  intros Hr Ht E. unfold t2_fold. rewrite (ubfx_fold r2) by done. pose proof (FOLD_bound1 r2 Hr).
  rewrite (ubfx_fold (FOLD_U32T r2)) by lia. destruct (FOLD_twice r2 Hr) as [Hb _].
  rewrite rev16_swap by done. unfold shifted in E.
  pose proof (finish_odd (negb (r3 =? 0)) r2 total Hr Ht) as H2. cbv zeta in H2.
  destruct (SWAP_oceq _ Hb) as [Hsb _].
  destruct (r3 =? 0); cbn [negb] in H2; rewrite u16_small in H2 by lia; auto.
Qed.

Lemma t2_tail_spec m r0 r1 r2 r3 total :
  mem_ok m -> 0 <= r1 < 2 -> 0 <= r2 < 4294967296 -> 0 <= total -> r2 + num m r0 r1 ≡oc shifted r3 total ->
  0 <= t2_tail m r0 r1 r2 r3 <= 65535 /\ t2_tail m r0 r1 r2 r3 ≡oc total.
Proof.
  intros Hm H1 H2 Ht E. unfold t2_tail. pose proof (Hm r0) as Hb. rewrite tail_byte in E by done.
  destruct (adds_adc_oceq r2 (m r0)) as [Ha Ea]; [done|lia|].
  destruct (Z.eqb_spec r1 0) as [-> |Hn].
  - rewrite Z.ltb_irrefl, Z.add_0_r in E. by apply t2_fold_spec.
  - rewrite (proj2 (Z.ltb_lt 0 r1)) in E by lia. apply t2_fold_spec; [done|done|]. by rewrite Ea.
Qed.

Lemma t2_halves_spec m r0 r1 r2 r3 total :
  mem_ok m -> 0 <= r1 -> 0 <= r2 < 4294967296 -> 0 <= total -> r2 + num m r0 r1 ≡oc shifted r3 total ->
  exists c, t2_halves m r0 r1 r2 r3 = Some c /\ 0 <= c <= 65535 /\ c ≡oc total.
Proof.
  intros Hm H1 H2 Ht E. unfold t2_halves.
  destruct (sum_loop m 2 (fun a s => adds_adc s (ld16 m a)) (fun _ s => s < 4294967296)
              (S (Z.to_nat r1)) r0 r1 r2) as (s & -> & Hs1 & Hs2 & Es); auto; try lia.
  - intros b n x Hn Hx Hxb. pose proof (ld16_range m b Hm).
    destruct (adds_adc_oceq x (ld16 m b)) as [Ha Ea]; [lia|lia|]. rewrite num_2. split; [lia|]. split; [done|lia].
  - eexists. split; [done|]. apply t2_tail_spec; auto; [dm|]. by rewrite Es.
Qed.

Lemma t2_words_spec m r0 r1 r2 r3 total :
  mem_ok m -> 0 <= r1 -> 0 <= r2 < 4294967296 -> 0 <= total -> r2 + num m r0 r1 ≡oc shifted r3 total ->
  exists c, t2_words m r0 r1 r2 r3 = Some c /\ 0 <= c <= 65535 /\ c ≡oc total.
Proof.
  intros Hm H1 H2 Ht E. unfold t2_words.
  destruct (words_loop m adds_adc r0 r1 r2 Hm H1 H2 adds_adc_oceq) as (s & Hlp & Hs & Es).
  cbv zeta. rewrite Hlp. apply t2_halves_spec; auto; [dm|]. by rewrite Es.
Qed.

Lemma t2_align_spec m r0 r1 r2 r3 total :
  mem_ok m -> 0 <= r1 -> 0 <= r2 <= 65280 -> 0 <= total -> r2 + num m r0 r1 ≡oc shifted r3 total ->
  exists c, t2_align m r0 r1 r2 r3 = Some c /\ 0 <= c <= 65535 /\ c ≡oc total.
Proof.
  intros Hm H1 H2 Ht E. unfold t2_align. destruct (Z.land r0 3 =? 0); [apply t2_words_spec; auto; lia|].
  destruct (Z.ltb_spec r1 2) as [Hlt|Hge].
  - eexists. split; [done|]. apply t2_tail_spec; auto; lia.
  - pose proof (ld16_range m r0 Hm). rewrite u32_small by lia. apply t2_words_spec; auto; try lia.
    rewrite <- E, (num_even m r0 r1 2), num_2 by (done || lia). rewrite Z.add_assoc. apply oceq_refl. oc_pos.
Qed.

#[export] Instance thumb2_spec : Chksum thumb2_checksum.
Proof.
  intros m a len Hm Ha Hl. unfold thumb2_checksum. pose proof (Hm a) as Hma.
  pose proof (num_nonneg m a len Hm) as Hnum.
  destruct (Z.eqb_spec (Z.land a 1) 0) as [E|E].
  - apply t2_align_spec; auto; try lia. rewrite E. apply oceq_refl. oc_pos.
  - destruct (Z.eqb_spec len 0) as [-> |Hn]; [exists 0; rewrite num_0; auto using oceq_refl with lia|].
    rewrite Z.shiftl_mul_pow2 by lia. change (2 ^ 8) with 256. rewrite u32_small by lia.
    apply t2_align_spec; auto; try lia. unfold shifted. rewrite (proj2 (Z.eqb_neq _ _) E).
    rewrite (Z.mul_comm (m a)). apply num_odd; [done|lia].
Qed.

(** Version 1 sums the words in network order, [256] times their host order sum. *)
Lemma chksum1_end acc total :
  0 <= acc < 4294967296 -> 0 <= total -> acc ≡oc 256 * total ->
  let acc := u32 (Z.shiftr acc 16 + Z.land acc 0x0000ffff) in
  let acc := if negb (Z.land acc 0xffff0000 =? 0)
             then u32 (Z.shiftr acc 16 + Z.land acc 0x0000ffff) else acc in
  0 <= lwip_htons (u16 acc) <= 65535 /\ lwip_htons (u16 acc) ≡oc total.
Proof.
  intros Ha Ht E. cbv zeta. change (u32 (Z.shiftr acc 16 + Z.land acc 65535)) with (FOLD_U32T acc).
  pose proof (FOLD_bound1 acc Ha) as Hb. destruct (FOLD_twice acc Ha) as [Hb2 Hf].
  set (f := if negb _ then _ else _).
  assert (Hff : 0 <= f <= 65535 /\ f ≡oc acc).
  { unfold f. change 0xffff0000 with (Z.shiftl (Z.ones 16) 16). rewrite land_field by lia.
    rewrite (Z.mod_small (_ / _)) by dm. destruct (Z.eqb_spec (FOLD_U32T acc / 2 ^ 16 * 2 ^ 16) 0) as [E0|E0]; cbn [negb].
    - split; [dm|]. by apply FOLD_oceq.
    - done. }
  destruct Hff as [Hfb Hfe]. rewrite u16_small by lia.
  assert (Es : lwip_htons f = SWAP_BYTES_IN_WORD f) by (rewrite SWAP_eq, lwip_htons_eq by lia; lia).
  rewrite Es. destruct (SWAP_oceq f Hfb) as [Hs1 Hs2]. split; [done|]. rewrite Hs2, Hfe, E.
  replace (256 * (256 * total)) with (65536 * total) by lia. by apply oceq_65536.
Qed.

Lemma be_word m a : mem_ok m ->
  Z.lor (u16 (Z.shiftl (m a) 8)) (m (a + 1)) = 256 * m a + m (a + 1) /\
  256 * m a + m (a + 1) ≡oc 256 * num m a 2.
Proof.
  intros Hm. pose proof (Hm a). pose proof (Hm (a + 1)). split.
  - rewrite u16_small; [|rewrite Z.shiftl_mul_pow2 by lia; change (2 ^ 8) with 256; lia].
    rewrite lor_shiftl_add; change (2 ^ 8) with 256; lia.
  - rewrite num_2. unfold ld16.
    replace (256 * (m a + 256 * m (a + 1))) with (256 * m a + 65536 * m (a + 1)) by lia.
    apply oceq_add; [apply oceq_refl; lia|]. symmetry. apply oceq_65536. lia.
Qed.

#[export] Instance chksum1_spec : Chksum chksum1.
Proof.
  intros m a len Hm Ha Hl. unfold chksum1.
  destruct (sum_loop_w m 256 2 (fun a s => u32 (s + Z.lor (u16 (Z.shiftl (m a) 8)) (m (a + 1))))
              (fun len s => s + 32768 * len < 4294901760) (S (Z.to_nat len)) a len 0) as (s & Hlp & Hs & Hb & Es); auto; try lia.
  - intros b n x Hn Hx Hxb. destruct (be_word m b Hm) as [-> E]. pose proof (Hm b). pose proof (Hm (b + 1)).
    rewrite u32_small by lia. split; [lia|]. split; [|lia]. apply oceq_add; [by apply oceq_refl|done].
  - erewrite loop_ext; [rewrite Hlp|intros [[x y] z]; destruct (Z.ltb_spec 1 y), (Z.ltb_spec y 2); try lia; reflexivity].
    eexists. split; [done|]. pose proof (Hm (a + (len - len mod 2))) as Hbt.
    rewrite (tail_byte m _ (len mod 2)) in Es by dm. apply chksum1_end; [| |rewrite <- Es]; try (oc_pos || apply num_nonneg, Hm).
    + destruct (0 <? len mod 2); [apply u32_range|dm].
    + destruct (0 <? len mod 2) eqn:E; zb; [|rewrite Z.mul_0_r, Z.add_0_r; by apply oceq_refl].
      rewrite u16_small, u32_small; rewrite ?Z.shiftl_mul_pow2 by lia; change (2 ^ 8) with 256; try lia.
      rewrite (Z.mul_comm (m _)). apply oceq_refl. lia.
Qed.

(** ** RFC 1071

    Ones' complement addition of 16-bit words, and the sum of the little-endian
    words of a byte string, an odd last byte padded with 0. *)

Definition oc_plus (a b : Z) : Z := if a + b <? 65536 then a + b else a + b - 65535.

Fixpoint rfc1071 (bs : list Z) : Z :=
  match bs with
  | b0 :: b1 :: r => oc_plus (b0 + 256 * b1) (rfc1071 r)
  | [b0] => b0
  | [] => 0
  end.

Lemma oc_plus_oceq a b :
  0 <= a <= 65535 -> 0 <= b <= 65535 -> 0 <= oc_plus a b <= 65535 /\ oc_plus a b ≡oc a + b.
Proof.
  intros. unfold oc_plus. destruct (Z.ltb_spec (a + b) 65536); (split; [lia|]); [apply oceq_refl; lia|].
  replace (a + b - 65535) with (a + b - 65535 * 1) by lia. apply oceq_drop; lia.
Qed.

Lemma rfc1071_spec bs : Forall is_byte bs -> 0 <= rfc1071 bs <= 65535 /\ rfc1071 bs ≡oc le_val bs.
Proof.
  assert (forall n bs, (length bs <= n)%nat -> Forall is_byte bs ->
    0 <= rfc1071 bs <= 65535 /\ rfc1071 bs ≡oc le_val bs) as H; [|by apply (H (length bs))].
  induction n as [|n IH]; intros [|b0 [|b1 r]] Hn Hb; simpl in *; try lia; try (split; [lia|by apply oceq_refl]).
  - inversion Hb; subst. unfold is_byte in *. rewrite Z.add_0_r. split; [lia|]. apply oceq_refl. lia.
  - inversion Hb as [|? ? H0 Hb']; subst. inversion Hb' as [|? ? H1 Hb'']; subst.
    pose proof (le_val_nonneg r Hb''). unfold is_byte in *. destruct (IH r) as [Hr Er]; [lia|done|].
    destruct (oc_plus_oceq (b0 + 256 * b1) (rfc1071 r)) as [Hp Ep]; [lia|lia|]. split; [done|].
    replace (b0 + 256 * (b1 + 256 * le_val r)) with (b0 + 256 * b1 + 65536 * le_val r) by lia.
    rewrite Ep, oceq_65536, Er by done. apply oceq_refl. lia.
Qed.

(** A 16-bit value equivalent to the number of a string is its sum. *)
Lemma rfc1071_unique bs c : Forall is_byte bs -> c <= 65535 -> c ≡oc le_val bs -> c = rfc1071 bs.
Proof.
  intros Hb Hc E. destruct (rfc1071_spec bs Hb) as [H1 H2]. apply oceq_eq; [by transitivity (le_val bs)|done|lia].
Qed.

Lemma chksum_rfc1071 f `{!Chksum f} m a len :
  mem_ok m -> 0 <= a -> 0 <= len < 65536 -> f m a len = Some (rfc1071 (bytes_at m a (Z.to_nat len))).
Proof.
  intros Hm Ha Hl. destruct (chksum_spec m a len Hm Ha Hl) as (c & -> & Hc & E). f_equal.
  apply rfc1071_unique; [by apply bytes_at_ok|lia|done].
Qed.

(** ** Chains *)

Definition prefix (lim : option Z) (bs : list Z) : list Z :=
  match lim with None => bs | Some n => take (Z.to_nat n) bs end.

Definition weight (swapped : bool) : Z := if swapped then 256 else 1.

Lemma weight_step swapped n x :
  0 <= n -> 0 <= x -> weight swapped * (256 ^ n * x) ≡oc weight (if n mod 2 =? 0 then swapped else negb swapped) * x.
Proof.
  intros Hn Hx.
  assert (En : 256 ^ n = 256 ^ (n mod 2) * 65536 ^ (n / 2)).
  { change 65536 with (256 ^ 2). rewrite <- Z.pow_mul_r, <- Z.pow_add_r by dm. f_equal. dm. }
  rewrite En. pose proof (oceq_65536_pow (n / 2) x ltac:(dm) Hx) as Hj. set (y := 65536 ^ (n / 2) * x) in *.
  rewrite <- Z.mul_assoc. fold y. destruct (Z.eqb_spec (n mod 2) 0) as [E|E].
  - rewrite E, Z.pow_0_r, Z.mul_1_l. apply oceq_mult; [by destruct swapped|done].
  - replace (n mod 2) with 1 by dm. rewrite Z.pow_1_r. destruct swapped; simpl weight; rewrite ?Z.mul_1_l.
    + replace (256 * (256 * y)) with (65536 * y) by lia. rewrite oceq_65536; [done|]. by destruct Hj.
    + by apply oceq_mult.
Qed.

Section ChainSums.
Context (f : memory -> Z -> Z -> option Z) `{Hf : !Chksum f}.

Definition limit_ok (lim : option Z) : Prop := match lim with None => True | Some n => 0 <= n < 65536 end.

(** The pbuf at the front of a chain takes the first bytes of the prefix. *)
Lemma prefix_step st x l lim :
  0 <= pb_len (pb st x) -> limit_ok lim ->
  (match lim with None => true | Some n => 0 <? n end) = true ->
  let n := match lim with
           | None => pb_len (pb st x)
           | Some n => if n <? pb_len (pb st x) then n else pb_len (pb st x)
           end in
  let lim' := match lim with None => None | Some k => Some (u16 (k - n)) end in
  0 <= n <= pb_len (pb st x) /\ limit_ok lim' /\
  prefix lim (content st (x :: l)) =
    bytes_at (data st) (pb_payload (pb st x)) (Z.to_nat n) ++ prefix lim' (content st l) /\
  (n = pb_len (pb st x) \/ prefix lim' (content st l) = []).
Proof.
  intros Hx Hlim Hg. cbv zeta. simpl content. unfold payload_bytes. destruct lim as [n|]; cbn [prefix limit_ok] in *.
  - zb. destruct (Z.ltb_spec n (pb_len (pb st x))) as [Hlt|Hge].
    + rewrite Z.sub_diag, u16_small by lia. simpl. rewrite take_0, app_nil_r. split; [lia|]. split; [lia|].
      split; [|by right]. rewrite take_app_le by (rewrite length_bytes_at; lia). by rewrite bytes_at_take by lia.
    + rewrite u16_small by lia. split; [lia|]. split; [lia|]. split; [|by left].
      rewrite take_app, length_bytes_at. rewrite take_ge by (rewrite length_bytes_at; lia). do 2 f_equal. lia.
  - split; [lia|]. split; [done|]. split; [done|by left].
Qed.

Lemma content_ok st l : mem_ok (data st) -> Forall is_byte (content st l).
Proof. intros Hm. induction l; simpl; [constructor|]. apply Forall_app. split; [|done]. by apply bytes_at_ok. Qed.
Lemma prefix_ok lim bs : Forall is_byte bs -> Forall is_byte (prefix lim bs).
Proof. destruct lim; [apply Forall_take|done]. Qed.

(** A round keeps the weighted total. *)
Lemma chain_step_spec st x l lim acc swapped :
  mem_ok (data st) -> x <> NULL -> 0 <= pb_payload (pb st x) -> 0 <= pb_len (pb st x) < 65536 ->
  limit_ok lim -> 0 <= acc <= 65535 -> (match lim with None => true | Some n => 0 <? n end) = true ->
  exists lim' acc' swapped',
    chain_step f st (x, lim, acc, swapped) = inl (pb_next (pb st x), lim', acc', swapped') /\
    limit_ok lim' /\ 0 <= acc' <= 65535 /\
    weight swapped' * (acc' + le_val (prefix lim' (content st l))) ≡oc
      weight swapped * (acc + le_val (prefix lim (content st (x :: l)))).
Proof.
  intros Hm Hx Hpx Hx0 Hlim Hacc Hg. cbn [chain_step].
  rewrite (proj2 (Z.eqb_neq _ _) Hx). cbn [negb andb]. rewrite Hg.
  destruct (prefix_step st x l lim ltac:(lia) Hlim Hg) as (Hn & Hlim' & Epre & Elast). cbv zeta.
  set (n := match lim with
            | None => pb_len (pb st x)
            | Some n => if n <? pb_len (pb st x) then n else pb_len (pb st x)
            end) in *.
  set (lim' := match lim with None => None | Some k => _ end) in *.
  destruct (chksum_spec (data st) (pb_payload (pb st x)) n Hm Hpx ltac:(lia)) as (c & -> & Hcb & Ec).
  rewrite u32_small by lia. pose proof (FOLD_bound2 (acc + c) ltac:(lia)) as Hfb.
  pose proof (FOLD_oceq (acc + c) ltac:(lia)) as Hfe. set (a1 := FOLD_U32T (acc + c)) in *.
  destruct (SWAP_oceq a1 Hfb) as [Hsb Hse].
  pose proof (le_val_nonneg _ (prefix_ok lim' _ (content_ok st l Hm))) as Hr.
  pose proof (num_nonneg (data st) (pb_payload (pb st x)) n Hm) as Hnum.
  rewrite Epre, le_val_app, length_bytes_at, Z2Nat.id by lia. set (R := le_val (prefix lim' _)) in *.
  assert (ER : 256 ^ n * R = 256 ^ pb_len (pb st x) * R).
  { destruct Elast as [-> |E0]; [done|]. unfold R. rewrite E0. simpl. lia. }
  rewrite ER. fold (num (data st) (pb_payload (pb st x)) n).
  assert (Hw : 0 < weight swapped) by by destruct swapped.
  pose proof (weight_step swapped (pb_len (pb st x)) R ltac:(lia) Hr) as Hws. symmetry in Hws.
  assert (Eacc : acc + (num (data st) (pb_payload (pb st x)) n + 256 ^ pb_len (pb st x) * R) ≡oc
                 a1 + 256 ^ pb_len (pb st x) * R).
  { rewrite Hfe, Ec, Z.add_assoc. apply oceq_refl. oc_pos. }
  apply (oceq_mult _ _ _ Hw) in Eacc.
  exists lim'. destruct (Z.eqb_spec (pb_len (pb st x) mod 2) 0) as [E|E]; cbn [negb]; eexists _, _;
    (split; [done|]); (split; [done|]); (split; [done|]); rewrite Eacc, !Z.mul_add_distr_l;
    (apply oceq_add; [|exact Hws]).
  - apply oceq_refl. nia.
  - destruct swapped; cbn [weight negb] in *; rewrite ?Z.mul_1_l; [done|].
    rewrite Hse. replace (256 * (256 * a1)) with (65536 * a1) by lia. apply oceq_65536. lia.
Qed.

Lemma sum_chain_loop fuel st p l lim acc swapped :
  mem_ok (data st) -> pchain st p l -> sizes st l -> Forall (fun x => 0 <= pb_payload (pb st x)) l ->
  limit_ok lim -> 0 <= acc <= 65535 -> (length l < fuel)%nat ->
  exists acc' swapped', loop fuel (chain_step f st) (p, lim, acc, swapped) = Some (Some (acc', swapped')) /\
    0 <= acc' <= 65535 /\
    weight swapped' * acc' ≡oc weight swapped * (acc + le_val (prefix lim (content st l))).
Proof.
  intros Hm Hc Hs Hp Hlim Hacc Hfuel. revert p l lim acc swapped Hc Hs Hp Hlim Hacc Hfuel.
  induction fuel as [|fuel IH]; intros p l lim acc swapped Hc Hs Hp Hlim Hacc Hfuel; [lia|]. cbn [loop].
  assert (Hw : 0 < weight swapped) by by destruct swapped.
  assert (Hend : prefix lim (content st l) = [] -> chain_step f st (p, lim, acc, swapped) = inr (Some (acc, swapped)) ->
    exists acc' swapped', match chain_step f st (p, lim, acc, swapped) with
      | inl s => loop fuel (chain_step f st) s | inr r => Some r end = Some (Some (acc', swapped')) /\
    0 <= acc' <= 65535 /\
    weight swapped' * acc' ≡oc weight swapped * (acc + le_val (prefix lim (content st l)))).
  { intros -> ->. exists acc, swapped. split; [done|]. split; [done|]. simpl. rewrite Z.add_0_r. apply oceq_refl. nia. }
  destruct l as [|x l].
  { simpl in Hc. subst p. apply Hend; [destruct lim; simpl; by rewrite ?take_nil|done]. }
  destruct Hc as (-> & Hx & Hc). destruct (sizes_nonneg _ _ Hs) as [Hpl _]. pose proof (sizes_lt _ _ Hs) as Hlt.
  destruct Hs as (Hx0 & Htot & Hlt' & Hs). destruct (sizes_nonneg _ _ Hs) as [Hpl' _].
  apply Forall_cons_1 in Hp as [Hpx Hp]. cbn [plen] in *.
  destruct (match lim with None => true | Some n => 0 <? n end) eqn:Hg; cycle 1.
  { apply Hend; destruct lim as [n|]; try done; [|cbn [chain_step]; rewrite Hg, andb_false_r; done].
    zb. cbn [prefix]. by replace (Z.to_nat n) with 0%nat by lia. }
  destruct (chain_step_spec st x l lim acc swapped Hm Hx Hpx ltac:(lia) Hlim Hacc Hg)
    as (lim' & acc' & sw' & -> & Hlim' & Hacc' & E).
  destruct (IH (pb_next (pb st x)) l lim' acc' sw') as (acc2 & sw2 & -> & Hb2 & E2); auto; [simpl in Hfuel; lia|].
  exists acc2, sw2. split; [done|]. split; [done|]. by rewrite E2.
Qed.

Lemma sum_chain_spec fuel st p l lim acc :
  mem_ok (data st) -> pchain st p l -> sizes st l -> Forall (fun x => 0 <= pb_payload (pb st x)) l ->
  limit_ok lim -> 0 <= acc <= 65535 -> (length l < fuel)%nat ->
  exists s, sum_chain f fuel st p lim acc = Some s /\ 0 <= s <= 65535 /\
    s ≡oc acc + le_val (prefix lim (content st l)).
Proof.
  intros Hm Hc Hs Hp Hlim Hacc Hfuel. unfold sum_chain.
  destruct (sum_chain_loop fuel st p l lim acc false) as (a' & sw & -> & Hb & E); auto.
  cbn [weight] in E. rewrite Z.mul_1_l in E. eexists. split; [done|].
  destruct sw; cbn [weight] in E; [|by rewrite Z.mul_1_l in E]. destruct (SWAP_oceq a' Hb) as [H1 H2].
  split; [done|]. by rewrite H2.
Qed.
End ChainSums.

(** ** Pseudo headers *)

(** The twelve bytes of the IPv4 pseudo header. *)
Definition pseudo_header (src dest proto len : Z) : list Z :=
  u32_bytes src ++ u32_bytes dest ++ [0; proto; len / 256; len mod 256].

Lemma le_val_word b0 b1 r :
  is_byte b0 -> is_byte b1 -> Forall is_byte r -> le_val (b0 :: b1 :: r) ≡oc b0 + 256 * b1 + le_val r.
Proof.
  intros H0 H1 Hr. pose proof (le_val_nonneg r Hr). unfold is_byte in *. simpl.
  replace (b0 + 256 * (b1 + 256 * le_val r)) with (b0 + 256 * b1 + 65536 * le_val r) by lia.
  apply oceq_add; [apply oceq_refl; lia|]. by apply oceq_65536.
Qed.

Lemma le_val_addr a r :
  0 <= a < 4294967296 -> Forall is_byte r ->
  le_val (u32_bytes a ++ r) ≡oc Z.land a 0xffff + Z.land (Z.shiftr a 16) 0xffff + le_val r.
Proof.
  intros Ha Hr. pose proof (le_val_nonneg r Hr). unfold u32_bytes. cbn [app].
  rewrite Z.shiftr_div_pow2 by lia. change 0xffff with (Z.ones 16). rewrite !Z.land_ones by lia.
  change (2 ^ 16) with 65536.
  assert (H2 : le_val (a / 65536 mod 256 :: a / 16777216 :: r) ≡oc (a / 65536) mod 65536 + le_val r).
  { rewrite le_val_word by (done || (unfold is_byte; dm)). apply oceq_add; [|by apply oceq_refl].
    replace (a / 65536 mod 256 + 256 * (a / 16777216)) with (a / 65536 mod 65536) by dm. apply oceq_refl. dm. }
  rewrite le_val_word; [|unfold is_byte; dm|unfold is_byte; dm|repeat constructor; auto; dm].
  replace (a mod 256 + 256 * (a / 256 mod 256)) with (a mod 65536) by dm. rewrite <- Z.add_assoc.
  apply oceq_add; [apply oceq_refl; dm|exact H2].
Qed.

Lemma pseudo_header_ok src dest proto len :
  0 <= src < 4294967296 -> 0 <= dest < 4294967296 -> 0 <= proto < 256 -> 0 <= len < 65536 ->
  Forall is_byte (pseudo_header src dest proto len).
Proof. intros. unfold pseudo_header. repeat (apply Forall_app; split); try by apply u32_bytes_ok.
  repeat constructor; dm. Qed.

Lemma land_half x : 0 <= Z.land x 0xffff <= 65535.
Proof. change 0xffff with (Z.ones 16) at 1 2. rewrite Z.land_ones by lia. dm. Qed.

Lemma pseudo_addrs_spec src dest :
  0 <= pseudo_addrs src dest <= 65535 /\
  pseudo_addrs src dest ≡oc Z.land src 0xffff + Z.land (Z.shiftr src 16) 0xffff +
    (Z.land dest 0xffff + Z.land (Z.shiftr dest 16) 0xffff).
Proof.
  unfold pseudo_addrs. pose proof (land_half src). pose proof (land_half (Z.shiftr src 16)).
  pose proof (land_half dest). pose proof (land_half (Z.shiftr dest 16)).
  rewrite (u32_small (Z.land src _ + _)), (u32_small (_ + Z.land dest _)), u32_small by lia.
  rewrite <- (Z.add_assoc (_ + _)). apply FOLD_twice. lia.
Qed.

(** The complement of a 16-bit sum. *)
Lemma lnot16 c : 0 <= c <= 65535 -> u16 (Z.lnot c) = 65535 - c.
Proof. intros. unfold u16, Z.lnot. rewrite <- (Z.mod_add _ 1) by lia. rewrite Z.mod_small; lia. Qed.

Lemma pseudo_end_spec acc proto len bs src dest :
  0 <= src < 4294967296 -> 0 <= dest < 4294967296 -> 0 <= proto < 256 -> 0 <= len < 65536 ->
  Forall is_byte bs -> 0 <= acc <= 65535 -> acc ≡oc pseudo_addrs src dest + le_val bs ->
  pseudo_end acc proto len = 65535 - rfc1071 (pseudo_header src dest proto len ++ bs).
Proof.
  intros Hs Hd Hp Hl Hb Ha E. unfold pseudo_end. pose proof (le_val_nonneg bs Hb) as Hbs.
  rewrite (u16_small proto) by lia. pose proof (lwip_htons_range proto). pose proof (lwip_htons_range len).
  rewrite (u32_small (acc + _)), u32_small by lia.
  destruct (FOLD_twice (acc + lwip_htons proto + lwip_htons len) ltac:(lia)) as [Hfb Hfe].
  set (F := FOLD_U32T (FOLD_U32T _)) in *.
  change 0xffff with (Z.ones 16). rewrite Z.land_ones, Z.mod_small by lia. rewrite lnot16 by done. f_equal.
  apply rfc1071_unique; [apply Forall_app; split; [by apply pseudo_header_ok|done]|lia|].
  destruct (pseudo_addrs_spec src dest) as [Hpa Epa].
  pose proof (land_half src). pose proof (land_half (Z.shiftr src 16)).
  pose proof (land_half dest). pose proof (land_half (Z.shiftr dest 16)).
  unfold pseudo_header. rewrite <- !app_assoc.
  rewrite le_val_addr; [|done|repeat (apply Forall_app; split); auto using u32_bytes_ok; repeat constructor; dm].
  rewrite le_val_addr; [|done|apply Forall_app; split; [repeat constructor; dm|done]]. cbn [app].
  rewrite Hfe, E, Epa.
  rewrite le_val_word; [|unfold is_byte; lia|unfold is_byte; dm|repeat constructor; auto; dm].
  rewrite le_val_word by (done || (unfold is_byte; dm)).
  rewrite (lwip_htons_eq proto), (lwip_htons_eq len) by lia.
  rewrite (Z.mod_small proto 256), (Z.div_small proto 256) by lia.
  match goal with |- ?x ≡oc ?y => replace x with y by lia end. apply oceq_refl. dm.
Qed.

(** ** The properties *)

Lemma rfc_content_bound st l : mem_ok (data st) -> 0 <= rfc1071 (content st l) <= 65535.
Proof. intros. by apply rfc1071_spec, content_ok. Qed.

(** C38: The four summing routines (the three versions of [lwip_standard_chksum]
    and the Thumb-2 assembly that the board uses) end and compute the same
    16-bit ones' complement sum of RFC 1071, for every address, odd or even,
    and every length. *)
Theorem checksum_versions_agree m a len :
  mem_ok m -> 0 <= a -> 0 <= len < 65536 ->
  let sum := Some (rfc1071 (bytes_at m a (Z.to_nat len))) in
  chksum1 m a len = sum /\ chksum2 m a len = sum /\ chksum3 m a len = sum /\ thumb2_checksum m a len = sum.
Proof. intros Hm Ha Hl sum. repeat split; by apply chksum_rfc1071; [apply _|..]. Qed.

Lemma checksum_versions_witness :
  thumb2_checksum (data demo_st) 1041 2 = Some (66 + 256 * 67) /\
  chksum1 (data demo_st) 2040 3 = Some (rfc1071 [68; 69; 70]).
Proof.
  split.
  - apply (checksum_versions_agree (data demo_st) 1041 2); [apply demo_mem_ok|lia|lia].
  - apply (checksum_versions_agree (data demo_st) 2040 3); [apply demo_mem_ok|lia|lia].
Defined.

(** The checksum of a pbuf chain is that of the bytes the chain holds, however
    they are divided into pbufs of odd and even lengths: [inet_chksum_pbuf] is the
    complement of the RFC 1071 sum of the content, with any summing routine that
    keeps its promise, when the bound on the rounds exceeds the chain's length. *)
Theorem chksum_pbuf_of_content f `{!Chksum f} fuel st p l :
  mem_ok (data st) -> pchain st p l -> sizes st l -> Forall (fun x => 0 <= pb_payload (pb st x)) l ->
  (length l < fuel)%nat ->
  inet_chksum_pbuf f fuel st p = Some (65535 - rfc1071 (content st l)).
Proof.
  intros Hm Hc Hs Hp Hfuel. unfold inet_chksum_pbuf.
  destruct (sum_chain_spec f fuel st p l None 0) as (s & -> & Hb & E); auto; [done|lia|].
  change 0xffff with (Z.ones 16). rewrite Z.land_ones, Z.mod_small, lnot16 by lia. do 2 f_equal.
  apply rfc1071_unique; [by apply content_ok|lia|done].
Qed.

Lemma demo_payloads : Forall (fun x => 0 <= pb_payload (pb demo_st x)) demo_l.
Proof. repeat constructor; vm_compute; congruence. Qed.

Lemma chksum_pbuf_witness :
  inet_chksum_pbuf thumb2_checksum 5 demo_st 1000 = Some (65535 - rfc1071 [65; 66; 67; 68; 69; 70; 71]).
Proof.
  apply (chksum_pbuf_of_content thumb2_checksum 5 demo_st 1000 demo_l);
    [apply demo_mem_ok|apply demo_chain|apply demo_sizes|apply demo_payloads|simpl; lia].
Defined.

(** The checksum over a pseudo header and a chain is the complement of the sum
    of the twelve bytes of the IPv4 pseudo header (both addresses, a zero byte,
    the protocol and the length, in network order) followed by the bytes of the
    chain; the partial version takes the first [chksum_len] of them only, also
    when it stops inside a pbuf of odd length. *)
Theorem pseudo_chksum_of_header_and_content f `{!Chksum f} fuel st p l proto proto_len n src dest :
  mem_ok (data st) -> pchain st p l -> sizes st l -> Forall (fun x => 0 <= pb_payload (pb st x)) l ->
  (length l < fuel)%nat ->
  0 <= src < 4294967296 -> 0 <= dest < 4294967296 -> 0 <= proto < 256 -> 0 <= proto_len < 65536 ->
  0 <= n < 65536 ->
  let header := pseudo_header src dest proto proto_len in
  ip_chksum_pseudo f fuel st p proto proto_len src dest = Some (65535 - rfc1071 (header ++ content st l)) /\
  ip_chksum_pseudo_partial f fuel st p proto proto_len n src dest =
    Some (65535 - rfc1071 (header ++ take (Z.to_nat n) (content st l))).
Proof.
  intros Hm Hc Hs Hp Hfuel Hsrc Hdst Hpr Hpl Hn header. destruct (pseudo_addrs_spec src dest) as [Hpa _].
  pose proof (content_ok st l Hm) as Hok. split.
  - unfold ip_chksum_pseudo, inet_chksum_pseudo, inet_cksum_pseudo_base.
    destruct (sum_chain_spec f fuel st p l None (pseudo_addrs src dest)) as (s & -> & Hb & E); auto; [done|].
    f_equal. by apply pseudo_end_spec.
  - unfold ip_chksum_pseudo_partial, inet_chksum_pseudo_partial, inet_cksum_pseudo_partial_base.
    destruct (sum_chain_spec f fuel st p l (Some n) (pseudo_addrs src dest)) as (s & -> & Hb & E); auto.
    f_equal. apply pseudo_end_spec; auto. by apply Forall_take.
Qed.

Lemma pseudo_chksum_witness :
  ip_chksum_pseudo_partial thumb2_checksum 5 demo_st 1000 17 7 4 0x0100a8c0 0x0200a8c0 =
    Some (65535 - rfc1071 ([192; 168; 0; 1; 192; 168; 0; 2; 0; 17; 0; 7] ++ [65; 66; 67; 68])).
Proof.
  apply (pseudo_chksum_of_header_and_content thumb2_checksum 5 demo_st 1000 demo_l 17 7 4 0x0100a8c0 0x0200a8c0);
    try lia; [apply demo_mem_ok|apply demo_chain|apply demo_sizes|apply demo_payloads|simpl; lia].
Defined.

Lemma num_split2 m a len off :
  mem_ok m -> 0 <= off -> off mod 2 = 0 -> off + 2 <= len ->
  num m a len ≡oc num m a off + (ld16 m (a + off) + num m (a + off + 2) (len - off - 2)).
Proof.
  intros Hm H0 He Hl. rewrite (num_even m a len off) by (done || lia).
  rewrite (num_even m (a + off) (len - off) 2), num_2 by (done || lia). apply oceq_refl.
  pose proof (ld16_range m (a + off) Hm). oc_pos.
Qed.

Lemma num_write_out m a bs b n :
  0 <= n -> b + n <= a \/ a + Z.of_nat (length bs) <= b -> num (write_bytes m a bs) b n = num m b n.
Proof. intros. unfold num. by rewrite bytes_at_write_out by lia. Qed.

(** A packet checks after its checksum is filled in: when the two bytes of the
    checksum field (at an even offset) are zero and [inet_chksum] of the data is
    stored there as a [u16_t], [inet_chksum] of the result is 0, which is the test
    a receiver makes. *)
Theorem chksum_verifies f `{!Chksum f} m a len off :
  mem_ok m -> 0 <= a -> 0 <= off -> off mod 2 = 0 -> off + 2 <= len < 65536 -> ld16 m (a + off) = 0 ->
  exists c, inet_chksum f m a len = Some c /\
    inet_chksum f (write_bytes m (a + off) [c mod 256; c / 256]) a len = Some 0.
Proof.
  intros Hm Ha H0 He Hl Hz. unfold inet_chksum.
  destruct (chksum_spec m a len Hm Ha ltac:(lia)) as (c & -> & Hc & E). rewrite lnot16 by done.
  exists (65535 - c). split; [done|]. set (d := 65535 - c).
  assert (Hm' : mem_ok (write_bytes m (a + off) [d mod 256; d / 256]))
    by (apply write_bytes_ok; [done|repeat constructor; unfold is_byte; dm]).
  destruct (chksum_spec _ a len Hm' Ha ltac:(lia)) as (c' & -> & Hc' & E').
  assert (c' = 65535); [|subst c'; done].
  apply oceq_eq; [|lia|lia]. rewrite E'. rewrite num_split2 in E |- * by (done || lia).
  rewrite !num_write_out by (simpl; lia).
  replace (ld16 (write_bytes _ _ _) _) with d.
  2:{ rewrite <- num_2. unfold num. change (Z.to_nat 2) with (length [d mod 256; d / 256]).
      rewrite bytes_at_write_eq. simpl. dm. }
  rewrite Hz, Z.add_0_l in E. rewrite Z.add_assoc, (Z.add_comm (num _ _ _) d), <- Z.add_assoc.
  rewrite <- E. replace (d + c) with 65535 by lia. apply oceq_refl. lia.
Qed.

Lemma chksum_verifies_witness :
  exists c, inet_chksum thumb2_checksum (data demo_st) 1035 8 = Some c /\
    inet_chksum thumb2_checksum (write_bytes (data demo_st) (1035 + 2) [c mod 256; c / 256]) 1035 8 = Some 0.
Proof.
  apply (chksum_verifies thumb2_checksum (data demo_st) 1035 8 2); [apply demo_mem_ok|lia|lia|done|lia|done].
Defined.

(** [pbuf_fill_chksum] copies the bytes into the pbuf at the offset and adds
    their sum to the running checksum in ones' complement, with a zero byte in
    front of them when the offset is odd, so that the sums of the pieces add up to
    the sum of the whole; a range outside the pbuf changes nothing and is
    [ERR_ARG]. *)
Theorem fill_chksum_accumulates f `{!Chksum f} st p start src len chksum :
  mem_ok (data st) -> 0 <= start < 65536 -> 0 <= len < 65536 -> 0 <= chksum <= 65535 ->
  0 <= pb_payload (pb st p) ->
  let bs := bytes_at (data st) src (Z.to_nat len) in
  pbuf_fill_chksum f st p start src len chksum =
    Some (if (start <? pb_len (pb st p)) && (start + len <=? pb_len (pb st p))
          then (set_data st (write_bytes (data st) (pb_payload (pb st p) + start) bs),
                oc_plus chksum (rfc1071 (if start mod 2 =? 0 then bs else 0 :: bs)), ERR_OK)
          else (st, chksum, ERR_ARG)).
Proof.
  intros Hm Hs Hl Hc Hp bs. unfold pbuf_fill_chksum, lwip_chksum_copy.
  destruct (Z.leb_spec (pb_len (pb st p)) start), (Z.ltb_spec start (pb_len (pb st p))); try lia; [done|].
  destruct (Z.ltb_spec (pb_len (pb st p)) (start + len)), (Z.leb_spec (start + len) (pb_len (pb st p)));
    try lia; [done|]. cbn [orb andb]. unfold memcpy. fold bs.
  pose proof (bytes_at_ok (data st) src (Z.to_nat len) Hm) as Hbs. fold bs in Hbs.
  set (m' := write_bytes (data st) _ bs). assert (Hm' : mem_ok m') by by apply write_bytes_ok.
  destruct (chksum_spec m' (pb_payload (pb st p) + start) len Hm' ltac:(lia) Hl) as (c & -> & Hcb & E).
  assert (En : num m' (pb_payload (pb st p) + start) len = le_val bs).
  { unfold num, m'. f_equal. replace (Z.to_nat len) with (length bs) by apply length_bytes_at.
    apply bytes_at_write_eq. }
  rewrite En in E. rewrite odd_bit by lia. pose proof (le_val_nonneg bs Hbs) as Hv.
  set (d := if negb (start mod 2 =? 0) then _ else c). set (w := if start mod 2 =? 0 then bs else _).
  assert (Hd : 0 <= d <= 65535 /\ d ≡oc le_val w /\ Forall is_byte w).
  { unfold d, w. destruct (SWAP_oceq c Hcb) as [H3 H4].
    destruct (start mod 2 =? 0); cbn [negb]; [done|]. rewrite u16_small by lia. split; [done|].
    split; [|constructor; [unfold is_byte; lia|done]]. rewrite H4, E. simpl. rewrite Z.add_0_l. apply oceq_refl. lia. }
  destruct Hd as (Hdb & Hde & Hw). rewrite u32_small by lia.
  pose proof (FOLD_bound2 (chksum + d) ltac:(lia)) as Hfb. pose proof (FOLD_oceq (chksum + d) ltac:(lia)) as Hfe.
  rewrite u16_small by lia. do 3 f_equal. rewrite <- (rfc1071_unique w d) by (done || lia).
  destruct (oc_plus_oceq chksum d Hc Hdb) as [H3 H4]. apply oceq_eq; [|lia|lia]. by transitivity (chksum + d).
Qed.

Lemma fill_chksum_witness :
  exists st, pbuf_fill_chksum thumb2_checksum demo_st 1000 1 3000 2 7 = Some (st, 7 + 67 * 256 + 68, ERR_OK).
Proof.
  eexists. rewrite (fill_chksum_accumulates thumb2_checksum demo_st 1000 1 3000 2 7);
    [reflexivity|apply demo_mem_ok|lia|lia|lia|vm_compute; congruence].
Defined.
