(* ===== verification/Timeouts.v ===== *)
(** * [core/timeouts.c]: the timer list

    The list of pending timeouts holds, in each element, the time that passes
    between the element before it and itself; [timeouts_last_time] is the origin.
    The elements come from the pool [MEMP_SYS_TIMEOUT] of [Memp].  [struct
    sys_timeo *] lists are lists of their elements, each with its address. *)

From Stdlib Require Import ZArith Lia.
From stdpp Require Import base tactics numbers list option gmap.
From S2P Require Import Prelude.
From S2P Require Import Mem.
From S2P Require Import Memp.

(** The position of the pool in [memp_pools]. *)
Definition MEMP_SYS_TIMEOUT : Z := 7.

(** [sys_timeout_handler]: the two handlers of this file and those of others. *)
Inductive handler := h_NULL | h_tcpip_tcp_timer | h_cyclic_timer | h_user (f : Z).

#[global] Instance handler_eq_dec : EqDecision handler.
Proof. solve_decision. Defined.

(** [struct sys_timeo] *)
Record sys_timeo := mk_timeo { t_addr : Z; t_time : Z; t_h : handler; t_arg : Z }.

Definition set_time (t : sys_timeo) (v : Z) : sys_timeo := mk_timeo (t_addr t) v (t_h t) (t_arg t).

(** The variables of the file, what [sys_now] reads, whether there are active or
    time-wait connections ([tcp_active_pcbs || tcp_tw_pcbs]), the pools, and the
    state of the rest of the program. *)
Record tstate {A : Type} := mk_ts {
  next_timeout : list sys_timeo;
  timeouts_last_time : Z;
  tcpip_tcp_timer_active : bool;
  tcp_pcbs : bool;
  sys_now : Z;
  pools : list pool;
  app : A
}.
Arguments tstate : clear implicits.
Arguments mk_ts {A}.

Section Timeouts.
Context {A : Type}.
(** The handlers of [lwip_cyclic_timers] ([tcp_tmr], [ip_reass_tmr], ...) and the
    timeout handlers of other files: they may use the timers themselves. *)
Context (cyclic_handler : nat -> tstate A -> tstate A).
Context (user_handler : Z -> Z -> tstate A -> tstate A).
(** [PBUF_CHECK_FREE_OOSEQ()]: frees out-of-sequence TCP segments when the pbuf pool
    ran empty. *)
Context (check_free_ooseq : tstate A -> tstate A).
Implicit Types st : tstate A.

Definition set_list st l : tstate A :=
  mk_ts l (timeouts_last_time st) (tcpip_tcp_timer_active st) (tcp_pcbs st) (sys_now st) (pools st) (app st).
Definition set_last st v : tstate A :=
  mk_ts (next_timeout st) v (tcpip_tcp_timer_active st) (tcp_pcbs st) (sys_now st) (pools st) (app st).
Definition set_active st b : tstate A :=
  mk_ts (next_timeout st) (timeouts_last_time st) b (tcp_pcbs st) (sys_now st) (pools st) (app st).
Definition set_pools st ps : tstate A :=
  mk_ts (next_timeout st) (timeouts_last_time st) (tcpip_tcp_timer_active st) (tcp_pcbs st) (sys_now st) ps (app st).
Definition set_app st a : tstate A :=
  mk_ts (next_timeout st) (timeouts_last_time st) (tcpip_tcp_timer_active st) (tcp_pcbs st) (sys_now st) (pools st) a.

(** The intervals of [lwip_cyclic_timers] in this configuration: TCP, IP
    reassembly, ARP, DHCP coarse and fine, IGMP, DNS. *)
Definition TCP_TMR_INTERVAL : Z := 250.
Definition lwip_cyclic_timers : list Z := [TCP_TMR_INTERVAL; 1000; 1000; 60000; 500; 100; 1000].

(** The [for] loop of [sys_timeout] from the element [t] on; [first] is
    [next_timeout->time]. *)
Fixpoint timeout_insert (first msecs : Z) (timeout : sys_timeo) (l : list sys_timeo) : list sys_timeo :=
  match l with
  | [] => []
  | t :: r =>
      let timeout := set_time timeout (u32 (t_time timeout - t_time t)) in
      match r with
      | [] =>
          let timeout := if msecs <? t_time timeout then set_time timeout (u32 (msecs + first)) else timeout in
          [t; timeout]
      | n :: r' =>
          if t_time timeout <? t_time n
          then t :: timeout :: set_time n (u32 (t_time n - t_time timeout)) :: r'
          else t :: timeout_insert first msecs timeout r
      end
  end.

(** [sys_timeout] *)
Definition sys_timeout (msecs : Z) (h : handler) (arg : Z) st : tstate A :=
  let '(ps, timeout) := memp_malloc (pools st) MEMP_SYS_TIMEOUT in
  let st := set_pools st ps in
  if timeout =? NULL then st
  else
    let now := sys_now st in
    match next_timeout st with
    | [] =>
        let st := set_last st now in
        set_list st [mk_timeo timeout (u32 (msecs + 0)) h arg]
    | t :: r =>
        let diff := u32 (now - timeouts_last_time st) in
        let new := mk_timeo timeout (u32 (msecs + diff)) h arg in
        if msecs <? t_time t
        then set_list st (new :: set_time t (u32 (t_time t - msecs)) :: r)
        else set_list st (timeout_insert (t_time t) msecs new (t :: r))
    end.

(** The loop of [sys_untimeout]: the address of the element to free and the list. *)
Fixpoint timeout_remove (h : handler) (arg : Z) (l : list sys_timeo) : option (Z * list sys_timeo) :=
  match l with
  | [] => None
  | t :: r =>
      if bool_decide (t_h t = h) && (t_arg t =? arg)
      then Some (t_addr t, match r with
                           | [] => []
                           | n :: r => set_time n (u32 (t_time n + t_time t)) :: r
                           end)
      else match timeout_remove h arg r with
           | None => None
           | Some (a, r) => Some (a, t :: r)
           end
  end.

(** [sys_untimeout] *)
Definition sys_untimeout (h : handler) (arg : Z) st : tstate A :=
  match next_timeout st with
  | [] => st
  | l =>
      match timeout_remove h arg l with
      | None => st
      | Some (a, l) =>
          let st := set_list st l in
          set_pools st (memp_free (pools st) MEMP_SYS_TIMEOUT a)
      end
  end.

(** [tcpip_tcp_timer], [tcp_timer_needed], [cyclic_timer] *)
Definition tcpip_tcp_timer st : tstate A :=
  let st := cyclic_handler 0 st in
  if tcp_pcbs st then sys_timeout TCP_TMR_INTERVAL h_tcpip_tcp_timer NULL st else set_active st false.

Definition tcp_timer_needed st : tstate A :=
  if negb (tcpip_tcp_timer_active st) && tcp_pcbs st
  then sys_timeout TCP_TMR_INTERVAL h_tcpip_tcp_timer NULL (set_active st true)
  else st.

(** The argument is the element of [lwip_cyclic_timers], given by its index. *)
Definition cyclic_timer (arg : Z) st : tstate A :=
  let st := cyclic_handler (Z.to_nat arg) st in
  sys_timeout (default 0 (lwip_cyclic_timers !! Z.to_nat arg)) h_cyclic_timer arg st.

(** [sys_timeouts_init]: the TCP timer at index 0 is started on demand. *)
Definition sys_timeouts_init st : tstate A :=
  let st := foldl (fun st i => sys_timeout (default 0 (lwip_cyclic_timers !! i)) h_cyclic_timer (Z.of_nat i) st)
              st (seq 1 (length lwip_cyclic_timers - 1)) in
  set_last st (sys_now st).

(** [handler(arg)] *)
Definition call_handler (h : handler) (arg : Z) st : tstate A :=
  match h with
  | h_NULL => st
  | h_tcpip_tcp_timer => tcpip_tcp_timer st
  | h_cyclic_timer => cyclic_timer arg st
  | h_user f => user_handler f arg st
  end.

(** A round of the [do] loop of [sys_check_timeouts]. *)
Definition check_step : tstate A * Z -> (tstate A * Z) + tstate A :=
  fun '(st, diff) =>
    let st := check_free_ooseq st in
    match next_timeout st with
    | [] => inr st
    | t :: r =>
        if t_time t <=? diff then
          let st := set_last st (u32 (timeouts_last_time st + t_time t)) in
          let diff := u32 (diff - t_time t) in
          let st := set_list st r in
          let st := set_pools st (memp_free (pools st) MEMP_SYS_TIMEOUT (t_addr t)) in
          inl (call_handler (t_h t) (t_arg t) st, diff)
        else inr st
    end.

(** [sys_check_timeouts] *)
Definition sys_check_timeouts (fuel : nat) st : option (tstate A) :=
  match next_timeout st with
  | [] => Some st
  | _ =>
      let now := sys_now st in
      let diff := u32 (now - timeouts_last_time st) in
      loop fuel check_step (st, diff)
  end.

(** [sys_restart_timeouts], [sys_timeouts_sleeptime] *)
Definition sys_restart_timeouts st : tstate A := set_last st (sys_now st).

Definition sys_timeouts_sleeptime st : Z :=
  match next_timeout st with
  | [] => 0xffffffff
  | t :: _ =>
      let diff := u32 (sys_now st - timeouts_last_time st) in
      if t_time t <? diff then 0 else u32 (t_time t - diff)
  end.

End Timeouts.

(** ** Deadlines

    What the list means: who is due, and how long after [timeouts_last_time]. *)

Definition who (t : sys_timeo) : Z * handler * Z := (t_addr t, t_h t, t_arg t).

Fixpoint alarms (base : Z) (l : list sys_timeo) : list (Z * handler * Z * Z) :=
  match l with
  | [] => []
  | t :: r => (who t, base + t_time t) :: alarms (base + t_time t) r
  end.

Definition due (x : Z * handler * Z * Z) : Z := x.2.
Definition delay (d : Z) (x : Z * handler * Z * Z) : Z * handler * Z * Z := (x.1, x.2 + d).

Definition times_ok (l : list sys_timeo) : Prop := Forall (fun t => 0 <= t_time t < 4294967296) l.

Lemma alarms_delay base d l : alarms (base + d) l = map (delay d) (alarms base l).
Proof.
  revert base. induction l as [|t r IH]; intros base; simpl; [done|].
  replace (base + d + t_time t) with (base + t_time t + d) by lia. by rewrite IH.
Qed.

(** The time from the origin to the last element. *)
Definition total (l : list sys_timeo) : Z := foldr (fun t n => t_time t + n) 0 l.

Lemma alarms_app base l l' : alarms base (l ++ l') = alarms base l ++ alarms (base + total l) l'.
Proof.
  revert base. induction l as [|t r IH]; intros base; simpl; [by rewrite Z.add_0_r|].
  rewrite IH. by rewrite Z.add_assoc.
Qed.

(** Due times do not decrease along the list. *)
Lemma alarms_ge base l : times_ok l -> Forall (fun x => base <= due x) (alarms base l).
Proof.
  revert base. induction l as [|t r IH]; intros base Hl; simpl; [constructor|].
  apply Forall_cons_1 in Hl as [Ht Hl]. constructor; [unfold due; simpl; lia|].
  eapply Forall_impl; [by apply (IH (base + t_time t))|]. simpl. intros. lia.
Qed.

(** ** Setting a timer *)

(** Where the loop of [sys_timeout] puts the new element: behind every element due
    no later, at its own due time, except behind the last element when even that
    one is due more than [msecs] before it: then [msecs + first] behind the last. *)
Lemma timeout_insert_spec first msecs new l base :
  times_ok l -> l <> [] -> 0 <= first -> 0 <= msecs ->
  first + (t_time new - t_time (hd new l)) < 4294967296 -> t_time (hd new l) <= t_time new < 4294967296 ->
  exists l1 l2,
    alarms base l = l1 ++ l2 /\ l1 <> [] /\
    Forall (fun x => due x <= base + t_time new) l1 /\
    Forall (fun x => base + t_time new < due x) l2 /\
    times_ok (timeout_insert first msecs new l) /\
    alarms base (timeout_insert first msecs new l) =
      l1 ++ (who new,
        match l2 with
        | [] => let T := default base (due <$> last l1) in
                if msecs <? base + t_time new - T then T + (msecs + first) else base + t_time new
        | _ => base + t_time new
        end) :: l2.
Proof.
  revert new base. induction l as [|t r IH]; intros new base Hl Hne Hf Hms Hfb Hn; [done|].
  apply Forall_cons_1 in Hl as [Ht Hl]. cbn [hd] in Hfb, Hn. cbn [timeout_insert]. cbv zeta.
  rewrite (u32_small (t_time new - t_time t)) by lia. set (new' := set_time new (t_time new - t_time t)).
  destruct r as [|n r'].
  - exists [(who t, base + t_time t)], []. split; [done|]. split; [done|].
    split; [constructor; [unfold due; simpl; lia|constructor]|]. split; [constructor|].
    cbn [last fmap option_fmap option_map default due snd]. unfold due. simpl.
    replace (base + t_time new - (base + t_time t)) with (t_time new - t_time t) by lia.
    destruct (Z.ltb_spec msecs (t_time new - t_time t)) as [Hlate|Hok].
    + rewrite u32_small by lia. split; [repeat constructor; simpl; lia|done].
    + split; [repeat constructor; simpl; lia|]. unfold who. simpl. do 3 f_equal. lia.
  - apply Forall_cons_1 in Hl as [Hnt Hl].
    cbn [new' set_time t_time]. destruct (Z.ltb_spec (t_time new - t_time t) (t_time n)) as [Hlt|Hge].
    + exists [(who t, base + t_time t)], (alarms (base + t_time t) (n :: r')).
      split; [done|]. split; [done|]. split; [constructor; [unfold due; simpl; lia|constructor]|].
      split.
      { cbn [alarms]. constructor; [unfold due; simpl; lia|].
        eapply Forall_impl; [by apply (alarms_ge (base + t_time t + t_time n) r')|]. simpl. intros; lia. }
      rewrite u32_small by lia. split; [repeat constructor; simpl; auto; lia|].
      cbn [alarms app t_time set_time new']. unfold who. cbn [t_addr t_h t_arg].
      replace (base + t_time t + (t_time new - t_time t)) with (base + t_time new) by lia.
      by replace (base + t_time new + (t_time n - (t_time new - t_time t))) with (base + t_time t + t_time n) by lia.
    + destruct (IH new' (base + t_time t)) as (l1 & l2 & E & Hl1 & H1 & H2 & Hok & E'); auto.
      { by constructor. }
      { cbn [hd new' set_time t_time]. lia. }
      { cbn [hd new' set_time t_time]. lia. }
      replace (base + t_time t + t_time new') with (base + t_time new) in * by (simpl; lia).
      exists ((who t, base + t_time t) :: l1), l2. cbn [alarms] in E |- *. rewrite E. split; [done|].
      split; [done|]. split; [constructor; [unfold due; simpl; lia|done]|]. split; [done|].
      split; [by constructor|]. change (who new') with (who new) in E'.
      destruct l1 as [|x l1]; [done|]. rewrite last_cons_cons.
      destruct (last (x :: l1)) eqn:El; [|by apply last_None in El]. exact (f_equal (cons _) E').
Qed.

(** ** The invariant

    The elements in use of the pool are those of the list. *)

Record timer_inv {A} (d : memp_desc) (st : tstate A) (fr : list Z) : Prop := {
  ti_times : times_ok (next_timeout st);
  ti_pool : exists p, pools st !! Z.to_nat MEMP_SYS_TIMEOUT = Some p /\
                      pool_rep d p fr (map t_addr (next_timeout st))
}.

Lemma addr_alarms base l : map t_addr l = map (fun x : Z * handler * Z * Z => x.1.1.1) (alarms base l).
Proof. revert base. induction l as [|t r IH]; intros base; simpl; [done|]. f_equal. apply IH. Qed.

Lemma pool_used_nonnull d p fr us x : pool_rep d p fr us -> x ∈ us -> x <> NULL.
Proof.
  intros Hr Hx. destruct (elements_ok d x (prep_desc _ _ _ _ Hr)) as [H0 _]; [|unfold NULL; lia].
  rewrite <- (prep_elems _ _ _ _ Hr). apply elem_of_app. by right.
Qed.

(** Taking an element for a new timer. *)
Lemma timer_malloc {A} d (st : tstate A) fr :
  timer_inv d st fr ->
  exists p' , memp_malloc (pools st) MEMP_SYS_TIMEOUT
    = (<[Z.to_nat MEMP_SYS_TIMEOUT := p']> (pools st), hd NULL fr) /\
  (<[Z.to_nat MEMP_SYS_TIMEOUT := p']> (pools st)) !! Z.to_nat MEMP_SYS_TIMEOUT = Some p' /\
  match fr with
  | [] => pool_rep d p' [] (map t_addr (next_timeout st))
  | x :: fr => x <> NULL /\ pool_rep d p' fr (x :: map t_addr (next_timeout st))
  end.
Proof.
  intros [Ht (p & Hp & Hr)]. rewrite (memp_malloc_at _ _ p) by done.
  pose proof (lookup_lt_Some _ _ _ Hp) as Hlt. destruct fr as [|x fr].
  - destruct (do_malloc_none _ _ _ Hr) as (p' & -> & Hr'). exists p'. split; [done|].
    split; [by apply list_lookup_insert_eq|done].
  - destruct (do_malloc_some _ _ _ _ _ Hr) as (p' & -> & Hr' & Hx). exists p'. split; [done|].
    split; [by apply list_lookup_insert_eq|done].
Qed.

(** Giving an element back. *)
Lemma timer_free {A} d (st : tstate A) fr l a l' :
  timer_inv d (set_list st l) fr -> map t_addr l ≡ₚ a :: map t_addr l' -> times_ok l' ->
  timer_inv d (set_pools (set_list st l') (memp_free (pools st) MEMP_SYS_TIMEOUT a)) (a :: fr).
Proof.
  intros [Ht (p & Hp & Hr)] HP Hl'. simpl in *. apply (pool_rep_perm _ _ _ _ _ HP) in Hr. constructor; [done|].
  assert (Ha : a <> NULL) by (eapply pool_used_nonnull; [done|left]).
  exists (do_memp_free_pool p a). simpl. rewrite (memp_free_at _ _ p) by done.
  split; [apply list_lookup_insert_eq, (lookup_lt_Some _ _ _ Hp)|]. by apply do_free_rep.
Qed.

(** What [sys_timeout] does to the alarms. *)
Lemma sys_timeout_correct {A} d (st : tstate A) fr msecs h arg :
  timer_inv d st fr -> 0 <= msecs ->
  let diff := u32 (sys_now st - timeouts_last_time st) in
  msecs + diff < 4294967296 ->
  let st' := sys_timeout msecs h arg st in
  match fr with
  | [] => next_timeout st' = next_timeout st /\ timeouts_last_time st' = timeouts_last_time st /\ timer_inv d st' []
  | x :: fr' =>
      timer_inv d st' fr' /\
      match next_timeout st with
      | [] => timeouts_last_time st' = sys_now st /\ alarms 0 (next_timeout st') = [(x, h, arg, msecs)]
      | t :: _ =>
          timeouts_last_time st' = timeouts_last_time st /\
          if msecs <? t_time t
          then alarms 0 (next_timeout st') = (x, h, arg, diff + msecs) :: map (delay diff) (alarms 0 (next_timeout st))
          else exists l1 l2,
            alarms 0 (next_timeout st) = l1 ++ l2 /\
            Forall (fun y => due y <= diff + msecs) l1 /\ Forall (fun y => diff + msecs < due y) l2 /\
            alarms 0 (next_timeout st') =
              l1 ++ (x, h, arg,
                match l2 with
                | [] => let T := default 0 (due <$> last l1) in
                        if msecs <? diff + msecs - T then T + (msecs + t_time t) else diff + msecs
                | _ => diff + msecs
                end) :: l2
      end
  end.
Proof.
  intros Hi Hms diff Hd st'. pose proof (u32_range (sys_now st - timeouts_last_time st)) as Hdr. fold diff in Hdr.
  destruct (timer_malloc d st fr Hi) as (p' & Hm & Hlk & Hr). destruct Hi as [Ht _].
  unfold st', sys_timeout. rewrite Hm. destruct fr as [|x fr']; cbn [hd] in *.
  { rewrite Z.eqb_refl. split; [done|]. split; [done|]. constructor; [done|]. by exists p'. }
  destruct Hr as [Hx Hr]. rewrite (proj2 (Z.eqb_neq _ _) Hx).
  cbn [next_timeout set_pools sys_now timeouts_last_time]. fold diff.
  revert Ht Hr. destruct (next_timeout st) as [|t r]; intros Ht Hr.
  { rewrite Z.add_0_r, u32_small by lia. split; [|done]. constructor; [repeat constructor; simpl; lia|].
    by exists p'. }
  pose proof (Forall_inv Ht) as Htt. simpl in Htt. rewrite (u32_small (msecs + diff)) by lia.
  set (new := mk_timeo x (msecs + diff) h arg). destruct (Z.ltb_spec msecs (t_time t)) as [Hlt|Hge].
  - rewrite u32_small by lia.
    assert (Ea : alarms 0 (new :: set_time t (t_time t - msecs) :: r)
                 = (x, h, arg, diff + msecs) :: map (delay diff) (alarms 0 (t :: r))).
    { rewrite <- alarms_delay. simpl. unfold who. simpl. 
      f_equal; [f_equal; lia|f_equal; [f_equal; lia|f_equal; lia]]. }
    split; [|done]. constructor; [repeat constructor; simpl; try lia; by inversion Ht|].
    exists p'. split; [done|]. done.
  - destruct (timeout_insert_spec (t_time t) msecs new (t :: r) 0) as (l1 & l2 & E & Hl1 & H1 & H2 & Hok & E');
      auto; try (simpl; lia).
    cbn [next_timeout set_list]. rewrite Z.add_0_l in *. change (t_time new) with (msecs + diff) in *.
    rewrite (Z.add_comm msecs diff) in *. split; [|split; [done|by exists l1, l2]].
    constructor; [done|]. exists p'. split; [done|]. eapply pool_rep_perm; [|exact Hr].
    cbn [next_timeout set_list]. rewrite (addr_alarms 0 (timeout_insert _ _ _ _)), (addr_alarms 0 (t :: r)).
    rewrite E', E, !map_app. simpl. by rewrite Permutation_middle.
Qed.

(** ** Removing a timer *)

Definition matches (h : handler) (arg : Z) (y : Z * handler * Z * Z) : Prop := y.1.1.2 = h /\ y.1.2 = arg.

Lemma timeout_remove_spec h arg l base :
  times_ok l -> Forall (fun y => due y - base < 4294967296) (alarms base l) ->
  match timeout_remove h arg l with
  | None => Forall (fun y => ~ matches h arg y) (alarms base l)
  | Some (a, l') => exists l1 D l2,
      alarms base l = l1 ++ (a, h, arg, D) :: l2 /\ alarms base l' = l1 ++ l2 /\
      Forall (fun y => ~ matches h arg y) l1 /\ times_ok l'
  end.
Proof.
  revert base. induction l as [|t r IH]; intros base Hl Hb; simpl; [constructor|].
  apply Forall_cons_1 in Hl as [Ht Hl]. apply Forall_cons_1 in Hb as [Hb1 Hb]. unfold due in Hb1. simpl in Hb1.
  destruct (bool_decide (t_h t = h) && (t_arg t =? arg)) eqn:E.
  - apply andb_prop in E as [Eh Ea]. apply bool_decide_eq_true in Eh. apply Z.eqb_eq in Ea.
    exists [], (base + t_time t), (alarms (base + t_time t) r). unfold who. rewrite Eh, Ea.
    split; [done|]. destruct r as [|n r]; simpl; [split; [done|split; constructor]|].
    apply Forall_cons_1 in Hl as [Hn Hl]. apply Forall_cons_1 in Hb as [Hb2 Hb]. unfold due in Hb2. simpl in Hb2.
    rewrite u32_small by lia. replace (base + (t_time n + t_time t)) with (base + t_time t + t_time n) by lia.
    split; [done|]. split; [constructor|]. constructor; [simpl; lia|done].
  - assert (Hno : ~ matches h arg (who t, base + t_time t)).
    { intros [E1 E2]. simpl in *. by rewrite bool_decide_true, (proj2 (Z.eqb_eq _ _) E2) in E by done. }
    specialize (IH (base + t_time t) Hl).
    assert (Hb' : Forall (fun y => due y - (base + t_time t) < 4294967296) (alarms (base + t_time t) r))
      by (eapply Forall_impl; [exact Hb|]; simpl; intros; lia).
    destruct (timeout_remove h arg r) as [[a l']|]; [|constructor; auto].
    destruct (IH Hb') as (l1 & D & l2 & E1 & E2 & H1 & H2).
    exists ((who t, base + t_time t) :: l1), D, l2. simpl. rewrite E1, E2.
    split; [done|]. split; [done|]. split; by constructor.
Qed.

(** ** Expiry *)

(** A call that leaves the timers alone and adds [e] to what is observed. *)
Definition quiet {A L} (log : A -> list L) (e : list L) (f : tstate A -> tstate A) : Prop :=
  forall st, next_timeout (f st) = next_timeout st /\ timeouts_last_time (f st) = timeouts_last_time st /\
    pools (f st) !! Z.to_nat MEMP_SYS_TIMEOUT = pools st !! Z.to_nat MEMP_SYS_TIMEOUT /\
    log (app (f st)) = log (app st) ++ e.

Section Expiry.
Context {A : Type} (ch : nat -> tstate A -> tstate A) (uh : Z -> Z -> tstate A -> tstate A) (oo : tstate A -> tstate A).
Context (log : A -> list (handler * Z)) (d : memp_desc).
Hypothesis Hoo : quiet log [] oo.

Lemma quiet_inv e f st fr : quiet log e f -> timer_inv d st fr -> timer_inv d (f st) fr.
Proof.
  intros Hq [Ht (p & Hp & Hr)]. destruct (Hq st) as (E1 & _ & E3 & _). constructor; rewrite E1; [done|].
  exists p. by rewrite E3.
Qed.

Lemma check_loop fuel l st diff fr :
  next_timeout st = l -> timer_inv d st fr -> 0 <= diff < 4294967296 -> (length l < fuel)%nat ->
  Forall (fun t => quiet log [(t_h t, t_arg t)] (call_handler ch uh (t_h t) (t_arg t))) l ->
  exists l1 l2 st', l = l1 ++ l2 /\ loop fuel (check_step ch uh oo) (st, diff) = Some st' /\
    next_timeout st' = l2 /\ u32 (timeouts_last_time st') = u32 (timeouts_last_time st + total l1) /\
    Forall (fun y => due y <= diff) (alarms 0 l1) /\ Forall (fun y => diff < due y) (alarms (total l1) l2) /\
    log (app st') = log (app st) ++ map (fun t => (t_h t, t_arg t)) l1 /\
    timer_inv d st' (rev (map t_addr l1) ++ fr).
Proof.
  revert l st diff fr. induction fuel as [|fuel IH]; intros l st diff fr El Hi Hd Hf Hq; [lia|].
  cbn [loop check_step]. destruct (Hoo st) as (O1 & O2 & O3 & O4). rewrite O1, El.
  pose proof (quiet_inv [] oo st fr Hoo Hi) as Hio.
  destruct l as [|t r].
  { exists [], [], (oo st). split; [done|]. split; [done|]. split; [by rewrite O1|]. split; [rewrite O2; simpl; by rewrite Z.add_0_r|].
    split; [constructor|]. split; [constructor|]. split; [done|done]. }
  pose proof (ti_times _ _ _ Hi) as Ht. rewrite El in Ht. apply Forall_cons_1 in Ht as [Ht Hr].
  apply Forall_cons_1 in Hq as [Hqt Hq].
  destruct (Z.leb_spec (t_time t) diff) as [Hle|Hgt]; cycle 1.
  { exists [], (t :: r), (oo st). split; [done|]. split; [done|]. split; [by rewrite O1|].
    split; [rewrite O2; simpl; by rewrite Z.add_0_r|]. split; [constructor|]. split; [|done].
    simpl. constructor; [done|]. eapply Forall_impl; [by apply alarms_ge|]. simpl. intros; lia. }
  set (st1 := set_pools _ _).
  assert (Hi1 : timer_inv d st1 (t_addr t :: fr)).
  { unfold st1. cbn [pools set_list set_last]. eapply (timer_free d (set_last (oo st) _) fr (t :: r)); [|done|done].
    destruct Hio as [? (p & Hp & Hrp)]. rewrite O1, El in *. constructor; [done|]. by exists p. }
  destruct (Hqt st1) as (Q1 & Q2 & Q3 & Q4). rewrite u32_small by lia.
  destruct (IH r (call_handler ch uh (t_h t) (t_arg t) st1) (diff - t_time t) (t_addr t :: fr))
    as (l1 & l2 & st' & E & Hlp & N & Hlast & H1 & H2 & Hlog & Hinv); auto; try lia.
  { by eapply quiet_inv. }
  { simpl in Hf. lia. }
  exists (t :: l1), l2, st'. split; [by rewrite E|]. split; [done|]. split; [done|].
  split. { rewrite Hlast, Q2. unfold st1. simpl. rewrite O2. unfold u32. rewrite Z.add_mod_idemp_l by lia. f_equal. lia. }
  split. { simpl. constructor; [done|]. change (t_time t) with (0 + t_time t). rewrite alarms_delay.
    apply Forall_fmap. eapply Forall_impl; [exact H1|]. unfold due, delay. simpl. intros; lia. }
  split. { simpl. rewrite (Z.add_comm (t_time t)), alarms_delay. apply Forall_fmap.
    eapply Forall_impl; [exact H2|]. unfold due, delay. simpl. intros; lia. }
  split. { rewrite Hlog, Q4. unfold st1. simpl. rewrite O4, app_nil_r, <- app_assoc. done. }
  simpl. rewrite <- app_assoc. done.
Qed.
End Expiry.

(** ** The properties *)

(** A pool, a state without timers, and one with two. *)
Definition timers0 : tstate (list (handler * Z)) := mk_ts [] 0 false false 1000 (replicate 10 pool0) [].
Definition timers2 : tstate (list (handler * Z)) := Eval vm_compute in
  sys_timeout 300 (h_user 8) 2 (sys_timeout 500 (h_user 7) 1 timers0).
Definition record_call (f arg : Z) (st : tstate (list (handler * Z))) := set_app st (app st ++ [(h_user f, arg)]).

Definition free0 : list Z := Eval vm_compute in rev (elements desc0).

Lemma timers0_inv : timer_inv desc0 timers0 free0.
Proof. constructor; [constructor|]. exists pool0. split; [done|]. exact pool0_rep. Qed.

Lemma timer_add {A} d (st : tstate A) x fr msecs h arg :
  timer_inv d st (x :: fr) -> 0 <= msecs -> msecs + u32 (sys_now st - timeouts_last_time st) < 4294967296 ->
  timer_inv d (sys_timeout msecs h arg st) fr.
Proof. intros Hi Hm Hd. exact (proj1 (sys_timeout_correct d st (x :: fr) msecs h arg Hi Hm Hd)). Qed.

Lemma timers2_inv : timer_inv desc0 timers2 (tail (tail free0)).
Proof.
  replace timers2 with (sys_timeout 300 (h_user 8) 2 (sys_timeout 500 (h_user 7) 1 timers0)) by (vm_compute; reflexivity).
  eapply timer_add; [eapply timer_add; [exact timers0_inv|lia|]|lia|]; vm_compute; reflexivity.
Qed.

(** Setting a timer makes it due [msecs] from now and moves no other timer that
    is due: the new timer stands behind those due no later and in front of those due
    later, and its element comes from the pool.  Two cases are not so simple, and the
    theorem says what they do: when the delay is shorter than the first timer's
    remaining entry, the other timers are all put off by the time since the last
    check; and when the list is overdue by more than the delay, the timer is put
    [msecs + first] behind the last one.  Without a free element nothing is set. *)
Theorem sys_timeout_sets_deadline {A} d (st : tstate A) fr msecs h arg :
  timer_inv d st fr -> 0 <= msecs ->
  let diff := u32 (sys_now st - timeouts_last_time st) in
  msecs + diff < 4294967296 ->
  let st' := sys_timeout msecs h arg st in
  match fr with
  | [] => next_timeout st' = next_timeout st /\ timeouts_last_time st' = timeouts_last_time st /\ timer_inv d st' []
  | x :: fr' =>
      timer_inv d st' fr' /\
      match next_timeout st with
      | [] => timeouts_last_time st' = sys_now st /\ alarms 0 (next_timeout st') = [(x, h, arg, msecs)]
      | t :: _ =>
          timeouts_last_time st' = timeouts_last_time st /\
          if msecs <? t_time t
          then alarms 0 (next_timeout st') = (x, h, arg, diff + msecs) :: map (delay diff) (alarms 0 (next_timeout st))
          else exists l1 l2,
            alarms 0 (next_timeout st) = l1 ++ l2 /\
            Forall (fun y => due y <= diff + msecs) l1 /\ Forall (fun y => diff + msecs < due y) l2 /\
            alarms 0 (next_timeout st') =
              l1 ++ (x, h, arg,
                match l2 with
                | [] => let T := default 0 (due <$> last l1) in
                        if msecs <? diff + msecs - T then T + (msecs + t_time t) else diff + msecs
                | _ => diff + msecs
                end) :: l2
      end
  end.
Proof. exact (sys_timeout_correct d st fr msecs h arg). Qed.

Lemma sys_timeout_witness :
  let st' := sys_timeout 400 (h_user 9) 3 timers2 in
  timer_inv desc0 st' (tail (tail (tail free0))) /\ timeouts_last_time st' = 1000.
Proof.
  pose proof (sys_timeout_sets_deadline desc0 timers2 _ 400 (h_user 9) 3 timers2_inv
    ltac:(lia) ltac:(vm_compute; congruence)) as H.
  split; [exact (proj1 H)|exact (proj1 (proj2 H))].
Defined.

(** Cancelling a timer removes the first one with that handler and argument,
    leaves every other timer due when it was, and gives the element back to the
    pool; when there is none, nothing changes. *)
Theorem sys_untimeout_cancels {A} d (st : tstate A) fr h arg :
  timer_inv d st fr -> Forall (fun y => due y < 4294967296) (alarms 0 (next_timeout st)) ->
  let st' := sys_untimeout h arg st in
  (st' = st /\ Forall (fun y => ~ matches h arg y) (alarms 0 (next_timeout st))) \/
  exists l1 a D l2,
    alarms 0 (next_timeout st) = l1 ++ (a, h, arg, D) :: l2 /\ Forall (fun y => ~ matches h arg y) l1 /\
    alarms 0 (next_timeout st') = l1 ++ l2 /\ timeouts_last_time st' = timeouts_last_time st /\
    timer_inv d st' (a :: fr).
Proof.
  intros Hi Hb st'. unfold st', sys_untimeout. destruct (next_timeout st) as [|t r] eqn:El; [left; split; [done|constructor]|].
  pose proof (ti_times _ _ _ Hi) as Ht. rewrite El in Ht.
  pose proof (timeout_remove_spec h arg (t :: r) 0 Ht) as Hs.
  destruct (timeout_remove h arg (t :: r)) as [[a l']|] eqn:Er.
  - destruct Hs as (l1 & D & l2 & E1 & E2 & H1 & H2); [eapply Forall_impl; [exact Hb|]; simpl; intros; lia|].
    right. exists l1, a, D, l2. split; [done|]. split; [done|]. split; [done|]. split; [done|].
    apply (timer_free d st fr (t :: r)); [by destruct st; simpl in *; subst| |done].
    rewrite (addr_alarms 0 (t :: r)), (addr_alarms 0 l'), E1, E2, !map_app. simpl. by rewrite Permutation_middle.
  - left. split; [done|]. apply Hs. eapply Forall_impl; [exact Hb|]. simpl. intros; lia.
Qed.

Lemma sys_untimeout_witness :
  (sys_untimeout (h_user 8) 2 timers2 = timers2 /\
   Forall (fun y => ~ matches (h_user 8) 2 y) (alarms 0 (next_timeout timers2))) \/
  exists l1 a D l2,
    alarms 0 (next_timeout timers2) = l1 ++ (a, h_user 8, 2, D) :: l2 /\ Forall (fun y => ~ matches (h_user 8) 2 y) l1 /\
    alarms 0 (next_timeout (sys_untimeout (h_user 8) 2 timers2)) = l1 ++ l2 /\
    timeouts_last_time (sys_untimeout (h_user 8) 2 timers2) = timeouts_last_time timers2 /\
    timer_inv desc0 (sys_untimeout (h_user 8) 2 timers2) (a :: tail (tail free0)).
Proof.
  apply (sys_untimeout_cancels desc0 timers2); [exact timers2_inv|]. repeat constructor.
Defined.

(** C39: [sys_check_timeouts] ends, and calls the handlers of exactly the timers due
    since the last check, in the order of their due times and each once; the timers
    left are due when they were, the elements of the others are back in the pool.
    It calls one exactly when [sys_timeouts_sleeptime] is 0.  (The handlers record
    their calls and leave the timers alone.) *)
Theorem check_timeouts_fires_due {A} ch uh oo (log : A -> list (handler * Z)) d (st : tstate A) fr fuel :
  quiet log [] oo ->
  Forall (fun t => quiet log [(t_h t, t_arg t)] (call_handler ch uh (t_h t) (t_arg t))) (next_timeout st) ->
  timer_inv d st fr -> (length (next_timeout st) < fuel)%nat ->
  let diff := u32 (sys_now st - timeouts_last_time st) in
  exists l1 l2 st', next_timeout st = l1 ++ l2 /\ sys_check_timeouts ch uh oo fuel st = Some st' /\
    Forall (fun y => due y <= diff) (alarms 0 l1) /\ Forall (fun y => diff < due y) (alarms (total l1) l2) /\
    next_timeout st' = l2 /\ u32 (timeouts_last_time st') = u32 (timeouts_last_time st + total l1) /\
    log (app st') = log (app st) ++ map (fun t => (t_h t, t_arg t)) l1 /\
    timer_inv d st' (rev (map t_addr l1) ++ fr) /\
    (l1 <> [] <-> sys_timeouts_sleeptime st = 0).
Proof.
  intros Hoo Hq Hi Hf diff. unfold sys_check_timeouts, sys_timeouts_sleeptime.
  pose proof (u32_range (sys_now st - timeouts_last_time st)) as Hd. fold diff in Hd |- *.
  pose proof (ti_times _ _ _ Hi) as Ht.
  destruct (check_loop ch uh oo log d Hoo fuel (next_timeout st) st diff fr eq_refl Hi Hd Hf Hq)
    as (l1 & l2 & st' & E & Hlp & N & Hlast & H1 & H2 & Hlog & Hinv).
  destruct (next_timeout st) as [|t r] eqn:El.
  { symmetry in E. apply app_eq_nil in E as [-> ->]. exists [], [], st. simpl.
    rewrite Z.add_0_r, app_nil_r. repeat (split; [done || constructor|]). done. }
  exists l1, l2, st'. rewrite Hlp. repeat (split; [done|]). apply Forall_inv in Ht. simpl in Ht.
  destruct l1 as [|t1 l1]; simpl in E.
  - rewrite <- E in H2. apply Forall_inv in H2. unfold due in H2. simpl in H2.
    split; [done|]. destruct (Z.ltb_spec (t_time t) diff); [lia|]. rewrite u32_small; lia.
  - injection E as -> _. apply Forall_inv in H1. unfold due in H1. simpl in H1. split; [|done]. intros _.
    destruct (Z.ltb_spec (t_time t1) diff); [done|]. rewrite u32_small; lia.
Qed.

Lemma check_timeouts_witness :
  let st := mk_ts (next_timeout timers2) 1000 false false 1400 (pools timers2) [] in
  exists l1 l2 st', next_timeout st = l1 ++ l2 /\
    sys_check_timeouts (fun _ st => st) record_call (fun st => st) 5 st = Some st' /\
    app st' = [] ++ map (fun t => (t_h t, t_arg t)) l1.
Proof.
  intros st.
  destruct (check_timeouts_fires_due (fun _ st => st) record_call (fun st => st) (fun a => a) desc0 st
              (tail (tail free0)) 5) as (l1 & l2 & st' & H1 & H2 & _ & _ & _ & _ & H3 & _).
  - intros s. by rewrite app_nil_r.
  - repeat constructor.
  - destruct timers2_inv as [Ht Hp]. constructor; [exact Ht|exact Hp].
  - vm_compute. lia.
  - exists l1, l2, st'. auto.
Defined.

(** ** What the code does not mean to do *)

(** A handler that sets its timer again, for half a second later: when its timer was
    the only one and the check is a second late, the local [diff] still counts
    from the old origin while [sys_timeout] moved it to now, so the new timer fires
    at once, in the same check. *)
Definition rearm (f arg : Z) (st : tstate (list (handler * Z))) :=
  sys_timeout 500 (h_user f) arg (record_call f arg st).

Lemma rearmed_timer_fires_early :
  app <$> sys_check_timeouts (fun _ st => st) rearm (fun st => st) 9
    (mk_ts (next_timeout (sys_timeout 10 (h_user 7) 1 timers0)) 1000 false false 2000
       (pools (sys_timeout 10 (h_user 7) 1 timers0)) [])
  = Some [(h_user 7, 1); (h_user 7, 1)].
Proof. vm_compute. reflexivity. Qed.

(** The pool has as many elements as there are cyclic timers ([MEMP_NUM_SYS_TIMEOUT]
    is 7 here): with TCP active a timer of an application is silently not set. *)
Definition desc_timeo : memp_desc := mk_desc 16 7 536900001.
Definition timers7 : tstate (list (handler * Z)) :=
  tcp_timer_needed (sys_timeouts_init
    (mk_ts [] 0 false true 1000 (replicate 10 (memp_init_pool desc_timeo (mk_pool 0 ∅ (mk_stats 0 0 0 0 0)))) [])).

Lemma application_timer_not_set :
  length (next_timeout timers7) = 7%nat /\
  next_timeout (sys_timeout 500 (h_user 7) 1 timers7) = next_timeout timers7.
Proof. vm_compute. done. Qed.
