(* ===== verification/T41.v ===== *)
(** * [lwip_t41.c]: the Ethernet driver's descriptor rings

    The receive and transmit rings that the driver shares with the ENET
    controller.  The frame buffers are in the byte memory of [Pbuf], a pointer to
    a descriptor is its index, and [None] is running out of fuel.  The controller
    itself is not modelled: what the driver relies on (it fills the empty receive
    descriptors in ring order, and ends every transmission) is a hypothesis of the
    theorems.  Clock, pin and MAC registers and the PHY are left out. *)

From Stdlib Require Import ZArith Lia.
From stdpp Require Import base tactics numbers list option gmap.
From S2P Require Import Prelude.
From S2P Require Import Alloc.
From S2P Require Import Mem.
From S2P Require Import Memp.
From S2P Require Import Pbuf.
From S2P Require Import PbufChain.
From S2P Require Import PbufAlloc.

(** ** Data *)

Definition RX_SIZE : nat := 5.
Definition TX_SIZE : nat := 5.
Definition BFSIZE : Z := 1536.

Definition kEnetRxBdEmpty : Z := 0x8000.
Definition kEnetRxBdWrap : Z := 0x2000.
Definition kEnetRxBdLengthViolation : Z := 0x0020.
Definition kEnetRxBdNoOctet : Z := 0x0010.
Definition kEnetRxBdCrc : Z := 0x0004.
Definition kEnetRxBdTrunc : Z := 0x0001.
Definition kEnetRxBdIntrrupt : Z := 0x0080.
Definition kEnetTxBdReady : Z := 0x8000.
Definition kEnetTxBdWrap : Z := 0x2000.
Definition kEnetTxBdLast : Z := 0x0800.
Definition kEnetTxBdTransmitCrc : Z := 0x0400.
Definition kEnetTxBdTxInterrupt : Z := 0x4000.
Definition kEnetTxBdProtChecksum : Z := 0x1000.
Definition kEnetTxBdIpHdrChecksum : Z := 0x0800.

(** The fields of [enetbufferdesc_t] that the driver uses. *)
Record enetbufferdesc := mk_bd {
  bd_length : Z; bd_status : Z; bd_buffer : Z; bd_extend1 : Z; bd_timestamp : Z
}.

Definition with_status (b : enetbufferdesc) (v : Z) : enetbufferdesc :=
  mk_bd (bd_length b) v (bd_buffer b) (bd_extend1 b) (bd_timestamp b).

(** [lwip_stats.link] *)
Record link_stats := mk_link { l_xmit : Z; l_recv : Z; l_drop : Z }.

(** The doorbell registers [ENET_RDAR] and [ENET_TDAR]. *)
Inductive doorbell := RDAR | TDAR.

(** The static variables of the driver, the pbufs with their time stamps, the
    statistics and the writes to the doorbells. *)
Record drv := mk_drv {
  rx_ring : list enetbufferdesc;
  tx_ring : list enetbufferdesc;
  p_rxbd : nat;
  p_txbd : nat;
  rx_callback : bool;
  rx_ready : Z;
  ps : pstate;
  timestamps : gmap Z Z;
  link : link_stats;
  bells : list doorbell
}.

Definition bd_at (ring : list enetbufferdesc) (i : nat) : enetbufferdesc :=
  default (mk_bd 0 0 0 0 0) (ring !! i).

Definition set_rx (st : drv) (r : list enetbufferdesc) : drv :=
  mk_drv r (tx_ring st) (p_rxbd st) (p_txbd st) (rx_callback st) (rx_ready st) (ps st) (timestamps st) (link st) (bells st).
Definition set_tx (st : drv) (r : list enetbufferdesc) : drv :=
  mk_drv (rx_ring st) r (p_rxbd st) (p_txbd st) (rx_callback st) (rx_ready st) (ps st) (timestamps st) (link st) (bells st).
Definition set_p_rxbd (st : drv) (i : nat) : drv :=
  mk_drv (rx_ring st) (tx_ring st) i (p_txbd st) (rx_callback st) (rx_ready st) (ps st) (timestamps st) (link st) (bells st).
Definition set_p_txbd (st : drv) (i : nat) : drv :=
  mk_drv (rx_ring st) (tx_ring st) (p_rxbd st) i (rx_callback st) (rx_ready st) (ps st) (timestamps st) (link st) (bells st).
Definition set_ready (st : drv) (v : Z) : drv :=
  mk_drv (rx_ring st) (tx_ring st) (p_rxbd st) (p_txbd st) (rx_callback st) v (ps st) (timestamps st) (link st) (bells st).
Definition set_ps (st : drv) (v : pstate) : drv :=
  mk_drv (rx_ring st) (tx_ring st) (p_rxbd st) (p_txbd st) (rx_callback st) (rx_ready st) v (timestamps st) (link st) (bells st).
Definition set_stamp (st : drv) (p v : Z) : drv :=
  mk_drv (rx_ring st) (tx_ring st) (p_rxbd st) (p_txbd st) (rx_callback st) (rx_ready st) (ps st)
    (<[p := v]> (timestamps st)) (link st) (bells st).
Definition set_link (st : drv) (v : link_stats) : drv :=
  mk_drv (rx_ring st) (tx_ring st) (p_rxbd st) (p_txbd st) (rx_callback st) (rx_ready st) (ps st) (timestamps st) v (bells st).
(** [enet_set_receive_callback(rx_cb)], as far as the driver looks at it. *)
Definition enet_set_receive_callback (st : drv) (set : bool) : drv :=
  mk_drv (rx_ring st) (tx_ring st) (p_rxbd st) (p_txbd st) set (rx_ready st) (ps st) (timestamps st) (link st) (bells st).
Definition ring_bell (st : drv) (b : doorbell) : drv :=
  mk_drv (rx_ring st) (tx_ring st) (p_rxbd st) (p_txbd st) (rx_callback st) (rx_ready st) (ps st) (timestamps st)
    (link st) (bells st ++ [b]).

(** ** Operations *)

Definition has (status flag : Z) : bool := negb (Z.land status flag =? 0).

(** The part of [t41_low_level_init] that sets up the rings; [rxbufs] and [txbufs]
    are the addresses of the buffer arrays. *)
Definition rx_ring_init (rxbufs : Z) : list enetbufferdesc :=
  let ring := imap (fun i _ => mk_bd 0 kEnetRxBdEmpty (rxbufs + Z.of_nat i * BFSIZE) kEnetRxBdIntrrupt 0) (replicate RX_SIZE tt) in
  alter (fun b => with_status b (Z.lor (bd_status b) kEnetRxBdWrap)) (RX_SIZE - 1)%nat ring.

Definition tx_ring_init (txbufs : Z) : list enetbufferdesc :=
  let ring := imap (fun i _ => mk_bd 0 kEnetTxBdTransmitCrc (txbufs + Z.of_nat i * BFSIZE)
                      (Z.lor kEnetTxBdTxInterrupt (Z.lor kEnetTxBdIpHdrChecksum kEnetTxBdProtChecksum)) 0) (replicate TX_SIZE tt) in
  alter (fun b => with_status b (Z.lor (bd_status b) kEnetTxBdWrap)) (TX_SIZE - 1)%nat ring.

Definition rings_init (st : drv) (rxbufs txbufs : Z) : drv :=
  set_tx (set_rx st (rx_ring_init rxbufs)) (tx_ring_init txbufs).

(** [rxbd_next]: the descriptor, or [None] for [NULL]. *)
Definition rxbd_next (fuel : nat) (st : drv) : option (drv * option nat) :=
  match loop fuel (fun p_bd =>
          if has (bd_status (bd_at (rx_ring st) p_bd)) kEnetRxBdEmpty then
            let p_bd := if has (bd_status (bd_at (rx_ring st) p_bd)) kEnetRxBdWrap then 0%nat else S p_bd in
            if (p_bd =? p_rxbd st)%nat then inr None else inl p_bd
          else inr (Some p_bd)) (p_rxbd st) with
  | None => None
  | Some None => Some (st, None)
  | Some (Some p_bd) =>
      let next := if has (bd_status (bd_at (rx_ring st) (p_rxbd st))) kEnetRxBdWrap then 0%nat else S (p_rxbd st) in
      Some (set_p_rxbd st next, Some p_bd)
  end.

Section Driver.
Context (custom_free : pstate -> Z -> pstate) (fuel : nat).

Definition err_mask : Z :=
  Z.lor (Z.lor (Z.lor kEnetRxBdTrunc kEnetRxBdCrc) kEnetRxBdNoOctet) kEnetRxBdLengthViolation.

(** [t41_low_level_input] *)
Definition t41_low_level_input (st : drv) (bdPtr : nat) : option (drv * Z) :=
  let b := bd_at (rx_ring st) bdPtr in
  let give_back st p :=
    let st := set_rx st (alter (fun b =>
      with_status b (Z.lor (Z.land (bd_status b) kEnetRxBdWrap) kEnetRxBdEmpty)) bdPtr (rx_ring st)) in
    Some (ring_bell st RDAR, p) in
  if has (bd_status b) err_mask then give_back st NULL
  else
    match pbuf_alloc custom_free fuel (ps st) PBUF_RAW (bd_length b) PBUF_POOL with
    | None => None
    | Some (s, p) =>
        let st := set_ps st s in
        let l := link st in
        if p =? NULL then give_back (set_link st (mk_link (l_xmit l) (l_recv l) (u16 (l_drop l + 1)))) NULL
        else
          match pbuf_take fuel (ps st) p (bd_buffer b) (pb_tot_len (pb (ps st) p)) with
          | None => None
          | Some (s, _) =>
              let st := set_stamp (set_ps st s) p (bd_timestamp b) in
              give_back (set_link st (mk_link (l_xmit l) (u16 (l_recv l + 1)) (l_drop l))) p
          end
    end.

(** [enet_rx_next] *)
Definition enet_rx_next (st : drv) : option (drv * Z) :=
  match rxbd_next fuel st with
  | None => None
  | Some (st, None) => Some (st, NULL)
  | Some (st, Some p_bd) => t41_low_level_input st p_bd
  end.

(** [t41_low_level_output]; [poll] is what the controller does between two reads
    of the status while the driver waits. *)
Definition t41_low_level_output (poll : drv -> drv) (st : drv) (p : Z) : option (drv * Z) :=
  let bdPtr := p_txbd st in
  match loop fuel (fun st =>
          if has (bd_status (bd_at (tx_ring st) bdPtr)) kEnetTxBdReady then inl (poll st) else inr st) st with
  | None => None
  | Some st =>
      match pbuf_copy_partial fuel (ps st) p (bd_buffer (bd_at (tx_ring st) bdPtr)) (pb_tot_len (pb (ps st) p)) 0 with
      | None => None
      | Some (s, n) =>
          let st := set_ps st s in
          let st := set_tx st (alter (fun b =>
            mk_bd n
              (Z.lor (Z.lor (Z.lor (Z.land (bd_status b) kEnetTxBdWrap) kEnetTxBdTransmitCrc) kEnetTxBdLast) kEnetTxBdReady)
              (bd_buffer b)
              (Z.land (bd_extend1 b) (Z.lor kEnetTxBdIpHdrChecksum kEnetTxBdProtChecksum))
              (bd_timestamp b)) bdPtr (tx_ring st)) in
          let st := ring_bell st TDAR in
          let st := set_p_txbd st (if has (bd_status (bd_at (tx_ring st) bdPtr)) kEnetTxBdWrap then 0%nat else S (p_txbd st)) in
          let l := link st in
          Some (set_link st (mk_link (u16 (l_xmit l + 1)) (l_recv l) (l_drop l)), ERR_OK)
      end
  end.

(** [enet_isr]: a round for every receive event pending in [ENET_EIR]; [callback] is
    the function the application set. *)
Definition enet_isr (callback : drv -> drv) (events : nat) (st : drv) : drv :=
  Nat.iter events (fun st => if rx_callback st then callback st else set_ready st 1) st.

(** [enet_input]; [input] is [t41_netif.input], which returns an error code. *)
Definition enet_input (input : drv -> Z -> option (drv * Z)) (st : drv) (p_frame : Z) : option drv :=
  match input st p_frame with
  | None => None
  | Some (st, err) =>
      if err =? ERR_OK then Some st
      else match pbuf_free custom_free fuel (ps st) p_frame with
           | None => None
           | Some (s, _) => Some (set_ps st s)
           end
  end.

(** [enet_proc_input] *)
Definition enet_proc_input (input : drv -> Z -> option (drv * Z)) (st : drv) : option drv :=
  let drain st :=
    match loop fuel (fun st =>
            match enet_rx_next st with
            | None => inr None
            | Some (st, p) =>
                if p =? NULL then inr (Some st)
                else match enet_input input st p with None => inr None | Some st => inl st end
            end) st with
    | Some (Some st) => Some st
    | _ => None
    end in
  if negb (rx_callback st) then
    if negb (rx_ready st =? 0) then drain (set_ready st 0) else Some st
  else drain st.

End Driver.

(** ** Received chains *)

Lemma payloads_separate st l R :
  Forall2 (payload_in st) l R -> all_separate (map snd R) -> all_separate (payloads st l).
Proof.
  induction 1 as [|x r l R Hx HF IH]; [done|]. simpl. intros [Hr HR]. split; [|by apply IH].
  clear IH. revert Hr. induction HF as [|y s l R Hy HF IH]; intros Hr; [constructor|].
  apply Forall_cons_1 in Hr as [Hrs Hr]. destruct HR as [_ HR]. constructor; [|by apply IH].
  unfold payload_in, separate, payload_region in *. simpl in *. lia.
Qed.

Section Received.
Context (hb : Z) (dp dq : memp_desc).

(** The payloads of a chain from the pool are disjoint and in the pool's arena. *)
Lemma pool_payloads st st' O p l R offset length :
  allocated hb dp dq st st' O p l R offset length PBUF_POOL ->
  all_separate (payloads st' l) /\ Forall (fun r => inside r (arena dq)) (payloads st' l).
Proof.
  intros Hal. destruct (al_room _ _ _ _ _ _ _ _ _ _ _ _ Hal (or_intror eq_refl)) as [Hroom _].
  pose proof (al_held _ _ _ _ _ _ _ _ _ _ _ _ Hal) as HR. pose proof (room_payload_in _ _ _ HR Hroom) as Hin.
  pose proof (al_owns _ _ _ _ _ _ _ _ _ _ _ _ Hal) as Ho. pose proof (al_fields _ _ _ _ _ _ _ _ _ _ _ _ Hal) as Hf.
  split.
  - apply (payloads_separate st' l R Hin). destruct (st_owns_separate _ _ _ _ _ Ho) as [Hs _].
    rewrite map_app in Hs. by apply all_separate_app in Hs as [Hs _].
  - destruct (so_pool _ _ _ _ _ Ho) as (q & _ & Hq). pose proof (pool_owns_inside _ _ _ Hq) as Hi.
    apply Forall_fmap, Forall_forall. intros x Hx. apply list_elem_of_lookup_1 in Hx as [i Hi'].
    destruct (Forall2_lookup_l _ _ _ _ _ HR Hi') as (r & Hr & Hk & Ha & _).
    destruct (Forall2_lookup_l _ _ _ _ _ Hin Hi') as (r' & Hr' & Hp). rewrite Hr in Hr'. injection Hr' as <-.
    destruct (Forall_lookup_1 _ _ _ _ Hf Hi') as (Ht & _). rewrite Ht in Hk. destruct r as [k r]. simpl in Hk. subst k.
    assert (Hin' : r ∈ held KPool (R ++ O)) by (apply elem_of_held, elem_of_app; left; by eapply list_elem_of_lookup_2).
    rewrite Forall_forall in Hi. specialize (Hi r Hin'). unfold inside, payload_in, payload_region in *. simpl in *. lia.
Qed.
End Received.

(** ** The receive ring as a queue *)

(** A frame the controller has put into a descriptor. *)
Record frame := mk_frame { f_bytes : list Z; f_error : bool; f_time : Z }.

(** The ring after [t41_low_level_init]: the buffers, and the wrap flag at the end. *)
Definition ring_ok (ring : list enetbufferdesc) (bufs : Z) (n : nat) (wrap : Z) : Prop :=
  length ring = n /\
  forall i, (i < n)%nat -> bd_buffer (bd_at ring i) = bufs + Z.of_nat i * BFSIZE /\
                    has (bd_status (bd_at ring i)) wrap = (i =? n - 1)%nat.

Definition holds (m : memory) (b : enetbufferdesc) (f : frame) : Prop :=
  has (bd_status b) kEnetRxBdEmpty = false /\ has (bd_status b) err_mask = f_error f /\
  bd_length b = Z.of_nat (length (f_bytes f)) /\ bd_length b <= BFSIZE /\
  bytes_at m (bd_buffer b) (length (f_bytes f)) = f_bytes f /\ bd_timestamp b = f_time f.

(** The frames [q] wait in the ring, the oldest one at [p_rxbd]. *)
Record rx_rep (rxbufs : Z) (st : drv) (q : list frame) : Prop := {
  rr_ring : ring_ok (rx_ring st) rxbufs RX_SIZE kEnetRxBdWrap;
  rr_pos : (p_rxbd st < RX_SIZE)%nat;
  rr_len : (length q <= RX_SIZE)%nat;
  rr_pending : forall k f, q !! k = Some f ->
    holds (data (ps st)) (bd_at (rx_ring st) ((p_rxbd st + k) mod RX_SIZE)) f;
  rr_empty : forall k, (length q <= k < RX_SIZE)%nat ->
    has (bd_status (bd_at (rx_ring st) ((p_rxbd st + k) mod RX_SIZE))) kEnetRxBdEmpty = true
}.

(** What the controller does when a frame arrives: it uses the descriptor behind the
    waiting ones, which is empty, and touches nothing else. *)
Record hw_receive (rxbufs : Z) (st st' : drv) (n : nat) (f : frame) : Prop := {
  hw_desc : holds (data (ps st')) (bd_at (rx_ring st') ((p_rxbd st + n) mod RX_SIZE)) f;
  hw_ring : ring_ok (rx_ring st') rxbufs RX_SIZE kEnetRxBdWrap;
  hw_others : forall i, i <> ((p_rxbd st + n) mod RX_SIZE)%nat -> bd_at (rx_ring st') i = bd_at (rx_ring st) i;
  hw_pos : p_rxbd st' = p_rxbd st;
  hw_data : only_in [(rxbufs + Z.of_nat ((p_rxbd st + n) mod RX_SIZE) * BFSIZE, BFSIZE)] (data (ps st)) (data (ps st'))
}.

(** Ring positions. *)
Lemma ring_next i : (i < RX_SIZE)%nat -> (if (i =? RX_SIZE - 1)%nat then 0%nat else S i) = ((i + 1) mod RX_SIZE)%nat.
Proof. intros H. do 5 (destruct i as [|i]; [done|]). unfold RX_SIZE in H. lia. Qed.

Lemma ring_shift p k : (((p + 1) mod RX_SIZE + k) mod RX_SIZE = (p + S k) mod RX_SIZE)%nat.
Proof. rewrite Nat.Div0.add_mod_idemp_l. f_equal. lia. Qed.

Lemma ring_bound i : (i mod RX_SIZE < RX_SIZE)%nat.
Proof. apply Nat.mod_upper_bound. done. Qed.

Lemma ring_distinct p i j : (i < RX_SIZE)%nat -> (j < RX_SIZE)%nat -> i <> j ->
  ((p + i) mod RX_SIZE <> (p + j) mod RX_SIZE)%nat.
Proof.
  unfold RX_SIZE. intros Hi Hj Hne E. pose proof (Nat.div_mod_eq (p + i) 5). pose proof (Nat.div_mod_eq (p + j) 5). lia.
Qed.

Lemma ring_self p : (p < RX_SIZE)%nat -> ((p + 0) mod RX_SIZE)%nat = p.
Proof. intros. rewrite Nat.add_0_r. by apply Nat.mod_small. Qed.

Lemma ring_full p : (p < RX_SIZE)%nat -> ((p + RX_SIZE) mod RX_SIZE)%nat = p.
Proof. intros. rewrite <- (Nat.Div0.add_mod_idemp_r _ RX_SIZE). change (RX_SIZE mod RX_SIZE)%nat with 0%nat. by apply ring_self. Qed.

Lemma has_give_back s :
  has (Z.lor (Z.land s kEnetRxBdWrap) kEnetRxBdEmpty) kEnetRxBdEmpty = true /\
  has (Z.lor (Z.land s kEnetRxBdWrap) kEnetRxBdEmpty) kEnetRxBdWrap = has s kEnetRxBdWrap.
Proof.
  unfold has. rewrite !Z.land_lor_distr_l, <- !Z.land_assoc.
  change (Z.land kEnetRxBdWrap kEnetRxBdEmpty) with 0. change (Z.land kEnetRxBdWrap kEnetRxBdWrap) with kEnetRxBdWrap.
  change (Z.land kEnetRxBdEmpty kEnetRxBdEmpty) with kEnetRxBdEmpty. change (Z.land kEnetRxBdEmpty kEnetRxBdWrap) with 0.
  by rewrite Z.land_0_r, Z.lor_0_r.
Qed.

Lemma bd_at_alter (f : enetbufferdesc -> enetbufferdesc) ring i j :
  (i < length ring)%nat -> bd_at (alter f i ring) j = if decide (j = i) then f (bd_at ring i) else bd_at ring j.
Proof.
  intros Hi. unfold bd_at. destruct (decide (j = i)) as [-> |Hne].
  - rewrite list_lookup_alter_eq. destruct (lookup_lt_is_Some_2 ring i Hi) as [b Hb]. by rewrite Hb.
  - by rewrite list_lookup_alter_ne.
Qed.

(** *** [rxbd_next] *)

Lemma rxbd_next_pending fuel rxbufs st f q :
  (0 < fuel)%nat -> rx_rep rxbufs st (f :: q) ->
  rxbd_next fuel st = Some (set_p_rxbd st ((p_rxbd st + 1) mod RX_SIZE), Some (p_rxbd st)).
Proof.
  intros Hf [[Hlen Hr] Hp _ Hpend _]. destruct (Hpend 0%nat f eq_refl) as (He & _). rewrite ring_self in He by done.
  unfold rxbd_next. destruct fuel as [|fuel]; [lia|]. cbn [loop]. rewrite He.
  destruct (Hr (p_rxbd st) Hp) as [_ ->]. by rewrite ring_next.
Qed.

Lemma rxbd_next_none fuel rxbufs st :
  (RX_SIZE <= fuel)%nat -> rx_rep rxbufs st [] -> rxbd_next fuel st = Some (st, None).
Proof.
  intros Hf [[Hlen Hr] Hp _ _ Hempty]. unfold rxbd_next.
  set (step := fun p_bd : nat => _).
  assert (H : forall j fuel, (j < RX_SIZE)%nat -> (RX_SIZE - j <= fuel)%nat ->
    loop fuel step ((p_rxbd st + j) mod RX_SIZE)%nat = Some None).
  { intros j. remember (RX_SIZE - j)%nat as n eqn:En. revert j En.
    induction n as [|n IH]; intros j En fuel' Hj Hfu; [lia|]. destruct fuel' as [|fuel']; [lia|]. cbn [loop].
    unfold step at 1. rewrite (Hempty j) by (simpl; lia). destruct (Hr _ (ring_bound (p_rxbd st + j))) as [_ ->].
    rewrite ring_next by apply ring_bound. rewrite Nat.Div0.add_mod_idemp_l.
    replace (p_rxbd st + j + 1)%nat with (p_rxbd st + S j)%nat by lia.
    destruct (Nat.eqb_spec ((p_rxbd st + S j) mod RX_SIZE) (p_rxbd st)) as [E|E]; [done|].
    apply IH; [lia| |lia]. destruct (decide (S j = RX_SIZE)) as [Ej|]; [|lia]. exfalso. apply E. rewrite Ej. by apply ring_full. }
  rewrite <- (ring_self (p_rxbd st) Hp) at 1. by rewrite H by (unfold RX_SIZE in *; lia).
Qed.

(** *** Giving a descriptor back *)

Lemma bytes_at_agree m m' a n :
  (forall x, a <= x < a + Z.of_nat n -> m' x = m x) -> bytes_at m' a n = bytes_at m a n.
Proof. intros. by apply bytes_at_ext. Qed.

Lemma holds_agree rxbufs ring m m' i f :
  ring_ok ring rxbufs RX_SIZE kEnetRxBdWrap -> (i < RX_SIZE)%nat ->
  (forall x, rxbufs + Z.of_nat i * BFSIZE <= x < rxbufs + (Z.of_nat i + 1) * BFSIZE -> m' x = m x) ->
  holds m (bd_at ring i) f -> holds m' (bd_at ring i) f.
Proof.
  intros [_ Hr] Hi Hm (H1 & H2 & H3 & H4 & H5 & H6). repeat (split; [done|]). split; [|done].
  etransitivity; [apply bytes_at_agree|exact H5]. destruct (Hr i Hi) as [-> _]. intros x Hx. apply Hm. lia.
Qed.

Lemma give_back_rep rxbufs st st' f q :
  rx_rep rxbufs st (f :: q) ->
  rx_ring st' = alter (fun b => with_status b (Z.lor (Z.land (bd_status b) kEnetRxBdWrap) kEnetRxBdEmpty))
                  (p_rxbd st) (rx_ring st) ->
  p_rxbd st' = ((p_rxbd st + 1) mod RX_SIZE)%nat ->
  (forall x, rxbufs <= x < rxbufs + Z.of_nat RX_SIZE * BFSIZE -> data (ps st') x = data (ps st) x) ->
  rx_rep rxbufs st' q.
Proof.
  intros [[Hlen Hr] Hp Hl Hpend Hempty] Er Ep Hm.
  assert (Hat : forall j, bd_at (rx_ring st') j = if decide (j = p_rxbd st)
      then with_status (bd_at (rx_ring st) j) (Z.lor (Z.land (bd_status (bd_at (rx_ring st) j)) kEnetRxBdWrap) kEnetRxBdEmpty)
      else bd_at (rx_ring st) j).
  { intros j. rewrite Er, bd_at_alter by (by rewrite Hlen). destruct (decide (j = p_rxbd st)); by subst. }
  simpl in Hl. constructor.
  - split; [by rewrite Er, length_alter|]. intros i Hi. rewrite Hat.
    destruct (decide (i = p_rxbd st)); [|by apply Hr]. cbn [bd_buffer bd_status with_status].
    rewrite (proj2 (has_give_back _)). by apply Hr.
  - rewrite Ep. apply ring_bound.
  - lia.
  - intros k g Hk. pose proof (lookup_lt_Some _ _ _ Hk) as Hkl. rewrite Ep, ring_shift.
    specialize (Hpend (S k) g Hk). rewrite Hat, decide_False.
    + apply (holds_agree rxbufs _ (data (ps st))); [by split|apply ring_bound| |done].
      intros x Hx. apply Hm. pose proof (ring_bound (p_rxbd st + S k)). unfold BFSIZE, RX_SIZE in *. lia.
    + rewrite <- (ring_self (p_rxbd st) Hp) at 2. apply ring_distinct; unfold RX_SIZE in *; lia.
  - intros k Hk. rewrite Ep, ring_shift, Hat. destruct (decide _); [apply has_give_back|].
    apply Hempty. simpl. destruct (decide (S k = RX_SIZE)) as [Ek|]; [|lia]. exfalso. apply n. rewrite Ek. by apply ring_full.
Qed.

Lemma buffers_apart rxbufs i j x :
  i <> j -> rxbufs + Z.of_nat i * BFSIZE <= x < rxbufs + (Z.of_nat i + 1) * BFSIZE ->
  x < rxbufs + Z.of_nat j * BFSIZE \/ rxbufs + Z.of_nat j * BFSIZE + BFSIZE <= x.
Proof. unfold BFSIZE. lia. Qed.

(** *** Receiving *)

Lemma splice_all c bs : length bs = length c -> splice c 0 bs = bs.
Proof. intros E. unfold splice. simpl. rewrite drop_ge by lia. apply app_nil_r. Qed.

Section Receive.
Context (hb : Z) (dp dq : memp_desc) (custom_free : pstate -> Z -> pstate) (fuel : nat) (rxbufs : Z).

(** The buffers are apart from the pool of pbufs. *)
Hypothesis Hrx : 0 < rxbufs.
Hypothesis Hsep : separate (rxbufs, Z.of_nat RX_SIZE * BFSIZE) (arena dq).

(** A chain that holds the frame. *)
Record received (st st' : pstate) (O : holding) (p : Z) (bs : list Z) : Prop := {
  rc_chain : exists l R, pchain st' p l /\ l <> [] /\ sizes st' l /\ content st' l = bs /\
    Forall2 (held_as st') l R /\ Forall (fun x => pb_ref (pb st' x) = 1) l /\ st_owns hb dp dq st' (R ++ O);
  rc_data : forall x, rxbufs <= x < rxbufs + Z.of_nat RX_SIZE * BFSIZE -> data st' x = data st x
}.

(** Allocating a chain for the frame at [src] and copying it. *)
Lemma alloc_and_take st O src n :
  st_owns hb dp dq st O -> 0 <= n <= BFSIZE -> rxbufs <= src -> src + n <= rxbufs + Z.of_nat RX_SIZE * BFSIZE ->
  (1539 < fuel)%nat ->
  exists st1 p, pbuf_alloc custom_free fuel st PBUF_RAW n PBUF_POOL = Some (st1, p) /\
    ((p = NULL /\ unchanged hb dp dq st st1 O) \/
     (p <> NULL /\ exists st2, pbuf_take fuel st1 p src (pb_tot_len (pb st1 p)) = Some (st2, ERR_OK) /\
        received st st2 O p (bytes_at (data st) src (Z.to_nat n)))).
Proof.
  intros Ho Hn Hs1 Hs2 Hf. unfold BFSIZE in Hn.
  destruct (alloc_correct hb dp dq custom_free fuel st O PBUF_RAW n PBUF_POOL Ho ltac:(lia) ltac:(lia))
    as (st1 & p & Ha & [Hnone|(Hp & l & R & Hal)]); [by exists st1, p; auto|].
  exists st1, p. split; [done|]. right. split; [done|].
  destruct (pool_payloads _ _ _ _ _ _ _ _ _ _ _ Hal) as [Hps Hpi].
  pose proof (al_chain _ _ _ _ _ _ _ _ _ _ _ _ Hal) as Hc. destruct (al_sizes _ _ _ _ _ _ _ _ _ _ _ _ Hal) as [Hsz Hpl].
  pose proof (al_nonempty _ _ _ _ _ _ _ _ _ _ _ _ Hal) as Hne. pose proof (al_data _ _ _ _ _ _ _ _ _ _ _ _ Hal) as Hd.
  pose proof (al_fields _ _ _ _ _ _ _ _ _ _ _ _ Hal) as Hfl.
  assert (Htot : pb_tot_len (pb st1 p) = n).
  { destruct l as [|x l]; [done|]. pose proof Hc as (-> & _). by rewrite (sizes_head _ _ _ Hsz). }
  pose proof (al_count _ _ _ _ _ _ _ _ _ _ _ _ Hal) as Hll.
  pose proof (take_correct fuel st1 p l src n Hc Hne Hsz Hps ltac:(lia) ltac:(lia) ltac:(unfold NULL; lia)) as Ht.
  rewrite Hpl, Z.ltb_irrefl in Ht.
  destruct Ht as (m' & Ht & Hon & Hct).
  { eapply Forall_impl; [exact Hpi|]. intros r. revert Hsep. unfold inside, separate. simpl. lia. }
  rewrite Htot. exists (set_data st1 m'). split; [done|]. constructor.
  - exists l, R. split; [by apply (pchain_ext st1)|]. split; [done|]. split; [by apply (sizes_ext st1)|].
    split. { rewrite Hct, Hd. apply splice_all. rewrite length_bytes_at, length_content by done. by rewrite Hpl. }
    split; [exact (al_held _ _ _ _ _ _ _ _ _ _ _ _ Hal)|].
    split; [eapply Forall_impl; [exact Hfl|]; intros x (_ & _ & H); exact H|].
    apply (st_owns_ext hb dp dq st1); [done|done| |exact (al_owns _ _ _ _ _ _ _ _ _ _ _ _ Hal)].
    apply (so_flags _ _ _ _ _ (al_owns _ _ _ _ _ _ _ _ _ _ _ _ Hal)).
  - intros x Hx. cbn [data set_data]. rewrite Hon, Hd; [done|]. eapply Forall_impl; [exact Hpi|].
    intros r. revert Hsep. unfold inside, separate. simpl. lia.
Qed.

(** What [enet_rx_next] gives for the oldest frame. *)
Definition delivered (st st' : drv) (O : holding) (p : Z) (f : frame) : Prop :=
  if f_error f then p = NULL /\ ps st' = ps st /\ link st' = link st
  else
    (p = NULL /\ unchanged hb dp dq (ps st) (ps st') O /\
       link st' = mk_link (l_xmit (link st)) (l_recv (link st)) (u16 (l_drop (link st) + 1))) \/
    (p <> NULL /\ received (ps st) (ps st') O p (f_bytes f) /\ timestamps st' !! p = Some (f_time f) /\
       link st' = mk_link (l_xmit (link st)) (u16 (l_recv (link st) + 1)) (l_drop (link st))).

Lemma rx_next_correct st O f q :
  rx_rep rxbufs st (f :: q) -> st_owns hb dp dq (ps st) O -> (1539 < fuel)%nat ->
  exists st' p, enet_rx_next custom_free fuel st = Some (st', p) /\ rx_rep rxbufs st' q /\ delivered st st' O p f.
Proof.
  intros Hrep Ho Hf. unfold enet_rx_next. rewrite (rxbd_next_pending fuel rxbufs st f q) by (done || lia).
  destruct (rr_ring _ _ _ Hrep) as [Hlen Hr]. pose proof (rr_pos _ _ _ Hrep) as Hp.
  destruct (rr_pending _ _ _ Hrep 0%nat f eq_refl) as (_ & He & Hbl & Hmax & Hby & Hti).
  rewrite ring_self in He, Hbl, Hmax, Hby, Hti by done. destruct (Hr _ Hp) as [Hbuf _].
  unfold t41_low_level_input, delivered. cbn [rx_ring set_p_rxbd ps]. rewrite He.
  destruct (f_error f).
  { eexists _, NULL. split; [done|]. split; [|done]. by apply (give_back_rep rxbufs st _ f q). }
  destruct (alloc_and_take (ps st) O (bd_buffer (bd_at (rx_ring st) (p_rxbd st))) (bd_length (bd_at (rx_ring st) (p_rxbd st))) Ho)
    as (st1 & p & -> & [[-> Hun] | (Hpn & st2 & Ht & Hrc)]); [lia| | |done| |].
  - unfold BFSIZE in *. lia.
  - unfold BFSIZE, RX_SIZE in *. lia.
  - rewrite Z.eqb_refl. eexists _, NULL. split; [done|]. split; [|by left].
    apply (give_back_rep rxbufs st _ f q); auto. intros x _. simpl. by destruct Hun as (_ & -> & _).
  - rewrite (proj2 (Z.eqb_neq _ _) Hpn). cbn [ps set_ps]. rewrite Ht. eexists _, p. split; [done|]. split.
    + apply (give_back_rep rxbufs st _ f q); auto. apply (rc_data _ _ _ _ _ Hrc).
    + right. split; [done|]. split; [|split; [cbn; by rewrite lookup_insert_eq, Hti|done]].
      rewrite Hbl, Nat2Z.id, Hby in Hrc. exact Hrc.
Qed.

(** A frame that arrives is queued behind the others. *)
Lemma receive_queues st st' q f :
  rx_rep rxbufs st q -> (length q < RX_SIZE)%nat -> hw_receive rxbufs st st' (length q) f ->
  rx_rep rxbufs st' (q ++ [f]).
Proof.
  intros [Hr Hp Hl Hpend Hempty] Hlt [Hd Hr' Hoth Hpos Hdat]. constructor; auto.
  - by rewrite Hpos.
  - rewrite length_app. simpl. lia.
  - intros k g Hk. rewrite Hpos. destruct (decide (k = length q)) as [-> |Hne].
    + rewrite list_lookup_middle in Hk by done. by injection Hk as <-.
    + pose proof (lookup_lt_Some _ _ _ Hk) as Hkl. rewrite length_app in Hkl. simpl in Hkl.
      rewrite lookup_app_l in Hk by lia.
      assert (Hdis : ((p_rxbd st + k) mod RX_SIZE <> (p_rxbd st + length q) mod RX_SIZE)%nat)
        by (apply ring_distinct; lia).
      rewrite Hoth by done. apply (holds_agree rxbufs _ (data (ps st))); [done|apply ring_bound| |by apply Hpend].
      intros x Hx. apply Hdat. constructor; [|constructor]. by apply (buffers_apart _ _ _ _ Hdis).
  - intros k Hk. rewrite length_app in Hk. simpl in Hk. rewrite Hpos, Hoth; [apply Hempty; lia|].
    apply ring_distinct; lia.
Qed.
End Receive.

(** ** Transmitting *)

(** What the driver relies on while it waits: the controller writes only to the
    transmit ring, and there leaves the buffers and the wrap flags alone. *)
Record poll_ok (poll : drv -> drv) : Prop := {
  po_only_tx : forall st, poll st = set_tx st (tx_ring (poll st));
  po_length : forall st, length (tx_ring (poll st)) = length (tx_ring st);
  po_keeps : forall st i,
    bd_buffer (bd_at (tx_ring (poll st)) i) = bd_buffer (bd_at (tx_ring st) i) /\
    has (bd_status (bd_at (tx_ring (poll st)) i)) kEnetTxBdWrap = has (bd_status (bd_at (tx_ring st) i)) kEnetTxBdWrap
}.

Lemma poll_iter poll st n :
  poll_ok poll ->
  Nat.iter n poll st = set_tx st (tx_ring (Nat.iter n poll st)) /\
  forall bufs k, ring_ok (tx_ring st) bufs k kEnetTxBdWrap -> ring_ok (tx_ring (Nat.iter n poll st)) bufs k kEnetTxBdWrap.
Proof.
  intros [H1 H2 H3]. induction n as [|n [IH1 IH2]]; simpl; [by destruct st|]. split.
  - rewrite H1. rewrite IH1 at 1. done.
  - intros bufs k Hr. destruct (IH2 _ _ Hr) as [Hl Hi]. split; [by rewrite H2|]. intros i Hik.
    destruct (H3 (Nat.iter n poll st) i) as [-> ->]. by apply Hi.
Qed.

(** The wait ends when the controller has sent the descriptor. *)
Lemma tx_wait fuel poll st i n :
  (n < fuel)%nat -> has (bd_status (bd_at (tx_ring (Nat.iter n poll st)) i)) kEnetTxBdReady = false ->
  exists k, (k <= n)%nat /\ loop fuel (fun st =>
      if has (bd_status (bd_at (tx_ring st) i)) kEnetTxBdReady then inl (poll st) else inr st) st
    = Some (Nat.iter k poll st).
Proof.
  revert st n. induction fuel as [|fuel IH]; intros st n Hf Hn; [lia|]. cbn [loop].
  destruct (has (bd_status (bd_at (tx_ring st) i)) kEnetTxBdReady) eqn:E; [|by exists 0%nat; split; [lia|]].
  destruct n as [|n]; [simpl in Hn; congruence|]. rewrite Nat.iter_succ_r in Hn.
  destruct (IH (poll st) n ltac:(lia) Hn) as (k & Hk & Hl). exists (S k). split; [lia|].
  rewrite Hl. by rewrite Nat.iter_succ_r.
Qed.

Lemma has_send s :
  let s' := Z.lor (Z.lor (Z.lor (Z.land s kEnetTxBdWrap) kEnetTxBdTransmitCrc) kEnetTxBdLast) kEnetTxBdReady in
  has s' kEnetTxBdReady = true /\ has s' kEnetTxBdLast = true /\ has s' kEnetTxBdTransmitCrc = true /\
  has s' kEnetTxBdWrap = has s kEnetTxBdWrap.
Proof.
  cbv zeta. unfold has. rewrite !Z.land_lor_distr_l, <- !Z.land_assoc.
  unfold kEnetTxBdWrap, kEnetTxBdReady, kEnetTxBdLast, kEnetTxBdTransmitCrc.
  repeat match goal with |- context [Z.land (Z.pos ?a) (Z.pos ?b)] =>
    let v := eval vm_compute in (Z.land (Z.pos a) (Z.pos b)) in change (Z.land (Z.pos a) (Z.pos b)) with v end.
  rewrite !Z.land_0_r, !Z.lor_0_r. done.
Qed.

(** ** The properties *)

(** C4: The receive ring is a bounded first-in first-out queue between the
    controller and the driver: a frame that arrives is queued behind those waiting;
    [enet_rx_next] returns [NULL] and changes nothing when none waits, and otherwise
    takes the oldest frame, gives its descriptor back, and returns a fresh pbuf chain
    with exactly the bytes of the frame and its time stamp (and [NULL] for a frame
    with errors, or when no pbufs are left, which counts as dropped); the frames
    behind it are untouched. *)
Theorem rx_ring_is_fifo hb dp dq custom_free fuel rxbufs st O q :
  rx_rep rxbufs st q -> st_owns hb dp dq (ps st) O -> 0 < rxbufs ->
  separate (rxbufs, Z.of_nat RX_SIZE * BFSIZE) (arena dq) -> (1539 < fuel)%nat ->
  (forall st' f, (length q < RX_SIZE)%nat -> hw_receive rxbufs st st' (length q) f -> rx_rep rxbufs st' (q ++ [f])) /\
  match q with
  | [] => enet_rx_next custom_free fuel st = Some (st, NULL)
  | f :: q' => exists st' p,
      enet_rx_next custom_free fuel st = Some (st', p) /\ rx_rep rxbufs st' q' /\
      delivered hb dp dq rxbufs st st' O p f
  end.
Proof.
  intros Hrep Ho Hrx Hsep Hf. split; [intros st' f; by apply receive_queues|]. destruct q as [|f q].
  - unfold enet_rx_next. rewrite (rxbd_next_none fuel rxbufs); [done|unfold RX_SIZE; lia|done].
  - by apply rx_next_correct.
Qed.

(** A driver with one frame of four bytes waiting. *)
Definition drv0 (s : pstate) : drv :=
  rings_init (mk_drv [] [] 0 0 false 0 s ∅ (mk_link 0 0 0) []) 538000000 538010000.
Definition drv1 : drv :=
  let s := set_data st0 (write_bytes (data st0) 538000000 [1; 2; 3; 4]) in
  set_rx (drv0 s) (alter (fun b => mk_bd 4 0x0800 (bd_buffer b) (bd_extend1 b) 99) 0%nat (rx_ring (drv0 s))).

Ltac five i H := unfold RX_SIZE, TX_SIZE in H; do 5 (destruct i as [|i]; [try done|]); lia.

Lemma drv1_rep : rx_rep 538000000 drv1 [mk_frame [1; 2; 3; 4] false 99].
Proof.
  constructor.
  - split; [done|]. intros i Hi. five i Hi.
  - unfold RX_SIZE. simpl. lia.
  - unfold RX_SIZE. simpl. lia.
  - intros [|k] f Hk; [|done]. injection Hk as <-. unfold holds. vm_compute. repeat split; congruence.
  - intros k Hk. destruct k as [|k]; [simpl in Hk; lia|]. destruct Hk as [_ Hk]. unfold RX_SIZE in Hk.
    do 4 (destruct k as [|k]; [done|]). lia.
Qed.

Lemma rx_fifo_witness :
  exists st' p, enet_rx_next (fun s _ => s) 1600 drv1 = Some (st', p) /\ rx_rep 538000000 st' [] /\
    delivered (ram heap0) dp0 dq0 538000000 drv1 st' [] p (mk_frame [1; 2; 3; 4] false 99).
Proof.
  apply (rx_ring_is_fifo (ram heap0) dp0 dq0 (fun s _ => s) 1600 538000000 drv1 [] [mk_frame [1; 2; 3; 4] false 99]).
  - exact drv1_rep.
  - apply (st_owns_ext _ _ _ st0); [done|done| |exact st0_owns]. apply (so_flags _ _ _ _ _ st0_owns).
  - lia.
  - right. vm_compute. congruence.
  - lia.
Defined.

(** C40: [t41_low_level_output] ends as soon as the controller has sent what the next
    descriptor held before, and hands the frame over: the descriptor is ready, with
    the length and the bytes of the pbuf chain, the other descriptors are as the
    controller left them, only this descriptor's buffer was written, and the next
    frame uses the next descriptor of the ring.  The frame must fit the buffer: the
    code does not check it. *)
Theorem output_hands_frame_over fuel poll st p l txbufs n :
  poll_ok poll -> ring_ok (tx_ring st) txbufs TX_SIZE kEnetTxBdWrap -> (p_txbd st < TX_SIZE)%nat -> 0 < txbufs ->
  pchain (ps st) p l -> l <> [] -> sizes (ps st) l -> plen (ps st) l <= BFSIZE ->
  Forall (separate (txbufs, Z.of_nat TX_SIZE * BFSIZE)) (payloads (ps st) l) ->
  has (bd_status (bd_at (tx_ring (Nat.iter n poll st)) (p_txbd st))) kEnetTxBdReady = false ->
  (n < fuel)%nat -> (length l < fuel)%nat ->
  exists k st', t41_low_level_output fuel poll st p = Some (st', ERR_OK) /\ (k <= n)%nat /\
    let b := bd_at (tx_ring st') (p_txbd st) in
    bd_length b = plen (ps st) l /\ has (bd_status b) kEnetTxBdReady = true /\ has (bd_status b) kEnetTxBdLast = true /\
    bytes_at (data (ps st')) (bd_buffer b) (Z.to_nat (bd_length b)) = content (ps st) l /\
    (forall i, i <> p_txbd st -> bd_at (tx_ring st') i = bd_at (tx_ring (Nat.iter k poll st)) i) /\
    only_in [(bd_buffer b, BFSIZE)] (data (ps st)) (data (ps st')) /\
    ring_ok (tx_ring st') txbufs TX_SIZE kEnetTxBdWrap /\
    p_txbd st' = ((p_txbd st + 1) mod TX_SIZE)%nat /\ bells st' = bells st ++ [TDAR].
Proof.
  intros Hpoll Hr Hp Htx Hc Hne Hsz Hmax Hsep Hn Hf Hl. unfold t41_low_level_output.
  destruct (tx_wait fuel poll st (p_txbd st) n Hf Hn) as (k & Hk & ->).
  destruct (poll_iter poll st k Hpoll) as [Eit Hrk]. pose proof (Hrk _ _ Hr) as [Hlen Hi].
  set (ring := tx_ring (Nat.iter k poll st)) in *. rewrite Eit. cbn [ps set_tx tx_ring].
  destruct (Hi _ Hp) as [Hbuf Hwr]. rewrite Hbuf.
  assert (Htot : pb_tot_len (pb (ps st) p) = plen (ps st) l).
  { destruct l as [|x l]; [done|]. pose proof Hc as (-> & _). by apply sizes_head. }
  pose proof (sizes_nonneg _ _ Hsz) as [Hpos _]. set (a := txbufs + Z.of_nat (p_txbd st) * BFSIZE).
  assert (Ha : txbufs <= a /\ a + BFSIZE <= txbufs + Z.of_nat TX_SIZE * BFSIZE)
    by (unfold a, BFSIZE, TX_SIZE in *; lia).
  rewrite Htot. unfold BFSIZE in Hmax. rewrite (copy_partial_correct fuel (ps st) p l); auto; try lia.
  2:{ unfold NULL. lia. }
  2:{ eapply Forall_impl; [exact Hsep|]. intros r. unfold separate, BFSIZE in *. simpl. lia. }
  assert (Eall : slice (content (ps st) l) 0 (plen (ps st) l) = content (ps st) l).
  { unfold slice. simpl. rewrite drop_0, take_ge; [done|]. rewrite length_content by done. lia. }
  rewrite Eall, length_content, Z2Nat.id by done. eexists k, _. split; [done|]. split; [done|].
  cbn [tx_ring ps bells p_txbd set_link set_p_txbd set_tx set_ps ring_bell data set_data].
  destruct (has_send (bd_status (bd_at ring (p_txbd st)))) as (S1 & S2 & _ & S4).
  rewrite !bd_at_alter by (by rewrite Hlen). rewrite decide_True by done. cbn [bd_length bd_status bd_buffer].
  rewrite Hbuf. fold a. split; [done|]. split; [exact S1|]. split; [exact S2|].
  split. { replace (Z.to_nat (plen (ps st) l)) with (length (content (ps st) l)) by (by apply length_content).
           apply bytes_at_write_eq. }
  split. { intros i Hne'. rewrite bd_at_alter by (by rewrite Hlen). by rewrite decide_False. }
  split. { apply (only_in_write _ _ (a, BFSIZE)); [left|simpl; lia|]. rewrite length_content by done. simpl. unfold BFSIZE. lia. }
  split. { split; [by rewrite length_alter|]. intros i Hit. rewrite bd_at_alter by (by rewrite Hlen).
           destruct (decide (i = p_txbd st)) as [-> |]; [|by apply Hi]. cbn [bd_buffer bd_status]. split; [done|].
           by rewrite S4. }
  split; [|done]. rewrite S4, Hwr. by apply ring_next.
Qed.

Lemma output_witness :
  exists k st', t41_low_level_output 9 (fun st => st) (drv0 demo_st) 1000 = Some (st', ERR_OK) /\ (k <= 0)%nat /\
    bytes_at (data (ps st')) 538010000 7 = [65; 66; 67; 68; 69; 70; 71].
Proof.
  destruct (output_hands_frame_over 9 (fun st => st) (drv0 demo_st) 1000 demo_l 538010000 0)
    as (k & st' & H1 & H2 & H3 & _ & _ & H4 & _ & _ & H5 & _).
  - constructor; [by intros []|done|done].
  - split; [done|]. intros i Hi. five i Hi.
  - unfold TX_SIZE. simpl. lia.
  - lia.
  - exact demo_chain.
  - done.
  - exact demo_sizes.
  - vm_compute. congruence.
  - change (payloads (ps (drv0 demo_st)) demo_l) with [(1040, 3); (2040, 4)].
    repeat constructor; unfold separate; simpl; lia.
  - reflexivity.
  - lia.
  - simpl. lia.
  - exists k, st'. split; [exact H1|]. split; [exact H2|]. rewrite H3 in H4.
    destruct H5 as [_ H5]. destruct (H5 0%nat ltac:(unfold TX_SIZE; lia)) as [H5' _].
    change (p_txbd (drv0 demo_st)) with 0%nat in H4. rewrite H5' in H4. exact H4.
Defined.

(** ** What the code does not mean to do *)

(** The interface's MTU is 1522: with the 16 bytes of the padded Ethernet header a
    packet of that size needs 1538 bytes of a buffer of 1536, and the driver writes
    the last two bytes into the next buffer. *)
Definition long_st : pstate :=
  mk_ps (<[1000 := mk_pbuf 0 2000 1538 1538 PBUF_RAM 0 1]> (∅ : gmap Z pbuf)) (fun _ => 7) heap0 [] 0.

Lemma full_mtu_overruns_buffer :
  match t41_low_level_output 9 (fun st => st)
          (set_ps (drv0 long_st) (set_data long_st (fun a => if a <? 10000 then 7 else 0))) 1000 with
  | Some (st', _) => map (data (ps st')) [538010000 + 1535; 538010000 + 1536; 538010000 + 1537; 538010000 + 1538] = [7; 7; 7; 0]
  | None => False
  end.
Proof. vm_compute. reflexivity. Qed.

(** A frame with a CRC error in front of a good one: [enet_proc_input] stops at the
    bad frame with [rx_ready] cleared, and the good frame waits for the next
    interrupt. *)
Definition bad_then_good : drv :=
  set_ready (set_rx drv1 (alter (fun b => with_status b 0x0804) 0%nat
    (alter (fun b => mk_bd 4 0x0800 (bd_buffer b) (bd_extend1 b) 99) 1%nat (rx_ring drv1)))) 1.

Lemma bad_frame_stops_input :
  match enet_proc_input (fun s _ => s) 1600 (fun st p => Some (st, ERR_OK)) bad_then_good with
  | Some st' => rx_ready st' = 0 /\ l_recv (link st') = 0 /\ p_rxbd st' = 1%nat /\
                has (bd_status (bd_at (rx_ring st') 1)) kEnetRxBdEmpty = false
  | None => False
  end.
Proof. vm_compute. done. Qed.
