(* ===== verification/Etharp.v ===== *)
(** * [core/ipv4/etharp.c] and [ethernet_output] of [netif/ethernet.c]

    The ARP table of ten entries, each with at most one queued packet
    ([ARP_QUEUEING] 0, no static entries, no hints per connection).  The table logic is
    independent of how packets are stored: the operations on pbufs that can take a
    while ([pbuf_alloc], [pbuf_free], [pbuf_copy]) are a record of operations, which
    [pbuf_ops_of] instantiates with those of [Pbuf]. *)

From Stdlib Require Import ZArith Lia.
From stdpp Require Import base tactics numbers list option gmap relations.
From S2P Require Import Prelude.
From S2P Require Import Def.
From S2P Require Import Ip4Addr.
From S2P Require Import Alloc.
From S2P Require Import Pbuf.
From S2P Require Import PbufChain.
From S2P Require Import PbufAlloc.

(** ** Data *)

Definition ARP_TABLE_SIZE : nat := 10.
Definition ARP_MAXAGE : Z := 300.
Definition ARP_AGE_REREQUEST_USED_UNICAST : Z := ARP_MAXAGE - 30.
Definition ARP_AGE_REREQUEST_USED_BROADCAST : Z := ARP_MAXAGE - 15.
Definition ARP_MAXPENDING : Z := 5.
Definition ETHARP_FLAG_TRY_HARD : Z := 1.
Definition ETHARP_FLAG_FIND_ONLY : Z := 2.
Definition HWTYPE_ETHERNET : Z := 1.
Definition ETHTYPE_IP : Z := 0x0800.
Definition ETHTYPE_ARP : Z := 0x0806.
Definition ARP_REQUEST : Z := 1.
Definition ARP_REPLY : Z := 2.
Definition SIZEOF_ETH_HDR : Z := 16.
Definition SIZEOF_ETHARP_HDR : Z := 28.

(** [struct eth_addr]: six bytes. *)
Definition eth_addr : Type := list Z.
Definition ethbroadcast : eth_addr := replicate 6 0xff.
Definition ethzero : eth_addr := replicate 6 0.

(** [enum etharp_state] *)
Inductive etharp_state :=
  ETHARP_STATE_EMPTY | ETHARP_STATE_PENDING | ETHARP_STATE_STABLE
| ETHARP_STATE_STABLE_REREQUESTING_1 | ETHARP_STATE_STABLE_REREQUESTING_2.
#[export] Instance etharp_state_eq_dec : EqDecision etharp_state.
Proof. solve_decision. Defined.

(** [state >= ETHARP_STATE_STABLE] *)
Definition stable (s : etharp_state) : bool :=
  match s with ETHARP_STATE_EMPTY | ETHARP_STATE_PENDING => false | _ => true end.
Definition is_empty (s : etharp_state) : bool := match s with ETHARP_STATE_EMPTY => true | _ => false end.

(** [struct etharp_entry]; [a_netif] is the address of the interface. *)
Record etharp_entry := mk_entry {
  a_q : Z; a_ipaddr : Z; a_netif : Z; a_ethaddr : eth_addr; a_ctime : Z; a_state : etharp_state
}.
Definition with_q (e : etharp_entry) v := mk_entry v (a_ipaddr e) (a_netif e) (a_ethaddr e) (a_ctime e) (a_state e).
Definition with_ip (e : etharp_entry) v := mk_entry (a_q e) v (a_netif e) (a_ethaddr e) (a_ctime e) (a_state e).
Definition with_netif (e : etharp_entry) v := mk_entry (a_q e) (a_ipaddr e) v (a_ethaddr e) (a_ctime e) (a_state e).
Definition with_eth (e : etharp_entry) v := mk_entry (a_q e) (a_ipaddr e) (a_netif e) v (a_ctime e) (a_state e).
Definition with_ctime (e : etharp_entry) v := mk_entry (a_q e) (a_ipaddr e) (a_netif e) (a_ethaddr e) v (a_state e).
Definition with_astate (e : etharp_entry) v := mk_entry (a_q e) (a_ipaddr e) (a_netif e) (a_ethaddr e) (a_ctime e) v.

(** The counters of [lwip_stats.etharp] (and [lwip_stats.link.lenerr]). *)
Inductive counter := s_recv | s_xmit | s_drop | s_proterr | s_memerr | s_err | s_cachehit | s_link_lenerr.
#[export] Instance counter_eq_dec : EqDecision counter.
Proof. solve_decision. Defined.

Record estate := mk_es {
  arp_table : list etharp_entry;
  etharp_cached_entry : nat;
  packets : pstate;
  counters : counter -> Z
}.

Definition set_table (st : estate) t := mk_es t (etharp_cached_entry st) (packets st) (counters st).
Definition set_cached (st : estate) i := mk_es (arp_table st) i (packets st) (counters st).
Definition set_packets (st : estate) s := mk_es (arp_table st) (etharp_cached_entry st) s (counters st).
Definition count (st : estate) (c : counter) :=
  mk_es (arp_table st) (etharp_cached_entry st) (packets st)
    (fun x => if decide (x = c) then u16 (counters st c + 1) else counters st x).

Definition entry0 : etharp_entry := mk_entry 0 0 0 ethzero 0 ETHARP_STATE_EMPTY.
Definition entry_at (st : estate) (i : nat) : etharp_entry := default entry0 (arp_table st !! i).
Definition upd_entry (st : estate) (i : nat) (f : etharp_entry -> etharp_entry) : estate :=
  set_table st (alter f i (arp_table st)).

(** ** The interface to packet buffers *)

Record pbuf_ops := {
  op_alloc : pstate -> pbuf_layer -> Z -> pbuf_type -> pstate * Z;
  op_free : pstate -> Z -> pstate;
  op_copy : pstate -> Z -> Z -> pstate * Z
}.

(** The operations of [Pbuf] with a bound on the rounds. *)
Definition pbuf_ops_of (custom_free : pstate -> Z -> pstate) (fuel : nat) : pbuf_ops := {|
  op_alloc st layer len type := default (st, NULL) (pbuf_alloc custom_free fuel st layer len type);
  op_free st p := from_option fst st (pbuf_free custom_free fuel st p);
  op_copy st p_to p_from := default (st, ERR_ARG) (pbuf_copy fuel st p_to p_from)
|}.

Section Etharp.
Context (ops : pbuf_ops).
(** The interfaces, and the [linkoutput] function of each. *)
Context (netif_at : Z -> netif) (linkoutput : Z -> pstate -> Z -> pstate * Z).
(** [dhcp_arp_reply] of [core/ipv4/dhcp.c], called on ARP replies. *)
Context (dhcp_arp_reply : Z -> Z -> estate -> estate).
(** A bound on the length of packets. *)
Context (fuel : nat).

Definition isbroadcast (a nif : Z) : bool := negb (ip4_addr_isbroadcast_u32 a (netif_at nif) =? 0).
Definition hwaddr (nif : Z) : eth_addr := netif_hwaddr (netif_at nif).

(** [ethernet_output] *)
Definition ethernet_output (st : estate) (nif p : Z) (src dst : eth_addr) (eth_type : Z) : estate * Z :=
  let eth_type_be := lwip_htons eth_type in
  let '(s, r) := pbuf_header (packets st) p SIZEOF_ETH_HDR in
  let st := set_packets st s in
  if negb (r =? 0) then (count st s_link_lenerr, ERR_BUF)
  else
    let payload := pb_payload (pb (packets st) p) in
    let m := write_bytes (data (packets st)) (payload + 14) [eth_type_be mod 256; eth_type_be / 256] in
    let m := write_bytes m (payload + 2) dst in
    let m := write_bytes m (payload + 8) src in
    let '(s, r) := linkoutput nif (set_data (packets st) m) p in
    (set_packets st s, r).

(** The header that [etharp_raw] writes, in the order of [struct etharp_hdr]. *)
Definition etharp_hdr (opcode : Z) (hwsrc : eth_addr) (ipsrc : Z) (hwdst : eth_addr) (ipdst : Z) : list Z :=
  let hwtype := PP_HTONS HWTYPE_ETHERNET in
  let proto := PP_HTONS ETHTYPE_IP in
  let op := lwip_htons opcode in
  [hwtype mod 256; hwtype / 256; proto mod 256; proto / 256; 6; 4; op mod 256; op / 256]
    ++ hwsrc ++ u32_bytes ipsrc ++ hwdst ++ u32_bytes ipdst.

(** [etharp_raw] *)
Definition etharp_raw (st : estate) (nif : Z) (ethsrc ethdst hwsrc : eth_addr) (ipsrc : Z) (hwdst : eth_addr)
    (ipdst opcode : Z) : estate * Z :=
  let '(s, p) := op_alloc ops (packets st) PBUF_LINK SIZEOF_ETHARP_HDR PBUF_RAM in
  let st := set_packets st s in
  if p =? NULL then (count st s_memerr, ERR_MEM)
  else
    let hdr := pb_payload (pb (packets st) p) in
    let st := set_packets st (set_data (packets st)
                (write_bytes (data (packets st)) hdr (etharp_hdr opcode hwsrc ipsrc hwdst ipdst))) in
    let '(st, _) := ethernet_output st nif p ethsrc ethdst ETHTYPE_ARP in
    let st := count st s_xmit in
    (set_packets st (op_free ops (packets st) p), ERR_OK).

(** [etharp_request_dst] and [etharp_request] *)
Definition etharp_request_dst (st : estate) (nif ipaddr : Z) (hw_dst_addr : eth_addr) : estate * Z :=
  etharp_raw st nif (hwaddr nif) hw_dst_addr (hwaddr nif) (netif_ip_addr (netif_at nif)) ethzero ipaddr ARP_REQUEST.
Definition etharp_request (st : estate) (nif ipaddr : Z) : estate * Z :=
  etharp_request_dst st nif ipaddr ethbroadcast.

(** [etharp_free_entry] *)
Definition etharp_free_entry (st : estate) (i : nat) : estate :=
  let q := a_q (entry_at st i) in
  let st := if negb (q =? NULL)
            then upd_entry (set_packets st (op_free ops (packets st) q)) i (fun e => with_q e NULL)
            else st in
  upd_entry st i (fun e => with_astate e ETHARP_STATE_EMPTY).

(** The body of the loop of [etharp_tmr], and [etharp_tmr]. *)
Definition etharp_tmr_entry (st : estate) (i : nat) : estate :=
  if is_empty (a_state (entry_at st i)) then st
  else
    let st := upd_entry st i (fun e => with_ctime e (u16 (a_ctime e + 1))) in
    let e := entry_at st i in
    if (ARP_MAXAGE <=? a_ctime e)
       || (bool_decide (a_state e = ETHARP_STATE_PENDING) && (ARP_MAXPENDING <=? a_ctime e))
    then etharp_free_entry st i
    else match a_state e with
         | ETHARP_STATE_STABLE_REREQUESTING_1 => upd_entry st i (fun e => with_astate e ETHARP_STATE_STABLE_REREQUESTING_2)
         | ETHARP_STATE_STABLE_REREQUESTING_2 => upd_entry st i (fun e => with_astate e ETHARP_STATE_STABLE)
         | ETHARP_STATE_PENDING => (etharp_request st (a_netif e) (a_ipaddr e)).1
         | _ => st
         end.
Definition etharp_tmr (st : estate) : estate := foldl etharp_tmr_entry st (seq 0 ARP_TABLE_SIZE).

(** *** [etharp_find_entry] *)

(** The candidates of the search with their ages. *)
Record candidates := mk_cand {
  c_empty : nat; c_stable : nat; c_pending : nat; c_queue : nat;
  age_stable : Z; age_pending : Z; age_queue : Z
}.

(** The search from entry [i] on: a match or the candidates. *)
Fixpoint find_sweep (ipaddr : option Z) (i : nat) (l : list etharp_entry) (c : candidates) : nat + candidates :=
  match l with
  | [] => inr c
  | e :: l =>
      if (c_empty c =? ARP_TABLE_SIZE)%nat && is_empty (a_state e)
      then find_sweep ipaddr (S i) l
             (mk_cand i (c_stable c) (c_pending c) (c_queue c) (age_stable c) (age_pending c) (age_queue c))
      else if negb (is_empty (a_state e)) then
        if match ipaddr with Some a => a =? a_ipaddr e | None => false end then inl i
        else
          let c :=
            match a_state e with
            | ETHARP_STATE_PENDING =>
                if negb (a_q e =? NULL) then
                  if age_queue c <=? a_ctime e
                  then mk_cand (c_empty c) (c_stable c) (c_pending c) i (age_stable c) (age_pending c) (a_ctime e) else c
                else
                  if age_pending c <=? a_ctime e
                  then mk_cand (c_empty c) (c_stable c) i (c_queue c) (age_stable c) (a_ctime e) (age_queue c) else c
            | ETHARP_STATE_EMPTY => c
            | _ =>
                if age_stable c <=? a_ctime e
                then mk_cand (c_empty c) i (c_pending c) (c_queue c) (a_ctime e) (age_pending c) (age_queue c) else c
            end in
          find_sweep ipaddr (S i) l c
      else find_sweep ipaddr (S i) l c
  end.

(** The result is an index or [ERR_MEM]. *)
Definition etharp_find_entry (st : estate) (ipaddr : option Z) (flags : Z) : estate * Z :=
  let n := ARP_TABLE_SIZE in
  match find_sweep ipaddr 0 (arp_table st) (mk_cand n n n n 0 0 0) with
  | inl i => (st, Z.of_nat i)
  | inr c =>
      if negb (Z.land flags ETHARP_FLAG_FIND_ONLY =? 0)
         || ((c_empty c =? n)%nat && (Z.land flags ETHARP_FLAG_TRY_HARD =? 0))
      then (st, ERR_MEM)
      else
        let finish st i :=
          let st := match ipaddr with Some a => upd_entry st i (fun e => with_ip e a) | None => st end in
          (upd_entry st i (fun e => with_ctime e 0), Z.of_nat i) in
        if (c_empty c <? n)%nat then finish st (c_empty c)
        else if (c_stable c <? n)%nat then finish (etharp_free_entry st (c_stable c)) (c_stable c)
        else if (c_pending c <? n)%nat then finish (etharp_free_entry st (c_pending c)) (c_pending c)
        else if (c_queue c <? n)%nat then finish (etharp_free_entry st (c_queue c)) (c_queue c)
        else (st, ERR_MEM)
  end.

(** [etharp_update_arp_entry] *)
Definition etharp_update_arp_entry (st : estate) (nif ipaddr : Z) (ethaddr : eth_addr) (flags : Z) : estate * Z :=
  if ip4_addr_isany ipaddr || isbroadcast ipaddr nif || ip4_addr_ismulticast ipaddr then (st, ERR_ARG)
  else
    let '(st, i) := etharp_find_entry st (Some ipaddr) flags in
    if i <? 0 then (st, i)
    else
      let i := Z.to_nat i in
      let st := upd_entry st i (fun e => with_astate e ETHARP_STATE_STABLE) in
      let st := upd_entry st i (fun e => with_netif e nif) in
      let st := upd_entry st i (fun e => with_eth e ethaddr) in
      let st := upd_entry st i (fun e => with_ctime e 0) in
      let p := a_q (entry_at st i) in
      if negb (p =? NULL) then
        let st := upd_entry st i (fun e => with_q e NULL) in
        let '(st, _) := ethernet_output st nif p (hwaddr nif) ethaddr ETHTYPE_IP in
        (set_packets st (op_free ops (packets st) p), ERR_OK)
      else (st, ERR_OK).

(** [etharp_cleanup_netif] *)
Definition etharp_cleanup_netif (st : estate) (nif : Z) : estate :=
  foldl (fun st i =>
    if negb (is_empty (a_state (entry_at st i))) && (a_netif (entry_at st i) =? nif)
    then etharp_free_entry st i else st) st (seq 0 ARP_TABLE_SIZE).

(** [etharp_find_addr]: the index with the two addresses, or -1. *)
Definition etharp_find_addr (st : estate) (ipaddr : Z) : estate * option (nat * eth_addr * Z) :=
  let '(st, i) := etharp_find_entry st (Some ipaddr) ETHARP_FLAG_FIND_ONLY in
  if (0 <=? i) && stable (a_state (entry_at st (Z.to_nat i)))
  then (st, Some (Z.to_nat i, a_ethaddr (entry_at st (Z.to_nat i)), a_ipaddr (entry_at st (Z.to_nat i))))
  else (st, None).

(** [etharp_get_entry] *)
Definition etharp_get_entry (st : estate) (i : nat) : option (Z * Z * eth_addr) :=
  if (i <? ARP_TABLE_SIZE)%nat && stable (a_state (entry_at st i))
  then Some (a_ipaddr (entry_at st i), a_netif (entry_at st i), a_ethaddr (entry_at st i)) else None.

(** [etharp_input] *)
Definition etharp_input (st : estate) (p nif : Z) : estate :=
  if nif =? NULL then st
  else
    let m := data (packets st) in
    let hdr := pb_payload (pb (packets st) p) in
    let free st := set_packets st (op_free ops (packets st) p) in
    if negb (ld16 m hdr =? PP_HTONS HWTYPE_ETHERNET) || negb (m (hdr + 4) =? 6) || negb (m (hdr + 5) =? 4)
       || negb (ld16 m (hdr + 2) =? PP_HTONS ETHTYPE_IP)
    then free (count (count st s_proterr) s_drop)
    else
      let st := count st s_recv in
      let opcode := ld16 m (hdr + 6) in
      let shwaddr := bytes_at m (hdr + 8) 6 in
      let sipaddr := ld32 m (hdr + 14) in
      let dipaddr := ld32 m (hdr + 24) in
      let myip := netif_ip_addr (netif_at nif) in
      let for_us := if ip4_addr_isany myip then false else dipaddr =? myip in
      let '(st, _) := etharp_update_arp_entry st nif sipaddr shwaddr
                        (if for_us then ETHARP_FLAG_TRY_HARD else ETHARP_FLAG_FIND_ONLY) in
      let st :=
        if opcode =? PP_HTONS ARP_REQUEST then
          if for_us
          then (etharp_raw st nif (hwaddr nif) shwaddr (hwaddr nif) myip shwaddr sipaddr ARP_REPLY).1
          else st
        else if opcode =? PP_HTONS ARP_REPLY then dhcp_arp_reply nif sipaddr st
        else count st s_err in
      free st.

(** [etharp_output_to_arp_index] *)
Definition etharp_output_to_arp_index (st : estate) (nif q : Z) (i : nat) : estate * Z :=
  let e := entry_at st i in
  let rerequest '(st, r) :=
    if r =? ERR_OK then upd_entry st i (fun e => with_astate e ETHARP_STATE_STABLE_REREQUESTING_1) else st in
  let st :=
    match a_state e with
    | ETHARP_STATE_STABLE =>
        if ARP_AGE_REREQUEST_USED_BROADCAST <=? a_ctime e then rerequest (etharp_request st nif (a_ipaddr e))
        else if ARP_AGE_REREQUEST_USED_UNICAST <=? a_ctime e
        then rerequest (etharp_request_dst st nif (a_ipaddr e) (a_ethaddr e))
        else st
    | _ => st
    end in
  ethernet_output st nif q (hwaddr nif) (a_ethaddr (entry_at st i)) ETHTYPE_IP.

(** The loop of [etharp_query] that looks for a pbuf that must be copied. *)
Definition first_not_rom (st : pstate) (q : Z) : option Z :=
  loop fuel (fun p =>
    if p =? NULL then inr NULL
    else if bool_decide (pb_type (pb st p) = PBUF_ROM) then inl (pb_next (pb st p))
    else inr p) q.

(** [etharp_query] *)
Definition etharp_query (st : estate) (nif ipaddr q : Z) : option (estate * Z) :=
  if isbroadcast ipaddr nif || ip4_addr_ismulticast ipaddr || ip4_addr_isany ipaddr then Some (st, ERR_ARG)
  else
    let '(st, i) := etharp_find_entry st (Some ipaddr) ETHARP_FLAG_TRY_HARD in
    if i <? 0 then Some ((if negb (q =? NULL) then count st s_memerr else st), i)
    else
      let i := Z.to_nat i in
      let is_new_entry := is_empty (a_state (entry_at st i)) in
      let st := if is_new_entry
                then upd_entry (upd_entry st i (fun e => with_astate e ETHARP_STATE_PENDING)) i (fun e => with_netif e nif)
                else st in
      let '(st, result) := if is_new_entry || (q =? NULL) then etharp_request st nif ipaddr else (st, ERR_MEM) in
      if q =? NULL then Some (st, result)
      else if stable (a_state (entry_at st i)) then
        let st := set_cached st i in
        Some (ethernet_output st nif q (hwaddr nif) (a_ethaddr (entry_at st i)) ETHTYPE_IP)
      else
        match first_not_rom (packets st) q with
        | None => None
        | Some p =>
            let '(st, p) :=
              if negb (p =? NULL) then
                let '(s, p) := op_alloc ops (packets st) PBUF_LINK (pb_tot_len (pb (packets st) p)) PBUF_RAM in
                if negb (p =? NULL) then
                  let '(s, err) := op_copy ops s p q in
                  if negb (err =? ERR_OK) then (set_packets st (op_free ops s p), NULL) else (set_packets st s, p)
                else (set_packets st s, NULL)
              else (set_packets st (pbuf_ref (packets st) q), q) in
            if negb (p =? NULL) then
              let old := a_q (entry_at st i) in
              let st := if negb (old =? NULL) then set_packets st (op_free ops (packets st) old) else st in
              Some (upd_entry st i (fun e => with_q e p), ERR_OK)
            else Some (count st s_memerr, ERR_MEM)
        end.

(** The loop of [etharp_output] over the table. *)
Fixpoint find_stable (dst : Z) (i : nat) (l : list etharp_entry) : option nat :=
  match l with
  | [] => None
  | e :: l => if stable (a_state e) && (dst =? a_ipaddr e) then Some i else find_stable dst (S i) l
  end.

(** [etharp_output] *)
Definition etharp_output (st : estate) (nif q ipaddr : Z) : option (estate * Z) :=
  if isbroadcast ipaddr nif
  then Some (ethernet_output st nif q (hwaddr nif) ethbroadcast ETHTYPE_IP)
  else if ip4_addr_ismulticast ipaddr then
    let mcastaddr := [0x01; 0x00; 0x5e; Z.land (ipaddr / 256 mod 256) 0x7f; ipaddr / 65536 mod 256; ipaddr / 16777216] in
    Some (ethernet_output st nif q (hwaddr nif) mcastaddr ETHTYPE_IP)
  else
    let unicast dst_addr :=
      let c := entry_at st (etharp_cached_entry st) in
      if stable (a_state c) && (dst_addr =? a_ipaddr c)
      then Some (etharp_output_to_arp_index (count st s_cachehit) nif q (etharp_cached_entry st))
      else match find_stable dst_addr 0 (arp_table st) with
           | Some i => Some (etharp_output_to_arp_index (set_cached st i) nif q i)
           | None => etharp_query st nif dst_addr q
           end in
    let n := netif_at nif in
    if negb (ip4_addr_netcmp ipaddr (netif_ip_addr n) (netif_netmask n)) && negb (ip4_addr_islinklocal ipaddr) then
      if negb (ip4_addr_isany (netif_gw n)) then unicast (netif_gw n) else Some (st, ERR_RTE)
    else unicast ipaddr.

End Etharp.

(** ** The search *)

Definition nonempty (e : etharp_entry) : Prop := is_empty (a_state e) = false.
Definition is_stable (e : etharp_entry) : Prop := stable (a_state e) = true.
Definition is_pending (e : etharp_entry) : Prop := a_state e = ETHARP_STATE_PENDING /\ a_q e = NULL.
Definition is_queued (e : etharp_entry) : Prop := a_state e = ETHARP_STATE_PENDING /\ a_q e <> NULL.

(** The oldest entry with a property. *)
Definition oldest (P : etharp_entry -> Prop) (l : list etharp_entry) (i : nat) : Prop :=
  exists e, l !! i = Some e /\ P e /\ Forall (fun e' => P e' -> a_ctime e' <= a_ctime e) l.

(** A candidate with its age: none so far, or the oldest. *)
Definition cand_ok (P : etharp_entry -> Prop) (l : list etharp_entry) (c : nat) (a : Z) : Prop :=
  (c = ARP_TABLE_SIZE /\ a = 0 /\ Forall (fun e => ~ P e) l) \/
  (exists e, l !! c = Some e /\ P e /\ a_ctime e = a /\ Forall (fun e' => P e' -> a_ctime e' <= a) l).

Definition first_empty (l : list etharp_entry) (i : nat) : Prop :=
  exists e, l !! i = Some e /\ ~ nonempty e /\ Forall nonempty (take i l).

Definition empty_ok (l : list etharp_entry) (c : nat) : Prop :=
  (c = ARP_TABLE_SIZE /\ Forall nonempty l) \/ first_empty l c.

Record swept (l : list etharp_entry) (c : candidates) : Prop := {
  sw_empty : empty_ok l (c_empty c);
  sw_stable : cand_ok is_stable l (c_stable c) (age_stable c);
  sw_pending : cand_ok is_pending l (c_pending c) (age_pending c);
  sw_queue : cand_ok is_queued l (c_queue c) (age_queue c)
}.

Lemma cand_skip P l c a e : cand_ok P l c a -> ~ P e -> cand_ok P (l ++ [e]) c a.
Proof.
  intros [(-> & -> & H) | (e' & H1 & H2 & H3 & H4)] He.
  - left. split; [done|]. split; [done|]. apply Forall_app. split; [done|by constructor].
  - right. exists e'. split; [by apply lookup_app_l_Some|]. split; [done|]. split; [done|].
    apply Forall_app. split; [done|]. by constructor.
Qed.

Lemma cand_take P l c a e :
  cand_ok P l c a -> P e -> 0 <= a_ctime e ->
  if a <=? a_ctime e then cand_ok P (l ++ [e]) (length l) (a_ctime e) else cand_ok P (l ++ [e]) c a.
Proof.
  intros Hc He H0. destruct (Z.leb_spec a (a_ctime e)) as [Hle|Hgt].
  - right. exists e. split; [by apply list_lookup_middle|]. split; [done|]. split; [done|]. apply Forall_app.
    split; [|constructor; [intros _; lia|constructor]].
    destruct Hc as [(_ & _ & H) | (e' & _ & _ & H3 & H4)]; eapply Forall_impl; [exact H| |exact H4|]; simpl; [done|].
    intros x Hx HP. specialize (Hx HP). lia.
  - destruct Hc as [(-> & -> & H) | (e' & H1 & H2 & H3 & H4)]; [lia|]. right. exists e'.
    split; [by apply lookup_app_l_Some|]. split; [done|]. split; [done|]. apply Forall_app. split; [done|].
    constructor; [intros _; lia|constructor].
Qed.

Lemma empty_skip l c e : empty_ok l c -> nonempty e -> empty_ok (l ++ [e]) c.
Proof.
  intros [[-> H] | (e' & H1 & H2 & H3)] He.
  - left. split; [done|]. apply Forall_app. split; [done|by constructor].
  - right. exists e'. split; [by apply lookup_app_l_Some|]. split; [done|].
    rewrite take_app_le by (apply lookup_lt_Some in H1; lia). done.
Qed.

Lemma empty_found l c e : first_empty l c -> first_empty (l ++ [e]) c.
Proof.
  intros (e' & H1 & H2 & H3). exists e'. split; [by apply lookup_app_l_Some|]. split; [done|].
  rewrite take_app_le by (apply lookup_lt_Some in H1; lia). done.
Qed.

Definition no_match (ip : Z) (l : list etharp_entry) : Prop := Forall (fun e => nonempty e -> a_ipaddr e <> ip) l.

Lemma swept_step l c e :
  swept l c -> nonempty e -> 0 <= a_ctime e ->
  swept (l ++ [e])
    match a_state e with
    | ETHARP_STATE_PENDING =>
        if negb (a_q e =? NULL) then
          if age_queue c <=? a_ctime e
          then mk_cand (c_empty c) (c_stable c) (c_pending c) (length l) (age_stable c) (age_pending c) (a_ctime e) else c
        else
          if age_pending c <=? a_ctime e
          then mk_cand (c_empty c) (c_stable c) (length l) (c_queue c) (age_stable c) (a_ctime e) (age_queue c) else c
    | ETHARP_STATE_EMPTY => c
    | _ =>
        if age_stable c <=? a_ctime e
        then mk_cand (c_empty c) (length l) (c_pending c) (c_queue c) (a_ctime e) (age_pending c) (age_queue c) else c
    end.
Proof.
  intros [He Hs Hp Hq] Hne H0. pose proof (empty_skip _ _ _ He Hne) as He'.
  pose proof (cand_take _ _ _ _ e Hs) as Ts. pose proof (cand_take _ _ _ _ e Hp) as Tp.
  pose proof (cand_take _ _ _ _ e Hq) as Tq. pose proof (cand_skip _ _ _ _ e Hs) as Ks.
  pose proof (cand_skip _ _ _ _ e Hp) as Kp. pose proof (cand_skip _ _ _ _ e Hq) as Kq.
  unfold is_stable, is_pending, is_queued, nonempty in *. destruct (a_state e); [done| | | |].
  1:{ specialize (Ks ltac:(done)). destruct (Z.eqb_spec (a_q e) NULL) as [Eq|Eq]; cbn [negb].
    + specialize (Tp (conj eq_refl Eq) H0). specialize (Kq ltac:(by intros [_ ?])).
      destruct (age_pending c <=? a_ctime e); by constructor.
    + specialize (Tq (conj eq_refl Eq) H0). specialize (Kp ltac:(by intros [_ ?])).
      destruct (age_queue c <=? a_ctime e); by constructor. }
  all: specialize (Ts eq_refl H0); specialize (Kp ltac:(by intros [? _])); specialize (Kq ltac:(by intros [? _]));
    destruct (age_stable c <=? a_ctime e); by constructor.
Qed.

Lemma swept_empty l c e : swept l c -> ~ nonempty e -> (length l < ARP_TABLE_SIZE)%nat ->
  swept (l ++ [e]) (if (c_empty c =? ARP_TABLE_SIZE)%nat
                    then mk_cand (length l) (c_stable c) (c_pending c) (c_queue c) (age_stable c) (age_pending c) (age_queue c)
                    else c).
Proof.
  intros [He Hs Hp Hq] Hne Hl.
  assert (H : forall P, (forall x, P x -> nonempty x) -> ~ P e) by (intros P HP HPe; by apply Hne, HP).
  assert (H1 : ~ is_stable e) by (apply H; intros x; unfold is_stable, nonempty; by destruct (a_state x)).
  assert (H2 : ~ is_pending e) by (apply H; intros x [E _]; unfold nonempty; by rewrite E).
  assert (H3 : ~ is_queued e) by (apply H; intros x [E _]; unfold nonempty; by rewrite E).
  destruct (Nat.eqb_spec (c_empty c) ARP_TABLE_SIZE) as [E|E].
  - constructor; simpl; auto using cand_skip. right. exists e. split; [by apply list_lookup_middle|]. split; [done|].
    rewrite take_app_length. destruct He as [[_ He] | (e' & He & _)]; [done|].
    apply lookup_lt_Some in He. rewrite E in He. lia.
  - constructor; auto using cand_skip. destruct He as [[He _]|He]; [done|]. right. by apply empty_found.
Qed.

Lemma find_sweep_spec ip l2 l1 c :
  (length (l1 ++ l2) <= ARP_TABLE_SIZE)%nat -> Forall (fun e => 0 <= a_ctime e) (l1 ++ l2) ->
  swept l1 c -> no_match ip l1 ->
  match find_sweep (Some ip) (length l1) l2 c with
  | inl i => exists e, (l1 ++ l2) !! i = Some e /\ nonempty e /\ a_ipaddr e = ip
  | inr c => swept (l1 ++ l2) c /\ no_match ip (l1 ++ l2)
  end.
Proof.
  revert l1 c. induction l2 as [|e l2 IH]; intros l1 c Hlen Hct Hsw Hno; simpl find_sweep.
  { by rewrite app_nil_r. }
  assert (El : l1 ++ e :: l2 = (l1 ++ [e]) ++ l2) by (by rewrite <- app_assoc).
  assert (Hl1 : S (length l1) = length (l1 ++ [e])) by (rewrite length_app; simpl; lia).
  pose proof Hct as Hct'. apply Forall_app in Hct' as [_ Hce]. apply Forall_cons_1 in Hce as [Hce _].
  rewrite El, Hl1. rewrite El in Hlen, Hct. rewrite length_app in Hlen.
  destruct (is_empty (a_state e)) eqn:Ee; cbn [negb andb].
  - assert (Hem : ~ nonempty e) by (unfold nonempty; congruence).
    pose proof (swept_empty l1 c e Hsw Hem ltac:(lia)) as Hs.
    assert (Hno' : no_match ip (l1 ++ [e])) by (apply Forall_app; split; [done|constructor; [done|constructor]]).
    rewrite andb_true_r. destruct (c_empty c =? ARP_TABLE_SIZE)%nat; apply IH; auto; rewrite length_app; done.
  - rewrite andb_false_r. destruct (Z.eqb_spec ip (a_ipaddr e)) as [-> |Hip].
    + exists e. split; [rewrite <- El; by apply list_lookup_middle|done].
    + apply IH; [by rewrite length_app|done|by apply swept_step|].
      apply Forall_app. split; [done|]. constructor; [intros _; congruence|constructor].
Qed.

(** ** The invariant of the table *)

Definition unicast (a : Z) : Prop := ip4_addr_isany a = false /\ ip4_addr_ismulticast a = false.

(** A pending entry is younger than five seconds; a stable entry is younger than
    [ARP_MAXAGE] and has no queued packet; an empty entry has none either. *)
Definition entry_ok (e : etharp_entry) : Prop :=
  match a_state e with
  | ETHARP_STATE_EMPTY => a_q e = NULL /\ 0 <= a_ctime e
  | ETHARP_STATE_PENDING => 0 <= a_ctime e < ARP_MAXPENDING /\ unicast (a_ipaddr e)
  | _ => a_q e = NULL /\ 0 <= a_ctime e < ARP_MAXAGE /\ unicast (a_ipaddr e)
  end.

(** No address has two entries. *)
Definition unique (l : list etharp_entry) : Prop :=
  forall i j ei ej, l !! i = Some ei -> l !! j = Some ej -> nonempty ei -> nonempty ej ->
    a_ipaddr ei = a_ipaddr ej -> i = j.

Record arp_inv (st : estate) : Prop := {
  ai_len : length (arp_table st) = ARP_TABLE_SIZE;
  ai_cached : (etharp_cached_entry st < ARP_TABLE_SIZE)%nat;
  ai_entries : Forall entry_ok (arp_table st);
  ai_unique : unique (arp_table st)
}.

Lemma arp_inv_ext st st' :
  arp_table st' = arp_table st -> etharp_cached_entry st' = etharp_cached_entry st -> arp_inv st -> arp_inv st'.
Proof. intros E1 E2 []. constructor; by rewrite ?E1, ?E2. Qed.

Lemma arp_inv_set st st' i e :
  arp_inv st -> arp_table st' = <[i := e]> (arp_table st) -> (etharp_cached_entry st' < ARP_TABLE_SIZE)%nat ->
  entry_ok e ->
  (nonempty e -> forall j e', j <> i -> arp_table st !! j = Some e' -> nonempty e' -> a_ipaddr e' <> a_ipaddr e) ->
  arp_inv st'.
Proof.
  intros [Hl Hc He Hu] Et Hc' Hok Hn. constructor; rewrite ?Et; [by rewrite length_insert|done|by apply Forall_insert|].
  intros j k ej ek Hj Hk Nj Nk Eip.
  apply list_lookup_insert_Some in Hj as [(-> & -> & _) | [Hji Hj]];
    apply list_lookup_insert_Some in Hk as [(-> & -> & _) | [Hki Hk]]; [done| | |by eapply Hu].
  - exfalso. by apply (Hn Nj k ek).
  - exfalso. by apply (Hn Nk j ej).
Qed.

(** An entry that keeps its address, or becomes empty. *)
Lemma arp_inv_keep st st' i e e' :
  arp_inv st -> arp_table st !! i = Some e -> arp_table st' = <[i := e']> (arp_table st) ->
  (etharp_cached_entry st' < ARP_TABLE_SIZE)%nat -> entry_ok e' -> (nonempty e' -> nonempty e /\ a_ipaddr e' = a_ipaddr e) ->
  arp_inv st'.
Proof.
  intros Hi He Et Hc Hok Hk. eapply arp_inv_set; eauto. intros Hn j ej Hj Hjl Hjn Eip.
  destruct (Hk Hn) as [Hne E]. rewrite E in Eip. apply Hj. by apply (ai_unique _ Hi j i ej e).
Qed.

(** *** Updates of an entry *)

Lemma alter_insert {A} (f : A -> A) (l : list A) (i : nat) x : l !! i = Some x -> alter f i l = <[i := f x]> l.
Proof.
  revert i. induction l as [|y l IH]; intros [|i]; simpl; [done|done| |].
  - by intros [= ->].
  - intros H. change (y :: alter f i l = y :: <[i := f x]> l). by rewrite IH.
Qed.

Lemma upd_entry_table st i e f :
  arp_table st !! i = Some e -> arp_table (upd_entry st i f) = <[i := f e]> (arp_table st).
Proof. intros. by apply alter_insert. Qed.

Lemma entry_at_eq st i e : arp_table st !! i = Some e -> entry_at st i = e.
Proof. unfold entry_at. by intros ->. Qed.

Lemma lookup_insert_at {A} (l : list A) (i : nat) x y : l !! i = Some y -> <[i := x]> l !! i = Some x.
Proof. intros H. apply list_lookup_insert_eq. by eapply lookup_lt_Some. Qed.

(** [upds st st' i e]: the table of [st'] is that of [st] with entry [i] set to [e]. *)
Definition upds (st st' : estate) (i : nat) (e : etharp_entry) : Prop :=
  arp_table st' = <[i := e]> (arp_table st) /\ etharp_cached_entry st' = etharp_cached_entry st.

Lemma upds_refl st i e : arp_table st !! i = Some e -> upds st st i e.
Proof. intros H. split; [by rewrite list_insert_id|done]. Qed.

Lemma upds_upd st st' i e f x :
  arp_table st !! i = Some x -> upds st st' i e -> upds st (upd_entry st' i f) i (f e).
Proof.
  intros Hx [E1 E2]. split; [|done]. unfold upd_entry. cbn [arp_table set_table].
  rewrite (alter_insert f _ _ e), E1, list_insert_insert_eq; [done|]. rewrite E1. by eapply lookup_insert_at.
Qed.

Lemma upds_at st st' i e x : arp_table st !! i = Some x -> upds st st' i e -> entry_at st' i = e.
Proof. intros Hx [E _]. apply entry_at_eq. rewrite E. by eapply lookup_insert_at. Qed.

Lemma upds_ext st st1 st2 i e :
  upds st st1 i e -> arp_table st2 = arp_table st1 -> etharp_cached_entry st2 = etharp_cached_entry st1 -> upds st st2 i e.
Proof. intros [E1 E2] H1 H2. split; congruence. Qed.

Section Proofs.
Context (ops : pbuf_ops) (netif_at : Z -> netif) (linkoutput : Z -> pstate -> Z -> pstate * Z).
Context (dhcp_arp_reply : Z -> Z -> estate -> estate) (fuel : nat).

(** Sending leaves the table alone. *)
Lemma ethernet_output_table st nif p src dst type :
  let st' := (ethernet_output linkoutput st nif p src dst type).1 in
  arp_table st' = arp_table st /\ etharp_cached_entry st' = etharp_cached_entry st.
Proof.
  unfold ethernet_output. destruct (pbuf_header _ _ _) as [s r]. destruct (negb (r =? 0)); [done|].
  cbv zeta. by destruct (linkoutput _ _ _) as [s' r'].
Qed.

Lemma etharp_raw_table st nif a b c d e f g :
  let st' := (etharp_raw ops linkoutput st nif a b c d e f g).1 in
  arp_table st' = arp_table st /\ etharp_cached_entry st' = etharp_cached_entry st.
Proof.
  unfold etharp_raw. destruct (op_alloc _ _ _ _ _) as [s p]. destruct (p =? NULL); [done|]. cbv zeta.
  match goal with |- context [ethernet_output ?l ?s ?n ?p ?x ?y ?z] =>
    pose proof (ethernet_output_table s n p x y z) as [H1 H2]; destruct (ethernet_output l s n p x y z) as [s2 r2] end.
  by simpl in *; rewrite H1, H2.
Qed.

Lemma free_entry_upds st i e :
  arp_table st !! i = Some e ->
  upds st (etharp_free_entry ops st i) i (with_astate (with_q e NULL) ETHARP_STATE_EMPTY) /\
  packets (etharp_free_entry ops st i) = (if a_q e =? NULL then packets st else op_free ops (packets st) (a_q e)) /\
  counters (etharp_free_entry ops st i) = counters st.
Proof.
  intros He. unfold etharp_free_entry. rewrite (entry_at_eq _ _ _ He).
  destruct (Z.eqb_spec (a_q e) NULL) as [Eq|Eq]; cbn [negb].
  - split; [|done]. replace (with_astate (with_q e NULL) ETHARP_STATE_EMPTY) with (with_astate e ETHARP_STATE_EMPTY)
      by (destruct e; simpl in *; by subst).
    apply (upds_upd st st i e (fun x => with_astate x ETHARP_STATE_EMPTY) e He). by apply upds_refl.
  - split; [|done]. eapply (upds_upd st _ i (with_q e NULL)); [done|].
    eapply (upds_upd st _ i e (fun x => with_q x NULL)); [done|]. by apply (upds_ext st st); [apply upds_refl|..].
Qed.

(** Which entry a new address gets. *)
Definition recycled (l : list etharp_entry) (i : nat) : Prop :=
  first_empty l i \/
  (Forall nonempty l /\
   (oldest is_stable l i \/
    (Forall (fun e => ~ is_stable e) l /\
     (oldest is_pending l i \/
      (Forall (fun e => ~ is_pending e) l /\ oldest is_queued l i))))).

Lemma cand_cases P l c a :
  (length l <= ARP_TABLE_SIZE)%nat -> cand_ok P l c a ->
  ((c <? ARP_TABLE_SIZE)%nat = true /\ oldest P l c) \/
  ((c <? ARP_TABLE_SIZE)%nat = false /\ Forall (fun e => ~ P e) l).
Proof.
  intros Hl [(-> & _ & H) | (e & H1 & H2 & H3 & H4)]; [by right|left]. split.
  - apply Nat.ltb_lt. apply lookup_lt_Some in H1. lia.
  - exists e. subst a. done.
Qed.

(** The outcome of the search. *)
Definition found (st : estate) (ip : Z) (flags : Z) (st' : estate) (r : Z) : Prop :=
  (exists i e, arp_table st !! i = Some e /\ nonempty e /\ a_ipaddr e = ip /\ r = Z.of_nat i /\ st' = st) \/
  (no_match ip (arp_table st) /\
   ((r = ERR_MEM /\ st' = st /\
     (Z.land flags ETHARP_FLAG_FIND_ONLY <> 0 \/
      (Forall nonempty (arp_table st) /\ Z.land flags ETHARP_FLAG_TRY_HARD = 0))) \/
    (Z.land flags ETHARP_FLAG_FIND_ONLY = 0 /\
     exists i e, r = Z.of_nat i /\ arp_table st !! i = Some e /\ recycled (arp_table st) i /\
       upds st st' i (mk_entry NULL ip (a_netif e) (a_ethaddr e) 0 ETHARP_STATE_EMPTY) /\
       packets st' = (if a_q e =? NULL then packets st else op_free ops (packets st) (a_q e)) /\
       counters st' = counters st))).

(** The end of the search: the entry, emptied, gets the address. *)
Lemma finish_found st st1 ip flags i e :
  no_match ip (arp_table st) -> Z.land flags ETHARP_FLAG_FIND_ONLY = 0 ->
  arp_table st !! i = Some e -> recycled (arp_table st) i ->
  upds st st1 i (with_astate (with_q e NULL) ETHARP_STATE_EMPTY) ->
  packets st1 = (if a_q e =? NULL then packets st else op_free ops (packets st) (a_q e)) -> counters st1 = counters st ->
  found st ip flags (upd_entry (upd_entry st1 i (fun e => with_ip e ip)) i (fun e => with_ctime e 0)) (Z.of_nat i).
Proof.
  intros Hno Hfl He Hr Hu Hp Hc. right. split; [done|]. right. split; [done|]. exists i, e. split; [done|].
  split; [done|]. split; [done|]. split; [|done]. pose proof (upds_upd st _ i _ (fun e => with_ip e ip) e He Hu) as H1.
  exact (upds_upd st _ i _ (fun e => with_ctime e 0) e He H1).
Qed.

Lemma find_entry_correct st ip flags :
  arp_inv st -> found st ip flags (etharp_find_entry ops st (Some ip) flags).1 (etharp_find_entry ops st (Some ip) flags).2.
Proof.
  clear netif_at linkoutput dhcp_arp_reply fuel.
  intros Hi. pose proof (ai_len _ Hi) as Hl. pose proof (ai_entries _ Hi) as He. unfold etharp_find_entry. cbv zeta.
  assert (Hct : Forall (fun e => 0 <= a_ctime e) (arp_table st)).
  { eapply Forall_impl; [exact He|]. intros e. unfold entry_ok. destruct (a_state e); tauto || lia. }
  pose proof (find_sweep_spec ip (arp_table st) [] (mk_cand ARP_TABLE_SIZE ARP_TABLE_SIZE ARP_TABLE_SIZE ARP_TABLE_SIZE 0 0 0)) as Hs.
  cbn [app] in Hs. rewrite Hl in Hs. specialize (Hs ltac:(lia) Hct). cbn [length] in Hs.
  assert (H0 : swept [] (mk_cand ARP_TABLE_SIZE ARP_TABLE_SIZE ARP_TABLE_SIZE ARP_TABLE_SIZE 0 0 0)).
  { constructor; simpl; left; repeat split; constructor. }
  specialize (Hs H0 ltac:(constructor)). destruct (find_sweep _ _ _ _) as [i|c].
  { destruct Hs as (e & H1 & H2 & H3). left. by exists i, e. }
  destruct Hs as [[Se Ss Sp Sq] Hno].
  destruct (Z.eqb_spec (Z.land flags ETHARP_FLAG_FIND_ONLY) 0) as [Hfl|Hfl]; cbn [negb orb].
  2:{ right. split; [done|]. left. auto. }
  assert (Hfree : forall i, recycled (arp_table st) i -> (i < ARP_TABLE_SIZE)%nat ->
    found st ip flags (upd_entry (upd_entry (etharp_free_entry ops st i) i (fun e => with_ip e ip)) i
                         (fun e => with_ctime e 0)) (Z.of_nat i)).
  { intros i Hr Hlt. destruct (lookup_lt_is_Some_2 (arp_table st) i ltac:(lia)) as [e Hie].
    destruct (free_entry_upds st i e Hie) as (U & P & C). by apply (finish_found st _ ip flags i e). }
  assert (Hle : (length (arp_table st) <= ARP_TABLE_SIZE)%nat) by lia.
  destruct Se as [[Ee Hne] | Hfe].
  - rewrite Ee, Nat.eqb_refl. cbn [andb]. destruct (Z.eqb_spec (Z.land flags ETHARP_FLAG_TRY_HARD) 0) as [Ht|Ht].
    { right. split; [done|]. left. auto. }
    change (ARP_TABLE_SIZE <? ARP_TABLE_SIZE)%nat with false. cbv iota.
    destruct (cand_cases _ _ _ _ Hle Ss) as [[-> Hs] | [-> Hs]].
    { destruct Hs as (e & Hs1 & Hs2). apply Hfree; [right; split; [done|]; left; by exists e|].
      apply lookup_lt_Some in Hs1. lia. }
    destruct (cand_cases _ _ _ _ Hle Sp) as [[-> Hp] | [-> Hp]].
    { destruct Hp as (e & Hp1 & Hp2). apply Hfree; [right; split; [done|]; right; split; [done|]; left; by exists e|].
      apply lookup_lt_Some in Hp1. lia. }
    destruct (cand_cases _ _ _ _ Hle Sq) as [[-> Hq] | [-> Hq]].
    { destruct Hq as (e & Hq1 & Hq2). apply Hfree; [right; split; [done|]; right; split; [done|]; right; split; [done|]; by exists e|].
      apply lookup_lt_Some in Hq1. lia. }
    exfalso. destruct (arp_table st) as [|e l]; [done|].
    apply Forall_inv in Hne, Hs, Hp, Hq. unfold nonempty, is_stable, is_pending, is_queued in *.
    destruct (a_state e); try done. destruct (Z.eq_dec (a_q e) NULL); [by apply Hp|by apply Hq].
  - destruct Hfe as (e & Hie & Hem & Hfirst). pose proof (lookup_lt_Some _ _ _ Hie) as Hlt. rewrite Hl in Hlt.
    rewrite (proj2 (Nat.eqb_neq (c_empty c) ARP_TABLE_SIZE)) by lia. cbn [andb].
    rewrite (proj2 (Nat.ltb_lt (c_empty c) ARP_TABLE_SIZE)) by lia.
    rewrite Forall_forall in He. pose proof (He e ltac:(by eapply list_elem_of_lookup_2)) as Hok.
    unfold entry_ok, nonempty in *. destruct (a_state e) eqn:Es; simpl in Hem; try done. destruct Hok as [Hq _].
    apply (finish_found st st ip flags _ e); auto; [left; exists e; unfold nonempty; rewrite Es; auto| |by rewrite Hq].
    replace (with_astate (with_q e NULL) ETHARP_STATE_EMPTY) with e by (destruct e; simpl in *; by subst).
    by apply upds_refl.
Qed.

(** What is sent depends on the packets only. *)
Lemma ethernet_output_packets st st' nif p src dst type :
  packets st' = packets st ->
  packets (ethernet_output linkoutput st' nif p src dst type).1 = packets (ethernet_output linkoutput st nif p src dst type).1.
Proof.
  intros E. unfold ethernet_output. rewrite E. destruct (pbuf_header _ _ _) as [s r].
  destruct (negb (r =? 0)); [done|]. cbn [packets set_packets]. by destruct (linkoutput _ _ _).
Qed.

Definition not_unicast (ip nif : Z) : bool :=
  ip4_addr_isany ip || isbroadcast netif_at ip nif || ip4_addr_ismulticast ip.

Lemma not_unicast_false ip nif : not_unicast ip nif = false -> unicast ip.
Proof. unfold not_unicast, unicast. intros H. zb. done. Qed.

(** The second half of [etharp_update_arp_entry]: the entry becomes stable, and a
    queued packet is sent and freed. *)
Lemma make_stable_correct st st1 i e0 e1 nif mac :
  arp_table st !! i = Some e0 -> upds st st1 i e1 ->
  let st2 := upd_entry st1 i (fun e => with_astate e ETHARP_STATE_STABLE) in
  let st2 := upd_entry st2 i (fun e => with_netif e nif) in
  let st2 := upd_entry st2 i (fun e => with_eth e mac) in
  let st2 := upd_entry st2 i (fun e => with_ctime e 0) in
  let p := a_q (entry_at st2 i) in
  let out :=
    if negb (p =? NULL) then
      let st2 := upd_entry st2 i (fun e => with_q e NULL) in
      let '(st2, _) := ethernet_output linkoutput st2 nif p (hwaddr netif_at nif) mac ETHTYPE_IP in
      (set_packets st2 (op_free ops (packets st2) p), ERR_OK)
    else (st2, ERR_OK) in
  out.2 = ERR_OK /\ upds st out.1 i (mk_entry NULL (a_ipaddr e1) nif mac 0 ETHARP_STATE_STABLE) /\
  packets out.1 = (if a_q e1 =? NULL then packets st1
                   else op_free ops (packets (ethernet_output linkoutput st1 nif (a_q e1) (hwaddr netif_at nif) mac ETHTYPE_IP).1) (a_q e1)).
Proof.
  intros He Hu. cbv zeta.
  pose proof (upds_upd st _ i _ (fun e => with_astate e ETHARP_STATE_STABLE) e0 He Hu) as H1.
  pose proof (upds_upd st _ i _ (fun e => with_netif e nif) e0 He H1) as H2.
  pose proof (upds_upd st _ i _ (fun e => with_eth e mac) e0 He H2) as H3.
  pose proof (upds_upd st _ i _ (fun e => with_ctime e 0) e0 He H3) as H4. clear H1 H2 H3.
  set (st2 := upd_entry _ i (fun e => with_ctime e 0)) in *. rewrite (upds_at _ _ _ _ _ He H4).
  cbn [a_q with_ctime with_eth with_netif with_astate]. destruct (Z.eqb_spec (a_q e1) NULL) as [Eq|Eq]; cbn [negb].
  - split; [done|]. split; [|done]. destruct e1; simpl in *; subst. exact H4.
  - pose proof (upds_upd st _ i _ (fun e => with_q e NULL) e0 He H4) as H5. set (st3 := upd_entry st2 i _) in *.
    pose proof (ethernet_output_table st3 nif (a_q e1) (hwaddr netif_at nif) mac ETHTYPE_IP) as [T1 T2].
    pose proof (ethernet_output_packets st1 st3 nif (a_q e1) (hwaddr netif_at nif) mac ETHTYPE_IP eq_refl) as P.
    destruct (ethernet_output linkoutput st3 nif (a_q e1) (hwaddr netif_at nif) mac ETHTYPE_IP) as [st4 r]. simpl in T1, T2, P.
    split; [done|]. split; [by apply (upds_ext st st3)|]. simpl. by rewrite P.
Qed.

(** [etharp_update_arp_entry]: nothing for an address that is not unicast or that
    has and gets no entry; otherwise the entry of the address is stable. *)
Lemma update_correct st nif ip mac flags :
  arp_inv st ->
  let out := etharp_update_arp_entry ops netif_at linkoutput st nif ip mac flags in
  if not_unicast ip nif then out = (st, ERR_ARG)
  else
    (out = (st, ERR_MEM) /\ no_match ip (arp_table st) /\
       (Z.land flags ETHARP_FLAG_FIND_ONLY <> 0 \/ Z.land flags ETHARP_FLAG_TRY_HARD = 0)) \/
    (out.2 = ERR_OK /\ arp_inv out.1 /\ exists i e,
       arp_table st !! i = Some e /\ upds st out.1 i (mk_entry NULL ip nif mac 0 ETHARP_STATE_STABLE) /\
       ((nonempty e /\ a_ipaddr e = ip /\
         packets out.1 = (if a_q e =? NULL then packets st
           else op_free ops (packets (ethernet_output linkoutput st nif (a_q e) (hwaddr netif_at nif) mac ETHTYPE_IP).1) (a_q e))) \/
        (no_match ip (arp_table st) /\ recycled (arp_table st) i /\
         packets out.1 = (if a_q e =? NULL then packets st else op_free ops (packets st) (a_q e))))).
Proof.
  clear dhcp_arp_reply fuel.
  intros Hi out. unfold out, etharp_update_arp_entry. change (ip4_addr_isany ip || _ || _) with (not_unicast ip nif).
  destruct (not_unicast ip nif) eqn:Hn; [done|]. apply not_unicast_false in Hn.
  pose proof (find_entry_correct st ip flags Hi) as Hf. destruct (etharp_find_entry ops st (Some ip) flags) as [st1 r].
  cbn [fst snd] in Hf.
  assert (Hok : entry_ok (mk_entry NULL ip nif mac 0 ETHARP_STATE_STABLE)) by (unfold entry_ok, ARP_MAXAGE; simpl; split; [done|split; [lia|done]]).
  assert (Hinv : forall i e st', arp_table st !! i = Some e -> upds st st' i (mk_entry NULL ip nif mac 0 ETHARP_STATE_STABLE) ->
    (forall j e', j <> i -> arp_table st !! j = Some e' -> nonempty e' -> a_ipaddr e' <> ip) -> arp_inv st').
  { intros i e st' He [U1 U2] Hu. eapply arp_inv_set; [exact Hi|exact U1|rewrite U2; apply (ai_cached _ Hi)|done|auto]. }
  destruct Hf as [(i & e & He & Hne & Hip & -> & ->) | [Hno [(-> & -> & Hc) | (Hfl & i & e & -> & He & Hr & Hu & Hp & _)]]].
  - rewrite (proj2 (Z.ltb_ge (Z.of_nat i) 0)) by lia. rewrite Nat2Z.id.
    pose proof (make_stable_correct st st i e e nif mac He (upds_refl _ _ _ He)) as Hm. cbv zeta in Hm.
    destruct Hm as (M1 & M2 & M3). rewrite Hip in M2. right. split; [done|]. split.
    + apply (Hinv i e); [done|done|]. intros j e' Hj Hje Hjn E. apply Hj. apply (ai_unique _ Hi j i e' e); auto; congruence.
    + exists i, e. split; [done|]. split; [done|]. by left.
  - rewrite (proj2 (Z.ltb_lt ERR_MEM 0)) by (unfold ERR_MEM; lia). left. split; [done|]. split; [done|]. tauto.
  - rewrite (proj2 (Z.ltb_ge (Z.of_nat i) 0)) by lia. rewrite Nat2Z.id.
    pose proof (make_stable_correct st st1 i e _ nif mac He Hu) as Hm. cbv zeta in Hm.
    destruct Hm as (M1 & M2 & M3). cbn [a_q a_ipaddr] in M2, M3. rewrite Z.eqb_refl in M3.
    right. split; [done|]. split.
    + apply (Hinv i e); [done|done|]. intros j e' Hj Hje Hjn E. unfold no_match in Hno. rewrite Forall_forall in Hno.
      by apply (Hno e' ltac:(by eapply list_elem_of_lookup_2)).
    + exists i, e. split; [done|]. split; [done|]. right. split; [done|]. split; [done|]. by rewrite M3.
Qed.

(** *** The timer *)

(** What a second does to an entry. *)
Definition tick (e : etharp_entry) : etharp_entry :=
  if is_empty (a_state e) then e
  else
    let e := with_ctime e (a_ctime e + 1) in
    if (ARP_MAXAGE <=? a_ctime e) || (bool_decide (a_state e = ETHARP_STATE_PENDING) && (ARP_MAXPENDING <=? a_ctime e))
    then with_astate (with_q e NULL) ETHARP_STATE_EMPTY
    else with_astate e match a_state e with
                       | ETHARP_STATE_STABLE_REREQUESTING_1 => ETHARP_STATE_STABLE_REREQUESTING_2
                       | ETHARP_STATE_STABLE_REREQUESTING_2 => ETHARP_STATE_STABLE
                       | s => s
                       end.

Lemma tick_ok e :
  entry_ok e -> entry_ok (tick e) /\
  (nonempty (tick e) -> nonempty e /\ a_ipaddr (tick e) = a_ipaddr e /\ a_ctime (tick e) = a_ctime e + 1 /\
     (a_state e = ETHARP_STATE_PENDING -> a_state (tick e) = ETHARP_STATE_PENDING)).
Proof.
  unfold entry_ok, tick, nonempty. intros He. destruct (a_state e) eqn:Es; cbn [is_empty].
  { rewrite Es. split; [done|]. by intros ?. }
  all: cbn [a_ctime with_ctime a_state]; rewrite Es; unfold ARP_MAXAGE, ARP_MAXPENDING, unicast in *.
  1: rewrite bool_decide_true by done; cbn [andb]; destruct (Z.leb_spec 300 (a_ctime e + 1)), (Z.leb_spec 5 (a_ctime e + 1));
     cbn [orb a_state with_astate with_q a_q a_ctime with_ctime a_ipaddr is_empty]; rewrite ?Es;
     (split; [first [split; [done|lia] | split; [lia|tauto]]|]); intros; try done; lia.
  all: rewrite bool_decide_false by done; cbn [andb]; rewrite orb_false_r; destruct (Z.leb_spec 300 (a_ctime e + 1));
     cbn [a_state with_astate with_q a_q a_ctime with_ctime a_ipaddr is_empty];
     (split; [first [split; [done|lia] | split; [tauto|split; [lia|tauto]]]|]); intros; done.
Qed.

Lemma tmr_entry_upds st i e :
  arp_inv st -> arp_table st !! i = Some e -> upds st (etharp_tmr_entry ops netif_at linkoutput st i) i (tick e).
Proof.
  intros Hi He. pose proof (ai_entries _ Hi) as Hok. rewrite Forall_forall in Hok.
  specialize (Hok e ltac:(by eapply list_elem_of_lookup_2)).
  assert (Hct : 0 <= a_ctime e /\ (nonempty e -> a_ctime e < 300)).
  { unfold entry_ok, ARP_MAXAGE, ARP_MAXPENDING, nonempty in *. destruct (a_state e); simpl; split; try done; lia. }
  unfold etharp_tmr_entry, tick. rewrite (entry_at_eq _ _ _ He). destruct (is_empty (a_state e)) eqn:Ee; [by apply upds_refl|].
  destruct Hct as [Hc0 Hc]. specialize (Hc Ee).
  pose proof (upds_upd st st i e (fun e => with_ctime e (u16 (a_ctime e + 1))) e He (upds_refl _ _ _ He)) as H1. simpl in H1.
  rewrite u16_small in H1 by lia. set (st1 := upd_entry st i _) in *. set (e1 := with_ctime e (a_ctime e + 1)) in *.
  rewrite (upds_at _ _ _ _ _ He H1). cbn zeta. destruct (_ || _).
  - assert (He1 : arp_table st1 !! i = Some e1) by (destruct H1 as [-> _]; by eapply lookup_insert_at).
    destruct (free_entry_upds st1 i e1 He1) as ([U1 U2] & _). destruct H1 as [V1 V2]. split; [|by rewrite U2].
    by rewrite U1, V1, list_insert_insert_eq.
  - change (a_state e1) with (a_state e). destruct (a_state e) eqn:Es; try done.
    + pose proof (etharp_raw_table st1 (a_netif e1) (hwaddr netif_at (a_netif e1)) ethbroadcast (hwaddr netif_at (a_netif e1))
        (netif_ip_addr (netif_at (a_netif e1))) ethzero (a_ipaddr e1) ARP_REQUEST) as [T1 T2].
      apply (upds_ext st st1); [|exact T1|exact T2]. unfold e1 in *. destruct e; simpl in *; by subst.
    + unfold e1 in *. destruct e; simpl in *; by subst.
    + exact (upds_upd st _ i _ (fun e => with_astate e ETHARP_STATE_STABLE_REREQUESTING_2) e He H1).
    + exact (upds_upd st _ i _ (fun e => with_astate e ETHARP_STATE_STABLE) e He H1).
Qed.

Lemma tmr_entry_inv st i e :
  arp_inv st -> arp_table st !! i = Some e -> arp_inv (etharp_tmr_entry ops netif_at linkoutput st i).
Proof.
  intros Hi He. destruct (tmr_entry_upds st i e Hi He) as [U1 U2]. pose proof (ai_entries _ Hi) as Hok.
  rewrite Forall_forall in Hok. destruct (tick_ok e (Hok e ltac:(by eapply list_elem_of_lookup_2))) as [T1 T2].
  eapply arp_inv_keep; [exact Hi|exact He|exact U1|rewrite U2; apply (ai_cached _ Hi)|done|].
  intros Hn. by destruct (T2 Hn) as (? & ? & _).
Qed.

(** A loop over the table that treats every entry by itself. *)
Lemma table_fold (g : estate -> nat -> estate) (h : etharp_entry -> etharp_entry) st n :
  (forall st i e, arp_inv st -> arp_table st !! i = Some e ->
     arp_inv (g st i) /\ arp_table (g st i) = <[i := h e]> (arp_table st)) ->
  arp_inv st -> (n <= ARP_TABLE_SIZE)%nat ->
  let st' := foldl g st (seq 0 n) in
  arp_inv st' /\ arp_table st' = map h (take n (arp_table st)) ++ drop n (arp_table st).
Proof.
  intros Hg Hi. induction n as [|n IH]; intros Hn; [by rewrite drop_0|]. rewrite seq_S, foldl_snoc. cbn [Nat.add].
  destruct (IH ltac:(lia)) as [Hi' Et]. cbv zeta. set (st1 := foldl _ st (seq 0 n)) in *.
  destruct (lookup_lt_is_Some_2 (arp_table st) n ltac:(rewrite (ai_len _ Hi); lia)) as [e He].
  assert (Hln : length (map h (take n (arp_table st))) = n)
    by (rewrite length_map, length_take, (ai_len _ Hi); lia).
  rewrite (drop_S _ _ _ He) in Et.
  assert (He1 : arp_table st1 !! n = Some e) by (rewrite Et; by apply list_lookup_middle).
  destruct (Hg st1 n e Hi' He1) as [Hi2 ->]. split; [done|]. rewrite Et.
  rewrite (take_S_r _ _ _ He), map_app, <- app_assoc. simpl. rewrite insert_app_r_alt by lia. rewrite Hln, Nat.sub_diag. done.
Qed.

Lemma table_fold_all (g : estate -> nat -> estate) (h : etharp_entry -> etharp_entry) st :
  (forall st i e, arp_inv st -> arp_table st !! i = Some e ->
     arp_inv (g st i) /\ arp_table (g st i) = <[i := h e]> (arp_table st)) ->
  arp_inv st ->
  arp_inv (foldl g st (seq 0 ARP_TABLE_SIZE)) /\ arp_table (foldl g st (seq 0 ARP_TABLE_SIZE)) = map h (arp_table st).
Proof.
  intros Hg Hi. destruct (table_fold g h st ARP_TABLE_SIZE Hg Hi ltac:(lia)) as [H1 H2]. split; [done|].
  rewrite H2, take_ge, drop_ge, app_nil_r; [done|rewrite (ai_len _ Hi); lia|rewrite (ai_len _ Hi); lia].
Qed.

Lemma tmr_correct st :
  arp_inv st -> arp_inv (etharp_tmr ops netif_at linkoutput st) /\
  arp_table (etharp_tmr ops netif_at linkoutput st) = map tick (arp_table st).
Proof.
  apply table_fold_all. intros s i e Hi He. split; [by eapply tmr_entry_inv|]. by destruct (tmr_entry_upds s i e Hi He).
Qed.

(** *** [etharp_cleanup_netif] *)

Definition clean (nif : Z) (e : etharp_entry) : etharp_entry :=
  if negb (is_empty (a_state e)) && (a_netif e =? nif) then with_astate (with_q e NULL) ETHARP_STATE_EMPTY else e.

Lemma cleanup_correct st nif :
  arp_inv st -> arp_inv (etharp_cleanup_netif ops st nif) /\
  arp_table (etharp_cleanup_netif ops st nif) = map (clean nif) (arp_table st).
Proof.
  apply table_fold_all. intros s i e Hi He. rewrite (entry_at_eq _ _ _ He). unfold clean.
  destruct (negb (is_empty (a_state e)) && (a_netif e =? nif)).
  - destruct (free_entry_upds s i e He) as ([U1 U2] & _). split; [|done].
    eapply arp_inv_keep; [exact Hi|exact He|exact U1|rewrite U2; apply (ai_cached _ Hi)| |by intros ?].
    pose proof (ai_entries _ Hi) as Hok. rewrite Forall_forall in Hok.
    specialize (Hok e ltac:(by eapply list_elem_of_lookup_2)). unfold entry_ok in *. simpl.
    split; [done|]. destruct (a_state e); lia || tauto.
  - split; [done|]. by rewrite list_insert_id.
Qed.

Lemma tmr_iter st n :
  arp_inv st -> arp_inv (Nat.iter n (etharp_tmr ops netif_at linkoutput) st) /\
  arp_table (Nat.iter n (etharp_tmr ops netif_at linkoutput) st) = map (Nat.iter n tick) (arp_table st).
Proof.
  intros Hi. induction n as [|n [IH1 IH2]]; [split; [done|symmetry; apply map_id]|].
  rewrite !Nat.iter_succ. destruct (tmr_correct _ IH1) as [H1 H2]. split; [done|]. rewrite H2, IH2, map_map.
  apply map_ext. intros e. by rewrite Nat.iter_succ.
Qed.

(** The age at which an entry is removed. *)
Definition lifetime (e : etharp_entry) : Z := if stable (a_state e) then ARP_MAXAGE else ARP_MAXPENDING.

Lemma entry_ok_lifetime e : entry_ok e -> 0 <= a_ctime e /\ (nonempty e -> a_ctime e < lifetime e).
Proof. unfold entry_ok, nonempty, lifetime. destruct (a_state e); simpl; (split; [lia|]); intros; try done; lia. Qed.

Lemma tick_lives e :
  nonempty e -> a_ctime e + 1 < lifetime e ->
  let e' := tick e in
  nonempty e' /\ a_ctime e' = a_ctime e + 1 /\ a_ipaddr e' = a_ipaddr e /\ a_ethaddr e' = a_ethaddr e /\
  lifetime e' = lifetime e.
Proof.
  unfold nonempty, tick, lifetime, ARP_MAXAGE, ARP_MAXPENDING. intros Hn Hc. rewrite Hn.
  cbn [a_ctime with_ctime a_state].
  destruct (a_state e) eqn:Es; cbn [is_empty stable] in *; try done; rewrite ?(bool_decide_true (_ = _)) by done;
    rewrite ?(bool_decide_false (_ = _)) by done; cbn [andb]; rewrite ?orb_false_r, (proj2 (Z.leb_gt 300 _)) by lia;
    rewrite ?(proj2 (Z.leb_gt 5 _)) by lia; by cbn.
Qed.

Lemma tick_iter_lives e n :
  nonempty e -> a_ctime e + Z.of_nat n < lifetime e ->
  let e' := Nat.iter n tick e in
  nonempty e' /\ a_ctime e' = a_ctime e + Z.of_nat n /\ a_ipaddr e' = a_ipaddr e /\ a_ethaddr e' = a_ethaddr e /\
  lifetime e' = lifetime e.
Proof.
  intros Hn. induction n as [|n IH]; intros Hc; [repeat split; auto; simpl; lia|]. cbn zeta. rewrite Nat.iter_succ.
  destruct (IH ltac:(lia)) as (H1 & H2 & H3 & H4 & H5).
  destruct (tick_lives (Nat.iter n tick e) H1 ltac:(rewrite H5, H2; lia)) as (K1 & K2 & K3 & K4 & K5).
  repeat split; [done|lia|congruence..].
Qed.

Lemma tick_iter_dies e n :
  entry_ok e -> nonempty (Nat.iter n tick e) -> nonempty e /\ a_ctime e + Z.of_nat n < lifetime e.
Proof.
  intros He. induction n as [|n IH]; [intros Hn; split; [done|]; destruct (entry_ok_lifetime e He) as [_ H]; specialize (H Hn); lia|].
  rewrite Nat.iter_succ. intros Hn.
  assert (Hn' : nonempty (Nat.iter n tick e)).
  { revert Hn. generalize (Nat.iter n tick e). intros e'. unfold nonempty, tick. by destruct (is_empty (a_state e')) eqn:E; rewrite ?E. }
  destruct (IH Hn') as [H1 H2]. split; [done|]. destruct (tick_iter_lives e n H1 H2) as (K1 & K2 & _ & _ & K5).
  destruct (Z.ltb_spec (a_ctime e + Z.of_nat (S n)) (lifetime e)) as [?|Hge]; [done|exfalso].
  assert (Hc : lifetime (Nat.iter n tick e) <= a_ctime (Nat.iter n tick e) + 1) by (rewrite K2, K5; lia).
  revert Hn Hc. clear -K1. generalize dependent (Nat.iter n tick e). intros e' Hn'. unfold nonempty, tick, lifetime, ARP_MAXAGE, ARP_MAXPENDING in *.
  rewrite Hn'. cbn [a_ctime with_ctime a_state]. intros Hn Hc.
  destruct (a_state e') eqn:Es; cbn [is_empty stable] in *; try done; rewrite ?(proj2 (Z.leb_le 300 _) Hc) in Hn; try done.
  rewrite bool_decide_true, (proj2 (Z.leb_le 5 _) Hc) in Hn by done. by rewrite orb_true_r in Hn.
Qed.

(** *** Output *)

Lemma output_to_index_inv st nif q i :
  arp_inv st -> arp_inv (etharp_output_to_arp_index ops netif_at linkoutput st nif q i).1.
Proof.
  intros Hi. unfold etharp_output_to_arp_index. cbv zeta.
  set (st1 := match a_state (entry_at st i) with ETHARP_STATE_STABLE => _ | _ => _ end).
  assert (H1 : arp_inv st1).
  { assert (Hre : forall out : estate * Z, arp_table out.1 = arp_table st -> etharp_cached_entry out.1 = etharp_cached_entry st ->
      a_state (entry_at st i) = ETHARP_STATE_STABLE ->
      arp_inv (let '(st, r) := out in if r =? ERR_OK
               then upd_entry st i (fun e => with_astate e ETHARP_STATE_STABLE_REREQUESTING_1) else st)).
    { intros [s r] T1 T2 Es. simpl in T1, T2. assert (His : arp_inv s) by by apply (arp_inv_ext st).
      destruct (r =? ERR_OK); [|done]. unfold entry_at in Es.
      destruct (arp_table st !! i) as [e|] eqn:He; [|by simpl in Es]. simpl in Es. rewrite <- T1 in He.
      eapply arp_inv_keep; [exact His|exact He|by apply upd_entry_table|apply (ai_cached _ His)| |].
      - pose proof (ai_entries _ His) as Hok. rewrite Forall_forall in Hok.
        specialize (Hok e ltac:(by eapply list_elem_of_lookup_2)). unfold entry_ok in *. rewrite Es in Hok. done.
      - intros _. split; [unfold nonempty; by rewrite Es|done]. }
    unfold st1. destruct (a_state (entry_at st i)) eqn:Es; try done.
    destruct (_ <=? _); [apply Hre; [apply etharp_raw_table|apply etharp_raw_table|done]|].
    destruct (_ <=? _); [apply Hre; [apply etharp_raw_table|apply etharp_raw_table|done]|done]. }
  destruct (ethernet_output_table st1 nif q (hwaddr netif_at nif) (a_ethaddr (entry_at st1 i)) ETHTYPE_IP) as [T1 T2].
  by apply (arp_inv_ext st1).
Qed.

(** Marking the entry of a new address as pending. *)
Lemma make_pending_inv st st1 ip flags r nif :
  arp_inv st -> unicast ip -> found st ip flags st1 r -> 0 <= r ->
  let i := Z.to_nat r in
  let st2 := if is_empty (a_state (entry_at st1 i))
             then upd_entry (upd_entry st1 i (fun e => with_astate e ETHARP_STATE_PENDING)) i (fun e => with_netif e nif)
             else st1 in
  arp_inv st2 /\ exists e, arp_table st2 !! i = Some e /\ nonempty e /\ a_ipaddr e = ip.
Proof.
  intros Hi Hu Hf Hr. cbv zeta.
  destruct Hf as [(i & e & He & Hne & Hip & -> & ->) | [Hno [(-> & -> & Hc) | (Hfl & i & e & -> & He & Hrc & U & Hp & _)]]].
  - rewrite Nat2Z.id, (entry_at_eq _ _ _ He), Hne. split; [done|]. by exists e.
  - unfold ERR_MEM in Hr. lia.
  - rewrite Nat2Z.id, (upds_at _ _ _ _ _ He U). cbn [a_state is_empty].
    pose proof (upds_upd st _ i _ (fun e => with_astate e ETHARP_STATE_PENDING) e He U) as U2.
    pose proof (upds_upd st _ i _ (fun e => with_netif e nif) e He U2) as [U3 U4].
    split; [|eexists; split; [rewrite U3; by eapply lookup_insert_at|done]].
    eapply arp_inv_set; [exact Hi|exact U3|rewrite U4; apply (ai_cached _ Hi)|unfold entry_ok, ARP_MAXPENDING; simpl; split; [lia|done]|].
    intros _ j e' Hj Hje Hjn. unfold no_match in Hno. rewrite Forall_forall in Hno.
    by apply (Hno e' ltac:(by eapply list_elem_of_lookup_2)).
Qed.

Lemma query_inv st nif ip q st' r :
  arp_inv st -> etharp_query ops netif_at linkoutput fuel st nif ip q = Some (st', r) -> arp_inv st'.
Proof.
  intros Hi. unfold etharp_query.
  destruct (isbroadcast netif_at ip nif || ip4_addr_ismulticast ip || ip4_addr_isany ip) eqn:Hn; [by intros [= <- <-]|].
  assert (Hu : unicast ip) by (unfold unicast; zb; done). clear Hn.
  pose proof (find_entry_correct st ip ETHARP_FLAG_TRY_HARD Hi) as Hf.
  destruct (etharp_find_entry ops st (Some ip) ETHARP_FLAG_TRY_HARD) as [st1 i]. cbn [fst snd] in Hf.
  destruct (Z.ltb_spec i 0) as [Hneg|Hpos].
  { intros [= <- <-]. destruct Hf as [(j & e & _ & _ & _ & -> & _) | [_ [(_ & -> & _) | (_ & j & e & -> & _)]]]; [lia| |lia].
    destruct (negb (q =? NULL)); [by apply (arp_inv_ext st)|done]. }
  pose proof (make_pending_inv st st1 ip _ i nif Hi Hu Hf Hpos) as Hmp. cbv zeta in Hmp.
  set (st2 := if is_empty _ then _ else _) in *. destruct Hmp as (Hi2 & e & He & Hne & Hip).
  set (rq := if _ || _ then _ else _).
  assert (Hrq : arp_table rq.1 = arp_table st2 /\ etharp_cached_entry rq.1 = etharp_cached_entry st2)
    by (unfold rq; destruct (_ || _); [apply etharp_raw_table|done]).
  destruct rq as [st3 result]. cbn [fst] in Hrq. destruct Hrq as [T1 T2].
  assert (Hi3 : arp_inv st3) by by apply (arp_inv_ext st2).
  destruct (q =? NULL); [by intros [= <- <-]|]. rewrite <- T1 in He. rewrite (entry_at_eq _ _ _ He).
  destruct (stable (a_state e)) eqn:Es.
  { intros [= E]. pose proof (ethernet_output_table (set_cached st3 (Z.to_nat i)) nif q (hwaddr netif_at nif) (a_ethaddr (entry_at (set_cached st3 (Z.to_nat i)) (Z.to_nat i))) ETHTYPE_IP) as [X1 X2].
    rewrite E in X1, X2. apply (arp_inv_ext (set_cached st3 (Z.to_nat i))); [done|done|]. destruct Hi3 as [L C E' U].
    constructor; auto. cbn. apply lookup_lt_Some in He. by rewrite L in He. }
  destruct (first_not_rom fuel (packets st3) q) as [p|]; [|done].
  match goal with |- context [let '(st, p) := ?x in _] => set (cp := x) end.
  assert (Hcp : arp_table cp.1 = arp_table st3 /\ etharp_cached_entry cp.1 = etharp_cached_entry st3).
  { unfold cp. destruct (negb (p =? NULL)); [|done]. destruct (op_alloc _ _ _ _ _) as [s p']. destruct (negb (p' =? NULL)); [|done].
    destruct (op_copy _ _ _ _) as [s' err]. by destruct (negb (err =? ERR_OK)). }
  destruct cp as [st4 p']. cbn [fst] in Hcp. destruct Hcp as [T3 T4].
  assert (Hi4 : arp_inv st4) by by apply (arp_inv_ext st3).
  destruct (negb (p' =? NULL)); [|intros [= <- <-]; by apply (arp_inv_ext st4)].
  intros [= <- <-]. rewrite <- T3 in He. set (st5 := if negb _ then _ else st4).
  assert (Hi5 : arp_inv st5 /\ arp_table st5 = arp_table st4) by (unfold st5; destruct (negb _); split; done || by apply (arp_inv_ext st4)).
  destruct Hi5 as [Hi5 T5]. rewrite <- T5 in He.
  eapply arp_inv_keep; [exact Hi5|exact He|by apply upd_entry_table|apply (ai_cached _ Hi5)| |by split].
  pose proof (ai_entries _ Hi5) as Hok. rewrite Forall_forall in Hok. specialize (Hok e ltac:(by eapply list_elem_of_lookup_2)).
  unfold entry_ok, nonempty in *. simpl. by destruct (a_state e).
Qed.

Lemma find_stable_lookup dst k l i :
  find_stable dst k l = Some i -> exists j e, i = (k + j)%nat /\ l !! j = Some e /\ is_stable e /\ a_ipaddr e = dst.
Proof.
  revert k. induction l as [|e l IH]; intros k; simpl; [done|].
  destruct (stable (a_state e) && (dst =? a_ipaddr e)) eqn:E.
  - intros [= <-]. zb. exists 0%nat, e. split; [lia|]. done.
  - intros H. destruct (IH _ H) as (j & e' & -> & H2). exists (S j), e'. split; [lia|done].
Qed.

Lemma output_inv st nif q ip st' r :
  arp_inv st -> etharp_output ops netif_at linkoutput fuel st nif q ip = Some (st', r) -> arp_inv st'.
Proof.
  intros Hi. unfold etharp_output.
  assert (Hout : forall dst, (Some (ethernet_output linkoutput st nif q (hwaddr netif_at nif) dst ETHTYPE_IP) = Some (st', r) -> arp_inv st')).
  { intros dst [= E]. destruct (ethernet_output_table st nif q (hwaddr netif_at nif) dst ETHTYPE_IP) as [T1 T2].
    rewrite E in T1, T2. by apply (arp_inv_ext st). }
  destruct (isbroadcast netif_at ip nif); [apply Hout|]. destruct (ip4_addr_ismulticast ip); [apply Hout|].
  cbv zeta. clear Hout.
  assert (Huni : forall dst,
    (if stable (a_state (entry_at st (etharp_cached_entry st))) && (dst =? a_ipaddr (entry_at st (etharp_cached_entry st)))
     then Some (etharp_output_to_arp_index ops netif_at linkoutput (count st s_cachehit) nif q (etharp_cached_entry st))
     else match find_stable dst 0 (arp_table st) with
          | Some i => Some (etharp_output_to_arp_index ops netif_at linkoutput (set_cached st i) nif q i)
          | None => etharp_query ops netif_at linkoutput fuel st nif dst q
          end) = Some (st', r) -> arp_inv st').
  { intros dst. match goal with |- context [if ?b then _ else _] => destruct b end.
    - intros [= E]. pose proof (output_to_index_inv (count st s_cachehit) nif q (etharp_cached_entry st)) as H.
      rewrite E in H. apply H. by apply (arp_inv_ext st).
    - destruct (find_stable dst 0 (arp_table st)) as [i|] eqn:Ef; [|by apply query_inv].
      intros [= E]. pose proof (output_to_index_inv (set_cached st i) nif q i) as H. rewrite E in H. apply H.
      apply find_stable_lookup in Ef as (j & e & -> & Hj & _). destruct Hi as [L C E' U]. constructor; auto.
      cbn. apply lookup_lt_Some in Hj. by rewrite L in Hj. }
  destruct (_ && _); [|apply Huni]. destruct (negb _); [apply Huni|by intros [= <- <-]].
Qed.

(** *** Input *)

Lemma update_inv st nif ip mac flags :
  arp_inv st -> arp_inv (etharp_update_arp_entry ops netif_at linkoutput st nif ip mac flags).1.
Proof.
  intros Hi. pose proof (update_correct st nif ip mac flags Hi) as H. cbv zeta in H.
  destruct (not_unicast ip nif); [by rewrite H|]. destruct H as [(H & _) | (_ & H & _)]; [by rewrite H|done].
Qed.

Hypothesis Hdhcp : forall nif ip st, arp_inv st -> arp_inv (dhcp_arp_reply nif ip st).

Lemma input_inv st p nif : arp_inv st -> arp_inv (etharp_input ops netif_at linkoutput dhcp_arp_reply st p nif).
Proof.
  intros Hi. unfold etharp_input. destruct (nif =? NULL); [done|]. cbv zeta. destruct (_ || _ || _ || _); [by apply (arp_inv_ext st)|].
  match goal with |- context [etharp_update_arp_entry ?o ?n ?l ?s ?a ?b ?c ?d] =>
    assert (Hu : arp_inv (etharp_update_arp_entry o n l s a b c d).1) by (apply update_inv; by apply (arp_inv_ext st));
    destruct (etharp_update_arp_entry o n l s a b c d) as [st1 r1] end. cbn [fst] in Hu.
  match goal with |- arp_inv (set_packets ?s _) => assert (H : arp_inv s); [|by apply (arp_inv_ext s)] end.
  destruct (_ =? PP_HTONS ARP_REQUEST).
  - match goal with |- context [if ?b then (etharp_raw ?o ?l ?s ?n ?x1 ?x2 ?x3 ?x4 ?x5 ?x6 ?x7).1 else _] =>
      destruct b; [|done]; destruct (etharp_raw_table s n x1 x2 x3 x4 x5 x6 x7) as [T1 T2]; by apply (arp_inv_ext st1) end.
  - destruct (_ =? PP_HTONS ARP_REPLY); [by apply Hdhcp|by apply (arp_inv_ext st1)].
Qed.

(** The operations on the table, in any order. *)
Inductive arp_step : estate -> estate -> Prop :=
| step_tmr st : arp_step st (etharp_tmr ops netif_at linkoutput st)
| step_input st p nif : arp_step st (etharp_input ops netif_at linkoutput dhcp_arp_reply st p nif)
| step_output st nif q ip st' r :
    etharp_output ops netif_at linkoutput fuel st nif q ip = Some (st', r) -> arp_step st st'
| step_query st nif ip q st' r :
    etharp_query ops netif_at linkoutput fuel st nif ip q = Some (st', r) -> arp_step st st'
| step_find st ip st' r : etharp_find_addr ops st ip = (st', r) -> arp_step st st'
| step_cleanup st nif : arp_step st (etharp_cleanup_netif ops st nif)
| step_other st st' : arp_table st' = arp_table st -> etharp_cached_entry st' = etharp_cached_entry st -> arp_step st st'.

Lemma find_addr_correct st ip :
  arp_inv st ->
  etharp_find_addr ops st ip =
    (st, match find_stable ip 0 (arp_table st) with
         | Some i => Some (i, a_ethaddr (entry_at st i), ip)
         | None => None
         end).
Proof.
  clear netif_at linkoutput dhcp_arp_reply fuel Hdhcp.
  intros Hi. unfold etharp_find_addr. pose proof (find_entry_correct st ip ETHARP_FLAG_FIND_ONLY Hi) as Hf.
  destruct (etharp_find_entry ops st (Some ip) ETHARP_FLAG_FIND_ONLY) as [st1 i]. cbn [fst snd] in Hf.
  assert (Hnone : no_match ip (arp_table st) -> find_stable ip 0 (arp_table st) = None).
  { intros Hno. destruct (find_stable ip 0 (arp_table st)) as [j|] eqn:Ef; [|done].
    apply find_stable_lookup in Ef as (k & e & -> & Hk & Hs & Hip). exfalso. unfold no_match in Hno.
    rewrite Forall_forall in Hno. apply (Hno e ltac:(by eapply list_elem_of_lookup_2)); [|done].
    unfold is_stable, nonempty in *. by destruct (a_state e). }
  destruct Hf as [(j & e & He & Hne & Hip & -> & ->) | [Hno [(-> & -> & _) | (Hfl & _)]]]; [| |done].
  - rewrite (proj2 (Z.leb_le 0 (Z.of_nat j))), Nat2Z.id, (entry_at_eq _ _ _ He) by lia. cbn [andb].
    destruct (find_stable ip 0 (arp_table st)) as [k|] eqn:Ef.
    + apply find_stable_lookup in Ef as (k' & e' & -> & Hk & Hs & Hip'). simpl.
      assert (k' = j) as -> by (apply (ai_unique _ Hi k' j e' e); auto; [unfold is_stable, nonempty in *; by destruct (a_state e')|congruence]).
      rewrite He in Hk. injection Hk as <-. unfold is_stable in Hs. rewrite Hs, (entry_at_eq _ _ _ He). by rewrite Hip.
    + destruct (stable (a_state e)) eqn:Es; [|done]. exfalso. clear Hnone.
      assert (Hfs : forall l k j, l !! j = Some e -> find_stable ip k l <> None).
      { induction l as [|x l IH]; intros k j' Hj; [done|]. simpl. destruct (_ && _) eqn:Ex; [done|].
        destruct j' as [|j']; [|by eapply IH]. injection Hj as ->. by rewrite Es, Hip, Z.eqb_refl in Ex. }
      by apply (Hfs _ 0%nat _ He).
  - cbn. by rewrite (Hnone Hno).
Qed.

Lemma arp_step_inv st st' : arp_step st st' -> arp_inv st -> arp_inv st'.
Proof.
  intros Hs Hi. destruct Hs as [| | | |st ip st' r H| |].
  - by apply tmr_correct.
  - by apply input_inv.
  - by eapply output_inv.
  - by eapply query_inv.
  - rewrite find_addr_correct in H by done. by injection H as <- _.
  - by apply cleanup_correct.
  - by apply (arp_inv_ext st).
Qed.
End Proofs.

(** ** The properties *)

(** The table at start, an interface, and a link that sends nothing. *)
Definition arp0 (s : pstate) : estate := mk_es (replicate ARP_TABLE_SIZE entry0) 0 s (fun _ => 0).
Definition nif0 (_ : Z) : netif :=
  mk_netif 0x0100a8c0 0x00ffffff 0xfe00a8c0 1500 [2; 0; 0; 0; 0; 1] 6 NETIF_FLAG_BROADCAST.
Definition link0 (_ : Z) (s : pstate) (_ : Z) : pstate * Z := (s, ERR_OK).
Definition ops0 : pbuf_ops := pbuf_ops_of (fun s _ => s) 2000.

Lemma arp0_inv s : arp_inv (arp0 s).
Proof.
  constructor; [done|unfold ARP_TABLE_SIZE; simpl; lia| |].
  - apply Forall_replicate. unfold entry_ok. simpl. split; [done|lia].
  - intros i j ei ej Hi _ Hn _ _. apply lookup_replicate in Hi as [-> _]. done.
Qed.

(** C5: In every state that the operations of the ARP module reach from the empty
    table, in any order and whatever packets arrive, the table has ten entries, no
    address has two of them, no entry is for the any or a multicast address, only a
    pending entry has a queued packet (so that recycling a stable or empty entry
    loses none), pending entries are younger than five and stable ones younger than
    300 seconds, and the cached index lies inside the table. *)
Theorem arp_table_safe ops netif_at linkoutput dhcp_arp_reply fuel s st :
  (forall nif ip st, arp_inv st -> arp_inv (dhcp_arp_reply nif ip st)) ->
  rtc (arp_step ops netif_at linkoutput dhcp_arp_reply fuel) (arp0 s) st ->
  length (arp_table st) = ARP_TABLE_SIZE /\ (etharp_cached_entry st < ARP_TABLE_SIZE)%nat /\
  Forall entry_ok (arp_table st) /\ unique (arp_table st).
Proof.
  intros Hd Hs. assert (Hi : arp_inv st); [|destruct Hi; done].
  assert (H : forall x y, rtc (arp_step ops netif_at linkoutput dhcp_arp_reply fuel) x y -> arp_inv x -> arp_inv y).
  { induction 1 as [|x y z Hxy _ IH]; [done|]. intros Hx. apply IH. by eapply arp_step_inv. }
  apply (H _ _ Hs). apply arp0_inv.
Qed.

(** After a query for an address. *)
Definition arp1 : estate := from_option fst (arp0 st0) (etharp_query ops0 nif0 link0 9 (arp0 st0) 4000 0x0200a8c0 NULL).

Lemma arp1_query : etharp_query ops0 nif0 link0 9 (arp0 st0) 4000 0x0200a8c0 NULL = Some (arp1, 0).
Proof.
  assert (Hy : snd <$> etharp_query ops0 nif0 link0 9 (arp0 st0) 4000 0x0200a8c0 NULL = Some 0) by (vm_compute; reflexivity).
  unfold arp1. destruct (etharp_query ops0 nif0 link0 9 (arp0 st0) 4000 0x0200a8c0 NULL) as [[x y]|]; [|discriminate Hy].
  cbn in Hy. injection Hy as Hy. rewrite Hy. reflexivity.
Qed.

Lemma arp1_inv : arp_inv arp1.
Proof. eapply query_inv; [apply arp0_inv|exact arp1_query]. Qed.

Lemma arp_safe_witness :
  length (arp_table arp1) = ARP_TABLE_SIZE /\ (etharp_cached_entry arp1 < ARP_TABLE_SIZE)%nat /\
  Forall entry_ok (arp_table arp1) /\ unique (arp_table arp1).
Proof.
  apply (arp_table_safe ops0 nif0 link0 (fun _ _ st => st) 9 st0 arp1); [auto|].
  apply rtc_once. eapply step_query. exact arp1_query.
Defined.

(** [etharp_find_entry] returns the entry of the address when there is one, and
    changes nothing.  Otherwise it either only searched, or had to recycle without
    being told to try hard: then it returns [ERR_MEM] and changes nothing.  When it
    may, it always finds an entry: the first empty one, else the oldest stable one,
    else the oldest pending one without a queued packet, else the oldest pending
    one, whose packet is freed; that entry gets the address, age 0 and no queue, is
    empty, and no other entry changes. *)
Theorem find_entry_recycles ops st ip flags :
  arp_inv st ->
  let st' := (etharp_find_entry ops st (Some ip) flags).1 in
  let r := (etharp_find_entry ops st (Some ip) flags).2 in
  found ops st ip flags st' r /\ (flags = ETHARP_FLAG_TRY_HARD -> 0 <= r < Z.of_nat ARP_TABLE_SIZE).
Proof.
  intros Hi. cbv zeta. pose proof (find_entry_correct ops st ip flags Hi) as Hf. split; [done|]. intros ->.
  assert (Hb : forall i e, arp_table st !! i = Some e -> 0 <= Z.of_nat i < Z.of_nat ARP_TABLE_SIZE).
  { intros i e H. apply lookup_lt_Some in H. rewrite (ai_len _ Hi) in H. lia. }
  destruct Hf as [(i & e & He & _ & _ & -> & _) | [_ [(_ & _ & [H | [_ H]]) | (_ & i & e & -> & He & _)]]]; eauto;
    [by exfalso; apply H|discriminate H].
Qed.

Lemma find_entry_witness :
  found ops0 (arp0 st0) 0x0200a8c0 ETHARP_FLAG_TRY_HARD
    (etharp_find_entry ops0 (arp0 st0) (Some 0x0200a8c0) ETHARP_FLAG_TRY_HARD).1
    (etharp_find_entry ops0 (arp0 st0) (Some 0x0200a8c0) ETHARP_FLAG_TRY_HARD).2.
Proof. apply (find_entry_recycles ops0 (arp0 st0) 0x0200a8c0 ETHARP_FLAG_TRY_HARD (arp0_inv st0)). Defined.

(** C6: Address resolution: when a unicast address is announced to us (the update may
    try hard), the table maps it to the announced Ethernet address afterwards, in a
    stable entry of age 0, and a packet queued for the address has been sent to that
    Ethernet address and freed.  All other addresses keep their entries, except one
    that had to be recycled when the address was new. *)
Theorem arp_resolves ops netif_at linkoutput st nif ip mac :
  arp_inv st -> not_unicast netif_at ip nif = false ->
  let out := etharp_update_arp_entry ops netif_at linkoutput st nif ip mac ETHARP_FLAG_TRY_HARD in
  out.2 = ERR_OK /\ arp_inv out.1 /\
  exists i e, arp_table st !! i = Some e /\
    etharp_find_addr ops out.1 ip = (out.1, Some (i, mac, ip)) /\
    (forall j, j <> i -> arp_table out.1 !! j = arp_table st !! j) /\
    a_ctime (entry_at out.1 i) = 0 /\
    (if is_empty (a_state e) || negb (a_ipaddr e =? ip) then recycled (arp_table st) i
     else a_q e <> NULL ->
       packets out.1 = op_free ops (packets
         (ethernet_output linkoutput st nif (a_q e) (hwaddr netif_at nif) mac ETHTYPE_IP).1) (a_q e)).
Proof.
  intros Hi Hn out. pose proof (update_correct ops netif_at linkoutput st nif ip mac ETHARP_FLAG_TRY_HARD Hi) as H.
  cbv zeta in H. fold out in H. rewrite Hn in H. destruct H as [(_ & _ & [H | H]) | (H1 & Hi' & i & e & He & [U1 U2] & H2)]; [done|done|].
  split; [done|]. split; [done|]. exists i, e. split; [done|].
  assert (Hat : arp_table out.1 !! i = Some (mk_entry NULL ip nif mac 0 ETHARP_STATE_STABLE))
    by (rewrite U1; by eapply lookup_insert_at).
  assert (Hfs : find_stable ip 0 (arp_table out.1) = Some i).
  { pose proof (find_addr_correct ops out.1 ip Hi') as Hf. destruct (find_stable ip 0 (arp_table out.1)) as [k|] eqn:Ef.
    - apply find_stable_lookup in Ef as (j & ej & -> & Hj & Hs & Hip). f_equal. simpl.
      apply (ai_unique _ Hi' j i _ _ Hj Hat); [|done|done]. unfold is_stable, nonempty in *. by destruct (a_state ej).
    - exfalso. revert Ef Hat. generalize (arp_table out.1) as l. generalize 0%nat as k. clear. intros k l. revert k i.
      induction l as [|x l IH]; intros k i Hf Hl; [done|]. simpl in Hf.
      destruct (stable (a_state x) && (ip =? a_ipaddr x)) eqn:Ex; [done|].
      destruct i as [|i]; [|by eapply IH]. injection Hl as ->. simpl in Ex. by rewrite Z.eqb_refl in Ex. }
  split. { rewrite find_addr_correct by done. rewrite Hfs. by rewrite (entry_at_eq _ _ _ Hat). }
  split. { intros j Hj. rewrite U1. by apply list_lookup_insert_ne. }
  split. { by rewrite (entry_at_eq _ _ _ Hat). }
  destruct H2 as [(Hne & Hip & Hp) | (Hno & Hr & _)].
  - unfold nonempty in Hne. rewrite Hne, Hip, Z.eqb_refl. cbn [orb negb]. intros Hq. by rewrite (proj2 (Z.eqb_neq _ _) Hq) in Hp.
  - destruct (is_empty (a_state e)) eqn:Ee; [done|]. unfold no_match in Hno. rewrite Forall_forall in Hno.
    rewrite (proj2 (Z.eqb_neq _ _) (Hno e ltac:(by eapply list_elem_of_lookup_2) Ee)). done.
Qed.

Lemma arp_resolves_witness :
  let out := etharp_update_arp_entry ops0 nif0 link0 (arp0 st0) 4000 0x0200a8c0 [2; 0; 0; 0; 0; 9] ETHARP_FLAG_TRY_HARD in
  out.2 = ERR_OK /\ exists i, etharp_find_addr ops0 out.1 0x0200a8c0 = (out.1, Some (i, [2; 0; 0; 0; 0; 9], 0x0200a8c0)).
Proof.
  destruct (arp_resolves ops0 nif0 link0 (arp0 st0) 4000 0x0200a8c0 [2; 0; 0; 0; 0; 9] (arp0_inv st0) eq_refl)
    as (H1 & _ & i & e & _ & H2 & _). split; [exact H1|]. exists i. exact H2.
Defined.

(** Entries expire, neither too early nor too late: after [n] calls of [etharp_tmr]
    (one a second) without other events, an entry is still there exactly when its age
    plus [n] is below its lifetime (300 for a stable entry, five for a request that is
    not answered), and it then has its address, its Ethernet address and its age plus
    [n]; so nothing survives 300 calls. *)
Theorem arp_entries_expire ops netif_at linkoutput st n :
  arp_inv st ->
  let st' := Nat.iter n (etharp_tmr ops netif_at linkoutput) st in
  arp_inv st' /\
  forall i e, arp_table st !! i = Some e -> exists e', arp_table st' !! i = Some e' /\
    (nonempty e' <-> nonempty e /\ a_ctime e + Z.of_nat n < lifetime e) /\
    (nonempty e' -> a_ipaddr e' = a_ipaddr e /\ a_ethaddr e' = a_ethaddr e /\ a_ctime e' = a_ctime e + Z.of_nat n) /\
    ((300 <= n)%nat -> ~ nonempty e').
Proof.
  intros Hi st'. destruct (tmr_iter ops netif_at linkoutput st n Hi) as [H1 H2]. split; [done|]. intros i e He.
  exists (Nat.iter n tick e). split; [unfold st'; by rewrite H2, list_lookup_fmap, He|].
  pose proof (ai_entries _ Hi) as Hok. rewrite Forall_forall in Hok. specialize (Hok e ltac:(by eapply list_elem_of_lookup_2)).
  pose proof (tick_iter_dies e n Hok) as Hd. split; [split; [done|intros [? ?]; by apply tick_iter_lives]|].
  split; [intros Hn; destruct (Hd Hn) as [? ?]; by destruct (tick_iter_lives e n) as (? & ? & ? & ? & _)|].
  intros Hn Hne. destruct (Hd Hne) as [_ Hl]. destruct (entry_ok_lifetime e Hok) as [? _].
  unfold lifetime, ARP_MAXAGE, ARP_MAXPENDING in Hl. destruct (stable _); lia.
Qed.

Lemma arp_expire_witness :
  arp_inv (Nat.iter 4 (etharp_tmr ops0 nif0 link0) arp1) /\
  exists e', arp_table (Nat.iter 4 (etharp_tmr ops0 nif0 link0) arp1) !! 0%nat = Some e' /\ nonempty e'.
Proof.
  destruct (arp_entries_expire ops0 nif0 link0 arp1 4 arp1_inv) as [H1 H2]. split; [exact H1|].
  destruct (H2 0%nat _ (eq_refl : arp_table arp1 !! 0%nat = Some (entry_at arp1 0))) as (e' & H3 & H4 & _).
  exists e'. split; [exact H3|]. apply H4. vm_compute. split; reflexivity.
Defined.

(** ** What the code does not mean to do *)

(** A packet of two pbufs, the first one in ROM: [etharp_query] allocates the copy for
    [p->tot_len], where [p] is the pbuf that must be copied and not the head of the
    packet, so that [pbuf_copy] refuses and the packet is dropped with [ERR_MEM]
    although there is memory. *)
Definition rom_head : pstate :=
  set_pb (set_pb st0 1000 (mk_pbuf 2000 1040 7 3 PBUF_ROM 0 1)) 2000 (mk_pbuf 0 2040 4 4 PBUF_RAM 0 1).

Lemma rom_head_packet_dropped :
  snd <$> etharp_query ops0 nif0 link0 9 (arp0 rom_head) 4000 0x0200a8c0 1000 = Some ERR_MEM /\
  snd <$> etharp_query ops0 nif0 link0 9 (arp0 rom_head) 4000 0x0200a8c0 2000 = Some ERR_OK.
Proof. vm_compute. done. Qed.
