(* ===== verification/World.v ===== *)
(** * The static variables of the IP layer

    The modules of the IP layer call each other and share the packet buffers, the
    interfaces and [ip_data]; their static variables are the fields of one record,
    which the operations of [Ip4Frag], [Ip4], [Icmp], [Ip4Reass], [Udp] and [Ip4Input]
    pass along.  [X] is the state of what is below [netif->output] and above the
    callbacks: the link layer, TCP and the application. *)

From Stdlib Require Import ZArith Lia.
From stdpp Require Import base tactics numbers list option gmap.
From S2P Require Import Prelude.
From S2P Require Import Def.
From S2P Require Import Ip4Addr.
From S2P Require Import Alloc.
From S2P Require Import Mem.
From S2P Require Import Memp.
From S2P Require Import Pbuf.
From S2P Require Import PbufChain.

(** ** Headers in memory

    A header field of 16 or 32 bits is stored as the machine stores it (little
    endian), and the code converts with [lwip_htons] where it has to. *)
Definition st16 (m : memory) (a v : Z) : memory := write_bytes m a [v mod 256; v / 256 mod 256].
Definition st32 (m : memory) (a v : Z) : memory := write_bytes m a (u32_bytes v).

(** A 16-bit value in network byte order. *)
Definition be16 (v : Z) : list Z := [v / 256; v mod 256].

Lemma htons_mod v : 0 <= v < 65536 -> lwip_htons v mod 256 = v / 256.
Proof. intros. rewrite lwip_htons_eq by done. dm. Qed.
Lemma htons_div v : 0 <= v < 65536 -> lwip_htons v / 256 mod 256 = v mod 256.
Proof. intros. rewrite lwip_htons_eq by done. dm. Qed.

Lemma upd_hit m a v x : x = a -> upd m a v x = v.
Proof. intros ->. apply upd_eq. Qed.

(** Reads behind writes at known distances. *)
Ltac at_mem :=
  unfold st16, st32, u32_bytes; cbn [write_bytes bytes_at];
  repeat first [rewrite upd_hit by lia | rewrite upd_ne by lia].

Lemma ld16_st16 m a v : 0 <= v < 65536 -> ld16 (st16 m a v) a = v.
Proof. intros. unfold ld16. at_mem. dm. Qed.
Lemma ld32_st32 m a v : 0 <= v < 4294967296 -> ld32 (st32 m a v) a = v.
Proof. intros. unfold ld32. at_mem. dm. Qed.

Lemma st16_out m a v x : x < a \/ a + 2 <= x -> st16 m a v x = m x.
Proof. intros. unfold st16. apply write_bytes_out. simpl. lia. Qed.
Lemma st32_out m a v x : x < a \/ a + 4 <= x -> st32 m a v x = m x.
Proof. intros. unfold st32. apply write_bytes_out. simpl. lia. Qed.

(** ** Prepending a header *)

(** The chain [p :: l] has [n] bytes of room in front of its content. *)
Record room (st : pstate) (p : Z) (l : list Z) (n : Z) : Prop := {
  rm_chain : pchain st p (p :: l);
  rm_sizes : sizes st (p :: l);
  rm_fits : header_fits st p n false = true;
  rm_tot : plen st (p :: l) + n < 65536;
  rm_apart : Forall (separate (pb_payload (pb st p) - n, n)) (payloads st l)
}.

(** [pbuf_header] followed by writes into the revealed bytes. *)
Lemma prepend_correct st p l n :
  room st p l n -> 0 < n < 32768 ->
  exists st', pbuf_header st p n = (st', 0) /\ data st' = data st /\
    pb_payload (pb st' p) = pb_payload (pb st p) - n /\ pb_tot_len (pb st' p) = plen st (p :: l) + n /\
    forall m, only_in [(pb_payload (pb st p) - n, n)] (data st) m ->
      pchain (set_data st' m) p (p :: l) /\ sizes (set_data st' m) (p :: l) /\
      content (set_data st' m) (p :: l) =
        bytes_at m (pb_payload (pb st p) - n) (Z.to_nat n) ++ content st (p :: l).
Proof.
  intros [Hc Hs Hf Ht Ha] Hn. pose proof Hc as (_ & Hp & Hc'). pose proof (pchain_nodup _ _ _ Hc) as Hnd.
  apply NoDup_cons in Hnd as [Hpl _]. pose proof (sizes_head _ _ _ Hs) as Htot.
  pose proof Hs as (H0 & H1 & H2 & Hs'). pose proof (sizes_nonneg _ _ Hs') as [Hl0 Hlp]. cbn [plen] in *.
  pose proof (header_correct st p n false Hp ltac:(lia) ltac:(lia)) as H. unfold pbuf_header.
  destruct (pbuf_header_impl st p n false) as [st' r]. rewrite Hf in H. destruct H as (Hd & _ & _ & Hk & -> & Hpp).
  exists st'. split; [done|]. split; [done|]. rewrite Hpp. cbn [header_moved pb_payload pb_tot_len].
  split; [done|]. split; [rewrite u16_small; lia|]. intros m Hm.
  destruct (header_content st st' p l n Hs Hpl) as (S1 & _ & S2); auto; try lia. specialize (S2 ltac:(lia)).
  assert (Hkl : forall x, x ∈ l -> pb st' x = pb st x) by (intros x Hx; apply Hk; by intros ->).
  split; [|split].
  - split; [done|]. split; [done|]. rewrite pb_set_data, Hpp. simpl.
    apply (pchain_ext st); [|done]. intros x Hx. by rewrite pb_set_data, Hkl.
  - by apply (sizes_ext st').
  - cbn [content].
    unfold payload_bytes at 1. rewrite pb_set_data, Hpp. cbn [header_moved pb_payload pb_len data set_data].
    rewrite u16_small by lia.
    replace (Z.to_nat (pb_len (pb st p) + n)) with (Z.to_nat n + Z.to_nat (pb_len (pb st p)))%nat by lia.
    rewrite bytes_at_app, <- app_assoc. f_equal. rewrite Z2Nat.id by lia.
    replace (pb_payload (pb st p) - n + n) with (pb_payload (pb st p)) by lia. f_equal.
    + apply (only_in_bytes [(pb_payload (pb st p) - n, n)]); [done|]. constructor; [|constructor].
      unfold separate. simpl. lia.
    + apply content_ext. intros x Hx. unfold payload_bytes. rewrite pb_set_data, Hkl by done. cbn [data set_data].
      apply (only_in_bytes [(pb_payload (pb st p) - n, n)]); [done|]. constructor; [|constructor]. apply separate_sym.
      rewrite Forall_forall in Ha. rewrite Forall_forall in Hlp.
      rewrite Z2Nat.id by (by apply Hlp). exact (Ha _ (list_elem_of_fmap_2 (payload_region st) _ _ Hx)).
Qed.

(** The pbufs after [pbuf_header]: the first one is longer, the others are as they were. *)
Lemma prepend_pbufs st p l n st' :
  room st p l n -> 0 < n < 32768 -> pbuf_header st p n = (st', 0) ->
  pb_len (pb st' p) = pb_len (pb st p) + n /\ payloads st' l = payloads st l.
Proof.
  intros [Hc Hs Hf Ht _] Hn H. pose proof Hc as (_ & Hp & _). pose proof (pchain_nodup _ _ _ Hc) as [Hpl _]%NoDup_cons.
  pose proof Hs as (H0 & _ & _ & Hs'). pose proof (sizes_nonneg _ _ Hs') as [Hl0 _]. cbn [plen] in Ht.
  pose proof (header_correct st p n false Hp ltac:(lia) ltac:(lia)) as Hh. unfold pbuf_header in H. rewrite H, Hf in Hh.
  destruct Hh as (_ & _ & _ & Hk & _ & ->). cbn [header_moved pb_len]. rewrite u16_small by lia. split; [done|].
  apply map_ext_in. intros x Hx%list_elem_of_In. unfold payload_region. rewrite Hk; [done|]. by intros ->.
Qed.

(** Room for two headers. *)
Lemma header_fits_le st p n k : 0 <= k <= n -> header_fits st p n false = true -> header_fits st p k false = true.
Proof.
  intros Hk. unfold header_fits. rewrite !(proj2 (Z.ltb_ge _ 0)) by lia.
  destruct (pb_type (pb st p)); try done; rewrite !Z.leb_le; lia.
Qed.

Lemma room_le st p l n k : 0 <= k <= n -> room st p l n -> room st p l k.
Proof.
  intros Hk [H1 H2 H3 H4 H5]. constructor; auto; [by apply (header_fits_le _ _ n)|lia|].
  eapply separate_part; [| |exact H5]; lia.
Qed.

Lemma room_prepended st p l n k st' m :
  room st p l (n + k) -> 0 < n < 32768 -> 0 <= k -> pbuf_header st p n = (st', 0) ->
  only_in [(pb_payload (pb st p) - n, n)] (data st) m -> room (set_data st' m) p l k.
Proof.
  intros Hr Hn Hk Hh Hm. assert (Hrn : room st p l n) by (apply (room_le _ _ _ (n + k)); [lia|done]).
  destruct (prepend_correct _ _ _ _ Hrn Hn) as (st1 & Hh1 & Hd & Hpay & Htot & Hc). rewrite Hh in Hh1. injection Hh1 as <-.
  destruct (Hc m Hm) as (H1 & H2 & H3). destruct Hr as [R1 R2 R3 R4 R5]. pose proof R1 as (_ & Hp & _).
  pose proof (header_correct st p n false Hp ltac:(lia) ltac:(lia)) as H. unfold pbuf_header in Hh. rewrite Hh in H.
  rewrite (rm_fits _ _ _ _ Hrn) in H. destruct H as (_ & _ & _ & Hk' & _ & Hpp).
  pose proof (pchain_nodup _ _ _ R1) as Hnd. apply NoDup_cons in Hnd as [Hpl _].
  assert (Epay : payloads (set_data st' m) l = payloads st l).
  { apply map_ext_in. intros x Hx%list_elem_of_In. unfold payload_region. rewrite pb_set_data, Hk'; [done|]. by intros ->. }
  constructor; auto.
  - unfold header_fits in *. rewrite pb_set_data, Hpp. cbn [header_moved pb_type pb_payload].
    rewrite !(proj2 (Z.ltb_ge _ 0)) in * by lia. destruct (pb_type (pb st p)); try done; rewrite Z.leb_le in *; lia.
  - rewrite <- (sizes_head _ _ _ H2), pb_set_data, Htot. lia.
  - rewrite Epay, pb_set_data, Hpay. eapply separate_part; [| |exact R5]; lia.
Qed.

(** ** Removing a header *)

(** The chain [p :: l] with its first [n] bytes in the first pbuf, which a header can be
    removed from. *)
Record strippable (st : pstate) (p : Z) (l : list Z) (n : Z) : Prop := {
  sp_chain : pchain st p (p :: l);
  sp_sizes : sizes st (p :: l);
  sp_len : n <= pb_len (pb st p);
  sp_front : match pb_type (pb st p) with PBUF_RAM | PBUF_POOL => p + 20 <= pb_payload (pb st p) | _ => True end
}.

Lemma strip_correct st p l n k :
  strippable st p l (n + k) -> 0 < n < 32768 -> 0 <= k ->
  exists st', pbuf_header st p (- n) = (st', 0) /\ data st' = data st /\ strippable st' p l k /\
    content st' (p :: l) = drop (Z.to_nat n) (content st (p :: l)) /\
    pb_payload (pb st' p) = pb_payload (pb st p) + n /\ pb_tot_len (pb st' p) = pb_tot_len (pb st p) - n /\
    ps_pools st' = ps_pools st.
Proof.
  intros [Hc Hs Hl Hf] Hn Hk. pose proof Hc as (_ & Hp & _). pose proof (pchain_nodup _ _ _ Hc) as Hnd.
  apply NoDup_cons in Hnd as [Hpl _]. pose proof Hs as (H0 & H1 & H2 & Hs').
  pose proof (sizes_nonneg _ _ Hs') as [Hl0 _].
  assert (Hfit : header_fits st p (- n) false = true).
  { unfold header_fits. rewrite (proj2 (Z.ltb_lt (- n) 0)), (proj2 (Z.leb_le (- - n) _)) by lia. cbn [andb].
    destruct (pb_type (pb st p)); try done; apply Z.leb_le; lia. }
  pose proof (header_correct st p (- n) false Hp ltac:(lia) ltac:(lia)) as H. unfold pbuf_header.
  destruct (pbuf_header_impl st p (- n) false) as [st' r]. rewrite Hfit in H. destruct H as (Hd & _ & Hpo & Hk' & -> & Hpp).
  exists st'. split; [done|]. split; [done|].
  destruct (header_content st st' p l (- n) Hs Hpl) as (S1 & S2 & _); auto; try lia.
  rewrite Hpp. cbn [header_moved pb_payload pb_tot_len]. split; [|split; [rewrite S2 by lia; f_equal; lia|]].
  - constructor; auto.
    + apply (pchain_ext st); [|done]. intros x Hx. destruct (Z.eq_dec x p) as [->|]; [by rewrite Hpp|by rewrite Hk'].
    + rewrite Hpp. cbn [header_moved pb_len]. rewrite u16_small; lia.
    + rewrite Hpp. cbn [header_moved pb_type pb_payload]. destruct (pb_type (pb st p)); try done; lia.
  - split; [lia|]. split; [rewrite u16_small; lia|done].
Qed.

(** [pbuf_header] changes one pbuf. *)
Lemma header_others st p n st' r x :
  p <> NULL -> n <> 0 -> -32768 <= n < 32768 -> pbuf_header st p n = (st', r) -> x <> p -> pb st' x = pb st x.
Proof.
  intros Hp Hn Hr H Hx. pose proof (header_correct st p n false Hp Hn Hr) as Hh. unfold pbuf_header in H. rewrite H in Hh.
  destruct Hh as (_ & _ & _ & Hk & _). by apply Hk.
Qed.

(** The front of the content is in memory at the payload. *)
Lemma content_front st p l hdr rest :
  content st (p :: l) = hdr ++ rest -> Z.of_nat (length hdr) <= pb_len (pb st p) ->
  bytes_at (data st) (pb_payload (pb st p)) (length hdr) = hdr.
Proof.
  intros E Hl. cbn [content] in E. apply (f_equal (take (length hdr))) in E.
  rewrite take_app_length, take_app_le in E by (rewrite length_payload_bytes; lia).
  unfold payload_bytes in E. by rewrite bytes_at_take in E by lia.
Qed.

Lemma bytes_at_nth m a bs k : bytes_at m a (length bs) = bs -> (k < length bs)%nat -> m (a + Z.of_nat k) = nth k bs 0.
Proof.
  intros E Hk. pose proof (bytes_at_lookup m a (length bs) k) as H. rewrite E in H.
  destruct (lookup_lt_is_Some_2 bs k Hk) as [x Hx]. rewrite Hx in H. erewrite nth_lookup_Some; [|exact Hx].
  specialize (H Hk). by injection H.
Qed.

(** ** Rewriting the front of a packet *)

Lemma rewrite_front st p l m bs old rest :
  sizes st (p :: l) -> content st (p :: l) = old ++ rest -> length old = length bs ->
  Z.of_nat (length bs) <= pb_len (pb st p) -> Forall (separate (pb_payload (pb st p), Z.of_nat (length bs))) (payloads st l) ->
  only_in [(pb_payload (pb st p), Z.of_nat (length bs))] (data st) m ->
  bytes_at m (pb_payload (pb st p)) (length bs) = bs ->
  content (set_data st m) (p :: l) = bs ++ rest.
Proof.
  intros (H0 & _ & _ & Hs) Hc Hlen Hle Ha Hon Hb. pose proof (sizes_nonneg _ _ Hs) as [_ Hpos].
  assert (Hl : content (set_data st m) l = content st l).
  { apply content_ext. intros x Hx. unfold payload_bytes. rewrite pb_set_data. cbn [data set_data].
    apply (only_in_bytes [(pb_payload (pb st p), Z.of_nat (length bs))]); [done|]. constructor; [|constructor].
    apply separate_sym. rewrite Forall_forall in Hpos. rewrite Forall_forall in Ha. rewrite Z2Nat.id by (by apply Hpos).
    exact (Ha _ (list_elem_of_fmap_2 (payload_region st) _ _ Hx)). }
  cbn [content] in *. rewrite Hl. unfold payload_bytes in *. rewrite pb_set_data. cbn [data set_data].
  set (k := (Z.to_nat (pb_len (pb st p)) - length bs)%nat).
  replace (Z.to_nat (pb_len (pb st p))) with (length bs + k)%nat in * by lia. rewrite bytes_at_app in *. rewrite Hb.
  rewrite <- !app_assoc in *. f_equal. apply app_inj_1 in Hc as [_ Hc]; [|rewrite length_bytes_at; lia].
  rewrite <- Hc. f_equal. apply (only_in_bytes [(pb_payload (pb st p), Z.of_nat (length bs))]); [done|].
  constructor; [|constructor]. unfold separate. simpl. lia.
Qed.

(** Revealing a header and hiding it again. *)
Lemma header_back st p l n :
  room st p l n -> 0 < n < 32768 ->
  exists st1 st2, pbuf_header st p n = (st1, 0) /\ pbuf_header st1 p (- n) = (st2, 0) /\
    data st2 = data st /\ forall x, pb st2 x = pb st x.
Proof.
  intros [Hc Hs Hf Ht Ha] Hn. pose proof Hc as (_ & Hp & _). pose proof Hs as (H0 & H1 & H2 & Hs').
  pose proof (sizes_nonneg _ _ Hs') as [Hl0 _]. cbn [plen] in Ht. unfold pbuf_header.
  pose proof (header_correct st p n false Hp ltac:(lia) ltac:(lia)) as H.
  destruct (pbuf_header_impl st p n false) as [st1 r1]. rewrite Hf in H. destruct H as (Hd & _ & _ & Hk & -> & Hpp).
  pose proof (header_correct st1 p (- n) false Hp ltac:(lia) ltac:(lia)) as H.
  assert (Hfit : header_fits st1 p (- n) false = true).
  { unfold header_fits in *. rewrite Hpp. cbn [header_moved pb_len pb_type pb_payload].
    rewrite (proj2 (Z.ltb_lt (- n) 0)), (proj2 (Z.ltb_ge n 0)) in * by lia. rewrite u16_small by lia.
    rewrite (proj2 (Z.leb_le (- - n) _)) by lia. cbn [andb]. destruct (pb_type (pb st p)); try done; apply Z.leb_le; zb; lia. }
  destruct (pbuf_header_impl st1 p (- n) false) as [st2 r2] eqn:E2. rewrite Hfit in H. destruct H as (Hd2 & _ & _ & Hk2 & -> & Hpp2).
  exists st1, st2. split; [done|]. split; [done|]. split; [by rewrite Hd2|].
  intros x. destruct (Z.eq_dec x p) as [->|]; [|by rewrite Hk2, Hk]. rewrite Hpp2, Hpp. unfold header_moved.
  cbn [pb_next pb_payload pb_tot_len pb_len pb_type pb_flags pb_ref]. rewrite !(u16_small (_ + n)) by lia. rewrite !u16_small by lia.
  destruct (pb st p). simpl in *. f_equal; lia.
Qed.

(** The flags of a pbuf do not matter. *)
Definition same_but_flags (st st' : pstate) : Prop :=
  data st' = data st /\ forall x, exists f, pb st' x = with_flags (pb st x) f.

Lemma same_but_flags_upd st p f : same_but_flags st (upd_pb st p (fun x => with_flags x (f x))).
Proof.
  split; [done|]. intros x. rewrite pb_upd_pb. destruct (Z.eqb_spec x p) as [->|]; [eauto|].
  exists (pb_flags (pb st x)). by destruct (pb st x).
Qed.

Lemma flags_content st st' l : same_but_flags st st' -> content st' l = content st l.
Proof.
  intros [Hd Hf]. apply content_ext. intros x _. unfold payload_bytes. destruct (Hf x) as [f ->]. by rewrite Hd.
Qed.

Lemma flags_room st st' p l n : same_but_flags st st' -> room st p l n -> room st' p l n.
Proof.
  intros [Hd Hf] [H1 H2 H3 H4 H5].
  assert (Hx : forall x, pb_next (pb st' x) = pb_next (pb st x) /\ pb_len (pb st' x) = pb_len (pb st x) /\
    pb_tot_len (pb st' x) = pb_tot_len (pb st x) /\ pb_payload (pb st' x) = pb_payload (pb st x) /\
    pb_type (pb st' x) = pb_type (pb st x)) by (intros x; by destruct (Hf x) as [f ->]).
  assert (Epay : payloads st' l = payloads st l).
  { apply map_ext. intros x. unfold payload_region. destruct (Hx x) as (_ & -> & _ & -> & _). done. }
  constructor.
  - apply (pchain_ext st); [|done]. intros x _. apply Hx.
  - apply (sizes_ext st); [|done]. intros x _. split; apply Hx.
  - unfold header_fits in *. destruct (Hx p) as (_ & E2 & _ & E4 & E5). by rewrite E2, E4, E5.
  - rewrite (plen_ext st st'); [done|]. intros x _. apply Hx.
  - rewrite Epay. destruct (Hx p) as (_ & _ & _ & -> & _). done.
Qed.

Lemma flags_strippable st st' p l n : same_but_flags st st' -> strippable st p l n -> strippable st' p l n.
Proof.
  intros [Hd Hf] [H1 H2 H3 H4].
  assert (Hx : forall x, pb_next (pb st' x) = pb_next (pb st x) /\ pb_len (pb st' x) = pb_len (pb st x) /\
    pb_tot_len (pb st' x) = pb_tot_len (pb st x)) by (intros x; by destruct (Hf x) as [f ->]).
  constructor; [apply (pchain_ext st); [|done]; intros x _; apply Hx|apply (sizes_ext st); [|done]; intros x _; split; apply Hx| |];
    destruct (Hf p) as [f ->]; done.
Qed.

(** Fields of headers from their bytes. *)
Lemma ld16_bytes m a bs k :
  bytes_at m a (length bs) = bs -> (k + 1 < length bs)%nat -> ld16 m (a + Z.of_nat k) = nth k bs 0 + 256 * nth (k + 1) bs 0.
Proof.
  intros E Hk. unfold ld16. rewrite (bytes_at_nth m a bs k) by (done || lia).
  replace (a + Z.of_nat k + 1) with (a + Z.of_nat (k + 1)) by lia. by rewrite (bytes_at_nth m a bs (k + 1)) by (done || lia).
Qed.
Lemma ld32_bytes m a bs k :
  bytes_at m a (length bs) = bs -> (k + 3 < length bs)%nat ->
  ld32 m (a + Z.of_nat k) = nth k bs 0 + 256 * nth (k + 1) bs 0 + 65536 * nth (k + 2) bs 0 + 16777216 * nth (k + 3) bs 0.
Proof.
  intros E Hk. unfold ld32. rewrite (bytes_at_nth m a bs k) by (done || lia).
  replace (a + Z.of_nat k + 1) with (a + Z.of_nat (k + 1)) by lia. replace (a + Z.of_nat k + 2) with (a + Z.of_nat (k + 2)) by lia.
  replace (a + Z.of_nat k + 3) with (a + Z.of_nat (k + 3)) by lia. by rewrite !(bytes_at_nth m a bs) by (done || lia).
Qed.

Lemma htons_be16 v : 0 <= v < 65536 -> lwip_htons (v / 256 + 256 * (v mod 256)) = v.
Proof. intros. rewrite lwip_htons_eq by dm. dm. Qed.
Lemma u32_bytes_val v : 0 <= v < 4294967296 ->
  v mod 256 + 256 * (v / 256 mod 256) + 65536 * (v / 65536 mod 256) + 16777216 * (v / 16777216) = v.
Proof. intros. dm. Qed.

(** ** Statistics *)

(** The counters of [lwip_stats]: a protocol and a field of [struct stats_proto]. *)
Inductive sproto := S_link | S_etharp | S_ip | S_ip_frag | S_icmp | S_igmp | S_udp | S_tcp.
Inductive sfield := F_xmit | F_recv | F_fw | F_drop | F_chkerr | F_lenerr | F_memerr | F_rterr | F_proterr
  | F_opterr | F_err | F_cachehit | F_rx_v1 | F_rx_group | F_rx_general | F_rx_report | F_tx_join | F_tx_leave | F_tx_report.
#[export] Instance sproto_eq_dec : EqDecision sproto.
Proof. solve_decision. Defined.
#[export] Instance sfield_eq_dec : EqDecision sfield.
Proof. solve_decision. Defined.

(** ** The modules' variables *)

(** [core/netif.c]: [netif_list] (through the [next] fields), [netif_default], and the
    interfaces at their addresses. *)
Record netifs := mk_netifs { nif_at : Z -> netif; netif_list : list Z; netif_default : Z }.

(** [struct ip_globals]; the header pointer is an address. *)
Record ip_globals := mk_ipg {
  current_netif : Z; current_input_netif : Z; current_ip4_header : Z;
  current_ip_header_tot_len : Z; current_iphdr_src : Z; current_iphdr_dest : Z }.

(** [struct ip_reassdata]; the list through [next] is a list, and [rd_addr] is the
    address of the struct. *)
Record ip_reassdata := mk_rd {
  rd_addr : Z; rd_p : Z; rd_iphdr : list Z; rd_datagram_len : Z; rd_flags : Z; rd_timer : Z }.

(** [struct udp_pcb] with the members of [IP_PCB]; [u_recv] is the callback (0 for
    [NULL]).  The list through [next] is [udp_pcbs]. *)
Record udp_pcb := mk_pcb {
  u_local_ip : Z; u_remote_ip : Z; u_tos : Z; u_ttl : Z; u_flags : Z; u_local_port : Z; u_remote_port : Z;
  u_multicast_ip : Z; u_mcast_ttl : Z; u_recv : Z; u_recv_arg : Z }.

Record world {X : Type} := mk_world {
  w_ext : X;
  w_ps : pstate;
  w_netifs : netifs;
  ip_id : Z;
  ip4_default_multicast_netif : Z;
  ip_data : ip_globals;
  reassdatagrams : list ip_reassdata;
  ip_reass_pbufcount : Z;
  udp_pcbs : list Z;
  udp_pcb_at : gmap Z udp_pcb;
  udp_port : Z;
  lwip_stats : sproto -> sfield -> Z
}.
Arguments world : clear implicits.
Arguments mk_world {_}.

Section Setters.
Context {X : Type}.
Implicit Types w : world X.

Definition set_ext w (v : X) : world X := mk_world v (w_ps w) (w_netifs w) (ip_id w) (ip4_default_multicast_netif w) (ip_data w)
  (reassdatagrams w) (ip_reass_pbufcount w) (udp_pcbs w) (udp_pcb_at w) (udp_port w) (lwip_stats w).
Definition set_wps w v := mk_world (w_ext w) v (w_netifs w) (ip_id w) (ip4_default_multicast_netif w) (ip_data w)
  (reassdatagrams w) (ip_reass_pbufcount w) (udp_pcbs w) (udp_pcb_at w) (udp_port w) (lwip_stats w).
Definition set_ip_id w v := mk_world (w_ext w) (w_ps w) (w_netifs w) v (ip4_default_multicast_netif w) (ip_data w)
  (reassdatagrams w) (ip_reass_pbufcount w) (udp_pcbs w) (udp_pcb_at w) (udp_port w) (lwip_stats w).
Definition set_ip_data w v := mk_world (w_ext w) (w_ps w) (w_netifs w) (ip_id w) (ip4_default_multicast_netif w) v
  (reassdatagrams w) (ip_reass_pbufcount w) (udp_pcbs w) (udp_pcb_at w) (udp_port w) (lwip_stats w).
Definition set_reass w v n := mk_world (w_ext w) (w_ps w) (w_netifs w) (ip_id w) (ip4_default_multicast_netif w)
  (ip_data w) v n (udp_pcbs w) (udp_pcb_at w) (udp_port w) (lwip_stats w).
Definition set_udp_pcbs w v := mk_world (w_ext w) (w_ps w) (w_netifs w) (ip_id w) (ip4_default_multicast_netif w)
  (ip_data w) (reassdatagrams w) (ip_reass_pbufcount w) v (udp_pcb_at w) (udp_port w) (lwip_stats w).
Definition set_udp_at w v := mk_world (w_ext w) (w_ps w) (w_netifs w) (ip_id w) (ip4_default_multicast_netif w)
  (ip_data w) (reassdatagrams w) (ip_reass_pbufcount w) (udp_pcbs w) v (udp_port w) (lwip_stats w).
Definition set_udp_port w v := mk_world (w_ext w) (w_ps w) (w_netifs w) (ip_id w) (ip4_default_multicast_netif w)
  (ip_data w) (reassdatagrams w) (ip_reass_pbufcount w) (udp_pcbs w) (udp_pcb_at w) v (lwip_stats w).

(** [STATS_INC]; a counter is a [u16_t]. *)
Definition stats_inc (p : sproto) (f : sfield) w := mk_world (w_ext w) (w_ps w) (w_netifs w) (ip_id w)
  (ip4_default_multicast_netif w) (ip_data w) (reassdatagrams w) (ip_reass_pbufcount w) (udp_pcbs w) (udp_pcb_at w)
  (udp_port w)
  (fun p' f' => if decide (p' = p /\ f' = f) then u16 (lwip_stats w p f + 1) else lwip_stats w p' f').

(** The byte memory and the pbufs. *)
Definition wmem w : memory := data (w_ps w).
Definition set_wmem w (m : memory) : world X := set_wps w (set_data (w_ps w) m).
Definition netif_of w (nif : Z) : netif := nif_at (w_netifs w) nif.
Definition payload w (p : Z) : Z := pb_payload (pb (w_ps w) p).

End Setters.

(** ** Frames *)

(** A property of the state that does not depend on the packet buffers, the counters,
    [ip_id], the current packet and the fragments that wait: what the IP layer changes by
    itself. *)
Class ip_frame {X : Type} (I : world X -> Prop) : Prop := {
  frame_ps : forall w st, I w -> I (set_wps w st);
  frame_stats : forall w p f, I w -> I (stats_inc p f w);
  frame_id : forall w v, I w -> I (set_ip_id w v);
  frame_ip_data : forall w v, I w -> I (set_ip_data w v);
  frame_reass : forall w v n, I w -> I (set_reass w v n)
}.

Lemma frame_mem {X} (I : world X -> Prop) `{!ip_frame I} w m : I w -> I (set_wmem w m).
Proof. intros. by apply frame_ps. Qed.

(** Removes from the goal the updates that a frame allows. *)
Ltac frame :=
  repeat match goal with
         | |- ?I (set_wmem _ _) => apply (frame_mem I)
         | |- ?I (set_wps _ _) => apply (frame_ps (I:=I))
         | |- ?I (stats_inc _ _ _) => apply (frame_stats (I:=I))
         | |- ?I (set_ip_id _ _) => apply (frame_id (I:=I))
         | |- ?I (set_ip_data _ _) => apply (frame_ip_data (I:=I))
         | |- ?I (set_reass _ _ _) => apply (frame_reass (I:=I))
         end; auto.

(** A function of [netif->output] that preserves a property. *)
Definition output_keeps {X} (out : world X -> Z -> Z -> Z -> option (world X * Z)) (I : world X -> Prop) : Prop :=
  forall w nif p dest w' r, out w nif p dest = Some (w', r) -> I w -> I w'.

(** ** An example *)

(** A board with one interface, 192.168.0.1/24, and a packet of two pbufs with room for
    headers; the pools of UDP PCBs, of datagrams that wait for fragments and of custom
    pbufs have their elements. *)
Definition net_desc : memp_desc := mk_desc 44 4 538000000.
Definition reass_desc : memp_desc := mk_desc 36 5 538001000.
Definition frag_desc : memp_desc := mk_desc 28 15 538002000.
Definition net_pools : list pool :=
  let z := mk_pool 0 ∅ (mk_stats 0 0 0 0 0) in
  [memp_init_pool net_desc z; z; z; z; memp_init_pool reass_desc z; memp_init_pool frag_desc z; z; z; z; z].
Definition net_st : pstate :=
  mk_ps (<[1000 := mk_pbuf 2000 1100 7 3 PBUF_RAM 0 1]> (<[2000 := mk_pbuf 0 2040 4 4 PBUF_RAM 0 1]> (∅ : gmap Z pbuf)))
    (write_bytes (write_bytes (fun _ => 0) 1100 [65; 66; 67]) 2040 [68; 69; 70; 71]) heap0 net_pools 0.
Definition net_if : netif := mk_netif 0x0100a8c0 0x00ffffff 0xfe00a8c0 1500 [2; 0; 0; 0; 0; 1] 6 0x3f.
Definition world0 : world unit :=
  mk_world tt net_st (mk_netifs (fun _ => net_if) [4000] 4000) 7 NULL (mk_ipg 0 0 0 0 0 0) [] 0 [] ∅ 0xc000 (fun _ _ => 0).

(** An interface that accepts every packet. *)
Definition sink {X} (w : world X) (nif p dest : Z) : option (world X * Z) := Some (w, ERR_OK).

Lemma net_room n : 0 <= n <= 80 -> room net_st 1000 [2000] n.
Proof.
  intros Hn. constructor.
  - repeat split; vm_compute; congruence.
  - repeat split; vm_compute; congruence.
  - unfold header_fits. rewrite (proj2 (Z.ltb_ge n 0)) by lia.
    change ((1000 + 20 <=? 1100 - n) = true). apply Z.leb_le. lia.
  - change (7 + n < 65536). lia.
  - change (Forall (separate (1100 - n, n)) [(2040, 4)]). repeat constructor. unfold separate. simpl. lia.
Qed.

Lemma net_room_of st n : pbufs st = pbufs net_st -> data st = data net_st -> 0 <= n <= 80 -> room st 1000 [2000] n.
Proof.
  intros E1 E2 Hn. apply (flags_room net_st); [|by apply net_room]. split; [done|].
  intros x. exists (pb_flags (pb net_st x)). unfold pb. rewrite E1. by destruct (default _ _).
Qed.

(** Memory of an example: bytes written over zeroes. *)
Lemma mem_ok_write m a bs :
  mem_ok m -> forallb (fun b => (0 <=? b) && (b <? 256)) bs = true -> mem_ok (write_bytes m a bs).
Proof.
  intros Hm Hb. apply write_bytes_ok; [done|]. rewrite forallb_forall in Hb. apply Forall_forall. intros x Hx.
  specialize (Hb x ltac:(by apply list_elem_of_In)). unfold is_byte. zb. lia.
Qed.
Lemma net_mem_ok : mem_ok (data net_st).
Proof. apply mem_ok_write; [|reflexivity]. apply mem_ok_write; [|reflexivity]. intros a. lia. Qed.
