(* ===== verification/Ip4Frag.v ===== *)
(** * [core/ipv4/ip4_frag.c]: fragmentation of outgoing packets

    [ip4_frag] cuts a datagram into fragments that do not copy the data: a fragment
    is a RAM pbuf with the header, followed by custom pbufs that point into the
    datagram's pbufs ([LWIP_NETIF_TX_SINGLE_PBUF] 0).  A [struct pbuf_custom_ref] is an
    element of the pool [MEMP_FRAG_PBUF]; its member [original] is behind the
    [struct pbuf] and the function pointer, at offset 24. *)

From Stdlib Require Import ZArith Lia.
From stdpp Require Import base tactics numbers list option gmap.
From S2P Require Import Prelude.
From S2P Require Import Def.
From S2P Require Import Ip4Addr.
From S2P Require Import Alloc.
From S2P Require Import Mem.
From S2P Require Import Memp.
From S2P Require Import Pbuf.
From S2P Require Import World.

Definition MEMP_REASSDATA : Z := 4.
Definition MEMP_FRAG_PBUF : Z := 5.
Definition IP_HLEN : Z := 20.
Definition IP_DF : Z := 0x4000.
Definition IP_MF : Z := 0x2000.
Definition IP_OFFMASK : Z := 0x1fff.

(** ** [struct ip_hdr] in memory *)

Definition IPH_V (m : memory) (hdr : Z) : Z := Z.shiftr (m hdr) 4.
Definition IPH_HL (m : memory) (hdr : Z) : Z := Z.land (m hdr) 0x0f.
Definition IPH_LEN (m : memory) (hdr : Z) : Z := ld16 m (hdr + 2).
Definition IPH_ID (m : memory) (hdr : Z) : Z := ld16 m (hdr + 4).
Definition IPH_OFFSET (m : memory) (hdr : Z) : Z := ld16 m (hdr + 6).
Definition IPH_PROTO (m : memory) (hdr : Z) : Z := m (hdr + 9).
Definition IPH_SRC (m : memory) (hdr : Z) : Z := ld32 m (hdr + 12).
Definition IPH_DEST (m : memory) (hdr : Z) : Z := ld32 m (hdr + 16).

Definition IPH_LEN_SET (m : memory) (hdr v : Z) : memory := st16 m (hdr + 2) v.
Definition IPH_OFFSET_SET (m : memory) (hdr v : Z) : memory := st16 m (hdr + 6) v.
Definition IPH_CHKSUM_SET (m : memory) (hdr v : Z) : memory := st16 m (hdr + 10) v.

(** ** Custom pbufs *)

(** [ip_frag_alloc_pbuf_custom_ref], [ip_frag_free_pbuf_custom_ref] *)
Definition ip_frag_alloc_pbuf_custom_ref (st : pstate) : pstate * Z :=
  let '(ps, p) := memp_malloc (ps_pools st) MEMP_FRAG_PBUF in (set_pools st ps, p).
Definition ip_frag_free_pbuf_custom_ref (st : pstate) (p : Z) : pstate :=
  set_pools st (memp_free (ps_pools st) MEMP_FRAG_PBUF p).

Definition pcr_original (st : pstate) (pcr : Z) : Z := ld32 (data st) (pcr + 24).

(** [ipfrag_free_pbuf_custom]: the free function of all custom pbufs.  The original
    can have custom pbufs of its own; [depth] bounds the nesting. *)
Fixpoint ipfrag_free_pbuf_custom (depth fuel : nat) (st : pstate) (p : Z) : pstate :=
  match depth with
  | O => st
  | S depth =>
      let original := pcr_original st p in
      let st := if negb (original =? NULL)
                then from_option fst st (pbuf_free (ipfrag_free_pbuf_custom depth fuel) fuel st original)
                else st in
      ip_frag_free_pbuf_custom_ref st p
  end.

Section Frag.
Context {X : Type}.
(** [netif->output]. *)
Context (netif_output : world X -> Z -> Z -> Z -> option (world X * Z)).
Context (custom_free : pstate -> Z -> pstate) (fuel : nat).

(** The inner loop: the payload of a fragment, mirrored behind [rambuf].  The state is
    [p], [poff], [newpbuflen] and [left_to_copy]; the result is [None] when a walk runs
    out of fuel and has [None] for [memerr] ([rambuf] is freed then). *)
Definition frag_mirror (st : pstate) (rambuf p poff left_to_copy : Z)
    : option (option (option (pstate * Z * Z * Z) * pstate)) :=
  loop fuel (fun '(st, p, poff, newpbuflen, left_to_copy) =>
    if negb (left_to_copy =? 0) then
      let plen := u16 (pb_len (pb st p) - poff) in
      let newpbuflen := Z.min left_to_copy plen in
      if newpbuflen =? 0 then inl (st, pb_next (pb st p), 0, newpbuflen, left_to_copy)
      else
        let memerr st := inr (match pbuf_free custom_free fuel st rambuf with
                              | None => None | Some (st, _) => Some (None, st) end) in
        let '(st, pcr) := ip_frag_alloc_pbuf_custom_ref st in
        if pcr =? NULL then memerr st
        else
          let '(st, newpbuf) := pbuf_alloced_custom st PBUF_RAW newpbuflen PBUF_REF pcr
                                  (pb_payload (pb st p) + poff) newpbuflen in
          if newpbuf =? NULL then memerr (ip_frag_free_pbuf_custom_ref st pcr)
          else
            let st := pbuf_ref st p in
            let st := set_data st (st32 (data st) (pcr + 24) p) in
            match pbuf_cat fuel st rambuf newpbuf with
            | None => inr None
            | Some st =>
                let left_to_copy := u16 (left_to_copy - newpbuflen) in
                if negb (left_to_copy =? 0) then inl (st, pb_next (pb st p), 0, newpbuflen, left_to_copy)
                else inl (st, p, poff, newpbuflen, left_to_copy)
            end
    else inr (Some (Some (st, p, poff, newpbuflen), st))) (st, p, poff, 0, left_to_copy).

(** A round of the outer loop.  The state is [p], [poff], [left] and [ofo]. *)
Definition frag_step (nif dest original_iphdr nfb : Z)
    : world X * Z * Z * Z * Z -> (world X * Z * Z * Z * Z) + option (world X * Z) :=
  fun '(w, p, poff, left_, ofo) =>
    if negb (left_ =? 0) then
      let mtu := netif_mtu (netif_of w nif) in
      let fragsize := u16 (Z.min left_ (nfb * 8)) in
      match pbuf_alloc custom_free fuel (w_ps w) PBUF_LINK IP_HLEN PBUF_RAM with
      | None => inr None
      | Some (st, rambuf) =>
          if rambuf =? NULL then inr (Some (set_wps w st, ERR_MEM))
          else
            let iphdr := pb_payload (pb st rambuf) in
            let st := set_data st (memcpy (data st) iphdr original_iphdr IP_HLEN) in
            match frag_mirror st rambuf p poff fragsize with
            | None | Some None => inr None
            | Some (Some (None, st)) => inr (Some (set_wps w st, ERR_MEM))
            | Some (Some (Some (st, p, poff, newpbuflen), _)) =>
                let poff := u16 (poff + newpbuflen) in
                let last := left_ <=? mtu - IP_HLEN in
                let tmp := Z.land IP_OFFMASK ofo in
                let tmp := if negb last then Z.lor tmp IP_MF else tmp in
                let m := IPH_OFFSET_SET (data st) iphdr (lwip_htons tmp) in
                let m := IPH_LEN_SET m iphdr (lwip_htons (u16 (fragsize + IP_HLEN))) in
                let m := IPH_CHKSUM_SET m iphdr 0 in
                match netif_output (set_wps w (set_data st m)) nif rambuf dest with
                | None => inr None
                | Some (w, _) =>
                    let w := stats_inc S_ip_frag F_xmit w in
                    match pbuf_free custom_free fuel (w_ps w) rambuf with
                    | None => inr None
                    | Some (st, _) => inl (set_wps w st, p, poff, u16 (left_ - fragsize), u16 (ofo + nfb))
                    end
                end
            end
      end
    else inr (Some (w, ERR_OK)).

(** [ip4_frag(p, netif, dest)] *)
Definition ip4_frag (w : world X) (p nif dest : Z) : option (world X * Z) :=
  let nfb := u16 (Z.quot (netif_mtu (netif_of w nif) - IP_HLEN) 8) in
  let original_iphdr := payload w p in
  if negb (IPH_HL (wmem w) original_iphdr * 4 =? IP_HLEN) then Some (w, ERR_VAL)
  else
    let tmp := lwip_htons (IPH_OFFSET (wmem w) original_iphdr) in
    let ofo := Z.land tmp IP_OFFMASK in
    if negb (Z.land tmp IP_MF =? 0) then Some (w, ERR_VAL)
    else
      let left_ := u16 (pb_tot_len (pb (w_ps w) p) - IP_HLEN) in
      match loop fuel (frag_step nif dest original_iphdr nfb) (w, p, IP_HLEN, left_, ofo) with
      | None => None
      | Some r => r
      end.

End Frag.

(** ** Frames *)

Section Frame.
Context {X : Type} (netif_output : world X -> Z -> Z -> Z -> option (world X * Z)).
Context (custom_free : pstate -> Z -> pstate) (fuel : nat).
Context (I : world X -> Prop) `{!ip_frame I} (Hout : output_keeps netif_output I).

Lemma ip4_frag_keeps w p nif dest w' r : ip4_frag netif_output custom_free fuel w p nif dest = Some (w', r) -> I w -> I w'.
Proof.
  unfold ip4_frag. destruct (negb _); [by intros [= <- _]|]. cbv zeta. destruct (negb _); [by intros [= <- _]|].
  destruct (loop _ _ _) as [res|] eqn:E; [|done]. intros -> Hi.
  refine (loop_keeps _ (fun '(w, _, _, _, _) => I w) (fun r => match r with Some (w, _) => I w | None => True end)
            _ _ _ _ E Hi).
  clear E. intros [[[[w1 p1] poff] l] ofo] Hi1. unfold frag_step. destruct (negb (l =? 0)); [|done]. cbv zeta.
  destruct (pbuf_alloc _ _ _ _ _ _) as [[st rambuf]|]; [|done]. destruct (rambuf =? NULL); [frame|].
  destruct (frag_mirror _ _ _ _ _ _ _) as [[[[[[[st1 p2] poff2] n1]|] st2]|]|]; frame.
  destruct (netif_output _ _ _ _) as [[w2 r2]|] eqn:E; [|done].
  assert (I w2) by (eapply Hout; [exact E|frame]).
  destruct (pbuf_free _ _ _ _) as [[st3 n3]|]; frame.
Qed.

End Frame.

(** ** The "more fragments" flag

    The flag is left out when the remaining data fits the MTU, but a fragment holds only
    the multiple of eight bytes below it: with an MTU of 46, 25 bytes of data go out as a
    fragment of 24 bytes without the flag and one of a single byte. *)
Definition log_if (w : world (list (Z * Z))) (nif p dest : Z) : option (world (list (Z * Z)) * Z) :=
  Some (set_ext w (w_ext w ++ [(lwip_htons (IPH_OFFSET (wmem w) (payload w p)), lwip_htons (IPH_LEN (wmem w) (payload w p)))]), ERR_OK).
Definition small_if : netif := mk_netif 0x0100a8c0 0x00ffffff 0xfe00a8c0 46 [2; 0; 0; 0; 0; 1] 6 0x3f.
Definition frag_world (n : Z) : world (list (Z * Z)) :=
  mk_world [] (mk_ps {[1000 := mk_pbuf 0 1100 (20 + n) (20 + n) PBUF_RAM 0 1]} (write_bytes (fun _ => 0) 1100 [0x45]) heap0 net_pools 0)
    (mk_netifs (fun _ => small_if) [4000] 4000) 7 NULL (mk_ipg 0 0 0 0 0 0) [] 0 [] ∅ 0xc000 (fun _ _ => 0).
Definition sent (n : Z) : option (list (Z * Z) * Z) :=
  match ip4_frag log_if (ipfrag_free_pbuf_custom 3 9) 20 (frag_world n) 1000 4000 0x0900a8c0 with
  | None => None
  | Some (w, r) => Some (w_ext w, r)
  end.

Lemma last_flag_early : sent 25 = Some ([(0, 44); (3, 21)], ERR_OK) /\ sent 30 = Some ([(0x2000, 44); (3, 26)], ERR_OK).
Proof. vm_compute. split; reflexivity. Qed.
