(* ===== verification/Ip4.v ===== *)
(** * [core/ipv4/ip4.c]: routing and output

    [ip4_route], [ip4_output_if] and its variants, [ip4_output].  The configuration:
    [IP_OPTIONS_SEND] and [LWIP_MULTICAST_TX_OPTIONS] on (from [LWIP_IGMP]), checksums
    generated by the hardware ([CHECKSUM_GEN_IP] 0), no loopback, no routing hooks, so
    that [ip4_route_src(dest, src)] is [ip4_route(dest)]. *)

From Stdlib Require Import ZArith Lia.
From stdpp Require Import base tactics numbers list option gmap.
From S2P Require Import Prelude.
From S2P Require Import Def.
From S2P Require Import Ip4Addr.
From S2P Require Import Alloc.
From S2P Require Import Mem.
From S2P Require Import Memp.
From S2P Require Import Pbuf.
From S2P Require Import PbufChain.
From S2P Require Import World.
From S2P Require Import Ip4Frag.

Definition IP_PROTO_ICMP : Z := 1.
Definition IP_PROTO_IGMP : Z := 2.
Definition IP_PROTO_TCP : Z := 6.
Definition IP_PROTO_UDP : Z := 17.

(** [netif_is_up], [netif_is_link_up] *)
Definition netif_is_up (n : netif) : bool := negb (Z.land (netif_flags n) NETIF_FLAG_UP =? 0).
Definition netif_is_link_up (n : netif) : bool := negb (Z.land (netif_flags n) NETIF_FLAG_LINK_UP =? 0).

Section Ip4.
Context {X : Type}.
Context (netif_output : world X -> Z -> Z -> Z -> option (world X * Z)).
Context (custom_free : pstate -> Z -> pstate) (fuel : nat).
Implicit Types w : world X.

(** ** Routing *)

(** An interface that can be used: up, with a link and with an address. *)
Definition netif_usable (n : netif) : bool :=
  netif_is_up n && netif_is_link_up n && negb (netif_ip_addr n =? IPADDR_ANY).

(** The loop over [netif_list]. *)
Fixpoint route_search (at_ : Z -> netif) (dest : Z) (l : list Z) : option Z :=
  match l with
  | [] => None
  | x :: l =>
      let n := at_ x in
      if netif_usable n &&
         (ip4_addr_netcmp dest (netif_ip_addr n) (netif_netmask n) ||
          ((Z.land (netif_flags n) NETIF_FLAG_BROADCAST =? 0) && (dest =? netif_gw n)))
      then Some x else route_search at_ dest l
  end.

(** [ip4_route(dest)]: the interface, or [NULL] with the error counted. *)
Definition ip4_route w (dest : Z) : world X * Z :=
  if ip4_addr_ismulticast dest && negb (ip4_default_multicast_netif w =? NULL)
  then (w, ip4_default_multicast_netif w)
  else
    let N := w_netifs w in
    match route_search (nif_at N) dest (netif_list N) with
    | Some x => (w, x)
    | None =>
        if (netif_default N =? NULL) || negb (netif_usable (nif_at N (netif_default N)))
        then (stats_inc S_ip F_rterr w, NULL)
        else (w, netif_default N)
    end.

(** ** Output *)

(** The end of [ip4_output_if_opt_src]: count, and fragment what is too large. *)
Definition ip4_transmit w (p dest nif : Z) : option (world X * Z) :=
  let w := stats_inc S_ip F_xmit w in
  let mtu := netif_mtu (netif_of w nif) in
  if negb (mtu =? 0) && (mtu <? pb_tot_len (pb (w_ps w) p))
  then ip4_frag netif_output custom_free fuel w p nif dest
  else netif_output w nif p dest.

(** The header fields in the order the code writes them; [ip_hlen] includes the
    options. *)
Definition ip4_write_header (m : memory) (iphdr ttl tos proto dest src ip_hlen tot_len id : Z) : memory :=
  let m := upd m (iphdr + 8) (u8 ttl) in
  let m := upd m (iphdr + 9) (u8 proto) in
  let m := st32 m (iphdr + 16) dest in
  let m := upd m iphdr (u8 (Z.lor (Z.shiftl 4 4) (ip_hlen / 4))) in
  let m := upd m (iphdr + 1) tos in
  let m := IPH_LEN_SET m iphdr (lwip_htons tot_len) in
  let m := IPH_OFFSET_SET m iphdr 0 in
  let m := st16 m (iphdr + 4) (lwip_htons id) in
  let m := st32 m (iphdr + 12) src in
  IPH_CHKSUM_SET m iphdr 0.

(** The part of [ip4_output_if_opt_src] behind the options: the header is put in front. *)
Definition ip4_put_header w (p : Z) (src : option Z) (dest ttl tos proto nif ip_hlen : Z) : option (world X * Z) :=
  let '(st, r) := pbuf_header (w_ps w) p IP_HLEN in
  let w := set_wps w st in
  if negb (r =? 0) then Some (stats_inc S_ip F_err w, ERR_BUF)
  else
    let m := ip4_write_header (wmem w) (payload w p) ttl tos proto dest (default IPADDR_ANY src) ip_hlen
               (pb_tot_len (pb (w_ps w) p)) (ip_id w) in
    ip4_transmit (set_ip_id (set_wmem w m) (u16 (ip_id w + 1))) p dest nif.

(** [ip4_output_if_opt_src]: [src] is [None] for [NULL], [dest] for [LWIP_IP_HDRINCL]. *)
Definition ip4_output_if_opt_src w (p : Z) (src dest : option Z) (ttl tos proto nif ip_options optlen : Z)
    : option (world X * Z) :=
  match dest with
  | None => ip4_transmit w p (IPH_DEST (wmem w) (payload w p)) nif
  | Some dest =>
      if negb (optlen =? 0) then
        let optlen_aligned := u16 (Z.land (optlen + 3) (Z.lnot 3)) in
        let '(st, r) := pbuf_header (w_ps w) p (s16 optlen_aligned) in
        let w := set_wps w st in
        if negb (r =? 0) then Some (stats_inc S_ip F_err w, ERR_BUF)
        else
          let m := memcpy (wmem w) (payload w p) ip_options optlen in
          let m := if optlen <? optlen_aligned
                   then write_bytes m (payload w p + optlen) (replicate (Z.to_nat (optlen_aligned - optlen)) 0)
                   else m in
          ip4_put_header (set_wmem w m) p src dest ttl tos proto nif (u16 (IP_HLEN + optlen_aligned))
      else ip4_put_header w p src dest ttl tos proto nif IP_HLEN
  end.

(** [ip4_output_if_opt]: an unset source is replaced by the interface's address. *)
Definition ip4_output_if_opt w (p : Z) (src dest : option Z) (ttl tos proto nif ip_options optlen : Z)
    : option (world X * Z) :=
  let src_used :=
    match dest with
    | Some _ => if match src with None => true | Some s => ip4_addr_isany s end
                then Some (netif_ip_addr (netif_of w nif)) else src
    | None => src
    end in
  ip4_output_if_opt_src w p src_used dest ttl tos proto nif ip_options optlen.

(** [ip4_output_if], [ip4_output_if_src], [ip4_output] *)
Definition ip4_output_if w (p : Z) (src dest : option Z) (ttl tos proto nif : Z) : option (world X * Z) :=
  ip4_output_if_opt w p src dest ttl tos proto nif NULL 0.
Definition ip4_output_if_src w (p : Z) (src dest : option Z) (ttl tos proto nif : Z) : option (world X * Z) :=
  ip4_output_if_opt_src w p src dest ttl tos proto nif NULL 0.
Definition ip4_output w (p : Z) (src : option Z) (dest ttl tos proto : Z) : option (world X * Z) :=
  let '(w, nif) := ip4_route w dest in
  if nif =? NULL then Some (stats_inc S_ip F_rterr w, ERR_RTE)
  else ip4_output_if w p src (Some dest) ttl tos proto nif.

End Ip4.

(** ** Frames *)

Section Frame.
Context {X : Type} (netif_output : world X -> Z -> Z -> Z -> option (world X * Z)).
Context (custom_free : pstate -> Z -> pstate) (fuel : nat).
Context (I : world X -> Prop) `{!ip_frame I} (Hout : output_keeps netif_output I).

Lemma ip4_route_state (w : world X) dest : (ip4_route w dest).1 = w \/ (ip4_route w dest).1 = stats_inc S_ip F_rterr w.
Proof.
  unfold ip4_route. destruct (_ && _); [by left|]. cbv zeta. destruct (route_search _ _ _); [by left|].
  destruct (_ || _); [by right|by left].
Qed.

Lemma ip4_route_keeps w dest : I w -> I (ip4_route w dest).1.
Proof. intros Hi. destruct (ip4_route_state w dest) as [-> | ->]; frame. Qed.

Lemma ip4_transmit_keeps w p dest nif w' r :
  ip4_transmit netif_output custom_free fuel w p dest nif = Some (w', r) -> I w -> I w'.
Proof.
  unfold ip4_transmit. cbv zeta. intros H Hi. destruct (_ && _).
  - eapply (ip4_frag_keeps _ _ _ I Hout); [exact H|]. frame.
  - eapply Hout; [exact H|]. frame.
Qed.

Lemma ip4_put_header_keeps w p src dest ttl tos proto nif hl w' r :
  ip4_put_header netif_output custom_free fuel w p src dest ttl tos proto nif hl = Some (w', r) -> I w -> I w'.
Proof.
  unfold ip4_put_header. intros H Hi. destruct (pbuf_header _ _ _) as [st e]. cbv zeta in H. destruct (negb (e =? 0)).
  - injection H as <- _. frame.
  - eapply ip4_transmit_keeps; [exact H|]. frame.
Qed.

Lemma ip4_output_if_opt_src_keeps w p src dest ttl tos proto nif opts optlen w' r :
  ip4_output_if_opt_src netif_output custom_free fuel w p src dest ttl tos proto nif opts optlen = Some (w', r) ->
  I w -> I w'.
Proof.
  unfold ip4_output_if_opt_src. intros H Hi. destruct dest as [dest|]; [|by eapply ip4_transmit_keeps].
  destruct (negb (optlen =? 0)); [|by eapply ip4_put_header_keeps].
  cbv zeta in H. destruct (pbuf_header (w_ps w) p _) as [st e]. destruct (negb (e =? 0)).
  - injection H as <- _. frame.
  - eapply ip4_put_header_keeps; [exact H|]. frame.
Qed.

Lemma ip4_output_if_keeps w p src dest ttl tos proto nif w' r :
  ip4_output_if netif_output custom_free fuel w p src dest ttl tos proto nif = Some (w', r) -> I w -> I w'.
Proof. apply ip4_output_if_opt_src_keeps. Qed.

End Frame.

(** ** Routing *)

(** An interface that reaches an address directly, or is a point-to-point link to it. *)
Definition reaches (n : netif) (dest : Z) : Prop :=
  netif_is_up n = true /\ netif_is_link_up n = true /\ netif_ip_addr n <> IPADDR_ANY /\
  (Z.land dest (netif_netmask n) = Z.land (netif_ip_addr n) (netif_netmask n) \/
   (Z.land (netif_flags n) NETIF_FLAG_BROADCAST = 0 /\ dest = netif_gw n)).

Lemma netif_usable_spec n :
  netif_usable n = true <-> netif_is_up n = true /\ netif_is_link_up n = true /\ netif_ip_addr n <> IPADDR_ANY.
Proof. unfold netif_usable. rewrite !andb_true_iff, negb_true_iff, Z.eqb_neq. tauto. Qed.

Lemma route_search_spec at_ dest l :
  match route_search at_ dest l with
  | Some x => exists l1 l2, l = l1 ++ x :: l2 /\ reaches (at_ x) dest /\ Forall (fun y => ~ reaches (at_ y) dest) l1
  | None => Forall (fun y => ~ reaches (at_ y) dest) l
  end.
Proof.
  induction l as [|x l IH]; simpl; [constructor|].
  assert (Hx : netif_usable (at_ x) &&
         (ip4_addr_netcmp dest (netif_ip_addr (at_ x)) (netif_netmask (at_ x)) ||
          ((Z.land (netif_flags (at_ x)) NETIF_FLAG_BROADCAST =? 0) && (dest =? netif_gw (at_ x)))) = true
         <-> reaches (at_ x) dest).
  { unfold reaches. rewrite andb_true_iff, netif_usable_spec, orb_true_iff, andb_true_iff, !Z.eqb_eq.
    unfold ip4_addr_netcmp. rewrite Z.eqb_eq. tauto. }
  destruct (_ && _).
  - exists [], l. split; [done|]. split; [by apply Hx|constructor].
  - assert (Hn : ~ reaches (at_ x) dest) by (intros H; apply Hx in H; done).
    destruct (route_search at_ dest l) as [y|]; [|by constructor].
    destruct IH as (l1 & l2 & -> & Hy & Hf). exists (x :: l1), l2. split; [done|]. split; [done|by constructor].
Qed.

(** The interface [ip4_route] chooses: for an address that the multicast setting does
    not cover, the first interface of the list that is up, has a link and an address and
    whose network holds the destination (or that is a point-to-point link to it); if
    there is none the default interface, if it is up with a link and an address; and
    otherwise [NULL], with the error counted. *)
Theorem route_choice {X} (w : world X) dest :
  ip4_addr_ismulticast dest = false \/ ip4_default_multicast_netif w = NULL ->
  let N := w_netifs w in
  let d := netif_default N in
  (exists l1 x l2, netif_list N = l1 ++ x :: l2 /\ reaches (nif_at N x) dest /\
     Forall (fun y => ~ reaches (nif_at N y) dest) l1 /\ ip4_route w dest = (w, x)) \/
  (Forall (fun y => ~ reaches (nif_at N y) dest) (netif_list N) /\
   let ok := d <> NULL /\ netif_is_up (nif_at N d) = true /\ netif_is_link_up (nif_at N d) = true /\
             netif_ip_addr (nif_at N d) <> IPADDR_ANY in
   (ok /\ ip4_route w dest = (w, d)) \/ (~ ok /\ ip4_route w dest = (stats_inc S_ip F_rterr w, NULL))).
Proof.
  intros Hm N d. unfold ip4_route.
  assert (Hm' : ip4_addr_ismulticast dest && negb (ip4_default_multicast_netif w =? NULL) = false).
  { destruct Hm as [-> | ->]; [done|by rewrite Z.eqb_refl, andb_false_r]. }
  rewrite Hm'. cbv zeta. fold N. pose proof (route_search_spec (nif_at N) dest (netif_list N)) as Hs.
  destruct (route_search _ _ _) as [x|]; [left|right].
  - destruct Hs as (l1 & l2 & E & Hx & Hf). eauto 10.
  - split; [done|]. fold d. pose proof (netif_usable_spec (nif_at N d)) as Hu.
    destruct (Z.eqb_spec d NULL) as [->|Hd]; simpl; [right; tauto|].
    destruct (netif_usable (nif_at N d)); [left|right]; simpl; (split; [|done]); [tauto|].
    intros (_ & H). apply Hu in H. done.
Qed.

(** ** The header *)

(** The header of a packet without options that is not a fragment; the checksum is
    filled in by the hardware. *)
Definition ip_header (tos len id ttl proto src dest : Z) : list Z :=
  [0x45; tos] ++ be16 len ++ be16 id ++ [0; 0; ttl; proto; 0; 0] ++ u32_bytes src ++ u32_bytes dest.

Lemma write_header_bytes m a ttl tos proto dest src len id :
  0 <= ttl < 256 -> 0 <= proto < 256 -> 0 <= len < 65536 -> 0 <= id < 65536 ->
  bytes_at (ip4_write_header m a ttl tos proto dest src IP_HLEN len id) a 20
    = ip_header tos len id ttl proto src dest.
Proof.
  intros. unfold ip4_write_header, IPH_LEN_SET, IPH_OFFSET_SET, IPH_CHKSUM_SET, ip_header, be16.
  cbv zeta. at_mem. rewrite !htons_mod, !htons_div, !(u8_small ttl), !(u8_small proto) by done. reflexivity.
Qed.

(** Reading back the fields of a header. *)
Lemma ip_header_fields m a tos len id ttl proto src dest :
  bytes_at m a 20 = ip_header tos len id ttl proto src dest ->
  0 <= len < 65536 -> 0 <= src < 4294967296 -> 0 <= dest < 4294967296 ->
  IPH_V m a = 4 /\ IPH_HL m a = 5 /\ lwip_htons (IPH_LEN m a) = len /\ IPH_OFFSET m a = 0 /\ IPH_PROTO m a = proto /\
  IPH_SRC m a = src /\ IPH_DEST m a = dest.
Proof.
  intros E Hl Hs Hd. set (bs := ip_header tos len id ttl proto src dest) in E. change 20%nat with (length bs) in E.
  assert (H0 : m a = 0x45) by (rewrite <- (Z.add_0_r a); exact (bytes_at_nth m a bs 0 E ltac:(simpl; lia))).
  unfold IPH_V, IPH_HL, IPH_LEN, IPH_OFFSET, IPH_PROTO, IPH_SRC, IPH_DEST. rewrite !H0.
  split; [done|]. split; [done|].
  pose proof (ld16_bytes m a bs 2 E ltac:(simpl; lia)) as E2. pose proof (ld16_bytes m a bs 6 E ltac:(simpl; lia)) as E6.
  pose proof (ld32_bytes m a bs 12 E ltac:(simpl; lia)) as E12. pose proof (ld32_bytes m a bs 16 E ltac:(simpl; lia)) as E16.
  pose proof (bytes_at_nth m a bs 9 E ltac:(simpl; lia)) as E9.
  change (a + Z.of_nat 2) with (a + 2) in E2. change (a + Z.of_nat 6) with (a + 6) in E6. change (a + Z.of_nat 9) with (a + 9) in E9.
  change (a + Z.of_nat 12) with (a + 12) in E12. change (a + Z.of_nat 16) with (a + 16) in E16.
  rewrite E2, E6, E9, E12, E16. unfold bs, ip_header, be16, u32_bytes. cbn [nth app Nat.add].
  rewrite htons_be16, !u32_bytes_val by done. done.
Qed.

Lemma write_header_only m a ttl tos proto dest src hlen len id :
  only_in [(a, 20)] m (ip4_write_header m a ttl tos proto dest src hlen len id).
Proof.
  intros y Hy. inversion Hy as [|? ? Hr _]; subst. simpl in Hr.
  unfold ip4_write_header, IPH_LEN_SET, IPH_OFFSET_SET, IPH_CHKSUM_SET. cbv zeta.
  repeat first [rewrite st16_out by lia | rewrite st32_out by lia | rewrite upd_ne by lia]. done.
Qed.

(** ** Output *)

(** The source address of a packet: the interface's unless one is given. *)
Definition source_or (src : option Z) (n : netif) : Z :=
  match src with
  | Some s => if decide (s = IPADDR_ANY) then netif_ip_addr n else s
  | None => netif_ip_addr n
  end.

Lemma output_if_put {X} out custom_free fuel (w : world X) p src dest ttl tos proto nif :
  ip4_output_if out custom_free fuel w p src (Some dest) ttl tos proto nif =
  ip4_put_header out custom_free fuel w p (Some (source_or src (netif_of w nif))) dest ttl tos proto nif IP_HLEN.
Proof.
  unfold ip4_output_if, ip4_output_if_opt, ip4_output_if_opt_src, source_or. simpl.
  destruct src as [s|]; [|done]. unfold ip4_addr_isany. destruct (Z.eqb_spec s IPADDR_ANY) as [E|E].
  - by rewrite decide_True.
  - by rewrite decide_False.
Qed.

(** The state in which a packet with a new header is passed on. *)
Lemma put_header_correct {X} out custom_free fuel (w : world X) p l src dest ttl tos proto nif :
  room (w_ps w) p l 20 -> 0 <= ttl < 256 -> 0 <= proto < 256 -> 0 <= ip_id w < 65536 ->
  let len := plen (w_ps w) (p :: l) + 20 in
  exists w', ip4_put_header out custom_free fuel w p (Some src) dest ttl tos proto nif IP_HLEN =
      ip4_transmit out custom_free fuel w' p dest nif /\
    pchain (w_ps w') p (p :: l) /\ sizes (w_ps w') (p :: l) /\
    content (w_ps w') (p :: l) = ip_header tos len (ip_id w) ttl proto src dest ++ content (w_ps w) (p :: l) /\
    pb_tot_len (pb (w_ps w') p) = len /\ ip_id w' = u16 (ip_id w + 1) /\
    w_netifs w' = w_netifs w /\ w_ext w' = w_ext w.
Proof.
  intros Hr Httl Hproto Hid len. destruct (prepend_correct _ _ _ _ Hr ltac:(lia)) as (st' & Hh & Hd & Hpay & Htot & Hm).
  unfold ip4_put_header. change IP_HLEN with 20 at 1. rewrite Hh. cbv zeta. cbn [Z.eqb negb].
  eexists. split; [reflexivity|]. set (w1 := set_wps w st'). change (ip_id w1) with (ip_id w).
  change (pb (w_ps w1) p) with (pb st' p). change (payload w1 p) with (pb_payload (pb st' p)).
  change (wmem w1) with (data st'). rewrite Htot, Hpay, Hd. fold len.
  assert (Hlen : 0 <= len < 65536).
  { pose proof (rm_tot _ _ _ _ Hr). pose proof (sizes_nonneg _ _ (rm_sizes _ _ _ _ Hr)) as [? _]. lia. }
  set (m := ip4_write_header _ _ _ _ _ _ _ _ _ _).
  assert (Hon : only_in [(pb_payload (pb (w_ps w) p) - 20, 20)] (data (w_ps w)) m) by apply write_header_only.
  destruct (Hm m Hon) as (H1 & H2 & H3). split; [exact H1|]. split; [exact H2|].
  split; [|split; [exact Htot|done]].
  etransitivity; [exact H3|]. f_equal. unfold m. change (Z.to_nat 20) with 20%nat. by apply write_header_bytes.
Qed.

(** A packet that fits the interface goes out in one piece. *)
Lemma transmit_fits {X} out custom_free fuel (w : world X) p dest nif :
  netif_mtu (netif_of w nif) = 0 \/ pb_tot_len (pb (w_ps w) p) <= netif_mtu (netif_of w nif) ->
  ip4_transmit out custom_free fuel w p dest nif = out (stats_inc S_ip F_xmit w) nif p dest.
Proof.
  intros Hm. unfold ip4_transmit. cbv zeta. change (netif_of (stats_inc S_ip F_xmit w) nif) with (netif_of w nif).
  change (w_ps (stats_inc S_ip F_xmit w)) with (w_ps w). destruct Hm as [-> | Hle]; [done|].
  by rewrite (proj2 (Z.ltb_ge _ _) Hle), andb_false_r.
Qed.

(** [ip4_output_if] on a packet that fits the interface: the chain handed to the
    interface holds the 20 bytes of a correct IPv4 header (version and length, type of
    service, total length and identification in network byte order, no fragmentation, the
    protocol, the addresses; an unset source is the interface's address) followed by the
    unchanged data, and the identification advances for the next packet. *)
Theorem output_sends {X} out custom_free fuel (w : world X) p l src dest ttl tos proto nif :
  room (w_ps w) p l 20 -> 0 <= ttl < 256 -> 0 <= proto < 256 -> 0 <= ip_id w < 65536 ->
  let len := plen (w_ps w) (p :: l) + 20 in
  let mtu := netif_mtu (netif_of w nif) in
  mtu = 0 \/ len <= mtu ->
  exists w', ip4_output_if out custom_free fuel w p src (Some dest) ttl tos proto nif = out w' nif p dest /\
    pchain (w_ps w') p (p :: l) /\ sizes (w_ps w') (p :: l) /\
    content (w_ps w') (p :: l) =
      ip_header tos len (ip_id w) ttl proto (source_or src (netif_of w nif)) dest ++ content (w_ps w) (p :: l) /\
    ip_id w' = u16 (ip_id w + 1).
Proof.
  intros Hr Httl Hproto Hid len mtu Hmtu. rewrite output_if_put.
  destruct (put_header_correct out custom_free fuel w p l (source_or src (netif_of w nif)) dest ttl tos proto nif)
    as (w' & -> & H1 & H2 & H3 & H4 & H5 & H6 & _); auto.
  exists (stats_inc S_ip F_xmit w'). split; [|done]. apply transmit_fits. unfold netif_of. rewrite H6, H4. exact Hmtu.
Qed.

(** The errors of [ip4_output]: without a route the result is [ERR_RTE], with a pbuf
    that has no room for the header it is [ERR_BUF]; in both cases nothing is passed to an
    interface, no pbuf and no byte of memory changes and the identification is not used
    up. *)
Theorem output_errors {X} out custom_free fuel (w : world X) p src dest ttl tos proto :
  p <> NULL ->
  let '(w1, nif) := ip4_route w dest in
  (nif = NULL -> ip4_output out custom_free fuel w p src dest ttl tos proto = Some (stats_inc S_ip F_rterr w1, ERR_RTE)) /\
  (nif <> NULL -> header_fits (w_ps w) p 20 false = false ->
   exists w', ip4_output out custom_free fuel w p src dest ttl tos proto = Some (w', ERR_BUF) /\
     (forall x, pb (w_ps w') x = pb (w_ps w) x) /\ wmem w' = wmem w /\ ip_id w' = ip_id w /\ w_ext w' = w_ext w).
Proof.
  intros Hp. unfold ip4_output. destruct (ip4_route_state w dest) as [E|E]; destruct (ip4_route w dest) as [w1 nif];
    simpl in E; subst w1.
  all: split; [intros ->; by rewrite Z.eqb_refl|]; intros Hn Hf; rewrite (proj2 (Z.eqb_neq _ _) Hn), output_if_put.
  all: unfold ip4_put_header; change IP_HLEN with 20 at 1; cbn [w_ps stats_inc].
  all: pose proof (header_correct (w_ps w) p 20 false Hp ltac:(lia) ltac:(lia)) as H; unfold pbuf_header.
  all: destruct (pbuf_header_impl (w_ps w) p 20 false) as [st' r]; rewrite Hf in H; destruct H as (Hd & _ & _ & Hk & -> & Hpp).
  all: cbn [Z.eqb negb]; eexists; split; [reflexivity|]; (split; [|done]).
  all: intros x; cbn; destruct (Z.eq_dec x p) as [->|]; auto.
Qed.

Lemma route_witness : (ip4_route world0 0x0900a8c0).2 = 4000 /\ (ip4_route world0 0x08080808).2 = 4000.
Proof.
  split.
  - destruct (route_choice world0 0x0900a8c0) as [(l1 & x & l2 & E & _ & _ & ->) | (Hf & _)]; [left; reflexivity| |].
    + destruct l1 as [|y [|z l1]]; simplify_eq/=. reflexivity.
    + exfalso. inversion Hf as [|? ? Hn _]; subst. apply Hn. vm_compute. repeat split; try congruence. by left.
  - destruct (route_choice world0 0x08080808) as [(l1 & x & l2 & E & _ & _ & ->) | (_ & [[_ ->] | [Hn _]])];
      [left; reflexivity| |reflexivity|].
    + destruct l1 as [|y [|z l1]]; simplify_eq/=. reflexivity.
    + exfalso. apply Hn. vm_compute. repeat split; congruence.
Defined.

Lemma output_sends_witness :
  exists w', ip4_output_if sink (fun s _ => s) 9 world0 1000 None (Some 0x0900a8c0) 255 0 17 4000 = Some (w', ERR_OK) /\
    content (w_ps w') [1000; 2000] =
      [0x45; 0; 0; 27; 0; 7; 0; 0; 255; 17; 0; 0; 192; 168; 0; 1; 192; 168; 0; 9; 65; 66; 67; 68; 69; 70; 71].
Proof.
  destruct (output_sends sink (fun s _ => s) 9 world0 1000 [2000] None 0x0900a8c0 255 0 17 4000 (net_room 20 ltac:(lia)))
    as (w' & H1 & _ & _ & H2 & _); [lia|lia|simpl; lia|right; vm_compute; congruence|].
  exists w'. split; [exact H1|]. etransitivity; [exact H2|]. vm_compute. reflexivity.
Defined.

(** The same packet with ten bytes in front of its data. *)
Definition tight_st : pstate := set_pb net_st 1000 (mk_pbuf 2000 1030 7 3 PBUF_RAM 0 1).

Lemma output_errors_witness :
  exists w', ip4_output sink (fun s _ => s) 9 (set_wps world0 tight_st) 1000 None 0x0900a8c0 255 0 17 = Some (w', ERR_BUF) /\
    ip_id w' = 7.
Proof.
  pose proof (output_errors sink (fun s _ => s) 9 (set_wps world0 tight_st) 1000 None 0x0900a8c0 255 0 17) as H.
  destruct (ip4_route (set_wps world0 tight_st) 0x0900a8c0) as [w1 nif] eqn:E.
  assert (Hn : nif = 4000) by (apply (f_equal snd) in E; vm_compute in E; congruence).
  destruct (H ltac:(unfold NULL; lia)) as [_ H2]. destruct H2 as (w' & H2 & _ & _ & H3 & _);
    [subst nif; unfold NULL; lia|vm_compute; reflexivity|]. exists w'. split; [exact H2|exact H3].
Defined.
