(* ===== verification/Icmp.v ===== *)
(** * [core/ipv4/icmp.c]: ICMP

    Echo replies and the error messages that IP and UDP send.  Checksums are left to
    the hardware ([CHECKSUM_CHECK_ICMP] and [CHECKSUM_GEN_ICMP] 0), pings to broadcast
    and multicast addresses are not answered, and the input pbuf is checked for room
    for the link header ([LWIP_ICMP_ECHO_CHECK_INPUT_PBUF_LEN] 1). *)

From Stdlib Require Import ZArith Lia.
From stdpp Require Import base tactics numbers list option gmap.
From S2P Require Import Prelude.
From S2P Require Import Def.
From S2P Require Import Ip4Addr.
From S2P Require Import Alloc.
From S2P Require Import Mem.
From S2P Require Import Memp.
From S2P Require Import Pbuf.
From S2P Require Import PbufChain.
From S2P Require Import World.
From S2P Require Import Ip4Frag.
From S2P Require Import Ip4.

Definition ICMP_ER : Z := 0.
Definition ICMP_DUR : Z := 3.
Definition ICMP_ECHO : Z := 8.
Definition ICMP_TE : Z := 11.
Definition ICMP_DUR_PROTO : Z := 2.
Definition ICMP_DUR_PORT : Z := 3.
Definition ICMP_TE_FRAG : Z := 1.
Definition ICMP_TTL : Z := 255.
Definition SIZEOF_ICMP_ECHO_HDR : Z := 8.
Definition ICMP_DEST_UNREACH_DATASIZE : Z := 8.

Section Icmp.
Context {X : Type}.
Context (netif_output : world X -> Z -> Z -> Z -> option (world X * Z)).
Context (custom_free : pstate -> Z -> pstate) (fuel : nat).
Implicit Types w : world X.

(** [pbuf_free(p)] with the result dropped. *)
Definition wfree w (p : Z) : option (world X) :=
  match pbuf_free custom_free fuel (w_ps w) p with None => None | Some (st, _) => Some (set_wps w st) end.

(** [icmp_send_response(p, type, code)]: the ICMP header, then the IP header and the
    first eight bytes of the packet that caused it. *)
Definition icmp_send_response w (p type code : Z) : option (world X) :=
  match pbuf_alloc custom_free fuel (w_ps w) PBUF_IP
          (SIZEOF_ICMP_ECHO_HDR + IP_HLEN + ICMP_DEST_UNREACH_DATASIZE) PBUF_RAM with
  | None => None
  | Some (st, q) =>
      let w := set_wps w st in
      if q =? NULL then Some w
      else
        let iphdr := payload w p in
        let icmphdr := payload w q in
        let m := upd (wmem w) icmphdr type in
        let m := upd m (icmphdr + 1) code in
        let m := st16 m (icmphdr + 4) 0 in
        let m := st16 m (icmphdr + 6) 0 in
        let m := memcpy m (icmphdr + SIZEOF_ICMP_ECHO_HDR) iphdr (IP_HLEN + ICMP_DEST_UNREACH_DATASIZE) in
        let w := set_wmem w m in
        let iphdr_src := IPH_SRC m iphdr in
        let '(w, nif) := ip4_route w iphdr_src in
        if negb (nif =? NULL) then
          let w := set_wmem w (st16 (wmem w) (icmphdr + 2) 0) in
          let w := stats_inc S_icmp F_xmit w in
          match ip4_output_if netif_output custom_free fuel w q None (Some iphdr_src) ICMP_TTL 0 IP_PROTO_ICMP nif with
          | None => None
          | Some (w, _) => wfree w q
          end
        else wfree w q
  end.

Definition icmp_dest_unreach w (p t : Z) : option (world X) := icmp_send_response w p ICMP_DUR t.
Definition icmp_time_exceeded w (p t : Z) : option (world X) := icmp_send_response w p ICMP_TE t.

(** The exits of [icmp_input]. *)
Definition icmp_lenerr w (p : Z) : option (world X) :=
  match wfree w p with None => None | Some w => Some (stats_inc S_icmp F_lenerr w) end.
Definition icmp_icmperr w (p : Z) : option (world X) :=
  match wfree w p with None => None | Some w => Some (stats_inc S_icmp F_err w) end.

(** The part of the echo case that makes room for the link headers: [inl] is the
    packet to answer with, [inr] the end of [icmp_input]. *)
Definition icmp_make_room w (p iphdr_in hlen : Z) : option ((world X * Z) + world X) :=
  let icmperr w p := match icmp_icmperr w p with None => None | Some w => Some (inr w) end in
  let '(st, r) := pbuf_header (w_ps w) p (s16 (hlen + PBUF_LINK_HLEN + PBUF_LINK_ENCAPSULATION_HLEN)) in
  let w := set_wps w st in
  if negb (r =? 0) then
    match pbuf_alloc custom_free fuel (w_ps w) PBUF_LINK (u16 (pb_tot_len (pb (w_ps w) p) + hlen)) PBUF_RAM with
    | None => None
    | Some (st, r) =>
        let w := set_wps w st in
        if r =? NULL then icmperr w p
        else
          let bail w := match wfree w r with None => None | Some w => icmperr w p end in
          if pb_len (pb (w_ps w) r) <? hlen + SIZEOF_ICMP_ECHO_HDR then bail w
          else
            let w := set_wmem w (memcpy (wmem w) (payload w r) iphdr_in hlen) in
            let '(st, e) := pbuf_header (w_ps w) r (s16 (- hlen)) in
            let w := set_wps w st in
            if negb (e =? 0) then bail w
            else
              match pbuf_copy fuel (w_ps w) r p with
              | None => None
              | Some (st, e) =>
                  let w := set_wps w st in
                  if negb (e =? ERR_OK) then bail w
                  else match wfree w p with None => None | Some w => Some (inl (w, r)) end
              end
    end
  else
    let '(st, e) := pbuf_header (w_ps w) p (s16 (- (hlen + PBUF_LINK_HLEN + PBUF_LINK_ENCAPSULATION_HLEN))) in
    let w := set_wps w st in
    if negb (e =? 0) then icmperr w p else Some (inl (w, p)).

(** The answer: the echo request with the addresses exchanged. *)
Definition icmp_answer w (p src hlen inp : Z) : option (world X) :=
  let iecho := payload w p in
  let '(st, e) := pbuf_header (w_ps w) p (s16 hlen) in
  let w := set_wps w st in
  if negb (e =? 0) then wfree w p
  else
    let iphdr := payload w p in
    let m := st32 (wmem w) (iphdr + 12) src in
    let m := st32 m (iphdr + 16) (current_iphdr_src (ip_data w)) in
    let m := upd m iecho ICMP_ER in
    let m := st16 m (iecho + 2) 0 in
    let m := upd m (iphdr + 8) ICMP_TTL in
    let m := IPH_CHKSUM_SET m iphdr 0 in
    let w := stats_inc S_icmp F_xmit (set_wmem w m) in
    match ip4_output_if netif_output custom_free fuel w p (Some src) None ICMP_TTL 0 IP_PROTO_ICMP inp with
    | None => None
    | Some (w, _) => wfree w p
    end.

(** [icmp_input(p, inp)] *)
Definition icmp_input w (p inp : Z) : option (world X) :=
  let w := stats_inc S_icmp F_recv w in
  let iphdr_in := current_ip4_header (ip_data w) in
  let hlen := u16 (IPH_HL (wmem w) iphdr_in * 4) in
  if hlen <? IP_HLEN then icmp_lenerr w p
  else if pb_len (pb (w_ps w) p) <? 4 then icmp_lenerr w p
  else
    let type := wmem w (payload w p) in
    if type =? ICMP_ER then wfree w p
    else if type =? ICMP_ECHO then
      let src := current_iphdr_dest (ip_data w) in
      if ip4_addr_ismulticast src then icmp_icmperr w p
      else if negb (ip4_addr_isbroadcast_u32 src (netif_of w (current_netif (ip_data w))) =? 0) then icmp_icmperr w p
      else if pb_tot_len (pb (w_ps w) p) <? SIZEOF_ICMP_ECHO_HDR then icmp_lenerr w p
      else
        match icmp_make_room w p iphdr_in hlen with
        | None => None
        | Some (inr w) => Some w
        | Some (inl (w, p)) => icmp_answer w p src hlen inp
        end
    else wfree (stats_inc S_icmp F_drop (stats_inc S_icmp F_proterr w)) p.

End Icmp.

(** ** Frames *)

Section Frame.
Context {X : Type} (netif_output : world X -> Z -> Z -> Z -> option (world X * Z)).
Context (custom_free : pstate -> Z -> pstate) (fuel : nat).
Context (I : world X -> Prop) `{!ip_frame I} (Hout : output_keeps netif_output I).

Lemma wfree_keeps w p w' : wfree custom_free fuel w p = Some w' -> I w -> I w'.
Proof. unfold wfree. destruct (pbuf_free _ _ _ _) as [[st n]|]; [|done]. intros [= <-] Hi. frame. Qed.

Lemma icmp_send_response_keeps w p type code w' :
  icmp_send_response netif_output custom_free fuel w p type code = Some w' -> I w -> I w'.
Proof.
  unfold icmp_send_response. intros H Hi. destruct (pbuf_alloc _ _ _ _ _ _) as [[st q]|]; [|done].
  cbv zeta in H. destruct (q =? NULL); [injection H as <-; frame|].
  match type of H with context [ip4_route ?w0 ?d] =>
    assert (Hr : I (ip4_route w0 d).1) by (apply (ip4_route_keeps I); frame); destruct (ip4_route w0 d) as [w1 nif] end.
  simpl in Hr. destruct (negb (nif =? NULL)); [|by eapply wfree_keeps].
  destruct (ip4_output_if _ _ _ _ _ _ _ _ _ _ _) as [[w2 r2]|] eqn:E; [|done].
  eapply wfree_keeps; [exact H|]. eapply (ip4_output_if_keeps _ _ _ I Hout); [exact E|]. frame.
Qed.

Lemma icmp_make_room_keeps w p hdr hlen x :
  icmp_make_room custom_free fuel w p hdr hlen = Some x -> I w -> I (match x with inl (w', _) => w' | inr w' => w' end).
Proof.
  unfold icmp_make_room, icmp_icmperr. intros H Hi. destruct (pbuf_header (w_ps w) p _) as [st r]. cbv zeta in H.
  assert (Hfree : forall w0 q, I w0 -> match match wfree custom_free fuel w0 q with
      None => None | Some w => Some (stats_inc S_icmp F_err w) end with None => None | Some w => Some (inr w) end = Some x ->
    I (match x with inl (w', _) => w' | inr w' => w' end)).
  { intros w0 q Hi0. destruct (wfree _ _ _ _) as [w2|] eqn:E; [|done]. intros [= <-]. frame. by eapply wfree_keeps. }
  destruct (negb (r =? 0)).
  - destruct (pbuf_alloc _ _ _ _ _ _) as [[st2 q]|]; [|done].
    destruct (q =? NULL); [eapply Hfree; [|exact H]; frame|].
    assert (Hgu : forall w0, I w0 -> match wfree custom_free fuel w0 q with None => None | Some w =>
       match match wfree custom_free fuel w p with None => None | Some w => Some (stats_inc S_icmp F_err w) end with
       None => None | Some w => Some (inr w) end end = Some x -> I (match x with inl (w', _) => w' | inr w' => w' end)).
    { intros w0 Hi0. destruct (wfree custom_free fuel w0 q) as [w2|] eqn:E; [|done]. apply Hfree. by eapply wfree_keeps. }
    destruct (_ <? _); [eapply Hgu; [|exact H]; frame|].
    destruct (pbuf_header _ q _) as [st3 e3]. destruct (negb (e3 =? 0)); [eapply Hgu; [|exact H]; frame|].
    destruct (pbuf_copy _ _ _ _) as [[st4 e4]|]; [|done]. destruct (negb (e4 =? ERR_OK)); [eapply Hgu; [|exact H]; frame|].
    destruct (wfree custom_free fuel _ p) as [w5|] eqn:E; [|done]. injection H as <-. eapply wfree_keeps; [exact E|]. frame.
  - destruct (pbuf_header _ p _) as [st3 e3]. destruct (negb (e3 =? 0)); [eapply Hfree; [|exact H]; frame|].
    injection H as <-. frame.
Qed.

Lemma icmp_input_keeps w p inp w' : icmp_input netif_output custom_free fuel w p inp = Some w' -> I w -> I w'.
Proof.
  unfold icmp_input, icmp_lenerr, icmp_icmperr. intros H Hi. cbv zeta in H.
  assert (Hfree : forall w0 p f, I w0 -> match wfree custom_free fuel w0 p with
      None => None | Some w => Some (stats_inc S_icmp f w) end = Some w' -> I w').
  { intros w0 q f Hi0. clear H. destruct (wfree custom_free fuel w0 q) as [w2|] eqn:E; [|done]. intros [= <-]. frame. by eapply wfree_keeps. }
  destruct (_ <? IP_HLEN); [eapply Hfree; [|exact H]; frame|].
  destruct (_ <? 4); [eapply Hfree; [|exact H]; frame|].
  destruct (_ =? ICMP_ER); [eapply wfree_keeps; [exact H|]; frame|].
  destruct (_ =? ICMP_ECHO); [|eapply wfree_keeps; [exact H|]; frame].
  destruct (ip4_addr_ismulticast _); [eapply Hfree; [|exact H]; frame|].
  destruct (negb _); [eapply Hfree; [|exact H]; frame|].
  destruct (_ <? SIZEOF_ICMP_ECHO_HDR); [eapply Hfree; [|exact H]; frame|].
  destruct (icmp_make_room _ _ _ _ _ _) as [x|] eqn:E; [|done].
  apply icmp_make_room_keeps in E; [|frame]. destruct x as [[w1 q]|w1]; [|by injection H as <-]. simpl in E.
  unfold icmp_answer in H. cbv zeta in H. destruct (pbuf_header (w_ps w1) q _) as [st e].
  destruct (negb (e =? 0)); [eapply wfree_keeps; [exact H|]; frame|].
  destruct (ip4_output_if _ _ _ _ _ _ _ _ _ _ _) as [[w2 r2]|] eqn:E2; [|done].
  eapply wfree_keeps; [exact H|]. eapply (ip4_output_if_keeps _ _ _ I Hout); [exact E2|]. frame.
Qed.

End Frame.

(** ** Echo replies *)

Section Echo.
Context {X : Type} (out : world X -> Z -> Z -> Z -> option (world X * Z)).
Context (custom_free : pstate -> Z -> pstate) (fuel : nat).
Implicit Types w : world X.

(** The writes of [icmp_answer]: the IP header at [a] and the ICMP header behind it. *)
Definition answer_mem (m : memory) (a src dest : Z) : memory :=
  let m := st32 m (a + 12) src in
  let m := st32 m (a + 16) dest in
  let m := upd m (a + 20) ICMP_ER in
  let m := st16 m (a + 20 + 2) 0 in
  let m := upd m (a + 8) ICMP_TTL in
  IPH_CHKSUM_SET m a 0.

Lemma answer_mem_only m a src dest : only_in [(a, 24)] m (answer_mem m a src dest).
Proof.
  intros y Hy. inversion Hy as [|? ? Hr _]; subst. simpl in Hr. unfold answer_mem, IPH_CHKSUM_SET. cbv zeta.
  repeat first [rewrite st16_out by lia | rewrite st32_out by lia | rewrite upd_ne by lia]. done.
Qed.

Lemma answer_mem_bytes m a src dest h0 h1 h2 h3 h4 h5 h6 h7 h9 code :
  bytes_at m a 10 = [h0; h1; h2; h3; h4; h5; h6; h7; m (a + 8); h9] -> m (a + 21) = code ->
  bytes_at (answer_mem m a src dest) a 24 =
    [h0; h1; h2; h3; h4; h5; h6; h7; ICMP_TTL; h9; 0; 0] ++ u32_bytes src ++ u32_bytes dest ++ [ICMP_ER; code; 0; 0].
Proof.
  intros E Hc. cbn [bytes_at] in E. injection E as E0 E1 E2 E3 E4 E5 E6 E7 E8 E9.
  unfold answer_mem, IPH_CHKSUM_SET. cbv zeta. at_mem. cbn [app].
  replace (a + 1 + 1 + 1 + 1 + 1 + 1 + 1 + 1 + 1 + 1 + 1 + 1 + 1 + 1 + 1 + 1 + 1 + 1 + 1 + 1 + 1) with (a + 21) by lia.
  rewrite E0, E1, E2, E3, E4, E5, E6, E7, E9, Hc. reflexivity.
Qed.

(** An echo request as [ip4_input] passes it on: the header is in front of the payload. *)
Record echo_request w (p : Z) (l : list Z) (h : list Z) (ttl proto c1 c2 src dest code k1 k2 : Z) (rest : list Z) : Prop := {
  er_room : room (w_ps w) p l 36;
  er_apart : Forall (separate (payload w p - 20, 20 + pb_len (pb (w_ps w) p))) (payloads (w_ps w) l);
  er_header : bytes_at (wmem w) (payload w p - 20) 20 = h ++ [ttl; proto; c1; c2] ++ u32_bytes src ++ u32_bytes dest;
  er_hlen : length h = 8%nat /\ Z.land (nth 0 h 0) 0x0f = 5;
  er_icmp : content (w_ps w) (p :: l) = [ICMP_ECHO; code; k1; k2] ++ rest;
  er_len : 4 <= pb_len (pb (w_ps w) p) /\ 8 <= plen (w_ps w) (p :: l);
  er_current : current_ip4_header (ip_data w) = payload w p - 20 /\
    current_iphdr_src (ip_data w) = src /\ current_iphdr_dest (ip_data w) = dest;
  er_unicast : ip4_addr_ismulticast dest = false /\
    ip4_addr_isbroadcast_u32 dest (netif_of w (current_netif (ip_data w))) = 0;
  er_addrs : 0 <= src < 4294967296 /\ 0 <= dest < 4294967296
}.

(** The reply of [icmp_answer], whose packet has the IP header in front of its payload. *)
Lemma answer_correct w p l h ttl proto c1 c2 src dest code k1 k2 rest inp :
  room (w_ps w) p l 20 -> Forall (separate (payload w p - 20, 24)) (payloads (w_ps w) l) ->
  bytes_at (wmem w) (payload w p - 20) 20 = h ++ [ttl; proto; c1; c2] ++ u32_bytes src ++ u32_bytes dest ->
  length h = 8%nat -> content (w_ps w) (p :: l) = [ICMP_ECHO; code; k1; k2] ++ rest -> 4 <= pb_len (pb (w_ps w) p) ->
  current_iphdr_src (ip_data w) = src -> 0 <= src < 4294967296 ->
  netif_mtu (netif_of w inp) = 0 \/ plen (w_ps w) (p :: l) + 20 <= netif_mtu (netif_of w inp) ->
  exists w', icmp_answer out custom_free fuel w p dest 20 inp =
      match out w' inp p src with None => None | Some (w2, _) => wfree custom_free fuel w2 p end /\
    pchain (w_ps w') p (p :: l) /\ sizes (w_ps w') (p :: l) /\
    content (w_ps w') (p :: l) =
      h ++ [ICMP_TTL; proto; 0; 0] ++ u32_bytes dest ++ u32_bytes src ++ [ICMP_ER; code; 0; 0] ++ rest.
Proof.
  intros Hr Hap Hh Hlh Hc Hlen Hsrc Hsr Hmtu. unfold icmp_answer.
  destruct (prepend_correct _ _ _ _ Hr ltac:(lia)) as (st & Hst & Hd & Hpay & Htot & Hcs). change (s16 20) with 20. rewrite Hst.
  destruct (prepend_pbufs _ _ _ _ _ Hr ltac:(lia) Hst) as [Hpl Hps].
  cbn [Z.eqb negb]. cbv zeta. set (a := payload w p - 20).
  change (payload (set_wps w st) p) with (pb_payload (pb st p)). change (wmem (set_wps w st)) with (data st).
  rewrite Hpay, Hd. change (pb_payload (pb (w_ps w) p) - 20) with a.
  change (current_iphdr_src (ip_data (set_wps w st))) with (current_iphdr_src (ip_data w)). rewrite Hsrc.
  replace (payload w p) with (a + 20) by (unfold a; lia). fold (answer_mem (wmem w) a dest src).
  destruct (Hcs (data (w_ps w)) (only_in_refl _ _)) as (C1 & C2 & C3).
  replace (set_data st (data (w_ps w))) with st in C1, C2, C3 by (rewrite <- Hd; by rewrite set_data_id).
  change (pb_payload (pb (w_ps w) p) - 20) with a in C3. change (Z.to_nat 20) with 20%nat in C3.
  change (data (w_ps w)) with (wmem w) in C3. fold a in Hh. rewrite Hh, Hc in C3.
  destruct h as [|h0 [|h1 [|h2 [|h3 [|h4 [|h5 [|h6 [|h7 [|]]]]]]]]]; try done.
  set (old := [h0; h1; h2; h3; h4; h5; h6; h7] ++ [ttl; proto; c1; c2] ++ u32_bytes src ++ u32_bytes dest) in Hh, C3.
  set (bs := [h0; h1; h2; h3; h4; h5; h6; h7; ICMP_TTL; proto; 0; 0] ++ u32_bytes dest ++ u32_bytes src ++ [ICMP_ER; code; 0; 0]).
  set (m := answer_mem (wmem w) a dest src).
  assert (Hcode : wmem w (a + 21) = code).
  { pose proof (content_front (w_ps w) p l [ICMP_ECHO; code; k1; k2] rest Hc ltac:(simpl; lia)) as E.
    pose proof (bytes_at_nth _ _ _ 1 E ltac:(simpl; lia)) as E1. simpl in E1. rewrite <- E1. unfold a, wmem, payload. f_equal. lia. }
  assert (Hbs : bytes_at m (pb_payload (pb st p)) (length bs) = bs).
  { rewrite Hpay. change (pb_payload (pb (w_ps w) p) - 20) with a. unfold m. change (length bs) with 24%nat.
    apply answer_mem_bytes; [|done].
    assert (E10 : bytes_at (wmem w) a 10 = take 10 (bytes_at (wmem w) a 20)) by by rewrite bytes_at_take by lia.
    assert (E8 : wmem w (a + 8) = ttl) by exact (bytes_at_nth (wmem w) a old 8 Hh ltac:(simpl; lia)).
    rewrite E10, Hh, E8. done. }
  assert (Hon : only_in [(a, 24)] (wmem w) m) by apply answer_mem_only.
  assert (Hll : Z.of_nat (length bs) <= pb_len (pb st p)).
  { change (Z.of_nat (length bs)) with 24. lia. }
  set (w1 := set_wmem (set_wps w st) m).
  assert (Hct : content (w_ps w1) (p :: l) = bs ++ rest).
  { apply (rewrite_front st p l m bs (old ++ [ICMP_ECHO; code; k1; k2]) rest); auto.
    - rewrite Hps, Hpay. exact Hap.
    - rewrite Hpay, Hd. exact Hon. }
  exists (stats_inc S_ip F_xmit (stats_inc S_icmp F_xmit w1)). split; [|split; [|split; [|exact Hct]]].
  - unfold ip4_output_if, ip4_output_if_opt, ip4_output_if_opt_src.
    change (IPH_DEST _ _) with (ld32 m (pb_payload (pb st p) + Z.of_nat 16)).
    rewrite (ld32_bytes m _ bs 16 Hbs) by (simpl; lia). unfold bs, u32_bytes. cbn [nth app Nat.add].
    rewrite u32_bytes_val by done. rewrite transmit_fits; [done|].
    change (netif_of _ inp) with (netif_of w inp). change (pb_tot_len _) with (pb_tot_len (pb st p)). by rewrite Htot.
  - apply (pchain_ext st); [|done]. done.
  - by apply (sizes_ext st).
Qed.

(** Room for the headers in front of the request: the packet itself is answered. *)
Lemma make_room_in_place w p l hdr :
  room (w_ps w) p l 36 -> exists st, icmp_make_room custom_free fuel w p hdr 20 = Some (inl (set_wps w st, p)) /\
    same_but_flags (w_ps w) st /\ forall x, pb st x = pb (w_ps w) x.
Proof.
  intros Hr. destruct (header_back _ _ _ _ Hr ltac:(lia)) as (st1 & st2 & H1 & H2 & Hd & Hp). exists st2.
  split; [|split; [split; [done|]|done]].
  - unfold icmp_make_room. change (s16 (20 + PBUF_LINK_HLEN + PBUF_LINK_ENCAPSULATION_HLEN)) with 36. rewrite H1.
    cbn [Z.eqb negb]. cbv zeta. change (s16 (- (20 + PBUF_LINK_HLEN + PBUF_LINK_ENCAPSULATION_HLEN))) with (-36).
    change (w_ps (set_wps w st1)) with st1. change (- (36)) with (-36) in H2. by rewrite H2.
  - intros x. exists (pb_flags (pb (w_ps w) x)). rewrite Hp. by destruct (pb (w_ps w) x).
Qed.

(** C28: An echo request to an address of the board is answered: what is handed to the
    interface is the request with source and destination exchanged, the time to live set
    to 255, type echo reply and both checksums zeroed for the hardware; the data is
    unchanged, the answer goes to the sender, and the packet is freed afterwards. *)
Theorem echo_reply w p l h ttl proto c1 c2 src dest code k1 k2 rest inp :
  echo_request w p l h ttl proto c1 c2 src dest code k1 k2 rest ->
  netif_mtu (netif_of w inp) = 0 \/ plen (w_ps w) (p :: l) + 20 <= netif_mtu (netif_of w inp) ->
  exists w', icmp_input out custom_free fuel w p inp =
      match out w' inp p src with None => None | Some (w2, _) => wfree custom_free fuel w2 p end /\
    pchain (w_ps w') p (p :: l) /\ sizes (w_ps w') (p :: l) /\
    content (w_ps w') (p :: l) =
      h ++ [ICMP_TTL; proto; 0; 0] ++ u32_bytes dest ++ u32_bytes src ++ [ICMP_ER; code; 0; 0] ++ rest.
Proof.
  intros [Hr Hap Hh [Hlh Hl5] Hc [H4 H8] (Hcur & Hsrc & Hdst) [Hm Hb] [Hsr Hde]] Hmtu.
  unfold icmp_input. cbv zeta. set (w0 := stats_inc S_icmp F_recv w).
  change (w_ps w0) with (w_ps w). change (wmem w0) with (wmem w). change (ip_data w0) with (ip_data w).
  change (payload w0 p) with (payload w p). change (netif_of w0) with (netif_of w). rewrite Hcur, Hdst.
  assert (E0 : wmem w (payload w p - 20) = nth 0 h 0).
  { cbn [bytes_at] in Hh. destruct h as [|h0 h]; [done|]. by injection Hh. }
  unfold IPH_HL. rewrite E0, Hl5. change (u16 (5 * 4)) with 20. change (20 <? IP_HLEN) with false.
  rewrite (proj2 (Z.ltb_ge _ 4)) by lia.
  assert (Et : wmem w (payload w p) = ICMP_ECHO).
  { pose proof (content_front (w_ps w) p l [ICMP_ECHO; code; k1; k2] rest Hc ltac:(simpl; lia)) as E.
    cbn [length bytes_at] in E. by injection E. }
  rewrite Et. change (ICMP_ECHO =? ICMP_ER) with false. change (ICMP_ECHO =? ICMP_ECHO) with true. rewrite Hm, Hb.
  cbn [Z.eqb negb]. rewrite (sizes_head _ _ _ (rm_sizes _ _ _ _ Hr)), (proj2 (Z.ltb_ge _ SIZEOF_ICMP_ECHO_HDR)) by exact H8.
  destruct (make_room_in_place w0 p l (payload w p - 20) Hr) as (st & -> & Hf & Hpb).
  change (w_ps w0) with (w_ps w) in Hf, Hpb. pose proof (proj1 Hf) as Hd.
  assert (Epl : forall x, plen st x = plen (w_ps w) x) by (intros; apply plen_ext; intros; by rewrite Hpb).
  apply (answer_correct (set_wps w0 st) p l h ttl proto c1 c2 src dest code k1 k2 rest inp); auto.
  - apply (flags_room (w_ps w)); [done|]. by apply (room_le _ _ _ 36).
  - unfold payload, payloads, payload_region. cbn [w_ps set_wps]. rewrite Hpb, (map_ext _ (payload_region (w_ps w))).
    + eapply separate_part; [| |exact Hap]; unfold payload; lia.
    + intros x. unfold payload_region. by rewrite Hpb.
  - unfold wmem, payload. cbn [w_ps set_wps]. by rewrite Hpb, Hd.
  - cbn [w_ps set_wps]. by rewrite (flags_content _ _ _ Hf).
  - cbn [w_ps set_wps]. by rewrite Hpb.
  - cbn [w_ps set_wps]. by rewrite Epl.
Qed.

End Echo.

(** A ping from 192.168.0.9, of eight bytes in one pbuf and four in the next. *)
Definition ping_st : pstate :=
  set_data (set_pb net_st 1000 (mk_pbuf 2000 1100 12 8 PBUF_RAM 0 1))
    (write_bytes (data net_st) 1080 (ip_header 0 32 7 64 1 0x0900a8c0 0x0100a8c0 ++ [8; 0; 11; 12; 0; 1; 0; 2])).
Definition ping_world : world unit := set_ip_data (set_wps world0 ping_st) (mk_ipg 4000 4000 1080 20 0x0900a8c0 0x0100a8c0).

Lemma ping_request :
  echo_request ping_world 1000 [2000] [0x45; 0; 0; 32; 0; 7; 0; 0] 64 1 0 0 0x0900a8c0 0x0100a8c0 0 11 12
    [0; 1; 0; 2; 68; 69; 70; 71].
Proof.
  assert (Hap : forall a n, 1000 <= a -> a + n <= 2000 -> Forall (separate (a, n)) (payloads ping_st [2000])).
  { intros a n Ha Hn. change (payloads ping_st [2000]) with [(2040, 4)]. constructor; [|constructor]. unfold separate. simpl. lia. }
  constructor; [|apply Hap; vm_compute; congruence|vm_compute; reflexivity|vm_compute; by split|vm_compute; reflexivity
    |split; vm_compute; congruence|vm_compute; done|vm_compute; done|lia].
  constructor; [repeat split; vm_compute; congruence|repeat split; vm_compute; congruence|vm_compute; reflexivity|vm_compute; reflexivity|].
  apply Hap; vm_compute; congruence.
Qed.

Lemma echo_witness :
  exists w', icmp_input sink (fun s _ => s) 9 ping_world 1000 4000 = wfree (fun s _ => s) 9 w' 1000 /\
    content (w_ps w') [1000; 2000] =
      [0x45; 0; 0; 32; 0; 7; 0; 0; 255; 1; 0; 0; 192; 168; 0; 1; 192; 168; 0; 9; 0; 0; 0; 0; 0; 1; 0; 2; 68; 69; 70; 71].
Proof.
  destruct (echo_reply sink (fun s _ => s) 9 ping_world 1000 [2000] [0x45; 0; 0; 32; 0; 7; 0; 0] 64 1 0 0 0x0900a8c0 0x0100a8c0
    0 11 12 [0; 1; 0; 2; 68; 69; 70; 71] 4000 ping_request) as (w' & H1 & _ & _ & H2).
  { right. vm_compute. congruence. }
  exists w'. split; [exact H1|]. etransitivity; [exact H2|]. vm_compute. reflexivity.
Defined.
