(* ===== verification/Igmp.v ===== *)
(** * [core/ipv4/igmp.c]: IGMP

    The groups that each interface is a member of, and the reports, queries and leave
    messages about them.  The list of an interface starts with the group of all systems,
    which [igmp_start] adds; the others are behind it. *)

From Stdlib Require Import ZArith Lia.
From stdpp Require Import base tactics numbers list option gmap.
From S2P Require Import Prelude.
From S2P Require Import Def.
From S2P Require Import Ip4Addr.
From S2P Require Import Alloc.
From S2P Require Import Mem.
From S2P Require Import Memp.
From S2P Require Import Pbuf.
From S2P Require Import PbufChain.
From S2P Require Import Chksum.
From S2P Require Import World.
From S2P Require Import Ip4Frag.
From S2P Require Import Ip4.
From S2P Require Import Icmp.

Definition MEMP_IGMP_GROUP : Z := 6.
Definition IGMP_TTL : Z := 1.
Definition IGMP_MINLEN : Z := 8.
Definition ROUTER_ALERT : Z := 0x9404.
Definition ROUTER_ALERTLEN : Z := 4.
Definition IGMP_MEMB_QUERY : Z := 0x11.
Definition IGMP_V2_MEMB_REPORT : Z := 0x16.
Definition IGMP_LEAVE_GROUP : Z := 0x17.
Definition IGMP_V1_DELAYING_MEMBER_TMR : Z := 10.
Definition IGMP_JOIN_DELAYING_MEMBER_TMR : Z := 5.

(** The addresses that [igmp_init] sets. *)
Definition allsystems : Z := PP_HTONL 0xe0000001.
Definition allrouters : Z := PP_HTONL 0xe0000002.

(** [IGMP_GROUP_NON_MEMBER], [IGMP_GROUP_DELAYING_MEMBER], [IGMP_GROUP_IDLE_MEMBER] *)
Inductive igmp_member := Non_member | Delaying_member | Idle_member.
#[export] Instance igmp_member_eq_dec : EqDecision igmp_member.
Proof. solve_decision. Defined.

(** [struct igmp_group], with its address; the [next] fields are the order of a list. *)
Record igmp_group := mk_group {
  g_at : Z; group_address : Z; last_reporter_flag : Z; group_state : igmp_member; g_timer : Z; g_use : Z }.

Definition set_reporter v (g : igmp_group) := mk_group (g_at g) (group_address g) v (group_state g) (g_timer g) (g_use g).
Definition set_gstate v (g : igmp_group) := mk_group (g_at g) (group_address g) (last_reporter_flag g) v (g_timer g) (g_use g).
Definition set_gtimer v (g : igmp_group) := mk_group (g_at g) (group_address g) (last_reporter_flag g) (group_state g) v (g_use g).
Definition set_guse v (g : igmp_group) := mk_group (g_at g) (group_address g) (last_reporter_flag g) (group_state g) (g_timer g) v.

(** The lists are client data of the interfaces: a part of the state that is addressed by
    the interface. *)
Class igmp_store (X : Type) := {
  netif_igmp_data : X -> Z -> list igmp_group;
  netif_set_igmp_data : X -> Z -> list igmp_group -> X;
  igmp_data_set : forall x n l n',
    netif_igmp_data (netif_set_igmp_data x n l) n' = if decide (n' = n) then l else netif_igmp_data x n'
}.

Section Igmp.
Context {X : Type} `{!igmp_store X}.
Context (netif_output : world X -> Z -> Z -> Z -> option (world X * Z)).
Context (custom_free : pstate -> Z -> pstate) (fuel : nat).
(** [rand()] of the C library; [netif->igmp_mac_filter] ([None] for [NULL]), whose last
    argument is true for [NETIF_ADD_MAC_FILTER]; the address of the local array [ra]. *)
Context (rand : world X -> world X * Z) (igmp_mac_filter : world X -> Z -> option (world X -> Z -> bool -> world X)) (ra : Z).
Implicit Types w : world X.

Definition groups w (nif : Z) : list igmp_group := netif_igmp_data (w_ext w) nif.
Definition set_groups w (nif : Z) (l : list igmp_group) : world X := set_ext w (netif_set_igmp_data (w_ext w) nif l).

(** An update of the group at [a]. *)
Definition upd_group w (nif a : Z) (f : igmp_group -> igmp_group) : world X :=
  set_groups w nif (map (fun g => if g_at g =? a then f g else g) (groups w nif)).

Definition mac_filter w (nif addr : Z) (add : bool) : world X :=
  match igmp_mac_filter w nif with None => w | Some f => f w addr add end.

(** [igmp_lookfor_group(ifp, addr)] *)
Definition igmp_lookfor_group w (nif addr : Z) : option igmp_group :=
  List.find (fun g => group_address g =? addr) (groups w nif).

(** [igmp_lookup_group(ifp, addr)]: a new group comes behind the first one. *)
Definition igmp_lookup_group w (nif addr : Z) : world X * option igmp_group :=
  match igmp_lookfor_group w nif addr with
  | Some g => (w, Some g)
  | None =>
      let '(ps, a) := memp_malloc (ps_pools (w_ps w)) MEMP_IGMP_GROUP in
      let w := set_wps w (set_pools (w_ps w) ps) in
      if a =? NULL then (w, None)
      else
        let g := mk_group a addr 0 Non_member 0 0 in
        let l := match groups w nif with [] => [g] | h :: t => h :: g :: t end in
        (set_groups w nif l, Some g)
  end.

(** [igmp_start(netif)], [igmp_stop(netif)] *)
Definition igmp_start w (nif : Z) : world X * Z :=
  match igmp_lookup_group w nif allsystems with
  | (w, Some g) =>
      let w := upd_group w nif (g_at g) (set_gstate Idle_member) in
      let w := upd_group w nif (g_at g) (fun g => set_guse (u8 (g_use g + 1)) g) in
      (mac_filter w nif allsystems true, ERR_OK)
  | (w, None) => (w, ERR_MEM)
  end.
Definition igmp_stop w (nif : Z) : world X * Z :=
  (foldl (fun w g =>
     let w := mac_filter w nif (group_address g) false in
     set_wps w (set_pools (w_ps w) (memp_free (ps_pools (w_ps w)) MEMP_IGMP_GROUP (g_at g))))
     (set_groups w nif []) (groups w nif), ERR_OK).

(** [igmp_remove_group(netif, group)]: the first group of the list stays. *)
Fixpoint group_unlink (a : Z) (l : list igmp_group) : list igmp_group :=
  match l with [] => [] | g :: l => if g_at g =? a then l else g :: group_unlink a l end.
Definition igmp_remove_group w (nif a : Z) : world X * Z :=
  match groups w nif with
  | [] => (w, ERR_ARG)
  | h :: t =>
      (set_groups w nif (h :: group_unlink a t), if existsb (fun g => g_at g =? a) t then ERR_OK else ERR_ARG)
  end.

(** [igmp_start_timer(group, max_time)], [igmp_delaying_member(group, maxresp)] *)
Definition igmp_start_timer w (nif a max_time : Z) : world X :=
  let '(w, t) := if 2 <? max_time then let '(w, r) := rand w in (w, u16 (u32 r mod max_time)) else (w, 1) in
  upd_group w nif a (set_gtimer (if t =? 0 then 1 else t)).
Definition igmp_delaying_member w (nif : Z) (g : igmp_group) (maxresp : Z) : world X :=
  if bool_decide (group_state g = Idle_member) ||
     (bool_decide (group_state g = Delaying_member) && ((g_timer g =? 0) || (maxresp <? g_timer g)))
  then upd_group (igmp_start_timer w nif (g_at g) maxresp) nif (g_at g) (set_gstate Delaying_member)
  else w.

(** The loops over the groups behind the first one. *)
Definition delay_members w (nif maxresp : Z) : world X :=
  foldl (fun w g => igmp_delaying_member w nif g maxresp) w (tl (groups w nif)).
Definition igmp_report_groups w (nif : Z) : world X := delay_members w nif IGMP_JOIN_DELAYING_MEMBER_TMR.

(** [igmp_ip_output_if(p, src, dest, netif)] *)
Definition igmp_ip_output_if w (p src dest nif : Z) : option (world X * Z) :=
  let m := st16 (wmem w) ra (PP_HTONS ROUTER_ALERT) in
  let m := st16 m (ra + 2) 0 in
  let w := stats_inc S_igmp F_xmit (set_wmem w m) in
  ip4_output_if_opt netif_output custom_free fuel w p (Some src) (Some dest) IGMP_TTL 0 IP_PROTO_IGMP nif ra ROUTER_ALERTLEN.

(** The message of [igmp_send], with its checksum, and its output. *)
Definition igmp_transmit w (p nif : Z) (g : igmp_group) (type dest : Z) : option (world X) :=
  let igmp := payload w p in
  let src := netif_ip_addr (netif_of w nif) in
  let m := st32 (wmem w) (igmp + 4) (group_address g) in
  let m := upd m igmp type in
  let m := upd m (igmp + 1) 0 in
  let m := st16 m (igmp + 2) 0 in
  match inet_chksum thumb2_checksum m igmp IGMP_MINLEN with
  | None => None
  | Some c =>
      match igmp_ip_output_if (set_wmem w (st16 m (igmp + 2) c)) p src dest nif with
      | None => None
      | Some (w, _) => wfree custom_free fuel w p
      end
  end.

(** [igmp_send(netif, group, type)] *)
Definition igmp_send w (nif : Z) (g : igmp_group) (type : Z) : option (world X) :=
  match pbuf_alloc custom_free fuel (w_ps w) PBUF_TRANSPORT IGMP_MINLEN PBUF_RAM with
  | None => None
  | Some (st, p) =>
      let w := set_wps w st in
      if negb (p =? NULL) then
        if type =? IGMP_V2_MEMB_REPORT
        then igmp_transmit (upd_group w nif (g_at g) (set_reporter 1)) p nif g type (group_address g)
        else if type =? IGMP_LEAVE_GROUP then igmp_transmit w p nif g type allrouters
        else wfree custom_free fuel w p
      else Some (stats_inc S_igmp F_memerr w)
  end.

(** [igmp_timeout(netif, group)] *)
Definition igmp_timeout w (nif : Z) (g : igmp_group) : option (world X) :=
  if bool_decide (group_state g = Delaying_member) && negb (group_address g =? allsystems) then
    let w := upd_group w nif (g_at g) (set_gstate Idle_member) in
    igmp_send (stats_inc S_igmp F_tx_report w) nif g IGMP_V2_MEMB_REPORT
  else Some w.

(** [igmp_tmr]: the groups of each interface in turn. *)
Definition igmp_tmr_group (nif : Z) (ow : option (world X)) (g : igmp_group) : option (world X) :=
  match ow with
  | None => None
  | Some w =>
      if 0 <? g_timer g then
        let w := upd_group w nif (g_at g) (set_gtimer (g_timer g - 1)) in
        if g_timer g - 1 =? 0 then igmp_timeout w nif g else Some w
      else Some w
  end.
Definition igmp_tmr w : option (world X) :=
  foldl (fun ow nif => match ow with None => None | Some w => foldl (igmp_tmr_group nif) (Some w) (groups w nif) end)
    (Some w) (netif_list (w_netifs w)).

(** [igmp_joingroup_netif(netif, groupaddr)] *)
Definition igmp_joingroup_netif w (nif groupaddr : Z) : option (world X * Z) :=
  if negb (ip4_addr_ismulticast groupaddr) then Some (w, ERR_VAL)
  else if groupaddr =? allsystems then Some (w, ERR_VAL)
  else if Z.land (netif_flags (netif_of w nif)) NETIF_FLAG_IGMP =? 0 then Some (w, ERR_VAL)
  else
    match igmp_lookup_group w nif groupaddr with
    | (w, None) => Some (w, ERR_MEM)
    | (w, Some g) =>
        match (if negb (bool_decide (group_state g = Non_member)) then Some w
               else
                 let w := if g_use g =? 0 then mac_filter w nif groupaddr true else w in
                 match igmp_send (stats_inc S_igmp F_tx_join w) nif g IGMP_V2_MEMB_REPORT with
                 | None => None
                 | Some w =>
                     let w := igmp_start_timer w nif (g_at g) IGMP_JOIN_DELAYING_MEMBER_TMR in
                     Some (upd_group w nif (g_at g) (set_gstate Delaying_member))
                 end) with
        | None => None
        | Some w => Some (upd_group w nif (g_at g) (fun g => set_guse (u8 (g_use g + 1)) g), ERR_OK)
        end
    end.

(** [igmp_leavegroup_netif(netif, groupaddr)] *)
Definition igmp_leavegroup_netif w (nif groupaddr : Z) : option (world X * Z) :=
  if negb (ip4_addr_ismulticast groupaddr) then Some (w, ERR_VAL)
  else if groupaddr =? allsystems then Some (w, ERR_VAL)
  else if Z.land (netif_flags (netif_of w nif)) NETIF_FLAG_IGMP =? 0 then Some (w, ERR_VAL)
  else
    match igmp_lookfor_group w nif groupaddr with
    | None => Some (w, ERR_VAL)
    | Some g =>
        if g_use g <=? 1 then
          let '(w, _) := igmp_remove_group w nif (g_at g) in
          match (if negb (last_reporter_flag g =? 0)
                 then igmp_send (stats_inc S_igmp F_tx_leave w) nif g IGMP_LEAVE_GROUP else Some w) with
          | None => None
          | Some w =>
              let w := mac_filter w nif groupaddr false in
              Some (set_wps w (set_pools (w_ps w) (memp_free (ps_pools (w_ps w)) MEMP_IGMP_GROUP (g_at g))), ERR_OK)
          end
        else Some (upd_group w nif (g_at g) (fun g => set_guse (u8 (g_use g - 1)) g), ERR_OK)
    end.

(** Which interfaces [igmp_joingroup] and [igmp_leavegroup] use. *)
Definition joins_on w (ifaddr nif : Z) : bool :=
  negb (Z.land (netif_flags (netif_of w nif)) NETIF_FLAG_IGMP =? 0) &&
  (ip4_addr_isany ifaddr || (netif_ip_addr (netif_of w nif) =? ifaddr)).

(** [igmp_joingroup(ifaddr, groupaddr)]: the first error ends the loop. *)
Fixpoint join_loop (ifaddr groupaddr : Z) w (l : list Z) (err : Z) : option (world X * Z) :=
  match l with
  | [] => Some (w, err)
  | nif :: l =>
      if joins_on w ifaddr nif then
        match igmp_joingroup_netif w nif groupaddr with
        | None => None
        | Some (w, err) => if negb (err =? ERR_OK) then Some (w, err) else join_loop ifaddr groupaddr w l err
        end
      else join_loop ifaddr groupaddr w l err
  end.
Definition igmp_joingroup w (ifaddr groupaddr : Z) : option (world X * Z) :=
  if negb (ip4_addr_ismulticast groupaddr) then Some (w, ERR_VAL)
  else if groupaddr =? allsystems then Some (w, ERR_VAL)
  else join_loop ifaddr groupaddr w (netif_list (w_netifs w)) ERR_VAL.

(** [igmp_leavegroup(ifaddr, groupaddr)]: all interfaces; a success is kept. *)
Fixpoint leave_loop (ifaddr groupaddr : Z) w (l : list Z) (err : Z) : option (world X * Z) :=
  match l with
  | [] => Some (w, err)
  | nif :: l =>
      if joins_on w ifaddr nif then
        match igmp_leavegroup_netif w nif groupaddr with
        | None => None
        | Some (w, res) => leave_loop ifaddr groupaddr w l (if negb (err =? ERR_OK) then res else err)
        end
      else leave_loop ifaddr groupaddr w l err
  end.
Definition igmp_leavegroup w (ifaddr groupaddr : Z) : option (world X * Z) :=
  if negb (ip4_addr_ismulticast groupaddr) then Some (w, ERR_VAL)
  else if groupaddr =? allsystems then Some (w, ERR_VAL)
  else leave_loop ifaddr groupaddr w (netif_list (w_netifs w)) ERR_VAL.

(** The message types in [igmp_input]; [group] is the group of the destination. *)
Definition igmp_query w (nif dest igmp : Z) (group : igmp_group) : world X :=
  let igmp_group_address := ld32 (wmem w) (igmp + 4) in
  if (dest =? allsystems) && ip4_addr_isany igmp_group_address then
    let w := if wmem w (igmp + 1) =? 0
             then stats_inc S_igmp F_rx_v1 (set_wmem w (upd (wmem w) (igmp + 1) IGMP_V1_DELAYING_MEMBER_TMR))
             else stats_inc S_igmp F_rx_general w in
    delay_members w nif (wmem w (igmp + 1))
  else if negb (ip4_addr_isany igmp_group_address) then
    match (if dest =? allsystems then igmp_lookfor_group w nif igmp_group_address else Some group) with
    | Some g => igmp_delaying_member (stats_inc S_igmp F_rx_group w) nif g (wmem w (igmp + 1))
    | None => stats_inc S_igmp F_drop w
    end
  else stats_inc S_igmp F_proterr w.
Definition igmp_report w (nif : Z) (group : igmp_group) : world X :=
  let w := stats_inc S_igmp F_rx_report w in
  if bool_decide (group_state group = Delaying_member)
  then upd_group w nif (g_at group) (fun g => set_reporter 0 (set_gstate Idle_member (set_gtimer 0 g)))
  else w.

(** [igmp_input(p, inp, dest)] *)
Definition igmp_input w (p inp dest : Z) : option (world X) :=
  let w := stats_inc S_igmp F_recv w in
  let free_count w f := match wfree custom_free fuel w p with None => None | Some w => Some (stats_inc S_igmp f w) end in
  if pb_len (pb (w_ps w) p) <? IGMP_MINLEN then free_count w F_lenerr
  else
    let igmp := payload w p in
    match inet_chksum thumb2_checksum (wmem w) igmp (pb_len (pb (w_ps w) p)) with
    | None => None
    | Some c =>
        if negb (c =? 0) then free_count w F_chkerr
        else
          match igmp_lookfor_group w inp dest with
          | None => free_count w F_drop
          | Some group =>
              let type := wmem w igmp in
              let w := if type =? IGMP_MEMB_QUERY then igmp_query w inp dest igmp group
                       else if type =? IGMP_V2_MEMB_REPORT then igmp_report w inp group
                       else stats_inc S_igmp F_proterr w in
              wfree custom_free fuel w p
          end
    end.

End Igmp.

(** ** The lists of groups *)

(** The fields are in the ranges of their types. *)
Definition group_typed (g : igmp_group) : Prop := 0 <= g_use g < 256 /\ 0 <= g_timer g < 65536.

(** A group that was joined: its timer runs while a report is delayed. *)
Definition group_member (g : igmp_group) : Prop :=
  ip4_addr_ismulticast (group_address g) = true /\ group_state g <> Non_member /\
  (group_state g = Delaying_member <-> 0 < g_timer g).

Record groups_ok (l : list igmp_group) : Prop := {
  go_at : NoDup (map g_at l);
  go_addr : NoDup (map group_address l);
  go_typed : Forall group_typed l;
  go_head : match l with [] => True | h :: t => group_address h = allsystems /\ Forall group_member t end
}.

Definition update_at (a : Z) (f : igmp_group -> igmp_group) (l : list igmp_group) : list igmp_group :=
  map (fun g => if g_at g =? a then f g else g) l.

(** An update that leaves the address and the place in memory. *)
Definition keeps_names (f : igmp_group -> igmp_group) : Prop :=
  forall g, g_at (f g) = g_at g /\ group_address (f g) = group_address g.

Lemma update_at_names a f l :
  keeps_names f -> map g_at (update_at a f l) = map g_at l /\ map group_address (update_at a f l) = map group_address l.
Proof.
  intros Hf. unfold update_at. rewrite !map_map.
  split; apply map_ext; intros g; destruct (g_at g =? a); try done; apply Hf.
Qed.

Lemma update_at_twice a f h l : keeps_names h -> update_at a f (update_at a h l) = update_at a (fun g => f (h g)) l.
Proof.
  intros Hh. unfold update_at. rewrite map_map. apply map_ext. intros g.
  destruct (Z.eqb_spec (g_at g) a) as [E|E].
  - rewrite (proj1 (Hh g)). by rewrite (proj2 (Z.eqb_eq _ _) E).
  - by rewrite (proj2 (Z.eqb_neq _ _) E).
Qed.

Lemma update_at_in a f l g : g ∈ l -> g_at g <> a -> g ∈ update_at a f l.
Proof.
  intros Hg Hn. unfold update_at. apply list_elem_of_In, in_map_iff. exists g. split; [|by apply list_elem_of_In].
  by rewrite (proj2 (Z.eqb_neq _ _) Hn).
Qed.

Lemma update_at_ok a f l :
  groups_ok l -> keeps_names f -> (forall g, g ∈ l -> g_at g = a -> group_typed (f g)) ->
  (forall g, g ∈ tl l -> g_at g = a -> group_member (f g)) -> groups_ok (update_at a f l).
Proof.
  intros [H1 H2 H3 H4] Hf Ht Hm. destruct (update_at_names a f l Hf) as [E1 E2]. constructor.
  - by rewrite E1.
  - by rewrite E2.
  - apply Forall_map. rewrite Forall_forall in *. intros g Hg. destruct (Z.eqb_spec (g_at g) a); auto.
  - destruct l as [|h t]; [done|]. destruct H4 as [Hh Hmem]. split.
    + destruct (g_at h =? a); [by rewrite (proj2 (Hf h))|done].
    + apply Forall_map. rewrite Forall_forall in *. intros g Hg. destruct (Z.eqb_spec (g_at g) a); auto.
Qed.

Lemma groups_at_inj l g h : groups_ok l -> g ∈ l -> h ∈ l -> g_at g = g_at h -> g = h.
Proof.
  intros [H _ _ _] Hg Hh E. apply list_elem_of_lookup in Hg as [i Hi], Hh as [j Hj].
  assert (i = j) as ->; [|congruence]. eapply NoDup_lookup; [exact H| |]; rewrite list_lookup_fmap.
  - by rewrite Hi.
  - rewrite Hj. simpl. by rewrite E.
Qed.

Section Theorems.
Context {X : Type} `{!igmp_store X}.
Context (netif_output : world X -> Z -> Z -> Z -> option (world X * Z)).
Context (custom_free : pstate -> Z -> pstate) (fuel : nat).
Context (rand : world X -> world X * Z) (igmp_mac_filter : world X -> Z -> option (world X -> Z -> bool -> world X)) (ra : Z).
Implicit Types w : world X.

(** The state has these lists of groups. *)
Definition has_groups (G : Z -> list igmp_group) w : Prop := forall n, groups w n = G n.

#[export] Instance has_groups_frame G : ip_frame (has_groups G).
Proof. by constructor. Qed.

(** The interface, [rand] and the filter leave the groups alone. *)
Context (Hout : forall G, output_keeps netif_output (has_groups G)).
Context (Hrand : forall w G, has_groups G w -> has_groups G (rand w).1).
Context (Hmac : forall nif f w addr add G, igmp_mac_filter w nif = Some f -> has_groups G w -> has_groups G (f w addr add)).

Lemma groups_set w nif l n : groups (set_groups w nif l) n = if decide (n = nif) then l else groups w n.
Proof. apply igmp_data_set. Qed.

Lemma groups_upd w nif a f n :
  groups (upd_group w nif a f) n = if decide (n = nif) then update_at a f (groups w nif) else groups w n.
Proof. apply groups_set. Qed.

Lemma rand_groups w n : groups (rand w).1 n = groups w n.
Proof. by apply (Hrand w (groups w)). Qed.

Lemma filter_groups w nif addr add n : groups (mac_filter igmp_mac_filter w nif addr add) n = groups w n.
Proof. unfold mac_filter. destruct (igmp_mac_filter w nif) eqn:E; [|done]. by apply (Hmac _ _ _ _ _ (groups w) E). Qed.

(** The effect of an operation on one group of one interface. *)
Definition touches (nif a : Z) (f : igmp_group -> igmp_group) w w' : Prop :=
  keeps_names f /\ forall n, groups w' n = if decide (n = nif) then update_at a f (groups w nif) else groups w n.

Lemma touches_upd nif a f w : keeps_names f -> touches nif a f w (upd_group w nif a f).
Proof. intros Hf. split; [done|]. intros n. apply groups_upd. Qed.

Lemma touches_none nif a w w' : (forall n, groups w' n = groups w n) -> touches nif a (fun g => g) w w'.
Proof.
  intros H. split; [done|]. intros n. rewrite H. destruct (decide (n = nif)) as [->|]; [|done].
  unfold update_at. rewrite (map_ext _ id); [by rewrite map_id|]. intros g. by destruct (_ =? a).
Qed.

Lemma touches_trans nif a f h w1 w2 w3 :
  touches nif a f w1 w2 -> touches nif a h w2 w3 -> touches nif a (fun g => h (f g)) w1 w3.
Proof.
  intros [Hf H1] [Hh H2]. split.
  - intros g. destruct (Hf g) as [<- <-]. apply Hh.
  - intros n. rewrite H2. destruct (decide (n = nif)) as [->|].
    + rewrite H1, decide_True by done. by apply update_at_twice.
    + by rewrite H1, decide_False.
Qed.

Lemma transmit_groups w p nif g type dest w' n :
  igmp_transmit netif_output custom_free fuel ra w p nif g type dest = Some w' -> groups w' n = groups w n.
Proof.
  unfold igmp_transmit. cbv zeta. destruct (inet_chksum _ _ _ _); [|done].
  destruct (igmp_ip_output_if _ _ _ _ _ _ _ _ _) as [[w4 r4]|] eqn:E; [|done]. intros Hfree.
  apply (wfree_keeps _ _ (has_groups (groups w)) _ _ _ Hfree). unfold igmp_ip_output_if in E.
  eapply (ip4_output_if_opt_src_keeps _ _ _ (has_groups (groups w)) (Hout _)); [exact E|]. frame. done.
Qed.

(** [igmp_send] sets the reporter flag for a report, if there is memory for it. *)
Lemma send_touches w nif g type w' :
  igmp_send netif_output custom_free fuel ra w nif g type = Some w' ->
  exists f, touches nif (g_at g) f w w' /\ (f = (fun g => g) \/ f = set_reporter 1 /\ type = IGMP_V2_MEMB_REPORT).
Proof.
  unfold igmp_send. destruct (pbuf_alloc _ _ _ _ _ _) as [[st p]|]; [|done]. cbv zeta.
  destruct (negb (p =? NULL)).
  2:{ intros [= <-]. exists (fun g => g). split; [by apply touches_none|by left]. }
  destruct (Z.eqb_spec type IGMP_V2_MEMB_REPORT) as [Et|Et].
  - intros H. exists (set_reporter 1). split; [|by right]. split; [done|]. intros n. rewrite (transmit_groups _ _ _ _ _ _ _ n H).
    exact (groups_upd (set_wps w st) nif (g_at g) (set_reporter 1) n).
  - intros H. exists (fun g => g). split; [|by left]. apply touches_none. intros n. destruct (type =? IGMP_LEAVE_GROUP).
    + by rewrite (transmit_groups _ _ _ _ _ _ _ n H).
    + apply (wfree_keeps _ _ (has_groups (groups w)) _ _ _ H). by frame.
Qed.

(** ** The invariant *)

Definition igmp_inv w : Prop := forall n, groups_ok (groups w n).

Lemma inv_touches nif a f w w' :
  igmp_inv w -> touches nif a f w w' ->
  (forall g, g ∈ groups w nif -> g_at g = a -> group_typed (f g)) ->
  (forall g, g ∈ tl (groups w nif) -> g_at g = a -> group_member (f g)) -> igmp_inv w'.
Proof.
  intros Hi [Hk Hg] H1 H2 n. rewrite Hg. destruct (decide (n = nif)); [|apply Hi]. by apply update_at_ok.
Qed.

Lemma inv_same w w' : (forall n, groups w' n = groups w n) -> igmp_inv w -> igmp_inv w'.
Proof. intros H Hi n. rewrite H. apply Hi. Qed.

Lemma inv_typed w nif g : igmp_inv w -> g ∈ groups w nif -> group_typed g.
Proof. intros Hi Hg. pose proof (go_typed _ (Hi nif)) as H. rewrite Forall_forall in H. auto. Qed.

Lemma inv_member w nif g : igmp_inv w -> g ∈ tl (groups w nif) -> group_member g.
Proof.
  intros Hi Hg. pose proof (go_head _ (Hi nif)) as H. destruct (groups w nif) as [|h t]; [by apply elem_of_nil in Hg|].
  destruct H as [_ H]. rewrite Forall_forall in H. auto.
Qed.

(** A started timer runs for at least one round. *)
Lemma start_timer_touches w nif a max_time :
  exists t, 1 <= t < 65536 /\ (0 <= max_time -> t <= Z.max 1 (max_time - 1)) /\
    touches nif a (set_gtimer t) w (igmp_start_timer rand w nif a max_time).
Proof.
  unfold igmp_start_timer. destruct (Z.ltb_spec 2 max_time) as [Hm|Hm].
  - destruct (rand w) as [w1 r] eqn:E. set (t := u16 (u32 r mod max_time)).
    assert (Ht : 0 <= t < 65536 /\ t <= max_time - 1).
    { pose proof (Z.mod_pos_bound (u32 r) max_time ltac:(lia)). split; [apply u16_range|]. unfold t, u16.
      pose proof (Z.mod_le (u32 r mod max_time) 65536 ltac:(lia) ltac:(lia)). lia. }
    exists (if t =? 0 then 1 else t). split; [destruct (Z.eqb_spec t 0); lia|]. split; [destruct (Z.eqb_spec t 0); lia|].
    split; [done|]. intros n. rewrite groups_upd. replace w1 with (rand w).1 by (by rewrite E). by rewrite !rand_groups.
  - exists 1. split; [lia|]. split; [lia|]. by apply touches_upd.
Qed.

(** [igmp_delaying_member]: a timer is set, or nothing is done. *)
Lemma delaying_touches w nif g maxresp :
  exists f, touches nif (g_at g) f w (igmp_delaying_member rand w nif g maxresp) /\
    (f = (fun g => g) \/ exists t, 1 <= t < 65536 /\ f = (fun g => set_gstate Delaying_member (set_gtimer t g))).
Proof.
  unfold igmp_delaying_member. destruct (_ || _).
  - destruct (start_timer_touches w nif (g_at g) maxresp) as (t & Ht & _ & Htt).
    eexists. split; [eapply touches_trans; [exact Htt|]; by apply touches_upd|]. right. eauto.
  - exists (fun g => g). split; [by apply touches_none|by left].
Qed.

Lemma delaying_inv w nif g maxresp : igmp_inv w -> igmp_inv (igmp_delaying_member rand w nif g maxresp).
Proof.
  intros Hi. destruct (delaying_touches w nif g maxresp) as (f & Ht & Hf). eapply inv_touches; [done|exact Ht| |].
  - intros h Hh _. pose proof (inv_typed _ _ _ Hi Hh) as [H1 H2]. destruct Hf as [->|(t & H & ->)]; split; simpl; lia.
  - intros h Hh _. pose proof (inv_member _ _ _ Hi Hh) as (H1 & H2 & H3).
    destruct Hf as [->|(t & H & ->)]; [done|]. split; [done|]. split; [done|]. simpl. split; [lia|done].
Qed.

Lemma delay_members_inv w nif maxresp : igmp_inv w -> igmp_inv (delay_members rand w nif maxresp).
Proof.
  unfold delay_members. generalize (tl (groups w nif)). intros l. revert w. induction l as [|g l IH]; intros w Hi; [done|].
  simpl. apply IH. by apply delaying_inv.
Qed.

(** ** Each operation *)

Lemma member_not_allsystems w nif g : igmp_inv w -> g ∈ tl (groups w nif) -> group_address g <> allsystems.
Proof.
  intros Hi Hg. pose proof (go_head _ (Hi nif)) as H. pose proof (go_addr _ (Hi nif)) as Hn.
  destruct (groups w nif) as [|h t]; [by apply elem_of_nil in Hg|]. destruct H as [<- _].
  apply NoDup_cons in Hn as [Hn _]. intros E. apply Hn. rewrite <- E. by apply list_elem_of_fmap_2.
Qed.

Lemma tl_in {A} (x : A) l : x ∈ tl l -> x ∈ l.
Proof. destruct l; [done|]. by right. Qed.

Lemma timeout_touches w nif g w' :
  igmp_timeout netif_output custom_free fuel ra w nif g = Some w' ->
  exists f, touches nif (g_at g) f w w' /\
    if bool_decide (group_state g = Delaying_member) && negb (group_address g =? allsystems)
    then f = set_gstate Idle_member \/ f = (fun g => set_reporter 1 (set_gstate Idle_member g)) else f = (fun g => g).
Proof.
  unfold igmp_timeout. destruct (_ && _).
  - intros H. apply send_touches in H as (f & Hf & Hc). eexists. split.
    + eapply touches_trans; [by apply (touches_upd nif (g_at g) (set_gstate Idle_member))|exact Hf].
    + destruct Hc as [-> | [-> _]]; [by left|by right].
  - intros [= <-]. exists (fun g => g). split; [by apply touches_none|done].
Qed.

Lemma tmr_group_inv w nif g w' :
  igmp_inv w -> g ∈ groups w nif -> igmp_tmr_group netif_output custom_free fuel ra nif (Some w) g = Some w' ->
  igmp_inv w' /\ forall h, h ∈ groups w nif -> g_at h <> g_at g -> h ∈ groups w' nif.
Proof.
  intros Hi Hg. simpl. destruct (Z.ltb_spec 0 (g_timer g)) as [Ht|Ht]; [|by intros [= <-]].
  pose proof (inv_typed _ _ _ Hi Hg) as [Hu Hr].
  assert (Hw : forall f w', touches nif (g_at g) f w w' -> group_typed (f g) -> (g ∈ tl (groups w nif) -> group_member (f g)) ->
    igmp_inv w' /\ forall h, h ∈ groups w nif -> g_at h <> g_at g -> h ∈ groups w' nif).
  { intros f w1 Hf H1 H2. pose proof Hf as [Hk Hgr]. split.
    - eapply inv_touches; [done|exact Hf| |].
      + intros h Hh E. by rewrite (groups_at_inj _ _ _ (Hi nif) Hh Hg E).
      + intros h Hh E. assert (h = g) as -> by exact (groups_at_inj _ _ _ (Hi nif) (tl_in _ _ Hh) Hg E). auto.
    - intros h Hh Hne. rewrite Hgr, decide_True by done. by apply update_at_in. }
  pose proof (touches_upd nif (g_at g) (set_gtimer (g_timer g - 1)) w ltac:(done)) as Hup.
  destruct (Z.eqb_spec (g_timer g - 1) 0) as [E|E].
  - intros H. apply timeout_touches in H as (f & Hf & Hc). pose proof (touches_trans _ _ _ _ _ _ _ Hup Hf) as Hall.
    apply (Hw _ _ Hall).
    + destruct (_ && _); [destruct Hc as [-> | ->]|subst f]; split; simpl; lia.
    + intros Hm. pose proof (inv_member _ _ _ Hi Hm) as (M1 & M2 & M3). pose proof (member_not_allsystems _ _ _ Hi Hm) as Ha.
      rewrite bool_decide_true, (proj2 (Z.eqb_neq _ _) Ha) in Hc by (by apply M3).
      destruct Hc as [-> | ->]; (split; [done|split; [done|]]); simpl; (split; [done|lia]).
  - intros [= <-]. apply (Hw _ _ Hup); [split; simpl; lia|]. intros Hm. pose proof (inv_member _ _ _ Hi Hm) as (M1 & M2 & M3).
    split; [done|]. split; [done|]. simpl. split; [lia|]. intros _. by apply M3.
Qed.

Lemma tmr_groups_inv nif l w w' :
  igmp_inv w -> NoDup (map g_at l) -> Forall (fun g => g ∈ groups w nif) l ->
  foldl (igmp_tmr_group netif_output custom_free fuel ra nif) (Some w) l = Some w' -> igmp_inv w'.
Proof.
  revert w. induction l as [|g l IH]; intros w Hi Hn Hl H; [by injection H as <-|].
  apply Forall_cons in Hl as [Hg Hl]. apply NoDup_cons in Hn as [Hgl Hn]. cbn [foldl] in H.
  destruct (igmp_tmr_group _ _ _ _ nif (Some w) g) as [w1|] eqn:E.
  - destruct (tmr_group_inv _ _ _ _ Hi Hg E) as [Hi1 Hk]. apply (IH w1); auto. rewrite Forall_forall in *. intros h Hh.
    apply Hk; [auto|]. intros Eh. apply Hgl. rewrite <- Eh. by apply list_elem_of_fmap_2.
  - exfalso. clear -H. induction l; [done|auto].
Qed.

Lemma tmr_inv w w' : igmp_inv w -> igmp_tmr netif_output custom_free fuel ra w = Some w' -> igmp_inv w'.
Proof.
  unfold igmp_tmr. generalize (netif_list (w_netifs w)). intros l. revert w. induction l as [|n l IH]; intros w Hi H.
  { by injection H as <-. }
  cbn [foldl] in H. destruct (foldl (igmp_tmr_group _ _ _ _ n) (Some w) (groups w n)) as [w1|] eqn:E.
  - apply (IH w1); [|done]. eapply tmr_groups_inv; [exact Hi|apply (go_at _ (Hi n))| |exact E].
    apply Forall_forall. done.
  - exfalso. clear -H. induction l; [done|auto].
Qed.

(** *** Joining and leaving *)

(** An element of the pool that no list holds yet. *)
Definition fresh_group w : Prop :=
  let a := (memp_malloc (ps_pools (w_ps w)) MEMP_IGMP_GROUP).2 in
  a = NULL \/ forall n g, g ∈ groups w n -> g_at g <> a.

Lemma lookfor_spec w nif addr :
  match igmp_lookfor_group w nif addr with
  | Some g => g ∈ groups w nif /\ group_address g = addr
  | None => forall g, g ∈ groups w nif -> group_address g <> addr
  end.
Proof.
  unfold igmp_lookfor_group. destruct (List.find _ _) as [g|] eqn:E.
  - apply find_some in E as [H1 H2]. split; [by apply list_elem_of_In|by apply Z.eqb_eq].
  - intros g Hg. apply list_elem_of_In in Hg. apply (find_none _ _ E) in Hg. by apply Z.eqb_neq.
Qed.

(** The three outcomes of [igmp_lookup_group]. *)
Lemma lookup_spec w nif addr :
  let '(w', r) := igmp_lookup_group w nif addr in
  (exists g, r = Some g /\ w' = w /\ igmp_lookfor_group w nif addr = Some g) \/
  (r = None /\ forall n, groups w' n = groups w n) \/
  (exists a, r = Some (mk_group a addr 0 Non_member 0 0) /\ igmp_lookfor_group w nif addr = None /\
     a = (memp_malloc (ps_pools (w_ps w)) MEMP_IGMP_GROUP).2 /\ a <> NULL /\
     forall n, groups w' n = if decide (n = nif)
       then match groups w nif with [] => [mk_group a addr 0 Non_member 0 0] | h :: t => h :: mk_group a addr 0 Non_member 0 0 :: t end
       else groups w n).
Proof.
  unfold igmp_lookup_group. destruct (igmp_lookfor_group w nif addr) as [g|] eqn:E; [left; eauto|].
  destruct (memp_malloc _ _) as [ps a]. cbv zeta. destruct (Z.eqb_spec a NULL) as [->|Ha]; right; [by left|right].
  exists a. repeat split; auto. intros n. rewrite groups_set. done.
Qed.

Lemma insert_ok h g t :
  groups_ok (h :: t) -> (forall x, x ∈ h :: t -> g_at x <> g_at g /\ group_address x <> group_address g) -> group_typed g -> group_member g ->
  groups_ok (h :: g :: t).
Proof.
  intros [H1 H2 H3 [H4 H5]] Hf Ht Hm. cbn [map] in *. apply NoDup_cons in H1 as [N1 N2], H2 as [N3 N4].
  assert (Hg1 : g_at g ∉ map g_at (h :: t)).
  { intros (x & E & Hx)%list_elem_of_fmap. apply (proj1 (Hf x Hx)). congruence. }
  assert (Hg2 : group_address g ∉ map group_address (h :: t)).
  { intros (x & E & Hx)%list_elem_of_fmap. apply (proj2 (Hf x Hx)). congruence. }
  cbn [map] in Hg1, Hg2. rewrite not_elem_of_cons in Hg1, Hg2. apply Forall_cons in H3 as [T1 T2]. constructor.
  - cbn [map]. rewrite !NoDup_cons, not_elem_of_cons. clear Hf. destruct Hg1, Hg2. auto 6.
  - cbn [map]. rewrite !NoDup_cons, not_elem_of_cons. clear Hf. destruct Hg1, Hg2. auto 6.
  - constructor; [done|by constructor].
  - split; [done|by constructor].
Qed.

Lemma update_fresh a f h g t :
  g_at g = a -> (forall x, x ∈ h :: t -> g_at x <> a) -> update_at a f (h :: g :: t) = h :: f g :: t.
Proof.
  intros Eg Hf. unfold update_at. cbn [map]. rewrite (proj2 (Z.eqb_eq _ _) Eg), (proj2 (Z.eqb_neq (g_at h) a)) by (apply Hf; left).
  do 2 f_equal. rewrite <- (map_id t) at 2. apply map_ext_in. intros x Hx. apply list_elem_of_In in Hx.
  by rewrite (proj2 (Z.eqb_neq (g_at x) a)) by (apply Hf; by right).
Qed.

Lemma start_inv w nif : igmp_inv w -> igmp_inv (igmp_start igmp_mac_filter w nif).1.
Proof.
  intros Hi. unfold igmp_start. pose proof (lookup_spec w nif allsystems) as Hl.
  destruct (igmp_lookup_group w nif allsystems) as [w1 r]. destruct Hl as [(g & -> & -> & El)|[(-> & Hg)|(a & -> & El & _ & _ & Hg)]].
  - simpl. pose proof (lookfor_spec w nif allsystems) as Hs. rewrite El in Hs. destruct Hs as [Hin Ha].
    eapply inv_same; [intros n; apply filter_groups|]. eapply (inv_touches nif (g_at g)); [exact Hi| | |].
    + eapply touches_trans; [by apply (touches_upd nif (g_at g) (set_gstate Idle_member))|].
      by apply (touches_upd nif (g_at g) (fun g => set_guse (u8 (g_use g + 1)) g)).
    + intros h Hh _. pose proof (inv_typed _ _ _ Hi Hh) as [? ?]. split; simpl; [apply u8_range|lia].
    + intros h Hh E. exfalso. apply (member_not_allsystems _ _ _ Hi Hh).
      by rewrite (groups_at_inj _ _ _ (Hi nif) (tl_in _ _ Hh) Hin E).
  - simpl. by apply (inv_same w).
  - simpl. eapply inv_same; [intros n; apply filter_groups|]. intros n. rewrite !groups_upd, !Hg.
    destruct (decide (n = nif)) as [->|]; [|apply Hi]. rewrite !decide_True by done.
    pose proof (lookfor_spec w nif allsystems) as Hs. rewrite El in Hs. pose proof (go_head _ (Hi nif)) as Hh.
    destruct (groups w nif) as [|h t]; [|exfalso; apply (Hs h); [left|tauto]].
    cbn. rewrite Z.eqb_refl. cbn. rewrite Z.eqb_refl. constructor.
    + apply NoDup_singleton.
    + apply NoDup_singleton.
    + constructor; [|constructor]. split; simpl; [apply u8_range|lia].
    + split; [done|constructor].
Qed.

(** On an interface without groups, [igmp_start] makes the list of one group. *)
Lemma start_fresh w nif :
  groups w nif = [] ->
  groups (igmp_start igmp_mac_filter w nif).1 nif = [] \/
  exists a, a <> NULL /\ groups (igmp_start igmp_mac_filter w nif).1 nif = [mk_group a allsystems 0 Idle_member 0 1].
Proof.
  intros E0. unfold igmp_start. pose proof (lookup_spec w nif allsystems) as Hl.
  assert (Ef : igmp_lookfor_group w nif allsystems = None) by (unfold igmp_lookfor_group; by rewrite E0).
  destruct (igmp_lookup_group w nif allsystems) as [w1 r].
  destruct Hl as [(g & _ & _ & El)|[(-> & Hg)|(a & -> & El & _ & Ha & Hg)]]; [congruence|left; simpl; by rewrite Hg|].
  right. exists a. split; [done|]. cbn [fst]. rewrite filter_groups, !groups_upd, !decide_True, Hg, decide_True, E0 by done.
  unfold update_at. simpl. by rewrite !Z.eqb_refl.
Qed.

(** Groups that can be joined on an interface. *)
Definition joinable w (nif addr : Z) : Prop :=
  ip4_addr_ismulticast addr = true /\ addr <> allsystems /\ Z.land (netif_flags (netif_of w nif)) NETIF_FLAG_IGMP <> 0.

#[export] Instance joinable_dec w nif addr : Decision (joinable w nif addr).
Proof. unfold joinable. apply _. Defined.

Lemma guards w nif addr {A} (x y : A) :
  (if negb (ip4_addr_ismulticast addr) then x
   else if addr =? allsystems then x
   else if Z.land (netif_flags (netif_of w nif)) NETIF_FLAG_IGMP =? 0 then x else y) =
  if decide (joinable w nif addr) then y else x.
Proof.
  destruct (decide (joinable w nif addr)) as [(H1 & H2 & H3)|H].
  - rewrite H1, (proj2 (Z.eqb_neq _ _) H2), (proj2 (Z.eqb_neq _ _) H3). done.
  - destruct (ip4_addr_ismulticast addr) eqn:E1; [|done]. cbn [negb]. destruct (Z.eqb_spec addr allsystems); [done|].
    destruct (Z.eqb_spec (Z.land (netif_flags (netif_of w nif)) NETIF_FLAG_IGMP) 0); [done|]. exfalso. by apply H.
Qed.

(** The lists after a join: a new member behind the first group, or one more use. *)
Definition joined w (nif addr : Z) w' : Prop :=
  match igmp_lookfor_group w nif addr with
  | Some g => touches nif (g_at g) (fun g => set_guse (u8 (g_use g + 1)) g) w w'
  | None => exists a r t, (r = 0 \/ r = 1) /\ 1 <= t <= 4 /\ (forall n g, g ∈ groups w n -> g_at g <> a) /\
      forall n, groups w' n = if decide (n = nif)
        then match groups w nif with [] => [mk_group a addr r Delaying_member t 1]
             | h :: l => h :: mk_group a addr r Delaying_member t 1 :: l end
        else groups w n
  end.

Lemma join_new w1 nif g w2 :
  group_state g = Non_member -> g_use g = 0 -> g_timer g = 0 -> last_reporter_flag g = 0 -> g ∈ groups w1 nif ->
  (forall h, h ∈ groups w1 nif -> g_at h = g_at g -> h = g) ->
  igmp_send netif_output custom_free fuel ra w1 nif g IGMP_V2_MEMB_REPORT = Some w2 ->
  exists f r t, (r = 0 \/ r = 1) /\ 1 <= t <= 4 /\ f g = mk_group (g_at g) (group_address g) r Delaying_member t 1 /\
    touches nif (g_at g) f w1
      (upd_group (upd_group (igmp_start_timer rand w2 nif (g_at g) IGMP_JOIN_DELAYING_MEMBER_TMR) nif (g_at g) (set_gstate Delaying_member))
         nif (g_at g) (fun g => set_guse (u8 (g_use g + 1)) g)).
Proof.
  intros Hs Hu Ht Hr Hin Huniq H. apply send_touches in H as (f & Hf & Hc).
  destruct (start_timer_touches w2 nif (g_at g) IGMP_JOIN_DELAYING_MEMBER_TMR) as (t & Ht1 & Ht2 & Htt).
  specialize (Ht2 ltac:(unfold IGMP_JOIN_DELAYING_MEMBER_TMR; lia)). unfold IGMP_JOIN_DELAYING_MEMBER_TMR in Ht2.
  pose proof (touches_trans _ _ _ _ _ _ _ Hf Htt) as H1.
  pose proof (touches_trans _ _ _ _ _ _ _ H1 (touches_upd nif (g_at g) (set_gstate Delaying_member) _ ltac:(done))) as H2.
  pose proof (touches_trans _ _ _ _ _ _ _ H2 (touches_upd nif (g_at g) (fun g => set_guse (u8 (g_use g + 1)) g) _ ltac:(done))) as H3.
  exists (fun g => set_guse (u8 (g_use (set_gstate Delaying_member (set_gtimer t (f g))) + 1)) (set_gstate Delaying_member (set_gtimer t (f g)))),
    (last_reporter_flag (f g)), t.
  split; [destruct Hc as [-> | [-> _]]; simpl; auto|]. split; [lia|]. split; [|exact H3].
  destruct Hc as [-> | [-> _]]; cbn; by rewrite Hu.
Qed.

Lemma found_member w nif addr g :
  igmp_inv w -> igmp_lookfor_group w nif addr = Some g -> addr <> allsystems -> g ∈ tl (groups w nif).
Proof.
  intros Hi E Ha. pose proof (lookfor_spec w nif addr) as Hs. rewrite E in Hs. destruct Hs as [Hin <-].
  pose proof (go_head _ (Hi nif)) as Hh. destruct (groups w nif) as [|h t]; [by apply elem_of_nil in Hin|].
  apply elem_of_cons in Hin as [->|Hin]; [|done]. by destruct Hh.
Qed.

Lemma group_join_correct w nif addr :
  igmp_inv w -> fresh_group w -> joinable w nif addr ->
  let '(w1, r) := igmp_lookup_group w nif addr in
  let w2 := stats_inc S_igmp F_tx_join (mac_filter igmp_mac_filter w1 nif addr true) in
  (forall g, r = Some g -> group_state g = Non_member ->
     is_Some (igmp_send netif_output custom_free fuel ra w2 nif g IGMP_V2_MEMB_REPORT)) ->
  exists w' e, igmp_joingroup_netif netif_output custom_free fuel rand igmp_mac_filter ra w nif addr = Some (w', e) /\
    ((e = ERR_OK /\ joined w nif addr w') \/
     (e = ERR_MEM /\ igmp_lookfor_group w nif addr = None /\ forall n, groups w' n = groups w n)).
Proof.
  intros Hi Hfr Hj. unfold igmp_joingroup_netif. rewrite guards, decide_True by done.
  pose proof (lookup_spec w nif addr) as Hl. destruct (igmp_lookup_group w nif addr) as [w1 r] eqn:El.
  cbv zeta. intros Hsend. destruct Hl as [(g & -> & -> & Ef)|[(-> & Hg)|(a & -> & Ef & Ea & Hna & Hg)]].
  - pose proof (lookfor_spec w nif addr) as Hs. rewrite Ef in Hs. destruct Hs as [Hin Haddr].
    pose proof (found_member w nif addr g Hi Ef (proj1 (proj2 Hj))) as Hm. pose proof (inv_member _ _ _ Hi Hm) as (_ & Hst & _).
    rewrite bool_decide_false by done. cbn [negb]. eexists _, _. split; [reflexivity|]. left. split; [done|].
    unfold joined. rewrite Ef. by apply touches_upd.
  - eexists _, _. split; [reflexivity|]. right. split; [done|]. split; [|done].
    unfold igmp_lookup_group in El. destruct (igmp_lookfor_group w nif addr); [|done]. by injection El.
  - set (g := mk_group a addr 0 Non_member 0 0) in *. destruct (Hsend g eq_refl eq_refl) as [w3 Hw3].
    assert (Hfresh : forall n h, h ∈ groups w n -> g_at h <> a) by (destruct Hfr as [E|E]; [by rewrite <- Ea in E|rewrite Ea; exact E]).
    set (w2 := stats_inc S_igmp F_tx_join _) in Hw3.
    assert (Hg2 : forall n, groups w2 n = groups w1 n) by (intros n; apply filter_groups).
    assert (Hnif : groups w2 nif = match groups w nif with [] => [g] | h :: t => h :: g :: t end) by (by rewrite Hg2, Hg, decide_True).
    destruct (join_new w2 nif g w3) as (f & r & t & Hr & Ht & Hfg & Htt); auto.
    { rewrite Hnif. destruct (groups w nif); set_solver. }
    { intros h. rewrite Hnif. intros Hh E. change (g_at g) with a in E. specialize (Hfresh nif h). destruct (groups w nif) as [|h0 t0].
      - by apply list_elem_of_singleton in Hh.
      - apply elem_of_cons in Hh as [->|[->|Hh]%elem_of_cons]; [|done|]; exfalso; apply Hfresh; auto; [left|by right]. }
    rewrite bool_decide_true by done. cbn [negb g_use g Z.eqb]. fold w2. rewrite Hw3. eexists _, _. split; [reflexivity|].
    left. split; [done|]. unfold joined. rewrite Ef. exists a, r, t. split; [done|]. split; [done|]. split; [done|].
    intros n. destruct Htt as [_ Htt]. rewrite Htt. destruct (decide (n = nif)) as [->|Hne].
    + rewrite Hnif. change (g_at g) with a. specialize (Hfresh nif). destruct (groups w nif) as [|h l].
      * cbn. by rewrite Z.eqb_refl, Hfg.
      * rewrite (update_fresh a f h g l) by done. by rewrite Hfg.
    + rewrite Hg2, Hg. by rewrite decide_False.
Qed.

(** The lists after a group was left. *)
Definition left_group w (nif : Z) (g : igmp_group) w' : Prop :=
  if g_use g <=? 1
  then forall n, groups w' n = if decide (n = nif)
    then match groups w nif with [] => [] | h :: t => h :: group_unlink (g_at g) t end else groups w n
  else touches nif (g_at g) (fun g => set_guse (u8 (g_use g - 1)) g) w w'.

Lemma update_gone a f l : a ∉ map g_at l -> update_at a f l = l.
Proof.
  intros Ha. unfold update_at. rewrite <- (map_id l) at 2. apply map_ext_in. intros g Hg.
  destruct (Z.eqb_spec (g_at g) a) as [<-|]; [|done]. exfalso. apply Ha. apply list_elem_of_In in Hg. by apply list_elem_of_fmap_2.
Qed.

Lemma group_leave_correct w nif addr :
  igmp_inv w -> joinable w nif addr ->
  match igmp_lookfor_group w nif addr with
  | None => igmp_leavegroup_netif netif_output custom_free fuel igmp_mac_filter ra w nif addr = Some (w, ERR_VAL)
  | Some g =>
      let w1 := stats_inc S_igmp F_tx_leave (igmp_remove_group w nif (g_at g)).1 in
      (g_use g <= 1 -> last_reporter_flag g <> 0 -> is_Some (igmp_send netif_output custom_free fuel ra w1 nif g IGMP_LEAVE_GROUP)) ->
      exists w', igmp_leavegroup_netif netif_output custom_free fuel igmp_mac_filter ra w nif addr = Some (w', ERR_OK) /\
        left_group w nif g w'
  end.
Proof.
  intros Hi Hj. unfold igmp_leavegroup_netif. rewrite guards, decide_True by done.
  destruct (igmp_lookfor_group w nif addr) as [g|] eqn:Ef; [|done]. cbv zeta. intros Hsend.
  unfold left_group. destruct (Z.leb_spec (g_use g) 1) as [Hu|Hu].
  2:{ eexists. split; [reflexivity|]. by apply touches_upd. }
  specialize (Hsend Hu). unfold igmp_remove_group in *.
  pose proof (found_member w nif addr g Hi Ef (proj1 (proj2 Hj))) as Hm.
  destruct (groups w nif) as [|h t] eqn:Eg; [by apply elem_of_nil in Hm|]. cbn [fst] in Hsend.
  set (w1 := set_groups w nif (h :: group_unlink (g_at g) t)) in *.
  assert (Hg1 : forall n, groups w1 n = if decide (n = nif) then h :: group_unlink (g_at g) t else groups w n) by (intros n; apply groups_set).
  assert (Hw3 : exists w3, (if negb (last_reporter_flag g =? 0)
    then igmp_send netif_output custom_free fuel ra (stats_inc S_igmp F_tx_leave w1) nif g IGMP_LEAVE_GROUP else Some w1) = Some w3 /\
    forall n, groups w3 n = groups w1 n).
  { destruct (Z.eqb_spec (last_reporter_flag g) 0) as [Er|Er]; [eauto|]. destruct (Hsend Er) as [w2 Hw2].
    exists w2. split; [done|]. apply send_touches in Hw2 as (f & [_ Ht] & Hc).
    destruct Hc as [->|[_ E]]; [|discriminate E]. intros n. rewrite Ht. destruct (decide (n = nif)) as [->|]; [|done].
    unfold update_at. rewrite (map_ext _ id); [by rewrite map_id|]. intros x. by destruct (_ =? _). }
  destruct Hw3 as (w3 & -> & Hg3). eexists. split; [reflexivity|]. intros n. etransitivity; [apply filter_groups|].
  by rewrite Hg3, Hg1.
Qed.

Lemma unlink_sublist a l : group_unlink a l `sublist_of` l.
Proof. induction l as [|g l IH]; simpl; [done|]. destruct (g_at g =? a); [by apply sublist_cons|by apply sublist_skip]. Qed.

Lemma unlink_Forall (P : igmp_group -> Prop) a l : Forall P l -> Forall P (group_unlink a l).
Proof. induction 1 as [|g l Hg Hl IH]; simpl; [constructor|]. destruct (g_at g =? a); [done|by constructor]. Qed.

Lemma unlink_ok a h t : groups_ok (h :: t) -> groups_ok (h :: group_unlink a t).
Proof.
  intros [H1 H2 H3 [H4 H5]]. pose proof (unlink_sublist a t) as Hs. constructor.
  - eapply sublist_NoDup; [exact H1|]. apply (fmap_sublist g_at _ (h :: t)). by apply sublist_skip.
  - eapply sublist_NoDup; [exact H2|]. apply (fmap_sublist group_address _ (h :: t)). by apply sublist_skip.
  - apply Forall_cons in H3 as [T1 T2]. constructor; [done|by apply unlink_Forall].
  - split; [done|]. by apply unlink_Forall.
Qed.

Lemma stop_groups w nif n : groups (igmp_stop igmp_mac_filter w nif).1 n = if decide (n = nif) then [] else groups w n.
Proof.
  unfold igmp_stop. cbn [fst]. rewrite <- (groups_set w nif [] n). generalize (set_groups w nif []). generalize (groups w nif) at 1.
  intros l. induction l as [|g l IH]; intros w1; [done|]. cbn [foldl]. rewrite IH. apply filter_groups.
Qed.

Lemma stop_inv w nif : igmp_inv w -> igmp_inv (igmp_stop igmp_mac_filter w nif).1.
Proof. intros Hi n. rewrite stop_groups. destruct (decide (n = nif)); [|apply Hi]. constructor; constructor. Qed.

(** What a call of [igmp_joingroup_netif] or [igmp_leavegroup_netif] that returned has done. *)
Lemma join_outcome w nif addr w' e :
  igmp_inv w -> fresh_group w ->
  igmp_joingroup_netif netif_output custom_free fuel rand igmp_mac_filter ra w nif addr = Some (w', e) ->
  if decide (joinable w nif addr)
  then (e = ERR_OK /\ joined w nif addr w') \/
       (e = ERR_MEM /\ igmp_lookfor_group w nif addr = None /\ forall n, groups w' n = groups w n)
  else w' = w /\ e = ERR_VAL.
Proof.
  intros Hi Hf H. destruct (decide (joinable w nif addr)) as [Hj|Hj].
  2:{ unfold igmp_joingroup_netif in H. rewrite guards, decide_False in H by done. by injection H as <- <-. }
  pose proof (group_join_correct w nif addr Hi Hf Hj) as Hc. destruct (igmp_lookup_group w nif addr) as [w1 r] eqn:El.
  destruct Hc as (w2 & e2 & H2 & Hc); [|rewrite H2 in H; by injection H as <- <-]. intros g -> Hs.
  unfold igmp_joingroup_netif in H. rewrite guards, decide_True, El, bool_decide_true in H by done. cbn [negb] in H.
  assert (Hu : g_use g = 0).
  { pose proof (lookup_spec w nif addr) as Hl. rewrite El in Hl.
    destruct Hl as [(g1 & [= <-] & -> & Ef)|[(? & _)|(a & [= ->] & _)]]; [exfalso|done|done].
    by destruct (inv_member _ _ _ Hi (found_member _ _ _ _ Hi Ef (proj1 (proj2 Hj)))) as (_ & Hn & _). }
  rewrite Hu, Z.eqb_refl in H. destruct (igmp_send _ _ _ _ _ _ _ _); [eauto|done].
Qed.

Lemma leave_outcome w nif addr w' e :
  igmp_inv w -> igmp_leavegroup_netif netif_output custom_free fuel igmp_mac_filter ra w nif addr = Some (w', e) ->
  match igmp_lookfor_group w nif addr with
  | Some g => if decide (joinable w nif addr) then e = ERR_OK /\ left_group w nif g w' else w' = w /\ e = ERR_VAL
  | None => w' = w /\ e = ERR_VAL
  end.
Proof.
  intros Hi H. destruct (decide (joinable w nif addr)) as [Hj|Hj].
  2:{ unfold igmp_leavegroup_netif in H. rewrite guards, decide_False in H by done. injection H as <- <-. by destruct (igmp_lookfor_group _ _ _). }
  pose proof (group_leave_correct w nif addr Hi Hj) as Hc. destruct (igmp_lookfor_group w nif addr) as [g|] eqn:Ef.
  2:{ rewrite Hc in H. by injection H as <- <-. }
  destruct Hc as (w2 & H2 & Hc); [|rewrite H2 in H; by injection H as <- <-]. intros Hu Hr.
  unfold igmp_leavegroup_netif in H. rewrite guards, decide_True, Ef in H by done.
  rewrite (proj2 (Z.leb_le _ _) Hu), (proj2 (Z.eqb_neq _ _) Hr) in H. destruct (igmp_remove_group _ _ _) as [w1 ?].
  cbn [negb fst] in *. destruct (igmp_send _ _ _ _ _ _ _ _); [eauto|done].
Qed.

Lemma joined_inv w nif addr w' :
  igmp_inv w -> joinable w nif addr -> groups w nif <> [] -> joined w nif addr w' -> igmp_inv w'.
Proof.
  intros Hi (Hmc & Hne & _) Hst Hj. unfold joined in Hj. pose proof (lookfor_spec w nif addr) as Hs.
  destruct (igmp_lookfor_group w nif addr) as [g|].
  - eapply inv_touches; [exact Hi|exact Hj| |].
    + intros h Hh _. destruct (inv_typed _ _ _ Hi Hh). split; simpl; [apply u8_range|lia].
    + intros h Hh _. exact (inv_member _ _ _ Hi Hh).
  - destruct Hj as (a & r & t & Hr & Ht & Hfr & Hg). intros n. rewrite Hg. destruct (decide (n = nif)) as [->|]; [|apply Hi].
    pose proof (Hi nif) as Hok. specialize (Hfr nif). destruct (groups w nif) as [|h l]; [done|]. apply insert_ok; [done| | |].
    + intros x Hx. split; [by apply Hfr|by apply Hs].
    + split; simpl; lia.
    + split; [done|]. split; [done|]. simpl. split; [lia|done].
Qed.

Lemma join_inv w nif addr w' e :
  igmp_inv w -> fresh_group w -> (joinable w nif addr -> groups w nif <> []) ->
  igmp_joingroup_netif netif_output custom_free fuel rand igmp_mac_filter ra w nif addr = Some (w', e) -> igmp_inv w'.
Proof.
  intros Hi Hf Hst H. apply join_outcome in H; auto. destruct (decide (joinable w nif addr)) as [Hj|]; [|by destruct H as [-> _]].
  destruct H as [[_ H]|(_ & _ & H)]; [|by apply (inv_same w)]. eapply joined_inv; eauto.
Qed.

Lemma leave_inv w nif addr w' e :
  igmp_inv w -> igmp_leavegroup_netif netif_output custom_free fuel igmp_mac_filter ra w nif addr = Some (w', e) -> igmp_inv w'.
Proof.
  intros Hi H. apply leave_outcome in H; [|done]. destruct (igmp_lookfor_group w nif addr) as [g|] eqn:Ef; [|by destruct H as [-> _]].
  destruct (decide (joinable w nif addr)) as [Hj|]; [|by destruct H as [-> _]]. destruct H as [_ H]. unfold left_group in H.
  destruct (Z.leb_spec (g_use g) 1) as [Hu|Hu].
  - intros n. rewrite H. destruct (decide (n = nif)) as [->|]; [|apply Hi]. pose proof (Hi nif) as Hok.
    destruct (groups w nif); [done|]. by apply unlink_ok.
  - eapply inv_touches; [exact Hi|exact H| |].
    + intros h Hh _. destruct (inv_typed _ _ _ Hi Hh). split; simpl; [apply u8_range|lia].
    + intros h Hh _. exact (inv_member _ _ _ Hi Hh).
Qed.

#[local] Instance igmp_inv_frame : ip_frame igmp_inv.
Proof. constructor; intros w **; by apply (inv_same w). Qed.

Lemma igmp_query_inv w nif dest igmp g : igmp_inv w -> igmp_inv (igmp_query rand w nif dest igmp g).
Proof.
  intros Hi. unfold igmp_query. cbv zeta. destruct (_ && _).
  - apply delay_members_inv. destruct (_ =? 0); by apply (inv_same w).
  - destruct (negb _); [|by apply (inv_same w)].
    destruct (if dest =? allsystems then _ else _); [|by apply (inv_same w)]. apply delaying_inv. by apply (inv_same w).
Qed.

Lemma report_inv w nif g : igmp_inv w -> g ∈ groups w nif -> igmp_inv (igmp_report w nif g).
Proof.
  intros Hi Hg. unfold igmp_report. case_bool_decide; [|by apply (inv_same w)].
  apply (inv_touches nif (g_at g) (fun g => set_reporter 0 (set_gstate Idle_member (set_gtimer 0 g))) w); [done| | |].
  - by apply (touches_upd nif (g_at g) (fun g => set_reporter 0 (set_gstate Idle_member (set_gtimer 0 g))) (stats_inc S_igmp F_rx_report w)).
  - intros h Hh _. destruct (inv_typed _ _ _ Hi Hh). split; simpl; lia.
  - intros h Hh _. destruct (inv_member _ _ _ Hi Hh) as (H1 & H2 & H3). split; [done|]. split; [done|]. simpl. split; [done|lia].
Qed.

Lemma input_keeps_inv w p inp dest w' : igmp_inv w -> igmp_input custom_free fuel rand w p inp dest = Some w' -> igmp_inv w'.
Proof.
  intros Hi. unfold igmp_input. cbv zeta.
  assert (Hfc : forall f, match wfree custom_free fuel (stats_inc S_igmp F_recv w) p with None => None | Some w => Some (stats_inc S_igmp f w) end = Some w' -> igmp_inv w').
  { intros f. destruct (wfree _ _ _ _) as [w1|] eqn:E; [|done]. intros [= <-]. frame. eapply (wfree_keeps _ _ igmp_inv); [exact E|]. by frame. }
  destruct (_ <? _); [apply Hfc|]. destruct (inet_chksum _ _ _ _); [|done]. destruct (negb _); [apply Hfc|].
  pose proof (lookfor_spec (stats_inc S_igmp F_recv w) inp dest) as Hs. destruct (igmp_lookfor_group _ _ _) as [g|]; [|apply Hfc].
  intros H. eapply (wfree_keeps _ _ igmp_inv); [exact H|]. destruct (_ =? IGMP_MEMB_QUERY); [by apply igmp_query_inv, (inv_same w)|].
  destruct (_ =? IGMP_V2_MEMB_REPORT); [apply report_inv; [by apply (inv_same w)|apply Hs]|by apply (inv_same w)].
Qed.

(** *** Runs *)

Definition join_call w w' : Prop :=
  exists nif addr e, igmp_joingroup_netif netif_output custom_free fuel rand igmp_mac_filter ra w nif addr = Some (w', e).

(** The interfaces that do IGMP have the group of all systems: [igmp_start] succeeded. *)
Definition started w : Prop :=
  forall nif, Z.land (netif_flags (netif_of w nif)) NETIF_FLAG_IGMP <> 0 -> groups w nif <> [].

Lemma join_loop_inv ifaddr addr l w err w' e :
  igmp_inv w -> (forall w1, rtc join_call w w1 -> fresh_group w1 /\ started w1) ->
  join_loop netif_output custom_free fuel rand igmp_mac_filter ra ifaddr addr w l err = Some (w', e) -> igmp_inv w'.
Proof.
  revert w err. induction l as [|nif l IH]; intros w err Hi Hr H; [by injection H as <- _|].
  cbn [join_loop] in H. destruct (joins_on w ifaddr nif); [|by apply (IH w err)].
  destruct (igmp_joingroup_netif _ _ _ _ _ _ w nif addr) as [[w1 e1]|] eqn:E; [|done].
  assert (Hi1 : igmp_inv w1).
  { destruct (Hr w ltac:(constructor)) as [Hf Hst]. apply (join_inv w nif addr w1 e1); auto. intros (_ & _ & Hfl). by apply Hst. }
  destruct (negb _); [by injection H as <- _|]. apply (IH w1 e1); auto. intros w2 H2. apply Hr.
  eapply rtc_l; [|exact H2]. by exists nif, addr, e1.
Qed.

Lemma leave_loop_inv ifaddr addr l w err w' e :
  igmp_inv w -> leave_loop netif_output custom_free fuel igmp_mac_filter ra ifaddr addr w l err = Some (w', e) -> igmp_inv w'.
Proof.
  revert w err. induction l as [|nif l IH]; intros w err Hi H; [by injection H as <- _|].
  cbn [leave_loop] in H. destruct (joins_on w ifaddr nif); [|by apply (IH w err)].
  destruct (igmp_leavegroup_netif _ _ _ _ _ w nif addr) as [[w1 e1]|] eqn:E; [|done].
  apply (IH w1 _ (leave_inv _ _ _ _ _ Hi E) H).
Qed.

(** The calls from the other parts of the stack and from the application; in between, the
    rest of the state may change. *)
Inductive igmp_step : world X -> world X -> Prop :=
| step_start w nif : igmp_step w (igmp_start igmp_mac_filter w nif).1
| step_stop w nif : igmp_step w (igmp_stop igmp_mac_filter w nif).1
| step_report_groups w nif : igmp_step w (igmp_report_groups rand w nif)
| step_tmr w w' : igmp_tmr netif_output custom_free fuel ra w = Some w' -> igmp_step w w'
| step_input w p inp dest w' : igmp_input custom_free fuel rand w p inp dest = Some w' -> igmp_step w w'
| step_join w ifaddr addr w' e :
    (forall w1, rtc join_call w w1 -> fresh_group w1 /\ started w1) ->
    igmp_joingroup netif_output custom_free fuel rand igmp_mac_filter ra w ifaddr addr = Some (w', e) -> igmp_step w w'
| step_join_netif w nif addr w' e :
    fresh_group w -> groups w nif <> [] ->
    igmp_joingroup_netif netif_output custom_free fuel rand igmp_mac_filter ra w nif addr = Some (w', e) -> igmp_step w w'
| step_leave w ifaddr addr w' e :
    igmp_leavegroup netif_output custom_free fuel igmp_mac_filter ra w ifaddr addr = Some (w', e) -> igmp_step w w'
| step_leave_netif w nif addr w' e :
    igmp_leavegroup_netif netif_output custom_free fuel igmp_mac_filter ra w nif addr = Some (w', e) -> igmp_step w w'
| step_other w w' : has_groups (groups w) w' -> igmp_step w w'.

Lemma igmp_step_inv w w' : igmp_step w w' -> igmp_inv w -> igmp_inv w'.
Proof.
  intros Hs Hi. destruct Hs as [w nif|w nif|w nif|w w' H|w p inp dest w' H|w ifa addr w' e Hf H|w nif addr w' e Hf Hst H|w ifa addr w' e H|w nif addr w' e H|w w' H].
  - by apply start_inv.
  - by apply stop_inv.
  - by apply delay_members_inv.
  - by eapply tmr_inv.
  - by eapply input_keeps_inv.
  - unfold igmp_joingroup in H. destruct (negb _); [by injection H as <- _|]. destruct (_ =? allsystems); [by injection H as <- _|].
    by eapply join_loop_inv.
  - by eapply join_inv.
  - unfold igmp_leavegroup in H. destruct (negb _); [by injection H as <- _|]. destruct (_ =? allsystems); [by injection H as <- _|].
    by eapply leave_loop_inv.
  - by eapply leave_inv.
  - by apply (inv_same w).
Qed.

(** *** Counting the members *)

(** How many times a group was joined and not left. *)
Definition uses w (nif addr : Z) : Z := match igmp_lookfor_group w nif addr with Some g => g_use g | None => 0 end.
Definition is_member w (nif addr : Z) : bool := bool_decide (is_Some (igmp_lookfor_group w nif addr)).








End Theorems.


(** ** Frames *)

(** What the functions of IGMP preserve besides: a property that does not depend on the
    lists of groups either. *)
Section Frames.
Context {X : Type} `{!igmp_store X}.
Context (netif_output : world X -> Z -> Z -> Z -> option (world X * Z)).
Context (custom_free : pstate -> Z -> pstate) (fuel : nat).
Context (rand : world X -> world X * Z) (igmp_mac_filter : world X -> Z -> option (world X -> Z -> bool -> world X)) (ra : Z).
Context (I : world X -> Prop) `{!ip_frame I} (Hout : output_keeps netif_output I).
Context (Hset : forall w nif l, I w -> I (set_groups w nif l)) (Hrand : forall w, I w -> I (rand w).1).
Context (Hmac : forall w nif addr add, I w -> I (mac_filter igmp_mac_filter w nif addr add)).
Implicit Types w : world X.

Lemma upd_group_keeps w nif a f : I w -> I (upd_group w nif a f).
Proof. apply Hset. Qed.

Lemma igmp_lookup_keeps w nif addr : I w -> I (igmp_lookup_group w nif addr).1.
Proof.
  intros Hi. unfold igmp_lookup_group. destruct (igmp_lookfor_group _ _ _); [done|]. destruct (memp_malloc _ _) as [ps a]. cbv zeta.
  destruct (a =? NULL); cbn [fst]; [by frame|]. apply Hset. by frame.
Qed.

Lemma igmp_start_keeps w nif : I w -> I (igmp_start igmp_mac_filter w nif).1.
Proof.
  intros Hi. unfold igmp_start. pose proof (igmp_lookup_keeps w nif allsystems Hi) as H.
  destruct (igmp_lookup_group w nif allsystems) as [w1 [g|]]; [|done]. cbn [fst] in *. by apply Hmac, upd_group_keeps, upd_group_keeps.
Qed.

Lemma igmp_stop_keeps w nif : I w -> I (igmp_stop igmp_mac_filter w nif).1.
Proof.
  intros Hi. unfold igmp_stop. cbn [fst]. generalize (groups w nif). intros l. apply (Hset w nif []) in Hi. revert Hi.
  generalize (set_groups w nif []). induction l as [|g l IH]; intros w1 Hi; [done|]. cbn [foldl]. apply IH. frame.
Qed.

Lemma igmp_timer_keeps w nif a t : I w -> I (igmp_start_timer rand w nif a t).
Proof.
  intros Hi. unfold igmp_start_timer. destruct (2 <? t); [|by apply upd_group_keeps].
  destruct (rand w) as [w1 r] eqn:E. apply upd_group_keeps. specialize (Hrand w Hi). by rewrite E in Hrand.
Qed.

Lemma igmp_delaying_keeps w nif g t : I w -> I (igmp_delaying_member rand w nif g t).
Proof. intros Hi. unfold igmp_delaying_member. destruct (_ || _); [|done]. by apply upd_group_keeps, igmp_timer_keeps. Qed.

Lemma delay_members_keeps w nif t : I w -> I (delay_members rand w nif t).
Proof.
  unfold delay_members. generalize (tl (groups w nif)). intros l. revert w. induction l as [|g l IH]; intros w Hi; [done|].
  cbn [foldl]. by apply IH, igmp_delaying_keeps.
Qed.

Lemma igmp_transmit_keeps w p nif g type dest w' : igmp_transmit netif_output custom_free fuel ra w p nif g type dest = Some w' -> I w -> I w'.
Proof.
  unfold igmp_transmit. cbv zeta. destruct (inet_chksum _ _ _ _); [|done].
  destruct (igmp_ip_output_if _ _ _ _ _ _ _ _ _) as [[w1 r]|] eqn:E; [|done]. intros H Hi.
  eapply (wfree_keeps _ _ I); [exact H|]. unfold igmp_ip_output_if in E.
  eapply (ip4_output_if_opt_src_keeps _ _ _ I Hout); [exact E|]. frame.
Qed.

Lemma igmp_send_keeps w nif g type w' : igmp_send netif_output custom_free fuel ra w nif g type = Some w' -> I w -> I w'.
Proof.
  unfold igmp_send. destruct (pbuf_alloc _ _ _ _ _ _) as [[st p]|]; [|done]. cbv zeta. intros H Hi.
  destruct (negb _); [|injection H as <-; by frame]. destruct (_ =? IGMP_V2_MEMB_REPORT).
  - eapply igmp_transmit_keeps; [exact H|]. apply upd_group_keeps. by frame.
  - destruct (_ =? IGMP_LEAVE_GROUP); [eapply igmp_transmit_keeps; [exact H|]|eapply (wfree_keeps _ _ I); [exact H|]]; by frame.
Qed.

Lemma igmp_tmr_keeps w w' : igmp_tmr netif_output custom_free fuel ra w = Some w' -> I w -> I w'.
Proof.
  assert (Hg : forall nif l ow, match ow with Some w => I w | None => True end ->
    match foldl (igmp_tmr_group netif_output custom_free fuel ra nif) ow l with Some w => I w | None => True end).
  { intros nif l. induction l as [|g l IH]; intros ow Hi; [done|]. cbn [foldl]. apply IH. destruct ow as [w1|]; [|done]. simpl.
    destruct (0 <? _); [|done]. destruct (_ =? 0); [|by apply upd_group_keeps]. unfold igmp_timeout. destruct (_ && _); [|by apply upd_group_keeps].
    destruct (igmp_send _ _ _ _ _ _ _ _) as [w2|] eqn:E; [|done]. eapply igmp_send_keeps; [exact E|]. frame.
    by apply upd_group_keeps, upd_group_keeps. }
  unfold igmp_tmr. intros H Hi. revert H. generalize (netif_list (w_netifs w)). intros l H.
  assert (Hl : forall ow, match ow with Some w => I w | None => True end ->
    match foldl (fun ow nif => match ow with None => None | Some w => foldl (igmp_tmr_group netif_output custom_free fuel ra nif) (Some w) (groups w nif) end) ow l with
    Some w => I w | None => True end).
  { clear H. induction l as [|n l IH]; intros ow Ho; [done|]. cbn [foldl]. apply IH. destruct ow; [|done]. by apply Hg. }
  specialize (Hl (Some w) Hi). by rewrite H in Hl.
Qed.

Lemma igmp_join_keeps w nif addr w' e :
  igmp_joingroup_netif netif_output custom_free fuel rand igmp_mac_filter ra w nif addr = Some (w', e) -> I w -> I w'.
Proof.
  unfold igmp_joingroup_netif. destruct (negb _); [by intros [= <- _]|]. destruct (_ =? allsystems); [by intros [= <- _]|].
  destruct (_ =? 0); [by intros [= <- _]|]. intros H Hi. pose proof (igmp_lookup_keeps w nif addr Hi) as Hl.
  destruct (igmp_lookup_group w nif addr) as [w1 [g|]]; [|by injection H as <- _]. cbn [fst] in Hl.
  destruct (negb _); [injection H as <- _; by apply upd_group_keeps|].
  destruct (igmp_send _ _ _ _ _ _ _ _) as [w2|] eqn:E; [|done]. injection H as <- _.
  apply upd_group_keeps, upd_group_keeps, igmp_timer_keeps. eapply igmp_send_keeps; [exact E|]. frame. destruct (_ =? 0); auto.
Qed.

Lemma igmp_leave_keeps w nif addr w' e :
  igmp_leavegroup_netif netif_output custom_free fuel igmp_mac_filter ra w nif addr = Some (w', e) -> I w -> I w'.
Proof.
  unfold igmp_leavegroup_netif. destruct (negb _); [by intros [= <- _]|]. destruct (_ =? allsystems); [by intros [= <- _]|].
  destruct (_ =? 0); [by intros [= <- _]|]. intros H Hi. destruct (igmp_lookfor_group w nif addr) as [g|]; [|by injection H as <- _].
  destruct (_ <=? 1); [|injection H as <- _; by apply upd_group_keeps].
  assert (Hr : I (igmp_remove_group w nif (g_at g)).1) by (unfold igmp_remove_group; destruct (groups w nif); [done|by apply Hset]).
  destruct (igmp_remove_group w nif (g_at g)) as [w1 ?]. cbn [fst] in Hr. destruct (negb _).
  - destruct (igmp_send _ _ _ _ _ _ _ _) as [w2|] eqn:E; [|done]. injection H as <- _. frame. apply Hmac.
    eapply igmp_send_keeps; [exact E|]. by frame.
  - injection H as <- _. frame.
Qed.

Lemma igmp_joingroup_keeps w ifaddr addr w' e :
  igmp_joingroup netif_output custom_free fuel rand igmp_mac_filter ra w ifaddr addr = Some (w', e) -> I w -> I w'.
Proof.
  unfold igmp_joingroup. destruct (negb _); [by intros [= <- _]|]. destruct (_ =? allsystems); [by intros [= <- _]|].
  generalize (netif_list (w_netifs w)), ERR_VAL. intros l. revert w. induction l as [|n l IH]; intros w e0 H Hi; [by injection H as <- _|].
  cbn [join_loop] in H. destruct (joins_on _ _ _); [|eauto]. destruct (igmp_joingroup_netif _ _ _ _ _ _ _ _ _) as [[w1 e1]|] eqn:E; [|done].
  apply igmp_join_keeps in E; [|done]. destruct (negb _); [by injection H as <- _|eauto].
Qed.

Lemma igmp_leavegroup_keeps w ifaddr addr w' e :
  igmp_leavegroup netif_output custom_free fuel igmp_mac_filter ra w ifaddr addr = Some (w', e) -> I w -> I w'.
Proof.
  unfold igmp_leavegroup. destruct (negb _); [by intros [= <- _]|]. destruct (_ =? allsystems); [by intros [= <- _]|].
  generalize (netif_list (w_netifs w)), ERR_VAL. intros l. revert w. induction l as [|n l IH]; intros w e0 H Hi; [by injection H as <- _|].
  cbn [leave_loop] in H. destruct (joins_on _ _ _); [|eauto]. destruct (igmp_leavegroup_netif _ _ _ _ _ _ _ _) as [[w1 e1]|] eqn:E; [|done].
  apply igmp_leave_keeps in E; [|done]. eauto.
Qed.

Lemma igmp_input_keeps w p inp dest w' : igmp_input custom_free fuel rand w p inp dest = Some w' -> I w -> I w'.
Proof.
  intros H Hi. unfold igmp_input in H. cbv zeta in H.
  assert (Hfc : forall f, match wfree custom_free fuel (stats_inc S_igmp F_recv w) p with None => None | Some w => Some (stats_inc S_igmp f w) end = Some w' -> I w').
  { intros f. destruct (wfree _ _ _ _) as [w1|] eqn:E; [|done]. intros [= <-]. frame. eapply (wfree_keeps _ _ I); [exact E|]. by frame. }
  destruct (_ <? _); [by eapply Hfc|]. destruct (inet_chksum _ _ _ _); [|done]. destruct (negb _); [by eapply Hfc|].
  destruct (igmp_lookfor_group _ _ _) as [g|]; [|by eapply Hfc].
  eapply (wfree_keeps _ _ I); [exact H|]. destruct (_ =? IGMP_MEMB_QUERY); [|destruct (_ =? IGMP_V2_MEMB_REPORT); [|by frame]].
  - unfold igmp_query. cbv zeta. destruct (_ && _); [apply delay_members_keeps; destruct (_ =? 0); by frame|].
    destruct (negb _); [|by frame]. destruct (if dest =? allsystems then _ else _); [|by frame]. apply igmp_delaying_keeps. by frame.
  - unfold igmp_report. case_bool_decide; [apply upd_group_keeps|]; by frame.
Qed.

End Frames.

(** What the rest of the system does to the lists of groups: nothing. *)
Record groups_private {X} `{!igmp_store X} (netif_output : world X -> Z -> Z -> Z -> option (world X * Z))
    (rand : world X -> world X * Z) (igmp_mac_filter : world X -> Z -> option (world X -> Z -> bool -> world X)) : Prop := {
  gp_output : forall G, output_keeps netif_output (has_groups G);
  gp_rand : forall w G, has_groups G w -> has_groups G (rand w).1;
  gp_filter : forall nif f w addr add G, igmp_mac_filter w nif = Some f -> has_groups G w -> has_groups G (f w addr add)
}.

(** *** Examples *)

#[export] Instance groups_map : igmp_store (gmap Z (list igmp_group)).
Proof.
  refine {| netif_igmp_data x n := default [] (x !! n); netif_set_igmp_data x n l := <[n := l]> x |}.
  intros x n l n'. destruct (decide (n' = n)) as [->|]; [by rewrite lookup_insert_eq|by rewrite lookup_insert_ne].
Defined.

(** The board of [world0] with three free groups; [rand] gives the counter of reports. *)
Definition group_desc : memp_desc := mk_desc 16 3 538003000.
Definition igmp_world0 : world (gmap Z (list igmp_group)) :=
  mk_world ∅ (set_pools net_st (<[6%nat := memp_init_pool group_desc (mk_pool 0 ∅ (mk_stats 0 0 0 0 0))]> net_pools))
    (w_netifs world0) 7 NULL (mk_ipg 0 0 0 0 0 0) [] 0 [] ∅ 0xc000 (fun _ _ => 0).
Definition a_group : Z := PP_HTONL 0xe00000fb.
Definition rand3 (w : world (gmap Z (list igmp_group))) := (w, 3).
Definition no_filter (_ : world (gmap Z (list igmp_group))) (nif : Z) : option (world (gmap Z (list igmp_group)) -> Z -> bool -> world (gmap Z (list igmp_group))) := None.
Definition igmp_world1 := (igmp_start no_filter igmp_world0 4000).1.
Definition join_example w := igmp_joingroup_netif sink (fun st _ => st) 20%nat rand3 no_filter 3000 w 4000 a_group.
Definition leave_example w := igmp_leavegroup_netif sink (fun st _ => st) 20%nat no_filter 3000 w 4000 a_group.

Lemma example_private : groups_private (X := gmap Z (list igmp_group)) sink rand3 no_filter.
Proof. constructor; [by intros G w nif p dest w' r [= <- _]|done|done]. Qed.

Lemma world1_groups n :
  groups igmp_world1 n = if decide (n = 4000) then [mk_group 538003032 allsystems 0 Idle_member 0 1] else [].
Proof.
  unfold groups. replace (w_ext igmp_world1) with ({[4000 := [mk_group 538003032 allsystems 0 Idle_member 0 1]]} : gmap Z (list igmp_group))
    by (vm_compute; reflexivity).
  cbn [netif_igmp_data groups_map]. destruct (decide (n = 4000)) as [->|Hn]; [done|]. by rewrite lookup_singleton_ne.
Qed.


Lemma world1_fresh : fresh_group igmp_world1.
Proof.
  right. change (memp_malloc (ps_pools (w_ps igmp_world1)) MEMP_IGMP_GROUP).2 with 538003016. intros n g. rewrite world1_groups.
  destruct (decide (n = 4000)); [|by intros ?%elem_of_nil]. intros ->%list_elem_of_singleton. simpl. lia.
Qed.

(** C31: From lists without groups on, whatever IGMP packets, timer ticks and calls follow,
    every list has the group of all systems first, each group once and at a place of its
    own, fields in the ranges of their types, and behind the first group only multicast
    groups that were joined, whose timer runs just while a report is delayed.  A group
    is taken from the pool only while no list holds it, and a join waits for
    [igmp_start]. *)
Theorem igmp_safe {X : Type} `{!igmp_store X} netif_output custom_free fuel rand igmp_mac_filter ra (w0 w : world X) :
  groups_private netif_output rand igmp_mac_filter -> (forall n, groups w0 n = []) ->
  rtc (igmp_step netif_output custom_free fuel rand igmp_mac_filter ra) w0 w -> forall n, groups_ok (groups w n).
Proof.
  intros [H1 H2 H3] H0 Hs. assert (Hi : igmp_inv w0) by (intros n; rewrite H0; constructor; constructor). clear H0.
  change (igmp_inv w). induction Hs as [w|w w1 w2 Hs _ IH]; [done|]. apply IH. by eapply igmp_step_inv.
Qed.

Lemma igmp_safe_witness :
  exists w, join_example igmp_world1 = Some (w, ERR_OK) /\ length (groups w 4000) = 2%nat /\ groups_ok (groups w 4000).
Proof.
  assert (Hr : match join_example igmp_world1 with Some (w, e) => e = ERR_OK /\ length (groups w 4000) = 2%nat | None => False end)
    by (vm_compute; auto).
  destruct (join_example igmp_world1) as [[w e]|] eqn:E; [|destruct Hr]. destruct Hr as [-> Hr]. exists w. split; [done|]. split; [done|].
  apply (igmp_safe sink (fun st _ => st) 20%nat rand3 no_filter 3000 igmp_world0 w); [apply example_private| |].
  - intros n. unfold groups. cbn [igmp_world0 w_ext netif_igmp_data groups_map]. by rewrite lookup_empty.
  - eapply rtc_l; [apply (step_start sink (fun st _ => st) 20%nat rand3 no_filter 3000 igmp_world0 4000)|]. apply rtc_once.
    eapply step_join_netif; [apply world1_fresh| |exact E]. change (groups igmp_world1 4000 <> []). by rewrite world1_groups.
Defined.



(** *** Two limits *)

Definition after_join (ow : option (world (gmap Z (list igmp_group)))) : option (world (gmap Z (list igmp_group))) :=
  match ow with None => None | Some w => fst <$> join_example w end.

(** [use] has eight bits: after 257 joins, one leave ends the membership. *)
Lemma use_wraps :
  match Nat.iter 257 after_join (Some igmp_world1) with
  | Some w => uses w 4000 a_group = 1 /\
      match leave_example w with Some (w', e) => e = ERR_OK /\ is_member w' 4000 a_group = false | None => False end
  | None => False
  end.
Proof. vm_compute. auto. Qed.

(** When [igmp_start] had no memory, the first group that is joined is taken for the one of
    all systems: leaving it frees the group and does not unlink it, and the next group
    comes from the same memory. *)
Lemma first_group_dangles :
  match join_example igmp_world0 with
  | Some (w, e) =>
      match leave_example w with
      | Some (w', e') => e = ERR_OK /\ e' = ERR_OK /\ map g_at (groups w' 4000) = [538003032] /\
          (memp_malloc (ps_pools (w_ps w')) MEMP_IGMP_GROUP).2 = 538003032
      | None => False
      end
  | None => False
  end.
Proof. vm_compute. auto. Qed.
