(* ===== verification/Ip4Reass.v ===== *)
(** * [core/ipv4/ip4_frag.c]: reassembly of incoming fragments

    The fragments of a datagram wait in a list that is kept inside the packets: the
    first eight bytes of the IP header of a waiting fragment are overwritten with a
    [struct ip_reass_helper], the address of the next fragment and the range of bytes
    the fragment covers.  [IP_REASS_CHECK_OVERLAP] and [IP_REASS_FREE_OLDEST] are 1. *)

From Stdlib Require Import ZArith Lia.
From stdpp Require Import base tactics numbers list option gmap.
From S2P Require Import Prelude.
From S2P Require Import Def.
From S2P Require Import Ip4Addr.
From S2P Require Import Alloc.
From S2P Require Import Mem.
From S2P Require Import Memp.
From S2P Require Import Pbuf.
From S2P Require Import PbufChain.
From S2P Require Import World.
From S2P Require Import Ip4Frag.
From S2P Require Import Ip4.
From S2P Require Import Icmp.

Definition IP_REASS_FLAG_LASTFRAG : Z := 1.
Definition IP_REASS_MAXAGE : Z := 3.
Definition IP_REASS_MAX_PBUFS : Z := 10.

(** ** [struct ip_reass_helper] at the start of a payload *)

Definition iprh_next (m : memory) (a : Z) : Z := ld32 m a.
Definition iprh_start (m : memory) (a : Z) : Z := ld16 m (a + 4).
Definition iprh_end (m : memory) (a : Z) : Z := ld16 m (a + 6).
Definition set_iprh_next (m : memory) (a v : Z) : memory := st32 m a v.

(** ** [struct ip_reassdata] *)

Definition set_rd_p (r : ip_reassdata) v := mk_rd (rd_addr r) v (rd_iphdr r) (rd_datagram_len r) (rd_flags r) (rd_timer r).
Definition set_rd_iphdr (r : ip_reassdata) v := mk_rd (rd_addr r) (rd_p r) v (rd_datagram_len r) (rd_flags r) (rd_timer r).
Definition set_rd_len (r : ip_reassdata) v := mk_rd (rd_addr r) (rd_p r) (rd_iphdr r) v (rd_flags r) (rd_timer r).
Definition set_rd_flags (r : ip_reassdata) v := mk_rd (rd_addr r) (rd_p r) (rd_iphdr r) (rd_datagram_len r) v (rd_timer r).
Definition set_rd_timer (r : ip_reassdata) v := mk_rd (rd_addr r) (rd_p r) (rd_iphdr r) (rd_datagram_len r) (rd_flags r) v.

(** [IP_ADDRESSES_AND_ID_MATCH]: the same source, destination and identification. *)
Definition IP_ADDRESSES_AND_ID_MATCH (r : ip_reassdata) (m : memory) (fraghdr : Z) : bool :=
  let h i := nth i (rd_iphdr r) 0 in
  (h 12%nat + 256 * h 13%nat + 65536 * h 14%nat + 16777216 * h 15%nat =? IPH_SRC m fraghdr) &&
  (h 16%nat + 256 * h 17%nat + 65536 * h 18%nat + 16777216 * h 19%nat =? IPH_DEST m fraghdr) &&
  (h 4%nat + 256 * h 5%nat =? IPH_ID m fraghdr).

(** The fragment offset field of the stored header, in host order. *)
Definition rd_offset (r : ip_reassdata) : Z :=
  lwip_htons (nth 6 (rd_iphdr r) 0 + 256 * nth 7 (rd_iphdr r) 0).

(** ** Chaining a fragment *)

(** Where the loop over the waiting fragments ends: the fragment was linked in front
    of [q] (or [q] is [NULL]), or it is to be freed. *)
Inductive placed :=
  | Placed (m : memory) (head q iprh_prev : Z) (valid : bool)
  | Freepbuf (m : memory).

(** A round of the loop; [at_] gives the payload of a pbuf and [head] is [ipr->p]. *)
Definition chain_frag_step (at_ : Z -> Z) (new_p iprh head : Z)
    : memory * Z * Z * bool -> (memory * Z * Z * bool) + placed :=
  fun '(m, q, iprh_prev, valid) =>
    if q =? NULL then inr (Placed m head q iprh_prev valid)
    else
      let iprh_tmp := at_ q in
      if iprh_start m iprh <? iprh_start m iprh_tmp then
        let m := set_iprh_next m iprh q in
        if negb (iprh_prev =? NULL) then
          if (iprh_start m iprh <? iprh_end m iprh_prev) || (iprh_start m iprh_tmp <? iprh_end m iprh)
          then inr (Freepbuf m)
          else inr (Placed (set_iprh_next m iprh_prev new_p) head q iprh_prev valid)
        else inr (Placed m new_p q iprh_prev valid)
      else if iprh_start m iprh =? iprh_start m iprh_tmp then inr (Freepbuf m)
      else if iprh_start m iprh <? iprh_end m iprh_tmp then inr (Freepbuf m)
      else
        let valid := if negb (iprh_prev =? NULL) && negb (iprh_end m iprh_prev =? iprh_start m iprh_tmp)
                     then false else valid in
        inl (m, iprh_next m iprh_tmp, iprh_tmp, valid).

(** The part behind the loop: a fragment that comes last is chained to the end. *)
Definition chain_append (new_p iprh : Z) (m : memory) (head q iprh_prev : Z) (valid : bool) : memory * Z * bool :=
  if q =? NULL then
    if negb (iprh_prev =? NULL) then
      let m := set_iprh_next m iprh_prev new_p in
      (m, head, if negb (iprh_end m iprh_prev =? iprh_start m iprh) then false else valid)
    else (m, new_p, valid)
  else (m, head, valid).

(** The walk that checks for holes behind the new fragment. *)
Definition no_holes_behind (at_ : Z -> Z) (m : memory) (fuel : nat) (iprh : Z) : option bool :=
  loop fuel (fun '(iprh_prev, q) =>
    if q =? NULL then inr true
    else
      let iprh := at_ q in
      if negb (iprh_end m iprh_prev =? iprh_start m iprh) then inr false
      else inl (iprh, iprh_next m iprh)) (iprh, iprh_next m iprh).

(** The validation: the result of the function. *)
Definition chain_validate (at_ : Z -> Z) (m : memory) (fuel : nat) (ipr : ip_reassdata) (iprh : Z) (valid : bool)
    : option bool :=
  if negb (Z.land (rd_flags ipr) IP_REASS_FLAG_LASTFRAG =? 0) && valid then
    if (rd_p ipr =? NULL) || negb (iprh_start m (at_ (rd_p ipr)) =? 0) then Some false
    else no_holes_behind at_ m fuel iprh
  else Some false.

(** The helper struct that replaces the header of [new_p]. *)
Definition write_helper (m : memory) (iprh : Z) : memory :=
  let len := u16 (lwip_htons (IPH_LEN m iprh) - IPH_HL m iprh * 4) in
  let offset := u16 (Z.land (lwip_htons (IPH_OFFSET m iprh)) IP_OFFMASK * 8) in
  let m := set_iprh_next m iprh NULL in
  let m := st16 m (iprh + 4) offset in
  st16 m (iprh + 6) (u16 (offset + len)).

Section Reass.
Context {X : Type}.
Context (netif_output : world X -> Z -> Z -> Z -> option (world X * Z)).
Context (custom_free : pstate -> Z -> pstate) (fuel : nat).
Implicit Types w : world X.

(** [ip_reass_chain_frag_into_datagram_and_validate(ipr, new_p)]: the datagram, and
    whether it is complete. *)
Definition ip_reass_chain_frag w (ipr : ip_reassdata) (new_p : Z) : option (world X * ip_reassdata * bool) :=
  let at_ := payload w in
  let iprh := at_ new_p in
  let m := write_helper (wmem w) iprh in
  match loop fuel (chain_frag_step at_ new_p iprh (rd_p ipr)) (m, rd_p ipr, NULL, true) with
  | None => None
  | Some (Freepbuf m) =>
      let w := set_wmem w m in
      match pbuf_clen fuel (w_ps w) new_p with
      | None => None
      | Some n =>
          let w := set_reass w (reassdatagrams w) (u16 (ip_reass_pbufcount w - n)) in
          match wfree custom_free fuel w new_p with None => None | Some w => Some (w, ipr, false) end
      end
  | Some (Placed m head q iprh_prev valid) =>
      let '(m, head, valid) := chain_append new_p iprh m head q iprh_prev valid in
      let ipr := set_rd_p ipr head in
      match chain_validate at_ m fuel ipr iprh valid with None => None | Some b => Some (set_wmem w m, ipr, b) end
  end.

(** ** The list of datagrams *)

(** The entry with the address of [r] replaced by [r]. *)
Definition rd_update (r : ip_reassdata) (l : list ip_reassdata) : list ip_reassdata :=
  map (fun x => if rd_addr x =? rd_addr r then r else x) l.

(** [ip_reass_dequeue_datagram(ipr, prev)]: unlinks [ipr] behind [prev], which is its
    predecessor in the list. *)
Fixpoint rd_remove (a : Z) (l : list ip_reassdata) : list ip_reassdata :=
  match l with [] => [] | x :: l => if rd_addr x =? a then l else x :: rd_remove a l end.
Definition ip_reass_dequeue_datagram w (a : Z) : world X :=
  let w := set_reass w (rd_remove a (reassdatagrams w)) (ip_reass_pbufcount w) in
  set_wps w (set_pools (w_ps w) (memp_free (ps_pools (w_ps w)) MEMP_REASSDATA a)).

(** [ip_reass_free_complete_datagram(ipr, prev)]: the number of pbufs freed. *)
Definition ip_reass_free_complete_datagram w (ipr : ip_reassdata) : option (world X * Z) :=
  let free_one w p pbufs_freed :=
    match pbuf_clen fuel (w_ps w) p with
    | None => None
    | Some clen => match wfree custom_free fuel w p with None => None | Some w => Some (w, u16 (pbufs_freed + clen)) end
    end in
  let a := payload w (rd_p ipr) in
  match (if iprh_start (wmem w) a =? 0 then
           let p := rd_p ipr in
           let next := iprh_next (wmem w) a in
           let w := set_wmem w (write_bytes (wmem w) a (rd_iphdr ipr)) in
           match icmp_time_exceeded netif_output custom_free fuel w p ICMP_TE_FRAG with
           | None => None
           | Some w => match free_one w p 0 with None => None | Some (w, n) => Some (w, next, n) end
           end
         else Some (w, rd_p ipr, 0)) with
  | None => None
  | Some (w, p, pbufs_freed) =>
      match loop fuel (fun '(w, p, pbufs_freed) =>
              if negb (p =? NULL) then
                let pcur := p in
                let p := iprh_next (wmem w) (payload w p) in
                match free_one w pcur pbufs_freed with
                | None => inr None
                | Some (w, n) => inl (w, p, n)
                end
              else inr (Some (w, pbufs_freed))) (w, p, pbufs_freed) with
      | None | Some None => None
      | Some (Some (w, pbufs_freed)) =>
          let w := ip_reass_dequeue_datagram w (rd_addr ipr) in
          Some (set_reass w (reassdatagrams w) (u16 (ip_reass_pbufcount w - pbufs_freed)), pbufs_freed)
      end
  end.

(** [ip_reass_tmr]: the datagrams of the list at the start, one after the other. *)
Definition ip_reass_tmr w : option (world X) :=
  foldl (fun (ow : option (world X)) r =>
    match ow with
    | None => None
    | Some w =>
        if 0 <? rd_timer r
        then Some (set_reass w (rd_update (set_rd_timer r (rd_timer r - 1)) (reassdatagrams w)) (ip_reass_pbufcount w))
        else match ip_reass_free_complete_datagram w r with None => None | Some (w, _) => Some w end
    end) (Some w) (reassdatagrams w).

(** The oldest datagram that [fraghdr] does not belong to, and how many there are. *)
Definition oldest_other (m : memory) (fraghdr : Z) (l : list ip_reassdata) : option ip_reassdata * Z :=
  foldl (fun '(oldest, n) r =>
    if negb (IP_ADDRESSES_AND_ID_MATCH r m fraghdr) then
      (match oldest with
       | None => Some r
       | Some o => if rd_timer r <=? rd_timer o then Some r else oldest
       end, n + 1)
    else (oldest, n)) (None, 0) l.

(** [ip_reass_remove_oldest_datagram(fraghdr, pbufs_needed)] *)
Definition ip_reass_remove_oldest_datagram w (fraghdr pbufs_needed : Z) : option (world X * Z) :=
  match loop fuel (fun '(w, pbufs_freed) =>
          let '(oldest, other_datagrams) := oldest_other (wmem w) fraghdr (reassdatagrams w) in
          match (match oldest with
                 | None => Some (w, 0)
                 | Some r => ip_reass_free_complete_datagram w r
                 end) with
          | None => inr None
          | Some (w, n) =>
              let pbufs_freed := pbufs_freed + n in
              if (pbufs_freed <? pbufs_needed) && (1 <? other_datagrams) then inl (w, pbufs_freed)
              else inr (Some (w, pbufs_freed))
          end) (w, 0) with
  | None | Some None => None
  | Some (Some r) => Some r
  end.

(** [ip_reass_enqueue_new_datagram(fraghdr, clen)]: [None] in the result is [NULL]. *)
Definition ip_reass_enqueue_new_datagram w (fraghdr clen : Z) : option (world X * option ip_reassdata) :=
  let alloc w :=
    let '(ps, a) := memp_malloc (ps_pools (w_ps w)) MEMP_REASSDATA in (set_wps w (set_pools (w_ps w) ps), a) in
  let fail w := Some (stats_inc S_ip_frag F_memerr w, None) in
  let enqueue w a :=
    let ipr := mk_rd a 0 (bytes_at (wmem w) fraghdr 20) 0 0 IP_REASS_MAXAGE in
    Some (set_reass w (ipr :: reassdatagrams w) (ip_reass_pbufcount w), Some ipr) in
  let '(w, a) := alloc w in
  if a =? NULL then
    match ip_reass_remove_oldest_datagram w fraghdr clen with
    | None => None
    | Some (w, n) =>
        if clen <=? n then let '(w, a) := alloc w in if a =? NULL then fail w else enqueue w a else fail w
    end
  else enqueue w a.

(** The loop of [ip4_reass] that chains the fragments behind the first one. *)
Definition join_step (p : Z) : world X * Z -> (world X * Z) + option (world X) :=
  fun '(w, r) =>
    if negb (r =? NULL) then
      let iprh := payload w r in
      let w := set_wps w (fst (pbuf_header (w_ps w) r (- IP_HLEN))) in
      match pbuf_cat fuel (w_ps w) p r with
      | None => inr None
      | Some st => let w := set_wps w st in inl (w, iprh_next (wmem w) iprh)
      end
    else inr (Some w).
Definition reass_join w (p r : Z) : option (world X) :=
  match loop fuel (join_step p) (w, r) with None | Some None => None | Some (Some w) => Some w end.

(** The end of [ip4_reass] for a complete datagram. *)
Definition reass_finish w (ipr : ip_reassdata) : option (world X * Z) :=
  let datagram_len := u16 (rd_datagram_len ipr + IP_HLEN) in
  let p := rd_p ipr in
  let fraghdr := payload w p in
  let r := iprh_next (wmem w) fraghdr in
  let m := write_bytes (wmem w) fraghdr (rd_iphdr ipr) in
  let m := IPH_LEN_SET m fraghdr (lwip_htons datagram_len) in
  let m := IPH_OFFSET_SET m fraghdr 0 in
  let m := IPH_CHKSUM_SET m fraghdr 0 in
  match reass_join (set_wmem w m) p r with
  | None => None
  | Some w =>
      let w := ip_reass_dequeue_datagram w (rd_addr ipr) in
      match pbuf_clen fuel (w_ps w) p with
      | None => None
      | Some n => Some (set_reass w (reassdatagrams w) (u16 (ip_reass_pbufcount w - n)), p)
      end
  end.

(** The label [nullreturn]. *)
Definition reass_nullreturn w (p : Z) : option (world X * Z) :=
  match wfree custom_free fuel (stats_inc S_ip_frag F_drop w) p with None => None | Some w => Some (w, NULL) end.

(** The part of [ip4_reass] behind the search: [ipr] is the fragment's datagram. *)
Definition reass_add w (ipr : ip_reassdata) (p clen : Z) : option (world X * Z) :=
  let fraghdr := payload w p in
  let m := wmem w in
  let offset := u16 (Z.land (lwip_htons (IPH_OFFSET m fraghdr)) IP_OFFMASK * 8) in
  let len := u16 (lwip_htons (IPH_LEN m fraghdr) - IPH_HL m fraghdr * 4) in
  let ipr := if Z.land (IPH_OFFSET m fraghdr) (PP_HTONS IP_MF) =? 0
             then set_rd_len (set_rd_flags ipr (Z.lor (rd_flags ipr) IP_REASS_FLAG_LASTFRAG)) (u16 (offset + len))
             else ipr in
  let w := set_reass w (reassdatagrams w) (u16 (ip_reass_pbufcount w + clen)) in
  match ip_reass_chain_frag w ipr p with
  | None => None
  | Some (w, ipr, complete) =>
      let w := set_reass w (rd_update ipr (reassdatagrams w)) (ip_reass_pbufcount w) in
      if (complete : bool) then reass_finish w ipr else Some (w, NULL)
  end.

(** [ip4_reass(p)]: the reassembled datagram, or [NULL]. *)
Definition ip4_reass w (p : Z) : option (world X * Z) :=
  let w := stats_inc S_ip_frag F_recv w in
  let fraghdr := payload w p in
  if negb (IPH_HL (wmem w) fraghdr * 4 =? IP_HLEN) then reass_nullreturn (stats_inc S_ip_frag F_err w) p
  else
    match pbuf_clen fuel (w_ps w) p with
    | None => None
    | Some clen =>
        match (if IP_REASS_MAX_PBUFS <? ip_reass_pbufcount w + clen then
                 match ip_reass_remove_oldest_datagram w fraghdr clen with
                 | None => None
                 | Some (w, n) =>
                     Some (w, (n =? 0) || (IP_REASS_MAX_PBUFS <? ip_reass_pbufcount w + clen))
                 end
               else Some (w, false)) with
        | None => None
        | Some (w, true) => reass_nullreturn (stats_inc S_ip_frag F_memerr w) p
        | Some (w, false) =>
            match List.find (fun r => IP_ADDRESSES_AND_ID_MATCH r (wmem w) fraghdr) (reassdatagrams w) with
            | Some ipr =>
                let w := stats_inc S_ip_frag F_cachehit w in
                let ipr := if (Z.land (lwip_htons (IPH_OFFSET (wmem w) fraghdr)) IP_OFFMASK =? 0) &&
                              negb (Z.land (rd_offset ipr) IP_OFFMASK =? 0)
                           then set_rd_iphdr ipr (bytes_at (wmem w) fraghdr 20) else ipr in
                reass_add w ipr p clen
            | None =>
                match ip_reass_enqueue_new_datagram w fraghdr clen with
                | None => None
                | Some (w, None) => reass_nullreturn w p
                | Some (w, Some ipr) => reass_add w ipr p clen
                end
            end
        end
    end.

End Reass.

(** ** Frames *)

Section Frame.
Context {X : Type} (netif_output : world X -> Z -> Z -> Z -> option (world X * Z)).
Context (custom_free : pstate -> Z -> pstate) (fuel : nat).
Context (I : world X -> Prop) `{!ip_frame I} (Hout : output_keeps netif_output I).

Lemma chain_frag_keeps w ipr p w' ipr' b :
  ip_reass_chain_frag custom_free fuel w ipr p = Some (w', ipr', b) -> I w -> I w'.
Proof.
  unfold ip_reass_chain_frag. intros H Hi. cbv zeta in H.
  destruct (loop _ _ _) as [[m head q prev valid|m]|]; [| |done].
  - destruct (chain_append _ _ _ _ _ _ _) as [[m' head'] valid']. destruct (chain_validate _ _ _ _ _ _); [|done].
    injection H as <- _ _. frame.
  - destruct (pbuf_clen _ _ _); [|done]. destruct (wfree _ _ _ _) as [w2|] eqn:E; [|done]. injection H as <- _ _.
    eapply (wfree_keeps _ _ I); [exact E|]. frame.
Qed.

Lemma dequeue_keeps w a : I w -> I (ip_reass_dequeue_datagram w a).
Proof. intros. unfold ip_reass_dequeue_datagram. frame. Qed.

Lemma free_complete_keeps w ipr w' n :
  ip_reass_free_complete_datagram netif_output custom_free fuel w ipr = Some (w', n) -> I w -> I w'.
Proof.
  unfold ip_reass_free_complete_datagram. intros H Hi. cbv zeta in H.
  match type of H with match ?e with _ => _ end = _ => destruct e as [[[w1 p1] n1]|] eqn:E1; [|done] end.
  assert (Hi1 : I w1).
  { destruct (_ =? 0); [|by injection E1 as <- _ _].
    destruct (icmp_time_exceeded _ _ _ _ _ _) as [w2|] eqn:E2; [|done].
    assert (I w2) by (eapply (icmp_send_response_keeps _ _ _ I Hout); [exact E2|]; frame).
    destruct (pbuf_clen _ _ _); [|done]. destruct (wfree _ _ _ _) as [w3|] eqn:E3; [|done].
    injection E1 as <- _ _. by eapply (wfree_keeps _ _ I). }
  destruct (loop _ _ _) as [[[w2 n2]|]|] eqn:E2; [|done|done]. injection H as <- _. apply frame_reass, dequeue_keeps.
  refine (loop_keeps _ (fun '(w, _, _) => I w) (fun r => match r with Some (w, _) => I w | None => True end) _ _ _ _ E2 Hi1).
  clear -ip_frame0. intros [[w p] n] Hi. destruct (negb (p =? NULL)); [|done].
  destruct (pbuf_clen _ _ _); [|done]. destruct (wfree _ _ _ _) as [w3|] eqn:E3; [|done]. by eapply (wfree_keeps _ _ I).
Qed.

Lemma reass_tmr_keeps w w' : ip_reass_tmr netif_output custom_free fuel w = Some w' -> I w -> I w'.
Proof.
  unfold ip_reass_tmr. generalize (reassdatagrams w). intros l. revert w. induction l as [|r l IH]; simpl; intros w H Hi.
  { by injection H as <-. }
  destruct (0 <? rd_timer r); [eapply IH; [exact H|]; frame|].
  destruct (ip_reass_free_complete_datagram _ _ _ w r) as [[w1 n]|] eqn:E.
  - eapply IH; [exact H|]. by eapply free_complete_keeps.
  - exfalso. clear -H. induction l; [done|auto].
Qed.

Lemma remove_oldest_keeps w hdr k w' n :
  ip_reass_remove_oldest_datagram netif_output custom_free fuel w hdr k = Some (w', n) -> I w -> I w'.
Proof.
  unfold ip_reass_remove_oldest_datagram. intros H Hi. destruct (loop _ _ _) as [[x|]|] eqn:E; [|done|done]. injection H as ->.
  refine (loop_keeps _ (fun '(w, _) => I w) (fun r => match r with Some (w, _) => I w | None => True end) _ _ _ _ E Hi).
  clear E. intros [w1 k1] Hi1. destruct (oldest_other _ _ _) as [[r|] c].
  - destruct (ip_reass_free_complete_datagram _ _ _ w1 r) as [[w2 n2]|] eqn:E; [|done].
    assert (I w2) by (by eapply free_complete_keeps). cbv zeta. by destruct (_ && _).
  - cbv zeta. by destruct (_ && _).
Qed.

Lemma enqueue_keeps w hdr k w' r :
  ip_reass_enqueue_new_datagram netif_output custom_free fuel w hdr k = Some (w', r) -> I w -> I w'.
Proof.
  unfold ip_reass_enqueue_new_datagram. intros H Hi. cbv zeta in H. destruct (memp_malloc _ _) as [ps a].
  destruct (a =? NULL); [|injection H as <- _; frame].
  destruct (ip_reass_remove_oldest_datagram _ _ _ _ _ _) as [[w1 n]|] eqn:E; [|done].
  apply remove_oldest_keeps in E; [|frame]. destruct (_ <=? n); [|injection H as <- _; frame].
  destruct (memp_malloc _ _) as [ps2 a2]. destruct (a2 =? NULL); injection H as <- _; frame.
Qed.

Lemma nullreturn_keeps w p w' q : reass_nullreturn custom_free fuel w p = Some (w', q) -> I w -> I w'.
Proof.
  unfold reass_nullreturn. intros H Hi. destruct (wfree _ _ _ _) as [w1|] eqn:E; [|done]. injection H as <- _.
  eapply (wfree_keeps _ _ I); [exact E|]. frame.
Qed.

Lemma reass_finish_keeps w ipr w' q : reass_finish fuel w ipr = Some (w', q) -> I w -> I w'.
Proof.
  unfold reass_finish, reass_join. intros H Hi. cbv zeta in H.
  destruct (loop _ _ _) as [[w1|]|] eqn:E; [|done|done].
  assert (Hi1 : I w1).
  { refine (loop_keeps _ (fun '(w, _) => I w) (fun r => match r with Some w => I w | None => True end) _ _ _ _ E _); [|frame].
    clear -ip_frame0. intros [w r] Hi. unfold join_step. destruct (negb _); [|done]. destruct (pbuf_cat _ _ _ _); [|done]. frame. }
  destruct (pbuf_clen _ _ _); [|done]. injection H as <- _. apply frame_reass. by apply dequeue_keeps.
Qed.

Lemma reass_add_keeps w ipr p clen w' q : reass_add custom_free fuel w ipr p clen = Some (w', q) -> I w -> I w'.
Proof.
  unfold reass_add. intros H Hi. cbv zeta in H.
  match type of H with match ?e with _ => _ end = _ => destruct e as [[[w1 r1] b]|] eqn:E; [|done] end.
  apply chain_frag_keeps in E; [|frame]. destruct b; [|injection H as <- _; frame].
  eapply reass_finish_keeps; [exact H|]. frame.
Qed.

Lemma ip4_reass_keeps w p w' q : ip4_reass netif_output custom_free fuel w p = Some (w', q) -> I w -> I w'.
Proof.
  unfold ip4_reass. intros H Hi. cbv zeta in H. destruct (negb _); [eapply nullreturn_keeps; [exact H|]; frame|].
  destruct (pbuf_clen _ _ _) as [clen|]; [|done].
  match type of H with match ?e with _ => _ end = _ => destruct e as [[w1 b]|] eqn:E; [|done] end.
  assert (Hi1 : I w1).
  { destruct (_ <? _); [|injection E as <- _; frame].
    destruct (ip_reass_remove_oldest_datagram _ _ _ _ _ _) as [[w2 n]|] eqn:E2; [|done]. injection E as <- _.
    eapply remove_oldest_keeps; [exact E2|]. frame. }
  destruct b; [eapply nullreturn_keeps; [exact H|]; frame|].
  destruct (List.find _ _) as [ipr|]; [eapply reass_add_keeps; [exact H|]; frame|].
  destruct (ip_reass_enqueue_new_datagram _ _ _ _ _ _) as [[w2 [ipr|]]|] eqn:E2; [| |done].
  all: apply enqueue_keeps in E2; [|done].
  - eapply reass_add_keeps; [exact H|]. done.
  - eapply nullreturn_keeps; [exact H|]. done.
Qed.

End Frame.
