(* ===== verification/ReassQueue.v ===== *)
(** * The queue of fragments of a datagram

    The list that [ip_reass_chain_frag_into_datagram_and_validate] keeps in the headers
    of the waiting fragments, as a list of fragments with the ranges they cover; what
    the function does to it, when it declares a datagram complete, and the packet that
    [ip4_reass] builds from the fragments. *)

From Stdlib Require Import ZArith Lia.
From stdpp Require Import base tactics numbers list option gmap.
From S2P Require Import Prelude.
From S2P Require Import Def.
From S2P Require Import Ip4Addr.
From S2P Require Import Alloc.
From S2P Require Import Mem.
From S2P Require Import Memp.
From S2P Require Import Pbuf.
From S2P Require Import PbufChain.
From S2P Require Import World.
From S2P Require Import Ip4Frag.
From S2P Require Import Ip4.
From S2P Require Import Icmp.
From S2P Require Import Ip4Reass.

(** ** Queues in memory *)

(** A waiting fragment: its pbuf and the bytes of the datagram it covers. *)
Record frag := mk_frag { f_pb : Z; f_start : Z; f_end : Z }.

Section Queue.
Context (at_ : Z -> Z).

(** The helpers from [q] up to [e], excluded, are those of the fragments [L]. *)
Fixpoint queued (m : memory) (q : Z) (L : list frag) (e : Z) : Prop :=
  match L with
  | [] => q = e
  | f :: L => q = f_pb f /\ iprh_start m (at_ q) = f_start f /\ iprh_end m (at_ q) = f_end f /\
      queued m (iprh_next m (at_ q)) L e
  end.

(** The helpers of a queue are apart from each other and their pbufs are addresses. *)
Definition helper (f : frag) : region := (at_ (f_pb f), 8).
Definition helpers_ok (L : list frag) : Prop :=
  all_separate (map helper L) /\ Forall (fun f => 0 < f_pb f < 4294967296 /\ at_ (f_pb f) <> NULL) L.

Lemma queued_app m q A B e : queued m q (A ++ B) e <-> exists r, queued m q A r /\ queued m r B e.
Proof.
  revert q. induction A as [|f A IH]; intros q; simpl.
  - split; [eauto|]. by intros (r & -> & H).
  - setoid_rewrite IH. firstorder.
Qed.

Lemma queued_in m q L e f :
  queued m q L e -> f ∈ L -> iprh_start m (at_ (f_pb f)) = f_start f /\ iprh_end m (at_ (f_pb f)) = f_end f.
Proof.
  revert q. induction L as [|g L IH]; intros q; [by intros _ ?%elem_of_nil|]. intros (-> & H1 & H2 & H3) [->|Hf]%elem_of_cons; eauto.
Qed.

(** The values in a helper depend on its eight bytes. *)
Lemma helper_reads m m' a :
  (forall i, a <= i < a + 8 -> m' i = m i) ->
  iprh_next m' a = iprh_next m a /\ iprh_start m' a = iprh_start m a /\ iprh_end m' a = iprh_end m a.
Proof.
  intros H. unfold iprh_next, iprh_start, iprh_end, ld32, ld16. by rewrite !H by lia.
Qed.

Lemma queued_ext m m' q L e :
  (forall f i, f ∈ L -> at_ (f_pb f) <= i < at_ (f_pb f) + 8 -> m' i = m i) -> queued m q L e -> queued m' q L e.
Proof.
  revert q. induction L as [|f L IH]; intros q He; simpl; [done|]. intros (-> & H1 & H2 & H3).
  destruct (helper_reads m m' (at_ (f_pb f)) ltac:(intros; apply (He f); [left|done])) as (-> & -> & ->).
  repeat split; auto. apply IH; [|done]. intros g i Hg. apply He. by right.
Qed.

(** Setting the link of one helper. *)
Lemma set_next_reads m a v :
  0 <= v < 4294967296 ->
  iprh_next (set_iprh_next m a v) a = v /\ iprh_start (set_iprh_next m a v) a = iprh_start m a /\
  iprh_end (set_iprh_next m a v) a = iprh_end m a.
Proof.
  intros Hv. unfold set_iprh_next. split; [by apply ld32_st32|]. unfold iprh_start, iprh_end, ld16.
  by rewrite !st32_out by lia.
Qed.

Lemma set_next_out m a v i : i < a \/ a + 8 <= i -> set_iprh_next m a v i = m i.
Proof. intros. apply st32_out. lia. Qed.

Lemma queued_set_next m q L e f v :
  queued m q L e -> Forall (separate (helper f)) (map helper L) -> queued (set_iprh_next m (at_ (f_pb f)) v) q L e.
Proof.
  intros Hq Ha. apply (queued_ext m); [|done]. intros g i Hg Hi. apply set_next_out.
  rewrite Forall_forall in Ha. specialize (Ha (helper g) (list_elem_of_fmap_2 _ _ _ Hg)).
  unfold separate, helper in Ha. simpl in Ha. lia.
Qed.

(** Linking [new] between [A] and the rest of the queue. *)
Lemma queued_last m q A g e :
  queued m q (A ++ [g]) e -> all_separate (map helper (A ++ [g])) -> forall v, 0 <= v < 4294967296 ->
  queued (set_iprh_next m (at_ (f_pb g)) v) q (A ++ [g]) v.
Proof.
  intros Hq Hs v Hv. apply queued_app in Hq as (r & HA & Hg). simpl in Hg. destruct Hg as (-> & H1 & H2 & _).
  rewrite map_app in Hs. apply all_separate_app in Hs as (_ & _ & Hs). apply queued_app. exists (f_pb g). split.
  - apply queued_set_next; [done|]. simpl in Hs. apply Forall_forall. intros x Hx. rewrite Forall_forall in Hs.
    specialize (Hs x Hx). apply separate_sym. by inversion Hs.
  - simpl. destruct (set_next_reads m (at_ (f_pb g)) v Hv) as (-> & -> & ->). done.
Qed.

(** The pbuf a queue starts with. *)
Definition first_pb (L : list frag) : Z := match L with [] => NULL | f :: _ => f_pb f end.

Lemma queued_first m q L : queued m q L NULL -> q = first_pb L.
Proof. destruct L; simpl; tauto. Qed.

Lemma first_pb_range L : helpers_ok L -> 0 <= first_pb L < 4294967296.
Proof. intros [_ H]. destruct L as [|f L]; simpl; [unfold NULL; lia|]. inversion H; subst. lia. Qed.

Lemma helpers_ok_perm L L' : L ≡ₚ L' -> helpers_ok L -> helpers_ok L'.
Proof. intros HP [H1 H2]. split; [|by rewrite <- HP]. eapply all_separate_perm; [|exact H1]. by rewrite HP. Qed.

Lemma link m head A new B :
  queued m head (A ++ B) NULL -> helpers_ok (new :: A ++ B) ->
  iprh_start m (at_ (f_pb new)) = f_start new -> iprh_end m (at_ (f_pb new)) = f_end new ->
  iprh_next m (at_ (f_pb new)) = first_pb B ->
  match last A with
  | None => queued m (f_pb new) (new :: B) NULL
  | Some g => queued (set_iprh_next m (at_ (f_pb g)) (f_pb new)) head (A ++ new :: B) NULL
  end.
Proof.
  intros Hq [[Hn Hs] Hr] H1 H2 H3. apply Forall_cons in Hr as [Hr _]. rewrite map_app in Hn, Hs.
  apply Forall_app in Hn as [HnA HnB]. apply all_separate_app in Hs as (HsA & HsB & HsAB).
  apply queued_app in Hq as (r & HA & HB). pose proof (queued_first _ _ _ HB) as ->.
  destruct (last A) as [g|] eqn:El.
  - apply last_Some in El as [A0 ->]. apply queued_app. exists (f_pb new). split; [eapply queued_last; [done|done|lia]|].
    rewrite map_app in HnA, HsAB. apply Forall_app in HnA as [_ Hng]. apply Forall_app in HsAB as [_ HgB].
    apply Forall_cons in Hng as [Hng _]. apply Forall_cons in HgB as [HgB _].
    assert (Ho : forall i, at_ (f_pb new) <= i < at_ (f_pb new) + 8 ->
      set_iprh_next m (at_ (f_pb g)) (f_pb new) i = m i).
    { intros i Hi. apply set_next_out. unfold separate, helper in Hng. simpl in Hng. lia. }
    destruct (helper_reads _ _ _ Ho) as (E1 & E2 & E3). simpl. rewrite E1, E2, E3, H3. repeat split; auto.
    by apply queued_set_next.
  - simpl. rewrite H3. done.
Qed.

(** ** Where a fragment goes *)

(** The fragments in front of the new one and those behind it, and whether the ones in
    front follow each other without holes; [None] for a fragment that is thrown away.
    [prev] is the fragment in front of [L]. *)
Definition follows (prev : option frag) (f : frag) : bool :=
  match prev with None => true | Some g => f_end g =? f_start f end.
Definition overlaps (prev : option frag) (new f : frag) : bool :=
  match prev with None => false | Some g => (f_start new <? f_end g) || (f_start f <? f_end new) end.
Fixpoint place (new : frag) (prev : option frag) (L : list frag) (valid : bool)
    : option (list frag * list frag * bool) :=
  match L with
  | [] => Some ([], [], valid)
  | f :: L' =>
      if f_start new <? f_start f then if overlaps prev new f then None else Some ([], L, valid)
      else if (f_start new =? f_start f) || (f_start new <? f_end f) then None
      else match place new (Some f) L' (valid && follows prev f) with
           | None => None
           | Some (A, B, v) => Some (f :: A, B, v)
           end
  end.

Definition prev_addr (prev : option frag) : Z := match prev with None => NULL | Some g => at_ (f_pb g) end.

(** The result of the loop for a place. *)
Definition placed_at (m : memory) (head : Z) (new : frag) (prev : option frag) (B : list frag) (v : bool) : placed :=
  match B with
  | [] => Placed m head NULL (prev_addr prev) v
  | f :: _ =>
      let m := set_iprh_next m (at_ (f_pb new)) (f_pb f) in
      match prev with
      | None => Placed m (f_pb new) (f_pb f) NULL v
      | Some g => Placed (set_iprh_next m (at_ (f_pb g)) (f_pb new)) head (f_pb f) (at_ (f_pb g)) v
      end
  end.

Definition last_or (prev : option frag) (A : list frag) : option frag :=
  match last A with None => prev | Some g => Some g end.

Lemma last_or_cons prev f A : last_or prev (f :: A) = last_or (Some f) A.
Proof. unfold last_or. rewrite last_cons. by destruct (last A). Qed.

(** The loop of the code finds that place. *)
Lemma walk fuel m head new q prev L valid :
  (length L < fuel)%nat -> queued m q L NULL -> helpers_ok (new :: L) -> match prev with None => True | Some g =>
    at_ (f_pb g) <> NULL /\ iprh_end m (at_ (f_pb g)) = f_end g /\ separate (helper new) (helper g) end ->
  iprh_start m (at_ (f_pb new)) = f_start new -> iprh_end m (at_ (f_pb new)) = f_end new ->
  let r := loop fuel (chain_frag_step at_ (f_pb new) (at_ (f_pb new)) head) (m, q, prev_addr prev, valid) in
  match place new prev L valid with
  | None => exists m', r = Some (Freepbuf m') /\ only_in [helper new] m m'
  | Some (A, B, v) => r = Some (placed_at m head new (last_or prev A) B v)
  end.
Proof.
  revert fuel q prev valid. induction L as [|f L IH]; intros fuel q prev valid Hf Hq Hok Hp H1 H2 r;
    (destruct fuel as [|fuel]; [simpl in Hf; lia|]).
  - simpl in Hq. subst q. reflexivity.
  - destruct Hq as (-> & E1 & E2 & E3). destruct Hok as [[Hn Hs] Hr]. apply Forall_cons in Hr as [Hrn Hr].
    apply Forall_cons in Hr as [Hrf Hr]. apply Forall_cons in Hn as [Hnf Hn]. destruct Hs as [Hsf Hs].
    unfold r. cbn [loop].
    set (x := chain_frag_step at_ (f_pb new) (at_ (f_pb new)) head (m, f_pb f, prev_addr prev, valid)).
    unfold chain_frag_step in x. subst x. rewrite (proj2 (Z.eqb_neq (f_pb f) NULL)) by (unfold NULL; lia).
    cbv zeta. rewrite H1, E1, E2. cbn [place]. destruct (Z.ltb_spec (f_start new) (f_start f)) as [Hlt|Hge].
    + set (m1 := set_iprh_next m (at_ (f_pb new)) (f_pb f)).
      destruct (set_next_reads m (at_ (f_pb new)) (f_pb f) ltac:(lia)) as (_ & R2 & R3). fold m1 in R2, R3.
      assert (Hkeep : forall g, separate (helper new) (helper g) -> iprh_start m1 (at_ (f_pb g)) = iprh_start m (at_ (f_pb g)) /\
        iprh_end m1 (at_ (f_pb g)) = iprh_end m (at_ (f_pb g))).
      { intros g Hg. apply helper_reads. intros i Hi. apply set_next_out. unfold separate, helper in Hg. simpl in Hg. lia. }
      rewrite R2, R3, (proj1 (Hkeep f Hnf)), E1, H1, H2. destruct prev as [g|]; cbn [overlaps prev_addr].
      * destruct Hp as (Hg & Hge & Hgs). rewrite (proj2 (Z.eqb_neq _ _) Hg), (proj2 (Hkeep g Hgs)), Hge. cbn [negb].
        destruct (_ || _); [|done]. exists m1. split; [done|]. intros i Hi. apply set_next_out.
        inversion Hi as [|? ? Hx _]; subst. unfold helper in Hx. simpl in Hx. lia.
      * done.
    + destruct (f_start new =? f_start f); cbn [orb]; [exists m; split; [done|by intros ? ?]|].
      destruct (f_start new <? f_end f); [exists m; split; [done|by intros ? ?]|].
      specialize (IH fuel (iprh_next m (at_ (f_pb f))) (Some f) (valid && follows prev f)).
      cbn [prev_addr] in IH. 
      replace (if negb (prev_addr prev =? NULL) && negb (iprh_end m (prev_addr prev) =? f_start f) then false else valid)
        with (valid && follows prev f).
      2:{ destruct prev as [g|]; cbn [prev_addr follows]; [|by rewrite andb_true_r].
          destruct Hp as (Hg & Hge' & _). rewrite (proj2 (Z.eqb_neq _ _) Hg), Hge'. cbn [negb andb].
          destruct (f_end g =? f_start f); cbn [negb]; [by rewrite andb_true_r|by rewrite andb_false_r]. }
      assert (Hok : helpers_ok (new :: L)) by (split; [by split|by constructor]).
      specialize (IH ltac:(simpl in Hf; lia) E3 Hok (conj (proj2 Hrf) (conj E2 Hnf)) H1 H2). cbv zeta in IH.
      destruct (place new (Some f) L _) as [[[A B] v]|]; [|done]. by rewrite last_or_cons.
Qed.

(** The memory with [new] linked in, and the head of the queue. *)
Definition linked (m : memory) (A : list frag) (new : frag) (B : list frag) : memory :=
  let m := match B with [] => m | f :: _ => set_iprh_next m (at_ (f_pb new)) (f_pb f) end in
  match last A with None => m | Some g => set_iprh_next m (at_ (f_pb g)) (f_pb new) end.

Lemma set_next_only R m f v : helper f ∈ R -> only_in R m (set_iprh_next m (at_ (f_pb f)) v).
Proof. intros Hr. eapply only_in_write; [exact Hr|simpl; lia|simpl; lia]. Qed.

Lemma linked_correct m head A new B :
  queued m head (A ++ B) NULL -> helpers_ok (new :: A ++ B) ->
  iprh_start m (at_ (f_pb new)) = f_start new -> iprh_end m (at_ (f_pb new)) = f_end new ->
  iprh_next m (at_ (f_pb new)) = NULL ->
  queued (linked m A new B) (first_pb (A ++ new :: B)) (A ++ new :: B) NULL /\
  only_in (map helper (new :: A ++ B)) m (linked m A new B) /\
  (A <> [] -> head = first_pb (A ++ new :: B)).
Proof.
  intros Hq Hok H1 H2 H3. set (m1 := match B with [] => m | f :: _ => set_iprh_next m (at_ (f_pb new)) (f_pb f) end).
  assert (Hm1 : queued m1 head (A ++ B) NULL /\ iprh_start m1 (at_ (f_pb new)) = f_start new /\
    iprh_end m1 (at_ (f_pb new)) = f_end new /\ iprh_next m1 (at_ (f_pb new)) = first_pb B /\
    only_in (map helper (new :: A ++ B)) m m1).
  { unfold m1. destruct B as [|f B]; [repeat split; auto using only_in_refl|].
    destruct Hok as [[Hn _] Hr]. assert (Hf : 0 <= f_pb f < 4294967296).
    { rewrite Forall_forall in Hr. destruct (Hr f) as [? _]; [|lia]. right. apply elem_of_app. right. left. }
    destruct (set_next_reads m (at_ (f_pb new)) (f_pb f) Hf) as (-> & -> & ->).
    repeat split; auto; [by apply queued_set_next|]. apply set_next_only. left. }
  destruct Hm1 as (Q & R1 & R2 & R3 & Ho). pose proof (link m1 head A new B Q Hok R1 R2 R3) as Hl.
  unfold linked. cbv zeta. fold m1. destruct (last A) as [g|] eqn:El.
  - pose proof (queued_first _ _ _ Hl) as Hh. rewrite <- Hh. split; [done|]. split; [|done].
    eapply only_in_trans; [exact Ho|]. apply set_next_only. apply last_Some in El as [A0 ->].
    right. apply list_elem_of_fmap_2. apply elem_of_app. left. apply elem_of_app. right. left.
  - apply last_None in El as ->. by split; [|split].
Qed.

(** The walk behind the new fragment. *)
Fixpoint contiguous (g : frag) (L : list frag) : bool :=
  match L with [] => true | f :: L => (f_end g =? f_start f) && contiguous f L end.

Lemma no_holes_correct fuel m new B :
  (length B < fuel)%nat -> queued m (f_pb new) (new :: B) NULL -> helpers_ok (new :: B) ->
  no_holes_behind at_ m fuel (at_ (f_pb new)) = Some (contiguous new B).
Proof.
  intros Hf (_ & _ & E & Hq) [_ Hr]. apply Forall_cons in Hr as [_ Hr]. unfold no_holes_behind.
  revert Hq. generalize (iprh_next m (at_ (f_pb new))). revert fuel new Hf E.
  induction B as [|f B IH]; intros [|fuel] new Hf E q Hq; simpl in Hf; try lia.
  - simpl in Hq. subst q. reflexivity.
  - destruct Hq as (-> & E1 & E2 & Hq). apply Forall_cons in Hr as [Hrf Hr]. cbn [loop].
    rewrite (proj2 (Z.eqb_neq (f_pb f) NULL)) by (unfold NULL; lia). cbv zeta. rewrite E, E1. cbn [contiguous].
    destruct (f_end new =? f_start f); cbn [negb andb]; [|done]. apply IH; auto. lia.
Qed.

(** What [place] returns. *)
Lemma place_spec new prev L valid A B v :
  place new prev L valid = Some (A, B, v) ->
  L = A ++ B /\ v = valid && match A with [] => true | f :: A => follows prev f && contiguous f A end /\
  Forall (fun f => f_start f < f_start new /\ f_end f <= f_start new) A /\
  match B with
  | [] => True
  | b :: _ => f_start new < f_start b /\
      match last_or prev A with None => True | Some g => f_end g <= f_start new /\ f_end new <= f_start b end
  end.
Proof.
  revert prev valid A v. induction L as [|f L IH]; intros prev valid A v; simpl.
  - intros [= <- <- <-]. by rewrite andb_true_r.
  - destruct (Z.ltb_spec (f_start new) (f_start f)) as [Hlt|Hge].
    + destruct (overlaps prev new f) eqn:Ho; [done|]. intros [= <- <- <-]. rewrite andb_true_r. repeat split; auto.
      unfold last_or. simpl. destruct prev as [g|]; [|done]. unfold overlaps in Ho. apply orb_false_iff in Ho. zb. lia.
    + destruct (Z.eqb_spec (f_start new) (f_start f)); [done|]. destruct (Z.ltb_spec (f_start new) (f_end f)); [done|]. simpl.
      destruct (place new (Some f) L _) as [[[A' B'] v']|] eqn:E; [|done]. intros [= <- <- <-].
      destruct (IH _ _ _ _ E) as (-> & -> & HA & HB). split; [done|]. split; [|split; [constructor; [lia|done]|]].
      * rewrite <- andb_assoc. f_equal. f_equal. destruct A'; [done|]. reflexivity.
      * by rewrite last_or_cons.
Qed.

End Queue.

(** The queue with the payloads somewhere else. *)
Lemma queued_at at1 at2 m q L e :
  (forall f, f ∈ L -> at2 (f_pb f) = at1 (f_pb f)) -> queued at1 m q L e -> queued at2 m q L e.
Proof.
  revert q. induction L as [|f L IH]; intros q He; simpl; [done|]. intros (-> & H1 & H2 & H3).
  rewrite He by left. repeat split; auto. apply IH; [|done]. intros g Hg. apply He. by right.
Qed.

(** ** Adding a fragment *)

Section Chain.
Context {X : Type} (custom_free : pstate -> Z -> pstate) (fuel : nat).
Implicit Types w : world X.

(** The range of a fragment, from its IP header. *)
Definition frag_of (m : memory) (a p : Z) : frag :=
  let len := u16 (lwip_htons (IPH_LEN m a) - IPH_HL m a * 4) in
  let offset := u16 (Z.land (lwip_htons (IPH_OFFSET m a)) IP_OFFMASK * 8) in
  mk_frag p offset (u16 (offset + len)).

Lemma write_helper_reads m a p :
  let m' := write_helper m a in
  iprh_next m' a = NULL /\ iprh_start m' a = f_start (frag_of m a p) /\ iprh_end m' a = f_end (frag_of m a p) /\
  only_in [(a, 8)] m m'.
Proof.
  unfold write_helper, frag_of. cbn [f_start f_end]. set (len := u16 (_ - _)). set (off := u16 (_ * 8)). cbv zeta.
  assert (H1 : 0 <= off < 65536) by apply u16_range. assert (H2 : 0 <= u16 (off + len) < 65536) by apply u16_range.
  unfold iprh_next, iprh_start, iprh_end, set_iprh_next. repeat split.
  - unfold ld32. rewrite !st16_out by lia. by apply ld32_st32.
  - unfold ld16. rewrite !(st16_out _ (a + 6)) by lia. by apply ld16_st16.
  - by apply ld16_st16.
  - intros i Hi. inversion Hi as [|? ? Hx _]; subst. simpl in Hx. rewrite !st16_out, st32_out by lia. done.
Qed.

(** Whether the datagram is declared complete. *)
Definition declared (ipr : ip_reassdata) (A : list frag) (new : frag) (B : list frag) (v : bool) : bool :=
  negb (Z.land (rd_flags ipr) IP_REASS_FLAG_LASTFRAG =? 0) &&
  (v && (if bool_decide (B = []) then follows (last A) new else true)) &&
  ((f_start (default new (head A)) =? 0) && contiguous new B).

Lemma append_correct at_ m head A new B v e :
  helpers_ok at_ (new :: A ++ B) -> queued at_ (linked at_ m A new B) e (A ++ new :: B) NULL ->
  (A <> [] -> head = first_pb (A ++ new :: B)) ->
  match placed_at at_ m head new (last A) B v with
  | Placed m1 head1 q prev v1 => chain_append (f_pb new) (at_ (f_pb new)) m1 head1 q prev v1 =
      (linked at_ m A new B, first_pb (A ++ new :: B), v && if bool_decide (B = []) then follows (last A) new else true)
  | Freepbuf _ => False
  end.
Proof.
  intros [_ Hr] Hq Hh. unfold placed_at, chain_append. apply Forall_cons in Hr as [_ Hr]. apply Forall_app in Hr as [HrA HrB].
  destruct B as [|f B].
  - rewrite bool_decide_true by done. cbn [Z.eqb NULL]. destruct (last A) as [g|] eqn:El.
    + pose proof El as [A0 ->]%last_Some. apply Forall_app in HrA as [_ Hg]. apply Forall_cons in Hg as [[_ Hg] _].
      cbn [prev_addr follows]. rewrite (proj2 (Z.eqb_neq _ _) Hg). cbn [negb].
      destruct (queued_in at_ _ _ _ _ g Hq) as [_ E2]; [set_solver|]. destruct (queued_in at_ _ _ _ _ new Hq) as [E1 _]; [set_solver|].
      unfold linked in *. rewrite El in *. rewrite E1, E2, Hh by (by destruct A0).
      destruct (f_end g =? f_start new); cbn [negb]; by rewrite ?andb_true_r, ?andb_false_r.
    + unfold linked. rewrite El. apply last_None in El as ->. cbn [prev_addr follows]. by rewrite andb_true_r.
  - rewrite bool_decide_false by done. rewrite andb_true_r. apply Forall_cons in HrB as [[Hf _] _].
    assert (Hfn : (f_pb f =? NULL) = false) by (apply Z.eqb_neq; unfold NULL; lia). unfold linked.
    destruct (last A) as [g|] eqn:El; rewrite Hfn.
    + rewrite Hh; [done|]. by destruct A.
    + by apply last_None in El as ->.
Qed.

(** The validation. *)
Lemma validate_correct at_ m ipr A new B v :
  helpers_ok at_ (new :: A ++ B) -> queued at_ m (first_pb (A ++ new :: B)) (A ++ new :: B) NULL -> (length (A ++ B) < fuel)%nat ->
  chain_validate at_ m fuel (set_rd_p ipr (first_pb (A ++ new :: B))) (at_ (f_pb new)) v =
    Some (negb (Z.land (rd_flags ipr) IP_REASS_FLAG_LASTFRAG =? 0) && v &&
          ((f_start (default new (head A)) =? 0) && contiguous new B)).
Proof.
  intros Hok Hq Hf. unfold chain_validate. cbn [rd_flags rd_p set_rd_p]. destruct (_ && v); [|done]. cbn [andb].
  pose proof Hok as [_ Hr]. assert (Hh : first_pb (A ++ new :: B) = f_pb (default new (head A))) by by destruct A.
  assert (Hin : default new (head A) ∈ A ++ new :: B) by (destruct A; left).
  destruct (queued_in at_ _ _ _ _ _ Hq Hin) as [E _]. rewrite Hh, E.
  assert (Hn : f_pb (default new (head A)) <> NULL).
  { rewrite Forall_forall in Hr. destruct (Hr (default new (head A))) as [? _]; [|unfold NULL; lia].
    destruct A; [left|]. right. left. }
  rewrite (proj2 (Z.eqb_neq _ _) Hn). cbn [orb]. destruct (_ =? 0); [|done]. cbn [negb andb].
  apply queued_app in Hq as (r & _ & Hq). apply no_holes_correct.
  - rewrite length_app in Hf. lia.
  - pose proof (queued_first _ _ _ _ Hq) as ->. exact Hq.
  - destruct Hok as [[Hs Hs'] Hr']. rewrite map_app in Hs, Hs'. apply Forall_app in Hs as [_ Hs].
    apply all_separate_app in Hs' as (_ & Hs' & _). apply Forall_cons in Hr' as [Hrn Hr']. apply Forall_app in Hr' as [_ Hr'].
    split; [by split|by constructor].
Qed.

Lemma chain_frag_correct w ipr L p :
  let new := frag_of (wmem w) (payload w p) p in
  queued (payload w) (wmem w) (rd_p ipr) L NULL -> helpers_ok (payload w) (new :: L) -> (length L < fuel)%nat ->
  match place new None L true with
  | None => exists m, only_in [(payload w p, 8)] (wmem w) m /\
      ip_reass_chain_frag custom_free fuel w ipr p =
        match pbuf_clen fuel (set_data (w_ps w) m) p with
        | None => None
        | Some n =>
            match wfree custom_free fuel (set_reass (set_wmem w m) (reassdatagrams w) (u16 (ip_reass_pbufcount w - n))) p with
            | None => None
            | Some w => Some (w, ipr, false)
            end
        end
  | Some (A, B, v) => exists m, only_in (map (helper (payload w)) (new :: L)) (wmem w) m /\
      queued (payload w) m (first_pb (A ++ new :: B)) (A ++ new :: B) NULL /\
      ip_reass_chain_frag custom_free fuel w ipr p =
        Some (set_wmem w m, set_rd_p ipr (first_pb (A ++ new :: B)), declared ipr A new B v)
  end.
Proof.
  intros new Hq Hok Hf.
  destruct (write_helper_reads (wmem w) (payload w p) p) as (N1 & N2 & N3 & No). fold new in N2, N3.
  set (m0 := write_helper (wmem w) (payload w p)) in *.
  assert (Hq0 : queued (payload w) m0 (rd_p ipr) L NULL).
  { apply (queued_ext _ (wmem w)); [|done]. intros f i Hin Hi. apply No. constructor; [|constructor].
    destruct Hok as [[Hs _] _]. rewrite Forall_forall in Hs. specialize (Hs (helper (payload w) f) (list_elem_of_fmap_2 _ _ _ Hin)).
    unfold separate, helper in Hs. simpl in Hs. simpl. lia. }
  assert (Hi0 : only_in (map (helper (payload w)) (new :: L)) (wmem w) m0).
  { apply (only_in_mono [(payload w p, 8)]); [|done]. intros r ->%list_elem_of_singleton. left. }
  pose proof (walk (payload w) fuel m0 (rd_p ipr) new (rd_p ipr) None L true Hf Hq0 Hok Logic.I N2 N3) as Hw. cbv zeta in Hw.
  unfold ip_reass_chain_frag. cbv zeta. fold m0.
  change (f_pb new) with p in Hw. change (prev_addr (payload w) None) with NULL in Hw.
  destruct (place new None L true) as [[[A B] v]|] eqn:Ep.
  - destruct (place_spec new None L true A B v Ep) as (-> & _ & _ & _). rewrite Hw. clear Hw.
    destruct (linked_correct (payload w) m0 (rd_p ipr) A new B Hq0 Hok N2 N3 N1) as (Hq' & Ho & Hh).
    exists (linked (payload w) m0 A new B). split; [by eapply only_in_trans|]. split; [done|]. 
    assert (El : last_or None A = last A) by (unfold last_or; by destruct (last A)). rewrite El.
    pose proof (append_correct (payload w) m0 (rd_p ipr) A new B v _ Hok Hq' Hh) as Ha.
    destruct (placed_at _ _ _ _ _ _ _) as [m1 head1 q prev v1|]; [|done]. change (f_pb new) with p in Ha. rewrite Ha.
    change p with (f_pb new) at 1. rewrite (validate_correct (payload w) _ _ A new B) by done. done.
  - destruct Hw as (m & -> & Ho). exists m. split; [by eapply only_in_trans|]. done.
Qed.

(** The fragments wait in the order of their offsets. *)
Fixpoint ordered (L : list frag) : Prop :=
  match L with [] => True | f :: L => Forall (fun g => f_start f < f_start g) L /\ ordered L end.

Lemma ordered_app A B : ordered (A ++ B) <-> ordered A /\ ordered B /\ Forall (fun f => Forall (fun g => f_start f < f_start g) B) A.
Proof.
  induction A as [|f A IH]; simpl; [split; [by intros; split; [|split; [|constructor]]|tauto]|]. rewrite IH, Forall_app, Forall_cons. tauto.
Qed.

(** A fragment is thrown away when it begins where a waiting one begins, or inside of it, or
    when it has one in front of it and reaches into one behind it. *)
Definition begins_in (new f : frag) : bool := (f_start f =? f_start new) || ((f_start f <=? f_start new) && (f_start new <? f_end f)).
Definition reaches_into (new f : frag) : bool := (f_start new <? f_start f) && (f_start f <? f_end new).
Definition comes_after (new f : frag) : bool := f_start f <? f_start new.
Definition rejected (new : frag) (L : list frag) : bool :=
  existsb (begins_in new) L || (existsb (comes_after new) L && existsb (reaches_into new) L).

Lemma existsb_none (P : frag -> bool) L : Forall (fun f => P f = false) L -> existsb P L = false.
Proof. induction 1 as [|f L Hf _ IH]; simpl; [done|]. by rewrite Hf. Qed.

(** No fragment behind [f] reaches further to the front than [f]. *)
Lemma reaches_first new f L :
  f_start new < f_start f -> Forall (fun g => f_start f < f_start g) L -> existsb (reaches_into new) (f :: L) = (f_start f <? f_end new).
Proof.
  intros Hf HL. simpl. unfold reaches_into at 1. rewrite (proj2 (Z.ltb_lt _ _) Hf). cbn [andb].
  destruct (Z.ltb_spec (f_start f) (f_end new)); [done|]. apply existsb_none. eapply Forall_impl; [exact HL|].
  intros g Hg. simpl in Hg. unfold reaches_into. rewrite (proj2 (Z.ltb_ge (f_start g) (f_end new))) by lia. apply andb_false_r.
Qed.

Lemma place_rejected new prev L v :
  ordered L -> match prev with None => True | Some g => f_end g <= f_start new end ->
  place new prev L v = None <->
    existsb (begins_in new) L || ((bool_decide (is_Some prev) || existsb (comes_after new) L) && existsb (reaches_into new) L) = true.
Proof.
  revert prev v. induction L as [|f L IH]; intros prev v Ho Hp; [split; [done|]; by rewrite andb_false_r|].
  destruct Ho as [Hf Ho]. cbn [place]. destruct (Z.ltb_spec (f_start new) (f_start f)) as [Hlt|Hge].
  - assert (Hall : Forall (fun g => f_start new < f_start g) (f :: L)).
    { constructor; [done|]. eapply Forall_impl; [exact Hf|]. simpl. lia. }
    rewrite (existsb_none (begins_in new) (f :: L)), (existsb_none (comes_after new) (f :: L)), reaches_first; [|done|done| |].
    + cbn [orb]. rewrite orb_false_r. destruct prev as [g|]; cbn [overlaps].
      * rewrite (proj2 (Z.ltb_ge _ _) Hp). cbn [orb]. rewrite bool_decide_true by by eexists. cbn [andb].
        destruct (f_start f <? f_end new); split; done.
      * rewrite bool_decide_false by (by intros [? ?]). by cbn [andb].
    + eapply Forall_impl; [exact Hall|]. intros g Hg. unfold comes_after. apply Z.ltb_ge. simpl in Hg. lia.
    + eapply Forall_impl; [exact Hall|]. intros g Hg. unfold begins_in. simpl in Hg.
      rewrite (proj2 (Z.eqb_neq (f_start g) (f_start new))), (proj2 (Z.leb_gt (f_start g) (f_start new))) by lia. done.
  - cbn [existsb]. unfold begins_in at 1. rewrite (Z.eqb_sym (f_start f)), (proj2 (Z.leb_le _ _) Hge). cbn [andb].
    destruct (Z.eqb_spec (f_start new) (f_start f)) as [E|E]; cbn [orb]; [done|].
    destruct (Z.ltb_spec (f_start new) (f_end f)); cbn [orb]; [done|].
    unfold comes_after at 1, reaches_into at 1. rewrite (proj2 (Z.ltb_lt (f_start f) (f_start new))), (proj2 (Z.ltb_ge (f_start new) (f_start f))) by lia.
    cbn [orb andb]. rewrite orb_true_r. cbn [andb]. specialize (IH (Some f) (v && follows prev f) Ho ltac:(simpl; lia)).
    rewrite bool_decide_true in IH by by eexists. cbn [orb andb] in IH. rewrite <- IH.
    destruct (place new (Some f) L _) as [[[A B] v']|]; done.
Qed.

Lemma place_ordered new L A B v :
  ordered L -> place new None L true = Some (A, B, v) -> ordered (A ++ new :: B).
Proof.
  intros Ho Ep. destruct (place_spec new None L true A B v Ep) as (-> & _ & HA & HB). apply ordered_app in Ho as (H1 & H2 & H3).
  assert (Hb : Forall (fun g => f_start new < f_start g) B).
  { destruct B as [|b B]; [constructor|]. destruct HB as [HB _]. destruct H2 as [H2 _]. constructor; [done|].
    eapply Forall_impl; [exact H2|]. simpl. lia. }
  apply ordered_app. split; [done|]. split; [by split|]. rewrite Forall_forall in *. intros f Hf. constructor; [by apply HA|by apply H3].
Qed.

(** No holes between the fragments of a queue. *)
Definition gapless (L : list frag) : bool := match L with [] => true | f :: L => contiguous f L end.

Lemma contiguous_snoc f A new : contiguous f (A ++ [new]) = contiguous f A && follows (last (f :: A)) new.
Proof.
  revert f. induction A as [|g A IH]; intros f; cbn [app contiguous]; [by rewrite andb_true_r|].
  rewrite IH, andb_assoc. by rewrite (last_cons_cons f g A).
Qed.

Lemma gapless_snoc A new : gapless (A ++ [new]) = gapless A && follows (last A) new.
Proof. destruct A as [|f A]; [done|]. apply contiguous_snoc. Qed.

(** C25: What [ip_reass_chain_frag_into_datagram_and_validate] does with a fragment, for a queue
    in the order of the offsets, which it keeps.  The fragment is freed, with its pbufs
    uncounted, exactly when it begins where a waiting one begins or inside of one, or when
    it has one in front of it and reaches into one behind it.  Every other fragment is
    linked into the queue at the place of its offset, behind those that end before it; that
    includes one in front of all others that overlaps the first of them, for which the code
    makes no test.  The datagram is then declared complete exactly when the last fragment
    has been seen, the queue starts at 0, and there is no hole in front of the previous
    fragment, none behind the new one, and, if the new one is last, none between the two.
    So a fragment that comes in front of all others or behind all others completes the
    datagram only when there are no holes. *)
Theorem fragment_placed w ipr L p :
  let new := frag_of (wmem w) (payload w p) p in
  queued (payload w) (wmem w) (rd_p ipr) L NULL -> helpers_ok (payload w) (new :: L) -> ordered L -> (length L < fuel)%nat ->
  if rejected new L then
    exists m, only_in [(payload w p, 8)] (wmem w) m /\
     ip_reass_chain_frag custom_free fuel w ipr p =
       match pbuf_clen fuel (set_data (w_ps w) m) p with
       | None => None
       | Some n =>
           match wfree custom_free fuel (set_reass (set_wmem w m) (reassdatagrams w) (u16 (ip_reass_pbufcount w - n))) p with
           | None => None
           | Some w => Some (w, ipr, false)
           end
       end
  else
    exists A B m c, L = A ++ B /\ ordered (A ++ new :: B) /\ Forall (fun f => f_end f <= f_start new) A /\
     (A <> [] -> Forall (fun f => f_end new <= f_start f) B) /\
     ip_reass_chain_frag custom_free fuel w ipr p = Some (set_wmem w m, set_rd_p ipr (first_pb (A ++ new :: B)), c) /\
     only_in (map (helper (payload w)) (new :: L)) (wmem w) m /\
     queued (payload w) m (first_pb (A ++ new :: B)) (A ++ new :: B) NULL /\
     (c = true <-> Z.land (rd_flags ipr) IP_REASS_FLAG_LASTFRAG <> 0 /\ f_start (default new (head A)) = 0 /\
        gapless A = true /\ gapless (new :: B) = true /\ (B = [] -> gapless (A ++ [new]) = true)) /\
     (A = [] \/ B = [] -> c = true -> gapless (A ++ new :: B) = true).
Proof.
  intros new Hq Hok Hord Hf. pose proof (chain_frag_correct w ipr L p Hq Hok Hf) as H. cbv zeta in H. fold new in H.
  pose proof (place_rejected new None L true Hord Logic.I) as Hrej. rewrite bool_decide_false in Hrej by (by intros [? ?]).
  cbn [orb] in Hrej. fold (rejected new L) in Hrej.
  destruct (place new None L true) as [[[A B] v]|] eqn:Ep; [|by rewrite (proj1 Hrej eq_refl)].
  replace (rejected new L) with false by (symmetry; apply not_true_is_false; by rewrite <- Hrej).
  pose proof (place_ordered new L A B v Hord Ep) as Hord'.
  destruct (place_spec new None L true A B v Ep) as (-> & Hv & HA & HB). destruct H as (m & Ho & Hqm & E).
  assert (Hvg : v = gapless A) by (rewrite Hv; by destruct A). rewrite Hvg in E.
  assert (Hc : declared ipr A new B (gapless A) = true <-> Z.land (rd_flags ipr) IP_REASS_FLAG_LASTFRAG <> 0 /\
    f_start (default new (head A)) = 0 /\ gapless A = true /\ gapless (new :: B) = true /\ (B = [] -> gapless (A ++ [new]) = true)).
  { unfold declared. rewrite !andb_true_iff, negb_true_iff, Z.eqb_neq, Z.eqb_eq, gapless_snoc, andb_true_iff. cbn [gapless].
    case_bool_decide; tauto. }
  exists A, B, m, (declared ipr A new B (gapless A)). split; [done|]. split; [done|].
  split; [eapply Forall_impl; [exact HA|]; by intros f [_ Hfe]|]. split; [|split; [done|split; [done|split; [done|split; [done|]]]]].
  - intros HAn. destruct B as [|b B]; [constructor|]. destruct HB as [_ HB]. unfold last_or in HB.
    apply ordered_app in Hord as (_ & [Hb _] & _). destruct (last A) as [g|] eqn:El; [|by apply last_None in El].
    constructor; [lia|]. eapply Forall_impl; [exact Hb|]. intros f Hbf. simpl in Hbf. lia.
  - intros Hab (_ & _ & H1 & H2 & H3)%Hc. destruct Hab as [-> | ->]; [done|]. by apply H3.
Qed.

End Chain.

(** Two fragments from 192.168.0.9: eight bytes that wait, and four that arrive. *)
Definition frag_hdr (len off : Z) : list Z := [0x45; 0] ++ be16 len ++ [0; 7] ++ be16 off ++ [64; 17; 0; 0; 192; 168; 0; 9; 192; 168; 0; 1].
Definition frags_st : pstate :=
  mk_ps (<[1000 := mk_pbuf 0 1100 28 28 PBUF_RAM 0 1]> (<[2000 := mk_pbuf 0 2040 24 24 PBUF_RAM 0 1]> (∅ : gmap Z pbuf)))
    (write_bytes (write_bytes (fun _ => 0) 1100 ([0; 0; 0; 0; 0; 0; 8; 0] ++ drop 8 (frag_hdr 28 0x2000) ++ [1; 2; 3; 4; 5; 6; 7; 8]))
       2040 (frag_hdr 24 1 ++ [9; 10; 11; 12])) heap0 net_pools 0.
Definition frags_rd : ip_reassdata := mk_rd 538001000 1000 (frag_hdr 28 0x2000) 0 0 3.
Definition frags_world : world unit := set_reass (set_wps world0 frags_st) [frags_rd] 1.

Lemma placed_witness :
  exists w' ipr', ip_reass_chain_frag (fun s _ => s) 9 frags_world (set_rd_flags frags_rd 1) 2000 = Some (w', ipr', true) /\
    queued (payload frags_world) (wmem w') 1000 [mk_frag 1000 0 8; mk_frag 2000 8 12] NULL.
Proof.
  assert (Hn : frag_of (wmem frags_world) (payload frags_world 2000) 2000 = mk_frag 2000 8 12) by (vm_compute; reflexivity).
  pose proof (fragment_placed (fun s _ => s) 9 frags_world (set_rd_flags frags_rd 1) [mk_frag 1000 0 8] 2000) as H.
  cbv zeta in H. rewrite Hn in H. change (rejected (mk_frag 2000 8 12) [mk_frag 1000 0 8]) with false in H. cbv iota in H.
  destruct H as (A & B & m & c & HL & HO & _ & _ & E & _ & Hq & Hc & _).
  - vm_compute. done.
  - split.
    + split; [constructor; [|constructor]|split; [constructor|done]]. right. vm_compute. congruence.
    + constructor; [|constructor; [|constructor]]; (split; [simpl; lia|vm_compute; congruence]).
  - by split; [constructor|].
  - simpl. lia.
  - destruct A as [|f [|g A]]; [|injection HL as <- <-|discriminate HL].
    { exfalso. cbn [app] in HL. subst B. destruct HO as [HO _]. apply Forall_cons in HO as [HO _]. cbn in HO. lia. }
    assert (c = true) as -> by (apply Hc; split; [discriminate|]; by repeat split). eexists _, _. split; [exact E|exact Hq].
Defined.

(** A fragment that comes first and overlaps the one that waits is linked in front of it: the
    queue has the bytes 8 to 11 twice. *)
Lemma overlap_in_front_linked : rejected (mk_frag 2000 0 12) [mk_frag 1000 8 16] = false.
Proof. reflexivity. Qed.

(** ** A hole that is not seen

    A fragment that lands between two waiting ones leaves the loop before the hole in
    front of it is looked at.  Of a datagram of 32 bytes, the bytes 8 to 15 have not
    arrived; the datagram is declared complete, with the length of 32 bytes in its header
    and 24 bytes of data. *)
Definition hole_st : pstate :=
  let f len off bs := frag_hdr len off ++ bs in
  mk_ps (<[1000 := mk_pbuf 0 1100 28 28 PBUF_RAM 0 1]> (<[2000 := mk_pbuf 0 2040 28 28 PBUF_RAM 0 1]>
          (<[3000 := mk_pbuf 0 3040 28 28 PBUF_RAM 0 1]> (∅ : gmap Z pbuf))))
    (write_bytes (write_bytes (write_bytes (fun _ => 0) 1100 (f 28 0x2000 [1; 2; 3; 4; 5; 6; 7; 8]))
       2040 (f 28 0x2002 [17; 18; 19; 20; 21; 22; 23; 24])) 3040 (f 28 3 [25; 26; 27; 28; 29; 30; 31; 32])) heap0 net_pools 0.

Definition reass_all (ps : list Z) (w : world unit) : option (world unit * list Z) :=
  foldl (fun ow p => match ow with
                     | None => None
                     | Some (w, rs) => match ip4_reass sink (fun s _ => s) 9 w p with None => None | Some (w, r) => Some (w, rs ++ [r]) end
                     end) (Some (w, [])) ps.

Lemma hole_accepted :
  match reass_all [1000; 3000; 2000] (set_wps world0 hole_st) with
  | None => False
  | Some (w, rs) => rs = [NULL; NULL; 1000] /\
      content (w_ps w) [1000; 2000; 3000] =
        [0x45; 0; 0; 52; 0; 7; 0; 0; 64; 17; 0; 0; 192; 168; 0; 9; 192; 168; 0; 1] ++
        [1; 2; 3; 4; 5; 6; 7; 8; 17; 18; 19; 20; 21; 22; 23; 24; 25; 26; 27; 28; 29; 30; 31; 32]
  end.
Proof. vm_compute. by split. Qed.
