(* ===== verification/ReassJoin.v ===== *)
(** * The datagram that reassembly returns

    The chain that [ip4_reass] builds from the fragments of a datagram, and the theorem
    that it holds the header of the first fragment and the data of all of them. *)

From Stdlib Require Import ZArith Lia.
From stdpp Require Import base tactics numbers list option gmap.
From S2P Require Import Prelude.
From S2P Require Import Def.
From S2P Require Import Ip4Addr.
From S2P Require Import Alloc.
From S2P Require Import Mem.
From S2P Require Import Memp.
From S2P Require Import Pbuf.
From S2P Require Import PbufChain.
From S2P Require Import World.
From S2P Require Import Ip4Frag.
From S2P Require Import Ip4.
From S2P Require Import Icmp.
From S2P Require Import Ip4Reass.
From S2P Require Import ReassQueue.

(** ** The packets of the fragments *)

(** A fragment with the pbufs behind its first one. *)
Notation "'packet'" := (prod frag (list Z)).
Definition chain_of (x : packet) : list Z := f_pb x.1 :: x.2.
Definition bufs (F : list packet) : list Z := concat (map chain_of F).
Definition data_of (st : pstate) (x : packet) : list Z := drop 20 (content st (chain_of x)).
Definition data_len (st : pstate) (x : packet) : Z := plen st (chain_of x) - 20.

Record packets (st : pstate) (F : list packet) : Prop := {
  pk_each : Forall (fun x => strippable st (f_pb x.1) x.2 20) F;
  pk_nodup : NoDup (bufs F);
  pk_apart : all_separate (payloads st (bufs F))
}.

Lemma all_separate_map {A} (f : A -> region) L x y :
  all_separate (map f L) -> x ∈ L -> y ∈ L -> x <> y -> separate (f x) (f y).
Proof.
  induction L as [|z L IH]; [intros _ ?%elem_of_nil; done|]. intros [Hz HL] Hx Hy Hne. rewrite Forall_forall in Hz.
  apply elem_of_cons in Hx as [->|Hx], Hy as [->|Hy]; auto.
  - done.
  - apply Hz. by apply list_elem_of_fmap_2.
  - apply separate_sym, Hz. by apply list_elem_of_fmap_2.
Qed.

Lemma in_bufs F x z : x ∈ F -> z ∈ chain_of x -> z ∈ bufs F.
Proof.
  intros Hx Hz. unfold bufs. apply list_elem_of_In, in_concat. exists (chain_of x).
  split; [by apply in_map, list_elem_of_In|by apply list_elem_of_In].
Qed.

Lemma bufs_unique F x y z : NoDup (bufs F) -> x ∈ F -> y ∈ F -> z ∈ chain_of x -> z ∈ chain_of y -> x = y.
Proof.
  unfold bufs. induction F as [|u F IH]; cbn [map concat]; [by intros _ ?%elem_of_nil|].
  intros (_ & Hd & Hn)%NoDup_app Hx Hy Hzx Hzy. apply elem_of_cons in Hx as [->|Hx], Hy as [->|Hy]; auto.
  - exfalso. apply (Hd z); [done|]. by apply (in_bufs F y).
  - exfalso. apply (Hd z); [done|]. by apply (in_bufs F x).
Qed.

(** A fragment in states that agree on its pbufs. *)
Lemma strippable_ext st st' p l n :
  (forall x, x ∈ p :: l -> pb st' x = pb st x) -> strippable st p l n -> strippable st' p l n.
Proof.
  intros He [H1 H2 H3 H4]. constructor.
  - apply (pchain_ext st); [|done]. intros x Hx. by rewrite He.
  - apply (sizes_ext st); [|done]. intros x Hx. by rewrite He.
  - rewrite He by left. done.
  - rewrite He by left. done.
Qed.

(** Writes into the IP headers do not change the data. *)
Definition header_of (st : pstate) (x : packet) : region := (pb_payload (pb st (f_pb x.1)), 20).

Lemma headers_apart st F x z a n :
  packets st F -> x ∈ F -> z ∈ chain_of x -> (z = f_pb x.1 -> pb_payload (pb st z) + 20 <= a) ->
  pb_payload (pb st z) <= a -> 0 <= n -> a + n <= pb_payload (pb st z) + pb_len (pb st z) ->
  Forall (separate (a, n)) (map (header_of st) F).
Proof.
  intros [He Hn Ha] Hx Hz H1 H2 H3 H4. apply Forall_forall. intros r (y & -> & Hy)%list_elem_of_fmap.
  unfold separate, header_of. simpl. destruct (Z.eq_dec z (f_pb y.1)) as [E|Hzy].
  - assert (x = y) as <- by (apply (bufs_unique F x y z); auto; rewrite E; left). specialize (H1 E). rewrite E in *. lia.
  - pose proof (all_separate_map (payload_region st) (bufs F) z (f_pb y.1) Ha (in_bufs F x z Hx Hz)
      (in_bufs F y _ Hy ltac:(left)) Hzy) as Hsp. unfold separate, payload_region in Hsp. simpl in Hsp.
    rewrite Forall_forall in He. pose proof (He y Hy) as [_ _ Hly _]. lia.
Qed.

Lemma data_of_eq st x :
  strippable st (f_pb x.1) x.2 20 ->
  data_of st x = bytes_at (data st) (pb_payload (pb st (f_pb x.1)) + 20) (Z.to_nat (pb_len (pb st (f_pb x.1)) - 20)) ++ content st x.2.
Proof.
  intros [_ (H0 & _) Hl _]. unfold data_of, chain_of. cbn [content]. unfold payload_bytes at 1.
  rewrite drop_app_le by (rewrite length_bytes_at; lia). rewrite bytes_at_drop by lia. f_equal. f_equal. lia.
Qed.

Lemma data_of_headers st F m x :
  packets st F -> only_in (map (header_of st) F) (data st) m -> x ∈ F -> data_of (set_data st m) x = data_of st x.
Proof.
  intros HP Ho Hx. pose proof HP as [He _ _]. rewrite Forall_forall in He. pose proof (He x Hx) as Hst.
  pose proof Hst as [_ (H0 & _ & _ & Hs) Hl _]. pose proof (sizes_nonneg _ _ Hs) as [_ Hpos].
  rewrite !data_of_eq by (done || by apply (strippable_ext st)). rewrite pb_set_data. cbn [data set_data]. f_equal.
  - eapply only_in_bytes; [exact Ho|]. apply (headers_apart st F x (f_pb x.1)); auto; [left|lia..].
  - apply (only_in_content (map (header_of st) F)); auto. intros z Hz. rewrite Forall_forall in Hpos. specialize (Hpos z Hz).
    unfold payload_region. apply (headers_apart st F x z); auto; [by right| |lia..].
    intros ->. exfalso. pose proof (sp_chain _ _ _ _ Hst) as Hc. apply pchain_nodup, NoDup_cons in Hc as [Hc _]. done.
Qed.

(** ** Joining the fragments *)

Section Join.
Context {X : Type} (fuel : nat).
Implicit Types w : world X.

Lemma length_bufs (F : list packet) : (length F <= length (bufs F))%nat.
Proof. unfold bufs. induction F as [|x F IH]; cbn [map concat length]; [lia|]. rewrite length_app. simpl. lia. Qed.

(** The total length of the data of some fragments. *)
Definition total (st : pstate) (F : list packet) : Z := foldr (fun x n => data_len st x + n) 0 F.

Lemma total_ext st st' F : (forall x, x ∈ bufs F -> pb st' x = pb st x) -> total st' F = total st F.
Proof.
  unfold total, bufs. induction F as [|x F IH]; cbn [map concat foldr]; intros He; [done|].
  rewrite IH by (intros; apply He, elem_of_app; by right). f_equal. unfold data_len. f_equal. apply plen_ext.
  intros z Hz. rewrite He; [done|]. apply elem_of_app. by left.
Qed.

Lemma data_of_ext st st' F x :
  data st' = data st -> (forall x, x ∈ bufs F -> pb st' x = pb st x) -> x ∈ F -> data_of st' x = data_of st x.
Proof.
  intros Hd He Hx. unfold data_of. f_equal. apply content_ext. intros z Hz. unfold payload_bytes. rewrite Hd, He; [done|].
  by apply (in_bufs F x).
Qed.

Lemma total_nonneg st (F : list packet) : Forall (fun x => strippable st (f_pb x.1) x.2 20) F -> 0 <= total st F.
Proof.
  induction 1 as [|x F [_ (H0 & _ & _ & Hs) Hl _] _ IH]; simpl; [lia|]. unfold data_len. cbn [plen chain_of].
  destruct (sizes_nonneg _ _ Hs). lia.
Qed.

Lemma plen_length st l : sizes st l -> plen st l = Z.of_nat (length (content st l)).
Proof. intros Hs. rewrite (length_content _ _ Hs). pose proof (sizes_nonneg _ _ Hs). lia. Qed.

Lemma strippable_plen st p l n : strippable st p l n -> n <= plen st (p :: l).
Proof. intros [_ (_ & _ & _ & Hs) Hl _]. cbn [plen]. pose proof (sizes_nonneg _ _ Hs). lia. Qed.

Lemma join_correct (F : list packet) : forall n w h lh q,
  pchain (w_ps w) h lh -> lh <> [] -> sizes (w_ps w) lh ->
  queued (payload w) (wmem w) q (map fst F) NULL -> Forall (fun x => strippable (w_ps w) (f_pb x.1) x.2 20) F ->
  NoDup (lh ++ bufs F) -> plen (w_ps w) lh + total (w_ps w) F < 65536 ->
  (length F < n)%nat -> (length (lh ++ bufs F) <= fuel)%nat ->
  exists st, loop n (join_step fuel h) (w, q) = Some (Some (set_wps w st)) /\ data st = wmem w /\
    pchain st h (lh ++ bufs F) /\ sizes st (lh ++ bufs F) /\
    content st (lh ++ bufs F) = content (w_ps w) lh ++ concat (map (data_of (w_ps w)) F).
Proof.
  induction F as [|[f l] F IH]; intros n w h lh q Hc Hne Hs Hq Hst Hnd Hlen Hn Hf; (destruct n as [|n]; [simpl in Hn; lia|]).
  - simpl in Hq. subst q. exists (w_ps w). unfold bufs. simpl. rewrite !app_nil_r. by destruct w.
  - apply Forall_cons in Hst as [Hsp Hst]. cbn [fst snd] in Hsp. destruct Hq as (-> & _ & _ & Hq). cbn [fst] in *.
    change (bufs ((f, l) :: F)) with ((f_pb f :: l) ++ bufs F) in *.
    pose proof (sp_chain _ _ _ _ Hsp) as (_ & Hp & _).
    destruct (strip_correct _ _ _ 20 0 Hsp ltac:(lia) ltac:(lia)) as (st1 & H1 & Hd1 & Hsp1 & Hc1 & _ & _ & _).
    change (- (20)) with (- IP_HLEN) in H1.
    assert (Ho1 : forall x, x <> f_pb f -> pb st1 x = pb (w_ps w) x).
    { intros x Hx. apply (header_others (w_ps w) (f_pb f) (- IP_HLEN) st1 0); auto; unfold IP_HLEN; lia. }
    apply NoDup_app in Hnd as (Hn1 & Hd & Hn2). apply NoDup_app in Hn2 as (Hn2 & Hd2 & Hn3).
    assert (Hlh : forall x, x ∈ lh -> pb st1 x = pb (w_ps w) x) by (intros x Hx; apply Ho1; intros ->; apply (Hd _ Hx); left).
    change (total (w_ps w) ((f, l) :: F)) with (plen (w_ps w) (f_pb f :: l) - 20 + total (w_ps w) F) in Hlen. pose proof (total_nonneg _ _ Hst) as Ht0.
    assert (Hpl : plen st1 lh = plen (w_ps w) lh) by (apply plen_ext; intros x Hx; by rewrite Hlh).
    assert (Hpl2 : plen st1 (f_pb f :: l) = plen (w_ps w) (f_pb f :: l) - 20).
    { pose proof (strippable_plen _ _ _ _ Hsp). rewrite !plen_length in * by (apply Hsp1 || apply Hsp).
      rewrite Hc1, length_drop. lia. }
    destruct (cat_correct fuel st1 h (f_pb f) lh (f_pb f :: l)) as (st2 & Hcat & Hd2' & C1 & C2 & C3 & C4 & _); auto.
    { apply (pchain_ext (w_ps w)); [|done]. intros x Hx. by rewrite Hlh. }
    { apply (sizes_ext (w_ps w)); [|done]. intros x Hx. by rewrite Hlh. }
    { apply (sp_chain _ _ _ _ Hsp1). }
    { apply (sp_sizes _ _ _ _ Hsp1). }
    { intros x Hx Hx2. apply (Hd x Hx), elem_of_app. by left. }
    { lia. }
    { rewrite length_app in Hf. lia. }
    assert (Hk : forall x, x ∈ bufs F -> pb st2 x = pb (w_ps w) x).
    { intros x Hx. rewrite C4, Ho1; [done| |].
      - intros ->. apply (Hd2 (f_pb f)); [left|done].
      - intros Hxl. apply (Hd x Hxl), elem_of_app. by right. }
    destruct (IH n (set_wps w st2) h (lh ++ f_pb f :: l) (iprh_next (wmem w) (payload w (f_pb f)))) as (st3 & Hl & I1 & I2 & I3 & I4).
    { exact C1. }
    { by destruct lh. }
    { exact C2. }
    { change (wmem (set_wps w st2)) with (data st2). rewrite Hd2', Hd1. revert Hq. apply queued_at.
      intros g (y & -> & Hy)%list_elem_of_fmap. unfold payload. cbn [w_ps set_wps]. rewrite Hk; [done|]. apply (in_bufs F y); [done|left]. }
    { rewrite Forall_forall in Hst. apply Forall_forall. intros y Hy. apply (strippable_ext (w_ps w)); [|by apply Hst].
      intros x Hx. apply Hk. by apply (in_bufs F y). }
    { rewrite <- app_assoc. apply NoDup_app. split; [done|]. split; [done|]. apply NoDup_app. done. }
    { cbn [w_ps set_wps]. rewrite (total_ext (w_ps w)) by done.
      enough (plen st2 (lh ++ f_pb f :: l) = plen st1 lh + plen st1 (f_pb f :: l)) by lia.
      rewrite plen_length, C3, length_app, Nat2Z.inj_add, <- !plen_length; [done|apply Hsp1| |done].
      apply (sizes_ext (w_ps w)); [|done]. intros x Hx. by rewrite Hlh. }
    { simpl in Hn. lia. }
    { rewrite <- app_assoc. done. }
    exists st3. rewrite <- app_assoc in I2, I3, I4. split; [|split; [|split; [done|split; [done|]]]].
    + cbn [loop]. unfold join_step at 1. rewrite (proj2 (Z.eqb_neq _ _) Hp). cbn [negb]. cbv zeta. rewrite H1. cbn [fst].
      change (w_ps (set_wps w st1)) with st1. rewrite Hcat. 
      change (wmem (set_wps (set_wps w st1) st2)) with (data st2). rewrite Hd2', Hd1. exact Hl.
    + rewrite I1. change (wmem (set_wps w st2)) with (data st2). by rewrite Hd2', Hd1.
    + rewrite I4. cbn [w_ps set_wps map concat]. rewrite C3, <- app_assoc, Hc1. f_equal.
      * apply content_ext. intros x Hx. unfold payload_bytes. by rewrite Hd1, Hlh.
      * f_equal. f_equal. apply map_ext_in. intros y Hy%list_elem_of_In. apply (data_of_ext _ _ F); auto. by rewrite Hd2', Hd1.
Qed.

(** ** The complete datagram *)

(** The header of the first fragment with the length of the whole datagram. *)
Definition whole_header (h : list Z) (len : Z) : list Z :=
  take 2 h ++ be16 len ++ take 2 (drop 4 h) ++ [0; 0] ++ take 2 (drop 8 h) ++ [0; 0] ++ drop 12 h.

Definition restore_header (m : memory) (a : Z) (h : list Z) (len : Z) : memory :=
  IPH_CHKSUM_SET (IPH_OFFSET_SET (IPH_LEN_SET (write_bytes m a h) a (lwip_htons len)) a 0) a 0.

Lemma restore_header_bytes m a h len :
  length h = 20%nat -> 0 <= len < 65536 -> bytes_at (restore_header m a h len) a 20 = whole_header h len.
Proof.
  intros Hh Hl. do 20 (destruct h as [|? h]; [done|]). destruct h; [|done].
  unfold restore_header, IPH_CHKSUM_SET, IPH_OFFSET_SET, IPH_LEN_SET, whole_header, be16. at_mem.
  cbn [take drop app]. by rewrite htons_mod, htons_div by done.
Qed.

Lemma restore_header_only m a h len : length h = 20%nat -> only_in [(a, 20)] m (restore_header m a h len).
Proof.
  intros Hh y Hy. inversion Hy as [|? ? Hr _]; subst. simpl in Hr.
  unfold restore_header, IPH_CHKSUM_SET, IPH_OFFSET_SET, IPH_LEN_SET. rewrite !st16_out, write_bytes_out by lia. done.
Qed.

(** The first pbufs of other fragments and the pbufs behind this one are apart. *)
Lemma packets_cons st (x : packet) (F : list packet) z :
  packets st (x :: F) -> z ∈ x.2 ++ bufs F -> f_pb x.1 <> z /\ separate (payload_region st (f_pb x.1)) (payload_region st z).
Proof.
  intros [_ Hn Ha] Hz. change (bufs (x :: F)) with (f_pb x.1 :: (x.2 ++ bufs F)) in *. apply NoDup_cons in Hn as [Hn _].
  split; [by intros <-|]. destruct Ha as [Ha _]. rewrite Forall_forall in Ha. apply Ha. by apply list_elem_of_fmap_2.
Qed.

Lemma finish_correct w ipr (x : packet) (F : list packet) :
  packets (w_ps w) (x :: F) -> queued (payload w) (wmem w) (rd_p ipr) (map fst (x :: F)) NULL ->
  length (rd_iphdr ipr) = 20%nat -> 20 + total (w_ps w) (x :: F) < 65536 -> (length (bufs (x :: F)) < fuel)%nat ->
  exists w', reass_finish fuel w ipr = Some (w', f_pb x.1) /\
    pchain (w_ps w') (f_pb x.1) (bufs (x :: F)) /\ sizes (w_ps w') (bufs (x :: F)) /\
    content (w_ps w') (bufs (x :: F)) =
      whole_header (rd_iphdr ipr) (u16 (rd_datagram_len ipr + 20)) ++ concat (map (data_of (w_ps w)) (x :: F)) /\
    reassdatagrams w' = rd_remove (rd_addr ipr) (reassdatagrams w) /\
    ip_reass_pbufcount w' = u16 (ip_reass_pbufcount w - Z.of_nat (length (bufs (x :: F)))).
Proof.
  intros HP (Hq1 & _ & _ & Hq) Hh Htot Hf. pose proof (pk_each _ _ HP) as He. apply Forall_cons in He as [Hx He].
  pose proof Hx as [Hc Hs Hl _]. set (p := f_pb x.1) in *. set (a := payload w p).
  set (len := u16 (rd_datagram_len ipr + 20)). set (m := restore_header (wmem w) a (rd_iphdr ipr) len).
  assert (Ho : only_in [(a, 20)] (wmem w) m) by by apply restore_header_only.
  assert (Hsep : forall z, z ∈ x.2 ++ bufs F -> separate (a, 20) (payload_region (w_ps w) z)).
  { intros z Hz. destruct (packets_cons _ _ _ _ HP Hz) as [_ Hsp]. unfold separate, payload_region, a, payload in *.
    fold p in Hsp. simpl in *. lia. }
  assert (Hb : bytes_at m a 20 = whole_header (rd_iphdr ipr) len) by (apply restore_header_bytes; [done|apply u16_range]).
  assert (Hwl : length (whole_header (rd_iphdr ipr) len) = 20%nat) by (rewrite <- Hb; apply length_bytes_at).
  assert (Hcont : content (set_data (w_ps w) m) (p :: x.2) = whole_header (rd_iphdr ipr) len ++ data_of (w_ps w) x).
  { pose proof (strippable_plen _ _ _ _ Hx) as Hpl.
    apply (rewrite_front _ _ _ _ _ (take 20 (content (w_ps w) (p :: x.2)))); rewrite ?Hwl; auto.
    - unfold data_of. by rewrite take_drop.
    - rewrite length_take, length_content by done. lia.
    - apply Forall_forall. intros r (z & -> & Hz)%list_elem_of_fmap. apply Hsep, elem_of_app. by left. }
  destruct (join_correct F fuel (set_wmem w m) p (p :: x.2) (iprh_next (wmem w) a)) as (st & Hj & Hd & J1 & J2 & J3).
  { by apply (pchain_ext (w_ps w)). }
  { done. }
  { by apply (sizes_ext (w_ps w)). }
  { unfold a. rewrite Hq1 in Hq. change (payload (set_wmem w m)) with (payload w). apply (queued_ext _ (wmem w)); [|exact Hq].
    intros g i (y & -> & Hy)%list_elem_of_fmap Hi. apply Ho. constructor; [|constructor]. simpl.
    assert (Hz : f_pb y.1 ∈ x.2 ++ bufs F) by (apply elem_of_app; right; apply (in_bufs F y); [done|left]).
    specialize (Hsep _ Hz). rewrite Forall_forall in He. pose proof (sp_len _ _ _ _ (He y Hy)).
    unfold separate, payload_region in Hsep. unfold payload in Hi. simpl in Hsep. lia. }
  { rewrite Forall_forall in He. apply Forall_forall. intros y Hy. by apply (strippable_ext (w_ps w)), He. }
  { apply (pk_nodup _ _ HP). }
  { cbn [w_ps set_wmem set_wps]. rewrite (total_ext (w_ps w)), (plen_ext (w_ps w)) by done.
    change (total (w_ps w) (x :: F)) with (plen (w_ps w) (p :: x.2) - 20 + total (w_ps w) F) in Htot. lia. }
  { pose proof (length_bufs F). change (bufs (x :: F)) with ((p :: x.2) ++ bufs F) in Hf. rewrite length_app in Hf. simpl in Hf. lia. }
  { change (bufs (x :: F)) with ((p :: x.2) ++ bufs F) in Hf. lia. }
  change ((p :: x.2) ++ bufs F) with (bufs (x :: F)) in *.
  unfold reass_finish. cbv zeta. rewrite Hq1. cbn [map fst f_pb] in *. fold p. fold a. fold len.
  change (IPH_CHKSUM_SET _ a 0) with m. unfold reass_join. rewrite Hj.
  rewrite (clen_correct fuel _ p (bufs (x :: F))) by (done || by apply (pchain_ext st)).
  eexists. split; [reflexivity|]. split; [by apply (pchain_ext st)|]. split; [by apply (sizes_ext st)|].
  split; [|split; [done|]].
  - etransitivity; [apply (content_ext st); done|]. rewrite J3. cbn [w_ps set_wmem set_wps map concat]. rewrite Hcont, <- app_assoc.
    f_equal. f_equal. f_equal. apply map_ext_in. intros y Hy%list_elem_of_In. apply (data_of_headers _ (x :: F)); [done| |by right].
    apply (only_in_mono [(a, 20)]); [|done]. intros r ->%list_elem_of_singleton. left.
  - cbn. unfold u16. by rewrite Zminus_mod_idemp_r.
Qed.

End Join.

(** ** Fragments of one datagram *)

(** The fragments cover the bytes from [s] to [n], one after the other. *)
Fixpoint tiles (s : Z) (L : list frag) (n : Z) : Prop :=
  match L with [] => s = n | f :: L => f_start f = s /\ s < f_end f /\ tiles (f_end f) L n end.

Definition slice (D : list Z) (s e : Z) : list Z := take (Z.to_nat (e - s)) (drop (Z.to_nat s) D).

Lemma tiles_app s A B n : tiles s (A ++ B) n <-> exists k, tiles s A k /\ tiles k B n.
Proof.
  revert s. induction A as [|f A IH]; intros s; simpl.
  - split; [eauto|]. by intros (k & -> & H).
  - setoid_rewrite IH. firstorder.
Qed.

Lemma tiles_le s L n : tiles s L n -> s <= n.
Proof. revert s. induction L as [|f L IH]; simpl; [lia|]. intros s (_ & H1 & H2). specialize (IH _ H2). lia. Qed.

Lemma tiles_contiguous g L n : tiles (f_end g) L n -> contiguous g L = true.
Proof. revert g. induction L as [|f L IH]; intros g; simpl; [done|]. intros (-> & _ & H). rewrite Z.eqb_refl. by apply IH. Qed.

(** The data of such fragments is the datagram. *)
Lemma tiles_data {A} (fr : A -> frag) (dat : A -> list Z) D L s :
  tiles s (map fr L) (Z.of_nat (length D)) -> 0 <= s -> Forall (fun x => dat x = slice D (f_start (fr x)) (f_end (fr x))) L ->
  concat (map dat L) = drop (Z.to_nat s) D.
Proof.
  revert s. induction L as [|x L IH]; intros s Ht Hs HL; simpl in *.
  - rewrite drop_ge by lia. done.
  - destruct Ht as (E & Hlt & Ht). apply Forall_cons in HL as [-> HL]. rewrite (IH _ Ht ltac:(lia) HL). rewrite E. unfold slice.
    rewrite <- (take_drop (Z.to_nat (f_end (fr x) - s)) (drop (Z.to_nat s) D)) at 2. f_equal. rewrite drop_drop. f_equal. lia.
Qed.

(** A fragment that fills the only hole goes there. *)
Lemma tiles_place A new B n : forall s prev,
  tiles s (A ++ new :: B) n -> match prev with None => True | Some g => f_end g = s end ->
  place new prev (A ++ B) true = Some (A, B, true).
Proof.
  induction A as [|f A IH]; intros s prev Ht Hp.
  - destruct Ht as (E & Hlt & Ht). destruct B as [|b B]; [done|]. destruct Ht as (Eb & _). cbn [app place].
    rewrite (proj2 (Z.ltb_lt _ _)) by lia. unfold overlaps. destruct prev as [g|]; [|done].
    rewrite !(proj2 (Z.ltb_ge _ _)) by lia. done.
  - destruct Ht as (E & Hlt & Ht). assert (Hge : f_end f <= f_start new).
    { apply tiles_app in Ht as (k & H1%tiles_le & H2). destruct H2 as (-> & _). done. }
    cbn [app place]. rewrite !(proj2 (Z.ltb_ge _ _)) by lia. rewrite (proj2 (Z.eqb_neq _ _)) by lia. cbn [orb].
    replace (true && follows prev f) with true by (unfold follows; destruct prev; [rewrite Hp, E, Z.eqb_refl|]; done).
    by rewrite (IH _ (Some f) Ht).
Qed.

Lemma tiles_declared A new B n ipr :
  tiles 0 (A ++ new :: B) n -> Z.land (rd_flags ipr) IP_REASS_FLAG_LASTFRAG <> 0 -> declared ipr A new B true = true.
Proof.
  intros Ht Hl. unfold declared. rewrite (proj2 (Z.eqb_neq _ _) Hl). cbn [negb andb].
  assert (H0 : f_start (default new (head A)) = 0) by (destruct A; apply Ht).
  pose proof Ht as (k & HA & HB)%tiles_app. destruct HB as (E & Hlt & HB).
  rewrite H0, (tiles_contiguous _ _ _ HB). cbn [Z.eqb andb]. rewrite andb_true_r.
  case_bool_decide; [|done]. destruct (last A) as [g|] eqn:El; [|done]. apply last_Some in El as [A0 ->].
  apply tiles_app in HA as (k' & _ & _ & _ & Hg). simpl in Hg. simpl. apply Z.eqb_eq. congruence.
Qed.

(** ** The last fragment to arrive *)

Section Complete.
Context {X : Type} (custom_free : pstate -> Z -> pstate) (fuel : nat).
Implicit Types w : world X.

Lemma packets_perm st F F' : F ≡ₚ F' -> packets st F -> packets st F'.
Proof.
  intros HP [H1 H2 H3]. assert (Hb : bufs F ≡ₚ bufs F').
  { unfold bufs. clear -HP. induction HP; cbn [map concat]; [done|by f_equiv| |by etransitivity].
    rewrite !app_assoc. by rewrite (Permutation_app_comm (chain_of y)). }
  constructor; [by rewrite <- HP|by rewrite <- Hb|]. eapply all_separate_perm; [|exact H3]. unfold payloads. by rewrite Hb.
Qed.

Lemma packets_helpers w F :
  packets (w_ps w) F -> Forall (fun x => 0 < f_pb x.1 < 4294967296 /\ payload w (f_pb x.1) <> NULL) F ->
  helpers_ok (payload w) (map fst F).
Proof.
  intros HP Hr. split.
  - rewrite map_map. induction F as [|x F IH]; [done|]. split.
    + apply Forall_forall. intros r (y & -> & Hy)%list_elem_of_fmap.
      assert (Hz : f_pb y.1 ∈ x.2 ++ bufs F) by (apply elem_of_app; right; apply (in_bufs F y); [done|left]).
      destruct (packets_cons _ _ _ _ HP Hz) as [_ Hs]. pose proof (pk_each _ _ HP) as He. rewrite Forall_forall in He.
      pose proof (sp_len _ _ _ _ (He x ltac:(left))). pose proof (sp_len _ _ _ _ (He y ltac:(by right))).
      unfold separate, payload_region, helper, payload in *. simpl in *. lia.
    + apply IH; [|by inversion Hr]. destruct HP as [H1 H2 H3]. inversion H1; subst.
      change (bufs (x :: F)) with (chain_of x ++ bufs F) in H2, H3. unfold payloads in H3. rewrite map_app in H3.
      apply NoDup_app in H2. apply all_separate_app in H3. constructor; tauto.
  - apply Forall_map. done.
Qed.

Lemma helpers_in_headers w F m m' :
  only_in (map (helper (payload w)) (map fst F)) m m' -> only_in (map (header_of (w_ps w)) F) m m'.
Proof.
  intros H y Hy. apply H. rewrite map_map. apply Forall_map. apply Forall_map in Hy. eapply Forall_impl; [exact Hy|].
  intros x Hx. unfold helper, header_of, payload in *. simpl in *. lia.
Qed.

Lemma total_length st (F : list packet) :
  Forall (fun x => strippable st (f_pb x.1) x.2 20) F -> total st F = Z.of_nat (length (concat (map (data_of st) F))).
Proof.
  induction 1 as [|x F Hx _ IH]; [done|]. cbn [map concat total foldr]. rewrite length_app, Nat2Z.inj_add, <- IH.
  unfold total. f_equal. unfold data_len, data_of. pose proof (strippable_plen _ _ _ _ Hx). rewrite length_drop.
  rewrite plen_length by apply Hx. rewrite plen_length in H by apply Hx. unfold chain_of. lia.
Qed.

Lemma add_completes w ipr p lp (A B : list packet) D clen :
  let new := frag_of (wmem w) (payload w p) p in
  let F := A ++ (new, lp) :: B in
  packets (w_ps w) F -> Forall (fun x => 0 < f_pb x.1 < 4294967296 /\ payload w (f_pb x.1) <> NULL) F ->
  queued (payload w) (wmem w) (rd_p ipr) (map fst (A ++ B)) NULL ->
  tiles 0 (map fst F) (Z.of_nat (length D)) ->
  Forall (fun x => data_of (w_ps w) x = slice D (f_start x.1) (f_end x.1)) F ->
  (if decide (Z.land (IPH_OFFSET (wmem w) (payload w p)) (PP_HTONS IP_MF) = 0) then f_end new = Z.of_nat (length D)
   else Z.land (rd_flags ipr) IP_REASS_FLAG_LASTFRAG <> 0 /\ rd_datagram_len ipr = Z.of_nat (length D)) ->
  length (rd_iphdr ipr) = 20%nat -> Z.of_nat (length D) < 65516 -> (length (bufs F) < fuel)%nat ->
  exists w', reass_add custom_free fuel w ipr p clen = Some (w', first_pb (map fst F)) /\
    pchain (w_ps w') (first_pb (map fst F)) (bufs F) /\ sizes (w_ps w') (bufs F) /\
    content (w_ps w') (bufs F) = whole_header (rd_iphdr ipr) (Z.of_nat (length D) + 20) ++ D.
Proof.
  intros new F HP Hr Hq Ht Hdat Hlast Hh HD Hf. unfold reass_add. cbv zeta.
  set (off := u16 (Z.land (lwip_htons _) _ * 8)). set (len := u16 (lwip_htons _ - _)).
  change (u16 (off + len)) with (f_end new).
  set (ipr1 := if _ =? 0 then _ else ipr).
  set (w1 := set_reass w (reassdatagrams w) _).
  assert (H1 : Z.land (rd_flags ipr1) IP_REASS_FLAG_LASTFRAG <> 0 /\ rd_datagram_len ipr1 = Z.of_nat (length D) /\
    rd_iphdr ipr1 = rd_iphdr ipr /\ rd_p ipr1 = rd_p ipr).
  { unfold ipr1. destruct (Z.eqb_spec (Z.land (IPH_OFFSET (wmem w) (payload w p)) (PP_HTONS IP_MF)) 0) as [E|E].
    - rewrite decide_True in Hlast by done. cbn [rd_flags rd_datagram_len set_rd_len set_rd_flags rd_iphdr rd_p].
      split; [|by rewrite Hlast].
      unfold IP_REASS_FLAG_LASTFRAG. rewrite Z.land_lor_distr_l. rewrite Z.lor_eq_0_iff. intros [_ ?]. done.
    - rewrite decide_False in Hlast by done. tauto. }
  destruct H1 as (Hfl & Hdl & Hhdr & Hp). clearbody ipr1.
  assert (HP' : packets (w_ps w) ((new, lp) :: A ++ B)) by (eapply packets_perm; [|exact HP]; symmetry; apply Permutation_middle).
  assert (Hok : helpers_ok (payload w1) (new :: map fst (A ++ B))).
  { apply (packets_helpers w ((new, lp) :: A ++ B)); [done|]. eapply Permutation_Forall; [|exact Hr]. 
    symmetry. apply Permutation_middle. }
  assert (Hq1 : queued (payload w1) (wmem w1) (rd_p ipr1) (map fst (A ++ B)) NULL) by (rewrite Hp; exact Hq).
  assert (HlL : (length (map fst (A ++ B)) < fuel)%nat).
  { pose proof (length_bufs F) as Hlb. unfold F in Hlb at 1. rewrite length_map. rewrite !length_app in *. simpl in Hlb. lia. }
  pose proof (chain_frag_correct custom_free fuel w1 ipr1 (map fst (A ++ B)) p) as Hc. cbv zeta in Hc.
  change (frag_of (wmem w1) (payload w1 p) p) with new in Hc. specialize (Hc Hq1 Hok HlL).
  assert (HF : map fst F = map fst A ++ new :: map fst B) by (unfold F; by rewrite map_app).
  rewrite HF in Ht. rewrite map_app in Hc. rewrite (tiles_place _ _ _ _ 0 None Ht Logic.I) in Hc.
  destruct Hc as (m & Ho & Hqm & ->). rewrite (tiles_declared _ _ _ _ _ Ht Hfl), <- HF. rewrite <- HF in Hqm, Ht.
  set (w2 := set_reass _ _ _). set (ipr2 := set_rd_p ipr1 _).
  assert (HPm : packets (set_data (w_ps w) m) F).
  { destruct HP as [P1 P2 P3]. constructor; [|done|done]. eapply Forall_impl; [exact P1|]. intros x. by apply strippable_ext. }
  assert (Hdm : map (data_of (set_data (w_ps w) m)) F = map (data_of (w_ps w)) F).
  { apply map_ext_in. intros x Hx%list_elem_of_In. apply (data_of_headers _ F); [done| |done].
    apply (helpers_in_headers w). rewrite HF. eapply only_in_mono; [|exact Ho]. intros r (g & -> & Hg)%list_elem_of_fmap.
    apply list_elem_of_fmap_2. rewrite !elem_of_cons, !elem_of_app, ?elem_of_cons in *. tauto. }
  assert (HDD : concat (map (data_of (set_data (w_ps w) m)) F) = D).
  { rewrite Hdm, (tiles_data fst _ D F 0); [done|done|lia|done]. }
  assert (HtF : 20 + total (w_ps w2) F < 65536).
  { rewrite total_length by apply HPm. change (w_ps w2) with (set_data (w_ps w) m). rewrite HDD. lia. }
  destruct F as [|x F'] eqn:EF; [by destruct A|].
  destruct (finish_correct fuel w2 ipr2 x F') as (w3 & E & K1 & K2 & K3 & _); auto.
  { cbn. by rewrite Hhdr. }
  exists w3. split; [exact E|]. split; [done|]. split; [done|]. rewrite K3. 
  change (w_ps w2) with (set_data (w_ps w) m). rewrite HDD. cbn [rd_iphdr rd_datagram_len ipr2 set_rd_p].
  rewrite Hhdr, Hdl, u16_small by lia. done.
Qed.

(** The header of the datagram: that of the fragment with offset 0. *)
Definition datagram_header w (ipr : ip_reassdata) (p : Z) : list Z :=
  if (Z.land (lwip_htons (IPH_OFFSET (wmem w) (payload w p))) IP_OFFMASK =? 0) && negb (Z.land (rd_offset ipr) IP_OFFMASK =? 0)
  then bytes_at (wmem w) (payload w p) 20 else rd_iphdr ipr.

(** C24: The fragment that fills the last hole: when the fragments that wait for a datagram
    and the one that arrives cover the bytes of [D] one after the other, whatever the
    place of the new one, and the fragment without "more fragments" is among them,
    [ip4_reass] returns a chain of all their pbufs whose content is the header of the
    first fragment, with the total length and without fragmentation, followed by
    exactly [D]. *)
Theorem reass_rebuilds out w ipr p lp (A B : list packet) D :
  let new := frag_of (wmem w) (payload w p) p in
  let F := A ++ (new, lp) :: B in
  IPH_HL (wmem w) (payload w p) = 5 -> ip_reass_pbufcount w + u16 (Z.of_nat (length (p :: lp))) <= IP_REASS_MAX_PBUFS ->
  List.find (fun r => IP_ADDRESSES_AND_ID_MATCH r (wmem w) (payload w p)) (reassdatagrams w) = Some ipr ->
  packets (w_ps w) F -> Forall (fun x => 0 < f_pb x.1 < 4294967296 /\ payload w (f_pb x.1) <> NULL) F ->
  queued (payload w) (wmem w) (rd_p ipr) (map fst (A ++ B)) NULL ->
  tiles 0 (map fst F) (Z.of_nat (length D)) ->
  Forall (fun x => data_of (w_ps w) x = slice D (f_start x.1) (f_end x.1)) F ->
  (if decide (Z.land (IPH_OFFSET (wmem w) (payload w p)) (PP_HTONS IP_MF) = 0) then f_end new = Z.of_nat (length D)
   else Z.land (rd_flags ipr) IP_REASS_FLAG_LASTFRAG <> 0 /\ rd_datagram_len ipr = Z.of_nat (length D)) ->
  length (rd_iphdr ipr) = 20%nat -> Z.of_nat (length D) < 65516 -> (length (bufs F) < fuel)%nat ->
  exists w', ip4_reass out custom_free fuel w p = Some (w', first_pb (map fst F)) /\
    pchain (w_ps w') (first_pb (map fst F)) (bufs F) /\ sizes (w_ps w') (bufs F) /\
    content (w_ps w') (bufs F) = whole_header (datagram_header w ipr p) (Z.of_nat (length D) + 20) ++ D.
Proof.
  intros new F Hhl Hcnt Hfind HP Hr Hq Ht Hdat Hlast Hh HD Hf. unfold ip4_reass. cbv zeta.
  set (w1 := stats_inc S_ip_frag F_recv w). change (wmem w1) with (wmem w). change (payload w1 p) with (payload w p).
  rewrite Hhl. change (negb (5 * 4 =? IP_HLEN)) with false. cbv iota.
  assert (Hp : (new, lp) ∈ F) by (apply elem_of_app; right; left).
  pose proof (pk_each _ _ HP) as He. rewrite Forall_forall in He. pose proof (sp_chain _ _ _ _ (He _ Hp)) as Hc. cbn [fst snd] in Hc.
  assert (Hlp : (length (p :: lp) < fuel)%nat).
  { eapply Nat.le_lt_trans; [|exact Hf]. unfold bufs, F. rewrite map_app, concat_app. cbn [map concat chain_of fst snd].
    rewrite !length_app. simpl. lia. }
  change (w_ps w1) with (w_ps w). rewrite (clen_correct fuel _ p (p :: lp) Hc Hlp).
  change (ip_reass_pbufcount w1) with (ip_reass_pbufcount w). rewrite (proj2 (Z.ltb_ge _ _) Hcnt).
  change (wmem w1) with (wmem w). change (reassdatagrams w1) with (reassdatagrams w). rewrite Hfind.
  set (ipr1 := if _ && _ then _ else ipr). set (w2 := stats_inc S_ip_frag F_cachehit w1).
  assert (Hi : rd_iphdr ipr1 = datagram_header w ipr p /\ rd_p ipr1 = rd_p ipr /\ rd_flags ipr1 = rd_flags ipr /\
    rd_datagram_len ipr1 = rd_datagram_len ipr).
  { unfold ipr1, datagram_header. change (wmem w2) with (wmem w). by destruct (_ && _). }
  destruct Hi as (I1 & I2 & I3 & I4). clearbody ipr1. rewrite <- I1.
  apply (add_completes w2 ipr1 p lp A B D); auto.
  - by rewrite I2.
  - by rewrite I3, I4.
  - rewrite I1. unfold datagram_header. destruct (_ && _); [apply length_bytes_at|done].
Qed.

End Complete.

Lemma frags_packets : packets frags_st [(mk_frag 1000 0 8, []); (mk_frag 2000 8 12, [])].
Proof.
  constructor.
  - repeat constructor; vm_compute; congruence.
  - change (NoDup [1000; 2000]). apply NoDup_cons. split; [|apply NoDup_singleton]. intros ?%list_elem_of_singleton. lia.
  - change (all_separate [(1100, 28); (2040, 24)]). split; [|split; [constructor|done]]. constructor; [|constructor]. left. simpl. lia.
Qed.

Lemma rebuilds_witness :
  exists w', ip4_reass sink (fun s _ => s) 9 frags_world 2000 = Some (w', 1000) /\
    content (w_ps w') [1000; 2000] =
      [0x45; 0; 0; 32; 0; 7; 0; 0; 64; 17; 0; 0; 192; 168; 0; 9; 192; 168; 0; 1; 1; 2; 3; 4; 5; 6; 7; 8; 9; 10; 11; 12].
Proof.
  destruct (reass_rebuilds (fun s _ => s) 9 sink frags_world frags_rd 2000 [] [(mk_frag 1000 0 8, [])] []
    [1; 2; 3; 4; 5; 6; 7; 8; 9; 10; 11; 12]) as (w' & H1 & _ & _ & H2).
  - vm_compute. reflexivity.
  - vm_compute. congruence.
  - reflexivity.
  - exact frags_packets.
  - repeat constructor; vm_compute; congruence.
  - vm_compute. done.
  - vm_compute. done.
  - repeat constructor.
  - vm_compute. reflexivity.
  - reflexivity.
  - vm_compute. reflexivity.
  - change (2 < 9)%nat. lia.
  - exists w'. split; [exact H1|]. etransitivity; [exact H2|]. vm_compute. reflexivity.
Defined.
