(* ===== verification/Udp.v ===== *)
(** * [core/udp.c]: UDP

    The configuration: no UDP-Lite, no [SO_REUSE], no broadcast options, checksums in
    hardware, [LWIP_MULTICAST_TX_OPTIONS] on and IPv4 only, so that the tests on the
    address type of a PCB are constant.  The list [udp_pcbs], linked through [next],
    is a list of addresses; the PCBs themselves are in [udp_pcb_at]. *)

From Stdlib Require Import ZArith Lia.
From stdpp Require Import base tactics numbers list option gmap.
From S2P Require Import Prelude.
From S2P Require Import Def.
From S2P Require Import Ip4Addr.
From S2P Require Import Alloc.
From S2P Require Import Mem.
From S2P Require Import Memp.
From S2P Require Import Pbuf.
From S2P Require Import PbufChain.
From S2P Require Import World.
From S2P Require Import Ip4Frag.
From S2P Require Import Ip4.
From S2P Require Import Icmp.

Definition MEMP_UDP_PCB : Z := 0.
Definition UDP_HLEN : Z := 8.
Definition UDP_TTL : Z := 255.
Definition UDP_FLAGS_CONNECTED : Z := 0x04.
Definition UDP_FLAGS_MULTICAST_LOOP : Z := 0x08.
Definition PBUF_FLAG_MCASTLOOP : Z := 0x04.
Definition UDP_LOCAL_PORT_RANGE_START : Z := 0xc000.
Definition UDP_LOCAL_PORT_RANGE_END : Z := 0xffff.

(** ** [struct udp_pcb] *)

Definition pcb0 : udp_pcb := mk_pcb 0 0 0 0 0 0 0 0 0 0 0.
Definition set_u_local (u : udp_pcb) ip port := mk_pcb ip (u_remote_ip u) (u_tos u) (u_ttl u) (u_flags u) port
  (u_remote_port u) (u_multicast_ip u) (u_mcast_ttl u) (u_recv u) (u_recv_arg u).
Definition set_u_remote (u : udp_pcb) ip port flags := mk_pcb (u_local_ip u) ip (u_tos u) (u_ttl u) flags
  (u_local_port u) port (u_multicast_ip u) (u_mcast_ttl u) (u_recv u) (u_recv_arg u).
Definition set_u_recv (u : udp_pcb) recv arg := mk_pcb (u_local_ip u) (u_remote_ip u) (u_tos u) (u_ttl u) (u_flags u)
  (u_local_port u) (u_remote_port u) (u_multicast_ip u) (u_mcast_ttl u) recv arg.

(** What [udp_input] reads of the current packet: the receiving interface, the
    addresses, the ports and whether it is a broadcast. *)
Record dgram := mk_dgram { g_inp : netif; g_src_ip : Z; g_dest_ip : Z; g_src : Z; g_dest : Z; g_broadcast : bool }.

(** [udp_input_local_match(pcb, inp, broadcast)] *)
Definition udp_input_local_match (u : udp_pcb) (g : dgram) : bool :=
  if g_broadcast g then
    ip4_addr_isany (u_local_ip u) || (g_dest_ip g =? IPADDR_BROADCAST) ||
    ip4_addr_netcmp (u_local_ip u) (g_dest_ip g) (netif_netmask (g_inp g))
  else ip4_addr_isany (u_local_ip u) || (u_local_ip u =? g_dest_ip g).

(** The tests of the search: the local side, an unconnected PCB, the remote side. *)
Definition local_match (u : udp_pcb) (g : dgram) : bool :=
  (u_local_port u =? g_dest g) && udp_input_local_match u g.
Definition unconnected (u : udp_pcb) : bool := Z.land (u_flags u) UDP_FLAGS_CONNECTED =? 0.
Definition remote_match (u : udp_pcb) (g : dgram) : bool :=
  (u_remote_port u =? g_src g) && (ip4_addr_isany (u_remote_ip u) || (u_remote_ip u =? g_src_ip g)).

(** The loop over [udp_pcbs]; [done_] are the PCBs in front of [l].  The result is the
    PCB, the new list and whether the first PCB was hit ([udp.cachehit]). *)
Fixpoint udp_search (at_ : Z -> udp_pcb) (g : dgram) (done_ l : list Z) (uncon_pcb : option Z)
    : option Z * list Z * bool :=
  match l with
  | [] => (uncon_pcb, done_, false)
  | pcb :: l' =>
      let u := at_ pcb in
      if local_match u g then
        let uncon_pcb := if unconnected u then match uncon_pcb with None => Some pcb | _ => uncon_pcb end
                         else uncon_pcb in
        if remote_match u g then
          match done_ with
          | [] => (Some pcb, pcb :: l', true)
          | _ => (Some pcb, pcb :: done_ ++ l', false)
          end
        else udp_search at_ g (done_ ++ [pcb]) l' uncon_pcb
      else udp_search at_ g (done_ ++ [pcb]) l' uncon_pcb
  end.

Section Udp.
Context {X : Type}.
Context (netif_output : world X -> Z -> Z -> Z -> option (world X * Z)).
Context (custom_free : pstate -> Z -> pstate) (fuel : nat).
(** The receive callbacks: [recv(arg, pcb, p, addr, port)]. *)
Context (udp_recv_fn : Z -> world X -> Z -> Z -> Z -> Z -> Z -> option (world X)).
Implicit Types w : world X.

Definition udp_at w (pcb : Z) : udp_pcb := default pcb0 (udp_pcb_at w !! pcb).
Definition upd_udp w (pcb : Z) (f : udp_pcb -> udp_pcb) : world X :=
  set_udp_at w (<[pcb := f (udp_at w pcb)]> (udp_pcb_at w)).

(** ** Ports and binding *)

(** [udp_new_port()]: each round advances [udp_port] and is the last one unless a PCB
    has the port; [n] counts the rounds that were not.  The bound is never reached. *)
Definition new_port_step : world X * Z -> (world X * Z) + (world X * Z) := fun '(w, n) =>
  let w := set_udp_port w (if udp_port w =? UDP_LOCAL_PORT_RANGE_END then UDP_LOCAL_PORT_RANGE_START
                           else u16 (udp_port w + 1)) in
  if existsb (fun pcb => u_local_port (udp_at w pcb) =? udp_port w) (udp_pcbs w) then
    let n := u16 (n + 1) in
    if UDP_LOCAL_PORT_RANGE_END - UDP_LOCAL_PORT_RANGE_START <? n then inr (w, 0) else inl (w, n)
  else inr (w, udp_port w).
Definition udp_new_port w : option (world X * Z) :=
  loop (Z.to_nat (UDP_LOCAL_PORT_RANGE_END - UDP_LOCAL_PORT_RANGE_START + 2)) new_port_step (w, 0).

(** [udp_bind(pcb, ipaddr, port)]; [None] for a [NULL] address. *)
Definition udp_bind w (pcb : Z) (ipaddr : option Z) (port : Z) : option (world X * Z) :=
  let ipaddr := default IPADDR_ANY ipaddr in
  if pcb =? NULL then Some (w, ERR_VAL)
  else
    let rebind := existsb (Z.eqb pcb) (udp_pcbs w) in
    let bound w port :=
      let w := upd_udp w pcb (fun u => set_u_local u ipaddr port) in
      Some (if rebind then w else set_udp_pcbs w (pcb :: udp_pcbs w), ERR_OK) in
    if port =? 0 then
      match udp_new_port w with
      | None => None
      | Some (w, port) => if port =? 0 then Some (w, ERR_USE) else bound w port
      end
    else if existsb (fun ipcb => negb (pcb =? ipcb) && ((u_local_port (udp_at w ipcb) =? port) &&
                                   (u_local_ip (udp_at w ipcb) =? ipaddr))) (udp_pcbs w)
    then Some (w, ERR_USE)
    else bound w port.

(** [udp_connect(pcb, ipaddr, port)] *)
Definition udp_connect w (pcb : Z) (ipaddr : option Z) (port : Z) : option (world X * Z) :=
  match ipaddr with
  | None => Some (w, ERR_VAL)
  | Some ipaddr =>
      if pcb =? NULL then Some (w, ERR_VAL)
      else
        match (if u_local_port (udp_at w pcb) =? 0
               then udp_bind w pcb (Some (u_local_ip (udp_at w pcb))) (u_local_port (udp_at w pcb))
               else Some (w, ERR_OK)) with
        | None => None
        | Some (w, err) =>
            if negb (err =? ERR_OK) then Some (w, err)
            else
              let w := upd_udp w pcb (fun u => set_u_remote u ipaddr port (Z.lor (u_flags u) UDP_FLAGS_CONNECTED)) in
              if existsb (Z.eqb pcb) (udp_pcbs w) then Some (w, ERR_OK)
              else Some (set_udp_pcbs w (pcb :: udp_pcbs w), ERR_OK)
        end
  end.

(** [udp_disconnect], [udp_recv] *)
Definition udp_disconnect w (pcb : Z) : world X :=
  upd_udp w pcb (fun u => set_u_remote u IPADDR_ANY 0 (u8 (Z.land (u_flags u) (Z.lnot UDP_FLAGS_CONNECTED)))).
Definition udp_recv w (pcb recv recv_arg : Z) : world X := upd_udp w pcb (fun u => set_u_recv u recv recv_arg).

(** [udp_remove(pcb)]: the loop unlinks the first PCB behind the head. *)
Fixpoint list_remove1 (x : Z) (l : list Z) : list Z :=
  match l with [] => [] | y :: l => if y =? x then l else y :: list_remove1 x l end.
Definition udp_remove w (pcb : Z) : world X :=
  let w := set_udp_pcbs w (list_remove1 pcb (udp_pcbs w)) in
  let w := set_udp_at w (delete pcb (udp_pcb_at w)) in
  set_wps w (set_pools (w_ps w) (memp_free (ps_pools (w_ps w)) MEMP_UDP_PCB pcb)).

(** [udp_new()], [udp_new_ip_type(type)] *)
Definition udp_new w : world X * Z :=
  let '(ps, pcb) := memp_malloc (ps_pools (w_ps w)) MEMP_UDP_PCB in
  let w := set_wps w (set_pools (w_ps w) ps) in
  if negb (pcb =? NULL)
  then (set_udp_at w (<[pcb := mk_pcb 0 0 0 UDP_TTL 0 0 0 0 UDP_TTL 0 0]> (udp_pcb_at w)), pcb)
  else (w, pcb).
Definition udp_new_ip_type w (type : Z) : world X * Z := udp_new w.

(** [udp_netif_ip_addr_changed(old_addr, new_addr)] *)
Definition udp_netif_ip_addr_changed w (old_addr new_addr : Z) : world X :=
  if negb (ip4_addr_isany old_addr) && negb (ip4_addr_isany new_addr) then
    foldl (fun w pcb => if u_local_ip (udp_at w pcb) =? old_addr
                        then upd_udp w pcb (fun u => set_u_local u new_addr (u_local_port u)) else w)
      w (udp_pcbs w)
  else w.

(** ** Input *)

Definition pbuf_free_then w (p : Z) : option (world X) := wfree custom_free fuel w p.

(** The part of [udp_input] behind the search. *)
Definition udp_deliver w (p inp : Z) (g : dgram) (pcb : option Z) : option (world X) :=
  let for_us := match pcb with Some _ => true | None => netif_ip_addr (g_inp g) =? g_dest_ip g end in
  if for_us then
    let '(st, e) := pbuf_header (w_ps w) p (- UDP_HLEN) in
    let w := set_wps w st in
    if negb (e =? 0) then pbuf_free_then (stats_inc S_udp F_drop w) p
    else
      match pcb with
      | Some pcb =>
          let u := udp_at w pcb in
          if negb (u_recv u =? NULL)
          then udp_recv_fn (u_recv u) w (u_recv_arg u) pcb p (g_src_ip g) (g_src g)
          else pbuf_free_then w p
      | None =>
          match (if negb (g_broadcast g) && negb (ip4_addr_ismulticast (g_dest_ip g)) then
                   let '(st, _) := pbuf_header_force (w_ps w) p
                                     (s16 (current_ip_header_tot_len (ip_data w) + UDP_HLEN)) in
                   icmp_dest_unreach netif_output custom_free fuel (set_wps w st) p ICMP_DUR_PORT
                 else Some w) with
          | None => None
          | Some w => pbuf_free_then (stats_inc S_udp F_drop (stats_inc S_udp F_proterr w)) p
          end
      end
  else pbuf_free_then w p.

(** What [udp_input] reads of the current packet. *)
Definition current_dgram w (p inp : Z) : dgram :=
  let d := ip_data w in
  mk_dgram (netif_of w inp) (current_iphdr_src d) (current_iphdr_dest d)
    (lwip_htons (ld16 (wmem w) (payload w p))) (lwip_htons (ld16 (wmem w) (payload w p + 2)))
    (negb (ip4_addr_isbroadcast_u32 (current_iphdr_dest d) (netif_of w (current_netif d)) =? 0)).

(** [udp_input(p, inp)] *)
Definition udp_input w (p inp : Z) : option (world X) :=
  let w := stats_inc S_udp F_recv w in
  if pb_len (pb (w_ps w) p) <? UDP_HLEN
  then pbuf_free_then (stats_inc S_udp F_drop (stats_inc S_udp F_lenerr w)) p
  else
    let g := current_dgram w p inp in
    let '(pcb, l, hit) := udp_search (udp_at w) g [] (udp_pcbs w) None in
    let w := set_udp_pcbs w l in
    let w := if (hit : bool) then stats_inc S_udp F_cachehit w else w in
    udp_deliver w p inp g pcb.

(** ** Output *)

(** The UDP header in the order the code writes it. *)
Definition udp_write_header (m : memory) (udphdr src dest len : Z) : memory :=
  let m := st16 m udphdr (lwip_htons src) in
  let m := st16 m (udphdr + 2) (lwip_htons dest) in
  let m := st16 m (udphdr + 6) 0 in
  st16 m (udphdr + 4) (lwip_htons len).

(** The header in [p], or in a new pbuf in front of it; [inr] is an error. *)
Definition udp_add_header w (p : Z) : option ((world X * Z) + (world X * Z)) :=
  let '(st, e) := pbuf_header (w_ps w) p UDP_HLEN in
  let w := set_wps w st in
  if negb (e =? 0) then
    match pbuf_alloc custom_free fuel (w_ps w) PBUF_IP UDP_HLEN PBUF_RAM with
    | None => None
    | Some (st, q) =>
        let w := set_wps w st in
        if q =? NULL then Some (inr (w, ERR_MEM))
        else if negb (pb_tot_len (pb (w_ps w) p) =? 0) then
          match pbuf_chain fuel (w_ps w) q p with
          | None => None
          | Some st => Some (inl (set_wps w st, q))
          end
        else Some (inl (w, q))
    end
  else Some (inl (w, p)).

(** [udp_sendto_if_src(pcb, p, dst_ip, dst_port, netif, src_ip)] *)
Definition udp_sendto_if_src w (pcb p : Z) (dst_ip : option Z) (dst_port nif src_ip : Z) : option (world X * Z) :=
  match dst_ip with
  | None => Some (w, ERR_VAL)
  | Some dst_ip =>
      if pcb =? NULL then Some (w, ERR_VAL)
      else
        match (if u_local_port (udp_at w pcb) =? 0
               then udp_bind w pcb (Some (u_local_ip (udp_at w pcb))) (u_local_port (udp_at w pcb))
               else Some (w, ERR_OK)) with
        | None => None
        | Some (w, err) =>
            if negb (err =? ERR_OK) then Some (w, err)
            else
              match udp_add_header w p with
              | None => None
              | Some (inr r) => Some r
              | Some (inl (w, q)) =>
                  let u := udp_at w pcb in
                  let m := udp_write_header (wmem w) (payload w q) (u_local_port u) dst_port
                             (pb_tot_len (pb (w_ps w) q)) in
                  let w := set_wmem w m in
                  let w := if negb (Z.land (u_flags u) UDP_FLAGS_MULTICAST_LOOP =? 0) && ip4_addr_ismulticast dst_ip
                           then set_wps w (upd_pb (w_ps w) q (fun x => with_flags x (Z.lor (pb_flags x) PBUF_FLAG_MCASTLOOP)))
                           else w in
                  let ttl := if ip4_addr_ismulticast dst_ip then u_mcast_ttl u else u_ttl u in
                  match ip4_output_if_src netif_output custom_free fuel w q (Some src_ip) (Some dst_ip) ttl (u_tos u)
                          IP_PROTO_UDP nif with
                  | None => None
                  | Some (w, err) =>
                      match (if negb (q =? p) then pbuf_free_then w q else Some w) with
                      | None => None
                      | Some w => Some (stats_inc S_udp F_xmit w, err)
                      end
                  end
              end
        end
  end.

(** [udp_sendto_if(pcb, p, dst_ip, dst_port, netif)] *)
Definition udp_sendto_if w (pcb p : Z) (dst_ip : option Z) (dst_port nif : Z) : option (world X * Z) :=
  match dst_ip with
  | None => Some (w, ERR_VAL)
  | Some _ =>
      if pcb =? NULL then Some (w, ERR_VAL)
      else
        let local_ip := u_local_ip (udp_at w pcb) in
        if ip4_addr_isany local_ip || ip4_addr_ismulticast local_ip
        then udp_sendto_if_src w pcb p dst_ip dst_port nif (netif_ip_addr (netif_of w nif))
        else if negb (local_ip =? netif_ip_addr (netif_of w nif)) then Some (w, ERR_RTE)
        else udp_sendto_if_src w pcb p dst_ip dst_port nif local_ip
  end.

(** [udp_sendto(pcb, p, dst_ip, dst_port)], [udp_send(pcb, p)] *)
Definition udp_sendto w (pcb p : Z) (dst_ip : option Z) (dst_port : Z) : option (world X * Z) :=
  match dst_ip with
  | None => Some (w, ERR_VAL)
  | Some dst =>
      if pcb =? NULL then Some (w, ERR_VAL)
      else
        let mip := u_multicast_ip (udp_at w pcb) in
        let dst_ip_route :=
          if ip4_addr_ismulticast dst && (negb (ip4_addr_isany mip) && negb (mip =? IPADDR_BROADCAST)) then mip
          else dst in
        let '(w, nif) := ip4_route w dst_ip_route in
        if nif =? NULL then Some (stats_inc S_udp F_rterr w, ERR_RTE)
        else udp_sendto_if w pcb p dst_ip dst_port nif
  end.
Definition udp_send w (pcb p : Z) : option (world X * Z) :=
  if pcb =? NULL then Some (w, ERR_VAL)
  else udp_sendto w pcb p (Some (u_remote_ip (udp_at w pcb))) (u_remote_port (udp_at w pcb)).

End Udp.

(** ** The search for a free port *)

(** The port [k] rounds behind [p] in the local range. *)
Definition port_after (p k : Z) : Z := UDP_LOCAL_PORT_RANGE_START + (p - UDP_LOCAL_PORT_RANGE_START + k) mod 0x4000.

Section Ports.
Context {X : Type}.
Implicit Types w : world X.

(** A PCB of the list has the port. *)
Definition port_used w (p : Z) : bool := existsb (fun pcb => u_local_port (udp_at w pcb) =? p) (udp_pcbs w).

Definition in_local_range (p : Z) : Prop := UDP_LOCAL_PORT_RANGE_START <= p <= UDP_LOCAL_PORT_RANGE_END.

Lemma port_after_range p k : in_local_range (port_after p k).
Proof. unfold in_local_range, port_after, UDP_LOCAL_PORT_RANGE_START, UDP_LOCAL_PORT_RANGE_END. dm. Qed.

Lemma port_after_0 p : in_local_range p -> port_after p 0 = p.
Proof.
  unfold in_local_range, port_after, UDP_LOCAL_PORT_RANGE_START, UDP_LOCAL_PORT_RANGE_END. intros.
  rewrite Z.mod_small; lia.
Qed.

Lemma port_after_S p k :
  (if port_after p k =? UDP_LOCAL_PORT_RANGE_END then UDP_LOCAL_PORT_RANGE_START else u16 (port_after p k + 1))
  = port_after p (k + 1).
Proof.
  unfold port_after, UDP_LOCAL_PORT_RANGE_START, UDP_LOCAL_PORT_RANGE_END. set (a := p - 0xc000).
  replace (a + (k + 1)) with (a + k + 1) by lia. pose proof (Z.mod_pos_bound (a + k) 0x4000 ltac:(lia)).
  destruct (Z.eqb_spec (0xc000 + (a + k) mod 0x4000) 0xffff) as [E|E].
  - assert (Hz : (a + k + 1) mod 0x4000 = 0) by dm. by rewrite Hz.
  - rewrite u16_small by lia. dm.
Qed.

(** Every port of the range is reached. *)
Lemma port_after_onto p q : in_local_range p -> in_local_range q -> exists k, 1 <= k <= 0x4000 /\ port_after p k = q.
Proof.
  unfold in_local_range, port_after, UDP_LOCAL_PORT_RANGE_START, UDP_LOCAL_PORT_RANGE_END. intros Hp Hq.
  destruct (Z.leb_spec q p).
  - exists (q - p + 0x4000). split; [lia|]. replace (p - 0xc000 + (q - p + 0x4000)) with (q - 0xc000 + 1 * 0x4000) by lia.
    rewrite Z_mod_plus_full, Z.mod_small; lia.
  - exists (q - p). split; [lia|]. rewrite Z.mod_small; lia.
Qed.

Lemma port_used_set w p q : port_used (set_udp_port w p) q = port_used w q.
Proof. done. Qed.

(** The rounds from the one after [n] on. *)
Lemma new_port_loop w fuel n :
  0 <= n < 0x4000 -> (Z.to_nat (0x4000 - n) < fuel)%nat ->
  (forall j, 1 <= j <= n -> port_used w (port_after (udp_port w) j) = true) ->
  exists k, n < k <= 0x4000 /\ (forall j, 1 <= j < k -> port_used w (port_after (udp_port w) j) = true) /\
    let q := port_after (udp_port w) k in
    loop fuel new_port_step (set_udp_port w (port_after (udp_port w) n), n)
    = Some (set_udp_port w q, if port_used w q then 0 else q) /\ (port_used w q = true -> k = 0x4000).
Proof.
  revert n. induction fuel as [|fuel IH]; intros n Hn Hf Hu; [lia|]. cbn [loop]. unfold new_port_step at 1.
  change (udp_port (set_udp_port w (port_after (udp_port w) n))) with (port_after (udp_port w) n).
  rewrite port_after_S. cbv zeta.
  change (existsb _ _) with (port_used w (port_after (udp_port w) (n + 1))).
  change (set_udp_port (set_udp_port w _) ?x) with (set_udp_port w x).
  destruct (port_used w (port_after (udp_port w) (n + 1))) eqn:E.
  - rewrite u16_small by lia. unfold UDP_LOCAL_PORT_RANGE_END, UDP_LOCAL_PORT_RANGE_START.
    destruct (Z.ltb_spec (0xffff - 0xc000) (n + 1)).
    + exists 0x4000. split; [lia|]. split; [intros j Hj; apply Hu; lia|].
      replace (n + 1) with 0x4000 in * by lia. by rewrite E.
    + destruct (IH (n + 1)) as (k & Hk & Hj & Hl & He); [lia|lia| |].
      { intros j Hj. destruct (Z.eq_dec j (n + 1)) as [->|]; [done|]. apply Hu. lia. }
      exists k. split; [lia|]. by split.
  - exists (n + 1). split; [lia|]. split; [intros j Hj; apply Hu; lia|]. by rewrite E.
Qed.

(** What [udp_new_port] returns. *)
Lemma new_port_correct w :
  in_local_range (udp_port w) ->
  exists k, 1 <= k <= 0x4000 /\ (forall j, 1 <= j < k -> port_used w (port_after (udp_port w) j) = true) /\
    let q := port_after (udp_port w) k in
    udp_new_port w = Some (set_udp_port w q, if port_used w q then 0 else q) /\
    (port_used w q = true -> forall p, in_local_range p -> port_used w p = true).
Proof.
  intros Hr. destruct (new_port_loop w (Z.to_nat (UDP_LOCAL_PORT_RANGE_END - UDP_LOCAL_PORT_RANGE_START + 2)) 0)
    as (k & Hk & Hj & Hl & He); [lia|unfold UDP_LOCAL_PORT_RANGE_END, UDP_LOCAL_PORT_RANGE_START; lia|intros; lia|].
  rewrite port_after_0 in Hl by done. exists k. split; [lia|]. split; [done|]. cbv zeta. split.
  - unfold udp_new_port. rewrite <- Hl. by destruct w.
  - intros Hu p Hp. specialize (He Hu). subst k. destruct (port_after_onto _ _ Hr Hp) as (i & Hi & <-).
    destruct (Z.eq_dec i 0x4000) as [->|]; [done|]. apply Hj. lia.
Qed.

End Ports.

(** ** Demultiplexing *)

Section Demux.
Context (at_ : Z -> udp_pcb) (g : dgram).

(** A PCB for the datagram: connected to its source, or not connected at all. *)
Definition full_match (pcb : Z) : bool := local_match (at_ pcb) g && remote_match (at_ pcb) g.
Definition open_match (pcb : Z) : bool := local_match (at_ pcb) g && unconnected (at_ pcb).

Lemma search_step done_ x l uncon :
  udp_search at_ g done_ (x :: l) uncon =
  if full_match x then (Some x, x :: done_ ++ l, bool_decide (done_ = []))
  else udp_search at_ g (done_ ++ [x]) l
         (if open_match x then match uncon with None => Some x | _ => uncon end else uncon).
Proof.
  simpl. unfold full_match, open_match. destruct (local_match (at_ x) g); [|done]. cbn [andb].
  destruct (remote_match (at_ x) g), (unconnected (at_ x)); try done; by destruct done_.
Qed.

(** The PCB found is the first one with a full match, which moves to the front, or
    the first one that is not connected, and then the list stays as it is. *)
Lemma search_spec done_ l uncon :
  udp_search at_ g done_ l uncon =
  match List.find full_match l with
  | None => (match uncon with None => List.find open_match l | _ => uncon end, done_ ++ l, false)
  | Some pcb => (Some pcb, pcb :: done_ ++ list_remove1 pcb l, bool_decide (done_ = [] /\ head l = Some pcb))
  end.
Proof.
  revert done_ uncon. induction l as [|x l IH]; intros done_ uncon.
  { simpl. rewrite app_nil_r. by destruct uncon. }
  rewrite search_step. cbn [List.find list_remove1]. destruct (full_match x) eqn:Ex.
  - rewrite Z.eqb_refl. do 2 f_equal. apply bool_decide_ext. simpl. tauto.
  - rewrite IH. destruct (List.find full_match l) as [z|] eqn:Ef.
    + apply List.find_some in Ef as [_ Ef]. assert (x <> z) by (intros ->; congruence).
      rewrite (proj2 (Z.eqb_neq x z)) by done.
      rewrite (bool_decide_false (done_ ++ [x] = [] /\ _)) by (intros [E _]; by destruct done_).
      rewrite bool_decide_false by (intros [_ E]; simpl in E; congruence). by rewrite <- app_assoc.
    + rewrite <- app_assoc. by destruct (open_match x), uncon.
Qed.

End Demux.

Lemma list_remove1_perm x l : x ∈ l -> x :: list_remove1 x l ≡ₚ l.
Proof.
  induction l as [|y l IH]; [by inversion 1|]. simpl. intros Hx. destruct (Z.eqb_spec y x) as [->|]; [done|].
  apply elem_of_cons in Hx as [->|Hx]; [done|]. rewrite Permutation_swap. by rewrite IH.
Qed.

Lemma elem_of_list_remove1_ne x y l : y <> x -> y ∈ l -> y ∈ list_remove1 x l.
Proof.
  intros Hn. induction l as [|z l IH]; simpl; [done|]. intros Hy.
  destruct (Z.eqb_spec z x) as [->|]; apply elem_of_cons in Hy as [->|Hy]; try done; [left|right; auto].
Qed.

Lemma elem_of_list_remove1 x y l : y ∈ list_remove1 x l -> y ∈ l.
Proof.
  induction l as [|z l IH]; simpl; [done|]. destruct (z =? x); [by right|].
  intros H. apply elem_of_cons in H as [->|H]; [left|right; auto].
Qed.

Lemma NoDup_list_remove1 x l : NoDup l -> NoDup (list_remove1 x l) /\ x ∉ list_remove1 x l.
Proof.
  induction 1 as [|y l Hy Hl [IH1 IH2]]; simpl; [split; [constructor|by intros ?%elem_of_nil]|].
  destruct (Z.eqb_spec y x) as [->|]; [done|]. split.
  - constructor; [|done]. intros H. by apply Hy, (elem_of_list_remove1 x).
  - intros H. apply elem_of_cons in H as [->|H]; done.
Qed.

(** The search only changes the order of the list. *)
Lemma search_perm at_ g l pcb l' hit : udp_search at_ g [] l None = (pcb, l', hit) -> l' ≡ₚ l.
Proof.
  rewrite search_spec. destruct (List.find (full_match at_ g) l) as [x|] eqn:E; intros [= _ <- _]; [|done].
  apply list_remove1_perm. apply List.find_some in E as [E _]. by apply list_elem_of_In.
Qed.

(** ** The invariant of the PCBs *)

Section Inv.
Context {X : Type}.
Implicit Types w : world X.

(** The local address and port of a PCB. *)
Definition bound_to w (pcb : Z) : Z * Z := (u_local_ip (udp_at w pcb), u_local_port (udp_at w pcb)).

(** The PCBs of the list are distinct allocated PCBs with a port, no two of them have
    the same local address and port, and the other allocated PCBs have no port. *)
Record udp_inv w : Prop := {
  ui_nodup : NoDup (udp_pcbs w);
  ui_listed : forall a, a ∈ udp_pcbs w -> a <> NULL /\ is_Some (udp_pcb_at w !! a) /\ 0 < (bound_to w a).2 < 65536;
  ui_unlisted : forall a, is_Some (udp_pcb_at w !! a) -> a ∉ udp_pcbs w -> (bound_to w a).2 = 0;
  ui_unique : forall a b, a ∈ udp_pcbs w -> b ∈ udp_pcbs w -> bound_to w a = bound_to w b -> a = b;
  ui_port : in_local_range (udp_port w)
}.

(** The invariant depends on the variables of the module only. *)
Lemma udp_inv_ext w w' :
  udp_pcbs w' = udp_pcbs w -> udp_pcb_at w' = udp_pcb_at w -> in_local_range (udp_port w') -> udp_inv w -> udp_inv w'.
Proof.
  intros E1 E2 E3 [H1 H2 H3 H4 H5]. assert (Eb : bound_to w' = bound_to w) by (unfold bound_to, udp_at; by rewrite E2).
  constructor; rewrite ?E1, ?E2, ?Eb; auto.
Qed.

Lemma udp_at_upd w pcb f a : udp_at (upd_udp w pcb f) a = if a =? pcb then f (udp_at w pcb) else udp_at w a.
Proof.
  unfold upd_udp, udp_at at 1. simpl. destruct (Z.eqb_spec a pcb) as [->|].
  - by rewrite lookup_insert_eq.
  - by rewrite lookup_insert_ne.
Qed.

Lemma is_Some_upd w pcb f a :
  is_Some (udp_pcb_at w !! pcb) -> is_Some (udp_pcb_at (upd_udp w pcb f) !! a) <-> is_Some (udp_pcb_at w !! a).
Proof.
  intros Hp. unfold upd_udp. simpl. destruct (decide (a = pcb)) as [->|].
  - rewrite lookup_insert_eq. by split.
  - by rewrite lookup_insert_ne.
Qed.

(** An update that leaves the local side alone. *)
Lemma upd_udp_inv w pcb f :
  is_Some (udp_pcb_at w !! pcb) ->
  (forall u, u_local_ip (f u) = u_local_ip u /\ u_local_port (f u) = u_local_port u) ->
  udp_inv w -> udp_inv (upd_udp w pcb f).
Proof.
  intros Hp Hf [H1 H2 H3 H4 H5]. assert (Eb : forall a, bound_to (upd_udp w pcb f) a = bound_to w a).
  { intros a. unfold bound_to. rewrite udp_at_upd. destruct (Z.eqb_spec a pcb) as [->|]; [|done].
    by destruct (Hf (udp_at w pcb)) as [-> ->]. }
  constructor; auto.
  - intros a Ha. rewrite is_Some_upd, Eb by done. by apply H2.
  - intros a Ha Hn. rewrite is_Some_upd in Ha by done. rewrite Eb. by apply H3.
  - intros a b Ha Hb. rewrite !Eb. by apply H4.
Qed.

(** Binding an allocated PCB to a local side that no other PCB has. *)
Lemma bind_inv w pcb ip port l :
  udp_inv w -> pcb <> NULL -> is_Some (udp_pcb_at w !! pcb) -> 0 < port < 65536 ->
  (forall a, a ∈ udp_pcbs w -> a <> pcb -> bound_to w a <> (ip, port)) ->
  NoDup l -> (forall a, a ∈ l <-> a = pcb \/ a ∈ udp_pcbs w) ->
  udp_inv (set_udp_pcbs (upd_udp w pcb (fun u => set_u_local u ip port)) l).
Proof.
  intros [H1 H2 H3 H4 H5] Hn Hp Hport Hother Hl Hel.
  set (w' := set_udp_pcbs _ l). assert (Eb : forall a, bound_to w' a = if a =? pcb then (ip, port) else bound_to w a).
  { intros a. unfold bound_to. change (udp_at w') with (udp_at (upd_udp w pcb (fun u => set_u_local u ip port))).
    rewrite udp_at_upd. by destruct (a =? pcb). }
  assert (Es : forall a, is_Some (udp_pcb_at w' !! a) <-> is_Some (udp_pcb_at w !! a)) by (intros; by apply is_Some_upd).
  constructor; auto; change (udp_pcbs w') with l.
  - intros a Ha. rewrite Es, Eb. apply Hel in Ha as [->|Ha]; [by rewrite Z.eqb_refl|].
    destruct (Z.eqb_spec a pcb) as [->|]; [done|by apply H2].
  - intros a Ha Hna. rewrite Es in Ha. rewrite Eb, Hel in *. destruct (Z.eqb_spec a pcb) as [->|]; [tauto|].
    apply H3; tauto.
  - intros a b Ha Hb. rewrite !Eb. apply Hel in Ha, Hb.
    destruct (Z.eqb_spec a pcb) as [->|Ha'], (Z.eqb_spec b pcb) as [->|Hb']; try done; intros E.
    + destruct Hb as [|Hb]; [done|]. by destruct (Hother b Hb Hb').
    + destruct Ha as [|Ha]; [done|]. by destruct (Hother a Ha Ha').
    + apply H4; tauto.
Qed.

(** What [udp_bind] does. *)
Definition taken w (pcb ip port : Z) : Prop := exists a, a ∈ udp_pcbs w /\ a <> pcb /\ bound_to w a = (ip, port).

Lemma taken_dec w pcb ip port :
  existsb (fun ipcb => negb (pcb =? ipcb) && ((u_local_port (udp_at w ipcb) =? port) &&
                         (u_local_ip (udp_at w ipcb) =? ip))) (udp_pcbs w) = true <-> taken w pcb ip port.
Proof.
  rewrite existsb_elem. unfold taken, bound_to. split.
  - intros (a & Ha & Hb). exists a. zb. split; [done|]. split; [done|congruence].
  - intros (a & Ha & Hn & [= <- <-]). exists a. split; [done|]. rewrite !Z.eqb_refl, (proj2 (Z.eqb_neq pcb a)); [done|congruence].
Qed.

(** The state after a successful bind. *)
Definition bound_state w (pcb ip port : Z) : world X :=
  let w := upd_udp w pcb (fun u => set_u_local u ip port) in
  if bool_decide (pcb ∈ udp_pcbs w) then w else set_udp_pcbs w (pcb :: udp_pcbs w).

Lemma rebind_eq w pcb : existsb (Z.eqb pcb) (udp_pcbs w) = bool_decide (pcb ∈ udp_pcbs w).
Proof.
  destruct (existsb _ _) eqn:E; symmetry.
  - apply bool_decide_eq_true. apply existsb_elem in E as (x & Hx & ->%Z.eqb_eq). done.
  - apply bool_decide_eq_false. intros H. rewrite (proj2 (existsb_elem (Z.eqb pcb) _)) in E; [done|].
    exists pcb. by rewrite Z.eqb_refl.
Qed.

Lemma bound_state_inv w pcb ip port :
  udp_inv w -> pcb <> NULL -> is_Some (udp_pcb_at w !! pcb) -> 0 < port < 65536 -> ~ taken w pcb ip port ->
  udp_inv (bound_state w pcb ip port).
Proof.
  intros Hi Hn Hp Hport Ht. unfold bound_state. case_bool_decide as Hin; change (udp_pcbs (upd_udp w pcb _)) with (udp_pcbs w) in *.
  - apply (udp_inv_ext (set_udp_pcbs (upd_udp w pcb (fun u => set_u_local u ip port)) (udp_pcbs w)));
      [done|done|apply (ui_port _ Hi)|]. apply bind_inv; auto; [|apply Hi|].
    + intros a Ha Hne E. apply Ht. by exists a.
    + intros a. split; [by right|]. by intros [->|].
  - apply bind_inv; auto.
    + intros a Ha Hne E. apply Ht. by exists a.
    + constructor; [done|apply Hi].
    + intros a. rewrite elem_of_cons. done.
Qed.

#[export] Instance taken_decision w pcb ip port : Decision (taken w pcb ip port).
Proof.
  destruct (existsb (fun ipcb => negb (pcb =? ipcb) && ((u_local_port (udp_at w ipcb) =? port) &&
                         (u_local_ip (udp_at w ipcb) =? ip))) (udp_pcbs w)) eqn:E.
  - left. by apply taken_dec.
  - right. intros H. apply taken_dec in H. congruence.
Defined.

(** The cases of [udp_bind]: [NULL], a port given, and the port left to the module. *)
Lemma bind_null w ipaddr port : udp_bind w NULL ipaddr port = Some (w, ERR_VAL).
Proof. done. Qed.

Lemma bind_port w pcb ipaddr port :
  pcb <> NULL -> port <> 0 ->
  udp_bind w pcb ipaddr port =
  Some (if decide (taken w pcb (default IPADDR_ANY ipaddr) port) then (w, ERR_USE)
        else (bound_state w pcb (default IPADDR_ANY ipaddr) port, ERR_OK)).
Proof.
  intros Hn Hp. unfold udp_bind. rewrite (proj2 (Z.eqb_neq _ _) Hn), (proj2 (Z.eqb_neq _ _) Hp), rebind_eq.
  pose proof (taken_dec w pcb (default IPADDR_ANY ipaddr) port) as Ht. cbv zeta.
  destruct (existsb _ _), (decide (taken _ _ _ _)) as [H|H]; try done; exfalso; [tauto|].
  by apply Ht in H.
Qed.

Lemma bind_any w pcb ipaddr :
  in_local_range (udp_port w) -> pcb <> NULL ->
  exists k, 1 <= k <= 0x4000 /\ (forall j, 1 <= j < k -> port_used w (port_after (udp_port w) j) = true) /\
    let q := port_after (udp_port w) k in
    udp_bind w pcb ipaddr 0 =
      Some (if port_used w q then (set_udp_port w q, ERR_USE)
            else (bound_state (set_udp_port w q) pcb (default IPADDR_ANY ipaddr) q, ERR_OK)) /\
    (port_used w q = true -> forall p, in_local_range p -> port_used w p = true).
Proof.
  intros Hr Hn. destruct (new_port_correct w Hr) as (k & Hk & Hj & Hl & Hall). exists k. split; [done|]. split; [done|].
  cbv zeta. split; [|done]. unfold udp_bind. rewrite (proj2 (Z.eqb_neq _ _) Hn), Z.eqb_refl, Hl, rebind_eq.
  destruct (port_used w _); [done|]. pose proof (port_after_range (udp_port w) k) as Hq.
  rewrite (proj2 (Z.eqb_neq (port_after (udp_port w) k) 0)); [done|].
  unfold in_local_range, UDP_LOCAL_PORT_RANGE_START in Hq. lia.
Qed.

(** A port that no PCB has is not taken. *)
Lemma unused_not_taken w pcb ip port : port_used w port = false -> ~ taken w pcb ip port.
Proof.
  intros Hu (a & Ha & _ & E). assert (Ht : port_used w port = true); [|congruence].
  apply existsb_elem. exists a. split; [done|]. apply Z.eqb_eq. by injection E.
Qed.

(** [udp_bind] always ends and preserves the invariant. *)
Lemma udp_bind_inv w pcb ipaddr port :
  udp_inv w -> is_Some (udp_pcb_at w !! pcb) -> 0 <= port < 65536 ->
  exists w' r, udp_bind w pcb ipaddr port = Some (w', r) /\ udp_inv w' /\
    (forall a, is_Some (udp_pcb_at w' !! a) <-> is_Some (udp_pcb_at w !! a)) /\
    (pcb <> NULL -> r = ERR_OK -> pcb ∈ udp_pcbs w') /\
    set_udp_at (set_udp_pcbs (set_udp_port w' (udp_port w)) (udp_pcbs w)) (udp_pcb_at w) = w.
Proof.
  intros Hi Hp Hport. destruct (Z.eqb_spec pcb NULL) as [->|Hn].
  { exists w, ERR_VAL. rewrite bind_null. repeat (split; [done|]). by destruct w. }
  assert (Hb : forall w0 q, udp_inv w0 -> udp_pcb_at w0 = udp_pcb_at w -> udp_pcbs w0 = udp_pcbs w -> 0 < q < 65536 ->
    ~ taken w0 pcb (default IPADDR_ANY ipaddr) q -> set_udp_port w0 (udp_port w) = w ->
    let w' := bound_state w0 pcb (default IPADDR_ANY ipaddr) q in
    udp_inv w' /\ (forall a, is_Some (udp_pcb_at w' !! a) <-> is_Some (udp_pcb_at w !! a)) /\
    pcb ∈ udp_pcbs w' /\ set_udp_at (set_udp_pcbs (set_udp_port w' (udp_port w)) (udp_pcbs w)) (udp_pcb_at w) = w).
  { intros w0 q Hi0 E1 E2 Hq Ht Ew. split; [apply bound_state_inv; auto; by rewrite E1|].
    unfold bound_state. cbv zeta. rewrite <- E1. split; [|split].
    - intros a. case_bool_decide; apply is_Some_upd; by rewrite E1.
    - case_bool_decide as H; [done|]. left.
    - rewrite <- Ew at 3. case_bool_decide; destruct w0; simpl in *; by subst. }
  destruct (Z.eqb_spec port 0) as [->|Hp0].
  - destruct (bind_any w pcb ipaddr (ui_port _ Hi) Hn) as (k & Hk & _ & -> & _).
    pose proof (port_after_range (udp_port w) k) as Hq. set (q := port_after (udp_port w) k) in *.
    assert (Hi0 : udp_inv (set_udp_port w q)) by by apply (udp_inv_ext w).
    destruct (port_used w q) eqn:Eu; eexists _, _; (split; [done|]).
    + repeat (split; [done|]). by destruct w.
    + destruct (Hb (set_udp_port w q) q) as (B1 & B2 & B3 & B4); auto.
      * unfold in_local_range, UDP_LOCAL_PORT_RANGE_START, UDP_LOCAL_PORT_RANGE_END in Hq. lia.
      * by apply unused_not_taken.
      * by destruct w.
  - rewrite bind_port by done. destruct (decide _) as [Ht|Ht]; eexists _, _; (split; [done|]).
    + repeat (split; [done|]). by destruct w.
    + destruct (Hb w port) as (B1 & B2 & B3 & B4); auto; [lia|by destruct w].
Qed.
End Inv.

(** [udp_netif_ip_addr_changed]: the PCBs bound to the old address are bound to the new
    one, and nothing else changes. *)
Definition moved_ip (old_addr new_addr : Z) (u : udp_pcb) : udp_pcb :=
  if u_local_ip u =? old_addr then set_u_local u new_addr (u_local_port u) else u.

Section Changes.
Context {X : Type}.
Implicit Types w : world X.

Lemma addr_changed_loop old_addr new_addr l w :
  (forall a, a ∈ l -> is_Some (udp_pcb_at w !! a)) ->
  let w' := foldl (fun w pcb => if u_local_ip (udp_at w pcb) =? old_addr
                                then upd_udp w pcb (fun u => set_u_local u new_addr (u_local_port u)) else w) w l in
  (forall a, udp_at w' a = if decide (a ∈ l) then moved_ip old_addr new_addr (udp_at w a) else udp_at w a) /\
  (forall a, is_Some (udp_pcb_at w' !! a) <-> is_Some (udp_pcb_at w !! a)) /\
  udp_pcbs w' = udp_pcbs w /\ udp_port w' = udp_port w.
Proof.
  revert w. induction l as [|x l IH]; intros w Hl w'; subst w'; cbn [foldl].
  { split; [|done]. intros a. rewrite decide_False; [done|]. by intros ?%elem_of_nil. }
  set (w1 := if u_local_ip (udp_at w x) =? old_addr then _ else w). assert (Hx := Hl x ltac:(left)).
  assert (H1 : forall a, udp_at w1 a = if a =? x then moved_ip old_addr new_addr (udp_at w a) else udp_at w a).
  { intros a. unfold w1, moved_ip. destruct (u_local_ip (udp_at w x) =? old_addr) eqn:E.
    - rewrite udp_at_upd. destruct (Z.eqb_spec a x) as [->|]; [by rewrite E|done].
    - destruct (Z.eqb_spec a x) as [->|]; [by rewrite E|done]. }
  assert (H2 : forall a, is_Some (udp_pcb_at w1 !! a) <-> is_Some (udp_pcb_at w !! a)).
  { intros a. unfold w1. destruct (_ =? _); [by apply is_Some_upd|done]. }
  assert (H3 : udp_pcbs w1 = udp_pcbs w /\ udp_port w1 = udp_port w) by (unfold w1; by destruct (_ =? _)).
  destruct (IH w1) as (I1 & I2 & I3 & I4). { intros a Ha. apply H2, Hl. by right. }
  split; [|split; [|split]].
  - intros a. rewrite I1, H1. destruct (Z.eqb_spec a x) as [->|Hne].
    + rewrite (decide_True (P := x ∈ x :: l)) by left. destruct (decide (x ∈ l)); [|done].
      unfold moved_ip. destruct (Z.eqb_spec (u_local_ip (udp_at w x)) old_addr) as [E|E]; simpl.
      * by destruct (new_addr =? old_addr).
      * by rewrite (proj2 (Z.eqb_neq _ _) E).
    + destruct (decide (a ∈ l)) as [Ha|Ha]; [rewrite decide_True by by right|rewrite decide_False]; [done|done|].
      intros H. apply elem_of_cons in H as [|]; done.
  - intros a. by rewrite I2, H2.
  - rewrite I3. apply H3.
  - rewrite I4. apply H3.
Qed.

(** The address change keeps the invariant when no PCB has the new address together with
    the port of one that moves to it. *)
Lemma addr_changed_inv w old_addr new_addr :
  udp_inv w ->
  (forall a b, a ∈ udp_pcbs w -> b ∈ udp_pcbs w -> (bound_to w a).1 = old_addr -> (bound_to w b).1 = new_addr ->
     (bound_to w a).2 = (bound_to w b).2 -> a = b) ->
  udp_inv (udp_netif_ip_addr_changed w old_addr new_addr).
Proof.
  intros [H1 H2 H3 H4 H5] Hc. unfold udp_netif_ip_addr_changed. destruct (_ && _); [|done].
  destruct (addr_changed_loop old_addr new_addr (udp_pcbs w) w) as (C1 & C2 & C3 & C4); [intros a Ha; by apply H2|].
  set (w' := foldl _ w (udp_pcbs w)) in *.
  assert (Hip : forall a, a ∈ udp_pcbs w -> bound_to w' a =
    (if (bound_to w a).1 =? old_addr then new_addr else (bound_to w a).1, (bound_to w a).2)).
  { intros a Ha. unfold bound_to. rewrite C1, decide_True by done. unfold moved_ip. by destruct (_ =? _). }
  constructor; rewrite ?C3, ?C4; auto.
  - intros a Ha. rewrite C2, Hip by done. by apply H2.
  - intros a Ha Hn. rewrite C2 in Ha. unfold bound_to. rewrite C1, decide_False by done. by apply H3.
  - intros a b Ha Hb. rewrite !Hip by done. intros E.
    pose proof (f_equal fst E) as E1. pose proof (f_equal snd E) as E2. cbn [fst snd] in E1, E2. revert E1. clear E.
    destruct (Z.eqb_spec (bound_to w a).1 old_addr) as [Ea|Ea], (Z.eqb_spec (bound_to w b).1 old_addr) as [Eb|Eb]; intros E1.
    + apply H4; auto. rewrite (surjective_pairing (bound_to w a)), (surjective_pairing (bound_to w b)). congruence.
    + apply Hc; auto.
    + symmetry. apply Hc; auto.
    + apply H4; auto. rewrite (surjective_pairing (bound_to w a)), (surjective_pairing (bound_to w b)). congruence.
Qed.

#[export] Instance udp_frame : ip_frame (udp_inv (X:=X)).
Proof. constructor; intros w **; (apply (udp_inv_ext w); [done|done|by apply (ui_port w)|done]). Qed.

(** [udp_new] when the pool has given out exactly the PCBs that are in use. *)
Lemma udp_new_fresh w d q fr us :
  ps_pools (w_ps w) !! Z.to_nat MEMP_UDP_PCB = Some q -> pool_rep d q fr us ->
  us ≡ₚ (map_to_list (udp_pcb_at w)).*1 ->
  (udp_new w).2 = NULL \/ udp_pcb_at w !! (udp_new w).2 = None.
Proof.
  intros Hq Hr Hu. unfold udp_new. rewrite (memp_malloc_at _ _ q) by done.
  destruct fr as [|x fr].
  - destruct (do_malloc_none d q us Hr) as (q' & -> & _). by left.
  - destruct (do_malloc_some d q x fr us Hr) as (q' & -> & _ & Hx). right. simpl.
    rewrite (proj2 (Z.eqb_neq _ _) Hx). simpl. destruct (udp_pcb_at w !! x) as [u|] eqn:Ex; [exfalso|done].
    apply elem_of_map_to_list in Ex. apply (list_elem_of_fmap_2 fst) in Ex. simpl in Ex.
    destruct Hr as [Hd _ He _ _]. pose proof (elements_nodup d Hd) as Hnd. rewrite <- He in Hnd.
    simpl in Hnd. apply NoDup_cons in Hnd as [Hnd _]. apply Hnd, elem_of_app. right. by rewrite Hu.
Qed.

Lemma udp_new_inv w :
  udp_inv w -> (udp_new w).2 = NULL \/ udp_pcb_at w !! (udp_new w).2 = None -> udp_inv (udp_new w).1.
Proof.
  intros Hi. unfold udp_new. destruct (memp_malloc _ _) as [ps a]. cbv zeta.
  set (w1 := set_wps w _). assert (Hi1 : udp_inv w1) by (unfold w1; frame).
  destruct (Z.eqb_spec a NULL) as [->|Hn]; simpl; [done|]. intros [E|Hf]; [done|].
  destruct Hi1 as [H1 H2 H3 H4 H5].
  assert (Hna : a ∉ udp_pcbs w1) by (intros (_ & [u Hu] & _)%H2; change (udp_pcb_at w1) with (udp_pcb_at w) in Hu; congruence).
  set (w2 := set_udp_at w1 _). assert (Eb : forall b, b <> a -> bound_to w2 b = bound_to w1 b).
  { intros b Hb. unfold bound_to, udp_at, w2. simpl. by rewrite lookup_insert_ne. }
  assert (Hl : forall b, b ∈ udp_pcbs w1 -> b <> a) by (intros b Hb ->; done).
  constructor; change (udp_pcbs w2) with (udp_pcbs w1); auto.
  - intros b Hb. rewrite Eb by auto. destruct (H2 b Hb) as (B1 & B2 & B3). split; [done|]. split; [|done].
    unfold w2. simpl. by rewrite lookup_insert_ne by (intros <-; done).
  - intros b Hb Hnb. destruct (decide (b = a)) as [->|].
    + unfold bound_to, udp_at, w2. simpl. by rewrite lookup_insert_eq.
    + rewrite Eb by done. apply H3; [|done]. unfold w2 in Hb. simpl in Hb. by rewrite lookup_insert_ne in Hb.
  - intros b c Hb Hc'. rewrite !Eb by auto. by apply H4.
Qed.

Lemma udp_remove_inv w pcb : udp_inv w -> udp_inv (udp_remove w pcb).
Proof.
  intros [H1 H2 H3 H4 H5]. unfold udp_remove. apply frame_ps.
  set (w1 := set_udp_at _ _). assert (Eb : forall b, b <> pcb -> bound_to w1 b = bound_to w b).
  { intros b Hb. unfold bound_to, udp_at, w1. simpl. by rewrite lookup_delete_ne. }
  destruct (NoDup_list_remove1 pcb _ H1) as [Hnd Hnin].
  assert (Hl : forall b, b ∈ list_remove1 pcb (udp_pcbs w) -> b <> pcb /\ b ∈ udp_pcbs w).
  { intros b Hb. split; [by intros ->|]. by eapply elem_of_list_remove1. }
  constructor; change (udp_pcbs w1) with (list_remove1 pcb (udp_pcbs w)); auto.
  - intros b Hb. apply Hl in Hb as [Hb1 Hb2]. rewrite Eb by done. destruct (H2 b Hb2) as (B1 & B2 & B3).
    split; [done|]. split; [|done]. unfold w1. simpl. by rewrite lookup_delete_ne.
  - intros b Hb Hnb. destruct (decide (b = pcb)) as [->|].
    + unfold w1 in Hb. simpl in Hb. rewrite lookup_delete_eq in Hb. by destruct Hb.
    + rewrite Eb by done. apply H3; [unfold w1 in Hb; simpl in Hb; by rewrite lookup_delete_ne in Hb|].
      intros Hin. apply Hnb. by apply elem_of_list_remove1_ne.
  - intros b c Hb Hc. apply Hl in Hb as [??], Hc as [??]. rewrite !Eb by done. by apply H4.
Qed.
End Changes.

(** ** Frames *)

(** Binding before the first datagram is sent. *)
Definition auto_bind {X} (w : world X) (pcb : Z) : option (world X * Z) :=
  if u_local_port (udp_at w pcb) =? 0
  then udp_bind w pcb (Some (u_local_ip (udp_at w pcb))) (u_local_port (udp_at w pcb)) else Some (w, ERR_OK).

(** A property that a new order of the PCBs and a forced bind preserve. *)
Class udp_keeps {X} (I : world X -> Prop) : Prop := {
  keeps_frame :: ip_frame I;
  keeps_perm : forall w l, l ≡ₚ udp_pcbs w -> I w -> I (set_udp_pcbs w l);
  keeps_bind : forall w pcb w' r, auto_bind w pcb = Some (w', r) -> pcb <> NULL -> is_Some (udp_pcb_at w !! pcb) -> I w -> I w'
}.

(** A property of the external state is preserved by binding. *)
Lemma udp_bind_ext {X} (w : world X) pcb ip port w' r : udp_bind w pcb ip port = Some (w', r) -> w_ext w' = w_ext w.
Proof.
  unfold udp_bind. cbv zeta. destruct (pcb =? NULL); [by intros [= <- _]|]. destruct (port =? 0).
  - destruct (udp_new_port w) as [[w1 q]|] eqn:E; [|done].
    assert (E1 : w_ext w1 = w_ext w).
    { unfold udp_new_port in E. refine (loop_keeps _ (fun s => w_ext s.1 = w_ext w) (fun r => w_ext r.1 = w_ext w) _ _ _ _ E eq_refl).
      clear. intros [w1 n] H. unfold new_port_step. cbv zeta. destruct (existsb _ _); [destruct (_ <? _)|]; exact H. }
    destruct (q =? 0); [by intros [= <- _]|]. rewrite <- E1. destruct (existsb _ _); by intros [= <- _].
  - destruct (existsb (fun _ => _) _); [by intros [= <- _]|]. destruct (existsb _ _); by intros [= <- _].
Qed.

Lemma ext_keeps {X} (P : X -> Prop) : udp_keeps (fun w => P (w_ext w)).
Proof.
  constructor; [constructor; by intros|by intros|]. intros w pcb w' r H _ _ Hp. unfold auto_bind in H.
  destruct (_ =? 0); [|by injection H as <- _]. apply udp_bind_ext in H. by rewrite H.
Qed.

Lemma and_keeps {X} (I J : world X -> Prop) : udp_keeps I -> udp_keeps J -> udp_keeps (fun w => I w /\ J w).
Proof.
  intros HI HJ. constructor.
  - constructor; intros w **; (split; [apply HI|apply HJ]); tauto.
  - intros w l HP [H1 H2]. split; by apply keeps_perm.
  - intros w pcb w' r H Hn Hp [H1 H2]. split; by eapply keeps_bind.
Qed.

Section Keeps.
Context {X : Type} (netif_output : world X -> Z -> Z -> Z -> option (world X * Z)).
Context (custom_free : pstate -> Z -> pstate) (fuel : nat).
Context (udp_recv_fn : Z -> world X -> Z -> Z -> Z -> Z -> Z -> option (world X)).
Context (I : world X -> Prop) `{!udp_keeps I} (Hout : output_keeps netif_output I).
Context (Hrecv : forall f w arg pcb p addr port w',
  udp_recv_fn f w arg pcb p addr port = Some w' -> I w -> I w').
Implicit Types w : world X.

Lemma udp_deliver_keeps w p inp g pcb w' :
  udp_deliver netif_output custom_free fuel udp_recv_fn w p inp g pcb = Some w' -> I w -> I w'.
Proof.
  unfold udp_deliver, pbuf_free_then. intros H Hi.
  destruct (match pcb with Some _ => true | None => _ end); [|by eapply (wfree_keeps _ _ I)].
  destruct (pbuf_header _ _ _) as [st e]. cbv zeta in H.
  destruct (negb (e =? 0)); [eapply (wfree_keeps _ _ I); [exact H|]; frame|].
  destruct pcb as [pcb|].
  - destruct (negb _); [eapply Hrecv; [exact H|]; frame|eapply (wfree_keeps _ _ I); [exact H|]; frame].
  - destruct (negb (g_broadcast g) && _).
    + destruct (pbuf_header_force _ _ _) as [st2 e2].
      destruct (icmp_dest_unreach _ _ _ _ _ _) as [w2|] eqn:E; [|done].
      eapply (wfree_keeps _ _ I); [exact H|]. frame.
      eapply (icmp_send_response_keeps _ _ _ I Hout); [exact E|]. frame.
    + eapply (wfree_keeps _ _ I); [exact H|]. frame.
Qed.

Lemma udp_input_keeps w p inp w' :
  udp_input netif_output custom_free fuel udp_recv_fn w p inp = Some w' -> I w -> I w'.
Proof.
  unfold udp_input. intros H Hi. destruct (_ <? UDP_HLEN); [eapply (wfree_keeps _ _ I); [exact H|]; frame|].
  cbv zeta in H. destruct (udp_search _ _ _ _ _) as [[pcb l] hit] eqn:E. apply search_perm in E.
  eapply udp_deliver_keeps; [exact H|].
  assert (I (set_udp_pcbs (stats_inc S_udp F_recv w) l)) by (apply keeps_perm; [done|frame]). destruct hit; frame.
Qed.

Lemma udp_add_header_keeps w p x :
  udp_add_header custom_free fuel w p = Some x -> I w -> I (match x with inl (w', _) => w' | inr (w', _) => w' end).
Proof.
  unfold udp_add_header. destruct (pbuf_header _ _ _) as [st e]. cbv zeta. intros H Hi.
  destruct (negb (e =? 0)); [|injection H as <-; frame].
  destruct (pbuf_alloc _ _ _ _ _ _) as [[st2 q2]|]; [|done]. destruct (q2 =? NULL); [injection H as <-; frame|].
  destruct (negb _); [|injection H as <-; frame]. destruct (pbuf_chain _ _ _ _); [|done]. injection H as <-; frame.
Qed.

(** Binding this PCB preserves the property. *)
Definition can_bind w (pcb : Z) : Prop :=
  forall w1 w2 r, udp_pcb_at w1 = udp_pcb_at w -> auto_bind w1 pcb = Some (w2, r) -> pcb <> NULL -> I w1 -> I w2.

Lemma udp_sendto_if_src_keeps w pcb p dst port nif src w' r :
  udp_sendto_if_src netif_output custom_free fuel w pcb p dst port nif src = Some (w', r) ->
  I w -> can_bind w pcb -> I w'.
Proof.
  unfold udp_sendto_if_src, pbuf_free_then. intros H Hi Hp. destruct dst as [dst|]; [|by injection H as <- _].
  destruct (Z.eqb_spec pcb NULL) as [|Hn]; [by injection H as <- _|]. fold (auto_bind w pcb) in H.
  destruct (auto_bind w pcb) as [[w1 r1]|] eqn:E1; [|done]. pose proof (Hp w w1 r1 eq_refl E1 Hn Hi) as Hi1.
  destruct (negb (r1 =? ERR_OK)); [by injection H as <- _|].
  destruct (udp_add_header custom_free fuel w1 p) as [x|] eqn:E2; [|done]. apply udp_add_header_keeps in E2; [|done].
  destruct x as [[w2 q]|[w2 q]]; [|by injection H as <- _]. simpl in E2. rename E2 into Hi2.
  cbv zeta in H. match type of H with context [ip4_output_if_src _ _ _ ?w0 _ _ _ _ _ _ _] =>
    assert (Hi3 : I w0) by (destruct (_ && _); frame);
    destruct (ip4_output_if_src netif_output custom_free fuel w0 _ _ _ _ _ _ _) as [[w3 r3]|] eqn:E3; [|done] end.
  assert (Hi4 : I w3) by (eapply (ip4_output_if_opt_src_keeps _ _ _ I Hout); [exact E3|done]).
  destruct (negb (q =? p)).
  - destruct (wfree custom_free fuel w3 q) as [w4|] eqn:E4; [|done]. injection H as <- _. frame.
    by eapply (wfree_keeps _ _ I).
  - injection H as <- _. frame.
Qed.

Lemma udp_sendto_keeps_bind w pcb p dst port w' r :
  udp_sendto netif_output custom_free fuel w pcb p dst port = Some (w', r) ->
  I w -> can_bind w pcb -> I w'.
Proof.
  unfold udp_sendto. intros H Hi Hp. destruct dst as [dst|]; [|by injection H as <- _].
  destruct (pcb =? NULL); [by injection H as <- _|]. cbv zeta in H.
  match type of H with context [ip4_route w ?d] => assert (Hr : I (ip4_route w d).1) by (by apply (ip4_route_keeps I));
    assert (Hr2 : udp_pcb_at (ip4_route w d).1 = udp_pcb_at w) by (by destruct (ip4_route_state w d) as [-> | ->]);
    destruct (ip4_route w d) as [w1 nif] end.
  simpl in Hr, Hr2. destruct (nif =? NULL); [injection H as <- _; frame|]. unfold udp_sendto_if in H.
  destruct (pcb =? NULL); [by injection H as <- _|]. cbv zeta in H.
  assert (Hc : can_bind w1 pcb) by (intros w2 w3 r2 E2; apply Hp; congruence).
  destruct (_ || _); [by eapply udp_sendto_if_src_keeps|].
  destruct (negb _); [by injection H as <- _|]. by eapply udp_sendto_if_src_keeps.
Qed.

Lemma udp_sendto_keeps w pcb p dst port w' r :
  udp_sendto netif_output custom_free fuel w pcb p dst port = Some (w', r) ->
  I w -> is_Some (udp_pcb_at w !! pcb) -> I w'.
Proof.
  intros H Hi Hp. eapply udp_sendto_keeps_bind; [exact H|done|]. intros w1 w2 r1 E H1 Hn. eapply keeps_bind; [exact H1|done|by rewrite E].
Qed.

End Keeps.

Lemma auto_bind_inv {X} (w : world X) pcb w' r :
  auto_bind w pcb = Some (w', r) -> pcb <> NULL -> is_Some (udp_pcb_at w !! pcb) -> udp_inv w ->
  udp_inv w' /\ is_Some (udp_pcb_at w' !! pcb) /\ (r = ERR_OK -> pcb ∈ udp_pcbs w').
Proof.
  intros H Hn Hp Hi. unfold auto_bind in H. destruct (Z.eqb_spec (u_local_port (udp_at w pcb)) 0) as [E|E].
  - rewrite E in H. destruct (udp_bind_inv w pcb (Some (u_local_ip (udp_at w pcb))) 0 Hi Hp) as (w1 & r1 & Hb & B1 & B2 & B3 & _); [lia|].
    rewrite Hb in H. injection H as <- <-. split; [done|]. split; [by apply B2|auto].
  - injection H as <- <-. split; [done|]. split; [done|]. intros _.
    destruct (decide (pcb ∈ udp_pcbs w)) as [|Hni]; [done|]. by destruct (E (ui_unlisted _ Hi pcb Hp Hni)).
Qed.

#[export] Instance udp_inv_keeps {X} : udp_keeps (udp_inv (X:=X)).
Proof.
  constructor; [apply _| |by intros w pcb w' r H Hn Hp Hi; apply (auto_bind_inv w pcb w' r)].
  intros w l HP [H1 H2 H3 H4 H5]. assert (Hel : forall a, a ∈ l <-> a ∈ udp_pcbs w) by (intros a; by rewrite HP).
  assert (Hnd : NoDup l) by by rewrite HP.
  constructor; auto; change (udp_pcbs (set_udp_pcbs w l)) with l.
  - intros a Ha%Hel. by apply H2.
  - intros a Hs Ha. apply H3; [done|]. by rewrite <- Hel.
  - intros a b Ha%Hel Hb%Hel. by apply H4.
Qed.

Lemma udp_connect_inv {X} (w : world X) pcb ip port w' r :
  udp_connect w pcb ip port = Some (w', r) -> udp_inv w -> is_Some (udp_pcb_at w !! pcb) -> udp_inv w'.
Proof.
  unfold udp_connect. intros H Hi Hp. destruct ip as [ip|]; [|by injection H as <- _].
  destruct (Z.eqb_spec pcb NULL) as [|Hn]; [by injection H as <- _|]. fold (auto_bind w pcb) in H.
  destruct (auto_bind w pcb) as [[w1 r1]|] eqn:E1; [|done]. apply auto_bind_inv in E1 as (Hi1 & Hp1 & Hin); auto.
  destruct (Z.eqb_spec r1 ERR_OK) as [->|]; simpl in H; [|by injection H as <- _].
  rewrite rebind_eq, bool_decide_true in H by (by apply Hin). injection H as <- _. by apply upd_udp_inv.
Qed.

Section Safe.
Context {X : Type} (netif_output : world X -> Z -> Z -> Z -> option (world X * Z)).
Context (custom_free : pstate -> Z -> pstate) (fuel : nat).
Context (udp_recv_fn : Z -> world X -> Z -> Z -> Z -> Z -> Z -> option (world X)).
(** The link layer and the receive callbacks keep the invariant: a callback that uses
    the functions of this module does. *)
Context (Hout : output_keeps netif_output udp_inv).
Context (Hrecv : forall f w arg pcb p addr port w',
  udp_recv_fn f w arg pcb p addr port = Some w' -> udp_inv w -> udp_inv w').
Implicit Types w : world X.

(** ** The operations in any order *)

Inductive udp_step : world X -> world X -> Prop :=
| step_new w : (udp_new w).2 = NULL \/ udp_pcb_at w !! (udp_new w).2 = None -> udp_step w (udp_new w).1
| step_bind w pcb ip port w' r :
    is_Some (udp_pcb_at w !! pcb) -> 0 <= port < 65536 -> udp_bind w pcb ip port = Some (w', r) -> udp_step w w'
| step_connect w pcb ip port w' r :
    is_Some (udp_pcb_at w !! pcb) -> udp_connect w pcb ip port = Some (w', r) -> udp_step w w'
| step_disconnect w pcb : is_Some (udp_pcb_at w !! pcb) -> udp_step w (udp_disconnect w pcb)
| step_recv w pcb f arg : is_Some (udp_pcb_at w !! pcb) -> udp_step w (udp_recv w pcb f arg)
| step_remove w pcb : udp_step w (udp_remove w pcb)
| step_addr w old_addr new_addr :
    (forall a b, a ∈ udp_pcbs w -> b ∈ udp_pcbs w -> (bound_to w a).1 = old_addr -> (bound_to w b).1 = new_addr ->
       (bound_to w a).2 = (bound_to w b).2 -> a = b) ->
    udp_step w (udp_netif_ip_addr_changed w old_addr new_addr)
| step_udp_input w p inp w' :
    udp_input netif_output custom_free fuel udp_recv_fn w p inp = Some w' -> udp_step w w'
| step_sendto w pcb p dst port w' r :
    is_Some (udp_pcb_at w !! pcb) -> udp_sendto netif_output custom_free fuel w pcb p dst port = Some (w', r) ->
    udp_step w w'
| step_elsewhere w w' :
    udp_pcbs w' = udp_pcbs w -> udp_pcb_at w' = udp_pcb_at w -> udp_port w' = udp_port w -> udp_step w w'.

Lemma udp_step_inv w w' : udp_step w w' -> udp_inv w -> udp_inv w'.
Proof.
  intros Hs Hi. destruct Hs as [| w pcb ip port w' r Hp Hq H| | | | | | | |w w' E1 E2 E3].
  - by apply udp_new_inv.
  - destruct (udp_bind_inv w pcb ip port Hi Hp Hq) as (w1 & r1 & Hb & Hi1 & _). rewrite Hb in H. by injection H as <- _.
  - by eapply udp_connect_inv.
  - by apply upd_udp_inv.
  - by apply upd_udp_inv.
  - by apply udp_remove_inv.
  - by apply addr_changed_inv.
  - by eapply (udp_input_keeps _ _ _ _ udp_inv Hout Hrecv).
  - by eapply (udp_sendto_keeps _ _ _ udp_inv Hout).
  - apply (udp_inv_ext w); auto. rewrite E3. apply Hi.
Qed.

End Safe.

(** ** The header *)

Definition udp_header (src dest len : Z) : list Z := be16 src ++ be16 dest ++ be16 len ++ [0; 0].

Lemma udp_write_header_bytes m a src dest len :
  0 <= src < 65536 -> 0 <= dest < 65536 -> 0 <= len < 65536 ->
  bytes_at (udp_write_header m a src dest len) a 8 = udp_header src dest len.
Proof.
  intros. unfold udp_write_header, udp_header, be16. cbv zeta. at_mem. by rewrite !htons_mod, !htons_div by done.
Qed.

Lemma udp_header_fields m a src dest len :
  bytes_at m a 8 = udp_header src dest len -> 0 <= src < 65536 -> 0 <= dest < 65536 ->
  lwip_htons (ld16 m a) = src /\ lwip_htons (ld16 m (a + 2)) = dest.
Proof.
  intros E Hs Hd. set (bs := udp_header src dest len) in E. change 8%nat with (length bs) in E.
  pose proof (ld16_bytes m a bs 0 E ltac:(simpl; lia)) as E0. pose proof (ld16_bytes m a bs 2 E ltac:(simpl; lia)) as E2.
  change (a + Z.of_nat 2) with (a + 2) in E2. change (Z.of_nat 0) with 0 in E0. rewrite Z.add_0_r in E0.
  rewrite E0, E2. unfold bs, udp_header, be16. cbn [nth app Nat.add]. by rewrite !htons_be16.
Qed.

Lemma udp_write_header_only m a src dest len : only_in [(a, 8)] m (udp_write_header m a src dest len).
Proof.
  intros y Hy. inversion Hy as [|? ? Hr _]; subst. simpl in Hr. unfold udp_write_header. cbv zeta.
  by repeat rewrite st16_out by lia.
Qed.

Section Send.
Context {X : Type} (netif_output : world X -> Z -> Z -> Z -> option (world X * Z)).
Context (custom_free : pstate -> Z -> pstate) (fuel : nat).
Context (udp_recv_fn : Z -> world X -> Z -> Z -> Z -> Z -> Z -> option (world X)).
Implicit Types w : world X.

(** The state with the UDP header in front of the data. *)
Lemma udp_header_in_front w p l sport dport flag :
  room (w_ps w) p l 28 -> 0 <= sport < 65536 -> 0 <= dport < 65536 ->
  exists st', udp_add_header custom_free fuel w p = Some (inl (set_wps w st', p)) /\
    let m := udp_write_header (data st') (pb_payload (pb st' p)) sport dport (pb_tot_len (pb st' p)) in
    let st2 := if (flag : bool) then upd_pb (set_data st' m) p (fun x => with_flags x (Z.lor (pb_flags x) PBUF_FLAG_MCASTLOOP))
               else set_data st' m in
    room st2 p l 20 /\ content st2 (p :: l) = udp_header sport dport (plen (w_ps w) (p :: l) + 8) ++ content (w_ps w) (p :: l).
Proof.
  intros Hr Hs Hd. assert (Hr8 : room (w_ps w) p l 8) by (apply (room_le _ _ _ 28); [lia|done]).
  destruct (prepend_correct _ _ _ _ Hr8 ltac:(lia)) as (st' & Hh & Hda & Hpay & Htot & Hc). exists st'. split.
  { unfold udp_add_header. change UDP_HLEN with 8 at 1. by rewrite Hh. }
  cbv zeta. set (m := udp_write_header _ _ _ _ _).
  assert (Hlen : 0 <= plen (w_ps w) (p :: l) + 8 < 65536).
  { pose proof (rm_tot _ _ _ _ Hr8). pose proof (sizes_nonneg _ _ (rm_sizes _ _ _ _ Hr8)) as [? _]. lia. }
  assert (Hon : only_in [(pb_payload (pb (w_ps w) p) - 8, 8)] (data (w_ps w)) m).
  { unfold m. rewrite Hpay, Hda. apply udp_write_header_only. }
  destruct (Hc m Hon) as (_ & _ & H3). pose proof (room_prepended _ _ _ 8 20 st' m Hr ltac:(lia) ltac:(lia) Hh Hon) as H4.
  assert (Hb : bytes_at m (pb_payload (pb (w_ps w) p) - 8) (Z.to_nat 8) = udp_header sport dport (plen (w_ps w) (p :: l) + 8)).
  { unfold m. rewrite Hpay, Htot. change (Z.to_nat 8) with 8%nat. by apply udp_write_header_bytes. }
  rewrite Hb in H3. destruct flag; [|done].
  pose proof (same_but_flags_upd (set_data st' m) p (fun x => Z.lor (pb_flags x) PBUF_FLAG_MCASTLOOP)) as Hfl.
  split; [by apply (flags_room (set_data st' m))|]. by rewrite (flags_content _ _ _ Hfl).
Qed.

(** The time to live of a datagram. *)
Definition udp_ttl (u : udp_pcb) (dest : Z) : Z := if ip4_addr_ismulticast dest then u_mcast_ttl u else u_ttl u.

Lemma sendto_if_src_bytes w pcb p l dest dport nif src :
  let u := udp_at w pcb in
  pcb <> NULL -> 0 < u_local_port u < 65536 -> 0 <= dport < 65536 -> 0 <= udp_ttl u dest < 256 -> 0 <= ip_id w < 65536 ->
  room (w_ps w) p l 28 ->
  let len := plen (w_ps w) (p :: l) in
  let mtu := netif_mtu (netif_of w nif) in
  mtu = 0 \/ len + 28 <= mtu ->
  exists w', udp_sendto_if_src netif_output custom_free fuel w pcb p (Some dest) dport nif src =
      match netif_output w' nif p dest with
      | None => None | Some (w2, err) => Some (stats_inc S_udp F_xmit w2, err)
      end /\
    pchain (w_ps w') p (p :: l) /\ sizes (w_ps w') (p :: l) /\
    content (w_ps w') (p :: l) =
      ip_header (u_tos u) (len + 28) (ip_id w) (udp_ttl u dest) IP_PROTO_UDP src dest ++
      udp_header (u_local_port u) dport (len + 8) ++ content (w_ps w) (p :: l).
Proof.
  intros u Hn Hport Hdp Httl Hid Hr len mtu Hmtu.
  destruct (udp_header_in_front w p l (u_local_port u) dport
              (negb (Z.land (u_flags u) UDP_FLAGS_MULTICAST_LOOP =? 0) && ip4_addr_ismulticast dest) Hr) as (st' & Ha & Hb); [lia|lia|].
  cbv zeta in Hb. unfold udp_sendto_if_src. fold u.
  rewrite (proj2 (Z.eqb_neq _ _) Hn), (proj2 (Z.eqb_neq (u_local_port u) 0)) by lia. cbn [Z.eqb negb ERR_OK]. rewrite Ha.
  change (udp_at (set_wps w st') pcb) with u. cbv zeta.
  set (st2 := if _ && _ then _ else _) in Hb. destruct Hb as [Hroom Hcont].
  match goal with |- context [ip4_output_if_src _ _ _ ?w0 _ _ _ _ _ _ _] =>
    assert (Ew : w0 = set_wps w st2) by (unfold st2; by destruct (_ && _)); rewrite Ew end.
  fold (udp_ttl u dest). unfold ip4_output_if_src, ip4_output_if_opt_src. cbn [Z.eqb negb].
  destruct (put_header_correct netif_output custom_free fuel (set_wps w st2) p l src dest (udp_ttl u dest) (u_tos u) IP_PROTO_UDP nif)
    as (w' & -> & H1 & H2 & H3 & H4 & H5 & H6 & _); auto; [done|].
  assert (Hlen : plen st2 (p :: l) = len + 8).
  { pose proof (f_equal length Hcont) as E.
    rewrite length_app, (length_content _ _ (rm_sizes _ _ _ _ Hroom)), (length_content _ _ (rm_sizes _ _ _ _ Hr)) in E.
    pose proof (sizes_nonneg _ _ (rm_sizes _ _ _ _ Hroom)) as [? _]. pose proof (sizes_nonneg _ _ (rm_sizes _ _ _ _ Hr)) as [? _].
    unfold udp_header, be16 in E. simpl in E. fold len in E. unfold len in *. simpl plen in *. lia. }
  exists (stats_inc S_ip F_xmit w'). split.
  - unfold ip4_transmit. cbv zeta.
    replace (netif_mtu (netif_of (stats_inc S_ip F_xmit w') nif)) with mtu by (unfold mtu, netif_of; simpl; by rewrite H6).
    change (pb (w_ps (stats_inc S_ip F_xmit w')) p) with (pb (w_ps w') p). rewrite H4. simpl w_ps. rewrite Hlen.
    assert (Em : negb (mtu =? 0) && (mtu <? len + 8 + 20) = false).
    { destruct Hmtu as [-> | Hle]; [done|]. rewrite (proj2 (Z.ltb_ge mtu _)) by lia. by rewrite andb_false_r. }
    rewrite Em. destruct (netif_output _ _ _ _) as [[w2 err]|]; [|done]. by rewrite Z.eqb_refl.
  - split; [done|]. split; [done|]. etransitivity; [exact H3|]. simpl w_ps in *. rewrite Hlen, Hcont.
    replace (len + 8 + 20) with (len + 28) by lia. done.
Qed.

(** ** Delivery *)

(** The PCB for a datagram, by the order of preference. *)
Definition demux w (g : dgram) : option Z :=
  match List.find (full_match (udp_at w) g) (udp_pcbs w) with
  | Some pcb => Some pcb
  | None => List.find (open_match (udp_at w) g) (udp_pcbs w)
  end.

(** [udp_input] behind the length check. *)
Lemma udp_input_demux w p inp :
  UDP_HLEN <= pb_len (pb (w_ps w) p) ->
  let g := current_dgram w p inp in
  exists w', udp_input netif_output custom_free fuel udp_recv_fn w p inp =
      udp_deliver netif_output custom_free fuel udp_recv_fn w' p inp g (demux w g) /\
    udp_pcbs w' ≡ₚ udp_pcbs w /\ w_ps w' = w_ps w /\ udp_pcb_at w' = udp_pcb_at w /\ ip_data w' = ip_data w /\
    (forall pcb, List.find (full_match (udp_at w) g) (udp_pcbs w) = Some pcb -> head (udp_pcbs w') = Some pcb).
Proof.
  intros Hl g. unfold udp_input. cbn [w_ps stats_inc]. rewrite (proj2 (Z.ltb_ge _ _)) by done. cbv zeta.
  change (current_dgram (stats_inc S_udp F_recv w) p inp) with g.
  change (udp_at (stats_inc S_udp F_recv w)) with (udp_at w). change (udp_pcbs (stats_inc S_udp F_recv w)) with (udp_pcbs w).
  pose proof (search_perm (udp_at w) g (udp_pcbs w)) as Hp.
  rewrite (search_spec (udp_at w) g [] (udp_pcbs w) None) in *. unfold demux.
  destruct (List.find (full_match (udp_at w) g) (udp_pcbs w)) as [x|]; specialize (Hp _ _ _ eq_refl).
  - eexists. split; [reflexivity|]. destruct (bool_decide _); repeat (split; [done|]); by intros pcb [= ->].
  - eexists. split; [reflexivity|]. by repeat (split; [done|]).
Qed.

(** A datagram whose PCB has a callback. *)
Lemma udp_input_recv w p l inp pcb :
  strippable (w_ps w) p l 8 ->
  let g := current_dgram w p inp in
  demux w g = Some pcb -> u_recv (udp_at w pcb) <> NULL ->
  exists w', udp_input netif_output custom_free fuel udp_recv_fn w p inp =
      udp_recv_fn (u_recv (udp_at w pcb)) w' (u_recv_arg (udp_at w pcb)) pcb p (g_src_ip g) (g_src g) /\
    content (w_ps w') (p :: l) = drop 8 (content (w_ps w) (p :: l)) /\ udp_pcbs w' ≡ₚ udp_pcbs w.
Proof.
  intros Hp g Hdem Hrecv. destruct (udp_input_demux w p inp (sp_len _ _ _ _ Hp)) as (w1 & E & HP & E1 & E2 & E3 & _).
  fold g in E. rewrite Hdem in E. rewrite <- E1 in Hp.
  destruct (strip_correct (w_ps w1) p l 8 0 Hp ltac:(lia) ltac:(lia)) as (st & Hh & _ & _ & Hcont & _).
  assert (Ea : udp_at w1 = udp_at w) by (unfold udp_at; by rewrite E2). exists (set_wps w1 st). rewrite E. unfold udp_deliver.
  change UDP_HLEN with 8. rewrite Hh. cbv zeta. cbn [Z.eqb negb]. change (udp_at (set_wps w1 st)) with (udp_at w1).
  rewrite Ea, (proj2 (Z.eqb_neq _ _) Hrecv). split; [done|]. split; [by rewrite <- E1|done].
Qed.

End Send.

(** ** The properties *)

(** A state of the module before its first use. *)
Definition udp_fresh {X} (w : world X) : Prop := udp_pcbs w = [] /\ udp_pcb_at w = ∅ /\ udp_port w = UDP_LOCAL_PORT_RANGE_START.

Lemma udp_fresh_inv {X} (w : world X) : udp_fresh w -> udp_inv w.
Proof.
  intros (E1 & E2 & E3). constructor; rewrite ?E1, ?E2, ?E3.
  - constructor.
  - by intros a ?%elem_of_nil.
  - intros a. rewrite lookup_empty. by intros [? ?].
  - by intros a b ?%elem_of_nil.
  - unfold in_local_range, UDP_LOCAL_PORT_RANGE_START, UDP_LOCAL_PORT_RANGE_END. lia.
Qed.

(** C29: In every state that the operations of UDP reach, in any order and with any
    datagrams, callbacks and addresses, the list of active PCBs has no duplicates and no
    [NULL], its PCBs are allocated and bound to a port, no two of them are bound to the
    same address and port, a PCB that is not in the list is unbound, and the port counter
    stays in the local range; provided that the link layer and the callbacks preserve
    this, and that an interface does not change its address to one under which another
    PCB is bound to the same port. *)
Theorem udp_pcbs_safe {X} out custom_free fuel recv (w0 w : world X) :
  output_keeps out udp_inv ->
  (forall f w arg pcb p addr port w', recv f w arg pcb p addr port = Some w' -> udp_inv w -> udp_inv w') ->
  udp_fresh w0 -> rtc (udp_step out custom_free fuel recv) w0 w ->
  NoDup (udp_pcbs w) /\
  (forall a, a ∈ udp_pcbs w -> a <> NULL /\ is_Some (udp_pcb_at w !! a) /\ 0 < u_local_port (udp_at w a) < 65536) /\
  (forall a, is_Some (udp_pcb_at w !! a) -> a ∉ udp_pcbs w -> u_local_port (udp_at w a) = 0) /\
  (forall a b, a ∈ udp_pcbs w -> b ∈ udp_pcbs w -> u_local_ip (udp_at w a) = u_local_ip (udp_at w b) ->
     u_local_port (udp_at w a) = u_local_port (udp_at w b) -> a = b) /\
  0xc000 <= udp_port w <= 0xffff.
Proof.
  intros Hout Hrecv H0 Hs. assert (Hi : udp_inv w).
  { apply udp_fresh_inv in H0. induction Hs as [|x y z Hxy _ IH]; [done|]. apply IH. by eapply udp_step_inv. }
  destruct Hi as [H1 H2 H3 H4 H5]. repeat (split; [done|]). split; [|done].
  intros a b Ha Hb E1 E2. apply H4; auto. unfold bound_to. congruence.
Qed.

(** Two PCBs, the first one bound to a port, the second to the next free one. *)
Definition pcb_a : Z := (udp_new world0).2.
Definition world1 : world unit := (udp_new world0).1.
Definition world2 : world unit := from_option fst world1 (udp_bind world1 pcb_a None 0).
Definition pcb_b : Z := (udp_new world2).2.
Definition world3 : world unit := from_option fst world2 (udp_bind (udp_new world2).1 pcb_b (Some 0x0100a8c0) 5000).

Lemma udp_safe_witness : NoDup (udp_pcbs world3) /\ udp_pcbs world3 = [pcb_b; pcb_a].
Proof.
  split; [|vm_compute; reflexivity].
  apply (udp_pcbs_safe sink (fun s _ => s) 9 (fun _ w _ _ _ _ _ => Some w) world0 world3).
  - intros w nif p dest w' r. unfold sink. by intros [= <- _].
  - by intros f w arg pcb p addr port w' [= <-].
  - repeat split.
  - eapply rtc_l; [apply step_new; right; vm_compute; reflexivity|].
    eapply rtc_l; [apply (step_bind _ _ _ _ _ pcb_a None 0 world2 ERR_OK); [vm_compute; eauto|lia|vm_compute; reflexivity]|].
    eapply rtc_l; [apply step_new; right; vm_compute; reflexivity|].
    apply rtc_once. apply (step_bind _ _ _ _ _ pcb_b (Some 0x0100a8c0) 5000 world3 ERR_OK);
      [vm_compute; eauto|lia|vm_compute; reflexivity].
Defined.

(** The changes of a bind: the PCB is bound and active, all others are as before. *)
Definition binds {X} (w w' : world X) (pcb ip port : Z) : Prop :=
  u_local_ip (udp_at w' pcb) = ip /\ u_local_port (udp_at w' pcb) = port /\ pcb ∈ udp_pcbs w' /\
  forall a, a <> pcb -> udp_at w' a = udp_at w a /\ (a ∈ udp_pcbs w' <-> a ∈ udp_pcbs w).

Lemma bound_state_binds {X} (w : world X) pcb ip port : binds w (bound_state w pcb ip port) pcb ip port.
Proof.
  unfold binds, bound_state. cbv zeta. set (w1 := upd_udp w pcb _).
  assert (H1 : forall l a, udp_at (set_udp_pcbs w1 l) a = udp_at w1 a) by done.
  assert (H2 : udp_at w1 pcb = set_u_local (udp_at w pcb) ip port) by (unfold w1; by rewrite udp_at_upd, Z.eqb_refl).
  assert (H3 : forall a, a <> pcb -> udp_at w1 a = udp_at w a).
  { intros a Ha. unfold w1. by rewrite udp_at_upd, (proj2 (Z.eqb_neq _ _) Ha). }
  case_bool_decide as Hin; rewrite ?H1, H2; (split; [done|]); (split; [done|]).
  - split; [done|]. intros a Ha. by rewrite H3.
  - split; [left|]. intros a Ha. rewrite H1, H3 by done. split; [done|].
    change (a ∈ pcb :: udp_pcbs w <-> a ∈ udp_pcbs w). rewrite elem_of_cons. tauto.
Qed.

(** The results of [udp_bind]: [ERR_VAL] for no PCB; with a port, [ERR_USE] exactly
    when another active PCB has the same address and port, and the state is unchanged
    then; with port 0, [ERR_USE] exactly when all 16384 ports of the local range are in
    use, and otherwise a port that no active PCB has; a successful bind binds the PCB and
    makes it active and touches no other.  It always ends. *)
Theorem bind_outcomes {X} (w : world X) pcb ipaddr port :
  in_local_range (udp_port w) ->
  let ip := default IPADDR_ANY ipaddr in
  let r := udp_bind w pcb ipaddr port in
  (pcb = NULL -> r = Some (w, ERR_VAL)) /\
  (pcb <> NULL -> port <> 0 ->
     (taken w pcb ip port /\ r = Some (w, ERR_USE)) \/
     (~ taken w pcb ip port /\ exists w', r = Some (w', ERR_OK) /\ binds w w' pcb ip port)) /\
  (pcb <> NULL -> port = 0 ->
     ((forall q, in_local_range q -> port_used w q = true) /\
      exists w', r = Some (w', ERR_USE) /\ udp_pcbs w' = udp_pcbs w /\ udp_pcb_at w' = udp_pcb_at w) \/
     (exists w' q, r = Some (w', ERR_OK) /\ in_local_range q /\ port_used w q = false /\ binds w w' pcb ip q)).
Proof.
  intros Hr ip r. split; [|split].
  - intros ->. apply bind_null.
  - intros Hn Hp. unfold r. rewrite bind_port by done. fold ip. destruct (decide (taken w pcb ip port)); [left; done|right].
    split; [done|]. eexists. split; [done|]. apply bound_state_binds.
  - intros Hn ->. unfold r. destruct (bind_any w pcb ipaddr Hr Hn) as (k & Hk & _ & -> & Hall). fold ip.
    pose proof (port_after_range (udp_port w) k) as Hq. destruct (port_used w (port_after (udp_port w) k)) eqn:E; [left|right].
    + split; [by apply Hall|]. eexists. by split.
    + eexists _, _. split; [done|]. split; [done|]. split; [done|]. apply (bound_state_binds (set_udp_port w _)).
Qed.

Lemma bind_witness :
  udp_bind world3 pcb_a (Some 0x0100a8c0) 5000 = Some (world3, ERR_USE) /\
  (exists w', udp_bind world3 pcb_a (Some 0x0100a8c0) 5001 = Some (w', ERR_OK)).
Proof.
  assert (Hr : in_local_range (udp_port world3)) by (split; vm_compute; congruence).
  split.
  - destruct (bind_outcomes world3 pcb_a (Some 0x0100a8c0) 5000 Hr) as (_ & H & _).
    destruct (H ltac:(vm_compute; congruence) ltac:(lia)) as [[_ E] | [Hn _]]; [exact E|].
    exfalso. apply Hn. apply taken_dec. vm_compute. reflexivity.
  - destruct (bind_outcomes world3 pcb_a (Some 0x0100a8c0) 5001 Hr) as (_ & H & _).
    destruct (H ltac:(vm_compute; congruence) ltac:(lia)) as [[Ht _] | [_ (w' & E & _)]]; [|by exists w'].
    apply taken_dec in Ht. vm_compute in Ht. discriminate.
Defined.

(** C26: [udp_input] on a datagram with a complete header.  The PCB is the first of the
    list that matches the destination and is connected to the source, or else the first
    that matches the destination and is not connected.  It gets the data behind the
    header, with the address and port of the sender; the list is only reordered.  Without
    a PCB, a datagram to this host's own unicast address is answered with an ICMP port
    unreachable for the whole packet, and freed; any other one is freed. *)
Theorem udp_delivers {X} out custom_free fuel recv (w : world X) p l inp :
  strippable (w_ps w) p l 8 ->
  let g := current_dgram w p inp in
  let full x := local_match (udp_at w x) g = true /\ remote_match (udp_at w x) g = true in
  let open_ x := local_match (udp_at w x) g = true /\ unconnected (udp_at w x) = true in
  match demux w g with
  | Some pcb =>
      (exists l1 l2, udp_pcbs w = l1 ++ pcb :: l2 /\
         ((full pcb /\ Forall (fun x => ~ full x) l1) \/
          (open_ pcb /\ Forall (fun x => ~ full x) (udp_pcbs w) /\ Forall (fun x => ~ open_ x) l1))) /\
      (u_recv (udp_at w pcb) <> NULL ->
       exists w', udp_input out custom_free fuel recv w p inp =
           recv (u_recv (udp_at w pcb)) w' (u_recv_arg (udp_at w pcb)) pcb p (g_src_ip g) (g_src g) /\
         content (w_ps w') (p :: l) = drop 8 (content (w_ps w) (p :: l)) /\ udp_pcbs w' ≡ₚ udp_pcbs w)
  | None =>
      Forall (fun x => ~ full x /\ ~ open_ x) (udp_pcbs w) /\
      (netif_ip_addr (netif_of w inp) <> g_dest_ip g ->
       exists w', udp_input out custom_free fuel recv w p inp = wfree custom_free fuel w' p /\ w_ps w' = w_ps w) /\
      (netif_ip_addr (netif_of w inp) = g_dest_ip g -> g_broadcast g = false -> ip4_addr_ismulticast (g_dest_ip g) = false ->
       exists st w', pbuf_header (w_ps w) p (-8) = (st, 0) /\
         w_ps w' = (pbuf_header_force st p (s16 (current_ip_header_tot_len (ip_data w) + 8))).1 /\
         udp_input out custom_free fuel recv w p inp =
           match icmp_dest_unreach out custom_free fuel w' p ICMP_DUR_PORT with
           | None => None
           | Some w2 => wfree custom_free fuel (stats_inc S_udp F_drop (stats_inc S_udp F_proterr w2)) p
           end)
  end.
Proof.
  intros Hp g full open_.
  destruct (udp_input_demux out custom_free fuel recv w p inp (sp_len _ _ _ _ Hp)) as (w1 & E & HP & E1 & E2 & E3 & _). fold g in E.
  assert (Hb : forall x, (full_match (udp_at w) g x = true <-> full x) /\ (open_match (udp_at w) g x = true <-> open_ x)).
  { intros x. unfold full_match, open_match, full, open_. by rewrite !andb_true_iff. }
  pose proof (find_first (full_match (udp_at w) g) full (udp_pcbs w) (fun x => proj1 (Hb x))) as Hfull.
  pose proof (find_first (open_match (udp_at w) g) open_ (udp_pcbs w) (fun x => proj2 (Hb x))) as Hopen.
  rewrite <- E1 in Hp. destruct (strip_correct (w_ps w1) p l 8 0 Hp ltac:(lia) ltac:(lia)) as (st & Hh & _ & _ & Hcont & _).
  assert (Ea : udp_at w1 = udp_at w) by (unfold udp_at; by rewrite E2). change (- (8)) with (-8) in Hh.
  destruct (demux w g) as [pcb|] eqn:Ed; unfold demux in Ed.
  - split.
    + destruct (List.find (full_match (udp_at w) g) (udp_pcbs w)) as [x|].
      * injection Ed as ->. destruct Hfull as (l1 & l2 & -> & H1 & H2). eauto 8.
      * rewrite Ed in Hopen. destruct Hopen as (l1 & l2 & El & H1 & H2). exists l1, l2. split; [done|]. right. done.
    + apply udp_input_recv; [by rewrite <- E1|exact Ed].
  - destruct (List.find (full_match (udp_at w) g) (udp_pcbs w)) as [x|]; [done|]. rewrite Ed in Hopen. split; [|split].
    + apply Forall_and. done.
    + intros Hne. exists w1. rewrite E. unfold udp_deliver. change (g_inp g) with (netif_of w inp).
      by rewrite (proj2 (Z.eqb_neq _ _) Hne).
    + intros Heq Hbc Hmc. destruct (pbuf_header_force st p (s16 (current_ip_header_tot_len (ip_data w) + 8))) as [st2 e2] eqn:E4.
      exists st, (set_wps w1 st2). split; [by rewrite <- E1|]. split; [by rewrite E4|]. rewrite E. unfold udp_deliver.
      change (g_inp g) with (netif_of w inp). rewrite (proj2 (Z.eqb_eq _ _) Heq). change UDP_HLEN with 8.
      change (- (8)) with (-8). rewrite Hh. cbv zeta. cbn [Z.eqb negb]. rewrite Hbc, Hmc. cbn [negb andb].
      change (ip_data (set_wps w1 st)) with (ip_data w1). rewrite E3. change (w_ps (set_wps w1 st)) with st. by rewrite E4.
Qed.

(** The board with a datagram from 192.168.0.9:7000 to 192.168.0.1:5000 in its two pbufs. *)
Definition dgram_st : pstate :=
  set_data (set_pb net_st 1000 (mk_pbuf 2000 1100 13 9 PBUF_RAM 0 1))
    (write_bytes (data net_st) 1100 (udp_header 7000 5000 13 ++ [64])).
Definition world4 : world unit :=
  set_ip_data (set_wps (udp_recv world3 pcb_b 1 2) dgram_st) (mk_ipg 4000 4000 1080 20 0x0900a8c0 0x0100a8c0).

Lemma udp_delivers_witness :
  demux world4 (current_dgram world4 1000 4000) = Some pcb_b /\
  exists w', udp_input sink (fun s _ => s) 9 (fun _ w _ _ _ _ _ => Some w) world4 1000 4000 = Some w' /\
    content (w_ps w') [1000; 2000] = [64; 68; 69; 70; 71].
Proof.
  assert (Ed : demux world4 (current_dgram world4 1000 4000) = Some pcb_b) by (vm_compute; reflexivity).
  split; [exact Ed|].
  pose proof (udp_delivers sink (fun s _ => s) 9 (fun _ w _ _ _ _ _ => Some w) world4 1000 [2000] 4000) as H.
  cbv zeta in H. rewrite Ed in H. destruct H as [_ H];
    [constructor; [repeat split; vm_compute; congruence|repeat split; vm_compute; congruence|vm_compute; congruence|vm_compute; congruence]|].
  destruct H as (w' & H1 & H2 & _); [vm_compute; congruence|]. exists w'. split; [exact H1|].
  etransitivity; [exact H2|]. vm_compute. reflexivity.
Defined.

(** Sending a datagram from a bound PCB to an interface whose MTU it fits: the chain
    passed to the interface holds the IPv4 header, the UDP header (the ports and the
    length in network byte order, no checksum) and the unchanged data, with the PCB's time
    to live, or its multicast time to live for a group, and its type of service. *)
Theorem udp_sends {X} out custom_free fuel (w : world X) pcb p l dest dport nif src :
  let u := udp_at w pcb in
  pcb <> NULL -> 0 < u_local_port u < 65536 -> 0 <= dport < 65536 -> 0 <= udp_ttl u dest < 256 -> 0 <= ip_id w < 65536 ->
  room (w_ps w) p l 28 ->
  let len := plen (w_ps w) (p :: l) in
  let mtu := netif_mtu (netif_of w nif) in
  mtu = 0 \/ len + 28 <= mtu ->
  exists w', udp_sendto_if_src out custom_free fuel w pcb p (Some dest) dport nif src =
      match out w' nif p dest with
      | None => None | Some (w2, err) => Some (stats_inc S_udp F_xmit w2, err)
      end /\
    pchain (w_ps w') p (p :: l) /\ sizes (w_ps w') (p :: l) /\
    content (w_ps w') (p :: l) =
      ip_header (u_tos u) (len + 28) (ip_id w) (udp_ttl u dest) IP_PROTO_UDP src dest ++
      udp_header (u_local_port u) dport (len + 8) ++ content (w_ps w) (p :: l).
Proof. apply sendto_if_src_bytes. Qed.

Lemma udp_sends_witness :
  exists w', udp_sendto_if_src sink (fun s _ => s) 9 world3 pcb_b 1000 (Some 0x0900a8c0) 7000 4000 0x0100a8c0 = Some (w', ERR_OK) /\
    content (w_ps w') [1000; 2000] =
      [0x45; 0; 0; 35; 0; 7; 0; 0; 255; 17; 0; 0; 192; 168; 0; 1; 192; 168; 0; 9; 19; 136; 27; 88; 0; 15; 0; 0;
       65; 66; 67; 68; 69; 70; 71].
Proof.
  pose proof (udp_sends sink (fun s _ => s) 9 world3 pcb_b 1000 [2000] 0x0900a8c0 7000 4000 0x0100a8c0) as H. cbv zeta in H.
  destruct H as (w' & H1 & _ & _ & H2).
  - vm_compute. congruence.
  - split; vm_compute; reflexivity.
  - lia.
  - split; vm_compute; congruence.
  - split; vm_compute; congruence.
  - apply net_room_of; [vm_compute; reflexivity|vm_compute; reflexivity|lia].
  - right. vm_compute. congruence.
  - eexists. split; [exact H1|]. etransitivity; [exact H2|]. vm_compute. reflexivity.
Defined.

(** [udp_new_port] ends within 16384 rounds and returns the first port behind the
    last one, in cyclic order over the local range, that no active PCB has; it returns 0
    exactly when all of them are in use. *)
Theorem new_port_first_free {X} (w : world X) :
  in_local_range (udp_port w) ->
  exists k, 1 <= k <= 0x4000 /\ (forall j, 1 <= j < k -> port_used w (port_after (udp_port w) j) = true) /\
    let q := port_after (udp_port w) k in
    in_local_range q /\ udp_new_port w = Some (set_udp_port w q, if port_used w q then 0 else q) /\
    (port_used w q = true <-> forall p, in_local_range p -> port_used w p = true).
Proof.
  intros Hr. destruct (new_port_correct w Hr) as (k & H1 & H2 & H3 & H4). exists k. split; [done|]. split; [done|].
  pose proof (port_after_range (udp_port w) k) as Hq. split; [done|]. split; [done|]. split; [done|]. auto.
Qed.

Lemma new_port_witness : exists w', udp_new_port world3 = Some (w', 0xc002).
Proof.
  destruct (new_port_first_free world3) as (k & H1 & H2 & _ & H3 & _); [split; vm_compute; congruence|].
  assert (E1 : port_after (udp_port world3) 1 = 0xc002) by (vm_compute; reflexivity).
  assert (E2 : port_used world3 0xc002 = false) by (vm_compute; reflexivity).
  destruct (Z.eq_dec k 1) as [->|Hk]; [rewrite E1, E2 in H3; eexists; exact H3|].
  specialize (H2 1 ltac:(lia)). rewrite E1, E2 in H2. discriminate H2.
Defined.

(** Two PCBs bound to different addresses and the same port share both after an
    interface takes over the address of the second. *)
Lemma addr_change_duplicates :
  let w := from_option fst world3 (udp_bind world3 pcb_a (Some 0x0200a8c0) 5000) in
  let w' := udp_netif_ip_addr_changed w 0x0100a8c0 0x0200a8c0 in
  bound_to w pcb_a <> bound_to w pcb_b /\ bound_to w' pcb_a = bound_to w' pcb_b /\ pcb_a <> pcb_b.
Proof. vm_compute. repeat split; congruence. Qed.
