(* ===== verification/Ip4Input.v ===== *)
(** * [core/ipv4/ip4.c]: input, and [netif/ethernet.c]: frames received

    [ip4_input] checks a packet, decides which interface accepts it, reassembles it and
    passes it to the upper layer; [ethernet_input] passes a frame to it or to ARP.
    IGMP and DHCP are on, forwarding, raw PCBs, AutoIP, loopback and VLAN off, IP options
    are allowed and not parsed, checksums are checked by the hardware. *)

From Stdlib Require Import ZArith Lia.
From stdpp Require Import base tactics numbers list option gmap.
From S2P Require Import Prelude.
From S2P Require Import Def.
From S2P Require Import Ip4Addr.
From S2P Require Import Alloc.
From S2P Require Import Mem.
From S2P Require Import Memp.
From S2P Require Import Pbuf.
From S2P Require Import PbufChain.
From S2P Require Import World.
From S2P Require Import Ip4Frag.
From S2P Require Import Ip4.
From S2P Require Import Icmp.
From S2P Require Import Ip4Reass.
From S2P Require Import Udp.
From S2P Require Import Etharp.

Definition DHCP_CLIENT_PORT : Z := 68.
Definition PBUF_FLAG_LLBCAST : Z := 0x08.
Definition PBUF_FLAG_LLMCAST : Z := 0x10.
Definition IPADDR_ALLSYSTEMS : Z := PP_HTONL 0xe0000001.

Definition netif_isbroadcast (a : Z) (n : netif) : bool := negb (ip4_addr_isbroadcast_u32 a n =? 0).

(** The test of the loop over the interfaces: up, configured, and addressed. *)
Definition netif_accepts (n : netif) (dest : Z) : bool :=
  netif_is_up n && negb (ip4_addr_isany (netif_ip_addr n)) &&
  ((dest =? netif_ip_addr n) || netif_isbroadcast dest n).

(** The walk over [netif_list], which leaves [inp] out: it is tried before. *)
Definition find_netif (at_ : Z -> netif) (l : list Z) (inp dest : Z) : option Z :=
  List.find (fun x => negb (x =? inp) && netif_accepts (at_ x) dest) l.

Section Ip4Input.
Context {X : Type}.
Context (netif_output : world X -> Z -> Z -> Z -> option (world X * Z)).
Context (custom_free : pstate -> Z -> pstate) (fuel : nat).
Context (udp_recv_fn : Z -> world X -> Z -> Z -> Z -> Z -> Z -> option (world X)).
(** [igmp_lookfor_group], [igmp_input] of [core/ipv4/igmp.c] and [tcp_input] of
    [core/tcp_in.c], with their state in [X]; [etharp_input] on the state of [Etharp]. *)
Context (igmp_lookfor_group : world X -> Z -> Z -> bool)
  (igmp_input : world X -> Z -> Z -> Z -> option (world X)) (tcp_input : world X -> Z -> Z -> option (world X))
  (etharp_input : world X -> Z -> Z -> option (world X)).
Implicit Types w : world X.

(** Which interface accepts the packet ([None] for [NULL]), and [check_ip_src]. *)
Definition match_netif w (inp src dest : Z) : option Z * bool :=
  if ip4_addr_ismulticast dest then
    if negb (Z.land (netif_flags (netif_of w inp)) NETIF_FLAG_IGMP =? 0) && igmp_lookfor_group w inp dest
    then (Some inp, negb ((dest =? IPADDR_ALLSYSTEMS) && ip4_addr_isany src))
    else (None, true)
  else if netif_accepts (netif_of w inp) dest then (Some inp, true)
  else if ip4_addr_isloopback dest then (None, true)
  else (find_netif (netif_of w) (netif_list (w_netifs w)) inp dest, true).

(** DHCP messages are accepted whatever their destination. *)
Definition accept_dhcp (m : memory) (iphdr iphdr_hlen inp : Z) (r : option Z * bool) : option Z * bool :=
  match r with
  | (None, c) =>
      if (IPH_PROTO m iphdr =? IP_PROTO_UDP) && (ld16 m (iphdr + iphdr_hlen + 2) =? PP_HTONS DHCP_CLIENT_PORT)
      then (Some inp, false) else (None, c)
  | _ => r
  end.

(** A packet that is freed and counted. *)
Definition ip_drop w (p : Z) (f : sfield) : option (world X * Z) :=
  match wfree custom_free fuel w p with
  | None => None
  | Some w => Some (stats_inc S_ip F_drop (stats_inc S_ip f w), ERR_OK)
  end.

(** The fields of [ip_data] for the current packet, and their reset. *)
Definition ip_current w (nif inp iphdr : Z) : world X :=
  set_ip_data w (mk_ipg nif inp iphdr (u16 (IPH_HL (wmem w) iphdr * 4)) (current_iphdr_src (ip_data w))
                   (current_iphdr_dest (ip_data w))).
Definition ip_no_current w : world X := set_ip_data w (mk_ipg NULL NULL NULL 0 IPADDR_ANY IPADDR_ANY).

(** The switch over the protocol; the payload of [p] is behind the header. *)
Definition ip4_dispatch w (p inp nif iphdr iphdr_hlen : Z) : option (world X) :=
  let proto := IPH_PROTO (wmem w) iphdr in
  let dest := current_iphdr_dest (ip_data w) in
  if proto =? IP_PROTO_UDP then udp_input netif_output custom_free fuel udp_recv_fn w p inp
  else if proto =? IP_PROTO_TCP then tcp_input w p inp
  else if proto =? IP_PROTO_ICMP then icmp_input netif_output custom_free fuel w p inp
  else if proto =? IP_PROTO_IGMP then igmp_input w p inp dest
  else
    match (if negb (netif_isbroadcast dest (netif_of w nif)) && negb (ip4_addr_ismulticast dest) then
             let '(st, _) := pbuf_header_force (w_ps w) p (s16 iphdr_hlen) in
             let st := upd_pb st p (fun x => with_payload x iphdr) in
             icmp_dest_unreach netif_output custom_free fuel (set_wps w st) p ICMP_DUR_PROTO
           else Some w) with
    | None => None
    | Some w =>
        match wfree custom_free fuel w p with
        | None => None
        | Some w => Some (stats_inc S_ip F_drop (stats_inc S_ip F_proterr w))
        end
    end.

(** To the upper layers. *)
Definition ip4_upper w (p inp nif iphdr_hlen : Z) : option (world X * Z) :=
  let iphdr := payload w p in
  let w := ip_current w nif inp iphdr in
  let '(st, _) := pbuf_header (w_ps w) p (- s16 iphdr_hlen) in
  match ip4_dispatch (set_wps w st) p inp nif iphdr iphdr_hlen with
  | None => None
  | Some w => Some (ip_no_current w, ERR_OK)
  end.

(** The packet behind the checks of its header: addresses, reassembly, delivery. *)
Definition ip4_accept w (p inp iphdr iphdr_hlen : Z) : option (world X * Z) :=
  let dest := IPH_DEST (wmem w) iphdr in
  let src := IPH_SRC (wmem w) iphdr in
  let d := ip_data w in
  let w := set_ip_data w (mk_ipg (current_netif d) (current_input_netif d) (current_ip4_header d)
                            (current_ip_header_tot_len d) src dest) in
  let '(nif, check_ip_src) := accept_dhcp (wmem w) iphdr iphdr_hlen inp (match_netif w inp src dest) in
  if check_ip_src && negb (ip4_addr_isany src) && (netif_isbroadcast src (netif_of w inp) || ip4_addr_ismulticast src)
  then match wfree custom_free fuel w p with None => None | Some w => Some (stats_inc S_ip F_drop w, ERR_OK) end
  else
    match nif with
    | None =>
        match wfree custom_free fuel (stats_inc S_ip F_drop w) p with None => None | Some w => Some (w, ERR_OK) end
    | Some nif =>
        if negb (Z.land (IPH_OFFSET (wmem w) iphdr) (PP_HTONS (Z.lor IP_OFFMASK IP_MF)) =? 0) then
          match ip4_reass netif_output custom_free fuel w p with
          | None => None
          | Some (w, p) => if p =? NULL then Some (w, ERR_OK) else ip4_upper w p inp nif iphdr_hlen
          end
        else ip4_upper w p inp nif iphdr_hlen
    end.

(** [ip4_input(p, inp)] *)
Definition ip4_input w (p inp : Z) : option (world X * Z) :=
  let w := stats_inc S_ip F_recv w in
  let iphdr := payload w p in
  if negb (IPH_V (wmem w) iphdr =? 4) then ip_drop w p F_err
  else
    let iphdr_hlen := u16 (IPH_HL (wmem w) iphdr * 4) in
    let iphdr_len := lwip_htons (IPH_LEN (wmem w) iphdr) in
    match (if iphdr_len <? pb_tot_len (pb (w_ps w) p)
           then pbuf_realloc custom_free fuel (w_ps w) p iphdr_len else Some (w_ps w)) with
    | None => None
    | Some st =>
        let w := set_wps w st in
        let x := pb (w_ps w) p in
        if (pb_len x <? iphdr_hlen) || (pb_tot_len x <? iphdr_len) || (iphdr_hlen <? IP_HLEN)
        then ip_drop w p F_lenerr
        else ip4_accept w p inp iphdr iphdr_hlen
    end.

(** ** [ethernet_input(p, netif)] *)

(** The flag for a frame to a multicast or the broadcast address. *)
Definition ll_flag (dest : list Z) : Z :=
  if negb (Z.land (nth 0 dest 0) 1 =? 0) then
    if nth 0 dest 0 =? 0x01 then
      if (nth 1 dest 0 =? 0) && (nth 2 dest 0 =? 0x5e) then PBUF_FLAG_LLMCAST else 0
    else if bool_decide (dest = ethbroadcast) then PBUF_FLAG_LLBCAST else 0
  else 0.

(** [p] is passed on or freed; [ETH_PAD_SIZE] is 2, so the destination is behind two
    bytes of padding. *)
Definition ethernet_input w (p nif : Z) : option (world X * Z) :=
  let free w := match wfree custom_free fuel w p with None => None | Some w => Some (w, ERR_OK) end in
  let proterr w := stats_inc S_etharp F_drop (stats_inc S_etharp F_proterr w) in
  let lenerr w := stats_inc S_etharp F_drop (stats_inc S_etharp F_lenerr w) in
  if pb_len (pb (w_ps w) p) <=? SIZEOF_ETH_HDR then free (proterr w)
  else
    let ethhdr := payload w p in
    let type := ld16 (wmem w) (ethhdr + 14) in
    let flag := ll_flag (bytes_at (wmem w) (ethhdr + 2) 6) in
    let w := set_wps w (upd_pb (w_ps w) p (fun x => with_flags x (Z.lor (pb_flags x) flag))) in
    let has_arp := negb (Z.land (netif_flags (netif_of w nif)) NETIF_FLAG_ETHARP =? 0) in
    let skip (short : world X -> world X) (k : world X -> option (world X * Z)) :=
      if negb has_arp then free w
      else if pb_len (pb (w_ps w) p) <? SIZEOF_ETH_HDR then free (short w)
      else
        let '(st, e) := pbuf_header (w_ps w) p (- SIZEOF_ETH_HDR) in
        if negb (e =? 0) then free (short (set_wps w st)) else k (set_wps w st) in
    if type =? PP_HTONS ETHTYPE_IP then
      skip (fun w => w) (fun w => match ip4_input w p nif with None => None | Some (w, _) => Some (w, ERR_OK) end)
    else if type =? PP_HTONS ETHTYPE_ARP then
      skip lenerr (fun w => match etharp_input w p nif with None => None | Some w => Some (w, ERR_OK) end)
    else free (proterr w).

End Ip4Input.

(** ** Which packets are for us *)

Section Verdict.
Context {X : Type} (igmp_lookfor_group : world X -> Z -> Z -> bool).
Implicit Types w : world X.

(** An interface that is up and configured, and is the destination or on the network
    whose broadcast address is the destination. *)
Definition addressed (n : netif) (dest : Z) : Prop :=
  netif_is_up n = true /\ netif_ip_addr n <> IPADDR_ANY /\ (dest = netif_ip_addr n \/ ip4_addr_isbroadcast_u32 dest n <> 0).

(** The interface [nif] takes a packet to [dest] that arrived at [inp]: a group that
    [inp] is a member of; an address of [inp]; or an address of the first other interface
    of the list that has it, unless it is a loopback address. *)
Definition takes w (inp dest nif : Z) : Prop :=
  if ip4_addr_ismulticast dest
  then nif = inp /\ Z.land (netif_flags (netif_of w inp)) NETIF_FLAG_IGMP <> 0 /\ igmp_lookfor_group w inp dest = true
  else
    (nif = inp /\ addressed (netif_of w inp) dest) \/
    (~ addressed (netif_of w inp) dest /\ ip4_addr_isloopback dest = false /\
     exists l1 l2, netif_list (w_netifs w) = l1 ++ nif :: l2 /\ nif <> inp /\ addressed (netif_of w nif) dest /\
       Forall (fun y => y = inp \/ ~ addressed (netif_of w y) dest) l1).

Lemma netif_accepts_spec n dest : netif_accepts n dest = true <-> addressed n dest.
Proof.
  unfold netif_accepts, addressed, ip4_addr_isany, netif_isbroadcast.
  rewrite !andb_true_iff, orb_true_iff, !negb_true_iff, Z.eqb_eq, !Z.eqb_neq. tauto.
Qed.

Lemma netif_accepts_false n dest : netif_accepts n dest = false <-> ~ addressed n dest.
Proof. rewrite <- netif_accepts_spec. by destruct (netif_accepts n dest). Qed.

Lemma match_netif_spec w inp src dest :
  match (match_netif igmp_lookfor_group w inp src dest).1 with
  | Some nif => takes w inp dest nif
  | None => forall nif, ~ takes w inp dest nif
  end.
Proof.
  unfold match_netif, takes. destruct (ip4_addr_ismulticast dest).
  - destruct (Z.eqb_spec (Z.land (netif_flags (netif_of w inp)) NETIF_FLAG_IGMP) 0) as [E|E]; simpl.
    + intros nif (_ & H & _). done.
    + destruct (igmp_lookfor_group w inp dest) eqn:Eg; simpl; [done|]. by intros nif (_ & _ & H).
  - destruct (netif_accepts (netif_of w inp) dest) eqn:Ea; simpl.
    { left. split; [done|]. by apply netif_accepts_spec. }
    apply netif_accepts_false in Ea. destruct (ip4_addr_isloopback dest) eqn:El; simpl.
    { intros nif [[_ H] | (_ & H & _)]; done. }
    unfold find_netif.
    pose proof (find_first (fun x => negb (x =? inp) && netif_accepts (netif_of w x) dest)
                  (fun x => x <> inp /\ addressed (netif_of w x) dest) (netif_list (w_netifs w))) as Hf.
    destruct (List.find _ _) as [nif|]; (lapply Hf; [clear Hf; intros Hf|
      intros x; by rewrite andb_true_iff, negb_true_iff, Z.eqb_neq, netif_accepts_spec]).
    + destruct Hf as (l1 & l2 & Hl & [Hn Ha] & Hfa). right. split; [done|]. split; [done|]. exists l1, l2.
      split; [done|]. split; [done|]. split; [done|]. eapply Forall_impl; [exact Hfa|]. intros y Hy.
      destruct (Z.eq_dec y inp); [by left|right]. intros Hya. by apply Hy.
    + intros nif [[_ H] | (_ & _ & l1 & l2 & Hl & Hn & Ha & _)]; [done|]. rewrite Hl in Hf.
      apply Forall_app in Hf as [_ Hf]. inversion Hf as [|? ? H _]; subst. by apply H.
Qed.

End Verdict.

(** ** Delivery and drops *)

Section Input.
Context {X : Type} (out : world X -> Z -> Z -> Z -> option (world X * Z)).
Context (custom_free : pstate -> Z -> pstate) (fuel : nat).
Context (recv : Z -> world X -> Z -> Z -> Z -> Z -> Z -> option (world X)).
Context (lookfor : world X -> Z -> Z -> bool) (igmp_in : world X -> Z -> Z -> Z -> option (world X))
  (tcp_in : world X -> Z -> Z -> option (world X)).
Implicit Types w : world X.

(** The header length and total length fields of the packet [p]. *)
Definition hdr_hlen w (p : Z) : Z := IPH_HL (wmem w) (payload w p) * 4.
Definition hdr_len w (p : Z) : Z := lwip_htons (IPH_LEN (wmem w) (payload w p)).

(** [st] is the state after the padding behind the packet was cut off. *)
Definition trimmed w (p : Z) (st : pstate) : Prop :=
  (if hdr_len w p <? pb_tot_len (pb (w_ps w) p) then pbuf_realloc custom_free fuel (w_ps w) p (hdr_len w p)
   else Some (w_ps w)) = Some st /\ data st = data (w_ps w) /\ pb_payload (pb st p) = pb_payload (pb (w_ps w) p).

(** The header makes sense: version 4, and the lengths fit the packet. *)
Definition header_ok w (p : Z) (st : pstate) : Prop :=
  IPH_V (wmem w) (payload w p) = 4 /\ 20 <= hdr_hlen w p <= pb_len (pb st p) /\ hdr_len w p <= pb_tot_len (pb st p).

(** A source address that no packet can have: a broadcast address of the network it came
    from, or a group. *)
Definition bad_source w (inp src : Z) : Prop :=
  src <> IPADDR_ANY /\ (ip4_addr_isbroadcast_u32 src (netif_of w inp) <> 0 \/ ip4_addr_ismulticast src = true).

(** A message to the DHCP client, which is accepted for any destination. *)
Definition dhcp_message w (p : Z) : Prop :=
  IPH_PROTO (wmem w) (payload w p) = IP_PROTO_UDP /\
  ld16 (wmem w) (payload w p + hdr_hlen w p + 2) = PP_HTONS DHCP_CLIENT_PORT.

Definition fragment w (p : Z) : Prop :=
  Z.land (IPH_OFFSET (wmem w) (payload w p)) (PP_HTONS (Z.lor IP_OFFMASK IP_MF)) <> 0.

(** The state behind the checks: the packet is trimmed and its addresses are current. *)
Definition with_current w (p : Z) (st : pstate) : world X :=
  let d := ip_data w in
  set_ip_data (set_wps (stats_inc S_ip F_recv w) st)
    (mk_ipg (current_netif d) (current_input_netif d) (current_ip4_header d) (current_ip_header_tot_len d)
       (IPH_SRC (wmem w) (payload w p)) (IPH_DEST (wmem w) (payload w p))).

Lemma hdr_hlen_range w p : mem_ok (wmem w) -> 0 <= hdr_hlen w p <= 60.
Proof.
  intros Hm. unfold hdr_hlen, IPH_HL. change 0x0f with (Z.ones 4). rewrite Z.land_ones by lia. dm.
Qed.

(** [ip4_input] on a header that makes sense. *)
Lemma input_accept w p inp st :
  mem_ok (wmem w) -> trimmed w p st -> header_ok w p st ->
  ip4_input out custom_free fuel recv lookfor igmp_in tcp_in w p inp =
  ip4_accept out custom_free fuel recv lookfor igmp_in tcp_in (set_wps (stats_inc S_ip F_recv w) st) p inp
    (payload w p) (hdr_hlen w p).
Proof.
  intros Hm (Ht & _) (Hv & Hh & Hl). pose proof (hdr_hlen_range w p Hm) as Hr. unfold ip4_input.
  change (payload (stats_inc S_ip F_recv w) p) with (payload w p).
  change (wmem (stats_inc S_ip F_recv w)) with (wmem w). change (w_ps (stats_inc S_ip F_recv w)) with (w_ps w).
  rewrite Hv. cbn [Z.eqb Pos.eqb negb]. fold (hdr_len w p) (hdr_hlen w p). cbv zeta. rewrite Ht, u16_small by lia.
  change (w_ps (set_wps (stats_inc S_ip F_recv w) st)) with st. change IP_HLEN with 20.
  rewrite !(proj2 (Z.ltb_ge _ _)) by lia. done.
Qed.

(** States that differ in the counters and in the current packet only. *)
Definition same_but_counts w w' : Prop :=
  w_ext w' = w_ext w /\ w_ps w' = w_ps w /\ w_netifs w' = w_netifs w /\ ip_id w' = ip_id w /\
  ip4_default_multicast_netif w' = ip4_default_multicast_netif w /\ reassdatagrams w' = reassdatagrams w /\
  ip_reass_pbufcount w' = ip_reass_pbufcount w /\ udp_pcbs w' = udp_pcbs w /\ udp_pcb_at w' = udp_pcb_at w /\
  udp_port w' = udp_port w.

(** The packet is freed, something is counted, and nothing else happens. *)
Definition drops w (st : pstate) (p : Z) (r : option (world X * Z)) : Prop :=
  exists w1, same_but_counts (set_wps w st) w1 /\
    match wfree custom_free fuel w1 p with
    | None => r = None
    | Some w2 => exists w3, same_but_counts w2 w3 /\ r = Some (w3, ERR_OK)
    end.

Lemma source_test (c : bool) w inp src :
  c && negb (ip4_addr_isany src) && (netif_isbroadcast src (netif_of w inp) || ip4_addr_ismulticast src) = true <->
  c = true /\ bad_source w inp src.
Proof.
  unfold bad_source, ip4_addr_isany, netif_isbroadcast.
  rewrite !andb_true_iff, orb_true_iff, !negb_true_iff, !Z.eqb_neq. tauto.
Qed.

(** The state behind the checks is freed. *)
Lemma drops_current w p st (f g : world X -> world X) r :
  (forall w, same_but_counts w (f w)) -> (forall w, same_but_counts w (g w)) ->
  r = match wfree custom_free fuel (f (with_current w p st)) p with None => None | Some w2 => Some (g w2, ERR_OK) end ->
  drops w st p r.
Proof.
  intros Hf Hg ->. exists (f (with_current w p st)). split; [apply (Hf (with_current w p st))|].
  destruct (wfree _ _ _ _) as [w2|]; [|done]. by exists (g w2).
Qed.

(** What is decided behind the checks of the header. *)
Lemma accept_verdict w p inp st :
  mem_ok (wmem w) -> trimmed w p st -> header_ok w p st ->
  let w1 := with_current w p st in
  let src := IPH_SRC (wmem w) (payload w p) in
  let dest := IPH_DEST (wmem w) (payload w p) in
  let r := ip4_input out custom_free fuel recv lookfor igmp_in tcp_in w p inp in
  let taken_by nif := takes lookfor w1 inp dest nif in
  (exists nif, ((taken_by nif /\ ~ bad_source w inp src) \/ ((forall n, ~ taken_by n) /\ dhcp_message w p /\ nif = inp)) /\
     r = (if decide (fragment w p) then
            match ip4_reass out custom_free fuel w1 p with
            | None => None
            | Some (w2, q) => if q =? NULL then Some (w2, ERR_OK)
                              else ip4_upper out custom_free fuel recv igmp_in tcp_in w2 q inp nif (hdr_hlen w p)
            end
          else ip4_upper out custom_free fuel recv igmp_in tcp_in w1 p inp nif (hdr_hlen w p))) \/
  (((exists nif, taken_by nif) /\ bad_source w inp src \/ (forall n, ~ taken_by n) /\ ~ dhcp_message w p) /\ drops w st p r).
Proof.
  intros Hm Ht Hk w1 src dest r taken_by. unfold r. rewrite (input_accept w p inp st) by done.
  destruct Ht as (_ & Hd & Hpay). unfold ip4_accept.
  change (wmem (set_wps (stats_inc S_ip F_recv w) st)) with (data st). rewrite Hd. fold (wmem w). fold src dest.
  set (w1' := set_ip_data _ _). change w1' with w1. change (wmem w1) with (data st). rewrite Hd. fold (wmem w).
  pose proof (match_netif_spec lookfor w1 inp src dest) as Hs. fold (taken_by) in Hs.
  assert (Hc : (match_netif lookfor w1 inp src dest).2 = false -> src = IPADDR_ANY).
  { unfold match_netif. destruct (ip4_addr_ismulticast dest).
    - destruct (_ && lookfor _ _ _); [|done]. simpl. rewrite negb_false_iff, andb_true_iff.
      intros [_ H]. by apply Z.eqb_eq.
    - destruct (netif_accepts _ _); [done|]. by destruct (ip4_addr_isloopback _). }
  destruct (match_netif lookfor w1 inp src dest) as [m c]. cbn [fst snd] in Hs, Hc.
  assert (Hgo : forall nif, (if negb (Z.land (IPH_OFFSET (wmem w) (payload w p)) (PP_HTONS (Z.lor IP_OFFMASK IP_MF)) =? 0)
     then match ip4_reass out custom_free fuel w1 p with
          | Some (w2, q) => if q =? NULL then Some (w2, ERR_OK)
                            else ip4_upper out custom_free fuel recv igmp_in tcp_in w2 q inp nif (hdr_hlen w p)
          | None => None
          end
     else ip4_upper out custom_free fuel recv igmp_in tcp_in w1 p inp nif (hdr_hlen w p)) =
    (if decide (fragment w p) then
       match ip4_reass out custom_free fuel w1 p with
       | None => None
       | Some (w2, q) => if q =? NULL then Some (w2, ERR_OK)
                         else ip4_upper out custom_free fuel recv igmp_in tcp_in w2 q inp nif (hdr_hlen w p)
       end
     else ip4_upper out custom_free fuel recv igmp_in tcp_in w1 p inp nif (hdr_hlen w p))).
  { intros nif. unfold fragment. destruct (Z.eqb_spec (Z.land (IPH_OFFSET (wmem w) (payload w p)) (PP_HTONS (Z.lor IP_OFFMASK IP_MF))) 0)
      as [E|E]; simpl; [by rewrite decide_False by (intros H; by apply H)|by rewrite decide_True]. }
  assert (Hid : forall w, same_but_counts w w) by by repeat split.
  assert (Hst : forall w, same_but_counts w (stats_inc S_ip F_drop w)) by by repeat split.
  change (netif_of w1 inp) with (netif_of w inp). destruct m as [nif|]; cbn [accept_dhcp].
  - destruct (c && _ && _) eqn:Et.
    + right. apply source_test in Et as [_ Et]. split; [left; eauto|].
      by apply (drops_current w p st (fun w => w) (stats_inc S_ip F_drop)).
    + left. exists nif. split; [left|apply Hgo]. split; [done|]. intros Hb. destruct c; [|by destruct Hb as [Hb _]; apply Hb, Hc].
      assert (Ht : true = true /\ bad_source w inp src) by done. apply source_test in Ht. congruence.
  - destruct (_ && (ld16 _ _ =? _)) eqn:Edh.
    + left. exists inp. split; [right|apply Hgo]. zb. by repeat split.
    + assert (Hnd : ~ dhcp_message w p).
      { intros [E1 E2]. unfold hdr_hlen in Edh. rewrite E1, Z.eqb_refl in Edh. unfold hdr_hlen in E2. by rewrite E2, Z.eqb_refl in Edh. }
      right. split; [by right|]. destruct (c && _ && _).
      * by apply (drops_current w p st (fun w => w) (stats_inc S_ip F_drop)).
      * by apply (drops_current w p st (stats_inc S_ip F_drop) (fun w => w)).
Qed.

Lemma bad_header_verdict w p inp st :
  mem_ok (wmem w) -> trimmed w p st -> ~ header_ok w p st ->
  exists st', (st' = st \/ st' = w_ps w) /\
    drops w st' p (ip4_input out custom_free fuel recv lookfor igmp_in tcp_in w p inp).
Proof.
  intros Hm (Ht & _) Hk. pose proof (hdr_hlen_range w p Hm) as Hr. unfold ip4_input.
  change (payload (stats_inc S_ip F_recv w) p) with (payload w p).
  change (wmem (stats_inc S_ip F_recv w)) with (wmem w). change (w_ps (stats_inc S_ip F_recv w)) with (w_ps w).
  assert (Hdrop : forall w1 st' f, same_but_counts (set_wps w st') w1 -> drops w st' p (ip_drop custom_free fuel w1 p f)).
  { intros w1 st' f Hs. exists w1. split; [done|]. unfold ip_drop. destruct (wfree _ _ _ _) as [w2|]; [|done].
    eexists. split; [|done]. by repeat split. }
  destruct (Z.eqb_spec (IPH_V (wmem w) (payload w p)) 4) as [Hv|Hv]; cbn [negb].
  - exists st. split; [by left|]. fold (hdr_len w p) (hdr_hlen w p). cbv zeta. rewrite Ht, u16_small by lia.
    change (w_ps (set_wps (stats_inc S_ip F_recv w) st)) with st.
    destruct (_ || _ || _) eqn:E; [apply Hdrop; by repeat split|]. exfalso. apply Hk. unfold IP_HLEN in E.
    apply orb_false_iff in E as [E E3]. apply orb_false_iff in E as [E1 E2]. zb. by repeat split.
  - exists (w_ps w). split; [by right|]. apply Hdrop. by repeat split.
Qed.

End Input.

(** C27: What [ip4_input] does with any packet.  It is accepted exactly when its header
    makes sense (version 4, a header of at least 20 bytes inside the first pbuf, a total
    length not beyond the packet, which is trimmed to it) and either an interface takes it
    ([takes]: the receiving interface is a member of the destination group, has the
    destination as its address or broadcast address, or the first other interface that
    is up and configured has) and its source is neither a broadcast address nor a group,
    or no interface takes it and it is a message to the DHCP client.  An accepted fragment
    goes to reassembly and on when a datagram is complete, any other accepted packet to the
    upper layer, with the addresses of its header as the current ones; a packet that is
    not accepted is freed and counted, and nothing else changes. *)
Theorem input_verdict {X} out custom_free fuel recv lookfor igmp_in tcp_in (w : world X) p inp st :
  mem_ok (wmem w) -> trimmed custom_free fuel w p st ->
  let w1 := with_current w p st in
  let src := IPH_SRC (wmem w) (payload w p) in
  let dest := IPH_DEST (wmem w) (payload w p) in
  let r := ip4_input out custom_free fuel recv lookfor igmp_in tcp_in w p inp in
  let upper w' q nif := ip4_upper out custom_free fuel recv igmp_in tcp_in w' q inp nif (hdr_hlen w p) in
  let taken_by := takes lookfor w1 inp dest in
  let accepted := header_ok w p st /\
    (((exists nif, taken_by nif) /\ ~ bad_source w inp src) \/ ((forall nif, ~ taken_by nif) /\ dhcp_message w p)) in
  (accepted /\ exists nif, (taken_by nif \/ (forall n, ~ taken_by n) /\ nif = inp) /\
     (~ fragment w p -> r = upper w1 p nif) /\
     (fragment w p -> r = match ip4_reass out custom_free fuel w1 p with
                          | None => None
                          | Some (w2, q) => if q =? NULL then Some (w2, ERR_OK) else upper w2 q nif
                          end)) \/
  (~ accepted /\ exists st', (st' = st \/ st' = w_ps w) /\ drops custom_free fuel w st' p r).
Proof.
  intros Hm Ht w1 src dest r upper taken_by accepted.
  assert (Hdec : header_ok w p st \/ ~ header_ok w p st).
  { unfold header_ok. destruct (Z.eq_dec (IPH_V (wmem w) (payload w p)) 4); [|right; tauto].
    destruct (Z_le_dec 20 (hdr_hlen w p)); [|right; lia]. destruct (Z_le_dec (hdr_hlen w p) (pb_len (pb st p))); [|right; lia].
    destruct (Z_le_dec (hdr_len w p) (pb_tot_len (pb st p))); [left; tauto|right; lia]. }
  destruct Hdec as [Hk|Hk]; [|right; split; [intros [H _]; done|by apply bad_header_verdict]].
  destruct (accept_verdict out custom_free fuel recv lookfor igmp_in tcp_in w p inp st Hm Ht Hk)
    as [(nif & Hacc & E) | [Hrej Hd]].
  - left. split; [split; [done|destruct Hacc as [[H1 H2]|(H1 & H2 & _)]; [left; eauto|by right]]|].
    exists nif. split; [destruct Hacc as [[H1 _]|(H1 & _ & H2)]; [by left|by right]|]. split; intros Hf.
    + by rewrite decide_False in E.
    + by rewrite decide_True in E.
  - right. split; [|exists st; split; [by left|exact Hd]]. intros [_ Hacc].
    destruct Hrej as [[[n Hn] Hb] | [Hn Hd']], Hacc as [[Ha Hb'] | [Ha Hb']]; try done; [by apply (Ha n)|].
    destruct Ha as [m Hm']. by apply (Hn m).
Qed.

(** ** Frames *)

Section Frame.
Context {X : Type} (out : world X -> Z -> Z -> Z -> option (world X * Z)).
Context (custom_free : pstate -> Z -> pstate) (fuel : nat).
Context (recv : Z -> world X -> Z -> Z -> Z -> Z -> Z -> option (world X)).
Context (lookfor : world X -> Z -> Z -> bool) (igmp_in : world X -> Z -> Z -> Z -> option (world X))
  (tcp_in arp_in : world X -> Z -> Z -> option (world X)).
Context (I : world X -> Prop) `{!ip_frame I} (Hout : output_keeps out I).
Context (Hudp : forall w p inp w', udp_input out custom_free fuel recv w p inp = Some w' -> I w -> I w').
Context (Htcp : forall w p inp w', tcp_in w p inp = Some w' -> I w -> I w').
Context (Higmp : forall w p inp dest w', igmp_in w p inp dest = Some w' -> I w -> I w').
Context (Harp : forall w p nif w', arp_in w p nif = Some w' -> I w -> I w').
Implicit Types w : world X.

Lemma ip4_upper_keeps w p inp nif hlen w' r :
  ip4_upper out custom_free fuel recv igmp_in tcp_in w p inp nif hlen = Some (w', r) -> I w -> I w'.
Proof.
  unfold ip4_upper. intros H Hi. cbv zeta in H. destruct (pbuf_header _ _ _) as [st e].
  destruct (ip4_dispatch _ _ _ _ _ _ _ _ _ _ _ _) as [w1|] eqn:E; [|done]. injection H as <- _.
  unfold ip_no_current. frame. unfold ip4_dispatch in E. cbv zeta in E.
  assert (Hi1 : I (ip_current w nif inp (payload w p))) by (unfold ip_current; frame).
  assert (Hi0 : I (set_wps (ip_current w nif inp (payload w p)) st)) by frame.
  destruct (_ =? IP_PROTO_UDP); [by eapply Hudp|]. destruct (_ =? IP_PROTO_TCP); [by eapply Htcp|].
  destruct (_ =? IP_PROTO_ICMP); [by eapply (icmp_input_keeps _ _ _ I Hout)|].
  destruct (_ =? IP_PROTO_IGMP); [by eapply Higmp|].
  match type of E with match ?e with _ => _ end = _ => destruct e as [w2|] eqn:E2; [|done] end.
  assert (Hi2 : I w2).
  { destruct (_ && _); [|by injection E2 as <-]. destruct (pbuf_header_force _ _ _) as [st2 e2].
    eapply (icmp_send_response_keeps _ _ _ I Hout); [exact E2|]. frame. }
  destruct (wfree _ _ _ _) as [w3|] eqn:E3; [|done]. injection E as <-. frame. by eapply (wfree_keeps _ _ I).
Qed.

Lemma ip4_input_keeps w p inp w' r :
  ip4_input out custom_free fuel recv lookfor igmp_in tcp_in w p inp = Some (w', r) -> I w -> I w'.
Proof.
  unfold ip4_input. intros H Hi. cbv zeta in H.
  assert (Hdrop : forall w0 f, I w0 -> ip_drop custom_free fuel w0 p f = Some (w', r) -> I w').
  { intros w0 f Hi0. unfold ip_drop. destruct (wfree _ _ _ _) as [w1|] eqn:E; [|done]. intros [= <- _]. frame.
    by eapply (wfree_keeps _ _ I). }
  destruct (negb _); [eapply Hdrop; [|exact H]; frame|].
  match type of H with match ?e with _ => _ end = _ => destruct e as [st|]; [|done] end.
  destruct (_ || _ || _); [eapply Hdrop; [|exact H]; frame|]. unfold ip4_accept in H. cbv zeta in H.
  destruct (accept_dhcp _ _ _ _ _) as [m c].
  destruct (_ && _ && _).
  { destruct (wfree _ _ _ _) as [w1|] eqn:E; [|done]. injection H as <- _. frame. eapply (wfree_keeps _ _ I); [exact E|]. frame. }
  destruct m as [nif|].
  2:{ destruct (wfree _ _ _ _) as [w1|] eqn:E; [|done]. injection H as <- _. eapply (wfree_keeps _ _ I); [exact E|]. frame. }
  destruct (negb _); [|eapply ip4_upper_keeps; [exact H|]; frame].
  destruct (ip4_reass _ _ _ _ _) as [[w1 q]|] eqn:E; [|done]. apply (ip4_reass_keeps _ _ _ I Hout) in E; [|frame].
  destruct (q =? NULL); [by injection H as <- _|]. by eapply ip4_upper_keeps.
Qed.

Lemma ethernet_input_keeps w p nif w' r :
  ethernet_input out custom_free fuel recv lookfor igmp_in tcp_in arp_in w p nif = Some (w', r) -> I w -> I w'.
Proof.
  unfold ethernet_input. intros H Hi. cbv zeta in H.
  assert (Hfree : forall w0, I w0 -> match wfree custom_free fuel w0 p with None => None | Some w => Some (w, ERR_OK) end = Some (w', r) -> I w').
  { intros w0 Hi0. clear H. destruct (wfree custom_free fuel w0 p) as [w1|] eqn:E; [|done]. intros [= <- _]. by eapply (wfree_keeps _ _ I). }
  destruct (_ <=? _); [eapply Hfree; [|exact H]; frame|].
  destruct (_ =? PP_HTONS ETHTYPE_IP); [|destruct (_ =? PP_HTONS ETHTYPE_ARP); [|eapply Hfree; [|exact H]; frame]].
  all: destruct (negb (negb _)); [eapply Hfree; [|exact H]; frame|].
  all: destruct (_ <? SIZEOF_ETH_HDR); [eapply Hfree; [|exact H]; frame|].
  all: destruct (pbuf_header _ _ _) as [st e]; destruct (negb (e =? 0)); [eapply Hfree; [|exact H]; frame|].
  - destruct (ip4_input _ _ _ _ _ _ _ _ _ _) as [[w1 r1]|] eqn:E; [|done]. injection H as <- _.
    eapply ip4_input_keeps; [exact E|]. frame.
  - destruct (arp_in _ _ _) as [w1|] eqn:E; [|done]. injection H as <- _. eapply Harp; [exact E|]. frame.
Qed.

End Frame.

(** A packet with a datagram from 192.168.0.9 to 192.168.0.1. *)
Definition packet_st : pstate :=
  set_data (set_pb net_st 1000 (mk_pbuf 2000 1080 33 29 PBUF_RAM 0 1))
    (write_bytes (data net_st) 1080 (ip_header 0 33 7 64 17 0x0900a8c0 0x0100a8c0 ++ udp_header 7000 5000 13 ++ [64])).
Definition packet_world : world unit := set_wps world0 packet_st.

Lemma verdict_witness :
  let input := ip4_input sink (fun s _ => s) 9 (fun _ w _ _ _ _ _ => Some w) (fun _ _ _ => false)
                 (fun _ _ _ _ => None) (fun _ _ _ => None) in
  input packet_world 1000 4000 =
  ip4_upper sink (fun s _ => s) 9 (fun _ w _ _ _ _ _ => Some w) (fun _ _ _ _ => None) (fun _ _ _ => None)
    (with_current packet_world 1000 packet_st) 1000 4000 4000 20.
Proof.
  cbv zeta.
  destruct (input_verdict sink (fun s _ => s) 9 (fun _ w _ _ _ _ _ => Some w) (fun _ _ _ => false)
              (fun _ _ _ _ => None) (fun _ _ _ => None) packet_world 1000 4000 packet_st) as [(_ & nif & Hn & H & _) | [H _]].
  - apply mem_ok_write; [exact net_mem_ok|vm_compute; reflexivity].
  - split; [vm_compute; reflexivity|]. split; reflexivity.
  - assert (nif = 4000) as ->.
    { destruct Hn as [Hn | [_ Hn]]; [|exact Hn]. unfold takes in Hn.
      replace (ip4_addr_ismulticast _) with false in Hn by (vm_compute; reflexivity).
      destruct Hn as [[Hn _] | (Hn & _)]; [exact Hn|]. exfalso. apply Hn. split; [reflexivity|].
      split; [vm_compute; congruence|]. left. vm_compute. reflexivity. }
    etransitivity; [apply H; intros Hf; apply Hf; vm_compute; reflexivity|]. reflexivity.
  - exfalso. apply H. split; [repeat split; vm_compute; congruence|]. left. split.
    + exists 4000. unfold takes. replace (ip4_addr_ismulticast _) with false by (vm_compute; reflexivity).
      left. split; [reflexivity|]. split; [reflexivity|]. split; [vm_compute; congruence|]. left. vm_compute. reflexivity.
    + intros [_ [Hb|Hb]]; vm_compute in Hb; congruence.
Defined.
