(* ===== verification/Stack.v ===== *)
(** * The layers together

    Ethernet, ARP, IPv4, ICMP and UDP composed the way [netif_add] composes them: the
    interface's [output] is [etharp_output], and [ethernet_input] is its [input].  The
    state of ARP is a part of the external state of the IP layer; what is above it (the
    state of TCP, IGMP and the application) stays a parameter. *)

From Stdlib Require Import ZArith Lia.
From stdpp Require Import base tactics numbers list option gmap.
From S2P Require Import Prelude.
From S2P Require Import Def.
From S2P Require Import Ip4Addr.
From S2P Require Import Alloc.
From S2P Require Import Mem.
From S2P Require Import Memp.
From S2P Require Import Pbuf.
From S2P Require Import PbufChain.
From S2P Require Import Etharp.
From S2P Require Import World.
From S2P Require Import Ip4Frag.
From S2P Require Import Ip4.
From S2P Require Import Icmp.
From S2P Require Import Ip4Reass.
From S2P Require Import Udp.
From S2P Require Import Ip4Input.

(** ** The state of ARP inside the state of the IP layer *)

Record arp_part := mk_ap { ap_table : list etharp_entry; ap_cached : nat }.

(** Where a counter of ARP is in [lwip_stats]. *)
Definition arp_key (c : counter) : sproto * sfield :=
  match c with
  | s_recv => (S_etharp, F_recv) | s_xmit => (S_etharp, F_xmit) | s_drop => (S_etharp, F_drop)
  | s_proterr => (S_etharp, F_proterr) | s_memerr => (S_etharp, F_memerr) | s_err => (S_etharp, F_err)
  | s_cachehit => (S_etharp, F_cachehit) | s_link_lenerr => (S_link, F_lenerr)
  end.
Definition arp_counter (p : sproto) (f : sfield) : option counter :=
  List.find (fun c => bool_decide (arp_key c = (p, f))) [s_recv; s_xmit; s_drop; s_proterr; s_memerr; s_err; s_cachehit; s_link_lenerr].

(** ** UDP leaves the interfaces alone *)

Lemma udp_bind_netifs {X} (w : world X) pcb ip port w' r : udp_bind w pcb ip port = Some (w', r) -> w_netifs w' = w_netifs w.
Proof.
  unfold udp_bind. cbv zeta. destruct (pcb =? NULL); [by intros [= <- _]|]. destruct (port =? 0).
  - destruct (udp_new_port w) as [[w1 q]|] eqn:E; [|done].
    assert (E1 : w_netifs w1 = w_netifs w).
    { unfold udp_new_port in E. refine (loop_keeps _ (fun s => w_netifs s.1 = w_netifs w) (fun r => w_netifs r.1 = w_netifs w) _ _ _ _ E eq_refl).
      clear. intros [w1 n] H. unfold new_port_step. cbv zeta. destruct (existsb _ _); [destruct (_ <? _)|]; exact H. }
    destruct (q =? 0); [by intros [= <- _]|]. rewrite <- E1. destruct (existsb _ _); by intros [= <- _].
  - destruct (existsb (fun _ => _) _); [by intros [= <- _]|]. destruct (existsb _ _); by intros [= <- _].
Qed.

Lemma udp_connect_ext {X} (w : world X) pcb ip port w' r : udp_connect w pcb ip port = Some (w', r) -> w_ext w' = w_ext w /\ w_netifs w' = w_netifs w.
Proof.
  unfold udp_connect. destruct ip as [a|]; [|by intros [= <- _]]. destruct (pcb =? NULL); [by intros [= <- _]|].
  destruct (if u_local_port (udp_at w pcb) =? 0 then _ else _) as [[w1 e]|] eqn:E; [|done].
  assert (H1 : w_ext w1 = w_ext w /\ w_netifs w1 = w_netifs w).
  { destruct (_ =? 0); [|by injection E as <- _]. split; [by eapply udp_bind_ext|by eapply udp_bind_netifs]. }
  destruct (negb _); [by intros [= <- _]|]. destruct (existsb _ _); by intros [= <- _].
Qed.

Section Stack.
(** The state above the IP layer. *)
Context {Y : Type}.
Context (custom_free : pstate -> Z -> pstate) (fuel : nat).
Context (linkoutput : Z -> pstate -> Z -> pstate * Z) (dhcp_arp_reply : Z -> Z -> estate -> estate).
Context (udp_recv_fn : Z -> world (arp_part * Y) -> Z -> Z -> Z -> Z -> Z -> option (world (arp_part * Y))).
Context (igmp_lookfor_group : world (arp_part * Y) -> Z -> Z -> bool) (igmp_input : world (arp_part * Y) -> Z -> Z -> Z -> option (world (arp_part * Y)))
  (tcp_input : world (arp_part * Y) -> Z -> Z -> option (world (arp_part * Y))).
Implicit Types w : world (arp_part * Y).

(** The state that the functions of [Etharp] work on, and its return. *)
Definition es_of w : estate :=
  mk_es (ap_table (w_ext w).1) (ap_cached (w_ext w).1) (w_ps w) (fun c => lwip_stats w (arp_key c).1 (arp_key c).2).
Definition put_es w (es : estate) : world (arp_part * Y) :=
  mk_world (mk_ap (arp_table es) (etharp_cached_entry es), (w_ext w).2) (packets es) (w_netifs w) (ip_id w)
    (ip4_default_multicast_netif w) (ip_data w) (reassdatagrams w) (ip_reass_pbufcount w) (udp_pcbs w) (udp_pcb_at w)
    (udp_port w) (fun p f => match arp_counter p f with Some c => counters es c | None => lwip_stats w p f end).

Definition ops : pbuf_ops := pbuf_ops_of custom_free fuel.

(** [netif->output] is [etharp_output]. *)
Definition eth_output w (nif p dest : Z) : option (world (arp_part * Y) * Z) :=
  match etharp_output ops (netif_of w) linkoutput fuel (es_of w) nif p dest with
  | None => None
  | Some (es, r) => Some (put_es w es, r)
  end.
Definition arp_input w (p nif : Z) : option (world (arp_part * Y)) :=
  Some (put_es w (etharp_input ops (netif_of w) linkoutput dhcp_arp_reply (es_of w) p nif)).
Definition arp_timer w : world (arp_part * Y) := put_es w (etharp_tmr ops (netif_of w) linkoutput (es_of w)).

(** [netif->input] is [ethernet_input]. *)
Definition stack_input w (p nif : Z) : option (world (arp_part * Y) * Z) :=
  ethernet_input eth_output custom_free fuel udp_recv_fn igmp_lookfor_group igmp_input tcp_input arp_input w p nif.

(** ** The counters are kept in one place *)

Lemma arp_key_counter c : arp_counter (arp_key c).1 (arp_key c).2 = Some c.
Proof. by destruct c. Qed.

Lemma es_of_put w es : es_of (put_es w es) = mk_es (arp_table es) (etharp_cached_entry es) (packets es) (counters (es_of (put_es w es))) /\
  forall c, counters (es_of (put_es w es)) c = counters es c.
Proof. split; [done|]. intros c. simpl. by rewrite arp_key_counter. Qed.

(** ** The invariants together *)

Definition stack_inv w : Prop := udp_inv w /\ arp_inv (es_of w).

#[local] Instance stack_keeps : udp_keeps stack_inv.
Proof.
  apply and_keeps; [apply _|]. pose proof (ext_keeps (X := arp_part * Y)
    (fun x => arp_inv (mk_es (ap_table x.1) (ap_cached x.1) (mk_ps ∅ (fun _ => 0) heap0 [] 0) (fun _ => 0)))) as H.
  assert (He : forall w, arp_inv (es_of w) <-> arp_inv (mk_es (ap_table (w_ext w).1) (ap_cached (w_ext w).1) (mk_ps ∅ (fun _ => 0) heap0 [] 0) (fun _ => 0)))
    by (intros w; split; by apply arp_inv_ext).
  constructor.
  - constructor; intros w **; apply He, H, He; done.
  - intros w l HP Hi. by apply He, (keeps_perm (udp_keeps := H)), He.
  - intros w pcb w' r Hb Hn Hp Hi. apply He. eapply (keeps_bind (udp_keeps := H)); [exact Hb|done|done|]. by apply He.
Qed.

Lemma put_es_udp w es : udp_inv w -> udp_inv (put_es w es).
Proof. intros Hu. apply (udp_inv_ext w); [done|done|by apply (ui_port w)|done]. Qed.

Lemma put_es_inv w es : udp_inv w -> arp_inv es -> stack_inv (put_es w es).
Proof. intros Hu Ha. split; [by apply put_es_udp|by apply (arp_inv_ext es)]. Qed.

Lemma eth_output_keeps : output_keeps eth_output stack_inv.
Proof.
  intros w nif p dest w' r H [Hu Ha]. unfold eth_output in H.
  destruct (etharp_output _ _ _ _ _ _ _ _) as [[es e]|] eqn:E; [|done]. injection H as <- _.
  apply put_es_inv; [done|]. by eapply output_inv.
Qed.

(** What is above and beside the stack keeps the invariants. *)
Context (Hrecv : forall f w arg pcb p addr port w', udp_recv_fn f w arg pcb p addr port = Some w' -> stack_inv w -> stack_inv w').
Context (Htcp : forall w p inp w', tcp_input w p inp = Some w' -> stack_inv w -> stack_inv w').
Context (Higmp : forall w p inp dest w', igmp_input w p inp dest = Some w' -> stack_inv w -> stack_inv w').
Context (Hdhcp : forall nif ip es, arp_inv es -> arp_inv (dhcp_arp_reply nif ip es)).

(** The events: a frame arrives, a timer fires, the application calls. *)
Inductive stack_step : world (arp_part * Y) -> world (arp_part * Y) -> Prop :=
| stack_frame w p nif w' r : stack_input w p nif = Some (w', r) -> stack_step w w'
| stack_arp_tmr w : stack_step w (arp_timer w)
| stack_reass_tmr w w' : ip_reass_tmr eth_output custom_free fuel w = Some w' -> stack_step w w'
| stack_ip_output w p src dest ttl tos proto w' r :
    ip4_output eth_output custom_free fuel w p src dest ttl tos proto = Some (w', r) -> stack_step w w'
| stack_udp_new w : (udp_new w).2 = NULL \/ udp_pcb_at w !! (udp_new w).2 = None -> stack_step w (udp_new w).1
| stack_udp_bind w pcb ip port w' r :
    is_Some (udp_pcb_at w !! pcb) -> 0 <= port < 65536 -> udp_bind w pcb ip port = Some (w', r) -> stack_step w w'
| stack_udp_connect w pcb ip port w' r :
    is_Some (udp_pcb_at w !! pcb) -> udp_connect w pcb ip port = Some (w', r) -> stack_step w w'
| stack_udp_disconnect w pcb : is_Some (udp_pcb_at w !! pcb) -> stack_step w (udp_disconnect w pcb)
| stack_udp_recv w pcb f arg : is_Some (udp_pcb_at w !! pcb) -> stack_step w (udp_recv w pcb f arg)
| stack_udp_remove w pcb : stack_step w (udp_remove w pcb)
| stack_udp_sendto w pcb p dst port w' r :
    is_Some (udp_pcb_at w !! pcb) -> udp_sendto eth_output custom_free fuel w pcb p dst port = Some (w', r) -> stack_step w w'.

Lemma same_arp w w' : w_ext w' = w_ext w -> arp_inv (es_of w) -> arp_inv (es_of w').
Proof. intros E. apply arp_inv_ext; unfold es_of; by rewrite E. Qed.

Lemma stack_step_inv w w' : stack_step w w' -> stack_inv w -> stack_inv w'.
Proof.
  intros Hs Hi. destruct Hs as [w p nif w' r H|w|w w' H|w p src dest ttl tos proto w' r H|w H|w pcb ip port w' r H1 H2 H3|w pcb ip port w' r H1 H2|w pcb H|w pcb f arg H|w pcb|w pcb p dst port w' r H1 H2].
  - refine (ethernet_input_keeps eth_output custom_free fuel udp_recv_fn igmp_lookfor_group igmp_input tcp_input arp_input
      stack_inv eth_output_keeps _ Htcp Higmp _ w p nif w' r H Hi).
    + intros w1 p1 inp w2. apply (udp_input_keeps _ _ _ _ stack_inv eth_output_keeps Hrecv).
    + intros w1 p1 n1 w2 [= <-] [Hu Ha]. apply put_es_inv; [done|]. by apply input_inv.
  - destruct Hi as [Hu Ha]. apply put_es_inv; [done|]. by apply tmr_correct.
  - by eapply (reass_tmr_keeps _ _ _ stack_inv eth_output_keeps).
  - unfold ip4_output in H. pose proof (ip4_route_keeps stack_inv w dest Hi) as Hr. destruct (ip4_route w dest) as [w1 nif].
    simpl in Hr. destruct (nif =? NULL); [injection H as <- _; by frame|].
    by eapply (ip4_output_if_keeps _ _ _ stack_inv eth_output_keeps).
  - destruct Hi as [Hu Ha]. split; [by apply udp_new_inv|]. apply (same_arp w); [|done].
    unfold udp_new. destruct (memp_malloc _ _). cbv zeta. by destruct (negb _).
  - destruct Hi as [Hu Ha]. split; [|apply (same_arp w); [by eapply udp_bind_ext|done]].
    destruct (udp_bind_inv w pcb ip port Hu H1 H2) as (w1 & r1 & Hb & Hi1 & _). rewrite Hb in H3. by injection H3 as <- _.
  - destruct Hi as [Hu Ha]. split; [by eapply udp_connect_inv|]. apply (same_arp w); [by eapply udp_connect_ext in H2 as [? _]|done].
  - destruct Hi as [Hu Ha]. split; [by apply upd_udp_inv|by apply (same_arp w)].
  - destruct Hi as [Hu Ha]. split; [by apply upd_udp_inv|by apply (same_arp w)].
  - destruct Hi as [Hu Ha]. split; [by apply udp_remove_inv|by apply (same_arp w)].
  - by eapply (udp_sendto_keeps _ _ _ stack_inv eth_output_keeps).
Qed.

End Stack.

(** ** A datagram from the wire to the application *)

(** The fields of a UDP datagram on the wire, the ones that nobody looks at included: the
    options and both checksums (which the hardware checks) among them. *)
Record udp_packet := mk_packet {
  k_tos : Z; k_id : Z; k_flags : Z; k_ttl : Z; k_ip_sum : Z; k_src : Z; k_dst : Z; k_opts : list Z;
  k_sport : Z; k_dport : Z; k_udp_sum : Z; k_data : list Z }.

(** Not a fragment, whole words of options, and the ranges of what is read. *)
Record packet_ok (k : udp_packet) : Prop := {
  ko_flags : k_flags k ∈ [0; 0x40; 0x80; 0xc0];
  ko_opts : exists n, (n <= 10)%nat /\ length (k_opts k) = (4 * n)%nat;
  ko_src : 0 <= k_src k < 4294967296;
  ko_dst : 0 <= k_dst k < 4294967296;
  ko_sport : 0 <= k_sport k < 65536;
  ko_dport : 0 <= k_dport k < 65536
}.

Definition ip_hlen (k : udp_packet) : Z := 20 + Z.of_nat (length (k_opts k)).
Definition ip_head (k : udp_packet) (len : Z) : list Z :=
  [0x45 + Z.of_nat (length (k_opts k)) / 4; k_tos k] ++ be16 len ++ be16 (k_id k) ++ [k_flags k; 0; k_ttl k; IP_PROTO_UDP] ++
  be16 (k_ip_sum k) ++ u32_bytes (k_src k) ++ u32_bytes (k_dst k) ++ k_opts k.
Definition udp_head (k : udp_packet) (len : Z) : list Z := be16 (k_sport k) ++ be16 (k_dport k) ++ be16 len ++ be16 (k_udp_sum k).
Definition datagram (k : udp_packet) : list Z :=
  let n := Z.of_nat (length (k_data k)) in
  ip_head k (ip_hlen k + 8 + n) ++ udp_head k (n + 8) ++ k_data k.

(** The bytes of a frame in front of the packet, the two of padding included. *)
Definition eth_header (pad : Z * Z) (dst src : eth_addr) : list Z := [pad.1; pad.2] ++ dst ++ src ++ [8; 0].

Lemma length_ip_head k len : Z.of_nat (length (ip_head k len)) = ip_hlen k.
Proof. unfold ip_head, ip_hlen, be16, u32_bytes. simpl. lia. Qed.
Lemma length_udp_head k len : length (udp_head k len) = 8%nat.
Proof. done. Qed.

(** What [ip4_input] reads in the header. *)
Lemma ip_head_fields m a k len :
  packet_ok k -> 0 <= len < 65536 -> bytes_at m a (length (ip_head k len)) = ip_head k len ->
  IPH_V m a = 4 /\ IPH_HL m a * 4 = ip_hlen k /\ lwip_htons (IPH_LEN m a) = len /\
  Z.land (IPH_OFFSET m a) (PP_HTONS (Z.lor IP_OFFMASK IP_MF)) = 0 /\
  IPH_PROTO m a = IP_PROTO_UDP /\ IPH_SRC m a = k_src k /\ IPH_DEST m a = k_dst k.
Proof.
  intros [Hf (n & Hn & Ho) Hs Hd _ _] Hl E. set (bs := ip_head k len) in *.
  assert (Hb : (20 <= length bs)%nat) by (pose proof (length_ip_head k len); fold bs in H; unfold ip_hlen in H; lia).
  assert (H0 : m a = 0x45 + Z.of_nat n).
  { pose proof (bytes_at_nth m a bs 0 E ltac:(lia)) as H. change (Z.of_nat 0) with 0 in H. rewrite Z.add_0_r in H. rewrite H.
    unfold bs, ip_head. cbn [nth app]. rewrite Ho. dm. }
  pose proof (ld16_bytes m a bs 2 E ltac:(lia)) as E2. pose proof (ld16_bytes m a bs 6 E ltac:(lia)) as E6.
  pose proof (ld32_bytes m a bs 12 E ltac:(lia)) as E12. pose proof (ld32_bytes m a bs 16 E ltac:(lia)) as E16.
  pose proof (bytes_at_nth m a bs 9 E ltac:(lia)) as E9.
  change (a + Z.of_nat 2) with (a + 2) in E2. change (a + Z.of_nat 6) with (a + 6) in E6. change (a + Z.of_nat 9) with (a + 9) in E9.
  change (a + Z.of_nat 12) with (a + 12) in E12. change (a + Z.of_nat 16) with (a + 16) in E16.
  unfold IPH_V, IPH_HL, IPH_LEN, IPH_OFFSET, IPH_PROTO, IPH_SRC, IPH_DEST. rewrite E2, E6, E9, E12, E16, H0.
  unfold bs, ip_head, be16, u32_bytes, ip_hlen. cbn [nth app Nat.add]. rewrite htons_be16, !u32_bytes_val by done. rewrite Ho.
  split; [|split; [|split; [done|split; [|done]]]].
  - rewrite Z.shiftr_div_pow2 by lia. change (2 ^ 4) with 16. dm.
  - change 0x0f with (Z.ones 4). rewrite Z.land_ones by lia. change (2 ^ 4) with 16. dm.
  - rewrite !elem_of_cons, elem_of_nil in Hf. destruct Hf as [-> | [-> | [-> | [-> | []]]]]; reflexivity.
Qed.

Lemma udp_head_fields m a k len :
  packet_ok k -> bytes_at m a 8 = udp_head k len -> lwip_htons (ld16 m a) = k_sport k /\ lwip_htons (ld16 m (a + 2)) = k_dport k.
Proof.
  intros [_ _ _ _ Hs Hd] E. set (bs := udp_head k len) in E. change 8%nat with (length bs) in E.
  pose proof (ld16_bytes m a bs 0 E ltac:(simpl; lia)) as E0. pose proof (ld16_bytes m a bs 2 E ltac:(simpl; lia)) as E2.
  change (a + Z.of_nat 2) with (a + 2) in E2. change (Z.of_nat 0) with 0 in E0. rewrite Z.add_0_r in E0.
  rewrite E0, E2. unfold bs, udp_head, be16. cbn [nth app Nat.add]. by rewrite !htons_be16.
Qed.

(** Moving the payload pointer leaves the type of the pbuf. *)
Lemma header_keeps_type st p n st' r : pbuf_header st p n = (st', r) -> pb_type (pb st' p) = pb_type (pb st p).
Proof.
  unfold pbuf_header, pbuf_header_impl. repeat case_match; intros; simplify_eq; rewrite ?pb_upd_eq; try done.
Qed.

(** Frames that are padded to the minimum of Ethernet are in one pbuf of the pool, which
    [pbuf_realloc] cuts without an allocator. *)
Lemma realloc_pool custom_free fuel st p k n :
  strippable st p [] k -> pb_type (pb st p) = PBUF_POOL -> k <= n <= pb_len (pb st p) -> 0 <= n -> (0 < fuel)%nat ->
  exists st', pbuf_realloc custom_free fuel st p n = Some st' /\ data st' = data st /\ strippable st' p [] k /\
    pb_payload (pb st' p) = pb_payload (pb st p) /\ pb_tot_len (pb st' p) = n /\ content st' [p] = take (Z.to_nat n) (content st [p]).
Proof.
  intros [Hc Hs Hl Hf] Ht Hn H0 Hfu. pose proof Hs as (L0 & L1 & L2 & _). cbn [plen] in L1.
  destruct Hc as (_ & Hp & Hnext). cbn [pchain] in Hnext. unfold pbuf_realloc. destruct (Z.leb_spec (pb_tot_len (pb st p)) n) as [E|E].
  - exists st. split; [done|]. split; [done|]. split; [by constructor|]. split; [done|]. split; [lia|]. rewrite take_ge; [done|].
    rewrite length_content by done. cbn [plen]. lia.
  - destruct fuel as [|f]; [lia|]. cbn [loop]. rewrite (proj2 (Z.ltb_ge (pb_len (pb st p)) n)) by lia.
    rewrite bool_decide_eq_false_2 by (rewrite Ht; discriminate). cbn [andb].
    set (st1 := upd_pb (upd_pb st p _) p _). assert (E1 : pb st1 p = with_tot_len (with_len (pb st p) n) n) by (unfold st1; by rewrite !pb_upd_eq).
    rewrite E1. cbn [with_tot_len with_len pb_next]. rewrite Hnext. change (NULL =? NULL) with true. cbn [negb].
    eexists. split; [reflexivity|]. set (st2 := upd_pb st1 p _).
    assert (E2 : pb st2 p = with_next (with_tot_len (with_len (pb st p) n) n) NULL) by (unfold st2; by rewrite pb_upd_eq, E1).
    split_and!; [done| |by rewrite E2|by rewrite E2|].
    + constructor; [cbn [pchain]; rewrite E2; done|cbn [sizes plen]; rewrite E2; cbn [with_next with_tot_len with_len pb_len pb_tot_len]; lia| |].
      * rewrite E2. cbn [with_next with_tot_len with_len pb_len]. lia.
      * rewrite E2. cbn [with_next with_tot_len with_len pb_type pb_payload]. by rewrite Ht in *.
    + cbn [content]. rewrite !app_nil_r. unfold payload_bytes. rewrite E2. cbn [with_next with_tot_len with_len pb_len pb_payload].
      change (data st2) with (data st). rewrite bytes_at_take by lia. done.
Qed.

Section Delivery.
Context {X : Type} (out : world X -> Z -> Z -> Z -> option (world X * Z)).
Context (custom_free : pstate -> Z -> pstate) (fuel : nat).
Context (recv : Z -> world X -> Z -> Z -> Z -> Z -> Z -> option (world X)).
Context (lookfor : world X -> Z -> Z -> bool) (igmp_in : world X -> Z -> Z -> Z -> option (world X))
  (tcp_in arp_in : world X -> Z -> Z -> option (world X)).
Implicit Types w : world X.

(** A packet with nothing behind it, or padded in one pbuf of the pool. *)
Definition paddable (st : pstate) (p : Z) (l : list Z) (pad : list Z) : Prop :=
  pad = [] \/ (l = [] /\ pb_type (pb st p) = PBUF_POOL).

(** The padding is cut off. *)
Lemma packet_trimmed w p l k pad :
  let n := ip_hlen k + 8 + Z.of_nat (length (k_data k)) in
  strippable (w_ps w) p l (ip_hlen k + 8) -> content (w_ps w) (p :: l) = datagram k ++ pad -> paddable (w_ps w) p l pad -> (0 < fuel)%nat ->
  hdr_len w p = n ->
  exists st, trimmed custom_free fuel w p st /\ strippable st p l (ip_hlen k + 8) /\ content st (p :: l) = datagram k /\ pb_tot_len (pb st p) = n.
Proof.
  intros n Hsp Hc Hpad Hf Hn. pose proof (sp_sizes _ _ _ _ Hsp) as Hsz. pose proof (length_content _ _ Hsz) as Hlen.
  pose proof (sizes_head _ _ _ Hsz) as Htot. assert (Hd : Z.of_nat (length (datagram k)) = n).
  { unfold datagram. cbv zeta. rewrite !length_app, length_udp_head. pose proof (length_ip_head k n). fold n. lia. }
  assert (Hh : 20 <= ip_hlen k) by (unfold ip_hlen; lia). unfold trimmed. rewrite Hn.
  rewrite Hc, length_app in Hlen. assert (Hpl : plen (w_ps w) (p :: l) = n + Z.of_nat (length pad)).
  { pose proof (sizes_nonneg _ _ Hsz) as [? _]. lia. }
  destruct Hpad as [-> | [-> Ht]].
  - exists (w_ps w). rewrite Htot, Hpl. cbn [length]. rewrite (proj2 (Z.ltb_ge _ _)) by lia. rewrite app_nil_r in Hc. split_and!; try done. lia.
  - destruct (realloc_pool custom_free fuel (w_ps w) p (ip_hlen k + 8) n Hsp Ht) as (st & Hr & Hdt & Hsp2 & Hp & Htl & Hc2).
    + cbn [plen] in Hpl. unfold n in *. lia.
    + unfold n. lia.
    + done.
    + exists st. split.
      * split; [|done]. destruct (_ <? _) eqn:E; [done|]. apply Z.ltb_ge in E. unfold pbuf_realloc in Hr.
        by rewrite (proj2 (Z.leb_le _ _) E) in Hr.
      * split_and!; [done| |done]. rewrite Hc2, Hc. rewrite <- Hd, Nat2Z.id. by rewrite take_app_length.
Qed.

(** The IP layer: a datagram for this interface goes to [udp_input]. *)
Lemma datagram_to_udp w p l nif k pad :
  strippable (w_ps w) p l (ip_hlen k + 8) -> mem_ok (wmem w) -> packet_ok k -> (0 < fuel)%nat ->
  content (w_ps w) (p :: l) = datagram k ++ pad -> paddable (w_ps w) p l pad ->
  ip4_addr_ismulticast (k_dst k) = false -> addressed (netif_of w nif) (k_dst k) -> ~ bad_source w nif (k_src k) ->
  exists w', ip4_input out custom_free fuel recv lookfor igmp_in tcp_in w p nif =
      match udp_input out custom_free fuel recv w' p nif with None => None | Some w2 => Some (ip_no_current w2, ERR_OK) end /\
    strippable (w_ps w') p l 8 /\ mem_ok (wmem w') /\
    content (w_ps w') (p :: l) = udp_head k (Z.of_nat (length (k_data k)) + 8) ++ k_data k /\
    udp_pcbs w' = udp_pcbs w /\ udp_pcb_at w' = udp_pcb_at w /\ w_netifs w' = w_netifs w /\
    current_netif (ip_data w') = nif /\ current_iphdr_src (ip_data w') = k_src k /\ current_iphdr_dest (ip_data w') = k_dst k.
Proof.
  clear arp_in. intros Hsp Hm Hk Hfu Hc Hpad Hmc Had Hsrc. pose proof (sp_sizes _ _ _ _ Hsp) as Hsz.
  pose proof (length_content _ _ Hsz) as Hlen. pose proof (sizes_lt _ _ Hsz) as Hmax. pose proof (sizes_nonneg _ _ Hsz) as [Hpos _].
  set (n := Z.of_nat (length (k_data k))) in *. set (len := ip_hlen k + 8 + n). pose proof (length_ip_head k len) as Hhd.
  assert (Hh : 20 <= ip_hlen k <= 60) by (destruct Hk as [_ (j & Hj & Ho) _ _ _ _]; unfold ip_hlen; lia).
  assert (Hdg : datagram k = ip_head k len ++ udp_head k (n + 8) ++ k_data k) by done.
  assert (Hll : 0 <= len < 65536).
  { rewrite Hc, Hdg, !length_app, length_udp_head in Hlen. unfold len in *. lia. }
  assert (Hb : bytes_at (wmem w) (payload w p) (length (ip_head k len)) = ip_head k len).
  { rewrite Hdg, <- app_assoc in Hc. apply (content_front (w_ps w) p l _ _ Hc). rewrite Hhd. pose proof (sp_len _ _ _ _ Hsp). lia. }
  destruct (ip_head_fields _ _ _ _ Hk Hll Hb) as (F1 & F2 & F3 & F4 & F5 & F6 & F7).
  assert (Hhl : hdr_hlen w p = ip_hlen k) by done. assert (Hdl : hdr_len w p = len) by done.
  destruct (packet_trimmed w p l k pad Hsp Hc Hpad Hfu Hdl) as (st & Ht & Hsp1 & Hc1 & Htl). fold n len in Htl.
  assert (Hds : data st = data (w_ps w)) by apply Ht.
  assert (Hok : header_ok w p st).
  { unfold header_ok. rewrite Hhl, Hdl, Htl. pose proof (sp_len _ _ _ _ Hsp1). repeat split; [done|lia|lia|lia]. }
  destruct (accept_verdict out custom_free fuel recv lookfor igmp_in tcp_in w p nif st Hm Ht Hok)
    as [(x & Hx & E) | [Hx _]]; rewrite F6, F7 in *.
  2:{ exfalso. destruct Hx as [[_ Hx] | [Hx _]]; [done|]. apply (Hx nif). unfold takes. rewrite Hmc. left. done. }
  assert (x = nif) as ->.
  { destruct Hx as [[Hx _] | (_ & _ & Hx)]; [|done]. unfold takes in Hx. rewrite Hmc in Hx.
    destruct Hx as [[Hx _] | (Hx & _)]; done. }
  rewrite decide_False, Hhl in E by (unfold fragment; rewrite F4; intros H; by apply H). unfold ip4_upper in E.
  set (w1 := with_current w p st) in *. assert (Hpy : payload w1 p = payload w p) by apply Ht. rewrite Hpy in E.
  set (w1c := ip_current w1 nif nif (payload w p)) in E. change (w_ps w1c) with st in E.
  destruct (strip_correct st p l (ip_hlen k) 8 Hsp1 ltac:(lia) ltac:(lia)) as (st2 & Hst & Hd & Hsp2 & Hc2 & _ & _).
  assert (Es : - s16 (ip_hlen k) = - ip_hlen k) by (unfold s16; dm).
  rewrite Es, Hst in E. cbv zeta in E. set (w2 := set_wps w1c st2) in E.
  exists w2. split; [|split; [done|split; [|split]]].
  - rewrite E. unfold ip4_dispatch. change (wmem w2) with (data st2). rewrite Hd, Hds.
    change (data (w_ps w)) with (wmem w). rewrite F5. done.
  - unfold w2. change (mem_ok (data st2)). rewrite Hd, Hds. exact Hm.
  - change (w_ps w2) with st2. rewrite Hc2, Hc1, Hdg, <- Hhd, Nat2Z.id. by rewrite drop_app_length.
  - unfold w2, w1c, w1, ip_current, with_current. simpl. by rewrite F6, F7.
Qed.

(** Ethernet: a frame with an IPv4 packet goes to [ip4_input]. *)
Lemma frame_to_ip w p l nif pad dst src rest k :
  strippable (w_ps w) p l (16 + k) -> 0 < k ->
  content (w_ps w) (p :: l) = eth_header pad dst src ++ rest -> length dst = 6%nat -> length src = 6%nat ->
  Z.land (netif_flags (netif_of w nif)) NETIF_FLAG_ETHARP <> 0 ->
  exists st, ethernet_input out custom_free fuel recv lookfor igmp_in tcp_in arp_in w p nif =
      match ip4_input out custom_free fuel recv lookfor igmp_in tcp_in (set_wps w st) p nif with
      | None => None | Some (w2, _) => Some (w2, ERR_OK)
      end /\
    strippable st p l k /\ data st = data (w_ps w) /\ content st (p :: l) = rest /\ pb_type (pb st p) = pb_type (pb (w_ps w) p).
Proof.
  intros Hsp Hk Hc Hld Hls Hf. pose proof (sp_len _ _ _ _ Hsp) as Hlen.
  assert (Hl16 : length (eth_header pad dst src) = 16%nat) by (unfold eth_header; rewrite !length_app, Hld, Hls; done).
  assert (Hb : bytes_at (wmem w) (payload w p) (length (eth_header pad dst src)) = eth_header pad dst src).
  { apply (content_front (w_ps w) p l _ _ Hc). rewrite Hl16. lia. }
  assert (Hty : ld16 (wmem w) (payload w p + 14) = PP_HTONS ETHTYPE_IP).
  { pose proof (ld16_bytes _ _ _ 14 Hb ltac:(rewrite Hl16; lia)) as E. change (Z.of_nat 14) with 14 in E. rewrite E.
    unfold eth_header. destruct dst as [|d0 [|d1 [|d2 [|d3 [|d4 [|d5 [|]]]]]]]; try done.
    destruct src as [|s0 [|s1 [|s2 [|s3 [|s4 [|s5 [|]]]]]]]; try done. }
  unfold ethernet_input. change SIZEOF_ETH_HDR with 16 in *. rewrite (proj2 (Z.leb_gt _ _)) by lia. cbv zeta. rewrite Hty, Z.eqb_refl.
  set (flag := ll_flag _). set (st1 := upd_pb (w_ps w) p (fun x => with_flags x (Z.lor (pb_flags x) flag))).
  assert (Hfl : same_but_flags (w_ps w) st1) by apply (same_but_flags_upd (w_ps w) p (fun x => Z.lor (pb_flags x) flag)).
  pose proof (flags_strippable _ _ _ _ _ Hfl Hsp) as Hsp1.
  change (netif_of (set_wps w st1) nif) with (netif_of w nif). rewrite (proj2 (Z.eqb_neq _ _) Hf). cbn [negb].
  change (w_ps (set_wps w st1)) with st1. rewrite (proj2 (Z.ltb_ge (pb_len (pb st1 p)) 16)) by (pose proof (sp_len _ _ _ _ Hsp1); lia).
  destruct (strip_correct st1 p l 16 k Hsp1 ltac:(lia) ltac:(lia)) as (st & Hst & Hd & Hsp2 & Hc2 & _ & _).
  assert (Hty1 : pb_type (pb st1 p) = pb_type (pb (w_ps w) p)) by (unfold st1; by rewrite pb_upd_eq).
  assert (Hty2 : pb_type (pb st p) = pb_type (pb st1 p)) by (by apply (header_keeps_type st1 p (- (16)) st 0)).
  change (- (16)) with (-16) in *. rewrite Hst. cbn [Z.eqb negb]. exists st. split; [done|]. split; [done|].
  split; [rewrite Hd; apply Hfl|]. split; [|congruence]. rewrite Hc2, (flags_content _ _ _ Hfl), Hc.
  change (Z.to_nat 16) with 16%nat. rewrite <- Hl16. by rewrite drop_app_length.
Qed.

End Delivery.

(** C7: A UDP datagram in an Ethernet frame, with any options, any checksums, any DF bit and
    any data, and with or without the padding of short frames, goes through the checks of
    [ethernet_input], [ip4_input] and [udp_input] to the receive callback of the PCB that the
    ports and addresses of its headers select, which gets exactly the data of the datagram,
    without the padding, and the address and port of its sender; afterwards no packet is
    current.  The conditions: the headers are in the first pbuf (and all of a padded frame,
    which the driver allocates from the pool), the interface does ARP, it is up with the
    destination among its addresses (its own or a broadcast, not a group), the source is no
    broadcast or group address, the datagram is not a fragment, and a PCB with a callback
    matches. *)
Theorem frame_delivered {X} out custom_free fuel recv lookfor igmp_in tcp_in arp_in (w : world X) p l nif eth_pad dst src k pad pcb :
  strippable (w_ps w) p l (16 + (ip_hlen k + 8)) -> mem_ok (wmem w) -> packet_ok k -> (0 < fuel)%nat ->
  content (w_ps w) (p :: l) = eth_header eth_pad dst src ++ datagram k ++ pad -> paddable (w_ps w) p l pad ->
  length dst = 6%nat -> length src = 6%nat ->
  Z.land (netif_flags (netif_of w nif)) NETIF_FLAG_ETHARP <> 0 ->
  ip4_addr_ismulticast (k_dst k) = false -> addressed (netif_of w nif) (k_dst k) -> ~ bad_source w nif (k_src k) ->
  demux w (mk_dgram (netif_of w nif) (k_src k) (k_dst k) (k_sport k) (k_dport k)
             (negb (ip4_addr_isbroadcast_u32 (k_dst k) (netif_of w nif) =? 0))) = Some pcb ->
  u_recv (udp_at w pcb) <> NULL ->
  exists w', ethernet_input out custom_free fuel recv lookfor igmp_in tcp_in arp_in w p nif =
      match recv (u_recv (udp_at w pcb)) w' (u_recv_arg (udp_at w pcb)) pcb p (k_src k) (k_sport k) with
      | None => None | Some w2 => Some (ip_no_current w2, ERR_OK)
      end /\
    content (w_ps w') (p :: l) = k_data k /\ udp_pcbs w' ≡ₚ udp_pcbs w.
Proof.
  intros Hsp Hm Hk Hfu Hc Hpad Hld Hls Hf Hmc Had Hbad Hdem Hrecv. assert (Hh : 20 <= ip_hlen k) by (unfold ip_hlen; lia).
  destruct (frame_to_ip out custom_free fuel recv lookfor igmp_in tcp_in arp_in w p l nif eth_pad dst src _ _ Hsp ltac:(lia) Hc Hld Hls Hf)
    as (st & -> & Hsp2 & Hd & Hc2 & Hty).
  destruct (datagram_to_udp out custom_free fuel recv lookfor igmp_in tcp_in (set_wps w st) p l nif k pad)
    as (w2 & -> & Hsp3 & Hm2 & Hc3 & E1 & E2 & E3 & E4 & E5 & E6); auto.
  { change (mem_ok (data st)). by rewrite Hd. }
  { unfold paddable in *. change (w_ps (set_wps w st)) with st. by rewrite Hty. }
  set (n := Z.of_nat (length (k_data k)) + 8) in *. assert (Hb : bytes_at (wmem w2) (payload w2 p) 8 = udp_head k n).
  { change 8%nat with (length (udp_head k n)). apply (content_front (w_ps w2) p l _ _ Hc3). apply (sp_len _ _ _ _ Hsp3). }
  apply udp_head_fields in Hb as [G1 G2]; auto.
  assert (Hn : forall x, netif_of w2 x = netif_of w x) by (intros x; unfold netif_of; by rewrite E3).
  assert (Hg : current_dgram w2 p nif = mk_dgram (netif_of w nif) (k_src k) (k_dst k) (k_sport k) (k_dport k)
                 (negb (ip4_addr_isbroadcast_u32 (k_dst k) (netif_of w nif) =? 0))).
  { unfold current_dgram. rewrite G1, G2, E4, E5, E6, !Hn. done. }
  assert (Hat : udp_at w2 = udp_at w) by (unfold udp_at; by rewrite E2).
  destruct (udp_input_recv out custom_free fuel recv w2 p l nif pcb Hsp3) as (w3 & E & Hc4 & HP).
  { rewrite Hg, <- Hdem. unfold demux. by rewrite Hat, E1. }
  { by rewrite Hat. }
  rewrite Hg, Hat in E. cbn [g_src_ip g_src] in E.
  exists w3. rewrite E. split; [by destruct (recv _ _ _ _ _ _ _)|]. split; [|by rewrite HP, E1].
  rewrite Hc4, Hc3. change 8%nat with (length (udp_head k n)). by rewrite drop_app_length.
Qed.

(** The frame of a datagram from 192.168.0.9:7000 to 192.168.0.1:5000 with five bytes of data,
    the DF bit, an option and checksums, padded to the 60 bytes of Ethernet. *)
Definition frame_packet : udp_packet := mk_packet 0 7 0x40 64 0xb97c 0x0900a8c0 0x0100a8c0 [1; 1; 1; 0] 7000 5000 0x1234 [64; 68; 69; 70; 71].
Definition frame_bytes : list Z := eth_header (0, 0) [2; 0; 0; 0; 0; 1] [2; 0; 0; 0; 0; 9] ++ datagram frame_packet ++ replicate 9 0.
Definition frame_st : pstate :=
  set_data (set_pb net_st 1000 (mk_pbuf NULL 1060 62 62 PBUF_POOL 0 1)) (write_bytes (data net_st) 1060 frame_bytes).
Definition world5 : world unit := set_wps (udp_recv world3 pcb_b 1 2) frame_st.

Lemma frame_strippable n : n <= 62 -> strippable frame_st 1000 [] n.
Proof.
  intros Hn. constructor; [repeat split; vm_compute; congruence|repeat split; vm_compute; congruence| |vm_compute; congruence].
  change (n <= 62). done.
Qed.

Lemma frame_mem_ok : mem_ok (data frame_st).
Proof. apply mem_ok_write; [exact net_mem_ok|vm_compute; reflexivity]. Qed.

Lemma frame_witness :
  exists w', ethernet_input sink (fun s _ => s) 9 (fun _ w _ _ _ _ _ => Some w) (fun _ _ _ => false)
      (fun _ _ _ _ => None) (fun _ _ _ => None) (fun _ _ _ => None) world5 1000 4000 = Some (w', ERR_OK) /\
    content (w_ps w') [1000] = [64; 68; 69; 70; 71].
Proof.
  destruct (frame_delivered sink (fun s _ => s) 9 (fun _ w _ _ _ _ _ => Some w) (fun _ _ _ => false)
      (fun _ _ _ _ => None) (fun _ _ _ => None) (fun _ _ _ => None) world5 1000 [] 4000 (0, 0)
      [2; 0; 0; 0; 0; 1] [2; 0; 0; 0; 0; 9] frame_packet (replicate 9 0) pcb_b) as (w' & H1 & H2 & _).
  - apply frame_strippable. vm_compute. congruence.
  - exact frame_mem_ok.
  - constructor; try (vm_compute; split; congruence); [right; left|exists 1%nat; split; [lia|reflexivity]].
  - lia.
  - vm_compute. reflexivity.
  - right. split; reflexivity.
  - reflexivity.
  - reflexivity.
  - vm_compute. congruence.
  - reflexivity.
  - split; [reflexivity|]. split; [vm_compute; congruence|]. left. reflexivity.
  - intros [_ [H|H]]; vm_compute in H; congruence.
  - vm_compute. reflexivity.
  - vm_compute. congruence.
  - exists (ip_no_current w'). split; [exact H1|exact H2].
Defined.

(** In every state that the stack reaches from its start through frames of any content,
    timer ticks, packets sent and calls of the UDP functions on existing PCBs in any order,
    the invariant of the UDP PCBs and the invariant of the ARP table hold together, provided
    that the pool gives out free PCBs and that the receive callbacks, TCP, IGMP and the DHCP
    client preserve them. *)
Theorem stack_safe {Y} custom_free fuel linkoutput dhcp_arp_reply recv lookfor igmp_in tcp_in (w0 w : world (arp_part * Y)) :
  (forall f w arg pcb p addr port w', recv f w arg pcb p addr port = Some w' -> stack_inv w -> stack_inv w') ->
  (forall w p inp w', tcp_in w p inp = Some w' -> stack_inv w -> stack_inv w') ->
  (forall w p inp dest w', igmp_in w p inp dest = Some w' -> stack_inv w -> stack_inv w') ->
  (forall nif ip es, arp_inv es -> arp_inv (dhcp_arp_reply nif ip es)) ->
  udp_fresh w0 -> (w_ext w0).1 = mk_ap (replicate ARP_TABLE_SIZE entry0) 0 ->
  rtc (stack_step custom_free fuel linkoutput dhcp_arp_reply recv lookfor igmp_in tcp_in) w0 w ->
  udp_inv w /\ arp_inv (es_of w).
Proof.
  intros H1 H2 H3 H4 Hu Ha Hs. change (stack_inv w). assert (H0 : stack_inv w0).
  { split; [by apply udp_fresh_inv|]. apply (arp_inv_ext (arp0 (w_ps w0))); [| |apply arp0_inv]; simpl; by rewrite Ha. }
  clear Hu Ha. induction Hs as [|x y z Hxy _ IH]; [done|]. apply IH. by eapply stack_step_inv.
Qed.

Definition stack0 : world (arp_part * unit) :=
  mk_world (mk_ap (replicate ARP_TABLE_SIZE entry0) 0, tt) frame_st (mk_netifs (fun _ => net_if) [4000] 4000) 7 NULL
    (mk_ipg 0 0 0 0 0 0) [] 0 [] ∅ 0xc000 (fun _ _ => 0).
Definition stack1 : world (arp_part * unit) :=
  arp_timer (fun s _ => s) 9 (fun _ s _ => (s, ERR_OK)) stack0.

Lemma stack_safe_witness : udp_inv stack1 /\ arp_inv (es_of stack1).
Proof.
  apply (stack_safe (fun s _ => s) 9 (fun _ s _ => (s, ERR_OK)) (fun _ _ es => es) (fun _ w _ _ _ _ _ => Some w)
           (fun _ _ _ => false) (fun _ _ _ _ => None) (fun _ _ _ => None) stack0).
  - by intros f w arg pcb p addr port w' [= <-].
  - by intros.
  - by intros.
  - by intros.
  - by repeat split.
  - reflexivity.
  - apply rtc_once. apply stack_arp_tmr.
Defined.
