(* ===== verification/Netif.v ===== *)
(** * [core/netif.c]: network interfaces

    Registration and removal of interfaces, their addresses, and the state of the
    interface and of its link, with what these announce to ARP, IGMP, UDP, TCP and DHCP.
    The functions work on the state of [Stack]; IGMP's part of it is the one of [Igmp]. *)

From Stdlib Require Import ZArith Lia.
From stdpp Require Import base tactics numbers list option gmap.
From S2P Require Import Prelude.
From S2P Require Import Def.
From S2P Require Import Ip4Addr.
From S2P Require Import Alloc.
From S2P Require Import Mem.
From S2P Require Import Memp.
From S2P Require Import Pbuf.
From S2P Require Import PbufChain.
From S2P Require Import Etharp.
From S2P Require Import World.
From S2P Require Import Ip4Frag.
From S2P Require Import Ip4.
From S2P Require Import Icmp.
From S2P Require Import Igmp.
From S2P Require Import Ip4Reass.
From S2P Require Import Udp.
From S2P Require Import Ip4Input.
From S2P Require Import Stack.

Definition NETIF_REPORT_TYPE_IPV4 : Z := 0x01.
Definition NETIF_REPORT_TYPE_IPV6 : Z := 0x02.

(** The members of [struct netif] that are not in the record [netif]; functions and
    pointers are addresses.  [ni_dhcp] is the client data of DHCP. *)
Record netif_info := mk_info {
  ni_name : Z * Z; ni_num : Z; ni_state : Z; ni_input : Z; ni_dhcp : Z;
  ni_status_callback : Z; ni_link_callback : Z; ni_mac_filter : Z }.

Definition set_status_callback v (i : netif_info) :=
  mk_info (ni_name i) (ni_num i) (ni_state i) (ni_input i) (ni_dhcp i) v (ni_link_callback i) (ni_mac_filter i).
Definition set_link_callback v (i : netif_info) :=
  mk_info (ni_name i) (ni_num i) (ni_state i) (ni_input i) (ni_dhcp i) (ni_status_callback i) v (ni_mac_filter i).

(** These, the client data of IGMP and the variable [netif_num]. *)
Record netif_part := mk_np { np_info : Z -> netif_info; np_groups : Z -> list igmp_group; netif_num : Z }.

Section Setters.
Context {X : Type}.
Implicit Types w : world X.

Definition set_netifs w v : world X := mk_world (w_ext w) (w_ps w) v (ip_id w) (ip4_default_multicast_netif w) (ip_data w)
  (reassdatagrams w) (ip_reass_pbufcount w) (udp_pcbs w) (udp_pcb_at w) (udp_port w) (lwip_stats w).
Definition set_netif_list w l : world X := set_netifs w (mk_netifs (nif_at (w_netifs w)) l (netif_default (w_netifs w))).
Definition upd_netif w (nif : Z) (f : netif -> netif) : world X :=
  set_netifs w (mk_netifs (fun n => if n =? nif then f (netif_of w nif) else netif_of w n) (netif_list (w_netifs w)) (netif_default (w_netifs w))).
End Setters.

Definition with_ip v (n : netif) := mk_netif v (netif_netmask n) (netif_gw n) (netif_mtu n) (netif_hwaddr n) (netif_hwaddr_len n) (netif_flags n).
Definition with_netmask v (n : netif) := mk_netif (netif_ip_addr n) v (netif_gw n) (netif_mtu n) (netif_hwaddr n) (netif_hwaddr_len n) (netif_flags n).
Definition with_gw v (n : netif) := mk_netif (netif_ip_addr n) (netif_netmask n) v (netif_mtu n) (netif_hwaddr n) (netif_hwaddr_len n) (netif_flags n).
Definition with_nflags v (n : netif) := mk_netif (netif_ip_addr n) (netif_netmask n) (netif_gw n) (netif_mtu n) (netif_hwaddr n) (netif_hwaddr_len n) v.

(** The state of the stack: ARP, the interfaces, and what is above. *)
#[local] Abbreviation ext Y := (arp_part * (netif_part * Y))%type.

#[export] Instance igmp_groups {Y} : igmp_store (ext Y).
Proof.
  refine {| netif_igmp_data x n := np_groups x.2.1 n;
            netif_set_igmp_data x n l := (x.1, (mk_np (np_info x.2.1) (fun m => if m =? n then l else np_groups x.2.1 m) (netif_num x.2.1), x.2.2)) |}.
  intros x n l n'. simpl. by destruct (Z.eqb_spec n' n), (decide (n' = n)).
Defined.

Section Netif.
Context {Y : Type}.
#[local] Abbreviation W := (world (ext Y)).
Context (custom_free : pstate -> Z -> pstate) (fuel : nat) (linkoutput : Z -> pstate -> Z -> pstate * Z).
Context (rand : W -> W * Z) (ra : Z).
(** The callbacks of an interface: a function of the driver's filter table, and the status
    and link callbacks. *)
Context (call_filter : Z -> W -> Z -> Z -> bool -> W) (callback : Z -> W -> Z -> option W).
(** What TCP and DHCP do. *)
Context (tcp_netif_ip_addr_changed : W -> Z -> Z -> option W) (dhcp_network_changed : W -> Z -> option W).
Implicit Types w : W.

Definition info w (nif : Z) : netif_info := np_info (w_ext w).2.1 nif.
Definition set_part w (v : netif_part) : W := set_ext w ((w_ext w).1, (v, (w_ext w).2.2)).
Definition set_info w (nif : Z) (i : netif_info) : W :=
  let np := (w_ext w).2.1 in set_part w (mk_np (fun n => if n =? nif then i else np_info np n) (np_groups np) (netif_num np)).

Definition igmp_mac_filter w (nif : Z) : option (W -> Z -> bool -> W) :=
  let f := ni_mac_filter (info w nif) in
  if f =? NULL then None else Some (fun w addr add => call_filter f w nif addr add).

Definition NETIF_STATUS_CALLBACK w (nif : Z) : option W :=
  let c := ni_status_callback (info w nif) in if c =? NULL then Some w else callback c w nif.
Definition NETIF_LINK_CALLBACK w (nif : Z) : option W :=
  let c := ni_link_callback (info w nif) in if c =? NULL then Some w else callback c w nif.

Definition has_flag w (nif f : Z) : bool := negb (Z.land (netif_flags (netif_of w nif)) f =? 0).

(** [netif_issue_reports(netif, report_type)] *)
Definition etharp_gratuitous w (nif : Z) : W :=
  put_es w (etharp_request (ops custom_free fuel) (netif_of w) linkoutput (es_of w) nif (netif_ip_addr (netif_of w nif))).1.
Definition netif_issue_reports w (nif report_type : Z) : W :=
  if negb (Z.land report_type NETIF_REPORT_TYPE_IPV4 =? 0) && negb (ip4_addr_isany (netif_ip_addr (netif_of w nif))) then
    let w := if has_flag w nif NETIF_FLAG_ETHARP then etharp_gratuitous w nif else w in
    if has_flag w nif NETIF_FLAG_IGMP then igmp_report_groups rand w nif else w
  else w.

(** [netif_set_ipaddr], [netif_set_gw], [netif_set_netmask], [netif_set_addr]; [None] is
    the pointer [NULL]. *)
Definition addr_of (a : option Z) : Z := default 0 a.
Definition netif_set_ipaddr w (nif : Z) (ipaddr : option Z) : option W :=
  let new_addr := addr_of ipaddr in
  let old_addr := netif_ip_addr (netif_of w nif) in
  if negb (new_addr =? old_addr) then
    w ← tcp_netif_ip_addr_changed w old_addr new_addr;
    let w := udp_netif_ip_addr_changed w (netif_ip_addr (netif_of w nif)) new_addr in
    let w := upd_netif w nif (with_ip new_addr) in
    NETIF_STATUS_CALLBACK (netif_issue_reports w nif NETIF_REPORT_TYPE_IPV4) nif
  else Some w.
Definition netif_set_gw w (nif : Z) (gw : option Z) : W := upd_netif w nif (with_gw (addr_of gw)).
Definition netif_set_netmask w (nif : Z) (netmask : option Z) : W := upd_netif w nif (with_netmask (addr_of netmask)).
Definition netif_set_addr w (nif : Z) (ipaddr netmask gw : option Z) : option W :=
  if ip4_addr_isany (addr_of ipaddr) then
    w ← netif_set_ipaddr w nif ipaddr;
    Some (netif_set_gw (netif_set_netmask w nif netmask) nif gw)
  else netif_set_ipaddr (netif_set_gw (netif_set_netmask w nif netmask) nif gw) nif ipaddr.

(** [netif_set_default], [netif_set_up], [netif_set_down], [netif_set_link_up],
    [netif_set_link_down] *)
Definition netif_set_default w (nif : Z) : W :=
  set_netifs w (mk_netifs (nif_at (w_netifs w)) (netif_list (w_netifs w)) nif).
Definition netif_set_up w (nif : Z) : option W :=
  if negb (has_flag w nif NETIF_FLAG_UP) then
    let w := upd_netif w nif (fun n => with_nflags (Z.lor (netif_flags n) NETIF_FLAG_UP) n) in
    w ← NETIF_STATUS_CALLBACK w nif;
    Some (if has_flag w nif NETIF_FLAG_LINK_UP
          then netif_issue_reports w nif (Z.lor NETIF_REPORT_TYPE_IPV4 NETIF_REPORT_TYPE_IPV6) else w)
  else Some w.
Definition netif_set_down w (nif : Z) : option W :=
  if has_flag w nif NETIF_FLAG_UP then
    let w := upd_netif w nif (fun n => with_nflags (Z.land (netif_flags n) (Z.lnot NETIF_FLAG_UP)) n) in
    let w := if has_flag w nif NETIF_FLAG_ETHARP
             then put_es w (etharp_cleanup_netif (ops custom_free fuel) (es_of w) nif) else w in
    NETIF_STATUS_CALLBACK w nif
  else Some w.
Definition netif_set_link_up w (nif : Z) : option W :=
  if negb (has_flag w nif NETIF_FLAG_LINK_UP) then
    let w := upd_netif w nif (fun n => with_nflags (Z.lor (netif_flags n) NETIF_FLAG_LINK_UP) n) in
    w ← dhcp_network_changed w nif;
    let w := if has_flag w nif NETIF_FLAG_UP
             then netif_issue_reports w nif (Z.lor NETIF_REPORT_TYPE_IPV4 NETIF_REPORT_TYPE_IPV6) else w in
    NETIF_LINK_CALLBACK w nif
  else Some w.
Definition netif_set_link_down w (nif : Z) : option W :=
  if has_flag w nif NETIF_FLAG_LINK_UP then
    let w := upd_netif w nif (fun n => with_nflags (Z.land (netif_flags n) (Z.lnot NETIF_FLAG_LINK_UP)) n) in
    NETIF_LINK_CALLBACK w nif
  else Some w.

Definition netif_set_status_callback w (nif c : Z) : W :=
  if negb (nif =? NULL) then set_info w nif (set_status_callback c (info w nif)) else w.
Definition netif_set_link_callback w (nif c : Z) : W :=
  if negb (nif =? NULL) then set_info w nif (set_link_callback c (info w nif)) else w.

(** The fields that [netif_add] resets, and [netif_add]; [init] is the function of the
    driver. *)
Definition netif_reset w (nif state input : Z) : W :=
  let w := upd_netif w nif (fun n => with_nflags 0 (with_gw 0 (with_netmask 0 (with_ip 0 n)))) in
  let w := set_groups w nif [] in
  let num := netif_num (w_ext w).2.1 in
  let w := set_info w nif (mk_info (ni_name (info w nif)) num state input NULL NULL NULL NULL) in
  set_part w (mk_np (np_info (w_ext w).2.1) (np_groups (w_ext w).2.1) (u8 (num + 1))).
Definition netif_add w (nif : Z) (ipaddr netmask gw : option Z) (state : Z) (init : W -> Z -> W * Z) (input : Z) : option (W * Z) :=
  w ← netif_set_addr (netif_reset w nif state input) nif ipaddr netmask gw;
  let '(w, err) := init w nif in
  if negb (err =? ERR_OK) then Some (w, NULL)
  else
    let w := set_netif_list w (nif :: netif_list (w_netifs w)) in
    Some (if has_flag w nif NETIF_FLAG_IGMP then (igmp_start igmp_mac_filter w nif).1 else w, nif).

(** [netif_remove(netif)] *)
Definition netif_remove w (nif : Z) : option W :=
  if nif =? NULL then Some w
  else
    w ← (if negb (ip4_addr_isany (netif_ip_addr (netif_of w nif))) then
           w ← tcp_netif_ip_addr_changed w (netif_ip_addr (netif_of w nif)) 0;
           Some (udp_netif_ip_addr_changed w (netif_ip_addr (netif_of w nif)) 0)
         else Some w);
    let w := if has_flag w nif NETIF_FLAG_IGMP then (igmp_stop igmp_mac_filter w nif).1 else w in
    w ← (if has_flag w nif NETIF_FLAG_UP then netif_set_down w nif else Some w);
    let w := if netif_default (w_netifs w) =? nif then netif_set_default w NULL else w in
    Some (set_netif_list w (list_remove1 nif (netif_list (w_netifs w)))).

(** [netif_find(name)]: the interface, or [NULL]. *)
Definition netif_find w (name : Z) : Z :=
  if name =? NULL then NULL
  else
    let num := u8 (wmem w (name + 2) - 48) in
    default NULL (List.find (fun nif => (num =? ni_num (info w nif)) && (wmem w name =? (ni_name (info w nif)).1) &&
                                        (wmem w (name + 1) =? (ni_name (info w nif)).2)) (netif_list (w_netifs w))).

End Netif.

(** ** Accessors *)

Lemma netif_of_upd {X} (w : world X) nif f n : netif_of (upd_netif w nif f) n = if n =? nif then f (netif_of w nif) else netif_of w n.
Proof. done. Qed.

(** A property of the interfaces is a frame of the IP layer and of UDP. *)
Lemma netifs_frame {X} (P : netifs -> Prop) : ip_frame (fun w : world X => P (w_netifs w)).
Proof. by constructor. Qed.

Section Effects.
Context {Y : Type}.
#[local] Abbreviation W := (world (ext Y)).
Context (custom_free : pstate -> Z -> pstate) (fuel : nat) (linkoutput : Z -> pstate -> Z -> pstate * Z).
Context (rand : W -> W * Z) (ra : Z).
Context (call_filter : Z -> W -> Z -> Z -> bool -> W) (callback : Z -> W -> Z -> option W).
Context (tcp_netif_ip_addr_changed : W -> Z -> Z -> option W) (dhcp_network_changed : W -> Z -> option W).
Implicit Types w : W.

(** The interfaces, their callbacks and the table of ARP are as they were. *)
Definition same_netifs w w' : Prop := w_netifs w' = w_netifs w /\ forall n, info w' n = info w n.
Definition same_table w w' : Prop := (w_ext w').1 = (w_ext w).1.
Definition same_groups w w' : Prop := forall n, groups w' n = groups w n.

#[global] Instance same_netifs_preorder : PreOrder same_netifs.
Proof.
  split; [done|]. intros w1 w2 w3 [H1 H2] [H3 H4]. split; [congruence|]. intros n. by rewrite H4.
Qed.
#[global] Instance same_table_preorder : PreOrder same_table.
Proof. split; [done|]. intros w1 w2 w3 H1 H2. unfold same_table in *. congruence. Qed.
#[global] Instance same_groups_preorder : PreOrder same_groups.
Proof. split; [done|]. intros w1 w2 w3 H1 H2 n. by rewrite H2. Qed.

(** The functions outside of this component return, and leave the interfaces to it. *)
Record netif_env : Prop := {
  env_rand : forall w, same_netifs w (rand w).1 /\ same_table w (rand w).1 /\ same_groups w (rand w).1;
  env_filter : forall f w nif a add, let w' := call_filter f w nif a add in same_netifs w w' /\ same_table w w' /\ same_groups w w';
  env_callback : forall c w nif, exists w', callback c w nif = Some w' /\ same_netifs w w' /\ same_table w w' /\ same_groups w w';
  env_tcp : forall w old new, exists w', tcp_netif_ip_addr_changed w old new = Some w' /\ same_netifs w w' /\ same_groups w w' /\
    (arp_inv (es_of w) -> arp_inv (es_of w'));
  env_dhcp : forall w nif, exists w', dhcp_network_changed w nif = Some w' /\ same_netifs w w' /\ same_groups w w' /\
    (arp_inv (es_of w) -> arp_inv (es_of w'))
}.
Context (Henv : netif_env).

Lemma table_inv w w' : same_table w w' -> arp_inv (es_of w) -> arp_inv (es_of w').
Proof. intros E. apply arp_inv_ext; unfold es_of; simpl; by rewrite E. Qed.

Lemma upd_group_same w nif a f : same_netifs w (upd_group w nif a f) /\ same_table w (upd_group w nif a f).
Proof. by repeat split. Qed.

Lemma start_timer_same w nif a t :
  let w' := igmp_start_timer rand w nif a t in same_netifs w w' /\ same_table w w'.
Proof.
  unfold igmp_start_timer. destruct (2 <? t); [|by apply upd_group_same].
  destruct (rand w) as [w1 r] eqn:E. destruct (env_rand Henv w) as (H1 & H2 & _). rewrite E in H1, H2. cbv zeta.
  destruct (upd_group_same w1 nif a (set_gtimer (if u16 (u32 r mod t) =? 0 then 1 else u16 (u32 r mod t)))) as [H3 H4].
  split; etransitivity; eauto.
Qed.

Lemma report_groups_same w nif :
  let w' := igmp_report_groups rand w nif in same_netifs w w' /\ same_table w w'.
Proof.
  unfold igmp_report_groups, delay_members. generalize (tl (groups w nif)). intros l. revert w.
  induction l as [|g l IH]; intros w; [done|]. cbn [foldl]. destruct (IH (igmp_delaying_member rand w nif g IGMP_JOIN_DELAYING_MEMBER_TMR)) as [H1 H2].
  assert (Hd : same_netifs w (igmp_delaying_member rand w nif g IGMP_JOIN_DELAYING_MEMBER_TMR) /\
               same_table w (igmp_delaying_member rand w nif g IGMP_JOIN_DELAYING_MEMBER_TMR)).
  { unfold igmp_delaying_member. destruct (_ || _); [|done]. destruct (start_timer_same w nif (g_at g) IGMP_JOIN_DELAYING_MEMBER_TMR) as [H3 H4].
    split; (etransitivity; [eassumption|]); apply upd_group_same. }
  destruct Hd. split; etransitivity; eauto.
Qed.

Lemma gratuitous_same w nif :
  let w' := etharp_gratuitous custom_free fuel linkoutput w nif in same_netifs w w' /\ same_table w w'.
Proof.
  split; [done|]. unfold same_table, etharp_gratuitous, put_es, etharp_request, etharp_request_dst. cbn [w_ext fst].
  destruct (etharp_raw_table (ops custom_free fuel) linkoutput (es_of w) nif (hwaddr (netif_of w) nif) ethbroadcast (hwaddr (netif_of w) nif)
    (netif_ip_addr (netif_of w nif)) ethzero (netif_ip_addr (netif_of w nif)) ARP_REQUEST) as [-> ->]. unfold es_of. simpl. by destruct (w_ext w) as [[] ?].
Qed.

Lemma issue_reports_same w nif t :
  let w' := netif_issue_reports custom_free fuel linkoutput rand w nif t in same_netifs w w' /\ same_table w w'.
Proof.
  unfold netif_issue_reports. destruct (_ && _); [|done]. cbv zeta.
  set (w1 := if has_flag w nif NETIF_FLAG_ETHARP then _ else _).
  assert (H1 : same_netifs w w1 /\ same_table w w1) by (unfold w1; destruct (has_flag _ _ _); [apply gratuitous_same|done]).
  destruct H1, (report_groups_same w1 nif). destruct (has_flag w1 nif _); [|done]. split; etransitivity; eauto.
Qed.

Lemma status_same w nif :
  exists w', NETIF_STATUS_CALLBACK callback w nif = Some w' /\ same_netifs w w' /\ same_table w w' /\ same_groups w w'.
Proof. unfold NETIF_STATUS_CALLBACK. destruct (_ =? _); [by exists w|apply Henv]. Qed.

Lemma udp_changed_same w old new :
  let w' := udp_netif_ip_addr_changed w old new in same_netifs w w' /\ same_table w w' /\ same_groups w w'.
Proof.
  unfold udp_netif_ip_addr_changed. destruct (_ && _); [|done]. generalize (udp_pcbs w). intros l. revert w.
  induction l as [|a l IH]; intros w; [done|]. cbn [foldl]. destruct (_ =? old); [|apply IH].
  specialize (IH (upd_udp w a (fun u => set_u_local u new (u_local_port u)))). done.
Qed.

Lemma same_netif_of w w' n : same_netifs w w' -> netif_of w' n = netif_of w n.
Proof. intros [E _]. unfold netif_of. by rewrite E. Qed.

(** The list and the default are as they were. *)
Definition same_list w w' : Prop :=
  netif_list (w_netifs w') = netif_list (w_netifs w) /\ netif_default (w_netifs w') = netif_default (w_netifs w).

Lemma set_ipaddr_correct w nif ip :
  exists w', netif_set_ipaddr custom_free fuel linkoutput rand callback tcp_netif_ip_addr_changed w nif ip = Some w' /\
    (forall n, netif_of w' n = if n =? nif then with_ip (addr_of ip) (netif_of w nif) else netif_of w n) /\
    same_list w w' /\ forall n, info w' n = info w n.
Proof.
  unfold netif_set_ipaddr. destruct (Z.eqb_spec (addr_of ip) (netif_ip_addr (netif_of w nif))) as [E|E]; cbn [negb].
  - exists w. split; [done|]. split; [|done]. intros n. destruct (Z.eqb_spec n nif) as [->|]; [|done]. rewrite E. by destruct (netif_of w nif).
  - destruct (env_tcp Henv w (netif_ip_addr (netif_of w nif)) (addr_of ip)) as (w1 & -> & H1 & _). cbn [mbind option_bind].
    set (w2 := udp_netif_ip_addr_changed w1 _ _). assert (H2 : same_netifs w1 w2) by apply udp_changed_same.
    set (w3 := upd_netif w2 nif _). destruct (issue_reports_same w3 nif NETIF_REPORT_TYPE_IPV4) as [H4 _].
    set (w4 := netif_issue_reports _ _ _ _ _ _ _) in *. destruct (status_same w4 nif) as (w5 & H5 & H6 & _).
    exists w5. split; [exact H5|]. assert (H35 : same_netifs w3 w5) by (etransitivity; eauto).
    assert (H02 : same_netifs w w2) by (etransitivity; eauto). split; [|split].
    + intros n. rewrite (same_netif_of _ _ n H35). unfold w3. rewrite netif_of_upd. by rewrite !(same_netif_of _ _ _ H02).
    + destruct H35 as [E5 _], H02 as [E2 _]. unfold same_list. rewrite E5. unfold w3. simpl. by rewrite E2.
    + intros n. rewrite (proj2 H35 n). change (info w3 n) with (info w2 n). apply H02.
Qed.

Definition configured (ip m g : Z) (n : netif) : netif := with_gw g (with_netmask m (with_ip ip n)).

Lemma set_addr_correct w nif ip m g :
  exists w', netif_set_addr custom_free fuel linkoutput rand callback tcp_netif_ip_addr_changed w nif ip m g = Some w' /\
    (forall n, netif_of w' n = if n =? nif then configured (addr_of ip) (addr_of m) (addr_of g) (netif_of w nif) else netif_of w n) /\
    same_list w w' /\ forall n, info w' n = info w n.
Proof.
  unfold netif_set_addr, netif_set_gw, netif_set_netmask. destruct (ip4_addr_isany _).
  - destruct (set_ipaddr_correct w nif ip) as (w1 & -> & Hn & Hl & Hi). eexists. split; [reflexivity|]. split; [|done].
    intros n. rewrite !netif_of_upd, !Hn, Z.eqb_refl. by destruct (n =? nif).
  - set (w1 := upd_netif _ _ _). destruct (set_ipaddr_correct w1 nif ip) as (w2 & H2 & Hn & Hl & Hi).
    exists w2. split; [done|]. split; [|done]. intros n. rewrite Hn. unfold w1. rewrite !netif_of_upd, Z.eqb_refl. by destruct (n =? nif).
Qed.

Lemma filter_same w nif addr add :
  let w' := mac_filter (igmp_mac_filter call_filter) w nif addr add in same_netifs w w' /\ same_table w w' /\ same_groups w w'.
Proof. unfold mac_filter, igmp_mac_filter. destruct (_ =? NULL); [done|apply Henv]. Qed.

Lemma stop_loop nif l w :
  let w' := foldl (fun w g =>
     let w := mac_filter (igmp_mac_filter call_filter) w nif (group_address g) false in
     set_wps w (set_pools (w_ps w) (memp_free (ps_pools (w_ps w)) MEMP_IGMP_GROUP (g_at g)))) w l in
  same_netifs w w' /\ same_table w w' /\ same_groups w w'.
Proof.
  revert w. induction l as [|g l IH]; intros w; [done|]. cbn [foldl]. cbv zeta in *.
  destruct (filter_same w nif (group_address g) false) as (H1 & H2 & H3). set (w1 := mac_filter _ _ _ _ _) in *.
  destruct (IH (set_wps w1 (set_pools (w_ps w1) (memp_free (ps_pools (w_ps w1)) MEMP_IGMP_GROUP (g_at g))))) as (H4 & H5 & H6).
  repeat split; [by rewrite (proj1 H4), <- (proj1 H1)|intros n; by rewrite (proj2 H4), <- (proj2 H1)| |].
  - etransitivity; [exact H2|exact H5].
  - etransitivity; [exact H3|exact H6].
Qed.

Lemma stop_same w nif :
  let w' := (igmp_stop (igmp_mac_filter call_filter) w nif).1 in
  same_netifs w w' /\ same_table w w' /\ forall n, groups w' n = if decide (n = nif) then [] else groups w n.
Proof.
  unfold igmp_stop. cbn [fst]. destruct (stop_loop nif (groups w nif) (set_groups w nif [])) as (H1 & H2 & H3).
  split; [done|]. split; [done|]. intros n. rewrite H3. apply groups_set.
Qed.

(** An interface has no entries in the table of ARP. *)
Definition no_entries w (nif : Z) : Prop := Forall (fun e => nonempty e -> a_netif e <> nif) (ap_table (w_ext w).1).

Lemma set_down_correct w nif :
  arp_inv (es_of w) -> has_flag w nif NETIF_FLAG_UP = true ->
  exists w', netif_set_down custom_free fuel callback w nif = Some w' /\
    (forall n, netif_of w' n = if n =? nif then with_nflags (Z.land (netif_flags (netif_of w nif)) (Z.lnot NETIF_FLAG_UP)) (netif_of w nif)
                               else netif_of w n) /\
    same_list w w' /\ same_groups w w' /\ (has_flag w nif NETIF_FLAG_ETHARP = true -> no_entries w' nif).
Proof.
  intros Ha Hup. unfold netif_set_down. rewrite Hup. set (w1 := upd_netif w nif _).
  assert (Hf : has_flag w1 nif NETIF_FLAG_ETHARP = has_flag w nif NETIF_FLAG_ETHARP).
  { unfold has_flag, w1. rewrite netif_of_upd, Z.eqb_refl. simpl. by rewrite <- Z.land_assoc. }
  rewrite Hf. set (w2 := if has_flag w nif NETIF_FLAG_ETHARP then _ else _).
  assert (H2 : same_netifs w1 w2 /\ same_groups w1 w2 /\ (has_flag w nif NETIF_FLAG_ETHARP = true -> no_entries w2 nif)).
  { unfold w2. destruct (has_flag w nif NETIF_FLAG_ETHARP); [|done]. split; [done|]. split; [done|]. intros _.
    unfold no_entries, put_es. cbn [w_ext fst ap_table].
    rewrite (proj2 (cleanup_correct (ops custom_free fuel) (es_of w1) nif Ha)). apply Forall_map, Forall_forall. intros e _.
    unfold clean, nonempty. destruct (is_empty (a_state e)) eqn:Ee; cbn [negb andb]; [by rewrite Ee|].
    destruct (Z.eqb_spec (a_netif e) nif); [done|]. by intros _. }
  destruct H2 as (H3 & H4 & H5). destruct (status_same w2 nif) as (w3 & E & H6 & H7 & H8). exists w3. split; [done|].
  assert (H13 : same_netifs w1 w3) by (etransitivity; eauto). split; [|split; [|split]].
  - intros n. rewrite (same_netif_of _ _ n H13). done.
  - unfold same_list. by rewrite (proj1 H13).
  - etransitivity; [exact H4|exact H8].
  - intros He. unfold no_entries. rewrite H7. by apply H5.
Qed.

Lemma has_flag_same w w' nif f : same_netifs w w' -> has_flag w' nif f = has_flag w nif f.
Proof. intros H. unfold has_flag. by rewrite (same_netif_of _ _ _ H). Qed.

Lemma cleared_flag w nif n : netif_of w nif = with_nflags (Z.land (netif_flags n) (Z.lnot NETIF_FLAG_UP)) n -> has_flag w nif NETIF_FLAG_UP = false.
Proof. intros E. unfold has_flag. rewrite E. simpl. by rewrite <- Z.land_assoc, Z.land_0_r. Qed.

(** The part of [netif_remove] before the lists are changed. *)
Lemma remove_notifies w nif :
  exists w', (if negb (ip4_addr_isany (netif_ip_addr (netif_of w nif))) then
       w ← tcp_netif_ip_addr_changed w (netif_ip_addr (netif_of w nif)) 0;
       Some (udp_netif_ip_addr_changed w (netif_ip_addr (netif_of w nif)) 0)
     else Some w) = Some w' /\ same_netifs w w' /\ same_groups w w' /\ (arp_inv (es_of w) -> arp_inv (es_of w')).
Proof.
  destruct (negb _); [|by exists w]. destruct (env_tcp Henv w (netif_ip_addr (netif_of w nif)) 0) as (w1 & -> & H1 & H2 & H3).
  eexists. split; [reflexivity|]. destruct (udp_changed_same w1 (netif_ip_addr (netif_of w1 nif)) 0) as (H4 & H5 & H6).
  split; [etransitivity; eauto|]. split; [etransitivity; eauto|]. intros Ha. by apply (table_inv w1), H3.
Qed.

(** The part that takes the interface down. *)
Lemma remove_lowers w nif :
  arp_inv (es_of w) ->
  exists w', (if has_flag w nif NETIF_FLAG_UP then netif_set_down custom_free fuel callback w nif else Some w) = Some w' /\
    same_list w w' /\ same_groups w w' /\ has_flag w' nif NETIF_FLAG_UP = false /\
    (has_flag w nif NETIF_FLAG_UP = true -> has_flag w nif NETIF_FLAG_ETHARP = true -> no_entries w' nif).
Proof.
  intros Ha. destruct (has_flag w nif NETIF_FLAG_UP) eqn:Eu; [|by exists w].
  destruct (set_down_correct w nif Ha Eu) as (w' & E & Hn & Hl & Hg & He). exists w'. split; [done|]. split; [done|]. split; [done|].
  split; [|by intros _]. eapply cleared_flag. by rewrite Hn, Z.eqb_refl.
Qed.

End Effects.


(** ** The properties *)

(** [netif_set_addr] gives the interface the three addresses, in whatever order the new
    address makes it set them ([NULL] stands for 0.0.0.0), and leaves the other interfaces,
    the list, the default interface and the other settings. *)
Theorem set_addr_sets {Y} custom_free fuel linkoutput rand call_filter callback tcp_changed dhcp_changed (w : world (ext Y)) nif ip m g :
  netif_env rand call_filter callback tcp_changed dhcp_changed ->
  exists w', netif_set_addr custom_free fuel linkoutput rand callback tcp_changed w nif ip m g = Some w' /\
    (forall n, netif_of w' n = if n =? nif then configured (addr_of ip) (addr_of m) (addr_of g) (netif_of w nif) else netif_of w n) /\
    same_list w w' /\ forall n, info w' n = info w n.
Proof. intros H. by apply (set_addr_correct _ _ _ _ call_filter _ _ dhcp_changed). Qed.

(** Once [netif_remove] has returned, nothing names the interface any more: it is in the
    list no more, which has the others still in their order, it is not the default and not
    up, IGMP has no group of it, and, if it was up, ARP has no entry with it. *)
Theorem remove_forgets {Y} custom_free fuel rand call_filter callback tcp_changed dhcp_changed (w : world (ext Y)) nif :
  netif_env rand call_filter callback tcp_changed dhcp_changed -> nif <> NULL -> NoDup (netif_list (w_netifs w)) -> arp_inv (es_of w) ->
  exists w', netif_remove custom_free fuel call_filter callback tcp_changed w nif = Some w' /\
    (nif ∉ netif_list (w_netifs w')) /\ netif_list (w_netifs w') = list_remove1 nif (netif_list (w_netifs w)) /\
    netif_default (w_netifs w') = (if netif_default (w_netifs w) =? nif then NULL else netif_default (w_netifs w)) /\
    has_flag w' nif NETIF_FLAG_UP = false /\
    (has_flag w nif NETIF_FLAG_IGMP = true -> groups w' nif = []) /\
    (has_flag w nif NETIF_FLAG_UP = true -> has_flag w nif NETIF_FLAG_ETHARP = true -> no_entries w' nif).
Proof.
  intros He Hn Hd Ha. unfold netif_remove. rewrite (proj2 (Z.eqb_neq _ _) Hn).
  destruct (remove_notifies rand call_filter callback tcp_changed dhcp_changed He w nif) as (w1 & E1 & H1 & G1 & A1).
  rewrite E1. cbn [mbind option_bind]. set (w2 := if has_flag w1 nif NETIF_FLAG_IGMP then _ else _).
  assert (H2 : same_netifs w1 w2 /\ same_table w1 w2 /\ (has_flag w nif NETIF_FLAG_IGMP = true -> groups w2 nif = [])).
  { unfold w2. rewrite (has_flag_same w w1) by done. destruct (has_flag w nif NETIF_FLAG_IGMP); [|done].
    destruct (stop_same rand call_filter callback tcp_changed dhcp_changed He w1 nif) as (? & ? & Hg). split; [done|]. split; [done|].
    intros _. by rewrite Hg, decide_True. }
  destruct H2 as (H2 & T2 & G2). assert (H02 : same_netifs w w2) by (etransitivity; eauto).
  assert (A2 : arp_inv (es_of w2)) by (apply (table_inv w1); auto).
  destruct (remove_lowers custom_free fuel rand call_filter callback tcp_changed dhcp_changed He w2 nif A2) as (w3 & E3 & L3 & G3 & F3 & N3).
  rewrite E3. cbn [mbind option_bind]. eexists. split; [reflexivity|]. pose proof H02 as [E02 _]. destruct L3 as [L3 D3]. rewrite E02 in L3, D3.
  set (w4 := if netif_default (w_netifs w3) =? nif then _ else _).
  assert (H4 : netif_list (w_netifs w4) = netif_list (w_netifs w3) /\ nif_at (w_netifs w4) = nif_at (w_netifs w3) /\ w_ext w4 = w_ext w3 /\
    netif_default (w_netifs w4) = (if netif_default (w_netifs w) =? nif then NULL else netif_default (w_netifs w))).
  { unfold w4. rewrite D3. destruct (netif_default (w_netifs w) =? nif); auto. }
  destruct H4 as (L4 & N4 & X4 & D4). cbn [set_netif_list set_netifs w_netifs netif_list netif_default]. rewrite L4, L3.
  pose proof (NoDup_list_remove1 nif _ Hd) as [_ Hnot]. repeat split; try done.
  - unfold has_flag, netif_of in *. simpl. by rewrite N4.
  - intros Hf. unfold groups in *. simpl. rewrite X4. etransitivity; [apply G3|auto].
  - intros Hu Hf. unfold no_entries in *. simpl. rewrite X4. apply N3; by rewrite (has_flag_same w w2).
Qed.

Section Add.
Context {Y : Type}.
#[local] Abbreviation W := (world (ext Y)).
Context (custom_free : pstate -> Z -> pstate) (fuel : nat) (linkoutput : Z -> pstate -> Z -> pstate * Z).
Context (rand : W -> W * Z) (call_filter : Z -> W -> Z -> Z -> bool -> W) (callback : Z -> W -> Z -> option W).
Context (tcp_changed : W -> Z -> Z -> option W) (dhcp_changed : W -> Z -> option W).
Context (Henv : netif_env rand call_filter callback tcp_changed dhcp_changed).
Implicit Types w : W.

(** An interface without flags announces nothing. *)
Lemma set_ipaddr_quiet w nif ip w' :
  netif_flags (netif_of w nif) = 0 ->
  netif_set_ipaddr custom_free fuel linkoutput rand callback tcp_changed w nif ip = Some w' -> same_groups w w'.
Proof.
  intros Hf. unfold netif_set_ipaddr. destruct (negb _); [|by intros [= <-]].
  destruct (env_tcp _ _ _ _ _ Henv w (netif_ip_addr (netif_of w nif)) (addr_of ip)) as (w1 & -> & H1 & G1 & _). cbn [mbind option_bind].
  destruct (udp_changed_same w1 (netif_ip_addr (netif_of w1 nif)) (addr_of ip)) as (H2 & _ & G2). set (w2 := udp_netif_ip_addr_changed _ _ _) in *.
  assert (Hq : forall f, has_flag (upd_netif w2 nif (with_ip (addr_of ip))) nif f = false).
  { intros f. unfold has_flag. rewrite netif_of_upd, Z.eqb_refl. simpl.
    by rewrite (same_netif_of _ _ _ H2), (same_netif_of _ _ _ H1), Hf. }
  assert (Er : netif_issue_reports custom_free fuel linkoutput rand (upd_netif w2 nif (with_ip (addr_of ip))) nif NETIF_REPORT_TYPE_IPV4 =
               upd_netif w2 nif (with_ip (addr_of ip))).
  { unfold netif_issue_reports. destruct (_ && _); [|done]. cbv zeta. by rewrite !Hq. }
  rewrite Er. destruct (status_same rand call_filter callback tcp_changed dhcp_changed Henv (upd_netif w2 nif (with_ip (addr_of ip))) nif) as (w3 & -> & _ & _ & G3).
  intros [= <-]. do 2 (etransitivity; [eassumption|]). exact G3.
Qed.

Lemma set_addr_quiet w nif ip m g w' :
  netif_flags (netif_of w nif) = 0 ->
  netif_set_addr custom_free fuel linkoutput rand callback tcp_changed w nif ip m g = Some w' -> same_groups w w'.
Proof.
  intros Hf. unfold netif_set_addr. destruct (ip4_addr_isany _).
  - destruct (netif_set_ipaddr _ _ _ _ _ _ _ _ _) as [w1|] eqn:E; [|done]. intros [= <-]. by apply set_ipaddr_quiet in E.
  - intros H. apply set_ipaddr_quiet in H; [done|]. unfold netif_set_gw, netif_set_netmask. by rewrite !netif_of_upd, Z.eqb_refl.
Qed.

Lemma filter_groups_private nif f w addr add G :
  igmp_mac_filter call_filter w nif = Some f -> has_groups G w -> has_groups G (f w addr add).
Proof.
  intros E H n. unfold igmp_mac_filter in E. destruct (_ =? NULL); [done|]. injection E as <-. rewrite <- (H n). apply Henv.
Qed.

End Add.

(** [netif_add] hands the driver's [init] an interface with the addresses given, a number
    of its own, no flags, callbacks or groups, that is not in the list yet.  If [init]
    fails, the result is [NULL] and the state the one that [init] left; otherwise the
    interface comes first in the list, and, if [init] made it do IGMP, it is in the group
    of all systems, or in none when the pool is empty. *)
Theorem add_registers {Y} custom_free fuel linkoutput rand call_filter callback tcp_changed dhcp_changed
    (w : world (ext Y)) nif ip m g state init input :
  netif_env rand call_filter callback tcp_changed dhcp_changed ->
  exists w1,
    (forall n, netif_of w1 n = if n =? nif then configured (addr_of ip) (addr_of m) (addr_of g) (with_nflags 0 (netif_of w nif)) else netif_of w n) /\
    same_list w w1 /\ groups w1 nif = [] /\
    info w1 nif = mk_info (ni_name (info w nif)) (netif_num (w_ext w).2.1) state input NULL NULL NULL NULL /\
    let '(w2, e) := init w1 nif in
    exists w', netif_add custom_free fuel linkoutput rand call_filter callback tcp_changed w nif ip m g state init input =
        Some (w', if e =? ERR_OK then nif else NULL) /\
      if e =? ERR_OK
      then netif_list (w_netifs w') = nif :: netif_list (w_netifs w2) /\ (forall n, netif_of w' n = netif_of w2 n) /\
           (has_flag w2 nif NETIF_FLAG_IGMP = true -> groups w2 nif = [] ->
            groups w' nif = [] \/ exists a, a <> NULL /\ groups w' nif = [mk_group a allsystems 0 Idle_member 0 1])
      else w' = w2.
Proof.
  intros He. set (w0 := netif_reset w nif state input).
  destruct (set_addr_correct custom_free fuel linkoutput rand call_filter callback tcp_changed dhcp_changed He w0 nif ip m g) as (w1 & E1 & Hn & Hl & Hi).
  assert (Hn0 : forall n, netif_of w0 n = if n =? nif then with_nflags 0 (with_gw 0 (with_netmask 0 (with_ip 0 (netif_of w nif)))) else netif_of w n)
    by (intros n; done).
  assert (Hf0 : netif_flags (netif_of w0 nif) = 0) by (by rewrite Hn0, Z.eqb_refl).
  exists w1. split; [|split; [done|split; [|split]]].
  - intros n. rewrite Hn, !Hn0, Z.eqb_refl. by destruct (n =? nif).
  - rewrite (set_addr_quiet custom_free fuel linkoutput rand call_filter callback tcp_changed dhcp_changed He w0 nif ip m g w1 Hf0 E1).
    unfold w0, netif_reset. cbv zeta. unfold groups, set_info, set_part. simpl. by rewrite Z.eqb_refl.
  - rewrite Hi. unfold w0, netif_reset, info, set_info, set_part. simpl. by rewrite Z.eqb_refl.
  - unfold netif_add. fold w0. rewrite E1. cbn [mbind option_bind]. destruct (init w1 nif) as [w2 e].
    destruct (e =? ERR_OK); cbn [negb]; [|by exists w2]. set (w3 := set_netif_list w2 _).
    change (has_flag w3 nif NETIF_FLAG_IGMP) with (has_flag w2 nif NETIF_FLAG_IGMP).
    destruct (has_flag w2 nif NETIF_FLAG_IGMP) eqn:Ef; [|by eexists; split; [reflexivity|]].
    eexists. split; [reflexivity|].
    assert (Hs : w_netifs (igmp_start (igmp_mac_filter call_filter) w3 nif).1 = w_netifs w3).
    { pose proof (netifs_frame (X := ext Y) (fun v => v = w_netifs w3)) as Hfr.
      apply (igmp_start_keeps (igmp_mac_filter call_filter) (fun x => w_netifs x = w_netifs w3)); try done.
      intros w4 n a add E4. rewrite <- E4. apply (filter_same rand call_filter callback tcp_changed dhcp_changed He). }
    unfold netif_of. rewrite Hs. split; [done|]. split; [done|]. intros _ Hg.
    apply (start_fresh (igmp_mac_filter call_filter)); [|done]. exact (filter_groups_private rand call_filter callback tcp_changed dhcp_changed He).
Qed.

(** *** Examples *)

(** The board of [world0] with ARP, one interface that has callbacks, and three free groups. *)
Definition netif_world0 : world (ext unit) :=
  mk_world (mk_ap (replicate ARP_TABLE_SIZE entry0) 0, (mk_np (fun _ => mk_info (116, 52) 0 0 0 NULL 11 12 13) (fun _ => []) 1, tt))
    (set_pools net_st (<[6%nat := memp_init_pool group_desc (mk_pool 0 ∅ (mk_stats 0 0 0 0 0))]> net_pools))
    (w_netifs world0) 7 NULL (mk_ipg 0 0 0 0 0 0) [] 0 [] ∅ 0xc000 (fun _ _ => 0).
(** The driver's [init] sets the flags of an Ethernet interface. *)
Definition t41_init (w : world (ext unit)) (nif : Z) : world (ext unit) * Z := (upd_netif w nif (with_nflags 0x3a), ERR_OK).

Lemma example_env :
  netif_env (Y := unit) (fun w => (w, 3)) (fun _ w _ _ _ => w) (fun _ w _ => Some w) (fun w _ _ => Some w) (fun w _ => Some w).
Proof. constructor; [done|done|intros; by eexists|intros; by eexists|intros; by eexists]. Qed.

Lemma set_addr_witness :
  exists w', netif_set_addr (fun s _ => s) 20%nat link0 (fun w => (w, 3)) (fun _ w _ => Some w) (fun w _ _ => Some w)
      netif_world0 4000 (Some 0x0500a8c0) (Some 0x00ffffff) None = Some w' /\
    netif_ip_addr (netif_of w' 4000) = 0x0500a8c0 /\ netif_gw (netif_of w' 4000) = 0.
Proof.
  destruct (set_addr_sets (fun s _ => s) 20%nat link0 (fun w => (w, 3)) (fun _ w _ _ _ => w) (fun _ w _ => Some w) (fun w _ _ => Some w)
    (fun w _ => Some w) netif_world0 4000 (Some 0x0500a8c0) (Some 0x00ffffff) None example_env) as (w' & E & Hn & _).
  exists w'. split; [exact E|]. rewrite (Hn 4000). split; reflexivity.
Defined.

Lemma remove_witness :
  exists w', netif_remove (fun s _ => s) 20%nat (fun _ w _ _ _ => w) (fun _ w _ => Some w) (fun w _ _ => Some w) netif_world0 4000 = Some w' /\
    netif_list (w_netifs w') = [] /\ netif_default (w_netifs w') = NULL /\ has_flag w' 4000 NETIF_FLAG_UP = false /\ no_entries w' 4000.
Proof.
  destruct (remove_forgets (fun s _ => s) 20%nat (fun w => (w, 3)) (fun _ w _ _ _ => w) (fun _ w _ => Some w) (fun w _ _ => Some w)
    (fun w _ => Some w) netif_world0 4000 example_env) as (w' & E & _ & Hl & Hd & Hu & _ & Hn).
  - discriminate.
  - repeat constructor. by intros ?%elem_of_nil.
  - apply (arp_inv_ext (arp0 net_st)); [reflexivity|reflexivity|apply arp0_inv].
  - exists w'. split; [exact E|]. split; [exact Hl|]. split; [exact Hd|]. split; [exact Hu|]. apply Hn; reflexivity.
Defined.

Lemma add_witness :
  exists w', netif_add (fun s _ => s) 20%nat link0 (fun w => (w, 3)) (fun _ w _ _ _ => w) (fun _ w _ => Some w) (fun w _ _ => Some w)
      netif_world0 5000 (Some 0x0600a8c0) (Some 0x00ffffff) None 0 t41_init 1 = Some (w', 5000) /\
    netif_list (w_netifs w') = [5000; 4000] /\ netif_ip_addr (netif_of w' 5000) = 0x0600a8c0.
Proof.
  destruct (add_registers (fun s _ => s) 20%nat link0 (fun w => (w, 3)) (fun _ w _ _ _ => w) (fun _ w _ => Some w) (fun w _ _ => Some w)
    (fun w _ => Some w) netif_world0 5000 (Some 0x0600a8c0) (Some 0x00ffffff) None 0 t41_init 1 example_env) as (w1 & Hn & [Hl _] & _ & _ & Hi).
  cbn [t41_init] in Hi. destruct Hi as (w' & E & Hl' & Hn' & _). exists w'. split; [exact E|].
  split; [rewrite Hl'; simpl; by rewrite Hl|]. rewrite Hn', netif_of_upd. simpl. by rewrite Hn.
Defined.
