(* ===== verification/Network.v ===== *)
(** * The whole stack

    The layers of [Stack] with IGMP and the functions for interfaces: the events that can
    happen, in any order, and the invariants of ARP, of the groups and of the list of
    interfaces over all of them. *)

From Stdlib Require Import ZArith Lia.
From stdpp Require Import base tactics numbers list option gmap.
From S2P Require Import Prelude.
From S2P Require Import Def.
From S2P Require Import Ip4Addr.
From S2P Require Import Alloc.
From S2P Require Import Mem.
From S2P Require Import Memp.
From S2P Require Import Pbuf.
From S2P Require Import PbufChain.
From S2P Require Import Etharp.
From S2P Require Import World.
From S2P Require Import Ip4Frag.
From S2P Require Import Ip4.
From S2P Require Import Icmp.
From S2P Require Import Igmp.
From S2P Require Import Ip4Reass.
From S2P Require Import Udp.
From S2P Require Import Ip4Input.
From S2P Require Import Stack.
From S2P Require Import Netif.

Section Network.
Context {Y : Type}.
#[local] Abbreviation X := (arp_part * (netif_part * Y))%type.
#[local] Abbreviation W := (world X).
Context (custom_free : pstate -> Z -> pstate) (fuel : nat) (linkoutput : Z -> pstate -> Z -> pstate * Z).
Context (dhcp_arp_reply : Z -> Z -> estate -> estate) (udp_recv_fn : Z -> W -> Z -> Z -> Z -> Z -> Z -> option W).
Context (tcp_input : W -> Z -> Z -> option W) (rand : W -> W * Z) (ra : Z).
Context (call_filter : Z -> W -> Z -> Z -> bool -> W) (callback : Z -> W -> Z -> option W).
Context (tcp_netif_ip_addr_changed : W -> Z -> Z -> option W) (dhcp_network_changed : W -> Z -> option W).
Implicit Types w : W.

#[local] Abbreviation output := (eth_output custom_free fuel linkoutput).
#[local] Abbreviation filter := (igmp_mac_filter call_filter).

(** What [ip4_input] asks IGMP, and [netif->input]. *)
Definition in_group w (nif addr : Z) : bool := bool_decide (is_Some (igmp_lookfor_group w nif addr)).
Definition network_input w (p nif : Z) : option (W * Z) :=
  stack_input custom_free fuel linkoutput dhcp_arp_reply udp_recv_fn in_group (igmp_input custom_free fuel rand) tcp_input w p nif.

(** [netif_input(p, inp)] *)
Definition netif_input w (p inp : Z) : option (W * Z) :=
  if negb (Z.land (netif_flags (netif_of w inp)) (Z.lor NETIF_FLAG_ETHARP NETIF_FLAG_ETHERNET) =? 0)
  then network_input w p inp
  else ip4_input output custom_free fuel udp_recv_fn in_group (igmp_input custom_free fuel rand) tcp_input w p inp.

(** ** The invariant *)

Record netifs_ok (v : netifs) : Prop := {
  no_nodup : NoDup (netif_list v);
  no_null : NULL ∉ netif_list v;
  no_default : netif_default v = NULL \/ netif_default v ∈ netif_list v
}.

Definition net_inv w : Prop := arp_inv (es_of w) /\ igmp_inv w /\ netifs_ok (w_netifs w).

(** The invariant is one of the external state and the interfaces. *)
Lemma net_inv_ext w w' : w_ext w' = w_ext w -> netifs_ok (w_netifs w') -> net_inv w -> net_inv w'.
Proof.
  intros E Hn (Ha & Hi & _). split; [apply (arp_inv_ext (es_of w)); [| |done]; unfold es_of; simpl; by rewrite E|].
  split; [|done]. apply (inv_same w); [|done]. intros n. unfold groups. by rewrite E.
Qed.

#[local] Instance net_keeps : udp_keeps net_inv.
Proof.
  constructor.
  - constructor; intros w **; (apply (net_inv_ext w); [done|by apply H|done]).
  - intros w l _ Hi. apply (net_inv_ext w); [done|apply Hi|done].
  - intros w pcb w' r Hb _ _ Hi. unfold auto_bind in Hb. destruct (_ =? 0); [|by injection Hb as <- _].
    apply (net_inv_ext w); [by eapply udp_bind_ext| |done]. rewrite (udp_bind_netifs _ _ _ _ _ _ Hb). apply Hi.
Qed.

Lemma put_es_net w es : net_inv w -> arp_inv es -> net_inv (put_es w es).
Proof. intros (_ & Hi & Hn) Ha. split; [by apply (arp_inv_ext es)|]. split; [|done]. by apply (inv_same w). Qed.

Lemma output_net : output_keeps output net_inv.
Proof.
  intros w nif p dest w' r H Hi. unfold eth_output in H. destruct (etharp_output _ _ _ _ _ _ _ _) as [[es e]|] eqn:E; [|done].
  injection H as <- _. apply put_es_net; [done|]. eapply output_inv; [apply Hi|exact E].
Qed.

(** ** What is beside the stack *)

(** [rand] and the filter of the MAC leave the stack alone; the callbacks, TCP and DHCP may
    call it, and preserve the invariant. *)
Definition outside w w' : Prop := same_table w w' /\ same_groups w w' /\ w_netifs w' = w_netifs w.
Record network_env : Prop := {
  ne_rand : forall w, outside w (rand w).1;
  ne_filter : forall f w nif a add, outside w (call_filter f w nif a add);
  ne_callback : forall c w nif w', callback c w nif = Some w' -> net_inv w -> net_inv w';
  ne_tcp_changed : forall w old new w', tcp_netif_ip_addr_changed w old new = Some w' -> net_inv w -> net_inv w';
  ne_dhcp_changed : forall w nif w', dhcp_network_changed w nif = Some w' -> net_inv w -> net_inv w';
  ne_dhcp_reply : forall nif ip es, arp_inv es -> arp_inv (dhcp_arp_reply nif ip es);
  ne_tcp_input : forall w p inp w', tcp_input w p inp = Some w' -> net_inv w -> net_inv w';
  ne_recv : forall f w arg pcb p addr port w', udp_recv_fn f w arg pcb p addr port = Some w' -> net_inv w -> net_inv w'
}.
Context (Henv : network_env).

Lemma outside_net w w' : outside w w' -> net_inv w -> net_inv w'.
Proof.
  intros (E1 & E2 & E3) (Ha & Hi & Hn). split; [by apply (table_inv w)|]. split; [by apply (inv_same w)|by rewrite E3].
Qed.

Lemma filter_outside w nif a add : outside w (mac_filter filter w nif a add).
Proof. unfold mac_filter, igmp_mac_filter. destruct (_ =? NULL); [done|apply Henv]. Qed.

(** *** IGMP *)

(** The part of the invariant that does not depend on the groups. *)
Definition arp_netifs w : Prop := arp_inv (es_of w) /\ netifs_ok (w_netifs w).

#[local] Instance arp_netifs_frame : ip_frame arp_netifs.
Proof. constructor; intros w **; (split; [by apply (table_inv w), H|by apply H]). Qed.

Lemma net_inv_parts w : net_inv w <-> arp_netifs w /\ igmp_inv w.
Proof. unfold net_inv, arp_netifs. tauto. Qed.

Lemma an_output : output_keeps output arp_netifs.
Proof.
  intros w nif p dest w' r H [Ha Hn]. unfold eth_output in H. destruct (etharp_output _ _ _ _ _ _ _ _) as [[es e]|] eqn:E; [|done].
  injection H as <- _. split; [|done]. apply (arp_inv_ext es); [done|done|]. eapply output_inv; [exact Ha|exact E].
Qed.

Lemma an_groups w nif l : arp_netifs w -> arp_netifs (set_groups w nif l).
Proof. intros [Ha Hn]. split; [by apply (table_inv w)|done]. Qed.

Lemma an_outside w w' : outside w w' -> arp_netifs w -> arp_netifs w'.
Proof. intros (E1 & _ & E3) [Ha Hn]. split; [by apply (table_inv w)|by rewrite E3]. Qed.

Lemma an_rand w : arp_netifs w -> arp_netifs (rand w).1.
Proof. apply an_outside, Henv. Qed.

Lemma an_filter w nif addr add : arp_netifs w -> arp_netifs (mac_filter filter w nif addr add).
Proof. apply an_outside, filter_outside. Qed.

Lemma igmp_private : groups_private output rand filter.
Proof.
  constructor.
  - intros G w nif p dest w' r H HG. unfold eth_output in H. destruct (etharp_output _ _ _ _ _ _ _ _) as [[es e]|]; [|done]. by injection H as <- _.
  - intros w G HG n. rewrite <- (HG n). apply Henv.
  - intros nif f w addr add G E HG n. unfold igmp_mac_filter in E. destruct (_ =? NULL); [done|]. injection E as <-. rewrite <- (HG n). apply Henv.
Qed.

Lemma igmp_start_net w nif : net_inv w -> net_inv (igmp_start filter w nif).1.
Proof.
  destruct igmp_private as [P1 P2 P3]. rewrite !net_inv_parts. intros [Ha Hi]. split; [|by apply start_inv].
  by apply (igmp_start_keeps _ arp_netifs an_groups an_filter).
Qed.

Lemma igmp_stop_net w nif : net_inv w -> net_inv (igmp_stop filter w nif).1.
Proof.
  destruct igmp_private as [P1 P2 P3]. rewrite !net_inv_parts. intros [Ha Hi]. split; [|by apply stop_inv].
  by apply (igmp_stop_keeps _ arp_netifs an_groups an_filter).
Qed.

Lemma igmp_reports_net w nif : net_inv w -> net_inv (igmp_report_groups rand w nif).
Proof.
  destruct igmp_private as [P1 P2 P3]. rewrite !net_inv_parts. intros [Ha Hi]. split; [|by apply delay_members_inv].
  by apply (delay_members_keeps _ arp_netifs an_groups an_rand).
Qed.

Lemma igmp_input_net w p inp dest w' : igmp_input custom_free fuel rand w p inp dest = Some w' -> net_inv w -> net_inv w'.
Proof.
  destruct igmp_private as [P1 P2 P3]. rewrite !net_inv_parts. intros H [Ha Hi].
  split; [by apply (igmp_input_keeps _ _ _ arp_netifs an_groups an_rand) in H|by apply input_keeps_inv in H].
Qed.

(** *** Interfaces *)

Lemma upd_netif_net w nif f : net_inv w -> net_inv (upd_netif w nif f).
Proof. intros Hi. apply (net_inv_ext w); [done| |done]. destruct Hi as (_ & _ & []). by constructor. Qed.

Lemma status_net w nif w' : NETIF_STATUS_CALLBACK callback w nif = Some w' -> net_inv w -> net_inv w'.
Proof. unfold NETIF_STATUS_CALLBACK. destruct (_ =? _); [by intros [= <-]|apply Henv]. Qed.

Lemma link_net w nif w' : NETIF_LINK_CALLBACK callback w nif = Some w' -> net_inv w -> net_inv w'.
Proof. unfold NETIF_LINK_CALLBACK. destruct (_ =? _); [by intros [= <-]|apply Henv]. Qed.

Lemma reports_net w nif t : net_inv w -> net_inv (netif_issue_reports custom_free fuel linkoutput rand w nif t).
Proof.
  intros Hi. unfold netif_issue_reports. destruct (_ && _); [|done]. cbv zeta. set (w1 := if has_flag w nif NETIF_FLAG_ETHARP then _ else _).
  assert (Hi1 : net_inv w1).
  { unfold w1. destruct (has_flag _ _ _); [|done]. apply put_es_net; [done|].
    destruct (etharp_raw_table (ops custom_free fuel) linkoutput (es_of w) nif (hwaddr (netif_of w) nif) ethbroadcast (hwaddr (netif_of w) nif)
      (netif_ip_addr (netif_of w nif)) ethzero (netif_ip_addr (netif_of w nif)) ARP_REQUEST) as [E1 E2].
    apply (arp_inv_ext (es_of w)); [exact E1|exact E2|apply Hi]. }
  destruct (has_flag w1 nif _); [by apply igmp_reports_net|done].
Qed.

Lemma udp_changed_net w old new : net_inv w -> net_inv (udp_netif_ip_addr_changed w old new).
Proof. intros Hi. destruct (udp_changed_same w old new) as (H1 & H2 & H3). apply (outside_net w); [|done]. split; [done|]. split; [done|apply H1]. Qed.

Lemma set_ipaddr_net w nif ip w' :
  netif_set_ipaddr custom_free fuel linkoutput rand callback tcp_netif_ip_addr_changed w nif ip = Some w' -> net_inv w -> net_inv w'.
Proof.
  unfold netif_set_ipaddr. destruct (negb _); [|by intros [= <-]]. destruct (tcp_netif_ip_addr_changed _ _ _) as [w1|] eqn:E; [|done].
  cbn [mbind option_bind]. intros H Hi. eapply status_net; [exact H|]. apply reports_net, upd_netif_net, udp_changed_net.
  eapply ne_tcp_changed; [exact Henv|exact E|done].
Qed.

Lemma set_addr_net w nif ip m g w' :
  netif_set_addr custom_free fuel linkoutput rand callback tcp_netif_ip_addr_changed w nif ip m g = Some w' -> net_inv w -> net_inv w'.
Proof.
  unfold netif_set_addr. destruct (ip4_addr_isany _).
  - destruct (netif_set_ipaddr _ _ _ _ _ _ _ _ _) as [w1|] eqn:E; [|done]. intros [= <-] Hi. apply upd_netif_net, upd_netif_net. by eapply set_ipaddr_net.
  - intros H Hi. eapply set_ipaddr_net; [exact H|]. by apply upd_netif_net, upd_netif_net.
Qed.

Lemma set_down_net w nif w' : netif_set_down custom_free fuel callback w nif = Some w' -> net_inv w -> net_inv w'.
Proof.
  unfold netif_set_down. destruct (has_flag w nif NETIF_FLAG_UP); [|by intros [= <-]]. intros H Hi. eapply status_net; [exact H|].
  set (w1 := upd_netif w nif _). assert (Hi1 : net_inv w1) by (by apply upd_netif_net). destruct (has_flag w1 nif _); [|done].
  apply put_es_net; [done|]. apply cleanup_correct, Hi1.
Qed.

Lemma remove_net w nif w' : netif_remove custom_free fuel call_filter callback tcp_netif_ip_addr_changed w nif = Some w' -> net_inv w -> net_inv w'.
Proof.
  unfold netif_remove. destruct (nif =? NULL); [by intros [= <-]|].
  destruct (if negb _ then _ else _) as [w1|] eqn:E1; [|done]. cbn [mbind option_bind]. intros H Hi.
  assert (Hi1 : net_inv w1).
  { destruct (negb _); [|by injection E1 as <-]. destruct (tcp_netif_ip_addr_changed _ _ _) as [w0|] eqn:E0; [|done].
    injection E1 as <-. apply udp_changed_net. eapply ne_tcp_changed; [exact Henv|exact E0|done]. }
  set (w2 := if has_flag w1 nif NETIF_FLAG_IGMP then _ else _) in H.
  assert (Hi2 : net_inv w2) by (unfold w2; destruct (has_flag _ _ _); [by apply igmp_stop_net|done]).
  destruct (if has_flag w2 nif NETIF_FLAG_UP then _ else _) as [w3|] eqn:E3; [|done]. cbn [mbind option_bind] in H.
  assert (Hi3 : net_inv w3) by (destruct (has_flag w2 nif NETIF_FLAG_UP); [by eapply set_down_net|by injection E3 as <-]).
  injection H as <-. apply (net_inv_ext w3); [by destruct (_ =? _)| |done]. destruct Hi3 as (_ & _ & [N1 N2 N3]).
  assert (El : netif_list (w_netifs (if netif_default (w_netifs w3) =? nif then netif_set_default w3 NULL else w3)) = netif_list (w_netifs w3))
    by (by destruct (_ =? _)).
  constructor; cbn [set_netif_list set_netifs w_netifs netif_list netif_default]; rewrite El.
  - by apply NoDup_list_remove1.
  - intros H. by apply N2, (elem_of_list_remove1 nif).
  - destruct (Z.eqb_spec (netif_default (w_netifs w3)) nif) as [|Hd]; [by left|]. destruct N3 as [|N3]; [by left|]. right.
    by apply elem_of_list_remove1_ne.
Qed.

Lemma set_up_net w nif w' : netif_set_up custom_free fuel linkoutput rand callback w nif = Some w' -> net_inv w -> net_inv w'.
Proof.
  unfold netif_set_up. destruct (negb _); [|by intros [= <-]]. destruct (NETIF_STATUS_CALLBACK _ _ _) as [w1|] eqn:E; [|done].
  intros [= <-] Hi. assert (net_inv w1) by (eapply status_net; [exact E|]; by apply upd_netif_net). destruct (has_flag _ _ _); [by apply reports_net|done].
Qed.

Lemma link_up_net w nif w' : netif_set_link_up custom_free fuel linkoutput rand callback dhcp_network_changed w nif = Some w' -> net_inv w -> net_inv w'.
Proof.
  unfold netif_set_link_up. destruct (negb _); [|by intros [= <-]]. destruct (dhcp_network_changed _ _) as [w1|] eqn:E; [|done].
  intros H Hi. assert (net_inv w1) by (eapply ne_dhcp_changed; [exact Henv|exact E|]; by apply upd_netif_net).
  eapply link_net; [exact H|]. destruct (has_flag _ _ _); [by apply reports_net|done].
Qed.

Lemma link_down_net w nif w' : netif_set_link_down callback w nif = Some w' -> net_inv w -> net_inv w'.
Proof.
  unfold netif_set_link_down. destruct (has_flag _ _ _); [|by intros [= <-]]. intros H Hi. eapply link_net; [exact H|]. by apply upd_netif_net.
Qed.

Lemma reset_net w nif state input : net_inv w -> net_inv (netif_reset w nif state input).
Proof.
  intros (Ha & Hi & Hn). split; [by apply (table_inv w)|]. split.
  - intros n. unfold netif_reset, groups, set_info, set_part. simpl. destruct (n =? nif); [constructor; constructor|apply (Hi n)].
  - destruct Hn. by constructor.
Qed.

(** The driver registers an interface that is not in the list. *)
Definition may_add w (nif : Z) (ip m g : option Z) (state input : Z) (init : W -> Z -> W * Z) : Prop :=
  nif <> NULL /\ (forall w, net_inv w -> net_inv (init w nif).1) /\
  forall w1, netif_set_addr custom_free fuel linkoutput rand callback tcp_netif_ip_addr_changed (netif_reset w nif state input) nif ip m g = Some w1 ->
    nif ∉ netif_list (w_netifs (init w1 nif).1).

Lemma add_net w nif ip m g state init input w' r :
  may_add w nif ip m g state input init ->
  netif_add custom_free fuel linkoutput rand call_filter callback tcp_netif_ip_addr_changed w nif ip m g state init input = Some (w', r) ->
  net_inv w -> net_inv w'.
Proof.
  intros (Hn & Hinit & Hnew). unfold netif_add. destruct (netif_set_addr _ _ _ _ _ _ _ _ _ _ _) as [w1|] eqn:E1; [|done].
  cbn [mbind option_bind]. intros H Hi. specialize (Hnew w1 eq_refl). assert (Hi1 : net_inv w1) by (eapply set_addr_net; [exact E1|]; by apply reset_net).
  specialize (Hinit w1 Hi1). destruct (init w1 nif) as [w2 e]. cbn [fst] in *. destruct (negb _); [by injection H as <- _|].
  assert (Hi3 : net_inv (set_netif_list w2 (nif :: netif_list (w_netifs w2)))).
  { apply (net_inv_ext w2); [done| |done]. destruct Hinit as (_ & _ & [N1 N2 N3]).
    constructor; cbn [set_netif_list set_netifs w_netifs netif_list netif_default]; [by constructor| |].
    - rewrite not_elem_of_cons. auto.
    - destruct N3 as [|N3]; [by left|right; by right]. }
  destruct (has_flag _ _ _); injection H as <- _; [by apply igmp_start_net|done].
Qed.

(** ** The events *)

Inductive network_step : W -> W -> Prop :=
| net_frame w p nif w' r : network_input w p nif = Some (w', r) -> network_step w w'
| net_input w p nif w' r : netif_input w p nif = Some (w', r) -> network_step w w'
| net_arp_tmr w : network_step w (arp_timer custom_free fuel linkoutput w)
| net_reass_tmr w w' : ip_reass_tmr output custom_free fuel w = Some w' -> network_step w w'
| net_igmp_tmr w w' : igmp_tmr output custom_free fuel ra w = Some w' -> network_step w w'
| net_ip_output w p src dest ttl tos proto w' r : ip4_output output custom_free fuel w p src dest ttl tos proto = Some (w', r) -> network_step w w'
| net_udp_bind w pcb ip port w' r : udp_bind w pcb ip port = Some (w', r) -> network_step w w'
| net_udp_sendto w pcb p dst port w' r :
    is_Some (udp_pcb_at w !! pcb) -> udp_sendto output custom_free fuel w pcb p dst port = Some (w', r) -> network_step w w'
| net_udp_new w : network_step w (udp_new w).1
| net_udp_recv w pcb f arg : network_step w (udp_recv w pcb f arg)
| net_udp_connect w pcb ip port w' r : udp_connect w pcb ip port = Some (w', r) -> network_step w w'
| net_udp_disconnect w pcb : network_step w (udp_disconnect w pcb)
| net_udp_remove w pcb : network_step w (udp_remove w pcb)
| net_join w ifaddr addr w' e :
    (forall w1, rtc (join_call output custom_free fuel rand filter ra) w w1 -> fresh_group w1 /\ started w1) ->
    igmp_joingroup output custom_free fuel rand filter ra w ifaddr addr = Some (w', e) -> network_step w w'
| net_leave w ifaddr addr w' e : igmp_leavegroup output custom_free fuel filter ra w ifaddr addr = Some (w', e) -> network_step w w'
| net_add w nif ip m g state init input w' r :
    may_add w nif ip m g state input init ->
    netif_add custom_free fuel linkoutput rand call_filter callback tcp_netif_ip_addr_changed w nif ip m g state init input = Some (w', r) -> network_step w w'
| net_remove w nif w' : netif_remove custom_free fuel call_filter callback tcp_netif_ip_addr_changed w nif = Some w' -> network_step w w'
| net_set_addr w nif ip m g w' :
    netif_set_addr custom_free fuel linkoutput rand callback tcp_netif_ip_addr_changed w nif ip m g = Some w' -> network_step w w'
| net_set_default w nif : nif = NULL \/ nif ∈ netif_list (w_netifs w) -> network_step w (netif_set_default w nif)
| net_set_up w nif w' : netif_set_up custom_free fuel linkoutput rand callback w nif = Some w' -> network_step w w'
| net_set_down w nif w' : netif_set_down custom_free fuel callback w nif = Some w' -> network_step w w'
| net_link_up w nif w' : netif_set_link_up custom_free fuel linkoutput rand callback dhcp_network_changed w nif = Some w' -> network_step w w'
| net_link_down w nif w' : netif_set_link_down callback w nif = Some w' -> network_step w w'
| net_status_callback w nif c : network_step w (netif_set_status_callback w nif c)
| net_link_callback w nif c : network_step w (netif_set_link_callback w nif c).

Lemma input_net w p nif w' r : network_input w p nif = Some (w', r) -> net_inv w -> net_inv w'.
Proof.
  intros H Hi. refine (ethernet_input_keeps output custom_free fuel udp_recv_fn in_group (igmp_input custom_free fuel rand) tcp_input
    (arp_input custom_free fuel linkoutput dhcp_arp_reply) net_inv output_net _ (ne_tcp_input Henv) igmp_input_net _ w p nif w' r H Hi).
  - intros w1 p1 inp w2. apply (udp_input_keeps _ _ _ _ net_inv output_net (ne_recv Henv)).
  - intros w1 p1 n1 w2 [= <-] H1. apply put_es_net; [done|]. apply input_inv; [apply Henv|apply H1].
Qed.

Lemma ip_input_net w p nif w' r :
  ip4_input output custom_free fuel udp_recv_fn in_group (igmp_input custom_free fuel rand) tcp_input w p nif = Some (w', r) -> net_inv w -> net_inv w'.
Proof.
  apply (ip4_input_keeps output custom_free fuel udp_recv_fn in_group (igmp_input custom_free fuel rand) tcp_input net_inv output_net); [|apply Henv|apply igmp_input_net].
  intros w1 p1 inp w2. apply (udp_input_keeps _ _ _ _ net_inv output_net (ne_recv Henv)).
Qed.

Lemma same_ext w w' : w_ext w' = w_ext w -> w_netifs w' = w_netifs w -> net_inv w -> net_inv w'.
Proof. intros E1 E2 Hi. apply (net_inv_ext w); [done|rewrite E2; apply Hi|done]. Qed.

Lemma network_step_inv w w' : network_step w w' -> net_inv w -> net_inv w'.
Proof.
  intros Hs Hi. destruct igmp_private as [P1 P2 P3]. destruct Hs.
  - by eapply input_net.
  - unfold netif_input in H. destruct (negb _); [by eapply input_net|by eapply ip_input_net].
  - apply put_es_net; [done|]. apply tmr_correct, Hi.
  - by eapply (reass_tmr_keeps _ _ _ net_inv output_net).
  - apply net_inv_parts in Hi as [Ha Hi]. apply net_inv_parts. split; [|by eapply tmr_inv].
    by eapply (igmp_tmr_keeps _ _ _ _ arp_netifs an_output an_groups).
  - unfold ip4_output in H. pose proof (ip4_route_keeps net_inv w dest Hi) as Hr. destruct (ip4_route w dest) as [w1 nif].
    simpl in Hr. destruct (nif =? NULL); [injection H as <- _; by frame|]. by eapply (ip4_output_if_keeps _ _ _ net_inv output_net).
  - apply (same_ext w); [by eapply udp_bind_ext|by eapply udp_bind_netifs|done].
  - by eapply (udp_sendto_keeps _ _ _ net_inv output_net).
  - unfold udp_new. destruct (memp_malloc _ _). cbv zeta. apply (same_ext w); [by destruct (negb _)|by destruct (negb _)|done].
  - by apply (same_ext w).
  - destruct (udp_connect_ext _ _ _ _ _ _ H). by apply (same_ext w).
  - by apply (same_ext w).
  - by apply (same_ext w).
  - apply net_inv_parts in Hi as [Ha Hi]. apply net_inv_parts. split.
    + by eapply (igmp_joingroup_keeps _ _ _ _ _ _ arp_netifs an_output an_groups an_rand an_filter).
    + eapply igmp_step_inv; [exact P1|exact P2|exact P3| |exact Hi]. by eapply step_join.
  - apply net_inv_parts in Hi as [Ha Hi]. apply net_inv_parts. split.
    + by eapply (igmp_leavegroup_keeps _ _ _ _ _ arp_netifs an_output an_groups an_filter).
    + eapply igmp_step_inv; [exact P1|exact P2|exact P3| |exact Hi]. by eapply step_leave.
  - by eapply add_net.
  - by eapply remove_net.
  - by eapply set_addr_net.
  - apply (net_inv_ext w); [done| |done]. destruct Hi as (_ & _ & [N1 N2 _]). by constructor.
  - by eapply set_up_net.
  - by eapply set_down_net.
  - by eapply link_up_net.
  - by eapply link_down_net.
  - unfold netif_set_status_callback. destruct (negb _); [|done]. by apply (outside_net w).
  - unfold netif_set_link_callback. destruct (negb _); [|done]. by apply (outside_net w).
Qed.

End Network.


(** C9: In every state that the whole stack reaches from its start, through frames of any
    content on any interface, timer ticks, packets and datagrams sent, calls of the UDP
    functions, groups joined and left, and interfaces added, removed, given addresses and
    brought up and down, the invariant of the ARP table, the one of the multicast groups and
    the one of the list of interfaces (each once, none [NULL], the default among them) hold
    together.  What the program has to see to: a group is joined only when the interfaces it
    is joined on are started for IGMP and the pool gives out a free element (without the
    first, the group of the first join is linked to a freed one, [first_group_dangles]); an
    interface is added only while it is not in the list, and its [init] function keeps the
    invariants; only an interface in the list, or [NULL], is made the default; the random
    numbers and the MAC filter do not touch the stack; and the callbacks, TCP and DHCP
    preserve the invariants when they are called. *)
Theorem network_safe {Y} custom_free fuel linkoutput dhcp_arp_reply udp_recv_fn tcp_input rand ra call_filter callback tcp_changed dhcp_changed
    (w0 w : world (arp_part * (netif_part * Y))) :
  network_env dhcp_arp_reply udp_recv_fn tcp_input rand call_filter callback tcp_changed dhcp_changed ->
  (w_ext w0).1 = mk_ap (replicate ARP_TABLE_SIZE entry0) 0 -> (forall n, groups w0 n = []) -> w_netifs w0 = mk_netifs (nif_at (w_netifs w0)) [] NULL ->
  rtc (network_step custom_free fuel linkoutput dhcp_arp_reply udp_recv_fn tcp_input rand ra call_filter callback tcp_changed dhcp_changed) w0 w ->
  arp_inv (es_of w) /\ (forall n, groups_ok (groups w n)) /\ netifs_ok (w_netifs w).
Proof.
  intros He H1 H2 H3 Hs. change (net_inv w). assert (H0 : net_inv w0).
  { split; [|split].
    - apply (arp_inv_ext (arp0 (w_ps w0))); [| |apply arp0_inv]; simpl; by rewrite H1.
    - intros n. rewrite H2. constructor; constructor.
    - rewrite H3. constructor; simpl; [constructor|by intros ?%elem_of_nil|by left]. }
  clear H1 H2 H3. induction Hs as [|x y z Hxy _ IH]; [done|]. apply IH. by eapply network_step_inv.
Qed.

(** The board before any interface is registered. *)
Definition bare_board : world (arp_part * (netif_part * unit)) := set_netifs netif_world0 (mk_netifs (fun _ => net_if) [] NULL).

Lemma example_network :
  network_env (Y := unit) (fun _ _ es => es) (fun _ w _ _ _ _ _ => Some w) (fun _ _ _ => None) (fun w => (w, 3)) (fun _ w _ _ _ => w)
    (fun _ w _ => Some w) (fun w _ _ => Some w) (fun w _ => Some w).
Proof. by constructor; intros; simplify_eq. Qed.

Lemma network_safe_witness :
  exists w, netif_add (fun s _ => s) 20%nat link0 (fun w => (w, 3)) (fun _ w _ _ _ => w) (fun _ w _ => Some w) (fun w _ _ => Some w)
      bare_board 5000 (Some 0x0600a8c0) (Some 0x00ffffff) None 0 t41_init 1 = Some (w, 5000) /\
    length (groups w 5000) = 1%nat /\ arp_inv (es_of w) /\ (forall n, groups_ok (groups w n)) /\ netifs_ok (w_netifs w).
Proof.
  assert (Hr : match netif_add (fun s _ => s) 20%nat link0 (fun w => (w, 3)) (fun _ w _ _ _ => w) (fun _ w _ => Some w) (fun w _ _ => Some w)
      bare_board 5000 (Some 0x0600a8c0) (Some 0x00ffffff) None 0 t41_init 1 with
    Some (w, r) => r = 5000 /\ length (groups w 5000) = 1%nat | None => False end) by (vm_compute; auto).
  destruct (netif_add _ _ _ _ _ _ _ bare_board _ _ _ _ _ _ _) as [[w r]|] eqn:E; [|destruct Hr]. destruct Hr as [-> Hr].
  exists w. split; [reflexivity|]. split; [exact Hr|].
  apply (network_safe (fun s _ => s) 20%nat link0 (fun _ _ es => es) (fun _ w _ _ _ _ _ => Some w) (fun _ _ _ => None) (fun w => (w, 3)) 3000
    (fun _ w _ _ _ => w) (fun _ w _ => Some w) (fun w _ _ => Some w) (fun w _ => Some w) bare_board).
  - exact example_network.
  - reflexivity.
  - reflexivity.
  - reflexivity.
  - apply rtc_once. eapply net_add; [|exact E]. split; [discriminate|]. split.
    + intros w1 Hi. by apply upd_netif_net.
    + intros w1 H1. destruct (set_addr_correct (fun s _ => s) 20%nat link0 (fun w => (w, 3)) (fun _ w _ _ _ => w) (fun _ w _ => Some w)
        (fun w _ _ => Some w) (fun w _ => Some w) example_env (netif_reset bare_board 5000 0 1) 5000 (Some 0x0600a8c0) (Some 0x00ffffff) None)
        as (w2 & E2 & _ & [El _] & _). rewrite E2 in H1. injection H1 as <-. simpl. rewrite El. apply not_elem_of_nil.
Defined.
