(* ===== verification/Slip.v ===== *)
(** * [netif/slipif.c]: IP over a serial line

    The interface for [NO_SYS] 1: no receive thread and no queue filled by an interrupt
    handler.  The serial device ([sio_open], [sio_send], [sio_tryread]) is a parameter. *)

From Stdlib Require Import ZArith Lia.
From stdpp Require Import base tactics numbers list option gmap.
From S2P Require Import Prelude.
From S2P Require Import Def.
From S2P Require Import Ip4Addr.
From S2P Require Import Alloc.
From S2P Require Import Mem.
From S2P Require Import Memp.
From S2P Require Import Pbuf.
From S2P Require Import PbufChain.
From S2P Require Import Etharp.
From S2P Require Import World.
From S2P Require Import Ip4Frag.
From S2P Require Import Ip4.
From S2P Require Import Icmp.
From S2P Require Import Igmp.
From S2P Require Import Ip4Reass.
From S2P Require Import Udp.
From S2P Require Import Ip4Input.
From S2P Require Import Stack.
From S2P Require Import Netif.

Definition SLIP_END : Z := 0xC0.
Definition SLIP_ESC : Z := 0xDB.
Definition SLIP_ESC_END : Z := 0xDC.
Definition SLIP_ESC_ESC : Z := 0xDD.
Definition SLIP_MAX_SIZE : Z := 1500.
(** [enum slipif_recv_state] *)
Inductive slipif_recv_state := SLIP_RECV_NORMAL | SLIP_RECV_ESCAPE.
(** [struct slipif_priv] *)
Record slipif_priv := mk_priv { sl_sd : Z; sl_p : Z; sl_q : Z; sl_state : slipif_recv_state; sl_i : Z; sl_recved : Z }.
Definition SIZEOF_SLIPIF_PRIV : Z := 20.
Definition sl_set_state v x := mk_priv (sl_sd x) (sl_p x) (sl_q x) v (sl_i x) (sl_recved x).
Definition sl_set_p v x := mk_priv (sl_sd x) v (sl_q x) (sl_state x) (sl_i x) (sl_recved x).
Definition sl_set_q v x := mk_priv (sl_sd x) (sl_p x) v (sl_state x) (sl_i x) (sl_recved x).
Definition sl_set_i v x := mk_priv (sl_sd x) (sl_p x) (sl_q x) (sl_state x) v (sl_recved x).
Definition sl_set_recved v x := mk_priv (sl_sd x) (sl_p x) (sl_q x) (sl_state x) (sl_i x) v.

(** The private data of the interfaces, by address. *)
Class slip_store (Y : Type) := {
  priv_get : Y -> Z -> slipif_priv;
  priv_put : Y -> Z -> slipif_priv -> Y;
  priv_get_put : forall y a v, priv_get (priv_put y a v) a = v
}.

#[local] Abbreviation ext Y := (arp_part * (netif_part * Y))%type.

Section Slip.
Context {Y : Type} `{!slip_store Y}.
#[local] Abbreviation W := (world (ext Y)).
Context (custom_free : pstate -> Z -> pstate) (fuel : nat).
Context (sio_open : W -> Z -> W * Z) (sio_send : W -> Z -> Z -> W) (sio_tryread : W -> Z -> W * option Z).
(** [netif->input]: the function, then packet and interface. *)
Context (netif_input : Z -> W -> Z -> Z -> option (W * Z)).
Implicit Types w : W.

(** [netif->state] *)
Definition priv w (nif : Z) : slipif_priv := priv_get (w_ext w).2.2 (ni_state (info w nif)).
Definition upd_priv w (nif : Z) (f : slipif_priv -> slipif_priv) : W :=
  let a := ni_state (info w nif) in set_ext w ((w_ext w).1, ((w_ext w).2.1, priv_put (w_ext w).2.2 a (f (priv w nif)))).

(** [slipif_output(netif, p)]: one byte, the bytes of one pbuf, the chain. *)
Definition slip_send w (sd c : Z) : W :=
  if c =? SLIP_END then sio_send (sio_send w SLIP_ESC sd) SLIP_ESC_END sd
  else if c =? SLIP_ESC then sio_send (sio_send w SLIP_ESC sd) SLIP_ESC_ESC sd
  else sio_send w c sd.
Fixpoint slip_send_bytes (n : nat) w (sd a : Z) : W :=
  match n with O => w | S n => slip_send_bytes n (slip_send w sd (wmem w a)) sd (a + 1) end.
Definition slipif_output w (nif p : Z) : option (W * Z) :=
  let sd := sl_sd (priv w nif) in
  let w := sio_send w SLIP_END sd in
  w ← loop fuel (fun '(w, q) =>
        if negb (q =? NULL) then inl (slip_send_bytes (Z.to_nat (pb_len (pb (w_ps w) q))) w sd (payload w q), pb_next (pb (w_ps w) q))
        else inr w) (w, p);
  Some (sio_send w SLIP_END sd, ERR_OK).
Definition slipif_output_v4 w (nif p ipaddr : Z) : option (W * Z) := slipif_output w nif p.

(** [slipif_rxbyte(netif, c)]: a byte of the packet, then the whole function. *)
Definition slip_byte w (nif c : Z) : option (W * Z) :=
  '(w, got) ← (if sl_p (priv w nif) =? NULL then
      '(st, p) ← pbuf_alloc custom_free fuel (w_ps w) PBUF_LINK (PBUF_POOL_BUFSIZE - PBUF_LINK_HLEN - PBUF_LINK_ENCAPSULATION_HLEN) PBUF_POOL;
      let w := upd_priv (set_wps w st) nif (sl_set_p p) in
      if p =? NULL then Some (stats_inc S_link F_drop w, false)
      else if negb (sl_q (priv w nif) =? NULL) then
        st ← pbuf_cat fuel (w_ps w) (sl_q (priv w nif)) p; Some (set_wps w st, true)
      else Some (upd_priv w nif (sl_set_q p), true)
    else Some (w, true));
  if negb got then Some (w, NULL)
  else
    let x := priv w nif in
    if negb (sl_p x =? NULL) && (sl_recved x <=? SLIP_MAX_SIZE) then
      let w := set_wmem w (upd (wmem w) (payload w (sl_p x) + sl_i x) c) in
      let w := upd_priv w nif (fun x => sl_set_i (u16 (sl_i x + 1)) (sl_set_recved (u16 (sl_recved x + 1)) x)) in
      let b := pb (w_ps w) (sl_p x) in
      if pb_len b <=? sl_i (priv w nif) then
        let w := upd_priv w nif (sl_set_i 0) in
        if negb (pb_next b =? NULL) && (0 <? pb_len (pb (w_ps w) (pb_next b)))
        then Some (upd_priv w nif (sl_set_p (pb_next b)), NULL)
        else Some (upd_priv w nif (sl_set_p NULL), NULL)
      else Some (w, NULL)
    else Some (w, NULL).
Definition slipif_rxbyte w (nif c : Z) : option (W * Z) :=
  match sl_state (priv w nif) with
  | SLIP_RECV_NORMAL =>
      if c =? SLIP_END then
        if 0 <? sl_recved (priv w nif) then
          st ← pbuf_realloc custom_free fuel (w_ps w) (sl_q (priv w nif)) (sl_recved (priv w nif));
          let w := stats_inc S_link F_recv (set_wps w st) in
          let t := sl_q (priv w nif) in
          Some (upd_priv w nif (fun x => sl_set_recved 0 (sl_set_i 0 (sl_set_q NULL (sl_set_p NULL x)))), t)
        else Some (w, NULL)
      else if c =? SLIP_ESC then Some (upd_priv w nif (sl_set_state SLIP_RECV_ESCAPE), NULL)
      else slip_byte w nif c
  | SLIP_RECV_ESCAPE =>
      let c := if c =? SLIP_ESC_END then SLIP_END else if c =? SLIP_ESC_ESC then SLIP_ESC else c in
      slip_byte (upd_priv w nif (sl_set_state SLIP_RECV_NORMAL)) nif c
  end.

(** [slipif_rxbyte_input(netif, c)], [slipif_poll(netif)] *)
Definition slipif_rxbyte_input w (nif c : Z) : option W :=
  '(w, p) ← slipif_rxbyte w nif c;
  if negb (p =? NULL) then
    '(w, err) ← netif_input (ni_input (info w nif)) w p nif;
    if negb (err =? ERR_OK) then wfree custom_free fuel w p else Some w
  else Some w.
Definition slipif_poll w (nif : Z) : option W :=
  r ← loop fuel (fun w =>
        let '(w, c) := sio_tryread w (sl_sd (priv w nif)) in
        match c with
        | None => inr (Some w)
        | Some c => match slipif_rxbyte_input w nif c with Some w => inl w | None => inr None end
        end) w;
  r.

(** [slipif_init(netif)] *)
Definition with_mtu v (n : netif) := mk_netif (netif_ip_addr n) (netif_netmask n) (netif_gw n) v (netif_hwaddr n) (netif_hwaddr_len n) (netif_flags n).
Definition set_info_state (i : netif_info) (name : Z * Z) (state : Z) : netif_info :=
  mk_info name (ni_num i) state (ni_input i) (ni_dhcp i) (ni_status_callback i) (ni_link_callback i) (ni_mac_filter i).
Definition ERR_IF : Z := -12.
Definition slipif_init w (nif : Z) : option (W * Z) :=
  '(h, a) ← mem_malloc (ps_heap (w_ps w)) SIZEOF_SLIPIF_PRIV;
  let w := set_wps w (set_heap (w_ps w) h) in
  if a =? NULL then Some (w, ERR_MEM)
  else
    let w := set_info w nif (set_info_state (info w nif) (115, 108) (ni_state (info w nif))) in
    let w := upd_netif w nif (with_mtu SLIP_MAX_SIZE) in
    let sio_num := if negb (ni_state (info w nif) =? NULL) then wmem w (ni_state (info w nif)) else ni_num (info w nif) in
    let '(w, sd) := sio_open w sio_num in
    if sd =? NULL then Some (set_wps w (set_heap (w_ps w) (mem_free (ps_heap (w_ps w)) a)), ERR_IF)
    else
      let w := set_info w nif (set_info_state (info w nif) (ni_name (info w nif)) a) in
      Some (upd_priv w nif (fun _ => mk_priv sd NULL NULL SLIP_RECV_NORMAL 0 0), ERR_OK).
End Slip.
