(* ===== verification/SlipProps.v ===== *)
(** * Properties of the SLIP interface

    A packet that one interface sends is the packet that another one receives. *)

From Stdlib Require Import ZArith Lia.
From stdpp Require Import base tactics numbers list option gmap.
From S2P Require Import Prelude.
From S2P Require Import Def.
From S2P Require Import Ip4Addr.
From S2P Require Import Alloc.
From S2P Require Import Mem.
From S2P Require Import Memp.
From S2P Require Import Pbuf.
From S2P Require Import PbufChain.
From S2P Require Import PbufAlloc.
From S2P Require Import Etharp.
From S2P Require Import World.
From S2P Require Import Ip4Frag.
From S2P Require Import Ip4.
From S2P Require Import Icmp.
From S2P Require Import Igmp.
From S2P Require Import Ip4Reass.
From S2P Require Import Udp.
From S2P Require Import Ip4Input.
From S2P Require Import Stack.
From S2P Require Import Netif.
From S2P Require Import Slip.

#[local] Abbreviation ext Y := (arp_part * (netif_part * Y))%type.

(** What goes over the line. *)
Definition escaped (c : Z) : list Z :=
  if c =? SLIP_END then [SLIP_ESC; SLIP_ESC_END] else if c =? SLIP_ESC then [SLIP_ESC; SLIP_ESC_ESC] else [c].
Definition framed (bs : list Z) : list Z := SLIP_END :: concat (map escaped bs) ++ [SLIP_END].

(** ** Sending *)

Section Output.
Context {Y : Type} `{!slip_store Y}.
#[local] Abbreviation W := (world (ext Y)).
Context (fuel : nat) (sio_send : W -> Z -> Z -> W) (wire : W -> list Z).
Implicit Types w : W.
(** The device takes the bytes in order and leaves the packet alone. *)
Record serial : Prop := {
  se_wire : forall w c sd, wire (sio_send w c sd) = wire w ++ [c];
  se_ps : forall w c sd, w_ps (sio_send w c sd) = w_ps w
}.
Context (Hse : serial).

Lemma send_wire w sd c : wire (slip_send sio_send w sd c) = wire w ++ escaped c /\ w_ps (slip_send sio_send w sd c) = w_ps w.
Proof.
  unfold slip_send, escaped. destruct (c =? SLIP_END); [|destruct (c =? SLIP_ESC)]; rewrite !(se_ps Hse), !(se_wire Hse), <- ?app_assoc; done.
Qed.
Lemma send_bytes_wire n w sd a :
  wire (slip_send_bytes sio_send n w sd a) = wire w ++ concat (map escaped (bytes_at (wmem w) a n)) /\ w_ps (slip_send_bytes sio_send n w sd a) = w_ps w.
Proof.
  revert w a. induction n as [|n IH]; intros w a; [simpl; by rewrite app_nil_r|]. cbn [slip_send_bytes bytes_at map concat].
  destruct (send_wire w sd (wmem w a)) as [H1 H2]. destruct (IH (slip_send sio_send w sd (wmem w a)) (a + 1)) as [H3 H4]. unfold wmem in *. rewrite H2 in H3, H4. rewrite H3, H4, H1, <- app_assoc. done.
Qed.
Lemma output_loop w sd q l :
  pchain (w_ps w) q l -> (length l < fuel)%nat ->
  exists w', loop fuel (fun '(w, q) =>
      if negb (q =? NULL) then inl (slip_send_bytes sio_send (Z.to_nat (pb_len (pb (w_ps w) q))) w sd (payload w q), pb_next (pb (w_ps w) q))
      else inr w) (w, q) = Some w' /\ wire w' = wire w ++ concat (map escaped (content (w_ps w) l)).
Proof.
  revert w q fuel. induction l as [|x l IH]; intros w q f Hc Hf; (destruct f as [|f]; [simpl in Hf; lia|]); cbn [loop].
  - simpl in Hc. subst q. simpl. exists w. by rewrite app_nil_r.
  - destruct Hc as (-> & Hx & Hc). rewrite (proj2 (Z.eqb_neq _ _) Hx). cbn [negb].
    destruct (send_bytes_wire (Z.to_nat (pb_len (pb (w_ps w) x))) w sd (payload w x)) as [H1 H2]. set (w1 := slip_send_bytes _ _ _ _ _) in *.
    destruct (IH w1 (pb_next (pb (w_ps w) x)) f) as (w' & E & Hw); [by rewrite H2|simpl in Hf; lia|]. exists w'. split; [exact E|].
    rewrite Hw, H1, H2, <- app_assoc. cbn [content]. rewrite map_app, concat_app. done.
Qed.
Lemma output_frames w nif p l :
  pchain (w_ps w) p l -> (length l < fuel)%nat ->
  exists w', slipif_output fuel sio_send w nif p = Some (w', ERR_OK) /\ wire w' = wire w ++ framed (content (w_ps w) l).
Proof.
  intros Hc Hf. unfold slipif_output. cbv zeta. set (sd := sl_sd _). destruct (output_loop (sio_send w SLIP_END sd) sd p l) as (w' & -> & Hw); [by rewrite (se_ps Hse)|done|].
  cbn [mbind option_bind]. eexists. split; [done|]. rewrite (se_wire Hse), Hw, (se_ps Hse), (se_wire Hse). unfold framed. rewrite <- !app_assoc. done.
Qed.
End Output.

(** ** Receiving *)

(** A pbuf of the pool for a packet: one pbuf of 1500 bytes. *)
Record link_pbuf (hb : Z) (dp dq : memp_desc) (st : pstate) (O : holding) (q : Z) (r : kind * region) : Prop := {
  lk_null : q <> NULL;
  lk_next : pb_next (pb st q) = NULL;
  lk_len : pb_len (pb st q) = 1500;
  lk_tot : pb_tot_len (pb st q) = 1500;
  lk_type : pb_type (pb st q) = PBUF_POOL;
  lk_held : held_as st q r;
  lk_owns : st_owns hb dp dq st (r :: O)
}.

Lemma alloc_link hb dp dq custom_free fuel st O st' q :
  st_owns hb dp dq st O -> (1503 < fuel)%nat -> pbuf_alloc custom_free fuel st PBUF_LINK 1500 PBUF_POOL = Some (st', q) -> q <> NULL ->
  exists r, link_pbuf hb dp dq st' O q r /\ data st' = data st.
Proof.
  intros Ho Hf E Hq. destruct (alloc_correct hb dp dq custom_free fuel st O PBUF_LINK 1500 PBUF_POOL Ho ltac:(lia) ltac:(lia)) as (st2 & p & E2 & H).
  rewrite E in E2. injection E2 as <- <-. destruct H as [[? _]|(_ & l & R & [A1 A2 A3 A4 A5 A6 A7 A8 A9 A10 A11 A12])]; [done|].
  assert (F : pb_next (pb st' q) = NULL /\ pb_len (pb st' q) = 1500 /\ pb_tot_len (pb st' q) = 1500).
  { unfold pbuf_alloc in E. cbv zeta in E. change (pbuf_offset PBUF_LINK) with 16 in E. change (Z.min 1500 (PBUF_POOL_BUFSIZE_ALIGNED - LWIP_MEM_ALIGN_SIZE 16)) with 1500 in E.
    destruct (memp_malloc _ _) as [ps p]. destruct (p =? NULL); [by injection E as _ <-|]. change (1500 - 1500) with 0 in E.
    unfold pool_rest in E. destruct fuel as [|f]; [lia|]. cbn [loop] in E. change (0 <? 0) with false in E. cbv iota in E. injection E as <- <-. rewrite !pb_upd_eq. done. }
  destruct F as (F1 & F2 & F3). destruct l as [|y l]; [done|]. destruct A1 as (-> & A1' & A1). rewrite F1 in A1. destruct l as [|z l]; [|by destruct A1 as (<- & ? & _)].
  inversion A4 as [|? r ? R' Hr HR']; subst. inversion HR'; subst. inversion A6 as [|? ? (T1 & T2 & T3) _]; subst. exists r. split; [|done]. constructor; auto.
Qed.

Section Input.
Context {Y : Type} `{!slip_store Y}.
#[local] Abbreviation W := (world (ext Y)).
Context (custom_free : pstate -> Z -> pstate) (fuel : nat) (hb : Z) (dp dq : memp_desc) (O : holding).
Implicit Types w : W.

(** The bytes of a stream, and the packets that they complete. *)
Fixpoint slip_feed w (nif : Z) (bs : list Z) : option (W * list Z) :=
  match bs with
  | [] => Some (w, [])
  | c :: bs =>
      '(w, t) ← slipif_rxbyte custom_free fuel w nif c;
      '(w, ts) ← slip_feed w nif bs;
      Some (w, if t =? NULL then ts else t :: ts)
  end.
Lemma feed_app w nif a b : slip_feed w nif (a ++ b) = '(w, t) ← slip_feed w nif a; '(w, u) ← slip_feed w nif b; Some (w, t ++ u).
Proof.
  revert w. induction a as [|c a IH]; intros w; cbn [slip_feed app].
  - cbn [mbind option_bind]. by destruct (slip_feed w nif b) as [[w1 u]|].
  - destruct (slipif_rxbyte custom_free fuel w nif c) as [[w1 t]|]; [|done]. cbn [mbind option_bind]. rewrite IH. destruct (slip_feed w1 nif a) as [[w2 ts]|]; [|done]. cbn [mbind option_bind].
    destruct (slip_feed w2 nif b) as [[w3 u]|]; [|done]. cbn [mbind option_bind]. by destruct (t =? NULL).
Qed.

(** Between packets, and within one of which the bytes [bs] have come. *)
Definition idle w (nif : Z) : Prop :=
  let x := priv w nif in sl_p x = NULL /\ sl_q x = NULL /\ sl_i x = 0 /\ sl_recved x = 0 /\ sl_state x = SLIP_RECV_NORMAL.
Definition within w (nif : Z) (bs : list Z) (q : Z) (r : kind * region) : Prop :=
  let x := priv w nif in let n := Z.of_nat (length bs) in
  link_pbuf hb dp dq (w_ps w) O q r /\ 0 < n <= 1500 /\ sl_q x = q /\ sl_recved x = n /\ sl_state x = SLIP_RECV_NORMAL /\
  (if n <? 1500 then sl_p x = q /\ sl_i x = n else sl_p x = NULL /\ sl_i x = 0) /\ bytes_at (wmem w) (payload w q) (length bs) = bs.

Lemma priv_upd w nif f : priv (upd_priv w nif f) nif = f (priv w nif).
Proof. unfold priv, upd_priv. cbn [set_ext w_ext snd]. unfold info. cbn [set_ext w_ext fst snd]. apply priv_get_put. Qed.
Lemma priv_wps w st nif : priv (set_wps w st) nif = priv w nif.
Proof. done. Qed.

(** A byte that is stored. *)
Lemma byte_stored w nif bs q r c :
  let x := priv w nif in let n := Z.of_nat (length bs) in
  link_pbuf hb dp dq (w_ps w) O q r -> n < 1500 -> sl_p x = q -> sl_q x = q -> sl_recved x = n -> sl_i x = n -> sl_state x = SLIP_RECV_NORMAL ->
  bytes_at (wmem w) (payload w q) (length bs) = bs ->
  exists w', slip_byte custom_free fuel w nif c = Some (w', NULL) /\ within w' nif (bs ++ [c]) q r.
Proof.
  intros x n Hk Hn Hp Hq Hrec Hi Hs Hb. destruct Hk as [K1 K2 K3 K4 K5 K6 K7] eqn:EK. clear EK. unfold slip_byte. fold x. rewrite Hp, (proj2 (Z.eqb_neq _ _) K1). cbn [mbind option_bind negb]. cbv zeta.
  fold x. rewrite Hp, (proj2 (Z.eqb_neq _ _) K1), Hrec. rewrite (proj2 (Z.leb_le n SLIP_MAX_SIZE)) by (unfold SLIP_MAX_SIZE; lia). cbn [negb andb].
  set (m := upd (wmem w) (payload w q + sl_i x) c). set (w1 := set_wmem w m). set (w2 := upd_priv w1 nif _).
  assert (P2 : priv w2 nif = sl_set_i (n + 1) (sl_set_recved (n + 1) x)).
  { unfold w2. rewrite priv_upd. change (priv w1 nif) with x. rewrite Hrec, Hi, u16_small by lia. done. }
  rewrite P2. cbn [sl_i sl_set_i]. change (w_ps w2) with (set_data (w_ps w) m). rewrite pb_set_data, K3, K2.
  assert (Hbytes : bytes_at m (payload w q) (length (bs ++ [c])) = bs ++ [c]).
  { rewrite length_app. cbn [length]. rewrite bytes_at_app. cbn [bytes_at]. unfold m. rewrite Hi. fold n. rewrite upd_eq. f_equal. rewrite <- Hb at 2.
    apply bytes_at_ext. intros a Ha. rewrite upd_ne; [done|]. unfold n. lia. }
  assert (Hlk : link_pbuf hb dp dq (set_data (w_ps w) m) O q r).
  { constructor; auto. apply (st_owns_ext hb dp dq (w_ps w)); auto. intros y Hy. by apply (so_flags _ _ _ _ _ K7). }
  assert (Hlen : Z.of_nat (length (bs ++ [c])) = n + 1) by (rewrite length_app; simpl; lia).
  destruct (Z.leb_spec 1500 (n + 1)) as [Hl|Hl].
  - change (NULL =? NULL) with true. cbn [negb andb]. eexists. split; [reflexivity|]. unfold within. rewrite Hlen, !priv_upd, P2. cbn. rewrite (proj2 (Z.ltb_ge (n + 1) 1500)) by lia.
    split_and!; auto; lia.
  - eexists. split; [reflexivity|]. unfold within. rewrite Hlen, P2. cbn. rewrite (proj2 (Z.ltb_lt (n + 1) 1500)) by lia. split_and!; auto; lia.
Qed.
(** The bytes that have come: none, with a pbuf to be had, or some. *)
Definition got w (nif : Z) (bs : list Z) : Prop :=
  match bs with
  | [] => idle w nif /\ st_owns hb dp dq (w_ps w) O /\
          exists st q, pbuf_alloc custom_free fuel (w_ps w) PBUF_LINK 1500 PBUF_POOL = Some (st, q) /\ q <> NULL
  | _ => exists q r, within w nif bs q r
  end.
(** It depends on the private data and the pbufs only. *)
Lemma got_ext w w' nif bs : priv w' nif = priv w nif -> w_ps w' = w_ps w -> got w nif bs -> got w' nif bs.
Proof.
  intros E1 E2. destruct bs as [|b bs]; unfold got, idle, within, wmem, payload; rewrite E1, E2; done.
Qed.
Lemma got_normal w nif bs : got w nif bs -> sl_state (priv w nif) = SLIP_RECV_NORMAL.
Proof. destruct bs as [|b bs]; [intros [Hi _]; apply Hi|intros (q & r & Hw); apply Hw]. Qed.

Lemma byte_got w nif bs c :
  (1503 < fuel)%nat -> got w nif bs -> (length bs < 1500)%nat -> exists w', slip_byte custom_free fuel w nif c = Some (w', NULL) /\ got w' nif (bs ++ [c]).
Proof.
  intros Hf Hg Hl. destruct bs as [|b bs]; unfold got in Hg.
  - destruct Hg as ((I1 & I2 & I3 & I4 & I5) & Ho & st & q & E & Hq). destruct (alloc_link hb dp dq custom_free fuel (w_ps w) O st q Ho Hf E Hq) as (r & Hk & Hd).
    set (w1 := upd_priv (upd_priv (set_wps w st) nif (sl_set_p q)) nif (sl_set_q q)).
    assert (P1 : priv w1 nif = sl_set_q q (sl_set_p q (priv w nif))) by (unfold w1; by rewrite !priv_upd).
    assert (E1 : slip_byte custom_free fuel w nif c = slip_byte custom_free fuel w1 nif c).
    { unfold slip_byte at 2. rewrite P1. cbn [sl_p sl_set_p sl_set_q]. rewrite (proj2 (Z.eqb_neq _ _) Hq). cbn [mbind option_bind]. unfold slip_byte. rewrite I1. change (NULL =? NULL) with true. cbv iota.
      change (PBUF_POOL_BUFSIZE - PBUF_LINK_HLEN - PBUF_LINK_ENCAPSULATION_HLEN) with 1500. rewrite E. cbn [mbind option_bind]. cbv zeta. rewrite (proj2 (Z.eqb_neq _ _) Hq).
      rewrite priv_upd. cbn [sl_q sl_set_p]. change (priv (set_wps w st) nif) with (priv w nif). rewrite I2. change (NULL =? NULL) with true. cbn [negb mbind option_bind]. fold w1. rewrite P1. done. }
    rewrite E1. destruct (byte_stored w1 nif [] q r c) as (w' & E2 & Hw); [done|simpl; lia|by rewrite P1|by rewrite P1|by rewrite P1|by rewrite P1|by rewrite P1|done|]. exists w'. split; [done|]. by exists q, r.
  - destruct Hg as (q & r & Hk & Hn & H1 & H2 & H3 & H4 & H5). rewrite (proj2 (Z.ltb_lt _ 1500)) in H4 by lia. destruct H4 as [H4 H6].
    destruct (byte_stored w nif (b :: bs) q r c) as (w' & E & Hw); auto; [lia|]. exists w'. split; [done|]. by exists q, r.
Qed.

Lemma escaped_got w nif bs c :
  (1503 < fuel)%nat -> got w nif bs -> (length bs < 1500)%nat -> exists w', slip_feed w nif (escaped c) = Some (w', []) /\ got w' nif (bs ++ [c]).
Proof.
  intros Hf Hg Hl. pose proof (got_normal _ _ _ Hg) as Hs.
  assert (Hesc : forall d, (if d =? SLIP_ESC_END then SLIP_END else if d =? SLIP_ESC_ESC then SLIP_ESC else d) = c -> exists w', slip_feed w nif [SLIP_ESC; d] = Some (w', []) /\ got w' nif (bs ++ [c])).
  { intros d Hd. set (w1 := upd_priv w nif (sl_set_state SLIP_RECV_ESCAPE)). assert (P1 : priv w1 nif = sl_set_state SLIP_RECV_ESCAPE (priv w nif)) by apply priv_upd.
    assert (E1 : slipif_rxbyte custom_free fuel w nif SLIP_ESC = Some (w1, NULL)) by (unfold slipif_rxbyte; by rewrite Hs). cbn [slip_feed]. rewrite E1. cbn [mbind option_bind].
    unfold slipif_rxbyte. rewrite P1. cbn [sl_state sl_set_state]. cbv zeta. rewrite Hd.
    set (w2 := upd_priv w1 nif _). destruct (byte_got w2 nif bs c) as (w' & -> & Hw); [done| |done|].
    - apply (got_ext w); [|done|done]. unfold w2. rewrite priv_upd, P1. destruct (priv w nif). simpl in *. by rewrite Hs.
    - cbn [mbind option_bind]. exists w'. done. }
  unfold escaped. destruct (Z.eqb_spec c SLIP_END) as [->|He]; [by apply Hesc|]. destruct (Z.eqb_spec c SLIP_ESC) as [->|He']; [by apply Hesc|].
  destruct (byte_got w nif bs c) as (w' & E & Hw); [done..|]. exists w'. split; [|done]. cbn [slip_feed]. unfold slipif_rxbyte. rewrite Hs, (proj2 (Z.eqb_neq _ _) He), (proj2 (Z.eqb_neq _ _) He'), E. done.
Qed.
Lemma stream_got w nif a bs :
  (1503 < fuel)%nat -> got w nif a -> (length (a ++ bs) <= 1500)%nat -> exists w', slip_feed w nif (concat (map escaped bs)) = Some (w', []) /\ got w' nif (a ++ bs).
Proof.
  intros Hf. revert w a. induction bs as [|c bs IH]; intros w a Hg Hl; [exists w; split; [done|by rewrite app_nil_r]|]. rewrite length_app in Hl. cbn [length] in Hl.
  destruct (escaped_got w nif a c) as (w1 & E1 & H1); [done|done|lia|]. destruct (IH w1 (a ++ [c])) as (w2 & E2 & H2); [done|rewrite !length_app; simpl; lia|]. exists w2.
  cbn [map concat]. rewrite feed_app, E1. cbn [mbind option_bind]. rewrite E2. cbn [mbind option_bind]. split; [done|]. by rewrite <- app_assoc in H2.
Qed.

(** The end of a packet. *)
Lemma end_idle w nif : idle w nif -> slipif_rxbyte custom_free fuel w nif SLIP_END = Some (w, NULL).
Proof. intros (_ & _ & _ & H4 & H5). unfold slipif_rxbyte. rewrite H5, H4. done. Qed.
Lemma end_within w nif bs q r :
  (3 < fuel)%nat -> within w nif bs q r ->
  exists w' r', slipif_rxbyte custom_free fuel w nif SLIP_END = Some (w', q) /\ idle w' nif /\ pchain (w_ps w') q [q] /\ sizes (w_ps w') [q] /\ content (w_ps w') [q] = bs /\
    st_owns hb dp dq (w_ps w') (r' :: O).
Proof.
  intros Hf ([K1 K2 K3 K4 K5 K6 K7] & Hn & H1 & H2 & H3 & _ & Hb). unfold slipif_rxbyte. rewrite H3. change (SLIP_END =? SLIP_END) with true. cbv iota. rewrite H2, (proj2 (Z.ltb_lt 0 _)) by lia. rewrite H1.
  set (n := Z.of_nat (length bs)) in *. assert (Hc : pchain (w_ps w) q [q]) by (cbn [pchain]; rewrite K2; done). assert (Hs : sizes (w_ps w) [q]) by (cbn [sizes plen]; rewrite K3, K4; lia).
  assert (Hct : take (length bs) (content (w_ps w) [q]) = bs).
  { cbn [content]. rewrite app_nil_r. unfold payload_bytes. rewrite K3, bytes_at_take by lia. exact Hb. }
  assert (Hreal : exists st r', pbuf_realloc custom_free fuel (w_ps w) q n = Some st /\ pchain st q [q] /\ sizes st [q] /\ content st [q] = bs /\ st_owns hb dp dq st (r' :: O)).
  { destruct (Z.ltb_spec n 1500) as [Hlt|Hge].
    - destruct (realloc_correct hb dp dq custom_free fuel (w_ps w) q [] q [] [] [] r O n) as (st & r' & E & C1 & C2 & C3 & C4 & C5 & _); auto; try (cbn [plen]; lia); [simpl; lia|cbn [plen app]; lia|unfold cut_room; by rewrite K5|].
      exists st, r'. split_and!; auto. cbn [app] in C4. rewrite C4. replace (Z.to_nat n) with (length bs) by lia. done.
    - exists (w_ps w), r. assert (n = 1500) by lia. split_and!; auto.
      + unfold pbuf_realloc. by rewrite K4, (proj2 (Z.leb_le 1500 n)) by lia.
      + transitivity (take (length bs) (content (w_ps w) [q])); [symmetry; apply take_ge|exact Hct]. rewrite length_content by done. cbn [plen]. rewrite K3. lia. }
  destruct Hreal as (st & r' & -> & C1 & C2 & C3 & C4). cbn [mbind option_bind]. cbv zeta. eexists _, r'. split; [change (priv (stats_inc S_link F_recv (set_wps w st)) nif) with (priv w nif); by rewrite H1|].
  split_and!; [|done|done|done|done]. unfold idle. rewrite priv_upd. cbn. change (priv (stats_inc S_link F_recv (set_wps w st)) nif) with (priv w nif). by rewrite H3.
Qed.
End Input.

(** C37: What one SLIP interface sends, another one receives.  Whatever bytes a packet of 1 to
    1500 bytes holds, and however it is divided into pbufs, feeding the bytes that
    [slipif_output] puts on the line to [slipif_rxbyte] completes one packet, with the last
    byte: a pbuf with the content of the packet, which now belongs to the receiver; both
    interfaces are ready for the next one.  The receiver needs one pbuf of the pool. *)
Theorem slip_roundtrip {Y} `{!slip_store Y} custom_free fuel sio_send wire hb dp dq O (ws wr : world (ext Y)) nif nif' p l st q0 :
  serial sio_send wire -> pchain (w_ps ws) p l -> (length l < fuel)%nat -> (1503 < fuel)%nat ->
  let bs := content (w_ps ws) l in (0 < length bs <= 1500)%nat ->
  idle wr nif' -> st_owns hb dp dq (w_ps wr) O -> pbuf_alloc custom_free fuel (w_ps wr) PBUF_LINK 1500 PBUF_POOL = Some (st, q0) -> q0 <> NULL ->
  exists ws' out wr' q r, slipif_output fuel sio_send ws nif p = Some (ws', ERR_OK) /\ wire ws' = wire ws ++ out /\
    slip_feed custom_free fuel wr nif' out = Some (wr', [q]) /\ content (w_ps wr') [q] = bs /\ pchain (w_ps wr') q [q] /\ sizes (w_ps wr') [q] /\
    st_owns hb dp dq (w_ps wr') (r :: O) /\ idle wr' nif'.
Proof.
  intros Hse Hc Hl Hf bs Hbs Hi Ho Ha Hq. destruct (output_frames fuel sio_send wire Hse ws nif p l Hc Hl) as (ws' & E & Hw). fold bs in Hw.
  destruct (stream_got custom_free fuel hb dp dq O wr nif' [] bs Hf) as (w1 & E1 & H1); [unfold got; split_and!; [done|done|by exists st, q0]|simpl; lia|]. cbn [app] in H1. destruct bs as [|b bs'] eqn:Eb; [simpl in Hbs; lia|]. destruct H1 as (q & r & H1).
  destruct (end_within custom_free fuel hb dp dq O w1 nif' _ q r ltac:(lia) H1) as (w2 & r' & E2 & I2 & C2 & S2 & B2 & O2).
  exists ws', (framed (b :: bs')), w2, q, r'. split_and!; auto. unfold framed. change (SLIP_END :: ?a ++ ?b) with ([SLIP_END] ++ a ++ b). rewrite feed_app. cbn [slip_feed]. rewrite (end_idle _ _ _ _ Hi).
  cbn [mbind option_bind]. rewrite feed_app, E1. cbn [mbind option_bind slip_feed]. rewrite E2. cbn [mbind option_bind]. assert (Hqn : q <> NULL) by apply H1. by rewrite (proj2 (Z.eqb_neq _ _) Hqn).
Qed.

(** ** Examples *)

(** The private data of all interfaces, and the bytes on the line. *)
#[export] Instance slip_line : slip_store ((Z -> slipif_priv) * list Z).
Proof.
  refine {| priv_get y a := y.1 a; priv_put y a v := (fun b => if b =? a then v else y.1 b, y.2) |}. intros y a v. simpl. by rewrite Z.eqb_refl.
Defined.
#[local] Abbreviation LW := (world (ext ((Z -> slipif_priv) * list Z))).
Definition line (w : LW) : list Z := (w_ext w).2.2.2.
Definition line_send (w : LW) (c sd : Z) : LW := let x := w_ext w in set_ext w (x.1, (x.2.1, (x.2.2.1, x.2.2.2 ++ [c]))).
Lemma line_serial : serial line_send line.
Proof. by constructor. Qed.
Definition slip_world (st : pstate) : LW :=
  mk_world (mk_ap [] 0, (mk_np (fun _ => mk_info (115, 108) 0 3000 0 NULL NULL NULL NULL) (fun _ => []) 1, (fun _ => mk_priv 1 NULL NULL SLIP_RECV_NORMAL 0 0, [])))
    st (w_netifs world0) 7 NULL (mk_ipg 4000 4000 0 0 0 0) [] 0 [] ∅ 0xc000 (fun _ _ => 0).
#[local] Abbreviation no_free := (fun (s : pstate) (_ : Z) => s).

Lemma slip_roundtrip_witness :
  exists ws' out wr' q, slipif_output 1600 line_send (slip_world net_st) 4000 1000 = Some (ws', ERR_OK) /\ line ws' = out /\
    slip_feed no_free 1600 (slip_world st0) 4000 out = Some (wr', [q]) /\ content (w_ps wr') [q] = [65; 66; 67; 68; 69; 70; 71].
Proof.
  assert (Ha : exists x, pbuf_alloc no_free 1600 st0 PBUF_LINK 1500 PBUF_POOL = Some x /\ x.2 <> NULL).
  { destruct (returned (pbuf_alloc no_free 1600 st0 PBUF_LINK 1500 PBUF_POOL)) as [x E]; [vm_compute; reflexivity|]. exists x. split; [exact E|].
    assert (Hx : (fun x => x.2 =? NULL) <$> pbuf_alloc no_free 1600 st0 PBUF_LINK 1500 PBUF_POOL = Some false) by (vm_compute; reflexivity). rewrite E in Hx. injection Hx as Hx. by apply Z.eqb_neq. }
  destruct Ha as ([st q0] & Ea & Hq).
  destruct (slip_roundtrip no_free 1600 line_send line (ram heap0) dp0 dq0 [] (slip_world net_st) (slip_world st0) 4000 4000 1000 [1000; 2000] st q0 line_serial)
    as (ws' & out & wr' & q & r & H1 & H2 & H3 & H4 & _).
  - vm_compute. split_and!; congruence.
  - simpl. lia.
  - lia.
  - vm_compute. lia.
  - by split_and!.
  - exact st0_owns.
  - exact Ea.
  - exact Hq.
  - exists ws', out, wr', q. split; [exact H1|]. split; [exact H2|]. split; [exact H3|]. rewrite H4. vm_compute. reflexivity.
Defined.

(** A packet of one byte more than [SLIP_MAX_SIZE] is received whole, and the bytes behind
    that are left out of a packet that is delivered all the same. *)
Definition received (bs : list Z) : option (list Z) :=
  (fun x : LW * list Z => map (fun t => pb_tot_len (pb (w_ps x.1) t)) x.2) <$> slip_feed no_free 3100 (slip_world st0) 4000 (bs ++ [SLIP_END]).
Lemma long_packet_cut : received (replicate 1501 65) = Some [1501] /\ received (replicate 1600 65) = Some [1501].
Proof. vm_compute. done. Qed.
(** A byte for which there was no pbuf is lost, and the packet is delivered without it. *)
Lemma packet_without_head :
  (fun x : LW * list Z => map (fun t => content (w_ps x.1) [t]) x.2) <$>
    ('(w, _) ← slip_feed no_free 1600 (slip_world (Pbuf.set_pools st0 (replicate 10 zero_pool))) 4000 [65]; slip_feed no_free 1600 (set_wps w st0) 4000 [66; 67; SLIP_END]) = Some [[66; 67]].
Proof. vm_compute. reflexivity. Qed.
