(* ===== verification/Board.v ===== *)
(** * [lwip_t41.c] and [core/init.c]: the board's interface

    The part of the driver that sets the interface up and follows the link, on the state of
    [Netif].  The accesses to the controller ([t41_low_level_init], [mdio_read]) and to the
    fuses are parameters, as are the timers that [enet_poll] runs. *)

From Stdlib Require Import ZArith Lia.
From stdpp Require Import base tactics numbers list option gmap.
From S2P Require Import Prelude.
From S2P Require Import Def.
From S2P Require Import Ip4Addr.
From S2P Require Import Alloc.
From S2P Require Import Mem.
From S2P Require Import Memp.
From S2P Require Import Pbuf.
From S2P Require Import PbufChain.
From S2P Require Import Etharp.
From S2P Require Import World.
From S2P Require Import Ip4Frag.
From S2P Require Import Ip4.
From S2P Require Import Icmp.
From S2P Require Import Igmp.
From S2P Require Import Ip4Reass.
From S2P Require Import Udp.
From S2P Require Import Ip4Input.
From S2P Require Import Stack.
From S2P Require Import Netif.

#[local] Abbreviation ext Y := (arp_part * (netif_part * Y))%type.

(** [enet_getmac(mac)]: the address in the fuses [HW_OCOTP_MAC1] and [HW_OCOTP_MAC0]. *)
Definition enet_getmac (m1 m2 : Z) : list Z :=
  [u8 (Z.shiftr m1 8); u8 (Z.shiftr m1 0); u8 (Z.shiftr m2 24); u8 (Z.shiftr m2 16); u8 (Z.shiftr m2 8); u8 (Z.shiftr m2 0)].

Definition T41_MTU : Z := 1522.
Definition T41_FLAGS : Z := Z.lor (Z.lor (Z.lor NETIF_FLAG_BROADCAST NETIF_FLAG_ETHARP) NETIF_FLAG_ETHERNET) NETIF_FLAG_IGMP.
Definition ETHARP_HWADDR_LEN : Z := 6.

Section Board.
Context {Y : Type}.
#[local] Abbreviation W := (world (ext Y)).
Context (custom_free : pstate -> Z -> pstate) (fuel : nat) (linkoutput : Z -> pstate -> Z -> pstate * Z).
Context (rand : W -> W * Z) (call_filter : Z -> W -> Z -> Z -> bool -> W) (callback : Z -> W -> Z -> option W).
Context (tcp_changed : W -> Z -> Z -> option W) (dhcp_changed : W -> Z -> option W).
(** The controller, the timers, and the static memory of heap and pools. *)
Context (t41_low_level_init : W -> W) (mdio_read : W -> Z -> Z -> W * Z) (sys_check_timeouts : W -> option W) (sys_timeouts_init : W -> W).
Context (ram_heap : Z) (pool_descs : list memp_desc) (ethernet_input_fn : Z).
Implicit Types w : W.

(** [lwip_init()]: in this configuration the other modules have nothing to set up. *)
Definition lwip_init w : W :=
  let st := w_ps w in
  let st := set_heap st (mem_init ram_heap (stats (ps_heap st))) in
  let st := Pbuf.set_pools st (memp_init pool_descs (ps_pools st)) in
  sys_timeouts_init (set_wps w st).

(** [t41_netif_init(netif)]: the fields, then the controller. *)
Definition t41_fields (mac : list Z) (n : netif) : netif :=
  mk_netif (netif_ip_addr n) (netif_netmask n) (netif_gw n) T41_MTU mac ETHARP_HWADDR_LEN T41_FLAGS.
Definition t41_netif_init (mac : list Z) w (nif : Z) : W * Z :=
  let w := upd_netif w nif (t41_fields mac) in
  let i := info w nif in
  let w := set_info w nif (mk_info (101, 48) (ni_num i) (ni_state i) (ni_input i) (ni_dhcp i) (ni_status_callback i) (ni_link_callback i) (ni_mac_filter i)) in
  (t41_low_level_init w, ERR_OK).

(** [enet_init(ip, mask, gw)]; [None] is the pointer [NULL]. *)
Definition enet_init w (nif m1 m2 : Z) (ip mask gw : option Z) : option W :=
  let ip := default IPADDR_ANY ip in let mask := default IPADDR_ANY mask in let gw := default IPADDR_ANY gw in
  let mac := enet_getmac m1 m2 in
  if netif_flags (netif_of w nif) =? 0 then
    '(w, _) ← netif_add custom_free fuel linkoutput rand call_filter callback tcp_changed (lwip_init w) nif (Some ip) (Some mask) (Some gw) NULL (t41_netif_init mac) ethernet_input_fn;
    Some (netif_set_default w nif)
  else netif_set_addr custom_free fuel linkoutput rand callback tcp_changed w nif (Some ip) (Some mask) (Some gw).

(** [check_link_status()]: [reg_data] is a [uint16_t] in an [int]. *)
Definition check_link_status w (nif : Z) : option W :=
  let '(w, reg_data) := mdio_read w 0 1 in
  if negb (reg_data =? -1) then
    let is_link_up := negb (Z.land reg_data (Z.shiftl 1 2) =? 0) in
    if negb (Bool.eqb (has_flag w nif NETIF_FLAG_LINK_UP) is_link_up) then
      if is_link_up then netif_set_link_up custom_free fuel linkoutput rand callback dhcp_changed w nif
      else netif_set_link_down callback w nif
    else Some w
  else Some w.

(** [enet_poll()] *)
Definition enet_poll w (nif : Z) : option W :=
  w ← sys_check_timeouts w;
  check_link_status w nif.
End Board.

(** ** The link *)

Section Link.
Context {Y : Type}.
#[local] Abbreviation W := (world (ext Y)).
Context (custom_free : pstate -> Z -> pstate) (fuel : nat) (linkoutput : Z -> pstate -> Z -> pstate * Z).
Context (rand : W -> W * Z) (call_filter : Z -> W -> Z -> Z -> bool -> W) (callback : Z -> W -> Z -> option W).
Context (tcp_changed : W -> Z -> Z -> option W) (dhcp_changed : W -> Z -> option W).
Context (Henv : netif_env rand call_filter callback tcp_changed dhcp_changed).
Implicit Types w : W.

Lemma link_callback_same w nif : exists w', NETIF_LINK_CALLBACK callback w nif = Some w' /\ same_netifs w w'.
Proof.
  unfold NETIF_LINK_CALLBACK. destruct (_ =? NULL); [by exists w|]. destruct (env_callback _ _ _ _ _ Henv (ni_link_callback (info w nif)) w nif) as (w' & E & H & _). eauto.
Qed.
(** An interface whose flags were changed. *)
Definition flagged w w' (nif flags : Z) : Prop := forall n, netif_of w' n = if n =? nif then with_nflags flags (netif_of w nif) else netif_of w n.
Lemma flagged_same w w1 w2 nif f : flagged w w1 nif f -> same_netifs w1 w2 -> flagged w w2 nif f.
Proof. intros H1 H2 n. by rewrite (same_netif_of _ _ _ H2), H1. Qed.
Lemma flagged_upd w nif f : flagged w (upd_netif w nif (with_nflags f)) nif f.
Proof. intros n. done. Qed.

Lemma link_up_flags w nif :
  has_flag w nif NETIF_FLAG_LINK_UP = false ->
  exists w', netif_set_link_up custom_free fuel linkoutput rand callback dhcp_changed w nif = Some w' /\ flagged w w' nif (Z.lor (netif_flags (netif_of w nif)) NETIF_FLAG_LINK_UP).
Proof.
  intros Hf. unfold netif_set_link_up. rewrite Hf. cbn [negb]. cbv zeta. set (w1 := upd_netif w nif _). assert (H1 : flagged w w1 nif (Z.lor (netif_flags (netif_of w nif)) NETIF_FLAG_LINK_UP)) by done.
  destruct (env_dhcp _ _ _ _ _ Henv w1 nif) as (w2 & -> & S2 & _). cbn [mbind option_bind].
  set (w3 := if has_flag w2 nif NETIF_FLAG_UP then _ else w2). assert (S3 : same_netifs w2 w3) by (unfold w3; destruct (has_flag w2 nif NETIF_FLAG_UP); [by eapply issue_reports_same|done]).
  destruct (link_callback_same w3 nif) as (w4 & -> & S4). exists w4. split; [done|]. eapply flagged_same; [exact H1|]. by etransitivity; [|etransitivity].
Qed.
Lemma link_down_flags w nif :
  has_flag w nif NETIF_FLAG_LINK_UP = true ->
  exists w', netif_set_link_down callback w nif = Some w' /\ flagged w w' nif (Z.land (netif_flags (netif_of w nif)) (Z.lnot NETIF_FLAG_LINK_UP)).
Proof.
  intros Hf. unfold netif_set_link_down. rewrite Hf. cbv zeta. set (w1 := upd_netif w nif _). destruct (link_callback_same w1 nif) as (w2 & -> & S2). exists w2. split; [done|]. by eapply flagged_same; [|exact S2].
Qed.
End Link.

(** The bit of a flag. *)
Lemma land_bit f : negb (Z.land f NETIF_FLAG_LINK_UP =? 0) = Z.testbit f 2.
Proof.
  destruct (Z.testbit f 2) eqn:E.
  - apply negb_true_iff, Z.eqb_neq. intros H. apply (f_equal (fun x => Z.testbit x 2)) in H. by rewrite Z.land_spec, E in H.
  - apply negb_false_iff, Z.eqb_eq. apply Z.bits_inj'. intros n Hn. rewrite Z.land_spec, Z.bits_0. change NETIF_FLAG_LINK_UP with (2 ^ 2). rewrite Z.pow2_bits_eqb by lia.
    destruct (Z.eqb_spec 2 n) as [<-|]; [by rewrite E|apply andb_false_r].
Qed.
(** Flags with the link set up, or down. *)
Definition linked (up : bool) (f : Z) : Z := if up then Z.lor f NETIF_FLAG_LINK_UP else Z.land f (Z.lnot NETIF_FLAG_LINK_UP).
Lemma linked_bits up f n : 0 <= n -> Z.testbit (linked up f) n = if n =? 2 then up else Z.testbit f n.
Proof.
  intros Hn. unfold linked. destruct up; rewrite ?Z.lor_spec, ?Z.land_spec, ?Z.lnot_spec by lia; change NETIF_FLAG_LINK_UP with (2 ^ 2); rewrite Z.pow2_bits_eqb, (Z.eqb_sym 2 n) by lia;
    destruct (n =? 2); cbn [negb]; rewrite ?orb_true_r, ?orb_false_r, ?andb_true_r, ?andb_false_r; done.
Qed.
Lemma linked_same f : linked (Z.testbit f 2) f = f.
Proof. apply Z.bits_inj'. intros n Hn. rewrite linked_bits by done. by destruct (Z.eqb_spec n 2) as [->|]. Qed.

(** The link follows the PHY.  After [check_link_status], which returns whatever the
    callbacks do, the interface is marked as linked exactly when bit 2 of the status register
    is set; the other flags, addresses and interfaces are what they were. *)
Theorem link_follows {Y} custom_free fuel linkoutput rand call_filter callback tcp_changed dhcp_changed mdio_read (w : world (ext Y)) nif :
  netif_env rand call_filter callback tcp_changed dhcp_changed -> (forall w a b, same_netifs w (mdio_read w a b).1 /\ 0 <= (mdio_read w a b).2 < 65536) ->
  let up := Z.testbit (mdio_read w 0 1).2 2 in
  exists w', check_link_status custom_free fuel linkoutput rand callback dhcp_changed mdio_read w nif = Some w' /\
    flagged w w' nif (linked up (netif_flags (netif_of w nif))) /\ has_flag w' nif NETIF_FLAG_LINK_UP = up.
Proof.
  intros He Hm up. assert (Hend : forall w', flagged w w' nif (linked up (netif_flags (netif_of w nif))) -> has_flag w' nif NETIF_FLAG_LINK_UP = up).
  { intros w' H. unfold has_flag. rewrite land_bit, H, Z.eqb_refl. cbn [netif_flags with_nflags]. by rewrite linked_bits. }
  destruct (Hm w 0 1) as [Hs Hr]. unfold check_link_status. destruct (mdio_read w 0 1) as [w1 r]. cbn [fst snd] in *. rewrite (proj2 (Z.eqb_neq r (-1))) by lia. cbn [negb].
  change (Z.shiftl 1 2) with NETIF_FLAG_LINK_UP. rewrite land_bit. fold up. pose proof (same_netif_of _ _ nif Hs) as Hn.
  assert (Hfl : has_flag w1 nif NETIF_FLAG_LINK_UP = Z.testbit (netif_flags (netif_of w nif)) 2) by (unfold has_flag; by rewrite land_bit, Hn).
  assert (Hback : forall w' f, flagged w1 w' nif f -> flagged w w' nif f) by (intros w' f H n; rewrite H, Hn; destruct (n =? nif); [done|by apply same_netif_of]).
  destruct (Bool.eqb (has_flag w1 nif NETIF_FLAG_LINK_UP) up) eqn:Eq; cbn [negb].
  - apply Bool.eqb_prop in Eq. exists w1. split; [done|]. assert (H : flagged w w1 nif (linked up (netif_flags (netif_of w nif)))); [|by split; [|apply Hend]].
    rewrite <- Eq, Hfl, linked_same. intros n. rewrite (same_netif_of _ _ n Hs). destruct (Z.eqb_spec n nif) as [->|]; [|done]. by destruct (netif_of w nif).
  - apply Bool.eqb_false_iff in Eq. destruct up eqn:Eu.
    + destruct (link_up_flags custom_free fuel linkoutput rand call_filter callback tcp_changed dhcp_changed He w1 nif) as (w' & -> & H); [by destruct (has_flag w1 nif NETIF_FLAG_LINK_UP)|].
      exists w'. rewrite Hn in H. apply Hback in H. split_and!; [done|done|by apply Hend].
    + destruct (link_down_flags rand call_filter callback tcp_changed dhcp_changed He w1 nif) as (w' & -> & H); [by destruct (has_flag w1 nif NETIF_FLAG_LINK_UP)|].
      exists w'. rewrite Hn in H. apply Hback in H. split_and!; [done|done|by apply Hend].
Qed.

(** The address of the fuses is six bytes, the most significant ones of the first first. *)
Lemma getmac_bytes m1 m2 : length (enet_getmac m1 m2) = 6%nat /\ Forall is_byte (enet_getmac m1 m2).
Proof. split; [done|]. unfold enet_getmac. repeat constructor; apply u8_range. Qed.

(** [enet_init] the first time, with the flags of the interface still 0, and later: the
    interface is added in front of the list, as the default, with the addresses given and the
    hardware address of the fuses; later only the addresses change. *)
Theorem board_comes_up {Y} custom_free fuel linkoutput rand call_filter callback tcp_changed dhcp_changed low_level_init timeouts_init ram_heap descs input
    (w : world (ext Y)) nif m1 m2 ip mask gw :
  netif_env rand call_filter callback tcp_changed dhcp_changed -> (forall w, same_netifs w (low_level_init w)) -> (forall w, same_netifs w (timeouts_init w)) ->
  let a := default IPADDR_ANY ip in let m := default IPADDR_ANY mask in let g := default IPADDR_ANY gw in
  let first := netif_flags (netif_of w nif) =? 0 in
  exists w', enet_init custom_free fuel linkoutput rand call_filter callback tcp_changed low_level_init timeouts_init ram_heap descs input w nif m1 m2 ip mask gw = Some w' /\
    (forall n, netif_of w' n = if n =? nif
       then (if first then mk_netif a m g T41_MTU (enet_getmac m1 m2) ETHARP_HWADDR_LEN T41_FLAGS else configured a m g (netif_of w nif)) else netif_of w n) /\
    netif_list (w_netifs w') = (if first then nif :: netif_list (w_netifs w) else netif_list (w_netifs w)) /\
    netif_default (w_netifs w') = (if first then nif else netif_default (w_netifs w)).
Proof.
  intros He Hl Ht a m g first. unfold enet_init. fold a m g first. destruct first.
  - set (w0 := lwip_init timeouts_init ram_heap descs w). assert (S0 : same_netifs w w0) by (unfold w0, lwip_init; cbv zeta; etransitivity; [|apply Ht]; done).
    destruct (add_registers custom_free fuel linkoutput rand call_filter callback tcp_changed dhcp_changed w0 nif (Some a) (Some m) (Some g) NULL
      (t41_netif_init low_level_init (enet_getmac m1 m2)) input He) as (w1 & N1 & [L1 _] & _ & _ & H).
    unfold t41_netif_init in H at 1. cbv zeta in H. set (w2 := low_level_init _) in H. destruct H as (w' & -> & L3 & N3 & _). change (ERR_OK =? ERR_OK) with true in *. cbn [mbind option_bind].
    set (w1' := upd_netif w1 nif _) in w2. assert (E2 : w_netifs w2 = w_netifs w1') by (unfold w2; by rewrite (proj1 (Hl _))).
    exists (netif_set_default w' nif). split; [done|]. split_and!.
    + intros n. change (netif_of (netif_set_default w' nif) n) with (netif_of w' n). rewrite N3. unfold netif_of at 1. rewrite E2. change (nif_at (w_netifs w1') n) with (if n =? nif then t41_fields (enet_getmac m1 m2) (netif_of w1 nif) else netif_of w1 n).
      destruct (Z.eqb_spec n nif) as [->|Hn]; [by rewrite N1, Z.eqb_refl|]. rewrite N1, (proj2 (Z.eqb_neq _ _) Hn). by apply same_netif_of.
    + cbn. rewrite L3, E2. cbn. by rewrite L1, (proj1 S0).
    + done.
  - destruct (set_addr_correct custom_free fuel linkoutput rand call_filter callback tcp_changed dhcp_changed He w nif (Some a) (Some m) (Some g)) as (w' & E & Hn & [L1 L2] & _). exists w'. split; [exact E|]. split_and!; auto.
Qed.

(** ** Examples *)

Lemma link_follows_witness :
  exists w', check_link_status (Y := unit) (fun s _ => s) 60 link0 (fun w => (w, 3)) (fun _ w _ => Some w) (fun w _ => Some w) (fun w _ _ => (w, 0x7809)) netif_world0 4000 = Some w' /\
    has_flag w' 4000 NETIF_FLAG_LINK_UP = false.
Proof.
  destruct (link_follows (fun s _ => s) 60 link0 _ _ _ _ _ (fun w _ _ => (w, 0x7809)) netif_world0 4000 example_env) as (w' & E & _ & H).
  - intros w a b. split; [done|]. simpl. lia.
  - exists w'. split; [exact E|exact H].
Defined.
(** Without a PHY the line reads as ones: the test for -1 never holds of a [uint16_t], and the
    interface is taken to be linked. *)
Lemma no_phy_link_up :
  (fun w => has_flag w 4000 NETIF_FLAG_LINK_UP) <$>
    check_link_status (Y := unit) (fun s _ => s) 60 link0 (fun w => (w, 3)) (fun _ w _ => Some w) (fun w _ => Some w) (fun w _ _ => (w, 0xffff))
      (upd_netif netif_world0 4000 (with_nflags T41_FLAGS)) 4000 = Some true.
Proof. vm_compute. reflexivity. Qed.
