(* ===== verification/Dns.v ===== *)
(** * [core/dns.c]: the DNS client

    The table of names with the state of their queries, the requests that wait for them,
    the sockets with random ports, the timer, queries and responses.  The configuration is
    the default one: random transaction ids and source ports, one query per name, no local
    host list, no multicast DNS, IPv4 only. *)

From Stdlib Require Import ZArith Lia.
From stdpp Require Import base tactics numbers list option gmap.
From S2P Require Import Prelude.
From S2P Require Import Def.
From S2P Require Import Ip4Addr.
From S2P Require Import Alloc.
From S2P Require Import Mem.
From S2P Require Import Memp.
From S2P Require Import Pbuf.
From S2P Require Import PbufChain.
From S2P Require Import World.
From S2P Require Import Ip4Frag.
From S2P Require Import Ip4.
From S2P Require Import Icmp.
From S2P Require Import Udp.

Definition ERR_INPROGRESS : Z := -5.
Definition DNS_TABLE_SIZE : nat := 4.
Definition DNS_MAX_NAME_LENGTH : Z := 256.
Definition DNS_MAX_SERVERS : Z := 2.
Definition DNS_MAX_REQUESTS : nat := 4.
Definition DNS_MAX_SOURCE_PORTS : Z := 4.
Definition DNS_MAX_RETRIES : Z := 4.
Definition DNS_MAX_TTL : Z := 604800.
Definition DNS_SERVER_PORT : Z := 53.
Definition DNS_RRTYPE_A : Z := 1.
Definition DNS_RRCLASS_IN : Z := 1.
Definition DNS_FLAG1_RESPONSE : Z := 0x80.
Definition DNS_FLAG1_RD : Z := 0x01.
Definition DNS_FLAG2_ERR_MASK : Z := 0x0f.
Definition SIZEOF_DNS_HDR : Z := 12.
Definition SIZEOF_DNS_QUERY : Z := 4.
Definition SIZEOF_DNS_ANSWER : Z := 10.
Definition DNS_PORT_ALLOWED (port : Z) : bool := 1024 <=? port.

(** [dns_state_enum_t] *)
Inductive dns_state := DNS_STATE_UNUSED | DNS_STATE_NEW | DNS_STATE_ASKING | DNS_STATE_DONE.
#[export] Instance dns_state_eq_dec : EqDecision dns_state.
Proof. solve_decision. Defined.

(** [struct dns_table_entry]; the array [name] is in memory. *)
Record dns_table_entry := mk_de {
  d_ttl : Z; d_ipaddr : Z; d_txid : Z; d_state : dns_state; d_server_idx : Z; d_tmr : Z; d_retries : Z; d_seqno : Z; d_pcb_idx : Z }.
(** [struct dns_req_entry] *)
Record dns_req_entry := mk_dr { rq_found : Z; rq_arg : Z; rq_table_idx : nat }.
(** The variables of the module. *)
Record dns_vars := mk_dv {
  dns_pcbs : list Z; dns_last_pcb_idx : Z; dns_seqno : Z;
  dns_table : list dns_table_entry; dns_requests : list dns_req_entry; dns_servers : list Z }.

Definition de_ttl v e := mk_de v (d_ipaddr e) (d_txid e) (d_state e) (d_server_idx e) (d_tmr e) (d_retries e) (d_seqno e) (d_pcb_idx e).
Definition de_ipaddr v e := mk_de (d_ttl e) v (d_txid e) (d_state e) (d_server_idx e) (d_tmr e) (d_retries e) (d_seqno e) (d_pcb_idx e).
Definition de_state v e := mk_de (d_ttl e) (d_ipaddr e) (d_txid e) v (d_server_idx e) (d_tmr e) (d_retries e) (d_seqno e) (d_pcb_idx e).
Definition de_seqno v e := mk_de (d_ttl e) (d_ipaddr e) (d_txid e) (d_state e) (d_server_idx e) (d_tmr e) (d_retries e) v (d_pcb_idx e).
Definition de_pcb_idx v e := mk_de (d_ttl e) (d_ipaddr e) (d_txid e) (d_state e) (d_server_idx e) (d_tmr e) (d_retries e) (d_seqno e) v.
(** A query to a server, with its timer and number of retries. *)
Definition de_query server tmr retries e :=
  mk_de (d_ttl e) (d_ipaddr e) (d_txid e) (d_state e) server tmr retries (d_seqno e) (d_pcb_idx e).
Definition de_txid v e := mk_de (d_ttl e) (d_ipaddr e) v (d_state e) (d_server_idx e) (d_tmr e) (d_retries e) (d_seqno e) (d_pcb_idx e).

Definition entry_zero : dns_table_entry := mk_de 0 0 0 DNS_STATE_UNUSED 0 0 0 0 0.
Definition req_zero : dns_req_entry := mk_dr NULL NULL 0.

Definition set_dpcbs v x := mk_dv v (dns_last_pcb_idx x) (dns_seqno x) (dns_table x) (dns_requests x) (dns_servers x).
Definition set_last_pcb v x := mk_dv (dns_pcbs x) v (dns_seqno x) (dns_table x) (dns_requests x) (dns_servers x).
Definition set_dseqno v x := mk_dv (dns_pcbs x) (dns_last_pcb_idx x) v (dns_table x) (dns_requests x) (dns_servers x).
Definition set_dtable v x := mk_dv (dns_pcbs x) (dns_last_pcb_idx x) (dns_seqno x) v (dns_requests x) (dns_servers x).
Definition set_drequests v x := mk_dv (dns_pcbs x) (dns_last_pcb_idx x) (dns_seqno x) (dns_table x) v (dns_servers x).
Definition set_dservers v x := mk_dv (dns_pcbs x) (dns_last_pcb_idx x) (dns_seqno x) (dns_table x) (dns_requests x) v.

(** The variables are a part of the external state of UDP. *)
Class dns_store (X : Type) := {
  dns_get : X -> dns_vars;
  dns_put : X -> dns_vars -> X;
  dns_get_put : forall x v, dns_get (dns_put x v) = v
}.

Section Dns.
Context {X : Type} `{!dns_store X}.
Context (netif_output : world X -> Z -> Z -> Z -> option (world X * Z)).
Context (custom_free : pstate -> Z -> pstate) (fuel : nat).
Context (rand : world X -> world X * Z).
(** The callbacks of the requests: function, name, address ([None] for [NULL]) and argument. *)
Context (found_fn : Z -> world X -> Z -> option Z -> Z -> option (world X)).
(** The addresses of [dns_recv], of the array [dns_table] and of a function's local
    variables. *)
Context (dns_recv_fn dns_table_at locals : Z).
Implicit Types w : world X.

Definition dns w : dns_vars := dns_get (w_ext w).
Definition upd_dns w (f : dns_vars -> dns_vars) : world X := set_ext w (dns_put (w_ext w) (f (dns w))).
Definition dentry w (i : nat) : dns_table_entry := nth i (dns_table (dns w)) entry_zero.
Definition upd_dentry w (i : nat) (f : dns_table_entry -> dns_table_entry) : world X :=
  upd_dns w (set_dtable (<[i := f (dentry w i)]> (dns_table (dns w)))).
Definition dreq w (i : nat) : dns_req_entry := nth i (dns_requests (dns w)) req_zero.
Definition put_dreq w (i : nat) (r : dns_req_entry) : world X := upd_dns w (set_drequests (<[i := r]> (dns_requests (dns w)))).
Definition dpcb w (i : Z) : Z := nth (Z.to_nat i) (dns_pcbs (dns w)) NULL.
Definition put_dpcb w (i v : Z) : world X := upd_dns w (set_dpcbs (<[Z.to_nat i := v]> (dns_pcbs (dns w)))).
Definition dserver w (i : Z) : Z := nth (Z.to_nat i) (dns_servers (dns w)) 0.
(** [dns_table[i].name] *)
Definition name_at (i : nat) : Z := dns_table_at + 272 * Z.of_nat i + 16.

(** [dns_setserver(numdns, dnsserver)], [dns_getserver(numdns)] *)
Definition dns_setserver w (numdns : Z) (dnsserver : option Z) : world X :=
  if numdns <? DNS_MAX_SERVERS
  then upd_dns w (set_dservers (<[Z.to_nat numdns := default 0 dnsserver]> (dns_servers (dns w)))) else w.
Definition dns_getserver w (numdns : Z) : Z := if numdns <? DNS_MAX_SERVERS then dserver w numdns else 0.

(** [dns_lookup(name, addr)]: the index of the entry. *)
Fixpoint dns_lookup_from w (name : Z) (i : nat) (l : list dns_table_entry) : option (option nat) :=
  match l with
  | [] => Some None
  | e :: l =>
      if bool_decide (d_state e = DNS_STATE_DONE) then
        match lwip_strnicmp fuel (wmem w) name (name_at i) DNS_MAX_NAME_LENGTH with
        | None => None
        | Some c => if c =? 0 then Some (Some i) else dns_lookup_from w name (S i) l
        end
      else dns_lookup_from w name (S i) l
  end.
Definition dns_lookup w (name : Z) : option (option Z) :=
  match dns_lookup_from w name 0 (dns_table (dns w)) with
  | None => None
  | Some r => Some ((fun i => d_ipaddr (dentry w i)) <$> r)
  end.

(** [dns_compare_name(query, p, start_offset)]: the loop over the characters of a label,
    and the one over the labels. *)
Definition compare_label (st : pstate) (p : Z) (query response_offset n : Z) : option (option (Z * Z)) :=
  loop fuel (fun '(query, response_offset, n) =>
    if 0 <? n then
      match pbuf_try_get_at fuel st p response_offset with
      | None => inr None
      | Some c => if (c <? 0) || negb (data st query =? u8 c) then inr (Some None)
                  else inl (query + 1, u16 (response_offset + 1), n - 1)
      end
    else inr (Some (Some (query, response_offset)))) (query, response_offset, n) ≫= id.
Definition dns_compare_name (st : pstate) (query p start_offset : Z) : option Z :=
  loop fuel (fun '(query, response_offset) =>
    match pbuf_try_get_at fuel st p response_offset with
    | None => inr None
    | Some n =>
        let response_offset := u16 (response_offset + 1) in
        if n <? 0 then inr (Some 0xFFFF)
        else if Z.land n 0xc0 =? 0xc0 then inr (Some 0xFFFF)
        else
          match compare_label st p query response_offset n with
          | None => inr None
          | Some None => inr (Some 0xFFFF)
          | Some (Some (query, response_offset)) =>
              match pbuf_try_get_at fuel st p response_offset with
              | None => inr None
              | Some n =>
                  if n <? 0 then inr (Some 0xFFFF)
                  else if negb (n =? 0) then inl (query + 1, response_offset)
                  else inr (Some (u16 (response_offset + 1)))
              end
          end
    end) (query, start_offset) ≫= id.

(** [dns_skip_name(p, query_idx)] *)
Definition dns_skip_name (st : pstate) (p query_idx : Z) : option Z :=
  loop fuel (fun offset =>
    match pbuf_try_get_at fuel st p offset with
    | None => inr None
    | Some n =>
        let offset := u16 (offset + 1) in
        if n <? 0 then inr (Some 0xFFFF)
        else if Z.land n 0xc0 =? 0xc0 then inr (Some (u16 (offset + 1)))
        else if pb_tot_len (pb st p) <=? offset + n then inr (Some 0xFFFF)
        else
          let offset := u16 (offset + n) in
          match pbuf_try_get_at fuel st p offset with
          | None => inr None
          | Some n =>
              if n <? 0 then inr (Some 0xFFFF)
              else if negb (n =? 0) then inl offset else inr (Some (u16 (offset + 1)))
          end
    end) query_idx ≫= id.

(** [dns_call_found(idx, addr)]; [ok] is false for [addr] [NULL], else [addr] is the
    entry's own address. *)
Definition call_request w (idx i : nat) (ok : bool) : option (world X) :=
  let r := dreq w i in
  if negb (rq_found r =? NULL) && (rq_table_idx r =? idx)%nat then
    w ← found_fn (rq_found r) w (name_at idx) (if ok then Some (d_ipaddr (dentry w idx)) else None) (rq_arg r);
    Some (put_dreq w i (mk_dr NULL (rq_arg (dreq w i)) (rq_table_idx (dreq w i))))
  else Some w.
Definition shares_pcb w (idx i : nat) : bool :=
  negb (i =? idx)%nat && bool_decide (d_state (dentry w i) = DNS_STATE_ASKING) && (d_pcb_idx (dentry w i) =? d_pcb_idx (dentry w idx)).
Definition release_pcb w (idx : nat) : world X :=
  let w := if existsb (shares_pcb w idx) (seq 0 DNS_MAX_REQUESTS) then upd_dentry w idx (de_pcb_idx DNS_MAX_SOURCE_PORTS) else w in
  let j := d_pcb_idx (dentry w idx) in
  if j <? DNS_MAX_SOURCE_PORTS
  then upd_dentry (put_dpcb (udp_remove w (dpcb w j)) j NULL) idx (de_pcb_idx DNS_MAX_SOURCE_PORTS)
  else w.
Definition dns_call_found w (idx : nat) (ok : bool) : option (world X) :=
  w ← foldl (fun ow i => w ← ow; call_request w idx i ok) (Some w) (seq 0 DNS_MAX_REQUESTS);
  Some (release_pcb w idx).

(** The loop of [dns_send] that turns the name into labels. *)
Definition label_end (m : memory) (hostname : Z) : option Z :=
  loop fuel (fun h => if negb (m h =? 46) && negb (m h =? 0) then inl (h + 1) else inr h) hostname.
Definition put_labels (st : pstate) (p hostname : Z) : option (pstate * Z) :=
  loop fuel (fun '(st, hostname, query_idx) =>
    match label_end (data st) hostname with
    | None => inr None
    | Some e =>
        let n := u8 (e - hostname) in
        let copy_len := u16 (e - hostname) in
        match pbuf_put_at fuel st p query_idx n with
        | None => inr None
        | Some st =>
            match pbuf_take_at fuel st p hostname copy_len (u16 (query_idx + 1)) with
            | None => inr None
            | Some (st, _) =>
                let query_idx := u16 (query_idx + (n + 1)) in
                if negb (data st e =? 0) then inl (st, e + 1, query_idx) else inr (Some (st, query_idx))
            end
        end
    end) (st, hostname, SIZEOF_DNS_HDR) ≫= id.

(** [dns_send(idx)]: the message of a query, and the sending. *)
Definition dns_write_query (st : pstate) (p idx txid : Z) : option pstate :=
  let m := write_bytes (data st) locals (replicate 12 0) in
  let m := st16 m locals (lwip_htons txid) in
  let m := upd m (locals + 2) DNS_FLAG1_RD in
  let m := st16 m (locals + 4) (PP_HTONS 1) in
  '(st, _) ← pbuf_take fuel (set_data st m) p locals SIZEOF_DNS_HDR;
  '(st, query_idx) ← put_labels st p (name_at (Z.to_nat idx));
  st ← pbuf_put_at fuel st p query_idx 0;
  let query_idx := u16 (query_idx + 1) in
  let m := st16 (data st) (locals + 12) (PP_HTONS DNS_RRTYPE_A) in
  let m := st16 m (locals + 14) (PP_HTONS DNS_RRCLASS_IN) in
  '(st, _) ← pbuf_take_at fuel (set_data st m) p (locals + 12) SIZEOF_DNS_QUERY query_idx;
  Some st.
Definition dns_send w (idx : nat) : option (world X * Z) :=
  let e := dentry w idx in
  if ip4_addr_isany (dserver w (d_server_idx e)) then
    w ← dns_call_found w idx false;
    Some (upd_dentry w idx (de_state DNS_STATE_UNUSED), ERR_OK)
  else
    n ← strlen fuel (wmem w) (name_at idx);
    '(st, p) ← pbuf_alloc custom_free fuel (w_ps w) PBUF_TRANSPORT (u16 (SIZEOF_DNS_HDR + n + 2 + SIZEOF_DNS_QUERY)) PBUF_RAM;
    if negb (p =? NULL) then
      st ← dns_write_query st p (Z.of_nat idx) (d_txid e);
      let w := set_wps w st in
      '(w, err) ← udp_sendto netif_output custom_free fuel w (dpcb w (d_pcb_idx e)) p (Some (dserver w (d_server_idx e))) DNS_SERVER_PORT;
      w ← wfree custom_free fuel w p;
      Some (w, err)
    else Some (set_wps w st, ERR_MEM).

(** [dns_alloc_random_port], [dns_alloc_pcb] *)
Definition random_port_step (pcb : Z) w : world X + option (world X * Z) :=
  let '(w, r) := rand w in
  let port := u16 r in
  if negb (DNS_PORT_ALLOWED port) then inl w
  else
    match udp_bind w pcb (Some 0) port with
    | None => inr None
    | Some (w, err) => if err =? ERR_USE then inl w else inr (Some (w, err))
    end.
Definition dns_alloc_random_port w : option (world X * Z) :=
  let '(w, ret) := udp_new_ip_type w 46 in
  if ret =? NULL then Some (w, NULL)
  else
    '(w, err) ← loop fuel (random_port_step ret) w ≫= id;
    if negb (err =? ERR_OK) then Some (udp_remove w ret, NULL)
    else Some (udp_recv w ret dns_recv_fn NULL, ret).
Fixpoint next_pcb w (n : nat) (idx : Z) : option Z :=
  match n with
  | O => None
  | S n =>
      let idx := if DNS_MAX_SOURCE_PORTS <=? idx then 0 else idx in
      if negb (dpcb w idx =? NULL) then Some idx else next_pcb w n (u8 (idx + 1))
  end.
Definition reuse_pcb w : world X * Z :=
  match next_pcb w (Z.to_nat DNS_MAX_SOURCE_PORTS) (u8 (dns_last_pcb_idx (dns w) + 1)) with
  | Some idx => (upd_dns w (set_last_pcb idx), idx)
  | None => (w, DNS_MAX_SOURCE_PORTS)
  end.
Definition dns_alloc_pcb w : option (world X * Z) :=
  match List.find (fun i => dpcb w i =? NULL) [0; 1; 2; 3] with
  | Some i =>
      '(w, pcb) ← dns_alloc_random_port w;
      let w := put_dpcb w i pcb in
      if negb (pcb =? NULL) then Some (upd_dns w (set_last_pcb i), i) else Some (reuse_pcb w)
  | None => Some (reuse_pcb w)
  end.

(** [dns_create_txid] *)
Definition txid_used w (txid : Z) : bool :=
  existsb (fun e => bool_decide (d_state e = DNS_STATE_ASKING) && (d_txid e =? txid)) (dns_table (dns w)).
Definition dns_create_txid w : option (world X * Z) :=
  loop fuel (fun w => let '(w, r) := rand w in if txid_used w (u16 r) then inl w else inr (w, u16 r)) w.

(** [dns_check_entry(i)], [dns_check_entries], [dns_tmr] *)
Definition check_asking w (i : nat) : option (world X) :=
  let e := dentry w i in
  let tmr := u8 (d_tmr e - 1) in
  let w := upd_dentry w i (de_query (d_server_idx e) tmr (d_retries e)) in
  if tmr =? 0 then
    let retries := u8 (d_retries e + 1) in
    let w := upd_dentry w i (de_query (d_server_idx e) tmr retries) in
    if retries =? DNS_MAX_RETRIES then
      if (d_server_idx e + 1 <? DNS_MAX_SERVERS) && negb (ip4_addr_isany (dserver w (d_server_idx e + 1))) then
        fst <$> dns_send (upd_dentry w i (de_query (u8 (d_server_idx e + 1)) 1 0)) i
      else
        w ← dns_call_found w i false;
        Some (upd_dentry w i (de_state DNS_STATE_UNUSED))
    else fst <$> dns_send (upd_dentry w i (de_query (d_server_idx e) retries retries)) i
  else Some w.
Definition dns_check_entry w (i : nat) : option (world X) :=
  match d_state (dentry w i) with
  | DNS_STATE_NEW =>
      '(w, txid) ← dns_create_txid w;
      let w := upd_dentry w i (fun e => de_query 0 1 0 (de_state DNS_STATE_ASKING (de_txid txid e))) in
      fst <$> dns_send w i
  | DNS_STATE_ASKING => check_asking w i
  | DNS_STATE_DONE =>
      let ttl := d_ttl (dentry w i) in
      if ttl =? 0 then Some (upd_dentry w i (de_state DNS_STATE_UNUSED))
      else
        let w := upd_dentry w i (de_ttl (u32 (ttl - 1))) in
        Some (if u32 (ttl - 1) =? 0 then upd_dentry w i (de_state DNS_STATE_UNUSED) else w)
  | DNS_STATE_UNUSED => Some w
  end.
Definition dns_check_entries w : option (world X) :=
  foldl (fun ow i => w ← ow; dns_check_entry w i) (Some w) (seq 0 DNS_TABLE_SIZE).
Definition dns_tmr w : option (world X) := dns_check_entries w.

(** [dns_correct_response(idx, ttl)] *)
Definition dns_correct_response w (idx : nat) (ttl : Z) : option (world X) :=
  let w := upd_dentry w idx (de_state DNS_STATE_DONE) in
  let w := upd_dentry w idx (de_ttl (if DNS_MAX_TTL <? ttl then DNS_MAX_TTL else ttl)) in
  w ← dns_call_found w idx true;
  Some (if (d_ttl (dentry w idx) =? 0) && bool_decide (d_state (dentry w idx) = DNS_STATE_DONE)
        then upd_dentry w idx (de_state DNS_STATE_UNUSED) else w).

(** The walk over the answers in [dns_recv]: [Ignored] is the label [memerr]. *)
Inductive dns_verdict := Ignored | No_answer | Answered (ipaddr ttl : Z).
Definition answer_step (p : Z) : world X * Z * Z -> (world X * Z * Z) + option (world X * dns_verdict) :=
  fun '(w, res_idx, nanswers) =>
    if (0 <? nanswers) && (res_idx <? pb_tot_len (pb (w_ps w) p)) then
      match dns_skip_name (w_ps w) p res_idx with
      | None => inr None
      | Some res_idx =>
          if res_idx =? 0xFFFF then inr (Some (w, Ignored))
          else
            match pbuf_copy_partial fuel (w_ps w) p (locals + 16) SIZEOF_DNS_ANSWER res_idx with
            | None => inr None
            | Some (st, n) =>
                let w := set_wps w st in
                if negb (n =? SIZEOF_DNS_ANSWER) then inr (Some (w, Ignored))
                else
                  let res_idx := u16 (res_idx + SIZEOF_DNS_ANSWER) in
                  let ans_type := ld16 (wmem w) (locals + 16) in
                  let ans_cls := ld16 (wmem w) (locals + 18) in
                  let ans_ttl := ld32 (wmem w) (locals + 20) in
                  let ans_len := ld16 (wmem w) (locals + 24) in
                  if (ans_cls =? PP_HTONS DNS_RRCLASS_IN) && ((ans_type =? PP_HTONS DNS_RRTYPE_A) && (ans_len =? PP_HTONS 4)) then
                    match pbuf_copy_partial fuel (w_ps w) p (locals + 28) 4 res_idx with
                    | None => inr None
                    | Some (st, n) =>
                        let w := set_wps w st in
                        if negb (n =? 4) then inr (Some (w, Ignored))
                        else inr (Some (w, Answered (ld32 (wmem w) (locals + 28)) (lwip_htonl ans_ttl)))
                    end
                  else if 0xFFFF <? res_idx + lwip_htons ans_len then inr (Some (w, Ignored))
                  else inl (w, u16 (res_idx + lwip_htons ans_len), u16 (nanswers - 1))
            end
      end
    else inr (Some (w, No_answer)).

(** The checks of [dns_recv] on the message for entry [i]. *)
Definition check_response w (p addr : Z) (i : nat) : option (world X * dns_verdict) :=
  let e := dentry w i in
  let nquestions := lwip_htons (ld16 (wmem w) (locals + 4)) in
  let nanswers := lwip_htons (ld16 (wmem w) (locals + 6)) in
  let flags2 := wmem w (locals + 3) in
  if Z.land (wmem w (locals + 2)) DNS_FLAG1_RESPONSE =? 0 then Some (w, Ignored)
  else if negb (nquestions =? 1) then Some (w, Ignored)
  else if negb (addr =? dserver w (d_server_idx e)) then Some (w, Ignored)
  else
    match dns_compare_name (w_ps w) (name_at i) p SIZEOF_DNS_HDR with
    | None => None
    | Some res_idx =>
        if res_idx =? 0xFFFF then Some (w, Ignored)
        else
          match pbuf_copy_partial fuel (w_ps w) p (locals + 12) SIZEOF_DNS_QUERY res_idx with
          | None => None
          | Some (st, n) =>
              let w := set_wps w st in
              if negb (n =? SIZEOF_DNS_QUERY) then Some (w, Ignored)
              else if negb (ld16 (wmem w) (locals + 14) =? PP_HTONS DNS_RRCLASS_IN) || negb (ld16 (wmem w) (locals + 12) =? PP_HTONS DNS_RRTYPE_A)
              then Some (w, Ignored)
              else if negb (Z.land flags2 DNS_FLAG2_ERR_MASK =? 0) then Some (w, No_answer)
              else loop fuel (answer_step p) (w, u16 (res_idx + SIZEOF_DNS_QUERY), nanswers) ≫= id
          end
    end.
Definition asked w (txid : Z) : option nat :=
  List.find (fun i => bool_decide (d_state (dentry w i) = DNS_STATE_ASKING) && (d_txid (dentry w i) =? txid)) (seq 0 DNS_TABLE_SIZE).

(** [dns_recv(arg, pcb, p, addr, port)] *)
Definition dns_recv w (arg pcb p addr port : Z) : option (world X) :=
  if pb_tot_len (pb (w_ps w) p) <? SIZEOF_DNS_HDR + SIZEOF_DNS_QUERY then wfree custom_free fuel w p
  else
    '(st, n) ← pbuf_copy_partial fuel (w_ps w) p locals SIZEOF_DNS_HDR 0;
    let w := set_wps w st in
    if negb (n =? SIZEOF_DNS_HDR) then wfree custom_free fuel w p
    else
      match asked w (lwip_htons (ld16 (wmem w) locals)) with
      | None => wfree custom_free fuel w p
      | Some i =>
          '(w, v) ← check_response w p addr i;
          match v with
          | Ignored => wfree custom_free fuel w p
          | Answered ip ttl =>
              let w := upd_dentry w i (de_ipaddr ip) in
              w ← wfree custom_free fuel w p;
              dns_correct_response w i ttl
          | No_answer =>
              w ← wfree custom_free fuel w p;
              w ← dns_call_found w i false;
              Some (upd_dentry w i (de_state DNS_STATE_UNUSED))
          end
      end.

(** The searches of [dns_enqueue]: a query for the same name, a free request, and an entry. *)
Fixpoint find_duplicate w (name : Z) (i : nat) (l : list dns_table_entry) : option (option nat) :=
  match l with
  | [] => Some None
  | e :: l =>
      if bool_decide (d_state e = DNS_STATE_ASKING) then
        match lwip_strnicmp fuel (wmem w) name (name_at i) DNS_MAX_NAME_LENGTH with
        | None => None
        | Some c => if (c =? 0) && existsb (fun r => rq_found r =? NULL) (dns_requests (dns w)) then Some (Some i)
                    else find_duplicate w name (S i) l
        end
      else find_duplicate w name (S i) l
  end.
Definition free_request w : option nat := List.find (fun r => rq_found (dreq w r) =? NULL) (seq 0 DNS_MAX_REQUESTS).
Fixpoint oldest_entry w (i : nat) (l : list dns_table_entry) (lseq : Z) (lseqi : option nat) : option nat :=
  match l with
  | [] => lseqi
  | e :: l =>
      if bool_decide (d_state e = DNS_STATE_UNUSED) then Some i
      else if bool_decide (d_state e = DNS_STATE_DONE) then
        let age := u8 (dns_seqno (dns w) - d_seqno e) in
        if lseq <? age then oldest_entry w (S i) l age (Some i) else oldest_entry w (S i) l lseq lseqi
      else oldest_entry w (S i) l lseq lseqi
  end.

(** The end of [dns_enqueue]: entry [i] is filled and queried, for request [r]. *)
Definition dns_fill_entry w (i r : nat) (name hostnamelen found callback_arg : Z) : option (world X * Z) :=
  let w := put_dreq w r (mk_dr found callback_arg i) in
  let w := upd_dentry w i (fun e => de_seqno (dns_seqno (dns w)) (de_state DNS_STATE_NEW e)) in
  let namelen := Z.min hostnamelen (DNS_MAX_NAME_LENGTH - 1) in
  let w := set_wmem w (memcpy (wmem w) (name_at i) name namelen) in
  let w := set_wmem w (upd (wmem w) (name_at i + namelen) 0) in
  '(w, j) ← dns_alloc_pcb w;
  let w := upd_dentry w i (de_pcb_idx j) in
  if DNS_MAX_SOURCE_PORTS <=? j then
    let w := upd_dentry w i (de_state DNS_STATE_UNUSED) in
    Some (put_dreq w r (mk_dr NULL callback_arg i), ERR_MEM)
  else
    let w := upd_dns w (set_dseqno (u8 (dns_seqno (dns w) + 1))) in
    w ← dns_check_entry w i;
    Some (w, ERR_INPROGRESS).

(** [dns_enqueue(name, hostnamelen, found, callback_arg)] *)
Definition dns_enqueue w (name hostnamelen found callback_arg : Z) : option (world X * Z) :=
  dup ← find_duplicate w name 0 (dns_table (dns w));
  match dup, free_request w with
  | Some i, Some r => Some (put_dreq w r (mk_dr found callback_arg i), ERR_INPROGRESS)
  | _, _ =>
      match oldest_entry w 0 (dns_table (dns w)) 0 None with
      | None => Some (w, ERR_MEM)
      | Some i =>
          match free_request w with
          | None => Some (w, ERR_MEM)
          | Some r => dns_fill_entry w i r name hostnamelen found callback_arg
          end
      end
  end.

(** [dns_gethostbyname(hostname, addr, found, callback_arg)] *)
Definition dns_gethostbyname w (hostname addr found callback_arg : Z) : option (world X * Z) :=
  if (addr =? NULL) || (hostname =? NULL) || (wmem w hostname =? 0) then Some (w, ERR_ARG)
  else
    hostnamelen ← strlen fuel (wmem w) hostname;
    if DNS_MAX_NAME_LENGTH <=? hostnamelen then Some (w, ERR_ARG)
    else
      a ← ip4addr_aton fuel (wmem w) hostname;
      match a with
      | Some ip => Some (set_wmem w (st32 (wmem w) addr ip), ERR_OK)
      | None =>
          r ← dns_lookup w hostname;
          match r with
          | Some ip => Some (set_wmem w (st32 (wmem w) addr ip), ERR_OK)
          | None =>
              if ip4_addr_isany (dserver w 0) then Some (w, ERR_VAL)
              else dns_enqueue w hostname hostnamelen found callback_arg
          end
      end.

End Dns.
