(* ===== verification/DnsTable.v ===== *)
(** * The table of the DNS client

    The invariant of the table, the requests and the sockets over all operations, and the
    end of every query. *)

From Stdlib Require Import ZArith Lia.
From stdpp Require Import base tactics numbers list option gmap.
From S2P Require Import Prelude.
From S2P Require Import Def.
From S2P Require Import Ip4Addr.
From S2P Require Import Alloc.
From S2P Require Import Mem.
From S2P Require Import Memp.
From S2P Require Import Pbuf.
From S2P Require Import PbufChain.
From S2P Require Import World.
From S2P Require Import Ip4Frag.
From S2P Require Import Ip4.
From S2P Require Import Icmp.
From S2P Require Import Udp.
From S2P Require Import Dns.

(** ** The variables *)

Definition ventry (v : dns_vars) (i : nat) : dns_table_entry := nth i (dns_table v) entry_zero.
Definition put_entry (i : nat) (e : dns_table_entry) (v : dns_vars) : dns_vars := set_dtable (<[i := e]> (dns_table v)) v.
Definition vpcb (v : dns_vars) (j : Z) : Z := nth (Z.to_nat j) (dns_pcbs v) NULL.
Definition asking (e : dns_table_entry) : Prop := d_state e = DNS_STATE_ASKING.
Definition pending (r : dns_req_entry) (idx : nat) : bool := negb (rq_found r =? NULL) && (rq_table_idx r =? idx)%nat.

(** A query: the server and the timer are in range, and it has a socket. *)
Record query_ok (v : dns_vars) (e : dns_table_entry) : Prop := {
  qo_server : 0 <= d_server_idx e < DNS_MAX_SERVERS;
  qo_retries : 0 <= d_retries e < DNS_MAX_RETRIES;
  qo_tmr : 1 <= d_tmr e <= Z.max 1 (d_retries e);
  qo_pcb : 0 <= d_pcb_idx e < DNS_MAX_SOURCE_PORTS;
  qo_open : vpcb v (d_pcb_idx e) <> NULL
}.

Definition entry_fine (v : dns_vars) (e : dns_table_entry) : Prop :=
  match d_state e with
  | DNS_STATE_UNUSED => True
  | DNS_STATE_NEW => False
  | DNS_STATE_ASKING => query_ok v e
  | DNS_STATE_DONE => 1 <= d_ttl e <= DNS_MAX_TTL
  end.

(** The sizes of the arrays; the entries; no two queries with the same id; a request waits
    for a query; a socket is open for a query. *)
Record dns_ok (v : dns_vars) : Prop := {
  do_pcbs : length (dns_pcbs v) = 4%nat;
  do_table : length (dns_table v) = 4%nat;
  do_requests : length (dns_requests v) = 4%nat;
  do_servers : length (dns_servers v) = 2%nat;
  do_last : 0 <= dns_last_pcb_idx v < DNS_MAX_SOURCE_PORTS;
  do_entries : forall i, (i < 4)%nat -> entry_fine v (ventry v i);
  do_txids : forall i j, (i < 4)%nat -> (j < 4)%nat -> asking (ventry v i) -> asking (ventry v j) ->
    d_txid (ventry v i) = d_txid (ventry v j) -> i = j;
  do_waits : forall r, r ∈ dns_requests v -> rq_found r <> NULL -> (rq_table_idx r < 4)%nat /\ asking (ventry v (rq_table_idx r));
  do_sockets : forall j, 0 <= j < DNS_MAX_SOURCE_PORTS -> vpcb v j <> NULL ->
    exists i, (i < 4)%nat /\ asking (ventry v i) /\ d_pcb_idx (ventry v i) = j
}.

Lemma ventry_put v i e j : length (dns_table v) = 4%nat -> (i < 4)%nat -> ventry (put_entry i e v) j = if decide (j = i) then e else ventry v j.
Proof.
  intros Hl Hi. unfold ventry, put_entry. simpl. destruct (decide (j = i)) as [->|Hj].
  - apply (nth_lookup_Some _ _ entry_zero). apply list_lookup_insert_eq. lia.
  - rewrite !nth_lookup. by rewrite list_lookup_insert_ne.
Qed.

Lemma put_entry_length v i e : length (dns_table (put_entry i e v)) = length (dns_table v).
Proof. apply length_insert. Qed.

Lemma entry_fine_pcbs v v' e : dns_pcbs v' = dns_pcbs v -> entry_fine v e -> entry_fine v' e.
Proof.
  intros E H. unfold entry_fine in *. destruct (d_state e); auto. destruct H as [Q1 Q2 Q3 Q4 Q5]. constructor; auto.
  unfold vpcb in *. by rewrite E.
Qed.

Lemma put_put v i e e' : put_entry i e (put_entry i e' v) = put_entry i e v.
Proof. unfold put_entry. simpl. by rewrite list_insert_insert_eq. Qed.

(** ** [dns_call_found] on the variables *)

Definition clear_request (idx : nat) (r : dns_req_entry) : dns_req_entry :=
  if pending r idx then mk_dr NULL (rq_arg r) (rq_table_idx r) else r.
Definition shared (v : dns_vars) (idx : nat) : bool :=
  existsb (fun i => negb (i =? idx)%nat && bool_decide (asking (ventry v i)) && (d_pcb_idx (ventry v i) =? d_pcb_idx (ventry v idx))) (seq 0 4).
Definition close_pcb (idx : nat) (v : dns_vars) : dns_vars :=
  let j := d_pcb_idx (ventry v idx) in
  if shared v idx then put_entry idx (de_pcb_idx DNS_MAX_SOURCE_PORTS (ventry v idx)) v
  else if j <? DNS_MAX_SOURCE_PORTS
  then put_entry idx (de_pcb_idx DNS_MAX_SOURCE_PORTS (ventry v idx)) (set_dpcbs (<[Z.to_nat j := NULL]> (dns_pcbs v)) v)
  else v.
Definition called (idx : nat) (v : dns_vars) : dns_vars := close_pcb idx (set_drequests (clear_request idx <$> dns_requests v) v).

(** ** The invariant *)

Lemma shared_put v i e : length (dns_table v) = 4%nat -> (i < 4)%nat -> d_pcb_idx e = d_pcb_idx (ventry v i) -> shared (put_entry i e v) i = shared v i.
Proof.
  intros Hl Hi Hj. unfold shared. generalize (seq 0 4). intros l. induction l as [|k l IH]; [done|]. cbn [existsb]. rewrite IH. f_equal.
  rewrite !ventry_put, (decide_True (P := i = i)) by done. destruct (decide (k = i)) as [->|]; [by rewrite Nat.eqb_refl|]. by rewrite Hj.
Qed.

Lemma shared_spec v i :
  shared v i = true <-> exists k, (k < 4)%nat /\ k <> i /\ asking (ventry v k) /\ d_pcb_idx (ventry v k) = d_pcb_idx (ventry v i).
Proof.
  unfold shared. rewrite existsb_exists. split.
  - intros (k & Hk%in_seq & H). apply andb_prop in H as [[H1 H2]%andb_prop H3].
    exists k. apply negb_true_iff, Nat.eqb_neq in H1. apply bool_decide_eq_true in H2. apply Z.eqb_eq in H3. repeat split; auto; lia.
  - intros (k & Hk & H1 & H2 & H3). exists k. split; [apply in_seq; lia|]. rewrite (proj2 (Nat.eqb_neq _ _) H1), bool_decide_true by done.
    by rewrite H3, Z.eqb_refl.
Qed.

(** What remains when a query ends: its requests are gone, and its socket unless another
    query uses it. *)
Definition finished (i : nat) (v : dns_vars) : dns_vars :=
  set_dpcbs (if shared v i then dns_pcbs v else <[Z.to_nat (d_pcb_idx (ventry v i)) := NULL]> (dns_pcbs v))
    (set_drequests (clear_request i <$> dns_requests v) v).

Lemma called_finished v i e e' :
  length (dns_table v) = 4%nat -> (i < 4)%nat -> d_pcb_idx e = d_pcb_idx (ventry v i) -> d_pcb_idx e < DNS_MAX_SOURCE_PORTS ->
  put_entry i e' (called i (put_entry i e v)) = put_entry i e' (finished i v) /\ ventry (called i (put_entry i e v)) i = de_pcb_idx DNS_MAX_SOURCE_PORTS e.
Proof.
  intros Hl Hi Hj Hlt. unfold called, close_pcb, finished.
  change (shared (set_drequests _ (put_entry i e v)) i) with (shared (put_entry i e v) i). rewrite shared_put by done.
  change (ventry (set_drequests _ (put_entry i e v)) i) with (ventry (put_entry i e v) i).
  assert (Ee : ventry (put_entry i e v) i = e) by (by rewrite ventry_put, decide_True). rewrite Ee.
  cbv zeta. rewrite (proj2 (Z.ltb_lt _ _) Hlt). destruct (shared v i).
  - split; [unfold put_entry; simpl; by rewrite !list_insert_insert_eq|].
    rewrite ventry_put, decide_True; [done|done|simpl; by rewrite length_insert|done].
  - split; [unfold put_entry; simpl; rewrite !list_insert_insert_eq; by rewrite Hj|].
    rewrite ventry_put, decide_True; [done|done|simpl; by rewrite length_insert|done].
Qed.

Lemma called_length i v : length (dns_table (called i v)) = length (dns_table v).
Proof. unfold called, close_pcb. cbv zeta. destruct (shared _ _); [by rewrite put_entry_length|]. destruct (_ <? _); [by rewrite put_entry_length|done]. Qed.

(** An entry that is no query. *)
Definition idle_entry (e : dns_table_entry) : Prop := d_state e = DNS_STATE_UNUSED \/ d_state e = DNS_STATE_DONE /\ 1 <= d_ttl e <= DNS_MAX_TTL.

Lemma finish_ok v i e :
  dns_ok v -> (i < 4)%nat -> asking (ventry v i) -> idle_entry e -> dns_ok (put_entry i e (finished i v)).
Proof.
  intros Hok Hi Ha He. pose proof Hok as [L1 L2 L3 L4 H5 H6 H7 H8 H9].
  assert (Hne : ~ asking e) by (unfold asking; destruct He as [->|[-> _]]; done).
  assert (Hv : forall k, ventry (put_entry i e (finished i v)) k = if decide (k = i) then e else ventry v k) by (intros k; by apply (ventry_put (finished i v))).
  assert (Hq : query_ok v (ventry v i)) by (pose proof (H6 i Hi) as H; unfold entry_fine in H; by rewrite Ha in H).
  assert (Hpcb : forall j, 0 <= j < DNS_MAX_SOURCE_PORTS -> vpcb (put_entry i e (finished i v)) j =
    if shared v i then vpcb v j else if j =? d_pcb_idx (ventry v i) then NULL else vpcb v j).
  { intros j Hj. unfold vpcb, put_entry, finished. simpl. destruct (shared v i); [done|]. pose proof (qo_pcb _ _ Hq).
    destruct (Z.eqb_spec j (d_pcb_idx (ventry v i))) as [->|Hn].
    - apply (nth_lookup_Some _ _ NULL). apply list_lookup_insert_eq. unfold DNS_MAX_SOURCE_PORTS in *. lia.
    - rewrite !nth_lookup. rewrite list_lookup_insert_ne by lia. done. }
  constructor.
  - unfold put_entry, finished. simpl. destruct (shared v i); [done|]. by rewrite length_insert.
  - unfold put_entry, finished. simpl. by rewrite length_insert.
  - unfold put_entry, finished. simpl. by rewrite length_fmap.
  - done.
  - done.
  - intros k Hk. rewrite Hv. destruct (decide (k = i)) as [->|Hki].
    + unfold entry_fine. by destruct He as [->|[-> He]].
    + pose proof (H6 k Hk) as Hf. unfold entry_fine in *. destruct (d_state (ventry v k)) eqn:Es; auto. destruct Hf as [Q1 Q2 Q3 Q4 Q5].
      constructor; auto. rewrite Hpcb by done. destruct (shared v i) eqn:Esh; [done|]. destruct (Z.eqb_spec (d_pcb_idx (ventry v k)) (d_pcb_idx (ventry v i))) as [E|]; [|done].
      exfalso. assert (shared v i = true) by (apply shared_spec; exists k; auto). congruence.
  - intros k j Hk Hj. rewrite !Hv. destruct (decide (k = i)), (decide (j = i)); try done. by apply H7.
  - intros r Hr Hf. apply list_elem_of_fmap in Hr as (r0 & -> & Hr0). unfold clear_request in *. destruct (pending r0 i) eqn:Ep; [done|].
    destruct (H8 r0 Hr0 Hf) as [K1 K2]. split; [done|]. rewrite Hv. destruct (decide (rq_table_idx r0 = i)) as [E|]; [|done].
    exfalso. unfold pending in Ep. rewrite (proj2 (Z.eqb_neq _ _) Hf), (proj2 (Nat.eqb_eq _ _) E) in Ep. done.
  - intros j Hj Ho. rewrite Hpcb in Ho by done. destruct (shared v i) eqn:Esh.
    + destruct (H9 j Hj Ho) as (k & Hk & Hak & Ej). destruct (decide (k = i)) as [->|Hki].
      * apply shared_spec in Esh as (k & Hk' & Hki & Hak' & Ej'). exists k. rewrite Hv, decide_False by done. split; [done|]. split; [done|congruence].
      * exists k. rewrite Hv, decide_False by done. auto.
    + destruct (Z.eqb_spec j (d_pcb_idx (ventry v i))) as [E|E]; [done|]. destruct (H9 j Hj Ho) as (k & Hk & Hak & Ej).
      destruct (decide (k = i)) as [->|Hki]; [congruence|]. exists k. rewrite Hv, decide_False by done. auto.
Qed.

Section Effects.
Context {X : Type} `{!dns_store X}.
Context (netif_output : world X -> Z -> Z -> Z -> option (world X * Z)).
Context (custom_free : pstate -> Z -> pstate) (fuel : nat).
Context (rand : world X -> world X * Z).
Context (found_fn : Z -> world X -> Z -> option Z -> Z -> option (world X)).
Context (dns_recv_fn dns_table_at locals : Z).
Implicit Types w : world X.

(** The variables have this value. *)
Definition has_dns (v : dns_vars) w : Prop := dns w = v.

#[export] Instance has_dns_keeps v : udp_keeps (has_dns v).
Proof. exact (ext_keeps (fun x => dns_get x = v)). Qed.

(** The interface, [rand] and the callbacks leave the client's variables alone. *)
Record dns_private : Prop := {
  dp_output : forall v, output_keeps netif_output (has_dns v);
  dp_rand : forall w, dns (rand w).1 = dns w;
  dp_found : forall f w name a arg w', found_fn f w name a arg = Some w' -> dns w' = dns w
}.
Context (Hp : dns_private).

Lemma dns_upd w f : dns (upd_dns w f) = f (dns w).
Proof. apply dns_get_put. Qed.

Lemma dns_upd_entry w i f : dns (upd_dentry w i f) = put_entry i (f (ventry (dns w) i)) (dns w).
Proof. unfold upd_dentry. by rewrite dns_upd. Qed.

Lemma dentry_eq w i : dentry w i = ventry (dns w) i.
Proof. done. Qed.

Lemma dns_remove w pcb : dns (udp_remove w pcb) = dns w.
Proof. done. Qed.

Lemma call_request_dns w idx i ok w' :
  call_request found_fn dns_table_at w idx i ok = Some w' ->
  dns w' = set_drequests (if pending (dreq w i) idx then <[i := clear_request idx (dreq w i)]> (dns_requests (dns w)) else dns_requests (dns w)) (dns w).
Proof.
  unfold call_request. cbv zeta. fold (pending (dreq w i) idx). destruct (pending (dreq w i) idx) eqn:E.
  2:{ intros [= <-]. by destruct (dns w). }
  destruct (found_fn _ _ _ _ _) as [w1|] eqn:Ef; [|done]. apply (dp_found Hp) in Ef. intros [= <-].
  unfold put_dreq. rewrite dns_upd. unfold dreq, clear_request in *. rewrite Ef. by rewrite E.
Qed.

Lemma release_dns w idx : (idx < 4)%nat -> length (dns_table (dns w)) = 4%nat -> dns (release_pcb w idx) = close_pcb idx (dns w).
Proof.
  intros Hi Hl. unfold release_pcb, close_pcb. change (existsb (shares_pcb w idx) (seq 0 DNS_MAX_REQUESTS)) with (shared (dns w) idx).
  destruct (shared (dns w) idx).
  - assert (E : d_pcb_idx (dentry (upd_dentry w idx (de_pcb_idx DNS_MAX_SOURCE_PORTS)) idx) = DNS_MAX_SOURCE_PORTS).
    { rewrite dentry_eq, dns_upd_entry, ventry_put, decide_True by done. done. }
    cbv zeta. rewrite E, Z.ltb_irrefl. apply dns_upd_entry.
  - cbv zeta. rewrite !dentry_eq. destruct (_ <? _); [|done]. rewrite dns_upd_entry. unfold put_dpcb. by rewrite dns_upd.
Qed.

Lemma call_found_dns w idx ok w' :
  (idx < 4)%nat -> length (dns_table (dns w)) = 4%nat -> length (dns_requests (dns w)) = 4%nat ->
  dns_call_found found_fn dns_table_at w idx ok = Some w' -> dns w' = called idx (dns w).
Proof.
  intros Hi Hl Hr. unfold dns_call_found. cbn [seq DNS_MAX_REQUESTS foldl mbind option_bind].
  destruct (call_request _ _ w idx 0 ok) as [w1|] eqn:E1; [|done]. cbn [mbind option_bind].
  destruct (call_request _ _ w1 idx 1 ok) as [w2|] eqn:E2; [|done]. cbn [mbind option_bind].
  destruct (call_request _ _ w2 idx 2 ok) as [w3|] eqn:E3; [|done]. cbn [mbind option_bind].
  destruct (call_request _ _ w3 idx 3 ok) as [w4|] eqn:E4; [|done]. cbn [mbind option_bind].
  apply call_request_dns in E1, E2, E3, E4. unfold dreq in *. intros [= <-].
  destruct (dns_requests (dns w)) as [|r0 [|r1 [|r2 [|r3 [|]]]]] eqn:Er; try discriminate Hr. clear Hr.
  assert (Hc : forall r, (if pending r idx then clear_request idx r else r) = clear_request idx r) by (intros r; unfold clear_request; by destruct (pending r idx)).
  set (c := clear_request idx) in *.
  assert (F1 : dns w1 = set_drequests [c r0; r1; r2; r3] (dns w)) by (rewrite E1; simpl; rewrite <- (Hc r0); by destruct (pending r0 idx)).
  assert (F2 : dns w2 = set_drequests [c r0; c r1; r2; r3] (dns w)) by (rewrite E2, F1; simpl; rewrite <- (Hc r1); by destruct (pending r1 idx)).
  assert (F3 : dns w3 = set_drequests [c r0; c r1; c r2; r3] (dns w)) by (rewrite E3, F2; simpl; rewrite <- (Hc r2); by destruct (pending r2 idx)).
  assert (E : dns w4 = set_drequests (c <$> [r0; r1; r2; r3]) (dns w)) by (rewrite E4, F3; simpl; rewrite <- (Hc r3); by destruct (pending r3 idx)).
  rewrite release_dns; [|done|by rewrite E]. unfold called. rewrite E. by rewrite Er.
Qed.

Lemma wfree_dns w p w' : wfree custom_free fuel w p = Some w' -> dns w' = dns w.
Proof. intros H. exact (wfree_keeps _ _ (has_dns (dns w)) _ _ _ H eq_refl). Qed.

Lemma sendto_dns w pcb p dst port w' e :
  udp_sendto netif_output custom_free fuel w pcb p dst port = Some (w', e) -> dns w' = dns w.
Proof.
  intros H. eapply (udp_sendto_keeps_bind _ _ _ (has_dns (dns w)) (dp_output Hp _)); [exact H|done|].
  intros w1 w2 r _ Hb _ H1. unfold has_dns, dns, auto_bind in *. destruct (_ =? 0); [|by injection Hb as <- _].
  by rewrite (udp_bind_ext _ _ _ _ _ _ Hb).
Qed.

#[local] Abbreviation send := (dns_send netif_output custom_free fuel found_fn dns_table_at locals).

Lemma put_same v i : length (dns_table v) = 4%nat -> (i < 4)%nat -> put_entry i (ventry v i) v = v.
Proof.
  intros Hl Hi. unfold put_entry, ventry. destruct v as [a b c t d e]. simpl in *. unfold set_dtable. simpl. f_equal.
  apply list_insert_id. destruct (lookup_lt_is_Some_2 t i) as [x Hx]; [lia|]. by rewrite (nth_lookup_Some _ _ _ _ Hx).
Qed.

(** A query that ends with an error: the requests are called with [NULL], the entry is free. *)
Lemma fail_dns v e w i w1 :
  dns_ok v -> (i < 4)%nat -> asking (ventry v i) -> d_pcb_idx e = d_pcb_idx (ventry v i) -> dns w = put_entry i e v ->
  dns_call_found found_fn dns_table_at w i false = Some w1 ->
  exists e', d_state e' = DNS_STATE_UNUSED /\ dns (upd_dentry w1 i (de_state DNS_STATE_UNUSED)) = put_entry i e' (finished i v).
Proof.
  intros Hok Hi Ha He Hw H. pose proof Hok as [_ L2 L3 _ _ H6 _ _ _].
  apply call_found_dns in H; [|done|by rewrite Hw, put_entry_length|by rewrite Hw].
  assert (Hq : query_ok v (ventry v i)) by (specialize (H6 i Hi); unfold entry_fine in H6; by rewrite Ha in H6).
  rewrite dns_upd_entry, H, Hw. eexists. split; [|apply called_finished; [done|done|done|rewrite He; apply (qo_pcb _ _ Hq)]]. done.
Qed.

(** The outcomes of [dns_send]: the variables stay, or the query fails. *)
Lemma send_dns w i w' err :
  dns_ok (dns w) -> (i < 4)%nat -> asking (ventry (dns w) i) -> send w i = Some (w', err) ->
  if ip4_addr_isany (dserver w (d_server_idx (ventry (dns w) i)))
  then exists e, d_state e = DNS_STATE_UNUSED /\ dns w' = put_entry i e (finished i (dns w))
  else dns w' = dns w.
Proof.
  intros Hok Hi Ha. unfold dns_send. rewrite dentry_eq. destruct (ip4_addr_isany _).
  - destruct (dns_call_found _ _ w i false) as [w1|] eqn:E; [|done]. intros [= <- _]. eapply (fail_dns (dns w) (ventry (dns w) i)); try done. rewrite put_same; [done|apply Hok|done].
  - destruct (strlen _ _ _) as [n|]; [|done]. cbn [mbind option_bind]. destruct (pbuf_alloc _ _ _ _ _ _) as [[st p]|]; [|done]. cbn [mbind option_bind].
    destruct (negb _); [|by intros [= <- _]]. destruct (dns_write_query _ _ _ _ _ _ _) as [st2|]; [|done]. cbn [mbind option_bind].
    destruct (udp_sendto _ _ _ _ _ _ _ _) as [[w2 e2]|] eqn:E2; [|done]. cbn [mbind option_bind].
    destruct (wfree _ _ w2 p) as [w3|] eqn:E3; [|done]. intros [= <- _]. apply sendto_dns in E2. apply wfree_dns in E3. by rewrite E3, E2.
Qed.

Lemma send_ok w i w' err :
  dns_ok (dns w) -> (i < 4)%nat -> asking (ventry (dns w) i) -> send w i = Some (w', err) -> dns_ok (dns w').
Proof.
  intros Hok Hi Ha H. apply send_dns in H; auto. destruct (ip4_addr_isany _); [|by rewrite H].
  destruct H as (e & He & ->). apply finish_ok; [done|done|done|by left].
Qed.

(** A query with a new timer, server and number of retries. *)
Lemma requery_ok v i s t r :
  dns_ok v -> (i < 4)%nat -> asking (ventry v i) -> 0 <= s < DNS_MAX_SERVERS -> 0 <= r < DNS_MAX_RETRIES -> 1 <= t <= Z.max 1 r ->
  dns_ok (put_entry i (de_query s t r (ventry v i)) v).
Proof.
  intros Hok Hi Ha Hs Hr Ht. pose proof Hok as [L1 L2 L3 L4 H5 H6 H7 H8 H9].
  assert (Hv : forall k, ventry (put_entry i (de_query s t r (ventry v i)) v) k = if decide (k = i) then de_query s t r (ventry v i) else ventry v k)
    by (intros k; by apply ventry_put).
  assert (Hst : forall k, d_state (ventry (put_entry i (de_query s t r (ventry v i)) v) k) = d_state (ventry v k) /\
    d_txid (ventry (put_entry i (de_query s t r (ventry v i)) v) k) = d_txid (ventry v k) /\
    d_pcb_idx (ventry (put_entry i (de_query s t r (ventry v i)) v) k) = d_pcb_idx (ventry v k)).
  { intros k. rewrite Hv. by destruct (decide (k = i)) as [->|]. }
  constructor; [done|by rewrite put_entry_length|done|done|done| | | |].
  - intros k Hk. pose proof (H6 k Hk) as Hf. rewrite Hv. apply (entry_fine_pcbs v); [done|].
    destruct (decide (k = i)) as [->|]; [|done]. unfold entry_fine in *. rewrite Ha in Hf. simpl. rewrite Ha. destruct Hf. by constructor.
  - intros k j Hk Hj. unfold asking. destruct (Hst k) as (-> & -> & _), (Hst j) as (-> & -> & _). by apply H7.
  - intros q Hq Hf. unfold asking. destruct (Hst (rq_table_idx q)) as (-> & _). by apply H8.
  - intros j Hj Ho. destruct (H9 j Hj Ho) as (k & Hk & Hak & Ej). exists k. unfold asking. destruct (Hst k) as (-> & _ & ->). auto.
Qed.

(** Decides the comparisons of constants. *)
Ltac eqbs := repeat match goal with
  | |- context [Z.eqb ?a ?b] => let c := eval vm_compute in (Z.eqb a b) in
      match c with true => change (Z.eqb a b) with true | false => change (Z.eqb a b) with false end
  end; cbv iota.

(** The ticks that a query still has: seven for each server. *)
Definition rank (e : dns_table_entry) : Z :=
  d_tmr e + (if d_retries e =? 0 then 6 else if d_retries e =? 1 then 5 else if d_retries e =? 2 then 3 else 0) +
  (if d_server_idx e =? 0 then 7 else 0).

(** A tick on a query ends it or brings it nearer to its end. *)
Definition ticked (v : dns_vars) (i : nat) (v' : dns_vars) : Prop :=
  (exists e, d_state e = DNS_STATE_UNUSED /\ v' = put_entry i e (finished i v)) \/
  exists s t r, 0 <= s < DNS_MAX_SERVERS /\ 0 <= r < DNS_MAX_RETRIES /\ 1 <= t <= Z.max 1 r /\
    rank (de_query s t r (ventry v i)) = rank (ventry v i) - 1 /\ v' = put_entry i (de_query s t r (ventry v i)) v.

Lemma finished_query v i s t r : length (dns_table v) = 4%nat -> (i < 4)%nat ->
  forall e, put_entry i e (finished i (put_entry i (de_query s t r (ventry v i)) v)) = put_entry i e (finished i v).
Proof.
  intros Hl Hi e. unfold finished. rewrite shared_put by done. rewrite ventry_put, decide_True by done. unfold put_entry. simpl.
  rewrite list_insert_insert_eq. done.
Qed.

Lemma check_asking_dns w i w' :
  dns_ok (dns w) -> (i < 4)%nat -> asking (ventry (dns w) i) ->
  check_asking netif_output custom_free fuel found_fn dns_table_at locals w i = Some w' -> ticked (dns w) i (dns w').
Proof.
  intros Hok Hi Ha. pose proof (do_table _ Hok) as Hl.
  assert (Hq : query_ok (dns w) (ventry (dns w) i)) by (pose proof (do_entries _ Hok i Hi) as H; unfold entry_fine in H; by rewrite Ha in H).
  destruct Hq as [Q1 Q2 Q3 Q4 Q5]. unfold DNS_MAX_SERVERS, DNS_MAX_RETRIES in *.
  unfold check_asking. rewrite dentry_eq. set (e := ventry (dns w) i) in *. cbv zeta.
  rewrite (u8_small (d_tmr e - 1)), (u8_small (d_retries e + 1)) by lia.
  set (w1 := upd_dentry w i (de_query (d_server_idx e) (d_tmr e - 1) (d_retries e))).
  assert (D1 : dns w1 = put_entry i (de_query (d_server_idx e) (d_tmr e - 1) (d_retries e) e) (dns w)) by apply dns_upd_entry.
  destruct (Z.eqb_spec (d_tmr e - 1) 0) as [Et|Et].
  2:{ intros [= <-]. right. exists (d_server_idx e), (d_tmr e - 1), (d_retries e). fold e. unfold DNS_MAX_SERVERS, DNS_MAX_RETRIES.
      repeat split; try lia; [unfold rank; simpl; lia|done]. }
  set (w2 := upd_dentry w1 i _).
  assert (E1 : ventry (dns w1) i = de_query (d_server_idx e) (d_tmr e - 1) (d_retries e) e) by (rewrite D1; by rewrite ventry_put, decide_True).
  assert (D2 : dns w2 = put_entry i (de_query (d_server_idx e) (d_tmr e - 1) (d_retries e + 1) e) (dns w)).
  { unfold w2. rewrite dns_upd_entry, E1, D1. apply put_put. }
  assert (E2 : ventry (dns w2) i = de_query (d_server_idx e) (d_tmr e - 1) (d_retries e + 1) e) by (rewrite D2; by rewrite ventry_put, decide_True).
  assert (Hsend : forall s t r w', 0 <= s < 2 -> 0 <= r < 4 -> 1 <= t <= Z.max 1 r -> rank (de_query s t r e) = rank e - 1 ->
    fst <$> send (upd_dentry w2 i (de_query s t r)) i = Some w' -> ticked (dns w) i (dns w')).
  { intros s t r w3 Hs Hr Ht Hrk H. destruct (send _ i) as [[w4 err]|] eqn:E; [|done]. injection H as <-.
    assert (D3 : dns (upd_dentry w2 i (de_query s t r)) = put_entry i (de_query s t r e) (dns w)).
    { rewrite dns_upd_entry, E2, D2. rewrite put_put. done. }
    assert (Hok3 : dns_ok (dns (upd_dentry w2 i (de_query s t r)))) by (rewrite D3; by apply requery_ok).
    apply send_dns in E; [|done|done|rewrite D3, ventry_put, decide_True by done; exact Ha]. destruct (ip4_addr_isany _).
    - destruct E as (e' & He' & E). left. exists e'. split; [done|]. rewrite E, D3. by apply finished_query.
    - right. exists s, t, r. split; [done|]. split; [done|]. split; [done|]. split; [done|]. by rewrite E, D3. }
  assert (Hfail : (w ← dns_call_found found_fn dns_table_at w2 i false; Some (upd_dentry w i (de_state DNS_STATE_UNUSED))) = Some w' -> ticked (dns w) i (dns w')).
  { destruct (dns_call_found _ _ w2 i false) as [w3|] eqn:E3; [|done]. intros [= <-]. left.
    exact (fail_dns (dns w) (de_query (d_server_idx e) (d_tmr e - 1) (d_retries e + 1) e) w2 i w3 Hok Hi Ha eq_refl D2 E3). }
  destruct (Z.eqb_spec (d_retries e + 1) DNS_MAX_RETRIES) as [Er|Er]; unfold DNS_MAX_RETRIES in Er.
  - destruct (Z.ltb_spec (d_server_idx e + 1) DNS_MAX_SERVERS) as [Es|Es]; unfold DNS_MAX_SERVERS in Es; cbn [andb]; [|exact Hfail].
    destruct (negb _); [|exact Hfail]. rewrite u8_small by lia. apply Hsend; try lia.
    unfold rank. simpl. assert (Es0 : d_server_idx e = 0) by lia. assert (Er0 : d_retries e = 3) by lia. rewrite Es0, Er0. eqbs. lia.
  - apply Hsend; try lia. unfold rank. simpl. assert (Er0 : d_retries e = 0 \/ d_retries e = 1 \/ d_retries e = 2) by lia. destruct Er0 as [Er0|[Er0|Er0]]; rewrite Er0; eqbs; lia.
Qed.

Lemma ticked_ok v i v' : dns_ok v -> (i < 4)%nat -> asking (ventry v i) -> ticked v i v' -> dns_ok v'.
Proof.
  intros Hok Hi Ha [(e & He & ->)|(s & t & r & Hs & Hr & Ht & _ & ->)]; [|by apply requery_ok]. apply finish_ok; [done|done|done|by left].
Qed.

(** A change of an entry that is no query, or ends as none. *)
Lemma idle_ok v i e :
  dns_ok v -> (i < 4)%nat -> ~ asking (ventry v i) -> idle_entry e -> dns_ok (put_entry i e v).
Proof.
  intros Hok Hi Ha He. pose proof Hok as [L1 L2 L3 L4 H5 H6 H7 H8 H9].
  assert (Hne : ~ asking e) by (unfold asking; destruct He as [->|[-> _]]; done).
  assert (Hv : forall k, ventry (put_entry i e v) k = if decide (k = i) then e else ventry v k) by (intros k; by apply ventry_put).
  constructor; [done|by rewrite put_entry_length|done|done|done| | | |].
  - intros k Hk. rewrite Hv. apply (entry_fine_pcbs v); [done|]. destruct (decide (k = i)) as [->|]; [|auto].
    unfold entry_fine. by destruct He as [->|[-> He]].
  - intros k j Hk Hj. rewrite !Hv. destruct (decide (k = i)), (decide (j = i)); try done. by apply H7.
  - intros r Hr Hf. destruct (H8 r Hr Hf) as [K1 K2]. split; [done|]. rewrite Hv. destruct (decide (rq_table_idx r = i)) as [E|]; [congruence|done].
  - intros j Hj Ho. destruct (H9 j Hj Ho) as (k & Hk & Hak & Ej). exists k. rewrite Hv. destruct (decide (k = i)) as [->|]; [done|auto].
Qed.

(** A new query: of an entry that was none, with an id that no query has, and an open socket. *)
Record starts (v v' : dns_vars) (i r : nat) (j : Z) : Prop := {
  st_i : (i < 4)%nat;
  st_idle : ~ asking (ventry v i);
  st_table : dns_table v' = dns_table v;
  st_servers : dns_servers v' = dns_servers v;
  st_last : 0 <= dns_last_pcb_idx v' < DNS_MAX_SOURCE_PORTS;
  st_len : length (dns_pcbs v') = 4%nat;
  st_requests : exists found arg, dns_requests v' = <[r := mk_dr found arg i]> (dns_requests v);
  st_j : 0 <= j < DNS_MAX_SOURCE_PORTS;
  st_open : vpcb v' j <> NULL;
  st_others : forall k, 0 <= k < DNS_MAX_SOURCE_PORTS -> k <> j -> vpcb v' k = vpcb v k
}.

Lemma start_ok v v' i r j e :
  dns_ok v -> starts v v' i r j ->
  asking e -> d_pcb_idx e = j -> d_server_idx e = 0 -> d_tmr e = 1 -> d_retries e = 0 ->
  (forall k, (k < 4)%nat -> asking (ventry v k) -> d_txid (ventry v k) <> d_txid e) ->
  dns_ok (put_entry i e v').
Proof.
  intros Hok [S1 S2 S3 S4 S5 S6 (found & arg & S7) S8 S9 S10] Ha Hj Hs Ht Hr Hx. pose proof Hok as [L1 L2 L3 L4 H5 H6 H7 H8 H9].
  assert (Hv : forall k, ventry (put_entry i e v') k = if decide (k = i) then e else ventry v k).
  { intros k. rewrite ventry_put by (try done; by rewrite S3). unfold ventry. by rewrite S3. }
  assert (Hopen : forall k, 0 <= k < DNS_MAX_SOURCE_PORTS -> vpcb v k <> NULL -> vpcb v' k <> NULL).
  { intros k Hk Ho. destruct (decide (k = j)) as [->|Hkj]; [done|]. by rewrite S10. }
  constructor; [done|rewrite put_entry_length, S3; done|simpl; by rewrite S7, length_insert|simpl; by rewrite S4|done| | | |].
  - intros k Hk. rewrite Hv. apply (entry_fine_pcbs v'); [done|]. destruct (decide (k = i)) as [->|].
    + unfold entry_fine. rewrite Ha. constructor; unfold DNS_MAX_SERVERS, DNS_MAX_RETRIES; rewrite ?Hs, ?Ht, ?Hr, ?Hj; try done; lia.
    + pose proof (H6 k Hk) as Hf. unfold entry_fine in *. destruct (d_state (ventry v k)); auto. destruct Hf as [Q1 Q2 Q3 Q4 Q5]. constructor; auto.
  - intros k l Hk Hl. rewrite !Hv. destruct (decide (k = i)) as [->|], (decide (l = i)) as [->|]; auto.
    + intros _ Hal E. by destruct (Hx l Hl Hal).
    + intros Hak _ E. by destruct (Hx k Hk Hak).
  - intros q Hq Hf. simpl in Hq. rewrite S7 in Hq. apply list_elem_of_lookup in Hq as [n Hn]. destruct (decide (n = r)) as [->|Hnr].
    + destruct (decide (r < length (dns_requests v))%nat).
      * rewrite list_lookup_insert_eq in Hn by done. injection Hn as <-. split; [done|]. simpl. by rewrite Hv, decide_True.
      * rewrite list_insert_ge in Hn by lia. rewrite lookup_ge_None_2 in Hn by lia. done.
    + rewrite list_lookup_insert_ne in Hn by done. destruct (H8 q) as [K1 K2]; [by eapply list_elem_of_lookup_2|done|]. split; [done|].
      rewrite Hv. destruct (decide (rq_table_idx q = i)) as [E|]; [congruence|done].
  - intros k Hk Ho. destruct (decide (k = j)) as [->|Hkj].
    + exists i. rewrite Hv, decide_True by done. auto.
    + change (vpcb (put_entry i e v') k) with (vpcb v' k) in Ho. rewrite S10 in Ho by done. destruct (H9 k Hk Ho) as (l & Hl & Hal & El).
      exists l. rewrite Hv. destruct (decide (l = i)) as [->|]; [done|auto].
Qed.

Lemma create_txid_dns w w' t :
  dns_create_txid fuel rand w = Some (w', t) -> dns w' = dns w /\ txid_used w' t = false.
Proof.
  unfold dns_create_txid. intros H.
  refine (loop_keeps _ (fun w1 => dns w1 = dns w) (fun r => dns r.1 = dns w /\ txid_used r.1 r.2 = false) _ _ _ _ H eq_refl).
  intros w1 E. pose proof (dp_rand Hp w1) as Hr. destruct (rand w1) as [w2 r]. simpl in Hr. destruct (txid_used w2 (u16 r)) eqn:Eu; simpl; [|split]; congruence.
Qed.

Lemma txid_free w t : length (dns_table (dns w)) = 4%nat -> txid_used w t = false -> forall k, (k < 4)%nat -> asking (ventry (dns w) k) -> d_txid (ventry (dns w) k) <> t.
Proof.
  intros Hl Hu k Hk Ha E. unfold txid_used in Hu. assert (existsb (fun e => bool_decide (d_state e = DNS_STATE_ASKING) && (d_txid e =? t)) (dns_table (dns w)) = true); [|congruence].
  apply existsb_exists. exists (ventry (dns w) k). split; [apply nth_In; lia|]. rewrite bool_decide_true by done. by apply Z.eqb_eq.
Qed.

Lemma random_port_dns w w' pcb : dns_alloc_random_port fuel rand dns_recv_fn w = Some (w', pcb) -> dns w' = dns w.
Proof.
  unfold dns_alloc_random_port. assert (Hn : dns (udp_new_ip_type w 46).1 = dns w).
  { unfold udp_new_ip_type, udp_new. destruct (memp_malloc _ _). cbv zeta. by destruct (negb _). }
  destruct (udp_new_ip_type w 46) as [w1 ret]. simpl in Hn. destruct (ret =? NULL); [by intros [= <- _]|].
  destruct (loop fuel (random_port_step rand ret) w1) as [[[w2 err]|]|] eqn:E; [|done|done].
  assert (H2 : dns w2 = dns w).
  { rewrite <- Hn. refine (loop_keeps _ (fun w3 => dns w3 = dns w1) (fun r => match r with Some (w3, _) => dns w3 = dns w1 | None => True end) _ _ _ _ E eq_refl).
    clear E. intros w3 E3. unfold random_port_step. pose proof (dp_rand Hp w3) as Hr. destruct (rand w3) as [w4 r]. simpl in Hr.
    destruct (negb _); [congruence|]. destruct (udp_bind _ _ _ _) as [[w5 e5]|] eqn:E5; [|done].
    assert (dns w5 = dns w4) by (unfold dns; by rewrite (udp_bind_ext _ _ _ _ _ _ E5)). destruct (_ =? _); congruence. }
  cbn [mbind option_bind id]. destruct (negb _); by intros [= <- _].
Qed.

Lemma next_pcb_spec w n idx j : 0 <= idx < 256 -> next_pcb w n idx = Some j -> 0 <= j < DNS_MAX_SOURCE_PORTS /\ dpcb w j <> NULL.
Proof.
  revert idx. induction n as [|n IH]; intros idx Hi H; [done|]. cbn [next_pcb] in H. cbv zeta in H.
  set (k := if DNS_MAX_SOURCE_PORTS <=? idx then 0 else idx) in H.
  assert (Hk : 0 <= k < DNS_MAX_SOURCE_PORTS) by (unfold k, DNS_MAX_SOURCE_PORTS in *; destruct (Z.leb_spec 4 idx); lia).
  destruct (Z.eqb_spec (dpcb w k) NULL) as [E|E]; cbn [negb] in H; [|injection H as <-; done].
  apply (IH _ (u8_range (k + 1)) H).
Qed.

(** [dns_alloc_pcb]: a socket that is open, or none. *)
Lemma alloc_pcb_dns w w' j :
  length (dns_pcbs (dns w)) = 4%nat -> dns_alloc_pcb fuel rand dns_recv_fn w = Some (w', j) ->
  (j = DNS_MAX_SOURCE_PORTS /\ dns w' = dns w) \/
  (0 <= j < DNS_MAX_SOURCE_PORTS /\ exists P, dns w' = set_last_pcb j (set_dpcbs P (dns w)) /\ length P = 4%nat /\
    nth (Z.to_nat j) P NULL <> NULL /\ forall k, 0 <= k -> k <> j -> nth (Z.to_nat k) P NULL = vpcb (dns w) k).
Proof.
  intros Hl. assert (Hreuse : forall w1 w2 k, dns w1 = dns w -> reuse_pcb w1 = (w2, k) ->
    (k = DNS_MAX_SOURCE_PORTS /\ dns w2 = dns w) \/ (0 <= k < DNS_MAX_SOURCE_PORTS /\ exists P, dns w2 = set_last_pcb k (set_dpcbs P (dns w)) /\ length P = 4%nat /\
    nth (Z.to_nat k) P NULL <> NULL /\ forall l, 0 <= l -> l <> k -> nth (Z.to_nat l) P NULL = vpcb (dns w) l)).
  { intros w1 w2 k E1. unfold reuse_pcb. destruct (next_pcb _ _ _) as [idx|] eqn:En; intros [= <- <-]; [right|left; done].
    apply next_pcb_spec in En as [H1 H2]; [|apply u8_range]. split; [done|]. exists (dns_pcbs (dns w)). rewrite dns_upd, E1. split; [by destruct (dns w)|].
    split; [done|]. split; [unfold dpcb in H2; by rewrite E1 in H2|done]. }
  unfold dns_alloc_pcb. destruct (List.find _ _) as [i|] eqn:Ef.
  2:{ intros [= H]. by eapply Hreuse. }
  apply find_some in Ef as [Hi Hnull%Z.eqb_eq]. assert (Hi4 : 0 <= i < DNS_MAX_SOURCE_PORTS) by (unfold DNS_MAX_SOURCE_PORTS; simpl in Hi; lia).
  destruct (dns_alloc_random_port _ _ _ w) as [[w1 pcb]|] eqn:E1; [|done]. apply random_port_dns in E1. cbn [mbind option_bind].
  unfold put_dpcb. rewrite E1. destruct (Z.eqb_spec pcb NULL) as [->|Hpcb]; cbn [negb].
  - intros [= H]. eapply Hreuse; [|exact H]. rewrite dns_upd, E1. unfold dpcb in Hnull.
    replace (<[Z.to_nat i := NULL]> (dns_pcbs (dns w))) with (dns_pcbs (dns w)); [by destruct (dns w)|].
    symmetry. apply list_insert_id. unfold DNS_MAX_SOURCE_PORTS in Hi4. destruct (lookup_lt_is_Some_2 (dns_pcbs (dns w)) (Z.to_nat i)) as [x Hx]; [lia|].
    by rewrite (nth_lookup_Some _ _ _ _ Hx) in Hnull; subst x.
  - intros [= <- <-]. right. split; [done|]. exists (<[Z.to_nat i := pcb]> (dns_pcbs (dns w))). rewrite !dns_upd, E1. split; [done|].
    split; [by rewrite length_insert|]. unfold DNS_MAX_SOURCE_PORTS in Hi4. split.
    + rewrite (nth_lookup_Some _ _ NULL pcb); [done|]. apply list_lookup_insert_eq. lia.
    + intros k Hk Hki. unfold vpcb. rewrite !nth_lookup. by rewrite list_lookup_insert_ne by lia.
Qed.

Lemma wmem_dns w m : dns (set_wmem w m) = dns w.
Proof. done. Qed.

Lemma oldest_entry_spec w l i lseq lseqi k :
  oldest_entry w i l lseq lseqi = Some k ->
  lseqi = Some k \/ exists n e, l !! n = Some e /\ k = (i + n)%nat /\ d_state e <> DNS_STATE_ASKING.
Proof.
  revert i lseq lseqi. induction l as [|e l IH]; intros i lseq lseqi H; [by left|]. cbn [oldest_entry] in H.
  assert (Hhere : d_state e <> DNS_STATE_ASKING -> exists n e0, (e :: l) !! n = Some e0 /\ i = (i + n)%nat /\ d_state e0 <> DNS_STATE_ASKING).
  { intros Hs. exists 0%nat, e. split; [done|]. split; [lia|done]. }
  assert (Hlater : forall n e0, l !! n = Some e0 -> d_state e0 <> DNS_STATE_ASKING -> k = (S i + n)%nat ->
    exists n e1, (e :: l) !! n = Some e1 /\ k = (i + n)%nat /\ d_state e1 <> DNS_STATE_ASKING).
  { intros n e0 H1 H2 H3. exists (S n), e0. split; [done|]. split; [lia|done]. }
  case_bool_decide as Eu; [injection H as <-; right; apply Hhere; congruence|]. case_bool_decide as Ed; cbv zeta in H.
  - destruct (_ <? _).
    + apply IH in H as [[= <-]|(n & e0 & H1 & H2 & H3)]; right; [apply Hhere; congruence|eauto].
    + apply IH in H as [->|(n & e0 & H1 & H2 & H3)]; [by left|right; eauto].
  - apply IH in H as [->|(n & e0 & H1 & H2 & H3)]; [by left|right; eauto].
Qed.

Lemma duplicate_spec w name l i k :
  find_duplicate fuel dns_table_at w name i l = Some (Some k) -> exists n e, l !! n = Some e /\ k = (i + n)%nat /\ asking e.
Proof.
  revert i. induction l as [|e l IH]; intros i H; [done|]. cbn [find_duplicate] in H.
  assert (Hlater : find_duplicate fuel dns_table_at w name (S i) l = Some (Some k) -> exists n e0, (e :: l) !! n = Some e0 /\ k = (i + n)%nat /\ asking e0).
  { intros (n & e0 & H1 & H2 & H3)%IH. exists (S n), e0. split; [done|]. split; [lia|done]. }
  case_bool_decide as Ea; [|auto]. destruct (lwip_strnicmp _ _ _ _ _); [|done]. destruct (_ && _); [|auto].
  injection H as <-. exists 0%nat, e. split; [done|]. split; [lia|done].
Qed.

Lemma request_ok v r q :
  dns_ok v -> (rq_found q = NULL \/ (rq_table_idx q < 4)%nat /\ asking (ventry v (rq_table_idx q))) ->
  dns_ok (set_drequests (<[r := q]> (dns_requests v)) v).
Proof.
  intros Hok Hq. pose proof Hok as [L1 L2 L3 L4 H5 H6 H7 H8 H9]. constructor; auto; [simpl; by rewrite length_insert|..].
  - intros i Hi. apply (entry_fine_pcbs v); [done|]. by apply H6.
  - intros q' Hq' Hf. simpl in Hq'. apply list_elem_of_lookup in Hq' as [n Hn]. destruct (decide (n = r)) as [->|Hnr].
    + destruct (decide (r < length (dns_requests v))%nat).
      * rewrite list_lookup_insert_eq in Hn by done. injection Hn as <-. by destruct Hq.
      * rewrite list_insert_ge in Hn by lia. rewrite lookup_ge_None_2 in Hn by lia. done.
    + rewrite list_lookup_insert_ne in Hn by done. apply H8; [by eapply list_elem_of_lookup_2|done].
Qed.

Lemma lookup_ventry v n e : dns_table v !! n = Some e -> ventry v n = e.
Proof. apply nth_lookup_Some. Qed.

(** A new entry: it is queried at once. *)
Lemma new_query_ok v w i r j w' :
  dns_ok v -> length (dns_table (dns w)) = 4%nat ->
  (exists v' e, dns w = put_entry i e v' /\ starts v v' i r j /\ d_state e = DNS_STATE_NEW /\ d_pcb_idx e = j) ->
  dns_check_entry netif_output custom_free fuel rand found_fn dns_table_at locals w i = Some w' -> dns_ok (dns w').
Proof.
  intros Hok Hl (v' & e & Hw & Hst & Hn & Hj). pose proof (st_i _ _ _ _ _ Hst) as Hi.
  assert (Hlv : length (dns_table v') = 4%nat) by (rewrite Hw, put_entry_length in Hl; done).
  assert (He : ventry (dns w) i = e) by (by rewrite Hw, ventry_put, decide_True).
  unfold dns_check_entry. rewrite dentry_eq, He, Hn. destruct (dns_create_txid _ _ w) as [[w1 t]|] eqn:E1; [|done]. cbn [mbind option_bind].
  apply create_txid_dns in E1 as [E1 Ht]. destruct (dns_send _ _ _ _ _ _ _ i) as [[w2 err]|] eqn:E2; [|done]. intros [= <-].
  set (e2 := de_query 0 1 0 (de_state DNS_STATE_ASKING (de_txid t e))).
  assert (D : dns (upd_dentry w1 i (fun e => de_query 0 1 0 (de_state DNS_STATE_ASKING (de_txid t e)))) = put_entry i e2 v').
  { rewrite dns_upd_entry, E1, He, Hw. apply put_put. }
  assert (Hok2 : dns_ok (put_entry i e2 v')).
  { apply (start_ok v v' i r j e2 Hok Hst); try done. intros k Hk Hak.
    assert (Hki : k <> i) by (intros ->; by apply (st_idle _ _ _ _ _ Hst)).
    assert (Hvk : ventry (dns w1) k = ventry v k).
    { rewrite E1, Hw, ventry_put, decide_False by done. unfold ventry. by rewrite (st_table _ _ _ _ _ Hst). }
    rewrite <- Hvk. apply (txid_free w1 t); [by rewrite E1|done|done|by rewrite Hvk]. }
  eapply send_ok; [rewrite D; exact Hok2|done| |exact E2]. rewrite D, ventry_put, decide_True by done. done.
Qed.

Lemma fill_ok w i r name len found arg w' e :
  dns_ok (dns w) -> (i < 4)%nat -> ~ asking (ventry (dns w) i) ->
  dns_fill_entry netif_output custom_free fuel rand found_fn dns_recv_fn dns_table_at locals w i r name len found arg = Some (w', e) -> dns_ok (dns w').
Proof.
  intros Hok Hi Hna. pose proof Hok as [L1 L2 L3 L4 H5 _ _ _ _]. unfold dns_fill_entry. cbv zeta.
  set (w1 := put_dreq w r _). set (w2 := upd_dentry w1 i _).
  match goal with |- context [dns_alloc_pcb _ _ _ ?x] => set (w3 := x) end.
  set (v1 := set_drequests (<[r := mk_dr found arg i]> (dns_requests (dns w))) (dns w)).
  assert (D1 : dns w1 = v1) by apply dns_upd.
  assert (D3 : dns w3 = put_entry i (de_seqno (dns_seqno v1) (de_state DNS_STATE_NEW (ventry v1 i))) v1).
  { change (dns w3) with (dns w2). unfold w2. rewrite dns_upd_entry. by rewrite D1. }
  set (e1 := de_seqno _ _) in D3. destruct (dns_alloc_pcb _ _ _ w3) as [[w4 j]|] eqn:E4; [|done]. cbn [mbind option_bind].
  apply alloc_pcb_dns in E4; [|by rewrite D3].
  destruct E4 as [[-> E4]|(Hj & P & E4 & HP & Hopen & Hoth)].
  - rewrite Z.leb_refl. intros [= <- _]. unfold put_dreq. rewrite dns_upd, !dns_upd_entry, E4, D3.
    rewrite ventry_put, decide_True; [|done|by rewrite put_entry_length|done]. rewrite !put_put.
    set (e2 := de_state DNS_STATE_UNUSED _). simpl.
    assert (Hok1 : dns_ok (put_entry i e2 (dns w))) by (apply idle_ok; [done|done|done|by left]).
    pose proof (request_ok _ r (mk_dr NULL arg i) Hok1 (or_introl eq_refl)) as H.
    unfold put_entry, v1 in *. simpl in *. by rewrite list_insert_insert_eq.
  - rewrite (proj2 (Z.leb_gt _ _)) by apply Hj. intros H.
    match type of H with (_ ← ?x; _) = _ => destruct x as [w5|] eqn:E5; [|done] end. injection H as <- _.
    assert (Hve : ventry (dns w4) i = e1) by (rewrite E4, D3; unfold ventry, put_entry; simpl; apply (nth_lookup_Some _ _ entry_zero), list_lookup_insert_eq; lia).
    eapply (new_query_ok (dns w) _ i r j); [done| | |exact E5].
    + rewrite dns_upd, dns_upd_entry, Hve, E4, D3. simpl. by rewrite !length_insert.
    + exists (set_dseqno (u8 (dns_seqno (dns (upd_dentry w4 i (de_pcb_idx j))) + 1)) (set_last_pcb j (set_dpcbs P v1))), (de_pcb_idx j e1).
      split; [|split; [|done]].
      * rewrite dns_upd, dns_upd_entry, Hve, E4, D3. unfold put_entry. simpl. by rewrite list_insert_insert_eq.
      * constructor; try done; [by exists found, arg|]. intros k Hk Hkj. unfold vpcb at 1. simpl. rewrite Hoth by (try done; lia). by rewrite D3.
Qed.

Lemma enqueue_ok w name len found arg w' e :
  dns_ok (dns w) ->
  dns_enqueue netif_output custom_free fuel rand found_fn dns_recv_fn dns_table_at locals w name len found arg = Some (w', e) -> dns_ok (dns w').
Proof.
  intros Hok. pose proof (do_table _ Hok) as L2. unfold dns_enqueue. destruct (find_duplicate _ _ _ _ _ _) as [dup|] eqn:Ed; [|done].
  cbn [mbind option_bind].
  assert (Hnew : match oldest_entry w 0 (dns_table (dns w)) 0 None with
     | Some i => match free_request w with
                 | Some r => dns_fill_entry netif_output custom_free fuel rand found_fn dns_recv_fn dns_table_at locals w i r name len found arg
                 | None => Some (w, ERR_MEM) end
     | None => Some (w, ERR_MEM) end = Some (w', e) -> dns_ok (dns w')).
  { destruct (oldest_entry _ _ _ _ _) as [i|] eqn:Eo; [|by intros [= <- _]]. destruct (free_request w) as [r|]; [|by intros [= <- _]].
    apply oldest_entry_spec in Eo as [|(n & e0 & Hn & -> & Hs)]; [done|]. pose proof (lookup_lt_Some _ _ _ Hn) as Hlt.
    apply fill_ok; [done|simpl; lia|]. simpl. by rewrite (lookup_ventry _ _ _ Hn). }
  destruct dup as [i|]; [|exact Hnew]. destruct (free_request w) as [r|]; [|exact Hnew].
  intros [= <- _]. apply duplicate_spec in Ed as (n & e0 & Hn & -> & Ha). pose proof (lookup_lt_Some _ _ _ Hn).
  unfold put_dreq. rewrite dns_upd. apply request_ok; [done|]. right. simpl. split; [lia|]. by rewrite (lookup_ventry _ _ _ Hn).
Qed.

Lemma check_entry_ok w i w' :
  dns_ok (dns w) -> (i < 4)%nat ->
  dns_check_entry netif_output custom_free fuel rand found_fn dns_table_at locals w i = Some w' -> dns_ok (dns w').
Proof.
  intros Hok Hi. pose proof (do_entries _ Hok i Hi) as Hf. unfold dns_check_entry. rewrite dentry_eq. unfold entry_fine in Hf.
  destruct (d_state (ventry (dns w) i)) eqn:Es; [by intros [= <-]|done| |].
  { intros H. apply check_asking_dns in H; [|done..]. by eapply ticked_ok. }
  assert (Hna : ~ asking (ventry (dns w) i)) by (unfold asking; congruence). unfold DNS_MAX_TTL in Hf.
  rewrite u32_small by lia. rewrite (proj2 (Z.eqb_neq _ 0)) by lia. intros [= <-].
  destruct (Z.eqb_spec (d_ttl (ventry (dns w) i) - 1) 0) as [E|E].
  - rewrite !dns_upd_entry, put_put. apply idle_ok; [done|done|done|by left].
  - rewrite dns_upd_entry. apply idle_ok; [done|done|done|]. right. simpl. unfold DNS_MAX_TTL. rewrite Es. split; [done|lia].
Qed.

Lemma tmr_ok w w' :
  dns_ok (dns w) -> dns_tmr netif_output custom_free fuel rand found_fn dns_table_at locals w = Some w' -> dns_ok (dns w').
Proof.
  unfold dns_tmr, dns_check_entries. intros Hok H.
  assert (Hl : forall l ow, Forall (fun i => (i < 4)%nat) l -> (forall w1, ow = Some w1 -> dns_ok (dns w1)) ->
    foldl (fun ow i => w ← ow; dns_check_entry netif_output custom_free fuel rand found_fn dns_table_at locals w i) ow l = Some w' -> dns_ok (dns w')).
  { clear w Hok H. induction l as [|i l IH]; intros ow Hl Ho H; [by apply Ho|]. apply Forall_cons in Hl as [Hi Hl]. cbn [foldl] in H.
    eapply IH; [done| |exact H]. intros w1 H1. destruct ow as [w0|]; [|done]. eapply check_entry_ok; [by apply Ho|exact Hi|exact H1]. }
  apply (Hl (seq 0 DNS_TABLE_SIZE) (Some w)); [|by intros w1 [= <-]|exact H]. unfold DNS_TABLE_SIZE. repeat constructor; lia.
Qed.

Lemma correct_response_ok v e w i ttl w' :
  dns_ok v -> (i < 4)%nat -> asking (ventry v i) -> dns w = put_entry i e v -> d_pcb_idx e = d_pcb_idx (ventry v i) -> 0 <= ttl ->
  dns_correct_response found_fn dns_table_at w i ttl = Some w' -> dns_ok (dns w').
Proof.
  intros Hok Hi Ha Hw He Ht. pose proof (do_table _ Hok) as L2. unfold dns_correct_response.
  set (t := if DNS_MAX_TTL <? ttl then DNS_MAX_TTL else ttl). assert (Htt : 0 <= t <= DNS_MAX_TTL) by (unfold t, DNS_MAX_TTL; destruct (Z.ltb_spec 604800 ttl); lia).
  set (w1 := upd_dentry w i (de_state DNS_STATE_DONE)). set (w2 := upd_dentry w1 i (de_ttl t)).
  set (e2 := de_ttl t (de_state DNS_STATE_DONE e)).
  assert (D1 : dns w1 = put_entry i (de_state DNS_STATE_DONE e) v) by (unfold w1; rewrite dns_upd_entry, Hw, ventry_put, decide_True by done; apply put_put).
  assert (D2 : dns w2 = put_entry i e2 v) by (unfold w2; rewrite dns_upd_entry, D1, ventry_put, decide_True by done; apply put_put).
  destruct (dns_call_found _ _ w2 i true) as [w3|] eqn:E3; [|done]. cbn [mbind option_bind]. intros [= <-].
  apply call_found_dns in E3; [|done|by rewrite D2, put_entry_length|rewrite D2; apply (do_requests _ Hok)].
  assert (Hq : query_ok v (ventry v i)) by (pose proof (do_entries _ Hok i Hi) as H; unfold entry_fine in H; by rewrite Ha in H).
  assert (Hlt : d_pcb_idx e2 < DNS_MAX_SOURCE_PORTS) by (change (d_pcb_idx e < DNS_MAX_SOURCE_PORTS); rewrite He; apply (qo_pcb _ _ Hq)).
  destruct (called_finished v i e2 (de_state DNS_STATE_UNUSED (de_pcb_idx DNS_MAX_SOURCE_PORTS e2)) L2 Hi He Hlt) as [F1 F2].
  destruct (called_finished v i e2 (de_pcb_idx DNS_MAX_SOURCE_PORTS e2) L2 Hi He Hlt) as [F3 _].
  rewrite D2 in E3. rewrite dentry_eq, E3, F2. rewrite bool_decide_true by done. rewrite andb_true_r.
  change (d_ttl (de_pcb_idx DNS_MAX_SOURCE_PORTS e2)) with t. destruct (Z.eqb_spec t 0) as [E|E].
  - rewrite dns_upd_entry, E3, F2, F1. apply finish_ok; [done|done|done|by left].
  - rewrite E3, <- (put_same (called i (put_entry i e2 v)) i); [|by rewrite called_length, put_entry_length|done].
    rewrite F2, F3. apply finish_ok; [done|done|done|]. right. simpl. split; [done|lia].
Qed.

Lemma check_response_dns w p addr i w' v :
  check_response fuel dns_table_at locals w p addr i = Some (w', v) ->
  dns w' = dns w /\ match v with Answered _ ttl => 0 <= ttl | _ => True end.
Proof.
  unfold check_response. cbv zeta. destruct (_ =? 0); [by intros [= <- <-]|]. destruct (negb _); [by intros [= <- <-]|]. destruct (negb _); [by intros [= <- <-]|].
  destruct (dns_compare_name _ _ _ _ _); [|done]. destruct (_ =? 0xFFFF); [by intros [= <- <-]|].
  destruct (pbuf_copy_partial _ _ _ _ _ _) as [[st n]|]; [|done]. destruct (negb _); [by intros [= <- <-]|]. destruct (_ || _); [by intros [= <- <-]|].
  destruct (negb _); [by intros [= <- <-]|]. destruct (loop _ _ _) as [[[w1 v1]|]|] eqn:E; [|done|done]. cbn [mbind option_bind id]. intros [= <- <-].
  refine (loop_keeps _ (fun s => dns s.1.1 = dns w) (fun r => match r with
    | Some (w2, v2) => dns w2 = dns w /\ match v2 with Answered _ ttl => 0 <= ttl | _ => True end | None => True end) _ _ _ _ E eq_refl).
  clear E. intros [[w2 idx] n2] H2. unfold answer_step. simpl in H2. destruct (_ && _); [|done]. destruct (dns_skip_name _ _ _ _); [|done].
  destruct (_ =? 0xFFFF); [done|]. destruct (pbuf_copy_partial _ _ _ _ _ _) as [[st2 n3]|]; [|done]. cbv zeta. destruct (negb _); [done|].
  destruct (_ && _); [|by destruct (_ <? _)]. destruct (pbuf_copy_partial _ _ _ _ _ _) as [[st3 n4]|]; [|done]. destruct (negb _); [done|].
  split; [done|apply u32_range].
Qed.

Lemma asked_spec w t i : asked w t = Some i -> (i < 4)%nat /\ asking (ventry (dns w) i) /\ d_txid (ventry (dns w) i) = t.
Proof.
  unfold asked. intros [Hi H]%find_some. apply in_seq in Hi. apply andb_prop in H as [H1%bool_decide_eq_true H2%Z.eqb_eq].
  split; [unfold DNS_TABLE_SIZE in Hi; lia|done].
Qed.

Lemma recv_ok w arg pcb p addr port w' :
  dns_ok (dns w) -> dns_recv custom_free fuel found_fn dns_table_at locals w arg pcb p addr port = Some w' -> dns_ok (dns w').
Proof.
  intros Hok. unfold dns_recv. assert (Hfree : forall w1, dns w1 = dns w -> wfree custom_free fuel w1 p = Some w' -> dns_ok (dns w')) by (intros w1 E H; apply wfree_dns in H; congruence).
  destruct (_ <? _); [by apply Hfree|]. destruct (pbuf_copy_partial _ _ _ _ _ _) as [[st n]|]; [|done]. cbn [mbind option_bind].
  destruct (negb _); [by apply Hfree|]. destruct (asked _ _) as [i|] eqn:Ea; [|by apply Hfree]. apply asked_spec in Ea as (Hi & Ha & _).
  change (dns (set_wps w st)) with (dns w) in Ha. destruct (check_response _ _ _ _ _ _ _) as [[w1 v]|] eqn:E1; [|done]. cbn [mbind option_bind].
  apply check_response_dns in E1 as [E1 Hv]. change (dns (set_wps w st)) with (dns w) in E1. destruct v as [| |ip ttl].
  - by apply Hfree.
  - destruct (wfree _ _ w1 p) as [w2|] eqn:E2; [|done]. cbn [mbind option_bind]. apply wfree_dns in E2.
    destruct (dns_call_found _ _ w2 i false) as [w3|] eqn:E3; [|done]. cbn [mbind option_bind]. intros [= <-].
    destruct (fail_dns (dns w) (ventry (dns w) i) w2 i w3) as (e & He & ->); try done.
    + rewrite put_same; [congruence|apply Hok|done].
    + apply finish_ok; [done|done|done|by left].
  - destruct (wfree _ _ _ p) as [w2|] eqn:E2; [|done]. cbn [mbind option_bind]. apply wfree_dns in E2. rewrite dns_upd_entry, E1 in E2.
    intros H. eapply (correct_response_ok (dns w)); [done|exact Hi|exact Ha|exact E2|done|exact Hv|exact H].
Qed.

Lemma gethostbyname_ok w hostname addr found arg w' e :
  dns_ok (dns w) ->
  dns_gethostbyname netif_output custom_free fuel rand found_fn dns_recv_fn dns_table_at locals w hostname addr found arg = Some (w', e) -> dns_ok (dns w').
Proof.
  intros Hok. unfold dns_gethostbyname. destruct (_ || _); [by intros [= <- _]|]. destruct (strlen _ _ _); [|done]. cbn [mbind option_bind].
  destruct (_ <=? _); [by intros [= <- _]|]. destruct (ip4addr_aton _ _ _) as [[ip|]|]; [by intros [= <- _]| |done]. cbn [mbind option_bind].
  destruct (dns_lookup _ _ _ _) as [[ip|]|]; [by intros [= <- _]| |done]. cbn [mbind option_bind].
  destruct (ip4_addr_isany _); [by intros [= <- _]|]. by apply enqueue_ok.
Qed.

Lemma setserver_ok w n s : dns_ok (dns w) -> 0 <= n -> dns_ok (dns (dns_setserver w n s)).
Proof.
  intros Hok Hn. unfold dns_setserver. destruct (_ <? _); [|done]. rewrite dns_upd. destruct Hok as [L1 L2 L3 L4 H5 H6 H7 H8 H9].
  constructor; auto; [simpl; by rewrite length_insert|]. intros i Hi. apply (entry_fine_pcbs (dns w)); [done|]. by apply H6.
Qed.

(** The calls of the application, of the timer and of UDP; in between, the rest of the
    state may change. *)
Inductive dns_step : world X -> world X -> Prop :=
| dstep_setserver w n s : 0 <= n -> dns_step w (dns_setserver w n s)
| dstep_tmr w w' : dns_tmr netif_output custom_free fuel rand found_fn dns_table_at locals w = Some w' -> dns_step w w'
| dstep_recv w arg pcb p addr port w' :
    dns_recv custom_free fuel found_fn dns_table_at locals w arg pcb p addr port = Some w' -> dns_step w w'
| dstep_gethostbyname w hostname addr found arg w' e :
    dns_gethostbyname netif_output custom_free fuel rand found_fn dns_recv_fn dns_table_at locals w hostname addr found arg = Some (w', e) ->
    dns_step w w'
| dstep_other w w' : dns w' = dns w -> dns_step w w'.

Lemma dns_step_ok w w' : dns_step w w' -> dns_ok (dns w) -> dns_ok (dns w').
Proof.
  intros Hs Hok. destruct Hs as [w n s Hn|w w' H|w arg pcb p addr port w' H|w h a f arg w' e H|w w' H].
  - by apply setserver_ok.
  - by eapply tmr_ok.
  - by eapply recv_ok.
  - by eapply gethostbyname_ok.
  - by rewrite H.
Qed.

(** A check of entry [i] leaves the others alone; an entry that is no query does not become
    one. *)
Lemma check_entry_ticks w i w' :
  dns_ok (dns w) -> (i < 4)%nat ->
  dns_check_entry netif_output custom_free fuel rand found_fn dns_table_at locals w i = Some w' ->
  (forall k, k <> i -> ventry (dns w') k = ventry (dns w) k) /\ (asking (ventry (dns w') i) -> asking (ventry (dns w) i) /\ rank (ventry (dns w') i) = rank (ventry (dns w) i) - 1).
Proof.
  intros Hok Hi. pose proof (do_table _ Hok) as Hl. pose proof (do_entries _ Hok i Hi) as Hf. unfold dns_check_entry. rewrite dentry_eq. unfold entry_fine in Hf.
  destruct (d_state (ventry (dns w) i)) eqn:Es; [intros [= <-]; split; [done|unfold asking; congruence]|done| |].
  - intros H. apply check_asking_dns in H as [(e & He & ->)|(s & t & r & _ & _ & _ & Hr & ->)]; [| |done..].
    + assert (Hv : forall k, ventry (put_entry i e (finished i (dns w))) k = if decide (k = i) then e else ventry (dns w) k) by (intros k; by apply (ventry_put (finished i (dns w)))).
      split; [intros k Hk; by rewrite Hv, decide_False|]. rewrite Hv, decide_True by done. unfold asking. congruence.
    + split; [intros k Hk; by rewrite ventry_put, decide_False|]. rewrite ventry_put, decide_True by done. done.
  - unfold DNS_MAX_TTL in Hf. rewrite u32_small by lia. rewrite (proj2 (Z.eqb_neq _ 0)) by lia. intros [= <-].
    assert (Hw : forall e0, d_state e0 <> DNS_STATE_ASKING -> forall w1, dns w1 = put_entry i e0 (dns w) ->
      (forall k, k <> i -> ventry (dns w1) k = ventry (dns w) k) /\
      (asking (ventry (dns w1) i) -> asking (ventry (dns w) i) /\ rank (ventry (dns w1) i) = rank (ventry (dns w) i) - 1)).
    { intros e0 He w1 ->. split; [intros k Hk; by rewrite ventry_put, decide_False|]. rewrite ventry_put, decide_True by done. by intros ?. }
    destruct (_ =? 0); [eapply (Hw (de_state DNS_STATE_UNUSED _)); [done|]|eapply (Hw (de_ttl _ _)); [|apply dns_upd_entry]; simpl; congruence].
    rewrite !dns_upd_entry, put_put. reflexivity.
Qed.

(** One tick of the timer: each query ends or comes nearer to its end, and none begins. *)
Definition nearer (v v' : dns_vars) (i : nat) : Prop :=
  asking (ventry v' i) -> asking (ventry v i) /\ rank (ventry v' i) = rank (ventry v i) - 1.

Lemma tmr_ticks w w' :
  dns_ok (dns w) -> dns_tmr netif_output custom_free fuel rand found_fn dns_table_at locals w = Some w' ->
  forall i, (i < 4)%nat -> nearer (dns w) (dns w') i.
Proof.
  unfold dns_tmr, dns_check_entries, DNS_TABLE_SIZE. intros Hok H. cbn [seq foldl mbind option_bind] in H.
  destruct (dns_check_entry _ _ _ _ _ _ _ w 0) as [w0|] eqn:E0; [|done]. cbn [mbind option_bind] in H.
  destruct (dns_check_entry _ _ _ _ _ _ _ w0 1) as [w1|] eqn:E1; [|done]. cbn [mbind option_bind] in H.
  destruct (dns_check_entry _ _ _ _ _ _ _ w1 2) as [w2|] eqn:E2; [|done]. cbn [mbind option_bind] in H. rename H into E3.
  assert (O0 : dns_ok (dns w0)) by (eapply check_entry_ok; [exact Hok| |exact E0]; lia).
  assert (O1 : dns_ok (dns w1)) by (eapply check_entry_ok; [exact O0| |exact E1]; lia).
  assert (O2 : dns_ok (dns w2)) by (eapply check_entry_ok; [exact O1| |exact E2]; lia).
  apply check_entry_ticks in E0 as [F0 G0]; [|done|lia]. apply check_entry_ticks in E1 as [F1 G1]; [|done|lia].
  apply check_entry_ticks in E2 as [F2 G2]; [|done|lia]. apply check_entry_ticks in E3 as [F3 G3]; [|done|lia].
  intros i Hi. unfold nearer. destruct i as [|[|[|[|]]]]; [..|lia].
  - by rewrite F3, F2, F1 by done.
  - rewrite F3, F2 by done. by rewrite <- (F0 1%nat) by done.
  - rewrite F3 by done. by rewrite <- (F0 2%nat), <- (F1 2%nat) by done.
  - by rewrite <- (F0 3%nat), <- (F1 3%nat), <- (F2 3%nat) by done.
Qed.

(** [n] ticks in a row. *)
Fixpoint dns_ticks (n : nat) w : option (world X) :=
  match n with
  | O => Some w
  | S n => w ← dns_tmr netif_output custom_free fuel rand found_fn dns_table_at locals w; dns_ticks n w
  end.

Lemma rank_range v e : query_ok v e -> 1 <= rank e <= 14.
Proof.
  intros [Q1 Q2 Q3 _ _]. unfold rank, DNS_MAX_RETRIES, DNS_MAX_SERVERS in *.
  destruct (Z.eqb_spec (d_server_idx e) 0); (destruct (Z.eqb_spec (d_retries e) 0) as [E|]; [rewrite E in *; lia|]);
    (destruct (Z.eqb_spec (d_retries e) 1) as [E1|]; [rewrite E1 in *; lia|]); (destruct (Z.eqb_spec (d_retries e) 2) as [E2|]; [rewrite E2 in *|]; lia).
Qed.

Lemma ticks_rank n w w' :
  dns_ok (dns w) -> dns_ticks n w = Some w' ->
  dns_ok (dns w') /\ forall i, (i < 4)%nat -> asking (ventry (dns w') i) -> rank (ventry (dns w') i) <= 14 - Z.of_nat n.
Proof.
  intros Hok. assert (H0 : forall i, (i < 4)%nat -> asking (ventry (dns w) i) -> rank (ventry (dns w) i) <= 14).
  { intros i Hi Ha. pose proof (do_entries _ Hok i Hi) as Hf. unfold entry_fine in Hf. rewrite Ha in Hf.
    by apply (rank_range (dns w) (ventry (dns w) i)). }
  assert (Hn : forall n w c, dns_ok (dns w) -> (forall i, (i < 4)%nat -> asking (ventry (dns w) i) -> rank (ventry (dns w) i) <= c) ->
    dns_ticks n w = Some w' -> dns_ok (dns w') /\ forall i, (i < 4)%nat -> asking (ventry (dns w') i) -> rank (ventry (dns w') i) <= c - Z.of_nat n).
  { clear - Hp. induction n as [|n IH]; intros w c Hok Hc H; [injection H as <-; split; [done|]; intros i Hi Ha; specialize (Hc i Hi Ha); lia|].
    cbn [dns_ticks] in H. destruct (dns_tmr _ _ _ _ _ _ _ w) as [w1|] eqn:E; [|done]. cbn [mbind option_bind] in H.
    pose proof (tmr_ok _ _ Hok E) as Hok1. pose proof (tmr_ticks _ _ Hok E) as Ht.
    destruct (IH w1 (c - 1) Hok1) as [A B]; [|exact H|].
    - intros i Hi Ha. destruct (Ht i Hi Ha) as [Ha0 ->]. specialize (Hc i Hi Ha0). lia.
    - split; [done|]. intros i Hi Ha. specialize (B i Hi Ha). lia. }
  by apply Hn.
Qed.

Lemma ranks_end w w' :
  dns_ok (dns w) -> dns_ticks 14 w = Some w' -> dns_ok (dns w') /\ forall i, (i < 4)%nat -> ~ asking (ventry (dns w') i).
Proof.
  intros Hok H. destruct (ticks_rank _ _ _ Hok H) as [Hok' Hr]. split; [done|]. intros i Hi Ha. specialize (Hr i Hi Ha).
  pose proof (do_entries _ Hok' i Hi) as Hf. unfold entry_fine in Hf. rewrite Ha in Hf.
  pose proof (rank_range _ _ Hf). lia.
Qed.

End Effects.

(** ** Runs *)

Definition dns_zero : dns_vars := mk_dv (replicate 4 NULL) 0 0 (replicate 4 entry_zero) (replicate 4 req_zero) [0; 0].

Lemma dns_zero_ok : dns_ok dns_zero.
Proof.
  assert (He : forall i, d_state (ventry dns_zero i) = DNS_STATE_UNUSED) by (intros i; do 4 (destruct i as [|i]; [done|]); by destruct i).
  constructor; try done.
  - intros i _. unfold entry_fine. by rewrite He.
  - intros i j _ _ H. unfold asking in H. by rewrite He in H.
  - intros r Hr Hf. destruct Hf. unfold dns_zero in Hr. simpl in Hr. by repeat (apply elem_of_cons in Hr as [->|Hr]; [done|]); apply elem_of_nil in Hr.
  - intros j Hj Ho. exfalso. apply Ho. unfold vpcb, dns_zero. simpl. unfold DNS_MAX_SOURCE_PORTS in Hj.
    assert (E : j = 0 \/ j = 1 \/ j = 2 \/ j = 3) by lia. by destruct E as [->|[->|[->| ->]]].
Qed.

(** C35: In every state that the calls of the application, the timer and the responses
    reach from zeroed variables, in any order: every query has a server and a timer in
    range and an open socket, no two queries have the same transaction id, a request waits
    only for a query, and a socket is open only for a query; no entry is left [NEW], and an
    entry with an address has a time to live between one second and a week.  The
    interface, [rand] and the callbacks do not change the client's variables. *)
Theorem dns_safe {X} `{!dns_store X} out custom_free fuel rand found_fn recv_fn table_at locals (w0 w : world X) :
  dns_private out rand found_fn ->
  dns w0 = dns_zero ->
  rtc (dns_step out custom_free fuel rand found_fn recv_fn table_at locals) w0 w -> dns_ok (dns w).
Proof.
  intros Hp H0 Hs. assert (Hok : dns_ok (dns w0)) by (rewrite H0; apply dns_zero_ok). clear H0.
  induction Hs as [|x y z Hxy _ IH]; [done|]. apply IH. by eapply dns_step_ok.
Qed.

(** C36: A query lasts at most fourteen ticks of the timer, seven for each server: after
    them no entry is a query, no request waits for a callback and no socket is open. *)
Theorem query_ends {X} `{!dns_store X} out custom_free fuel rand found_fn table_at locals (w w' : world X) :
  dns_private out rand found_fn -> dns_ok (dns w) ->
  dns_ticks out custom_free fuel rand found_fn table_at locals 14 w = Some w' ->
  (forall i, (i < 4)%nat -> d_state (dentry w' i) <> DNS_STATE_ASKING) /\
  (forall r, r ∈ dns_requests (dns w') -> rq_found r = NULL) /\
  (forall j, 0 <= j < DNS_MAX_SOURCE_PORTS -> dpcb w' j = NULL).
Proof.
  intros Hp Hok H. destruct (ranks_end _ _ _ _ _ _ _ Hp _ _ Hok H) as [Hok' Hn]. split; [exact Hn|]. split.
  - intros r Hr. destruct (decide (rq_found r = NULL)) as [|Hf]; [done|]. destruct (do_waits _ Hok' r Hr Hf) as [Hi Ha]. by destruct (Hn _ Hi).
  - intros j Hj. destruct (decide (dpcb w' j = NULL)) as [|Hf]; [done|]. destruct (do_sockets _ Hok' j Hj Hf) as (i & Hi & Ha & _). by destruct (Hn _ Hi).
Qed.

(** A board whose external state is the client's variables and a counter that gives the
    random numbers; two servers; the name [a.bc] is at 6000. *)
#[export] Instance dns_pair : dns_store (dns_vars * Z).
Proof. by refine {| dns_get x := x.1; dns_put x v := (v, x.2) |}. Defined.
Definition count_rand (w : world (dns_vars * Z)) : world (dns_vars * Z) * Z := (set_ext w (dns w, (w_ext w).2 + 7), (w_ext w).2).
Definition no_found (f : Z) (w : world (dns_vars * Z)) (name : Z) (a : option Z) (arg : Z) : option (world (dns_vars * Z)) := Some w.
Definition dns_world0 : world (dns_vars * Z) :=
  mk_world (dns_zero, 5000) (set_data net_st (write_bytes (data net_st) 6000 [97; 46; 98; 99; 0]))
    (w_netifs world0) 7 NULL (mk_ipg 0 0 0 0 0 0) [] 0 [] ∅ 0xc000 (fun _ _ => 0).
Definition dns_world1 := dns_setserver (dns_setserver dns_world0 0 (Some 0x0500a8c0)) 1 (Some 0x0600a8c0).
Definition ask_example w := dns_gethostbyname sink (fun st _ => st) 300 count_rand no_found 9000 700000 800000 w 6000 6100 77 88.
Definition dns_world2 := from_option fst dns_world1 (ask_example dns_world1).
#[local] Abbreviation ticks_example n := (dns_ticks sink (fun st _ => st) 300 count_rand no_found 700000 800000 n dns_world2).

Lemma private_example : dns_private sink count_rand no_found.
Proof.
  constructor; [|done|by intros f w name a arg w' [= <-]]. intros v w nif p dest w' r. unfold sink. by intros [= <- _].
Qed.

Lemma dns_safe_witness : dns_ok (dns dns_world2) /\ d_state (dentry dns_world2 0) = DNS_STATE_ASKING.
Proof.
  split; [|vm_compute; reflexivity].
  apply (dns_safe sink (fun st _ => st) 300 count_rand no_found 9000 700000 800000 dns_world0 dns_world2 private_example); [reflexivity|].
  eapply rtc_l; [apply (dstep_setserver _ _ _ _ _ _ _ _ _ 0 (Some 0x0500a8c0)); lia|].
  eapply rtc_l; [apply (dstep_setserver _ _ _ _ _ _ _ _ _ 1 (Some 0x0600a8c0)); lia|].
  apply rtc_once. apply (dstep_gethostbyname _ _ _ _ _ _ _ _ dns_world1 6000 6100 77 88 dns_world2 ERR_INPROGRESS). vm_compute. reflexivity.
Defined.

Lemma ask_ok : dns_ok (dns dns_world2).
Proof.
  assert (H : dns_ok (dns dns_world1)) by (apply setserver_ok; [apply setserver_ok; [apply dns_zero_ok|]|]; lia).
  apply (gethostbyname_ok sink (fun st _ => st) 300 count_rand no_found 9000 700000 800000 private_example dns_world1 6000 6100 77 88 dns_world2 ERR_INPROGRESS H). vm_compute. reflexivity.
Qed.

(** The bound is exact: after thirteen ticks the query is still there. *)
Lemma query_ends_witness :
  exists w w', ticks_example 13 = Some w /\ d_state (dentry w 0) = DNS_STATE_ASKING /\
    ticks_example 14 = Some w' /\ forall j, 0 <= j < DNS_MAX_SOURCE_PORTS -> dpcb w' j = NULL.
Proof.
  assert (H : match ticks_example 13 with Some w => d_state (dentry w 0) = DNS_STATE_ASKING | None => False end).
  { vm_compute. reflexivity. }
  assert (H' : match ticks_example 14 with Some _ => True | None => False end).
  { vm_compute. exact I. }
  destruct (ticks_example 13) as [w|]; [|destruct H]. destruct (ticks_example 14) as [w'|] eqn:E'; [|destruct H'].
  exists w, w'. split; [reflexivity|]. split; [exact H|]. split; [reflexivity|].
  apply (query_ends sink (fun st _ => st) 300 count_rand no_found 700000 800000 dns_world2 w'); [apply private_example|apply ask_ok|exact E'].
Defined.

(** A callback that asks for another name, while the entry it is called for is the oldest
    one of the table: the new query takes this entry.  The loop that called it goes on to
    the new request and answers it with the old address, and closes the new socket; the
    entry stays a query without a socket, and the old socket stays open. *)
Definition reuse_vars : dns_vars :=
  mk_dv [538000132; 0; 0; 0] 0 4
    [mk_de 0 0x08080808 1 DNS_STATE_ASKING 0 1 0 0 0; mk_de 60 1 2 DNS_STATE_DONE 0 1 0 1 4;
     mk_de 60 2 3 DNS_STATE_DONE 0 1 0 2 4; mk_de 60 3 4 DNS_STATE_DONE 0 1 0 3 4]
    [mk_dr 77 0 0; req_zero; req_zero; req_zero] [0x0500a8c0; 0].
Definition reuse_world : world (dns_vars * Z) := set_ext dns_world0 (reuse_vars, 5000).
Definition ask_again (f : Z) (w : world (dns_vars * Z)) (name : Z) (a : option Z) (arg : Z) : option (world (dns_vars * Z)) :=
  if f =? 77 then fst <$> dns_gethostbyname sink (fun st _ => st) 300 count_rand no_found 9000 700000 800000 w 6000 6100 78 0
  else Some (set_wmem w (st32 (wmem w) 6200 (default 0 a))).

Lemma callback_takes_entry :
  match dns_correct_response ask_again 700000 reuse_world 0 60 with
  | Some w => wmem w (name_at 700000 0) = 97 /\ ld32 (wmem w) 6200 = 0x08080808 /\
      d_state (dentry w 0) = DNS_STATE_ASKING /\ d_pcb_idx (dentry w 0) = DNS_MAX_SOURCE_PORTS /\ dns_pcbs (dns w) = dns_pcbs reuse_vars
  | None => False
  end.
Proof. vm_compute. repeat split; reflexivity. Qed.
