(* ===== verification/Tcp.v ===== *)
(** * TCP: the data of [core/tcp.c], [core/tcp_in.c] and [core/tcp_out.c]

    Protocol control blocks, segments, the lists of PCBs, the variables of the input
    processing, the TCP header, and the operations on segments.  The configuration is that
    of [lwipopts.h]: [TCP_MSS] 1460, [TCP_SND_BUF] and [TCP_WND] four times that, a queue of
    out-of-sequence segments without limits, oversized pbufs, no time stamps, no window
    scaling, no backlog, no [SO_REUSE], checksums left to the hardware. *)

From Stdlib Require Import ZArith Lia.
From stdpp Require Import base tactics numbers list option gmap.
From S2P Require Import Prelude.
From S2P Require Import Def.
From S2P Require Import Ip4Addr.
From S2P Require Import Alloc.
From S2P Require Import Mem.
From S2P Require Import Memp.
From S2P Require Import Pbuf.
From S2P Require Import World.
From S2P Require Import Ip4Frag.
From S2P Require Import Ip4.
From S2P Require Import Icmp.
From S2P Require Import Udp.

(** ** Constants *)

Definition ERR_ALREADY : Z := -9.
Definition ERR_ISCONN : Z := -10.
Definition ERR_CONN : Z := -11.
Definition ERR_ABRT : Z := -13.
Definition ERR_RST : Z := -14.
Definition ERR_CLSD : Z := -15.
Definition MEMP_TCP_PCB : Z := 1.
Definition MEMP_TCP_PCB_LISTEN : Z := 2.
Definition MEMP_TCP_SEG : Z := 3.
Definition TCP_HLEN : Z := 20.
Definition TCP_TTL : Z := 255.
Definition TCP_MSS : Z := 1460.
Definition INITIAL_MSS : Z := 536.
Definition TCP_WND : Z := 4 * TCP_MSS.
Definition TCP_SND_BUF : Z := 4 * TCP_MSS.
Definition TCP_SND_QUEUELEN : Z := (4 * TCP_SND_BUF + (TCP_MSS - 1)) / TCP_MSS.
Definition TCP_SNDQUEUELEN_OVERFLOW : Z := 0xffff - 3.
Definition TCP_OVERSIZE : Z := TCP_MSS.
Definition TCP_MAXRTX : Z := 12.
Definition TCP_SYNMAXRTX : Z := 6.
Definition TCP_WND_UPDATE_THRESHOLD : Z := Z.min (TCP_WND / 4) (TCP_MSS * 4).
Definition TCP_SLOW_INTERVAL : Z := 500.
Definition TCP_FIN_WAIT_TIMEOUT : Z := 20000.
Definition TCP_SYN_RCVD_TIMEOUT : Z := 20000.
Definition TCP_OOSEQ_TIMEOUT : Z := 6.
Definition TCP_MSL : Z := 60000.
Definition TCP_KEEPIDLE_DEFAULT : Z := 7200000.
Definition TCP_KEEPINTVL_DEFAULT : Z := 75000.
Definition TCP_KEEPCNT_DEFAULT : Z := 9.
Definition TCP_MAXIDLE : Z := TCP_KEEPCNT_DEFAULT * TCP_KEEPINTVL_DEFAULT.
Definition TCP_LOCAL_PORT_RANGE_START : Z := 0xc000.
Definition TCP_LOCAL_PORT_RANGE_END : Z := 0xffff.
Definition TCP_PRIO_NORMAL : Z := 64.
Definition TCP_PRIO_MAX : Z := 127.
Definition SOF_KEEPALIVE : Z := 0x08.
Definition SOF_INHERITED : Z := 0x0c.
(** The flags of the TCP header. *)
Definition TCP_FIN : Z := 0x01.
Definition TCP_SYN : Z := 0x02.
Definition TCP_RST : Z := 0x04.
Definition TCP_PSH : Z := 0x08.
Definition TCP_ACK : Z := 0x10.
Definition TCP_FLAGS : Z := 0x3f.
(** The flags of a PCB. *)
Definition TF_ACK_DELAY : Z := 0x01.
Definition TF_ACK_NOW : Z := 0x02.
Definition TF_INFR : Z := 0x04.
Definition TF_CLOSEPEND : Z := 0x08.
Definition TF_RXCLOSED : Z := 0x10.
Definition TF_FIN : Z := 0x20.
Definition TF_NODELAY : Z := 0x40.
Definition TF_NAGLEMEMERR : Z := 0x80.
(** The flags of the input processing. *)
Definition TF_RESET : Z := 0x08.
Definition TF_CLOSED : Z := 0x10.
Definition TF_GOT_FIN : Z := 0x20.
Definition TF_SEG_OPTS_MSS : Z := 0x01.
Definition TCP_WRITE_FLAG_COPY : Z := 0x01.
Definition TCP_WRITE_FLAG_MORE : Z := 0x02.
Definition LWIP_TCP_OPT_EOL : Z := 0.
Definition LWIP_TCP_OPT_NOP : Z := 1.
Definition LWIP_TCP_OPT_MSS : Z := 2.
Definition LWIP_TCP_OPT_LEN_MSS : Z := 4.
Definition PBUF_FLAG_PUSH : Z := 0x01.
Definition PBUF_FLAG_TCP_FIN : Z := 0x20.

(** A flag is set in a word. *)
Definition has_flag (v f : Z) : bool := negb (Z.land v f =? 0).
(** [v & ~f] in 8 bits. *)
Definition without (v f : Z) : Z := u8 (Z.land v (Z.lnot f)).

(** [LWIP_TCP_OPT_LENGTH(flags)] *)
Definition LWIP_TCP_OPT_LENGTH (flags : Z) : Z := if has_flag flags TF_SEG_OPTS_MSS then LWIP_TCP_OPT_LEN_MSS else 0.

(** Comparisons of sequence numbers, modulo 2^32. *)
Definition TCP_SEQ_LT (a b : Z) : bool := s32 (a - b) <? 0.
Definition TCP_SEQ_LEQ (a b : Z) : bool := s32 (a - b) <=? 0.
Definition TCP_SEQ_GT (a b : Z) : bool := 0 <? s32 (a - b).
Definition TCP_SEQ_GEQ (a b : Z) : bool := 0 <=? s32 (a - b).
Definition TCP_SEQ_BETWEEN (a b c : Z) : bool := TCP_SEQ_GEQ a b && TCP_SEQ_LEQ a c.

(** ** Data *)

(** [enum tcp_state] *)
Inductive tcp_state :=
  CLOSED | LISTEN | SYN_SENT | SYN_RCVD | ESTABLISHED | FIN_WAIT_1 | FIN_WAIT_2 | CLOSE_WAIT | CLOSING | LAST_ACK | TIME_WAIT.
#[export] Instance tcp_state_eq_dec : EqDecision tcp_state.
Proof. solve_decision. Defined.
Definition state_num (s : tcp_state) : Z :=
  match s with
  | CLOSED => 0 | LISTEN => 1 | SYN_SENT => 2 | SYN_RCVD => 3 | ESTABLISHED => 4 | FIN_WAIT_1 => 5
  | FIN_WAIT_2 => 6 | CLOSE_WAIT => 7 | CLOSING => 8 | LAST_ACK => 9 | TIME_WAIT => 10
  end.
Definition state_is (s t : tcp_state) : bool := bool_decide (s = t).

(** [struct tcp_seg]; the queues through [next] are lists of addresses. *)
Record tcp_seg := mk_seg { sg_p : Z; sg_len : Z; sg_flags : Z; sg_tcphdr : Z }.
Definition seg_zero : tcp_seg := mk_seg 0 0 0 0.
Definition sg_with_len v s := mk_seg (sg_p s) v (sg_flags s) (sg_tcphdr s).
Definition sg_with_p v s := mk_seg v (sg_len s) (sg_flags s) (sg_tcphdr s).
Definition sg_with_hdr v s := mk_seg (sg_p s) (sg_len s) (sg_flags s) v.

(** [struct tcp_pcb], with the members of [IP_PCB]. *)
Record tcp_pcb := mk_tcp_pcb {
  t_local_ip : Z; t_remote_ip : Z; t_so_options : Z; t_tos : Z; t_ttl : Z;
  t_callback_arg : Z; t_state : tcp_state; t_prio : Z; t_local_port : Z;
  t_remote_port : Z; t_flags : Z;
  t_polltmr : Z; t_pollinterval : Z; t_last_timer : Z; t_tmr : Z;
  t_rcv_nxt : Z; t_rcv_wnd : Z; t_rcv_ann_wnd : Z; t_rcv_ann_right_edge : Z;
  t_rtime : Z; t_mss : Z;
  t_rttest : Z; t_rtseq : Z; t_sa : Z; t_sv : Z;
  t_rto : Z; t_nrtx : Z;
  t_dupacks : Z; t_lastack : Z;
  t_cwnd : Z; t_ssthresh : Z;
  t_snd_nxt : Z; t_snd_wl1 : Z; t_snd_wl2 : Z; t_snd_lbb : Z; t_snd_wnd : Z; t_snd_wnd_max : Z;
  t_snd_buf : Z; t_snd_queuelen : Z; t_unsent_oversize : Z;
  t_unsent : list Z; t_unacked : list Z; t_ooseq : list Z;
  t_refused_data : Z; t_listener : Z;
  t_sent : Z; t_recv : Z; t_connected : Z; t_poll : Z; t_errf : Z;
  t_keep_idle : Z; t_persist_cnt : Z; t_persist_backoff : Z; t_keep_cnt_sent : Z
}.

(** [p] with another value of the field [f]. *)
Ltac pcb_with f v p :=
  let b := constr:(mk_tcp_pcb (t_local_ip p) (t_remote_ip p) (t_so_options p) (t_tos p) (t_ttl p)
    (t_callback_arg p) (t_state p) (t_prio p) (t_local_port p) (t_remote_port p) (t_flags p)
    (t_polltmr p) (t_pollinterval p) (t_last_timer p) (t_tmr p)
    (t_rcv_nxt p) (t_rcv_wnd p) (t_rcv_ann_wnd p) (t_rcv_ann_right_edge p) (t_rtime p) (t_mss p)
    (t_rttest p) (t_rtseq p) (t_sa p) (t_sv p) (t_rto p) (t_nrtx p) (t_dupacks p) (t_lastack p) (t_cwnd p) (t_ssthresh p)
    (t_snd_nxt p) (t_snd_wl1 p) (t_snd_wl2 p) (t_snd_lbb p) (t_snd_wnd p) (t_snd_wnd_max p)
    (t_snd_buf p) (t_snd_queuelen p) (t_unsent_oversize p) (t_unsent p) (t_unacked p) (t_ooseq p)
    (t_refused_data p) (t_listener p) (t_sent p) (t_recv p) (t_connected p) (t_poll p) (t_errf p)
    (t_keep_idle p) (t_persist_cnt p) (t_persist_backoff p) (t_keep_cnt_sent p)) in
  match b with context C [f p] => let r := context C [v] in exact r end.

Definition s_local_ip (v : Z) (p : tcp_pcb) : tcp_pcb := ltac:(pcb_with t_local_ip v p).
Definition s_remote_ip (v : Z) (p : tcp_pcb) : tcp_pcb := ltac:(pcb_with t_remote_ip v p).
Definition s_so_options (v : Z) (p : tcp_pcb) : tcp_pcb := ltac:(pcb_with t_so_options v p).
Definition s_callback_arg (v : Z) (p : tcp_pcb) : tcp_pcb := ltac:(pcb_with t_callback_arg v p).
Definition s_state (v : tcp_state) (p : tcp_pcb) : tcp_pcb := ltac:(pcb_with t_state v p).
Definition s_prio (v : Z) (p : tcp_pcb) : tcp_pcb := ltac:(pcb_with t_prio v p).
Definition s_local_port (v : Z) (p : tcp_pcb) : tcp_pcb := ltac:(pcb_with t_local_port v p).
Definition s_remote_port (v : Z) (p : tcp_pcb) : tcp_pcb := ltac:(pcb_with t_remote_port v p).
Definition s_flags (v : Z) (p : tcp_pcb) : tcp_pcb := ltac:(pcb_with t_flags v p).
Definition s_polltmr (v : Z) (p : tcp_pcb) : tcp_pcb := ltac:(pcb_with t_polltmr v p).
Definition s_pollinterval (v : Z) (p : tcp_pcb) : tcp_pcb := ltac:(pcb_with t_pollinterval v p).
Definition s_last_timer (v : Z) (p : tcp_pcb) : tcp_pcb := ltac:(pcb_with t_last_timer v p).
Definition s_tmr (v : Z) (p : tcp_pcb) : tcp_pcb := ltac:(pcb_with t_tmr v p).
Definition s_rcv_nxt (v : Z) (p : tcp_pcb) : tcp_pcb := ltac:(pcb_with t_rcv_nxt v p).
Definition s_rcv_wnd (v : Z) (p : tcp_pcb) : tcp_pcb := ltac:(pcb_with t_rcv_wnd v p).
Definition s_rcv_ann_wnd (v : Z) (p : tcp_pcb) : tcp_pcb := ltac:(pcb_with t_rcv_ann_wnd v p).
Definition s_rcv_ann_right_edge (v : Z) (p : tcp_pcb) : tcp_pcb := ltac:(pcb_with t_rcv_ann_right_edge v p).
Definition s_rtime (v : Z) (p : tcp_pcb) : tcp_pcb := ltac:(pcb_with t_rtime v p).
Definition s_mss (v : Z) (p : tcp_pcb) : tcp_pcb := ltac:(pcb_with t_mss v p).
Definition s_rttest (v : Z) (p : tcp_pcb) : tcp_pcb := ltac:(pcb_with t_rttest v p).
Definition s_rtseq (v : Z) (p : tcp_pcb) : tcp_pcb := ltac:(pcb_with t_rtseq v p).
Definition s_sa (v : Z) (p : tcp_pcb) : tcp_pcb := ltac:(pcb_with t_sa v p).
Definition s_sv (v : Z) (p : tcp_pcb) : tcp_pcb := ltac:(pcb_with t_sv v p).
Definition s_rto (v : Z) (p : tcp_pcb) : tcp_pcb := ltac:(pcb_with t_rto v p).
Definition s_nrtx (v : Z) (p : tcp_pcb) : tcp_pcb := ltac:(pcb_with t_nrtx v p).
Definition s_dupacks (v : Z) (p : tcp_pcb) : tcp_pcb := ltac:(pcb_with t_dupacks v p).
Definition s_lastack (v : Z) (p : tcp_pcb) : tcp_pcb := ltac:(pcb_with t_lastack v p).
Definition s_cwnd (v : Z) (p : tcp_pcb) : tcp_pcb := ltac:(pcb_with t_cwnd v p).
Definition s_ssthresh (v : Z) (p : tcp_pcb) : tcp_pcb := ltac:(pcb_with t_ssthresh v p).
Definition s_snd_nxt (v : Z) (p : tcp_pcb) : tcp_pcb := ltac:(pcb_with t_snd_nxt v p).
Definition s_snd_wl1 (v : Z) (p : tcp_pcb) : tcp_pcb := ltac:(pcb_with t_snd_wl1 v p).
Definition s_snd_wl2 (v : Z) (p : tcp_pcb) : tcp_pcb := ltac:(pcb_with t_snd_wl2 v p).
Definition s_snd_lbb (v : Z) (p : tcp_pcb) : tcp_pcb := ltac:(pcb_with t_snd_lbb v p).
Definition s_snd_wnd (v : Z) (p : tcp_pcb) : tcp_pcb := ltac:(pcb_with t_snd_wnd v p).
Definition s_snd_wnd_max (v : Z) (p : tcp_pcb) : tcp_pcb := ltac:(pcb_with t_snd_wnd_max v p).
Definition s_snd_buf (v : Z) (p : tcp_pcb) : tcp_pcb := ltac:(pcb_with t_snd_buf v p).
Definition s_snd_queuelen (v : Z) (p : tcp_pcb) : tcp_pcb := ltac:(pcb_with t_snd_queuelen v p).
Definition s_unsent_oversize (v : Z) (p : tcp_pcb) : tcp_pcb := ltac:(pcb_with t_unsent_oversize v p).
Definition s_unsent (v : list Z) (p : tcp_pcb) : tcp_pcb := ltac:(pcb_with t_unsent v p).
Definition s_unacked (v : list Z) (p : tcp_pcb) : tcp_pcb := ltac:(pcb_with t_unacked v p).
Definition s_ooseq (v : list Z) (p : tcp_pcb) : tcp_pcb := ltac:(pcb_with t_ooseq v p).
Definition s_refused_data (v : Z) (p : tcp_pcb) : tcp_pcb := ltac:(pcb_with t_refused_data v p).
Definition s_listener (v : Z) (p : tcp_pcb) : tcp_pcb := ltac:(pcb_with t_listener v p).
Definition s_sent (v : Z) (p : tcp_pcb) : tcp_pcb := ltac:(pcb_with t_sent v p).
Definition s_recv (v : Z) (p : tcp_pcb) : tcp_pcb := ltac:(pcb_with t_recv v p).
Definition s_connected (v : Z) (p : tcp_pcb) : tcp_pcb := ltac:(pcb_with t_connected v p).
Definition s_poll (v : Z) (p : tcp_pcb) : tcp_pcb := ltac:(pcb_with t_poll v p).
Definition s_errf (v : Z) (p : tcp_pcb) : tcp_pcb := ltac:(pcb_with t_errf v p).
Definition s_persist_cnt (v : Z) (p : tcp_pcb) : tcp_pcb := ltac:(pcb_with t_persist_cnt v p).
Definition s_persist_backoff (v : Z) (p : tcp_pcb) : tcp_pcb := ltac:(pcb_with t_persist_backoff v p).
Definition s_keep_cnt_sent (v : Z) (p : tcp_pcb) : tcp_pcb := ltac:(pcb_with t_keep_cnt_sent v p).

(** [struct tcp_pcb_listen] *)
Record tcp_pcb_listen := mk_listen {
  l_local_ip : Z; l_so_options : Z; l_tos : Z; l_ttl : Z; l_callback_arg : Z; l_state : tcp_state; l_prio : Z;
  l_local_port : Z; l_accept : Z }.
Definition listen_zero : tcp_pcb_listen := mk_listen 0 0 0 0 0 CLOSED 0 0 0.
Definition sl_local_ip v l := mk_listen v (l_so_options l) (l_tos l) (l_ttl l) (l_callback_arg l) (l_state l) (l_prio l) (l_local_port l) (l_accept l).
Definition sl_callback_arg v l := mk_listen (l_local_ip l) (l_so_options l) (l_tos l) (l_ttl l) v (l_state l) (l_prio l) (l_local_port l) (l_accept l).
Definition sl_closed l := mk_listen (l_local_ip l) (l_so_options l) (l_tos l) (l_ttl l) (l_callback_arg l) CLOSED (l_prio l) 0 (l_accept l).
Definition sl_accept v l := mk_listen (l_local_ip l) (l_so_options l) (l_tos l) (l_ttl l) (l_callback_arg l) (l_state l) (l_prio l) (l_local_port l) v.

(** All members zero, as [memset] leaves them. *)
Definition tcp_pcb_zero : tcp_pcb :=
  mk_tcp_pcb 0 0 0 0 0 0 CLOSED 0 0 0 0 0 0 0 0 0 0 0 0 0 0 0 0 0 0 0 0 0 0 0 0 0 0 0 0 0 0 0 0 0 [] [] [] 0 0 0 0 0 0 0 0 0 0 0.

(** The variables of [tcp_in.c] that hold the segment being processed. *)
Record tcp_in_vars := mk_in {
  inseg : tcp_seg; tcphdr : Z; tcphdr_optlen : Z; tcphdr_opt1len : Z; tcphdr_opt2 : Z; tcp_optidx : Z;
  seqno : Z; ackno : Z; recv_acked : Z; tcplen : Z; in_flags : Z; recv_flags : Z; recv_data : Z; tcp_input_pcb : Z }.
Ltac in_with f v i :=
  let b := constr:(mk_in (inseg i) (tcphdr i) (tcphdr_optlen i) (tcphdr_opt1len i) (tcphdr_opt2 i) (tcp_optidx i)
    (seqno i) (ackno i) (recv_acked i) (tcplen i) (in_flags i) (recv_flags i) (recv_data i) (tcp_input_pcb i)) in
  match b with context C [f i] => let r := context C [v] in exact r end.
Definition i_inseg (v : tcp_seg) (i : tcp_in_vars) : tcp_in_vars := ltac:(in_with inseg v i).
Definition i_optidx (v : Z) (i : tcp_in_vars) : tcp_in_vars := ltac:(in_with tcp_optidx v i).
Definition i_seqno (v : Z) (i : tcp_in_vars) : tcp_in_vars := ltac:(in_with seqno v i).
Definition i_recv_acked (v : Z) (i : tcp_in_vars) : tcp_in_vars := ltac:(in_with recv_acked v i).
Definition i_tcplen (v : Z) (i : tcp_in_vars) : tcp_in_vars := ltac:(in_with tcplen v i).
Definition i_recv_flags (v : Z) (i : tcp_in_vars) : tcp_in_vars := ltac:(in_with recv_flags v i).
Definition i_recv_data (v : Z) (i : tcp_in_vars) : tcp_in_vars := ltac:(in_with recv_data v i).
Definition i_input_pcb (v : Z) (i : tcp_in_vars) : tcp_in_vars := ltac:(in_with tcp_input_pcb v i).

(** The variables of the three files: the PCBs and segments at their addresses, the lists,
    the counters; [tcp_iss] is the static variable of [tcp_next_iss]. *)
Record tcp_vars := mk_tv {
  tcp_pcb_at : gmap Z tcp_pcb; tcp_listen_at : gmap Z tcp_pcb_listen; tcp_seg_at : gmap Z tcp_seg;
  tcp_bound_pcbs : list Z; tcp_listen_pcbs : list Z; tcp_active_pcbs : list Z; tcp_tw_pcbs : list Z;
  tcp_active_pcbs_changed : bool; tcp_port : Z; tcp_ticks : Z; tcp_timer : Z; tcp_timer_ctr : Z; tcp_iss : Z;
  tcp_in : tcp_in_vars }.
Ltac tv_with f v t :=
  let b := constr:(mk_tv (tcp_pcb_at t) (tcp_listen_at t) (tcp_seg_at t) (tcp_bound_pcbs t) (tcp_listen_pcbs t)
    (tcp_active_pcbs t) (tcp_tw_pcbs t) (tcp_active_pcbs_changed t) (tcp_port t) (tcp_ticks t) (tcp_timer t)
    (tcp_timer_ctr t) (tcp_iss t) (tcp_in t)) in
  match b with context C [f t] => let r := context C [v] in exact r end.
Definition v_pcb_at (v : gmap Z tcp_pcb) (t : tcp_vars) : tcp_vars := ltac:(tv_with tcp_pcb_at v t).
Definition v_listen_at (v : gmap Z tcp_pcb_listen) (t : tcp_vars) : tcp_vars := ltac:(tv_with tcp_listen_at v t).
Definition v_seg_at (v : gmap Z tcp_seg) (t : tcp_vars) : tcp_vars := ltac:(tv_with tcp_seg_at v t).
Definition v_bound_pcbs (v : list Z) (t : tcp_vars) : tcp_vars := ltac:(tv_with tcp_bound_pcbs v t).
Definition v_listen_pcbs (v : list Z) (t : tcp_vars) : tcp_vars := ltac:(tv_with tcp_listen_pcbs v t).
Definition v_active_pcbs (v : list Z) (t : tcp_vars) : tcp_vars := ltac:(tv_with tcp_active_pcbs v t).
Definition v_tw_pcbs (v : list Z) (t : tcp_vars) : tcp_vars := ltac:(tv_with tcp_tw_pcbs v t).
Definition v_changed (v : bool) (t : tcp_vars) : tcp_vars := ltac:(tv_with tcp_active_pcbs_changed v t).
Definition v_port (v : Z) (t : tcp_vars) : tcp_vars := ltac:(tv_with tcp_port v t).
Definition v_ticks (v : Z) (t : tcp_vars) : tcp_vars := ltac:(tv_with tcp_ticks v t).
Definition v_timer (v : Z) (t : tcp_vars) : tcp_vars := ltac:(tv_with tcp_timer v t).
Definition v_timer_ctr (v : Z) (t : tcp_vars) : tcp_vars := ltac:(tv_with tcp_timer_ctr v t).
Definition v_iss (v : Z) (t : tcp_vars) : tcp_vars := ltac:(tv_with tcp_iss v t).
Definition v_in (v : tcp_in_vars) (t : tcp_vars) : tcp_vars := ltac:(tv_with tcp_in v t).

(** The four lists, in the order of [tcp_pcb_lists]. *)
Inductive pcb_list := Listening | Bound | Active | Timewait.
Definition tcp_pcb_lists : list pcb_list := [Listening; Bound; Active; Timewait].
Definition pcbs (t : tcp_vars) (l : pcb_list) : list Z :=
  match l with Listening => tcp_listen_pcbs t | Bound => tcp_bound_pcbs t | Active => tcp_active_pcbs t | Timewait => tcp_tw_pcbs t end.
Definition set_pcbs (l : pcb_list) (v : list Z) (t : tcp_vars) : tcp_vars :=
  match l with Listening => v_listen_pcbs v t | Bound => v_bound_pcbs v t | Active => v_active_pcbs v t | Timewait => v_tw_pcbs v t end.
(** [pcb->next] in a list. *)
Fixpoint next_of (pcb : Z) (l : list Z) : Z :=
  match l with [] => NULL | x :: l => if x =? pcb then hd NULL l else next_of pcb l end.

(** The variables are a part of the external state of the IP layer. *)
Class tcp_store (X : Type) := {
  tcp_get : X -> tcp_vars;
  tcp_put : X -> tcp_vars -> X;
  tcp_get_put : forall x v, tcp_get (tcp_put x v) = v
}.

(** [pbuf_free_ooseq_pending] *)
Definition set_pending (st : pstate) (v : Z) : pstate := mk_ps (pbufs st) (data st) (ps_heap st) (ps_pools st) v.

(** ** The TCP header *)

(** [TCPH_HDRLEN], [TCPH_FLAGS] and the macros that set them. *)
Definition TCPH_HDRLEN (m : memory) (hdr : Z) : Z := Z.shiftr (lwip_htons (ld16 m (hdr + 12))) 12.
Definition TCPH_FLAGS (m : memory) (hdr : Z) : Z := Z.land (lwip_htons (ld16 m (hdr + 12))) TCP_FLAGS.
Definition TCPH_FLAGS_SET (m : memory) (hdr flags : Z) : memory :=
  st16 m (hdr + 12) (u16 (Z.lor (Z.land (ld16 m (hdr + 12)) (PP_HTONS (Z.lnot TCP_FLAGS))) (lwip_htons flags))).
Definition TCPH_HDRLEN_FLAGS_SET (m : memory) (hdr len flags : Z) : memory :=
  st16 m (hdr + 12) (lwip_htons (Z.lor (u16 (Z.shiftl len 12)) flags)).
Definition TCPH_SET_FLAG (m : memory) (hdr flags : Z) : memory :=
  st16 m (hdr + 12) (Z.lor (ld16 m (hdr + 12)) (lwip_htons flags)).

(** The functions that an application registers: an accept function gets its argument, the
    new PCB and an error; a receive function its argument, the PCB, the data ([NULL] at the
    end of the stream) and an error; and so on. *)
Record tcp_callbacks {X : Type} := mk_cb {
  cb_accept : Z -> world X -> Z -> Z -> Z -> option (world X * Z);
  cb_recv : Z -> world X -> Z -> Z -> Z -> Z -> option (world X * Z);
  cb_sent : Z -> world X -> Z -> Z -> Z -> option (world X * Z);
  cb_connected : Z -> world X -> Z -> Z -> Z -> option (world X * Z);
  cb_poll : Z -> world X -> Z -> Z -> option (world X * Z);
  cb_err : Z -> world X -> Z -> Z -> option (world X)
}.
Arguments tcp_callbacks : clear implicits.
Arguments mk_cb {_}.

Section Tcp.
Context {X : Type} `{!tcp_store X}.
Context (custom_free : pstate -> Z -> pstate) (fuel : nat).
(** [tcp_timer_needed] of [core/timeouts.c] *)
Context (tcp_timer_needed : world X -> world X).
Implicit Types w : world X.

Definition tcp w : tcp_vars := tcp_get (w_ext w).
Definition upd_tcp w (f : tcp_vars -> tcp_vars) : world X := set_ext w (tcp_put (w_ext w) (f (tcp w))).
Definition upd_in w (f : tcp_in_vars -> tcp_in_vars) : world X := upd_tcp w (fun t => v_in (f (tcp_in t)) t).

(** The PCB and the segment at an address, and changes of their members. *)
Definition pcb_of w (pcb : Z) : tcp_pcb := default tcp_pcb_zero (tcp_pcb_at (tcp w) !! pcb).
Definition upd_pcb w (pcb : Z) (f : tcp_pcb -> tcp_pcb) : world X := upd_tcp w (fun t => v_pcb_at (alter f pcb (tcp_pcb_at t)) t).
Definition listen_of w (pcb : Z) : tcp_pcb_listen := default listen_zero (tcp_listen_at (tcp w) !! pcb).
Definition upd_listen w (pcb : Z) (f : tcp_pcb_listen -> tcp_pcb_listen) : world X :=
  upd_tcp w (fun t => v_listen_at (alter f pcb (tcp_listen_at t)) t).
Definition seg_of w (s : Z) : tcp_seg := default seg_zero (tcp_seg_at (tcp w) !! s).
Definition upd_seg w (s : Z) (f : tcp_seg -> tcp_seg) : world X := upd_tcp w (fun t => v_seg_at (alter f s (tcp_seg_at t)) t).

(** The members that [tcp_pcb] and [tcp_pcb_listen] have in common. *)
Definition is_listen w (pcb : Z) : bool := bool_decide (is_Some (tcp_listen_at (tcp w) !! pcb)).
Definition state_of w (pcb : Z) : tcp_state := if is_listen w pcb then l_state (listen_of w pcb) else t_state (pcb_of w pcb).
Definition local_port_of w (pcb : Z) : Z := if is_listen w pcb then l_local_port (listen_of w pcb) else t_local_port (pcb_of w pcb).
Definition local_ip_of w (pcb : Z) : Z := if is_listen w pcb then l_local_ip (listen_of w pcb) else t_local_ip (pcb_of w pcb).
Definition in_state w (pcb : Z) (s : tcp_state) : bool := state_is (state_of w pcb) s.
Definition pcb_flag w (pcb f : Z) : bool := has_flag (t_flags (pcb_of w pcb)) f.
Definition set_flag w (pcb f : Z) : world X := upd_pcb w pcb (fun p => s_flags (Z.lor (t_flags p) f) p).
Definition clear_flag w (pcb f : Z) : world X := upd_pcb w pcb (fun p => s_flags (without (t_flags p) f) p).

(** The header of a segment: the sequence number of a segment in a send queue is in network
    byte order, that of an input segment in host byte order. *)
Definition seg_flags w (s : tcp_seg) : Z := TCPH_FLAGS (wmem w) (sg_tcphdr s).
Definition hdr_seqno w (s : tcp_seg) : Z := ld32 (wmem w) (sg_tcphdr s + 4).
Definition seg_seqno w (s : Z) : Z := lwip_htonl (hdr_seqno w (seg_of w s)).
Definition TCP_TCPLEN w (s : tcp_seg) : Z := sg_len s + (if has_flag (seg_flags w s) (Z.lor TCP_FIN TCP_SYN) then 1 else 0).

(** [TCP_REG], [TCP_RMV] and the variants for the active list. *)
Definition TCP_REG w (l : pcb_list) (pcb : Z) : world X := tcp_timer_needed (upd_tcp w (fun t => set_pcbs l (pcb :: pcbs t l) t)).
Definition TCP_RMV w (l : pcb_list) (pcb : Z) : world X := upd_tcp w (fun t => set_pcbs l (list_remove1 pcb (pcbs t l)) t).
Definition TCP_REG_ACTIVE w (pcb : Z) : world X := upd_tcp (TCP_REG w Active pcb) (v_changed true).
Definition TCP_RMV_ACTIVE w (pcb : Z) : world X := upd_tcp (TCP_RMV w Active pcb) (v_changed true).

(** [tcp_ack_now(pcb)], [tcp_ack(pcb)] *)
Definition tcp_ack_now w (pcb : Z) : world X := set_flag w pcb TF_ACK_NOW.
Definition tcp_ack w (pcb : Z) : world X :=
  if pcb_flag w pcb TF_ACK_DELAY then set_flag (clear_flag w pcb TF_ACK_DELAY) pcb TF_ACK_NOW else set_flag w pcb TF_ACK_DELAY.

(** [memp_malloc] and [memp_free] of a type, on the pools of the world. *)
Definition wmalloc w (type : Z) : world X * Z :=
  let '(ps, a) := memp_malloc (ps_pools (w_ps w)) type in (set_wps w (set_pools (w_ps w) ps), a).
Definition wmfree w (type a : Z) : world X := set_wps w (set_pools (w_ps w) (memp_free (ps_pools (w_ps w)) type a)).
Definition free_pcb w (pcb : Z) : world X := upd_tcp (wmfree w MEMP_TCP_PCB pcb) (fun t => v_pcb_at (delete pcb (tcp_pcb_at t)) t).
Definition free_listen w (pcb : Z) : world X :=
  upd_tcp (wmfree w MEMP_TCP_PCB_LISTEN pcb) (fun t => v_listen_at (delete pcb (tcp_listen_at t)) t).

(** [tcp_seg_free(seg)], [tcp_segs_free(seg)], [tcp_seg_copy(seg)] *)
Definition tcp_seg_free w (s : Z) : option (world X) :=
  let p := sg_p (seg_of w s) in
  w ← (if negb (p =? NULL) then wfree custom_free fuel w p else Some w);
  Some (upd_tcp (wmfree w MEMP_TCP_SEG s) (fun t => v_seg_at (delete s (tcp_seg_at t)) t)).
Fixpoint tcp_segs_free w (l : list Z) : option (world X) :=
  match l with
  | [] => Some w
  | s :: l => w ← tcp_seg_free w s; tcp_segs_free w l
  end.
Definition tcp_seg_copy w (seg : tcp_seg) : world X * Z :=
  let '(w, cseg) := wmalloc w MEMP_TCP_SEG in
  if cseg =? NULL then (w, NULL)
  else
    let w := upd_tcp w (fun t => v_seg_at (<[cseg := seg]> (tcp_seg_at t)) t) in
    (set_wps w (pbuf_ref (w_ps w) (sg_p seg)), cseg).

(** [tcp_eff_send_mss(sendmss, src, dest)]; the MTU is kept in an [s16_t]. *)
Definition tcp_eff_send_mss w (sendmss dest : Z) : world X * Z :=
  let '(w, outif) := ip4_route w dest in
  if outif =? NULL then (w, sendmss)
  else
    let mtu := s16 (netif_mtu (netif_of w outif)) in
    (w, if negb (mtu =? 0) then Z.min sendmss (u16 (mtu - IP_HLEN - TCP_HLEN)) else sendmss).

(** [pbuf_free_ooseq()] of [core/pbuf.c] *)
Fixpoint free_first_ooseq w (l : list Z) : option (world X) :=
  match l with
  | [] => Some w
  | pcb :: l =>
      match t_ooseq (pcb_of w pcb) with
      | [] => free_first_ooseq w l
      | segs => w ← tcp_segs_free w segs; Some (upd_pcb w pcb (s_ooseq []))
      end
  end.
Definition pbuf_free_ooseq w : option (world X) :=
  let w := set_wps w (set_pending (w_ps w) 0) in
  free_first_ooseq w (tcp_active_pcbs (tcp w)).

End Tcp.
