(* ===== verification/TcpOut.v ===== *)
(** * [core/tcp_out.c]: segments to send

    [tcp_write] and its phases, SYN and FIN segments, [tcp_output] and the sending of a
    segment, empty acknowledgements, resets, retransmission and probes. *)

From Stdlib Require Import ZArith Lia.
From stdpp Require Import base tactics numbers list option gmap.
From S2P Require Import Prelude.
From S2P Require Import Def.
From S2P Require Import Ip4Addr.
From S2P Require Import Alloc.
From S2P Require Import Mem.
From S2P Require Import Memp.
From S2P Require Import Pbuf.
From S2P Require Import World.
From S2P Require Import Ip4Frag.
From S2P Require Import Ip4.
From S2P Require Import Icmp.
From S2P Require Import Udp.
From S2P Require Import Tcp.

Section TcpOut.
Context {X : Type} `{!tcp_store X}.
Context (netif_output : world X -> Z -> Z -> Z -> option (world X * Z)).
Context (custom_free : pstate -> Z -> pstate) (fuel : nat).
Implicit Types w : world X.

#[local] Abbreviation wfree := (wfree custom_free fuel).
#[local] Abbreviation walloc w layer len type :=
  (match pbuf_alloc custom_free fuel (w_ps w) layer len type with None => None | Some (st, p) => Some (set_wps w st, p) end).
#[local] Abbreviation ip_output_if := (ip4_output_if netif_output custom_free fuel).

(** [tcp_output_alloc_header(pcb, optlen, datalen, seqno_be)] *)
Definition tcp_output_alloc_header w (pcb optlen datalen seqno_be : Z) : option (world X * Z) :=
  '(w, p) ← walloc w PBUF_IP (u16 (TCP_HLEN + optlen + datalen)) PBUF_RAM;
  if p =? NULL then Some (w, NULL)
  else
    let t := pcb_of w pcb in
    let hdr := payload w p in
    let m := st16 (wmem w) hdr (lwip_htons (t_local_port t)) in
    let m := st16 m (hdr + 2) (lwip_htons (t_remote_port t)) in
    let m := st32 m (hdr + 4) seqno_be in
    let m := st32 m (hdr + 8) (lwip_htonl (t_rcv_nxt t)) in
    let m := TCPH_HDRLEN_FLAGS_SET m hdr (5 + optlen / 4) TCP_ACK in
    let m := st16 m (hdr + 14) (lwip_htons (t_rcv_ann_wnd t)) in
    let m := st16 m (hdr + 16) 0 in
    let m := st16 m (hdr + 18) 0 in
    Some (upd_pcb (set_wmem w m) pcb (fun t => s_rcv_ann_right_edge (u32 (t_rcv_nxt t + t_rcv_ann_wnd t)) t), p).

(** [tcp_create_segment(pcb, p, flags, seqno, optflags)] *)
Definition tcp_create_segment w (pcb p flags seqno optflags : Z) : option (world X * Z) :=
  let optlen := LWIP_TCP_OPT_LENGTH optflags in
  let '(w, seg) := wmalloc w MEMP_TCP_SEG in
  if seg =? NULL then w ← wfree w p; Some (w, NULL)
  else
    let s := mk_seg p (u16 (pb_tot_len (pb (w_ps w) p) - optlen)) optflags NULL in
    let w := upd_tcp w (fun v => v_seg_at (<[seg := s]> (tcp_seg_at v)) v) in
    let '(st, r) := pbuf_header (w_ps w) p TCP_HLEN in
    let w := set_wps w st in
    if negb (r =? 0) then w ← tcp_seg_free custom_free fuel (stats_inc S_tcp F_err w) seg; Some (w, NULL)
    else
      let hdr := payload w p in
      let w := upd_seg w seg (sg_with_hdr hdr) in
      let t := pcb_of w pcb in
      let m := st16 (wmem w) hdr (lwip_htons (t_local_port t)) in
      let m := st16 m (hdr + 2) (lwip_htons (t_remote_port t)) in
      let m := st32 m (hdr + 4) (lwip_htonl seqno) in
      let m := TCPH_HDRLEN_FLAGS_SET m hdr (5 + optlen / 4) flags in
      let m := st16 m (hdr + 18) 0 in
      Some (set_wmem w m, seg).

(** [tcp_pbuf_prealloc(layer, length, max_length, oversize, pcb, apiflags, first_seg)]: the
    pbuf and the number of usable bytes behind it. *)
Definition prealloc_size w (length max_length pcb apiflags : Z) (first_seg : bool) : Z :=
  if length <? max_length then
    let t := pcb_of w pcb in
    if has_flag apiflags TCP_WRITE_FLAG_MORE ||
       (negb (has_flag (t_flags t) TF_NODELAY) &&
        (negb first_seg || negb (bool_decide (t_unsent t = [])) || negb (bool_decide (t_unacked t = []))))
    then u16 (Z.min max_length (LWIP_MEM_ALIGN_SIZE (length + TCP_OVERSIZE))) else length
  else length.
Definition tcp_pbuf_prealloc w (layer : pbuf_layer) (length max_length pcb apiflags : Z) (first_seg : bool)
    : option (world X * Z * Z) :=
  '(w, p) ← walloc w layer (prealloc_size w length max_length pcb apiflags first_seg) PBUF_RAM;
  if p =? NULL then Some (w, NULL, 0)
  else
    let oversize := u16 (pb_len (pb (w_ps w) p) - length) in
    Some (set_wps w (upd_pb (w_ps w) p (fun x => with_len (with_tot_len x length) length)), p, oversize).

(** [tcp_write_checks(pcb, len)] *)
Definition tcp_write_checks w (pcb len : Z) : world X * Z :=
  let t := pcb_of w pcb in
  if negb (state_is (t_state t) ESTABLISHED) && negb (state_is (t_state t) CLOSE_WAIT) &&
     negb (state_is (t_state t) SYN_SENT) && negb (state_is (t_state t) SYN_RCVD) then (w, ERR_CONN)
  else if len =? 0 then (w, ERR_OK)
  else if t_snd_buf t <? len then (set_flag w pcb TF_NAGLEMEMERR, ERR_MEM)
  else if (TCP_SND_QUEUELEN <=? t_snd_queuelen t) || (TCP_SNDQUEUELEN_OVERFLOW <? t_snd_queuelen t)
  then (set_flag (stats_inc S_tcp F_memerr w) pcb TF_NAGLEMEMERR, ERR_MEM)
  else (w, ERR_OK).

(** The local variables of [tcp_write] that the phases set; [w_concat] and [w_seg] are
    [NULL] or addresses. *)
Record write_vars := mk_wv {
  w_pos : Z; w_queuelen : Z; w_oversize : Z; w_oversize_used : Z; w_extendlen : Z; w_concat : Z; w_seg : Z; w_queue : list Z }.

(** The last pbuf of a chain. *)
Definition last_pbuf (st : pstate) (p : Z) : option Z :=
  loop fuel (fun p => if negb (pb_next (pb st p) =? NULL) then inl (pb_next (pb st p)) else inr p) p.

(** Phases 1 and 2: the space behind the last unsent segment.  [false] is [memerr]. *)
Definition write_tail w (pcb arg len apiflags mss_local last_unsent : Z) : option (world X * write_vars * bool) :=
  let t := pcb_of w pcb in
  let s := seg_of w last_unsent in
  let space := u16 (mss_local - (sg_len s + LWIP_TCP_OPT_LENGTH (sg_flags s))) in
  let oversize := t_unsent_oversize t in
  let oversize_used := if 0 <? oversize then Z.min space (Z.min oversize len) else 0 in
  let v := mk_wv oversize_used (t_snd_queuelen t) (u16 (oversize - oversize_used)) oversize_used 0 NULL
             (if 0 <? oversize then last_unsent else NULL) [] in
  let space := u16 (space - oversize_used) in
  let pos := oversize_used in
  if (pos <? len) && (0 <? space) && (0 <? sg_len s) then
    let seglen := Z.min space (len - pos) in
    if has_flag apiflags TCP_WRITE_FLAG_COPY then
      '(w, p, oversize) ← tcp_pbuf_prealloc w PBUF_RAW seglen space pcb apiflags true;
      if p =? NULL then Some (w, mk_wv pos (w_queuelen v) oversize oversize_used 0 NULL last_unsent [], false)
      else
        let w := set_wmem w (memcpy (wmem w) (payload w p) (arg + pos) seglen) in
        n ← pbuf_clen fuel (w_ps w) p;
        Some (w, mk_wv (u16 (pos + seglen)) (u16 (w_queuelen v + n)) oversize oversize_used 0 p last_unsent [], true)
    else
      p ← last_pbuf (w_ps w) (sg_p s);
      if bool_decide (pb_type (pb (w_ps w) p) = PBUF_ROM) && (pb_payload (pb (w_ps w) p) + pb_len (pb (w_ps w) p) =? arg)
      then Some (w, mk_wv (u16 (pos + seglen)) (w_queuelen v) (w_oversize v) oversize_used seglen NULL last_unsent [], true)
      else
        '(w, p) ← walloc w PBUF_RAW seglen PBUF_ROM;
        if p =? NULL then Some (w, mk_wv pos (w_queuelen v) (w_oversize v) oversize_used 0 NULL last_unsent [], false)
        else
          let w := set_wps w (upd_pb (w_ps w) p (fun x => with_payload x (arg + pos))) in
          n ← pbuf_clen fuel (w_ps w) p;
          Some (w, mk_wv (u16 (pos + seglen)) (u16 (w_queuelen v + n)) (w_oversize v) oversize_used 0 p last_unsent [], true)
  else Some (w, v, true).

(** The pbuf of a new segment: a copy of the data, or a header in front of a reference to
    it. *)
Definition segment_pbuf w (pcb arg seglen pos apiflags mss_local oversize : Z) (first : bool) : option (world X * Z * Z) :=
  if has_flag apiflags TCP_WRITE_FLAG_COPY then
    '(w, p, oversize) ← tcp_pbuf_prealloc w PBUF_TRANSPORT seglen mss_local pcb apiflags first;
    if p =? NULL then Some (w, NULL, oversize)
    else Some (set_wmem w (memcpy (wmem w) (payload w p) (arg + pos) seglen), p, oversize)
  else
    '(w, p2) ← walloc w PBUF_TRANSPORT seglen PBUF_ROM;
    if p2 =? NULL then Some (w, NULL, oversize)
    else
      let w := set_wps w (upd_pb (w_ps w) p2 (fun x => with_payload x (arg + pos))) in
      '(w, p) ← walloc w PBUF_TRANSPORT 0 PBUF_RAM;
      if p =? NULL then w ← wfree w p2; Some (w, NULL, oversize)
      else st ← pbuf_cat fuel (w_ps w) p p2; Some (set_wps w st, p, oversize).

(** Phase 3: the body of the loop that creates new segments.  The result [inr (_, _, false)]
    is [memerr]. *)
Definition write_step (pcb arg len apiflags mss_local : Z)
    : world X * write_vars -> (world X * write_vars) + option (world X * write_vars * bool) := fun '(w, v) =>
  if w_pos v <? len then
    let seglen := Z.min (u16 (len - w_pos v)) mss_local in
    match segment_pbuf w pcb arg seglen (w_pos v) apiflags mss_local (w_oversize v) (bool_decide (w_queue v = [])) with
    | None => inr None
    | Some (w, p, oversize) =>
        let v := mk_wv (w_pos v) (w_queuelen v) oversize (w_oversize_used v) (w_extendlen v) (w_concat v) (w_seg v) (w_queue v) in
        if p =? NULL then inr (Some (w, v, false))
        else
          match pbuf_clen fuel (w_ps w) p with
          | None => inr None
          | Some n =>
              let queuelen := u16 (w_queuelen v + n) in
              if (TCP_SND_QUEUELEN <? queuelen) || (TCP_SNDQUEUELEN_OVERFLOW <? queuelen) then
                match wfree w p with None => inr None | Some w => inr (Some (w, v, false)) end
              else
                match tcp_create_segment w pcb p 0 (u32 (t_snd_lbb (pcb_of w pcb) + w_pos v)) 0 with
                | None => inr None
                | Some (w, seg) =>
                    if seg =? NULL then inr (Some (w, v, false))
                    else inl (w, mk_wv (u16 (w_pos v + seglen)) queuelen (w_oversize v) (w_oversize_used v) (w_extendlen v)
                                   (w_concat v) seg (w_queue v ++ [seg]))
                end
          end
    end
  else inr (Some (w, v, true)).

(** The end of [tcp_write]: the lengths of the last unsent segment's pbufs are raised, ... *)
Definition add_used w (last_unsent arg used : Z) : option (world X) :=
  st ← loop fuel (fun '(st, p) =>
    if negb (p =? NULL) then
      let st := upd_pb st p (fun x => with_tot_len x (u16 (pb_tot_len x + used))) in
      let x := pb st p in
      let st := if pb_next x =? NULL
                then upd_pb (set_data st (memcpy (data st) (pb_payload x + pb_len x) arg used)) p (fun x => with_len x (u16 (pb_len x + used)))
                else st in
      inl (st, pb_next (pb st p))
    else inr st) (w_ps w, sg_p (seg_of w last_unsent));
  Some (upd_seg (set_wps w st) last_unsent (fun s => sg_with_len (u16 (sg_len s + used)) s)).
Definition extend_rom w (last_unsent extendlen : Z) : option (world X) :=
  st ← loop fuel (fun '(st, p) =>
    let st := upd_pb st p (fun x => with_tot_len x (u16 (pb_tot_len x + extendlen))) in
    if negb (pb_next (pb st p) =? NULL) then inl (st, pb_next (pb st p))
    else inr (upd_pb st p (fun x => with_len x (u16 (pb_len x + extendlen))))) (w_ps w, sg_p (seg_of w last_unsent));
  Some (upd_seg (set_wps w st) last_unsent (fun s => sg_with_len (u16 (sg_len s + extendlen)) s)).

(** ... what was allocated is chained, and the PCB is updated. *)
Definition write_commit w (pcb arg len apiflags : Z) (last_unsent : option Z) (v : write_vars) : option (world X * Z) :=
  w ← match last_unsent with
      | Some s => if 0 <? w_oversize_used v then add_used w s arg (w_oversize_used v) else Some w
      | None => Some w
      end;
  let w := upd_pcb w pcb (s_unsent_oversize (w_oversize v)) in
  w ← match last_unsent with
      | Some s =>
          if negb (w_concat v =? NULL) then
            st ← pbuf_cat fuel (w_ps w) (sg_p (seg_of w s)) (w_concat v);
            let n := pb_tot_len (pb st (w_concat v)) in
            Some (upd_seg (set_wps w st) s (fun x => sg_with_len (u16 (sg_len x + n)) x))
          else if 0 <? w_extendlen v then extend_rom w s (w_extendlen v) else Some w
      | None => Some w
      end;
  let w := upd_pcb w pcb (fun t => s_unsent (t_unsent t ++ w_queue v) t) in
  let w := upd_pcb w pcb (fun t => s_snd_queuelen (w_queuelen v) (s_snd_buf (u16 (t_snd_buf t - len)) (s_snd_lbb (u32 (t_snd_lbb t + len)) t))) in
  let s := seg_of w (w_seg v) in
  let w := if negb (w_seg v =? NULL) && negb (sg_tcphdr s =? NULL) && negb (has_flag apiflags TCP_WRITE_FLAG_MORE)
           then set_wmem w (TCPH_SET_FLAG (wmem w) (sg_tcphdr s) TCP_PSH) else w in
  Some (w, ERR_OK).

(** The label [memerr]. *)
Definition write_memerr w (pcb : Z) (v : write_vars) : option (world X * Z) :=
  let w := stats_inc S_tcp F_memerr (set_flag w pcb TF_NAGLEMEMERR) in
  w ← (if negb (w_concat v =? NULL) then wfree w (w_concat v) else Some w);
  w ← tcp_segs_free custom_free fuel w (w_queue v);
  Some (w, ERR_MEM).

(** [tcp_write(pcb, arg, len, apiflags)] *)
Definition tcp_write w (pcb arg len apiflags : Z) : option (world X * Z) :=
  let t := pcb_of w pcb in
  let mss_local := Z.min (t_mss t) (t_snd_wnd_max t / 2) in
  let mss_local := if negb (mss_local =? 0) then mss_local else t_mss t in
  if arg =? NULL then Some (w, ERR_ARG)
  else
    let '(w, err) := tcp_write_checks w pcb len in
    if negb (err =? ERR_OK) then Some (w, err)
    else
      let last_unsent := last (t_unsent t) in
      '(w, v, ok) ← match last_unsent with
                    | Some s => write_tail w pcb arg len apiflags mss_local s
                    | None => Some (w, mk_wv 0 (t_snd_queuelen t) 0 0 0 NULL NULL [], true)
                    end;
      if negb ok then write_memerr w pcb v
      else
        '(w, v, ok) ← loop fuel (write_step pcb arg len apiflags mss_local) (w, v) ≫= id;
        if (ok : bool) then write_commit w pcb arg len apiflags last_unsent v else write_memerr w pcb v.

(** [tcp_enqueue_flags(pcb, flags)] *)
Definition tcp_enqueue_flags w (pcb flags : Z) : option (world X * Z) :=
  let t := pcb_of w pcb in
  let memerr w := (set_flag (stats_inc S_tcp F_memerr w) pcb TF_NAGLEMEMERR, ERR_MEM) in
  if ((TCP_SND_QUEUELEN <=? t_snd_queuelen t) || (TCP_SNDQUEUELEN_OVERFLOW <? t_snd_queuelen t)) && negb (has_flag flags TCP_FIN)
  then Some (memerr w)
  else
    let optflags := if has_flag flags TCP_SYN then TF_SEG_OPTS_MSS else 0 in
    '(w, p) ← walloc w PBUF_TRANSPORT (LWIP_TCP_OPT_LENGTH optflags) PBUF_RAM;
    if p =? NULL then Some (memerr w)
    else
      '(w, seg) ← tcp_create_segment w pcb p flags (t_snd_lbb (pcb_of w pcb)) optflags;
      if seg =? NULL then Some (memerr w)
      else
        let w := upd_pcb w pcb (fun t => s_unsent_oversize 0 (s_unsent (t_unsent t ++ [seg]) t)) in
        let w := if has_flag flags TCP_SYN || has_flag flags TCP_FIN
                 then upd_pcb w pcb (fun t => s_snd_lbb (u32 (t_snd_lbb t + 1)) t) else w in
        let w := if has_flag flags TCP_FIN then set_flag w pcb TF_FIN else w in
        n ← pbuf_clen fuel (w_ps w) (sg_p (seg_of w seg));
        Some (upd_pcb w pcb (fun t => s_snd_queuelen (u16 (t_snd_queuelen t + n)) t), ERR_OK).

(** [tcp_send_fin(pcb)] *)
Definition tcp_send_fin w (pcb : Z) : option (world X * Z) :=
  match last (t_unsent (pcb_of w pcb)) with
  | Some s =>
      if negb (has_flag (seg_flags w (seg_of w s)) (Z.lor TCP_SYN (Z.lor TCP_FIN TCP_RST))) then
        let w := set_wmem w (TCPH_SET_FLAG (wmem w) (sg_tcphdr (seg_of w s)) TCP_FIN) in
        Some (set_flag w pcb TF_FIN, ERR_OK)
      else tcp_enqueue_flags w pcb TCP_FIN
  | None => tcp_enqueue_flags w pcb TCP_FIN
  end.

(** The end of the functions that send a single pbuf: the route, the output and the release
    of the pbuf. *)
Definition send_pbuf w (pcb p tos : Z) (count : bool) : option (world X * Z) :=
  let t := pcb_of w pcb in
  let '(w, nif) := ip4_route w (t_remote_ip t) in
  '(w, err) ← (if nif =? NULL then Some (w, ERR_RTE)
               else ip_output_if (if count then stats_inc S_tcp F_xmit w else w) p (Some (t_local_ip t)) (Some (t_remote_ip t))
                      (t_ttl t) tos IP_PROTO_TCP nif);
  w ← wfree w p;
  Some (w, err).

(** [tcp_send_empty_ack(pcb)] *)
Definition tcp_send_empty_ack w (pcb : Z) : option (world X * Z) :=
  '(w, p) ← tcp_output_alloc_header w pcb 0 0 (lwip_htonl (t_snd_nxt (pcb_of w pcb)));
  if p =? NULL then Some (set_flag w pcb (Z.lor TF_ACK_DELAY TF_ACK_NOW), ERR_BUF)
  else
    '(w, err) ← send_pbuf w pcb p (t_tos (pcb_of w pcb)) false;
    if negb (err =? ERR_OK) then Some (set_flag w pcb (Z.lor TF_ACK_DELAY TF_ACK_NOW), err)
    else Some (clear_flag w pcb (Z.lor TF_ACK_DELAY TF_ACK_NOW), err).

(** [tcp_output_segment(seg, pcb, netif)] *)
Definition tcp_output_segment w (seg pcb nif : Z) : option (world X * Z) :=
  let s := seg_of w seg in
  if negb (pb_ref (pb (w_ps w) (sg_p s)) =? 1) then Some (w, ERR_OK)
  else
    let t := pcb_of w pcb in
    let hdr := sg_tcphdr s in
    let m := st32 (wmem w) (hdr + 8) (lwip_htonl (t_rcv_nxt t)) in
    let m := st16 m (hdr + 14) (lwip_htons (t_rcv_ann_wnd t)) in
    let w := upd_pcb (set_wmem w m) pcb (s_rcv_ann_right_edge (u32 (t_rcv_nxt t + t_rcv_ann_wnd t))) in
    let w := if has_flag (sg_flags s) TF_SEG_OPTS_MSS then
               let '(w, mss) := tcp_eff_send_mss w TCP_MSS (t_remote_ip t) in
               set_wmem w (st32 (wmem w) (hdr + TCP_HLEN) (lwip_htonl (Z.lor 0x02040000 (Z.land mss 0xffff))))
             else w in
    let w := if t_rtime t <? 0 then upd_pcb w pcb (s_rtime 0) else w in
    let w := if t_rttest t =? 0
             then upd_pcb w pcb (fun t => s_rtseq (lwip_htonl (hdr_seqno w s)) (s_rttest (tcp_ticks (tcp w)) t)) else w in
    let len := u16 (hdr - payload w (sg_p s)) in
    let w := set_wps w (upd_pb (w_ps w) (sg_p s) (fun x =>
               with_payload (with_tot_len (with_len x (u16 (pb_len x - len))) (u16 (pb_tot_len x - len))) hdr)) in
    let w := set_wmem w (st16 (wmem w) (hdr + 16) 0) in
    ip_output_if (stats_inc S_tcp F_xmit w) (sg_p s) (Some (t_local_ip t)) (Some (t_remote_ip t)) (t_ttl t) (t_tos t)
      IP_PROTO_TCP nif.

(** [tcp_do_output_nagle(pcb)] *)
Definition tcp_do_output_nagle w (pcb : Z) : bool :=
  let t := pcb_of w pcb in
  bool_decide (t_unacked t = []) || has_flag (t_flags t) (Z.lor TF_NODELAY TF_INFR) ||
  match t_unsent t with
  | [] => false
  | [s] => t_mss t <=? sg_len (seg_of w s)
  | _ => true
  end || (t_snd_buf t =? 0) || (TCP_SND_QUEUELEN <=? t_snd_queuelen t).

(** The place of a segment in a queue that is ordered by sequence numbers. *)
Fixpoint queue_insert w (seg : Z) (l : list Z) : list Z :=
  match l with
  | [] => [seg]
  | s :: l' => if TCP_SEQ_LT (seg_seqno w s) (seg_seqno w seg) then s :: queue_insert w seg l' else seg :: l
  end.

(** [lwip_ntohl(seg->tcphdr->seqno) - pcb->lastack + seg->len] *)
Definition seg_end_from w (pcb seg : Z) : Z := u32 (seg_seqno w seg - t_lastack (pcb_of w pcb) + sg_len (seg_of w seg)).

(** A segment that was sent: it goes to the unacknowledged ones. *)
Definition queue_unacked w (pcb seg : Z) : option (world X) :=
  let w := upd_pcb w pcb (fun t => s_unsent (tail (t_unsent t)) t) in
  let w := if negb (state_is (t_state (pcb_of w pcb)) SYN_SENT) then clear_flag w pcb (Z.lor TF_ACK_DELAY TF_ACK_NOW) else w in
  let len := TCP_TCPLEN w (seg_of w seg) in
  let snd_nxt := u32 (seg_seqno w seg + len) in
  let w := if TCP_SEQ_LT (t_snd_nxt (pcb_of w pcb)) snd_nxt then upd_pcb w pcb (s_snd_nxt snd_nxt) else w in
  if 0 <? len then
    Some (upd_pcb w pcb (fun t =>
      s_unacked (match last (t_unacked t) with
                 | None => [seg]
                 | Some useg => if TCP_SEQ_LT (seg_seqno w seg) (seg_seqno w useg) then queue_insert w seg (t_unacked t)
                                else t_unacked t ++ [seg]
                 end) t))
  else tcp_seg_free custom_free fuel w seg.

(** The body of the loop of [tcp_output]. *)
Definition output_step (pcb nif wnd : Z) w : world X + option (world X * Z) :=
  match t_unsent (pcb_of w pcb) with
  | [] => inr (Some (w, ERR_OK))
  | seg :: _ =>
      if negb (seg_end_from w pcb seg <=? wnd) then inr (Some (w, ERR_OK))
      else if negb (tcp_do_output_nagle w pcb) && negb (pcb_flag w pcb (Z.lor TF_NAGLEMEMERR TF_FIN)) then inr (Some (w, ERR_OK))
      else
        let w := if negb (state_is (t_state (pcb_of w pcb)) SYN_SENT)
                 then set_wmem w (TCPH_SET_FLAG (wmem w) (sg_tcphdr (seg_of w seg)) TCP_ACK) else w in
        match tcp_output_segment w seg pcb nif with
        | None => inr None
        | Some (w, err) =>
            if negb (err =? ERR_OK) then inr (Some (set_flag w pcb TF_NAGLEMEMERR, err))
            else match queue_unacked w pcb seg with None => inr None | Some w => inl w end
        end
  end.

(** The label [output_done]. *)
Definition output_done w (pcb : Z) : world X :=
  let w := if bool_decide (t_unsent (pcb_of w pcb) = []) then upd_pcb w pcb (s_unsent_oversize 0) else w in
  clear_flag w pcb TF_NAGLEMEMERR.

(** [tcp_output(pcb)] *)
Definition tcp_output w (pcb : Z) : option (world X * Z) :=
  if tcp_input_pcb (tcp_in (tcp w)) =? pcb then Some (w, ERR_OK)
  else
    let t := pcb_of w pcb in
    let wnd := Z.min (t_snd_wnd t) (t_cwnd t) in
    let blocked := match t_unsent t with [] => false | seg :: _ => wnd <? seg_end_from w pcb seg end in
    if has_flag (t_flags t) TF_ACK_NOW && (bool_decide (t_unsent t = []) || blocked) then tcp_send_empty_ack w pcb
    else
      let '(w, nif) := ip4_route w (t_remote_ip t) in
      if nif =? NULL then Some (w, ERR_RTE)
      else
        let w := if ip4_addr_isany (t_local_ip t) then upd_pcb w pcb (s_local_ip (netif_ip_addr (netif_of w nif))) else w in
        if blocked && (0 <? wnd) && (wnd =? t_snd_wnd t) && bool_decide (t_unacked t = []) then
          let w := if t_persist_backoff t =? 0 then upd_pcb w pcb (fun t => s_persist_backoff 1 (s_persist_cnt 0 t)) else w in
          Some (output_done w pcb, ERR_OK)
        else
          '(w, err) ← loop fuel (output_step pcb nif wnd) w ≫= id;
          if negb (err =? ERR_OK) then Some (w, err) else Some (output_done w pcb, ERR_OK).

(** [tcp_rst(seqno, ackno, local_ip, remote_ip, local_port, remote_port)] *)
Definition tcp_rst w (seqno ackno local_ip remote_ip local_port remote_port : Z) : option (world X) :=
  '(w, p) ← walloc w PBUF_IP TCP_HLEN PBUF_RAM;
  if p =? NULL then Some w
  else
    let hdr := payload w p in
    let m := st16 (wmem w) hdr (lwip_htons local_port) in
    let m := st16 m (hdr + 2) (lwip_htons remote_port) in
    let m := st32 m (hdr + 4) (lwip_htonl seqno) in
    let m := st32 m (hdr + 8) (lwip_htonl ackno) in
    let m := TCPH_HDRLEN_FLAGS_SET m hdr (TCP_HLEN / 4) (Z.lor TCP_RST TCP_ACK) in
    let m := st16 m (hdr + 14) (PP_HTONS TCP_WND) in
    let m := st16 m (hdr + 16) 0 in
    let m := st16 m (hdr + 18) 0 in
    let w := stats_inc S_tcp F_xmit (set_wmem w m) in
    let '(w, nif) := ip4_route w remote_ip in
    w ← (if nif =? NULL then Some w
         else fst <$> ip_output_if w p (Some local_ip) (Some remote_ip) TCP_TTL 0 IP_PROTO_TCP nif);
    wfree w p.

(** The counter of retransmissions, and no measurement of the round trip. *)
Definition count_rexmit w (pcb : Z) : world X :=
  upd_pcb w pcb (fun t => s_rttest 0 (if t_nrtx t <? 0xff then s_nrtx (t_nrtx t + 1) t else t)).

(** [tcp_rexmit_rto(pcb)], [tcp_rexmit(pcb)], [tcp_rexmit_fast(pcb)] *)
Definition tcp_rexmit_rto w (pcb : Z) : option (world X) :=
  if bool_decide (t_unacked (pcb_of w pcb) = []) then Some w
  else
    let w := upd_pcb w pcb (fun t => s_unacked [] (s_unsent (t_unacked t ++ t_unsent t) t)) in
    fst <$> tcp_output (count_rexmit w pcb) pcb.
Definition tcp_rexmit w (pcb : Z) : world X :=
  match t_unacked (pcb_of w pcb) with
  | [] => w
  | seg :: l =>
      let unsent := queue_insert w seg (t_unsent (pcb_of w pcb)) in
      let w := upd_pcb w pcb (fun t => s_unsent unsent (s_unacked l t)) in
      let w := if bool_decide (last unsent = Some seg) then upd_pcb w pcb (s_unsent_oversize 0) else w in
      count_rexmit w pcb
  end.
Definition tcp_rexmit_fast w (pcb : Z) : world X :=
  if negb (bool_decide (t_unacked (pcb_of w pcb) = [])) && negb (pcb_flag w pcb TF_INFR) then
    let w := tcp_rexmit w pcb in
    let t := pcb_of w pcb in
    let ssthresh := Z.min (t_cwnd t) (t_snd_wnd t) / 2 in
    let ssthresh := if ssthresh <? 2 * t_mss t then u16 (2 * t_mss t) else ssthresh in
    upd_pcb w pcb (fun t => s_rtime 0 (s_flags (Z.lor (t_flags t) TF_INFR) (s_cwnd (u16 (ssthresh + 3 * t_mss t)) (s_ssthresh ssthresh t))))
  else w.

(** [tcp_keepalive(pcb)] *)
Definition tcp_keepalive w (pcb : Z) : option (world X * Z) :=
  '(w, p) ← tcp_output_alloc_header w pcb 0 0 (lwip_htonl (u32 (t_snd_nxt (pcb_of w pcb) - 1)));
  if p =? NULL then Some (w, ERR_MEM) else send_pbuf w pcb p 0 true.

(** [tcp_zero_window_probe(pcb)] *)
Definition tcp_zero_window_probe w (pcb : Z) : option (world X * Z) :=
  match t_unacked (pcb_of w pcb) ++ t_unsent (pcb_of w pcb) with
  | [] => Some (w, ERR_OK)
  | seg :: _ =>
      let s := seg_of w seg in
      let is_fin := has_flag (seg_flags w s) TCP_FIN && (sg_len s =? 0) in
      '(w, p) ← tcp_output_alloc_header w pcb 0 (if is_fin then 0 else 1) (hdr_seqno w s);
      if p =? NULL then Some (w, ERR_MEM)
      else
        w ← (if is_fin then Some (set_wmem w (TCPH_FLAGS_SET (wmem w) (payload w p) (Z.lor TCP_ACK TCP_FIN)))
             else '(st, _) ← pbuf_copy_partial fuel (w_ps w) (sg_p s) (payload w p + TCP_HLEN) 1
                               (u16 (pb_tot_len (pb (w_ps w) (sg_p s)) - sg_len s));
                  Some (set_wps w st));
        let snd_nxt := u32 (seg_seqno w seg + 1) in
        let w := if TCP_SEQ_LT (t_snd_nxt (pcb_of w pcb)) snd_nxt then upd_pcb w pcb (s_snd_nxt snd_nxt) else w in
        send_pbuf w pcb p 0 true
  end.

End TcpOut.
