(* ===== verification/TcpCore.v ===== *)
(** * [core/tcp.c]: connections

    Allocation, binding, listening, connecting, closing and aborting of PCBs, the window
    announced to the other side, and the two timers. *)

From Stdlib Require Import ZArith Lia.
From stdpp Require Import base tactics numbers list option gmap.
From S2P Require Import Prelude.
From S2P Require Import Def.
From S2P Require Import Ip4Addr.
From S2P Require Import Alloc.
From S2P Require Import Mem.
From S2P Require Import Memp.
From S2P Require Import Pbuf.
From S2P Require Import World.
From S2P Require Import Ip4Frag.
From S2P Require Import Ip4.
From S2P Require Import Icmp.
From S2P Require Import Udp.
From S2P Require Import Dns.
From S2P Require Import Tcp.
From S2P Require Import TcpOut.

Definition tcp_backoff : list Z := [1; 2; 3; 4; 5; 6; 7; 7; 7; 7; 7; 7; 7].
Definition tcp_persist_backoff : list Z := [3; 6; 12; 24; 48; 96; 120].

Section TcpCore.
Context {X : Type} `{!tcp_store X}.
Context (netif_output : world X -> Z -> Z -> Z -> option (world X * Z)).
Context (custom_free : pstate -> Z -> pstate) (fuel : nat).
Context (tcp_timer_needed : world X -> world X) (cb : tcp_callbacks X).
(** The addresses of [tcp_recv_null] and [tcp_accept_null]. *)
Context (tcp_recv_null_fn tcp_accept_null_fn : Z).
Implicit Types w : world X.

#[local] Abbreviation wfree := (wfree custom_free fuel).
#[local] Abbreviation tcp_segs_free := (tcp_segs_free custom_free fuel).
#[local] Abbreviation tcp_output := (tcp_output netif_output custom_free fuel).
#[local] Abbreviation tcp_rst := (tcp_rst netif_output custom_free fuel).
#[local] Abbreviation TCP_REG := (TCP_REG tcp_timer_needed).
#[local] Abbreviation TCP_REG_ACTIVE := (TCP_REG_ACTIVE tcp_timer_needed).

(** ** Removing *)

(** [tcp_pcb_purge(pcb)] *)
Definition tcp_pcb_purge w (pcb : Z) : option (world X) :=
  if negb (in_state w pcb CLOSED) && negb (in_state w pcb TIME_WAIT) && negb (in_state w pcb LISTEN) then
    let t := pcb_of w pcb in
    w ← (if negb (t_refused_data t =? NULL) then w ← wfree w (t_refused_data t); Some (upd_pcb w pcb (s_refused_data NULL)) else Some w);
    w ← tcp_segs_free w (t_ooseq t);
    let w := upd_pcb w pcb (fun t => s_rtime (-1) (s_ooseq [] t)) in
    w ← tcp_segs_free w (t_unsent t);
    w ← tcp_segs_free w (t_unacked t);
    Some (upd_pcb w pcb (fun t => s_unsent_oversize 0 (s_unsent [] (s_unacked [] t))))
  else Some w.

(** [tcp_pcb_remove(pcblist, pcb)] *)
Definition tcp_pcb_remove w (l : pcb_list) (pcb : Z) : option (world X) :=
  let w := TCP_RMV w l pcb in
  w ← tcp_pcb_purge w pcb;
  w ← (if negb (in_state w pcb TIME_WAIT) && negb (in_state w pcb LISTEN) && pcb_flag w pcb TF_ACK_DELAY
       then fst <$> tcp_output (set_flag w pcb TF_ACK_NOW) pcb else Some w);
  Some (upd_listen (upd_pcb w pcb (fun t => s_local_port 0 (s_state CLOSED t))) pcb sl_closed).
Definition TCP_PCB_REMOVE_ACTIVE w (pcb : Z) : option (world X) := w ← tcp_pcb_remove w Active pcb; Some (upd_tcp w (v_changed true)).

(** [TCP_EVENT_ERR(last_state, errf, arg, err)] *)
Definition TCP_EVENT_ERR w (errf arg err : Z) : option (world X) :=
  if negb (errf =? NULL) then cb_err cb errf w arg err else Some w.

(** [tcp_abandon(pcb, reset)], [tcp_abort(pcb)] *)
Definition tcp_abandon w (pcb : Z) (reset : bool) : option (world X) :=
  if in_state w pcb TIME_WAIT then w ← tcp_pcb_remove w Timewait pcb; Some (free_pcb w pcb)
  else
    let t := pcb_of w pcb in
    '(w, send_rst, local_port) ←
      (if in_state w pcb CLOSED
       then Some (if negb (t_local_port t =? 0) then TCP_RMV w Bound pcb else w, false, 0)
       else w ← TCP_PCB_REMOVE_ACTIVE w pcb; Some (w, reset, t_local_port t));
    w ← tcp_segs_free w (t_unacked (pcb_of w pcb));
    w ← tcp_segs_free w (t_unsent (pcb_of w pcb));
    w ← tcp_segs_free w (t_ooseq (pcb_of w pcb));
    w ← (if (send_rst : bool)
         then tcp_rst w (t_snd_nxt t) (t_rcv_nxt t) (t_local_ip (pcb_of w pcb)) (t_remote_ip (pcb_of w pcb)) local_port (t_remote_port (pcb_of w pcb))
         else Some w);
    TCP_EVENT_ERR (free_pcb w pcb) (t_errf t) (t_callback_arg t) ERR_ABRT.
Definition tcp_abort w (pcb : Z) : option (world X) := tcp_abandon w pcb true.

(** ** Closing *)

(** [tcp_remove_listener(list, lpcb)], [tcp_listen_closed(pcb)] *)
Definition tcp_remove_listener w (list : list Z) (lpcb : Z) : world X :=
  foldl (fun w pcb => if t_listener (pcb_of w pcb) =? lpcb then upd_pcb w pcb (s_listener NULL) else w) w list.
Definition tcp_listen_closed w (lpcb : Z) : world X :=
  foldl (fun w l => tcp_remove_listener w (pcbs (tcp w) l) lpcb) w (tail tcp_pcb_lists).

(** [tcp_close_shutdown_fin(pcb)] *)
Definition tcp_close_shutdown_fin w (pcb : Z) : option (world X * Z) :=
  let close_to (s : tcp_state) :=
    '(w, err) ← tcp_send_fin custom_free fuel w pcb;
    if err =? ERR_OK then '(w, _) ← tcp_output (upd_pcb w pcb (s_state s)) pcb; Some (w, err)
    else if err =? ERR_MEM then Some (set_flag w pcb TF_CLOSEPEND, err)
    else Some (w, err) in
  match t_state (pcb_of w pcb) with
  | SYN_RCVD => close_to FIN_WAIT_1
  | ESTABLISHED => close_to FIN_WAIT_1
  | CLOSE_WAIT => close_to LAST_ACK
  | _ => Some (w, ERR_OK)
  end.

(** The reset of [tcp_close_shutdown] for data that was not received. *)
Definition close_with_reset w (pcb : Z) : option (world X * Z) :=
  let t := pcb_of w pcb in
  w ← tcp_rst w (t_snd_nxt t) (t_rcv_nxt t) (t_local_ip t) (t_remote_ip t) (t_local_port t) (t_remote_port t);
  w ← tcp_pcb_purge w pcb;
  let w := TCP_RMV_ACTIVE w pcb in
  if in_state w pcb ESTABLISHED then Some (TCP_REG (upd_pcb w pcb (s_state TIME_WAIT)) Timewait pcb, ERR_OK)
  else if tcp_input_pcb (tcp_in (tcp w)) =? pcb
  then Some (upd_in w (fun i => i_recv_flags (Z.lor (recv_flags i) TF_CLOSED) i), ERR_OK)
  else Some (free_pcb w pcb, ERR_OK).

(** [tcp_close_shutdown(pcb, rst_on_unacked_data)] *)
Definition tcp_close_shutdown w (pcb : Z) (rst_on_unacked_data : bool) : option (world X * Z) :=
  let t := pcb_of w pcb in
  if rst_on_unacked_data && (in_state w pcb ESTABLISHED || in_state w pcb CLOSE_WAIT) &&
     (negb (t_refused_data t =? NULL) || negb (t_rcv_wnd t =? TCP_WND))
  then close_with_reset w pcb
  else
    match state_of w pcb with
    | CLOSED => Some (free_pcb (if negb (t_local_port t =? 0) then TCP_RMV w Bound pcb else w) pcb, ERR_OK)
    | LISTEN => w ← tcp_pcb_remove (tcp_listen_closed w pcb) Listening pcb; Some (free_listen w pcb, ERR_OK)
    | SYN_SENT => w ← TCP_PCB_REMOVE_ACTIVE w pcb; Some (free_pcb w pcb, ERR_OK)
    | _ => tcp_close_shutdown_fin w pcb
    end.

(** [tcp_close(pcb)], [tcp_shutdown(pcb, shut_rx, shut_tx)] *)
Definition tcp_close w (pcb : Z) : option (world X * Z) :=
  let w := if negb (in_state w pcb LISTEN) then set_flag w pcb TF_RXCLOSED else w in
  tcp_close_shutdown w pcb true.
Definition tcp_shutdown w (pcb : Z) (shut_rx shut_tx : bool) : option (world X * Z) :=
  if in_state w pcb LISTEN then Some (w, ERR_CONN)
  else
    let tx w :=
      if shut_tx then
        match t_state (pcb_of w pcb) with
        | SYN_RCVD | ESTABLISHED | CLOSE_WAIT => tcp_close_shutdown w pcb shut_rx
        | _ => Some (w, ERR_CONN)
        end
      else Some (w, ERR_OK) in
    if shut_rx then
      let w := set_flag w pcb TF_RXCLOSED in
      if shut_tx then tcp_close_shutdown w pcb true
      else
        let r := t_refused_data (pcb_of w pcb) in
        w ← (if negb (r =? NULL) then w ← wfree w r; Some (upd_pcb w pcb (s_refused_data NULL)) else Some w);
        tx w
    else tx w.

(** ** Binding *)

(** [tcp_new_port()]: as [udp_new_port], over all lists. *)
Definition tcp_port_used w (port : Z) : bool :=
  existsb (fun l => existsb (fun pcb => local_port_of w pcb =? port) (pcbs (tcp w) l)) tcp_pcb_lists.
Definition tcp_port_step : world X * Z -> (world X * Z) + (world X * Z) := fun '(w, n) =>
  let w := upd_tcp w (fun t => v_port (if tcp_port t =? TCP_LOCAL_PORT_RANGE_END then TCP_LOCAL_PORT_RANGE_START else u16 (tcp_port t + 1)) t) in
  if tcp_port_used w (tcp_port (tcp w)) then
    let n := u16 (n + 1) in
    if TCP_LOCAL_PORT_RANGE_END - TCP_LOCAL_PORT_RANGE_START <? n then inr (w, 0) else inl (w, n)
  else inr (w, tcp_port (tcp w)).
Definition tcp_new_port w : option (world X * Z) :=
  loop (Z.to_nat (TCP_LOCAL_PORT_RANGE_END - TCP_LOCAL_PORT_RANGE_START + 2)) tcp_port_step (w, 0).

(** [tcp_bind(pcb, ipaddr, port)]; [None] for a [NULL] address. *)
Definition tcp_conflict w (ipaddr port cpcb : Z) : bool :=
  (local_port_of w cpcb =? port) &&
  (ip4_addr_isany (local_ip_of w cpcb) || ip4_addr_isany ipaddr || (local_ip_of w cpcb =? ipaddr)).
Definition tcp_bind w (pcb : Z) (ipaddr : option Z) (port : Z) : option (world X * Z) :=
  let ipaddr := default IPADDR_ANY ipaddr in
  if pcb =? NULL then Some (w, ERR_VAL)
  else if negb (in_state w pcb CLOSED) then Some (w, ERR_VAL)
  else
    let bound w port :=
      let w := if negb (ip4_addr_isany ipaddr) then upd_pcb w pcb (s_local_ip ipaddr) else w in
      Some (TCP_REG (upd_pcb w pcb (s_local_port port)) Bound pcb, ERR_OK) in
    if port =? 0 then
      '(w, port) ← tcp_new_port w;
      if port =? 0 then Some (w, ERR_BUF) else bound w port
    else if existsb (fun l => existsb (tcp_conflict w ipaddr port) (pcbs (tcp w) l)) tcp_pcb_lists then Some (w, ERR_USE)
    else bound w port.

(** [tcp_listen_with_backlog_and_err(pcb, backlog, err)]: the listening PCB and the error. *)
Definition tcp_listen_with_backlog_and_err w (pcb : Z) : world X * Z * Z :=
  if negb (in_state w pcb CLOSED) then (w, NULL, ERR_CLSD)
  else
    let '(w, lpcb) := wmalloc w MEMP_TCP_PCB_LISTEN in
    if lpcb =? NULL then (w, NULL, ERR_MEM)
    else
      let t := pcb_of w pcb in
      let l := mk_listen (t_local_ip t) (t_so_options t) (t_tos t) (t_ttl t) (t_callback_arg t) LISTEN (t_prio t) (t_local_port t) tcp_accept_null_fn in
      let w := upd_tcp w (fun v => v_listen_at (<[lpcb := l]> (tcp_listen_at v)) v) in
      let w := if negb (t_local_port t =? 0) then TCP_RMV w Bound pcb else w in
      (TCP_REG (free_pcb w pcb) Listening lpcb, lpcb, ERR_OK).

(** [tcp_listen_with_backlog(pcb, backlog)] *)
Definition tcp_listen_with_backlog w (pcb : Z) : world X * Z := fst (tcp_listen_with_backlog_and_err w pcb).

(** [tcp_accept_null(arg, pcb, err)]; [None] for a [NULL] PCB, which it does not check. *)
Definition tcp_accept_null w (pcb : Z) : option (world X * Z) :=
  if pcb =? NULL then None else w ← tcp_abort w pcb; Some (w, ERR_ABRT).

(** ** The announced window *)

(** [tcp_update_rcv_ann_wnd(pcb)] *)
Definition tcp_update_rcv_ann_wnd w (pcb : Z) : world X * Z :=
  let t := pcb_of w pcb in
  let new_right_edge := u32 (t_rcv_nxt t + t_rcv_wnd t) in
  if TCP_SEQ_GEQ new_right_edge (u32 (t_rcv_ann_right_edge t + Z.min (TCP_WND / 2) (t_mss t)))
  then (upd_pcb w pcb (s_rcv_ann_wnd (t_rcv_wnd t)), u32 (new_right_edge - t_rcv_ann_right_edge t))
  else if TCP_SEQ_GT (t_rcv_nxt t) (t_rcv_ann_right_edge t) then (upd_pcb w pcb (s_rcv_ann_wnd 0), 0)
  else (upd_pcb w pcb (s_rcv_ann_wnd (u16 (t_rcv_ann_right_edge t - t_rcv_nxt t))), 0).

(** [tcp_recved(pcb, len)] *)
Definition tcp_recved w (pcb len : Z) : option (world X) :=
  let t := pcb_of w pcb in
  let rcv_wnd := u16 (t_rcv_wnd t + len) in
  let rcv_wnd := if TCP_WND <? rcv_wnd then TCP_WND
                 else if (rcv_wnd =? 0) && (in_state w pcb CLOSE_WAIT || in_state w pcb LAST_ACK) then TCP_WND
                 else rcv_wnd in
  let '(w, wnd_inflation) := tcp_update_rcv_ann_wnd (upd_pcb w pcb (s_rcv_wnd rcv_wnd)) pcb in
  if TCP_WND_UPDATE_THRESHOLD <=? s32 wnd_inflation then fst <$> tcp_output (tcp_ack_now w pcb) pcb else Some w.

(** ** Allocation *)

(** The searches of [tcp_kill_prio], [tcp_kill_state] and [tcp_kill_timewait]. *)
Definition inactivity_of w (pcb : Z) : Z := u32 (tcp_ticks (tcp w) - t_tmr (pcb_of w pcb)).
Definition oldest_prio w (prio : Z) : Z :=
  (foldl (fun '(inactive, inactivity, mprio) pcb =>
     if (t_prio (pcb_of w pcb) <=? mprio) && (inactivity <=? inactivity_of w pcb)
     then (pcb, inactivity_of w pcb, t_prio (pcb_of w pcb)) else (inactive, inactivity, mprio))
    (NULL, 0, Z.min TCP_PRIO_MAX prio) (tcp_active_pcbs (tcp w))).1.1.
Definition oldest_of w (ok : Z -> bool) (l : list Z) : Z :=
  (foldl (fun '(inactive, inactivity) pcb =>
     if ok pcb && (inactivity <=? inactivity_of w pcb) then (pcb, inactivity_of w pcb) else (inactive, inactivity)) (NULL, 0) l).1.
Definition tcp_kill_prio w (prio : Z) : option (world X) :=
  let inactive := oldest_prio w prio in if negb (inactive =? NULL) then tcp_abort w inactive else Some w.
Definition tcp_kill_state w (s : tcp_state) : option (world X) :=
  let inactive := oldest_of w (fun pcb => in_state w pcb s) (tcp_active_pcbs (tcp w)) in
  if negb (inactive =? NULL) then tcp_abandon w inactive false else Some w.
Definition tcp_kill_timewait w : option (world X) :=
  let inactive := oldest_of w (fun _ => true) (tcp_tw_pcbs (tcp w)) in
  if negb (inactive =? NULL) then tcp_abort w inactive else Some w.

(** [MEMP_STATS_DEC(err, MEMP_TCP_PCB)] *)
Definition stats_dec_err w : world X :=
  let ps := ps_pools (w_ps w) in
  set_wps w (set_pools (w_ps w) (alter (fun p =>
    let s := pstats p in set_pstats p (mk_stats (u16 (st_err s - 1)) (st_avail s) (st_used s) (st_max s) (st_illegal s)))
    (Z.to_nat MEMP_TCP_PCB) ps)).

(** [tcp_alloc(prio)]: the attempts, and the new PCB. *)
Fixpoint alloc_attempts w (kills : list (world X -> option (world X))) : option (world X * Z) :=
  let '(w, pcb) := wmalloc w MEMP_TCP_PCB in
  if negb (pcb =? NULL) then Some (w, pcb)
  else
    match kills with
    | [] => Some (w, NULL)
    | kill :: kills =>
        w ← kill w;
        '(w, pcb) ← alloc_attempts w kills;
        Some (if negb (pcb =? NULL) then stats_dec_err w else w, pcb)
    end.
Definition tcp_pcb_new (t : tcp_vars) (prio : Z) : tcp_pcb :=
  mk_tcp_pcb 0 0 0 0 TCP_TTL 0 CLOSED prio 0 0 0 0 0 (tcp_timer_ctr t) (tcp_ticks t) 0 TCP_WND TCP_WND 0 (-1) INITIAL_MSS
    0 0 0 (3000 / TCP_SLOW_INTERVAL) (3000 / TCP_SLOW_INTERVAL) 0 0 0 1 TCP_SND_BUF 0 0 0 0 0 0 TCP_SND_BUF 0 0 [] [] [] NULL NULL
    NULL tcp_recv_null_fn NULL NULL NULL TCP_KEEPIDLE_DEFAULT 0 0 0.
Definition tcp_alloc w (prio : Z) : option (world X * Z) :=
  '(w, pcb) ← alloc_attempts w [tcp_kill_timewait; fun w => tcp_kill_state w LAST_ACK; fun w => tcp_kill_state w CLOSING; fun w => tcp_kill_prio w prio];
  if negb (pcb =? NULL)
  then Some (upd_tcp w (fun t => v_pcb_at (<[pcb := tcp_pcb_new t prio]> (tcp_pcb_at t)) t), pcb)
  else Some (w, NULL).
(** [tcp_new()], [tcp_new_ip_type(type)] *)
Definition tcp_new w : option (world X * Z) := tcp_alloc w TCP_PRIO_NORMAL.
Definition tcp_new_ip_type w (type : Z) : option (world X * Z) := tcp_alloc w TCP_PRIO_NORMAL.

(** [tcp_setprio], [tcp_arg], [tcp_recv], [tcp_sent], [tcp_err], [tcp_accept], [tcp_poll] *)
Definition tcp_setprio w (pcb prio : Z) : world X := upd_pcb w pcb (s_prio prio).
Definition tcp_arg w (pcb arg : Z) : world X :=
  if pcb =? NULL then w else upd_listen (upd_pcb w pcb (s_callback_arg arg)) pcb (sl_callback_arg arg).
Definition tcp_recv w (pcb recv : Z) : world X := if pcb =? NULL then w else upd_pcb w pcb (s_recv recv).
Definition tcp_sent w (pcb sent : Z) : world X := if pcb =? NULL then w else upd_pcb w pcb (s_sent sent).
Definition tcp_err w (pcb err : Z) : world X := if pcb =? NULL then w else upd_pcb w pcb (s_errf err).
Definition tcp_accept w (pcb accept : Z) : world X :=
  if negb (pcb =? NULL) && in_state w pcb LISTEN then upd_listen w pcb (sl_accept accept) else w.
Definition tcp_poll w (pcb poll interval : Z) : world X := upd_pcb w pcb (fun t => s_pollinterval interval (s_poll poll t)).

(** [tcp_next_iss(pcb)] *)
Definition tcp_next_iss w : world X * Z :=
  let iss := u32 (tcp_iss (tcp w) + tcp_ticks (tcp w)) in (upd_tcp w (v_iss iss), iss).

(** [tcp_connect(pcb, ipaddr, port, connected)] *)
Definition tcp_connect w (pcb : Z) (ipaddr : option Z) (port connected : Z) : option (world X * Z) :=
  match ipaddr with
  | None => Some (w, ERR_VAL)
  | Some ipaddr =>
      if pcb =? NULL then Some (w, ERR_VAL)
      else if negb (in_state w pcb CLOSED) then Some (w, ERR_ISCONN)
      else
        let w := upd_pcb w pcb (fun t => s_remote_port port (s_remote_ip ipaddr t)) in
        let any := ip4_addr_isany (t_local_ip (pcb_of w pcb)) in
        let '(w, nif) := if any then ip4_route w ipaddr else (w, NULL) in
        if any && (nif =? NULL) then Some (w, ERR_RTE)
        else
          let w := if any then upd_pcb w pcb (s_local_ip (netif_ip_addr (netif_of w nif))) else w in
          let old_local_port := t_local_port (pcb_of w pcb) in
          w ← (if old_local_port =? 0 then '(w, p) ← tcp_new_port w; Some (upd_pcb w pcb (s_local_port p)) else Some w);
          if t_local_port (pcb_of w pcb) =? 0 then Some (w, ERR_BUF)
          else
            let '(w, iss) := tcp_next_iss w in
            let w := upd_pcb w pcb (fun t =>
              s_snd_lbb (u32 (iss - 1)) (s_snd_wl2 (u32 (iss - 1)) (s_lastack (u32 (iss - 1)) (s_snd_nxt iss (s_rcv_nxt 0 t))))) in
            let w := upd_pcb w pcb (fun t =>
              s_snd_wnd TCP_WND (s_rcv_ann_right_edge (t_rcv_nxt t) (s_rcv_wnd TCP_WND (s_rcv_ann_wnd TCP_WND t)))) in
            let '(w, mss) := tcp_eff_send_mss w INITIAL_MSS (t_remote_ip (pcb_of w pcb)) in
            let w := upd_pcb w pcb (fun t => s_connected connected (s_cwnd 1 (s_mss mss t))) in
            '(w, ret) ← tcp_enqueue_flags custom_free fuel w pcb TCP_SYN;
            if ret =? ERR_OK then
              let w := upd_pcb w pcb (s_state SYN_SENT) in
              let w := if negb (old_local_port =? 0) then TCP_RMV w Bound pcb else w in
              '(w, _) ← tcp_output (TCP_REG_ACTIVE w pcb) pcb;
              Some (w, ret)
            else Some (w, ret)
  end.

(** ** Events *)

(** [tcp_recv_null(arg, pcb, p, err)] *)
Definition tcp_recv_null w (pcb p err : Z) : option (world X * Z) :=
  if negb (p =? NULL) then
    w ← tcp_recved w pcb (pb_tot_len (pb (w_ps w) p));
    w ← wfree w p;
    Some (w, ERR_OK)
  else if err =? ERR_OK then tcp_close w pcb else Some (w, ERR_OK).
(** A call of [pcb->recv] *)
Definition call_recv w (pcb p err : Z) : option (world X * Z) :=
  let t := pcb_of w pcb in
  if t_recv t =? tcp_recv_null_fn then tcp_recv_null w pcb p err else cb_recv cb (t_recv t) w (t_callback_arg t) pcb p err.
(** [TCP_EVENT_RECV], [TCP_EVENT_CLOSED], [TCP_EVENT_POLL] *)
Definition TCP_EVENT_RECV w (pcb p err : Z) : option (world X * Z) :=
  if negb (t_recv (pcb_of w pcb) =? NULL) then call_recv w pcb p err else tcp_recv_null w pcb p err.
Definition TCP_EVENT_CLOSED w (pcb : Z) : option (world X * Z) :=
  if negb (t_recv (pcb_of w pcb) =? NULL) then call_recv w pcb NULL ERR_OK else Some (w, ERR_OK).
Definition TCP_EVENT_POLL w (pcb : Z) : option (world X * Z) :=
  let t := pcb_of w pcb in
  if negb (t_poll t =? NULL) then cb_poll cb (t_poll t) w (t_callback_arg t) pcb else Some (w, ERR_OK).

(** [tcp_process_refused_data(pcb)] *)
Definition tcp_process_refused_data w (pcb : Z) : option (world X * Z) :=
  let refused_data := t_refused_data (pcb_of w pcb) in
  let refused_flags := pb_flags (pb (w_ps w) refused_data) in
  '(w, err) ← TCP_EVENT_RECV (upd_pcb w pcb (s_refused_data NULL)) pcb refused_data ERR_OK;
  if err =? ERR_OK then
    if has_flag refused_flags PBUF_FLAG_TCP_FIN then
      let w := upd_pcb w pcb (fun t => if negb (t_rcv_wnd t =? TCP_WND) then s_rcv_wnd (u16 (t_rcv_wnd t + 1)) t else t) in
      '(w, err) ← TCP_EVENT_CLOSED w pcb;
      Some (w, if err =? ERR_ABRT then ERR_ABRT else ERR_OK)
    else Some (w, ERR_OK)
  else if err =? ERR_ABRT then Some (w, ERR_ABRT)
  else Some (upd_pcb w pcb (s_refused_data refused_data), ERR_INPROGRESS).

(** ** Timers *)

(** The retransmission part of the body of [tcp_slowtmr]: whether the PCB is to be removed. *)
Definition slow_persist w (pcb : Z) : option (world X) :=
  let t := pcb_of w pcb in
  let backoff_cnt := nth (Z.to_nat (t_persist_backoff t - 1)) tcp_persist_backoff 0 in
  let w := if t_persist_cnt t <? backoff_cnt then upd_pcb w pcb (s_persist_cnt (u8 (t_persist_cnt t + 1))) else w in
  if backoff_cnt <=? t_persist_cnt (pcb_of w pcb) then
    '(w, err) ← tcp_zero_window_probe netif_output custom_free fuel w pcb;
    if err =? ERR_OK
    then Some (upd_pcb w pcb (fun t =>
           let t := s_persist_cnt 0 t in
           if t_persist_backoff t <? Z.of_nat (length tcp_persist_backoff) then s_persist_backoff (u8 (t_persist_backoff t + 1)) t else t))
    else Some w
  else Some w.
Definition rto_backoff (t : tcp_pcb) : tcp_pcb :=
  let t := if negb (state_is (t_state t) SYN_SENT)
           then s_rto (s16 (Z.shiftl (Z.shiftr (t_sa t) 3 + t_sv t) (nth (Z.to_nat (Z.min (t_nrtx t) 12)) tcp_backoff 0))) t else t in
  let t := s_rtime 0 t in
  let eff_wnd := Z.min (t_cwnd t) (t_snd_wnd t) in
  let t := s_ssthresh (Z.shiftr eff_wnd 1) t in
  let t := if t_ssthresh t <? u16 (Z.shiftl (t_mss t) 1) then s_ssthresh (u16 (Z.shiftl (t_mss t) 1)) t else t in
  s_cwnd (t_mss t) t.
Definition slow_rexmit w (pcb : Z) : option (world X * bool) :=
  let t := pcb_of w pcb in
  if state_is (t_state t) SYN_SENT && (TCP_SYNMAXRTX <=? t_nrtx t) then Some (w, true)
  else if TCP_MAXRTX <=? t_nrtx t then Some (w, true)
  else if 0 <? t_persist_backoff t then w ← slow_persist w pcb; Some (w, false)
  else
    let w := if 0 <=? t_rtime t then upd_pcb w pcb (s_rtime (s16 (t_rtime t + 1))) else w in
    let t := pcb_of w pcb in
    if negb (bool_decide (t_unacked t = [])) && (t_rto t <=? t_rtime t)
    then w ← tcp_rexmit_rto netif_output custom_free fuel (upd_pcb w pcb rto_backoff) pcb; Some (w, false)
    else Some (w, false).

(** The keep-alive part: whether the PCB is to be removed with a reset. *)
Definition slow_keepalive w (pcb : Z) : option (world X * bool) :=
  let t := pcb_of w pcb in
  if has_flag (t_so_options t) SOF_KEEPALIVE && (state_is (t_state t) ESTABLISHED || state_is (t_state t) CLOSE_WAIT) then
    if u32 (t_keep_idle t + TCP_MAXIDLE) / TCP_SLOW_INTERVAL <? inactivity_of w pcb then Some (w, true)
    else if u32 (t_keep_idle t + t_keep_cnt_sent t * TCP_KEEPINTVL_DEFAULT) / TCP_SLOW_INTERVAL <? inactivity_of w pcb then
      '(w, err) ← tcp_keepalive netif_output custom_free fuel w pcb;
      Some (if err =? ERR_OK then upd_pcb w pcb (fun t => s_keep_cnt_sent (u8 (t_keep_cnt_sent t + 1)) t) else w, false)
    else Some (w, false)
  else Some (w, false).

(** The out-of-sequence data of an inactive PCB is dropped. *)
Definition slow_ooseq w (pcb : Z) : option (world X) :=
  let t := pcb_of w pcb in
  if negb (bool_decide (t_ooseq t = [])) && (u32 (t_rto t * TCP_OOSEQ_TIMEOUT) <=? inactivity_of w pcb)
  then w ← tcp_segs_free w (t_ooseq t); Some (upd_pcb w pcb (s_ooseq []))
  else Some w.

(** The states that time out. *)
Definition stuck w (pcb : Z) : bool :=
  let t := pcb_of w pcb in
  match t_state t with
  | FIN_WAIT_2 => has_flag (t_flags t) TF_RXCLOSED && (TCP_FIN_WAIT_TIMEOUT / TCP_SLOW_INTERVAL <? inactivity_of w pcb)
  | SYN_RCVD => TCP_SYN_RCVD_TIMEOUT / TCP_SLOW_INTERVAL <? inactivity_of w pcb
  | LAST_ACK => 2 * TCP_MSL / TCP_SLOW_INTERVAL <? inactivity_of w pcb
  | _ => false
  end.

(** All checks of a PCB: the flags [pcb_remove] and [pcb_reset]. *)
Definition slow_checks w (pcb : Z) : option (world X * bool * bool) :=
  '(w, rm1) ← slow_rexmit w pcb;
  let rm2 := state_is (t_state (pcb_of w pcb)) FIN_WAIT_2 && stuck w pcb in
  '(w, reset) ← slow_keepalive w pcb;
  w ← slow_ooseq w pcb;
  let rm3 := negb (state_is (t_state (pcb_of w pcb)) FIN_WAIT_2) && stuck w pcb in
  Some (w, rm1 || rm2 || reset || rm3, reset).

(** [prev->next = pcb->next], or the head of the list when [prev] is [NULL]. *)
Fixpoint after (pcb : Z) (l : list Z) : list Z :=
  match l with [] => [] | x :: l => if x =? pcb then l else after pcb l end.
Fixpoint up_to (prev : Z) (l : list Z) : list Z :=
  match l with [] => [] | x :: l => if x =? prev then [x] else x :: up_to prev l end.
Definition unlink (prev pcb : Z) (l : list Z) : list Z :=
  if negb (prev =? NULL) then up_to prev l ++ after pcb l else after pcb l.

(** The body of the loop of [tcp_slowtmr] over the active PCBs, with its variables [prev]
    and [pcb]; [start w] is the label [tcp_slowtmr_start]. *)
Definition start w : world X * Z * Z := (w, NULL, hd NULL (tcp_active_pcbs (tcp w))).
Definition slow_remove w (prev pcb : Z) (reset : bool) : option (world X * Z * Z) :=
  let errf := t_errf (pcb_of w pcb) in
  w ← tcp_pcb_purge w pcb;
  let next := next_of pcb (tcp_active_pcbs (tcp w)) in
  let w := upd_tcp w (fun v => v_active_pcbs (unlink prev pcb (tcp_active_pcbs v)) v) in
  let t := pcb_of w pcb in
  w ← (if reset then tcp_rst w (t_snd_nxt t) (t_rcv_nxt t) (t_local_ip t) (t_remote_ip t) (t_local_port t) (t_remote_port t) else Some w);
  w ← TCP_EVENT_ERR (upd_tcp (free_pcb w pcb) (v_changed false)) errf (t_callback_arg t) ERR_ABRT;
  Some (if tcp_active_pcbs_changed (tcp w) then start w else (w, prev, next)).
Definition slow_poll w (pcb : Z) : option (world X * Z * Z) :=
  let next := next_of pcb (tcp_active_pcbs (tcp w)) in
  let w := upd_pcb w pcb (fun t => s_polltmr (u8 (t_polltmr t + 1)) t) in
  let t := pcb_of w pcb in
  if t_pollinterval t <=? t_polltmr t then
    let w := upd_pcb w pcb (s_polltmr 0) in
    '(w, err) ← TCP_EVENT_POLL (upd_tcp w (v_changed false)) pcb;
    if tcp_active_pcbs_changed (tcp w) then Some (start w)
    else if err =? ERR_OK then '(w, _) ← tcp_output w pcb; Some (w, pcb, next) else Some (w, pcb, next)
  else Some (w, pcb, next).
Definition slow_step : world X * Z * Z -> (world X * Z * Z) + option (world X) := fun '(w, prev, pcb) =>
  if pcb =? NULL then inr (Some w)
  else if t_last_timer (pcb_of w pcb) =? tcp_timer_ctr (tcp w)
  then inl (w, prev, next_of pcb (tcp_active_pcbs (tcp w)))
  else
    let w := upd_pcb w pcb (s_last_timer (tcp_timer_ctr (tcp w))) in
    match
      '(w, remove, reset) ← slow_checks w pcb;
      if (remove : bool) then slow_remove w prev pcb reset else slow_poll w pcb
    with Some s => inl s | None => inr None end.

(** The loop over the PCBs in TIME-WAIT. *)
Definition tw_step : world X * Z * Z -> (world X * Z * Z) + option (world X) := fun '(w, prev, pcb) =>
  if pcb =? NULL then inr (Some w)
  else
    let next := next_of pcb (tcp_tw_pcbs (tcp w)) in
    if 2 * TCP_MSL / TCP_SLOW_INTERVAL <? inactivity_of w pcb then
      match tcp_pcb_purge w pcb with
      | None => inr None
      | Some w => inl (free_pcb (upd_tcp w (fun v => v_tw_pcbs (unlink prev pcb (tcp_tw_pcbs v)) v)) pcb, prev, next)
      end
    else inl (w, pcb, next).

(** [tcp_slowtmr()] *)
Definition tcp_slowtmr w : option (world X) :=
  let w := upd_tcp w (fun v => v_timer_ctr (u8 (tcp_timer_ctr v + 1)) (v_ticks (u32 (tcp_ticks v + 1)) v)) in
  w ← loop fuel slow_step (start w) ≫= id;
  loop fuel tw_step (w, NULL, hd NULL (tcp_tw_pcbs (tcp w))) ≫= id.

(** [tcp_fasttmr()]: the body of its loop, with the variable [pcb]. *)
Definition fast_ack w (pcb : Z) : option (world X) :=
  if pcb_flag w pcb TF_ACK_DELAY then
    '(w, _) ← tcp_output (tcp_ack_now w pcb) pcb;
    Some (clear_flag w pcb (Z.lor TF_ACK_DELAY TF_ACK_NOW))
  else Some w.
Definition fast_fin w (pcb : Z) : option (world X) :=
  if pcb_flag w pcb TF_CLOSEPEND then fst <$> tcp_close_shutdown_fin (clear_flag w pcb TF_CLOSEPEND) pcb else Some w.
Definition fast_step : world X * Z -> (world X * Z) + option (world X) := fun '(w, pcb) =>
  if pcb =? NULL then inr (Some w)
  else if negb (t_last_timer (pcb_of w pcb) =? tcp_timer_ctr (tcp w)) then
    match
      w ← fast_ack (upd_pcb w pcb (s_last_timer (tcp_timer_ctr (tcp w)))) pcb;
      w ← fast_fin w pcb;
      let next := next_of pcb (tcp_active_pcbs (tcp w)) in
      if negb (t_refused_data (pcb_of w pcb) =? NULL) then
        '(w, _) ← tcp_process_refused_data (upd_tcp w (v_changed false)) pcb;
        Some (w, if tcp_active_pcbs_changed (tcp w) then hd NULL (tcp_active_pcbs (tcp w)) else next)
      else Some (w, next)
    with Some s => inl s | None => inr None end
  else inl (w, next_of pcb (tcp_active_pcbs (tcp w))).
Definition tcp_fasttmr w : option (world X) :=
  let w := upd_tcp w (fun v => v_timer_ctr (u8 (tcp_timer_ctr v + 1)) v) in
  loop fuel fast_step (w, hd NULL (tcp_active_pcbs (tcp w))) ≫= id.

(** [tcp_tmr()] *)
Definition tcp_tmr w : option (world X) :=
  w ← tcp_fasttmr w;
  let w := upd_tcp w (fun v => v_timer (u8 (tcp_timer v + 1)) v) in
  if Z.odd (tcp_timer (tcp w)) then tcp_slowtmr w else Some w.

(** [tcp_txnow()] *)
Definition txnow_step : world X * Z -> (world X * Z) + option (world X) := fun '(w, pcb) =>
  if pcb =? NULL then inr (Some w)
  else
    match (if pcb_flag w pcb TF_NAGLEMEMERR then fst <$> tcp_output w pcb else Some w) with
    | Some w => inl (w, next_of pcb (tcp_active_pcbs (tcp w)))
    | None => inr None
    end.
Definition tcp_txnow w : option (world X) := loop fuel txnow_step (w, hd NULL (tcp_active_pcbs (tcp w))) ≫= id.

(** ** A changed interface address *)

(** [tcp_netif_ip_addr_changed_pcblist(old_addr, pcb_list)]: [None] as well when the
    callback of an aborted PCB has freed the one that follows it. *)
Definition addr_changed_step (l : pcb_list) (old_addr : Z) : world X * Z -> (world X * Z) + option (world X) := fun '(w, pcb) =>
  if pcb =? NULL then inr (Some w)
  else if negb (bool_decide (pcb ∈ pcbs (tcp w) l)) then inr None
  else
    let next := next_of pcb (pcbs (tcp w) l) in
    if t_local_ip (pcb_of w pcb) =? old_addr then
      match tcp_abort w pcb with Some w => inl (w, next) | None => inr None end
    else inl (w, next).
Definition tcp_netif_ip_addr_changed_pcblist w (l : pcb_list) (old_addr : Z) : option (world X) :=
  loop fuel (addr_changed_step l old_addr) (w, hd NULL (pcbs (tcp w) l)) ≫= id.

(** [tcp_netif_ip_addr_changed(old_addr, new_addr)]; [new_addr] is [None] for [NULL]. *)
Definition tcp_netif_ip_addr_changed w (old_addr : Z) (new_addr : option Z) : option (world X) :=
  if negb (ip4_addr_isany old_addr) then
    w ← tcp_netif_ip_addr_changed_pcblist w Active old_addr;
    w ← tcp_netif_ip_addr_changed_pcblist w Bound old_addr;
    match new_addr with
    | Some a =>
        if negb (ip4_addr_isany a) then
          Some (foldl (fun w lpcb => if l_local_ip (listen_of w lpcb) =? old_addr then upd_listen w lpcb (sl_local_ip a) else w)
                  w (tcp_listen_pcbs (tcp w)))
        else Some w
    | None => Some w
    end
  else Some w.

End TcpCore.
