(* ===== verification/TcpIn.v ===== *)
(** * [core/tcp_in.c]: received segments

    The demultiplexing of [tcp_input], the state machine [tcp_process], [tcp_receive] with
    its queue of out-of-sequence segments, and the options. *)

From Stdlib Require Import ZArith Lia.
From stdpp Require Import base tactics numbers list option gmap.
From S2P Require Import Prelude.
From S2P Require Import Def.
From S2P Require Import Ip4Addr.
From S2P Require Import Alloc.
From S2P Require Import Mem.
From S2P Require Import Memp.
From S2P Require Import Pbuf.
From S2P Require Import World.
From S2P Require Import Ip4Frag.
From S2P Require Import Ip4.
From S2P Require Import Icmp.
From S2P Require Import Udp.
From S2P Require Import Tcp.
From S2P Require Import TcpOut.
From S2P Require Import TcpCore.

(** [LWIP_TCP_CALC_INITIAL_CWND(mss)] *)
Definition LWIP_TCP_CALC_INITIAL_CWND (mss : Z) : Z := u16 (Z.min (4 * mss) (Z.max (2 * mss) 4380)).

(** ** Acknowledgements: the members of the PCB *)

(** The window update of [tcp_receive]. *)
Definition ack_window (seqno ackno wnd : Z) (t : tcp_pcb) : tcp_pcb :=
  if TCP_SEQ_LT (t_snd_wl1 t) seqno || ((t_snd_wl1 t =? seqno) && TCP_SEQ_LT (t_snd_wl2 t) ackno) ||
     ((t_snd_wl2 t =? ackno) && (t_snd_wnd t <? wnd))
  then
    let t := s_snd_wnd wnd t in
    let t := if t_snd_wnd_max t <? t_snd_wnd t then s_snd_wnd_max (t_snd_wnd t) t else t in
    let t := s_snd_wl2 ackno (s_snd_wl1 seqno t) in
    if t_snd_wnd t =? 0 then (if t_persist_backoff t =? 0 then s_persist_backoff 1 (s_persist_cnt 0 t) else t)
    else if 0 <? t_persist_backoff t then s_persist_backoff 0 t else t
  else t.

(** The five clauses of a duplicate acknowledgement. *)
Definition is_dupack (ackno tcplen right_wnd_edge : Z) (t : tcp_pcb) : bool :=
  (tcplen =? 0) && (u32 (t_snd_wl2 t + t_snd_wnd t) =? right_wnd_edge) && (0 <=? t_rtime t) && (t_lastack t =? ackno).

(** One more segment in the congestion window, unless that overflows. *)
Definition inflate_cwnd (t : tcp_pcb) : tcp_pcb :=
  if t_cwnd t <? u16 (t_cwnd t + t_mss t) then s_cwnd (u16 (t_cwnd t + t_mss t)) t else t.

(** What an acknowledgement of new data changes before the queues. *)
Definition ack_new (ackno : Z) (t : tcp_pcb) : tcp_pcb :=
  let t := if has_flag (t_flags t) TF_INFR then s_cwnd (t_ssthresh t) (s_flags (without (t_flags t) TF_INFR) t) else t in
  let t := s_lastack ackno (s_dupacks 0 (s_rto (s16 (Z.shiftr (t_sa t) 3 + t_sv t)) (s_nrtx 0 t))) in
  if state_num ESTABLISHED <=? state_num (t_state t) then
    if t_cwnd t <? t_ssthresh t then inflate_cwnd t
    else
      let new_cwnd := u16 (t_cwnd t + t_mss t * t_mss t / t_cwnd t) in
      if t_cwnd t <? new_cwnd then s_cwnd new_cwnd t else t
  else t.

(** The estimation of the round trip time. *)
Definition rtt_estimate (ticks ackno : Z) (t : tcp_pcb) : tcp_pcb :=
  if negb (t_rttest t =? 0) && TCP_SEQ_LT (t_rtseq t) ackno then
    let m := s16 (ticks - t_rttest t) in
    let m := s16 (m - Z.shiftr (t_sa t) 3) in
    let sa := s16 (t_sa t + m) in
    let m := if m <? 0 then s16 (- m) else m in
    let m := s16 (m - Z.shiftr (t_sv t) 2) in
    let sv := s16 (t_sv t + m) in
    s_rttest 0 (s_rto (s16 (Z.shiftr sa 3 + sv)) (s_sv sv (s_sa sa t)))
  else t.

Section TcpIn.
Context {X : Type} `{!tcp_store X}.
Context (netif_output : world X -> Z -> Z -> Z -> option (world X * Z)).
Context (custom_free : pstate -> Z -> pstate) (fuel : nat).
Context (tcp_timer_needed : world X -> world X) (cb : tcp_callbacks X).
Context (tcp_recv_null_fn tcp_accept_null_fn : Z).
Implicit Types w : world X.

#[local] Abbreviation wfree := (wfree custom_free fuel).
#[local] Abbreviation tcp_seg_free := (tcp_seg_free custom_free fuel).
#[local] Abbreviation tcp_segs_free := (tcp_segs_free custom_free fuel).
#[local] Abbreviation tcp_output := (tcp_output netif_output custom_free fuel).
#[local] Abbreviation tcp_send_empty_ack := (tcp_send_empty_ack netif_output custom_free fuel).
#[local] Abbreviation tcp_rst := (tcp_rst netif_output custom_free fuel).
#[local] Abbreviation TCP_REG := (TCP_REG tcp_timer_needed).
#[local] Abbreviation TCP_REG_ACTIVE := (TCP_REG_ACTIVE tcp_timer_needed).
#[local] Abbreviation tcp_pcb_purge := (tcp_pcb_purge custom_free fuel).
#[local] Abbreviation tcp_pcb_remove := (tcp_pcb_remove netif_output custom_free fuel).
#[local] Abbreviation tcp_abort := (tcp_abort netif_output custom_free fuel cb).
#[local] Abbreviation TCP_EVENT_ERR := (TCP_EVENT_ERR cb).

(** The variables of the input processing. *)
Definition inv w : tcp_in_vars := tcp_in (tcp w).
Definition in_flag w (f : Z) : bool := has_flag (in_flags (inv w)) f.
Definition got w (f : Z) : bool := has_flag (recv_flags (inv w)) f.
Definition set_recv_flag w (f : Z) : world X := upd_in w (fun i => i_recv_flags (Z.lor (recv_flags i) f) i).
(** The members of the header, in host byte order. *)
Definition hdr_src w : Z := ld16 (wmem w) (tcphdr (inv w)).
Definition hdr_dest w : Z := ld16 (wmem w) (tcphdr (inv w) + 2).
Definition hdr_wnd w : Z := ld16 (wmem w) (tcphdr (inv w) + 14).
Definition upd_inseg w (f : tcp_seg -> tcp_seg) : world X := upd_in w (fun i => i_inseg (f (inseg i)) i).
Definition wrealloc w (p len : Z) : option (world X) :=
  st ← pbuf_realloc custom_free fuel (w_ps w) p len; Some (set_wps w st).

(** The reset that answers the current segment. *)
Definition rst_segment w : option (world X) :=
  let i := inv w in
  tcp_rst w (ackno i) (u32 (seqno i + tcplen i)) (current_iphdr_dest (ip_data w)) (current_iphdr_src (ip_data w)) (hdr_dest w) (hdr_src w).

(** ** Options *)

(** [tcp_getoptbyte()] *)
Definition tcp_getoptbyte w : world X * Z :=
  let i := inv w in
  let b := if (tcphdr_opt2 i =? NULL) || (tcp_optidx i <? tcphdr_opt1len i)
           then wmem w (tcphdr i + TCP_HLEN + tcp_optidx i)
           else wmem w (tcphdr_opt2 i + u8 (tcp_optidx i - tcphdr_opt1len i)) in
  (upd_in w (fun i => i_optidx (u16 (tcp_optidx i + 1)) i), b).

(** [tcp_parseopt(pcb)]: the body of its loop. *)
Definition parseopt_step (pcb : Z) w : world X + world X :=
  if negb (tcp_optidx (inv w) <? tcphdr_optlen (inv w)) then inr w
  else
    let '(w, opt) := tcp_getoptbyte w in
    if opt =? LWIP_TCP_OPT_EOL then inr w
    else if opt =? LWIP_TCP_OPT_NOP then inl w
    else if opt =? LWIP_TCP_OPT_MSS then
      let '(w, len) := tcp_getoptbyte w in
      if negb (len =? LWIP_TCP_OPT_LEN_MSS) || (tcphdr_optlen (inv w) <? tcp_optidx (inv w) - 2 + LWIP_TCP_OPT_LEN_MSS) then inr w
      else
        let '(w, hi) := tcp_getoptbyte w in
        let '(w, lo) := tcp_getoptbyte w in
        let mss := Z.lor (u16 (Z.shiftl hi 8)) lo in
        inl (upd_pcb w pcb (s_mss (if (TCP_MSS <? mss) || (mss =? 0) then TCP_MSS else mss)))
    else
      let '(w, data) := tcp_getoptbyte w in
      if data <? 2 then inr w
      else inl (upd_in w (fun i => i_optidx (u16 (tcp_optidx i + (data - 2))) i)).
Definition tcp_parseopt w (pcb : Z) : option (world X) :=
  if negb (tcphdr_optlen (inv w) =? 0) then loop fuel (parseopt_step pcb) (upd_in w (i_optidx 0)) else Some w.

(** ** Acknowledgements *)

(** The segments that are acknowledged leave a queue, given by its contents and the setter
    of the PCB. *)
Definition release_seg w (pcb seg : Z) : option (world X) :=
  n ← pbuf_clen fuel (w_ps w) (sg_p (seg_of w seg));
  let w := upd_pcb w pcb (fun t => s_snd_queuelen (u16 (t_snd_queuelen t - n)) t) in
  let len := sg_len (seg_of w seg) in
  tcp_seg_free (upd_in w (fun i => i_recv_acked (u16 (recv_acked i + len)) i)) seg.
Definition seg_end w (seg : Z) : Z := u32 (seg_seqno w seg + TCP_TCPLEN w (seg_of w seg)).
Fixpoint ack_unacked w (pcb ackno : Z) (l : list Z) : option (world X) :=
  match l with
  | [] => Some w
  | seg :: l =>
      if TCP_SEQ_LEQ (seg_end w seg) ackno
      then w ← release_seg (upd_pcb w pcb (s_unacked l)) pcb seg; ack_unacked w pcb ackno l
      else Some w
  end.
Fixpoint ack_unsent w (pcb ackno : Z) (l : list Z) : option (world X) :=
  match l with
  | [] => Some w
  | seg :: l =>
      if TCP_SEQ_BETWEEN ackno (seg_end w seg) (t_snd_nxt (pcb_of w pcb))
      then
        let w := upd_pcb w pcb (s_unsent l) in
        let w := if bool_decide (l = []) then upd_pcb w pcb (s_unsent_oversize 0) else w in
        w ← release_seg w pcb seg; ack_unsent w pcb ackno l
      else Some w
  end.

(** An acknowledgement that is not above [lastack]. *)
Definition ack_old w (pcb right_wnd_edge : Z) : world X :=
  let i := inv w in
  if is_dupack (ackno i) (tcplen i) right_wnd_edge (pcb_of w pcb) then
    let w := upd_pcb w pcb (fun t => if t_dupacks t <? u8 (t_dupacks t + 1) then s_dupacks (u8 (t_dupacks t + 1)) t else t) in
    if 3 <? t_dupacks (pcb_of w pcb) then upd_pcb w pcb inflate_cwnd
    else if t_dupacks (pcb_of w pcb) =? 3 then tcp_rexmit_fast w pcb else w
  else upd_pcb w pcb (s_dupacks 0).

(** The first part of [tcp_receive], for a segment with the ACK flag. *)
Definition receive_ack w (pcb : Z) : option (world X) :=
  let i := inv w in
  let right_wnd_edge := u32 (t_snd_wnd (pcb_of w pcb) + t_snd_wl2 (pcb_of w pcb)) in
  let w := upd_pcb w pcb (ack_window (seqno i) (ackno i) (hdr_wnd w)) in
  let t := pcb_of w pcb in
  w ← (if TCP_SEQ_LEQ (ackno i) (t_lastack t) then Some (ack_old w pcb right_wnd_edge)
       else if TCP_SEQ_BETWEEN (ackno i) (u32 (t_lastack t + 1)) (t_snd_nxt t) then
         let w := upd_pcb w pcb (ack_new (ackno i)) in
         w ← ack_unacked w pcb (ackno i) (t_unacked (pcb_of w pcb));
         Some (upd_pcb w pcb (fun t => s_polltmr 0 (s_rtime (if bool_decide (t_unacked t = []) then -1 else 0) t)))
       else fst <$> tcp_send_empty_ack w pcb);
  w ← ack_unsent w pcb (ackno i) (t_unsent (pcb_of w pcb));
  let w := upd_pcb w pcb (fun t => s_snd_buf (u16 (t_snd_buf t + recv_acked (inv w))) t) in
  Some (upd_pcb w pcb (rtt_estimate (tcp_ticks (tcp w)) (ackno i))).

(** ** Out-of-sequence segments *)

(** The segments that a segment up to [right] covers: they are freed, and a FIN moves to
    the header [hdr].  The rest of the queue is the result. *)
Fixpoint oos_covered w (right hdr : Z) (l : list Z) : option (world X * list Z) :=
  match l with
  | [] => Some (w, [])
  | next :: l' =>
      let s := seg_of w next in
      if TCP_SEQ_GEQ right (hdr_seqno w s + sg_len s) then
        let w := if has_flag (seg_flags w s) TCP_FIN then set_wmem w (TCPH_SET_FLAG (wmem w) hdr TCP_FIN) else w in
        w ← tcp_seg_free w next;
        oos_covered w right hdr l'
      else Some (w, l)
  end.

(** [tcp_oos_insert_segment(cseg, next)]: the queue behind [cseg]. *)
Definition tcp_oos_insert_segment w (cseg : Z) (next : list Z) : option (world X * list Z) :=
  let s := seg_of w cseg in
  if has_flag (seg_flags w s) TCP_FIN then w ← tcp_segs_free w next; Some (w, [])
  else
    let seqno := seqno (inv w) in
    '(w, next) ← oos_covered w (seqno + sg_len s) (sg_tcphdr s) next;
    match next with
    | [] => Some (w, [])
    | n :: _ =>
        let nseq := hdr_seqno w (seg_of w n) in
        if TCP_SEQ_GT (seqno + sg_len s) nseq then
          let len := u16 (nseq - seqno) in
          w ← wrealloc (upd_seg w cseg (sg_with_len len)) (sg_p s) len;
          Some (w, next)
        else Some (w, next)
    end.

(** A segment that reaches beyond [seqno] is cut there. *)
Definition oos_trim w (seg : Z) : option (world X) :=
  let s := seg_of w seg in
  let seqno := seqno (inv w) in
  if TCP_SEQ_GT (hdr_seqno w s + sg_len s) seqno then
    let len := u16 (seqno - hdr_seqno w s) in
    wrealloc (upd_seg w seg (sg_with_len len)) (sg_p s) len
  else Some w.

(** The end of the new last segment is cut at the end of the receive window. *)
Definition oos_window w (pcb cseg : Z) : option (world X) :=
  let i := inv w in
  let t := pcb_of w pcb in
  if TCP_SEQ_GT (tcplen i + seqno i) (t_rcv_nxt t + t_rcv_wnd t) then
    let s := seg_of w cseg in
    let w := if has_flag (seg_flags w s) TCP_FIN
             then set_wmem w (TCPH_FLAGS_SET (wmem w) (sg_tcphdr s) (Z.land (seg_flags w s) (Z.lnot TCP_FIN))) else w in
    let len := u16 (t_rcv_nxt t + t_rcv_wnd t - seqno i) in
    w ← wrealloc (upd_seg w cseg (sg_with_len len)) (sg_p s) len;
    Some (upd_in w (i_tcplen (u16 (TCP_TCPLEN w (seg_of w cseg)))))
  else Some w.

(** A copy of the incoming segment goes into the queue between [front] and [next]. *)
Definition oos_put w (pcb : Z) (trim : option Z) (front next : list Z) : option (world X) :=
  let '(w, cseg) := tcp_seg_copy w (inseg (inv w)) in
  if cseg =? NULL then Some w
  else
    w ← match trim with Some prev => oos_trim w prev | None => Some w end;
    '(w, rest) ← tcp_oos_insert_segment w cseg next;
    Some (upd_pcb w pcb (s_ooseq (front ++ cseg :: rest))).
(** ... or behind the last segment [next]. *)
Definition oos_append w (pcb next : Z) (front : list Z) : option (world X) :=
  if has_flag (seg_flags w (seg_of w next)) TCP_FIN then Some w
  else
    let '(w, cseg) := tcp_seg_copy w (inseg (inv w)) in
    if cseg =? NULL then Some w
    else
      w ← oos_trim (upd_pcb w pcb (s_ooseq (front ++ [next; cseg]))) next;
      oos_window w pcb cseg.

(** The walk through the queue: [front] are the segments before [l], [prev] the last of
    them. *)
Fixpoint oos_walk w (pcb : Z) (front : list Z) (prev : option Z) (l : list Z) : option (world X) :=
  match l with
  | [] => Some w
  | next :: l' =>
      let seqno := seqno (inv w) in
      let nseq := hdr_seqno w (seg_of w next) in
      if seqno =? nseq then
        if sg_len (seg_of w next) <? sg_len (inseg (inv w)) then oos_put w pcb None front l else Some w
      else if match prev with
              | None => TCP_SEQ_LT seqno nseq
              | Some p => TCP_SEQ_BETWEEN seqno (u32 (hdr_seqno w (seg_of w p) + 1)) (u32 (nseq - 1))
              end
      then oos_put w pcb prev front l
      else if bool_decide (l' = []) && TCP_SEQ_GT seqno nseq then oos_append w pcb next front
      else oos_walk w pcb (front ++ [next]) (Some next) l'
  end.

(** The branch for an out-of-sequence segment. *)
Definition receive_ooseq w (pcb : Z) : option (world X) :=
  '(w, _) ← tcp_send_empty_ack w pcb;
  match t_ooseq (pcb_of w pcb) with
  | [] =>
      let '(w, cseg) := tcp_seg_copy w (inseg (inv w)) in
      Some (upd_pcb w pcb (s_ooseq (if cseg =? NULL then [] else [cseg])))
  | l => oos_walk w pcb [] None l
  end.

(** ** In-sequence segments *)

(** The front of the incoming segment that was received before is cut off. *)
Definition trim_front w (pcb : Z) : option (world X) :=
  let i := inv w in
  let rcv_nxt := t_rcv_nxt (pcb_of w pcb) in
  let p := sg_p (inseg i) in
  let off := s32 (rcv_nxt - seqno i) in
  st ← (if pb_len (pb (w_ps w) p) <? off then
          let new_tot_len := u16 (pb_tot_len (pb (w_ps w) p) - off) in
          '(st, p, off) ← loop fuel (fun '(st, p, off) =>
            if pb_len (pb st p) <? off then
              let len := pb_len (pb st p) in
              let st := upd_pb st p (fun x => with_len (with_tot_len x new_tot_len) 0) in
              inl (st, pb_next (pb st p), off - len)
            else inr (st, p, off)) (w_ps w, p, off);
          Some (fst (pbuf_header st p (s16 (- off))))
        else Some (fst (pbuf_header (w_ps w) p (s16 (- off)))));
  let w := upd_inseg (set_wps w st) (fun s => sg_with_len (u16 (sg_len s - u16 (rcv_nxt - seqno i))) s) in
  let w := set_wmem w (st32 (wmem w) (sg_tcphdr (inseg i) + 4) rcv_nxt) in
  Some (upd_in w (i_seqno rcv_nxt)).

(** [tcplen = TCP_TCPLEN(&inseg)] *)
Definition set_tcplen w : world X := upd_in w (fun i => i_tcplen (u16 (TCP_TCPLEN w (inseg i))) i).
(** [inseg.len] gets a new value, less one for a SYN, and the pbufs are cut to it. *)
Definition cut_inseg w (len : Z) : option (world X) :=
  let len := if has_flag (seg_flags w (inseg (inv w))) TCP_SYN then u16 (len - 1) else len in
  w ← wrealloc (upd_inseg w (sg_with_len len)) (sg_p (inseg (inv w))) len;
  Some (set_tcplen w).

(** The end of the incoming segment behind the receive window is cut off. *)
Definition trim_window w (pcb : Z) : option (world X) :=
  let w := set_tcplen w in
  let i := inv w in
  let rcv_wnd := t_rcv_wnd (pcb_of w pcb) in
  if rcv_wnd <? tcplen i then
    let fl := seg_flags w (inseg i) in
    let w := if has_flag fl TCP_FIN
             then set_wmem w (TCPH_FLAGS_SET (wmem w) (sg_tcphdr (inseg i)) (Z.land fl (Z.lnot TCP_FIN))) else w in
    cut_inseg w rcv_wnd
  else Some w.

(** The segments of the queue that the incoming one covers, and the rest of the queue. *)
Fixpoint inseq_covered w (l : list Z) : option (world X * list Z) :=
  match l with
  | [] => Some (w, [])
  | next :: l' =>
      let i := inv w in
      let s := seg_of w next in
      if TCP_SEQ_GEQ (seqno i + tcplen i) (hdr_seqno w s + sg_len s) then
        let w := if has_flag (seg_flags w s) TCP_FIN && negb (has_flag (seg_flags w (inseg i)) TCP_SYN)
                 then set_tcplen (set_wmem w (TCPH_SET_FLAG (wmem w) (sg_tcphdr (inseg i)) TCP_FIN)) else w in
        w ← tcp_seg_free w next;
        inseq_covered w l'
      else Some (w, l)
  end.
Definition trim_ooseq w (pcb : Z) : option (world X) :=
  match t_ooseq (pcb_of w pcb) with
  | [] => Some w
  | l =>
      if has_flag (seg_flags w (inseg (inv w))) TCP_FIN then w ← tcp_segs_free w l; Some (upd_pcb w pcb (s_ooseq []))
      else
        '(w, l) ← inseq_covered w l;
        w ← match l with
            | [] => Some w
            | next :: _ =>
                let i := inv w in
                let nseq := hdr_seqno w (seg_of w next) in
                if TCP_SEQ_GT (seqno i + tcplen i) nseq then cut_inseg w (u16 (nseq - seqno i)) else Some w
            end;
        Some (upd_pcb w pcb (s_ooseq l))
  end.

(** [len] bytes of the sequence space are received. *)
Definition advance w (pcb rcv_nxt len : Z) : world X :=
  fst (tcp_update_rcv_ann_wnd (upd_pcb w pcb (fun t => s_rcv_wnd (u16 (t_rcv_wnd t - len)) (s_rcv_nxt rcv_nxt t))) pcb).

(** The segments of the queue that are now in sequence. *)
Fixpoint dequeue w (pcb : Z) (l : list Z) : option (world X) :=
  match l with
  | [] => Some w
  | cseg :: l =>
      let s := seg_of w cseg in
      let rcv_nxt := t_rcv_nxt (pcb_of w pcb) in
      if hdr_seqno w s =? rcv_nxt then
        let len := TCP_TCPLEN w s in
        let w := advance (upd_in w (i_seqno (hdr_seqno w s))) pcb (u32 (rcv_nxt + len)) len in
        w ← (if 0 <? pb_tot_len (pb (w_ps w) (sg_p s)) then
               let r := recv_data (inv w) in
               w ← (if negb (r =? NULL) then st ← pbuf_cat fuel (w_ps w) r (sg_p s); Some (set_wps w st)
                    else Some (upd_in w (i_recv_data (sg_p s))));
               Some (upd_seg w cseg (sg_with_p NULL))
             else Some w);
        let w := if has_flag (seg_flags w s) TCP_FIN then
                   let w := set_recv_flag w TF_GOT_FIN in
                   if state_is (t_state (pcb_of w pcb)) ESTABLISHED then upd_pcb w pcb (s_state CLOSE_WAIT) else w
                 else w in
        w ← tcp_seg_free (upd_pcb w pcb (s_ooseq l)) cseg;
        dequeue w pcb l
      else Some w
  end.

(** The branch for the segment that is next in sequence. *)
Definition receive_inseq w (pcb : Z) : option (world X) :=
  w ← trim_window w pcb;
  w ← trim_ooseq w pcb;
  let i := inv w in
  let w := advance w pcb (u32 (seqno i + tcplen i)) (tcplen i) in
  let w := if 0 <? pb_tot_len (pb (w_ps w) (sg_p (inseg i)))
           then upd_inseg (upd_in w (i_recv_data (sg_p (inseg i)))) (sg_with_p NULL) else w in
  let w := if has_flag (seg_flags w (inseg i)) TCP_FIN then set_recv_flag w TF_GOT_FIN else w in
  w ← dequeue w pcb (t_ooseq (pcb_of w pcb));
  Some (tcp_ack w pcb).

(** The second part of [tcp_receive]: the data. *)
Definition in_rcv_wnd w (pcb : Z) : bool :=
  let t := pcb_of w pcb in TCP_SEQ_BETWEEN (seqno (inv w)) (t_rcv_nxt t) (t_rcv_nxt t + t_rcv_wnd t - 1).
Definition receive_data w (pcb : Z) : option (world X) :=
  let i := inv w in
  if (0 <? tcplen i) && (state_num (t_state (pcb_of w pcb)) <? state_num CLOSE_WAIT) then
    let rcv_nxt := t_rcv_nxt (pcb_of w pcb) in
    w ← (if TCP_SEQ_BETWEEN rcv_nxt (seqno i + 1) (seqno i + tcplen i - 1) then trim_front w pcb
         else Some (if TCP_SEQ_LT (seqno i) rcv_nxt then tcp_ack_now w pcb else w));
    if in_rcv_wnd w pcb then
      if rcv_nxt =? seqno (inv w) then receive_inseq w pcb else receive_ooseq w pcb
    else fst <$> tcp_send_empty_ack w pcb
  else Some (if negb (in_rcv_wnd w pcb) then tcp_ack_now w pcb else w).

(** [tcp_receive(pcb)] *)
Definition tcp_receive w (pcb : Z) : option (world X) :=
  w ← (if in_flag w TCP_ACK then receive_ack w pcb else Some w);
  receive_data w pcb.

(** ** The state machine *)

(** [TCP_EVENT_ACCEPT], [TCP_EVENT_SENT], [TCP_EVENT_CONNECTED] *)
Definition TCP_EVENT_ACCEPT w (lpcb pcb arg err : Z) : option (world X * Z) :=
  let f := l_accept (listen_of w lpcb) in
  if negb (f =? NULL)
  then (if f =? tcp_accept_null_fn then tcp_accept_null netif_output custom_free fuel cb w pcb else cb_accept cb f w arg pcb err)
  else Some (w, ERR_ARG).
Definition TCP_EVENT_SENT w (pcb space : Z) : option (world X * Z) :=
  let t := pcb_of w pcb in
  if negb (t_sent t =? NULL) then cb_sent cb (t_sent t) w (t_callback_arg t) pcb space else Some (w, ERR_OK).
Definition TCP_EVENT_CONNECTED w (pcb err : Z) : option (world X * Z) :=
  let t := pcb_of w pcb in
  if negb (t_connected t =? NULL) then cb_connected cb (t_connected t) w (t_callback_arg t) pcb err else Some (w, ERR_OK).

(** A segment with the RST flag. *)
Definition process_rst w (pcb : Z) : world X * Z :=
  let i := inv w in
  let t := pcb_of w pcb in
  if (if state_is (t_state t) SYN_SENT then ackno i =? t_snd_nxt t else seqno i =? t_rcv_nxt t)
  then (clear_flag (set_recv_flag w TF_RESET) pcb TF_ACK_DELAY, ERR_RST)
  else if negb (state_is (t_state t) SYN_SENT) && TCP_SEQ_BETWEEN (seqno i) (t_rcv_nxt t) (t_rcv_nxt t + t_rcv_wnd t)
  then (tcp_ack_now w pcb, ERR_OK)
  else (w, ERR_OK).

(** [case SYN_SENT]: the SYN was acknowledged; ... *)
Definition free_syn w (pcb : Z) : option (world X) :=
  match t_unacked (pcb_of w pcb), t_unsent (pcb_of w pcb) with
  | rseg :: l, _ => tcp_seg_free (upd_pcb w pcb (s_unacked l)) rseg
  | [], rseg :: l => tcp_seg_free (upd_pcb w pcb (s_unsent l)) rseg
  | [], [] => None
  end.
Definition syn_sent_acked w (pcb : Z) : option (world X * Z) :=
  let i := inv w in
  let wnd := hdr_wnd w in
  let w := upd_pcb w pcb (fun t =>
    s_state ESTABLISHED (s_snd_wl1 (u32 (seqno i - 1)) (s_snd_wnd_max wnd (s_snd_wnd wnd (s_lastack (ackno i)
      (s_rcv_ann_right_edge (u32 (seqno i + 1)) (s_rcv_nxt (u32 (seqno i + 1)) t))))))) in
  let '(w, mss) := tcp_eff_send_mss w (t_mss (pcb_of w pcb)) (t_remote_ip (pcb_of w pcb)) in
  let w := upd_pcb w pcb (fun t =>
    s_snd_queuelen (u16 (t_snd_queuelen t - 1)) (s_cwnd (LWIP_TCP_CALC_INITIAL_CWND mss) (s_mss mss t))) in
  w ← free_syn w pcb;
  let w := upd_pcb w pcb (fun t => if bool_decide (t_unacked t = []) then s_rtime (-1) t else s_nrtx 0 (s_rtime 0 t)) in
  '(w, err) ← TCP_EVENT_CONNECTED w pcb ERR_OK;
  if err =? ERR_ABRT then Some (w, ERR_ABRT) else Some (tcp_ack_now w pcb, ERR_OK).
(** ... or another segment arrived. *)
Definition process_syn_sent w (pcb : Z) : option (world X * Z) :=
  let i := inv w in
  if in_flag w TCP_ACK && in_flag w TCP_SYN && (ackno i =? u32 (t_lastack (pcb_of w pcb) + 1)) then syn_sent_acked w pcb
  else if in_flag w TCP_ACK then
    w ← rst_segment w;
    w ← (if t_nrtx (pcb_of w pcb) <? TCP_SYNMAXRTX
         then tcp_rexmit_rto netif_output custom_free fuel (upd_pcb w pcb (s_rtime 0)) pcb else Some w);
    Some (w, ERR_OK)
  else Some (w, ERR_OK).

(** [case SYN_RCVD] *)
Definition process_syn_rcvd w (pcb : Z) : option (world X * Z) :=
  let i := inv w in
  let t := pcb_of w pcb in
  if in_flag w TCP_ACK then
    if TCP_SEQ_BETWEEN (ackno i) (t_lastack t + 1) (t_snd_nxt t) then
      let w := upd_pcb w pcb (s_state ESTABLISHED) in
      '(w, err) ← (if t_listener t =? NULL then Some (w, ERR_VAL)
                   else TCP_EVENT_ACCEPT w (t_listener t) pcb (t_callback_arg t) ERR_OK);
      if negb (err =? ERR_OK) then
        w ← (if negb (err =? ERR_ABRT) then tcp_abort w pcb else Some w);
        Some (w, ERR_ABRT)
      else
        w ← tcp_receive w pcb;
        let w := upd_in w (fun i => if negb (recv_acked i =? 0) then i_recv_acked (recv_acked i - 1) i else i) in
        let w := upd_pcb w pcb (fun t => s_cwnd (LWIP_TCP_CALC_INITIAL_CWND (t_mss t)) t) in
        Some (if got w TF_GOT_FIN then upd_pcb (tcp_ack_now w pcb) pcb (s_state CLOSE_WAIT) else w, ERR_OK)
    else w ← rst_segment w; Some (w, ERR_OK)
  else if in_flag w TCP_SYN && (seqno i =? u32 (t_rcv_nxt t - 1)) then Some (tcp_rexmit w pcb, ERR_OK)
  else Some (w, ERR_OK).

(** The connection goes to TIME-WAIT. *)
Definition to_time_wait w (pcb : Z) : option (world X) :=
  w ← tcp_pcb_purge w pcb;
  Some (TCP_REG (upd_pcb (TCP_RMV_ACTIVE w pcb) pcb (s_state TIME_WAIT)) Timewait pcb).
(** The segment acknowledges everything that was sent, the FIN included. *)
Definition fin_acked w (pcb : Z) : bool :=
  in_flag w TCP_ACK && (ackno (inv w) =? t_snd_nxt (pcb_of w pcb)) && bool_decide (t_unsent (pcb_of w pcb) = []).

(** [tcp_process(pcb)] *)
Definition tcp_process w (pcb : Z) : option (world X * Z) :=
  if in_flag w TCP_RST then Some (process_rst w pcb)
  else if in_flag w TCP_SYN && negb (in_state w pcb SYN_SENT) && negb (in_state w pcb SYN_RCVD)
  then Some (tcp_ack_now w pcb, ERR_OK)
  else
    let w := if negb (pcb_flag w pcb TF_RXCLOSED) then upd_pcb w pcb (s_tmr (tcp_ticks (tcp w))) else w in
    w ← tcp_parseopt (upd_pcb w pcb (s_keep_cnt_sent 0)) pcb;
    match t_state (pcb_of w pcb) with
    | SYN_SENT => process_syn_sent w pcb
    | SYN_RCVD => process_syn_rcvd w pcb
    | CLOSE_WAIT | ESTABLISHED =>
        w ← tcp_receive w pcb;
        Some (if got w TF_GOT_FIN then upd_pcb (tcp_ack_now w pcb) pcb (s_state CLOSE_WAIT) else w, ERR_OK)
    | FIN_WAIT_1 =>
        w ← tcp_receive w pcb;
        if got w TF_GOT_FIN then
          if fin_acked w pcb then w ← to_time_wait (tcp_ack_now w pcb) pcb; Some (w, ERR_OK)
          else Some (upd_pcb (tcp_ack_now w pcb) pcb (s_state CLOSING), ERR_OK)
        else Some (if fin_acked w pcb then upd_pcb w pcb (s_state FIN_WAIT_2) else w, ERR_OK)
    | FIN_WAIT_2 =>
        w ← tcp_receive w pcb;
        if got w TF_GOT_FIN then w ← to_time_wait (tcp_ack_now w pcb) pcb; Some (w, ERR_OK) else Some (w, ERR_OK)
    | CLOSING =>
        w ← tcp_receive w pcb;
        if fin_acked w pcb then w ← to_time_wait w pcb; Some (w, ERR_OK) else Some (w, ERR_OK)
    | LAST_ACK =>
        w ← tcp_receive w pcb;
        Some (if fin_acked w pcb then set_recv_flag w TF_CLOSED else w, ERR_OK)
    | _ => Some (w, ERR_OK)
    end.

(** [tcp_listen_input(pcb)] *)
Definition tcp_listen_input w (lpcb : Z) : option (world X) :=
  let i := inv w in
  if in_flag w TCP_RST then Some w
  else if in_flag w TCP_ACK then rst_segment w
  else if in_flag w TCP_SYN then
    '(w, npcb) ← tcp_alloc netif_output custom_free fuel cb tcp_recv_null_fn w (l_prio (listen_of w lpcb));
    if npcb =? NULL then
      fst <$> TCP_EVENT_ACCEPT (stats_inc S_tcp F_memerr w) lpcb NULL (l_callback_arg (listen_of w lpcb)) ERR_MEM
    else
      let l := listen_of w lpcb in
      let w := upd_pcb w npcb (fun t =>
        s_rcv_ann_right_edge (u32 (seqno i + 1)) (s_rcv_nxt (u32 (seqno i + 1)) (s_state SYN_RCVD (s_remote_port (hdr_src w)
          (s_local_port (l_local_port l) (s_remote_ip (current_iphdr_src (ip_data w)) (s_local_ip (current_iphdr_dest (ip_data w)) t))))))) in
      let '(w, iss) := tcp_next_iss w in
      let w := upd_pcb w npcb (fun t =>
        s_snd_wl1 (u32 (seqno i - 1)) (s_snd_lbb iss (s_lastack iss (s_snd_nxt iss (s_snd_wl2 iss t))))) in
      let w := upd_pcb w npcb (fun t =>
        s_so_options (Z.land (l_so_options l) SOF_INHERITED) (s_listener lpcb (s_callback_arg (l_callback_arg l) t))) in
      w ← tcp_parseopt (TCP_REG_ACTIVE w npcb) npcb;
      let wnd := hdr_wnd w in
      let w := upd_pcb w npcb (fun t => s_snd_wnd_max wnd (s_snd_wnd wnd t)) in
      let '(w, mss) := tcp_eff_send_mss w (t_mss (pcb_of w npcb)) (t_remote_ip (pcb_of w npcb)) in
      '(w, rc) ← tcp_enqueue_flags custom_free fuel (upd_pcb w npcb (s_mss mss)) npcb (Z.lor TCP_SYN TCP_ACK);
      if negb (rc =? ERR_OK) then tcp_abandon netif_output custom_free fuel cb w npcb false else fst <$> tcp_output w npcb
  else Some w.

(** [tcp_timewait_input(pcb)] *)
Definition tcp_timewait_input w (pcb : Z) : option (world X) :=
  let i := inv w in
  let t := pcb_of w pcb in
  let answer w := if 0 <? tcplen i then fst <$> tcp_output (set_flag w pcb TF_ACK_NOW) pcb else Some w in
  if in_flag w TCP_RST then Some w
  else if in_flag w TCP_SYN then
    if TCP_SEQ_BETWEEN (seqno i) (t_rcv_nxt t) (t_rcv_nxt t + t_rcv_wnd t) then rst_segment w else answer w
  else answer (if in_flag w TCP_FIN then upd_pcb w pcb (s_tmr (tcp_ticks (tcp w))) else w).

(** ** Input *)

(** The options are skipped: [inr] is a segment that is dropped, [inl] the length of their
    first part and the address of the second. *)
Definition skip_options w (p hdrlen_bytes : Z) : world X * ((Z * Z) + unit) :=
  let optlen := hdrlen_bytes - TCP_HLEN in
  if hdrlen_bytes <=? pb_len (pb (w_ps w) p)
  then (set_wps w (fst (pbuf_header (w_ps w) p (- hdrlen_bytes))), inl (optlen, NULL))
  else
    let st := fst (pbuf_header (w_ps w) p (- TCP_HLEN)) in
    let opt1len := pb_len (pb st p) in
    let opt2len := u16 (optlen - opt1len) in
    let st := fst (pbuf_header st p (- s16 opt1len)) in
    let q := pb_next (pb st p) in
    if pb_len (pb st q) <? opt2len then (set_wps w st, inr tt)
    else
      let opt2 := pb_payload (pb st q) in
      let st := fst (pbuf_header st q (- s16 opt2len)) in
      let st := upd_pb st p (fun x => with_tot_len x (u16 (pb_tot_len x - opt2len))) in
      (set_wps w st, inl (opt1len, opt2)).

(** The header is converted to host byte order and the variables of the file are set. *)
Definition read_header w (p hdr optlen opt1len opt2 : Z) : world X :=
  let m := wmem w in
  let m := st16 m hdr (lwip_htons (ld16 m hdr)) in
  let m := st16 m (hdr + 2) (lwip_htons (ld16 m (hdr + 2))) in
  let m := st32 m (hdr + 4) (lwip_htonl (ld32 m (hdr + 4))) in
  let m := st32 m (hdr + 8) (lwip_htonl (ld32 m (hdr + 8))) in
  let m := st16 m (hdr + 14) (lwip_htons (ld16 m (hdr + 14))) in
  let fl := TCPH_FLAGS m hdr in
  let tl := u16 (pb_tot_len (pb (w_ps w) p) + (if has_flag fl (Z.lor TCP_FIN TCP_SYN) then 1 else 0)) in
  upd_in (set_wmem w m) (fun i =>
    mk_in (inseg i) hdr optlen opt1len opt2 (tcp_optidx i) (ld32 m (hdr + 4)) (ld32 m (hdr + 8)) (recv_acked i) tl fl
      (recv_flags i) (recv_data i) (tcp_input_pcb i)).

(** The search: the PCB of the segment in the active and TIME-WAIT lists, and a listening
    one. *)
Definition for_pcb w (pcb : Z) : bool :=
  let t := pcb_of w pcb in
  (t_remote_port t =? hdr_src w) && (t_local_port t =? hdr_dest w) &&
  (t_remote_ip t =? current_iphdr_src (ip_data w)) && (t_local_ip t =? current_iphdr_dest (ip_data w)).
Definition for_listener w (lpcb : Z) : bool :=
  let l := listen_of w lpcb in
  (l_local_port l =? hdr_dest w) && ((l_local_ip l =? current_iphdr_dest (ip_data w)) || ip4_addr_isany (l_local_ip l)).
Definition find_pcb w (l : pcb_list) : option Z :=
  List.find (match l with Listening => for_listener w | _ => for_pcb w end) (pcbs (tcp w) l).
(** The PCB that was found moves to the front of its list. *)
Definition move_to_front w (l : pcb_list) (pcb : Z) : world X :=
  if hd NULL (pcbs (tcp w) l) =? pcb then stats_inc S_tcp F_cachehit w
  else upd_tcp w (fun v => set_pcbs l (pcb :: list_remove1 pcb (pcbs v l)) v).

(** The label [aborted]. *)
Definition input_aborted w : option (world X) :=
  let w := upd_in w (fun i => i_recv_data NULL (i_input_pcb NULL i)) in
  let p := sg_p (inseg (inv w)) in
  if negb (p =? NULL) then w ← wfree w p; Some (upd_inseg w (sg_with_p NULL)) else Some w.

(** The PCB of the current segment is removed and freed. *)
Definition input_remove w (pcb : Z) : option (world X) := w ← tcp_pcb_remove w Active pcb; Some (free_pcb w pcb).

(** The steps that follow [tcp_process]: the acknowledged data, ...  [false] is a jump to
    [aborted]. *)
Definition input_sent w (pcb : Z) : option (world X * bool) :=
  if 0 <? recv_acked (inv w) then
    '(w, err) ← TCP_EVENT_SENT w pcb (recv_acked (inv w));
    Some (if err =? ERR_ABRT then (w, false) else (upd_in w (i_recv_acked 0), true))
  else Some (w, true).
(** ... a closed connection, ... *)
Definition input_closed w (pcb : Z) : option (world X * bool) :=
  if got w TF_CLOSED then
    let t := pcb_of w pcb in
    w ← (if negb (pcb_flag w pcb TF_RXCLOSED) then TCP_EVENT_ERR w (t_errf t) (t_callback_arg t) ERR_CLSD else Some w);
    w ← input_remove w pcb; Some (w, false)
  else Some (w, true).
(** ... the received data ... *)
Definition input_data w (pcb : Z) : option (world X * bool) :=
  let r := recv_data (inv w) in
  if negb (r =? NULL) then
    if pcb_flag w pcb TF_RXCLOSED then w ← wfree w r; w ← tcp_abort w pcb; Some (w, false)
    else
      '(w, err) ← TCP_EVENT_RECV netif_output custom_free fuel tcp_timer_needed cb tcp_recv_null_fn w pcb r ERR_OK;
      if err =? ERR_ABRT then Some (w, false)
      else Some (if negb (err =? ERR_OK) then upd_pcb w pcb (s_refused_data r) else w, true)
  else Some (w, true).
(** ... and the end of the stream. *)
Definition input_fin w (pcb : Z) : option (world X * bool) :=
  if got w TF_GOT_FIN then
    let r := t_refused_data (pcb_of w pcb) in
    if negb (r =? NULL)
    then Some (set_wps w (upd_pb (w_ps w) r (fun x => with_flags x (Z.lor (pb_flags x) PBUF_FLAG_TCP_FIN))), true)
    else
      let w := upd_pcb w pcb (fun t => if negb (t_rcv_wnd t =? TCP_WND) then s_rcv_wnd (u16 (t_rcv_wnd t + 1)) t else t) in
      '(w, err) ← TCP_EVENT_CLOSED netif_output custom_free fuel tcp_timer_needed cb tcp_recv_null_fn w pcb;
      Some (w, negb (err =? ERR_ABRT))
  else Some (w, true).
Definition input_events w (pcb : Z) : option (world X) :=
  '(w, go) ← input_sent w pcb;
  if negb go then Some w
  else
    '(w, go) ← input_closed w pcb;
    if negb go then Some w
    else
      '(w, go) ← input_data w pcb;
      if negb go then Some w
      else
        '(w, go) ← input_fin w pcb;
        if negb go then Some w
        else fst <$> tcp_output (upd_in w (i_input_pcb NULL)) pcb.

(** Refused data is passed to the application again; [false] when the segment is dropped.
    [None] as well when the PCB was aborted: the code reads [rcv_ann_wnd] of the freed PCB. *)
Definition input_refused w (pcb : Z) : option (world X * bool) :=
  if negb (t_refused_data (pcb_of w pcb) =? NULL) then
    '(w, err) ← tcp_process_refused_data netif_output custom_free fuel tcp_timer_needed cb tcp_recv_null_fn w pcb;
    if (err =? ERR_ABRT) || (negb (t_refused_data (pcb_of w pcb) =? NULL) && (0 <? tcplen (inv w))) then
      if negb (bool_decide (is_Some (tcp_pcb_at (tcp w) !! pcb))) then None
      else
        w ← (if t_rcv_ann_wnd (pcb_of w pcb) =? 0 then fst <$> tcp_send_empty_ack w pcb else Some w);
        Some (stats_inc S_tcp F_drop w, false)
    else Some (w, true)
  else Some (w, true).

(** The segment [p] belongs to the connection [pcb]. *)
Definition input_pcb w (p pcb : Z) : option (world X) :=
  let w := upd_in w (fun i =>
    i_recv_acked 0 (i_recv_flags 0 (i_recv_data NULL (i_inseg (mk_seg p (pb_tot_len (pb (w_ps w) p)) (sg_flags (inseg i)) (tcphdr i)) i)))) in
  let w := if in_flag w TCP_PSH then set_wps w (upd_pb (w_ps w) p (fun x => with_flags x (Z.lor (pb_flags x) PBUF_FLAG_PUSH))) else w in
  '(w, go) ← input_refused w pcb;
  w ← (if (go : bool) then
         '(w, err) ← tcp_process (upd_in w (i_input_pcb pcb)) pcb;
         if err =? ERR_ABRT then Some w
         else if got w TF_RESET then
           let t := pcb_of w pcb in
           w ← TCP_EVENT_ERR w (t_errf t) (t_callback_arg t) ERR_RST;
           input_remove w pcb
         else input_events w pcb
       else Some w);
  input_aborted w.

(** [tcp_input(p, inp)] *)
Definition tcp_input w (p inp : Z) : option (world X) :=
  let w := stats_inc S_tcp F_recv w in
  let hdr := payload w p in
  let w := upd_in w (fun i => mk_in (inseg i) hdr (tcphdr_optlen i) (tcphdr_opt1len i) (tcphdr_opt2 i) (tcp_optidx i)
    (seqno i) (ackno i) (recv_acked i) (tcplen i) (in_flags i) (recv_flags i) (recv_data i) (tcp_input_pcb i)) in
  let dropped w := wfree (stats_inc S_tcp F_drop w) p in
  let dest := current_iphdr_dest (ip_data w) in
  if pb_len (pb (w_ps w) p) <? TCP_HLEN then dropped (stats_inc S_tcp F_lenerr w)
  else if negb (ip4_addr_isbroadcast_u32 dest (netif_of w (current_netif (ip_data w))) =? 0) || ip4_addr_ismulticast dest
  then dropped (stats_inc S_tcp F_proterr w)
  else
    let hdrlen_bytes := u8 (TCPH_HDRLEN (wmem w) hdr * 4) in
    if (hdrlen_bytes <? TCP_HLEN) || (pb_tot_len (pb (w_ps w) p) <? hdrlen_bytes) then dropped (stats_inc S_tcp F_lenerr w)
    else
      match skip_options w p hdrlen_bytes with
      | (w, inr _) => dropped (stats_inc S_tcp F_lenerr w)
      | (w, inl (opt1len, opt2)) =>
          let w := read_header w p hdr (hdrlen_bytes - TCP_HLEN) opt1len opt2 in
          match find_pcb w Active with
          | Some pcb => input_pcb (move_to_front w Active pcb) p pcb
          | None =>
              match find_pcb w Timewait with
              | Some pcb => w ← tcp_timewait_input w pcb; wfree w p
              | None =>
                  match find_pcb w Listening with
                  | Some lpcb => w ← tcp_listen_input (move_to_front w Listening lpcb) lpcb; wfree w p
                  | None =>
                      w ← (if negb (has_flag (TCPH_FLAGS (wmem w) hdr) TCP_RST)
                           then rst_segment (stats_inc S_tcp F_drop (stats_inc S_tcp F_proterr w)) else Some w);
                      wfree w p
                  end
              end
          end
      end.

End TcpIn.
