(* ===== verification/TcpFrame.v ===== *)
(** * What the TCP functions leave alone

    A property of the world that the packet buffers, the segments, the members of a PCB
    other than its state and its local port, and the variables of the input processing other
    than [recv_flags] do not matter for is kept by everything that sends or frees segments. *)

From Stdlib Require Import ZArith Lia.
From stdpp Require Import base tactics numbers list option gmap.
From S2P Require Import Prelude.
From S2P Require Import Def.
From S2P Require Import Ip4Addr.
From S2P Require Import Alloc.
From S2P Require Import Mem.
From S2P Require Import Memp.
From S2P Require Import Pbuf.
From S2P Require Import World.
From S2P Require Import Ip4Frag.
From S2P Require Import Ip4.
From S2P Require Import Icmp.
From S2P Require Import Udp.
From S2P Require Import Tcp.
From S2P Require Import TcpOut.
From S2P Require Import TcpCore.
From S2P Require Import TcpIn.

(** ** Results that carry a world *)

Class has_world (X A : Type) := wof : A -> world X.
#[export] Instance world_has {X} : has_world X (world X) := id.
#[export] Instance pair_has {X A B} `{!has_world X A} : has_world X (A * B) := fun a => wof a.1.

(** A partial function that keeps a property, if it ends. *)
Definition keeps {X A} `{!has_world X A} (I : world X -> Prop) (o : option A) : Prop :=
  match o with Some a => I (wof a) | None => True end.

Section Keeps.
Context {X : Type} (I : world X -> Prop).

Lemma keeps_some {A} `{!has_world X A} (o : option A) a : keeps I o -> o = Some a -> I (wof a).
Proof. intros H ->. exact H. Qed.
Lemma keeps_of {A} `{!has_world X A} (o : option A) : (forall a, o = Some a -> I (wof a)) -> keeps I o.
Proof. destruct o; [|done]. intros H. by apply H. Qed.
Lemma keeps_bind {A B} `{!has_world X A, !has_world X B} (o : option A) (k : A -> option B) :
  keeps I o -> (forall a, I (wof a) -> keeps I (k a)) -> keeps I (o ≫= k).
Proof. destruct o; [|done]. intros H Hk. by apply Hk. Qed.
Lemma keeps_pure {A B} `{!has_world X B} (o : option A) (k : A -> option B) :
  (forall a, keeps I (k a)) -> keeps I (o ≫= k).
Proof. destruct o; [|done]. intros Hk. apply Hk. Qed.
Lemma keeps_fst {A} `{!has_world X A} {B} (o : option (A * B)) : keeps I o -> keeps I (fst <$> o).
Proof. by destruct o. Qed.

Lemma keeps_then (J : world X -> Prop) {A B} `{!has_world X A, !has_world X B} (o : option A) (k : A -> option B) :
  keeps I o -> (forall a, I (wof a) -> keeps J (k a)) -> keeps J (o ≫= k).
Proof. destruct o; [|done]. intros H Hk. by apply Hk. Qed.
Lemma keeps_weaken (J : world X -> Prop) {A} `{!has_world X A} (o : option A) : (forall w, I w -> J w) -> keeps I o -> keeps J o.
Proof. destruct o; [|done]. intros H. apply H. Qed.

(** A loop that keeps the property. *)
Lemma keeps_loop {A B} `{!has_world X A, !has_world X B} fuel (step : A -> A + option B) s :
  (forall a, I (wof a) -> match step a with inl a' => I (wof a') | inr r => keeps I r end) -> I (wof s) ->
  keeps I (loop fuel step s ≫= id).
Proof.
  intros Hs. revert s. induction fuel as [|n IH]; intros s Hi; [done|]. cbn [loop]. specialize (Hs s Hi).
  destruct (step s) as [s'|r]; [by apply IH|exact Hs].
Qed.
End Keeps.

(** The first part of a bind keeps [J]. *)
Ltac kthen J :=
  match goal with
  | |- @keeps ?X ?B ?hB ?K (@mbind _ _ ?A _ ?k ?o) =>
      let h := constr:(_ : has_world X A) in
      apply (@keeps_then X J K A B h hB o k); [|let a := fresh "a" in let H := fresh "H" in intros a H; cbv beta iota delta [wof pair_has world_has id fst snd] in H; revert a H]
  end.

(** ** Frames *)

(** A function on PCBs that does not change the state and the local port. *)
Definition quiet (f : tcp_pcb -> tcp_pcb) : Prop := forall t, t_state (f t) = t_state t /\ t_local_port (f t) = t_local_port t.

(** A function on the variables of the input that does not change [recv_flags]. *)
Definition quiet_in (f : tcp_in_vars -> tcp_in_vars) : Prop := forall i, recv_flags (f i) = recv_flags i.

Class seg_frame {X} `{!tcp_store X} (I : world X -> Prop) : Prop := {
  sf_ip :: ip_frame I;
  sf_seg : forall w g, I w -> I (upd_tcp w (fun v => v_seg_at (g v) v))
}.
Class tcp_frame {X} `{!tcp_store X} (I : world X -> Prop) : Prop := {
  tf_seg :: seg_frame I;
  tf_pcb : forall w pcb f, quiet f -> I w -> I (upd_pcb w pcb f);
  tf_in : forall w f, quiet_in f -> I w -> I (upd_in w f)
}.

Lemma quiet_rto : quiet rto_backoff.
Proof. intros t. unfold rto_backoff. cbv zeta. destruct (negb _); destruct (_ <? _); by split. Qed.
Lemma quiet_window s a n : quiet (ack_window s a n).
Proof. intros t. unfold ack_window. destruct (_ || _); [|done]. cbv zeta. repeat match goal with |- context [if ?b then _ else _] => destruct b end; by split. Qed.
Lemma quiet_inflate : quiet inflate_cwnd.
Proof. intros t. unfold inflate_cwnd. destruct (_ <? _); by split. Qed.
Lemma quiet_new a : quiet (ack_new a).
Proof.
  intros t. unfold ack_new. cbv zeta. destruct (has_flag _ _).
  all: destruct (_ <=? _); [|by split]; destruct (_ <? _); [|destruct (_ <? _); by split];
    match goal with |- context [inflate_cwnd ?u] => destruct (quiet_inflate u) as [-> ->] end; by split.
Qed.
Lemma quiet_rtt k a : quiet (rtt_estimate k a).
Proof. intros t. unfold rtt_estimate. destruct (_ && _); by split. Qed.
Create HintDb quiet discriminated.
#[export] Hint Resolve quiet_rto quiet_window quiet_inflate quiet_new quiet_rtt : quiet.
Ltac quiet := first [solve [auto with quiet] | solve [intros ?; cbv beta zeta; repeat case_match; split; reflexivity]].

Ltac quiet_in := solve [intros ?; cbv beta zeta; repeat case_match; reflexivity].

(** Removes from the goal the updates that the frames allow. *)
Ltac tframe1 :=
  match goal with
  | |- _ (if ?b then _ else _) => destruct b
  | |- _ (match ?b with _ => _ end) => destruct b
  | |- ?I (set_wmem _ _) => apply (frame_mem I)
  | |- ?I (set_wps _ _) => apply (frame_ps (I:=I))
  | |- ?I (stats_inc _ _ _) => apply (frame_stats (I:=I))
  | |- ?I (upd_seg _ ?s ?f) => apply (sf_seg (I:=I) _ (fun t => alter f s (tcp_seg_at t)))
  | |- ?I (upd_in _ _) => apply (tf_in (I:=I)); [quiet_in|]
  | |- ?I (set_flag _ _ _) => apply (tf_pcb (I:=I)); [quiet|]
  | |- ?I (clear_flag _ _ _) => apply (tf_pcb (I:=I)); [quiet|]
  | |- ?I (upd_pcb _ _ _) => apply (tf_pcb (I:=I)); [quiet|]
  | |- ?I (upd_tcp _ (fun v => v_seg_at (@?g v) v)) => apply (sf_seg (I:=I) _ g)
  | |- ?I (wmfree _ _ _) => apply (frame_ps (I:=I))
  | |- ?I (tcp_ack_now _ _) => apply (tf_pcb (I:=I)); [quiet|]
  | |- ?I (upd_inseg _ _) => apply (tf_in (I:=I)); [quiet_in|]
  | |- ?I (set_tcplen _) => apply (tf_in (I:=I)); [quiet_in|]
  end.
Ltac tframe := repeat tframe1; try assumption.

Create HintDb keep discriminated.
#[export] Hint Constants Opaque : keep.
#[export] Hint Extern 3 => progress tframe : keep.
#[export] Hint Extern 0 (seg_frame _) => apply _ : keep.
#[export] Hint Extern 0 (tcp_frame _) => apply _ : keep.

(** The proof that a monadic definition keeps a property goes through it step by step; what
    it calls is in the database. *)
Ltac kintro :=
  let a := fresh "a" in let H := fresh "Hi" in
  intros a H;
  repeat match type of a with
         | (_ * _)%type => let b := fresh "a" in let r := fresh "r" in destruct a as [b r]; rename b into a
         end;
  cbv beta iota delta [wof pair_has world_has id fst snd] in H.
Ltac keep :=
  match goal with
  | |- keeps _ None => exact Logic.I
  | |- keeps _ (Some _) => cbv beta iota delta [keeps wof pair_has world_has id fst snd]; keep
  | |- keeps _ (fst <$> _) => apply keeps_fst; keep
  | |- keeps _ (let x := _ in _) => cbv zeta; keep
  | |- keeps _ (if ?b then _ else _) => destruct b; keep
  | |- keeps ?I (match ?o with pair _ _ => _ end) =>
      let H := fresh "Hi" in
      first [assert (H : I (wof o)) by (cbv beta iota delta [wof pair_has world_has id]; keep)|assert (H := Logic.I)];
      destruct o; cbv beta iota delta [wof pair_has world_has id fst snd] in H; keep
  | |- keeps _ (match ?b with _ => _ end) => destruct b; keep
  | |- keeps _ (loop _ _ _ ≫= id) => eauto with keep
  | |- @keeps ?X ?B ?hB ?I (@mbind _ _ ?A _ ?k ?o) =>
      first [let h := constr:(_ : has_world X A) in apply (@keeps_bind X I A B h hB o k); [|kintro] | apply keeps_pure; intros]; keep
  | |- keeps _ _ => solve [eauto with keep]
  | |- _ => tframe; try solve [eauto with keep]
  end.

Section Frames.
Context {X : Type} `{!tcp_store X}.
Context (netif_output : world X -> Z -> Z -> Z -> option (world X * Z)).
Context (custom_free : pstate -> Z -> pstate) (fuel : nat).

(** ** Segments and pbufs *)

Section Seg.
Context (I : world X -> Prop) `{!seg_frame I}.
Implicit Types w : world X.

Lemma wfree_I w p : I w -> keeps I (wfree custom_free fuel w p).
Proof. intros Hi. apply keeps_of. intros a E. exact (wfree_keeps _ _ I _ _ _ E Hi). Qed.
Lemma wmalloc_I w t : I w -> I (wmalloc w t).1.
Proof. intros Hi. unfold wmalloc. destruct (memp_malloc _ _). by apply frame_ps. Qed.
Lemma route_I w d : I w -> I (ip4_route w d).1.
Proof. apply (ip4_route_keeps I). Qed.
Lemma eff_send_mss_I w a d : I w -> I (tcp_eff_send_mss w a d).1.
Proof.
  intros Hi. unfold tcp_eff_send_mss. pose proof (route_I w d Hi) as H. destruct (ip4_route w d). by destruct (_ =? _).
Qed.
Lemma alloc_I w layer len type : I w ->
  keeps I (match pbuf_alloc custom_free fuel (w_ps w) layer len type with None => None | Some (st, p) => Some (set_wps w st, p) end).
Proof. intros Hi. destruct (pbuf_alloc _ _ _ _ _ _) as [[st p]|]; [|done]. by apply frame_ps. Qed.
#[local] Hint Resolve wfree_I wmalloc_I route_I eff_send_mss_I alloc_I : keep.

Lemma seg_free_I w s : I w -> keeps I (tcp_seg_free custom_free fuel w s).
Proof. intros Hi. unfold tcp_seg_free. cbv zeta. keep. Qed.
#[local] Hint Resolve seg_free_I : keep.
Lemma segs_free_I w l : I w -> keeps I (tcp_segs_free custom_free fuel w l).
Proof. revert w. induction l as [|s l IH]; intros w Hi; cbn [tcp_segs_free]; keep. Qed.
Lemma seg_copy_I w s : I w -> I (tcp_seg_copy w s).1.
Proof.
  intros Hi. unfold tcp_seg_copy. pose proof (wmalloc_I w MEMP_TCP_SEG Hi) as H. destruct (wmalloc _ _) as [w1 a].
  destruct (_ =? _); [done|]. cbn [fst]. tframe.
Qed.
#[local] Hint Resolve segs_free_I seg_copy_I : keep.
Lemma create_segment_I w pcb p flags seq opt : I w -> keeps I (tcp_create_segment custom_free fuel w pcb p flags seq opt).
Proof. intros Hi. unfold tcp_create_segment. cbv zeta. keep. Qed.
Lemma prealloc_I w layer len max pcb fl first : I w -> keeps I (tcp_pbuf_prealloc custom_free fuel w layer len max pcb fl first).
Proof. intros Hi. unfold tcp_pbuf_prealloc. keep. Qed.
#[local] Hint Resolve create_segment_I prealloc_I : keep.
Lemma write_tail_I w pcb arg len fl mss s : I w -> keeps I (write_tail custom_free fuel w pcb arg len fl mss s).
Proof. intros Hi. unfold write_tail. cbv zeta. keep. Qed.
Lemma segment_pbuf_I w pcb arg len pos fl mss ov first : I w -> keeps I (segment_pbuf custom_free fuel w pcb arg len pos fl mss ov first).
Proof. intros Hi. unfold segment_pbuf. keep. Qed.
#[local] Hint Resolve write_tail_I segment_pbuf_I : keep.
Lemma write_step_I pcb arg len fl mss (s : world X * write_vars) :
  I s.1 -> match write_step custom_free fuel pcb arg len fl mss s with inl s' => I s'.1 | inr r => keeps I r end.
Proof.
  destruct s as [w v]. cbn [fst]. intros Hi. unfold write_step. destruct (_ <? _); [|exact Hi].
  match goal with |- context [segment_pbuf ?cf ?fu ?w ?a ?b ?c ?d ?e ?f ?g ?h] =>
    pose proof (segment_pbuf_I w a b c d e f g h Hi) as H1; destruct (segment_pbuf cf fu w a b c d e f g h) as [[[w1 p] ov]|] end; [|done].
  cbv beta iota delta [keeps wof pair_has world_has id fst] in H1. destruct (_ =? _); [exact H1|]. destruct (pbuf_clen _ _ _); [|done].
  cbv zeta. destruct (_ || _).
  - pose proof (wfree_I w1 p H1) as H2. destruct (wfree _ _ _ _); [exact H2|done].
  - match goal with |- context [tcp_create_segment ?cf ?fu ?w ?a ?b ?c ?d ?e] =>
      pose proof (create_segment_I w a b c d e H1) as H2; destruct (tcp_create_segment cf fu w a b c d e) as [[w2 seg]|] end; [|done].
    destruct (_ =? _); exact H2.
Qed.
Lemma add_used_I w s arg used : I w -> keeps I (add_used fuel w s arg used).
Proof. intros Hi. unfold add_used. keep. Qed.
Lemma extend_rom_I w s n : I w -> keeps I (extend_rom fuel w s n).
Proof. intros Hi. unfold extend_rom. keep. Qed.
End Seg.

(** ** Output *)

(** The lemmas above for a frame that is not a variable of the section. *)
Ltac seg_pure :=
  match goal with
  | |- ?I (fst (wmalloc _ _)) => apply (wmalloc_I I)
  | |- ?I (fst (ip4_route _ _)) => apply (route_I I)
  | |- ?I (fst (tcp_eff_send_mss _ _ _)) => apply (eff_send_mss_I I)
  | |- ?I (fst (tcp_seg_copy _ _)) => apply (seg_copy_I I)
  end.
#[local] Hint Extern 2 => seg_pure : keep.
#[local] Hint Resolve wfree_I alloc_I seg_free_I segs_free_I create_segment_I prealloc_I write_tail_I add_used_I extend_rom_I : keep.

Section Out.
Context (I : world X -> Prop) `{!tcp_frame I} (Hout : output_keeps netif_output I).
Implicit Types w : world X.

Lemma output_if_I w p src dest ttl tos proto nif :
  I w -> keeps I (ip4_output_if netif_output custom_free fuel w p src dest ttl tos proto nif).
Proof. intros Hi. apply keeps_of. intros [w' r] E. exact (ip4_output_if_keeps _ _ _ I Hout _ _ _ _ _ _ _ _ _ _ E Hi). Qed.
#[local] Hint Resolve output_if_I : keep.

Lemma alloc_header_I w pcb a b c : I w -> keeps I (tcp_output_alloc_header custom_free fuel w pcb a b c).
Proof. intros Hi. unfold tcp_output_alloc_header. keep. Qed.
#[local] Hint Resolve alloc_header_I : keep.
Lemma write_commit_I w pcb arg len fl s v : I w -> keeps I (write_commit fuel w pcb arg len fl s v).
Proof. intros Hi. unfold write_commit. keep. Qed.
Lemma write_memerr_I w pcb v : I w -> keeps I (write_memerr custom_free fuel w pcb v).
Proof. intros Hi. unfold write_memerr. keep. Qed.
Lemma write_checks_I w pcb len : I w -> I (tcp_write_checks w pcb len).1.
Proof. intros Hi. unfold tcp_write_checks. repeat case_match; cbn [fst]; tframe. Qed.
#[local] Hint Resolve write_commit_I write_memerr_I write_checks_I : keep.
Lemma write_loop_I w v pcb arg len fl mss : I w -> keeps I (loop fuel (write_step custom_free fuel pcb arg len fl mss) (w, v) ≫= id).
Proof. intros Hi. apply (keeps_loop I (A:=world X * write_vars)); [|exact Hi]. intros a. apply write_step_I; apply _. Qed.
#[local] Hint Resolve write_loop_I : keep.
Lemma write_I w pcb arg len fl : I w -> keeps I (tcp_write custom_free fuel w pcb arg len fl).
Proof. intros Hi. unfold tcp_write. keep. Qed.
Lemma enqueue_flags_I w pcb fl : I w -> keeps I (tcp_enqueue_flags custom_free fuel w pcb fl).
Proof. intros Hi. unfold tcp_enqueue_flags. keep. Qed.
#[local] Hint Resolve enqueue_flags_I : keep.
Lemma send_fin_I w pcb : I w -> keeps I (tcp_send_fin custom_free fuel w pcb).
Proof. intros Hi. unfold tcp_send_fin. keep. Qed.
Lemma send_pbuf_I w pcb p tos c : I w -> keeps I (send_pbuf netif_output custom_free fuel w pcb p tos c).
Proof. intros Hi. unfold send_pbuf. keep. Qed.
#[local] Hint Resolve send_pbuf_I : keep.
Lemma send_empty_ack_I w pcb : I w -> keeps I (tcp_send_empty_ack netif_output custom_free fuel w pcb).
Proof. intros Hi. unfold tcp_send_empty_ack. keep. Qed.
Lemma eff_mss_then w a d f : (forall w' m, I w' -> I (f w' m)) -> I w -> I (let '(w', m) := tcp_eff_send_mss w a d in f w' m).
Proof. intros Hf Hi. pose proof (eff_send_mss_I I w a d Hi) as H. destruct (tcp_eff_send_mss w a d). by apply Hf. Qed.
Lemma output_segment_I w seg pcb nif : I w -> keeps I (tcp_output_segment netif_output custom_free fuel w seg pcb nif).
Proof.
  intros Hi. unfold tcp_output_segment. destruct (negb _); [exact Hi|]. cbv zeta. apply output_if_I.
  repeat first [apply eff_mss_then; [intros|] | tframe1]; assumption.
Qed.
Lemma queue_unacked_I w pcb seg : I w -> keeps I (queue_unacked custom_free fuel w pcb seg).
Proof. intros Hi. unfold queue_unacked. keep. Qed.
#[local] Hint Resolve send_empty_ack_I output_segment_I queue_unacked_I : keep.
Lemma output_step_I pcb nif wnd w :
  I w -> match output_step netif_output custom_free fuel pcb nif wnd w with inl w' => I w' | inr r => keeps I r end.
Proof.
  intros Hi. unfold output_step. destruct (t_unsent _) as [|seg l]; [exact Hi|]. destruct (negb (_ <=? _)); [exact Hi|]. destruct (_ && _); [exact Hi|].
  cbv zeta. match goal with |- context [tcp_output_segment _ _ _ ?w1 _ _ _] => assert (H1 : I w1) by tframe; set (w2 := w1) in * end.
  pose proof (output_segment_I w2 seg pcb nif H1) as H2. destruct (tcp_output_segment _ _ _ _ _ _ _) as [[w3 err]|]; [|done].
  destruct (negb (err =? ERR_OK)); [by apply (tf_pcb (I:=I)); [quiet|]|]. pose proof (queue_unacked_I w3 pcb seg H2) as H3. destruct (queue_unacked _ _ _ _ _); [exact H3|done].
Qed.
Lemma output_loop_I pcb nif wnd w : I w -> keeps I (loop fuel (output_step netif_output custom_free fuel pcb nif wnd) w ≫= id).
Proof. intros Hi. apply (keeps_loop I (A:=world X)); [|exact Hi]. intros a. apply output_step_I. Qed.
#[local] Hint Resolve output_loop_I : keep.
Lemma output_I w pcb : I w -> keeps I (tcp_output netif_output custom_free fuel w pcb).
Proof. intros Hi. unfold tcp_output, output_done. keep. Qed.
#[local] Hint Resolve output_I : keep.
Lemma rst_I w a b c d e f : I w -> keeps I (tcp_rst netif_output custom_free fuel w a b c d e f).
Proof. intros Hi. unfold tcp_rst. keep. Qed.
Lemma rexmit_rto_I w pcb : I w -> keeps I (tcp_rexmit_rto netif_output custom_free fuel w pcb).
Proof. intros Hi. unfold tcp_rexmit_rto, count_rexmit. keep. Qed.
Lemma rexmit_I w pcb : I w -> I (tcp_rexmit w pcb).
Proof. intros Hi. unfold tcp_rexmit, count_rexmit. cbv zeta. tframe. Qed.
Lemma rexmit_fast_I w pcb : I w -> I (tcp_rexmit_fast w pcb).
Proof. intros Hi. unfold tcp_rexmit_fast. destruct (_ && _); [|done]. cbv zeta. apply tf_pcb; [quiet|]. by apply rexmit_I. Qed.
Lemma keepalive_I w pcb : I w -> keeps I (tcp_keepalive netif_output custom_free fuel w pcb).
Proof. intros Hi. unfold tcp_keepalive. keep. Qed.
Lemma probe_I w pcb : I w -> keeps I (tcp_zero_window_probe netif_output custom_free fuel w pcb).
Proof. intros Hi. unfold tcp_zero_window_probe. keep. Qed.

(** ** Connections and received segments *)

#[local] Hint Resolve output_if_I alloc_header_I write_I enqueue_flags_I send_fin_I send_empty_ack_I output_I rst_I rexmit_rto_I
  keepalive_I probe_I : keep.
Context (tcp_timer_needed : world X -> world X) (cb : tcp_callbacks X) (tcp_recv_null_fn : Z).

Lemma purge_I w pcb : I w -> keeps I (tcp_pcb_purge custom_free fuel w pcb).
Proof. intros Hi. unfold tcp_pcb_purge. cbv zeta. keep. Qed.
Lemma update_wnd_I w pcb : I w -> I (tcp_update_rcv_ann_wnd w pcb).1.
Proof. intros Hi. unfold tcp_update_rcv_ann_wnd. cbv zeta. repeat case_match; cbn [fst]; tframe. Qed.
#[local] Hint Resolve purge_I update_wnd_I : keep.
Lemma recved_I w pcb len : I w -> keeps I (tcp_recved netif_output custom_free fuel w pcb len).
Proof. intros Hi. unfold tcp_recved. cbv zeta. keep. Qed.
Lemma slow_persist_I w pcb : I w -> keeps I (slow_persist netif_output custom_free fuel w pcb).
Proof. intros Hi. unfold slow_persist. cbv zeta. keep. Qed.
#[local] Hint Resolve slow_persist_I : keep.
Lemma slow_rexmit_I w pcb : I w -> keeps I (slow_rexmit netif_output custom_free fuel w pcb).
Proof. intros Hi. unfold slow_rexmit. cbv zeta. keep. Qed.
Lemma slow_keepalive_I w pcb : I w -> keeps I (slow_keepalive netif_output custom_free fuel w pcb).
Proof. intros Hi. unfold slow_keepalive. cbv zeta. keep. Qed.
Lemma slow_ooseq_I w pcb : I w -> keeps I (slow_ooseq custom_free fuel w pcb).
Proof. intros Hi. unfold slow_ooseq. cbv zeta. keep. Qed.
#[local] Hint Resolve slow_rexmit_I slow_keepalive_I slow_ooseq_I : keep.
Lemma slow_checks_I w pcb : I w -> keeps I (slow_checks netif_output custom_free fuel w pcb).
Proof. intros Hi. unfold slow_checks. keep. Qed.
Lemma fast_ack_I w pcb : I w -> keeps I (fast_ack netif_output custom_free fuel w pcb).
Proof. intros Hi. unfold fast_ack. keep. Qed.

Lemma getoptbyte_I w : I w -> I (tcp_getoptbyte w).1.
Proof. intros Hi. unfold tcp_getoptbyte. cbv zeta. cbn [fst]. tframe. Qed.
Lemma parseopt_step_I pcb w : I w -> match parseopt_step pcb w with inl w' => I w' | inr w' => I w' end.
Proof.
  intros Hi. unfold parseopt_step. destruct (negb _); [done|].
  repeat match goal with
         | |- context [tcp_getoptbyte ?w] => let H := fresh in assert (H : I (tcp_getoptbyte w).1) by (apply getoptbyte_I; assumption);
             destruct (tcp_getoptbyte w); cbn [fst] in H
         | |- match (if ?b then _ else _) with _ => _ end => destruct b; [try assumption|]
         end; cbv zeta; tframe.
Qed.
Lemma parseopt_I w pcb : I w -> keeps I (tcp_parseopt fuel w pcb).
Proof.
  intros Hi. unfold tcp_parseopt. destruct (negb _); [|exact Hi]. assert (H : I (upd_in w (i_optidx 0))) by tframe. clear Hi.
  generalize dependent (upd_in w (i_optidx 0)). clear w. induction fuel as [|n IH]; intros w Hi; [done|]. cbn [loop].
  pose proof (parseopt_step_I pcb w Hi) as Hs. destruct (parseopt_step pcb w); [by apply IH|exact Hs].
Qed.

Lemma release_seg_I w pcb s : I w -> keeps I (release_seg custom_free fuel w pcb s).
Proof. intros Hi. unfold release_seg. keep. Qed.
#[local] Hint Resolve release_seg_I : keep.
Lemma ack_unacked_I pcb a l w : I w -> keeps I (ack_unacked custom_free fuel w pcb a l).
Proof. revert w. induction l as [|s l IH]; intros w Hi; cbn [ack_unacked]; keep. Qed.
Lemma ack_unsent_I pcb a l w : I w -> keeps I (ack_unsent custom_free fuel w pcb a l).
Proof. revert w. induction l as [|s l IH]; intros w Hi; cbn [ack_unsent]; cbv zeta; keep. Qed.
Lemma ack_old_I w pcb e : I w -> I (ack_old w pcb e).
Proof.
  intros Hi. unfold ack_old. cbv zeta. destruct (is_dupack _ _ _ _); [|tframe]. destruct (3 <? _); [tframe|].
  destruct (_ =? 3); [apply rexmit_fast_I|]; tframe.
Qed.
#[local] Hint Resolve ack_unacked_I ack_unsent_I ack_old_I : keep.
Lemma receive_ack_I w pcb : I w -> keeps I (receive_ack netif_output custom_free fuel w pcb).
Proof. intros Hi. unfold receive_ack. cbv zeta. keep. Qed.

Lemma wrealloc_I w p n : I w -> keeps I (wrealloc custom_free fuel w p n).
Proof. intros Hi. unfold wrealloc. keep. Qed.
#[local] Hint Resolve wrealloc_I : keep.
Lemma oos_covered_I r h l w : I w -> keeps I (oos_covered custom_free fuel w r h l).
Proof. revert w. induction l as [|s l IH]; intros w Hi; cbn [oos_covered]; cbv zeta; keep. Qed.
#[local] Hint Resolve oos_covered_I : keep.
Lemma oos_insert_I w c l : I w -> keeps I (tcp_oos_insert_segment custom_free fuel w c l).
Proof. intros Hi. unfold tcp_oos_insert_segment. cbv zeta. keep. Qed.
Lemma oos_trim_I w s : I w -> keeps I (oos_trim custom_free fuel w s).
Proof. intros Hi. unfold oos_trim. cbv zeta. keep. Qed.
Lemma oos_window_I w pcb s : I w -> keeps I (oos_window custom_free fuel w pcb s).
Proof. intros Hi. unfold oos_window. cbv zeta. keep. Qed.
#[local] Hint Resolve oos_insert_I oos_trim_I oos_window_I : keep.
Lemma oos_put_I w pcb t f l : I w -> keeps I (oos_put custom_free fuel w pcb t f l).
Proof. intros Hi. unfold oos_put. keep. Qed.
Lemma oos_append_I w pcb n f : I w -> keeps I (oos_append custom_free fuel w pcb n f).
Proof. intros Hi. unfold oos_append. keep. Qed.
#[local] Hint Resolve oos_put_I oos_append_I : keep.
Lemma oos_walk_I pcb l f pr w : I w -> keeps I (oos_walk custom_free fuel w pcb f pr l).
Proof. revert f pr w. induction l as [|s l IH]; intros f pr w Hi; cbn [oos_walk]; cbv zeta; keep. Qed.
#[local] Hint Resolve oos_walk_I : keep.
Lemma receive_ooseq_I w pcb : I w -> keeps I (receive_ooseq netif_output custom_free fuel w pcb).
Proof. intros Hi. unfold receive_ooseq. keep. Qed.
Lemma trim_front_I w pcb : I w -> keeps I (trim_front fuel w pcb).
Proof. intros Hi. unfold trim_front. cbv zeta. keep. Qed.
Lemma cut_inseg_I w n : I w -> keeps I (cut_inseg custom_free fuel w n).
Proof. intros Hi. unfold cut_inseg. keep. Qed.
#[local] Hint Resolve receive_ooseq_I trim_front_I cut_inseg_I : keep.
Lemma trim_window_I w pcb : I w -> keeps I (trim_window custom_free fuel w pcb).
Proof. intros Hi. unfold trim_window. cbv zeta. keep. Qed.
Lemma inseq_covered_I l w : I w -> keeps I (inseq_covered custom_free fuel w l).
Proof. revert w. induction l as [|s l IH]; intros w Hi; cbn [inseq_covered]; cbv zeta; keep. Qed.
#[local] Hint Resolve inseq_covered_I : keep.
Lemma trim_ooseq_I w pcb : I w -> keeps I (trim_ooseq custom_free fuel w pcb).
Proof. intros Hi. unfold trim_ooseq. cbv zeta. keep. Qed.
Lemma advance_I w pcb n k : I w -> I (advance w pcb n k).
Proof. intros Hi. unfold advance. apply update_wnd_I. tframe. Qed.
Lemma rst_segment_I w : I w -> keeps I (rst_segment netif_output custom_free fuel w).
Proof. intros Hi. unfold rst_segment. cbv zeta. keep. Qed.
Lemma timewait_input_I w pcb : I w -> keeps I (tcp_timewait_input netif_output custom_free fuel w pcb).
Proof. intros Hi. pose proof (rst_segment_I w Hi) as Hr. unfold tcp_timewait_input. cbv zeta. keep. Qed.
End Out.
End Frames.
