(* ===== verification/TcpLists.v ===== *)
(** * The lists of PCBs

    [tcp_priv.h] states as axioms that a PCB is in one list only, that the listening list
    holds PCBs in state LISTEN, the TIME-WAIT list PCBs in state TIME-WAIT, and the active
    list PCBs in the other states.  Here they are an invariant of the operations of
    [tcp.c], of its timers and of the state machine for connections that are open. *)

From Stdlib Require Import ZArith Lia.
From stdpp Require Import base tactics numbers list option gmap relations.
From S2P Require Import Prelude.
From S2P Require Import Def.
From S2P Require Import Ip4Addr.
From S2P Require Import Alloc.
From S2P Require Import Mem.
From S2P Require Import Memp.
From S2P Require Import Pbuf.
From S2P Require Import World.
From S2P Require Import Ip4Frag.
From S2P Require Import Ip4.
From S2P Require Import Icmp.
From S2P Require Import Udp.
From S2P Require Import Tcp.
From S2P Require Import TcpOut.
From S2P Require Import TcpCore.
From S2P Require Import TcpIn.
From S2P Require Import TcpFrame.

#[export] Instance pcb_list_eq_dec : EqDecision pcb_list.
Proof. solve_decision. Defined.

(** ** The invariant *)

(** The list for a PCB in a state, with a local port. *)
Definition home (s : tcp_state) (port : Z) : option pcb_list :=
  match s with
  | CLOSED => if port =? 0 then None else Some Bound
  | LISTEN => None
  | TIME_WAIT => Some Timewait
  | _ => Some Active
  end.
(** The list for an address. *)
Definition belongs (v : tcp_vars) (p : Z) : option pcb_list :=
  match tcp_listen_at v !! p with
  | Some l => if state_is (l_state l) LISTEN then Some Listening else None
  | None => match tcp_pcb_at v !! p with Some t => home (t_state t) (t_local_port t) | None => None end
  end.

Record lists_ok (v : tcp_vars) : Prop := {
  lk_nodup : forall l, NoDup (pcbs v l);
  lk_home : forall l p, p ∈ pcbs v l -> belongs v p = Some l;
  lk_null : tcp_pcb_at v !! NULL = None /\ tcp_listen_at v !! NULL = None;
  lk_disj : forall p, is_Some (tcp_pcb_at v !! p) -> tcp_listen_at v !! p = None;
  lk_listen : forall p x, tcp_listen_at v !! p = Some x -> l_state x = LISTEN \/ l_state x = CLOSED;
  lk_pcb : forall p t, tcp_pcb_at v !! p = Some t -> t_state t <> LISTEN
}.
(** A PCB that is in no list. *)
Definition out (v : tcp_vars) (p : Z) : Prop := forall l, p ∉ pcbs v l.

(** What the invariant depends on. *)
Definition key (t : tcp_pcb) : tcp_state * Z := (t_state t, t_local_port t).
Definition shape (v : tcp_vars) :=
  (tcp_listen_pcbs v, tcp_bound_pcbs v, tcp_active_pcbs v, tcp_tw_pcbs v, key <$> tcp_pcb_at v, tcp_listen_at v, tcp_active_pcbs_changed v, recv_flags (tcp_in v)).

Section Shape.
Implicit Types v : tcp_vars.

Lemma shape_pcbs v v' l : shape v' = shape v -> pcbs v' l = pcbs v l.
Proof. unfold shape. intros E. by destruct l; simpl; injection E. Qed.
Lemma shape_key v v' p : shape v' = shape v -> key <$> tcp_pcb_at v' !! p = key <$> tcp_pcb_at v !! p.
Proof. unfold shape. intros E. injection E as _ _ _ _ E _ _ _. rewrite <- !lookup_fmap. by rewrite E. Qed.
Lemma shape_listen v v' : shape v' = shape v -> tcp_listen_at v' = tcp_listen_at v.
Proof. unfold shape. intros E. by injection E. Qed.
Lemma shape_changed v v' : shape v' = shape v -> tcp_active_pcbs_changed v' = tcp_active_pcbs_changed v.
Proof. unfold shape. intros E. by injection E. Qed.
Lemma shape_belongs v v' p : shape v' = shape v -> belongs v' p = belongs v p.
Proof.
  intros E. unfold belongs. rewrite (shape_listen _ _ E). destruct (tcp_listen_at v !! p); [done|].
  pose proof (shape_key _ _ p E) as Hk. destruct (tcp_pcb_at v' !! p), (tcp_pcb_at v !! p); try done. simpl in Hk. by injection Hk as -> ->.
Qed.
Lemma shape_ok v v' : shape v' = shape v -> lists_ok v -> lists_ok v'.
Proof.
  intros E [H1 H2 H3 H4 H5 H6]. constructor.
  - intros l. by rewrite (shape_pcbs _ _ l E).
  - intros l p. rewrite (shape_pcbs _ _ l E), (shape_belongs _ _ p E). apply H2.
  - rewrite (shape_listen _ _ E). split; [|apply H3]. pose proof (shape_key _ _ NULL E) as Hk. rewrite (proj1 H3) in Hk.
    by destruct (tcp_pcb_at v' !! NULL).
  - intros p [t Hp]. rewrite (shape_listen _ _ E). apply H4. pose proof (shape_key _ _ p E) as Hk. rewrite Hp in Hk.
    destruct (tcp_pcb_at v !! p); [by eexists|done].
  - by rewrite (shape_listen _ _ E).
  - intros p t Hp. pose proof (shape_key _ _ p E) as Hk. rewrite Hp in Hk. destruct (tcp_pcb_at v !! p) as [t0|] eqn:E0; [|done].
    unfold key in Hk. simpl in Hk. injection Hk as -> _. by eapply H6.
Qed.
Lemma shape_out v v' p : shape v' = shape v -> out v p -> out v' p.
Proof. intros E H l. rewrite (shape_pcbs _ _ l E). apply H. Qed.

(** ** Updates *)

Lemma pcbs_set v l l' x : pcbs (set_pcbs l x v) l' = if decide (l' = l) then x else pcbs v l'.
Proof. by destruct l, l'. Qed.
Lemma belongs_set v l x p : belongs (set_pcbs l x v) p = belongs v p.
Proof. by destruct l. Qed.
Lemma pcb_at_set v l x : tcp_pcb_at (set_pcbs l x v) = tcp_pcb_at v /\ tcp_listen_at (set_pcbs l x v) = tcp_listen_at v.
Proof. by destruct l. Qed.

(** A PCB is in one list only. *)
Lemma one_list v l l' p : lists_ok v -> p ∈ pcbs v l -> p ∈ pcbs v l' -> l = l'.
Proof. intros H H1 H2. apply (lk_home _ H) in H1, H2. congruence. Qed.

Lemma null_out v l : lists_ok v -> NULL ∉ pcbs v l.
Proof. intros H Hp. apply (lk_home _ H) in Hp. unfold belongs in Hp. by destruct (lk_null _ H) as [E1 E2]; rewrite E1, E2 in Hp. Qed.

(** A list gets another list of the same PCBs, or fewer. *)
Lemma ok_set v l x : lists_ok v -> NoDup x -> (forall p, p ∈ x -> belongs v p = Some l) -> lists_ok (set_pcbs l x v).
Proof.
  intros [H1 H2 H3 H4 H5 H6] Hx Hb. destruct (pcb_at_set v l x) as [E1 E2]. constructor.
  - intros l'. rewrite pcbs_set. by destruct (decide _).
  - intros l' p. rewrite pcbs_set, belongs_set. destruct (decide _) as [->|]; [|apply H2]. intros Hp. by apply Hb.
  - by rewrite E1, E2.
  - rewrite E1, E2. exact H4.
  - by rewrite E2.
  - by rewrite E1.
Qed.
Lemma ok_sub v l x : lists_ok v -> x `sublist_of` pcbs v l -> lists_ok (set_pcbs l x v).
Proof.
  intros H Hs. apply ok_set; [done|exact (sublist_NoDup _ _ (lk_nodup _ H l) Hs)|]. intros p Hp.
  assert (Hp' : p ∈ pcbs v l) by (by eapply elem_of_submseteq; [|apply sublist_submseteq]). by apply (lk_home _ H).
Qed.
Lemma ok_add v l p : lists_ok v -> belongs v p = Some l -> p ∉ pcbs v l -> lists_ok (set_pcbs l (p :: pcbs v l) v).
Proof.
  intros H Hb Hp. apply ok_set; [done|constructor; [done|apply (lk_nodup _ H)]|].
  intros q [->|Hq]%elem_of_cons; [done|]. by apply (lk_home _ H).
Qed.
Lemma remove1_sub (x : Z) l : list_remove1 x l `sublist_of` l.
Proof. induction l as [|y l IH]; cbn [list_remove1]; [done|]. destruct (_ =? _); [by apply sublist_cons|by apply sublist_skip]. Qed.

(** A PCB gets another state or port: the lists it is in must be the right ones. *)
Lemma pcbs_pcb_at v m l : pcbs (v_pcb_at m v) l = pcbs v l.
Proof. by destruct l. Qed.
Lemma ok_alter v p f :
  lists_ok v -> (forall t l, tcp_pcb_at v !! p = Some t -> p ∈ pcbs v l -> home (t_state (f t)) (t_local_port (f t)) = Some l) ->
  (forall t, t_state t <> LISTEN -> t_state (f t) <> LISTEN) ->
  lists_ok (v_pcb_at (alter f p (tcp_pcb_at v)) v).
Proof.
  intros [H1 H2 H3 H4 H5 H6] Hf Hnl. constructor; cbn [tcp_pcb_at tcp_listen_at v_pcb_at]; try (intros l; rewrite pcbs_pcb_at; auto).
  - intros q Hq. assert (Hb := H2 l q Hq). unfold belongs in *. cbn [tcp_pcb_at tcp_listen_at v_pcb_at].
    destruct (tcp_listen_at v !! q) eqn:El; [done|]. destruct (decide (q = p)) as [->|]; [|by rewrite lookup_alter_ne].
    rewrite lookup_alter_eq. destruct (tcp_pcb_at v !! p) as [t|] eqn:Et; [|done]. by apply Hf.
  - split; [|apply H3]. destruct (decide (NULL = p)) as [<-|]; [by rewrite lookup_alter_eq, (proj1 H3)|by rewrite lookup_alter_ne; [apply H3|]].
  - intros q Hq. apply H4. destruct (decide (q = p)) as [->|]; [|by rewrite lookup_alter_ne in Hq].
    rewrite lookup_alter_eq in Hq. by destruct (tcp_pcb_at v !! p).
  - exact H5.
  - intros q t. destruct (decide (q = p)) as [->|]; [|rewrite lookup_alter_ne by done; apply H6]. rewrite lookup_alter_eq.
    destruct (tcp_pcb_at v !! p) eqn:Et; [|done]. intros [= <-]. apply Hnl. by eapply H6.
Qed.
Lemma ok_delete v p : lists_ok v -> out v p -> lists_ok (v_pcb_at (delete p (tcp_pcb_at v)) v).
Proof.
  intros [H1 H2 H3 H4 H5 H6] Ho. constructor; cbn [tcp_pcb_at tcp_listen_at v_pcb_at]; try (intros l; rewrite pcbs_pcb_at; auto).
  - intros q Hq. assert (q <> p) by (intros ->; by apply (Ho l)). specialize (H2 l q Hq). unfold belongs in *.
    cbn [tcp_pcb_at tcp_listen_at v_pcb_at]. by rewrite lookup_delete_ne.
  - split; [|apply H3]. destruct (decide (NULL = p)) as [<-|]; [by rewrite lookup_delete_eq|by rewrite lookup_delete_ne; [apply H3|]].
  - intros q Hq. apply H4. destruct (decide (q = p)) as [->|]; [by rewrite lookup_delete_eq in Hq; destruct Hq|by rewrite lookup_delete_ne in Hq].
  - exact H5.
  - intros q t. destruct (decide (q = p)) as [->|]; [by rewrite lookup_delete_eq|]. rewrite lookup_delete_ne by done. apply H6.
Qed.
Lemma ok_insert v p t :
  lists_ok v -> p <> NULL -> tcp_pcb_at v !! p = None -> tcp_listen_at v !! p = None -> t_state t <> LISTEN -> lists_ok (v_pcb_at (<[p := t]> (tcp_pcb_at v)) v).
Proof.
  intros [H1 H2 H3 H4 H5 H6] Hn Hp Hl Ht. constructor; cbn [tcp_pcb_at tcp_listen_at v_pcb_at]; try (intros l; rewrite pcbs_pcb_at; auto).
  - intros q Hq. specialize (H2 l q Hq). unfold belongs in *. cbn [tcp_pcb_at tcp_listen_at v_pcb_at]. destruct (decide (q = p)) as [->|].
    + by rewrite Hl, Hp in H2.
    + by rewrite lookup_insert_ne.
  - by rewrite lookup_insert_ne.
  - intros q Hq. destruct (decide (q = p)) as [->|]; [done|]. rewrite lookup_insert_ne in Hq by done. by apply H4.
  - exact H5.
  - intros q t'. destruct (decide (q = p)) as [->|]; [rewrite lookup_insert_eq; by intros [= <-]|]. rewrite lookup_insert_ne by done. apply H6.
Qed.
Lemma ok_same v v' :
  (forall l, pcbs v' l = pcbs v l) -> tcp_pcb_at v' = tcp_pcb_at v -> tcp_listen_at v' = tcp_listen_at v -> lists_ok v -> lists_ok v'.
Proof.
  intros E1 E2 E3 [H1 H2 H3 H4 H5 H6]. constructor; try (intros l; rewrite E1; auto).
  - intros p Hp. unfold belongs. rewrite E2, E3. by apply H2.
  - by rewrite E2, E3.
  - by rewrite E2, E3.
  - by rewrite E3.
  - by rewrite E2.
Qed.
(** A PCB without a list is in no list. *)
Lemma homeless v p : lists_ok v -> belongs v p = None -> out v p.
Proof. intros H Hb l Hp. apply (lk_home _ H) in Hp. congruence. Qed.
End Shape.

(** ** Frames *)

(** A property that depends on the shape only. *)
Class shape_pred {X} `{!tcp_store X} (I : world X -> Prop) : Prop := shape_dep : forall w w', shape (tcp w') = shape (tcp w) -> I w -> I w'.

Section Frame.
Context {X : Type} `{!tcp_store X}.
Implicit Types w : world X.

Lemma tcp_upd w f : tcp (upd_tcp w f) = f (tcp w).
Proof. apply tcp_get_put. Qed.
Lemma tcp_wmfree w t a : tcp (wmfree w t a) = tcp w.
Proof. done. Qed.
Lemma tcp_wmalloc w t : tcp (wmalloc w t).1 = tcp w.
Proof. unfold wmalloc. by destruct (memp_malloc _ _). Qed.

Lemma shape_quiet v pcb f : quiet f -> shape (v_pcb_at (alter f pcb (tcp_pcb_at v)) v) = shape v.
Proof.
  intros Hf. unfold shape. cbn. do 4 f_equal. apply map_eq. intros i. rewrite !lookup_fmap.
  destruct (decide (i = pcb)) as [->|]; [|by rewrite lookup_alter_ne]. rewrite lookup_alter_eq. destruct (tcp_pcb_at v !! pcb) as [t|]; [|done].
  simpl. unfold key. by destruct (Hf t) as [-> ->].
Qed.

#[export] Instance shape_pred_frame (I : world X -> Prop) `{!shape_pred I} : tcp_frame I.
Proof.
  split; [split; [split|]|..]; intros; (eapply shape_dep; [|eassumption]); unfold upd_pcb, upd_in; rewrite ?tcp_upd; try done.
  - by apply shape_quiet.
  - unfold shape. cbn. by f_equal.
Qed.

(** The invariant; the invariant for a PCB in no list; the invariant with the contents of
    the active list, unless [tcp_active_pcbs_changed] says that it was changed. *)
Definition lok w : Prop := lists_ok (tcp w).
Definition lout pcb w : Prop := lists_ok (tcp w) /\ out (tcp w) pcb.
Definition good (l : list Z) w : Prop :=
  lists_ok (tcp w) /\ (tcp_active_pcbs_changed (tcp w) = false -> tcp_active_pcbs (tcp w) = l).

#[export] Instance lok_shape : shape_pred lok.
Proof. intros w w' E. by apply shape_ok. Qed.
#[export] Instance lout_shape pcb : shape_pred (lout pcb).
Proof. intros w w' E [H1 H2]. split; [by eapply shape_ok|by eapply shape_out]. Qed.
#[export] Instance good_shape l : shape_pred (good l).
Proof.
  intros w w' E [H1 H2]. split; [by eapply shape_ok|]. rewrite (shape_changed _ _ E). intros Hc. rewrite <- (H2 Hc).
  apply (shape_pcbs _ _ Active E).
Qed.
(** The shape itself. *)
Definition has_shape S w : Prop := shape (tcp w) = S.
#[export] Instance has_shape_shape S : shape_pred (has_shape S).
Proof. intros w w' E H. unfold has_shape in *. congruence. Qed.
End Frame.

(** ** The application *)

(** States of the active list. *)
Definition active_state (s : tcp_state) : Prop := forall port, home s port = Some Active.

(** A PCB that [tcp_input] is going to remove is not in another list than the active one. *)
Definition live {X} `{!tcp_store X} (w : world X) (pcb : Z) : Prop :=
  got w TF_RESET = true \/ got w TF_CLOSED = true -> active_state (t_state (pcb_of w pcb)).

(** What the interface, the timer and the application promise: the interface and
    [tcp_timer_needed] leave the PCBs alone; the callbacks of an application keep the
    lists, and say when they change the active list.  A connection that is accepted is
    still open when the callback returns [ERR_OK], and still there unless it returns
    [ERR_ABRT]; a callback that does not return [ERR_ABRT] leaves the PCB to [tcp_input]; the
    error function of a connection does not touch that connection. *)
Record tcp_client {X} `{!tcp_store X} (netif_output : world X -> Z -> Z -> Z -> option (world X * Z))
    (tcp_timer_needed : world X -> world X) (cb : tcp_callbacks X) : Prop := {
  tc_output : forall S, output_keeps netif_output (has_shape S);
  tc_timer : forall w, shape (tcp (tcp_timer_needed w)) = shape (tcp w);
  tc_err : forall l f w arg err, good l w -> keeps (good l) (cb_err cb f w arg err);
  tc_recv : forall l f w arg pcb p err, good l w -> keeps (good l) (cb_recv cb f w arg pcb p err);
  tc_poll : forall l f w arg pcb, good l w -> keeps (good l) (cb_poll cb f w arg pcb);
  tc_accept : forall l f w arg pcb err w' r, good l w -> cb_accept cb f w arg pcb err = Some (w', r) ->
    good l w' /\ (active_state (t_state (pcb_of w pcb)) ->
      (r <> ERR_ABRT -> is_Some (tcp_pcb_at (tcp w') !! pcb)) /\ (r = ERR_OK -> active_state (t_state (pcb_of w' pcb))));
  tc_connected : forall l f w arg pcb err w' r, good l w -> live w pcb -> cb_connected cb f w arg pcb err = Some (w', r) ->
    good l w' /\ (r <> ERR_ABRT -> live w' pcb);
  tc_sent : forall l f w arg pcb n w' r, good l w -> live w pcb -> cb_sent cb f w arg pcb n = Some (w', r) ->
    good l w' /\ (r <> ERR_ABRT -> live w' pcb);
  tc_err_same : forall f w arg err w' pcb, cb_err cb f w arg err = Some w' ->
    t_errf (pcb_of w pcb) = f -> t_callback_arg (pcb_of w pcb) = arg ->
    key <$> tcp_pcb_at (tcp w') !! pcb = key <$> tcp_pcb_at (tcp w) !! pcb
}.

(** ** Removing *)

Section Ops.
Context {X : Type} `{!tcp_store X}.
Context (netif_output : world X -> Z -> Z -> Z -> option (world X * Z)).
Context (custom_free : pstate -> Z -> pstate) (fuel : nat).
Context (tcp_timer_needed : world X -> world X) (cb : tcp_callbacks X).
Context (tcp_recv_null_fn tcp_accept_null_fn : Z).
Context (Hc : tcp_client netif_output tcp_timer_needed cb).
Implicit Types w : world X.

Lemma out_keeps (I : world X -> Prop) `{!shape_pred I} : output_keeps netif_output I.
Proof. intros w nif p d w' r E Hi. eapply shape_dep; [|exact Hi]. exact (tc_output _ _ _ Hc (shape (tcp w)) w nif p d w' r E eq_refl). Qed.

(** The same frame lemmas, for properties of the shape. *)
Section Shape.
Context (I : world X -> Prop) `{!shape_pred I}.
Lemma s_output w pcb : I w -> keeps I (tcp_output netif_output custom_free fuel w pcb).
Proof. apply (output_I _ _ _ I), out_keeps, _. Qed.
Lemma s_rst w a b c d e f : I w -> keeps I (tcp_rst netif_output custom_free fuel w a b c d e f).
Proof. apply (rst_I _ _ _ I), out_keeps, _. Qed.
Lemma s_purge w pcb : I w -> keeps I (tcp_pcb_purge custom_free fuel w pcb).
Proof. apply (purge_I _ _ I). Qed.
Lemma s_segs_free w l : I w -> keeps I (tcp_segs_free custom_free fuel w l).
Proof. apply (segs_free_I _ _ I). Qed.
Lemma s_wfree w p : I w -> keeps I (wfree custom_free fuel w p).
Proof. apply (wfree_I _ _ I). Qed.
Lemma s_send_fin w pcb : I w -> keeps I (tcp_send_fin custom_free fuel w pcb).
Proof. apply (send_fin_I _ _ I). Qed.
Lemma s_enqueue w pcb fl : I w -> keeps I (tcp_enqueue_flags custom_free fuel w pcb fl).
Proof. apply (enqueue_flags_I _ _ I). Qed.
Lemma s_recved w pcb n : I w -> keeps I (tcp_recved netif_output custom_free fuel w pcb n).
Proof. apply (recved_I _ _ _ I), out_keeps, _. Qed.
Lemma s_reg w l pcb : I (upd_tcp w (fun v => set_pcbs l (pcb :: pcbs v l) v)) -> I (TCP_REG tcp_timer_needed w l pcb).
Proof. intros H. eapply shape_dep; [|exact H]. apply (tc_timer _ _ _ Hc). Qed.
End Shape.

(** The list of a PCB follows from its state. *)
Lemma list_state w pcb l :
  lok w -> pcb ∈ pcbs (tcp w) l ->
  match l with
  | Listening => state_of w pcb = LISTEN
  | _ => is_listen w pcb = false /\ state_of w pcb = t_state (pcb_of w pcb) /\
      home (t_state (pcb_of w pcb)) (t_local_port (pcb_of w pcb)) = Some l /\ is_Some (tcp_pcb_at (tcp w) !! pcb)
  end.
Proof.
  intros H Hp. apply (lk_home _ H) in Hp. unfold belongs in Hp. unfold state_of, is_listen, listen_of, pcb_of.
  destruct (tcp_listen_at (tcp w) !! pcb) as [x|]; simpl.
  - destruct (state_is (l_state x) LISTEN) eqn:E; [|done]. injection Hp as <-.
    by apply bool_decide_eq_true in E.
  - destruct (tcp_pcb_at (tcp w) !! pcb) as [t|]; [|done]. simpl. rewrite Hp. destruct l; try done.
    by destruct (t_state t); simpl in Hp; repeat case_match.
Qed.
Lemma only_in w pcb l s :
  lok w -> state_of w pcb = s -> (forall port, home s port = None \/ home s port = Some l) -> (s = LISTEN -> l = Listening) ->
  forall l', pcb ∈ pcbs (tcp w) l' -> l' = l.
Proof.
  intros H Hs Hh Hl l' Hp. pose proof (list_state w pcb l' H Hp) as Hx. destruct l'.
  - symmetry. apply Hl. congruence.
  - destruct Hx as (_ & E1 & E2 & _). rewrite <- E1, Hs in E2. destruct (Hh (t_local_port (pcb_of w pcb))) as [E|E]; congruence.
  - destruct Hx as (_ & E1 & E2 & _). rewrite <- E1, Hs in E2. destruct (Hh (t_local_port (pcb_of w pcb))) as [E|E]; congruence.
  - destruct Hx as (_ & E1 & E2 & _). rewrite <- E1, Hs in E2. destruct (Hh (t_local_port (pcb_of w pcb))) as [E|E]; congruence.
Qed.

(** [TCP_RMV] *)
Lemma rmv_out w l pcb : lok w -> (forall l', pcb ∈ pcbs (tcp w) l' -> l' = l) -> lout pcb (TCP_RMV w l pcb).
Proof.
  intros H Hl. unfold lout, TCP_RMV. rewrite tcp_upd. split; [apply ok_sub; [done|apply remove1_sub]|].
  intros l'. rewrite pcbs_set. destruct (decide (l' = l)) as [->|Hn].
  - apply (NoDup_list_remove1 pcb _ (lk_nodup _ H l)).
  - intros Hp. by apply Hn, Hl.
Qed.
(** The end of [tcp_pcb_remove]: state and port are cleared. *)
Lemma out_close w pcb : lout pcb w -> lout pcb (upd_listen (upd_pcb w pcb (fun t => s_local_port 0 (s_state CLOSED t))) pcb sl_closed).
Proof.
  intros [H Ho]. unfold lout, upd_listen, upd_pcb. rewrite !tcp_upd.
  set (v := v_pcb_at _ (tcp w)). assert (Hv : lists_ok v) by (apply ok_alter; [done|intros t l _ Hp; by apply Ho in Hp|done]).
  assert (Hov : out v pcb) by (intros l; unfold v; rewrite pcbs_pcb_at; apply Ho).
  assert (El : forall l m, pcbs (v_listen_at m v) l = pcbs v l) by by intros [] m.
  destruct Hv as [H1 H2 H3 H4 H5 H6]. split; [constructor|].
  - intros l. rewrite El. apply H1.
  - intros l p. rewrite El. intros Hp. assert (p <> pcb) by (intros ->; by apply (Hov l)). specialize (H2 l p Hp). unfold belongs in *.
    cbn [tcp_listen_at v_listen_at tcp_pcb_at]. by rewrite lookup_alter_ne.
  - cbn [tcp_listen_at v_listen_at tcp_pcb_at]. split; [apply H3|]. destruct (decide (NULL = pcb)) as [<-|];
      [by rewrite lookup_alter_eq, (proj2 H3)|by rewrite lookup_alter_ne; [apply H3|]].
  - intros p Hp. cbn [tcp_listen_at v_listen_at]. specialize (H4 p Hp). destruct (decide (p = pcb)) as [->|]; [|by rewrite lookup_alter_ne].
    rewrite lookup_alter_eq. by rewrite H4.
  - intros p x. cbn [tcp_listen_at v_listen_at]. destruct (decide (p = pcb)) as [->|]; [|rewrite lookup_alter_ne by done; apply H5].
    rewrite lookup_alter_eq. destruct (tcp_listen_at v !! pcb); [|done]. intros [= <-]. by right.
  - exact H6.
  - intros l. rewrite El. apply Hov.
Qed.

Lemma pcb_remove_J (J : world X -> Prop) `{!shape_pred J} w l pcb :
  (forall w, J w -> J (upd_listen (upd_pcb w pcb (fun t => s_local_port 0 (s_state CLOSED t))) pcb sl_closed)) ->
  J (TCP_RMV w l pcb) -> keeps J (tcp_pcb_remove netif_output custom_free fuel w l pcb).
Proof.
  intros Hcl Hr. unfold tcp_pcb_remove. cbv zeta. kthen J; [by apply (s_purge _)|].
  intros w1 H1. kthen J.
  - destruct (_ && _); [|exact H1]. apply keeps_fst, (s_output _). tframe.
  - intros w2 H2. by apply Hcl.
Qed.

(** The invariant with the active list, for a PCB that is out. *)
Definition gout (l : list Z) (pcb : Z) w : Prop := good l w /\ out (tcp w) pcb.
#[local] Instance gout_shape l pcb : shape_pred (gout l pcb).
Proof. intros w w' E [H1 H2]. split; [by eapply (shape_dep (I:=good l))|by eapply shape_out]. Qed.
Lemma lok_in w f : lok w -> lok (upd_in w f).
Proof. intros H. unfold lok, upd_in. rewrite tcp_upd. by apply (ok_same (tcp w)); [intros []|..]. Qed.
Lemma good_in l w f : good l w -> good l (upd_in w f).
Proof. intros [H Ha]. split; [by apply lok_in|]. unfold upd_in. by rewrite !tcp_upd. Qed.
Lemma gout_in l pcb w f : gout l pcb w -> gout l pcb (upd_in w f).
Proof. intros [Hg Ho]. split; [by apply good_in|]. intros l'. unfold upd_in. rewrite tcp_upd. specialize (Ho l'). by destruct l'. Qed.
Lemma gout_good l pcb w : gout l pcb w -> good l w.
Proof. by intros []. Qed.

Lemma gout_close l w pcb : gout l pcb w -> gout l pcb (upd_listen (upd_pcb w pcb (fun t => s_local_port 0 (s_state CLOSED t))) pcb sl_closed).
Proof.
  intros [[H Ha] Ho]. destruct (out_close w pcb (conj H Ho)) as [H1 H2]. split; [split; [exact H1|]|exact H2].
  unfold upd_listen, upd_pcb. by rewrite !tcp_upd.
Qed.
Lemma lout_changed l pcb w : lout pcb w -> gout l pcb (upd_tcp w (v_changed true)).
Proof.
  intros [H Ho]. unfold gout, good. rewrite !tcp_upd. split; [split; [|done]|].
  - by apply (ok_same (tcp w)); [intros []|..].
  - intros l'. assert (E : pcbs (v_changed true (tcp w)) l' = pcbs (tcp w) l') by by destruct l'. rewrite E. apply Ho.
Qed.
Lemma remove_active_out l w pcb :
  good l w -> (forall l', pcb ∈ pcbs (tcp w) l' -> l' = Active) ->
  keeps (gout l pcb) (TCP_PCB_REMOVE_ACTIVE netif_output custom_free fuel w pcb).
Proof.
  intros [H _] Hl. unfold TCP_PCB_REMOVE_ACTIVE. kthen (lout pcb); [apply (pcb_remove_J _); [intros; by apply out_close|by apply rmv_out]|].
  intros w1 H1. by apply lout_changed.
Qed.
Lemma free_pcb_out l w pcb : gout l pcb w -> gout l pcb (free_pcb w pcb).
Proof.
  intros [[H Ha] Ho]. unfold gout, good, free_pcb. rewrite tcp_upd, tcp_wmfree. split; [split; [by apply ok_delete|done]|].
  intros l'. rewrite pcbs_pcb_at. apply Ho.
Qed.

(** ** Aborting *)

Lemma event_err_good l w f arg err : good l w -> keeps (good l) (TCP_EVENT_ERR cb w f arg err).
Proof. intros H. unfold TCP_EVENT_ERR. destruct (negb _); [by apply (tc_err _ _ _ Hc)|exact H]. Qed.

(** Removing the PCB from another list than the active one. *)
Lemma rmv_gout l w l' pcb : good l w -> l' <> Active -> (forall l0, pcb ∈ pcbs (tcp w) l0 -> l0 = l') -> gout l pcb (TCP_RMV w l' pcb).
Proof.
  intros [H Ha] Hn Hl. destruct (rmv_out w l' pcb H Hl) as [H1 H2]. split; [split; [done|]|done].
  unfold TCP_RMV. rewrite tcp_upd. by destruct l'.
Qed.
Lemma closed_out l w pcb :
  good l w -> in_state w pcb CLOSED = true ->
  gout l pcb (if negb (t_local_port (pcb_of w pcb) =? 0) then TCP_RMV w Bound pcb else w).
Proof.
  intros Hg Hs%bool_decide_eq_true. assert (Hl : forall l', pcb ∈ pcbs (tcp w) l' -> l' = Bound).
  { eapply only_in; [apply Hg|exact Hs| |done]. intros port. cbn. destruct (_ =? _); auto. }
  destruct (Z.eqb_spec (t_local_port (pcb_of w pcb)) 0) as [E|E]; cbn [negb]; [|by apply rmv_gout].
  split; [done|]. intros l' Hp. pose proof (Hl l' Hp) as ->. destruct (list_state w pcb Bound (proj1 Hg) Hp) as (_ & _ & Hh & _).
  rewrite E in Hh. destruct (t_state _); done.
Qed.

Lemma abandon_good l w pcb reset : good l w -> state_of w pcb <> LISTEN -> keeps (good l) (tcp_abandon netif_output custom_free fuel cb w pcb reset).
Proof.
  intros Hg Hs. unfold tcp_abandon. destruct (in_state w pcb TIME_WAIT) eqn:E1.
  { apply bool_decide_eq_true in E1. assert (Hl : forall l', pcb ∈ pcbs (tcp w) l' -> l' = Timewait)
      by (eapply only_in; [apply Hg|exact E1|auto|done]).
    kthen (gout l pcb); [apply (pcb_remove_J _); [intros; by apply gout_close|by apply rmv_gout]|].
    intros w1 H1. by apply gout_good with pcb, free_pcb_out. }
  cbv zeta. kthen (gout l pcb).
  { destruct (in_state w pcb CLOSED) eqn:E2; [by apply closed_out|]. kthen (gout l pcb); [|by intros w1 H1].
    apply remove_active_out; [done|]. eapply only_in; [apply Hg|done| |done]. apply bool_decide_eq_false in E1, E2.
    intros port. destruct (state_of w pcb); auto; done. }
  intros [[w1 send_rst] local_port] H1. cbv beta iota delta [wof pair_has world_has id fst] in H1.
  kthen (gout l pcb); [by apply (s_segs_free _)|]. intros w2 H2. kthen (gout l pcb); [by apply (s_segs_free _)|].
  intros w3 H3. kthen (gout l pcb); [by apply (s_segs_free _)|]. intros w4 H4.
  kthen (gout l pcb); [destruct send_rst; [by apply (s_rst _)|exact H4]|]. intros w5 H5.
  apply event_err_good. by apply gout_good with pcb, free_pcb_out.
Qed.

(** ** Closing *)

(** The invariant for a PCB in a state. *)
Definition gstate (l : list Z) (pcb : Z) (s : tcp_state) w : Prop := good l w /\ t_state (pcb_of w pcb) = s.
Lemma shape_state w w' pcb : shape (tcp w') = shape (tcp w) -> t_state (pcb_of w' pcb) = t_state (pcb_of w pcb).
Proof.
  intros E. pose proof (shape_key _ _ pcb E) as Hk. unfold pcb_of. destruct (tcp_pcb_at (tcp w') !! pcb), (tcp_pcb_at (tcp w) !! pcb); try done.
  unfold key in Hk. simpl in *. by injection Hk.
Qed.
#[local] Instance gstate_shape l pcb s : shape_pred (gstate l pcb s).
Proof. intros w w' E [H1 H2]. split; [by eapply (shape_dep (I:=good l))|]. by rewrite (shape_state _ _ pcb E). Qed.

Lemma upd_state_good l w pcb s : good l w -> active_state (t_state (pcb_of w pcb)) -> active_state s -> good l (upd_pcb w pcb (s_state s)).
Proof.
  intros [H Ha] H1 H2. unfold good, upd_pcb. rewrite !tcp_upd. split; [|done]. apply ok_alter; [done| |intros t0 _ E; specialize (H2 0); cbn [t_state s_state] in E; by rewrite E in H2]. intros t l' Et Hp.
  cbn [t_state s_state t_local_port]. rewrite H2. apply (lk_home _ H) in Hp. unfold belongs in Hp.
  rewrite (lk_disj _ H) in Hp by by eexists. unfold pcb_of in H1. rewrite Et in *. simpl in H1. by rewrite H1 in Hp.
Qed.

Lemma close_fin_good l w pcb : good l w -> keeps (good l) (tcp_close_shutdown_fin netif_output custom_free fuel w pcb).
Proof.
  intros Hg. assert (Hto : forall s, active_state (t_state (pcb_of w pcb)) -> active_state s ->
    keeps (good l) ('(w, err) ← tcp_send_fin custom_free fuel w pcb;
      if err =? ERR_OK then '(w, _) ← tcp_output netif_output custom_free fuel (upd_pcb w pcb (s_state s)) pcb; Some (w, err)
      else if err =? ERR_MEM then Some (set_flag w pcb TF_CLOSEPEND, err) else Some (w, err))).
  { intros s H1 H2. kthen (gstate l pcb (t_state (pcb_of w pcb))); [by apply (s_send_fin _)|]. intros [w1 err] [H3 H4].
    destruct (_ =? ERR_OK).
    - kthen (good l); [apply (s_output _), upd_state_good; [done| |done]; simpl in *; by rewrite H4|]. by intros [w2 e2] H5.
    - destruct (_ =? ERR_MEM); [|exact H3]. unfold keeps, wof, pair_has, wof, world_has, id. cbn [fst]. tframe. }
  unfold tcp_close_shutdown_fin. cbv zeta. destruct (t_state (pcb_of w pcb)); first [exact Hg | by apply Hto; intros port].
Qed.

(** A PCB in an active state that is taken out of the active list. *)
Lemma rmv_active_out l w pcb : good l w -> active_state (state_of w pcb) -> gout l pcb (TCP_RMV_ACTIVE w pcb).
Proof.
  intros [H _] Hs. apply lout_changed, rmv_out; [done|]. eapply only_in; [done|reflexivity|by right|].
  intros E. specialize (Hs 0). by rewrite E in Hs.
Qed.
(** ... and goes to the TIME-WAIT list. *)
Lemma pcb_of_alter w pcb f : is_Some (tcp_pcb_at (tcp w) !! pcb) -> pcb_of (upd_pcb w pcb f) pcb = f (pcb_of w pcb).
Proof.
  intros [t Et]. unfold pcb_of, upd_pcb. rewrite tcp_upd. cbn [tcp_pcb_at v_pcb_at]. rewrite lookup_alter_eq. by rewrite Et.
Qed.
Lemma reg_timewait l w pcb :
  gout l pcb w -> is_Some (tcp_pcb_at (tcp w) !! pcb) -> good l (TCP_REG tcp_timer_needed (upd_pcb w pcb (s_state TIME_WAIT)) Timewait pcb).
Proof.
  intros [[H Ha] Ho] [t Et]. apply (s_reg _). unfold good, upd_pcb. rewrite !tcp_upd. split; [|exact Ha].
  set (v := v_pcb_at _ (tcp w)). assert (Hv : lists_ok v) by (apply ok_alter; [done|intros t' l' _ Hp; by apply Ho in Hp|done]).
  apply ok_add; [done| |].
  - unfold belongs. cbn [tcp_listen_at tcp_pcb_at v_pcb_at v]. rewrite (lk_disj _ H) by by eexists. by rewrite lookup_alter_eq, Et.
  - unfold v. rewrite pcbs_pcb_at. apply Ho.
Qed.

Lemma not_listen_state w pcb : lok w -> state_of w pcb <> LISTEN -> state_of w pcb <> CLOSED ->
  state_of w pcb = t_state (pcb_of w pcb) /\ is_Some (tcp_pcb_at (tcp w) !! pcb).
Proof.
  intros H. unfold state_of, is_listen, listen_of, pcb_of. destruct (tcp_listen_at (tcp w) !! pcb) as [x|] eqn:E; simpl.
  - destruct (lk_listen _ H _ _ E); done.
  - intros _ H2. destruct (tcp_pcb_at (tcp w) !! pcb); [by split; [|eexists]|done].
Qed.

Lemma home_listening s port : home s port <> Some Listening.
Proof. destruct s; try done. cbn. by destruct (_ =? _). Qed.

(** [shape] decides what state an address has. *)
Lemma shape_state_of w w' pcb : shape (tcp w') = shape (tcp w) -> state_of w' pcb = state_of w pcb.
Proof.
  intros E. unfold state_of, is_listen, listen_of. rewrite (shape_listen _ _ E), (shape_state _ _ pcb E). done.
Qed.

Lemma close_with_reset_good l w pcb :
  good l w -> active_state (state_of w pcb) -> keeps (good l) (close_with_reset netif_output custom_free fuel tcp_timer_needed w pcb).
Proof.
  intros Hg Hs. unfold close_with_reset. cbv zeta.
  assert (Hi : forall w', shape (tcp w') = shape (tcp w) -> good l w' /\ active_state (state_of w' pcb)).
  { intros w' E. split; [by eapply (shape_dep (I:=good l))|]. by rewrite (shape_state_of _ _ _ E). }
  kthen (has_shape (shape (tcp w))); [by apply (s_rst _)|]. intros w1 H1. kthen (has_shape (shape (tcp w))); [by apply (s_purge _)|].
  intros w2 H2. destruct (Hi w2 H2) as [Hg2 Hs2]. pose proof (rmv_active_out l w2 pcb Hg2 Hs2) as Ho.
  destruct (in_state _ _ ESTABLISHED).
  - apply (reg_timewait _ _ _ Ho). destruct (not_listen_state w2 pcb (proj1 Hg2)) as [_ Hp];
      [intros E; specialize (Hs2 0); by rewrite E in Hs2|intros E; specialize (Hs2 0); by rewrite E in Hs2|].
    unfold TCP_RMV_ACTIVE, TCP_RMV. by rewrite !tcp_upd.
  - destruct (_ =? pcb); [|by eapply gout_good, free_pcb_out]. unfold keeps, wof, pair_has, wof, world_has, id. cbn [fst].
    apply gout_good with pcb. by apply gout_in.
Qed.

(** The listening PCB is freed. *)
Lemma free_listen_good l w pcb : gout l pcb w -> good l (free_listen w pcb).
Proof.
  intros [[H Ha] Ho]. unfold good, free_listen. rewrite tcp_upd, tcp_wmfree. split; [|exact Ha].
  assert (El : forall l m, pcbs (v_listen_at m (tcp w)) l = pcbs (tcp w) l) by by intros [] m.
  destruct H as [H1 H2 H3 H4 H5 H6]. constructor; cbn [tcp_pcb_at tcp_listen_at v_listen_at].
  - intros l'. rewrite El. apply H1.
  - intros l' p. rewrite El. intros Hp. assert (p <> pcb) by (intros ->; by apply (Ho l')). specialize (H2 l' p Hp). unfold belongs in *.
    cbn [tcp_pcb_at tcp_listen_at v_listen_at]. by rewrite lookup_delete_ne.
  - split; [apply H3|]. destruct (decide (NULL = pcb)) as [<-|]; [by rewrite lookup_delete_eq|by rewrite lookup_delete_ne; [apply H3|]].
  - intros p Hp. destruct (decide (p = pcb)) as [->|]; [by rewrite lookup_delete_eq|rewrite lookup_delete_ne by done; by apply H4].
  - intros p x. destruct (decide (p = pcb)) as [->|]; [by rewrite lookup_delete_eq|rewrite lookup_delete_ne by done; by apply H5].
  - exact H6.
Qed.

Lemma listen_closed_shape w lpcb : shape (tcp (tcp_listen_closed w lpcb)) = shape (tcp w).
Proof.
  assert (Hr : forall l w, shape (tcp (tcp_remove_listener w l lpcb)) = shape (tcp w)).
  { unfold tcp_remove_listener. intros l. induction l as [|p l IH]; intros w0; cbn [foldl]; [done|]. rewrite IH. destruct (_ =? _); [|done].
    unfold upd_pcb. rewrite tcp_upd. apply shape_quiet. by intros t. }
  unfold tcp_listen_closed. cbn [foldl tail tcp_pcb_lists]. by rewrite !Hr.
Qed.

Lemma close_shutdown_good l w pcb rst :
  good l w -> keeps (good l) (tcp_close_shutdown netif_output custom_free fuel tcp_timer_needed w pcb rst).
Proof.
  intros Hg. unfold tcp_close_shutdown. cbv zeta. destruct (rst && _ && _) eqn:Er.
  { apply close_with_reset_good; [done|]. apply andb_true_iff in Er as [[_ Er]%andb_true_iff _].
    apply orb_true_iff in Er as [E|E]; apply bool_decide_eq_true in E; rewrite E; by intros port. }
  destruct (state_of w pcb) eqn:Es; try by apply close_fin_good.
  - eapply gout_good, free_pcb_out, closed_out; [done|]. unfold in_state. rewrite Es. done.
  - kthen (gout l pcb); [|intros w1 H1; by apply free_listen_good]. apply (pcb_remove_J _); [intros; by apply gout_close|].
    pose proof (listen_closed_shape w pcb) as E. apply rmv_gout; [by eapply (shape_dep (I:=good l))|done|].
    eapply only_in; [by eapply shape_ok, Hg|rewrite (shape_state_of _ _ _ E); exact Es|by left|done].
  - kthen (gout l pcb); [|intros w1 H1; by eapply gout_good, free_pcb_out]. apply remove_active_out; [done|].
    eapply only_in; [apply Hg|exact Es|by right|done].
Qed.
Lemma close_good l w pcb : good l w -> keeps (good l) (tcp_close netif_output custom_free fuel tcp_timer_needed w pcb).
Proof. intros Hg. unfold tcp_close. cbv zeta. apply close_shutdown_good. tframe. Qed.
Lemma shutdown_good l w pcb rx tx : good l w -> keeps (good l) (tcp_shutdown netif_output custom_free fuel tcp_timer_needed w pcb rx tx).
Proof.
  intros Hg. unfold tcp_shutdown. destruct (in_state _ _ _); [exact Hg|]. cbv zeta.
  assert (Htx : forall w, good l w -> keeps (good l) (if tx then match t_state (pcb_of w pcb) with
      | SYN_RCVD | ESTABLISHED | CLOSE_WAIT => tcp_close_shutdown netif_output custom_free fuel tcp_timer_needed w pcb rx
      | _ => Some (w, ERR_CONN) end else Some (w, ERR_OK))).
  { intros w1 H1. destruct tx; [|exact H1]. destruct (t_state _); first [exact H1|by apply close_shutdown_good]. }
  destruct rx; [|by apply Htx]. assert (H1 : good l (set_flag w pcb TF_RXCLOSED)) by tframe. destruct tx; [by apply close_shutdown_good|].
  kthen (good l); [|intros w2 H2; exact (Htx w2 H2)]. destruct (negb _); [|exact H1]. kthen (good l); [by apply (s_wfree _)|].
  intros w2 H2. unfold keeps, wof, world_has, id. tframe.
Qed.

(** ** Opening *)

Lemma new_port_shape w : keeps (has_shape (shape (tcp w))) (tcp_new_port w).
Proof.
  unfold tcp_new_port. set (S := shape (tcp w)). assert (H : has_shape S w) by done. clearbody S.
  generalize 0. revert w H. induction (Z.to_nat _) as [|n IH]; intros w H k; [done|]. cbn [loop]. unfold tcp_port_step. cbv zeta.
  match goal with |- context [upd_tcp w ?f] => assert (H1 : has_shape S (upd_tcp w f)) by (unfold has_shape; by rewrite tcp_upd); set (w1 := upd_tcp w f) in * end.
  destruct (tcp_port_used _ _); [|exact H1]. destruct (_ <? _); [exact H1|]. by apply IH.
Qed.

(** An allocated PCB in state CLOSED is in the list of bound PCBs, or in none. *)
Definition closed_pcb w (pcb : Z) : Prop := is_Some (tcp_pcb_at (tcp w) !! pcb) /\ t_state (pcb_of w pcb) = CLOSED.
Lemma closed_state w pcb : lok w -> is_Some (tcp_pcb_at (tcp w) !! pcb) -> in_state w pcb CLOSED = true -> t_state (pcb_of w pcb) = CLOSED.
Proof.
  intros H Hp Hs%bool_decide_eq_true. unfold state_of, is_listen in Hs. by rewrite (lk_disj _ H pcb Hp) in Hs.
Qed.
Lemma shape_alloc w w' pcb : shape (tcp w') = shape (tcp w) -> is_Some (tcp_pcb_at (tcp w) !! pcb) -> is_Some (tcp_pcb_at (tcp w') !! pcb).
Proof. intros E [t Ht]. pose proof (shape_key _ _ pcb E) as Hk. rewrite Ht in Hk. destruct (tcp_pcb_at (tcp w') !! pcb); [by eexists|done]. Qed.

Lemma bind_good l w pcb ip port :
  good l w -> is_Some (tcp_pcb_at (tcp w) !! pcb) -> pcb ∉ tcp_bound_pcbs (tcp w) -> keeps (good l) (tcp_bind tcp_timer_needed w pcb ip port).
Proof.
  intros Hg Hp Hb. unfold tcp_bind. cbv zeta. destruct (pcb =? NULL); [exact Hg|]. destruct (in_state w pcb CLOSED) eqn:Es; [|exact Hg]. cbn [negb].
  apply closed_state in Es; [|apply Hg|done].
  assert (Ho : out (tcp w) pcb).
  { intros l' Hl'. destruct l'; [|done|..].
    { apply (lk_home _ (proj1 Hg)) in Hl'. unfold belongs in Hl'. rewrite (lk_disj _ (proj1 Hg) _ Hp) in Hl'. destruct (tcp_pcb_at (tcp w) !! pcb); [|done].
      by apply home_listening in Hl'. }
    all: destruct (list_state _ _ _ (proj1 Hg) Hl') as (_ & _ & E & _); rewrite Es in E; cbn in E; by destruct (_ =? _). }
  assert (Hend : forall w1 q, shape (tcp w1) = shape (tcp w) -> q <> 0 -> keeps (good l)
    (Some (TCP_REG tcp_timer_needed (upd_pcb (if negb (ip4_addr_isany (default IPADDR_ANY ip)) then upd_pcb w1 pcb (s_local_ip (default IPADDR_ANY ip)) else w1)
       pcb (s_local_port q)) Bound pcb, ERR_OK))).
  { intros w1 q E Hq. set (w2 := if negb _ then _ else w1). assert (E2 : has_shape (shape (tcp w)) w2) by (unfold w2; assert (has_shape (shape (tcp w)) w1) by done; tframe).
    apply (s_reg _). clearbody w2. assert (Hg2 : good l w2) by by eapply (shape_dep (I:=good l)). assert (Ho2 : out (tcp w2) pcb) by by eapply shape_out.
    assert (Hp2 : is_Some (tcp_pcb_at (tcp w2) !! pcb)) by by eapply shape_alloc. assert (Es2 : t_state (pcb_of w2 pcb) = CLOSED) by by rewrite (shape_state _ _ _ E2).
    destruct Hg2 as [H2 Ha2]. unfold good, upd_pcb. rewrite !tcp_upd. split; [|exact Ha2]. set (v := v_pcb_at _ _).
    assert (Hv : lists_ok v) by (apply ok_alter; [done|intros t' l' _ Hx; by apply Ho2 in Hx|done]). apply ok_add; [done| |].
    - unfold belongs. cbn [tcp_listen_at tcp_pcb_at v_pcb_at v]. rewrite (lk_disj _ H2 _ Hp2). destruct Hp2 as [t Ht]. rewrite lookup_alter_eq, Ht. cbn.
      unfold pcb_of in Es2. rewrite Ht in Es2. simpl in Es2. rewrite Es2. cbn. by rewrite (proj2 (Z.eqb_neq _ _) Hq).
    - unfold v. rewrite pcbs_pcb_at. apply Ho2. }
  destruct (Z.eqb_spec port 0) as [->|Hport].
  - kthen (has_shape (shape (tcp w))); [apply new_port_shape|]. intros [w1 q] H1. cbn [fst] in H1.
    destruct (Z.eqb_spec q 0) as [->|Hq]; [by eapply (shape_dep (I:=good l))|]. by apply Hend.
  - destruct (existsb _ _); [exact Hg|]. by apply Hend.
Qed.

(** A new listening PCB. *)
Lemma ok_insert_listen v p x :
  lists_ok v -> p <> NULL -> tcp_pcb_at v !! p = None -> tcp_listen_at v !! p = None -> l_state x = LISTEN ->
  lists_ok (v_listen_at (<[p := x]> (tcp_listen_at v)) v).
Proof.
  intros [H1 H2 H3 H4 H5 H6] Hn Hp Hl Hx. assert (El : forall l m, pcbs (v_listen_at m v) l = pcbs v l) by by intros [] m.
  constructor; cbn [tcp_pcb_at tcp_listen_at v_listen_at].
  - intros l. rewrite El. apply H1.
  - intros l q. rewrite El. intros Hq. specialize (H2 l q Hq). unfold belongs in *. cbn [tcp_pcb_at tcp_listen_at v_listen_at].
    destruct (decide (q = p)) as [->|]; [by rewrite Hl, Hp in H2|by rewrite lookup_insert_ne].
  - by rewrite lookup_insert_ne.
  - intros q Hq. destruct (decide (q = p)) as [->|]; [rewrite Hp in Hq; by destruct Hq|]. rewrite lookup_insert_ne by done. by apply H4.
  - intros q y. destruct (decide (q = p)) as [->|]; [rewrite lookup_insert_eq; intros [= <-]; by left|]. rewrite lookup_insert_ne by done. apply H5.
  - exact H6.
Qed.
Definition fresh_listen w : Prop :=
  let a := (wmalloc w MEMP_TCP_PCB_LISTEN).2 in a = NULL \/ (tcp_pcb_at (tcp w) !! a = None /\ tcp_listen_at (tcp w) !! a = None).
Lemma listen_good l w pcb :
  good l w -> fresh_listen w -> good l (tcp_listen_with_backlog_and_err tcp_timer_needed tcp_accept_null_fn w pcb).1.1.
Proof.
  intros Hg Hf. unfold tcp_listen_with_backlog_and_err. destruct (in_state w pcb CLOSED) eqn:Es; [|exact Hg]. cbn [negb].
  unfold fresh_listen in Hf. pose proof (tcp_wmalloc w MEMP_TCP_PCB_LISTEN) as Ew. destruct (wmalloc w MEMP_TCP_PCB_LISTEN) as [w1 a]. cbn [fst snd] in *.
  assert (Hg1 : good l w1) by (apply (shape_dep (I:=good l) w); congruence).
  destruct (Z.eqb_spec a NULL) as [->|Ha]; [exact Hg1|]. destruct Hf as [?|[Hf1 Hf2]]; [done|]. cbv zeta. cbn [fst]. rewrite <- Ew in *.
  assert (Es1 : in_state w1 pcb CLOSED = true) by (unfold in_state in *; rewrite (shape_state_of w w1); [done|congruence]).
  set (x := mk_listen _ _ _ _ _ LISTEN _ _ _). set (w2 := upd_tcp w1 _).
  assert (Hg2 : good l w2) by (destruct Hg1 as [H1 H2]; unfold good, w2; rewrite tcp_upd; split; [by apply ok_insert_listen|done]).
  assert (Hne : pcb <> a -> in_state w2 pcb CLOSED = true).
  { intros Hn. unfold in_state, state_of, is_listen, listen_of, pcb_of, w2 in *. rewrite tcp_upd. cbn [tcp_listen_at tcp_pcb_at v_listen_at].
    by rewrite lookup_insert_ne by done. }
  assert (Ht : pcb_of w1 pcb = pcb_of w2 pcb) by (unfold pcb_of, w2; by rewrite tcp_upd).
  assert (Hbel : tcp_listen_at (tcp w2) !! a = Some x) by (unfold w2; rewrite tcp_upd; cbn [tcp_listen_at v_listen_at]; by rewrite lookup_insert_eq).
  rewrite Ht. destruct (decide (pcb = a)) as [->|Hn].
  { assert (Ez : pcb_of w2 a = tcp_pcb_zero) by (unfold pcb_of, w2; rewrite tcp_upd; cbn [tcp_pcb_at v_listen_at]; by rewrite Hf1).
    rewrite Ez. cbn [t_local_port tcp_pcb_zero negb Z.eqb]. apply (s_reg _). unfold good, free_pcb. rewrite !tcp_upd, tcp_wmfree.
    destruct Hg2 as [H2 Ha2]. split; [|exact Ha2]. set (v := v_pcb_at _ _).
    assert (Hno : a ∉ pcbs (tcp w2) Listening).
    { unfold w2. rewrite tcp_upd. intros Hin. apply (lk_home _ (proj1 Hg1) Listening) in Hin. unfold belongs in Hin. by rewrite Hf1, Hf2 in Hin. }
    assert (Hv : lists_ok v).
    { apply (ok_same (tcp w2)); [intros l'; apply pcbs_pcb_at| |done|done]. cbn [tcp_pcb_at v_pcb_at v]. apply delete_id.
      unfold w2. by rewrite tcp_upd. }
    apply ok_add; [done| |unfold v; by rewrite pcbs_pcb_at]. unfold belongs. cbn [tcp_listen_at v_pcb_at v]. by rewrite Hbel. }
  pose proof (closed_out l w2 pcb Hg2 (Hne Hn)) as Ho. set (w3 := if negb _ then _ else w2) in *.
  assert (E3 : tcp_listen_at (tcp w3) = tcp_listen_at (tcp w2) /\ tcp_listen_pcbs (tcp w3) = tcp_listen_pcbs (tcp w2)).
  { unfold w3, TCP_RMV. destruct (negb _); [|done]. by rewrite tcp_upd. }
  clearbody w3. destruct (free_pcb_out l w3 pcb Ho) as [[H4 Ha4] _]. apply (s_reg _). unfold good, free_pcb in *. rewrite !tcp_upd, tcp_wmfree in *.
  split; [|exact Ha4]. apply ok_add; [done| |].
  - unfold belongs. cbn [tcp_listen_at v_pcb_at]. by rewrite (proj1 E3), Hbel.
  - rewrite pcbs_pcb_at. cbn [pcbs]. rewrite (proj2 E3). unfold w2. rewrite tcp_upd. intros Hin. apply (lk_home _ (proj1 Hg1) Listening) in Hin.
    unfold belongs in Hin. by rewrite Hf1, Hf2 in Hin.
Qed.

(** [tcp_connect]: an allocated PCB in state CLOSED. *)
Definition gclosed (l : list Z) (pcb : Z) w : Prop := good l w /\ closed_pcb w pcb.
#[local] Instance gclosed_shape l pcb : shape_pred (gclosed l pcb).
Proof.
  intros w w' E (H1 & H2 & H3). split; [by eapply (shape_dep (I:=good l))|]. split; [by eapply shape_alloc|]. by rewrite (shape_state _ _ pcb E).
Qed.
Lemma closed_in_state l w pcb : gclosed l pcb w -> in_state w pcb CLOSED = true.
Proof. intros ([H _] & Hp & Hs). unfold in_state, state_of, is_listen. rewrite (lk_disj _ H _ Hp). simpl. by rewrite Hs. Qed.

(** The new PCB of a connection goes to the active list. *)
Lemma connect_active l w pcb old :
  gclosed l pcb w -> (old = 0 -> pcb ∉ tcp_bound_pcbs (tcp w)) ->
  good l (TCP_REG_ACTIVE tcp_timer_needed
    (let w := upd_pcb w pcb (s_state SYN_SENT) in if negb (old =? 0) then TCP_RMV w Bound pcb else w) pcb).
Proof.
  intros Hc' Hold. destruct (Hc') as [[H Ha] [[t Ht] Hs]]. cbv zeta.
  assert (Hl : forall l', pcb ∈ pcbs (tcp w) l' -> l' = Bound).
  { pose proof (closed_in_state _ _ _ Hc') as Es%bool_decide_eq_true. eapply only_in; [exact H|exact Es| |done]. intros port. cbn. destruct (_ =? _); auto. }
  set (w1 := if negb (old =? 0) then TCP_RMV w Bound pcb else w).
  assert (H1 : lout pcb w1).
  { unfold w1. destruct (Z.eqb_spec old 0) as [E|E]; cbn [negb]; [|by apply rmv_out]. split; [done|]. intros l' Hp. pose proof (Hl _ Hp) as ->. by apply Hold. }
  assert (Ht1 : tcp_pcb_at (tcp w1) !! pcb = Some t) by (unfold w1, TCP_RMV; destruct (negb _); by rewrite ?tcp_upd).
  assert (Ew : tcp (if negb (old =? 0) then TCP_RMV (upd_pcb w pcb (s_state SYN_SENT)) Bound pcb else upd_pcb w pcb (s_state SYN_SENT)) =
               tcp (upd_pcb w1 pcb (s_state SYN_SENT))) by (unfold w1, TCP_RMV, upd_pcb; destruct (negb _); by rewrite !tcp_upd).
  clearbody w1. set (w2 := if negb _ then _ else _) in *. clearbody w2. destruct H1 as [H1 Ho1].
  unfold TCP_REG_ACTIVE. assert (Hreg : lok (TCP_REG tcp_timer_needed w2 Active pcb)).
  { apply (s_reg _). unfold lok. rewrite tcp_upd, Ew. unfold upd_pcb. rewrite tcp_upd. set (v := v_pcb_at _ _).
    assert (Hv : lists_ok v) by (apply ok_alter; [done|intros t' l' _ Hx; by apply Ho1 in Hx|done]). apply ok_add; [done| |unfold v; rewrite pcbs_pcb_at; apply Ho1].
    unfold belongs. cbn [tcp_listen_at tcp_pcb_at v_pcb_at v]. rewrite (lk_disj _ H1) by by eexists. by rewrite lookup_alter_eq, Ht1. }
  unfold good. rewrite tcp_upd. split; [|done]. by apply (ok_same (tcp (TCP_REG tcp_timer_needed w2 Active pcb))); [intros []|..].
Qed.

(** A CLOSED PCB gets a port. *)
Lemma port_closed l w pcb p :
  gclosed l pcb w -> t_local_port (pcb_of w pcb) = 0 ->
  gclosed l pcb (upd_pcb w pcb (s_local_port p)) /\ pcb ∉ tcp_bound_pcbs (tcp (upd_pcb w pcb (s_local_port p))).
Proof.
  intros Hc' Hp0. pose proof (closed_out l w pcb (proj1 Hc') (closed_in_state _ _ _ Hc')) as [_ Ho]. rewrite Hp0 in Ho. cbn [negb Z.eqb] in Ho.
  destruct Hc' as [[H Ha] [Hp Hs]]. unfold gclosed, good, closed_pcb. rewrite pcb_of_alter by done. unfold upd_pcb. rewrite !tcp_upd.
  split; [split; [split; [|exact Ha]|split; [|exact Hs]]|].
  - apply ok_alter; [done| |done]. intros t' l' _ Hx. by apply Ho in Hx.
  - cbn [tcp_pcb_at v_pcb_at]. rewrite lookup_alter_eq. by apply fmap_is_Some.
  - apply (Ho Bound).
Qed.

Lemma connect_good l w pcb ip port conn :
  good l w -> is_Some (tcp_pcb_at (tcp w) !! pcb) -> keeps (good l) (tcp_connect netif_output custom_free fuel tcp_timer_needed w pcb ip port conn).
Proof.
  intros Hg Hp. unfold tcp_connect. destruct ip as [ip|]; [|exact Hg]. destruct (pcb =? NULL); [exact Hg|].
  destruct (in_state w pcb CLOSED) eqn:Es; [|exact Hg]. cbn [negb]. cbv zeta. assert (H0 : gclosed l pcb w) by (split; [done|]; split; [done|]; by apply closed_state; [apply Hg|..]).
  clear Hg Hp Es. set (w1 := upd_pcb w pcb _). assert (H1 : gclosed l pcb w1) by (unfold w1; tframe). clearbody w1. clear H0.
  set (any := ip4_addr_isany _). assert (H2 : gclosed l pcb (if any then ip4_route w1 ip else (w1, NULL)).1) by (destruct any; [by apply (route_I _)|exact H1]).
  destruct (if any then ip4_route w1 ip else (w1, NULL)) as [w2 nif]. cbn [fst] in H2. destruct (_ && _); [apply H2|].
  set (w3 := if any then upd_pcb w2 _ _ else w2). assert (H3 : gclosed l pcb w3) by (unfold w3; tframe). clearbody w3. set (old := t_local_port (pcb_of w3 pcb)).
  set (J := fun w => gclosed l pcb w /\ (old = 0 -> pcb ∉ tcp_bound_pcbs (tcp w))).
  assert (HJ : shape_pred J).
  { intros w4 w5 E [Ha Hb]. split; [by eapply (shape_dep (I:=gclosed l pcb))|]. rewrite (shape_pcbs _ _ Bound E : tcp_bound_pcbs (tcp w5) = tcp_bound_pcbs (tcp w4)). done. }
  kthen J.
  { destruct (Z.eqb_spec old 0) as [E|E]; [|by split; [exact H3|intros]]. kthen (has_shape (shape (tcp w3))); [apply new_port_shape|]. intros [w4 p] E4. cbn [fst] in E4.
    destruct (port_closed l w4 pcb p) as [G1 G2]; [by eapply (shape_dep (I:=gclosed l pcb))| |by split].
    unfold old in E. pose proof (shape_key _ _ pcb E4) as Hk. unfold pcb_of in *. destruct (tcp_pcb_at (tcp w4) !! pcb), (tcp_pcb_at (tcp w3) !! pcb); try done.
    unfold key in Hk. simpl in *. injection Hk. congruence. }
  intros w4 H4. destruct (_ =? 0); [apply H4|]. unfold tcp_next_iss. set (w5 := upd_tcp w4 _).
  assert (H5 : J w5) by (apply (shape_dep (I:=J) w4); [unfold w5; by rewrite tcp_upd|done]). clearbody w5.
  set (w6 := upd_pcb w5 pcb _). assert (H6 : J w6) by (unfold w6; tframe). clearbody w6.
  set (w7 := upd_pcb w6 pcb _). assert (H7 : J w7) by (unfold w7; tframe). clearbody w7.
  pose proof (eff_send_mss_I J w7 INITIAL_MSS (t_remote_ip (pcb_of w7 pcb)) H7) as H8. destruct (tcp_eff_send_mss w7 _ _) as [w8 mss]. cbn [fst] in H8.
  set (w9 := upd_pcb w8 pcb _). assert (H9 : J w9) by (unfold w9; tframe). clearbody w9.
  kthen J; [by apply (s_enqueue _)|]. intros [w10 ret] [H10 Hb]. cbn [fst] in *. destruct (ret =? ERR_OK); [|apply H10].
  kthen (good l); [|by intros [w11 r] H11]. apply (s_output _). by apply connect_active.
Qed.

(** ** Allocation *)

Lemma oldest_of_in w ok l : oldest_of w ok l = NULL \/ oldest_of w ok l ∈ l.
Proof.
  unfold oldest_of. assert (H : forall (l0 : list Z) acc, (foldl (fun '(inactive, inactivity) pcb =>
     if ok pcb && (inactivity <=? inactivity_of w pcb) then (pcb, inactivity_of w pcb) else (inactive, inactivity)) acc l0).1 = acc.1 \/
     (foldl (fun '(inactive, inactivity) pcb =>
     if ok pcb && (inactivity <=? inactivity_of w pcb) then (pcb, inactivity_of w pcb) else (inactive, inactivity)) acc l0).1 ∈ l0).
  { induction l0 as [|x l0 IH]; intros [i n]; cbn [foldl]; [by left|]. destruct (_ && _).
    - destruct (IH (x, inactivity_of w x)) as [-> | Hx]; right; [by left|by right].
    - destruct (IH (i, n)) as [-> | Hx]; [by left|]. right. by right. }
  apply (H l (NULL, 0)).
Qed.
Lemma oldest_prio_in w prio : oldest_prio w prio = NULL \/ oldest_prio w prio ∈ tcp_active_pcbs (tcp w).
Proof.
  unfold oldest_prio. generalize (Z.min TCP_PRIO_MAX prio). intros m. generalize (tcp_active_pcbs (tcp w)). intros l.
  assert (H : forall acc, let r := (foldl (fun '(inactive, inactivity, mprio) pcb =>
     if (t_prio (pcb_of w pcb) <=? mprio) && (inactivity <=? inactivity_of w pcb)
     then (pcb, inactivity_of w pcb, t_prio (pcb_of w pcb)) else (inactive, inactivity, mprio)) acc l).1.1 in r = acc.1.1 \/ r ∈ l).
  { induction l as [|x l IH]; intros [[i n] q]; cbn [foldl]; [by left|]. destruct (_ && _).
    - destruct (IH (x, inactivity_of w x, t_prio (pcb_of w x))) as [-> | Hx]; right; [by left|by right].
    - destruct (IH (i, n, q)) as [-> | Hx]; [by left|]. right. by right. }
  apply (H (NULL, 0, m)).
Qed.
Lemma listed_not_listen w pcb l : lok w -> l <> Listening -> pcb ∈ pcbs (tcp w) l -> state_of w pcb <> LISTEN.
Proof.
  intros H Hl Hp E. pose proof (list_state w pcb l H Hp) as Hx. destruct l; [done|..]; destruct Hx as (_ & E1 & E2 & _); by rewrite <- E1, E in E2.
Qed.
Lemma kill_good l w pcb l' reset :
  good l w -> l' <> Listening -> pcb = NULL \/ pcb ∈ pcbs (tcp w) l' ->
  keeps (good l) (if negb (pcb =? NULL) then tcp_abandon netif_output custom_free fuel cb w pcb reset else Some w).
Proof.
  intros Hg Hl Hp. destruct (Z.eqb_spec pcb NULL) as [->|Hn]; [exact Hg|]. destruct Hp as [?|Hp]; [done|]. apply abandon_good; [done|].
  by eapply listed_not_listen; [apply Hg|..].
Qed.
Lemma attempts_good l kills w :
  Forall (fun kill => forall w, good l w -> keeps (good l) (kill w)) kills -> good l w -> keeps (good l) (alloc_attempts w kills).
Proof.
  intros Hk. revert w. induction Hk as [|kill kills Hkill _ IH]; intros w Hg; cbn [alloc_attempts];
    pose proof (wmalloc_I (good l) w MEMP_TCP_PCB Hg) as H1; destruct (wmalloc w MEMP_TCP_PCB) as [w1 a]; (destruct (negb _); [exact H1|]); [exact H1|].
  kthen (good l); [by apply Hkill|]. intros w2 H2. kthen (good l); [by apply IH|]. intros [w3 b] H3. cbn [fst] in H3.
  unfold keeps, wof, pair_has, wof, world_has, id. cbn [fst]. unfold stats_dec_err. tframe.
Qed.
Definition kills prio : list (world X -> option (world X)) :=
  [tcp_kill_timewait netif_output custom_free fuel cb; fun w => tcp_kill_state netif_output custom_free fuel cb w LAST_ACK;
   fun w => tcp_kill_state netif_output custom_free fuel cb w CLOSING; fun w => tcp_kill_prio netif_output custom_free fuel cb w prio].
Lemma kills_good l prio : Forall (fun kill => forall w, good l w -> keeps (good l) (kill w)) (kills prio).
Proof.
  repeat constructor; intros w Hg.
  - unfold tcp_kill_timewait, tcp_abort. cbv zeta. eapply (kill_good _ _ _ Timewait); [done|done|apply oldest_of_in].
  - unfold tcp_kill_state. cbv zeta. eapply (kill_good _ _ _ Active); [done|done|apply oldest_of_in].
  - unfold tcp_kill_state. cbv zeta. eapply (kill_good _ _ _ Active); [done|done|apply oldest_of_in].
  - unfold tcp_kill_prio, tcp_abort. cbv zeta. eapply (kill_good _ _ _ Active); [done|done|apply oldest_prio_in].
Qed.
(** The pool gives out an element that is not in use. *)
Definition fresh_pcb w prio : Prop :=
  forall w1 a, alloc_attempts w (kills prio) = Some (w1, a) -> a = NULL \/ (tcp_pcb_at (tcp w1) !! a = None /\ tcp_listen_at (tcp w1) !! a = None).
Lemma alloc_good l w prio : good l w -> fresh_pcb w prio -> keeps (good l) (tcp_alloc netif_output custom_free fuel cb tcp_recv_null_fn w prio).
Proof.
  intros Hg Hf. unfold tcp_alloc. fold (kills prio). pose proof (attempts_good l (kills prio) w (kills_good l prio) Hg) as H. unfold fresh_pcb in Hf.
  destruct (alloc_attempts w (kills prio)) as [[w1 a]|]; [|done]. cbn [mbind option_bind]. specialize (Hf w1 a eq_refl).
  destruct (Z.eqb_spec a NULL) as [->|Ha]; [exact H|]. cbn [negb]. destruct Hf as [?|[H1 H2]]; [done|]. destruct H as [H3 H4]. cbn [fst wof pair_has world_has id] in *.
  unfold keeps, wof, pair_has, wof, world_has, id. cbn [fst]. unfold good. rewrite tcp_upd. split; [by apply ok_insert|exact H4].
Qed.

(** ** Events *)

Lemma recv_null_good l w pcb p err : good l w -> keeps (good l) (tcp_recv_null netif_output custom_free fuel tcp_timer_needed w pcb p err).
Proof.
  intros Hg. unfold tcp_recv_null. destruct (negb _).
  - kthen (good l); [by apply (s_recved _)|]. intros w1 H1. kthen (good l); [by apply (s_wfree _)|]. by intros w2 H2.
  - destruct (_ =? _); [by apply close_good|exact Hg].
Qed.
Lemma call_recv_good l w pcb p err : good l w -> keeps (good l) (call_recv netif_output custom_free fuel tcp_timer_needed cb tcp_recv_null_fn w pcb p err).
Proof. intros Hg. unfold call_recv. cbv zeta. destruct (_ =? _); [by apply recv_null_good|by apply (tc_recv _ _ _ Hc)]. Qed.
Lemma refused_good l w pcb :
  good l w -> keeps (good l) (tcp_process_refused_data netif_output custom_free fuel tcp_timer_needed cb tcp_recv_null_fn w pcb).
Proof.
  intros Hg. unfold tcp_process_refused_data. cbv zeta. kthen (good l).
  { unfold TCP_EVENT_RECV. destruct (negb _); [apply call_recv_good|apply recv_null_good]; tframe. }
  intros [w1 err] H1. cbn [fst] in H1. destruct (_ =? ERR_OK).
  - destruct (has_flag _ _); [|exact H1]. kthen (good l).
    + unfold TCP_EVENT_CLOSED. destruct (negb _); [apply call_recv_good|unfold keeps, wof, pair_has, wof, world_has, id; cbn [fst]]; tframe.
    + by intros [w2 e2] H2.
  - destruct (_ =? ERR_ABRT); [exact H1|]. unfold keeps, wof, pair_has, wof, world_has, id. cbn [fst]. tframe.
Qed.

(** ** Timers *)

Lemma lok_good w : lok w -> good (tcp_active_pcbs (tcp w)) w.
Proof. by split. Qed.
Lemma clear_changed w : lok w -> good (tcp_active_pcbs (tcp w)) (upd_tcp w (v_changed false)).
Proof.
  intros H. unfold good. rewrite tcp_upd. split; [|done]. by apply (ok_same (tcp w)); [intros []|..].
Qed.

Lemma fast_step_lok (s : world X * Z) :
  lok s.1 -> match fast_step netif_output custom_free fuel tcp_timer_needed cb tcp_recv_null_fn s with inl s' => lok s'.1 | inr r => keeps lok r end.
Proof.
  destruct s as [w pcb]. cbn [fst]. intros H. unfold fast_step. destruct (pcb =? NULL); [exact H|]. destruct (negb _); [|exact H].
  match goal with |- match match ?o with _ => _ end with _ => _ end =>
    assert (Hk : keeps lok o); [|destruct o as [[w1 p1]|]; [exact Hk|done]] end.
  kthen lok; [apply (fast_ack_I _ _ _ lok); [apply out_keeps, _|tframe]|]. intros w1 H1.
  kthen lok.
  { unfold fast_fin. destruct (pcb_flag _ _ _); [|exact H1]. apply keeps_fst, (keeps_weaken (good (tcp_active_pcbs (tcp w1)))); [by intros ? []|].
    apply close_fin_good. assert (good (tcp_active_pcbs (tcp w1)) w1) by by apply lok_good. tframe. }
  intros w2 H2. destruct (negb _); [|exact H2]. kthen (good (tcp_active_pcbs (tcp w2))); [by apply refused_good, clear_changed|]. by intros [w3 e] [H3 _].
Qed.
Lemma fasttmr_lok w : lok w -> keeps lok (tcp_fasttmr netif_output custom_free fuel tcp_timer_needed cb tcp_recv_null_fn w).
Proof.
  intros H. unfold tcp_fasttmr. cbv zeta. apply (keeps_loop lok (A:=world X * Z)); [apply fast_step_lok|]. apply (shape_dep (I:=lok) w); [|done].
  cbn [wof pair_has world_has id fst]. by rewrite tcp_upd.
Qed.

(** The walk through a list with [prev] and [pcb]. *)
Definition walk (l : list Z) (prev pcb : Z) : Prop := exists a b, l = a ++ b /\ hd NULL b = pcb /\ (prev = NULL \/ prev ∈ a).

Lemma next_of_app a pcb b : pcb ∉ a -> next_of pcb (a ++ pcb :: b) = hd NULL b.
Proof.
  induction a as [|x a IH]; cbn [next_of app]; [by rewrite Z.eqb_refl|]. intros [Hx Ha]%not_elem_of_cons. rewrite (proj2 (Z.eqb_neq x pcb)) by done. auto.
Qed.
Lemma after_app a pcb b : pcb ∉ a -> after pcb (a ++ pcb :: b) = b.
Proof.
  induction a as [|x a IH]; cbn [after app]; [by rewrite Z.eqb_refl|]. intros [Hx Ha]%not_elem_of_cons. rewrite (proj2 (Z.eqb_neq x pcb)) by done. auto.
Qed.
Lemma up_to_app prev a b : prev ∈ a -> up_to prev (a ++ b) `sublist_of` a /\ prev ∈ up_to prev (a ++ b).
Proof.
  induction a as [|x a IH]; [by intros ?%elem_of_nil|]. cbn [up_to app]. destruct (Z.eqb_spec x prev) as [->|Hx].
  - intros _. split; [apply sublist_skip, sublist_nil_l|left].
  - intros [->|Hp]%elem_of_cons; [done|]. destruct (IH Hp) as [H1 H2]. split; [by apply sublist_skip|by right].
Qed.
(** Taking the PCB out keeps a place in the rest. *)
Lemma unlink_walk l prev pcb :
  NoDup l -> pcb <> NULL -> walk l prev pcb ->
  exists a b, l = a ++ pcb :: b /\ next_of pcb l = hd NULL b /\ (prev = NULL \/ prev ∈ a) /\
    unlink prev pcb l `sublist_of` l /\ (pcb ∉ unlink prev pcb l) /\ walk (unlink prev pcb l) prev (hd NULL b).
Proof.
  intros Hd Hn (a & b0 & -> & Hb & Hprev). destruct b0 as [|x b]; [by cbn in Hb; subst|]. cbn in Hb. subst x. exists a, b. split; [done|].
  apply NoDup_app in Hd as (Hda & Hdis & Hdb). apply NoDup_cons in Hdb as [Hpb Hdb]. assert (Hpa : pcb ∉ a) by (intros Hx; apply (Hdis _ Hx); left).
  split; [by apply next_of_app|]. split; [done|]. unfold unlink. rewrite after_app by done. destruct (Z.eqb_spec prev NULL) as [->|Hpn]; cbn [negb].
  - split; [apply sublist_inserts_l; by apply sublist_cons|]. split; [done|]. exists [], b. split; [done|]. split; [done|by left].
  - destruct Hprev as [?|Hprev]; [done|]. destruct (up_to_app prev a (pcb :: b) Hprev) as [H1 H2].
    split; [apply sublist_app; [done|by apply sublist_cons]|]. split.
    + rewrite elem_of_app. intros [Hx|Hx]; [|done]. apply Hpa. by eapply elem_of_submseteq; [|apply sublist_submseteq].
    + eexists _, b. split; [done|]. split; [done|by right].
Qed.
Lemma walk_next l prev pcb : NoDup l -> pcb <> NULL -> walk l prev pcb -> walk l pcb (next_of pcb l) /\ walk l prev (next_of pcb l).
Proof.
  intros Hd Hn Hw. destruct (unlink_walk l prev pcb Hd Hn Hw) as (a & b & -> & -> & Hprev & _).
  assert (E : a ++ pcb :: b = (a ++ [pcb]) ++ b) by by rewrite <- app_assoc. rewrite E. split.
  - exists (a ++ [pcb]), b. split; [done|]. split; [done|]. right. apply elem_of_app. right. left.
  - exists (a ++ [pcb]), b. split; [done|]. split; [done|]. destruct Hprev as [|Hp]; [by left|]. right. apply elem_of_app. by left.
Qed.
Lemma walk_start l : walk l NULL (hd NULL l).
Proof. exists [], l. split; [done|]. split; [done|by left]. Qed.

Definition slow_inv (s : world X * Z * Z) : Prop := lok s.1.1 /\ walk (tcp_active_pcbs (tcp s.1.1)) s.1.2 s.2.
Lemma slow_start_inv w : lok w -> slow_inv (start w).
Proof. split; [done|]. apply walk_start. Qed.

Lemma slow_remove_inv w prev pcb reset s :
  slow_inv (w, prev, pcb) -> pcb <> NULL -> slow_remove netif_output custom_free fuel cb w prev pcb reset = Some s -> slow_inv s.
Proof.
  intros [H Hw] Hn. cbn [fst snd] in *. unfold slow_remove. cbv zeta. pose proof (s_purge (has_shape (shape (tcp w))) w pcb eq_refl) as H1.
  destruct (tcp_pcb_purge _ _ _ _) as [w1|]; [|done]. cbn [mbind option_bind]. unfold keeps, wof, world_has, id, has_shape in H1.
  assert (Ea : tcp_active_pcbs (tcp w1) = tcp_active_pcbs (tcp w)) by apply (shape_pcbs _ _ Active H1). assert (L1 : lok w1) by by eapply shape_ok.
  rewrite Ea. destruct (unlink_walk (tcp_active_pcbs (tcp w)) _ _ (lk_nodup _ H Active) Hn Hw) as (a & b & El & -> & _ & Hsub & Hout' & Hwalk).
  set (l' := unlink prev pcb (tcp_active_pcbs (tcp w))) in *. set (w2 := upd_tcp w1 _).
  assert (G2 : gout l' pcb w2).
  { unfold w2, gout, good. rewrite tcp_upd. change (v_active_pcbs ?x ?v) with (set_pcbs Active x v). rewrite Ea. fold l'. split; [split; [|done]|].
    - apply ok_sub; [done|]. cbn [pcbs]. by rewrite Ea.
    - intros l0. rewrite pcbs_set. destruct (decide _) as [->|Hl0]; [done|]. intros Hp. apply Hl0. apply (one_list _ _ _ _ L1 Hp). cbn [pcbs].
      rewrite Ea, El. apply elem_of_app. right. left. }
  assert (A2 : tcp_active_pcbs (tcp w2) = l') by (unfold w2; rewrite tcp_upd; cbn [tcp_active_pcbs v_active_pcbs]; by rewrite Ea).
  clearbody w2. set (o := if reset then _ else Some w2).
  assert (H3 : keeps (has_shape (shape (tcp w2))) o) by (unfold o; destruct reset; [by apply (s_rst _)|done]).
  destruct o as [w3|]; [|done]. cbn [mbind option_bind]. unfold keeps, wof, world_has, id, has_shape in H3.
  assert (A3 : tcp_active_pcbs (tcp w3) = l') by (rewrite (shape_pcbs _ _ Active H3 : tcp_active_pcbs (tcp w3) = _); exact A2).
  destruct (free_pcb_out l' w3 pcb (shape_dep (I:=gout l' pcb) _ _ H3 G2)) as [[L4 _] _].
  pose proof (clear_changed (free_pcb w3 pcb) L4) as G5. assert (A4 : tcp_active_pcbs (tcp (free_pcb w3 pcb)) = l') by (unfold free_pcb; by rewrite tcp_upd).
  rewrite A4 in G5. pose proof (event_err_good l' _ (t_errf (pcb_of w pcb)) (t_callback_arg (pcb_of w2 pcb)) ERR_ABRT G5) as H6.
  destruct (TCP_EVENT_ERR _ _ _ _ _) as [w6|]; [|done]. cbn [mbind option_bind]. destruct H6 as [L6 A6]. unfold wof, world_has, id in L6, A6. intros [= <-].
  destruct (tcp_active_pcbs_changed (tcp w6)); [by apply slow_start_inv|]. split; [done|]. cbn [fst snd]. by rewrite A6.
Qed.

Lemma slow_poll_inv w prev pcb s :
  slow_inv (w, prev, pcb) -> pcb <> NULL -> slow_poll netif_output custom_free fuel cb w pcb = Some s -> slow_inv s.
Proof.
  intros [H Hw] Hn. cbn [fst snd] in *. unfold slow_poll. cbv zeta. destruct (walk_next (tcp_active_pcbs (tcp w)) _ _ (lk_nodup _ H Active) Hn Hw) as [W1 _].
  set (next := next_of pcb _) in *. set (w1 := upd_pcb w pcb _). assert (E1 : has_shape (shape (tcp w)) w1) by (unfold w1; assert (has_shape (shape (tcp w)) w) by done; tframe).
  assert (Hend : forall w', shape (tcp w') = shape (tcp w) -> slow_inv (w', pcb, next)).
  { intros w' E. split; [by eapply shape_ok|]. cbn [fst snd]. by rewrite (shape_pcbs _ _ Active E : tcp_active_pcbs (tcp w') = _). }
  destruct (_ <=? _); [|intros [= <-]; by apply Hend]. set (w2 := upd_pcb w1 pcb _). assert (E2 : has_shape (shape (tcp w)) w2) by (unfold w2; tframe).
  assert (A2 : tcp_active_pcbs (tcp w2) = tcp_active_pcbs (tcp w)) by apply (shape_pcbs _ _ Active E2). clearbody w1 w2.
  assert (L2 : lok w2) by by eapply shape_ok. pose proof (clear_changed w2 L2) as G3. rewrite A2 in G3.
  match goal with |- context [TCP_EVENT_POLL cb ?w3 pcb] => set (w3' := w3) in *; assert (H4 : keeps (good (tcp_active_pcbs (tcp w))) (TCP_EVENT_POLL cb w3' pcb)) by
    (unfold TCP_EVENT_POLL; cbv zeta; destruct (negb _); [by apply (tc_poll _ _ _ Hc)|exact G3]) end.
  destruct (TCP_EVENT_POLL _ _ _) as [[w4 err]|]; [|done]. cbn [mbind option_bind]. destruct H4 as [L4 A4]. cbv beta iota delta [wof pair_has world_has id fst] in L4, A4.
  destruct (tcp_active_pcbs_changed (tcp w4)); [intros [= <-]; by apply slow_start_inv|]. specialize (A4 eq_refl).
  assert (Hend' : forall w', shape (tcp w') = shape (tcp w4) -> slow_inv (w', pcb, next)).
  { intros w' E. split; [by eapply shape_ok|]. cbn [fst snd]. rewrite (shape_pcbs _ _ Active E : tcp_active_pcbs (tcp w') = tcp_active_pcbs (tcp w4)). by rewrite A4. }
  destruct (_ =? ERR_OK); [|intros [= <-]; by apply Hend']. pose proof (s_output (has_shape (shape (tcp w4))) w4 pcb eq_refl) as H5.
  destruct (tcp_output _ _ _ _ _) as [[w5 e5]|]; [|done]. intros [= <-]. by apply Hend'.
Qed.

Lemma slow_step_inv s :
  slow_inv s -> match slow_step netif_output custom_free fuel cb s with inl s' => slow_inv s' | inr r => keeps lok r end.
Proof.
  destruct s as [[w prev] pcb]. intros Hi. pose proof Hi as [H Hw]. cbn [fst snd] in H, Hw. unfold slow_step. destruct (Z.eqb_spec pcb NULL) as [->|Hn]; [exact H|].
  destruct (_ =? _); [split; [exact H|]; cbn [fst snd]; by apply (walk_next (tcp_active_pcbs (tcp w)) _ _ (lk_nodup _ H Active))|].
  cbv zeta. set (w1 := upd_pcb w pcb _). assert (E1 : has_shape (shape (tcp w)) w1) by (unfold w1; assert (has_shape (shape (tcp w)) w) by done; tframe).
  clearbody w1. pose proof (slow_checks_I netif_output custom_free fuel (has_shape (shape (tcp w))) (out_keeps _) w1 pcb E1) as H2.
  destruct (slow_checks _ _ _ _ _) as [[[w2 rm] rst]|]; [|done]. cbn [mbind option_bind]. cbv beta iota delta [keeps wof pair_has world_has id fst] in H2.
  assert (I2 : slow_inv (w2, prev, pcb)).
  { split; cbn [fst snd]; [by eapply shape_ok|]. by rewrite (shape_pcbs _ _ Active H2 : tcp_active_pcbs (tcp w2) = _). }
  destruct rm; [destruct (slow_remove _ _ _ _ _ _ _ _) eqn:E|destruct (slow_poll _ _ _ _ _ _) eqn:E]; try done; [by eapply slow_remove_inv|by eapply slow_poll_inv].
Qed.

Definition tw_inv (s : world X * Z * Z) : Prop := lok s.1.1 /\ walk (tcp_tw_pcbs (tcp s.1.1)) s.1.2 s.2.
Lemma tw_step_inv s : tw_inv s -> match tw_step custom_free fuel s with inl s' => tw_inv s' | inr r => keeps lok r end.
Proof.
  destruct s as [[w prev] pcb]. intros [H Hw]. cbn [fst snd] in *. unfold tw_step. destruct (Z.eqb_spec pcb NULL) as [->|Hn]; [exact H|]. cbv zeta.
  destruct (_ <? _); [|split; [exact H|]; cbn [fst snd]; by apply (walk_next (tcp_tw_pcbs (tcp w)) _ _ (lk_nodup _ H Timewait) Hn Hw)].
  pose proof (s_purge (has_shape (shape (tcp w))) w pcb eq_refl) as H1. destruct (tcp_pcb_purge _ _ _ _) as [w1|]; [|done].
  unfold keeps, wof, world_has, id, has_shape in H1. assert (Ea : tcp_tw_pcbs (tcp w1) = tcp_tw_pcbs (tcp w)) by apply (shape_pcbs _ _ Timewait H1).
  assert (L1 : lok w1) by by eapply shape_ok. destruct (unlink_walk (tcp_tw_pcbs (tcp w)) _ _ (lk_nodup _ H Timewait) Hn Hw) as (a & b & El & -> & _ & Hsub & Hout' & Hwalk).
  unfold tw_inv, lok, free_pcb. cbn [fst snd]. rewrite !tcp_upd, tcp_wmfree, !tcp_upd. change (v_tw_pcbs ?x ?v) with (set_pcbs Timewait x v). rewrite Ea. split; [|exact Hwalk].
  apply ok_delete.
  - apply ok_sub; [done|]. cbn [pcbs]. by rewrite Ea.
  - intros l0. rewrite pcbs_set. destruct (decide _) as [->|Hl0]; [done|]. intros Hp. apply Hl0. apply (one_list _ _ _ _ L1 Hp). cbn [pcbs].
    rewrite Ea, El. apply elem_of_app. right. left.
Qed.

(** A loop with an invariant on its state. *)
Lemma loop_inv {S} (J : S -> Prop) (step : S -> S + option (world X)) :
  (forall s, J s -> match step s with inl s' => J s' | inr r => keeps lok r end) -> forall n s, J s -> keeps lok (loop n step s ≫= id).
Proof. intros Hs n. induction n as [|n IH]; intros s Hj; [done|]. cbn [loop]. specialize (Hs s Hj). destruct (step s); [by apply IH|exact Hs]. Qed.

Lemma slowtmr_lok w : lok w -> keeps lok (tcp_slowtmr netif_output custom_free fuel cb w).
Proof.
  intros H. unfold tcp_slowtmr. cbv zeta. kthen lok.
  - apply (loop_inv slow_inv); [apply slow_step_inv|]. apply slow_start_inv. apply (shape_dep (I:=lok) w); [by rewrite tcp_upd|done].
  - intros w1 H1. apply (loop_inv tw_inv); [apply tw_step_inv|]. split; [exact H1|apply walk_start].
Qed.
Lemma tmr_lok w : lok w -> keeps lok (tcp_tmr netif_output custom_free fuel tcp_timer_needed cb tcp_recv_null_fn w).
Proof.
  intros H. unfold tcp_tmr. kthen lok; [by apply fasttmr_lok|]. intros w1 H1. cbv zeta.
  assert (H2 : lok (upd_tcp w1 (fun v => v_timer (u8 (tcp_timer v + 1)) v))) by (apply (shape_dep (I:=lok) w1); [by rewrite tcp_upd|done]).
  destruct (Z.odd _); [by apply slowtmr_lok|exact H2].
Qed.

(** ** A changed address *)

Lemma addr_changed_lok w l old : l <> Listening -> lok w -> keeps lok (tcp_netif_ip_addr_changed_pcblist netif_output custom_free fuel cb w l old).
Proof.
  intros Hl H. unfold tcp_netif_ip_addr_changed_pcblist. apply (keeps_loop lok (A:=world X * Z)); [|exact H]. intros [w1 pcb] H1.
  cbn [wof pair_has world_has id fst] in *. unfold wof, world_has, id in H1. unfold addr_changed_step. destruct (pcb =? NULL); [exact H1|]. destruct (bool_decide _) eqn:E; [|done]. cbn [negb].
  apply bool_decide_eq_true in E. cbv zeta. destruct (_ =? _); [|exact H1].
  pose proof (abandon_good _ w1 pcb true (lok_good w1 H1) (listed_not_listen w1 pcb l H1 Hl E)) as H2. unfold tcp_abort.
  destruct (tcp_abandon _ _ _ _ _ _ _); [|done]. apply H2.
Qed.
Lemma upd_listen_lok w p f : (forall x, l_state (f x) = l_state x) -> lok w -> lok (upd_listen w p f).
Proof.
  intros Hf [H1 H2 H3 H4 H5 H6]. unfold lok, upd_listen. rewrite tcp_upd. assert (El : forall l m, pcbs (v_listen_at m (tcp w)) l = pcbs (tcp w) l) by by intros [] m.
  constructor; cbn [tcp_pcb_at tcp_listen_at v_listen_at].
  - intros l. rewrite El. apply H1.
  - intros l q. rewrite El. intros Hq. specialize (H2 l q Hq). unfold belongs in *. cbn [tcp_pcb_at tcp_listen_at v_listen_at].
    destruct (decide (q = p)) as [->|]; [|by rewrite lookup_alter_ne]. rewrite lookup_alter_eq. destruct (tcp_listen_at (tcp w) !! p); [|done]. simpl. by rewrite Hf.
  - split; [apply H3|]. destruct (decide (NULL = p)) as [<-|]; [by rewrite lookup_alter_eq, (proj2 H3)|by rewrite lookup_alter_ne; [apply H3|]].
  - intros q Hq. specialize (H4 q Hq). destruct (decide (q = p)) as [->|]; [by rewrite lookup_alter_eq, H4|by rewrite lookup_alter_ne].
  - intros q y. destruct (decide (q = p)) as [->|]; [|rewrite lookup_alter_ne by done; apply H5]. rewrite lookup_alter_eq.
    destruct (tcp_listen_at (tcp w) !! p) eqn:E; [|done]. intros [= <-]. rewrite Hf. by eapply H5.
  - exact H6.
Qed.
Lemma ip_addr_changed_lok w old new : lok w -> keeps lok (tcp_netif_ip_addr_changed netif_output custom_free fuel cb w old new).
Proof.
  intros H. unfold tcp_netif_ip_addr_changed. destruct (negb _); [|exact H]. kthen lok; [by apply addr_changed_lok|]. intros w1 H1.
  kthen lok; [by apply addr_changed_lok|]. intros w2 H2. destruct new as [a|]; [|exact H2]. destruct (negb _); [|exact H2].
  unfold keeps, wof, world_has, id. generalize (tcp_listen_pcbs (tcp w2)). intros l. revert w2 H2. induction l as [|p l IH]; intros w2 H2; cbn [foldl]; [done|].
  apply IH. destruct (_ =? _); [|done]. by apply upd_listen_lok.
Qed.
End Ops.
