(* ===== verification/TcpSafe.v ===== *)
(** * The lists of PCBs are kept by every segment

    The state machine and [tcp_input] keep the invariant of the lists; together with the
    operations and the timers this is an invariant of everything that can happen. *)

From Stdlib Require Import ZArith Lia.
From stdpp Require Import base tactics numbers list option gmap relations.
From S2P Require Import Prelude.
From S2P Require Import Def.
From S2P Require Import Ip4Addr.
From S2P Require Import Alloc.
From S2P Require Import Mem.
From S2P Require Import Memp.
From S2P Require Import Pbuf.
From S2P Require Import World.
From S2P Require Import Ip4Frag.
From S2P Require Import Ip4.
From S2P Require Import Icmp.
From S2P Require Import Udp.
From S2P Require Import Tcp.
From S2P Require Import TcpOut.
From S2P Require Import TcpCore.
From S2P Require Import TcpIn.
From S2P Require Import TcpFrame.
From S2P Require Import TcpLists.

(** A flag is not changed by another one. *)
Lemma has_flag_lor v g f : Z.land g f = 0 -> has_flag (Z.lor v g) f = has_flag v f.
Proof. intros H. unfold has_flag. by rewrite Z.land_lor_distr_l, H, Z.lor_0_r. Qed.

Section Safe.
Context {X : Type} `{!tcp_store X}.
Context (netif_output : world X -> Z -> Z -> Z -> option (world X * Z)).
Context (custom_free : pstate -> Z -> pstate) (fuel : nat).
Context (tcp_timer_needed : world X -> world X) (cb : tcp_callbacks X).
Context (tcp_recv_null_fn tcp_accept_null_fn : Z).
Context (Hc : tcp_client netif_output tcp_timer_needed cb).
Implicit Types w : world X.

(** ** [tcp_receive] *)

(** The invariant for a PCB in an active state, with the flags that end a connection. *)
Definition ract (l : list Z) (pcb : Z) (r c : bool) w : Prop :=
  good l w /\ active_state (t_state (pcb_of w pcb)) /\ got w TF_RESET = r /\ got w TF_CLOSED = c.
Lemma shape_flags w w' f : shape (tcp w') = shape (tcp w) -> got w' f = got w f.
Proof. unfold shape, got, inv. intros E. by injection E as _ _ _ _ _ _ _ ->. Qed.
#[local] Instance ract_shape l pcb r c : shape_pred (ract l pcb r c).
Proof.
  intros w w' E (H1 & H2 & H3 & H4). split; [by eapply (shape_dep (I:=good l))|]. by rewrite (shape_state _ _ pcb E), !(shape_flags _ _ _ E).
Qed.
Lemma got_in w f : got (upd_in w f) = fun g => has_flag (recv_flags (f (inv w))) g.
Proof. unfold got, upd_in, inv. by rewrite tcp_upd. Qed.
Lemma pcb_of_in w f pcb : pcb_of (upd_in w f) pcb = pcb_of w pcb.
Proof. unfold pcb_of, upd_in. by rewrite tcp_upd. Qed.
Lemma ract_fin l pcb r c w : ract l pcb r c w -> ract l pcb r c (set_recv_flag w TF_GOT_FIN).
Proof.
  intros (H1 & H2 & H3 & H4). unfold set_recv_flag. split; [by apply good_in|]. rewrite pcb_of_in, got_in. cbn [recv_flags i_recv_flags].
  by rewrite !has_flag_lor.
Qed.
Lemma ract_state l pcb r c w s : ract l pcb r c w -> active_state s -> ract l pcb r c (upd_pcb w pcb (s_state s)).
Proof.
  intros (H1 & H2 & H3 & H4) Hs. split; [by apply upd_state_good|]. split; [|by unfold got, inv, upd_pcb; rewrite tcp_upd].
  destruct (tcp_pcb_at (tcp w) !! pcb) as [t|] eqn:E; [by rewrite pcb_of_alter|]. unfold pcb_of in *. unfold upd_pcb. rewrite tcp_upd.
  cbn [tcp_pcb_at v_pcb_at]. rewrite lookup_alter_eq, E. by rewrite E in H2.
Qed.

(** A property of the connection that survives the end of the stream. *)
Class recv_pred (pcb : Z) (J : world X -> Prop) : Prop := {
  rp_shape :: shape_pred J;
  rp_fin : forall w, J w -> J (set_recv_flag w TF_GOT_FIN);
  rp_close : forall w, J w -> got w TF_GOT_FIN = true -> t_state (pcb_of w pcb) = ESTABLISHED -> J (upd_pcb w pcb (s_state CLOSE_WAIT))
}.
Lemma got_set w f : f <> 0 -> got (set_recv_flag w f) f = true.
Proof.
  intros Hf. unfold set_recv_flag. rewrite got_in. cbn [recv_flags i_recv_flags]. unfold has_flag.
  rewrite Z.land_lor_distr_l, Z.land_diag, Z.lor_comm. destruct (Z.eqb_spec (Z.lor f (Z.land (recv_flags (inv w)) f)) 0) as [E|]; [|done].
  apply Z.lor_eq_0_iff in E as [E _]. done.
Qed.

Section Recv.
Context (pcb : Z) (J : world X -> Prop) `{!recv_pred pcb J}.

Lemma dequeue_J q w : J w -> keeps J (dequeue custom_free fuel w pcb q).
Proof.
  revert w. induction q as [|s q IH]; intros w H; cbn [dequeue]; [exact H|]. cbv zeta. destruct (_ =? _); [|exact H].
  set (w1 := advance _ _ _ _). assert (H1 : J w1) by (apply (advance_I J); tframe). clearbody w1. kthen J.
  { destruct (0 <? _); [|exact H1]. kthen J; [|intros w2 H2; unfold keeps, wof, world_has, id; tframe].
    destruct (negb _); [apply keeps_pure; intros st|]; unfold keeps, wof, world_has, id; tframe. }
  intros w2 H2. kthen J; [|exact IH]. apply (seg_free_I _ _ J). apply tf_pcb; [quiet|]. destruct (has_flag _ _); [|exact H2].
  assert (H3 := rp_fin _ H2). destruct (state_is _ _) eqn:Es; [|exact H3]. apply bool_decide_eq_true in Es. apply rp_close; [done|by apply got_set|done].
Qed.
Lemma receive_inseq_J w : J w -> keeps J (receive_inseq custom_free fuel w pcb).
Proof.
  intros H. unfold receive_inseq. kthen J; [by apply (trim_window_I _ _ J)|]. intros w1 H1. kthen J; [by apply (trim_ooseq_I _ _ J)|]. intros w2 H2. cbv zeta.
  kthen J; [|intros w3 H3; unfold keeps, wof, world_has, id, tcp_ack; tframe]. apply dequeue_J.
  set (w3 := advance _ _ _ _). assert (H3 : J w3) by by apply (advance_I J). clearbody w3.
  set (w4 := if 0 <? _ then _ else w3). assert (H4 : J w4) by (unfold w4; tframe). clearbody w4. destruct (has_flag _ _); [by apply rp_fin|exact H4].
Qed.
Lemma receive_J w : J w -> keeps J (tcp_receive netif_output custom_free fuel w pcb).
Proof.
  intros H. assert (Ho : output_keeps netif_output J) by (eapply (out_keeps _ _ _ Hc J)).
  unfold tcp_receive. kthen J; [destruct (in_flag _ _); [by apply (receive_ack_I _ _ _ J)|exact H]|].
  intros w1 H1. unfold receive_data. cbv zeta. destruct (_ && _).
  - kthen J.
    { destruct (TCP_SEQ_BETWEEN _ _ _); [by apply (trim_front_I _ J)|]. unfold keeps, wof, world_has, id. tframe. }
    intros w2 H2. destruct (in_rcv_wnd _ _); [|apply keeps_fst; by apply (send_empty_ack_I _ _ _ J)].
    destruct (_ =? _); [by apply receive_inseq_J|by apply (receive_ooseq_I _ _ _ J)].
  - unfold keeps, wof, world_has, id. tframe.
Qed.
End Recv.
#[local] Instance ract_recv l pcb r c : recv_pred pcb (ract l pcb r c).
Proof. split; [apply _|apply ract_fin|]. intros w H _ _. apply ract_state; [done|by intros port]. Qed.
Lemma receive_ract l pcb r c w : ract l pcb r c w -> keeps (ract l pcb r c) (tcp_receive netif_output custom_free fuel w pcb).
Proof. apply (receive_J pcb (ract l pcb r c)). Qed.

(** ** [tcp_process] *)

(** A result satisfies a property, if there is one. *)
Definition ends {A} (P : A -> Prop) (o : option A) : Prop := match o with Some a => P a | None => True end.
Lemma ends_bind {A B} (P : A -> Prop) (Q : B -> Prop) (o : option A) (k : A -> option B) :
  ends P o -> (forall a, P a -> ends Q (k a)) -> ends Q (o ≫= k).
Proof. destruct o; [|done]. intros H Hk. by apply Hk. Qed.
Lemma keeps_ends {A B} `{!has_world X A} I (Q : B -> Prop) (o : option A) (k : A -> option B) :
  keeps I o -> (forall a, I (wof a) -> ends Q (k a)) -> ends Q (o ≫= k).
Proof. destruct o; [|done]. intros H Hk. by apply Hk. Qed.
Ltac kends I :=
  match goal with
  | |- ends ?Q (@mbind _ _ ?A ?B ?k ?o) =>
      let h := constr:(_ : has_world X A) in
      apply (@keeps_ends A B h I Q o k); [|let a := fresh "a" in let H := fresh "H" in intros a H; cbv beta iota delta [wof pair_has world_has id fst snd] in H; revert a H]
  end.

(** The invariant and [live]. *)
Definition glive (l : list Z) (pcb : Z) w : Prop := good l w /\ live w pcb.
#[local] Instance glive_shape l pcb : shape_pred (glive l pcb).
Proof.
  intros w w' E [H1 H2]. split; [by eapply (shape_dep (I:=good l))|]. unfold live. by rewrite (shape_state _ _ pcb E), !(shape_flags _ _ _ E).
Qed.
Lemma ract_live l pcb r c w : ract l pcb r c w -> glive l pcb w.
Proof. intros (H1 & H2 & _). split; [done|]. by intros _. Qed.

(** What [tcp_process] ends with. *)
Definition pdone (l : list Z) (pcb : Z) (a : world X * Z) : Prop := good l a.1 /\ (a.2 <> ERR_ABRT -> live a.1 pcb).
Lemma live_done l pcb w e : glive l pcb w -> pdone l pcb (w, e).
Proof. intros [H1 H2]. by split. Qed.

Lemma active_alloc w pcb : lok w -> active_state (t_state (pcb_of w pcb)) ->
  state_of w pcb = t_state (pcb_of w pcb) /\ is_Some (tcp_pcb_at (tcp w) !! pcb).
Proof.
  intros H Hs. unfold state_of, is_listen, pcb_of in *. destruct (tcp_pcb_at (tcp w) !! pcb) as [t|] eqn:E; [|by specialize (Hs 0)].
  rewrite (lk_disj _ H pcb) by by eexists. split; [done|by eexists].
Qed.
Lemma upd_as_state w pcb f s : (forall t, key (f t) = (s, t_local_port t)) -> shape (tcp (upd_pcb w pcb f)) = shape (tcp (upd_pcb w pcb (s_state s))).
Proof.
  intros Hf. unfold upd_pcb. rewrite !tcp_upd. unfold shape. cbn. do 4 f_equal. apply map_eq. intros i. rewrite !lookup_fmap.
  destruct (decide (i = pcb)) as [->|]; [|by rewrite !lookup_alter_ne]. rewrite !lookup_alter_eq. destruct (tcp_pcb_at (tcp w) !! pcb); [|done].
  simpl. by rewrite Hf.
Qed.

Definition unflagged (l : list Z) w : Prop := good l w /\ got w TF_RESET = false /\ got w TF_CLOSED = false.
Lemma unflagged_done l pcb w e : unflagged l w -> pdone l pcb (w, e).
Proof. intros (H1 & H2 & H3). split; [done|]. intros _ [E|E]; cbn [fst] in E; congruence. Qed.
Lemma to_time_wait_keeps l pcb w :
  ract l pcb false false w -> keeps (unflagged l) (to_time_wait custom_free fuel tcp_timer_needed w pcb).
Proof.
  intros H. unfold to_time_wait. kthen (ract l pcb false false); [by apply (purge_I _ _ (ract l pcb false false))|]. intros w1 (H1 & H2 & H3 & H4).
  destruct (active_alloc w1 pcb (proj1 H1) H2) as [Es Hp]. unfold keeps, wof, world_has, id.
  assert (Ha : active_state (state_of w1 pcb)) by by rewrite Es. assert (Ho : gout l pcb (TCP_RMV_ACTIVE w1 pcb)) by by apply rmv_active_out.
  assert (Hp2 : is_Some (tcp_pcb_at (tcp (TCP_RMV_ACTIVE w1 pcb)) !! pcb)) by (unfold TCP_RMV_ACTIVE, TCP_RMV; by rewrite !tcp_upd).
  split; [exact (reg_timewait _ _ _ Hc _ _ _ Ho Hp2)|]. unfold TCP_REG. rewrite !(shape_flags _ _ _ (tc_timer _ _ _ Hc _)).
  unfold got, inv, upd_pcb, TCP_RMV_ACTIVE, TCP_RMV. rewrite !tcp_upd. done.
Qed.

Lemma process_rst_done l pcb w : ract l pcb false false w -> pdone l pcb (process_rst w pcb).
Proof.
  intros H. unfold process_rst. cbv zeta. set (ok := if state_is _ _ then _ else _). destruct ok.
  - apply live_done. apply (tf_pcb (I:=glive l pcb)); [quiet|]. destruct H as (H1 & H2 & _). unfold set_recv_flag. split; [by apply good_in|]. intros _. by rewrite pcb_of_in.
  - destruct (_ && _); apply live_done; [|by eapply ract_live]. apply ract_live with false false. tframe.
Qed.

Lemma connected_done l pcb w err : glive l pcb w -> ends (pdone l pcb) (TCP_EVENT_CONNECTED cb w pcb err).
Proof.
  intros [H1 H2]. unfold TCP_EVENT_CONNECTED. cbv zeta. destruct (negb _); [|by split; [|intros]].
  destruct (cb_connected _ _ _ _ _ _) as [[w1 r]|] eqn:E; [|done]. exact (tc_connected _ _ _ Hc _ _ _ _ _ _ _ _ H1 H2 E).
Qed.
Lemma syn_sent_done l pcb w : ract l pcb false false w -> ends (pdone l pcb) (process_syn_sent netif_output custom_free fuel cb w pcb).
Proof.
  intros H. assert (Ho : output_keeps netif_output (ract l pcb false false)) by (apply (out_keeps _ _ _ Hc (ract l pcb false false)); apply _).
  unfold process_syn_sent. cbv zeta. destruct (_ && _).
  - unfold syn_sent_acked. cbv zeta. set (w1 := upd_pcb w pcb _). assert (H1 : ract l pcb false false w1).
    { eapply (shape_dep (I:=ract l pcb false false)); [apply (upd_as_state w pcb _ ESTABLISHED); by intros t|]. by apply ract_state. }
    clearbody w1. pose proof (eff_send_mss_I (ract l pcb false false) w1 (t_mss (pcb_of w1 pcb)) (t_remote_ip (pcb_of w1 pcb)) H1) as H2.
    destruct (tcp_eff_send_mss w1 _ _) as [w2 mss]. cbn [fst] in H2. kends (ract l pcb false false).
    { unfold free_syn. set (w3 := upd_pcb w2 pcb _). assert (H3 : ract l pcb false false w3) by (unfold w3; tframe). clearbody w3.
      destruct (t_unacked (pcb_of w3 pcb)), (t_unsent (pcb_of w3 pcb)); try done; apply (seg_free_I _ _ (ract l pcb false false)); tframe. }
    intros w3 H3. eapply (ends_bind (pdone l pcb)).
    + apply connected_done. apply ract_live with false false. tframe.
    + intros [w4 e] [H4 H5]. cbn [fst snd] in *. destruct (Z.eqb_spec e ERR_ABRT) as [->|He]; [by split|].
      apply live_done. specialize (H5 He). assert (glive l pcb w4) by by split. tframe.
  - destruct (in_flag _ _); [|by apply live_done, (ract_live l pcb false false)]. kends (ract l pcb false false); [by apply (rst_segment_I _ _ _ (ract l pcb false false))|].
    intros w1 H1. kends (ract l pcb false false); [|intros w2 H2; by apply live_done, (ract_live l pcb false false)]. destruct (_ <? _); [|exact H1].
    apply (rexmit_rto_I _ _ _ (ract l pcb false false)); [done|]. tframe.
Qed.

(** The end of the states in which data is received. *)
Lemma passive_close l pcb r c w : ract l pcb r c w ->
  ract l pcb r c (if got w TF_GOT_FIN then upd_pcb (tcp_ack_now w pcb) pcb (s_state CLOSE_WAIT) else w).
Proof. intros H. destruct (got _ _); [|done]. apply ract_state; [tframe|by intros port]. Qed.

Lemma accept_done l w lpcb pcb arg err :
  good l w -> active_state (t_state (pcb_of w pcb)) ->
  ends (fun a => good l a.1 /\ (a.2 <> ERR_ABRT -> is_Some (tcp_pcb_at (tcp a.1) !! pcb)) /\ (a.2 = ERR_OK -> active_state (t_state (pcb_of a.1 pcb))))
    (TCP_EVENT_ACCEPT netif_output custom_free fuel cb tcp_accept_null_fn w lpcb pcb arg err).
Proof.
  intros Hg Hs. unfold TCP_EVENT_ACCEPT. cbv zeta. destruct (negb _).
  - destruct (_ =? tcp_accept_null_fn).
    + unfold tcp_accept_null. destruct (_ =? NULL); [done|]. kends (good l); [|by intros w1 H1].
      unfold tcp_abort. eapply abandon_good; [exact Hc|done|]. destruct (active_alloc w pcb (proj1 Hg) Hs) as [-> _]. intros E. specialize (Hs 0). by rewrite E in Hs.
    + destruct (cb_accept _ _ _ _ _ _) as [[w1 r]|] eqn:E; [|done]. destruct (tc_accept _ _ _ Hc _ _ _ _ _ _ _ _ Hg E) as [G1 G2]. split; [exact G1|exact (G2 Hs)].
  - split; [done|]. split; [|done]. intros _. apply (active_alloc w pcb (proj1 Hg) Hs).
Qed.
Lemma syn_rcvd_done l pcb w : ract l pcb false false w -> ends (pdone l pcb) (process_syn_rcvd netif_output custom_free fuel cb tcp_accept_null_fn w pcb).
Proof.
  intros H. assert (Ho : output_keeps netif_output (ract l pcb false false)) by (apply (out_keeps _ _ _ Hc (ract l pcb false false)); apply _).
  unfold process_syn_rcvd. cbv zeta. destruct (in_flag w TCP_ACK).
  - destruct (TCP_SEQ_BETWEEN _ _ _); [|kends (ract l pcb false false); [by apply (rst_segment_I _ _ _ (ract l pcb false false))|intros w1 H1; by apply live_done, (ract_live l pcb false false)]].
    set (w1 := upd_pcb w pcb _). assert (H1 : ract l pcb false false w1) by (apply ract_state; [done|by intros port]). clearbody w1.
    eapply (ends_bind (fun a => good l a.1 /\ (a.2 <> ERR_ABRT -> is_Some (tcp_pcb_at (tcp a.1) !! pcb)) /\ (a.2 = ERR_OK -> active_state (t_state (pcb_of a.1 pcb))))).
    { destruct H1 as (G1 & G2 & _). destruct (_ =? NULL); [|by apply accept_done]. split; [done|]. split; [|done]. intros _. apply (active_alloc w1 pcb (proj1 G1) G2). }
    intros [w2 e] (H2 & H3 & H4). cbn [fst snd] in *. destruct (Z.eqb_spec e ERR_OK) as [->|He]; cbn [negb].
    + set (r := got w2 TF_RESET). set (c := got w2 TF_CLOSED). assert (H5 : ract l pcb r c w2) by (split; [done|]; split; [by apply H4|done]).
      clearbody r c. kends (ract l pcb r c); [by apply receive_ract|]. intros w3 H6. apply live_done, (ract_live l pcb r c), passive_close. tframe.
    + kends (good l).
      * destruct (Z.eqb_spec e ERR_ABRT) as [->|Ha]; cbn [negb]; [exact H2|]. unfold tcp_abort. eapply abandon_good; [exact Hc|done|].
        destruct (H3 Ha) as [t Ht]. unfold state_of, is_listen, pcb_of. rewrite (lk_disj _ (proj1 H2)) by by eexists. rewrite Ht. by apply (lk_pcb _ (proj1 H2) pcb).
      * intros w3 H5. by split.
  - destruct (_ && _); apply live_done, (ract_live l pcb false false); [by apply (rexmit_I (ract l pcb false false))|exact H].
Qed.

Lemma process_done l pcb w :
  ract l pcb false false w -> ends (pdone l pcb) (tcp_process netif_output custom_free fuel tcp_timer_needed cb tcp_accept_null_fn w pcb).
Proof.
  intros H. unfold tcp_process. destruct (in_flag w TCP_RST); [by apply process_rst_done|]. destruct (_ && _ && _); [apply live_done, (ract_live l pcb false false); tframe|].
  cbv zeta. set (w0 := if negb (pcb_flag w pcb TF_RXCLOSED) then _ else w). assert (H0 : ract l pcb false false w0) by (unfold w0; tframe). clearbody w0.
  kends (ract l pcb false false); [apply (parseopt_I _ (ract l pcb false false)); tframe|]. intros w1 H1.
  destruct (t_state (pcb_of w1 pcb)); try (apply live_done, (ract_live l pcb false false); exact H1); [by apply syn_sent_done|by apply syn_rcvd_done|..];
    kends (ract l pcb false false); try (by apply receive_ract); intros w2 H2.
  - by apply live_done, (ract_live l pcb false false), passive_close.
  - destruct (got w2 TF_GOT_FIN); destruct (fin_acked w2 pcb).
    + kends (unflagged l); [apply to_time_wait_keeps; tframe|]. intros w3 H3. by apply unflagged_done.
    + apply live_done, (ract_live l pcb false false), ract_state; [tframe|by intros port].
    + apply live_done, (ract_live l pcb false false), ract_state; [done|by intros port].
    + by apply live_done, (ract_live l pcb false false).
  - destruct (got w2 TF_GOT_FIN); [|by apply live_done, (ract_live l pcb false false)]. kends (unflagged l); [apply to_time_wait_keeps; tframe|]. intros w3 H3. by apply unflagged_done.
  - by apply live_done, (ract_live l pcb false false), passive_close.
  - destruct (fin_acked w2 pcb); [|by apply live_done, (ract_live l pcb false false)]. kends (unflagged l); [by apply to_time_wait_keeps|]. intros w3 H3. by apply unflagged_done.
  - destruct (fin_acked w2 pcb); [|by apply live_done, (ract_live l pcb false false)]. apply live_done. destruct H2 as (G1 & G2 & _). unfold set_recv_flag.
    split; [by apply good_in|]. intros _. by rewrite pcb_of_in.
Qed.

(** ** [tcp_input] *)

(** A PCB that only the active list may hold is removed and freed. *)
Lemma active_only w pcb : lok w -> active_state (t_state (pcb_of w pcb)) -> forall l', pcb ∈ pcbs (tcp w) l' -> l' = Active.
Proof.
  intros H Hs. destruct (active_alloc w pcb H Hs) as [E _]. eapply only_in; [done|exact E|by right|]. intros E'. specialize (Hs 0). by rewrite E' in Hs.
Qed.
Lemma input_remove_lok w pcb : lok w -> active_state (t_state (pcb_of w pcb)) -> keeps lok (input_remove netif_output custom_free fuel w pcb).
Proof.
  intros H Hs. unfold input_remove. kthen (lout pcb).
  - eapply (pcb_remove_J _ _ _ _ _ Hc (lout pcb)); [intros; by apply out_close|apply rmv_out; [done|by apply active_only]].
  - intros w1 [H1 H2]. unfold keeps, wof, world_has, id, lok, free_pcb. rewrite tcp_upd, tcp_wmfree. by apply ok_delete.
Qed.
(** ... after its error function was called. *)
Lemma err_remove_lok w pcb err (b : bool) :
  lok w -> active_state (t_state (pcb_of w pcb)) ->
  keeps lok (w ← (if b then TCP_EVENT_ERR cb w (t_errf (pcb_of w pcb)) (t_callback_arg (pcb_of w pcb)) err else Some w);
             input_remove netif_output custom_free fuel w pcb).
Proof.
  intros H Hs. destruct b; [|by apply input_remove_lok]. unfold TCP_EVENT_ERR. destruct (negb _); [|by apply input_remove_lok].
  pose proof (tc_err _ _ _ Hc _ (t_errf (pcb_of w pcb)) w (t_callback_arg (pcb_of w pcb)) err (lok_good w H)) as H1.
  destruct (cb_err _ _ _ _ _) as [w1|] eqn:E; [|done]. cbn [mbind option_bind]. apply input_remove_lok; [apply H1|].
  pose proof (tc_err_same _ _ _ Hc _ _ _ _ _ pcb E eq_refl eq_refl) as Hk. unfold pcb_of in *.
  destruct (tcp_pcb_at (tcp w1) !! pcb), (tcp_pcb_at (tcp w) !! pcb); try done. simpl in *. unfold key in Hk. injection Hk as -> _. done.
Qed.

Lemma sent_done l pcb w : glive l pcb w -> ends (fun a => good l a.1 /\ (a.2 = true -> live a.1 pcb)) (input_sent cb w pcb).
Proof.
  intros [H1 H2]. unfold input_sent. destruct (_ <? _); [|by split]. eapply (ends_bind (pdone l pcb)).
  - unfold TCP_EVENT_SENT. cbv zeta. destruct (negb _); [|by split]. destruct (cb_sent _ _ _ _ _ _) as [[w1 r]|] eqn:E; [|done].
    exact (tc_sent _ _ _ Hc _ _ _ _ _ _ _ _ H1 H2 E).
  - intros [w1 e] [H3 H4]. cbn [fst snd] in *. destruct (Z.eqb_spec e ERR_ABRT) as [->|He]; [by split|].
    assert (H5 : glive l pcb (upd_in w1 (i_recv_acked 0))) by (specialize (H4 He); assert (glive l pcb w1) by (by split); tframe). split; [apply H5|]. intros _. apply H5.
Qed.
Lemma alloc_not_listen w pcb : lok w -> is_Some (tcp_pcb_at (tcp w) !! pcb) -> state_of w pcb <> LISTEN.
Proof.
  intros H [t Ht]. unfold state_of, is_listen, pcb_of. rewrite (lk_disj _ H) by by eexists. rewrite Ht. by apply (lk_pcb _ H pcb).
Qed.
Lemma input_data_good l pcb w : good l w -> keeps (good l) (input_data netif_output custom_free fuel tcp_timer_needed cb tcp_recv_null_fn w pcb).
Proof.
  intros H. unfold input_data. cbv zeta. destruct (negb _); [|exact H]. destruct (pcb_flag w pcb TF_RXCLOSED) eqn:Ef.
  - kthen (has_shape (shape (tcp w))); [by apply (wfree_I _ _ (has_shape (shape (tcp w))))|]. intros w1 H1. kthen (good l); [|by intros w2 H2]. unfold tcp_abort.
    eapply abandon_good; [exact Hc|by eapply (shape_dep (I:=good l))|]. rewrite (shape_state_of _ _ _ H1). apply alloc_not_listen; [apply H|].
    unfold pcb_flag, pcb_of in Ef. destruct (tcp_pcb_at (tcp w) !! pcb); [by eexists|done].
  - kthen (good l).
    + unfold TCP_EVENT_RECV. destruct (negb _); [eapply call_recv_good|eapply recv_null_good]; done.
    + intros [w1 e] H1. cbn [fst] in H1. destruct (_ =? ERR_ABRT); [exact H1|]. unfold keeps, wof, pair_has, wof, world_has, id. cbn [fst]. tframe.
Qed.
Lemma input_fin_good l pcb w : good l w -> keeps (good l) (input_fin netif_output custom_free fuel tcp_timer_needed cb tcp_recv_null_fn w pcb).
Proof.
  intros H. unfold input_fin. cbv zeta. destruct (got _ _); [|exact H]. destruct (negb _).
  - unfold keeps, wof, pair_has, wof, world_has, id. cbn [fst]. tframe.
  - kthen (good l); [|by intros [w1 e] H1]. set (w1 := upd_pcb w pcb _). assert (H1 : good l w1) by (unfold w1; tframe). clearbody w1.
    unfold TCP_EVENT_CLOSED. destruct (negb _); [eapply call_recv_good; done|exact H1].
Qed.
Lemma input_events_lok l pcb w : glive l pcb w -> keeps lok (input_events netif_output custom_free fuel tcp_timer_needed cb tcp_recv_null_fn w pcb).
Proof.
  intros H. unfold input_events. pose proof (sent_done l pcb w H) as H1. destruct (input_sent _ _ _) as [[w1 go]|]; [|done]. cbn [mbind option_bind].
  destruct H1 as [H1 H2]. cbn [fst snd] in *. destruct go; cbn [negb]; [|apply H1]. specialize (H2 eq_refl).
  unfold input_closed. destruct (got w1 TF_CLOSED) eqn:Eg.
  - cbv zeta. pose proof (err_remove_lok w1 pcb ERR_CLSD (negb (pcb_flag w1 pcb TF_RXCLOSED)) (proj1 H1) (H2 (or_intror Eg))) as H3.
    set (o := if negb (pcb_flag w1 pcb TF_RXCLOSED) then _ else Some w1) in *. destruct o as [w2|]; [|done]. cbn [mbind option_bind] in *.
    destruct (input_remove _ _ _ w2 pcb) as [w3|]; [|done]. exact H3.
  - cbn [mbind option_bind negb]. pose proof (input_data_good l pcb w1 H1) as H3. destruct (input_data _ _ _ _ _ _ _ _) as [[w2 go]|]; [|done].
    cbn [mbind option_bind]. destruct go; cbn [negb]; [|apply H3]. pose proof (input_fin_good l pcb w2 H3) as H4.
    destruct (input_fin _ _ _ _ _ _ _ _) as [[w3 go]|]; [|done]. cbn [mbind option_bind]. destruct go; cbn [negb]; [|apply H4].
    apply keeps_fst. eapply (s_output _ _ _ _ _ Hc lok). apply lok_in. apply H4.
Qed.

Lemma input_aborted_lok w : lok w -> keeps lok (input_aborted custom_free fuel w).
Proof.
  intros H. unfold input_aborted. cbv zeta. assert (H1 := lok_in w (fun i => i_recv_data NULL (i_input_pcb NULL i)) H). destruct (negb _); [|exact H1].
  kthen lok; [by apply (wfree_I _ _ lok)|]. intros w1 H2. by apply lok_in.
Qed.

Lemma input_pcb_lok w p pcb :
  lok w -> active_state (t_state (pcb_of w pcb)) -> t_refused_data (pcb_of w pcb) = NULL ->
  keeps lok (input_pcb netif_output custom_free fuel tcp_timer_needed cb tcp_recv_null_fn tcp_accept_null_fn w p pcb).
Proof.
  intros H Hs Hr. unfold input_pcb. cbv zeta. set (w1 := upd_in w _). set (l := tcp_active_pcbs (tcp w)).
  assert (H1 : ract l pcb false false w1).
  { unfold w1. split; [by apply good_in, lok_good|]. by rewrite pcb_of_in, got_in. }
  assert (R1 : t_refused_data (pcb_of w1 pcb) = NULL) by (unfold w1; by rewrite pcb_of_in). clearbody w1.
  set (w2 := if in_flag w1 TCP_PSH then _ else w1). assert (H2 : ract l pcb false false w2) by (unfold w2; tframe).
  assert (R2 : t_refused_data (pcb_of w2 pcb) = NULL) by (unfold w2; by destruct (in_flag _ _)). clearbody w2.
  unfold input_refused. rewrite R2, Z.eqb_refl. cbn [negb mbind option_bind]. kthen lok; [|intros w3 H3; by apply input_aborted_lok].
  pose proof (process_done l pcb (upd_in w2 (i_input_pcb pcb)) ltac:(tframe)) as H3. destruct (tcp_process _ _ _ _ _ _ _ _) as [[w3 err]|]; [|done].
  cbn [mbind option_bind]. destruct H3 as [H3 H4]. cbn [fst snd] in *. destruct (Z.eqb_spec err ERR_ABRT) as [->|He]; [apply H3|]. specialize (H4 He).
  destruct (got w3 TF_RESET) eqn:Eg; [|by apply (input_events_lok l)]. apply (err_remove_lok w3 pcb ERR_RST true (proj1 H3)). apply H4. by left.
Qed.

(** A new connection. *)
Lemma alloc_new w prio :
  lok w -> fresh_pcb netif_output custom_free fuel cb w prio ->
  ends (fun a => lok a.1 /\ (a.2 <> NULL -> lout a.2 a.1 /\ is_Some (tcp_pcb_at (tcp a.1) !! a.2)))
    (tcp_alloc netif_output custom_free fuel cb tcp_recv_null_fn w prio).
Proof.
  intros H Hf. unfold tcp_alloc. fold (kills netif_output custom_free fuel cb prio). set (l := tcp_active_pcbs (tcp w)).
  pose proof (attempts_good l (kills netif_output custom_free fuel cb prio) w (kills_good _ _ _ _ _ Hc l prio) (lok_good w H)) as H1.
  unfold fresh_pcb in Hf. destruct (alloc_attempts w _) as [[w1 a]|]; [|done]. cbn [mbind option_bind]. specialize (Hf w1 a eq_refl).
  destruct (Z.eqb_spec a NULL) as [->|Ha]; cbn [negb]; [split; [apply H1|done]|]. destruct Hf as [?|[E1 E2]]; [done|]. destruct H1 as [H1 _].
  cbv beta iota delta [wof pair_has world_has id fst] in H1. cbn [ends fst snd]. unfold lok, lout. rewrite tcp_upd. assert (Hi : forall t, t_state t <> LISTEN -> lists_ok (v_pcb_at (<[a := t]> (tcp_pcb_at (tcp w1))) (tcp w1))) by (intros; by apply ok_insert).
  split; [by apply Hi|]. intros _. split; [split; [by apply Hi|]|cbn [tcp_pcb_at v_pcb_at]; rewrite lookup_insert_eq; by eexists].
  intros l'. rewrite pcbs_pcb_at. intros Hp. apply (lk_home _ H1) in Hp. unfold belongs in Hp. by rewrite E1, E2 in Hp.
Qed.
(** The PCB of a new connection, before it is in a list. *)
Definition lnew pcb w : Prop := lout pcb w /\ is_Some (tcp_pcb_at (tcp w) !! pcb).
#[local] Instance lnew_shape pcb : shape_pred (lnew pcb).
Proof. intros w w' E [H1 H2]. split; [by eapply (shape_dep (I:=lout pcb))|by eapply shape_alloc]. Qed.
Lemma lnew_upd pcb w f : (forall t, t_state t <> LISTEN -> t_state (f t) <> LISTEN) -> lnew pcb w -> lnew pcb (upd_pcb w pcb f).
Proof.
  intros Hf [[H Ho] Hp]. unfold lnew, lout, upd_pcb. rewrite !tcp_upd. split; [split|].
  - apply ok_alter; [done| |done]. intros t l _ Hx. by apply Ho in Hx.
  - intros l. rewrite pcbs_pcb_at. apply Ho.
  - cbn [tcp_pcb_at v_pcb_at]. rewrite lookup_alter_eq. by apply fmap_is_Some.
Qed.
Definition lact pcb w : Prop := lok w /\ active_state (t_state (pcb_of w pcb)).
#[local] Instance lact_shape pcb : shape_pred (lact pcb).
Proof. intros w w' E [H1 H2]. split; [by eapply shape_ok|]. by rewrite (shape_state _ _ pcb E). Qed.
Lemma reg_active w pcb : lnew pcb w -> active_state (t_state (pcb_of w pcb)) -> lact pcb (TCP_REG_ACTIVE tcp_timer_needed w pcb).
Proof.
  intros [[H Ho] Hp] Hs. unfold TCP_REG_ACTIVE. assert (Hreg : lact pcb (TCP_REG tcp_timer_needed w Active pcb)).
  { apply (s_reg _ _ _ Hc (lact pcb)). unfold lact, lok, pcb_of in *. rewrite !tcp_upd. split; [|exact Hs]. apply ok_add; [done| |apply Ho].
    unfold belongs. rewrite (lk_disj _ H _ Hp). destruct Hp as [t Ht]. rewrite Ht in *. apply Hs. }
  destruct Hreg as [H1 H2]. unfold lact, lok, pcb_of in *. rewrite !tcp_upd. split; [|exact H2].
  by apply (ok_same (tcp (TCP_REG tcp_timer_needed w Active pcb))); [intros []|..].
Qed.

Lemma listen_input_lok w lpcb :
  lok w -> fresh_pcb netif_output custom_free fuel cb w (l_prio (listen_of w lpcb)) ->
  keeps lok (tcp_listen_input netif_output custom_free fuel tcp_timer_needed cb tcp_recv_null_fn tcp_accept_null_fn w lpcb).
Proof.
  intros H Hf. unfold tcp_listen_input. cbv zeta. destruct (in_flag w TCP_RST); [exact H|].
  destruct (in_flag w TCP_ACK); [apply (rst_segment_I _ _ _ lok); [apply (out_keeps _ _ _ Hc lok); apply _|done]|]. destruct (in_flag w TCP_SYN); [|exact H].
  pose proof (alloc_new w _ H Hf) as H1. destruct (tcp_alloc _ _ _ _ _ _ _) as [[w1 a]|]; [|done]. cbn [mbind option_bind]. destruct H1 as [H1 Hn]. cbn [fst snd] in *.
  destruct (Z.eqb_spec a NULL) as [->|Ha].
  { apply keeps_fst. unfold TCP_EVENT_ACCEPT. cbv zeta. assert (H2 : lok (stats_inc S_tcp F_memerr w1)) by tframe. destruct (negb _); [|exact H2]. destruct (_ =? tcp_accept_null_fn); [done|].
    destruct (cb_accept _ _ _ _ _ _) as [[w2 r]|] eqn:E; [|done]. apply (tc_accept _ _ _ Hc _ _ _ _ _ _ _ _ (lok_good _ H2) E). }
  destruct (Hn Ha) as [G1 Hp]. assert (N1 : lnew a w1) by by split. clear Hn G1 Hp.
  set (w2 := upd_pcb w1 a _). assert (N2 : lnew a w2 /\ t_state (pcb_of w2 a) = SYN_RCVD).
  { split; [by apply lnew_upd|]. unfold w2. by rewrite pcb_of_alter by apply N1. }
  destruct N2 as [N2 S2]. clearbody w2. unfold tcp_next_iss. set (w3 := upd_tcp w2 _). assert (E3 : shape (tcp w3) = shape (tcp w2)) by (unfold w3; by rewrite tcp_upd).
  set (J := fun w => lnew a w /\ t_state (pcb_of w a) = SYN_RCVD). assert (HJ : shape_pred J).
  { intros x y E [Hx1 Hx2]. split; [by eapply (shape_dep (I:=lnew a))|]. by rewrite (shape_state _ _ a E). }
  assert (J3 : J w3) by by apply (shape_dep (I:=J) w2). clearbody w3. set (w4 := upd_pcb w3 a _). assert (J4 : J w4) by (unfold w4; tframe). clearbody w4.
  set (w5 := upd_pcb w4 a _). assert (J5 : J w5) by (unfold w5; tframe). clearbody w5. destruct J5 as [N5 S5].
  kthen (lact a); [apply (parseopt_I _ (lact a)), reg_active; [done|rewrite S5; by intros port]|]. intros w6 H6.
  set (w7 := upd_pcb w6 a _). assert (H7 : lact a w7) by (unfold w7; tframe). clearbody w7.
  pose proof (eff_send_mss_I (lact a) w7 (t_mss (pcb_of w7 a)) (t_remote_ip (pcb_of w7 a)) H7) as H8. destruct (tcp_eff_send_mss w7 _ _) as [w8 mss]. cbn [fst] in H8.
  kthen (lact a); [apply (enqueue_flags_I _ _ (lact a)); tframe|]. intros [w9 rc] [H9 S9]. cbn [fst] in *. destruct (negb _).
  - eapply (keeps_weaken (good (tcp_active_pcbs (tcp w9)))); [by intros ? []|]. eapply abandon_good; [exact Hc|by apply lok_good|].
    destruct (active_alloc w9 a H9 S9) as [-> _]. intros E. specialize (S9 0). by rewrite E in S9.
  - apply keeps_fst. by apply (s_output _ _ _ _ _ Hc lok).
Qed.

(** ** Demultiplexing *)

Lemma move_to_front_lok w l pcb : lok w -> pcb ∈ pcbs (tcp w) l -> lok (move_to_front w l pcb).
Proof.
  intros H Hp. unfold move_to_front. destruct (_ =? _); [tframe|]. unfold lok. rewrite tcp_upd. apply ok_set; [done| |].
  - destruct (NoDup_list_remove1 pcb (pcbs (tcp w) l) (lk_nodup _ H l)) as [H1 H2]. by constructor.
  - intros q [->|Hq]%elem_of_cons; [by apply (lk_home _ H)|]. apply (lk_home _ H). by apply elem_of_list_remove1 in Hq.
Qed.
Lemma move_to_front_pcb w l pcb : pcb_of (move_to_front w l pcb) pcb = pcb_of w pcb /\
  tcp_pcb_at (tcp (move_to_front w l pcb)) = tcp_pcb_at (tcp w) /\ tcp_listen_at (tcp (move_to_front w l pcb)) = tcp_listen_at (tcp w) /\
  ps_pools (w_ps (move_to_front w l pcb)) = ps_pools (w_ps w).
Proof. unfold move_to_front, pcb_of. destruct (_ =? _); [done|]. rewrite tcp_upd. by destruct l. Qed.
Lemma find_pcb_in w l pcb : find_pcb w l = Some pcb -> pcb ∈ pcbs (tcp w) l.
Proof. unfold find_pcb. intros [H _]%List.find_some. by apply list_elem_of_In. Qed.

Lemma header_pools st p n : ps_pools (pbuf_header st p n).1 = ps_pools st.
Proof. unfold pbuf_header, pbuf_header_impl. destruct (_ || _); [done|]. cbv zeta. destruct (_ && _); [done|]. destruct (pb_type _); repeat case_match; done. Qed.
Lemma skip_pools w p n : tcp (skip_options w p n).1 = tcp w /\ ps_pools (w_ps (skip_options w p n).1) = ps_pools (w_ps w).
Proof.
  unfold skip_options. destruct (_ <=? _); [split; [done|]; cbn [fst w_ps set_wps]; apply header_pools|]. cbv zeta.
  match goal with |- context [pb_len (pb ?st ?q) <? _] => assert (E : ps_pools st = ps_pools (w_ps w)) by by rewrite !header_pools end.
  destruct (_ <? _); (split; [done|]); cbn [fst w_ps set_wps]; [exact E|]. change (ps_pools (upd_pb ?st _ _)) with (ps_pools st). by rewrite header_pools.
Qed.

(** The pools give out elements that are not in use, for worlds with the same PCBs and pools. *)
Definition fresh_input w : Prop :=
  forall w1 prio, tcp_pcb_at (tcp w1) = tcp_pcb_at (tcp w) -> tcp_listen_at (tcp w1) = tcp_listen_at (tcp w) ->
    ps_pools (w_ps w1) = ps_pools (w_ps w) -> fresh_pcb netif_output custom_free fuel cb w1 prio.

Lemma input_lok w p inp :
  lok w -> (forall pcb, pcb ∈ tcp_active_pcbs (tcp w) -> t_refused_data (pcb_of w pcb) = NULL) -> fresh_input w ->
  keeps lok (tcp_input netif_output custom_free fuel tcp_timer_needed cb tcp_recv_null_fn tcp_accept_null_fn w p inp).
Proof.
  intros H Hr Hf. unfold tcp_input. cbv zeta. set (w1 := upd_in _ _).
  assert (E1 : lok w1 /\ pcbs (tcp w1) = pcbs (tcp w) /\ tcp_pcb_at (tcp w1) = tcp_pcb_at (tcp w) /\ tcp_listen_at (tcp w1) = tcp_listen_at (tcp w) /\ ps_pools (w_ps w1) = ps_pools (w_ps w)).
  { unfold w1. split; [apply lok_in; tframe|]. unfold upd_in. by rewrite !tcp_upd. }
  clearbody w1. destruct E1 as (H1 & P1 & A1 & B1 & Q1).
  assert (Hd : forall w2, lok w2 -> keeps lok (wfree custom_free fuel (stats_inc S_tcp F_drop w2) p)) by (intros w2 H2; apply (wfree_I _ _ lok); tframe).
  destruct (_ <? TCP_HLEN); [apply Hd; tframe|]. destruct (_ || _); [apply Hd; tframe|]. destruct (_ || _); [apply Hd; tframe|].
  destruct (skip_pools w1 p (u8 (TCPH_HDRLEN (wmem w1) (payload (stats_inc S_tcp F_recv w) p) * 4))) as [A2 Q2]. destruct (skip_options w1 p _) as [w2 [[opt1len opt2]|[]]]; cbn [fst] in *.
  all: assert (H2 : lok w2) by (unfold lok in *; by rewrite A2).
  2:{ apply Hd. tframe. }
  set (w3 := read_header w2 _ _ _ _ _). assert (H3 : lok w3) by (unfold w3, read_header; cbv zeta; apply lok_in; tframe).
  assert (A3 : tcp_pcb_at (tcp w3) = tcp_pcb_at (tcp w) /\ tcp_listen_at (tcp w3) = tcp_listen_at (tcp w) /\ ps_pools (w_ps w3) = ps_pools (w_ps w) /\ pcbs (tcp w3) = pcbs (tcp w)).
  { unfold w3, read_header. cbv zeta. unfold upd_in. rewrite !tcp_upd. change (tcp (set_wmem w2 ?m)) with (tcp w2). rewrite A2. rewrite <- A1, <- B1, <- Q1, <- P1. by rewrite <- Q2. }
  clearbody w3. destruct A3 as (A3 & B3 & Q3 & P3). destruct (find_pcb w3 Active) as [pcb|] eqn:F.
  { apply find_pcb_in in F. destruct (move_to_front_pcb w3 Active pcb) as (E1 & _). apply input_pcb_lok.
    - by apply move_to_front_lok.
    - rewrite E1. destruct (list_state w3 pcb Active H3 F) as (_ & _ & E & _). intros port. destruct (t_state (pcb_of w3 pcb)); try done. cbn in E. by destruct (_ =? _).
    - rewrite E1. unfold pcb_of. rewrite A3. apply Hr. change (tcp_active_pcbs (tcp w)) with (pcbs (tcp w) Active). by rewrite <- P3. }
  assert (Hw : forall w4, lok w4 -> keeps lok (wfree custom_free fuel w4 p)) by (intros w4 H4; by apply (wfree_I _ _ lok)).
  assert (Ho : output_keeps netif_output (lok (X:=X))) by (apply (out_keeps _ _ _ Hc lok); apply _).
  destruct (find_pcb w3 Timewait) as [pcb|]; [kthen lok; [by apply (timewait_input_I _ _ _ lok)|exact Hw]|].
  destruct (find_pcb w3 Listening) as [lpcb|] eqn:F3.
  - apply find_pcb_in in F3. destruct (move_to_front_pcb w3 Listening lpcb) as (_ & E2 & E3 & E4). kthen lok; [|exact Hw]. apply listen_input_lok; [by apply move_to_front_lok|].
    apply Hf; congruence.
  - kthen lok; [|exact Hw]. destruct (negb _); [apply (rst_segment_I _ _ _ lok); [exact Ho|tframe]|exact H3].
Qed.

(** ** Everything that can happen *)

Lemma txnow_lok w : lok w -> keeps lok (tcp_txnow netif_output custom_free fuel w).
Proof.
  intros H. unfold tcp_txnow. apply (loop_inv (fun s => lok s.1)); [|exact H]. intros [w1 pcb] H1. cbn [fst] in H1. unfold txnow_step. destruct (pcb =? NULL); [exact H1|].
  set (o := if pcb_flag _ _ _ then _ else Some w1).
  assert (H2 : keeps lok o) by (unfold o; destruct (pcb_flag _ _ _); [apply keeps_fst; by apply (s_output _ _ _ _ _ Hc lok)|exact H1]). destruct o; [exact H2|done].
Qed.
Lemma free_ooseq_lok w : lok w -> keeps lok (pbuf_free_ooseq custom_free fuel w).
Proof.
  intros H. unfold pbuf_free_ooseq. cbv zeta. set (w1 := set_wps w _). assert (H1 : lok w1) by (unfold w1; tframe). clearbody w1.
  generalize (tcp_active_pcbs (tcp w1)). intros l. revert w1 H1. induction l as [|p l IH]; intros w1 H1; cbn [free_first_ooseq]; [exact H1|].
  destruct (t_ooseq _) as [|s q]; [by apply IH|]. kthen lok; [by apply (segs_free_I _ _ lok)|]. intros w2 H2. unfold keeps, wof, world_has, id. tframe.
Qed.

(** The calls of the application and of the stack; whatever the rest of the stack does to
    its own state between them is [tstep_world]. *)
Inductive tcp_step : world X -> world X -> Prop :=
| tstep_world w w' : tcp w' = tcp w -> tcp_step w w'
| tstep_new w w' pcb : fresh_pcb netif_output custom_free fuel cb w TCP_PRIO_NORMAL ->
    tcp_new netif_output custom_free fuel cb tcp_recv_null_fn w = Some (w', pcb) -> tcp_step w w'
| tstep_bind w pcb ip port w' r : is_Some (tcp_pcb_at (tcp w) !! pcb) -> pcb ∉ tcp_bound_pcbs (tcp w) ->
    tcp_bind tcp_timer_needed w pcb ip port = Some (w', r) -> tcp_step w w'
| tstep_listen w pcb w' lpcb r : fresh_listen w ->
    tcp_listen_with_backlog_and_err tcp_timer_needed tcp_accept_null_fn w pcb = (w', lpcb, r) -> tcp_step w w'
| tstep_connect w pcb ip port f w' r : is_Some (tcp_pcb_at (tcp w) !! pcb) ->
    tcp_connect netif_output custom_free fuel tcp_timer_needed w pcb ip port f = Some (w', r) -> tcp_step w w'
| tstep_write w pcb arg len flags w' r : tcp_write custom_free fuel w pcb arg len flags = Some (w', r) -> tcp_step w w'
| tstep_output w pcb w' r : tcp_output netif_output custom_free fuel w pcb = Some (w', r) -> tcp_step w w'
| tstep_recved w pcb len w' : tcp_recved netif_output custom_free fuel w pcb len = Some w' -> tcp_step w w'
| tstep_close w pcb w' r : tcp_close netif_output custom_free fuel tcp_timer_needed w pcb = Some (w', r) -> tcp_step w w'
| tstep_shutdown w pcb rx tx w' r : tcp_shutdown netif_output custom_free fuel tcp_timer_needed w pcb rx tx = Some (w', r) -> tcp_step w w'
| tstep_abort w pcb w' : state_of w pcb <> LISTEN -> tcp_abort netif_output custom_free fuel cb w pcb = Some w' -> tcp_step w w'
| tstep_arg w pcb x : tcp_step w (tcp_arg w pcb x)
| tstep_recv w pcb x : tcp_step w (tcp_recv w pcb x)
| tstep_sent w pcb x : tcp_step w (tcp_sent w pcb x)
| tstep_err w pcb x : tcp_step w (tcp_err w pcb x)
| tstep_poll w pcb x n : tcp_step w (tcp_poll w pcb x n)
| tstep_prio w pcb x : tcp_step w (tcp_setprio w pcb x)
| tstep_accept w pcb x : tcp_step w (tcp_accept w pcb x)
| tstep_tmr w w' : tcp_tmr netif_output custom_free fuel tcp_timer_needed cb tcp_recv_null_fn w = Some w' -> tcp_step w w'
| tstep_txnow w w' : tcp_txnow netif_output custom_free fuel w = Some w' -> tcp_step w w'
| tstep_ooseq w w' : pbuf_free_ooseq custom_free fuel w = Some w' -> tcp_step w w'
| tstep_address w old new w' : tcp_netif_ip_addr_changed netif_output custom_free fuel cb w old new = Some w' -> tcp_step w w'
| tstep_input w p inp w' : (forall pcb, pcb ∈ tcp_active_pcbs (tcp w) -> t_refused_data (pcb_of w pcb) = NULL) -> fresh_input w ->
    tcp_input netif_output custom_free fuel tcp_timer_needed cb tcp_recv_null_fn tcp_accept_null_fn w p inp = Some w' -> tcp_step w w'.

Lemma step_lok w w' : tcp_step w w' -> lok w -> lok w'.
Proof.
  assert (Hk : forall {A} `{!has_world X A} w (o : option A) a, keeps (good (tcp_active_pcbs (tcp w))) o -> o = Some a -> lok (wof a)) by (intros A HA x o a H ->; apply H).
  intros Hs H. pose proof (lok_good w H) as Hg. destruct Hs.
  - unfold lok. by rewrite H0.
  - exact (Hk _ _ w _ _ (alloc_good _ _ _ _ _ _ Hc _ _ _ Hg H0) H1).
  - exact (Hk _ _ w _ _ (bind_good _ _ _ Hc _ _ _ ip port Hg H0 H1) H2).
  - pose proof (listen_good _ _ _ tcp_accept_null_fn Hc _ _ pcb Hg H0) as G. rewrite H1 in G. apply G.
  - exact (Hk _ _ w _ _ (connect_good _ _ _ _ _ Hc _ _ _ ip port f Hg H0) H1).
  - exact (keeps_some lok _ _ (write_I _ _ lok w pcb arg len flags H) H0).
  - exact (keeps_some lok _ _ (s_output _ _ _ _ _ Hc lok w pcb H) H0).
  - exact (keeps_some lok _ _ (s_recved _ _ _ _ _ Hc lok w pcb len H) H0).
  - exact (Hk _ _ w _ _ (close_good _ _ _ _ _ Hc _ _ pcb Hg) H0).
  - exact (Hk _ _ w _ _ (shutdown_good _ _ _ _ _ Hc _ _ pcb rx tx Hg) H0).
  - exact (Hk _ _ w _ _ (abandon_good _ _ _ _ _ Hc _ _ pcb true Hg H0) H1).
  - unfold tcp_arg. destruct (_ =? _); [done|]. apply upd_listen_lok; [done|]. tframe.
  - unfold tcp_recv. tframe.
  - unfold tcp_sent. tframe.
  - unfold tcp_err. tframe.
  - unfold tcp_poll. tframe.
  - unfold tcp_setprio. tframe.
  - unfold tcp_accept. destruct (_ && _); [|done]. by apply upd_listen_lok.
  - exact (keeps_some lok _ _ (tmr_lok _ _ _ _ _ _ Hc w H) H0).
  - exact (keeps_some lok _ _ (txnow_lok w H) H0).
  - exact (keeps_some lok _ _ (free_ooseq_lok w H) H0).
  - exact (keeps_some lok _ _ (ip_addr_changed_lok _ _ _ _ _ Hc w old new H) H0).
  - exact (keeps_some lok _ _ (input_lok w p inp H H0 H1) H2).
Qed.
End Safe.

(** No PCBs. *)
Lemma lists_ok_empty v : tcp_pcb_at v = ∅ -> tcp_listen_at v = ∅ -> (forall l, pcbs v l = []) -> lists_ok v.
Proof.
  intros E1 E2 E3. constructor; rewrite ?E1, ?E2; try done.
  - intros l. rewrite E3. constructor.
  - intros l p. rewrite E3. by intros ?%elem_of_nil.
Qed.

(** C10: The lists of PCBs keep axioms 2, 3 and 4 of [tcp_priv.h] (lines 331 to 336): in every
    state that is reached from no PCBs, however the operations of the module, its timers and
    received segments follow each other, every list is without duplicates, a PCB is only in
    the list of its state (so in one list; those in the listening list are in LISTEN, those
    in the TIME-WAIT list in TIME-WAIT), a listening PCB is none of the connections, and no
    list holds [NULL].  Axiom 1, that every PCB that is not closed is in a list, is not
    claimed and does not hold: [slowtmr_loses_pcb] is a run of the slow timer after which an
    open connection is in no list.  The conditions: the pools give out free elements, a PCB
    is bound only when it exists and is not bound yet, a connection is made only on an
    existing PCB and a listening PCB is not aborted, no segment arrives while a connection
    has refused data, and the interface and the callbacks of the application leave the lists
    as [tcp_client] says. *)
Theorem tcp_lists_safe {X} `{!tcp_store X} out custom_free fuel timer_needed cb recv_null accept_null (w0 w : world X) :
  tcp_client out timer_needed cb ->
  tcp_pcb_at (tcp w0) = ∅ -> tcp_listen_at (tcp w0) = ∅ -> (forall l, pcbs (tcp w0) l = []) ->
  rtc (tcp_step out custom_free fuel timer_needed cb recv_null accept_null) w0 w -> lists_ok (tcp w).
Proof.
  intros Hc E1 E2 E3 Hs. assert (H : lok w0) by by apply lists_ok_empty. clear E1 E2 E3.
  induction Hs as [|x y z Hxy _ IH]; [done|]. apply IH. by eapply step_lok.
Qed.
