(* ===== verification/TcpState.v ===== *)
(** * The state machine

    The states that a segment takes an open connection through are those of RFC 793: which
    one follows from the state, from the end of the other side's stream and from the
    acknowledgement of our own FIN. *)

From Stdlib Require Import ZArith Lia.
From stdpp Require Import base tactics numbers list option gmap.
From S2P Require Import Prelude.
From S2P Require Import Def.
From S2P Require Import Ip4Addr.
From S2P Require Import Alloc.
From S2P Require Import Mem.
From S2P Require Import Memp.
From S2P Require Import Pbuf.
From S2P Require Import World.
From S2P Require Import Ip4Frag.
From S2P Require Import Ip4.
From S2P Require Import Icmp.
From S2P Require Import Udp.
From S2P Require Import Tcp.
From S2P Require Import TcpOut.
From S2P Require Import TcpCore.
From S2P Require Import TcpIn.
From S2P Require Import TcpFrame.
From S2P Require Import TcpLists.
From S2P Require Import TcpSafe.

(** The states after the handshake in which a PCB is active. *)
Definition synchronised (s : tcp_state) : Prop :=
  match s with ESTABLISHED | FIN_WAIT_1 | FIN_WAIT_2 | CLOSE_WAIT | CLOSING | LAST_ACK => True | _ => False end.

(** The diagram of RFC 793: [fin], the stream of the other side has ended; [acked],
    everything we have sent is acknowledged, the FIN included. *)
Definition next_state (fin acked : bool) (s : tcp_state) : tcp_state :=
  match s, fin, acked with
  | ESTABLISHED, true, _ => CLOSE_WAIT
  | FIN_WAIT_1, true, true => TIME_WAIT
  | FIN_WAIT_1, true, false => CLOSING
  | FIN_WAIT_1, false, true => FIN_WAIT_2
  | FIN_WAIT_2, true, _ => TIME_WAIT
  | CLOSING, _, true => TIME_WAIT
  | LAST_ACK, _, true => CLOSED
  | s, _, _ => s
  end.

Section State.
Context {X : Type} `{!tcp_store X}.
Context (netif_output : world X -> Z -> Z -> Z -> option (world X * Z)).
Context (custom_free : pstate -> Z -> pstate) (fuel : nat).
Context (tcp_timer_needed : world X -> world X) (cb : tcp_callbacks X).
Context (tcp_accept_null_fn : Z).
Context (Hc : tcp_client netif_output tcp_timer_needed cb).
Implicit Types w : world X.

(** The lists and the other PCBs are those of [v], and the PCB is in state [s]. *)
Record moved (v : tcp_vars) (pcb : Z) (s : tcp_state) w : Prop := {
  mv_lists : forall l, pcbs (tcp w) l = pcbs v l;
  mv_other : forall p, p <> pcb -> key <$> tcp_pcb_at (tcp w) !! p = key <$> tcp_pcb_at v !! p;
  mv_state : t_state (pcb_of w pcb) = s;
  mv_alloc : is_Some (tcp_pcb_at (tcp w) !! pcb);
  mv_open : got w TF_CLOSED = false
}.
#[local] Instance moved_shape v pcb s : shape_pred (moved v pcb s).
Proof.
  intros w w' E [H1 H2 H3 H4 H5]. constructor.
  - intros l. by rewrite (shape_pcbs _ _ l E).
  - intros p Hp. by rewrite (shape_key _ _ p E), H2.
  - by rewrite (shape_state _ _ pcb E).
  - by eapply shape_alloc.
  - by rewrite (shape_flags _ _ _ E).
Qed.
Lemma moved_upd v pcb s s' w : moved v pcb s w -> moved v pcb s' (upd_pcb w pcb (s_state s')).
Proof.
  intros [H1 H2 H3 H4 H5]. constructor.
  - intros l. unfold upd_pcb. rewrite tcp_upd, pcbs_pcb_at. apply H1.
  - intros p Hp. unfold upd_pcb. rewrite tcp_upd. cbn [tcp_pcb_at v_pcb_at]. rewrite lookup_alter_ne by done. by apply H2.
  - by rewrite pcb_of_alter.
  - unfold upd_pcb. rewrite tcp_upd. cbn [tcp_pcb_at v_pcb_at]. rewrite lookup_alter_eq. by apply fmap_is_Some.
  - unfold got, inv, upd_pcb in *. by rewrite tcp_upd.
Qed.
Lemma moved_fin v pcb s w : moved v pcb s w -> moved v pcb s (set_recv_flag w TF_GOT_FIN).
Proof.
  intros [H1 H2 H3 H4 H5]. unfold set_recv_flag. constructor; [| | | |rewrite got_in; cbn [recv_flags i_recv_flags]; by rewrite has_flag_lor].
  all: unfold upd_in, pcb_of in *; rewrite ?tcp_upd; done.
Qed.

(** What [tcp_receive] does to the state: a FIN among the segments that were out of
    sequence closes an established connection. *)
Definition rcvd (v : tcp_vars) (pcb : Z) (s : tcp_state) w : Prop :=
  moved v pcb s w \/ (s = ESTABLISHED /\ moved v pcb CLOSE_WAIT w /\ got w TF_GOT_FIN = true).
#[local] Instance rcvd_recv v pcb s : recv_pred pcb (rcvd v pcb s).
Proof.
  split.
  - intros w w' E [H|(H1 & H2 & H3)]; [left; by eapply (shape_dep (I:=moved v pcb s))|right]. split; [done|].
    split; [by eapply (shape_dep (I:=moved v pcb CLOSE_WAIT))|]. by rewrite (shape_flags _ _ _ E).
  - intros w [H|(H1 & H2 & H3)]; [left; by apply moved_fin|right]. split; [done|]. split; [by apply moved_fin|]. by apply got_set.
  - intros w [H|(H1 & H2 & H3)] Hg Hs.
    + right. rewrite (mv_state _ _ _ _ H) in Hs. split; [done|]. split; [by eapply moved_upd|]. unfold got, inv, upd_pcb in *. by rewrite tcp_upd.
    + right. split; [done|]. split; [by eapply moved_upd|]. unfold got, inv, upd_pcb in *. by rewrite tcp_upd.
Qed.

(** What is true of the connection after a segment that takes it to state [s].  A connection
    that is closed is marked with the flag [TF_CLOSED]: [tcp_input] removes it when the
    acknowledged data has been reported. *)
Record moved_to (v : tcp_vars) (pcb : Z) (s : tcp_state) w : Prop := {
  mt_state : t_state (pcb_of w pcb) = if state_is s CLOSED then LAST_ACK else s;
  mt_closed : got w TF_CLOSED = state_is s CLOSED;
  mt_other : forall p, p <> pcb -> key <$> tcp_pcb_at (tcp w) !! p = key <$> tcp_pcb_at v !! p;
  mt_active : tcp_active_pcbs (tcp w) = if state_is s TIME_WAIT then list_remove1 pcb (tcp_active_pcbs v) else tcp_active_pcbs v;
  mt_timewait : tcp_tw_pcbs (tcp w) = if state_is s TIME_WAIT then pcb :: tcp_tw_pcbs v else tcp_tw_pcbs v;
  mt_rest : tcp_bound_pcbs (tcp w) = tcp_bound_pcbs v /\ tcp_listen_pcbs (tcp w) = tcp_listen_pcbs v
}.
Lemma moved_here v pcb s w : s <> TIME_WAIT -> s <> CLOSED -> moved v pcb s w -> moved_to v pcb s w.
Proof.
  intros Hs Hcl [H1 H2 H3 H4 H5]. pose proof (H1 Active) as A. pose proof (H1 Timewait) as T. pose proof (H1 Bound) as B. pose proof (H1 Listening) as L.
  constructor; auto; unfold state_is; rewrite ?bool_decide_false by done; done.
Qed.
Lemma moved_closed v pcb w : moved v pcb LAST_ACK w -> moved_to v pcb CLOSED (set_recv_flag w TF_CLOSED).
Proof.
  intros [H1 H2 H3 H4 H5]. pose proof (H1 Active) as A. pose proof (H1 Timewait) as T. pose proof (H1 Bound) as B. pose proof (H1 Listening) as L.
  constructor; [|by apply got_set|..]; unfold set_recv_flag, upd_in, pcb_of in *; rewrite ?tcp_upd; done.
Qed.
Lemma time_wait_moved v pcb s w : moved v pcb s w -> ends (moved_to v pcb TIME_WAIT) (to_time_wait custom_free fuel tcp_timer_needed w pcb).
Proof.
  intros H. unfold to_time_wait. pose proof (purge_I custom_free fuel (moved v pcb s) w pcb H) as H1. destruct (tcp_pcb_purge _ _ _ _) as [w1|]; [|done].
  cbn [mbind option_bind ends]. unfold keeps, wof, world_has, id in H1. set (w2 := upd_pcb (TCP_RMV_ACTIVE w1 pcb) pcb _). unfold TCP_REG. set (w3 := upd_tcp w2 _).
  pose proof (tc_timer _ _ _ Hc w3) as E. assert (Hm : moved_to v pcb TIME_WAIT w3).
  { pose proof (mv_lists _ _ _ _ H1) as L. pose proof (L Active) as A. pose proof (L Timewait) as T. pose proof (L Bound) as B. pose proof (L Listening) as G. cbn [pcbs] in A, T, B, G.
    destruct (mv_alloc _ _ _ _ H1) as [t Ht].
    constructor; unfold w3, w2, TCP_RMV_ACTIVE, TCP_RMV, got, inv, pcb_of, upd_pcb; rewrite !tcp_upd; cbn.
    - by rewrite lookup_alter_eq, Ht.
    - apply (mv_open _ _ _ _ H1).
    - intros p Hp. rewrite lookup_alter_ne by done. by apply (mv_other _ _ _ _ H1).
    - by rewrite A.
    - by rewrite T.
    - done. }
  destruct Hm as [M1 M0 M2 M3 M4 M5]. constructor.
  - by rewrite (shape_state _ _ pcb E).
  - by rewrite (shape_flags _ _ _ E).
  - intros p Hp. rewrite (shape_key _ _ p E). by apply M2.
  - rewrite <- M3. apply (shape_pcbs _ _ Active E).
  - rewrite <- M4. apply (shape_pcbs _ _ Timewait E).
  - destruct M5 as [<- <-]. split; [apply (shape_pcbs _ _ Bound E)|apply (shape_pcbs _ _ Listening E)].
Qed.

(** The connection when [tcp_receive] has taken the segment. *)
Definition received w (pcb : Z) : option (world X) :=
  let w := if negb (pcb_flag w pcb TF_RXCLOSED) then upd_pcb w pcb (s_tmr (tcp_ticks (tcp w))) else w in
  w ← tcp_parseopt fuel (upd_pcb w pcb (s_keep_cnt_sent 0)) pcb;
  tcp_receive netif_output custom_free fuel w pcb.

Lemma receive_rcvd v pcb s w : rcvd v pcb s w -> keeps (rcvd v pcb s) (tcp_receive netif_output custom_free fuel w pcb).
Proof. apply (receive_J _ _ _ _ _ Hc pcb (rcvd v pcb s)). Qed.
Lemma rcvd_state v pcb s w : s <> ESTABLISHED -> rcvd v pcb s w -> moved v pcb s w.
Proof. intros Hn [H|(H & _)]; done. Qed.

Lemma process_moved w pcb :
  synchronised (t_state (pcb_of w pcb)) -> in_flag w TCP_RST = false -> in_flag w TCP_SYN = false -> got w TF_CLOSED = false ->
  ends (fun a => a.2 = ERR_OK /\ exists w1, received w pcb = Some w1 /\
          moved_to (tcp w) pcb (next_state (got w1 TF_GOT_FIN) (fin_acked w1 pcb) (t_state (pcb_of w pcb))) a.1)
    (tcp_process netif_output custom_free fuel tcp_timer_needed cb tcp_accept_null_fn w pcb).
Proof.
  intros Hs Hr Hy Hcl. assert (Hp : is_Some (tcp_pcb_at (tcp w) !! pcb)).
  { unfold pcb_of in Hs. destruct (tcp_pcb_at (tcp w) !! pcb); [by eexists|done]. }
  unfold tcp_process, received. rewrite Hr, Hy. cbn [andb]. cbv zeta. set (s := t_state (pcb_of w pcb)) in *. set (v := tcp w).
  assert (M0 : moved v pcb s w) by by constructor.
  set (w0 := if negb (pcb_flag w pcb TF_RXCLOSED) then _ else w). assert (M1 : moved v pcb s w0) by (unfold w0; tframe). clearbody w0.
  pose proof (parseopt_I fuel (moved v pcb s) (upd_pcb w0 pcb (s_keep_cnt_sent 0)) pcb ltac:(tframe)) as M2.
  destruct (tcp_parseopt _ _ _) as [w2|]; [|done]. cbn [mbind option_bind]. unfold keeps, wof, world_has, id in M2.
  pose proof (receive_rcvd v pcb s w2 (or_introl M2)) as M3. rewrite (mv_state _ _ _ _ M2).
  assert (Hmv : forall w3 s', moved v pcb s w3 -> moved v pcb s' (upd_pcb (tcp_ack_now w3 pcb) pcb (s_state s'))).
  { intros w3 s' M. apply moved_upd with s. tframe. }
  assert (Htw : forall w3 w4, moved v pcb s w3 -> ends (fun a : world X * Z => a.2 = ERR_OK /\ exists w1, Some w4 = Some w1 /\ moved_to v pcb TIME_WAIT a.1)
    (w ← to_time_wait custom_free fuel tcp_timer_needed w3 pcb; Some (w, ERR_OK))).
  { intros w3 w4 M. pose proof (time_wait_moved v pcb s w3 M) as T. destruct (to_time_wait _ _ _ _ _) as [w5|]; [|done]. split; [done|]. by exists w4. }
  clearbody s v. clear M0 M1 M2 Hp Hr Hy Hcl.
  destruct s; try done; (destruct (tcp_receive _ _ _ _ _) as [w3|]; [|done]; cbn [mbind option_bind]; unfold keeps, wof, world_has, id in M3).
  - destruct M3 as [M|(_ & M & G)].
    + destruct (got w3 TF_GOT_FIN) eqn:Eg; (split; [done|]); exists w3; (split; [done|]); rewrite Eg; apply moved_here; try done. by apply Hmv.
    + rewrite G. split; [done|]. exists w3. split; [done|]. rewrite G. apply moved_here; [done|done|]. apply moved_upd with CLOSE_WAIT. tframe.
  - apply rcvd_state in M3; [|done]. destruct (got w3 TF_GOT_FIN) eqn:Eg, (fin_acked w3 pcb) eqn:Ea.
    + pose proof (Htw (tcp_ack_now w3 pcb) w3 ltac:(tframe)) as T. destruct (to_time_wait _ _ _ _ _); [|done]. destruct T as [T1 (w9 & [= <-] & T2)].
      split; [done|]. exists w3. by rewrite Eg, Ea.
    + split; [done|]. exists w3. split; [done|]. rewrite Eg, Ea. apply moved_here; [done|done|]. by apply Hmv.
    + split; [done|]. exists w3. split; [done|]. rewrite Eg, Ea. apply moved_here; [done|done|]. by eapply moved_upd.
    + split; [done|]. exists w3. split; [done|]. rewrite Eg, Ea. by apply moved_here.
  - apply rcvd_state in M3; [|done]. destruct (got w3 TF_GOT_FIN) eqn:Eg.
    + pose proof (Htw (tcp_ack_now w3 pcb) w3 ltac:(tframe)) as T. destruct (to_time_wait _ _ _ _ _); [|done]. destruct T as [T1 (w9 & [= <-] & T2)].
      split; [done|]. exists w3. by rewrite Eg.
    + split; [done|]. exists w3. split; [done|]. rewrite Eg. by apply moved_here.
  - apply rcvd_state in M3; [|done]. destruct (got w3 TF_GOT_FIN) eqn:Eg; (split; [done|]); exists w3; (split; [done|]); rewrite Eg; apply moved_here; try done. by apply Hmv.
  - apply rcvd_state in M3; [|done]. destruct (fin_acked w3 pcb) eqn:Ea.
    + pose proof (Htw w3 w3 M3) as T. destruct (to_time_wait _ _ _ _ _); [|done]. destruct T as [T1 (w9 & [= <-] & T2)].
      split; [done|]. exists w3. rewrite Ea. by destruct (got w3 TF_GOT_FIN).
    + split; [done|]. exists w3. split; [done|]. rewrite Ea. destruct (got w3 TF_GOT_FIN); by apply moved_here.
  - apply rcvd_state in M3; [|done]. split; [done|]. exists w3. split; [done|].
    destruct (fin_acked w3 pcb), (got w3 TF_GOT_FIN); first [by apply moved_closed|by apply moved_here].
Qed.

(** The part of [tcp_input] that removes a connection with the flag. *)
Lemma closed_freed w w' pcb go :
  got w TF_CLOSED = true -> input_closed netif_output custom_free fuel cb w pcb = Some (w', go) -> go = false /\ tcp_pcb_at (tcp w') !! pcb = None.
Proof.
  intros Hg H. unfold input_closed in H. rewrite Hg in H. cbv zeta in H.
  match type of H with ?o ≫= _ = _ => destruct o as [w1|]; [|done] end. cbn [mbind option_bind] in H.
  destruct (input_remove _ _ _ w1 pcb) as [w2|] eqn:E; [|done]. injection H as <- <-. split; [done|].
  unfold input_remove in E. destruct (tcp_pcb_remove _ _ _ _ _ _) as [w3|]; [|done]. injection E as <-.
  unfold free_pcb. rewrite tcp_upd. cbn [tcp_pcb_at v_pcb_at]. apply lookup_delete_eq.
Qed.
End State.

(** C11: A segment without RST and SYN takes a connection after the handshake where the diagram
    of RFC 793 says: from the state before, whether the other side's stream has now ended
    (the flag [TF_GOT_FIN]) and whether everything sent is acknowledged follow the state
    after, the list the PCB is in (it changes from the active to the TIME-WAIT list exactly
    when the state becomes TIME-WAIT), and that no other PCB changes its state.  The edge
    from LAST-ACK to CLOSED is the flag [TF_CLOSED], which the segment sets on this edge and
    on no other (it is not set before): with it, [tcp_input] frees the PCB and stops. *)
Theorem process_moves {X} `{!tcp_store X} out custom_free fuel timer_needed cb accept_null (w w' : world X) pcb err :
  tcp_client out timer_needed cb ->
  synchronised (t_state (pcb_of w pcb)) -> in_flag w TCP_RST = false -> in_flag w TCP_SYN = false -> got w TF_CLOSED = false ->
  tcp_process out custom_free fuel timer_needed cb accept_null w pcb = Some (w', err) ->
  err = ERR_OK /\ exists w1, received out custom_free fuel w pcb = Some w1 /\
    let s := next_state (got w1 TF_GOT_FIN) (fin_acked w1 pcb) (t_state (pcb_of w pcb)) in
    moved_to (tcp w) pcb s w' /\
    (s = CLOSED -> forall w2 go, input_closed out custom_free fuel cb w' pcb = Some (w2, go) -> go = false /\ tcp_pcb_at (tcp w2) !! pcb = None).
Proof.
  intros Hc Hs Hr Hy Hcl H. pose proof (process_moved _ custom_free fuel _ _ accept_null Hc w pcb Hs Hr Hy Hcl) as P. rewrite H in P. cbn [ends fst snd] in P.
  destruct P as [-> (w1 & E & P)]. split; [done|]. exists w1. split; [done|]. split; [exact P|].
  intros Es w2 go. apply closed_freed. cbv zeta in Es. rewrite (mt_closed _ _ _ _ P), Es. done.
Qed.
