(* ===== verification/TcpProps.v ===== *)
(** * Single operations of TCP

    Sequence numbers, the announced window, the options, the congestion window, the local
    ports and the TIME-WAIT list. *)

From Stdlib Require Import ZArith Lia.
From stdpp Require Import base tactics numbers list option gmap.
From S2P Require Import Prelude.
From S2P Require Import Def.
From S2P Require Import Ip4Addr.
From S2P Require Import Alloc.
From S2P Require Import Mem.
From S2P Require Import Memp.
From S2P Require Import Pbuf.
From S2P Require Import World.
From S2P Require Import Ip4Frag.
From S2P Require Import Ip4.
From S2P Require Import Icmp.
From S2P Require Import Udp.
From S2P Require Import Tcp.
From S2P Require Import TcpOut.
From S2P Require Import TcpCore.
From S2P Require Import TcpIn.
From S2P Require Import TcpFrame.
From S2P Require Import TcpLists.
From S2P Require Import TcpSafe.

(** ** Sequence numbers *)

(** The distance between two sequence numbers. *)
Lemma s32_eq a b : a mod 4294967296 = b mod 4294967296 -> s32 a = s32 b.
Proof. intros H. unfold s32. f_equal. rewrite <- (Z.add_mod_idemp_l a), H, Z.add_mod_idemp_l by lia. done. Qed.
Lemma s32_u32 a b d : a = u32 (b + d) -> s32 (a - b) = s32 d.
Proof. intros ->. apply s32_eq. unfold u32. rewrite Zminus_mod_idemp_l. f_equal. lia. Qed.
Lemma s32_u32_r a b d : a = u32 (b + d) -> s32 (b - a) = s32 (- d).
Proof. intros ->. apply s32_eq. unfold u32. rewrite Zminus_mod_idemp_r. f_equal. lia. Qed.
Lemma u16_u32 a b : u16 (u32 a - b) = u16 (a - b).
Proof. unfold u16, u32. rewrite <- Zminus_mod_idemp_l, Z.mod_mod_divide by (by exists 65536). by rewrite Zminus_mod_idemp_l. Qed.

(** Sequence numbers that are less than 2^31 apart are ordered by their distance, across
    the wrap-around at 2^32: the five comparisons of [tcp_priv.h] agree with the order of the
    distances from a common origin. *)
Theorem seq_order o a b c :
  -1073741824 <= a < 1073741824 -> -1073741824 <= b < 1073741824 -> -1073741824 <= c < 1073741824 ->
  TCP_SEQ_LT (u32 (o + a)) (u32 (o + b)) = (a <? b) /\ TCP_SEQ_LEQ (u32 (o + a)) (u32 (o + b)) = (a <=? b) /\
  TCP_SEQ_GT (u32 (o + a)) (u32 (o + b)) = (b <? a) /\ TCP_SEQ_GEQ (u32 (o + a)) (u32 (o + b)) = (b <=? a) /\
  TCP_SEQ_BETWEEN (u32 (o + a)) (u32 (o + b)) (u32 (o + c)) = (b <=? a) && (a <=? c).
Proof.
  intros Ha Hb Hc. assert (E : forall x y, -1073741824 <= x < 1073741824 -> -1073741824 <= y < 1073741824 -> s32 (u32 (o + x) - u32 (o + y)) = x - y).
  { intros x y Hx Hy. rewrite <- (s32_small (x - y)) by lia. apply s32_eq. unfold u32. rewrite Zminus_mod_idemp_l, Zminus_mod_idemp_r. f_equal. lia. }
  unfold TCP_SEQ_BETWEEN, TCP_SEQ_LT, TCP_SEQ_LEQ, TCP_SEQ_GT, TCP_SEQ_GEQ. rewrite !E by done.
  split; [|split; [|split; [|split; [|f_equal]]]]; apply eq_true_iff_eq; rewrite ?Z.ltb_lt, ?Z.leb_le; lia.
Qed.

(** ** The announced window *)

(** C32: The window that a PCB announces does not shrink: its new right edge is at or behind
    the one announced before, [d] bytes from [rcv_nxt].  It moves to the end of the receive
    window exactly when that gains the smaller of half a window and one segment (the rule of
    RFC 1122 against the silly window syndrome), and the result is what was gained. *)
Theorem announced_window {X} `{!tcp_store X} (w : world X) pcb t d :
  tcp_pcb_at (tcp w) !! pcb = Some t ->
  t_rcv_ann_right_edge t = u32 (t_rcv_nxt t + d) -> -65536 < d < 65536 ->
  0 <= t_rcv_wnd t <= TCP_WND -> 0 <= t_mss t <= TCP_MSS ->
  exists v, (pcb_of (tcp_update_rcv_ann_wnd w pcb).1 pcb) = s_rcv_ann_wnd v t /\ d <= v < 65536 /\
    if Z.min (TCP_WND / 2) (t_mss t) <=? t_rcv_wnd t - d
    then v = t_rcv_wnd t /\ (tcp_update_rcv_ann_wnd w pcb).2 = t_rcv_wnd t - d
    else v = Z.max 0 d /\ (tcp_update_rcv_ann_wnd w pcb).2 = 0.
Proof.
  intros Ht He Hd Hw Hm. change TCP_WND with 5840 in *. change TCP_MSS with 1460 in *. change (5840 / 2) with 2920.
  assert (Hp : pcb_of w pcb = t) by (unfold pcb_of; by rewrite Ht).
  assert (Hup : forall f, pcb_of (upd_pcb w pcb f) pcb = f t) by (intros f; rewrite pcb_of_alter by (by rewrite Ht); by rewrite Hp).
  assert (E1 : s32 (u32 (t_rcv_nxt t + t_rcv_wnd t) - u32 (t_rcv_ann_right_edge t + Z.min 2920 (t_mss t))) = t_rcv_wnd t - d - Z.min 2920 (t_mss t)).
  { rewrite He. rewrite <- (s32_small (t_rcv_wnd t - d - _)) by lia. apply s32_eq. unfold u32.
    rewrite Zminus_mod_idemp_l, Zminus_mod_idemp_r, <- Zminus_mod_idemp_r, Zplus_mod_idemp_l, Zminus_mod_idemp_r. f_equal. lia. }
  assert (E2 : s32 (t_rcv_nxt t - t_rcv_ann_right_edge t) = - d) by (rewrite (s32_u32_r _ _ _ He); apply s32_small; lia).
  unfold tcp_update_rcv_ann_wnd, TCP_SEQ_GEQ, TCP_SEQ_GT. rewrite Hp. change (TCP_WND / 2) with 2920. rewrite E1, E2.
  destruct (Z.leb_spec (Z.min 2920 (t_mss t)) (t_rcv_wnd t - d)).
  - rewrite (proj2 (Z.leb_le 0 _)) by lia. cbn [fst snd]. exists (t_rcv_wnd t). rewrite Hup. split; [done|]. split; [lia|]. split; [done|].
    rewrite He. unfold u32. rewrite Zminus_mod_idemp_l, Zminus_mod_idemp_r. rewrite Z.mod_small; lia.
  - rewrite (proj2 (Z.leb_gt 0 _)) by lia. destruct (Z.ltb_spec 0 (- d)); cbn [fst snd]; rewrite Hup.
    + exists 0. split; [done|]. lia.
    + exists d. split; [|lia]. f_equal. rewrite He, u16_u32. transitivity (u16 d); [f_equal; lia|by apply u16_small; lia].
Qed.

(** ** Options *)

(** The option byte at index [k], in one of the two parts of the header. *)
Definition opt_at (m : memory) (i : tcp_in_vars) (k : Z) : Z :=
  if (tcphdr_opt2 i =? NULL) || (k <? tcphdr_opt1len i) then m (tcphdr i + TCP_HLEN + k)
  else m (tcphdr_opt2 i + u8 (k - tcphdr_opt1len i)).
Definition opt_bytes (m : memory) (i : tcp_in_vars) : list Z :=
  (fun k => opt_at m i (Z.of_nat k)) <$> seq 0 (Z.to_nat (tcphdr_optlen i)).

(** What RFC 793 says the options mean for the size of a segment, [mss] when they do not say
    anything: kind 0 ends the options, kind 1 is padding, every other kind has a length. *)
Definition clamp_mss (v : Z) : Z := if (TCP_MSS <? v) || (v =? 0) then TCP_MSS else v.
Fixpoint options_mss (n : nat) (l : list Z) (mss : Z) : Z :=
  match n, l with
  | S n, kind :: l =>
      if kind =? LWIP_TCP_OPT_EOL then mss
      else if kind =? LWIP_TCP_OPT_NOP then options_mss n l mss
      else
        match l with
        | len :: l =>
            if kind =? LWIP_TCP_OPT_MSS then
              match l with
              | hi :: lo :: l => if len =? LWIP_TCP_OPT_LEN_MSS then options_mss n l (clamp_mss (256 * hi + lo)) else mss
              | _ => mss
              end
            else if len <? 2 then mss else options_mss n (drop (Z.to_nat (len - 2)) l) mss
        | [] => mss
        end
  | _, _ => mss
  end.

Section Options.
Context {X : Type} `{!tcp_store X} (w0 : world X) (pcb : Z) (t : tcp_pcb).
Implicit Types w : world X.
#[local] Abbreviation i0 := (inv w0).
#[local] Abbreviation bytes := (opt_bytes (wmem w0) (inv w0)).
Context (Hopt : 0 <= tcphdr_optlen i0 <= 40) (Hmem : mem_ok (wmem w0)).

Record at_option w (k mss : Z) : Prop := {
  ao_mem : wmem w = wmem w0;
  ao_in : inv w = i_optidx k i0;
  ao_pcb : tcp_pcb_at (tcp w) = <[pcb := s_mss mss t]> (tcp_pcb_at (tcp w0))
}.
Lemma ao_upd_in w k k' mss f : at_option w k mss -> f (inv w) = i_optidx k' i0 -> at_option (upd_in w f) k' mss.
Proof. intros [H1 H2 H3] E. constructor; [done| |by unfold upd_in; rewrite tcp_upd]. unfold inv, upd_in. rewrite tcp_upd. exact E. Qed.
Lemma ao_byte w k mss : at_option w k mss -> 0 <= k < 65535 ->
  (tcp_getoptbyte w).2 = opt_at (wmem w0) i0 k /\ at_option (tcp_getoptbyte w).1 (k + 1) mss.
Proof.
  intros H Hk. unfold tcp_getoptbyte. cbn [fst snd]. split.
  - destruct H as [H1 H2 H3]. by rewrite H1, H2.
  - apply ao_upd_in with k; [done|]. rewrite (ao_in _ _ _ H). cbn. by rewrite u16_small by lia.
Qed.
Lemma ao_mss w k mss v : at_option w k mss -> at_option (upd_pcb w pcb (s_mss v)) k v.
Proof.
  intros [H1 H2 H3]. constructor; [done|unfold inv, upd_pcb; rewrite tcp_upd; exact H2|]. unfold upd_pcb. rewrite tcp_upd. cbn. rewrite H3. by rewrite alter_insert_eq.
Qed.
Lemma bytes_length : length bytes = Z.to_nat (tcphdr_optlen i0).
Proof. unfold opt_bytes. by rewrite length_fmap, length_seq. Qed.
Lemma bytes_drop k : 0 <= k < tcphdr_optlen i0 -> drop (Z.to_nat k) bytes = opt_at (wmem w0) i0 k :: drop (Z.to_nat (k + 1)) bytes.
Proof.
  intros Hk. replace (Z.to_nat (k + 1)) with (S (Z.to_nat k)) by lia. rewrite <- drop_S with (x := opt_at (wmem w0) i0 k); [done|].
  unfold opt_bytes. rewrite list_lookup_fmap, lookup_seq_lt by lia. cbn. f_equal. f_equal. lia.
Qed.
Lemma bytes_end k : tcphdr_optlen i0 <= k -> drop (Z.to_nat k) bytes = [].
Proof. intros Hk. apply drop_ge. rewrite bytes_length. lia. Qed.
Lemma hi_lo k k' : Z.lor (u16 (Z.shiftl (opt_at (wmem w0) i0 k) 8)) (opt_at (wmem w0) i0 k') = 256 * opt_at (wmem w0) i0 k + opt_at (wmem w0) i0 k'.
Proof.
  assert (Hb : forall j, 0 <= opt_at (wmem w0) i0 j < 256) by (intros j; unfold opt_at; destruct (_ || _); apply Hmem).
  pose proof (Hb k). pose proof (Hb k'). rewrite Z.shiftl_mul_pow2 by lia. change (2 ^ 8) with 256. rewrite u16_small by lia. change 256 with (2 ^ 8). rewrite lor_mul_add by lia. lia.
Qed.
(** A maximum segment size that is cut off. *)
Lemma short_mss k : 0 <= k -> tcphdr_optlen i0 < k + 4 ->
  drop (Z.to_nat (k + 1)) bytes = [] \/ (exists a, drop (Z.to_nat (k + 1)) bytes = [a]) \/ exists a b, drop (Z.to_nat (k + 1)) bytes = [a; b].
Proof.
  intros H0 Hk. destruct (drop (Z.to_nat (k + 1)) bytes) as [|a [|b [|c l]]] eqn:E; eauto 6.
  apply (f_equal length) in E. rewrite length_drop, bytes_length in E. cbn in E. lia.
Qed.

(** The loop from the option at index [k]. *)
Lemma parseopt_loop fuel n w k mss :
  at_option w k mss -> 0 <= k < 600 -> (Z.to_nat (tcphdr_optlen i0 - k) < fuel)%nat -> (Z.to_nat (tcphdr_optlen i0 - k) <= n)%nat ->
  exists w' k', loop fuel (parseopt_step pcb) w = Some w' /\ at_option w' k' (options_mss n (drop (Z.to_nat k) bytes) mss).
Proof.
  revert n w k mss. induction fuel as [|fuel IH]; intros n w k mss H Hk Hf Hn; [lia|]. cbn [loop]. unfold parseopt_step at 1.
  rewrite (ao_in _ _ _ H). cbn [tcp_optidx tcphdr_optlen i_optidx]. destruct (Z.ltb_spec k (tcphdr_optlen i0)) as [Hlt|Hge]; cbn [negb].
  2: { exists w, k. split; [done|]. rewrite bytes_end by done. by destruct n. }
  destruct n as [|n]; [lia|]. rewrite bytes_drop by lia. destruct (ao_byte w k mss H ltac:(lia)) as [E1 H1]. destruct (tcp_getoptbyte w) as [w1 o1].
  cbn [fst snd] in *. subst o1. set (kind := opt_at (wmem w0) i0 k). cbn [options_mss]. fold kind.
  destruct (kind =? LWIP_TCP_OPT_EOL); [by exists w1, (k + 1)|]. destruct (kind =? LWIP_TCP_OPT_NOP); [apply IH; [done|lia..]|].
  destruct (ao_byte w1 (k + 1) mss H1 ltac:(lia)) as [E2 H2]. destruct (tcp_getoptbyte w1) as [w2 o2].
  cbn [fst snd] in *. subst o2. set (len := opt_at (wmem w0) i0 (k + 1)).
  assert (Hlen : 0 <= len < 256) by (unfold len, opt_at; destruct (_ || _); apply Hmem).
  destruct (kind =? LWIP_TCP_OPT_MSS).
  - rewrite (ao_in _ _ _ H2). cbn [tcp_optidx tcphdr_optlen i_optidx]. change LWIP_TCP_OPT_LEN_MSS with 4.
    destruct (Z.ltb_spec (tcphdr_optlen i0) (k + 1 + 1 - 2 + 4)) as [Hshort|Hfit].
    { rewrite orb_true_r. exists w2, (k + 1 + 1). split; [done|]. destruct (short_mss k ltac:(lia) ltac:(lia)) as [-> | [[a ->] | (a & b & ->)]]; exact H2. }
    rewrite orb_false_r. rewrite !bytes_drop by lia. fold len. destruct (len =? 4); cbn [negb]; [|by exists w2, (k + 1 + 1)].
    destruct (ao_byte w2 (k + 1 + 1) mss H2 ltac:(lia)) as [E3 H3]. destruct (tcp_getoptbyte w2) as [w3 hi].
    destruct (ao_byte w3 (k + 1 + 1 + 1) mss H3 ltac:(lia)) as [E4 H4]. destruct (tcp_getoptbyte w3) as [w4 lo].
    cbn [fst snd] in *. subst hi lo. cbv zeta. rewrite hi_lo. apply IH; [by apply ao_mss with mss|lia..].
  - destruct (Z.ltb_spec len 2) as [Hbad|Hgood].
    + exists w2, (k + 1 + 1). split; [done|]. destruct (drop (Z.to_nat (k + 1)) bytes) as [|x l] eqn:Ed; [done|].
      assert (x = len) as ->; [|by rewrite (proj2 (Z.ltb_lt _ _) Hbad)].
      destruct (Z.ltb_spec (k + 1) (tcphdr_optlen i0)); [rewrite bytes_drop in Ed by lia; by injection Ed|by rewrite bytes_end in Ed].
    + assert (H3 : at_option (upd_in w2 (fun i => i_optidx (u16 (tcp_optidx i + (len - 2))) i)) (k + len) mss).
      { apply ao_upd_in with (k + 1 + 1); [done|]. rewrite (ao_in _ _ _ H2). cbn [tcp_optidx i_optidx]. rewrite u16_small by lia. change (i_optidx ?a (i_optidx ?b ?c)) with (i_optidx a c). f_equal. lia. }
      destruct (Z.ltb_spec (k + 1) (tcphdr_optlen i0)).
      * rewrite (bytes_drop (k + 1)) by lia. fold len. rewrite (proj2 (Z.ltb_ge _ _)) by lia. rewrite drop_drop.
        replace (Z.to_nat (k + 1 + 1) + Z.to_nat (len - 2))%nat with (Z.to_nat (k + len)) by lia. apply IH; [done|lia..].
      * rewrite bytes_end by lia. destruct (IH n _ _ _ H3) as (w' & k' & E & H'); [lia..|]. rewrite bytes_end in H' by lia. exists w', k'. split; [done|]. by destruct n.
Qed.
End Options.

Lemma options_mss_range n l mss : Forall is_byte l -> 1 <= mss <= TCP_MSS -> 1 <= options_mss n l mss <= TCP_MSS.
Proof.
  revert l mss. induction n as [|n IH]; intros l mss Hb Hm; [done|]. destruct l as [|k l]; [done|]. cbn [options_mss].
  apply Forall_cons in Hb as [_ Hb]. destruct (_ =? _); [done|]. destruct (_ =? _); [by apply IH|]. destruct l as [|len l]; [done|].
  apply Forall_cons in Hb as [_ Hb]. destruct (_ =? _).
  - destruct l as [|hi [|lo l]]; try done. destruct (_ =? _); [|done]. apply Forall_cons in Hb as [Hhi Hb]. apply Forall_cons in Hb as [Hlo Hb].
    apply IH; [done|]. unfold is_byte, clamp_mss, TCP_MSS in *. destruct (_ || _) eqn:E; [lia|]. apply orb_false_iff in E as [E1 E2]. lia.
  - destruct (_ <? _); [done|]. apply IH; [by apply Forall_drop|done].
Qed.

(** [tcp_parseopt] ends for every option field that a TCP header can have, however it is
    filled (40 bytes and fewer, so 41 rounds are enough), and it reads the options as RFC 793
    says: the maximum segment size becomes the last one that is given, cut to [TCP_MSS], or
    stays, an option that is cut off or shorter than its header ends them, and nothing else
    of any PCB changes.  The size stays between 1 and [TCP_MSS]. *)
Theorem parseopt_total {X} `{!tcp_store X} (w : world X) fuel pcb t :
  tcp_pcb_at (tcp w) !! pcb = Some t -> 0 <= tcphdr_optlen (inv w) <= 40 -> mem_ok (wmem w) -> (41 <= fuel)%nat -> 1 <= t_mss t <= TCP_MSS ->
  exists w', tcp_parseopt fuel w pcb = Some w' /\
    let mss := options_mss 40 (opt_bytes (wmem w) (inv w)) (t_mss t) in
    tcp_pcb_at (tcp w') = <[pcb := s_mss mss t]> (tcp_pcb_at (tcp w)) /\ 1 <= mss <= TCP_MSS.
Proof.
  intros Ht Ho Hm Hf Hr. assert (Hb : 1 <= options_mss 40 (opt_bytes (wmem w) (inv w)) (t_mss t) <= TCP_MSS).
  { apply options_mss_range; [|done]. apply Forall_forall. intros x (k & -> & _)%list_elem_of_fmap. unfold opt_at. destruct (_ || _); apply Hm. }
  assert (Hid : <[pcb := s_mss (t_mss t) t]> (tcp_pcb_at (tcp w)) = tcp_pcb_at (tcp w)) by (apply insert_id; rewrite Ht; by destruct t).
  unfold tcp_parseopt. destruct (Z.eqb_spec (tcphdr_optlen (inv w)) 0) as [E|E]; cbn [negb].
  - exists w. split; [done|]. cbv zeta. split; [|done]. unfold opt_bytes. rewrite E. exact (eq_sym Hid).
  - destruct (parseopt_loop w pcb t Ho Hm fuel 40 (upd_in w (i_optidx 0)) 0 (t_mss t)) as (w' & k' & E' & H'); [|lia..|].
    + constructor; [done|unfold inv, upd_in; by rewrite tcp_upd|]. unfold upd_in. rewrite tcp_upd. by rewrite Hid.
    + exists w'. split; [done|]. split; [|done]. exact (ao_pcb _ _ _ _ _ _ H').
Qed.

(** ** Local ports *)

Section Ports.
Context {X : Type} `{!tcp_store X} (w : world X).

Lemma tcp_port_used_same w' p q : tcp w' = v_port p (tcp w) -> tcp_port_used w' q = tcp_port_used w q.
Proof.
  intros E. unfold tcp_port_used, local_port_of, is_listen, listen_of, pcb_of. by rewrite E.
Qed.

(** The rounds from the one after [n] on. *)
Lemma tcp_port_loop fuel n w1 :
  0 <= n < 0x4000 -> (Z.to_nat (0x4000 - n) < fuel)%nat -> tcp w1 = v_port (port_after (tcp_port (tcp w)) n) (tcp w) ->
  (forall j, 1 <= j <= n -> tcp_port_used w (port_after (tcp_port (tcp w)) j) = true) ->
  exists k w', n < k <= 0x4000 /\ (forall j, 1 <= j < k -> tcp_port_used w (port_after (tcp_port (tcp w)) j) = true) /\
    let q := port_after (tcp_port (tcp w)) k in
    loop fuel tcp_port_step (w1, n) = Some (w', if tcp_port_used w q then 0 else q) /\ tcp w' = v_port q (tcp w) /\
    (tcp_port_used w q = true -> k = 0x4000).
Proof.
  revert n w1. induction fuel as [|fuel IH]; intros n w1 Hn Hf E1 Hu; [lia|]. cbn [loop]. unfold tcp_port_step at 1. cbv zeta. set (w2 := upd_tcp w1 _).
  assert (E2 : tcp w2 = v_port (port_after (tcp_port (tcp w)) (n + 1)) (tcp w)).
  { unfold w2. rewrite tcp_upd, E1. cbn [tcp_port v_port]. rewrite port_after_S. reflexivity. }
  rewrite E2. cbn [tcp_port v_port]. rewrite (tcp_port_used_same w2 _ _ E2).
  destruct (tcp_port_used w (port_after (tcp_port (tcp w)) (n + 1))) eqn:E.
  - rewrite u16_small by lia. change (TCP_LOCAL_PORT_RANGE_END - TCP_LOCAL_PORT_RANGE_START) with 0x3fff.
    destruct (Z.ltb_spec 0x3fff (n + 1)).
    + exists 0x4000, w2. split; [lia|]. split; [intros j Hj; apply Hu; lia|].
      replace (n + 1) with 0x4000 in * by lia. by rewrite E.
    + destruct (IH (n + 1) w2) as (k & w' & Hk & Hj & Hl & He); [lia|lia|done| |].
      { intros j Hj. destruct (Z.eq_dec j (n + 1)) as [->|]; [done|]. apply Hu. lia. }
      exists k, w'. split; [lia|]. by split.
  - exists (n + 1), w2. split; [lia|]. split; [intros j Hj; apply Hu; lia|]. by rewrite E.
Qed.
End Ports.

(** [tcp_new_port] ends within 16384 rounds.  It returns the first port behind the last
    one given out, around the dynamic range, that no PCB of any of the four lists uses, and
    remembers it; it returns 0 only when all ports of the range are used. *)
Theorem tcp_new_port_first_free {X} `{!tcp_store X} (w : world X) :
  in_local_range (tcp_port (tcp w)) ->
  exists k w', 1 <= k <= 0x4000 /\ (forall j, 1 <= j < k -> tcp_port_used w (port_after (tcp_port (tcp w)) j) = true) /\
    let q := port_after (tcp_port (tcp w)) k in
    in_local_range q /\ tcp_new_port w = Some (w', if tcp_port_used w q then 0 else q) /\ tcp w' = v_port q (tcp w) /\
    (tcp_port_used w q = true -> forall p, in_local_range p -> tcp_port_used w p = true).
Proof.
  intros Hr. destruct (tcp_port_loop w (Z.to_nat (TCP_LOCAL_PORT_RANGE_END - TCP_LOCAL_PORT_RANGE_START + 2)) 0 w) as (k & w' & Hk & Hj & Hl & He & Hend).
  - lia.
  - change (TCP_LOCAL_PORT_RANGE_END - TCP_LOCAL_PORT_RANGE_START + 2) with 16385. lia.
  - rewrite port_after_0 by done. by destruct (tcp w).
  - intros; lia.
  - exists k, w'. split; [lia|]. split; [done|]. cbv zeta. split; [apply port_after_range|]. split; [exact Hl|]. split; [done|].
    intros Hu p Hp. specialize (Hend Hu). subst k. destruct (port_after_onto _ _ Hr Hp) as (i & Hi & <-).
    destruct (Z.eq_dec i 0x4000) as [->|]; [done|]. apply Hj. lia.
Qed.

(** ** Connections in TIME-WAIT *)

Section Timewait.
Context {X : Type} `{!tcp_store X} (custom_free : pstate -> Z -> pstate) (n : nat).
Implicit Types w : world X.

(** Two maximum segment lifetimes are over. *)
Definition expired w (pcb : Z) : bool := 2 * TCP_MSL / TCP_SLOW_INTERVAL <? inactivity_of w pcb.
Definition in_timewait w (pcb : Z) : Prop :=
  pcb <> NULL /\ tcp_listen_at (tcp w) !! pcb = None /\ exists t, tcp_pcb_at (tcp w) !! pcb = Some t /\ t_state t = TIME_WAIT.

Lemma purge_timewait w pcb : in_timewait w pcb -> tcp_pcb_purge custom_free n w pcb = Some w.
Proof.
  intros (_ & Hl & t & Ht & Hs). unfold tcp_pcb_purge, in_state, state_of, is_listen, pcb_of. rewrite Hl, Ht. cbn. by rewrite Hs.
Qed.
Lemma last_unlink kept pcb rest : NoDup (kept ++ pcb :: rest) -> NULL ∉ kept -> unlink (default NULL (last kept)) pcb (kept ++ pcb :: rest) = kept ++ rest.
Proof.
  intros Hd Hn. apply NoDup_app in Hd as (Hk & Hdis & _). assert (Hp : pcb ∉ kept) by (intros Hx; apply (Hdis _ Hx); left).
  unfold unlink. rewrite after_app by done. destruct kept as [|y k _] using rev_ind; [done|]. rewrite last_snoc. change (default NULL (Some y)) with y.
  assert (Hy : y <> NULL) by (intros ->; apply Hn, elem_of_app; right; left). rewrite (proj2 (Z.eqb_neq y NULL) Hy). cbn [negb]. f_equal.
  apply NoDup_app in Hk as (_ & Hk & _). assert (Hyk : y ∉ k) by (intros Hx; apply (Hk _ Hx); left). clear - Hyk.
  induction k as [|x k IH]; cbn [app up_to]; [by rewrite Z.eqb_refl|]. apply not_elem_of_cons in Hyk as [Hx Hyk]. rewrite (proj2 (Z.eqb_neq x y)) by done. by rewrite IH.
Qed.
Lemma expired_same w w' p : tcp_ticks (tcp w') = tcp_ticks (tcp w) -> tcp_pcb_at (tcp w') !! p = tcp_pcb_at (tcp w) !! p -> expired w' p = expired w p.
Proof. intros E1 E2. unfold expired, inactivity_of, pcb_of. by rewrite E1, E2. Qed.

Lemma filter_expired (f g : Z -> bool) (l : list Z) : (forall p, p ∈ l -> f p = g p) -> filter (fun p => f p = false) l = filter (fun p => g p = false) l.
Proof.
  intros H. induction l as [|x l IH]; [done|]. rewrite !filter_cons, (H x) by left. rewrite IH; [done|]. intros p Hp. apply H. by right.
Qed.

(** The loop from [rest] on. *)
Lemma tw_loop fuel rest : forall w kept,
  tcp_tw_pcbs (tcp w) = kept ++ rest -> NoDup (kept ++ rest) -> NULL ∉ kept -> Forall (in_timewait w) rest -> (length rest < fuel)%nat ->
  exists w', loop fuel (tw_step custom_free n) (w, default NULL (last kept), hd NULL rest) = Some (Some w') /\
    tcp_tw_pcbs (tcp w') = kept ++ filter (fun p => expired w p = false) rest /\
    forall p, tcp_pcb_at (tcp w') !! p = if bool_decide (p ∈ rest) && expired w p then None else tcp_pcb_at (tcp w) !! p.
Proof.
  revert rest. induction fuel as [|fuel IH]; intros rest w kept El Hd Hn Hr Hf; [lia|]. cbn [loop]. unfold tw_step at 1.
  destruct rest as [|pcb rest]; cbn [hd].
  { exists w. split; [done|]. by split. }
  apply Forall_cons in Hr as [Hp Hr]. destruct Hp as (Hpn & Hpl & t & Ht & Hs) eqn:EH. clear EH. rewrite (proj2 (Z.eqb_neq _ _) Hpn).
  destruct (proj1 (NoDup_app _ _) Hd) as (Hk & Hdis & [Hpr Hdr]%NoDup_cons). assert (Hpk : pcb ∉ kept) by (intros Hx; apply (Hdis _ Hx); left).
  cbv zeta. rewrite El, next_of_app by done. fold (expired w pcb). destruct (expired w pcb) eqn:Ex.
  - rewrite purge_timewait by done. set (w2 := free_pcb _ pcb).
    assert (E2 : tcp w2 = v_pcb_at (delete pcb (tcp_pcb_at (tcp w))) (v_tw_pcbs (kept ++ rest) (tcp w))).
    { unfold w2, free_pcb. rewrite tcp_upd, tcp_wmfree, tcp_upd. cbn. rewrite El. by rewrite last_unlink. }
    assert (Hsame : forall p, p <> pcb -> tcp_pcb_at (tcp w2) !! p = tcp_pcb_at (tcp w) !! p) by (intros p Hne; rewrite E2; by apply lookup_delete_ne).
    assert (Hex : forall p, p <> pcb -> expired w2 p = expired w p) by (intros p Hne; apply expired_same; [by rewrite E2|by apply Hsame]).
    destruct (IH rest w2 kept) as (w' & Hl & H1 & H2).
    + by rewrite E2.
    + apply NoDup_app. split; [done|]. split; [|done]. intros x Hx Hy. apply (Hdis _ Hx). by right.
    + done.
    + apply Forall_forall. intros p Hpp. destruct (proj1 (Forall_forall _ _) Hr p Hpp) as (A & B & t' & C & D). split; [done|]. split; [by rewrite E2|].
      exists t'. split; [|done]. rewrite Hsame; [done|]. by intros ->.
    + cbn [length] in Hf. lia.
    + exists w'. split; [exact Hl|]. split.
      * rewrite H1. f_equal. rewrite filter_cons_False by (rewrite Ex; done). apply filter_expired. intros p Hpp. apply Hex. by intros ->.
      * intros p. rewrite H2. destruct (decide (p = pcb)) as [->|Hne].
        -- rewrite (bool_decide_false _ Hpr), (bool_decide_true (pcb ∈ pcb :: rest)) by left. rewrite Ex, E2. cbn. apply lookup_delete_eq.
        -- rewrite Hex, Hsame by done. by rewrite (bool_decide_ext (p ∈ pcb :: rest) (p ∈ rest)) by (rewrite elem_of_cons; split; [intros [?|?]; done|by right]).
  - destruct (IH rest w (kept ++ [pcb])) as (w' & Hl & H1 & H2).
    + by rewrite <- app_assoc.
    + by rewrite <- app_assoc.
    + rewrite elem_of_app, list_elem_of_singleton. intros [|]; [done|]. by subst.
    + done.
    + cbn [length] in Hf. lia.
    + exists w'. rewrite last_snoc in Hl. split; [exact Hl|]. split.
      * rewrite H1, filter_cons_True by done. by rewrite <- app_assoc.
      * intros p. rewrite H2. destruct (decide (p = pcb)) as [->|Hne]; [by rewrite Ex, !andb_false_r|].
        by rewrite (bool_decide_ext (p ∈ pcb :: rest) (p ∈ rest)) by (rewrite elem_of_cons; split; [intros [?|?]; done|by right]).
Qed.
End Timewait.

(** The slow timer frees exactly the connections in TIME-WAIT whose two segment lifetimes
    are over (240 of its ticks), in one pass over the list that ends for any length: the
    other ones stay in the list in their order, and no other PCB is freed or changed. *)
Theorem timewait_expires {X} `{!tcp_store X} custom_free n fuel (w : world X) :
  lists_ok (tcp w) -> (length (tcp_tw_pcbs (tcp w)) < fuel)%nat ->
  exists w', loop fuel (tw_step custom_free n) (w, NULL, hd NULL (tcp_tw_pcbs (tcp w))) = Some (Some w') /\
    tcp_tw_pcbs (tcp w') = filter (fun p => expired w p = false) (tcp_tw_pcbs (tcp w)) /\
    forall p, tcp_pcb_at (tcp w') !! p =
      if bool_decide (p ∈ tcp_tw_pcbs (tcp w)) && expired w p then None else tcp_pcb_at (tcp w) !! p.
Proof.
  intros Hok Hf. apply (tw_loop custom_free n fuel (tcp_tw_pcbs (tcp w)) w []); [done| |by intros ?%elem_of_nil| |done].
  - exact (lk_nodup _ Hok Timewait).
  - apply Forall_forall. intros p Hp. pose proof (lk_home _ Hok Timewait p Hp) as Hb. unfold belongs in Hb.
    split; [intros ->; by apply (null_out _ Timewait Hok)|]. destruct (tcp_listen_at (tcp w) !! p) as [l|]; [by destruct (state_is _ _)|]. split; [done|].
    destruct (tcp_pcb_at (tcp w) !! p) as [t|]; [|done]. exists t. split; [done|]. destruct (t_state t); try done. unfold home in Hb. by destruct (_ =? _).
Qed.

(** ** The congestion window *)

(** The windows are at least one segment and fit their 16 bits. *)
Definition window_ok (t : tcp_pcb) : Prop :=
  1 <= t_mss t <= TCP_MSS /\ t_mss t <= t_cwnd t < 65536 /\ t_mss t <= t_ssthresh t < 65536 /\ 0 <= t_snd_wnd t < 65536.


Section Fast.
Context {X : Type} `{!tcp_store X} (pcb : Z).
Implicit Types w : world X.
Definition windowed w : Prop := exists t, tcp_pcb_at (tcp w) !! pcb = Some t /\ window_ok t.
#[local] Instance windowed_frame : seg_frame windowed.
Proof. split; [split|]; unfold windowed; intros; rewrite ?tcp_upd; assumption. Qed.
End Fast.

(** ** An acknowledgement *)

Section Receive.
Context {X : Type} `{!tcp_store X} (netif_output : world X -> Z -> Z -> Z -> option (world X * Z)) (custom_free : pstate -> Z -> pstate) (fuel : nat) (pcb : Z).
Context (Hout : output_keeps netif_output (windowed pcb)).
Implicit Types w : world X.
#[local] Existing Instance windowed_frame.


End Receive.

(** ** The end of the handshake *)

Section Handshake.
Context {X : Type} `{!tcp_store X} (netif_output : world X -> Z -> Z -> Z -> option (world X * Z)) (custom_free : pstate -> Z -> pstate) (fuel : nat).
Context (cb : tcp_callbacks X) (tcp_accept_null_fn : Z) (pcb : Z).
Implicit Types w : world X.

(** The congestion window is the initial one. *)
Definition initial_cwnd w : Prop := exists t, tcp_pcb_at (tcp w) !! pcb = Some t /\ t_cwnd t = LWIP_TCP_CALC_INITIAL_CWND (t_mss t).
#[local] Instance initial_frame : seg_frame initial_cwnd.
Proof. split; [split|]; unfold initial_cwnd; intros; rewrite ?tcp_upd; assumption. Qed.


End Handshake.



(** The time-out of a retransmission is kept in 16 bits: for a round trip of more than two
    minutes it becomes negative at the sixth retransmission, and the segment is then sent
    again at every tick of the slow timer. *)
Lemma rto_overflow :
  t_rto (rto_backoff (s_nrtx 6 (s_sv 256 (s_state ESTABLISHED tcp_pcb_zero)))) = -32768.
Proof. reflexivity. Qed.
