(* ===== verification/TcpWrite.v ===== *)
(** * [tcp_write]

    What a block that is written does to the PCB and to the queue of unsent segments, with
    the checks in front of it and the cases without memory. *)

From Stdlib Require Import ZArith Lia.
From stdpp Require Import base tactics numbers list option gmap.
From S2P Require Import Prelude.
From S2P Require Import Def.
From S2P Require Import Ip4Addr.
From S2P Require Import Alloc.
From S2P Require Import Mem.
From S2P Require Import Memp.
From S2P Require Import Pbuf.
From S2P Require Import PbufChain.
From S2P Require Import World.
From S2P Require Import Ip4Frag.
From S2P Require Import Ip4.
From S2P Require Import Icmp.
From S2P Require Import Udp.
From S2P Require Import Tcp.
From S2P Require Import TcpOut.
From S2P Require Import TcpCore.
From S2P Require Import TcpIn.
From S2P Require Import TcpFrame.
From S2P Require Import TcpLists.
From S2P Require Import TcpSafe.

(** ** The lengths of the new segments *)

(** [n] bytes in segments of at most [mss]. *)
Definition pieces (mss n : Z) : list Z := replicate (Z.to_nat (n / mss)) mss ++ if n mod mss =? 0 then [] else [n mod mss].

Lemma pieces_0 mss : 0 < mss -> pieces mss 0 = [].
Proof. intros. unfold pieces. by rewrite Z.div_0_l, Z.mod_0_l by lia. Qed.
Lemma pieces_step mss n : 0 < mss -> 0 < n -> pieces mss n = Z.min n mss :: pieces mss (n - Z.min n mss).
Proof.
  intros Hm Hn. destruct (Z.lt_ge_cases n mss) as [H|H].
  - rewrite Z.min_l by lia. replace (n - n) with 0 by lia. rewrite pieces_0 by lia. unfold pieces.
    rewrite Z.div_small, Z.mod_small, (proj2 (Z.eqb_neq n 0)) by lia. done.
  - rewrite Z.min_r by lia. unfold pieces. assert (Ed : n / mss = (n - mss) / mss + 1) by (rewrite <- Z.div_add by lia; f_equal; lia).
    assert (Em : n mod mss = (n - mss) mod mss) by (rewrite <- (Z.mod_add (n - mss) 1 mss) by lia; f_equal; lia).
    rewrite Ed, Em. pose proof (Z.div_pos (n - mss) mss).
    by replace (Z.to_nat ((n - mss) / mss + 1)) with (S (Z.to_nat ((n - mss) / mss))) by lia.
Qed.

Lemma last_in (l : list Z) x : last l = Some x -> x ∈ l.
Proof. intros [l' ->]%last_Some. apply elem_of_app. right. by left. Qed.

(** The maximum segment size of [tcp_write]: at most half of the largest window. *)
Definition write_mss (t : tcp_pcb) : Z := let m := Z.min (t_mss t) (t_snd_wnd_max t / 2) in if negb (m =? 0) then m else t_mss t.
Lemma write_mss_range t : 1 <= t_mss t < 65536 -> 0 <= t_snd_wnd_max t -> 1 <= write_mss t < 65536.
Proof.
  intros Hm Hw. unfold write_mss. cbv zeta. pose proof (Z.div_pos (t_snd_wnd_max t) 2 Hw ltac:(lia)).
  destruct (Z.eqb_spec (Z.min (t_mss t) (t_snd_wnd_max t / 2)) 0); cbn [negb]; lia.
Qed.

(** The states in which data can be written. *)
Definition may_write (s : tcp_state) : bool := bool_decide (s ∈ [ESTABLISHED; CLOSE_WAIT; SYN_SENT; SYN_RCVD]).

Section Write.
Context {X : Type} `{!tcp_store X} (custom_free : pstate -> Z -> pstate) (fuel : nat).
Implicit Types w : world X.

(** The PCBs are [m]. *)
Definition pcbs_are (m : gmap Z tcp_pcb) w : Prop := tcp_pcb_at (tcp w) = m.
#[export] Instance pcbs_are_frame m : seg_frame (pcbs_are m).
Proof. split; [split|]; intros; unfold pcbs_are in *; rewrite ?tcp_upd; by subst. Qed.
Lemma pcbs_upd m w pcb f : pcbs_are m w -> pcbs_are (alter f pcb m) (upd_pcb w pcb f).
Proof. unfold pcbs_are, upd_pcb. rewrite tcp_upd. by intros <-. Qed.

(** What a written block changes: [queue] are the new segments. *)
Definition written (len oversize queuelen : Z) (queue : list Z) (t : tcp_pcb) : tcp_pcb :=
  s_snd_queuelen queuelen (s_snd_buf (u16 (t_snd_buf t - len)) (s_snd_lbb (u32 (t_snd_lbb t + len))
    (s_unsent (t_unsent t ++ queue) (s_unsent_oversize oversize t)))).

Lemma commit_pcbs m w pcb arg len fl last v : pcbs_are m w ->
  match write_commit fuel w pcb arg len fl last v with
  | Some (w', err) => err = ERR_OK /\ pcbs_are (alter (written len (w_oversize v) (w_queuelen v) (w_queue v)) pcb m) w'
  | None => True
  end.
Proof.
  intros H. unfold write_commit. cbv zeta.
  assert (Hu : forall w s n, pcbs_are m w -> keeps (pcbs_are m) (add_used fuel w s arg n)) by (intros; by apply add_used_I; [apply _|]).
  destruct (match last with Some s => if 0 <? w_oversize_used v then add_used fuel w s arg (w_oversize_used v) else Some w | None => Some w end) as [w1|] eqn:E1; [|done].
  assert (H1 : pcbs_are m w1).
  { destruct last as [s|]; [destruct (_ <? _)|]; [exact (keeps_some _ _ _ (Hu w s _ H) E1)|by injection E1 as <-..]. }
  clear E1 Hu H w. cbn [mbind option_bind]. apply (pcbs_upd _ _ pcb (s_unsent_oversize (w_oversize v))) in H1. revert H1. generalize (upd_pcb w1 pcb (s_unsent_oversize (w_oversize v))). clear w1. intros w1 H1.
  set (m1 := alter _ pcb m) in *.
  match goal with |- match ?o ≫= _ with _ => _ end => destruct o as [w2|] eqn:E2; [|done] end.
  assert (H2 : pcbs_are m1 w2).
  { destruct last as [s|]; [|by injection E2 as <-]. destruct (negb _).
    - destruct (pbuf_cat _ _ _ _); [|done]. injection E2 as <-. tframe.
    - destruct (_ <? _); [|by injection E2 as <-]. exact (keeps_some _ _ _ (extend_rom_I fuel (pcbs_are m1) w1 s _ H1) E2). }
  cbn [mbind option_bind]. split; [done|]. clear E2 H1 w1.
  apply (pcbs_upd _ _ pcb (fun t => s_unsent (t_unsent t ++ w_queue v) t)) in H2.
  apply (pcbs_upd _ _ pcb (fun t => s_snd_queuelen (w_queuelen v) (s_snd_buf (u16 (t_snd_buf t - len)) (s_snd_lbb (u32 (t_snd_lbb t + len)) t)))) in H2.
  assert (E : alter (written len (w_oversize v) (w_queuelen v) (w_queue v)) pcb m = alter (fun t => s_snd_queuelen (w_queuelen v) (s_snd_buf (u16 (t_snd_buf t - len)) (s_snd_lbb (u32 (t_snd_lbb t + len)) t))) pcb
    (alter (fun t => s_unsent (t_unsent t ++ w_queue v) t) pcb m1)).
  { unfold m1. apply map_eq. intros i. destruct (decide (i = pcb)) as [->|]; [|by rewrite !lookup_alter_ne]. rewrite !lookup_alter_eq. by destruct (m !! pcb). }
  rewrite E. tframe.
Qed.

Lemma memerr_pcbs m w pcb v : pcbs_are m w ->
  match write_memerr custom_free fuel w pcb v with
  | Some (w', err) => err = ERR_MEM /\ pcbs_are (alter (fun t => s_flags (Z.lor (t_flags t) TF_NAGLEMEMERR) t) pcb m) w'
  | None => True
  end.
Proof.
  intros H. unfold write_memerr. apply (pcbs_upd _ _ pcb (fun t => s_flags (Z.lor (t_flags t) TF_NAGLEMEMERR) t)) in H. set (m1 := alter _ pcb m) in *.
  assert (H1 : pcbs_are m1 (stats_inc S_tcp F_memerr (set_flag w pcb TF_NAGLEMEMERR))) by (apply frame_stats; exact H).
  generalize dependent (stats_inc S_tcp F_memerr (set_flag w pcb TF_NAGLEMEMERR)). intros w1 H1. cbv zeta.
  match goal with |- match ?o ≫= _ with _ => _ end => assert (H2 : keeps (pcbs_are m1) o) by (destruct (negb _); [by apply wfree_I; [apply _|]|exact H1]); destruct o as [w2|]; [|done] end.
  cbn [mbind option_bind]. pose proof (segs_free_I custom_free fuel (pcbs_are m1) w2 (w_queue v) H2) as H3. destruct (tcp_segs_free _ _ _ _); [|done]. by split.
Qed.

(** How many bytes of the block the last unsent segment takes: what its maximum size leaves
    room for, and only what was allocated behind its data when it has none yet. *)
Definition tail_bytes w (t : tcp_pcb) (len : Z) : Z :=
  match last (t_unsent t) with
  | None => 0
  | Some s =>
      let g := seg_of w s in
      let space := u16 (write_mss t - (sg_len g + LWIP_TCP_OPT_LENGTH (sg_flags g))) in
      if 0 <? sg_len g then Z.min space len
      else if 0 <? t_unsent_oversize t then Z.min space (Z.min (t_unsent_oversize t) len) else 0
  end.

Lemma tail_bytes_range w t len : 0 <= len < 65536 -> 0 <= t_unsent_oversize t -> 0 <= tail_bytes w t len <= len.
Proof.
  intros Hl Ho. unfold tail_bytes. destruct (last _) as [s|]; [|lia]. cbv zeta.
  pose proof (u16_range (write_mss t - (sg_len (seg_of w s) + LWIP_TCP_OPT_LENGTH (sg_flags (seg_of w s))))).
  destruct (0 <? sg_len _); [lia|]. destruct (0 <? _); lia.
Qed.

(** The free elements of the pool of segments. *)
Definition seg_pool w (free : list Z) : Prop :=
  exists p, ps_pools (w_ps w) !! Z.to_nat MEMP_TCP_SEG = Some p /\ chain p (tab p) free /\ NoDup free.

Lemma alloc_ram_pools st layer n st' p : pbuf_alloc custom_free fuel st layer n PBUF_RAM = Some (st', p) ->
  ps_pools st' = ps_pools st.
Proof. unfold pbuf_alloc. cbv zeta. repeat case_match; intros; simplify_eq; done. Qed.

(** What the pbuf functions leave alone. *)
Definition same_tcp w w' : Prop := tcp w' = tcp w /\ ps_pools (w_ps w') = ps_pools (w_ps w).

Lemma prealloc_same w layer n max pcb fl first w' p ov :
  tcp_pbuf_prealloc custom_free fuel w layer n max pcb fl first = Some (w', p, ov) ->
  same_tcp w w' /\ (p <> NULL -> pb_tot_len (pb (w_ps w') p) = n).
Proof.
  unfold tcp_pbuf_prealloc. destruct (pbuf_alloc _ _ _ _ _ _) as [[st q]|] eqn:E; [|done]. apply alloc_ram_pools in E.
  cbn [mbind option_bind]. destruct (Z.eqb_spec q NULL) as [->|Hq]; intros H; simplify_eq; [by split|].
  split; [by split|]. intros _. change (w_ps (set_wps (set_wps w st) ?x)) with x. by rewrite pb_upd_eq.
Qed.

(** Phases 1 and 2 find that many bytes. *)
Lemma write_tail_pos w pcb arg len fl t s w1 v1 :
  pcb_of w pcb = t -> last (t_unsent t) = Some s -> 0 <= len < 65536 -> 0 <= t_unsent_oversize t ->
  write_tail custom_free fuel w pcb arg len fl (write_mss t) s = Some (w1, v1, true) ->
  w_pos v1 = tail_bytes w t len /\ w_queue v1 = [] /\ (has_flag fl TCP_WRITE_FLAG_COPY = true -> same_tcp w w1) /\
  (tail_bytes w t len <= t_unsent_oversize t -> w_concat v1 = NULL /\ w_extendlen v1 = 0 /\ w_oversize_used v1 = tail_bytes w t len).
Proof.
  intros Hp Hs Hl Ho H. unfold write_tail in H. rewrite Hp in H. cbv zeta in H. unfold tail_bytes. rewrite Hs. cbv zeta.
  set (space := u16 (write_mss t - _)) in *. assert (Hsp : 0 <= space < 65536) by apply u16_range.
  set (used := if 0 <? t_unsent_oversize t then _ else 0) in *.
  assert (Hu : 0 <= used /\ used <= space /\ used <= len).
  { unfold used. destruct (0 <? _); lia. }
  rewrite (u16_small (space - used)) in H by lia.
  destruct ((used <? len) && (0 <? space - used) && (0 <? sg_len (seg_of w s))) eqn:Ec.
  - rewrite !andb_true_iff, !Z.ltb_lt in Ec. destruct Ec as [[E1 E2] E3]. rewrite (proj2 (Z.ltb_lt _ _) E3).
    assert (Epos : u16 (used + Z.min (space - used) (len - used)) = Z.min space len) by (rewrite u16_small; lia).
    assert (Hmore : t_unsent_oversize t < Z.min space len) by (unfold used in E1, E2; destruct (Z.ltb_spec 0 (t_unsent_oversize t)); lia).
    destruct (has_flag fl TCP_WRITE_FLAG_COPY).
    + destruct (tcp_pbuf_prealloc _ _ _ _ _ _ _ _ _) as [[[w2 p] ov]|] eqn:Ep; [|done]. apply prealloc_same in Ep as [Es _].
      cbn [mbind option_bind] in H. destruct (p =? NULL); [done|]. destruct (pbuf_clen _ _ _) as [n|]; [|done].
      injection H as <- <-. split; [exact Epos|]. split; [done|]. split; [intros _; exact Es|]. lia.
    + destruct (last_pbuf _ _ _) as [p|]; [|done]. cbn [mbind option_bind] in H. destruct (_ && _); [injection H as <- <-; split_and!; [done..|lia]|].
      destruct (pbuf_alloc _ _ _ _ _ _) as [[st q]|]; [|done]. cbn [mbind option_bind] in H. destruct (q =? NULL); [done|].
      destruct (pbuf_clen _ _ _) as [n|]; [|done]. injection H as <- <-. split_and!; [done..|lia].
  - injection H as <- <-. cbn [w_pos w_queue w_concat w_extendlen w_oversize_used].
    assert (Et : used = (if 0 <? sg_len (seg_of w s) then Z.min space len else used)).
    { destruct (Z.ltb_spec 0 (sg_len (seg_of w s))) as [E3|E3]; [|done]. rewrite andb_true_r, andb_false_iff, !Z.ltb_ge in Ec. lia. }
    rewrite <- Et. by split_and!.
Qed.

Lemma seg_upd_eq w s f : is_Some (tcp_seg_at (tcp w) !! s) -> seg_of (upd_seg w s f) s = f (seg_of w s).
Proof. intros [g E]. unfold seg_of, upd_seg. rewrite tcp_upd. cbn. by rewrite lookup_alter_eq, E. Qed.
Lemma seg_upd_ne w s f k : k <> s -> seg_of (upd_seg w s f) k = seg_of w k.
Proof. intros. unfold seg_of, upd_seg. rewrite tcp_upd. cbn. by rewrite lookup_alter_ne. Qed.
Lemma seg_new_eq w s g : seg_of (upd_tcp w (fun v => v_seg_at (<[s := g]> (tcp_seg_at v)) v)) s = g.
Proof. unfold seg_of. rewrite tcp_upd. cbn. by rewrite lookup_insert_eq. Qed.

(** A segment that is created is the first free one of the pool. *)
Lemma create_segment_new w pcb p seq w' seg free :
  tcp_create_segment custom_free fuel w pcb p 0 seq 0 = Some (w', seg) -> seg <> NULL -> seg_pool w free ->
  exists rest, free = seg :: rest /\ seg_pool w' rest /\ sg_len (seg_of w' seg) = u16 (pb_tot_len (pb (w_ps w) p)) /\
    (forall s, s <> seg -> tcp_seg_at (tcp w') !! s = tcp_seg_at (tcp w) !! s).
Proof.
  intros H Hs (pl & Hpl & Hc & Hnd). unfold tcp_create_segment in H. cbv zeta in H. unfold wmalloc in H.
  rewrite (memp_malloc_at _ _ pl) in H by done. unfold do_memp_malloc_pool in H.
  destruct (Z.eqb_spec (tab pl) NULL) as [Et|Et]; cbn [negb fst snd] in H.
  { change (NULL =? NULL) with true in H. cbv iota in H. destruct (wfree _ _ _ _); [|done]. by injection H as _ <-. }
  destruct free as [|x rest]; [done|]. destruct Hc as (Ex & Hx & Hc). unfold MEMP_SIZE in H. rewrite Z.add_0_r in H.
  set (pl' := set_pstats _ _) in H. set (w1 := set_wps w _) in H. rewrite (proj2 (Z.eqb_neq _ _) Et) in H.
  set (w2 := upd_tcp w1 _) in H. destruct (pbuf_header (w_ps w2) p TCP_HLEN) as [st r] eqn:Eh. cbv zeta in H.
  destruct (negb (r =? 0)).
  { destruct (tcp_seg_free _ _ _ _); [|done]. by injection H as _ <-. }
  injection H as <- <-. subst x. exists rest. split; [done|].
  split; [|split].
  - exists pl'. apply NoDup_cons in Hnd as [_ Hnd]. split; [|split; [by apply (chain_ext pl)|done]].
    pose proof (header_pools (w_ps w2) p TCP_HLEN) as Ep. rewrite Eh in Ep. cbn in Ep |- *. rewrite Ep. change (ps_pools (w_ps w2)) with (<[Z.to_nat MEMP_TCP_SEG := pl']> (ps_pools (w_ps w))).
    apply list_lookup_insert_eq. by apply lookup_lt_Some in Hpl.
  - change (seg_of (set_wmem ?a ?m) ?k) with (seg_of a k). rewrite seg_upd_eq.
    2:{ change (tcp (set_wps ?a ?m)) with (tcp a). unfold w2. rewrite tcp_upd. cbn. rewrite lookup_insert_eq. by eexists. }
    change (seg_of (set_wps ?a ?m) ?k) with (seg_of a k). unfold w2. rewrite seg_new_eq. cbn. by rewrite Z.sub_0_r.
  - intros s Hne. change (tcp (set_wmem ?a ?m)) with (tcp a). unfold upd_seg. rewrite tcp_upd. cbn. rewrite lookup_alter_ne by done.
    change (tcp (set_wps ?a ?m)) with (tcp a). unfold w2. rewrite tcp_upd. cbn. by rewrite lookup_insert_ne.
Qed.

(** The pbuf of a new segment of a copied block. *)
Lemma segment_pbuf_copy w pcb arg n pos fl mss ov first w' p ov' :
  has_flag fl TCP_WRITE_FLAG_COPY = true -> segment_pbuf custom_free fuel w pcb arg n pos fl mss ov first = Some (w', p, ov') -> p <> NULL ->
  same_tcp w w' /\ pb_tot_len (pb (w_ps w') p) = n.
Proof.
  intros Hc H Hp. unfold segment_pbuf in H. rewrite Hc in H. destruct (tcp_pbuf_prealloc _ _ _ _ _ _ _ _ _) as [[[w2 q] o]|] eqn:E; [|done].
  apply prealloc_same in E as [Es El]. cbn [mbind option_bind] in H. destruct (Z.eqb_spec q NULL) as [->|Hq]; injection H as <- <- <-; [done|].
  split; [exact Es|]. by apply El.
Qed.

Lemma same_tcp_seg w w' s : same_tcp w w' -> seg_of w' s = seg_of w s.
Proof. intros [E _]. unfold seg_of. by rewrite E. Qed.
Lemma same_tcp_pool w w' free : same_tcp w w' -> seg_pool w free -> seg_pool w' free.
Proof. intros [_ E]. unfold seg_pool. by rewrite E. Qed.

(** The new segments [q] with their lengths [ls]: they are apart from those of [base] and
    from the free ones, and those of [base] are as in [w0]. *)
Definition queued_segs (base : list Z) w0 w (q ls : list Z) : Prop :=
  exists free, seg_pool w free /\ Forall (fun s => s ∉ free) (base ++ q) /\ Forall (fun s => s ∉ base) q /\
    Forall2 (fun s n => sg_len (seg_of w s) = n) q ls /\ Forall (fun s => tcp_seg_at (tcp w) !! s = tcp_seg_at (tcp w0) !! s) base.

Lemma queued_segs_same base w0 w w' q ls : same_tcp w w' -> queued_segs base w0 w q ls -> queued_segs base w0 w' q ls.
Proof.
  intros E (free & H1 & H2 & H3 & H4 & H5). exists free. split; [by eapply same_tcp_pool|]. split; [done|]. split; [done|].
  split; [|by destruct E as [-> _]]. eapply Forall2_impl; [exact H4|]. intros s n <-. by rewrite (same_tcp_seg _ _ s E).
Qed.

(** The loop: after each round, the bytes in front of [w_pos] are in segments. *)
Record write_inv (base : list Z) w0 (v0 : write_vars) (len tail mss : Z) (copy : bool) w (v : write_vars) (ls : list Z) : Prop := {
  wi_pieces : pieces mss (len - tail) = ls ++ pieces mss (len - w_pos v);
  wi_length : length ls = length (w_queue v);
  wi_pos : w_pos v <= len;
  wi_segs : copy = true -> queued_segs base w0 w (w_queue v) ls;
  wi_queuelen : w_queue v <> [] -> 0 <= w_queuelen v <= TCP_SND_QUEUELEN;
  wi_tail : w_oversize_used v = w_oversize_used v0 /\ w_extendlen v = w_extendlen v0 /\ w_concat v = w_concat v0
}.

Lemma write_step_inv base w0 v0 pcb arg len fl tail mss w v ls copy :
  (copy = true -> has_flag fl TCP_WRITE_FLAG_COPY = true) -> 1 <= mss < 65536 -> len < 65536 -> 0 <= w_pos v -> write_inv base w0 v0 len tail mss copy w v ls ->
  match write_step custom_free fuel pcb arg len fl mss (w, v) with
  | inl (w', v') => 0 <= w_pos v' /\ exists ls', write_inv base w0 v0 len tail mss copy w' v' ls'
  | inr (Some (w', v', true)) => w' = w /\ v' = v /\ w_pos v = len
  | _ => True
  end.
Proof.
  intros Hcp Hm Hl H0 [I1 I2 I3 I4 I5 I6]. unfold write_step. destruct (Z.ltb_spec (w_pos v) len) as [Hlt|Hge]; [|by split_and!; [..|lia]].
  rewrite (u16_small (len - w_pos v)) by lia. set (n := Z.min (len - w_pos v) mss).
  destruct (segment_pbuf _ _ _ _ _ _ _ _ _ _ _) as [[[w1 p] ov]|] eqn:Ep; [|done]. destruct (Z.eqb_spec p NULL) as [|Hp]; [done|].
  destruct (pbuf_clen _ _ _) as [k|]; [|done]. cbv zeta. destruct (_ || _) eqn:Eq; [by destruct (wfree _ _ _ _)|].
  destruct (tcp_create_segment _ _ _ _ _ _ _ _) as [[w2 seg]|] eqn:Es; [|done]. destruct (Z.eqb_spec seg NULL) as [|Hs]; [done|].
  cbn [w_pos w_queuelen w_queue] in *. rewrite u16_small by lia. split; [lia|]. exists (ls ++ [n]). constructor; cbn [w_pos w_queuelen w_queue w_oversize_used w_extendlen w_concat].
  - rewrite I1, (pieces_step mss (len - w_pos v)) by lia. rewrite <- app_assoc. cbn [app]. fold n. do 3 f_equal. lia.
  - rewrite !length_app. cbn [length]. lia.
  - lia.
  - intros Hc. specialize (Hcp Hc). destruct (segment_pbuf_copy _ _ _ _ _ _ _ _ _ _ _ _ Hcp Ep Hp) as [Esame Etot].
    pose proof (queued_segs_same _ _ _ _ _ _ Esame (I4 Hc)) as (free & F1 & F2 & F3 & F4 & F5).
    destruct (create_segment_new _ _ _ _ _ _ _ Es Hs F1) as (rest & -> & G1 & G2 & G3).
    apply Forall_app in F2 as [F2 F2']. assert (Hnd : seg ∉ rest).
    { destruct F1 as (pl & _ & _ & Hnd). by apply NoDup_cons in Hnd as [? _]. }
    assert (Hsub : forall l, Forall (fun s => s ∉ seg :: rest) l -> Forall (fun s => s ∉ rest) l /\ seg ∉ l).
    { intros l Hf. split; [eapply Forall_impl; [exact Hf|]; intros s Hs' Hin; apply Hs'; by right|].
      intros Hin. rewrite Forall_forall in Hf. apply (Hf seg Hin). by left. }
    destruct (Hsub _ F2) as [B1 B2]. destruct (Hsub _ F2') as [Q1 Q2]. exists rest. split; [done|].
    split; [apply Forall_app; split; [done|]; apply Forall_app; split; [done|by constructor]|].
    split; [apply Forall_app; split; [done|by constructor]|].
    split; [apply Forall2_app|rewrite Forall_forall in F5 |- *; intros s Hin; rewrite G3; [by apply F5|intros ->; by apply B2]].
    + assert (Hne : Forall (fun s => s <> seg) (w_queue v)) by (apply Forall_forall; intros s Hin ->; by apply Q2).
      clear -F4 G3 Hne. induction F4 as [|s m q ls' Hsm _ IH]; constructor; apply Forall_cons in Hne as [Hn Hne]; [unfold seg_of; by rewrite G3|by apply IH].
    + constructor; [|constructor]. rewrite G2, Etot. apply u16_small. lia.
  - intros _. apply orb_false_iff in Eq as [Eq _]. apply Z.ltb_ge in Eq. split; [apply u16_range|done].
  - exact I6.
Qed.

Lemma write_loop_inv base w0 v0 pcb arg len fl tail mss copy n w v ls w' v' :
  (copy = true -> has_flag fl TCP_WRITE_FLAG_COPY = true) -> 1 <= mss < 65536 -> len < 65536 -> 0 <= w_pos v -> write_inv base w0 v0 len tail mss copy w v ls ->
  loop n (write_step custom_free fuel pcb arg len fl mss) (w, v) ≫= id = Some (w', v', true) ->
  write_inv base w0 v0 len tail mss copy w' v' (pieces mss (len - tail)).
Proof.
  intros Hcp Hm Hl. revert w v ls. induction n as [|n IH]; intros w v ls H0 Hi H; [done|]. cbn [loop] in H.
  pose proof (write_step_inv base w0 v0 pcb arg len fl tail mss w v ls copy Hcp Hm Hl H0 Hi) as Hst.
  destruct (write_step _ _ _ _ _ _ _ _) as [[w1 v1]|[[[w1 v1] []]|]] eqn:E; cbn [mbind option_bind id] in H; try done.
  - destruct Hst as [H1 (ls' & Hi')]. by eapply IH.
  - injection H as <- <-. destruct Hst as (-> & -> & Epos). destruct Hi as [I1 I2 I3 I4 I5 I6].
    rewrite Epos, Z.sub_diag, pieces_0, app_nil_r in I1 by lia. rewrite I1. constructor; auto. rewrite Epos, Z.sub_diag, pieces_0, app_nil_r by lia. by rewrite I1.
Qed.

(** The end of [tcp_write] touches no segment but the last unsent one. *)
Lemma commit_segs w pcb arg len fl last v w' err s :
  write_commit fuel w pcb arg len fl last v = Some (w', err) -> (forall x, last = Some x -> x <> s) -> seg_of w' s = seg_of w s.
Proof.
  intros H Hne. unfold write_commit in H. cbv zeta in H.
  assert (Hupd : forall w x f, (forall y, last = Some y -> y <> s) -> last = Some x -> seg_of (upd_seg w x f) s = seg_of w s).
  { intros w0 x f Hy Hx. apply seg_upd_ne. intros ->. by apply (Hy x). }
  assert (Hpcb : forall w f, seg_of (upd_pcb w pcb f) s = seg_of w s) by (intros w0 f; unfold seg_of, upd_pcb; by rewrite tcp_upd).
  match type of H with ?o ≫= _ = _ => destruct o as [w1|] eqn:E1; [|done] end. cbn [mbind option_bind] in H.
  assert (H1 : seg_of w1 s = seg_of w s).
  { destruct last as [x|]; [|by injection E1 as <-]. destruct (0 <? _); [|by injection E1 as <-]. unfold add_used in E1.
    destruct (loop _ _ _) as [st|]; [|done]. injection E1 as <-. by rewrite Hupd. }
  match type of H with ?o ≫= _ = _ => destruct o as [w2|] eqn:E2; [|done] end. cbn [mbind option_bind] in H.
  assert (H2 : seg_of w2 s = seg_of w s).
  { destruct last as [x|]; [|injection E2 as <-; by rewrite Hpcb]. destruct (negb _).
    - destruct (pbuf_cat _ _ _ _) as [st|]; [|done]. injection E2 as <-. rewrite Hupd by done. change (seg_of (set_wps ?a st) s) with (seg_of a s). by rewrite Hpcb.
    - destruct (0 <? w_extendlen v); [|injection E2 as <-; by rewrite Hpcb]. unfold extend_rom in E2. destruct (loop _ _ _) as [st|]; [|done].
      injection E2 as <-. rewrite Hupd by done. change (seg_of (set_wps ?a st) s) with (seg_of a s). by rewrite Hpcb. }
  injection H as <- _. destruct (_ && _); [change (seg_of (set_wmem ?a ?m) s) with (seg_of a s)|]; by rewrite !Hpcb.
Qed.

(** Without a pbuf to chain, it makes that one longer by what was copied behind its data. *)
Lemma commit_last w pcb arg len fl s v w' err :
  write_commit fuel w pcb arg len fl (Some s) v = Some (w', err) -> w_concat v = NULL -> w_extendlen v = 0 -> 0 <= w_oversize_used v ->
  is_Some (tcp_seg_at (tcp w) !! s) -> 0 <= sg_len (seg_of w s) < 65536 -> sg_len (seg_of w' s) = u16 (sg_len (seg_of w s) + w_oversize_used v).
Proof.
  intros H Hc Hx Hu Hs Hl. unfold write_commit in H. cbv zeta in H. rewrite Hc, Hx in H.
  assert (Hpcb : forall w f, seg_of (upd_pcb w pcb f) s = seg_of w s) by (intros w0 f; unfold seg_of, upd_pcb; by rewrite tcp_upd).
  match type of H with ?o ≫= _ = _ => destruct o as [w1|] eqn:E1; [|done] end. cbn [mbind option_bind] in H.
  assert (H1 : sg_len (seg_of w1 s) = u16 (sg_len (seg_of w s) + w_oversize_used v)).
  { destruct (Z.ltb_spec 0 (w_oversize_used v)).
    - unfold add_used in E1. destruct (loop _ _ _) as [st|]; [|done]. injection E1 as <-. rewrite seg_upd_eq by done. reflexivity.
    - injection E1 as <-. rewrite u16_small by lia. lia. }
  change (negb (NULL =? NULL)) with false in H. change (0 <? 0) with false in H. cbn [mbind option_bind] in H. injection H as <- _.
  destruct (_ && _); [change (seg_of (set_wmem ?a ?m) s) with (seg_of a s)|]; by rewrite !Hpcb.
Qed.

(** What a successful write leaves: the PCB, and the new segments. *)
Definition written_ok (m : gmap Z tcp_pcb) w (pcb : Z) (t : tcp_pcb) (len flags : Z) w' : Prop :=
  exists oversize queuelen queue,
    pcbs_are (alter (written len oversize queuelen queue) pcb m) w' /\
    let rest := pieces (write_mss t) (len - tail_bytes w t len) in
    length queue = length rest /\ (queue <> [] -> 0 <= queuelen <= TCP_SND_QUEUELEN) /\
    (has_flag flags TCP_WRITE_FLAG_COPY = true -> forall free, seg_pool w free -> Forall (fun s => s ∉ free) (t_unsent t) ->
       Forall2 (fun s n => sg_len (seg_of w' s) = n) queue rest /\
       (forall s, last (t_unsent t) = Some s -> is_Some (tcp_seg_at (tcp w) !! s) -> 0 <= sg_len (seg_of w s) < 65536 ->
          tail_bytes w t len <= t_unsent_oversize t -> sg_len (seg_of w' s) = u16 (sg_len (seg_of w s) + tail_bytes w t len))).

(** The phases of [tcp_write] behind its checks. *)
Lemma phases_write m w pcb t arg len fl w' err :
  pcbs_are m w -> pcb_of w pcb = t -> 1 <= t_mss t < 65536 -> 0 <= t_snd_wnd_max t -> 0 <= t_unsent_oversize t -> 0 <= len < 65536 ->
  ('(w, v, ok) ← match last (t_unsent t) with
                 | Some s => write_tail custom_free fuel w pcb arg len fl (write_mss t) s
                 | None => Some (w, mk_wv 0 (t_snd_queuelen t) 0 0 0 NULL NULL [], true) end;
   if negb ok then write_memerr custom_free fuel w pcb v
   else
     '(w, v, ok) ← loop fuel (write_step custom_free fuel pcb arg len fl (write_mss t)) (w, v) ≫= id;
     if (ok : bool) then write_commit fuel w pcb arg len fl (last (t_unsent t)) v else write_memerr custom_free fuel w pcb v) = Some (w', err) ->
  (err = ERR_OK /\ written_ok m w pcb t len fl w') \/
  (err = ERR_MEM /\ pcbs_are (alter (fun t => s_flags (Z.lor (t_flags t) TF_NAGLEMEMERR) t) pcb m) w').
Proof.
  intros H0 Ht Hm Hw Ho Hl H. pose proof (write_mss_range t Hm Hw) as Hmss. apply bind_Some in H as ([[w1 v1] ok1] & E1 & H).
  assert (H1 : pcbs_are m w1).
  { destruct (last _) as [s|]; [|by injection E1 as <- _ _]. exact (keeps_some _ _ _ (write_tail_I custom_free fuel (pcbs_are m) w pcb arg len fl _ s H0) E1). }
  destruct ok1; cbn [negb] in H; [|pose proof (memerr_pcbs m w1 pcb v1 H1) as C; rewrite H in C; by right].
  assert (T1 : w_pos v1 = tail_bytes w t len /\ w_queue v1 = [] /\ (has_flag fl TCP_WRITE_FLAG_COPY = true -> same_tcp w w1) /\
    (tail_bytes w t len <= t_unsent_oversize t -> w_concat v1 = NULL /\ w_extendlen v1 = 0 /\ w_oversize_used v1 = tail_bytes w t len)).
  { destruct (last (t_unsent t)) as [s|] eqn:Es; [by eapply write_tail_pos|]. injection E1 as <- <-. unfold tail_bytes. by rewrite Es. }
  destruct T1 as (Tp & Tq & Ts & Tc). apply bind_Some in H as ([[w2 v2] ok2] & E2 & H).
  assert (H2 : pcbs_are m w2).
  { assert (K : keeps (pcbs_are m) (loop fuel (write_step custom_free fuel pcb arg len fl (write_mss t)) (w1, v1) ≫= id)); [|by rewrite E2 in K].
    apply (keeps_loop (pcbs_are m) (A:=world X * write_vars)); [|exact H1]. intros a. exact (write_step_I custom_free fuel (pcbs_are m) pcb arg len fl _ a). }
  destruct ok2; [|pose proof (memerr_pcbs m w2 pcb v2 H2) as C; rewrite H in C; by right].
  pose proof (commit_pcbs m w2 pcb arg len fl (last (t_unsent t)) v2 H2) as C. rewrite H in C. destruct C as [-> C]. left. split; [done|].
  pose proof (tail_bytes_range w t len Hl Ho) as Htl.
  assert (Hloop : forall copy, (copy = true -> has_flag fl TCP_WRITE_FLAG_COPY = true) -> (copy = true -> queued_segs (t_unsent t) w w1 [] []) ->
    write_inv (t_unsent t) w v1 len (tail_bytes w t len) (write_mss t) copy w2 v2 (pieces (write_mss t) (len - tail_bytes w t len))).
  { intros copy Hcp Hq. eapply (write_loop_inv _ _ _ _ _ _ _ _ _ _ _ _ _ []); [exact Hcp|done|lia| | |exact E2]; [lia|].
    constructor; rewrite ?Tp, ?Tq; try done; [lia]. }
  exists (w_oversize v2), (w_queuelen v2), (w_queue v2). split; [exact C|]. cbv zeta.
  destruct (Hloop false ltac:(done) ltac:(done)) as [_ L2 _ _ L5 L6]. split; [done|]. split; [exact L5|].
  intros Hcp free Hf Hb. assert (Hq : queued_segs (t_unsent t) w w1 [] []).
  { exists free. specialize (Ts Hcp). split; [by eapply same_tcp_pool|]. rewrite app_nil_r. destruct Ts as [-> _]. split_and!; try done. by apply Forall_forall. }
  destruct (Hloop true (fun _ => Hcp) (fun _ => Hq)) as [_ _ _ L4 _ _]. destruct (L4 eq_refl) as (fr & _ & _ & Hbase & Hlen & Hkept). split.
  - clear -Hlen Hbase H. induction Hlen as [|s n q ls Hsn _ IH]; constructor; apply Forall_cons in Hbase as [Hs Hbase]; [|by apply IH].
    rewrite (commit_segs _ _ _ _ _ _ _ _ _ s H); [exact Hsn|]. intros x Hx ->. apply Hs. by eapply last_in.
  - intros s Hs Hex Hsl Hle. rewrite Hs in H. rewrite Forall_forall in Hkept. specialize (Hkept s (last_in _ _ Hs)).
    destruct (Tc Hle) as (Tc1 & Tc2 & Tc3). destruct L6 as (L6 & L7 & L8). rewrite Tc3 in L6. rewrite Tc2 in L7. rewrite Tc1 in L8.
    assert (Eseg : seg_of w2 s = seg_of w s) by (unfold seg_of; by rewrite Hkept).
    apply commit_last in H; [by rewrite H, Eseg, L6|done|done|by rewrite L6; lia|by rewrite Hkept|by rewrite Eseg].
Qed.
End Write.

(** C33: [tcp_write] on every branch, for an existing PCB whose members are in their ranges.  A
    [NULL] argument is refused with [ERR_ARG] and a state other than the four in which data
    can be sent with [ERR_CONN], with nothing changed.  A block of one byte or more that is
    longer than the free space of the send buffer, or that finds the queue full, gives
    [ERR_MEM], and of all PCBs only the flag of this one that makes [tcp_output] send is
    changed; the same holds for every failed allocation.  When it succeeds, the sequence
    number of the next byte and the free space move by exactly the length written, and what
    the last unsent segment has no room for ([tail_bytes] is the room it has) is in new
    segments behind the unsent ones, as many as segments of the maximum size are needed; the
    queue does not get longer than [TCP_SND_QUEUELEN] pbufs by them.  Of the PCBs only the
    counts of pbufs and of spare bytes of this one are changed besides.  For a block that is
    copied, and a pool whose free elements are none of the unsent segments, the new segments
    have exactly these lengths, and the last unsent one gets longer by exactly what it has
    room for when that fits into the bytes allocated behind its data (otherwise a pbuf is
    chained to it, whose length is not followed here). *)
Theorem write_accounts {X} `{!tcp_store X} custom_free fuel (w w' : world X) pcb t arg len flags err :
  tcp_pcb_at (tcp w) !! pcb = Some t -> 0 <= len -> 0 <= t_snd_buf t < 65536 -> 1 <= t_mss t < 65536 -> 0 <= t_snd_wnd_max t -> 0 <= t_unsent_oversize t ->
  tcp_write custom_free fuel w pcb arg len flags = Some (w', err) ->
  let same t' := tcp_pcb_at (tcp w') = <[pcb := t']> (tcp_pcb_at (tcp w)) in
  let refused := err = ERR_MEM /\ same (s_flags (Z.lor (t_flags t) TF_NAGLEMEMERR) t) in
  if arg =? NULL then err = ERR_ARG /\ w' = w
  else if negb (may_write (t_state t)) then err = ERR_CONN /\ w' = w
  else if (0 <? len) && ((t_snd_buf t <? len) || (TCP_SND_QUEUELEN <=? t_snd_queuelen t)) then refused
  else refused \/
    (err = ERR_OK /\ exists oversize queuelen queue,
       same (s_snd_queuelen queuelen (s_snd_buf (t_snd_buf t - len) (s_snd_lbb (u32 (t_snd_lbb t + len))
               (s_unsent (t_unsent t ++ queue) (s_unsent_oversize oversize t))))) /\
       let rest := pieces (write_mss t) (len - tail_bytes w t len) in
       length queue = length rest /\ (queue <> [] -> 0 <= queuelen <= TCP_SND_QUEUELEN) /\
       (has_flag flags TCP_WRITE_FLAG_COPY = true -> forall free, seg_pool w free -> Forall (fun s => s ∉ free) (t_unsent t) ->
          Forall2 (fun s n => sg_len (seg_of w' s) = n) queue rest /\
          (forall s, last (t_unsent t) = Some s -> is_Some (tcp_seg_at (tcp w) !! s) -> 0 <= sg_len (seg_of w s) < 65536 ->
             tail_bytes w t len <= t_unsent_oversize t -> sg_len (seg_of w' s) = u16 (sg_len (seg_of w s) + tail_bytes w t len)))).
Proof.
  intros Ht Hl Hb Hm Hw Ho H. cbv zeta. set (m := tcp_pcb_at (tcp w)) in *. assert (Hp : pcb_of w pcb = t) by (unfold pcb_of; fold m; by rewrite Ht).
  assert (Halt : forall f, alter f pcb m = <[pcb := f t]> m) by (intros f; rewrite <- (insert_id m pcb t Ht) at 1; by rewrite alter_insert_eq).
  assert (H0 : pcbs_are m w) by done.
  unfold tcp_write in H. rewrite Hp in H. cbv zeta in H. fold (write_mss t) in H. destruct (arg =? NULL); [by injection H as <- <-|].
  unfold tcp_write_checks in H. rewrite Hp in H.
  assert (Es : negb (state_is (t_state t) ESTABLISHED) && negb (state_is (t_state t) CLOSE_WAIT) && negb (state_is (t_state t) SYN_SENT) &&
    negb (state_is (t_state t) SYN_RCVD) = negb (may_write (t_state t))) by (by destruct (t_state t)).
  rewrite Es in H. destruct (negb (may_write (t_state t))); [by injection H as <- <-|].
  assert (Hnag : forall w1, pcbs_are m w1 -> pcbs_are (<[pcb := s_flags (Z.lor (t_flags t) TF_NAGLEMEMERR) t]> m) (set_flag w1 pcb TF_NAGLEMEMERR)).
  { intros w1 H1. rewrite <- (Halt (fun t => s_flags (Z.lor (t_flags t) TF_NAGLEMEMERR) t)). by apply pcbs_upd. }
  destruct (Z.eqb_spec len 0) as [El|El].
  - rewrite (proj2 (Z.ltb_ge 0 len)) by lia. cbn [andb]. cbn [negb] in H. change (negb (ERR_OK =? ERR_OK)) with false in H. cbv iota in H.
    apply (phases_write custom_free fuel m) in H; [|done..|lia]. rewrite !Halt in H. unfold written_ok in H.
    setoid_rewrite Halt in H. unfold written in H. rewrite u16_small in H by lia. destruct H; [by right|by left].
  - rewrite (proj2 (Z.ltb_lt 0 len)) by lia. cbn [andb]. destruct (Z.ltb_spec (t_snd_buf t) len) as [Hs|Hs].
    { injection H as <- <-. split; [done|]. by apply Hnag. }
    cbn [orb]. assert (Eq : (TCP_SND_QUEUELEN <=? t_snd_queuelen t) || (TCP_SNDQUEUELEN_OVERFLOW <? t_snd_queuelen t) = (TCP_SND_QUEUELEN <=? t_snd_queuelen t)).
    { destruct (Z.leb_spec TCP_SND_QUEUELEN (t_snd_queuelen t)) as [|Hq]; [done|]. apply Z.ltb_ge. assert (TCP_SND_QUEUELEN <= TCP_SNDQUEUELEN_OVERFLOW) by done. lia. }
    rewrite Eq in H. destruct (TCP_SND_QUEUELEN <=? _).
    { injection H as <- <-. split; [done|]. apply Hnag. by apply frame_stats. }
    change (negb (ERR_OK =? ERR_OK)) with false in H. cbv iota in H.
    apply (phases_write custom_free fuel m) in H; [|done..|lia]. rewrite !Halt in H. unfold written_ok in H.
    setoid_rewrite Halt in H. unfold written in H. rewrite u16_small in H by lia. destruct H; [by right|by left].
Qed.
