(* ===== verification/TcpExample.v ===== *)
(** * Two boards

    Two boards that are connected by a wire, and the witnesses of the theorems about TCP:
    one board listens, the other connects, and the segments are carried from one to the
    other. *)

From Stdlib Require Import ZArith Lia.
From stdpp Require Import base tactics numbers list option gmap relations.
From S2P Require Import Prelude.
From S2P Require Import Def.
From S2P Require Import Ip4Addr.
From S2P Require Import Alloc.
From S2P Require Import Mem.
From S2P Require Import Memp.
From S2P Require Import Pbuf.
From S2P Require Import World.
From S2P Require Import Ip4Frag.
From S2P Require Import Ip4.
From S2P Require Import Icmp.
From S2P Require Import Udp.
From S2P Require Import Tcp.
From S2P Require Import TcpOut.
From S2P Require Import TcpCore.
From S2P Require Import TcpIn.
From S2P Require Import TcpFrame.
From S2P Require Import TcpLists.
From S2P Require Import TcpSafe.
From S2P Require Import TcpState.
From S2P Require Import TcpProps.
From S2P Require Import TcpWrite.

(** ** The boards *)

(** The state outside the IP layer: the variables of TCP and the packets on the wire. *)
Definition ext : Type := tcp_vars * list (list Z).
#[export] Instance ext_store : tcp_store ext.
Proof. by refine {| tcp_get x := x.1; tcp_put x v := (v, x.2) |}. Defined.

(** The bytes of a chain of pbufs. *)
Definition chain_bytes (st : pstate) (p : Z) : list Z :=
  default [] (loop 20 (fun '(p, acc) =>
    if p =? NULL then inr acc else inl (pb_next (pb st p), acc ++ bytes_at (data st) (pb_payload (pb st p)) (Z.to_nat (pb_len (pb st p))))) (p, [])).
Definition wire (w : world ext) (nif p dest : Z) : option (world ext * Z) :=
  Some (set_ext w ((w_ext w).1, (w_ext w).2 ++ [chain_bytes (w_ps w) p]), ERR_OK).
(** An application that accepts every connection and drops what it gets. *)
Definition server : tcp_callbacks ext :=
  mk_cb (fun _ w _ _ _ => Some (w, ERR_OK)) (fun _ w _ _ _ _ => Some (w, ERR_OK)) (fun _ w _ _ _ => Some (w, ERR_OK))
    (fun _ w _ _ _ => Some (w, ERR_OK)) (fun _ w _ _ => Some (w, ERR_OK)) (fun _ w _ _ => Some w).
Definition no_custom (st : pstate) (_ : Z) : pstate := st.

Definition no_segment : tcp_in_vars := mk_in seg_zero 0 0 0 0 0 0 0 0 0 0 0 0 0.
Definition no_pcbs : tcp_vars := mk_tv ∅ ∅ ∅ [] [] [] [] false 0xc000 0 0 0 6510 no_segment.
Definition tcp_pools : list pool :=
  let z := mk_pool 0 ∅ (mk_stats 0 0 0 0 0) in
  [memp_init_pool net_desc z; memp_init_pool (mk_desc 160 5 539000000) z; memp_init_pool (mk_desc 32 8 539010000) z;
   memp_init_pool (mk_desc 16 16 539020000) z; memp_init_pool reass_desc z; memp_init_pool frag_desc z; z; z; z; z].
Definition board (ip : Z) : world ext :=
  mk_world (no_pcbs, []) (mk_ps ∅ (fun _ => 0) heap0 tcp_pools 0)
    (mk_netifs (fun _ => mk_netif ip 0x00ffffff 0xfe00a8c0 1500 [2; 0; 0; 0; 0; 1] 6 0x3f) [4000] 4000) 7 NULL (mk_ipg 0 0 0 0 0 0) [] 0 [] ∅ 0xc000
    (fun _ _ => 0).
Definition addrA : Z := 0x0100a8c0.
Definition addrB : Z := 0x0200a8c0.

(** A packet arrives: it is in a pbuf behind its IP header. *)
Definition arrive (w : world ext) (bs : list Z) : world ext * Z :=
  match pbuf_alloc no_custom 300 (w_ps w) PBUF_RAW (Z.of_nat (length bs)) PBUF_RAM with
  | Some (st, p) =>
      let hdr := pb_payload (pb st p) in
      let w := set_wps w (set_data st (write_bytes (data st) hdr bs)) in
      let w := set_ip_data w (mk_ipg 4000 4000 hdr 20 (ld32 (wmem w) (hdr + 12)) (ld32 (wmem w) (hdr + 16))) in
      (set_wps w (fst (pbuf_header (w_ps w) p (-20))), p)
  | None => (w, NULL)
  end.
Definition input (wp : world ext * Z) : option (world ext) := tcp_input wire no_custom 300 id server 901 902 wp.1 wp.2 4000.
Definition sent (w : world ext) : list (list Z) := (w_ext w).2.
Definition carried (w : world ext) : world ext := set_ext w ((w_ext w).1, []).

(** ** The contract of the interface and the application holds *)

Lemma server_client : tcp_client wire id server.
Proof.
  split; try done.
  - intros S w nif p d w' r [= <- <-] H. exact H.
  - intros l f w arg pcb err w' r Hg [= <- <-]. split; [done|]. intros Ha. split; [|done]. intros _. unfold pcb_of in Ha.
    destruct (tcp_pcb_at (tcp w) !! pcb); [by eexists|]. by specialize (Ha 0).
  - intros l f w arg pcb err w' r Hg Hl [= <- <-]. done.
  - intros l f w arg pcb err w' r Hg Hl [= <- <-]. done.
  - intros f w arg err w' pcb [= <-]. done.
Qed.

(** A free element of the pool that no PCB has. *)
Definition pool_free (ps : list pool) (v : tcp_vars) : bool :=
  let a := (memp_malloc ps MEMP_TCP_PCB).2 in
  negb (a =? NULL) && bool_decide (tcp_pcb_at v !! a = None) && bool_decide (tcp_listen_at v !! a = None).
Lemma free_fresh w prio : pool_free (ps_pools (w_ps w)) (tcp w) = true -> fresh_pcb wire no_custom 300 server w prio.
Proof.
  unfold pool_free. rewrite !andb_true_iff. intros [[H1 H2] H3] w1 a. unfold kills. cbn [alloc_attempts]. unfold wmalloc.
  destruct (memp_malloc (ps_pools (w_ps w)) MEMP_TCP_PCB) as [ps b]. cbn [snd] in *. rewrite H1. intros [= <- <-]. right.
  apply bool_decide_eq_true in H2, H3. by split.
Qed.
Lemma free_fresh_input w : pool_free (ps_pools (w_ps w)) (tcp w) = true -> fresh_input wire no_custom 300 server w.
Proof. intros H w1 prio E1 E2 E3. apply free_fresh. unfold pool_free in *. by rewrite E1, E2, E3. Qed.

(** A computation that ends. *)
Definition ended {A} (o : option A) : bool := match o with Some _ => true | None => false end.
Lemma run {A} (o : option A) d : ended o = true -> o = Some (default d o).
Proof. by destruct o. Qed.

(** ** The connection *)

(** B listens on port 80, A connects; then the three segments of the handshake. *)
Definition b_new : world ext * Z := default (board addrB, NULL) (tcp_new wire no_custom 300 server 901 (board addrB)).
Definition b_bound : world ext * Z := default b_new (tcp_bind id b_new.1 b_new.2 None 80).
Definition b_listening : world ext * Z * Z := tcp_listen_with_backlog_and_err id 902 b_bound.1 b_new.2.
Definition b_ready : world ext := tcp_accept b_listening.1.1 b_listening.1.2 6.
Definition a_new : world ext * Z := default (board addrA, NULL) (tcp_new wire no_custom 300 server 901 (board addrA)).
Definition a_syn : world ext * Z := default a_new (tcp_connect wire no_custom 300 id a_new.1 a_new.2 (Some addrB) 80 5).
Definition packet (w : world ext) : list Z := default [] (head (sent w)).
Definition b_got_syn : world ext * Z := arrive b_ready (packet a_syn.1).
Definition b_synack : world ext := default b_ready (input b_got_syn).
Definition a_got_synack : world ext * Z := arrive (carried a_syn.1) (packet b_synack).
Definition a_open : world ext := default a_syn.1 (input a_got_synack).
Definition b_got_ack : world ext * Z := arrive (carried b_synack) (packet a_open).
Definition b_open : world ext := default b_synack (input b_got_ack).
Definition conn (w : world ext) : Z := hd NULL (tcp_active_pcbs (tcp w)).

Lemma connected : t_state (pcb_of a_open (conn a_open)) = ESTABLISHED /\ t_state (pcb_of b_open (conn b_open)) = ESTABLISHED.
Proof. split; vm_compute; reflexivity. Qed.

(** The steps end, and come to these worlds. *)
Lemma run2 {A B} (o : option (A * B)) d : ended o = true -> o = Some ((default d o).1, (default d o).2).
Proof. by destruct o as [[]|]. Qed.
Ltac ends := first [apply run2 | apply run]; vm_compute; reflexivity.
Lemma b_new_eq : tcp_new wire no_custom 300 server 901 (board addrB) = Some (b_new.1, b_new.2).
Proof. unfold b_new. ends. Qed.
Lemma b_bound_eq : tcp_bind id b_new.1 b_new.2 None 80 = Some (b_bound.1, b_bound.2).
Proof. unfold b_bound. ends. Qed.
Lemma b_listening_eq : tcp_listen_with_backlog_and_err id 902 b_bound.1 b_new.2 = (b_listening.1.1, b_listening.1.2, b_listening.2).
Proof. unfold b_listening. by destruct (tcp_listen_with_backlog_and_err _ _ _ _) as [[??]?]. Qed.
Lemma b_synack_eq : tcp_input wire no_custom 300 id server 901 902 b_got_syn.1 b_got_syn.2 4000 = Some b_synack.
Proof. unfold b_synack, input. ends. Qed.
Lemma b_open_eq : tcp_input wire no_custom 300 id server 901 902 b_got_ack.1 b_got_ack.2 4000 = Some b_open.
Proof. unfold b_open, input. ends. Qed.

(** The conditions of the steps, as computations. *)
Definition no_refused (w : world ext) : bool := forallb (fun p => t_refused_data (pcb_of w p) =? NULL) (tcp_active_pcbs (tcp w)).
Lemma no_refused_ok w : no_refused w = true -> forall pcb, pcb ∈ tcp_active_pcbs (tcp w) -> t_refused_data (pcb_of w pcb) = NULL.
Proof. unfold no_refused. rewrite forallb_forall. intros H pcb Hp. apply Z.eqb_eq, H. by apply list_elem_of_In. Qed.
Definition listen_free (w : world ext) : bool :=
  let a := (wmalloc w MEMP_TCP_PCB_LISTEN).2 in
  bool_decide (tcp_pcb_at (tcp w) !! a = None) && bool_decide (tcp_listen_at (tcp w) !! a = None).
Lemma listen_free_ok w : listen_free w = true -> fresh_listen w.
Proof. unfold listen_free. rewrite andb_true_iff, !bool_decide_eq_true. intros [H1 H2]. right. by split. Qed.
Lemma arrive_tcp w bs : tcp (arrive w bs).1 = tcp w.
Proof. unfold arrive. by destruct (pbuf_alloc _ _ _ _ _ _) as [[st p]|]. Qed.
Lemma carried_tcp w : tcp (carried w) = tcp w.
Proof. done. Qed.

(** The listening board goes through the handshake. *)
Lemma lists_safe_witness : lists_ok (tcp b_open) /\ length (tcp_active_pcbs (tcp b_open)) = 1%nat.
Proof.
  split; [|vm_compute; reflexivity].
  apply (tcp_lists_safe wire no_custom 300 id server 901 902 (board addrB) b_open server_client eq_refl eq_refl); [by intros []|].
  apply (rtc_l _ _ b_new.1); [apply (tstep_new _ _ _ _ _ _ _ _ _ b_new.2); [apply free_fresh; vm_compute; reflexivity|exact b_new_eq]|].
  apply (rtc_l _ _ b_bound.1); [apply (tstep_bind _ _ _ _ _ _ _ _ b_new.2 None 80 _ b_bound.2); [apply (bool_decide_unpack _); vm_compute; exact I..|exact b_bound_eq]|].
  apply (rtc_l _ _ b_listening.1.1); [apply (tstep_listen _ _ _ _ _ _ _ _ b_new.2 _ b_listening.1.2 b_listening.2); [apply listen_free_ok; vm_compute; reflexivity|exact b_listening_eq]|].
  apply (rtc_l _ _ b_ready); [apply tstep_accept|].
  apply (rtc_l _ _ b_got_syn.1); [apply tstep_world, arrive_tcp|].
  apply (rtc_l _ _ b_synack); [apply (tstep_input _ _ _ _ _ _ _ _ b_got_syn.2 4000); [apply no_refused_ok; vm_compute; reflexivity|apply free_fresh_input; vm_compute; reflexivity|exact b_synack_eq]|].
  apply (rtc_l _ _ b_got_ack.1); [apply tstep_world; exact (eq_trans (arrive_tcp _ _) (carried_tcp b_synack))|].
  apply (rtc_l _ _ b_open); [apply (tstep_input _ _ _ _ _ _ _ _ b_got_ack.2 4000); [apply no_refused_ok; vm_compute; reflexivity|apply free_fresh_input; vm_compute; reflexivity|exact b_open_eq]|].
  apply rtc_refl.
Defined.

(** A closes the connection: its FIN arrives at B, up to where [tcp_process] is called. *)
Definition a_fin : world ext * Z := default (a_open, 0) (tcp_close wire no_custom 300 id (carried a_open) (conn a_open)).
Definition b_got_fin : world ext * Z := arrive (carried b_open) (packet a_fin.1).
Definition b_fin : world ext :=
  let '(w, p) := b_got_fin in
  let hdr := payload w p in
  let w := read_header (fst (skip_options w p 20)) p hdr 0 0 NULL in
  upd_in w (fun i => i_recv_flags 0 (i_inseg (mk_seg p (pb_tot_len (pb (w_ps w) p)) 0 hdr) i)).
Definition b_after : world ext * Z := default (b_fin, -1) (tcp_process wire no_custom 300 id server 902 b_fin (conn b_open)).
Lemma b_after_eq : tcp_process wire no_custom 300 id server 902 b_fin (conn b_open) = Some (b_after.1, b_after.2).
Proof. unfold b_after. ends. Qed.

Lemma process_moves_witness : t_state (pcb_of b_after.1 (conn b_open)) = CLOSE_WAIT /\
  exists w1, received wire no_custom 300 b_fin (conn b_open) = Some w1 /\
    moved_to (tcp b_fin) (conn b_open) (next_state (got w1 TF_GOT_FIN) (fin_acked w1 (conn b_open)) (t_state (pcb_of b_fin (conn b_open)))) b_after.1.
Proof.
  split; [vm_compute; reflexivity|].
  assert (E : t_state (pcb_of b_fin (conn b_open)) = ESTABLISHED) by (vm_compute; reflexivity).
  destruct (process_moves wire no_custom 300 id server 902 b_fin b_after.1 (conn b_open) b_after.2 server_client) as [_ (w1 & H1 & H2 & _)];
    [..|exact b_after_eq|exists w1; split; [exact H1|exact H2]].
  - rewrite E. exact I.
  - vm_compute. reflexivity.
  - vm_compute. reflexivity.
  - vm_compute. reflexivity.
Defined.

(** The windows and the sequence numbers of the open connection. *)
Lemma announced_window_witness : exists v, pcb_of (tcp_update_rcv_ann_wnd a_open (conn a_open)).1 (conn a_open) = s_rcv_ann_wnd v (pcb_of a_open (conn a_open)) /\ TCP_WND <= v < 65536.
Proof.
  destruct (announced_window a_open (conn a_open) (pcb_of a_open (conn a_open)) TCP_WND) as (v & H1 & H2 & _).
  - vm_compute. reflexivity.
  - vm_compute. reflexivity.
  - vm_compute. split; reflexivity.
  - vm_compute. split; intros H; discriminate H.
  - vm_compute. split; intros H; discriminate H.
  - exists v. split; [exact H1|exact H2].
Defined.

(** The same PCB of the open connection, for the other theorems. *)
Lemma a_conn_at : tcp_pcb_at (tcp a_open) !! conn a_open = Some (pcb_of a_open (conn a_open)).
Proof. vm_compute. reflexivity. Qed.

Lemma if_false (P Q : Prop) b : b = false -> (if b then P else Q) -> Q.
Proof. by intros ->. Qed.

(** 3000 bytes on the open connection, which has segments of 1460 bytes. *)
Definition a_written : world ext * Z := default (a_open, -1) (tcp_write no_custom 300 a_open (conn a_open) 1000 3000 TCP_WRITE_FLAG_COPY).
Lemma a_written_eq : tcp_write no_custom 300 a_open (conn a_open) 1000 3000 TCP_WRITE_FLAG_COPY = Some (a_written.1, a_written.2).
Proof. unfold a_written. ends. Qed.
Lemma a_seg_pool : seg_pool a_open (map (fun i => 539020240 - 16 * Z.of_nat i) (seq 0 16)).
Proof.
  unfold seg_pool. assert (E : exists p, ps_pools (w_ps a_open) !! Z.to_nat MEMP_TCP_SEG = Some p) by (vm_compute; by eexists).
  destruct E as [p E]. exists p. split; [exact E|]. vm_compute in E. injection E as <-. split; [vm_compute; by split_and!|].
  apply (bool_decide_unpack _). vm_compute. exact I.
Qed.
Lemma write_accounts_witness : a_written.2 = ERR_OK /\
  Forall2 (fun s (n : Z) => sg_len (seg_of a_written.1 s) = n) (t_unsent (pcb_of a_written.1 (conn a_open))) [1460; 1460; 80].
Proof.
  assert (Eok : a_written.2 = ERR_OK) by (vm_compute; reflexivity). split; [exact Eok|].
  pose proof (write_accounts no_custom 300 a_open a_written.1 (conn a_open) (pcb_of a_open (conn a_open)) 1000 3000 TCP_WRITE_FLAG_COPY a_written.2 a_conn_at) as H.
  assert (E1 : t_snd_buf (pcb_of a_open (conn a_open)) = 5840) by (vm_compute; reflexivity).
  assert (E2 : t_mss (pcb_of a_open (conn a_open)) = 1460) by (vm_compute; reflexivity).
  assert (E3 : t_snd_wnd_max (pcb_of a_open (conn a_open)) = 5840) by (vm_compute; reflexivity).
  assert (E4 : t_unsent_oversize (pcb_of a_open (conn a_open)) = 0) by (vm_compute; reflexivity).
  assert (E5 : t_unsent (pcb_of a_open (conn a_open)) = []) by (vm_compute; reflexivity).
  specialize (H ltac:(lia) ltac:(rewrite E1; lia) ltac:(rewrite E2; lia) ltac:(rewrite E3; lia) ltac:(rewrite E4; lia) a_written_eq).
  apply if_false in H; [|reflexivity]. apply if_false in H; [|vm_compute; reflexivity]. apply if_false in H; [|vm_compute; reflexivity].
  destruct H as [[H _]|(_ & o & n & q & H & _ & _ & Hq)]; [rewrite Eok in H; discriminate H|].
  assert (Eq : t_unsent (pcb_of a_written.1 (conn a_open)) = q) by (unfold pcb_of at 1; rewrite H, lookup_insert_eq; cbn; by rewrite E5).
  rewrite Eq. replace [1460; 1460; 80] with (pieces (write_mss (pcb_of a_open (conn a_open))) (3000 - tail_bytes a_open (pcb_of a_open (conn a_open)) 3000)) by (vm_compute; reflexivity).
    refine (proj1 (Hq eq_refl _ a_seg_pool _)). rewrite E5. constructor.
Defined.

(** 50 bytes more go into the last of these segments, behind whose data there is room. *)
Lemma written_again :
  match tcp_write no_custom 300 a_written.1 (conn a_open) 9000 50 TCP_WRITE_FLAG_COPY with
  | Some (w, err) => err = ERR_OK /\ map (fun s => sg_len (seg_of w s)) (t_unsent (pcb_of w (conn a_open))) = [1460; 1460; 130] /\
      tail_bytes a_written.1 (pcb_of a_written.1 (conn a_open)) 50 = 50 /\ t_unsent_oversize (pcb_of a_written.1 (conn a_open)) = 1380
  | None => False
  end.
Proof. vm_compute. split_and!; reflexivity. Qed.


(** The options of every segment are parsed: an MSS option behind the handshake raises the
    segment size of a connection above its congestion window. *)
Lemma mss_option_raises :
  let pcb := conn a_open in
  let w := upd_pcb a_open pcb (fun t => s_cwnd 400 (s_mss 100 t)) in
  let w := set_wmem w (write_bytes (wmem w) (tcphdr (inv w) + TCP_HLEN) [2; 4; 5; 180]) in
  let w := upd_in w (fun i => mk_in (inseg i) (tcphdr i) 4 4 NULL 0 (t_rcv_nxt (pcb_of w pcb)) (t_snd_nxt (pcb_of w pcb)) 0 0 TCP_ACK 0 NULL NULL) in
  match tcp_process wire no_custom 300 id server 902 w pcb with
  | Some (w', err) => err = ERR_OK /\ t_mss (pcb_of w' pcb) = 1460 /\ t_cwnd (pcb_of w' pcb) = 400
  | None => False
  end.
Proof. vm_compute. split_and!; reflexivity. Qed.

(** Two PCBs in TIME-WAIT, the second one for long enough; the first uses the next port. *)
Definition tw_pcb (port tmr : Z) : tcp_pcb := s_tmr tmr (s_local_port port (s_state TIME_WAIT (tcp_pcb_new 901 no_pcbs 64))).
Definition tw_board : world ext :=
  upd_tcp (board addrA) (fun v => v_ticks 300 (v_tw_pcbs [539000000; 539000160]
    (v_pcb_at {[ 539000000 := tw_pcb 0xc001 100; 539000160 := tw_pcb 80 20 ]} v))).
Lemma new_port_tcp_witness : exists w', tcp_new_port tw_board = Some (w', 0xc002).
Proof.
  destruct (tcp_new_port_first_free tw_board) as (k & w' & _ & _ & _ & H & _); [vm_compute; split; intros H; discriminate H|].
  exists w'. rewrite H. do 2 f_equal. assert (E : option_map snd (tcp_new_port tw_board) = Some 0xc002) by (vm_compute; reflexivity).
  rewrite H in E. injection E as E. exact E.
Defined.

Lemma tw_board_ok : lists_ok (tcp tw_board).
Proof.
  constructor.
  - intros []; apply (bool_decide_unpack _); vm_compute; exact I.
  - intros [] p; cbn; rewrite ?elem_of_cons, elem_of_nil; try done. intros [->|[->|[]]]; reflexivity.
  - split; reflexivity.
  - intros p _. reflexivity.
  - intros p x [=].
  - intros p t H. change (tcp_pcb_at (tcp tw_board)) with ({[ 539000000 := tw_pcb 0xc001 100; 539000160 := tw_pcb 80 20 ]} : gmap Z tcp_pcb) in H.
    apply lookup_insert_Some in H as [[<- <-] | [_ H]]; [done|]. by apply lookup_singleton_Some in H as [<- <-].
Qed.
Lemma timewait_witness : exists w', loop 3 (tw_step no_custom 300) (tw_board, NULL, 539000000) = Some (Some w') /\ tcp_tw_pcbs (tcp w') = [539000000].
Proof.
  destruct (timewait_expires no_custom 300 3 tw_board tw_board_ok) as (w' & H1 & H2 & _); [vm_compute; lia|].
  exists w'. split; [exact H1|]. rewrite H2. vm_compute. reflexivity.
Defined.

Lemma seq_order_witness : TCP_SEQ_LT (u32 (4294967290 + 0)) (u32 (4294967290 + 10)) = true.
Proof. apply (seq_order 4294967290 0 10 0); lia. Defined.

(** Options: two bytes of padding and a maximum segment size of 1000. *)
Definition syn_options : world ext :=
  upd_in (upd_tcp (set_wmem (board addrA) (write_bytes (fun _ => 0) 1020 [1; 1; 2; 4; 3; 232; 0; 0]))
           (fun v => v_pcb_at {[ 539000000 := tcp_pcb_new 901 no_pcbs 64 ]} v))
    (fun i => mk_in seg_zero 1000 8 8 NULL 0 0 0 0 0 TCP_SYN 0 NULL NULL).
Lemma parseopt_witness : exists w', tcp_parseopt 41 syn_options 539000000 = Some w' /\
  tcp_pcb_at (tcp w') = <[539000000 := s_mss 1000 (tcp_pcb_new 901 no_pcbs 64)]> (tcp_pcb_at (tcp syn_options)).
Proof.
  destruct (parseopt_total syn_options 41 539000000 (tcp_pcb_new 901 no_pcbs 64)) as (w' & H1 & H2 & _).
  - vm_compute. reflexivity.
  - vm_compute. split; intros H; discriminate H.
  - apply mem_ok_write; [intros a; lia|vm_compute; reflexivity].
  - lia.
  - vm_compute. split; intros H; discriminate H.
  - exists w'. split; [exact H1|]. rewrite H2. f_equal.
Defined.

(** ** Behaviour that is not intended *)

(** Three connections: the poll function of the first aborts the third, and the second has
    been retransmitted too often.  The loop of [tcp_slowtmr] starts again when the list was
    changed and skips the first PCB without setting [prev]; the removal of the second then
    makes its successor the head of the list, and the first, still open, is in no list. *)
Definition open_pcb (nrtx poll : Z) : tcp_pcb := s_pollinterval 1 (s_poll poll (s_nrtx nrtx (s_state ESTABLISHED (tcp_pcb_new 901 no_pcbs 64)))).
Definition three : world ext :=
  upd_tcp (board addrA) (fun v => v_active_pcbs [539000000; 539000160; 539000320]
    (v_pcb_at {[ 539000000 := open_pcb 0 7; 539000160 := open_pcb 12 0; 539000320 := open_pcb 0 0 ]} v)).
Definition aborting : tcp_callbacks ext :=
  mk_cb (fun _ w _ _ _ => Some (w, ERR_OK)) (fun _ w _ _ _ _ => Some (w, ERR_OK)) (fun _ w _ _ _ => Some (w, ERR_OK))
    (fun _ w _ _ _ => Some (w, ERR_OK)) (fun _ w _ _ => w ← tcp_abort wire no_custom 300 server w 539000320; Some (w, ERR_OK))
    (fun _ w _ _ => Some w).
Lemma slowtmr_loses_pcb :
  match tcp_slowtmr wire no_custom 300 aborting three with
  | Some w => tcp_active_pcbs (tcp w) = [] /\ t_state (pcb_of w 539000000) = ESTABLISHED
  | None => False
  end.
Proof. vm_compute. split; reflexivity. Qed.

(** A PCB that is bound twice is twice in the list (in C, it is its own successor). *)
Lemma bind_twice :
  match '(w, pcb) ← tcp_new wire no_custom 300 server 901 (board addrA); '(w, _) ← tcp_bind id w pcb None 80; '(w, _) ← tcp_bind id w pcb None 81; Some w with
  | Some w => tcp_bound_pcbs (tcp w) = [539000640; 539000640]
  | None => False
  end.
Proof. vm_compute. reflexivity. Qed.
