(* ===== verification/DhcpParse.v ===== *)
(** * [core/ipv4/dhcp.c]: the options of a reply

    [dhcp_parse_reply]: the walk over the options of a message in a chain of pbufs, with
    the options that overload the fields [file] and [sname].  The configuration is the
    default one: two DNS servers, no NTP servers, no boot file. *)

From Stdlib Require Import ZArith Lia.
From stdpp Require Import base tactics numbers list option gmap.
From S2P Require Import Prelude.
From S2P Require Import Def.
From S2P Require Import Ip4Addr.
From S2P Require Import Alloc.
From S2P Require Import Mem.
From S2P Require Import Memp.
From S2P Require Import Pbuf.
From S2P Require Import PbufChain.
From S2P Require Import World.

(** ** [lwip/prot/dhcp.h] *)

Definition DHCP_SNAME_OFS : Z := 44.
Definition DHCP_SNAME_LEN : Z := 64.
Definition DHCP_FILE_OFS : Z := 108.
Definition DHCP_FILE_LEN : Z := 128.
Definition DHCP_OPTIONS_OFS : Z := 240.
Definition DHCP_OPTION_PAD : Z := 0.
Definition DHCP_OPTION_SUBNET_MASK : Z := 1.
Definition DHCP_OPTION_ROUTER : Z := 3.
Definition DHCP_OPTION_DNS_SERVER : Z := 6.
Definition DHCP_OPTION_HOSTNAME : Z := 12.
Definition DHCP_OPTION_BROADCAST : Z := 28.
Definition DHCP_OPTION_REQUESTED_IP : Z := 50.
Definition DHCP_OPTION_LEASE_TIME : Z := 51.
Definition DHCP_OPTION_OVERLOAD : Z := 52.
Definition DHCP_OPTION_MESSAGE_TYPE : Z := 53.
Definition DHCP_OPTION_SERVER_ID : Z := 54.
Definition DHCP_OPTION_PARAMETER_REQUEST_LIST : Z := 55.
Definition DHCP_OPTION_MAX_MSG_SIZE : Z := 57.
Definition DHCP_OPTION_T1 : Z := 58.
Definition DHCP_OPTION_T2 : Z := 59.
Definition DHCP_OPTION_END : Z := 255.
Definition DHCP_OVERLOAD_FILE : Z := 1.
Definition DHCP_OVERLOAD_SNAME : Z := 2.
Definition DHCP_OVERLOAD_SNAME_FILE : Z := 3.

(** [enum dhcp_option_idx] *)
Definition DHCP_OPTION_IDX_OVERLOAD : nat := 0.
Definition DHCP_OPTION_IDX_MSG_TYPE : nat := 1.
Definition DHCP_OPTION_IDX_SERVER_ID : nat := 2.
Definition DHCP_OPTION_IDX_LEASE_TIME : nat := 3.
Definition DHCP_OPTION_IDX_T1 : nat := 4.
Definition DHCP_OPTION_IDX_T2 : nat := 5.
Definition DHCP_OPTION_IDX_SUBNET_MASK : nat := 6.
Definition DHCP_OPTION_IDX_ROUTER : nat := 7.
Definition DHCP_OPTION_IDX_DNS_SERVER : nat := 8.
Definition DHCP_OPTION_IDX_MAX : nat := 10.

(** [dhcp_rx_options_val] and [dhcp_rx_options_given], with the macros for them. *)
Record rx_options := mk_rx { rx_val : list Z; rx_given : list bool }.
Definition dhcp_option_given (rx : rx_options) (idx : nat) : bool := nth idx (rx_given rx) false.
Definition dhcp_get_option_value (rx : rx_options) (idx : nat) : Z := nth idx (rx_val rx) 0.
Definition dhcp_got_option (idx : nat) (v : Z) (rx : rx_options) : rx_options :=
  mk_rx (<[idx := v]> (rx_val rx)) (<[idx := true]> (rx_given rx)).
Definition dhcp_clear_option (idx : nat) (rx : rx_options) : rx_options := mk_rx (rx_val rx) (<[idx := false]> (rx_given rx)).
Definition dhcp_clear_all_options (rx : rx_options) : rx_options := mk_rx (rx_val rx) (replicate DHCP_OPTION_IDX_MAX false).

(** How parsing ends: a member of the pbuf [NULL] is read, or the function returns. *)
Inductive parsed := Null_pbuf | Parsed (st : pstate) (rx : rx_options) (err : Z).

(** The [switch] over the option: [None] is [return ERR_VAL], otherwise [len], [decode_len]
    and [decode_idx]; [at_options] is the test [options_idx == DHCP_OPTIONS_OFS]. *)
Definition dhcp_option_switch (op len : Z) (at_options : bool) : option (Z * Z * nat) :=
  let fixed n idx := if len =? n then Some (len, len, idx) else None in
  if op =? DHCP_OPTION_PAD then Some (0, 0, 0%nat)
  else if op =? DHCP_OPTION_SUBNET_MASK then fixed 4 DHCP_OPTION_IDX_SUBNET_MASK
  else if op =? DHCP_OPTION_ROUTER then if 4 <=? len then Some (len, 4, DHCP_OPTION_IDX_ROUTER) else None
  else if op =? DHCP_OPTION_DNS_SERVER then
    if len mod 4 =? 0 then Some (len, Z.min len 8, DHCP_OPTION_IDX_DNS_SERVER) else None
  else if op =? DHCP_OPTION_LEASE_TIME then fixed 4 DHCP_OPTION_IDX_LEASE_TIME
  else if op =? DHCP_OPTION_OVERLOAD then
    if len =? 1 then if at_options then Some (len, len, DHCP_OPTION_IDX_OVERLOAD) else None else None
  else if op =? DHCP_OPTION_MESSAGE_TYPE then fixed 1 DHCP_OPTION_IDX_MSG_TYPE
  else if op =? DHCP_OPTION_SERVER_ID then fixed 4 DHCP_OPTION_IDX_SERVER_ID
  else if op =? DHCP_OPTION_T1 then fixed 4 DHCP_OPTION_IDX_T1
  else if op =? DHCP_OPTION_T2 then fixed 4 DHCP_OPTION_IDX_T2
  else Some (len, 0, 0%nat).

Section Parse.
Context (fuel : nat).
(** The address of the local variable [value]. *)
Context (value : Z).

(** The code from the label [decode_next] on: the options and an error. *)
Definition decode_step (q : Z) : pstate * rx_options * Z * Z * nat -> (pstate * rx_options * Z * Z * nat) + option (pstate * rx_options * Z) :=
  fun '(st, rx, decode_len, val_offset, decode_idx) =>
    if dhcp_option_given rx decode_idx then inr (Some (st, rx, ERR_OK))
    else
      let copy_len := Z.min decode_len 4 in
      match pbuf_copy_partial fuel st q value copy_len val_offset with
      | None => inr None
      | Some (st, n) =>
          if negb (n =? copy_len) then inr (Some (st, rx, ERR_BUF))
          else if 4 <? decode_len then
            if negb (decode_len mod 4 =? 0) then inr (Some (st, rx, ERR_VAL))
            else inl (st, dhcp_got_option decode_idx (lwip_htonl (ld32 (data st) value)) rx, decode_len - 4, u16 (val_offset + 4), S decode_idx)
          else if decode_len =? 4 then inr (Some (st, dhcp_got_option decode_idx (lwip_htonl (ld32 (data st) value)) rx, ERR_OK))
          else if negb (decode_len =? 1) then inr (Some (st, rx, ERR_VAL))
          else inr (Some (st, dhcp_got_option decode_idx (data st value) rx, ERR_OK))
      end.
(** [decode_len] is a [u8_t] that every round decreases by four. *)
Definition decode_option (st : pstate) (rx : rx_options) (q decode_len val_offset : Z) (decode_idx : nat) : option (pstate * rx_options * Z) :=
  if 0 <? decode_len then loop 64 (decode_step q) (set_data st (st32 (data st) value 0), rx, decode_len, val_offset, decode_idx) ≫= id
  else Some (st, rx, ERR_OK).

(** The length byte, which can be in the next pbuf. *)
Definition option_len (st : pstate) (q offset : Z) : Z :=
  if offset + 1 <? pb_len (pb st q) then data st (pb_payload (pb st q) + offset + 1)
  else if negb (pb_next (pb st q) =? NULL) then data st (pb_payload (pb st (pb_next (pb st q)))) else 0.

(** A round of the loop over the options; [options] is the payload of [q]. *)
Definition option_step (at_options : bool) : pstate * rx_options * Z * Z * Z -> (pstate * rx_options * Z * Z * Z) + option parsed :=
  fun '(st, rx, q, offset, offset_max) =>
    let op := data st (pb_payload (pb st q) + offset) in
    if (op =? DHCP_OPTION_END) || negb (offset <? offset_max) then inr (Some (Parsed st rx ERR_OK))
    else
      let val_offset := u16 (offset + 2) in
      match dhcp_option_switch op (option_len st q offset) at_options with
      | None => inr (Some (Parsed st rx ERR_VAL))
      | Some (len, decode_len, decode_idx) =>
          let offset := if op =? DHCP_OPTION_PAD then u16 (offset - 1) else offset in
          let offset := u16 (offset + len + 2) in
          match decode_option st rx q decode_len val_offset decode_idx with
          | None => inr None
          | Some (st, rx, err) =>
              if negb (err =? ERR_OK) then inr (Some (Parsed st rx err))
              else if pb_len (pb st q) <=? offset then
                let offset := u16 (offset - pb_len (pb st q)) in
                let offset_max := u16 (offset_max - pb_len (pb st q)) in
                if (offset <? offset_max) && negb (offset_max =? 0) then
                  let q := pb_next (pb st q) in
                  if q =? NULL then inr (Some Null_pbuf) else inl (st, rx, q, offset, offset_max)
                else inr (Some (Parsed st rx ERR_OK))
              else inl (st, rx, q, offset, offset_max)
          end
      end.

(** The code from the label [again] to the end of the loop: the pbuf with the first option,
    then the options. *)
Definition skip_pbufs (st : pstate) (p options_idx options_idx_max : Z) : option (Z * Z * Z) :=
  loop fuel (fun '(q, i, m) =>
    if negb (q =? NULL) && (pb_len (pb st q) <=? i)
    then inl (pb_next (pb st q), u16 (i - pb_len (pb st q)), u16 (m - pb_len (pb st q))) else inr (q, i, m)) (p, options_idx, options_idx_max).
Definition parse_options (st : pstate) (rx : rx_options) (p options_idx options_idx_max : Z) : option parsed :=
  '(q, offset, offset_max) ← skip_pbufs st p options_idx options_idx_max;
  if q =? NULL then Some (Parsed st rx ERR_BUF)
  else loop fuel (option_step (offset =? DHCP_OPTIONS_OFS)) (st, rx, q, offset, offset_max) ≫= id.

(** The code behind the loop: which fields hold options, too. *)
Definition overloaded (rx : rx_options) (file sname : bool) : rx_options * bool * bool :=
  if dhcp_option_given rx DHCP_OPTION_IDX_OVERLOAD then
    let overload := dhcp_get_option_value rx DHCP_OPTION_IDX_OVERLOAD in
    let rx := dhcp_clear_option DHCP_OPTION_IDX_OVERLOAD rx in
    if overload =? DHCP_OVERLOAD_FILE then (rx, true, sname)
    else if overload =? DHCP_OVERLOAD_SNAME then (rx, file, true)
    else if overload =? DHCP_OVERLOAD_SNAME_FILE then (rx, true, true)
    else (rx, file, sname)
  else (rx, file, sname).
Definition again_step (p : Z) : pstate * rx_options * Z * Z * bool * bool -> (pstate * rx_options * Z * Z * bool * bool) + option parsed :=
  fun '(st, rx, options_idx, options_idx_max, file, sname) =>
    match parse_options st rx p options_idx options_idx_max with
    | None => inr None
    | Some Null_pbuf => inr (Some Null_pbuf)
    | Some (Parsed st rx err) =>
        if negb (err =? ERR_OK) then inr (Some (Parsed st rx err))
        else
          let '(rx, file, sname) := overloaded rx file sname in
          if (file : bool) then inl (st, rx, DHCP_FILE_OFS, DHCP_FILE_OFS + DHCP_FILE_LEN, false, sname)
          else if (sname : bool) then inl (st, rx, DHCP_SNAME_OFS, DHCP_SNAME_OFS + DHCP_SNAME_LEN, file, false)
          else inr (Some (Parsed st rx ERR_OK))
    end.

(** [dhcp_parse_reply(dhcp, p)] without the assignment to [dhcp->msg_in]. *)
Definition dhcp_parse_reply (st : pstate) (rx : rx_options) (p : Z) : option parsed :=
  let rx := dhcp_clear_all_options rx in
  if pb_len (pb st p) <? DHCP_SNAME_OFS then Some (Parsed st rx ERR_BUF)
  else loop fuel (again_step p) (st, rx, DHCP_OPTIONS_OFS, pb_tot_len (pb st p), false, false) ≫= id.
End Parse.

(** ** Parsing ends *)

Lemma data_unchanged st : set_data st (data st) = st.
Proof. by destruct st. Qed.

Lemma memcpy_ok m dst src n : mem_ok m -> mem_ok (memcpy m dst src n).
Proof. intros Hm. apply write_bytes_ok; [done|]. by apply bytes_at_ok. Qed.

(** Copying out of a chain ends, and changes bytes only. *)
Lemma copy_partial_ends f st p l dst len off :
  pchain st p l -> (length l < f)%nat -> mem_ok (data st) ->
  exists m n, pbuf_copy_partial f st p dst len off = Some (set_data st m, n) /\ mem_ok m.
Proof.
  intros Hc Hf Hm. unfold pbuf_copy_partial. destruct (_ || _).
  { exists (data st), 0. by rewrite data_unchanged. }
  match goal with |- context [loop f ?g _] => set (step := g) end.
  enough (H : forall l p len off f lft cop m, pchain st p l -> (length l < f)%nat -> mem_ok m ->
    exists m' n, loop f step (set_data st m, p, len, off, lft, cop) = Some (set_data st m', n) /\ mem_ok m').
  { pose proof (H l p len off f 0 0 (data st) Hc Hf Hm) as H1. by rewrite data_unchanged in H1. }
  clear. induction l as [|x l IH]; intros p len off f lft cop m Hc Hf Hm; (destruct f as [|f]; simpl in Hf; [lia|]); cbn [loop]; unfold step at 1.
  - simpl in Hc. subst p. rewrite andb_false_r. eauto.
  - destruct Hc as (-> & Hx & Hc). destruct (negb (len =? 0) && negb (x =? NULL)); [|by eauto]. rewrite pb_set_data.
    destruct (negb (off =? 0) && _); [apply IH; auto; lia|]. apply IH; auto; [lia|]. simpl. by apply memcpy_ok.
Qed.

Lemma loop_unfold {S R} (step : S -> S + R) f s :
  (0 < f)%nat -> loop f step s = match step s with inl s' => loop (pred f) step s' | inr r => Some r end.
Proof. by destruct f; [lia|]. Qed.

Section Ends.
Context (fuel : nat) (value : Z).
Implicit Types st : pstate.

Lemma st32_ok m a v : mem_ok m -> 0 <= v < 4294967296 -> mem_ok (st32 m a v).
Proof. intros Hm Hv. apply write_bytes_ok; [done|]. unfold u32_bytes. repeat constructor; unfold is_byte; dm. Qed.

Lemma decode_ends st rx q l decode_len off idx :
  pchain st q l -> (length l < fuel)%nat -> mem_ok (data st) -> decode_len < 256 ->
  exists m rx' err, decode_option fuel value st rx q decode_len off idx = Some (set_data st m, rx', err) /\ mem_ok m.
Proof.
  intros Hc Hf Hm Hd. unfold decode_option. destruct (Z.ltb_spec 0 decode_len) as [Hd0|]; [|exists (data st), rx, ERR_OK; by rewrite data_unchanged].
  destruct (loop_total (decode_step fuel value q)
    (fun '(s, _, n, _, _) => exists m, s = set_data st m /\ mem_ok m /\ 0 < n < 256)
    (fun r => exists m rx' err, r = Some (set_data st m, rx', err) /\ mem_ok m)
    (fun '(_, _, n, _, _) => Z.to_nat (n / 4))) with (fuel := 64%nat) (s := (set_data st (st32 (data st) value 0), rx, decode_len, off, idx))
    as (r & -> & m & rx' & err & -> & Hm').
  - intros [[[[s rx1] n] o] i] s' (m & -> & Hm1 & Hn). unfold decode_step. destruct (dhcp_option_given rx1 i); [done|].
    destruct (copy_partial_ends fuel (set_data st m) q l value (Z.min n 4) o) as (m2 & k & -> & Hm2); [by apply (pchain_ext st)|done..|].
    destruct (negb (k =? _)); [done|]. destruct (Z.ltb_spec 4 n); [|repeat case_match; done]. destruct (negb _); [done|].
    intros [= <-]. split; [exists m2; split_and!; auto; lia|]. dm.
  - intros [[[[s rx1] n] o] i] s' (m & -> & Hm1 & Hn). unfold decode_step. destruct (dhcp_option_given rx1 i); [intros [= <-]; by eauto 6|].
    destruct (copy_partial_ends fuel (set_data st m) q l value (Z.min n 4) o) as (m2 & k & -> & Hm2); [by apply (pchain_ext st)|done..|].
    repeat case_match; intros [= <-]; eauto 6.
  - eexists. split; [reflexivity|]. split; [by apply st32_ok|lia].
  - dm.
  - cbn [mbind option_bind id]. eauto 6.
Qed.
(** The rounds that are left in the pbuf [q] and in those behind it. *)
Definition rounds_here st (q off : Z) : Z := if off <? pb_len (pb st q) then pb_len (pb st q) - off else pb_len (pb st q) + 1.
Fixpoint rounds st (l : list Z) : Z := match l with [] => 0 | x :: l => pb_len (pb st x) + 2 + rounds st l end.
(** The length of a pbuf leaves room for an offset behind it. *)
Definition short st (x : Z) : Prop := 0 <= pb_len (pb st x) <= 65278.

Lemma rounds_nonneg st l : Forall (short st) l -> 0 <= rounds st l.
Proof. induction 1 as [|x l [H _] _ IH]; simpl; lia. Qed.

Lemma switch_len op len b len' dl idx :
  dhcp_option_switch op len b = Some (len', dl, idx) -> 0 <= len < 256 ->
  0 <= len' < 256 /\ dl < 256 /\ (op = DHCP_OPTION_PAD -> len' = 0).
Proof. unfold dhcp_option_switch. intros H Hl. destruct (Z.eqb_spec op DHCP_OPTION_PAD); repeat case_match; simplify_eq; zb; split_and!; try done; lia. Qed.

Lemma option_len_byte st q off : mem_ok (data st) -> 0 <= option_len st q off < 256.
Proof. intros Hm. unfold option_len. repeat case_match; try apply Hm. lia. Qed.

(** The offset behind an option. *)
Lemma next_offset off len (pad : bool) :
  0 <= off < 65536 -> 0 <= len < 256 -> (pad = true -> len = 0) ->
  exists k, 1 <= k <= 257 /\ u16 ((if pad then u16 (off - 1) else off) + len + 2) = u16 (off + k).
Proof.
  intros Ho Hl Hp. destruct pad; [rewrite Hp by done; exists 1|exists (len + 2)]; (split; [lia|]); [|by rewrite Z.add_assoc].
  unfold u16. rewrite Z.add_0_r, Zplus_mod_idemp_l. f_equal. lia.
Qed.

(** Parsing changes bytes only. *)
Definition ends st (r : parsed) : Prop := match r with Null_pbuf => True | Parsed st' _ _ => exists m, st' = set_data st m /\ mem_ok m end.

Lemma options_end st b f n m rx q l off mx :
  pchain st q (q :: l) -> Forall (short st) (q :: l) -> (length l + 1 < fuel)%nat -> mem_ok m -> 0 <= off < 65536 ->
  rounds_here st q off + rounds st l <= Z.of_nat n -> (n < f)%nat ->
  exists r, loop f (option_step fuel value b) (set_data st m, rx, q, off, mx) = Some (Some r) /\ ends st r.
Proof.
  revert f m rx q l off mx. induction n as [n IH] using lt_wf_ind. intros f m rx q l off mx Hc Hs Hf Hm Ho Hn Hnf.
  destruct f as [|f]; [lia|]. cbn [loop]. unfold option_step. rewrite !pb_set_data. cbn [data set_data].
  set (op := m _). destruct (_ || _); [eexists; split; [reflexivity|]; by eexists|]. pose proof (option_len_byte (set_data st m) q off Hm) as Hb.
  destruct (dhcp_option_switch _ _ _) as [[[len dl] idx]|] eqn:E; [|eexists; split; [reflexivity|]; by eexists]. apply switch_len in E as (Hlen & Hdl & Hpad); [|done].
  destruct (decode_ends (set_data st m) rx q (q :: l) dl (u16 (off + 2)) idx) as (m2 & rx2 & err & -> & Hm2); [by apply (pchain_ext st)|simpl; lia|done..|].
  destruct (negb (err =? ERR_OK)); [eexists; split; [reflexivity|]; by eexists|].
  destruct (next_offset off len (op =? DHCP_OPTION_PAD)) as (k & Hk & ->); [done..|intros ?%Z.eqb_eq; auto|].
  rewrite !pb_set_data. pose proof (Forall_inv Hs) as Hq. pose proof (rounds_nonneg _ _ (Forall_inv_tail Hs)) as Hl0.
  pose proof (u16_range (off + k)) as Hr. unfold short in Hq.
  assert (Hpos : 1 <= rounds_here st q off <= pb_len (pb st q) + 1) by (unfold rounds_here; destruct (Z.ltb_spec off (pb_len (pb st q))); lia).
  destruct (Z.leb_spec (pb_len (pb st q)) (u16 (off + k))) as [Hle|Hlt].
  - destruct (_ && _); [|eexists; split; [reflexivity|]; by eexists]. destruct (Z.eqb_spec (pb_next (pb st q)) NULL) as [|Hnx]; [by eexists|].
    destruct Hc as (_ & Hq0 & Hc). destruct l as [|x l]; [done|]. destruct Hc as (Hnq & Hx0 & Hc). rewrite Hnq. simpl in Hn, Hf, Hl0.
    pose proof (Forall_inv (Forall_inv_tail Hs)) as Hx. unfold short in Hx.
    apply (IH (n - 1)%nat) with (l := l); auto; [lia|by split|by apply Forall_inv_tail in Hs|lia|apply u16_range| |lia].
    pose proof (u16_range (u16 (off + k) - pb_len (pb st q))). unfold rounds_here at 1. destruct (Z.ltb_spec (u16 (u16 (off + k) - pb_len (pb st q))) (pb_len (pb st x))); lia.
  - assert (off < pb_len (pb st q) -> u16 (off + k) = off + k) by (intros; apply u16_small; lia).
    apply (IH (n - 1)%nat) with (l := l); auto; [lia| |lia].
    unfold rounds_here in *. destruct (Z.ltb_spec (u16 (off + k)) (pb_len (pb st q))), (Z.ltb_spec off (pb_len (pb st q))); lia.
Qed.

Lemma rounds_app st l1 l2 : rounds st (l1 ++ l2) = rounds st l1 + rounds st l2.
Proof. induction l1; simpl; lia. Qed.

(** The search for the first option ends at a pbuf of the chain, or behind the chain. *)
Lemma skip_ends st p l f i mx :
  pchain st p l -> Forall (short st) l -> 0 <= i < 65536 -> (length l < f)%nat -> f = fuel ->
  exists l1 l2 q i' mx', l = l1 ++ l2 /\ pchain st q l2 /\ skip_pbufs fuel st p i mx = Some (q, i', mx') /\ 0 <= i' <= i /\
    (q <> NULL -> i' < pb_len (pb st q)).
Proof.
  intros Hc Hs Hi Hf ->. unfold skip_pbufs. revert p i mx Hc Hi Hf. generalize fuel. clear fuel.
  induction l as [|x l IH]; intros f p i mx Hc Hi Hf; (destruct f as [|f]; simpl in Hf; [lia|]); cbn [loop].
  - simpl in Hc. subst p. exists [], [], NULL, i, mx. split_and!; try done; lia.
  - destruct Hc as (-> & Hx & Hc). rewrite (proj2 (Z.eqb_neq x NULL) Hx). cbn [negb andb]. pose proof (Forall_inv Hs) as [H0 _].
    destruct (Z.leb_spec (pb_len (pb st x)) i).
    + rewrite (u16_small (i - _)) by lia.
      destruct (IH (Forall_inv_tail Hs) f (pb_next (pb st x)) (i - pb_len (pb st x)) (u16 (mx - pb_len (pb st x)))) as (l1 & l2 & q & i' & mx' & -> & H2 & H3 & H4 & H5); [done|lia|lia|].
      exists (x :: l1), l2, q, i', mx'. split_and!; try done; lia.
    + exists [], (x :: l), x, i, mx. split_and!; try done; lia.
Qed.

Lemma parse_options_end st p l m rx i mx :
  pchain st p l -> Forall (short st) l -> mem_ok m -> 0 <= i < 65536 -> rounds st l < Z.of_nat fuel ->
  exists r, parse_options fuel value (set_data st m) rx p i mx = Some r /\ ends st r.
Proof.
  intros Hc Hs Hm Hi Hf. assert (Hl : Z.of_nat (length l) * 2 <= rounds st l) by (clear - Hs; induction Hs as [|x l [? _] _ IH]; simpl; lia).
  destruct (skip_ends (set_data st m) p l fuel i mx) as (l1 & l2 & q & i' & mx' & -> & H2 & H3 & H4 & H5); try done; [by apply (pchain_ext st)|lia|].
  unfold parse_options. rewrite H3. cbn [mbind option_bind]. destruct (Z.eqb_spec q NULL) as [|Hq]; [eexists; split; [reflexivity|]; by eexists|].
  destruct l2 as [|x l2]; [by simpl in H2|]. pose proof H2 as (-> & _ & _). rewrite rounds_app in Hf, Hl. rewrite length_app in Hl. simpl in Hl, Hf.
  apply Forall_app in Hs as [Hs1 Hs2]. pose proof (rounds_nonneg _ _ Hs1). specialize (H5 Hq). rewrite pb_set_data in H5.
  destruct (options_end st (i' =? DHCP_OPTIONS_OFS) fuel (Z.to_nat (rounds_here st x i' + rounds st l2)) m rx x l2 i' mx') as (r & -> & Hr); auto.
  - by apply (pchain_ext (set_data st m)).
  - lia.
  - lia.
  - pose proof (rounds_nonneg _ _ (Forall_inv_tail Hs2)). unfold rounds_here. rewrite (proj2 (Z.ltb_lt _ _) H5). lia.
  - pose proof (rounds_nonneg _ _ (Forall_inv_tail Hs2)). unfold rounds_here. rewrite (proj2 (Z.ltb_lt _ _) H5). lia.
  - cbn [mbind option_bind id]. eauto.
Qed.

(** An option that is not [DHCP_OPTION_IDX_OVERLOAD] leaves it alone. *)
Lemma given_got idx v rx : idx <> 0%nat -> dhcp_option_given (dhcp_got_option idx v rx) 0 = dhcp_option_given rx 0.
Proof. intros Hi. unfold dhcp_option_given, dhcp_got_option. simpl. rewrite !nth_lookup. by rewrite list_lookup_insert_ne. Qed.

Definition plain (rx : rx_options) : Prop := dhcp_option_given rx DHCP_OPTION_IDX_OVERLOAD = false.

Lemma decode_plain st rx q dl off idx st' rx' err :
  decode_option fuel value st rx q dl off idx = Some (st', rx', err) -> (0 < dl -> idx <> 0%nat) -> plain rx -> plain rx'.
Proof.
  unfold decode_option. destruct (Z.ltb_spec 0 dl) as [Hd|]; [|by intros [= _ <- _]].
  destruct (loop 64 _ _) as [r|] eqn:E; [|done]. cbn [mbind option_bind id]. intros -> Hi Hp. specialize (Hi Hd).
  refine (loop_keeps (decode_step fuel value q) (fun '(_, rx, _, _, i) => i <> 0%nat /\ plain rx) (fun r => forall s rx e, r = Some (s, rx, e) -> plain rx)
    _ _ _ _ E (conj Hi Hp) _ _ _ eq_refl).
  clear. intros [[[[s rx] n] o] i] [Hi Hp]. unfold decode_step. unfold plain in *.
  repeat case_match; simplify_eq; try (intros; simplify_eq; by rewrite ?given_got).
Qed.

Lemma switch_plain op len len' dl idx : dhcp_option_switch op len false = Some (len', dl, idx) -> 0 < dl -> idx <> 0%nat.
Proof. unfold dhcp_option_switch. intros H Hd. repeat case_match; simplify_eq; done || lia. Qed.

Lemma parse_options_plain st rx p i mx st' rx' err :
  parse_options fuel value st rx p i mx = Some (Parsed st' rx' err) -> 0 <= i < DHCP_OPTIONS_OFS ->
  (forall q i' mx', skip_pbufs fuel st p i mx = Some (q, i', mx') -> i' <= i) -> plain rx -> plain rx'.
Proof.
  unfold parse_options. destruct (skip_pbufs _ _ _ _ _) as [[[q i'] mx']|]; [|done]. cbn [mbind option_bind]. intros H Hi Hle Hp.
  specialize (Hle _ _ _ eq_refl). destruct (q =? NULL); [by injection H as _ <- _|].
  rewrite (proj2 (Z.eqb_neq i' DHCP_OPTIONS_OFS)) in H by lia. destruct (loop fuel _ _) as [r|] eqn:E; [|done]. cbn [mbind option_bind id] in H. subst r.
  refine (loop_keeps (option_step fuel value false) (fun '(_, rx, _, _, _) => plain rx) (fun r => forall s rx e, r = Some (Parsed s rx e) -> plain rx)
    _ _ _ _ E Hp _ _ _ eq_refl).
  clear. intros [[[[s rx] q] o] mx] Hp. unfold option_step. destruct (_ || _); [by intros ? ? ? [= _ <- _]|].
  destruct (dhcp_option_switch _ _ _) as [[[len dl] idx]|] eqn:Es; [|by intros ? ? ? [= _ <- _]].
  destruct (decode_option _ _ _ _ _ _ _ _) as [[[s2 rx2] e2]|] eqn:Ed; [|done].
  apply decode_plain in Ed; [|by eapply switch_plain|done]. repeat case_match; try done; intros; by simplify_eq.
Qed.

(** The passes over [file] and [sname]. *)
Lemma passes_end st p l f m rx i mx (file sname : bool) :
  pchain st p l -> Forall (short st) l -> mem_ok m -> 0 <= i < DHCP_OPTIONS_OFS -> rounds st l < Z.of_nat fuel -> plain rx ->
  ((if file then 1 else 0) + (if sname then 1 else 0) < f)%nat ->
  exists r, loop f (again_step fuel value p) (set_data st m, rx, i, mx, file, sname) = Some (Some r) /\ ends st r.
Proof.
  intros Hc Hs. revert f m rx i mx file sname. induction f as [|f IH]; intros m rx i mx file sname Hm Hi Hr Hp Hf; [lia|]. cbn [loop]. unfold again_step.
  unfold DHCP_OPTIONS_OFS in Hi. destruct (parse_options_end st p l m rx i mx) as (r & E & Hr'); auto; [lia|]. rewrite E.
  destruct r as [|st' rx' err]; [by eexists|]. destruct Hr' as (m' & -> & Hm').
  destruct (negb (err =? ERR_OK)); [eexists; split; [reflexivity|]; by eexists|].
  assert (Hp' : plain rx').
  { eapply parse_options_plain; [exact E|done| |done]. intros q i' mx' Hk.
    assert (Hl : Z.of_nat (length l) * 2 <= rounds st l) by (clear - Hs; induction Hs as [|x l [? _] _ IH]; simpl; lia).
    destruct (skip_ends (set_data st m) p l fuel i mx) as (? & ? & ? & ? & ? & _ & _ & Hk' & ? & _); try done; [by apply (pchain_ext st)|lia|lia|].
    rewrite Hk in Hk'. simplify_eq. lia. }
  unfold overloaded. rewrite Hp'. destruct file; [|destruct sname]; [apply IH; auto; unfold DHCP_OPTIONS_OFS, DHCP_FILE_OFS; lia| |].
  - apply IH; auto; unfold DHCP_OPTIONS_OFS, DHCP_SNAME_OFS; lia.
  - eexists. split; [reflexivity|]. by eexists.
Qed.

Lemma given_clear idx rx : dhcp_option_given (dhcp_clear_option idx rx) idx = false.
Proof.
  unfold dhcp_option_given, dhcp_clear_option. simpl. rewrite nth_lookup. destruct (decide (idx < length (rx_given rx))%nat).
  - by rewrite list_lookup_insert_eq.
  - by rewrite list_insert_ge, lookup_ge_None_2 by lia.
Qed.

Lemma parse_reply_ends st p l rx :
  pchain st p l -> Forall (short st) l -> mem_ok (data st) -> 0 <= pb_tot_len (pb st p) < 65536 -> rounds st l < Z.of_nat fuel -> (3 < fuel)%nat ->
  exists r, dhcp_parse_reply fuel value st rx p = Some r /\ ends st r.
Proof.
  intros Hc Hs Hm Ht Hr Hf. unfold dhcp_parse_reply. destruct (_ <? _); [eexists; split; [reflexivity|]; exists (data st); by rewrite data_unchanged|].
  rewrite loop_unfold by lia. unfold again_step at 1.
  pose proof (parse_options_end st p l (data st) (dhcp_clear_all_options rx) DHCP_OPTIONS_OFS (pb_tot_len (pb st p)) Hc Hs Hm) as H.
  rewrite data_unchanged in H. destruct H as (r & -> & Hr'); auto; [unfold DHCP_OPTIONS_OFS; lia|].
  destruct r as [|st' rx' err]; [by eexists|]. destruct Hr' as (m' & -> & Hm').
  destruct (negb (err =? ERR_OK)); [eexists; split; [reflexivity|]; by eexists|].
  destruct (overloaded rx' false false) as [[rx2 file] sname] eqn:Eo.
  assert (Hp : plain rx2).
  { unfold overloaded in Eo. destruct (dhcp_option_given rx' _) eqn:Eg; [|by simplify_eq].
    pose proof (given_clear DHCP_OPTION_IDX_OVERLOAD rx'). repeat case_match; by simplify_eq. }
  destruct file; [|destruct sname].
  - destruct (passes_end st p l (pred fuel) m' rx2 DHCP_FILE_OFS (DHCP_FILE_OFS + DHCP_FILE_LEN) false sname) as (r & -> & ?); auto;
      [unfold DHCP_OPTIONS_OFS, DHCP_FILE_OFS; lia|destruct sname; lia|]. by eexists.
  - destruct (passes_end st p l (pred fuel) m' rx2 DHCP_SNAME_OFS (DHCP_SNAME_OFS + DHCP_SNAME_LEN) false false) as (r & -> & ?); auto;
      [unfold DHCP_OPTIONS_OFS, DHCP_SNAME_OFS; lia|lia|]. by eexists.
  - eexists. split; [reflexivity|]. by eexists.
Qed.
End Ends.

(** ** The options of a message

    The options the client knows, the bytes that encode them and the values they carry. *)

(** A 32-bit value in network byte order. *)
Definition be32 (v : Z) : list Z := [v / 16777216; v / 65536 mod 256; v / 256 mod 256; v mod 256].

Inductive dhcp_opt :=
| Opt_pad
| Opt_subnet_mask (mask : Z)
| Opt_router (addr : Z) (more : list Z)
| Opt_dns (servers : list Z)
| Opt_lease_time (secs : Z)
| Opt_message_type (type : Z)
| Opt_server_id (addr : Z)
| Opt_t1 (secs : Z)
| Opt_t2 (secs : Z)
| Opt_other (op : Z) (v : list Z).

Definition opt_bytes (o : dhcp_opt) : list Z :=
  match o with
  | Opt_pad => [DHCP_OPTION_PAD]
  | Opt_subnet_mask a => DHCP_OPTION_SUBNET_MASK :: 4 :: be32 a
  | Opt_router a more => DHCP_OPTION_ROUTER :: (4 + Z.of_nat (length more)) :: be32 a ++ more
  | Opt_dns l => DHCP_OPTION_DNS_SERVER :: (4 * Z.of_nat (length l)) :: concat (be32 <$> l)
  | Opt_lease_time t => DHCP_OPTION_LEASE_TIME :: 4 :: be32 t
  | Opt_message_type t => [DHCP_OPTION_MESSAGE_TYPE; 1; t]
  | Opt_server_id a => DHCP_OPTION_SERVER_ID :: 4 :: be32 a
  | Opt_t1 t => DHCP_OPTION_T1 :: 4 :: be32 t
  | Opt_t2 t => DHCP_OPTION_T2 :: 4 :: be32 t
  | Opt_other op v => op :: Z.of_nat (length v) :: v
  end.

Definition u32_ok (v : Z) : Prop := 0 <= v < 4294967296.
Definition opt_ok (o : dhcp_opt) : Prop :=
  match o with
  | Opt_pad => True
  | Opt_router a more => u32_ok a /\ Z.of_nat (length more) <= 251
  | Opt_dns l => Forall u32_ok l /\ Z.of_nat (length l) <= 63
  | Opt_message_type t => 0 <= t < 256
  | Opt_subnet_mask v | Opt_lease_time v | Opt_server_id v | Opt_t1 v | Opt_t2 v => u32_ok v
  | Opt_other op v =>
      (op ∉ [DHCP_OPTION_PAD; DHCP_OPTION_SUBNET_MASK; DHCP_OPTION_ROUTER; DHCP_OPTION_DNS_SERVER; DHCP_OPTION_LEASE_TIME; DHCP_OPTION_OVERLOAD;
            DHCP_OPTION_MESSAGE_TYPE; DHCP_OPTION_SERVER_ID; DHCP_OPTION_T1; DHCP_OPTION_T2; DHCP_OPTION_END]) /\ Z.of_nat (length v) <= 255
  end.

(** The values of an option for the entries of [dhcp_rx_options_val]: the first router and
    the first two servers.  The first option of a kind counts. *)
Definition opt_index (o : dhcp_opt) : nat :=
  match o with
  | Opt_subnet_mask _ => DHCP_OPTION_IDX_SUBNET_MASK | Opt_router _ _ => DHCP_OPTION_IDX_ROUTER
  | Opt_dns _ => DHCP_OPTION_IDX_DNS_SERVER | Opt_lease_time _ => DHCP_OPTION_IDX_LEASE_TIME
  | Opt_message_type _ => DHCP_OPTION_IDX_MSG_TYPE | Opt_server_id _ => DHCP_OPTION_IDX_SERVER_ID
  | Opt_t1 _ => DHCP_OPTION_IDX_T1 | Opt_t2 _ => DHCP_OPTION_IDX_T2
  | Opt_pad | Opt_other _ _ => DHCP_OPTION_IDX_MAX
  end.
Definition opt_values (o : dhcp_opt) : list Z :=
  match o with
  | Opt_pad | Opt_other _ _ => []
  | Opt_dns l => take 2 l
  | Opt_subnet_mask v | Opt_router v _ | Opt_lease_time v | Opt_message_type v | Opt_server_id v | Opt_t1 v | Opt_t2 v => [v]
  end.
Fixpoint take_values (idx : nat) (vs : list Z) (rx : rx_options) : rx_options :=
  match vs with
  | [] => rx
  | v :: vs => if dhcp_option_given rx idx then rx else take_values (S idx) vs (dhcp_got_option idx v rx)
  end.
Definition take_option (rx : rx_options) (o : dhcp_opt) : rx_options := take_values (opt_index o) (opt_values o) rx.

Lemma length_be32 v : length (be32 v) = 4%nat.
Proof. done. Qed.
Lemma length_be32s l : length (concat (be32 <$> l)) = (4 * length l)%nat.
Proof. induction l; [done|]. rewrite fmap_cons. cbn [concat]. rewrite length_app, IHl, length_be32. simpl. lia. Qed.

Lemma htonl_bytes b0 b1 b2 b3 :
  is_byte b0 -> is_byte b1 -> is_byte b2 -> is_byte b3 ->
  lwip_htonl (b0 + 256 * b1 + 65536 * b2 + 16777216 * b3) = 16777216 * b0 + 65536 * b1 + 256 * b2 + b3.
Proof.
  unfold is_byte. intros. set (n := b0 + 256 * b1 + 65536 * b2 + 16777216 * b3). rewrite lwip_htonl_eq by lia.
  assert (n mod 256 = b0) as -> by (symmetry; apply (Z.mod_unique _ _ (b1 + 256 * b2 + 65536 * b3)); lia).
  assert (n / 256 = b1 + 256 * (b2 + 256 * b3)) as -> by (symmetry; apply (Z.div_unique _ _ _ b0); lia).
  assert (n / 65536 = b2 + 256 * b3) as -> by (symmetry; apply (Z.div_unique _ _ _ (b0 + 256 * b1)); lia).
  assert (n / 16777216 = b3) as -> by (symmetry; apply (Z.div_unique _ _ _ (b0 + 256 * b1 + 65536 * b2)); lia).
  rewrite !(Z.mul_comm 256), !Z.mod_add, !Z.mod_small by lia. lia.
Qed.

Lemma be32_value v : u32_ok v -> 16777216 * (v / 16777216) + 65536 * (v / 65536 mod 256) + 256 * (v / 256 mod 256) + v mod 256 = v.
Proof. unfold u32_ok. intros. dm. Qed.
Lemma be32_bytes v : u32_ok v -> Forall is_byte (be32 v).
Proof. unfold u32_ok, be32, is_byte. intros. repeat constructor; dm. Qed.

Lemma htonl_be32 m a v : u32_ok v -> lwip_htonl (ld32 (write_bytes m a (be32 v)) a) = v.
Proof.
  intros Hv. pose proof (be32_bytes v Hv) as Hb. unfold be32 in Hb. rewrite !Forall_cons in Hb. destruct Hb as (H0 & H1 & H2 & H3 & _).
  unfold ld32, be32. at_mem. rewrite htonl_bytes by done. by apply be32_value.
Qed.

Section Message.
Context (fuel : nat) (value : Z) (st : pstate) (p : Z).
(** A message in one pbuf, apart from the variable [value]. *)
Context (Hp : p <> NULL) (Hn : pb_next (pb st p) = NULL) (Hl : 0 <= pb_len (pb st p) <= 65278) (Ht : pb_tot_len (pb st p) = pb_len (pb st p)).
Context (Hv : value <> NULL) (Ha : separate (value, 4) (payload_region st p)) (Hf : (1 < fuel)%nat).
#[local] Abbreviation c := (payload_bytes st p).

Definition kept (m : memory) : Prop := only_in [(value, 4)] (data st) m.

Lemma kept_bytes m : kept m -> payload_bytes (set_data st m) p = c.
Proof.
  intros Hk. unfold payload_bytes. rewrite pb_set_data. cbn [data set_data]. apply (only_in_bytes [(value, 4)]); [done|].
  constructor; [|constructor]. apply separate_sym. rewrite Z2Nat.id by lia. exact Ha.
Qed.

Lemma kept_write m bs : kept m -> (length bs <= 4)%nat -> kept (write_bytes m value bs).
Proof. intros Hk Hb. eapply only_in_trans; [exact Hk|]. apply (only_in_write _ _ (value, 4)); [left|simpl; lia|simpl; lia]. Qed.

(** The byte at a position. *)
Lemma kept_read m k x r : kept m -> drop k c = x :: r -> m (pb_payload (pb st p) + Z.of_nat k) = x.
Proof.
  intros Hk Hd. assert (Hx : c !! k = Some x) by (rewrite <- (Nat.add_0_r k), <- lookup_drop; by rewrite Hd).
  pose proof (lookup_lt_Some _ _ _ Hx) as Hlt. rewrite length_payload_bytes in Hlt.
  rewrite <- (kept_bytes m Hk) in Hx. unfold payload_bytes in Hx. rewrite pb_set_data in Hx. cbn [data set_data] in Hx.
  rewrite bytes_at_lookup in Hx by done. by injection Hx.
Qed.

Lemma copy_at m k n bs r :
  kept m -> drop k c = bs ++ r -> n = Z.of_nat (length bs) -> (length bs <= 4)%nat ->
  pbuf_copy_partial fuel (set_data st m) p value n (Z.of_nat k) = Some (set_data st (write_bytes m value bs), n).
Proof.
  intros Hk Hd -> Hb. pose proof (f_equal length Hd) as HL. rewrite length_drop, length_app, length_payload_bytes in HL.
  destruct (decide (bs = [])) as [->|Hne].
  { unfold pbuf_copy_partial. rewrite (proj2 (Z.eqb_neq _ _) Hp), (proj2 (Z.eqb_neq _ _) Hv). by destruct fuel as [|f]; [lia|]. }
  pose proof (copy_partial_correct fuel (set_data st m) p [p] value (Z.of_nat (length bs)) (Z.of_nat k)) as H. cbv zeta in H.
  assert (Hs : slice (content (set_data st m) [p]) (Z.of_nat k) (Z.of_nat (length bs)) = bs).
  { cbn [content]. rewrite app_nil_r, kept_bytes by done. unfold slice. rewrite !Nat2Z.id, Hd. apply take_app_length. }
  rewrite Hs in H. apply H; auto; [by split_and!|simpl; rewrite pb_set_data; split_and!; done || lia|lia| |].
  - destruct bs; [done|simpl in *; lia].
  - constructor; [|constructor]. unfold separate, payload_region in *. rewrite pb_set_data. simpl in *. lia.
Qed.

Lemma words_decoded vs f m rx k idx r :
  vs <> [] -> (length vs <= f)%nat -> Forall u32_ok vs -> kept m -> drop k c = concat (be32 <$> vs) ++ r ->
  exists m', loop f (decode_step fuel value p) (set_data st m, rx, 4 * Z.of_nat (length vs), Z.of_nat k, idx) =
    Some (Some (set_data st m', take_values idx vs rx, ERR_OK)) /\ kept m'.
Proof.
  revert f m rx k idx. induction vs as [|v vs IH]; intros f m rx k idx Hne Hf' Hu Hk Hd; [done|]. destruct f as [|f]; simpl in Hf'; [lia|].
  cbn [loop take_values]. unfold decode_step. destruct (dhcp_option_given rx idx); [by eexists|].
  rewrite fmap_cons in Hd. cbn [concat] in Hd. rewrite <- app_assoc in Hd. inversion Hu as [|? ? Hv0 Hvs]; subst.
  replace (Z.min (4 * Z.of_nat (length (v :: vs))) 4) with 4 by (simpl; lia). rewrite (copy_at m k 4 (be32 v) _ Hk Hd) by (done || simpl; lia).
  rewrite Z.eqb_refl. cbn [negb data set_data]. rewrite htonl_be32 by done.
  pose proof (kept_write m (be32 v) Hk ltac:(simpl; lia)) as Hk2. destruct vs as [|v2 vs].
  - eexists. split; [reflexivity|done].
  - rewrite (proj2 (Z.ltb_lt 4 _)) by (simpl; lia). rewrite (Z.mul_comm 4), Z.mod_mul, Z.eqb_refl by lia. cbn [negb].
    replace (Z.of_nat (length (v :: v2 :: vs)) * 4 - 4) with (4 * Z.of_nat (length (v2 :: vs))) by (simpl length; lia).
    pose proof (f_equal length Hd) as HL. rewrite length_drop, !length_app, length_payload_bytes, length_be32 in HL.
    rewrite u16_small by lia. replace (Z.of_nat k + 4) with (Z.of_nat (k + 4)) by lia.
    apply IH; auto; [lia|]. rewrite <- drop_drop, Hd. by rewrite drop_app_length'.
Qed.

(** What an option adds is what the message says. *)
Lemma option_decoded m rx k dl vs idx :
  kept m -> (0 < dl -> exists bs r, drop k c = bs ++ r /\ (vs <> [] /\ Forall u32_ok vs /\ bs = concat (be32 <$> vs) /\ dl = 4 * Z.of_nat (length vs) /\ (length vs <= 64)%nat \/
    exists v, vs = [v] /\ bs = [v] /\ dl = 1)) -> (dl <= 0 -> vs = []) ->
  exists m', decode_option fuel value (set_data st m) rx p dl (Z.of_nat k) idx = Some (set_data st m', take_values idx vs rx, ERR_OK) /\ kept m'.
Proof.
  intros Hk H1 H2. unfold decode_option. destruct (Z.ltb_spec 0 dl) as [Hd|Hd].
  - pose proof (kept_write m (u32_bytes 0) Hk ltac:(simpl; lia)) as Hk0. change (kept (st32 m value 0)) in Hk0. cbn [data set_data].
    destruct (H1 Hd) as (bs & r & Hb & [(Hne & Hu & -> & -> & H64) | (v & -> & -> & ->)]).
    + destruct (words_decoded vs 64 (st32 m value 0) rx k idx r) as (m' & E & Hk'); auto. exists m'. split; [|done].
      change (set_data (set_data st m) (st32 m value 0)) with (set_data st (st32 m value 0)). by rewrite E.
    + rewrite loop_unfold by lia. change (set_data (set_data st m) (st32 m value 0)) with (set_data st (st32 m value 0)).
      unfold decode_step at 1. cbn [take_values]. destruct (dhcp_option_given rx idx); [by eexists|]. change (Z.min 1 4) with 1.
      rewrite (copy_at _ k 1 [v] r Hk0 Hb) by (done || simpl; lia). change (negb (1 =? 1)) with false. change (4 <? 1) with false. change (1 =? 4) with false. cbn iota.
      eexists. split; [cbn [data set_data write_bytes]; by rewrite upd_eq|]. apply (kept_write _ [v] Hk0). simpl. lia.
  - rewrite H2 by done. by eexists.
Qed.

Lemma step_option m rx k b op v r dl vs idx :
  kept m -> drop k c = op :: Z.of_nat (length v) :: v ++ r -> r <> [] -> op <> DHCP_OPTION_END -> op <> DHCP_OPTION_PAD ->
  dhcp_option_switch op (Z.of_nat (length v)) b = Some (Z.of_nat (length v), dl, idx) ->
  (0 < dl -> exists bs r', v = bs ++ r' /\ (vs <> [] /\ Forall u32_ok vs /\ bs = concat (be32 <$> vs) /\ dl = 4 * Z.of_nat (length vs) /\ (length vs <= 64)%nat \/
    exists x, vs = [x] /\ bs = [x] /\ dl = 1)) -> (dl <= 0 -> vs = []) ->
  exists m', option_step fuel value b (set_data st m, rx, p, Z.of_nat k, pb_len (pb st p)) =
    inl (set_data st m', take_values idx vs rx, p, Z.of_nat (k + 2 + length v), pb_len (pb st p)) /\ kept m'.
Proof.
  intros Hk Hd Hr He Hpad Hsw Hv1 Hv2. pose proof (f_equal length Hd) as HL. rewrite length_drop, length_payload_bytes in HL. simpl in HL. rewrite length_app in HL.
  assert (length r <> 0%nat) by (by destruct r). unfold option_step. rewrite !pb_set_data. cbn [data set_data].
  rewrite (kept_read m k _ _ Hk Hd), (proj2 (Z.eqb_neq _ _) He), (proj2 (Z.ltb_lt _ _)) by lia. cbn [orb negb].
  assert (Hlen : option_len (set_data st m) p (Z.of_nat k) = Z.of_nat (length v)).
  { unfold option_len. rewrite pb_set_data, (proj2 (Z.ltb_lt _ _)) by lia. cbn [data set_data].
    rewrite <- Z.add_assoc. replace (Z.of_nat k + 1) with (Z.of_nat (k + 1)) by lia. apply (kept_read m _ _ (v ++ r)); [done|].
    rewrite <- drop_drop, Hd. done. }
  rewrite Hlen, Hsw, (proj2 (Z.eqb_neq _ _) Hpad), u16_small by lia. replace (Z.of_nat k + 2) with (Z.of_nat (k + 2)) by lia.
  assert (Hd2 : drop (k + 2) c = v ++ r) by (rewrite <- drop_drop, Hd; done).
  destruct (option_decoded m rx (k + 2) dl vs idx Hk) as (m' & -> & Hk'); [|done|].
  { intros Hdl. destruct (Hv1 Hdl) as (bs & r' & -> & Hbs). exists bs, (r' ++ r). by rewrite app_assoc. }
  rewrite Z.eqb_refl, pb_set_data. cbn [negb]. rewrite u16_small by lia. rewrite (proj2 (Z.leb_gt _ _)) by lia.
  exists m'. split; [|done]. do 3 f_equal. lia.
Qed.

Lemma step_pad m rx k b r :
  kept m -> drop k c = DHCP_OPTION_PAD :: r -> r <> [] ->
  option_step fuel value b (set_data st m, rx, p, Z.of_nat k, pb_len (pb st p)) = inl (set_data st m, rx, p, Z.of_nat (k + 1), pb_len (pb st p)).
Proof.
  intros Hk Hd Hr. pose proof (f_equal length Hd) as HL. rewrite length_drop, length_payload_bytes in HL. simpl in HL.
  assert (length r <> 0%nat) by (by destruct r). unfold option_step. rewrite !pb_set_data. cbn [data set_data].
  rewrite (kept_read m k _ _ Hk Hd), (proj2 (Z.ltb_lt _ _)) by lia. change (DHCP_OPTION_PAD =? DHCP_OPTION_END) with false. cbn [orb negb].
  unfold dhcp_option_switch. change (DHCP_OPTION_PAD =? DHCP_OPTION_PAD) with true. cbv beta iota. unfold decode_option. change (0 <? 0) with false. cbv beta iota.
  change (negb (ERR_OK =? ERR_OK)) with false. cbv beta iota. rewrite pb_set_data.
  assert (u16 (u16 (Z.of_nat k - 1) + 0 + 2) = Z.of_nat (k + 1)) as ->.
  { unfold u16. rewrite Z.add_0_r, Zplus_mod_idemp_l, Z.mod_small; lia. }
  by rewrite (proj2 (Z.leb_gt _ _)) by lia.
Qed.

Lemma step_word m rx k b op v r idx :
  kept m -> drop k c = (op :: 4 :: be32 v) ++ r -> r <> [] -> op <> DHCP_OPTION_END -> op <> DHCP_OPTION_PAD -> u32_ok v ->
  dhcp_option_switch op 4 b = Some (4, 4, idx) ->
  exists m', option_step fuel value b (set_data st m, rx, p, Z.of_nat k, pb_len (pb st p)) =
    inl (set_data st m', take_values idx [v] rx, p, Z.of_nat (k + 6), pb_len (pb st p)) /\ kept m'.
Proof.
  intros Hk Hd Hr He Hpad Hu Hsw. destruct (step_option m rx k b op (be32 v) r 4 [v] idx) as (m' & E & Hk'); try done.
  - intros _. exists (be32 v), []. rewrite app_nil_r. split; [done|]. left. split_and!; try done; [by constructor|simpl; lia].
  - exists m'. rewrite E. by rewrite <- Nat.add_assoc.
Qed.

Lemma dns_prefix l : Z.of_nat (length l) <= 63 -> l <> [] -> Forall u32_ok l ->
  exists bs r', concat (be32 <$> l) = bs ++ r' /\ take 2 l <> [] /\ Forall u32_ok (take 2 l) /\ bs = concat (be32 <$> take 2 l) /\
    Z.min (4 * Z.of_nat (length l)) 8 = 4 * Z.of_nat (length (take 2 l)) /\ (length (take 2 l) <= 64)%nat.
Proof.
  intros Hl1 Hne Hu. exists (concat (be32 <$> take 2 l)), (concat (be32 <$> drop 2 l)). rewrite <- (take_drop 2 l) at 1.
  rewrite fmap_app, concat_app. split_and!; try done; [by destruct l|by apply Forall_take|rewrite length_take; lia|rewrite length_take; lia].
Qed.

Lemma step_known m rx k b o r :
  opt_ok o -> kept m -> drop k c = opt_bytes o ++ r -> r <> [] ->
  exists m', option_step fuel value b (set_data st m, rx, p, Z.of_nat k, pb_len (pb st p)) =
    inl (set_data st m', take_option rx o, p, Z.of_nat (k + length (opt_bytes o)), pb_len (pb st p)) /\ kept m'.
Proof.
  intros Ho Hk Hd Hr. unfold take_option.
  destruct o as [|a|a more|l|t|t|a|t|t|op v]; cbn [opt_bytes opt_ok opt_values opt_index] in *;
    try (by eapply step_word; [exact Hk|exact Hd|done..]).
  - exists m. split; [|done]. by apply (step_pad m rx k b r).
  - destruct Ho as [Ha0 Hm].
    destruct (step_option m rx k b DHCP_OPTION_ROUTER (be32 a ++ more) r 4 [a] DHCP_OPTION_IDX_ROUTER) as (m' & E & Hk'); try done.
    + rewrite Hd, length_app, length_be32, Nat2Z.inj_add. done.
    + unfold dhcp_option_switch. rewrite length_app, length_be32. simpl. by rewrite (proj2 (Z.leb_le _ _)) by lia.
    + intros _. exists (be32 a), more. split; [done|]. left. split_and!; try done; [by constructor|simpl; lia].
    + exists m'. rewrite E. simpl length. by rewrite <- Nat.add_assoc.
  - destruct Ho as [Hu Hl1].
    destruct (step_option m rx k b DHCP_OPTION_DNS_SERVER (concat (be32 <$> l)) r (Z.min (4 * Z.of_nat (length l)) 8) (take 2 l) DHCP_OPTION_IDX_DNS_SERVER) as (m' & E & Hk'); try done.
    + rewrite Hd, length_be32s, Nat2Z.inj_mul. done.
    + unfold dhcp_option_switch. rewrite length_be32s, Nat2Z.inj_mul. change (Z.of_nat 4) with 4. simpl (_ =? _). cbv iota.
      by rewrite (Z.mul_comm 4), Z.mod_mul, Z.eqb_refl by lia.
    + intros Hd0. destruct (dns_prefix l) as (bs & r' & H1 & H2); [done|by intros ->|done|]. exists bs, r'. split; [done|]. by left.
    + intros Hd0. destruct l; [done|simpl in Hd0; lia].
    + exists m'. rewrite E. simpl length. by rewrite <- Nat.add_assoc.
  - destruct (step_option m rx k b DHCP_OPTION_MESSAGE_TYPE [t] r 1 [t] DHCP_OPTION_IDX_MSG_TYPE) as (m' & E & Hk'); try done.
    + intros _. exists [t], []. split; [done|]. right. by exists t.
    + exists m'. rewrite E. by rewrite <- Nat.add_assoc.
  - destruct Ho as [Hop Hl1]. rewrite !not_elem_of_cons in Hop. destruct Hop as (H0 & H1 & H3 & H6 & H51 & H52 & H53 & H54 & H58 & H59 & H255 & _).
    destruct (step_option m rx k b op v r 0 [] 0%nat) as (m' & E & Hk'); try done.
    + unfold dhcp_option_switch. by rewrite !(proj2 (Z.eqb_neq _ _)) by done.
    + exists m'. rewrite E. simpl length. by rewrite <- Nat.add_assoc.
Qed.

(** All options up to the end marker. *)
Lemma options_parsed opts f m rx k b r :
  Forall opt_ok opts -> kept m -> drop k c = concat (opt_bytes <$> opts) ++ DHCP_OPTION_END :: r -> (length opts < f)%nat ->
  exists m', loop f (option_step fuel value b) (set_data st m, rx, p, Z.of_nat k, pb_len (pb st p)) =
    Some (Some (Parsed (set_data st m') (foldl take_option rx opts) ERR_OK)) /\ kept m'.
Proof.
  revert f m rx k. induction opts as [|o opts IH]; intros f m rx k Ho Hk Hd Hf'; (destruct f as [|f]; simpl in Hf'; [lia|]); cbn [loop foldl].
  - unfold option_step at 1. rewrite !pb_set_data. cbn [data set_data]. rewrite (kept_read m k _ _ Hk Hd), Z.eqb_refl. cbn [orb]. eauto.
  - inversion Ho as [|? ? Ho1 Ho2]; subst. rewrite fmap_cons in Hd. cbn [concat] in Hd. rewrite <- app_assoc in Hd.
    destruct (step_known m rx k b o _ Ho1 Hk Hd) as (m1 & -> & Hk1); [by intros [? ?]%app_eq_nil|]. apply IH; auto; [|lia].
    rewrite <- drop_drop, Hd. by rewrite drop_app_length.
Qed.

Lemma take_values_plain idx vs rx : idx <> 0%nat -> plain rx -> plain (take_values idx vs rx).
Proof.
  revert idx rx. induction vs as [|v vs IH]; intros idx rx Hi Hp'; [done|]. simpl. destruct (dhcp_option_given rx idx); [done|].
  apply IH; [done|]. unfold plain. by rewrite given_got.
Qed.

Lemma take_options_plain opts rx : plain rx -> plain (foldl take_option rx opts).
Proof. revert rx. induction opts as [|o opts IH]; intros rx Hp'; [done|]. apply IH, take_values_plain; [by destruct o|done]. Qed.

Lemma reply_parsed opts hdr r rx :
  Forall opt_ok opts -> c = hdr ++ concat (opt_bytes <$> opts) ++ DHCP_OPTION_END :: r -> length hdr = 240%nat -> (length opts < fuel)%nat ->
  exists m', dhcp_parse_reply fuel value st rx p = Some (Parsed (set_data st m') (foldl take_option (dhcp_clear_all_options rx) opts) ERR_OK) /\ kept m'.
Proof.
  intros Ho Hc Hh Hlen. pose proof (f_equal length Hc) as HL. rewrite length_payload_bytes, !length_app, Hh in HL. cbn [length] in HL.
  assert (Hd : drop 240 c = concat (opt_bytes <$> opts) ++ DHCP_OPTION_END :: r) by (rewrite Hc; by apply drop_app_length').
  assert (Hsk : skip_pbufs fuel st p DHCP_OPTIONS_OFS (pb_len (pb st p)) = Some (p, DHCP_OPTIONS_OFS, pb_len (pb st p))).
  { unfold skip_pbufs, DHCP_OPTIONS_OFS. rewrite loop_unfold by lia. by rewrite (proj2 (Z.eqb_neq _ _) Hp), (proj2 (Z.leb_gt _ _)) by lia. }
  unfold dhcp_parse_reply, DHCP_SNAME_OFS. rewrite (proj2 (Z.ltb_ge _ _)) by lia. rewrite loop_unfold by lia. unfold again_step at 1.
  unfold parse_options. rewrite Ht, Hsk. cbn [mbind option_bind]. rewrite (proj2 (Z.eqb_neq _ _) Hp).
  destruct (options_parsed opts fuel (data st) (dhcp_clear_all_options rx) 240 (DHCP_OPTIONS_OFS =? DHCP_OPTIONS_OFS) r Ho) as (m' & E & Hk'); auto.
  { apply only_in_refl. }
  rewrite data_unchanged in E. change (Z.of_nat 240) with DHCP_OPTIONS_OFS in E. rewrite E. cbn [mbind option_bind id].
  rewrite Z.eqb_refl. cbn [negb]. unfold overloaded.
  rewrite (take_options_plain opts (dhcp_clear_all_options rx)) by done. eauto.
Qed.
End Message.

(** ** No pbuf is missing behind the options *)

Section Null.
Context (fuel : nat) (value : Z) (st : pstate).

Lemma decode_set m rx q l dl off idx st' rx' err :
  pchain st q l -> (length l < fuel)%nat -> mem_ok m -> dl < 256 ->
  decode_option fuel value (set_data st m) rx q dl off idx = Some (st', rx', err) -> exists m', st' = set_data st m' /\ mem_ok m'.
Proof.
  intros Hc Hf Hm Hd H. destruct (decode_ends fuel value (set_data st m) rx q l dl off idx) as (m' & ? & ? & E & Hm'); [by apply (pchain_ext st)|done..|].
  rewrite E in H. simplify_eq. by exists m'.
Qed.

(** The loop over the options up to the end of the packet. *)
Lemma options_not_null b m rx q l off :
  pchain st q (q :: l) -> sizes st (q :: l) -> (length l + 1 < fuel)%nat -> mem_ok m ->
  loop fuel (option_step fuel value b) (set_data st m, rx, q, off, plen st (q :: l)) <> Some (Some Null_pbuf).
Proof.
  intros Hc Hs Hf Hm E.
  refine (loop_keeps (option_step fuel value b)
    (fun '(s, _, q, _, mx) => exists m l, s = set_data st m /\ mem_ok m /\ pchain st q (q :: l) /\ sizes st (q :: l) /\ (length l + 1 < fuel)%nat /\ mx = plen st (q :: l))
    (fun r => r <> Some Null_pbuf) _ _ _ _ E _ eq_refl); [|exists m, l; by split_and!].
  clear. intros [[[[s rx] q] off] mx] (m & l & -> & Hm & Hc & Hs & Hf & ->). unfold option_step. rewrite !pb_set_data. cbn [data set_data].
  destruct (_ || _); [done|]. pose proof (option_len_byte (set_data st m) q off Hm) as Hb.
  destruct (dhcp_option_switch _ _ _) as [[[len dl] idx]|] eqn:E; [|done]. apply switch_len in E as (_ & Hdl & _); [|done].
  destruct (decode_option _ _ _ _ _ _ _ _) as [[[s2 rx2] e2]|] eqn:Ed; [|done].
  eapply (decode_set m rx q (q :: l)) in Ed as (m2 & -> & Hm2); [|done|simpl; lia|done|done].
  destruct (negb _); [done|]. rewrite !pb_set_data. destruct (_ <=? _); [|exists m2, l; by split_and!].
  pose proof Hs as (H0 & _ & _ & Hs'). pose proof (sizes_nonneg _ _ Hs') as [Hl0 _]. pose proof (sizes_lt _ _ Hs') as Hl1. cbn [plen].
  replace (pb_len (pb st q) + plen st l - pb_len (pb st q)) with (plen st l) by lia. rewrite (u16_small (plen st l)) by lia.
  destruct (Z.eqb_spec (plen st l) 0); [by rewrite andb_false_r|]. destruct (_ <? _); [|done]. cbn [andb negb].
  destruct Hc as (_ & _ & Hc). destruct l as [|x l]; [done|]. destruct Hc as (-> & Hx & Hc). rewrite (proj2 (Z.eqb_neq _ _) Hx).
  exists m2, l. simpl in Hf. split_and!; try done. lia.
Qed.

Lemma skip_plen p l i m :
  pchain st p l -> sizes st l -> 0 <= i -> (length l < fuel)%nat ->
  exists q l2 i', skip_pbufs fuel (set_data st m) p i (plen st l) = Some (q, i', plen st l2) /\ pchain st q l2 /\ sizes st l2 /\ (length l2 <= length l)%nat.
Proof.
  unfold skip_pbufs. generalize fuel. intros f. revert p i f. induction l as [|x l IH]; intros p i f Hc Hs Hi Hf; (destruct f as [|f]; simpl in Hf; [lia|]); cbn [loop].
  - simpl in Hc. subst p. exists NULL, [], i. done.
  - pose proof Hc as (-> & Hx & Hc'). rewrite (proj2 (Z.eqb_neq x NULL) Hx), pb_set_data. cbn [negb andb]. pose proof Hs as (H0 & _ & _ & Hs').
    destruct (_ <=? _); [|by exists x, (x :: l), i]. pose proof (sizes_nonneg _ _ Hs') as [Hl0 _]. pose proof (sizes_lt _ _ Hs') as Hl1. cbn [plen].
    replace (pb_len (pb st x) + plen st l - pb_len (pb st x)) with (plen st l) by lia. rewrite (u16_small (plen st l)) by lia.
    destruct (IH (pb_next (pb st x)) (u16 (i - pb_len (pb st x))) f) as (q & l2 & i' & H1 & H2 & H3 & H4); auto; [apply u16_range|lia|].
    exists q, l2, i'. split_and!; try done. simpl. lia.
Qed.

Lemma first_pass_not_null p l rx :
  pchain st p l -> l <> [] -> sizes st l -> (length l < fuel)%nat -> mem_ok (data st) ->
  parse_options fuel value st rx p DHCP_OPTIONS_OFS (pb_tot_len (pb st p)) <> Some Null_pbuf.
Proof.
  intros Hc Hne Hs Hf Hm. destruct l as [|x l]; [done|]. pose proof Hc as (-> & _). rewrite (sizes_head _ _ _ Hs).
  destruct (skip_plen x (x :: l) DHCP_OPTIONS_OFS (data st) Hc Hs ltac:(unfold DHCP_OPTIONS_OFS; lia) Hf) as (q & l2 & i' & H1 & H2 & H3 & H4).
  rewrite data_unchanged in H1. unfold parse_options. rewrite H1. cbn [mbind option_bind]. destruct (Z.eqb_spec q NULL) as [|Hq]; [done|].
  destruct l2 as [|y l2]; [done|]. pose proof H2 as (-> & _ & _). simpl in H4, Hf.
  pose proof (options_not_null (i' =? DHCP_OPTIONS_OFS) (data st) rx y l2 i' H2 H3 ltac:(lia) Hm) as H. rewrite data_unchanged in H.
  destruct (loop fuel _ _) as [r|]; [|done]. cbn [mbind option_bind id]. congruence.
Qed.
End Null.

(** The bytes of a chain bound the rounds. *)
Lemma rounds_plen st l : rounds st l = plen st l + 2 * Z.of_nat (length l).
Proof. induction l; simpl; lia. Qed.

(** C17: Parsing the options of a reply ends for every chain of pbufs and whatever the bytes
    are: a round for each byte and two for each pbuf are enough, provided that each pbuf
    leaves room for the offset behind its end.  Nothing but the memory changes, and a
    pbuf behind the end of the chain is read only when the message has the option that
    overloads the fields [file] and [sname]. *)
Theorem dhcp_parse_total fuel value st p l rx :
  pchain st p l -> l <> [] -> sizes st l -> Forall (fun x => pb_len (pb st x) <= 65278) l -> mem_ok (data st) ->
  plen st l + 2 * Z.of_nat (length l) < Z.of_nat fuel -> (3 < fuel)%nat ->
  exists r, dhcp_parse_reply fuel value st rx p = Some r /\
    match r with
    | Parsed st' _ err => (exists m, st' = set_data st m /\ mem_ok m)
    | Null_pbuf => exists st' rx', parse_options fuel value st (dhcp_clear_all_options rx) p DHCP_OPTIONS_OFS (pb_tot_len (pb st p)) = Some (Parsed st' rx' ERR_OK) /\
        dhcp_option_given rx' DHCP_OPTION_IDX_OVERLOAD = true
    end.
Proof.
  intros Hc Hne Hs Hsh Hm Hf Hf3. destruct l as [|x l]; [done|]. pose proof Hc as (-> & _). pose proof (sizes_nonneg _ _ Hs) as [Hpos Hall].
  assert (Hshort : Forall (short st) (x :: l)).
  { apply Forall_forall. intros y Hy. rewrite Forall_forall in Hsh, Hall. split; [by apply Hall|by apply Hsh]. }
  pose proof (sizes_head _ _ _ Hs) as Hh. pose proof (sizes_lt _ _ Hs) as Hlt. rewrite <- rounds_plen in Hf.
  destruct (parse_reply_ends fuel value st x (x :: l) rx) as (r & E & Hr); auto; [lia|]. exists r. split; [done|]. destruct r as [|st' rx' err]; [|done].
  pose proof (first_pass_not_null fuel value st x (x :: l) (dhcp_clear_all_options rx) Hc Hne Hs) as Hnn. rewrite rounds_plen in Hf. specialize (Hnn ltac:(lia) Hm).
  unfold dhcp_parse_reply in E. destruct (_ <? _); [done|]. rewrite loop_unfold in E by lia. unfold again_step at 1 in E.
  destruct (parse_options _ _ _ _ _ _ _) as [[|st1 rx1 err1]|]; [done| |done]. exists st1, rx1. destruct (Z.eqb_spec err1 ERR_OK) as [He|]; [|done].
  split; [by rewrite He|]. cbn [negb] in E. unfold overloaded in E. by destruct (dhcp_option_given rx1 DHCP_OPTION_IDX_OVERLOAD).
Qed.

(** C16: The options of a message in one pbuf of at most 65278 bytes are parsed to what they
    say: for a list of options behind the 240 bytes of the fixed fields, each of the length
    its kind has ([opt_ok]), with an end marker behind them, the parser returns [ERR_OK] and
    the entries of [dhcp_rx_options_val] hold the values of the first option of each kind,
    the first router and the first two DNS servers; options the client does not know and
    padding are skipped.  Only the local variable is written.  One option is left out, the
    overload option (52): behind it the parser goes on in the fields [file] and [sname], which
    can end in a read of a [NULL] pbuf ([overload_reads_null]). *)
Theorem dhcp_options_roundtrip fuel value st p hdr opts r rx :
  p <> NULL -> pb_next (pb st p) = NULL -> 0 <= pb_len (pb st p) <= 65278 -> pb_tot_len (pb st p) = pb_len (pb st p) ->
  value <> NULL -> separate (value, 4) (payload_region st p) -> (1 < fuel)%nat -> (length opts < fuel)%nat ->
  Forall opt_ok opts -> length hdr = 240%nat ->
  payload_bytes st p = hdr ++ concat (opt_bytes <$> opts) ++ DHCP_OPTION_END :: r ->
  exists m, dhcp_parse_reply fuel value st rx p = Some (Parsed (set_data st m) (foldl take_option (dhcp_clear_all_options rx) opts) ERR_OK) /\
    only_in [(value, 4)] (data st) m.
Proof. intros. by apply (reply_parsed fuel value st p) with (hdr := hdr) (r := r). Qed.

(** ** Examples *)

(** A message at address 1100 in a pbuf at 1000. *)
Definition msg_st (bs : list Z) : pstate :=
  let n := Z.of_nat (length bs) in
  mk_ps (<[1000 := mk_pbuf 0 1100 n n PBUF_RAM 0 1]> (∅ : gmap Z pbuf)) (write_bytes (fun _ => 0) 1100 bs) heap0 [] 0.
Definition rx0 : rx_options := mk_rx (replicate 10 0) (replicate 10 false).
Definition ack_opts : list dhcp_opt :=
  [Opt_message_type 5; Opt_pad; Opt_server_id 0xc0a80001; Opt_lease_time 3600; Opt_router 0xc0a80001 [192; 168; 0; 2]; Opt_subnet_mask 0xffffff00;
   Opt_other 43 [1; 2; 3]; Opt_dns [0x08080808; 0x08080404; 0x01010101]; Opt_lease_time 7].
Definition ack_msg : list Z := replicate 240 0 ++ concat (opt_bytes <$> ack_opts) ++ [DHCP_OPTION_END].

Lemma msg_bytes bs : payload_bytes (msg_st bs) 1000 = bs.
Proof.
  unfold payload_bytes. change (pb (msg_st bs) 1000) with (mk_pbuf 0 1100 (Z.of_nat (length bs)) (Z.of_nat (length bs)) PBUF_RAM 0 1).
  cbn [pb_payload pb_len]. rewrite Nat2Z.id. apply bytes_at_write_eq.
Qed.

Lemma ack_ok : Forall opt_ok ack_opts.
Proof.
  unfold ack_opts. repeat (apply Forall_cons_2; [cbn [opt_ok]; unfold u32_ok; try lia; try done|]); [| |constructor].
  - split; [|simpl; lia]. rewrite !not_elem_of_cons. split_and!; try discriminate. apply not_elem_of_nil.
  - split; [|simpl; lia]. repeat (apply Forall_cons_2; [lia|]). constructor.
Qed.

Lemma options_witness :
  exists m, dhcp_parse_reply 20 9000 (msg_st ack_msg) rx0 1000 =
    Some (Parsed (set_data (msg_st ack_msg) m) (mk_rx [0; 5; 0xc0a80001; 3600; 0; 0; 0xffffff00; 0xc0a80001; 0x08080808; 0x08080404]
            [false; true; true; true; false; false; true; true; true; true]) ERR_OK).
Proof.
  destruct (dhcp_options_roundtrip 20 9000 (msg_st ack_msg) 1000 (replicate 240 0) ack_opts [] rx0) as (m & E & _);
    [done|reflexivity|vm_compute; intuition discriminate|reflexivity|done|unfold separate; vm_compute; intuition discriminate|lia|vm_compute; lia| |reflexivity|apply msg_bytes|].
  - exact ack_ok.
  - exists m. exact E.
Defined.

(** A chain of two pbufs whose last option has its value in the second one. *)
Definition split_st : pstate :=
  mk_ps (<[1000 := mk_pbuf 2000 1100 247 245 PBUF_RAM 0 1]> (<[2000 := mk_pbuf 0 2100 2 2 PBUF_RAM 0 1]> (∅ : gmap Z pbuf)))
    (write_bytes (write_bytes (fun _ => 0) 1340 [53; 1; 5; 61; 2]) 2100 [7; 8]) heap0 [] 0.

Lemma parse_witness :
  exists r, dhcp_parse_reply 300 9000 split_st rx0 1000 = Some r.
Proof.
  destruct (dhcp_parse_total 300 9000 split_st 1000 [1000; 2000] rx0) as (r & E & _); [by vm_compute|done|vm_compute; intuition discriminate| | |vm_compute; reflexivity|lia|].
  - repeat constructor; vm_compute; discriminate.
  - apply mem_ok_write; [|reflexivity]. apply mem_ok_write; [|reflexivity]. intros a. lia.
  - by exists r.
Defined.

(** A reply of 300 bytes that says that [file] holds options, and whose only option there
    ends at the end of the packet: the limit of the field minus the length of the pbuf is
    negative, so that the parser goes on to a pbuf that is not there. *)
Definition file_msg : list Z :=
  replicate 108 0 ++ [61; 190] ++ replicate 130 0 ++ [53; 1; 5; 52; 1; 1; 255] ++ replicate 53 0.
Lemma overload_reads_null : dhcp_parse_reply 300 9000 (msg_st file_msg) rx0 1000 = Some Null_pbuf.
Proof. vm_compute. reflexivity. Qed.

(** An option that covers all of a pbuf: the position behind it is taken in the next pbuf,
    which ends before it; the message type found is in no byte of the message. *)
Definition span_st : pstate :=
  mk_ps (<[1000 := mk_pbuf 2000 1100 282 242 PBUF_RAM 0 1]> (<[2000 := mk_pbuf 3000 2100 40 8 PBUF_RAM 0 1]> (<[3000 := mk_pbuf 0 3100 32 32 PBUF_RAM 0 1]> (∅ : gmap Z pbuf))))
    (write_bytes (write_bytes (write_bytes (fun _ => 0) 1340 [61; 20]) 2120 [53]) 3100 [1]) heap0 [] 0.
Lemma option_spans_pbuf :
  exists st rx, dhcp_parse_reply 300 9000 span_st rx0 1000 = Some (Parsed st rx ERR_OK) /\
    dhcp_option_given rx DHCP_OPTION_IDX_MSG_TYPE = true /\ DHCP_OPTION_MESSAGE_TYPE ∉ content span_st [1000; 2000; 3000].
Proof.
  eexists _, _. split; [vm_compute; reflexivity|]. split; [reflexivity|]. intros H%list_elem_of_In.
  assert (Hn : existsb (Z.eqb DHCP_OPTION_MESSAGE_TYPE) (content span_st [1000; 2000; 3000]) = false) by (vm_compute; reflexivity).
  rewrite (proj2 (existsb_exists _ _)) in Hn; [done|]. exists DHCP_OPTION_MESSAGE_TYPE. split; [exact H|reflexivity].
Qed.
