(* ===== verification/Dhcp.v ===== *)
(** * [core/ipv4/dhcp.c]: the DHCP client

    The client of each interface, its state machine, its messages and its timers.  The
    configuration is the default one: the offered address is probed with ARP, AutoIP and the
    check of the link are off, there is no boot file, two DNS servers are taken, and the
    transaction id is a random number.  The state is the one of [Netif], with the variables
    of DHCP and of DNS above it; assertions have no effect, as on the target. *)

From Stdlib Require Import ZArith Lia.
From stdpp Require Import base tactics numbers list option gmap.
From S2P Require Import Prelude.
From S2P Require Import Def.
From S2P Require Import Ip4Addr.
From S2P Require Import Alloc.
From S2P Require Import Mem.
From S2P Require Import Memp.
From S2P Require Import Pbuf.
From S2P Require Import PbufChain.
From S2P Require Import Etharp.
From S2P Require Import World.
From S2P Require Import Ip4Frag.
From S2P Require Import Ip4.
From S2P Require Import Icmp.
From S2P Require Import Igmp.
From S2P Require Import Ip4Reass.
From S2P Require Import Udp.
From S2P Require Import Ip4Input.
From S2P Require Import Stack.
From S2P Require Import Netif.
From S2P Require Import Dns.
From S2P Require Import DhcpParse.

Definition DHCP_COARSE_TIMER_SECS : Z := 60.
Definition DHCP_FINE_TIMER_MSECS : Z := 500.
Definition DHCP_MAX_MSG_LEN_MIN_REQUIRED : Z := 576.
Definition DHCP_MIN_REPLY_LEN : Z := 44.
Definition REBOOT_TRIES : Z := 2.
Definition DHCP_SERVER_PORT : Z := 67.
Definition DHCP_CHADDR_LEN : nat := 16.
Definition NETIF_MAX_HWADDR_LEN : nat := 6.
Definition DHCP_OPTIONS_LEN : Z := 68.
Definition DHCP_MIN_OPTIONS_LEN : Z := 68.
Definition SIZEOF_DHCP_MSG : Z := 308.
Definition SIZEOF_DHCP : Z := 64.
Definition DHCP_BOOTREQUEST : Z := 1.
Definition DHCP_BOOTREPLY : Z := 2.
Definition DHCP_DISCOVER : Z := 1.
Definition DHCP_OFFER : Z := 2.
Definition DHCP_REQUEST : Z := 3.
Definition DHCP_DECLINE : Z := 4.
Definition DHCP_ACK : Z := 5.
Definition DHCP_NAK : Z := 6.
Definition DHCP_RELEASE : Z := 7.
Definition DHCP_INFORM : Z := 8.
Definition DHCP_HTYPE_ETH : Z := 1.
Definition DHCP_MAGIC_COOKIE : Z := 0x63825363.
Definition dhcp_discover_request_options : list Z :=
  [DHCP_OPTION_SUBNET_MASK; DHCP_OPTION_ROUTER; DHCP_OPTION_BROADCAST; DHCP_OPTION_DNS_SERVER].

(** [dhcp_state_enum_t] *)
Inductive dhcp_state := DHCP_STATE_OFF | DHCP_STATE_REQUESTING | DHCP_STATE_INIT | DHCP_STATE_REBOOTING | DHCP_STATE_REBINDING
  | DHCP_STATE_RENEWING | DHCP_STATE_SELECTING | DHCP_STATE_INFORMING | DHCP_STATE_CHECKING | DHCP_STATE_PERMANENT | DHCP_STATE_BOUND
  | DHCP_STATE_RELEASING | DHCP_STATE_BACKING_OFF.
#[export] Instance dhcp_state_eq_dec : EqDecision dhcp_state.
Proof. solve_decision. Defined.

(** [struct dhcp]; pointers are addresses. *)
Record dhcp := mk_dhcp {
    dh_xid : Z; dh_msg_in : Z; dh_pcb_allocated : Z; dh_state : dhcp_state; dh_tries : Z; dh_subnet_mask_given
  : Z; dh_p_out : Z; dh_msg_out : Z; dh_options_out_len : Z; dh_request_timeout : Z; dh_t1_timeout : Z;
  dh_t2_timeout : Z; dh_t1_renew_time : Z; dh_t2_rebind_time : Z; dh_lease_used : Z; dh_t0_timeout : Z;
  dh_server_ip_addr : Z; dh_offered_ip_addr : Z; dh_offered_sn_mask : Z; dh_offered_gw_addr : Z;
  dh_offered_t0_lease : Z; dh_offered_t1_renew : Z; dh_offered_t2_rebind : Z }.

Definition with_xid (v : Z) (x : dhcp) : dhcp := mk_dhcp v (dh_msg_in x) (dh_pcb_allocated x) (dh_state x) (dh_tries x) (dh_subnet_mask_given x)
  (dh_p_out x) (dh_msg_out x) (dh_options_out_len x) (dh_request_timeout x) (dh_t1_timeout x) (dh_t2_timeout x) (dh_t1_renew_time x)
  (dh_t2_rebind_time x) (dh_lease_used x) (dh_t0_timeout x) (dh_server_ip_addr x) (dh_offered_ip_addr x) (dh_offered_sn_mask x) (dh_offered_gw_addr x)
  (dh_offered_t0_lease x) (dh_offered_t1_renew x) (dh_offered_t2_rebind x).
Definition with_msg_in (v : Z) (x : dhcp) : dhcp := mk_dhcp (dh_xid x) v (dh_pcb_allocated x) (dh_state x) (dh_tries x) (dh_subnet_mask_given x)
  (dh_p_out x) (dh_msg_out x) (dh_options_out_len x) (dh_request_timeout x) (dh_t1_timeout x) (dh_t2_timeout x) (dh_t1_renew_time x)
  (dh_t2_rebind_time x) (dh_lease_used x) (dh_t0_timeout x) (dh_server_ip_addr x) (dh_offered_ip_addr x) (dh_offered_sn_mask x) (dh_offered_gw_addr x)
  (dh_offered_t0_lease x) (dh_offered_t1_renew x) (dh_offered_t2_rebind x).
Definition with_pcb_allocated (v : Z) (x : dhcp) : dhcp := mk_dhcp (dh_xid x) (dh_msg_in x) v (dh_state x) (dh_tries x) (dh_subnet_mask_given x)
  (dh_p_out x) (dh_msg_out x) (dh_options_out_len x) (dh_request_timeout x) (dh_t1_timeout x) (dh_t2_timeout x) (dh_t1_renew_time x)
  (dh_t2_rebind_time x) (dh_lease_used x) (dh_t0_timeout x) (dh_server_ip_addr x) (dh_offered_ip_addr x) (dh_offered_sn_mask x) (dh_offered_gw_addr x)
  (dh_offered_t0_lease x) (dh_offered_t1_renew x) (dh_offered_t2_rebind x).
Definition with_state (v : dhcp_state) (x : dhcp) : dhcp := mk_dhcp (dh_xid x) (dh_msg_in x) (dh_pcb_allocated x) v (dh_tries x) (dh_subnet_mask_given
  x) (dh_p_out x) (dh_msg_out x) (dh_options_out_len x) (dh_request_timeout x) (dh_t1_timeout x) (dh_t2_timeout x) (dh_t1_renew_time x)
  (dh_t2_rebind_time x) (dh_lease_used x) (dh_t0_timeout x) (dh_server_ip_addr x) (dh_offered_ip_addr x) (dh_offered_sn_mask x) (dh_offered_gw_addr x)
  (dh_offered_t0_lease x) (dh_offered_t1_renew x) (dh_offered_t2_rebind x).
Definition with_tries (v : Z) (x : dhcp) : dhcp := mk_dhcp (dh_xid x) (dh_msg_in x) (dh_pcb_allocated x) (dh_state x) v (dh_subnet_mask_given x)
  (dh_p_out x) (dh_msg_out x) (dh_options_out_len x) (dh_request_timeout x) (dh_t1_timeout x) (dh_t2_timeout x) (dh_t1_renew_time x)
  (dh_t2_rebind_time x) (dh_lease_used x) (dh_t0_timeout x) (dh_server_ip_addr x) (dh_offered_ip_addr x) (dh_offered_sn_mask x) (dh_offered_gw_addr x)
  (dh_offered_t0_lease x) (dh_offered_t1_renew x) (dh_offered_t2_rebind x).
Definition with_subnet_mask_given (v : Z) (x : dhcp) : dhcp := mk_dhcp (dh_xid x) (dh_msg_in x) (dh_pcb_allocated x) (dh_state x) (dh_tries x) v
  (dh_p_out x) (dh_msg_out x) (dh_options_out_len x) (dh_request_timeout x) (dh_t1_timeout x) (dh_t2_timeout x) (dh_t1_renew_time x)
  (dh_t2_rebind_time x) (dh_lease_used x) (dh_t0_timeout x) (dh_server_ip_addr x) (dh_offered_ip_addr x) (dh_offered_sn_mask x) (dh_offered_gw_addr x)
  (dh_offered_t0_lease x) (dh_offered_t1_renew x) (dh_offered_t2_rebind x).
Definition with_p_out (v : Z) (x : dhcp) : dhcp := mk_dhcp (dh_xid x) (dh_msg_in x) (dh_pcb_allocated x) (dh_state x) (dh_tries x)
  (dh_subnet_mask_given x) v (dh_msg_out x) (dh_options_out_len x) (dh_request_timeout x) (dh_t1_timeout x) (dh_t2_timeout x) (dh_t1_renew_time x)
  (dh_t2_rebind_time x) (dh_lease_used x) (dh_t0_timeout x) (dh_server_ip_addr x) (dh_offered_ip_addr x) (dh_offered_sn_mask x) (dh_offered_gw_addr x)
  (dh_offered_t0_lease x) (dh_offered_t1_renew x) (dh_offered_t2_rebind x).
Definition with_msg_out (v : Z) (x : dhcp) : dhcp := mk_dhcp (dh_xid x) (dh_msg_in x) (dh_pcb_allocated x) (dh_state x) (dh_tries x)
  (dh_subnet_mask_given x) (dh_p_out x) v (dh_options_out_len x) (dh_request_timeout x) (dh_t1_timeout x) (dh_t2_timeout x) (dh_t1_renew_time x)
  (dh_t2_rebind_time x) (dh_lease_used x) (dh_t0_timeout x) (dh_server_ip_addr x) (dh_offered_ip_addr x) (dh_offered_sn_mask x) (dh_offered_gw_addr x)
  (dh_offered_t0_lease x) (dh_offered_t1_renew x) (dh_offered_t2_rebind x).
Definition with_options_out_len (v : Z) (x : dhcp) : dhcp := mk_dhcp (dh_xid x) (dh_msg_in x) (dh_pcb_allocated x) (dh_state x) (dh_tries x)
  (dh_subnet_mask_given x) (dh_p_out x) (dh_msg_out x) v (dh_request_timeout x) (dh_t1_timeout x) (dh_t2_timeout x) (dh_t1_renew_time x)
  (dh_t2_rebind_time x) (dh_lease_used x) (dh_t0_timeout x) (dh_server_ip_addr x) (dh_offered_ip_addr x) (dh_offered_sn_mask x) (dh_offered_gw_addr x)
  (dh_offered_t0_lease x) (dh_offered_t1_renew x) (dh_offered_t2_rebind x).
Definition with_request_timeout (v : Z) (x : dhcp) : dhcp := mk_dhcp (dh_xid x) (dh_msg_in x) (dh_pcb_allocated x) (dh_state x) (dh_tries x)
  (dh_subnet_mask_given x) (dh_p_out x) (dh_msg_out x) (dh_options_out_len x) v (dh_t1_timeout x) (dh_t2_timeout x) (dh_t1_renew_time x)
  (dh_t2_rebind_time x) (dh_lease_used x) (dh_t0_timeout x) (dh_server_ip_addr x) (dh_offered_ip_addr x) (dh_offered_sn_mask x) (dh_offered_gw_addr x)
  (dh_offered_t0_lease x) (dh_offered_t1_renew x) (dh_offered_t2_rebind x).
Definition with_t1_timeout (v : Z) (x : dhcp) : dhcp := mk_dhcp (dh_xid x) (dh_msg_in x) (dh_pcb_allocated x) (dh_state x) (dh_tries x)
  (dh_subnet_mask_given x) (dh_p_out x) (dh_msg_out x) (dh_options_out_len x) (dh_request_timeout x) v (dh_t2_timeout x) (dh_t1_renew_time x)
  (dh_t2_rebind_time x) (dh_lease_used x) (dh_t0_timeout x) (dh_server_ip_addr x) (dh_offered_ip_addr x) (dh_offered_sn_mask x) (dh_offered_gw_addr x)
  (dh_offered_t0_lease x) (dh_offered_t1_renew x) (dh_offered_t2_rebind x).
Definition with_t2_timeout (v : Z) (x : dhcp) : dhcp := mk_dhcp (dh_xid x) (dh_msg_in x) (dh_pcb_allocated x) (dh_state x) (dh_tries x)
  (dh_subnet_mask_given x) (dh_p_out x) (dh_msg_out x) (dh_options_out_len x) (dh_request_timeout x) (dh_t1_timeout x) v (dh_t1_renew_time x)
  (dh_t2_rebind_time x) (dh_lease_used x) (dh_t0_timeout x) (dh_server_ip_addr x) (dh_offered_ip_addr x) (dh_offered_sn_mask x) (dh_offered_gw_addr x)
  (dh_offered_t0_lease x) (dh_offered_t1_renew x) (dh_offered_t2_rebind x).
Definition with_t1_renew_time (v : Z) (x : dhcp) : dhcp := mk_dhcp (dh_xid x) (dh_msg_in x) (dh_pcb_allocated x) (dh_state x) (dh_tries x)
  (dh_subnet_mask_given x) (dh_p_out x) (dh_msg_out x) (dh_options_out_len x) (dh_request_timeout x) (dh_t1_timeout x) (dh_t2_timeout x) v
  (dh_t2_rebind_time x) (dh_lease_used x) (dh_t0_timeout x) (dh_server_ip_addr x) (dh_offered_ip_addr x) (dh_offered_sn_mask x) (dh_offered_gw_addr x)
  (dh_offered_t0_lease x) (dh_offered_t1_renew x) (dh_offered_t2_rebind x).
Definition with_t2_rebind_time (v : Z) (x : dhcp) : dhcp := mk_dhcp (dh_xid x) (dh_msg_in x) (dh_pcb_allocated x) (dh_state x) (dh_tries x)
  (dh_subnet_mask_given x) (dh_p_out x) (dh_msg_out x) (dh_options_out_len x) (dh_request_timeout x) (dh_t1_timeout x) (dh_t2_timeout x)
  (dh_t1_renew_time x) v (dh_lease_used x) (dh_t0_timeout x) (dh_server_ip_addr x) (dh_offered_ip_addr x) (dh_offered_sn_mask x) (dh_offered_gw_addr
  x) (dh_offered_t0_lease x) (dh_offered_t1_renew x) (dh_offered_t2_rebind x).
Definition with_lease_used (v : Z) (x : dhcp) : dhcp := mk_dhcp (dh_xid x) (dh_msg_in x) (dh_pcb_allocated x) (dh_state x) (dh_tries x)
  (dh_subnet_mask_given x) (dh_p_out x) (dh_msg_out x) (dh_options_out_len x) (dh_request_timeout x) (dh_t1_timeout x) (dh_t2_timeout x)
  (dh_t1_renew_time x) (dh_t2_rebind_time x) v (dh_t0_timeout x) (dh_server_ip_addr x) (dh_offered_ip_addr x) (dh_offered_sn_mask x)
  (dh_offered_gw_addr x) (dh_offered_t0_lease x) (dh_offered_t1_renew x) (dh_offered_t2_rebind x).
Definition with_t0_timeout (v : Z) (x : dhcp) : dhcp := mk_dhcp (dh_xid x) (dh_msg_in x) (dh_pcb_allocated x) (dh_state x) (dh_tries x)
  (dh_subnet_mask_given x) (dh_p_out x) (dh_msg_out x) (dh_options_out_len x) (dh_request_timeout x) (dh_t1_timeout x) (dh_t2_timeout x)
  (dh_t1_renew_time x) (dh_t2_rebind_time x) (dh_lease_used x) v (dh_server_ip_addr x) (dh_offered_ip_addr x) (dh_offered_sn_mask x)
  (dh_offered_gw_addr x) (dh_offered_t0_lease x) (dh_offered_t1_renew x) (dh_offered_t2_rebind x).
Definition with_server_ip_addr (v : Z) (x : dhcp) : dhcp := mk_dhcp (dh_xid x) (dh_msg_in x) (dh_pcb_allocated x) (dh_state x) (dh_tries x)
  (dh_subnet_mask_given x) (dh_p_out x) (dh_msg_out x) (dh_options_out_len x) (dh_request_timeout x) (dh_t1_timeout x) (dh_t2_timeout x)
  (dh_t1_renew_time x) (dh_t2_rebind_time x) (dh_lease_used x) (dh_t0_timeout x) v (dh_offered_ip_addr x) (dh_offered_sn_mask x) (dh_offered_gw_addr
  x) (dh_offered_t0_lease x) (dh_offered_t1_renew x) (dh_offered_t2_rebind x).
Definition with_offered_ip_addr (v : Z) (x : dhcp) : dhcp := mk_dhcp (dh_xid x) (dh_msg_in x) (dh_pcb_allocated x) (dh_state x) (dh_tries x)
  (dh_subnet_mask_given x) (dh_p_out x) (dh_msg_out x) (dh_options_out_len x) (dh_request_timeout x) (dh_t1_timeout x) (dh_t2_timeout x)
  (dh_t1_renew_time x) (dh_t2_rebind_time x) (dh_lease_used x) (dh_t0_timeout x) (dh_server_ip_addr x) v (dh_offered_sn_mask x) (dh_offered_gw_addr x)
  (dh_offered_t0_lease x) (dh_offered_t1_renew x) (dh_offered_t2_rebind x).
Definition with_offered_sn_mask (v : Z) (x : dhcp) : dhcp := mk_dhcp (dh_xid x) (dh_msg_in x) (dh_pcb_allocated x) (dh_state x) (dh_tries x)
  (dh_subnet_mask_given x) (dh_p_out x) (dh_msg_out x) (dh_options_out_len x) (dh_request_timeout x) (dh_t1_timeout x) (dh_t2_timeout x)
  (dh_t1_renew_time x) (dh_t2_rebind_time x) (dh_lease_used x) (dh_t0_timeout x) (dh_server_ip_addr x) (dh_offered_ip_addr x) v (dh_offered_gw_addr x)
  (dh_offered_t0_lease x) (dh_offered_t1_renew x) (dh_offered_t2_rebind x).
Definition with_offered_gw_addr (v : Z) (x : dhcp) : dhcp := mk_dhcp (dh_xid x) (dh_msg_in x) (dh_pcb_allocated x) (dh_state x) (dh_tries x)
  (dh_subnet_mask_given x) (dh_p_out x) (dh_msg_out x) (dh_options_out_len x) (dh_request_timeout x) (dh_t1_timeout x) (dh_t2_timeout x)
  (dh_t1_renew_time x) (dh_t2_rebind_time x) (dh_lease_used x) (dh_t0_timeout x) (dh_server_ip_addr x) (dh_offered_ip_addr x) (dh_offered_sn_mask x) v
  (dh_offered_t0_lease x) (dh_offered_t1_renew x) (dh_offered_t2_rebind x).
Definition with_offered_t0_lease (v : Z) (x : dhcp) : dhcp := mk_dhcp (dh_xid x) (dh_msg_in x) (dh_pcb_allocated x) (dh_state x) (dh_tries x)
  (dh_subnet_mask_given x) (dh_p_out x) (dh_msg_out x) (dh_options_out_len x) (dh_request_timeout x) (dh_t1_timeout x) (dh_t2_timeout x)
  (dh_t1_renew_time x) (dh_t2_rebind_time x) (dh_lease_used x) (dh_t0_timeout x) (dh_server_ip_addr x) (dh_offered_ip_addr x) (dh_offered_sn_mask x)
  (dh_offered_gw_addr x) v (dh_offered_t1_renew x) (dh_offered_t2_rebind x).
Definition with_offered_t1_renew (v : Z) (x : dhcp) : dhcp := mk_dhcp (dh_xid x) (dh_msg_in x) (dh_pcb_allocated x) (dh_state x) (dh_tries x)
  (dh_subnet_mask_given x) (dh_p_out x) (dh_msg_out x) (dh_options_out_len x) (dh_request_timeout x) (dh_t1_timeout x) (dh_t2_timeout x)
  (dh_t1_renew_time x) (dh_t2_rebind_time x) (dh_lease_used x) (dh_t0_timeout x) (dh_server_ip_addr x) (dh_offered_ip_addr x) (dh_offered_sn_mask x)
  (dh_offered_gw_addr x) (dh_offered_t0_lease x) v (dh_offered_t2_rebind x).
Definition with_offered_t2_rebind (v : Z) (x : dhcp) : dhcp := mk_dhcp (dh_xid x) (dh_msg_in x) (dh_pcb_allocated x) (dh_state x) (dh_tries x)
  (dh_subnet_mask_given x) (dh_p_out x) (dh_msg_out x) (dh_options_out_len x) (dh_request_timeout x) (dh_t1_timeout x) (dh_t2_timeout x)
  (dh_t1_renew_time x) (dh_t2_rebind_time x) (dh_lease_used x) (dh_t0_timeout x) (dh_server_ip_addr x) (dh_offered_ip_addr x) (dh_offered_sn_mask x)
  (dh_offered_gw_addr x) (dh_offered_t0_lease x) (dh_offered_t1_renew x) v.

(** [memset(dhcp, 0, sizeof(struct dhcp))] *)
Definition dhcp0 : dhcp := mk_dhcp 0 0 0 DHCP_STATE_OFF 0 0 0 0 0 0 0 0 0 0 0 0 0 0 0 0 0 0 0.

(** The variables of the module: the PCB and its users, the static variable [xid] of
    [dhcp_create_msg], the options of the reply, and the clients at their addresses. *)
Record dhcp_vars := mk_dhv {
  dhcp_pcb : Z; dhcp_pcb_refcount : Z; dhcp_xid : Z; dhcp_rx : rx_options; dhcp_clients : gmap Z dhcp }.
Definition set_dhcp_pcb v x := mk_dhv v (dhcp_pcb_refcount x) (dhcp_xid x) (dhcp_rx x) (dhcp_clients x).
Definition set_refcount v x := mk_dhv (dhcp_pcb x) v (dhcp_xid x) (dhcp_rx x) (dhcp_clients x).
Definition set_xid v x := mk_dhv (dhcp_pcb x) (dhcp_pcb_refcount x) v (dhcp_rx x) (dhcp_clients x).
Definition set_rx v x := mk_dhv (dhcp_pcb x) (dhcp_pcb_refcount x) (dhcp_xid x) v (dhcp_clients x).
Definition set_clients v x := mk_dhv (dhcp_pcb x) (dhcp_pcb_refcount x) (dhcp_xid x) (dhcp_rx x) v.

(** The state of the stack with the variables of DHCP and DNS. *)
#[local] Abbreviation ext Y := (arp_part * (netif_part * (dhcp_vars * (dns_vars * Y))))%type.
#[export] Instance dhcp_dns_store {Y} : dns_store (ext Y).
Proof. by refine {| dns_get x := x.2.2.2.1; dns_put x v := (x.1, (x.2.1, (x.2.2.1, (v, x.2.2.2.2)))) |}. Defined.

(** The times of the requests in milliseconds, by the number of tries. *)
Definition backoff_long (tries : Z) : Z := (if tries <? 6 then Z.shiftl 1 tries else 60) * 1000.
Definition backoff_renew (tries : Z) : Z := if tries <? 10 then tries * 2000 else 20 * 1000.
Definition backoff_short (tries : Z) : Z := if tries <? 10 then tries * 1000 else 10 * 1000.

(** The timers of [dhcp_bind], in minutes. *)
Definition lease_ticks (secs : Z) : Z :=
  let timeout := u32 (secs + DHCP_COARSE_TIMER_SECS / 2) / DHCP_COARSE_TIMER_SECS in
  let timeout := u16 (if 0xffff <? timeout then 0xffff else timeout) in
  if timeout =? 0 then 1 else timeout.

Section Dhcp.
Context {Y : Type}.
#[local] Abbreviation W := (world (ext Y)).
Context (netif_output : W -> Z -> Z -> Z -> option (W * Z)).
Context (custom_free : pstate -> Z -> pstate) (fuel : nat) (linkoutput : Z -> pstate -> Z -> pstate * Z).
Context (rand : W -> W * Z) (callback : Z -> W -> Z -> option W) (tcp_netif_ip_addr_changed : W -> Z -> Z -> option W).
(** The member [hostname] of an interface, and the addresses of [dhcp_recv] and of local
    variables: the client of [dhcp_inform] and [value] of [dhcp_parse_reply]. *)
Context (hostname : Z -> Z) (dhcp_recv_fn dhcp_local value : Z).
Implicit Types w : W.

Definition dhv w : dhcp_vars := (w_ext w).2.2.1.
Definition upd_dhv w (f : dhcp_vars -> dhcp_vars) : W :=
  set_ext w ((w_ext w).1, ((w_ext w).2.1, (f (dhv w), (w_ext w).2.2.2))).
Definition dh w (d : Z) : dhcp := default dhcp0 (dhcp_clients (dhv w) !! d).
Definition put_dh w (d : Z) (x : dhcp) : W := upd_dhv w (fun v => set_clients (<[d := x]> (dhcp_clients v)) v).
Definition upd_dh w (d : Z) (f : dhcp -> dhcp) : W := put_dh w d (f (dh w d)).

(** [netif_dhcp_data(netif)]; [client] is for the code that uses the pointer unchecked. *)
Definition netif_dhcp_data w (nif : Z) : Z := ni_dhcp (info w nif).
Definition client w (nif : Z) : option Z := let d := netif_dhcp_data w nif in if d =? NULL then None else Some d.
Definition set_dhcp_data w (nif d : Z) : W :=
  let i := info w nif in
  set_info w nif (mk_info (ni_name i) (ni_num i) (ni_state i) (ni_input i) d (ni_status_callback i) (ni_link_callback i) (ni_mac_filter i)).
Definition state_is w (d : Z) (s : dhcp_state) : bool := bool_decide (dh_state (dh w d) = s).

Definition set_addr w (nif ip mask gw : Z) : option W :=
  netif_set_addr custom_free fuel linkoutput rand callback tcp_netif_ip_addr_changed w nif (Some ip) (Some mask) (Some gw).

(** [dhcp_set_state(dhcp, new_state)] *)
Definition dhcp_set_state w (d : Z) (new_state : dhcp_state) : W :=
  if negb (state_is w d new_state) then upd_dh w d (fun x => with_request_timeout 0 (with_tries 0 (with_state new_state x))) else w.

(** [dhcp_inc_pcb_refcount], [dhcp_dec_pcb_refcount]; [SOF_BROADCAST] is not looked at. *)
Definition dhcp_inc_pcb_refcount w : option (W * Z) :=
  let inc w := Some (upd_dhv w (fun v => set_refcount (u8 (dhcp_pcb_refcount v + 1)) v), ERR_OK) in
  if dhcp_pcb_refcount (dhv w) =? 0 then
    let '(w, pcb) := udp_new w in
    let w := upd_dhv w (set_dhcp_pcb pcb) in
    if pcb =? NULL then Some (w, ERR_MEM)
    else
      '(w, _) ← udp_bind w pcb (Some IPADDR_ANY) DHCP_CLIENT_PORT;
      '(w, _) ← udp_connect w pcb (Some IPADDR_ANY) DHCP_SERVER_PORT;
      inc (udp_recv w pcb dhcp_recv_fn NULL)
  else inc w.
Definition dhcp_dec_pcb_refcount w : W :=
  let w := upd_dhv w (fun v => set_refcount (u8 (dhcp_pcb_refcount v - 1)) v) in
  if dhcp_pcb_refcount (dhv w) =? 0 then upd_dhv (udp_remove w (dhcp_pcb (dhv w))) (set_dhcp_pcb NULL) else w.

(** ** Messages *)

(** [dhcp_option_byte], [dhcp_option], [dhcp_option_short], [dhcp_option_long] *)
Definition dhcp_option_byte w (d v : Z) : W :=
  let x := dh w d in
  let w := set_wmem w (upd (wmem w) (dh_msg_out x + DHCP_OPTIONS_OFS + dh_options_out_len x) (u8 v)) in
  upd_dh w d (with_options_out_len (u16 (dh_options_out_len x + 1))).
Definition dhcp_option w (d option_type option_len : Z) : W := dhcp_option_byte (dhcp_option_byte w d option_type) d option_len.
Definition dhcp_option_short w (d v : Z) : W :=
  dhcp_option_byte (dhcp_option_byte w d (Z.shiftr (Z.land v 0xff00) 8)) d (Z.land v 0x00ff).
Definition dhcp_option_long w (d v : Z) : W :=
  let w := dhcp_option_byte w d (Z.shiftr (Z.land v 0xff000000) 24) in
  let w := dhcp_option_byte w d (Z.shiftr (Z.land v 0x00ff0000) 16) in
  let w := dhcp_option_byte w d (Z.shiftr (Z.land v 0x0000ff00) 8) in
  dhcp_option_byte w d (Z.land v 0x000000ff).

(** [dhcp_option_hostname(dhcp, netif)] *)
Definition dhcp_option_hostname w (d nif : Z) : option W :=
  let h := hostname nif in
  if negb (h =? NULL) then
    namelen ← strlen fuel (wmem w) h;
    if 0 <? namelen then
      let available := u32 (DHCP_OPTIONS_LEN - dh_options_out_len (dh w d) - 3) in
      let len := Z.min namelen available in
      let w := dhcp_option w d DHCP_OPTION_HOSTNAME (u8 len) in
      Some (foldl (fun w i => dhcp_option_byte w d (wmem w (h + i))) w (seqZ 0 len))
    else Some w
  else Some w.

(** [dhcp_option_trailer(dhcp)]: the options have room for 68 bytes, which bounds the loop. *)
Definition dhcp_option_trailer w (d : Z) : option W :=
  loop 69 (fun w =>
    let n := dh_options_out_len (dh w d) in
    if ((n <? DHCP_MIN_OPTIONS_LEN) || negb (Z.land n 3 =? 0)) && (n <? DHCP_OPTIONS_LEN) then inl (dhcp_option_byte w d 0) else inr w)
    (dhcp_option_byte w d DHCP_OPTION_END).

(** The list of options that are asked for. *)
Definition dhcp_parameter_list w (d : Z) : W :=
  foldl (fun w v => dhcp_option_byte w d v)
    (dhcp_option w d DHCP_OPTION_PARAMETER_REQUEST_LIST (Z.of_nat (length dhcp_discover_request_options))) dhcp_discover_request_options.
Definition dhcp_max_msg_size w (d size : Z) : W := dhcp_option_short (dhcp_option w d DHCP_OPTION_MAX_MSG_SIZE 2) d size.
Definition dhcp_option_addr w (d type addr : Z) : W := dhcp_option_long (dhcp_option w d type 4) d (lwip_htonl addr).

(** [dhcp_create_msg(netif, dhcp, message_type)]: the fixed fields. *)
Definition dhcp_chaddr (n : netif) : list Z :=
  map (fun i => if (Z.of_nat i <? netif_hwaddr_len n) && (i <? NETIF_MAX_HWADDR_LEN)%nat then nth i (netif_hwaddr n) 0 else 0) (seq 0 DHCP_CHADDR_LEN).
Definition dhcp_write_msg (m : memory) (msg : Z) (n : netif) (xid : Z) (ciaddr : option Z) : memory :=
  let m := upd m msg DHCP_BOOTREQUEST in
  let m := upd m (msg + 1) DHCP_HTYPE_ETH in
  let m := upd m (msg + 2) (netif_hwaddr_len n) in
  let m := upd m (msg + 3) 0 in
  let m := st32 m (msg + 4) (lwip_htonl xid) in
  let m := st16 m (msg + 8) 0 in
  let m := st16 m (msg + 10) 0 in
  let m := st32 m (msg + 12) 0 in
  let m := match ciaddr with Some a => st32 m (msg + 12) a | None => m end in
  let m := st32 m (msg + 16) 0 in
  let m := st32 m (msg + 20) 0 in
  let m := st32 m (msg + 24) 0 in
  let m := write_bytes m (msg + 28) (dhcp_chaddr n) in
  let m := write_bytes m (msg + DHCP_SNAME_OFS) (replicate (Z.to_nat DHCP_SNAME_LEN) 0) in
  let m := write_bytes m (msg + DHCP_FILE_OFS) (replicate (Z.to_nat DHCP_FILE_LEN) 0) in
  let m := st32 m (msg + 236) (PP_HTONL DHCP_MAGIC_COOKIE) in
  write_bytes m (msg + DHCP_OPTIONS_OFS) (map Z.of_nat (seq 0 (Z.to_nat DHCP_OPTIONS_LEN))).
Definition dhcp_new_xid w (d message_type : Z) : W :=
  if negb (message_type =? DHCP_REQUEST) then
    let w := if dh_tries (dh w d) =? 0 then let '(w, r) := rand w in upd_dhv w (set_xid (u32 r)) else w in
    upd_dh w d (with_xid (dhcp_xid (dhv w)))
  else w.
Definition sends_ciaddr (message_type : Z) (s : dhcp_state) : bool :=
  (message_type =? DHCP_INFORM) || (message_type =? DHCP_DECLINE) || (message_type =? DHCP_RELEASE) ||
  ((message_type =? DHCP_REQUEST) && (bool_decide (s = DHCP_STATE_RENEWING) || bool_decide (s = DHCP_STATE_REBINDING))).
Definition dhcp_create_msg w (nif d message_type : Z) : option (W * Z) :=
  if nif =? NULL then Some (w, ERR_ARG)
  else if d =? NULL then Some (w, ERR_VAL)
  else
    '(st, p) ← pbuf_alloc custom_free fuel (w_ps w) PBUF_TRANSPORT SIZEOF_DHCP_MSG PBUF_RAM;
    let w := upd_dh (set_wps w st) d (with_p_out p) in
    if p =? NULL then Some (w, ERR_MEM)
    else
      let w := dhcp_new_xid w d message_type in
      let w := upd_dh w d (with_msg_out (payload w p)) in
      let x := dh w d in
      let n := netif_of w nif in
      let ciaddr := if sends_ciaddr message_type (dh_state x) then Some (netif_ip_addr n) else None in
      let w := set_wmem w (dhcp_write_msg (wmem w) (dh_msg_out x) n (dh_xid x) ciaddr) in
      let w := upd_dh w d (with_options_out_len 0) in
      Some (dhcp_option_byte (dhcp_option w d DHCP_OPTION_MESSAGE_TYPE 1) d message_type, ERR_OK).

(** [dhcp_delete_msg(dhcp)] *)
Definition dhcp_delete_msg w (d : Z) : option W :=
  if d =? NULL then Some w
  else
    let p := dh_p_out (dh w d) in
    w ← (if negb (p =? NULL) then wfree custom_free fuel w p else Some w);
    Some (upd_dh (upd_dh w d (with_p_out NULL)) d (with_msg_out NULL)).

(** The end of a message: the trailer, the length of the pbuf, [udp_sendto_if_src] from
    address 0 or [udp_sendto_if], and [dhcp_delete_msg]. *)
Definition dhcp_trim_msg w (d : Z) : option W :=
  w ← dhcp_option_trailer w d;
  st ← pbuf_realloc custom_free fuel (w_ps w) (dh_p_out (dh w d)) (u16 (SIZEOF_DHCP_MSG - DHCP_OPTIONS_LEN + dh_options_out_len (dh w d)));
  Some (set_wps w st).
Definition dhcp_send_any w (d nif dst : Z) : option W :=
  w ← dhcp_trim_msg w d;
  '(w, _) ← udp_sendto_if_src netif_output custom_free fuel w (dhcp_pcb (dhv w)) (dh_p_out (dh w d)) (Some dst) DHCP_SERVER_PORT nif IPADDR_ANY;
  dhcp_delete_msg w d.
Definition dhcp_send_own w (d nif dst : Z) : option W :=
  w ← dhcp_trim_msg w d;
  '(w, _) ← udp_sendto_if netif_output custom_free fuel w (dhcp_pcb (dhv w)) (dh_p_out (dh w d)) (Some dst) DHCP_SERVER_PORT nif;
  dhcp_delete_msg w d.

(** The number of tries and the timer of a request. *)
Definition dhcp_set_timeout w (d : Z) (msecs : Z -> Z) : W :=
  let w := if dh_tries (dh w d) <? 255 then upd_dh w d (fun x => with_tries (dh_tries x + 1) x) else w in
  upd_dh w d (fun x => with_request_timeout (u16 ((u16 (msecs (dh_tries x)) + DHCP_FINE_TIMER_MSECS - 1) / DHCP_FINE_TIMER_MSECS)) x).

(** ** The state machine *)

(** [dhcp_discover(netif)] *)
Definition dhcp_discover w (nif : Z) : option (W * Z) :=
  d ← client w nif;
  let w := upd_dh w d (with_offered_ip_addr IPADDR_ANY) in
  let w := dhcp_set_state w d DHCP_STATE_SELECTING in
  '(w, result) ← dhcp_create_msg w nif d DHCP_DISCOVER;
  w ← (if result =? ERR_OK then
         let w := dhcp_max_msg_size w d (netif_mtu (netif_of w nif)) in
         dhcp_send_any (dhcp_parameter_list w d) d nif IPADDR_BROADCAST
       else Some w);
  Some (dhcp_set_timeout w d backoff_long, result).

(** [dhcp_select(netif)] *)
Definition dhcp_select w (nif : Z) : option (W * Z) :=
  d ← client w nif;
  let w := dhcp_set_state w d DHCP_STATE_REQUESTING in
  '(w, result) ← dhcp_create_msg w nif d DHCP_REQUEST;
  w ← (if result =? ERR_OK then
         let w := dhcp_max_msg_size w d (netif_mtu (netif_of w nif)) in
         let w := dhcp_option_addr w d DHCP_OPTION_REQUESTED_IP (dh_offered_ip_addr (dh w d)) in
         let w := dhcp_option_addr w d DHCP_OPTION_SERVER_ID (dh_server_ip_addr (dh w d)) in
         w ← dhcp_option_hostname (dhcp_parameter_list w d) d nif;
         dhcp_send_any w d nif IPADDR_BROADCAST
       else Some w);
  Some (dhcp_set_timeout w d backoff_long, result).

(** [dhcp_decline(netif)] *)
Definition dhcp_decline w (nif : Z) : option (W * Z) :=
  d ← client w nif;
  let w := dhcp_set_state w d DHCP_STATE_BACKING_OFF in
  '(w, result) ← dhcp_create_msg w nif d DHCP_DECLINE;
  w ← (if result =? ERR_OK then
         dhcp_send_any (dhcp_option_addr w d DHCP_OPTION_REQUESTED_IP (dh_offered_ip_addr (dh w d))) d nif IPADDR_BROADCAST
       else Some w);
  Some (dhcp_set_timeout w d (fun _ => 10 * 1000), result).

(** [dhcp_renew(netif)], [dhcp_rebind(netif)], [dhcp_reboot(netif)] *)
Definition dhcp_renew w (nif : Z) : option (W * Z) :=
  d ← client w nif;
  let w := dhcp_set_state w d DHCP_STATE_RENEWING in
  '(w, result) ← dhcp_create_msg w nif d DHCP_REQUEST;
  w ← (if result =? ERR_OK then
         let w := dhcp_max_msg_size w d (netif_mtu (netif_of w nif)) in
         w ← dhcp_option_hostname (dhcp_parameter_list w d) d nif;
         dhcp_send_own w d nif (dh_server_ip_addr (dh w d))
       else Some w);
  Some (dhcp_set_timeout w d backoff_renew, result).
Definition dhcp_rebind w (nif : Z) : option (W * Z) :=
  d ← client w nif;
  let w := dhcp_set_state w d DHCP_STATE_REBINDING in
  '(w, result) ← dhcp_create_msg w nif d DHCP_REQUEST;
  w ← (if result =? ERR_OK then
         let w := dhcp_max_msg_size w d (netif_mtu (netif_of w nif)) in
         w ← dhcp_option_hostname (dhcp_parameter_list w d) d nif;
         dhcp_send_own w d nif IPADDR_BROADCAST
       else Some w);
  Some (dhcp_set_timeout w d backoff_short, result).
Definition dhcp_reboot w (nif : Z) : option (W * Z) :=
  d ← client w nif;
  let w := dhcp_set_state w d DHCP_STATE_REBOOTING in
  '(w, result) ← dhcp_create_msg w nif d DHCP_REQUEST;
  w ← (if result =? ERR_OK then
         let w := dhcp_max_msg_size w d DHCP_MAX_MSG_LEN_MIN_REQUIRED in
         let w := dhcp_option_addr w d DHCP_OPTION_REQUESTED_IP (dh_offered_ip_addr (dh w d)) in
         dhcp_send_own (dhcp_parameter_list w d) d nif IPADDR_BROADCAST
       else Some w);
  Some (dhcp_set_timeout w d backoff_short, result).

(** [dhcp_supplied_address(netif)] *)
Definition dhcp_supplied_address w (nif : Z) : bool :=
  if negb (nif =? NULL) && negb (netif_dhcp_data w nif =? NULL) then
    let d := netif_dhcp_data w nif in state_is w d DHCP_STATE_BOUND || state_is w d DHCP_STATE_RENEWING
  else false.

(** [dhcp_release(netif)] *)
Definition forget_offer (x : dhcp) : dhcp :=
  with_t0_timeout 0 (with_lease_used 0 (with_t2_rebind_time 0 (with_t1_renew_time 0
    (with_offered_t2_rebind 0 (with_offered_t1_renew 0 (with_offered_t0_lease 0
      (with_offered_gw_addr 0 (with_offered_sn_mask 0 (with_offered_ip_addr 0 (with_server_ip_addr 0 x)))))))))).
Definition dhcp_release w (nif : Z) : option (W * Z) :=
  let d := netif_dhcp_data w nif in
  if d =? NULL then Some (w, ERR_ARG)
  else
    let server_ip_addr := dh_server_ip_addr (dh w d) in
    let is_dhcp_supplied_address := dhcp_supplied_address w nif in
    let w := dhcp_set_state w d DHCP_STATE_OFF in
    let w := upd_dh w d forget_offer in
    if negb is_dhcp_supplied_address then Some (w, ERR_OK)
    else
      '(w, result) ← dhcp_create_msg w nif d DHCP_RELEASE;
      w ← (if result =? ERR_OK
           then dhcp_send_own (dhcp_option_addr w d DHCP_OPTION_SERVER_ID server_ip_addr) d nif server_ip_addr
           else Some w);
      w ← set_addr w nif IPADDR_ANY IPADDR_ANY IPADDR_ANY;
      Some (w, result).

(** [dhcp_handle_nak(netif)] *)
Definition dhcp_handle_nak w (nif : Z) : option W :=
  d ← client w nif;
  let w := dhcp_set_state w d DHCP_STATE_BACKING_OFF in
  w ← set_addr w nif IPADDR_ANY IPADDR_ANY IPADDR_ANY;
  fst <$> dhcp_discover w nif.

(** [dhcp_check(netif)]: the address is probed with ARP. *)
Definition dhcp_check w (nif : Z) : option W :=
  d ← client w nif;
  let w := dhcp_set_state w d DHCP_STATE_CHECKING in
  '(es, _) ← etharp_query (ops custom_free fuel) (netif_of w) linkoutput fuel (es_of w) nif (dh_offered_ip_addr (dh w d)) NULL;
  Some (dhcp_set_timeout (put_es w es) d (fun _ => 500)).

(** [dhcp_bind(netif)]: the timers, then the addresses. *)
Definition bind_t0 (x : dhcp) : dhcp :=
  if negb (dh_offered_t0_lease x =? 0xffffffff) then with_t0_timeout (lease_ticks (dh_offered_t0_lease x)) x else x.
Definition bind_t1 (x : dhcp) : dhcp :=
  if negb (dh_offered_t1_renew x =? 0xffffffff)
  then with_t1_renew_time (lease_ticks (dh_offered_t1_renew x)) (with_t1_timeout (lease_ticks (dh_offered_t1_renew x)) x) else x.
Definition bind_t2 (x : dhcp) : dhcp :=
  if negb (dh_offered_t2_rebind x =? 0xffffffff)
  then with_t2_rebind_time (lease_ticks (dh_offered_t2_rebind x)) (with_t2_timeout (lease_ticks (dh_offered_t2_rebind x)) x) else x.
Definition bind_timers (x : dhcp) : dhcp :=
  let x := bind_t2 (bind_t1 (bind_t0 (with_lease_used 0 x))) in
  if (dh_t2_timeout x <=? dh_t1_timeout x) && (0 <? dh_t2_timeout x) then with_t1_timeout 0 x else x.
Definition bind_mask (x : dhcp) : Z :=
  if negb (dh_subnet_mask_given x =? 0) then dh_offered_sn_mask x
  else
    let first_octet := Z.land (dh_offered_ip_addr x) 0xff in
    if first_octet <=? 127 then PP_HTONL 0xff000000
    else if 192 <=? first_octet then PP_HTONL 0xffffff00
    else PP_HTONL 0xffff0000.
Definition bind_gw (x : dhcp) : Z :=
  if ip4_addr_isany (dh_offered_gw_addr x)
  then Z.lor (Z.land (dh_offered_ip_addr x) (bind_mask x)) (PP_HTONL 0x00000001) else dh_offered_gw_addr x.
Definition dhcp_bind w (nif : Z) : option W :=
  let d := netif_dhcp_data w nif in
  if (nif =? NULL) || (d =? NULL) then Some w
  else
    let w := upd_dh w d bind_timers in
    let x := dh w d in
    let w := dhcp_set_state w d DHCP_STATE_BOUND in
    set_addr w nif (dh_offered_ip_addr x) (bind_mask x) (bind_gw x).

(** ** Replies *)

(** [dhcp_handle_offer(netif)]; the field [yiaddr] of the message. *)
Definition DHCP_YIADDR_OFS : Z := 16.
Definition rx_given_at w (idx : nat) : bool := dhcp_option_given (dhcp_rx (dhv w)) idx.
Definition rx_value w (idx : nat) : Z := dhcp_get_option_value (dhcp_rx (dhv w)) idx.
Definition dhcp_handle_offer w (nif : Z) : option W :=
  d ← client w nif;
  if rx_given_at w DHCP_OPTION_IDX_SERVER_ID then
    let w := upd_dh w d (with_server_ip_addr (lwip_htonl (rx_value w DHCP_OPTION_IDX_SERVER_ID))) in
    let w := upd_dh w d (with_offered_ip_addr (ld32 (wmem w) (dh_msg_in (dh w d) + DHCP_YIADDR_OFS))) in
    fst <$> dhcp_select w nif
  else Some w.

(** [dhcp_handle_ack(netif)]: the lease, and the DNS servers. *)
Definition take_lease (rx : rx_options) (yiaddr : Z) (x : dhcp) : dhcp :=
  let given := dhcp_option_given rx in
  let val := dhcp_get_option_value rx in
  let x := with_offered_gw_addr 0 (with_offered_sn_mask 0 x) in
  let x := if given DHCP_OPTION_IDX_LEASE_TIME then with_offered_t0_lease (val DHCP_OPTION_IDX_LEASE_TIME) x else x in
  let x := with_offered_t1_renew (if given DHCP_OPTION_IDX_T1 then val DHCP_OPTION_IDX_T1 else dh_offered_t0_lease x / 2) x in
  let x := with_offered_t2_rebind (if given DHCP_OPTION_IDX_T2 then val DHCP_OPTION_IDX_T2 else u32 (dh_offered_t0_lease x * 7) / 8) x in
  let x := with_offered_ip_addr yiaddr x in
  let x := if given DHCP_OPTION_IDX_SUBNET_MASK
           then with_subnet_mask_given 1 (with_offered_sn_mask (lwip_htonl (val DHCP_OPTION_IDX_SUBNET_MASK)) x)
           else with_subnet_mask_given 0 x in
  if given DHCP_OPTION_IDX_ROUTER then with_offered_gw_addr (lwip_htonl (val DHCP_OPTION_IDX_ROUTER)) x else x.
Fixpoint set_dns_servers w (n : nat) (i : nat) : W :=
  match n with
  | O => w
  | S n =>
      if rx_given_at w (DHCP_OPTION_IDX_DNS_SERVER + i)
      then set_dns_servers (dns_setserver w (Z.of_nat i) (Some (lwip_htonl (rx_value w (DHCP_OPTION_IDX_DNS_SERVER + i))))) n (S i) else w
  end.
Definition dhcp_handle_ack w (nif : Z) : option W :=
  d ← client w nif;
  let w := upd_dh w d (take_lease (dhcp_rx (dhv w)) (ld32 (wmem w) (dh_msg_in (dh w d) + DHCP_YIADDR_OFS))) in
  Some (set_dns_servers w 2 0).

(** The end of [dhcp_recv]: the client forgets the message, which is freed. *)
Definition free_pbuf_and_return w (d p : Z) : option W :=
  wfree custom_free fuel (if negb (d =? NULL) then upd_dh w d (with_msg_in NULL) else w) p.
(** The comparison of the hardware address. *)
Definition chaddr_matches w (nif p : Z) : bool :=
  forallb (fun i => negb ((Z.of_nat i <? netif_hwaddr_len (netif_of w nif)) && (i <? NETIF_MAX_HWADDR_LEN)%nat) ||
                    (nth i (netif_hwaddr (netif_of w nif)) 0 =? wmem w (payload w p + 28 + Z.of_nat i))) (seq 0 DHCP_CHADDR_LEN).
(** What a parsed message does to the client. *)
Definition dhcp_handle_msg w (nif d : Z) : option W :=
  let msg_type := u8 (rx_value w DHCP_OPTION_IDX_MSG_TYPE) in
  if msg_type =? DHCP_ACK then
    if state_is w d DHCP_STATE_REQUESTING then
      w ← dhcp_handle_ack w nif;
      if has_flag w nif NETIF_FLAG_ETHARP then dhcp_check w nif else dhcp_bind w nif
    else if state_is w d DHCP_STATE_REBOOTING || state_is w d DHCP_STATE_REBINDING || state_is w d DHCP_STATE_RENEWING then
      w ← dhcp_handle_ack w nif;
      dhcp_bind w nif
    else Some w
  else if (msg_type =? DHCP_NAK) &&
          (state_is w d DHCP_STATE_REBOOTING || state_is w d DHCP_STATE_REQUESTING || state_is w d DHCP_STATE_REBINDING || state_is w d DHCP_STATE_RENEWING)
  then dhcp_handle_nak w nif
  else if (msg_type =? DHCP_OFFER) && state_is w d DHCP_STATE_SELECTING then dhcp_handle_offer (upd_dh w d (with_request_timeout 0)) nif
  else Some w.
(** [dhcp_recv(arg, pcb, p, addr, port)]; [None] also when the parser reads a pbuf that is
    not there. *)
Definition dhcp_recv w (arg pcb p addr port : Z) : option W :=
  let nif := current_input_netif (ip_data w) in
  let d := netif_dhcp_data w nif in
  if (d =? NULL) || (dh_pcb_allocated (dh w d) =? 0) then free_pbuf_and_return w d p
  else if pb_len (pb (w_ps w) p) <? DHCP_MIN_REPLY_LEN then free_pbuf_and_return w d p
  else if negb (wmem w (payload w p) =? DHCP_BOOTREPLY) then free_pbuf_and_return w d p
  else if negb (chaddr_matches w nif p) then free_pbuf_and_return w d p
  else if negb (lwip_htonl (ld32 (wmem w) (payload w p + 4)) =? dh_xid (dh w d)) then free_pbuf_and_return w d p
  else
    let w := if pb_len (pb (w_ps w) p) <? DHCP_SNAME_OFS then w else upd_dh w d (with_msg_in (payload w p)) in
    r ← dhcp_parse_reply fuel value (w_ps w) (dhcp_rx (dhv w)) p;
    match r with
    | Null_pbuf => None
    | Parsed st rx err =>
        let w := upd_dhv (set_wps w st) (set_rx rx) in
        if negb (err =? ERR_OK) then free_pbuf_and_return w d p
        else if negb (rx_given_at w DHCP_OPTION_IDX_MSG_TYPE) then free_pbuf_and_return w d p
        else
          w ← dhcp_handle_msg w nif d;
          free_pbuf_and_return w d p
    end.

(** ** Timers *)

(** [dhcp_timeout(netif)] *)
Definition dhcp_timeout w (nif : Z) : option W :=
  d ← client w nif;
  let tries := dh_tries (dh w d) in
  match dh_state (dh w d) with
  | DHCP_STATE_BACKING_OFF | DHCP_STATE_SELECTING => fst <$> dhcp_discover w nif
  | DHCP_STATE_REQUESTING =>
      if tries <=? 5 then fst <$> dhcp_select w nif
      else
        '(w, _) ← dhcp_release w nif;
        fst <$> dhcp_discover w nif
  | DHCP_STATE_CHECKING => if tries <=? 1 then dhcp_check w nif else dhcp_bind w nif
  | DHCP_STATE_REBOOTING => if tries <? REBOOT_TRIES then fst <$> dhcp_reboot w nif else fst <$> dhcp_discover w nif
  | _ => Some w
  end.

(** Half of the time that is left, which the code computes with [int]s. *)
Definition half_left (timeout lease_used : Z) : Z := Z.quot (timeout - lease_used) 2.
Definition a_tick : Z := (60 + DHCP_COARSE_TIMER_SECS / 2) / DHCP_COARSE_TIMER_SECS.

(** [dhcp_t1_timeout(netif)], [dhcp_t2_timeout(netif)] *)
Definition dhcp_t1_timeout w (nif : Z) : option W :=
  d ← client w nif;
  if state_is w d DHCP_STATE_REQUESTING || state_is w d DHCP_STATE_BOUND || state_is w d DHCP_STATE_RENEWING then
    '(w, _) ← dhcp_renew w nif;
    let left_ := half_left (dh_t2_timeout (dh w d)) (dh_lease_used (dh w d)) in
    Some (if a_tick <=? left_ then upd_dh w d (with_t1_renew_time (u16 left_)) else w)
  else Some w.
Definition dhcp_t2_timeout w (nif : Z) : option W :=
  d ← client w nif;
  if state_is w d DHCP_STATE_REQUESTING || state_is w d DHCP_STATE_BOUND || state_is w d DHCP_STATE_RENEWING || state_is w d DHCP_STATE_REBINDING then
    '(w, _) ← dhcp_rebind w nif;
    let left_ := half_left (dh_t0_timeout (dh w d)) (dh_lease_used (dh w d)) in
    Some (if a_tick <=? left_ then upd_dh w d (with_t2_rebind_time (u16 left_)) else w)
  else Some w.

(** [dhcp_coarse_tmr()]: the timers of one client are tested in the order of the code, which
    decreases one of them only when those before it have not fired. *)
Definition coarse_netif w (nif : Z) : option W :=
  let d := netif_dhcp_data w nif in
  if (d =? NULL) || state_is w d DHCP_STATE_OFF then Some w
  else
    let t0 := dh_t0_timeout (dh w d) in
    let w := if negb (t0 =? 0) then upd_dh w d (fun x => with_lease_used (u16 (dh_lease_used x + 1)) x) else w in
    if negb (t0 =? 0) && (dh_lease_used (dh w d) =? t0) then
      '(w, _) ← dhcp_release w nif;
      fst <$> dhcp_discover w nif
    else
      let t2 := dh_t2_rebind_time (dh w d) in
      let w := if negb (t2 =? 0) then upd_dh w d (with_t2_rebind_time (u16 (t2 - 1))) else w in
      if t2 =? 1 then dhcp_t2_timeout w nif
      else
        let t1 := dh_t1_renew_time (dh w d) in
        let w := if negb (t1 =? 0) then upd_dh w d (with_t1_renew_time (u16 (t1 - 1))) else w in
        if t1 =? 1 then dhcp_t1_timeout w nif else Some w.
Definition dhcp_coarse_tmr w : option W := foldl (fun ow nif => w ← ow; coarse_netif w nif) (Some w) (netif_list (w_netifs w)).

(** [dhcp_fine_tmr()] *)
Definition fine_netif w (nif : Z) : option W :=
  let d := netif_dhcp_data w nif in
  if negb (d =? NULL) then
    let t := dh_request_timeout (dh w d) in
    if 1 <? t then Some (upd_dh w d (with_request_timeout (t - 1)))
    else if t =? 1 then dhcp_timeout (upd_dh w d (with_request_timeout (t - 1))) nif
    else Some w
  else Some w.
Definition dhcp_fine_tmr w : option W := foldl (fun ow nif => w ← ow; fine_netif w nif) (Some w) (netif_list (w_netifs w)).

(** ** The functions for the application *)

(** [dhcp_set_struct(netif, dhcp)], [dhcp_cleanup(netif)] *)
Definition dhcp_set_struct w (nif d : Z) : W := set_dhcp_data (put_dh w d dhcp0) nif d.
Definition dhcp_cleanup w (nif : Z) : W :=
  let d := netif_dhcp_data w nif in
  if negb (d =? NULL) then
    let w := set_wps w (set_heap (w_ps w) (mem_free (ps_heap (w_ps w)) d)) in
    set_dhcp_data (upd_dhv w (fun v => set_clients (delete d (dhcp_clients v)) v)) nif NULL
  else w.

(** [dhcp_stop(netif)] *)
Definition dhcp_stop w (nif : Z) : W :=
  let d := netif_dhcp_data w nif in
  if (nif =? NULL) || (d =? NULL) then w
  else
    let w := dhcp_set_state w d DHCP_STATE_OFF in
    if negb (dh_pcb_allocated (dh w d) =? 0) then upd_dh (dhcp_dec_pcb_refcount w) d (with_pcb_allocated 0) else w.

(** [dhcp_start(netif)] *)
Definition dhcp_start w (nif : Z) : option (W * Z) :=
  if nif =? NULL then Some (w, ERR_ARG)
  else if negb (netif_is_up (netif_of w nif)) then Some (w, ERR_ARG)
  else if netif_mtu (netif_of w nif) <? DHCP_MAX_MSG_LEN_MIN_REQUIRED then Some (w, ERR_MEM)
  else
    let d := netif_dhcp_data w nif in
    '(w, d) ← (if d =? NULL then
                 '(h, d) ← mem_malloc (ps_heap (w_ps w)) SIZEOF_DHCP;
                 let w := set_wps w (set_heap (w_ps w) h) in
                 Some (if d =? NULL then w else set_dhcp_data w nif d, d)
               else Some (if negb (dh_pcb_allocated (dh w d) =? 0) then dhcp_dec_pcb_refcount w else w, d));
    if d =? NULL then Some (w, ERR_MEM)
    else
      let w := put_dh w d dhcp0 in
      '(w, err) ← dhcp_inc_pcb_refcount w;
      if negb (err =? ERR_OK) then Some (w, ERR_MEM)
      else
        let w := upd_dh w d (with_pcb_allocated 1) in
        '(w, result) ← dhcp_discover w nif;
        if negb (result =? ERR_OK) then Some (dhcp_stop w nif, ERR_MEM) else Some (w, result).

(** [dhcp_inform(netif)]: its client is a local variable. *)
Definition dhcp_inform w (nif : Z) : option W :=
  if nif =? NULL then Some w
  else
    '(w, err) ← dhcp_inc_pcb_refcount w;
    if negb (err =? ERR_OK) then Some w
    else
      let w := dhcp_set_state (put_dh w dhcp_local dhcp0) dhcp_local DHCP_STATE_INFORMING in
      '(w, result) ← dhcp_create_msg w nif dhcp_local DHCP_INFORM;
      w ← (if result =? ERR_OK
           then dhcp_send_own (dhcp_max_msg_size w dhcp_local (netif_mtu (netif_of w nif))) dhcp_local nif IPADDR_BROADCAST
           else Some w);
      Some (upd_dhv (dhcp_dec_pcb_refcount w) (fun v => set_clients (delete dhcp_local (dhcp_clients v)) v)).

(** [dhcp_network_changed(netif)] *)
Definition dhcp_network_changed w (nif : Z) : option W :=
  let d := netif_dhcp_data w nif in
  if d =? NULL then Some w
  else
    match dh_state (dh w d) with
    | DHCP_STATE_REBINDING | DHCP_STATE_RENEWING | DHCP_STATE_BOUND | DHCP_STATE_REBOOTING => fst <$> dhcp_reboot (upd_dh w d (with_tries 0)) nif
    | DHCP_STATE_OFF => Some w
    | _ => fst <$> dhcp_discover (upd_dh w d (with_tries 0)) nif
    end.

(** [dhcp_arp_reply(netif, addr)] *)
Definition dhcp_arp_reply w (nif addr : Z) : option W :=
  if nif =? NULL then Some w
  else
    let d := netif_dhcp_data w nif in
    if negb (d =? NULL) && state_is w d DHCP_STATE_CHECKING then
      if addr =? dh_offered_ip_addr (dh w d) then fst <$> dhcp_decline w nif else Some w
    else Some w.

End Dhcp.
