(* ===== verification/DhcpProps.v ===== *)
(** * Properties of the DHCP client

    What a message changes, the state machine, the users of the PCB, the end of a lease and
    the addresses an acknowledged lease sets. *)

From Stdlib Require Import ZArith Lia.
From stdpp Require Import base tactics numbers list option gmap.
From S2P Require Import Prelude.
From S2P Require Import Def.
From S2P Require Import Ip4Addr.
From S2P Require Import Alloc.
From S2P Require Import Mem.
From S2P Require Import Memp.
From S2P Require Import Pbuf.
From S2P Require Import PbufChain.
From S2P Require Import Etharp.
From S2P Require Import World.
From S2P Require Import Ip4Frag.
From S2P Require Import Ip4.
From S2P Require Import Icmp.
From S2P Require Import Igmp.
From S2P Require Import Ip4Reass.
From S2P Require Import Udp.
From S2P Require Import Ip4Input.
From S2P Require Import Stack.
From S2P Require Import Netif.
From S2P Require Import Network.
From S2P Require Import Dns.
From S2P Require Import DhcpParse.
From S2P Require Import Dhcp.

Create HintDb dhcp.
(** An element of a list that is written out. *)
Ltac in_list := first [by left | right; in_list].
#[local] Abbreviation ext Y := (arp_part * (netif_part * (dhcp_vars * (dns_vars * Y))))%type.

(** Opens the next function that [H] calls. *)
Ltac bind H E :=
  match type of H with
  | mbind _ ?e = _ => destruct e eqn:E; [cbn [mbind option_bind] in H|discriminate H]
  end.

(** A client without what belongs to its messages. *)
Definition core (x : dhcp) : dhcp := with_xid 0 (with_options_out_len 0 (with_msg_out NULL (with_p_out NULL x))).
(** No message is in the making. *)
Definition idle (x : dhcp) : Prop := dh_p_out x = NULL /\ dh_msg_out x = NULL.

Section Quiet.
Context {Y : Type}.
#[local] Abbreviation W := (world (ext Y)).
Implicit Types w : W.

Lemma dhv_upd w f : dhv (upd_dhv w f) = f (dhv w).
Proof. done. Qed.
Lemma dh_put w d x d' : dh (put_dh w d x) d' = if d' =? d then x else dh w d'.
Proof.
  unfold dh, put_dh. rewrite dhv_upd. simpl. destruct (Z.eqb_spec d' d) as [->|]; [by rewrite lookup_insert_eq|by rewrite lookup_insert_ne].
Qed.
Lemma dh_upd w d f : dh (upd_dh w d f) d = f (dh w d).
Proof. unfold upd_dh. by rewrite dh_put, Z.eqb_refl. Qed.
Lemma dh_upd_ne w d f d' : d' <> d -> dh (upd_dh w d f) d' = dh w d'.
Proof. intros. unfold upd_dh. by rewrite dh_put, (proj2 (Z.eqb_neq _ _)). Qed.

(** The interfaces and the clients are as they were. *)
Definition same_clients w w' : Prop := dhv w' = dhv w /\ (forall n, info w' n = info w n) /\ w_netifs w' = w_netifs w.
#[global] Instance same_clients_preorder : PreOrder same_clients.
Proof. split; [by intros w|]. intros w1 w2 w3 (H1 & H2 & H3) (H4 & H5 & H6). split_and!; [congruence| |congruence]. intros n. by rewrite H5. Qed.

(** Client [d] may have changed. *)
Record quiet (d : Z) (R : dhcp -> dhcp -> Prop) w w' : Prop := {
  q_client : R (dh w d) (dh w' d);
  q_dom : is_Some (dhcp_clients (dhv w) !! d) -> is_Some (dhcp_clients (dhv w') !! d);
  q_other : forall d', d' <> d -> dhcp_clients (dhv w') !! d' = dhcp_clients (dhv w) !! d';
  q_pcb : dhcp_pcb (dhv w') = dhcp_pcb (dhv w);
  q_refs : dhcp_pcb_refcount (dhv w') = dhcp_pcb_refcount (dhv w);
  q_rx : dhcp_rx (dhv w') = dhcp_rx (dhv w);
  q_info : forall n, info w' n = info w n;
  q_netifs : w_netifs w' = w_netifs w
}.

Lemma same_quiet d w w' : same_clients w w' -> quiet d eq w w'.
Proof. intros (E & H1 & H2). constructor; rewrite ?E; auto. unfold dh. by rewrite E. Qed.

Lemma quiet_trans d (R S T : dhcp -> dhcp -> Prop) w1 w2 w3 :
  (forall x y z, R x y -> S y z -> T x z) -> quiet d R w1 w2 -> quiet d S w2 w3 -> quiet d T w1 w3.
Proof.
  intros HT [] []. constructor; eauto; try congruence. intros d' Hd. rewrite q_other1 by done. auto.
Qed.
Lemma quiet_to d (R S : dhcp -> dhcp -> Prop) w w' : quiet d R w w' -> S (dh w d) (dh w' d) -> quiet d S w w'.
Proof. intros [] HS. by constructor. Qed.
Lemma quiet_mono d (R S : dhcp -> dhcp -> Prop) w w' : (forall x y, R x y -> S x y) -> quiet d R w w' -> quiet d S w w'.
Proof. intros HS []. constructor; auto. Qed.

Lemma quiet_upd d f w : quiet d (fun x y => y = f x) w (upd_dh w d f).
Proof.
  constructor; try done; [by rewrite dh_upd|intros _|intros d' Hd]; unfold upd_dh, put_dh; rewrite dhv_upd; simpl;
    [rewrite lookup_insert_eq; eauto|by rewrite lookup_insert_ne].
Qed.
Lemma quiet_upd2 d f g w : quiet d (fun x y => y = g (f x)) w (upd_dh (upd_dh w d f) d g).
Proof. eapply quiet_trans; [|apply (quiet_upd d f)|apply (quiet_upd d g)]. simpl. by intros x y z -> ->. Qed.
End Quiet.

(** The parts of the client that a message needs. *)
Definition same_core (x y : dhcp) : Prop := core y = core x.
#[export] Instance same_core_preorder : PreOrder same_core.
Proof. split; [done|]. intros x y z H1 H2. unfold same_core in *. congruence. Qed.

(** What entering a state and starting the timer of a request do to a client. *)
Definition enter (s : dhcp_state) (x : dhcp) : dhcp :=
  if decide (dh_state x = s) then x else with_request_timeout 0 (with_tries 0 (with_state s x)).
Definition timed (msecs : Z -> Z) (x : dhcp) : dhcp :=
  let x := if dh_tries x <? 255 then with_tries (dh_tries x + 1) x else x in
  with_request_timeout (u16 ((u16 (msecs (dh_tries x)) + DHCP_FINE_TIMER_MSECS - 1) / DHCP_FINE_TIMER_MSECS)) x.

Lemma core_enter s x : core (enter s x) = enter s (core x).
Proof. unfold enter. change (dh_state (core x)) with (dh_state x). by destruct (decide _). Qed.
Lemma core_timed f x : core (timed f x) = timed f (core x).
Proof. unfold timed. change (dh_tries (core x)) with (dh_tries x). by destruct (_ <? _). Qed.
Lemma idle_enter s x : idle x -> idle (enter s x).
Proof. unfold enter. by destruct (decide _). Qed.
Lemma idle_timed f x : idle x -> idle (timed f x).
Proof. unfold timed. by destruct (_ <? _). Qed.

(** A step of the client: its core, and no message stays behind. *)
Definition becomes (f : dhcp -> dhcp) (x y : dhcp) : Prop := core y = core (f x) /\ (idle x -> idle y).

(** What [bind_timers] does not depend on and does not change. *)
Lemma bind_timers_keeps {A} (g : dhcp -> A) x :
  (forall v x, g (with_lease_used v x) = g x) -> (forall v x, g (with_t0_timeout v x) = g x) -> (forall v x, g (with_t1_timeout v x) = g x) ->
  (forall v x, g (with_t1_renew_time v x) = g x) -> (forall v x, g (with_t2_timeout v x) = g x) -> (forall v x, g (with_t2_rebind_time v x) = g x) ->
  g (bind_timers x) = g x.
Proof.
  intros H1 H2 H3 H4 H5 H6. unfold bind_timers. set (y := bind_t2 _). assert (Hy : g y = g x).
  { unfold y, bind_t2. set (z := bind_t1 _). assert (Hz : g z = g x).
    { unfold z, bind_t1. set (u := bind_t0 _). assert (Hu : g u = g x) by (unfold u, bind_t0; destruct (negb _); rewrite ?H2; apply H1).
      destruct (negb _); [by rewrite H4, H3|done]. }
    destruct (negb _); [by rewrite H6, H5|done]. }
  cbv zeta. destruct (_ && _); [by rewrite H3|done].
Qed.

(** The counters of a client: at most 255 tries, a request of at most 60 seconds, timers of
    16 bits, and a lease that has not ended. *)
Record wf (x : dhcp) : Prop := {
  wf_tries : 0 <= dh_tries x <= 255;
  wf_request : 0 <= dh_request_timeout x <= 120;
  wf_t0 : 0 <= dh_t0_timeout x < 65536;
  wf_t1 : 0 <= dh_t1_timeout x < 65536;
  wf_t2 : 0 <= dh_t2_timeout x < 65536;
  wf_renew : 0 <= dh_t1_renew_time x < 65536;
  wf_rebind : 0 <= dh_t2_rebind_time x < 65536;
  wf_used : 0 <= dh_lease_used x < Z.max 1 (dh_t0_timeout x)
}.
(** A function that keeps them, and the PCB. *)
Definition tame (f : dhcp -> dhcp) : Prop := forall x, dh_pcb_allocated (f x) = dh_pcb_allocated x /\ (wf x -> wf (f x)).

Lemma wf_core x : wf (core x) <-> wf x.
Proof. by split; intros []; constructor. Qed.
Lemma tame_comp f g : tame f -> tame g -> tame (fun x => g (f x)).
Proof. intros Hf Hg x. destruct (Hf x), (Hg (f x)). split; [congruence|auto]. Qed.
Lemma tame_enter s : tame (enter s).
Proof. intros x. unfold enter. destruct (decide _); [done|]. split; [done|]. intros []. constructor; try done; simpl; lia. Qed.
Lemma tame_timed f : (forall n, 0 <= n <= 255 -> 0 <= f n <= 60000) -> tame (timed f).
Proof.
  intros Hf x. unfold timed. split; [by destruct (_ <? _)|]. intros []. set (y := if dh_tries x <? 255 then _ else x). assert (Hy : wf y).
  { unfold y. destruct (Z.ltb_spec (dh_tries x) 255); constructor; try done; simpl; lia. }
  clearbody y. destruct Hy as [H1 _ H3 H4 H5 H6 H7 H8]. constructor; try done. simpl. specialize (Hf (dh_tries y) H1). rewrite (u16_small (f _)) by lia.
  unfold DHCP_FINE_TIMER_MSECS. rewrite u16_small; dm.
Qed.
Lemma backoff_long_range n : 0 <= n <= 255 -> 0 <= backoff_long n <= 60000.
Proof.
  intros Hn. unfold backoff_long. destruct (Z.ltb_spec n 6); [|lia]. assert (n = 0 \/ n = 1 \/ n = 2 \/ n = 3 \/ n = 4 \/ n = 5) by lia.
  destruct_or!; subst; by vm_compute.
Qed.
Lemma backoff_renew_range n : 0 <= n <= 255 -> 0 <= backoff_renew n <= 60000.
Proof. intros Hn. unfold backoff_renew. destruct (Z.ltb_spec n 10); lia. Qed.
Lemma backoff_short_range n : 0 <= n <= 255 -> 0 <= backoff_short n <= 60000.
Proof. intros Hn. unfold backoff_short. destruct (Z.ltb_spec n 10); lia. Qed.
Lemma tame_forget : tame forget_offer.
Proof. intros x. split; [done|]. intros []. constructor; try done; simpl; lia. Qed.
Lemma tame_take_lease rx ip : tame (take_lease rx ip).
Proof.
  intros x. unfold take_lease. cbv zeta. destruct (dhcp_option_given rx DHCP_OPTION_IDX_LEASE_TIME), (dhcp_option_given rx DHCP_OPTION_IDX_SUBNET_MASK),
    (dhcp_option_given rx DHCP_OPTION_IDX_ROUTER); (split; [done|]; intros []; by constructor).
Qed.
Lemma lease_ticks_range n : 1 <= lease_ticks n < 65536.
Proof.
  unfold lease_ticks. cbv zeta. set (t := if 65535 <? _ then _ else _). pose proof (u16_range t). destruct (Z.eqb_spec (u16 t) 0); lia.
Qed.
#[local] Arguments lease_ticks : simpl never.
Lemma tame_bind : tame bind_timers.
Proof.
  intros x. split; [by apply bind_timers_keeps|]. intros H. assert (H0 : wf (bind_t0 (with_lease_used 0 x)) /\ dh_lease_used (bind_t0 (with_lease_used 0 x)) = 0).
  { unfold bind_t0. pose proof (lease_ticks_range (dh_offered_t0_lease x)). destruct H, (negb _); (split; [|done]); constructor; try done; simpl; lia. }
  destruct H0 as [H0 Hu]. assert (H1 : wf (bind_t1 (bind_t0 (with_lease_used 0 x)))).
  { unfold bind_t1. pose proof (lease_ticks_range (dh_offered_t1_renew (bind_t0 (with_lease_used 0 x)))). destruct H0, (negb _); constructor; try done; simpl; lia. }
  unfold bind_timers. cbv zeta. set (y := bind_t2 _). assert (H2 : wf y).
  { unfold y, bind_t2. set (z := bind_t1 _) in *. pose proof (lease_ticks_range (dh_offered_t2_rebind z)). destruct H1, (negb _); constructor; try done; simpl; lia. }
  clearbody y. destruct H2. destruct (_ && _); constructor; try done; simpl; lia.
Qed.

(** ** The state machine *)

Inductive event := Ev_reply | Ev_fine | Ev_coarse | Ev_link | Ev_arp | Ev_start | Ev_stop | Ev_release | Ev_renew.
#[export] Instance event_eq_dec : EqDecision event.
Proof. solve_decision. Defined.
Inductive edge : event -> dhcp_state -> dhcp_state -> Prop :=
| edge_stay e s : e ∈ [Ev_reply; Ev_fine; Ev_coarse; Ev_link; Ev_arp] -> edge e s s
| edge_offer : edge Ev_reply DHCP_STATE_SELECTING DHCP_STATE_REQUESTING
| edge_ack_check : edge Ev_reply DHCP_STATE_REQUESTING DHCP_STATE_CHECKING
| edge_ack_bind s : s ∈ [DHCP_STATE_REQUESTING; DHCP_STATE_REBOOTING; DHCP_STATE_REBINDING; DHCP_STATE_RENEWING] -> edge Ev_reply s DHCP_STATE_BOUND
| edge_nak s : s ∈ [DHCP_STATE_REQUESTING; DHCP_STATE_REBOOTING; DHCP_STATE_REBINDING; DHCP_STATE_RENEWING] -> edge Ev_reply s DHCP_STATE_SELECTING
| edge_again s : s ∈ [DHCP_STATE_BACKING_OFF; DHCP_STATE_REQUESTING; DHCP_STATE_REBOOTING] -> edge Ev_fine s DHCP_STATE_SELECTING
| edge_probed : edge Ev_fine DHCP_STATE_CHECKING DHCP_STATE_BOUND
| edge_t1 s : s ∈ [DHCP_STATE_REQUESTING; DHCP_STATE_BOUND] -> edge Ev_coarse s DHCP_STATE_RENEWING
| edge_t2 s : s ∈ [DHCP_STATE_REQUESTING; DHCP_STATE_BOUND; DHCP_STATE_RENEWING] -> edge Ev_coarse s DHCP_STATE_REBINDING
| edge_expired s : s <> DHCP_STATE_OFF -> edge Ev_coarse s DHCP_STATE_SELECTING
| edge_reboot s : s ∈ [DHCP_STATE_BOUND; DHCP_STATE_REBINDING; DHCP_STATE_RENEWING] -> edge Ev_link s DHCP_STATE_REBOOTING
| edge_restart s : s ∉ [DHCP_STATE_OFF; DHCP_STATE_BOUND; DHCP_STATE_REBINDING; DHCP_STATE_RENEWING; DHCP_STATE_REBOOTING] -> edge Ev_link s DHCP_STATE_SELECTING
| edge_conflict : edge Ev_arp DHCP_STATE_CHECKING DHCP_STATE_BACKING_OFF
| edge_start s : edge Ev_start s DHCP_STATE_SELECTING
| edge_start_refused s : edge Ev_start s s
| edge_start_failed s : edge Ev_start s DHCP_STATE_OFF
| edge_stop s : edge Ev_stop s DHCP_STATE_OFF
| edge_release s : edge Ev_release s DHCP_STATE_OFF
| edge_renew s : edge Ev_renew s DHCP_STATE_RENEWING.

(** A step of a running client. *)
Definition moves (e : event) (x y : dhcp) : Prop :=
  edge e (dh_state x) (dh_state y) /\ dh_pcb_allocated y = dh_pcb_allocated x /\ (idle x -> idle y) /\ (wf x -> wf y).

Lemma becomes_moves e f x y : becomes f x y -> tame f -> edge e (dh_state x) (dh_state (f x)) -> moves e x y.
Proof.
  intros [E Hi] Hf He. destruct (Hf x) as [H1 H2]. pose proof (f_equal dh_state E) as E1. pose proof (f_equal dh_pcb_allocated E) as E2. simpl in E1, E2.
  split_and!; [by rewrite E1|congruence|done|]. intros Hw. rewrite <- wf_core, E, wf_core. auto.
Qed.

Lemma state_enter s x : dh_state (enter s x) = s.
Proof. unfold enter. by destruct (decide _). Qed.
Lemma state_timed f x : dh_state (timed f x) = dh_state x.
Proof. unfold timed. by destruct (_ <? _). Qed.
Lemma state_take_lease rx ip x : dh_state (take_lease rx ip x) = dh_state x.
Proof.
  unfold take_lease. cbv zeta. by destruct (dhcp_option_given rx DHCP_OPTION_IDX_LEASE_TIME), (dhcp_option_given rx DHCP_OPTION_IDX_SUBNET_MASK),
    (dhcp_option_given rx DHCP_OPTION_IDX_ROUTER).
Qed.

Section Messages.
Context {Y : Type}.
#[local] Abbreviation W := (world (ext Y)).
Context (netif_output : W -> Z -> Z -> Z -> option (W * Z)).
Context (custom_free : pstate -> Z -> pstate) (fuel : nat) (linkoutput : Z -> pstate -> Z -> pstate * Z).
Context (rand : W -> W * Z) (callback : Z -> W -> Z -> option W) (tcp_netif_ip_addr_changed : W -> Z -> Z -> option W).
Context (hostname : Z -> Z) (dhcp_recv_fn dhcp_local value : Z).
Implicit Types w : W.

(** What is outside of the client leaves it and the interfaces to it: [netif->output],
    the random numbers, TCP and the status callbacks. *)
Record dhcp_env : Prop := {
  de_output : forall w nif p dest w' r, netif_output w nif p dest = Some (w', r) -> same_clients w w';
  de_rand : forall w, same_clients w (rand w).1;
  de_callback : forall c w nif w', callback c w nif = Some w' -> same_clients w w';
  de_tcp : forall w old new w', tcp_netif_ip_addr_changed w old new = Some w' -> same_clients w w'
}.
Context (Henv : dhcp_env).

#[local] Instance same_keeps w0 : udp_keeps (same_clients w0).
Proof.
  constructor; [constructor; by intros|by intros|]. intros w pcb w' r H _ _ (H1 & H2 & H3). unfold auto_bind in H.
  destruct (_ =? 0); [|injection H as <- _; by split_and!]. pose proof (udp_bind_ext _ _ _ _ _ _ H) as E. pose proof (udp_bind_netifs _ _ _ _ _ _ H) as E2.
  unfold same_clients, dhv, info in *. rewrite E, E2. by split_and!.
Qed.

Lemma output_same w0 : output_keeps netif_output (same_clients w0).
Proof. intros w nif p dest w' r H Hs. etransitivity; [exact Hs|]. by eapply de_output. Qed.

(** A part of a function that may or may not be done. *)
Definition outcome {A} (R : W -> Prop) (f : A -> W) (r : option A) : Prop := forall x, r = Some x -> R (f x).

Lemma quiet_core d w w' : same_clients w w' -> quiet d same_core w w'.
Proof. intros H. eapply quiet_mono; [|by apply same_quiet]. by intros x y ->. Qed.
Lemma quiet_core_trans d w1 w2 w3 : quiet d same_core w1 w2 -> quiet d same_core w2 w3 -> quiet d same_core w1 w3.
Proof. apply quiet_trans. intros x y z H1 H2. by transitivity y. Qed.
Lemma quiet_field d f w : (forall x, same_core x (f x)) -> quiet d same_core w (upd_dh w d f).
Proof. intros Hf. eapply quiet_mono; [|apply quiet_upd]. by intros x y ->. Qed.
Lemma quiet_mem d w m : quiet d same_core w (set_wmem w m).
Proof. by apply quiet_core. Qed.

Lemma option_byte_quiet d w v : quiet d same_core w (dhcp_option_byte w d v).
Proof. unfold dhcp_option_byte. eapply quiet_core_trans; [apply quiet_mem|by apply quiet_field]. Qed.
Lemma option_bytes_quiet d w vs : quiet d same_core w (foldl (fun w v => dhcp_option_byte w d v) w vs).
Proof.
  revert w. induction vs as [|v vs IH]; intros w; [by apply quiet_core|]. cbn [foldl].
  eapply quiet_core_trans; [apply option_byte_quiet|apply IH].
Qed.
Lemma option_quiet d w t n : quiet d same_core w (dhcp_option w d t n).
Proof. eapply quiet_core_trans; apply option_byte_quiet. Qed.
Lemma option_short_quiet d w v : quiet d same_core w (dhcp_option_short w d v).
Proof. eapply quiet_core_trans; apply option_byte_quiet. Qed.
Lemma option_long_quiet d w v : quiet d same_core w (dhcp_option_long w d v).
Proof. unfold dhcp_option_long. repeat (eapply quiet_core_trans; [|apply option_byte_quiet]). by apply quiet_core. Qed.
Lemma max_msg_size_quiet d w n : quiet d same_core w (dhcp_max_msg_size w d n).
Proof. eapply quiet_core_trans; [apply option_quiet|apply option_short_quiet]. Qed.
Lemma option_addr_quiet d w t a : quiet d same_core w (dhcp_option_addr w d t a).
Proof. eapply quiet_core_trans; [apply option_quiet|apply option_long_quiet]. Qed.
Lemma parameter_list_quiet d w : quiet d same_core w (dhcp_parameter_list w d).
Proof. eapply quiet_core_trans; [apply option_quiet|apply option_bytes_quiet]. Qed.

Lemma hostname_bytes_quiet d h l w : quiet d same_core w (foldl (fun w i => dhcp_option_byte w d (wmem w (h + i))) w l).
Proof.
  revert w. induction l as [|i l IH]; intros w; [by apply quiet_core|]. cbn [foldl]. eapply quiet_core_trans; [apply option_byte_quiet|apply IH].
Qed.
Lemma hostname_quiet d w nif w' : dhcp_option_hostname fuel hostname w d nif = Some w' -> quiet d same_core w w'.
Proof.
  unfold dhcp_option_hostname. destruct (negb _); [|intros [= <-]; by apply quiet_core]. destruct (strlen _ _ _) as [n|]; [|done]. cbn [mbind option_bind].
  destruct (0 <? n); [|intros [= <-]; by apply quiet_core]. cbv zeta. intros [= <-]. eapply quiet_core_trans; [apply option_quiet|apply hostname_bytes_quiet].
Qed.

Lemma trailer_quiet d w w' : dhcp_option_trailer w d = Some w' -> quiet d same_core w w'.
Proof.
  unfold dhcp_option_trailer. intros H.
  refine (loop_keeps _ (quiet d same_core w) (quiet d same_core w) _ _ _ _ H (option_byte_quiet _ _ _)).
  intros w1 H1. cbv zeta. destruct (_ && _); [|done]. eapply quiet_core_trans; [exact H1|apply option_byte_quiet].
Qed.
Lemma trim_quiet d w w' : dhcp_trim_msg custom_free fuel w d = Some w' -> quiet d same_core w w'.
Proof.
  unfold dhcp_trim_msg. destruct (dhcp_option_trailer w d) as [w1|] eqn:E; [|done]. cbn [mbind option_bind]. apply trailer_quiet in E.
  destruct (pbuf_realloc _ _ _ _ _) as [st|]; [|done]. intros [= <-]. eapply quiet_core_trans; [exact E|]. by apply quiet_core.
Qed.

Lemma delete_quiet d w w' : dhcp_delete_msg custom_free fuel w d = Some w' -> d <> NULL -> quiet d (fun x y => same_core x y /\ idle y) w w'.
Proof.
  unfold dhcp_delete_msg. intros H Hd. rewrite (proj2 (Z.eqb_neq _ _) Hd) in H.
  destruct (if negb (dh_p_out (dh w d) =? NULL) then _ else _) as [w1|] eqn:E; [|done]. injection H as <-.
  assert (H1 : same_clients w w1).
  { destruct (negb _); [|by injection E as <-]. by eapply (wfree_keeps _ _ (same_clients w)). }
  eapply (quiet_trans d same_core); [|by apply quiet_core|apply quiet_upd2]. simpl. intros x y z H2 ->. split; [by transitivity y|done].
Qed.

Definition sent d w w' : Prop := quiet d (fun x y => same_core x y /\ idle y) w w'.
Lemma sent_trans d w1 w2 w3 : quiet d same_core w1 w2 -> sent d w2 w3 -> sent d w1 w3.
Proof. apply quiet_trans. intros x y z H1 [H2 H3]. split; [by transitivity y|done]. Qed.

Lemma can_bind_same w0 w pcb : can_bind (same_clients w0) w pcb.
Proof.
  intros w1 w2 r _ H _ (H1 & H2 & H3). unfold auto_bind in H. destruct (_ =? 0); [|injection H as <- _; by split_and!].
  pose proof (udp_bind_ext _ _ _ _ _ _ H) as E. pose proof (udp_bind_netifs _ _ _ _ _ _ H) as E2.
  unfold same_clients, dhv, info in *. rewrite E, E2. by split_and!.
Qed.

Lemma send_any_quiet d w nif dst w' : dhcp_send_any netif_output custom_free fuel w d nif dst = Some w' -> d <> NULL -> sent d w w'.
Proof.
  unfold dhcp_send_any. intros H Hd. destruct (dhcp_trim_msg _ _ w d) as [w1|] eqn:E1; [|done]. cbn [mbind option_bind] in H. apply trim_quiet in E1.
  destruct (udp_sendto_if_src _ _ _ _ _ _ _ _ _ _) as [[w2 r]|] eqn:E2; [|done].
  eapply (udp_sendto_if_src_keeps _ _ _ (same_clients w1) (output_same w1)) in E2; [|done|apply can_bind_same].
  eapply sent_trans; [exact E1|]. eapply sent_trans; [by apply quiet_core|]. by apply delete_quiet.
Qed.
Lemma send_own_quiet d w nif dst w' : dhcp_send_own netif_output custom_free fuel w d nif dst = Some w' -> d <> NULL -> sent d w w'.
Proof.
  unfold dhcp_send_own. intros H Hd. destruct (dhcp_trim_msg _ _ w d) as [w1|] eqn:E1; [|done]. cbn [mbind option_bind] in H. apply trim_quiet in E1.
  destruct (udp_sendto_if _ _ _ _ _ _ _ _ _) as [[w2 r]|] eqn:E2; [|done].
  assert (Hs : same_clients w1 w2).
  { unfold udp_sendto_if in E2. destruct (_ =? NULL); [by injection E2 as <- _|]. cbv zeta in E2. repeat case_match; try (by injection E2 as <- _);
      (eapply (udp_sendto_if_src_keeps _ _ _ (same_clients w1) (output_same w1)); [exact E2|done|apply can_bind_same]). }
  eapply sent_trans; [exact E1|]. eapply sent_trans; [by apply quiet_core|]. by apply delete_quiet.
Qed.

(** [dhcp_create_msg] *)
Lemma new_xid_quiet d w t : quiet d same_core w (dhcp_new_xid rand w d t) /\ dh_p_out (dh (dhcp_new_xid rand w d t) d) = dh_p_out (dh w d) /\
  dh_msg_out (dh (dhcp_new_xid rand w d t) d) = dh_msg_out (dh w d).
Proof.
  unfold dhcp_new_xid. destruct (negb _); [|by split; [apply quiet_core|]]. destruct (dh_tries (dh w d) =? 0).
  - pose proof (de_rand Henv w) as Hr. destruct (rand w) as [w1 r]. simpl in Hr. rewrite dh_upd. simpl.
    assert (E : dh (upd_dhv w1 (set_xid (u32 r))) d = dh w d) by (unfold dh; rewrite dhv_upd; simpl; by rewrite (proj1 Hr)). rewrite E. split; [|done].
    eapply quiet_core_trans; [by apply quiet_core|]. eapply quiet_core_trans; [|by apply quiet_field].
    by constructor.
  - split; [by apply quiet_field|]. by rewrite dh_upd.
Qed.

Lemma create_quiet w nif d t w' r :
  dhcp_create_msg custom_free fuel rand w nif d t = Some (w', r) -> quiet d same_core w w' /\ (r <> ERR_OK -> idle (dh w d) -> idle (dh w' d)).
Proof.
  unfold dhcp_create_msg. destruct (nif =? NULL); [intros [= <- <-]; by split; [apply quiet_core|]|].
  destruct (d =? NULL); [intros [= <- <-]; by split; [apply quiet_core|]|].
  destruct (pbuf_alloc _ _ _ _ _ _) as [[st p]|]; [|done]. cbn [mbind option_bind].
  assert (H1 : quiet d same_core w (upd_dh (set_wps w st) d (with_p_out p))) by (eapply quiet_core_trans; [by apply (quiet_core d w (set_wps w st))|by apply quiet_field]).
  destruct (Z.eqb_spec p NULL) as [->|].
  - intros [= <- <-]. split; [done|]. intros _ [_ H]. by rewrite dh_upd.
  - cbv zeta. intros [= <- <-]. split; [|done]. eapply quiet_core_trans; [exact H1|]. set (w1 := upd_dh (set_wps w st) d _).
    destruct (new_xid_quiet d w1 t) as [H2 _]. eapply quiet_core_trans; [exact H2|]. set (w2 := dhcp_new_xid _ _ _ _).
    eapply quiet_core_trans; [|apply option_byte_quiet]. eapply quiet_core_trans; [|apply option_quiet]. eapply quiet_core_trans; [|by apply quiet_field].
    eapply quiet_core_trans; [|apply quiet_mem]. by apply quiet_field.
Qed.

Lemma set_state_quiet d w s : quiet d (fun x y => y = enter s x) w (dhcp_set_state w d s).
Proof.
  unfold dhcp_set_state, state_is. destruct (bool_decide_reflect (dh_state (dh w d) = s)) as [E|E]; cbn [negb].
  - apply (quiet_to d eq); [by apply same_quiet|]. unfold enter. by rewrite decide_True.
  - eapply quiet_to; [apply quiet_upd|]. rewrite dh_upd. unfold enter. by rewrite decide_False.
Qed.

Lemma set_timeout_quiet d w f : quiet d (fun x y => y = timed f x) w (dhcp_set_timeout w d f).
Proof.
  unfold dhcp_set_timeout, timed. destruct (dh_tries (dh w d) <? 255) eqn:E.
  - eapply quiet_to; [apply quiet_upd2|]. rewrite !dh_upd. by rewrite E.
  - eapply quiet_to; [apply quiet_upd|]. rewrite !dh_upd. by rewrite E.
Qed.

(** A message, when there is memory for it, and the timer. *)
Lemma request_quiet w nif d t w2 r w3 f :
  dhcp_create_msg custom_free fuel rand w nif d t = Some (w2, r) -> (if r =? ERR_OK then sent d w2 w3 else w3 = w2) ->
  quiet d (becomes (timed f)) w (dhcp_set_timeout w3 d f).
Proof.
  intros Hc H3. apply create_quiet in Hc as [Hc Hi].
  assert (H13 : quiet d (becomes id) w w3).
  { destruct (Z.eqb_spec r ERR_OK) as [->|Hr]; [|subst w3; eapply quiet_to; [exact Hc|]; split; [apply Hc|auto]].
    eapply (quiet_trans d same_core); [|exact Hc|exact H3]. intros x y z H1 [H2 H4]. split; [|done]. unfold same_core, id in *. congruence. }
  eapply (quiet_trans d (becomes id)); [|exact H13|apply set_timeout_quiet]. simpl. intros x y z [E Hx] ->. split; [|by intros ?%Hx; apply idle_timed].
  rewrite !core_timed. unfold id in E. by rewrite E.
Qed.

Lemma client_data w nif d : client w nif = Some d -> netif_dhcp_data w nif = d /\ d <> NULL.
Proof. unfold client. destruct (Z.eqb_spec (netif_dhcp_data w nif) NULL) as [|Hd]; [done|]. by intros [= <-]. Qed.

(** [dhcp_discover], [dhcp_select], [dhcp_decline], [dhcp_renew], [dhcp_rebind], [dhcp_reboot]:
    the state entered and the timer. *)
Lemma enter_request d w w2 s g f :
  quiet d (becomes (timed f)) (dhcp_set_state (upd_dh w d g) d s) w2 -> (forall x, core (g x) = g (core x)) -> (forall x, idle x -> idle (g x)) ->
  quiet d (becomes (fun x => timed f (enter s (g x)))) w w2.
Proof.
  intros H Hg Hi. eapply (quiet_trans d (fun x y => y = enter s (g x))); [| |exact H].
  - simpl. intros x y z -> [E Hx]. split; [done|]. intros Hx0. by apply Hx, idle_enter, Hi.
  - eapply quiet_trans; [|apply quiet_upd|apply set_state_quiet]. simpl. by intros x y z -> ->.
Qed.
Lemma enter_request_id d w w2 s f :
  quiet d (becomes (timed f)) (dhcp_set_state w d s) w2 -> quiet d (becomes (fun x => timed f (enter s x))) w w2.
Proof.
  intros H. eapply (quiet_trans d (fun x y => y = enter s x)); [|apply set_state_quiet|exact H].
  simpl. intros x y z -> [E Hx]. split; [done|]. intros Hx0. by apply Hx, idle_enter.
Qed.

Lemma discover_quiet w nif d w' r :
  client w nif = Some d -> dhcp_discover netif_output custom_free fuel rand w nif = Some (w', r) ->
  quiet d (becomes (fun x => timed backoff_long (enter DHCP_STATE_SELECTING (with_offered_ip_addr 0 x)))) w w'.
Proof.
  intros Hc H. unfold dhcp_discover in H. rewrite Hc in H. cbn [mbind option_bind] in H. apply client_data in Hc as [_ Hd].
  bind H E. destruct p as [w2 e]. bind H E3. injection H as <- _. apply enter_request; [|done|done].
  eapply request_quiet; [exact E|]. destruct (e =? ERR_OK); [|by injection E3].
  apply send_any_quiet in E3; [|done]. eapply sent_trans; [apply max_msg_size_quiet|]. eapply sent_trans; [apply parameter_list_quiet|exact E3].
Qed.

Lemma select_quiet w nif d w' r :
  client w nif = Some d -> dhcp_select netif_output custom_free fuel rand hostname w nif = Some (w', r) ->
  quiet d (becomes (fun x => timed backoff_long (enter DHCP_STATE_REQUESTING x))) w w'.
Proof.
  intros Hc H. unfold dhcp_select in H. rewrite Hc in H. cbn [mbind option_bind] in H. apply client_data in Hc as [_ Hd].
  bind H E. destruct p as [w2 e]. bind H E3. injection H as <- _. apply enter_request_id.
  eapply request_quiet; [exact E|]. destruct (e =? ERR_OK); [|by injection E3]. cbv zeta in E3. bind E3 E4. apply hostname_quiet in E4.
  apply send_any_quiet in E3; [|done]. eapply sent_trans; [apply max_msg_size_quiet|]. do 2 (eapply sent_trans; [apply option_addr_quiet|]).
  eapply sent_trans; [apply parameter_list_quiet|]. eapply sent_trans; [exact E4|exact E3].
Qed.

Lemma decline_quiet w nif d w' r :
  client w nif = Some d -> dhcp_decline netif_output custom_free fuel rand w nif = Some (w', r) ->
  quiet d (becomes (fun x => timed (fun _ => 10 * 1000) (enter DHCP_STATE_BACKING_OFF x))) w w'.
Proof.
  intros Hc H. unfold dhcp_decline in H. rewrite Hc in H. cbn [mbind option_bind] in H. apply client_data in Hc as [_ Hd].
  bind H E. destruct p as [w2 e]. bind H E3. injection H as <- _. apply enter_request_id.
  eapply request_quiet; [exact E|]. destruct (e =? ERR_OK); [|by injection E3].
  apply send_any_quiet in E3; [|done]. eapply sent_trans; [apply option_addr_quiet|exact E3].
Qed.

Lemma renew_quiet w nif d w' r :
  client w nif = Some d -> dhcp_renew netif_output custom_free fuel rand hostname w nif = Some (w', r) ->
  quiet d (becomes (fun x => timed backoff_renew (enter DHCP_STATE_RENEWING x))) w w'.
Proof.
  intros Hc H. unfold dhcp_renew in H. rewrite Hc in H. cbn [mbind option_bind] in H. apply client_data in Hc as [_ Hd].
  bind H E. destruct p as [w2 e]. bind H E3. injection H as <- _. apply enter_request_id.
  eapply request_quiet; [exact E|]. destruct (e =? ERR_OK); [|by injection E3]. cbv zeta in E3. bind E3 E4. apply hostname_quiet in E4.
  apply send_own_quiet in E3; [|done]. eapply sent_trans; [apply max_msg_size_quiet|].
  eapply sent_trans; [apply parameter_list_quiet|]. eapply sent_trans; [exact E4|exact E3].
Qed.
Lemma rebind_quiet w nif d w' r :
  client w nif = Some d -> dhcp_rebind netif_output custom_free fuel rand hostname w nif = Some (w', r) ->
  quiet d (becomes (fun x => timed backoff_short (enter DHCP_STATE_REBINDING x))) w w'.
Proof.
  intros Hc H. unfold dhcp_rebind in H. rewrite Hc in H. cbn [mbind option_bind] in H. apply client_data in Hc as [_ Hd].
  bind H E. destruct p as [w2 e]. bind H E3. injection H as <- _. apply enter_request_id.
  eapply request_quiet; [exact E|]. destruct (e =? ERR_OK); [|by injection E3]. cbv zeta in E3. bind E3 E4. apply hostname_quiet in E4.
  apply send_own_quiet in E3; [|done]. eapply sent_trans; [apply max_msg_size_quiet|].
  eapply sent_trans; [apply parameter_list_quiet|]. eapply sent_trans; [exact E4|exact E3].
Qed.
Lemma reboot_quiet w nif d w' r :
  client w nif = Some d -> dhcp_reboot netif_output custom_free fuel rand w nif = Some (w', r) ->
  quiet d (becomes (fun x => timed backoff_short (enter DHCP_STATE_REBOOTING x))) w w'.
Proof.
  intros Hc H. unfold dhcp_reboot in H. rewrite Hc in H. cbn [mbind option_bind] in H. apply client_data in Hc as [_ Hd].
  bind H E. destruct p as [w2 e]. bind H E3. injection H as <- _. apply enter_request_id.
  eapply request_quiet; [exact E|]. destruct (e =? ERR_OK); [|by injection E3].
  apply send_own_quiet in E3; [|done]. eapply sent_trans; [apply max_msg_size_quiet|]. eapply sent_trans; [apply option_addr_quiet|].
  eapply sent_trans; [apply parameter_list_quiet|exact E3].
Qed.

(** ** Addresses *)

Lemma udp_changed_clients w old new : same_clients w (udp_netif_ip_addr_changed w old new).
Proof.
  unfold udp_netif_ip_addr_changed. destruct (_ && _); [|done]. generalize (udp_pcbs w). intros l. revert w.
  induction l as [|a l IH]; intros w; [done|]. cbn [foldl]. destruct (_ =? old); [|apply IH]. etransitivity; [|apply IH]. by split_and!.
Qed.

Lemma reports_same w nif t : same_clients w (netif_issue_reports custom_free fuel linkoutput rand w nif t).
Proof.
  unfold netif_issue_reports. destruct (_ && _); [|done]. cbv zeta. set (w1 := if has_flag w nif NETIF_FLAG_ETHARP then _ else _).
  assert (H1 : same_clients w w1) by (unfold w1; by destruct (has_flag _ _ _)). destruct (has_flag w1 nif _); [|done]. unfold igmp_report_groups.
  apply (delay_members_keeps rand (same_clients w)); [by intros|intros w2 H; etransitivity; [exact H|apply Henv]|done].
Qed.

(** The address of an interface, and nothing else. *)
Definition readdressed w (nif ip mask gw : Z) w' : Prop :=
  dhv w' = dhv w /\ (forall n, info w' n = info w n) /\ same_list w w' /\
  forall n, netif_of w' n = if n =? nif then configured ip mask gw (netif_of w nif) else netif_of w n.

Lemma set_ipaddr_same w nif ip w' :
  netif_set_ipaddr custom_free fuel linkoutput rand callback tcp_netif_ip_addr_changed w nif (Some ip) = Some w' ->
  dhv w' = dhv w /\ (forall n, info w' n = info w n) /\ same_list w w' /\
  forall n, netif_of w' n = if n =? nif then with_ip ip (netif_of w nif) else netif_of w n.
Proof.
  unfold netif_set_ipaddr. cbn [addr_of default from_option id]. destruct (Z.eqb_spec ip (netif_ip_addr (netif_of w nif))) as [E|E]; cbn [negb].
  - intros [= <-]. split_and!; try done. intros n. destruct (Z.eqb_spec n nif) as [->|]; [|done]. rewrite E. by destruct (netif_of w nif).
  - intros H. bind H E1. apply (de_tcp Henv) in E1. rename w0 into w1.
    set (w2 := udp_netif_ip_addr_changed w1 _ _) in H. assert (H2 : same_clients w w2) by (etransitivity; [exact E1|apply udp_changed_clients]).
    set (w3 := upd_netif w2 nif _) in H. set (w4 := netif_issue_reports _ _ _ _ _ _ _) in H.
    assert (H5 : same_clients w3 w').
    { etransitivity; [apply (reports_same w3 nif NETIF_REPORT_TYPE_IPV4)|]. unfold NETIF_STATUS_CALLBACK in H.
      destruct (_ =? NULL); [by injection H as <-|by eapply (de_callback Henv)]. }
    destruct H2 as (A1 & A2 & A3), H5 as (B1 & B2 & B3). split_and!; [by rewrite B1|intros n; by rewrite B2, <- A2| |].
    + unfold same_list. rewrite B3. simpl. by rewrite A3.
    + intros n. unfold netif_of. rewrite B3. unfold w3. simpl. unfold netif_of. by rewrite A3.
Qed.

Lemma set_addr_same w nif ip mask gw w' :
  set_addr custom_free fuel linkoutput rand callback tcp_netif_ip_addr_changed w nif ip mask gw = Some w' -> readdressed w nif ip mask gw w'.
Proof.
  unfold set_addr, netif_set_addr, netif_set_gw, netif_set_netmask. cbn [addr_of default from_option id]. destruct (ip4_addr_isany ip).
  - intros H. bind H E. injection H as <-. apply set_ipaddr_same in E as (H1 & H2 & H3 & H4). split_and!; try done.
    intros n. rewrite !netif_of_upd, !H4, Z.eqb_refl. by destruct (n =? nif).
  - intros (H1 & H2 & H3 & H4)%set_ipaddr_same. split_and!; try done. intros n. rewrite H4, !netif_of_upd, Z.eqb_refl. by destruct (n =? nif).
Qed.

(** ** Steps of a client *)

(** Client [d] changes as [R] says; the other clients, the PCB and the attachment of clients
    to interfaces stay. *)
Record calm (d : Z) (R : dhcp -> dhcp -> Prop) w w' : Prop := {
  c_client : R (dh w d) (dh w' d);
  c_dom : is_Some (dhcp_clients (dhv w) !! d) -> is_Some (dhcp_clients (dhv w') !! d);
  c_other : forall d', d' <> d -> dhcp_clients (dhv w') !! d' = dhcp_clients (dhv w) !! d';
  c_pcb : dhcp_pcb (dhv w') = dhcp_pcb (dhv w);
  c_refs : dhcp_pcb_refcount (dhv w') = dhcp_pcb_refcount (dhv w);
  c_info : forall n, info w' n = info w n
}.

Lemma quiet_calm d R w w' : quiet d R w w' -> calm d R w w'.
Proof. intros []. by constructor. Qed.
Lemma calm_trans d (R S T : dhcp -> dhcp -> Prop) w1 w2 w3 :
  (forall x y z, R x y -> S y z -> T x z) -> calm d R w1 w2 -> calm d S w2 w3 -> calm d T w1 w3.
Proof. intros HT [] []. constructor; eauto; try congruence. intros d' Hd. rewrite c_other1 by done. auto. Qed.
Lemma calm_to d (R S : dhcp -> dhcp -> Prop) w w' : calm d R w w' -> S (dh w d) (dh w' d) -> calm d S w w'.
Proof. intros [] HS. by constructor. Qed.
Lemma calm_same d w w' : dhv w' = dhv w -> (forall n, info w' n = info w n) -> calm d eq w w'.
Proof. intros E H. constructor; rewrite ?E; auto. unfold dh. by rewrite E. Qed.
Lemma calm_client d R w w' nif : calm d R w w' -> client w' nif = client w nif.
Proof. intros H. unfold client, netif_dhcp_data. by rewrite (c_info _ _ _ _ H). Qed.

(** A function of the client after another one. *)
Lemma becomes_comp d f g w1 w2 w3 :
  (forall x, core (g x) = g (core x)) -> calm d (becomes f) w1 w2 -> calm d (becomes g) w2 w3 -> calm d (becomes (fun x => g (f x))) w1 w3.
Proof.
  intros Hg. apply calm_trans. intros x y z [E1 H1] [E2 H2]. split; [|auto]. by rewrite E2, Hg, E1, <- Hg.
Qed.
Lemma becomes_upd d f w : (forall x, idle x -> idle (f x)) -> calm d (becomes f) w (upd_dh w d f).
Proof. intros Hf. apply quiet_calm. eapply quiet_mono; [|apply quiet_upd]. simpl. intros x y ->. split; auto. Qed.
Lemma becomes_state d s w : calm d (becomes (enter s)) w (dhcp_set_state w d s).
Proof. apply quiet_calm. eapply quiet_mono; [|apply set_state_quiet]. simpl. intros x y ->. split; [done|apply idle_enter]. Qed.
Lemma becomes_id d w w' : dhv w' = dhv w -> (forall n, info w' n = info w n) -> calm d (becomes id) w w'.
Proof. intros E H. eapply calm_to; [by apply calm_same|]. unfold dh. by rewrite E. Qed.
Lemma becomes_same d w w' : same_clients w w' -> calm d (becomes id) w w'.
Proof. intros (H1 & H2 & _). by apply becomes_id. Qed.
Lemma becomes_timeout d f w : calm d (becomes (timed f)) w (dhcp_set_timeout w d f).
Proof. apply quiet_calm. eapply quiet_mono; [|apply set_timeout_quiet]. simpl. intros x y ->. split; [done|apply idle_timed]. Qed.
Lemma becomes_readdressed d w nif ip mask gw w' : readdressed w nif ip mask gw w' -> calm d (becomes id) w w'.
Proof. intros (H1 & H2 & _). by apply becomes_id. Qed.

Definition discovering (x : dhcp) : dhcp := timed backoff_long (enter DHCP_STATE_SELECTING (with_offered_ip_addr 0 x)).
Definition selecting (x : dhcp) : dhcp := timed backoff_long (enter DHCP_STATE_REQUESTING x).
Lemma core_discovering x : core (discovering x) = discovering (core x).
Proof. unfold discovering. by rewrite core_timed, core_enter. Qed.
Lemma core_selecting x : core (selecting x) = selecting (core x).
Proof. unfold selecting. by rewrite core_timed, core_enter. Qed.

Lemma release_calm w nif d w' r :
  client w nif = Some d -> dhcp_release netif_output custom_free fuel linkoutput rand callback tcp_netif_ip_addr_changed w nif = Some (w', r) ->
  calm d (becomes (fun x => forget_offer (enter DHCP_STATE_OFF x))) w w'.
Proof.
  intros Hc H. apply client_data in Hc as [Hd Hn]. unfold dhcp_release in H. rewrite Hd, (proj2 (Z.eqb_neq _ _) Hn) in H. cbv zeta in H.
  set (w1 := upd_dh (dhcp_set_state w d DHCP_STATE_OFF) d forget_offer) in H.
  assert (H1 : calm d (becomes (fun x => forget_offer (enter DHCP_STATE_OFF x))) w w1).
  { apply (becomes_comp d (enter DHCP_STATE_OFF) forget_offer w (dhcp_set_state w d DHCP_STATE_OFF)); [done|apply becomes_state|by apply becomes_upd]. }
  destruct (negb _); [by injection H as <- _|]. bind H E. destruct p as [w2 e]. bind H E3. bind H E4. injection H as <- _.
  apply set_addr_same in E4. eapply (becomes_comp d _ id); [done|exact H1|]. eapply (becomes_comp d id id); [done| |by eapply becomes_readdressed].
  apply create_quiet in E as [E Hi]. destruct (Z.eqb_spec e ERR_OK) as [->|He].
  - apply send_own_quiet in E3; [|done]. apply quiet_calm.
    eapply (quiet_trans d same_core); [|exact E|eapply sent_trans; [apply option_addr_quiet|exact E3]]. intros x y z H2 [H3 H4]. split; [|done]. unfold same_core, id in *. congruence.
  - injection E3 as <-. apply quiet_calm. eapply quiet_to; [exact E|]. split; [apply E|auto].
Qed.

Lemma nak_calm w nif d w' :
  client w nif = Some d -> dhcp_handle_nak netif_output custom_free fuel linkoutput rand callback tcp_netif_ip_addr_changed w nif = Some w' ->
  calm d (becomes (fun x => discovering (enter DHCP_STATE_BACKING_OFF x))) w w'.
Proof.
  intros Hc H. unfold dhcp_handle_nak in H. rewrite Hc in H. cbn [mbind option_bind] in H. cbv zeta in H. bind H E. rename w0 into w1. apply set_addr_same in E.
  assert (H1 : calm d (becomes (enter DHCP_STATE_BACKING_OFF)) w w1).
  { eapply (becomes_comp d (enter DHCP_STATE_BACKING_OFF) id); [done|apply becomes_state|by eapply becomes_readdressed]. }
  destruct (dhcp_discover _ _ _ _ _ _) as [[w2 e]|] eqn:E2; [|done]. injection H as <-.
  eapply (becomes_comp d _ discovering); [exact core_discovering|exact H1|]. apply quiet_calm. eapply discover_quiet; [|exact E2]. by rewrite (calm_client _ _ _ _ _ H1).
Qed.

Lemma check_calm w nif d w' :
  client w nif = Some d -> dhcp_check custom_free fuel linkoutput w nif = Some w' ->
  calm d (becomes (fun x => timed (fun _ => 500) (enter DHCP_STATE_CHECKING x))) w w'.
Proof.
  intros Hc H. unfold dhcp_check in H. rewrite Hc in H. cbn [mbind option_bind] in H. cbv zeta in H. bind H E. destruct p as [es e]. injection H as <-.
  eapply (becomes_comp d (enter DHCP_STATE_CHECKING) (timed (fun _ => 500))); [exact (core_timed _)| |apply becomes_timeout].
  eapply (becomes_comp d (enter DHCP_STATE_CHECKING) id); [done|apply becomes_state|]. by apply becomes_same.
Qed.

Lemma bind_calm w nif d w' :
  client w nif = Some d -> dhcp_bind custom_free fuel linkoutput rand callback tcp_netif_ip_addr_changed w nif = Some w' -> nif <> NULL ->
  calm d (becomes (fun x => enter DHCP_STATE_BOUND (bind_timers x))) w w' /\
  let x := dh w d in readdressed (dhcp_set_state (upd_dh w d bind_timers) d DHCP_STATE_BOUND) nif (dh_offered_ip_addr x) (bind_mask x) (bind_gw x) w'.
Proof.
  intros Hc H Hnif. apply client_data in Hc as [Hd Hn]. unfold dhcp_bind in H. rewrite Hd, (proj2 (Z.eqb_neq _ _) Hn), (proj2 (Z.eqb_neq _ _) Hnif) in H.
  cbn [orb] in H. cbv zeta in H. apply set_addr_same in H. rewrite dh_upd in H.
  assert (Hb : forall x, dh_offered_ip_addr (bind_timers x) = dh_offered_ip_addr x /\ bind_mask (bind_timers x) = bind_mask x /\ bind_gw (bind_timers x) = bind_gw x).
  { intros x. split_and!; by rewrite bind_timers_keeps. }
  destruct (Hb (dh w d)) as (E1 & E2 & E3). rewrite E1, E2, E3 in H. split; [|exact H].
  eapply (becomes_comp d _ id); [done| |by eapply becomes_readdressed]. eapply (becomes_comp d bind_timers (enter DHCP_STATE_BOUND)); [exact (core_enter _)| |apply becomes_state].
  apply becomes_upd. intros x [H1 H2]. split; by rewrite bind_timers_keeps.
Qed.

Lemma calm_moves e d f w w' :
  calm d (becomes f) w w' -> tame f -> edge e (dh_state (dh w d)) (dh_state (f (dh w d))) -> calm d (moves e) w w'.
Proof. intros H Hf He. eapply calm_to; [exact H|]. by apply (becomes_moves e f); [apply H|..]. Qed.
Lemma moves_stay e d w w' : e ∈ [Ev_reply; Ev_fine; Ev_coarse; Ev_link; Ev_arp] -> calm d (becomes id) w w' -> calm d (moves e) w w'.
Proof. intros He H. eapply calm_moves; [exact H|done|by constructor]. Qed.

#[local] Hint Resolve tame_comp tame_enter tame_timed backoff_long_range backoff_renew_range backoff_short_range tame_forget tame_take_lease tame_bind : dhcp.

Lemma tame_discovering : tame discovering.
Proof.
  unfold discovering. apply (tame_comp (fun x => enter DHCP_STATE_SELECTING (with_offered_ip_addr 0 x))); [|auto with dhcp].
  apply (tame_comp (with_offered_ip_addr 0)); [|auto with dhcp]. intros x. split; [done|]. by intros []; constructor.
Qed.
Lemma tame_selecting : tame selecting.
Proof. unfold selecting. apply (tame_comp (enter DHCP_STATE_REQUESTING)); auto with dhcp. Qed.

(** Answers. *)
Lemma offer_calm w nif d w' :
  client w nif = Some d -> dhcp_handle_offer netif_output custom_free fuel rand hostname w nif = Some w' -> dh_state (dh w d) = DHCP_STATE_SELECTING ->
  calm d (moves Ev_reply) w w'.
Proof.
  intros Hc H Hs. unfold dhcp_handle_offer in H. rewrite Hc in H. cbn [mbind option_bind] in H. cbv zeta in H.
  destruct (rx_given_at _ _); [|injection H as <-; apply moves_stay; [by left|by apply becomes_id]].
  match type of H with context [with_server_ip_addr ?a] => set (srv := a) in H end.
  match type of H with context [with_offered_ip_addr ?a] => set (ip := a) in H end.
  set (w1 := upd_dh (upd_dh w d _) d _) in H. destruct (dhcp_select _ _ _ _ _ _ _) as [[w2 r]|] eqn:E; [|done]. injection H as <-.
  assert (H1 : calm d (becomes (fun x => with_offered_ip_addr ip (with_server_ip_addr srv x))) w w1).
  { apply (becomes_comp d (with_server_ip_addr srv) (with_offered_ip_addr ip) w (upd_dh w d (with_server_ip_addr srv))); [done|by apply becomes_upd|by apply becomes_upd]. }
  eapply select_quiet in E; [|by rewrite (calm_client _ _ _ _ nif H1)]. apply quiet_calm in E.
  eapply calm_moves; [eapply (becomes_comp d _ selecting); [exact core_selecting|exact H1|exact E]| |].
  - apply (tame_comp (fun x => with_offered_ip_addr ip (with_server_ip_addr srv x)) selecting); [|apply tame_selecting]. intros x. split; [done|]. by intros []; constructor.
  - unfold selecting. rewrite state_timed, state_enter, Hs. constructor.
Qed.

Lemma dns_servers_same w n i : same_clients w (set_dns_servers w n i).
Proof.
  revert w i. induction n as [|n IH]; intros w i; [done|]. simpl. destruct (rx_given_at _ _); [|done]. etransitivity; [|apply IH].
  unfold dns_setserver. by destruct (_ <? _).
Qed.
Lemma ack_calm w nif d w' :
  client w nif = Some d -> dhcp_handle_ack w nif = Some w' ->
  calm d (becomes (take_lease (dhcp_rx (dhv w)) (ld32 (wmem w) (dh_msg_in (dh w d) + DHCP_YIADDR_OFS)))) w w' /\ w_netifs w' = w_netifs w.
Proof.
  intros Hc H. unfold dhcp_handle_ack in H. rewrite Hc in H. cbn [mbind option_bind] in H. cbv zeta in H. injection H as <-. set (f := take_lease _ _).
  pose proof (dns_servers_same (upd_dh w d f) 2 0) as Hd. split; [|exact (proj2 (proj2 Hd))].
  apply (becomes_comp d f id w (upd_dh w d f)); [done|apply becomes_upd|by apply becomes_same].
  intros x. unfold f, take_lease. cbv zeta. by destruct (dhcp_option_given _ DHCP_OPTION_IDX_LEASE_TIME), (dhcp_option_given _ DHCP_OPTION_IDX_SUBNET_MASK),
    (dhcp_option_given _ DHCP_OPTION_IDX_ROUTER).
Qed.

Lemma core_bind x : core (bind_timers x) = bind_timers (core x).
Proof.
  assert (H0 : forall x, core (bind_t0 x) = bind_t0 (core x)) by (intros y; unfold bind_t0; change (dh_offered_t0_lease (core y)) with (dh_offered_t0_lease y); by destruct (negb _)).
  assert (H1 : forall x, core (bind_t1 x) = bind_t1 (core x)) by (intros y; unfold bind_t1; change (dh_offered_t1_renew (core y)) with (dh_offered_t1_renew y); by destruct (negb _)).
  assert (H2 : forall x, core (bind_t2 x) = bind_t2 (core x)) by (intros y; unfold bind_t2; change (dh_offered_t2_rebind (core y)) with (dh_offered_t2_rebind y); by destruct (negb _)).
  unfold bind_timers. cbv zeta. change (with_lease_used 0 (core x)) with (core (with_lease_used 0 x)). rewrite <- H0, <- H1, <- H2.
  set (y := bind_t2 _). change (dh_t2_timeout (core y)) with (dh_t2_timeout y). change (dh_t1_timeout (core y)) with (dh_t1_timeout y). by destruct (_ && _).
Qed.

(** An acknowledged lease, bound or probed. *)
Definition leased rx ip (x : dhcp) : dhcp := enter DHCP_STATE_BOUND (bind_timers (take_lease rx ip x)).
Definition probing rx ip (x : dhcp) : dhcp := timed (fun _ => 500) (enter DHCP_STATE_CHECKING (take_lease rx ip x)).
Lemma tame_leased rx ip : tame (leased rx ip).
Proof. apply (tame_comp (fun x => bind_timers (take_lease rx ip x))); [apply (tame_comp (take_lease rx ip))|]; auto with dhcp. Qed.
Lemma tame_probing rx ip : tame (probing rx ip).
Proof.
  apply (tame_comp (fun x => enter DHCP_STATE_CHECKING (take_lease rx ip x))); [apply (tame_comp (take_lease rx ip)); auto with dhcp|]. apply tame_timed. lia.
Qed.

Lemma ack_bind_calm w nif d w1 w' :
  client w nif = Some d -> dhcp_handle_ack w nif = Some w1 -> nif <> NULL ->
  dhcp_bind custom_free fuel linkoutput rand callback tcp_netif_ip_addr_changed w1 nif = Some w' ->
  calm d (becomes (leased (dhcp_rx (dhv w)) (ld32 (wmem w) (dh_msg_in (dh w d) + DHCP_YIADDR_OFS)))) w w'.
Proof.
  intros Hc Ha Hn Hb. apply (ack_calm _ _ d) in Ha as [Ha _]; [|done]. apply (bind_calm _ _ d) in Hb as [Hb _]; [|by rewrite (calm_client _ _ _ _ _ Ha)|done].
  eapply (becomes_comp d _ (fun x => enter DHCP_STATE_BOUND (bind_timers x))); [|exact Ha|exact Hb]. intros x. by rewrite core_enter, core_bind.
Qed.

Lemma has_state w d s : state_is w d s = true -> dh_state (dh w d) = s.
Proof. apply bool_decide_eq_true. Qed.

Lemma handle_msg_calm w nif d w' :
  client w nif = Some d -> nif <> NULL ->
  dhcp_handle_msg netif_output custom_free fuel linkoutput rand callback tcp_netif_ip_addr_changed hostname w nif d = Some w' ->
  calm d (moves Ev_reply) w w'.
Proof.
  intros Hc Hn H. unfold dhcp_handle_msg in H. cbv zeta in H. destruct (_ =? DHCP_ACK).
  - destruct (state_is w d DHCP_STATE_REQUESTING) eqn:Es.
    + apply has_state in Es. bind H Ea. rename w0 into w1. destruct (has_flag w1 nif _).
      * apply (ack_calm _ _ d) in Ea as [Ea _]; [|done]. apply (check_calm _ _ d) in H; [|by rewrite (calm_client _ _ _ _ _ Ea)].
        eapply calm_moves; [eapply (becomes_comp d _ (fun x => timed (fun _ => 500) (enter DHCP_STATE_CHECKING x))); [|exact Ea|exact H]|apply tame_probing|].
        -- intros x. by rewrite core_timed, core_enter.
        -- cbv beta. rewrite state_timed, state_enter, Es. constructor.
      * eapply calm_moves; [by eapply ack_bind_calm|apply tame_leased|]. unfold leased. rewrite state_enter, Es. constructor. in_list.
    + destruct (_ || _) eqn:Eo; [|injection H as <-; apply moves_stay; [by left|by apply becomes_id]]. bind H Ea.
      eapply calm_moves; [by eapply ack_bind_calm|apply tame_leased|]. unfold leased. rewrite state_enter. constructor.
      apply orb_prop in Eo as [[Eo|Eo]%orb_prop|Eo]; apply has_state in Eo; rewrite Eo; in_list.
  - destruct (_ && (_ || _)) eqn:En.
    + apply andb_prop in En as [_ En]. apply (nak_calm _ _ d) in H; [|done]. eapply calm_moves; [exact H| |].
      * apply (tame_comp (enter DHCP_STATE_BACKING_OFF) discovering); [auto with dhcp|apply tame_discovering].
      * unfold discovering. rewrite state_timed, state_enter. constructor.
        apply orb_prop in En as [[[En|En]%orb_prop|En]%orb_prop|En]; apply has_state in En; rewrite En; in_list.
    + destruct (_ && state_is _ _ _) eqn:Eo; [|injection H as <-; apply moves_stay; [by left|by apply becomes_id]].
      apply andb_prop in Eo as [_ Eo%has_state].
      assert (H1 : calm d (becomes (with_request_timeout 0)) w (upd_dh w d (with_request_timeout 0))) by (by apply becomes_upd).
      apply (offer_calm _ _ d) in H; [|by rewrite (calm_client _ _ _ _ _ H1)|by rewrite dh_upd].
      eapply (calm_trans d (becomes (with_request_timeout 0))); [|exact H1|exact H].
      intros x y z [E Hi] (E1 & E2 & E3 & E4). pose proof (f_equal dh_state E) as Es. pose proof (f_equal dh_pcb_allocated E) as Ep. simpl in Es, Ep.
      split_and!; [by rewrite <- Es|congruence|auto|]. intros Hw. apply E4. rewrite <- wf_core, E, wf_core. destruct Hw. by constructor.
Qed.

(** [dhcp_recv] *)
Lemma free_calm w d p w' e :
  free_pbuf_and_return custom_free fuel w d p = Some w' -> e ∈ [Ev_reply; Ev_fine; Ev_coarse; Ev_link; Ev_arp] -> calm d (moves e) w w'.
Proof.
  intros H He. unfold free_pbuf_and_return in H. set (w1 := if negb (d =? NULL) then _ else w) in H.
  assert (H1 : same_clients w1 w') by (by eapply (wfree_keeps _ _ (same_clients w1))).
  unfold w1 in *. destruct (negb _); [|apply moves_stay; [done|by apply becomes_same]].
  eapply calm_moves; [eapply (becomes_comp d (with_msg_in NULL) id); [done|by apply becomes_upd|by apply becomes_same]| |by constructor].
  intros x. split; [done|]. by intros []; constructor.
Qed.

Lemma moves_trans e d w1 w2 w3 :
  calm d (moves e) w1 w2 -> calm d (fun x y => moves e x y /\ dh_state y = dh_state x) w2 w3 -> calm d (moves e) w1 w3.
Proof.
  apply calm_trans. intros x y z (E1 & E2 & E3 & E4) [(_ & F2 & F3 & F4) F5]. split_and!; [by rewrite F5|congruence|auto|auto].
Qed.
Lemma moves_before e d w1 w2 w3 :
  calm d (fun x y => moves e x y /\ dh_state y = dh_state x) w1 w2 -> calm d (moves e) w2 w3 -> calm d (moves e) w1 w3.
Proof.
  apply calm_trans. intros x y z [(_ & F2 & F3 & F4) F5] (E1 & E2 & E3 & E4). split_and!; [by rewrite <- F5|congruence|auto|auto].
Qed.
Lemma free_stays w d p w' e :
  free_pbuf_and_return custom_free fuel w d p = Some w' -> e ∈ [Ev_reply; Ev_fine; Ev_coarse; Ev_link; Ev_arp] ->
  calm d (fun x y => moves e x y /\ dh_state y = dh_state x) w w'.
Proof.
  intros H He. pose proof (free_calm _ _ _ _ e H He) as Hm. eapply calm_to; [exact Hm|]. split; [apply Hm|].
  unfold free_pbuf_and_return in H. set (w1 := if negb (d =? NULL) then _ else w) in H.
  assert (H1 : same_clients w1 w') by (by eapply (wfree_keeps _ _ (same_clients w1))). unfold dh at 1. rewrite (proj1 H1). fold (dh w1 d).
  unfold w1. destruct (negb _); [by rewrite dh_upd|done].
Qed.

Lemma recv_calm w arg pcb p addr port w' d :
  let nif := current_input_netif (ip_data w) in
  client w nif = Some d -> nif <> NULL ->
  dhcp_recv netif_output custom_free fuel linkoutput rand callback tcp_netif_ip_addr_changed hostname value w arg pcb p addr port = Some w' ->
  calm d (moves Ev_reply) w w'.
Proof.
  intros nif Hc Hn H. pose proof (client_data _ _ _ Hc) as [Hd Hd0]. unfold dhcp_recv in H. fold nif in H. cbv zeta in H. rewrite Hd in H.
  assert (Hr : Ev_reply ∈ [Ev_reply; Ev_fine; Ev_coarse; Ev_link; Ev_arp]) by in_list.
  destruct (_ || _); [by eapply free_calm|]. destruct (_ <? DHCP_MIN_REPLY_LEN); [by eapply free_calm|]. destruct (negb _); [by eapply free_calm|].
  destruct (negb _); [by eapply free_calm|]. destruct (negb _); [by eapply free_calm|].
  set (w1 := if _ <? DHCP_SNAME_OFS then w else _) in H. bind H Ep. destruct p0 as [|st rx err]; [done|]. set (w2 := upd_dhv (set_wps w1 st) (set_rx rx)) in H.
  assert (H2 : calm d (fun x y => moves Ev_reply x y /\ dh_state y = dh_state x) w w2).
  { assert (H1 : calm d (fun x y => moves Ev_reply x y /\ dh_state y = dh_state x) w w1).
    { unfold w1. destruct (_ <? _).
      - eapply calm_to; [by apply (calm_same d w w)|]. split; [|done]. by split_and!; [constructor|..].
      - eapply calm_to; [apply quiet_calm, quiet_upd|]. rewrite dh_upd. split; [|done]. split_and!; [by constructor|done|done|]. by intros []; constructor. }
    destruct H1. constructor; auto. }
  destruct (negb (err =? ERR_OK)); [eapply moves_before; [exact H2|by eapply free_calm]|].
  destruct (negb _); [eapply moves_before; [exact H2|by eapply free_calm]|].
  bind H Em. apply (handle_msg_calm _ _ d) in Em; [|by rewrite (calm_client _ _ _ _ _ H2)|done].
  eapply moves_before; [exact H2|]. eapply moves_trans; [exact Em|]. by eapply free_stays.
Qed.

(** [dhcp_timeout] *)
Lemma fmap_fst {A B} (o : option (A * B)) x : fst <$> o = Some x -> exists r, o = Some (x, r).
Proof. destruct o as [[a b]|]; [|done]. intros [= <-]. eauto. Qed.

Lemma timeout_calm w nif d w' :
  client w nif = Some d -> nif <> NULL ->
  dhcp_timeout netif_output custom_free fuel linkoutput rand callback tcp_netif_ip_addr_changed hostname w nif = Some w' ->
  calm d (moves Ev_fine) w w'.
Proof.
  intros Hc Hn H. unfold dhcp_timeout in H. rewrite Hc in H. cbn [mbind option_bind] in H. cbv zeta in H.
  assert (Hdisc : forall s w', dh_state (dh w d) = s -> edge Ev_fine s DHCP_STATE_SELECTING ->
    fst <$> dhcp_discover netif_output custom_free fuel rand w nif = Some w' -> calm d (moves Ev_fine) w w').
  { intros s w1 Es He (r & E)%fmap_fst. apply (discover_quiet _ _ d) in E; [|done]. apply quiet_calm in E.
    eapply calm_moves; [exact E|apply tame_discovering|]. cbv beta. rewrite state_timed, state_enter, Es. done. }
  assert (Hstay : calm d (moves Ev_fine) w w) by (apply moves_stay; [in_list|by apply becomes_id]).
  destruct (dh_state (dh w d)) eqn:Es; try (by injection H as <-).
  - destruct (_ <=? 5).
    + apply fmap_fst in H as (r & E). apply (select_quiet _ _ d) in E; [|done]. apply quiet_calm in E.
      eapply calm_moves; [exact E|apply tame_selecting|]. cbv beta. rewrite state_timed, state_enter, Es. constructor. in_list.
    + bind H Er. destruct p as [w1 r1]. apply (release_calm _ _ d) in Er; [|done]. apply fmap_fst in H as (r & E).
      apply (discover_quiet _ _ d) in E; [|by rewrite (calm_client _ _ _ _ _ Er)]. apply quiet_calm in E.
      eapply calm_moves; [eapply (becomes_comp d _ discovering); [exact core_discovering|exact Er|exact E]| |].
      * apply (tame_comp (fun x => forget_offer (enter DHCP_STATE_OFF x)) discovering); [|apply tame_discovering]. apply (tame_comp (enter DHCP_STATE_OFF)); auto with dhcp.
      * unfold discovering. rewrite state_timed, state_enter, Es. constructor. in_list.
  - destruct (_ <? REBOOT_TRIES); [|eapply Hdisc; [reflexivity| |exact H]; constructor; in_list].
    apply fmap_fst in H as (r & E). apply (reboot_quiet _ _ d) in E; [|done]. apply quiet_calm in E.
    eapply calm_moves; [exact E|apply (tame_comp (enter DHCP_STATE_REBOOTING)); auto with dhcp|]. cbv beta. rewrite state_timed, state_enter, Es. constructor. in_list.
  - eapply Hdisc; [reflexivity| |exact H]. constructor. in_list.
  - destruct (_ <=? 1).
    + apply (check_calm _ _ d) in H; [|done]. eapply calm_moves; [exact H| |].
      * apply (tame_comp (enter DHCP_STATE_CHECKING)); [auto with dhcp|]. apply tame_timed. lia.
      * cbv beta. rewrite state_timed, state_enter, Es. constructor. in_list.
    + apply (bind_calm _ _ d) in H as [H _]; [|done|done]. eapply calm_moves; [exact H| |].
      * apply (tame_comp bind_timers); auto with dhcp.
      * cbv beta. rewrite state_enter, Es. constructor.
  - eapply Hdisc; [reflexivity| |exact H]. constructor. in_list.
Qed.

(** A step that stays in the state. *)
Definition stays (x y : dhcp) : Prop := dh_state y = dh_state x /\ dh_pcb_allocated y = dh_pcb_allocated x /\ (idle x -> idle y) /\ (wf x -> wf y).
Lemma stays_then e d w1 w2 w3 : calm d stays w1 w2 -> calm d (moves e) w2 w3 -> calm d (moves e) w1 w3.
Proof. apply calm_trans. intros x y z (F1 & F2 & F3 & F4) (E1 & E2 & E3 & E4). split_and!; [by rewrite <- F1|congruence|auto|auto]. Qed.
Lemma then_stays e d w1 w2 w3 : calm d (moves e) w1 w2 -> calm d stays w2 w3 -> calm d (moves e) w1 w3.
Proof. apply calm_trans. intros x y z (E1 & E2 & E3 & E4) (F1 & F2 & F3 & F4). split_and!; [by rewrite F1|congruence|auto|auto]. Qed.
Lemma stays_trans d w1 w2 w3 : calm d stays w1 w2 -> calm d stays w2 w3 -> calm d stays w1 w3.
Proof. apply calm_trans. intros x y z (E1 & E2 & E3 & E4) (F1 & F2 & F3 & F4). split_and!; [congruence|congruence|auto|auto]. Qed.
Lemma stays_moves e d w w' : e ∈ [Ev_reply; Ev_fine; Ev_coarse; Ev_link; Ev_arp] -> calm d stays w w' -> calm d (moves e) w w'.
Proof. intros He H. eapply calm_to; [exact H|]. destruct (c_client _ _ _ _ H) as (F1 & F2 & F3 & F4). split_and!; auto. rewrite F1. by constructor. Qed.
Lemma stays_upd d f w : stays (dh w d) (f (dh w d)) -> calm d stays w (upd_dh w d f).
Proof. intros H. eapply calm_to; [apply quiet_calm, quiet_upd|]. by rewrite dh_upd. Qed.
Lemma stays_refl d w : calm d stays w w.
Proof. eapply calm_to; [by apply calm_same|]. by split_and!. Qed.

Lemma fine_calm w nif d w' :
  netif_dhcp_data w nif = d -> d <> NULL -> nif <> NULL ->
  fine_netif netif_output custom_free fuel linkoutput rand callback tcp_netif_ip_addr_changed hostname w nif = Some w' -> calm d (moves Ev_fine) w w'.
Proof.
  intros Hd Hd0 Hn H. unfold fine_netif in H. cbv zeta in H. rewrite Hd, (proj2 (Z.eqb_neq _ _) Hd0) in H. cbn [negb] in H.
  assert (Hf : Ev_fine ∈ [Ev_reply; Ev_fine; Ev_coarse; Ev_link; Ev_arp]) by in_list. set (t := dh_request_timeout (dh w d)) in *.
  assert (Hs : 1 <= t -> calm d stays w (upd_dh w d (with_request_timeout (t - 1)))).
  { intros Ht. apply stays_upd. split_and!; try done. intros []. constructor; try done. simpl. unfold t in *. lia. }
  destruct (Z.ltb_spec 1 t); [injection H as <-; apply stays_moves; [done|]; apply Hs; lia|].
  destruct (Z.eqb_spec t 1); [|injection H as <-; by apply stays_moves; [|apply stays_refl]].
  assert (H1 : calm d stays w (upd_dh w d (with_request_timeout (t - 1)))) by (apply Hs; lia).
  eapply stays_then; [exact H1|]. eapply timeout_calm; [|done|exact H]. rewrite (calm_client _ _ _ _ _ H1). unfold client. by rewrite Hd, (proj2 (Z.eqb_neq _ _) Hd0).
Qed.

Lemma t1_calm w nif d w' :
  client w nif = Some d -> dhcp_t1_timeout netif_output custom_free fuel rand hostname w nif = Some w' -> calm d (moves Ev_coarse) w w'.
Proof.
  intros Hc H. unfold dhcp_t1_timeout in H. rewrite Hc in H. cbn [mbind option_bind] in H.
  destruct (_ || _) eqn:Es; [|injection H as <-; apply stays_moves; [in_list|apply stays_refl]]. bind H E. destruct p as [w1 r].
  apply (renew_quiet _ _ d) in E; [|done]. apply quiet_calm in E. cbv zeta in H. injection H as <-.
  apply (then_stays _ _ _ w1).
  - eapply calm_moves; [exact E|apply (tame_comp (enter DHCP_STATE_RENEWING)); auto with dhcp|]. cbv beta. rewrite state_timed, state_enter.
    apply orb_prop in Es as [[Es|Es]%orb_prop|Es]; apply has_state in Es; rewrite Es; constructor; in_list.
  - destruct (_ <=? _); [|apply stays_refl]. apply stays_upd. split_and!; try done. intros []. constructor; try done. apply u16_range.
Qed.
Lemma t2_calm w nif d w' :
  client w nif = Some d -> dhcp_t2_timeout netif_output custom_free fuel rand hostname w nif = Some w' -> calm d (moves Ev_coarse) w w'.
Proof.
  intros Hc H. unfold dhcp_t2_timeout in H. rewrite Hc in H. cbn [mbind option_bind] in H.
  destruct (_ || _) eqn:Es; [|injection H as <-; apply stays_moves; [in_list|apply stays_refl]]. bind H E. destruct p as [w1 r].
  apply (rebind_quiet _ _ d) in E; [|done]. apply quiet_calm in E. cbv zeta in H. injection H as <-.
  apply (then_stays _ _ _ w1).
  - eapply calm_moves; [exact E|apply (tame_comp (enter DHCP_STATE_REBINDING)); auto with dhcp|]. cbv beta. rewrite state_timed, state_enter.
    apply orb_prop in Es as [[[Es|Es]%orb_prop|Es]%orb_prop|Es]; apply has_state in Es; rewrite Es; constructor; in_list.
  - destruct (_ <=? _); [|apply stays_refl]. apply stays_upd. split_and!; try done. intros []. constructor; try done. apply u16_range.
Qed.

(** The lease has ended: the client starts again. *)
Definition used_up (x : dhcp) : dhcp := forget_offer (enter DHCP_STATE_OFF (with_lease_used (u16 (dh_lease_used x + 1)) x)).
Lemma tame_used_up : tame used_up.
Proof.
  intros x. unfold used_up, enter. destruct (decide _); (split; [done|]); intros []; constructor; try done; simpl; lia.
Qed.

Lemma coarse_calm w nif d w' :
  netif_dhcp_data w nif = d -> d <> NULL ->
  coarse_netif netif_output custom_free fuel linkoutput rand callback tcp_netif_ip_addr_changed hostname w nif = Some w' ->
  wf (dh w d) -> calm d (moves Ev_coarse) w w'.
Proof.
  intros Hd Hd0 H Hw. assert (Hc : client w nif = Some d) by (unfold client; by rewrite Hd, (proj2 (Z.eqb_neq _ _) Hd0)).
  assert (Hf : Ev_coarse ∈ [Ev_reply; Ev_fine; Ev_coarse; Ev_link; Ev_arp]) by in_list.
  unfold coarse_netif in H. cbv zeta in H. rewrite Hd, (proj2 (Z.eqb_neq _ _) Hd0) in H. cbn [orb] in H.
  destruct (state_is w d DHCP_STATE_OFF) eqn:Eo; [injection H as <-; by apply stays_moves; [|apply stays_refl]|]. apply bool_decide_eq_false in Eo.
  set (t0 := dh_t0_timeout (dh w d)) in *. set (inc := fun x => with_lease_used (u16 (dh_lease_used x + 1)) x) in *. set (w1 := if negb (t0 =? 0) then upd_dh w d inc else w) in *.
  destruct (negb (t0 =? 0) && _) eqn:Ex.
  - apply andb_prop in Ex as [Ex _]. assert (Hw1 : w1 = upd_dh w d inc) by (unfold w1; by rewrite Ex). bind H E. destruct p as [w2 r]. apply fmap_fst in H as (r2 & H).
    assert (H1 : calm d (becomes inc) w w1) by (rewrite Hw1; by apply becomes_upd).
    apply (release_calm _ _ d) in E; [|by rewrite (calm_client _ _ _ _ _ H1)].
    assert (H2 : calm d (becomes used_up) w w2).
    { eapply (becomes_comp d inc (fun x => forget_offer (enter DHCP_STATE_OFF x))); [|exact H1|exact E]. intros x. by rewrite <- core_enter. }
    apply (discover_quiet _ _ d) in H; [|by rewrite (calm_client _ _ _ _ _ H2)]. apply quiet_calm in H.
    eapply calm_moves; [eapply (becomes_comp d _ discovering); [exact core_discovering|exact H2|exact H]| |].
    + apply (tame_comp used_up discovering); [apply tame_used_up|apply tame_discovering].
    + unfold discovering. rewrite state_timed, state_enter. by constructor.
  - assert (H1 : calm d stays w w1).
    { unfold w1 in *. destruct (Z.eqb_spec t0 0) as [|Ht]; [apply stays_refl|]. cbn [negb andb] in Ex. rewrite dh_upd in Ex. simpl in Ex. apply Z.eqb_neq in Ex.
      apply stays_upd. split_and!; try done. intros []. unfold t0 in *. rewrite u16_small in Ex by lia. constructor; try done. simpl. rewrite u16_small by lia. lia. }
    set (t2 := dh_t2_rebind_time (dh w1 d)) in *. set (w2 := if negb (t2 =? 0) then _ else w1) in *.
    assert (H2 : calm d stays w w2).
    { eapply stays_trans; [exact H1|]. unfold w2. destruct (negb (t2 =? 0)); [|apply stays_refl]. apply stays_upd. split_and!; try done. intros []. constructor; try done. apply u16_range. }
    destruct (t2 =? 1); [eapply stays_then; [exact H2|]; eapply t2_calm; [by rewrite (calm_client _ _ _ _ _ H2)|exact H]|].
    set (t1 := dh_t1_renew_time (dh w2 d)) in *. set (w3 := if negb (t1 =? 0) then _ else w2) in *.
    assert (H3 : calm d stays w w3).
    { eapply stays_trans; [exact H2|]. unfold w3. destruct (negb (t1 =? 0)); [|apply stays_refl]. apply stays_upd. split_and!; try done. intros []. constructor; try done. apply u16_range. }
    destruct (t1 =? 1); [eapply stays_then; [exact H3|]; eapply t1_calm; [by rewrite (calm_client _ _ _ _ _ H3)|exact H]|].
    injection H as <-. by apply stays_moves.
Qed.

Lemma network_calm w nif d w' :
  netif_dhcp_data w nif = d -> d <> NULL -> dhcp_network_changed netif_output custom_free fuel rand w nif = Some w' -> calm d (moves Ev_link) w w'.
Proof.
  intros Hd Hd0 H. unfold dhcp_network_changed in H. cbv zeta in H. rewrite Hd, (proj2 (Z.eqb_neq _ _) Hd0) in H.
  assert (H1 : calm d stays w (upd_dh w d (with_tries 0))) by (apply stays_upd; split_and!; try done; by intros []; constructor).
  assert (Hc : client (upd_dh w d (with_tries 0)) nif = Some d) by (rewrite (calm_client _ _ _ _ _ H1); unfold client; by rewrite Hd, (proj2 (Z.eqb_neq _ _) Hd0)).
  assert (Hd2 : dh_state (dh (upd_dh w d (with_tries 0)) d) = dh_state (dh w d)) by (by rewrite dh_upd).
  assert (Hdisc : forall w', fst <$> dhcp_discover netif_output custom_free fuel rand (upd_dh w d (with_tries 0)) nif = Some w' ->
    edge Ev_link (dh_state (dh w d)) DHCP_STATE_SELECTING -> calm d (moves Ev_link) w w').
  { intros w1 (r & E)%fmap_fst He. apply (discover_quiet _ _ d) in E; [|done]. apply quiet_calm in E. eapply stays_then; [exact H1|].
    eapply calm_moves; [exact E|apply tame_discovering|]. cbv beta. by rewrite state_timed, state_enter, Hd2. }
  assert (Hreb : forall w', fst <$> dhcp_reboot netif_output custom_free fuel rand (upd_dh w d (with_tries 0)) nif = Some w' ->
    edge Ev_link (dh_state (dh w d)) DHCP_STATE_REBOOTING -> calm d (moves Ev_link) w w').
  { intros w1 (r & E)%fmap_fst He. apply (reboot_quiet _ _ d) in E; [|done]. apply quiet_calm in E. eapply stays_then; [exact H1|].
    eapply calm_moves; [exact E|apply (tame_comp (enter DHCP_STATE_REBOOTING)); auto with dhcp|]. cbv beta. by rewrite state_timed, state_enter, Hd2. }
  assert (Hrest : forall s, s ∉ [DHCP_STATE_OFF; DHCP_STATE_BOUND; DHCP_STATE_REBINDING; DHCP_STATE_RENEWING; DHCP_STATE_REBOOTING] -> edge Ev_link s DHCP_STATE_SELECTING)
    by (intros s Hs; by constructor).
  destruct (dh_state (dh w d)) eqn:Es; try (apply Hdisc; [exact H|apply Hrest; by rewrite !not_elem_of_cons; split_and!; try apply not_elem_of_nil]);
    try (apply Hreb; [exact H|constructor; in_list]).
  injection H as <-. apply stays_moves; [in_list|apply stays_refl].
Qed.

Lemma arp_calm w nif addr d w' :
  netif_dhcp_data w nif = d -> d <> NULL -> dhcp_arp_reply netif_output custom_free fuel rand w nif addr = Some w' -> calm d (moves Ev_arp) w w'.
Proof.
  intros Hd Hd0 H. unfold dhcp_arp_reply in H. cbv zeta in H. assert (Hst : calm d (moves Ev_arp) w w) by (apply stays_moves; [in_list|apply stays_refl]).
  destruct (nif =? NULL); [by injection H as <-|]. rewrite Hd, (proj2 (Z.eqb_neq _ _) Hd0) in H. cbn [negb andb] in H.
  destruct (state_is w d DHCP_STATE_CHECKING) eqn:Es; [|by injection H as <-]. destruct (_ =? _); [|by injection H as <-].
  apply has_state in Es. apply fmap_fst in H as (r & E). apply (decline_quiet _ _ d) in E; [|unfold client; by rewrite Hd, (proj2 (Z.eqb_neq _ _) Hd0)]. apply quiet_calm in E.
  eapply calm_moves; [exact E| |].
  - apply (tame_comp (enter DHCP_STATE_BACKING_OFF)); [auto with dhcp|]. apply tame_timed. lia.
  - cbv beta. rewrite state_timed, state_enter, Es. constructor.
Qed.

(** ** The PCB *)

(** The clients and the interfaces are as they were. *)
Definition same_map w w' : Prop := dhcp_clients (dhv w') = dhcp_clients (dhv w) /\ (forall n, info w' n = info w n) /\ w_netifs w' = w_netifs w.

Lemma inc_correct w w' e :
  dhcp_inc_pcb_refcount dhcp_recv_fn w = Some (w', e) ->
  same_map w w' /\
  ((e = ERR_OK /\ dhcp_pcb_refcount (dhv w') = u8 (dhcp_pcb_refcount (dhv w) + 1) /\
    (if dhcp_pcb_refcount (dhv w) =? 0 then dhcp_pcb (dhv w') <> NULL else dhcp_pcb (dhv w') = dhcp_pcb (dhv w))) \/
   (e = ERR_MEM /\ dhcp_pcb_refcount (dhv w) = 0 /\ dhcp_pcb_refcount (dhv w') = 0 /\ dhcp_pcb (dhv w') = NULL)).
Proof.
  unfold dhcp_inc_pcb_refcount. cbv zeta. destruct (Z.eqb_spec (dhcp_pcb_refcount (dhv w)) 0) as [E0|E0].
  - assert (Hn : w_ext (udp_new w).1 = w_ext w /\ w_netifs (udp_new w).1 = w_netifs w) by (unfold udp_new; destruct (memp_malloc _ _); cbv zeta; by destruct (negb _)).
    destruct (udp_new w) as [w1 pcb]. cbn [fst] in Hn. destruct Hn as [N1 N2]. assert (Hv : dhv w1 = dhv w) by (unfold dhv; by rewrite N1).
    assert (Hi : forall n, info w1 n = info w n) by (intros n; unfold info; by rewrite N1).
    destruct (Z.eqb_spec pcb NULL) as [->|Hp].
    + intros [= <- <-]. split; [by split_and!; rewrite ?dhv_upd; simpl; rewrite ?Hv|]. right. rewrite dhv_upd. simpl. by rewrite Hv.
    + intros H. bind H E1. destruct p as [w2 e2]. bind H E2. destruct p as [w3 e3]. injection H as <- <-.
      pose proof (udp_bind_ext _ _ _ _ _ _ E1) as X1. pose proof (udp_bind_netifs _ _ _ _ _ _ E1) as X2. pose proof (udp_connect_ext _ _ _ _ _ _ E2) as [X3 X4].
      assert (E : dhv w3 = set_dhcp_pcb pcb (dhv w)) by (unfold dhv; rewrite X3, X1; simpl; fold (dhv w1); by rewrite Hv).
      assert (Ei : forall n, info w3 n = info w n) by (intros n; rewrite <- Hi; unfold info; by rewrite X3, X1).
      rewrite !dhv_upd. change (dhv (udp_recv w3 pcb dhcp_recv_fn NULL)) with (dhv w3). rewrite E. split.
      * split_and!; [rewrite dhv_upd; change (dhv (udp_recv w3 pcb dhcp_recv_fn NULL)) with (dhv w3); by rewrite E|exact Ei|]. simpl. rewrite X4, X2. simpl. exact N2.
      * left. by split_and!.
  - intros [= <- <-]. split; [by split_and!|]. left. by split_and!.
Qed.

Lemma dec_correct w : same_map w (dhcp_dec_pcb_refcount w) /\
  dhcp_pcb_refcount (dhv (dhcp_dec_pcb_refcount w)) = u8 (dhcp_pcb_refcount (dhv w) - 1) /\
  dhcp_pcb (dhv (dhcp_dec_pcb_refcount w)) = if u8 (dhcp_pcb_refcount (dhv w) - 1) =? 0 then NULL else dhcp_pcb (dhv w).
Proof.
  unfold dhcp_dec_pcb_refcount. cbv zeta. rewrite dhv_upd. cbn [set_refcount dhcp_pcb_refcount].
  destruct (u8 (dhcp_pcb_refcount (dhv w) - 1) =? 0) eqn:E; [|done]. done.
Qed.
End Messages.
