(* ===== verification/DhcpState.v ===== *)
(** * The DHCP client over time

    The state machine, the use of the PCB by all clients, the end of a lease, and the lease
    that an acknowledgement brings. *)

From Stdlib Require Import ZArith Lia.
From stdpp Require Import base tactics numbers list option gmap.
From S2P Require Import Prelude.
From S2P Require Import Def.
From S2P Require Import Ip4Addr.
From S2P Require Import Alloc.
From S2P Require Import Mem.
From S2P Require Import Memp.
From S2P Require Import Pbuf.
From S2P Require Import PbufChain.
From S2P Require Import Etharp.
From S2P Require Import World.
From S2P Require Import Ip4Frag.
From S2P Require Import Ip4.
From S2P Require Import Icmp.
From S2P Require Import Igmp.
From S2P Require Import Ip4Reass.
From S2P Require Import Udp.
From S2P Require Import Ip4Input.
From S2P Require Import Stack.
From S2P Require Import Netif.
From S2P Require Import Network.
From S2P Require Import Dns.
From S2P Require Import DhcpParse.
From S2P Require Import Dhcp.
From S2P Require Import DhcpProps.

#[local] Abbreviation ext Y := (arp_part * (netif_part * (dhcp_vars * (dns_vars * Y))))%type.

(** ** The users of the PCB *)

Definition uses_pcb (kx : Z * dhcp) : Prop := dh_pcb_allocated kx.2 <> 0.
#[export] Instance uses_pcb_dec kx : Decision (uses_pcb kx).
Proof. unfold uses_pcb. apply _. Defined.
Definition users (m : gmap Z dhcp) : Z := Z.of_nat (size (filter uses_pcb m)).

Lemma users_insert m d x : m !! d = None -> users (<[d := x]> m) = users m + if decide (uses_pcb (d, x)) then 1 else 0.
Proof.
  intros Hd. unfold users. destruct (decide _) as [Hu|Hu].
  - rewrite map_filter_insert_True by done. rewrite map_size_insert_None; [lia|]. apply map_lookup_filter_None. by left.
  - rewrite map_filter_insert_False, delete_id by done. lia.
Qed.
Lemma users_replace m d x y : m !! d = Some x -> users (<[d := y]> m) = users m - (if decide (uses_pcb (d, x)) then 1 else 0) + if decide (uses_pcb (d, y)) then 1 else 0.
Proof.
  intros Hd. rewrite <- (insert_id m d x Hd) at 2. rewrite <- (insert_delete_eq m d x), <- (insert_delete_eq m d y).
  rewrite !users_insert by apply lookup_delete_eq. lia.
Qed.
Lemma users_delete m d x : m !! d = Some x -> users (delete d m) = users m - if decide (uses_pcb (d, x)) then 1 else 0.
Proof. intros Hd. rewrite <- (insert_id m d x Hd) at 2. rewrite <- insert_delete_eq, users_insert by apply lookup_delete_eq. lia. Qed.
Lemma users_nonneg m : 0 <= users m.
Proof. unfold users. lia. Qed.
Lemma users_pos m d x : m !! d = Some x -> uses_pcb (d, x) -> 1 <= users m.
Proof. intros Hd Hu. pose proof (users_delete m d x Hd). rewrite decide_True in H by done. pose proof (users_nonneg (delete d m)). lia. Qed.

Section State.
Context {Y : Type}.
#[local] Abbreviation W := (world (ext Y)).
Context (netif_output : W -> Z -> Z -> Z -> option (W * Z)).
Context (custom_free : pstate -> Z -> pstate) (fuel : nat) (linkoutput : Z -> pstate -> Z -> pstate * Z).
Context (rand : W -> W * Z) (callback : Z -> W -> Z -> option W) (tcp_netif_ip_addr_changed : W -> Z -> Z -> option W).
Context (hostname : Z -> Z) (dhcp_recv_fn dhcp_local value : Z).
Implicit Types w : W.

(** The events of the client of an interface. *)
Inductive dhcp_step : event -> Z -> W -> W -> Prop :=
| step_reply nif w arg pcb p addr port w' :
    current_input_netif (ip_data w) = nif ->
    dhcp_recv netif_output custom_free fuel linkoutput rand callback tcp_netif_ip_addr_changed hostname value w arg pcb p addr port = Some w' -> dhcp_step Ev_reply nif w w'
| step_fine nif w w' : fine_netif netif_output custom_free fuel linkoutput rand callback tcp_netif_ip_addr_changed hostname w nif = Some w' -> dhcp_step Ev_fine nif w w'
| step_coarse nif w w' : coarse_netif netif_output custom_free fuel linkoutput rand callback tcp_netif_ip_addr_changed hostname w nif = Some w' -> dhcp_step Ev_coarse nif w w'
| step_link nif w w' : dhcp_network_changed netif_output custom_free fuel rand w nif = Some w' -> dhcp_step Ev_link nif w w'
| step_arp nif addr w w' : dhcp_arp_reply netif_output custom_free fuel rand w nif addr = Some w' -> dhcp_step Ev_arp nif w w'
| step_start nif w w' r : dhcp_start netif_output custom_free fuel rand dhcp_recv_fn w nif = Some (w', r) -> dhcp_step Ev_start nif w w'
| step_stop nif w : dhcp_step Ev_stop nif w (dhcp_stop w nif)
| step_release nif w w' r :
    dhcp_release netif_output custom_free fuel linkoutput rand callback tcp_netif_ip_addr_changed w nif = Some (w', r) -> dhcp_step Ev_release nif w w'
| step_renew nif w w' r : dhcp_renew netif_output custom_free fuel rand hostname w nif = Some (w', r) -> dhcp_step Ev_renew nif w w'.

Context (Henv : dhcp_env netif_output rand callback tcp_netif_ip_addr_changed).

Lemma client_of w nif d : netif_dhcp_data w nif = d -> d <> NULL -> client w nif = Some d.
Proof. intros Hd Hd0. unfold client. by rewrite Hd, (proj2 (Z.eqb_neq _ _) Hd0). Qed.

(** The events that leave the PCB alone. *)
Lemma running_calm e nif w w' d :
  dhcp_step e nif w w' -> e <> Ev_start -> e <> Ev_stop -> netif_dhcp_data w nif = d -> d <> NULL -> nif <> NULL -> wf (dh w d) -> calm d (moves e) w w'.
Proof.
  intros Hs H1 H2 Hd Hd0 Hn Hw. pose proof (client_of _ _ _ Hd Hd0) as Hc. destruct Hs as [nif w arg pcb p addr port w' <- H|nif w w' H|nif w w' H|nif w w' H|nif addr w w' H| | |nif w w' r H|nif w w' r H]; try done.
  - by eapply recv_calm.
  - by eapply fine_calm.
  - by eapply coarse_calm.
  - by eapply network_calm.
  - by eapply arp_calm.
  - eapply calm_moves; [by eapply release_calm|apply (tame_comp (enter DHCP_STATE_OFF)); [apply tame_enter|apply tame_forget]|].
    cbv beta. change (dh_state (forget_offer (enter DHCP_STATE_OFF (dh w d)))) with (dh_state (enter DHCP_STATE_OFF (dh w d))). rewrite state_enter. constructor.
  - eapply calm_moves; [eapply quiet_calm; by eapply renew_quiet|apply (tame_comp (enter DHCP_STATE_RENEWING)); [apply tame_enter|apply tame_timed, backoff_renew_range]|].
    cbv beta. rewrite state_timed, state_enter. constructor.
Qed.

Lemma same_map_dh w w' d : same_map w w' -> dh w' d = dh w d.
Proof. intros (E & _). unfold dh. by rewrite E. Qed.
Lemma same_map_data w w' n : same_map w w' -> netif_dhcp_data w' n = netif_dhcp_data w n.
Proof. intros (_ & E & _). unfold netif_dhcp_data. by rewrite E. Qed.

(** The map of clients after client [d] was written. *)
Definition writes w d w' : Prop := dhcp_clients (dhv w') = <[d := dh w' d]> (dhcp_clients (dhv w)).
Lemma writes_upd w d f : writes w d (upd_dh w d f).
Proof. unfold writes. rewrite dh_upd. done. Qed.
Lemma writes_trans w1 w2 w3 d : writes w1 d w2 -> writes w2 d w3 -> writes w1 d w3.
Proof. unfold writes. intros E1 ->. rewrite E1. by rewrite insert_insert_eq. Qed.
Lemma writes_refl w d : is_Some (dhcp_clients (dhv w) !! d) -> writes w d w.
Proof. intros [x Hx]. unfold writes, dh. rewrite Hx. symmetry. by apply insert_id. Qed.
Lemma writes_calm d R w w' : calm d R w w' -> is_Some (dhcp_clients (dhv w) !! d) -> writes w d w'.
Proof.
  intros H Hd. unfold writes. apply map_eq. intros k. destruct (decide (k = d)) as [->|Hk].
  - rewrite lookup_insert_eq. destruct (c_dom _ _ _ _ H Hd) as [y Hy]. unfold dh. by rewrite Hy.
  - rewrite lookup_insert_ne by done. by apply H.
Qed.

(** [dhcp_stop] *)
Lemma stop_correct w nif d :
  netif_dhcp_data w nif = d -> d <> NULL -> nif <> NULL -> is_Some (dhcp_clients (dhv w) !! d) ->
  let w' := dhcp_stop w nif in let used := negb (dh_pcb_allocated (dh w d) =? 0) in
  dh w' d = with_pcb_allocated 0 (enter DHCP_STATE_OFF (dh w d)) /\ writes w d w' /\ (forall n, info w' n = info w n) /\
  dhcp_pcb_refcount (dhv w') = (if used then u8 (dhcp_pcb_refcount (dhv w) - 1) else dhcp_pcb_refcount (dhv w)) /\
  dhcp_pcb (dhv w') = (if used then if u8 (dhcp_pcb_refcount (dhv w) - 1) =? 0 then NULL else dhcp_pcb (dhv w) else dhcp_pcb (dhv w)).
Proof.
  intros Hd Hd0 Hn Hm w' used. unfold w', dhcp_stop. cbv zeta. rewrite Hd, (proj2 (Z.eqb_neq _ _) Hd0), (proj2 (Z.eqb_neq _ _) Hn). cbn [orb].
  pose proof (set_state_quiet d w DHCP_STATE_OFF) as Hq. set (w1 := dhcp_set_state w d DHCP_STATE_OFF) in *.
  assert (Ep : dh_pcb_allocated (dh w1 d) = dh_pcb_allocated (dh w d)) by (rewrite (q_client _ _ _ _ Hq); unfold enter; by destruct (decide _)).
  assert (Hw : writes w d w1) by (eapply writes_calm; [eapply quiet_calm, Hq|done]). rewrite Ep. fold used.
  pose proof (q_client _ _ _ _ Hq) as Ec. pose proof (q_refs _ _ _ _ Hq) as Er. pose proof (q_pcb _ _ _ _ Hq) as Epc. pose proof (q_info _ _ _ _ Hq) as Ei.
  destruct used eqn:Eu.
  - destruct (dec_correct w1) as (Hs & Hr & Hpc). rewrite dh_upd, (same_map_dh _ _ _ Hs), Ec. split; [done|]. split_and!.
    + unfold writes. rewrite dh_upd. unfold upd_dh, put_dh. rewrite dhv_upd. cbn [set_clients dhcp_clients]. rewrite (proj1 Hs), Hw. by rewrite insert_insert_eq.
    + intros n. rewrite <- Ei. apply Hs.
    + etransitivity; [exact Hr|]. by rewrite Er.
    + etransitivity; [exact Hpc|]. by rewrite Er, Epc.
  - split; [|by split_and!]. rewrite Ec in Ep |- *. apply negb_false_iff, Z.eqb_eq in Eu. rewrite Eu in Ep. revert Ep. generalize (enter DHCP_STATE_OFF (dh w d)).
    intros [] Ep. simpl in Ep. by rewrite Ep.
Qed.

(** ** The invariant *)

(** A client between two calls: no message is left, its counters are in range, and it has
    the PCB unless it is off. *)
Definition client_ok (x : dhcp) : Prop := idle x /\ wf x /\ (dh_state x <> DHCP_STATE_OFF -> dh_pcb_allocated x <> 0).
Record dhcp_inv w : Prop := {
  di_refs : dhcp_pcb_refcount (dhv w) = users (dhcp_clients (dhv w));
  di_few : users (dhcp_clients (dhv w)) < 256;
  di_pcb : dhcp_pcb (dhv w) = NULL <-> users (dhcp_clients (dhv w)) = 0;
  di_client : forall d x, dhcp_clients (dhv w) !! d = Some x -> client_ok x;
  di_attached : forall n, netif_dhcp_data w n <> NULL -> is_Some (dhcp_clients (dhv w) !! netif_dhcp_data w n);
  di_distinct : forall n n', netif_dhcp_data w n = netif_dhcp_data w n' -> netif_dhcp_data w n <> NULL -> n = n'
}.

Lemma inv_dh w d : dhcp_inv w -> is_Some (dhcp_clients (dhv w) !! d) -> client_ok (dh w d) /\ dhcp_clients (dhv w) !! d = Some (dh w d).
Proof. intros Hi [x Hx]. unfold dh. rewrite Hx. split; [by eapply di_client|done]. Qed.

Definition used_by (x : dhcp) : Z := if decide (dh_pcb_allocated x = 0) then 0 else 1.
Lemma uses_used d x : (if decide (uses_pcb (d, x)) then 1 else 0) = used_by x.
Proof. unfold used_by. destruct (decide (dh_pcb_allocated x = 0)) as [E|E]; [rewrite decide_False|rewrite decide_True]; auto. Qed.

(** One client is written, with what that means for the PCB. *)
Lemma inv_write w w' d :
  dhcp_inv w -> is_Some (dhcp_clients (dhv w) !! d) -> writes w d w' -> client_ok (dh w' d) -> (forall n, netif_dhcp_data w' n = netif_dhcp_data w n) ->
  let n := users (dhcp_clients (dhv w)) - used_by (dh w d) + used_by (dh w' d) in
  n < 256 -> dhcp_pcb_refcount (dhv w') = n -> (dhcp_pcb (dhv w') = NULL <-> n = 0) -> dhcp_inv w'.
Proof.
  intros Hi Hd Hw Hok Hdata n Hn Hr Hp. destruct (inv_dh w d Hi Hd) as [_ Hx]. unfold writes in Hw.
  assert (Hu : users (dhcp_clients (dhv w')) = n) by (rewrite Hw, (users_replace _ _ _ _ Hx), !uses_used; done).
  constructor; rewrite ?Hu; auto.
  - intros k x. rewrite Hw. destruct (decide (k = d)) as [->|Hk]; [rewrite lookup_insert_eq; by intros [= <-]|rewrite lookup_insert_ne by done; by apply di_client].
  - intros k. rewrite Hdata. intros Hk. rewrite Hw. apply lookup_insert_is_Some'. right. by apply di_attached.
  - intros k k'. rewrite !Hdata. by apply di_distinct.
Qed.

Lemma inv_calm w w' d e :
  dhcp_inv w -> is_Some (dhcp_clients (dhv w) !! d) -> calm d (moves e) w w' -> (dh_state (dh w' d) <> DHCP_STATE_OFF -> dh_pcb_allocated (dh w d) <> 0) -> dhcp_inv w'.
Proof.
  intros Hi Hd Hc Hs. destruct (c_client _ _ _ _ Hc) as (_ & Ea & Hidle & Hwf). destruct (inv_dh w d Hi Hd) as [(H1 & H2 & _) _].
  assert (Eu : used_by (dh w' d) = used_by (dh w d)) by (unfold used_by; by rewrite Ea).
  apply (inv_write w w' d); auto; rewrite ?Eu; replace (users (dhcp_clients (dhv w)) - used_by (dh w d) + used_by (dh w d)) with (users (dhcp_clients (dhv w))) by lia.
  - by eapply writes_calm.
  - split_and!; auto. by rewrite Ea.
  - intros n. unfold netif_dhcp_data. by rewrite (c_info _ _ _ _ Hc).
  - apply Hi.
  - rewrite (c_refs _ _ _ _ Hc). apply Hi.
  - rewrite (c_pcb _ _ _ _ Hc). apply Hi.
Qed.

Lemma dhcp_stop_inv w nif : dhcp_inv w -> dhcp_inv (dhcp_stop w nif).
Proof.
  intros Hi. destruct (decide (nif = NULL \/ netif_dhcp_data w nif = NULL)) as [Hn|Hn].
  { unfold dhcp_stop. cbv zeta. destruct Hn as [-> | ->]; [done|]. by rewrite orb_true_r. }
  apply Decidable.not_or in Hn as [Hn Hd]. set (d := netif_dhcp_data w nif) in *. pose proof (di_attached w Hi nif Hd) as Hm. fold d in Hm.
  destruct (stop_correct w nif d eq_refl Hd Hn Hm) as (E1 & E2 & E3 & E4 & E5). destruct (inv_dh w d Hi Hm) as [(H1 & H2 & H3) Hx].
  pose proof (di_refs w Hi) as Hr. pose proof (di_few w Hi) as Hf. pose proof (di_pcb w Hi) as Hp. pose proof (users_nonneg (dhcp_clients (dhv w))) as Hpos.
  assert (Hu1 : dh_pcb_allocated (dh w d) <> 0 -> 1 <= users (dhcp_clients (dhv w))) by (intros; by apply (users_pos _ d (dh w d))).
  assert (Hu0 : used_by (dh (dhcp_stop w nif) d) = 0) by (by rewrite E1).
  apply (inv_write w _ d); auto; rewrite ?Hu0, ?E4, ?E5, ?Hr.
  - rewrite E1. split_and!; [apply (idle_enter DHCP_STATE_OFF) in H1; done| |]; [by destruct (proj2 (tame_enter DHCP_STATE_OFF (dh w d)) H2); constructor|].
    change (dh_state (with_pcb_allocated 0 ?x)) with (dh_state x). by rewrite state_enter.
  - intros n. unfold netif_dhcp_data. by rewrite E3.
  - unfold used_by. destruct (decide _); lia.
  - unfold used_by. destruct (decide _) as [E|E]; [rewrite E; simpl; lia|]. rewrite (proj2 (Z.eqb_neq _ _) E). cbn [negb]. rewrite u8_small by (specialize (Hu1 E); lia). lia.
  - unfold used_by. destruct (decide _) as [E|E]; [rewrite E; simpl; rewrite Hp; lia|]. rewrite (proj2 (Z.eqb_neq _ _) E). cbn [negb]. specialize (Hu1 E).
    rewrite u8_small by lia. destruct (Z.eqb_spec (users (dhcp_clients (dhv w)) - 1) 0) as [E0|E0]; [split; [lia|done]|]. rewrite Hp. lia.
Qed.

(** [dhcp_start]: a client is cleared, or attached. *)
Lemma ok_zero : client_ok dhcp0.
Proof. split_and!; [done| |done]. by constructor. Qed.

Definition given_back w (d : Z) : W := if negb (dh_pcb_allocated (dh w d) =? 0) then dhcp_dec_pcb_refcount w else w.
Lemma reset_inv w nif d :
  dhcp_inv w -> netif_dhcp_data w nif = d -> d <> NULL ->
  let w' := put_dh (given_back w d) d dhcp0 in dhcp_inv w' /\ (forall n, info w' n = info w n) /\ dh w' d = dhcp0 /\ writes w d w' /\
    users (dhcp_clients (dhv w')) <= users (dhcp_clients (dhv w)).
Proof.
  intros Hi Hd Hd0 w'. pose proof (di_attached w Hi nif ltac:(by rewrite Hd)) as Hm. rewrite Hd in Hm. destruct (inv_dh w d Hi Hm) as [(H1 & H2 & H3) Hx].
  pose proof (di_refs w Hi) as Hr. pose proof (di_few w Hi) as Hf. pose proof (di_pcb w Hi) as Hp. pose proof (users_nonneg (dhcp_clients (dhv w))) as Hpos.
  assert (Hu1 : dh_pcb_allocated (dh w d) <> 0 -> 1 <= users (dhcp_clients (dhv w))) by (intros; by apply (users_pos _ d (dh w d))).
  destruct (dec_correct w) as (Hs & Er & Ep). rewrite Hr in Er, Ep.
  assert (Hg : same_map w (given_back w d)) by (unfold given_back; by destruct (negb _)).
  assert (Ed : dh w' d = dhcp0) by (unfold w'; by rewrite dh_put, Z.eqb_refl).
  assert (Hw : writes w d w') by (unfold writes; rewrite Ed; unfold w', put_dh; rewrite dhv_upd; cbn [set_clients dhcp_clients]; by rewrite (proj1 Hg)).
  assert (Hinf : forall n, info w' n = info w n) by (intros n; apply Hg).
  split; [|split_and!; auto].
  - apply (inv_write w w' d); auto; rewrite ?Ed; [apply ok_zero|intros n; unfold netif_dhcp_data; by rewrite Hinf| | |].
    + unfold used_by. destruct (decide (dh_pcb_allocated (dh w d) = 0)); simpl; lia.
    + change (dhcp_pcb_refcount (dhv w')) with (dhcp_pcb_refcount (dhv (given_back w d))). unfold given_back, used_by.
      destruct (decide (dh_pcb_allocated (dh w d) = 0)) as [E|E]; [rewrite E; simpl; lia|]. rewrite (proj2 (Z.eqb_neq _ _) E). cbn [negb]. specialize (Hu1 E).
      rewrite Er, u8_small by lia. simpl. lia.
    + change (dhcp_pcb (dhv w')) with (dhcp_pcb (dhv (given_back w d))). unfold given_back, used_by.
      destruct (decide (dh_pcb_allocated (dh w d) = 0)) as [E|E]; [rewrite E; simpl; rewrite Hp; lia|]. rewrite (proj2 (Z.eqb_neq _ _) E). cbn [negb]. specialize (Hu1 E).
      rewrite Ep, u8_small by lia. simpl. destruct (Z.eqb_spec (users (dhcp_clients (dhv w)) - 1) 0); [split; [lia|done]|]. rewrite Hp. lia.
  - unfold writes in Hw. rewrite Hw, (users_replace _ _ _ _ Hx), !uses_used, Ed. unfold used_by. destruct (decide (dh_pcb_allocated (dh w d) = 0)); simpl; lia.
Qed.

Lemma attach_inv w nif d :
  dhcp_inv w -> netif_dhcp_data w nif = NULL -> d <> NULL -> dhcp_clients (dhv w) !! d = None ->
  let w' := put_dh (set_dhcp_data w nif d) d dhcp0 in dhcp_inv w' /\ netif_dhcp_data w' nif = d /\ dh w' d = dhcp0 /\
    users (dhcp_clients (dhv w')) = users (dhcp_clients (dhv w)).
Proof.
  intros Hi Hn Hd0 Hd w'. assert (Hdata : forall n, netif_dhcp_data w' n = if n =? nif then d else netif_dhcp_data w n).
  { intros n. unfold netif_dhcp_data, info, w', put_dh. simpl. by destruct (n =? nif). }
  assert (Hcl : dhcp_clients (dhv w') = <[d := dhcp0]> (dhcp_clients (dhv w))) by done.
  assert (Hu : users (dhcp_clients (dhv w')) = users (dhcp_clients (dhv w))) by (rewrite Hcl, users_insert, uses_used by done; unfold used_by; simpl; lia).
  split; [|split_and!; auto; [by rewrite Hdata, Z.eqb_refl|unfold w'; by rewrite dh_put, Z.eqb_refl]]. constructor; rewrite ?Hu; try apply Hi.
  - intros k x. rewrite Hcl. destruct (decide (k = d)) as [->|Hk]; [rewrite lookup_insert_eq; intros [= <-]; apply ok_zero|rewrite lookup_insert_ne by done; by apply di_client].
  - intros n. rewrite !Hdata, Hcl. destruct (n =? nif); intros Hne; apply lookup_insert_is_Some'; [by left|right; by apply di_attached].
  - assert (Ho : forall n, netif_dhcp_data w n <> d) by (intros n E; pose proof (di_attached w Hi n ltac:(congruence)) as [x Hx]; congruence).
    intros n n'. rewrite !Hdata. destruct (Z.eqb_spec n nif) as [->|], (Z.eqb_spec n' nif) as [->|]; auto; [intros E; by destruct (Ho n')|intros E; by destruct (Ho n)|by apply di_distinct].
Qed.

(** What [dhcp_start] does with a cleared client. *)
Definition start_client w (nif d : Z) : option (W * Z) :=
  '(w, err) ← dhcp_inc_pcb_refcount dhcp_recv_fn w;
  if negb (err =? ERR_OK) then Some (w, ERR_MEM)
  else
    let w := upd_dh w d (with_pcb_allocated 1) in
    '(w, result) ← dhcp_discover netif_output custom_free fuel rand w nif;
    if negb (result =? ERR_OK) then Some (dhcp_stop w nif, ERR_MEM) else Some (w, result).

Lemma same_map_inv w w' : same_map w w' -> dhcp_pcb_refcount (dhv w') = dhcp_pcb_refcount (dhv w) -> (dhcp_pcb (dhv w') = NULL <-> dhcp_pcb (dhv w) = NULL) -> dhcp_inv w -> dhcp_inv w'.
Proof.
  intros (E1 & E2 & E3) Er Ep Hi. assert (Hd : forall n, netif_dhcp_data w' n = netif_dhcp_data w n) by (intros n; unfold netif_dhcp_data; by rewrite E2).
  constructor; rewrite ?E1, ?Er, ?Ep; try apply Hi.
  - intros n. rewrite Hd. by apply di_attached.
  - intros n n'. rewrite !Hd. by apply di_distinct.
Qed.

Lemma start_client_inv w nif d w' r :
  start_client w nif d = Some (w', r) -> dhcp_inv w -> netif_dhcp_data w nif = d -> d <> NULL -> nif <> NULL -> dh w d = dhcp0 -> users (dhcp_clients (dhv w)) < 255 ->
  dhcp_inv w' /\ (dh_state (dh w' d) = DHCP_STATE_SELECTING \/ dh_state (dh w' d) = DHCP_STATE_OFF) /\
  (forall d', d' <> d -> dhcp_clients (dhv w') !! d' = dhcp_clients (dhv w) !! d') /\ (forall n, info w' n = info w n).
Proof.
  intros H Hi Hd Hd0 Hn Hz Hfew. unfold start_client in H. bind H Ei. destruct p as [w1 e].
  apply inc_correct in Ei as [Hs [(-> & Er & Ep) | (-> & E0 & Er & Ep)]].
  2:{ injection H as <- _. pose proof (di_pcb w Hi) as Hp. pose proof (di_refs w Hi) as Hr. split_and!.
      - apply (same_map_inv w); auto; [by rewrite Er|]. rewrite Ep, Hp. rewrite <- Hr. tauto.
      - right. by rewrite (same_map_dh _ _ _ Hs), Hz.
      - intros d' _. by rewrite (proj1 Hs).
      - apply Hs. }
  cbn [negb] in H. change (negb (ERR_OK =? ERR_OK)) with false in H. cbv iota zeta in H. pose proof (di_refs w Hi) as Hr. pose proof (di_pcb w Hi) as Hp.
  pose proof (users_nonneg (dhcp_clients (dhv w))) as Hpos. pose proof (di_attached w Hi nif ltac:(by rewrite Hd)) as Hm. rewrite Hd in Hm.
  set (w2 := upd_dh w1 d (with_pcb_allocated 1)) in *. assert (Ed : dh w2 d = with_pcb_allocated 1 dhcp0) by (unfold w2; by rewrite dh_upd, (same_map_dh _ _ _ Hs), Hz).
  assert (Hinf : forall n, info w2 n = info w n) by (intros n; apply Hs).
  assert (Hcl2 : dhcp_clients (dhv w2) = <[d := dh w2 d]> (dhcp_clients (dhv w))) by (rewrite Ed; unfold w2, upd_dh, put_dh; rewrite dhv_upd; cbn [set_clients dhcp_clients]; rewrite (same_map_dh _ _ _ Hs), Hz; by rewrite (proj1 Hs)).
  assert (H2 : dhcp_inv w2).
  { apply (inv_write w w2 d); auto; rewrite ?Ed, ?Hz.
    - split_and!; [done| |done]. by constructor.
    - intros n. unfold netif_dhcp_data. by rewrite Hinf.
    - unfold used_by. simpl. lia.
    - change (dhcp_pcb_refcount (dhv w2)) with (dhcp_pcb_refcount (dhv w1)). rewrite Er, Hr, u8_small by lia. unfold used_by. simpl. lia.
    - change (dhcp_pcb (dhv w2)) with (dhcp_pcb (dhv w1)). unfold used_by. simpl. rewrite Hr in Ep. destruct (Z.eqb_spec (users (dhcp_clients (dhv w))) 0) as [E|E]; [split; [done|lia]|].
      rewrite Ep, Hp. lia. }
  bind H E. destruct p as [w3 r3]. assert (Hd2 : netif_dhcp_data w2 nif = d) by (unfold netif_dhcp_data; by rewrite Hinf).
  assert (Hm2 : is_Some (dhcp_clients (dhv w2) !! d)) by (rewrite Hcl2, lookup_insert_eq; eauto).
  eapply discover_quiet in E; [|done|by apply client_of]. apply quiet_calm in E.
  assert (Es3 : dh_state (dh w3 d) = DHCP_STATE_SELECTING).
  { destruct (c_client _ _ _ _ E) as [Ec _]. etransitivity; [exact (f_equal dh_state Ec)|]. cbv beta.
    change (dh_state (core ?x)) with (dh_state x). by rewrite state_timed, state_enter. }
  assert (E' : calm d (moves Ev_start) w2 w3).
  { eapply calm_moves; [exact E|apply tame_discovering|]. cbv beta. rewrite state_timed, state_enter. constructor. }
  assert (H3 : dhcp_inv w3) by (eapply (inv_calm w2); [done|done|exact E'|by rewrite Ed]).
  assert (Ho3 : forall d', d' <> d -> dhcp_clients (dhv w3) !! d' = dhcp_clients (dhv w) !! d').
  { intros d' Hd'. rewrite (c_other _ _ _ _ E) by done. rewrite Hcl2. by rewrite lookup_insert_ne. }
  assert (Hi3 : forall n, info w3 n = info w n) by (intros n; by rewrite (c_info _ _ _ _ E)).
  destruct (negb (r3 =? ERR_OK)); injection H as <- _; [|split_and!; auto].
  assert (Hd3 : netif_dhcp_data w3 nif = d) by (unfold netif_dhcp_data; by rewrite Hi3).
  destruct (stop_correct w3 nif d Hd3 Hd0 Hn) as (E1 & E2 & E3 & _); [apply E; done|]. split_and!; [by apply dhcp_stop_inv| | |].
  - right. rewrite E1. change (dh_state (with_pcb_allocated 0 ?x)) with (dh_state x). apply state_enter.
  - intros d' Hd'. rewrite E2, lookup_insert_ne by done. auto.
  - intros n. by rewrite E3.
Qed.

(** The heap does not give out the memory of a client again. *)
Definition fresh_client w (nif : Z) : Prop :=
  forall h d, netif_dhcp_data w nif = NULL -> mem_malloc (ps_heap (w_ps w)) SIZEOF_DHCP = Some (h, d) -> d = NULL \/ dhcp_clients (dhv w) !! d = None.

Lemma clients_same_inv w w' : dhv w' = dhv w -> (forall n, netif_dhcp_data w' n = netif_dhcp_data w n) -> dhcp_inv w -> dhcp_inv w'.
Proof.
  intros E Hd Hi. constructor; rewrite ?E; try apply Hi; [intros n; rewrite Hd; by apply di_attached|intros n n'; rewrite !Hd; by apply di_distinct].
Qed.

(** The outcomes of [dhcp_start] for an interface with the client [d]. *)
Lemma start_correct w nif w' r :
  dhcp_start netif_output custom_free fuel rand dhcp_recv_fn w nif = Some (w', r) -> dhcp_inv w -> users (dhcp_clients (dhv w)) < 255 -> fresh_client w nif ->
  dhcp_inv w' /\ forall d, netif_dhcp_data w nif = d -> d <> NULL ->
    edge Ev_start (dh_state (dh w d)) (dh_state (dh w' d)) /\ (forall d', d' <> d -> dhcp_clients (dhv w') !! d' = dhcp_clients (dhv w) !! d') /\ (forall n, info w' n = info w n).
Proof.
  intros H Hi Hfew Hfr. unfold dhcp_start in H.
  assert (Href : w' = w -> dhcp_inv w' /\ forall d, netif_dhcp_data w nif = d -> d <> NULL ->
    edge Ev_start (dh_state (dh w d)) (dh_state (dh w' d)) /\ (forall d', d' <> d -> dhcp_clients (dhv w') !! d' = dhcp_clients (dhv w) !! d') /\ (forall n, info w' n = info w n)).
  { intros ->. split; [done|]. intros d _ _. split_and!; auto. apply edge_start_refused. }
  destruct (Z.eqb_spec nif NULL) as [|Hn]; [apply Href; by injection H|]. destruct (negb _); [apply Href; by injection H|].
  destruct (_ <? DHCP_MAX_MSG_LEN_MIN_REQUIRED); [apply Href; by injection H|]. clear Href. cbv zeta in H. set (d := netif_dhcp_data w nif) in *.
  destruct (Z.eqb_spec d NULL) as [E|E].
  - bind H E1. destruct p as [w1 d1]. bind E1 E2. destruct p as [h d2]. injection E1 as E1 <-. cbv zeta in E1. destruct (Z.eqb_spec d2 NULL) as [->|Hd2].
    + injection H as <- _. subst w1. split; [by apply (clients_same_inv w)|]. intros d0 Hd0 ?. congruence.
    + destruct (Hfr h d2 E E2) as [|Hnone]; [done|]. subst w1. set (w1 := set_wps w _) in H.
      destruct (attach_inv w1 nif d2) as (H1 & H2 & H3 & H4); [by apply (clients_same_inv w)|done|done|done|].
      apply (start_client_inv _ _ d2) in H; auto; [|by rewrite H4]. split; [apply H|]. intros d0 Hd0 ?. congruence.
  - bind H E1. destruct p as [w1 d1]. injection E1 as E1 <-. rewrite (proj2 (Z.eqb_neq _ _) E) in H. subst w1. fold (given_back w d) in H.
    destruct (reset_inv w nif d Hi eq_refl E) as (H1 & H2 & H3 & H4 & H5). set (w2 := put_dh (given_back w d) d dhcp0) in *.
    apply (start_client_inv _ _ d) in H as (I1 & I2 & I3 & I4); auto; [|unfold netif_dhcp_data; rewrite H2; done|lia]. split; [done|].
    intros d0 <- _. fold d. split_and!.
    + destruct I2 as [-> | ->]; constructor.
    + intros d' Hd'. rewrite I3 by done. unfold writes in H4. rewrite H4. by rewrite lookup_insert_ne.
    + intros n. by rewrite I4.
Qed.

(** [dhcp_inform] leaves the clients as they were. *)
Lemma inform_inv w nif w' :
  dhcp_inform netif_output custom_free fuel rand dhcp_recv_fn dhcp_local w nif = Some w' -> dhcp_inv w -> users (dhcp_clients (dhv w)) < 255 ->
  dhcp_local <> NULL -> dhcp_clients (dhv w) !! dhcp_local = None -> dhcp_inv w'.
Proof.
  intros H Hi Hfew Hl0 Hl. unfold dhcp_inform in H. destruct (nif =? NULL); [by injection H as <-|]. bind H Ei. destruct p as [w1 e]. pose proof (di_refs w Hi) as Hr. pose proof (di_pcb w Hi) as Hp.
  apply inc_correct in Ei as [Hs [(-> & Er & Ep) | (-> & E0 & Er & Ep)]].
  2:{ injection H as <-. apply (same_map_inv w); auto; [by rewrite Er|]. rewrite Ep, Hp, <- Hr. tauto. }
  change (negb (ERR_OK =? ERR_OK)) with false in H. cbv iota zeta in H. set (w2 := dhcp_set_state (put_dh w1 dhcp_local dhcp0) dhcp_local DHCP_STATE_INFORMING) in H.
  bind H E. destruct p as [w3 r]. bind H E3. injection H as <-.
  assert (H13 : quiet dhcp_local (fun _ _ => True) w2 w0).
  { apply (create_quiet _ _ _ rand callback tcp_netif_ip_addr_changed Henv) in E as [E _]. destruct (r =? ERR_OK).
    - eapply send_own_quiet in E3; [|done|done]. eapply (quiet_trans dhcp_local same_core (fun x y => same_core x y /\ idle y)); [done|exact E|].
      eapply sent_trans; [apply max_msg_size_quiet|exact E3].
    - injection E3 as <-. eapply quiet_mono; [|exact E]. done. }
  assert (H2 : quiet dhcp_local (fun _ _ => True) (put_dh w1 dhcp_local dhcp0) w2) by (eapply quiet_mono; [|apply set_state_quiet]; done).
  pose proof (quiet_trans dhcp_local _ _ (fun _ _ => True) _ _ _ (fun _ _ _ _ _ => I) H2 H13) as Hq. clear H2 H13 E E3.
  destruct (dec_correct w0) as (Hs0 & Er0 & Ep0). pose proof (users_nonneg (dhcp_clients (dhv w))) as Hpos.
  assert (Er1 : dhcp_pcb_refcount (dhv w0) = users (dhcp_clients (dhv w)) + 1).
  { rewrite (q_refs _ _ _ _ Hq). change (dhcp_pcb_refcount (dhv w1) = users (dhcp_clients (dhv w)) + 1). rewrite Er, Hr. apply u8_small. lia. }
  assert (Ep1 : dhcp_pcb (dhv w0) = dhcp_pcb (dhv w1)) by (by rewrite (q_pcb _ _ _ _ Hq)).
  rewrite Er1 in Er0, Ep0. replace (users (dhcp_clients (dhv w)) + 1 - 1) with (users (dhcp_clients (dhv w))) in Er0, Ep0 by lia. rewrite u8_small in Er0, Ep0 by lia.
  set (w4 := upd_dhv _ _). assert (Hcl : dhcp_clients (dhv w4) = dhcp_clients (dhv w)).
  { unfold w4. rewrite dhv_upd. cbn [set_clients dhcp_clients]. rewrite (proj1 Hs0). apply map_eq. intros k. destruct (decide (k = dhcp_local)) as [->|Hk].
    - by rewrite lookup_delete_eq, Hl.
    - rewrite lookup_delete_ne by done. rewrite (q_other _ _ _ _ Hq) by done. unfold put_dh. rewrite dhv_upd. cbn [set_clients dhcp_clients]. rewrite lookup_insert_ne by done. by rewrite (proj1 Hs). }
  assert (Hd : forall n, netif_dhcp_data w4 n = netif_dhcp_data w n).
  { intros n. change (netif_dhcp_data w4 n) with (netif_dhcp_data (dhcp_dec_pcb_refcount w0) n). rewrite (same_map_data _ _ _ Hs0). unfold netif_dhcp_data.
    rewrite (q_info _ _ _ _ Hq). change (ni_dhcp (info w1 n) = ni_dhcp (info w n)). by rewrite (proj1 (proj2 Hs)). }
  constructor; rewrite ?Hcl; [exact Er0|apply Hi| |apply Hi| |].
  - change (dhcp_pcb (dhv w4)) with (dhcp_pcb (dhv (dhcp_dec_pcb_refcount w0))). rewrite Ep0, Ep1. rewrite Hr in Ep.
    destruct (Z.eqb_spec (users (dhcp_clients (dhv w))) 0) as [E|E]; [split; auto|]. by rewrite Ep.
  - intros n. rewrite Hd. by apply di_attached.
  - intros n n'. rewrite !Hd. by apply di_distinct.
Qed.

(** An interface without a client: nothing happens. *)
Lemma no_client e nif w w' :
  dhcp_step e nif w w' -> netif_dhcp_data w nif = NULL -> e <> Ev_start -> dhv w' = dhv w /\ forall n, netif_dhcp_data w' n = netif_dhcp_data w n.
Proof.
  intros Hs Hd He. assert (Hc : client w nif = None) by (unfold client; by rewrite Hd).
  destruct Hs as [nif w arg pcb p addr port w' <- H|nif w w' H|nif w w' H|nif w w' H|nif addr w w' H| |nif w|nif w w' r H|nif w w' r H]; try done.
  - unfold dhcp_recv in H. cbv zeta in H. rewrite Hd in H. cbn [orb] in H. change (NULL =? NULL) with true in H. cbn [orb] in H. unfold free_pbuf_and_return in H.
    change (negb (NULL =? NULL)) with false in H. cbv iota in H. unfold wfree in H. destruct (pbuf_free _ _ _ _) as [[st r]|]; [|done]. by injection H as <-.
  - unfold fine_netif in H. cbv zeta in H. rewrite Hd in H. by injection H as <-.
  - unfold coarse_netif in H. cbv zeta in H. rewrite Hd in H. by injection H as <-.
  - unfold dhcp_network_changed in H. cbv zeta in H. rewrite Hd in H. by injection H as <-.
  - unfold dhcp_arp_reply in H. cbv zeta in H. rewrite Hd in H. destruct (nif =? NULL); by injection H as <-.
  - unfold dhcp_stop. cbv zeta. rewrite Hd. by rewrite orb_true_r.
  - unfold dhcp_release in H. cbv zeta in H. rewrite Hd in H. by injection H as <- _.
  - unfold dhcp_renew in H. by rewrite Hc in H.
Qed.

(** A client that is off stays off, unless it is started or told to renew. *)
Lemma edge_off e s : edge e DHCP_STATE_OFF s -> e <> Ev_start -> e <> Ev_renew -> s = DHCP_STATE_OFF.
Proof. intros H. inversion H; subst; try done; match goal with Hs : _ ∈ _ |- _ => by rewrite !elem_of_cons, elem_of_nil in Hs; destruct_or! Hs | Hs : _ ∉ _ |- _ => by destruct Hs; left | _ => done end. Qed.

(** What the application has to see to: it starts at most 255 clients, and a client that is
    told to renew has been started. *)
Definition allowed (e : event) (nif : Z) w : Prop :=
  match e with
  | Ev_start => users (dhcp_clients (dhv w)) < 255 /\ fresh_client w nif
  | Ev_renew => dh_pcb_allocated (dh w (netif_dhcp_data w nif)) <> 0
  | _ => True
  end.
Lemma event_inv e nif w w' : dhcp_step e nif w w' -> nif <> NULL -> allowed e nif w -> dhcp_inv w -> dhcp_inv w'.
Proof.
  intros Hs Hn Ha Hi. destruct (decide (e = Ev_start)) as [->|H1]; [inversion Hs; subst; destruct Ha; by eapply start_correct|].
  destruct (decide (e = Ev_stop)) as [->|H2]; [inversion Hs; subst; by apply dhcp_stop_inv|].
  destruct (decide (netif_dhcp_data w nif = NULL)) as [Hd|Hd]; [destruct (no_client e nif w w' Hs Hd H1); by apply (clients_same_inv w)|].
  pose proof (di_attached w Hi nif Hd) as Hm. destruct (inv_dh w _ Hi Hm) as [(_ & Hw & Hp) _].
  pose proof (running_calm _ _ _ _ _ Hs H1 H2 eq_refl Hd Hn Hw) as Hc. eapply inv_calm; [done|exact Hm|exact Hc|]. intros Hoff.
  destruct (decide (e = Ev_renew)) as [->|H3]; [exact Ha|]. apply Hp. intros Ho. destruct (c_client _ _ _ _ Hc) as [He _]. rewrite Ho in He. by apply edge_off in He.
Qed.

(** The timers go through the list of interfaces. *)
Lemma each_none (f : W -> Z -> option W) l : foldl (fun ow nif => w ← ow; f w nif) None l = None.
Proof. by induction l. Qed.
Lemma each_inv (f : W -> Z -> option W) l w w' :
  (forall w nif w', f w nif = Some w' -> nif <> NULL -> dhcp_inv w -> dhcp_inv w') -> NULL ∉ l ->
  foldl (fun ow nif => w ← ow; f w nif) (Some w) l = Some w' -> dhcp_inv w -> dhcp_inv w'.
Proof.
  intros Hf. revert w. induction l as [|n l IH]; intros w Hl H Hi; [by injection H as <-|]. cbn [foldl mbind option_bind] in H. apply not_elem_of_cons in Hl as [Hn Hl].
  destruct (f w n) as [w1|] eqn:E; [eapply IH; eauto|]. by rewrite each_none in H.
Qed.

Lemma struct_inv w nif d : dhcp_inv w -> netif_dhcp_data w nif = NULL -> d <> NULL -> dhcp_clients (dhv w) !! d = None -> dhcp_inv (dhcp_set_struct w nif d).
Proof.
  intros Hi Hn Hd Hc. destruct (attach_inv w nif d Hi Hn Hd Hc) as [H _]. eapply clients_same_inv; [| |exact H]; done.
Qed.
Lemma cleanup_inv w nif : dhcp_inv w -> dh_pcb_allocated (dh w (netif_dhcp_data w nif)) = 0 -> dhcp_inv (dhcp_cleanup w nif).
Proof.
  intros Hi Hp. unfold dhcp_cleanup. cbv zeta. destruct (Z.eqb_spec (netif_dhcp_data w nif) NULL) as [|Hd]; [done|]. cbn [negb]. set (d := netif_dhcp_data w nif) in *.
  set (w' := set_dhcp_data _ _ _). destruct (di_attached w Hi nif Hd) as [x Hx]. fold d in Hx. unfold dh in Hp. rewrite Hx in Hp. simpl in Hp.
  assert (Hdata : forall n, netif_dhcp_data w' n = if n =? nif then NULL else netif_dhcp_data w n).
  { intros n. unfold netif_dhcp_data, info, w'. simpl. by destruct (n =? nif). }
  assert (Hcl : dhcp_clients (dhv w') = delete d (dhcp_clients (dhv w))) by done.
  assert (Hu : users (dhcp_clients (dhv w')) = users (dhcp_clients (dhv w))) by (rewrite Hcl, (users_delete _ _ _ Hx), uses_used; unfold used_by; rewrite decide_True by done; lia).
  constructor; rewrite ?Hu.
  - apply Hi.
  - apply Hi.
  - apply Hi.
  - intros k y. rewrite Hcl. intros [_ Hy]%lookup_delete_Some. by eapply di_client.
  - intros n. rewrite Hdata, Hcl. destruct (Z.eqb_spec n nif) as [|Hne]; [done|]. intros H0. rewrite lookup_delete_ne; [by apply di_attached|].
    intros E. apply Hne. symmetry. by apply (di_distinct w Hi).
  - intros n n'. rewrite !Hdata. destruct (n =? nif), (n' =? nif); intros E H0; try congruence. by apply (di_distinct w Hi).
Qed.

(** The steps of the module: the events of the clients, the timers over all interfaces, and
    the functions for the application.  Anything else leaves the clients to DHCP. *)
Inductive dhcp_next : W -> W -> Prop :=
| next_event e nif w w' : dhcp_step e nif w w' -> nif <> NULL -> allowed e nif w -> dhcp_next w w'
| next_fine w w' :
    dhcp_fine_tmr netif_output custom_free fuel linkoutput rand callback tcp_netif_ip_addr_changed hostname w = Some w' -> NULL ∉ netif_list (w_netifs w) -> dhcp_next w w'
| next_coarse w w' :
    dhcp_coarse_tmr netif_output custom_free fuel linkoutput rand callback tcp_netif_ip_addr_changed hostname w = Some w' -> NULL ∉ netif_list (w_netifs w) -> dhcp_next w w'
| next_inform nif w w' :
    dhcp_inform netif_output custom_free fuel rand dhcp_recv_fn dhcp_local w nif = Some w' -> users (dhcp_clients (dhv w)) < 255 ->
    dhcp_clients (dhv w) !! dhcp_local = None -> dhcp_next w w'
| next_struct nif d w : netif_dhcp_data w nif = NULL -> d <> NULL -> dhcp_clients (dhv w) !! d = None -> dhcp_next w (dhcp_set_struct w nif d)
| next_cleanup nif w : dh_pcb_allocated (dh w (netif_dhcp_data w nif)) = 0 -> dhcp_next w (dhcp_cleanup w nif)
| next_other w w' : dhv w' = dhv w -> (forall n, netif_dhcp_data w' n = netif_dhcp_data w n) -> dhcp_next w w'.

Lemma next_inv w w' : dhcp_next w w' -> dhcp_local <> NULL -> dhcp_inv w -> dhcp_inv w'.
Proof.
  intros Hs Hl Hi. destruct Hs as [e nif w w' Hs Hn Ha|w w' H Hn|w w' H Hn|nif w w' H Hu Hc|nif d w H1 H2 H3|nif w H|w w' H1 H2].
  - by eapply event_inv.
  - eapply each_inv; [|exact Hn|exact H|done]. intros w1 nif w2 H1 H2. eapply (event_inv Ev_fine nif); [by constructor|done|done].
  - eapply each_inv; [|exact Hn|exact H|done]. intros w1 nif w2 H1 H2. eapply (event_inv Ev_coarse nif); [by constructor|done|done].
  - by eapply inform_inv.
  - by apply struct_inv.
  - by apply cleanup_inv.
  - by apply (clients_same_inv w).
Qed.

(** Before the first client. *)
Definition no_clients w : Prop := dhcp_pcb (dhv w) = NULL /\ dhcp_pcb_refcount (dhv w) = 0 /\ dhcp_clients (dhv w) = ∅ /\ forall n, netif_dhcp_data w n = NULL.
Lemma no_clients_inv w : no_clients w -> dhcp_inv w.
Proof. intros (H1 & H2 & H3 & H4). constructor; rewrite ?H1, ?H2, ?H3; try done; intros n; rewrite H4; done. Qed.
End State.
