(* ===== verification/DhcpLease.v ===== *)
(** * The lease of a DHCP client

    The end of a lease, the lease that an acknowledgement brings, and the theorems on the
    client with a board that takes up an address. *)

From Stdlib Require Import ZArith Lia.
From stdpp Require Import base tactics numbers list option gmap.
From S2P Require Import Prelude.
From S2P Require Import Def.
From S2P Require Import Ip4Addr.
From S2P Require Import Alloc.
From S2P Require Import Mem.
From S2P Require Import Memp.
From S2P Require Import Pbuf.
From S2P Require Import PbufChain.
From S2P Require Import Etharp.
From S2P Require Import World.
From S2P Require Import Ip4Frag.
From S2P Require Import Ip4.
From S2P Require Import Icmp.
From S2P Require Import Igmp.
From S2P Require Import Ip4Reass.
From S2P Require Import Udp.
From S2P Require Import Ip4Input.
From S2P Require Import Stack.
From S2P Require Import Netif.
From S2P Require Import Network.
From S2P Require Import Dns.
From S2P Require Import DhcpParse.
From S2P Require Import Dhcp.
From S2P Require Import DhcpProps.

From S2P Require Import DnsTable.
From S2P Require Import DhcpState.

#[local] Abbreviation ext Y := (arp_part * (netif_part * (dhcp_vars * (dns_vars * Y))))%type.

Section Lease.
Context {Y : Type}.
#[local] Abbreviation W := (world (ext Y)).
Context (netif_output : W -> Z -> Z -> Z -> option (W * Z)).
Context (custom_free : pstate -> Z -> pstate) (fuel : nat) (linkoutput : Z -> pstate -> Z -> pstate * Z).
Context (rand : W -> W * Z) (callback : Z -> W -> Z -> option W) (tcp_netif_ip_addr_changed : W -> Z -> Z -> option W).
Context (hostname : Z -> Z) (dhcp_recv_fn dhcp_local value : Z).
Implicit Types w : W.
Context (Henv : dhcp_env netif_output rand callback tcp_netif_ip_addr_changed).
#[local] Abbreviation coarse := (coarse_netif netif_output custom_free fuel linkoutput rand callback tcp_netif_ip_addr_changed hostname).

(** The part of a client that counts the lease. *)
Definition lease (x : dhcp) : Z * Z := (dh_t0_timeout x, dh_lease_used x).
Lemma lease_core x : lease (core x) = lease x.
Proof. done. Qed.
Lemma lease_enter s x : lease (enter s x) = lease x.
Proof. unfold enter. by destruct (decide _). Qed.
Lemma lease_timed f x : lease (timed f x) = lease x.
Proof. unfold timed. by destruct (_ <? _). Qed.

(** The lease is counted on, and the client is not off. *)
Definition counts (x y : dhcp) : Prop := lease y = lease x /\ (dh_state x <> DHCP_STATE_OFF -> dh_state y <> DHCP_STATE_OFF).
Lemma counts_request d s f w w' : calm d (becomes (fun x => timed f (enter s x))) w w' -> s <> DHCP_STATE_OFF -> calm d counts w w'.
Proof.
  intros H Hs. eapply calm_to; [exact H|]. destruct (c_client _ _ _ _ H) as [E _]. split.
  - rewrite <- (lease_core (dh w' d)), E, lease_core, lease_timed. apply lease_enter.
  - intros _. apply (f_equal dh_state) in E. cbv beta in E. change (dh_state (core ?x)) with (dh_state x) in E. by rewrite E, state_timed, state_enter.
Qed.
Lemma counts_trans d w1 w2 w3 : calm d counts w1 w2 -> calm d counts w2 w3 -> calm d counts w1 w3.
Proof. apply calm_trans. intros x y z [E1 H1] [E2 H2]. split; [congruence|auto]. Qed.
Lemma counts_upd d f w : counts (dh w d) (f (dh w d)) -> calm d counts w (upd_dh w d f).
Proof. intros H. eapply calm_to; [apply quiet_calm, quiet_upd|]. by rewrite dh_upd. Qed.
Lemma counts_refl d w : calm d counts w w.
Proof. eapply calm_to; [by apply calm_same|]. done. Qed.

Lemma t1_counts w nif d w' : client w nif = Some d -> dhcp_t1_timeout netif_output custom_free fuel rand hostname w nif = Some w' -> calm d counts w w'.
Proof.
  intros Hc H. unfold dhcp_t1_timeout in H. rewrite Hc in H. cbn [mbind option_bind] in H. destruct (_ || _); [|injection H as <-; apply counts_refl].
  bind H E. destruct p as [w1 r]. eapply renew_quiet in E; [|done|done]. apply quiet_calm in E. cbv zeta in H. injection H as <-.
  eapply counts_trans; [by eapply counts_request|]. destruct (_ <=? _); [by apply counts_upd|apply counts_refl].
Qed.
Lemma t2_counts w nif d w' : client w nif = Some d -> dhcp_t2_timeout netif_output custom_free fuel rand hostname w nif = Some w' -> calm d counts w w'.
Proof.
  intros Hc H. unfold dhcp_t2_timeout in H. rewrite Hc in H. cbn [mbind option_bind] in H. destruct (_ || _); [|injection H as <-; apply counts_refl].
  bind H E. destruct p as [w1 r]. eapply rebind_quiet in E; [|done|done]. apply quiet_calm in E. cbv zeta in H. injection H as <-.
  eapply counts_trans; [by eapply counts_request|]. destruct (_ <=? _); [by apply counts_upd|apply counts_refl].
Qed.

(** A tick before the end of the lease. *)
Lemma coarse_counts w nif d w' T u :
  coarse w nif = Some w' -> netif_dhcp_data w nif = d -> d <> NULL -> lease (dh w d) = (T, u) -> 0 <= u -> u + 1 < T < 65536 -> dh_state (dh w d) <> DHCP_STATE_OFF ->
  lease (dh w' d) = (T, u + 1) /\ dh_state (dh w' d) <> DHCP_STATE_OFF /\ netif_dhcp_data w' nif = d.
Proof.
  intros H Hd Hd0 Hl Hu Ht Hs. unfold coarse_netif in H. cbv zeta in H. rewrite Hd, (proj2 (Z.eqb_neq _ _) Hd0) in H. unfold state_is in H. rewrite bool_decide_eq_false_2 in H by done. cbn [orb] in H.
  pose proof (f_equal fst Hl) as H0. pose proof (f_equal snd Hl) as H1. simpl in H0, H1. rewrite H0, (proj2 (Z.eqb_neq T 0)) in H by lia. cbn [negb andb] in H.
  set (w1 := upd_dh w d _) in H. assert (E1 : dh w1 d = with_lease_used (u + 1) (dh w d)) by (unfold w1; rewrite dh_upd, H1, u16_small by lia; done).
  rewrite E1 in H. cbn [with_lease_used dh_lease_used] in H. rewrite (proj2 (Z.eqb_neq (u + 1) T)) in H by lia.
  assert (Hi1 : forall n, info w1 n = info w n) by done.
  assert (Hfin : forall w', calm d counts w1 w' -> lease (dh w' d) = (T, u + 1) /\ dh_state (dh w' d) <> DHCP_STATE_OFF /\ netif_dhcp_data w' nif = d).
  { intros w2 Hc. destruct (c_client _ _ _ _ Hc) as [Hc1 Hc2]. rewrite Hc1, E1. split_and!; [unfold lease; simpl; by rewrite H0|apply Hc2; by rewrite E1|].
    unfold netif_dhcp_data. rewrite (c_info _ _ _ _ Hc), Hi1. done. }
  apply Hfin. clear Hfin. assert (Hcl : forall w2, calm d counts w1 w2 -> client w2 nif = Some d).
  { intros w2 Hc. rewrite (calm_client _ _ _ _ _ Hc). by apply client_of. }
  set (t2 := dh_t2_rebind_time _) in H. set (w2 := if negb (t2 =? 0) then _ else w1) in H.
  assert (C2 : calm d counts w1 w2) by (unfold w2; destruct (negb (t2 =? 0)); [by apply counts_upd|apply counts_refl]).
  destruct (t2 =? 1); [eapply counts_trans; [exact C2|]; eapply t2_counts; [by apply Hcl|exact H]|].
  set (t1 := dh_t1_renew_time _) in H. set (w3 := if negb (t1 =? 0) then _ else w2) in H.
  assert (C3 : calm d counts w1 w3) by (eapply counts_trans; [exact C2|]; unfold w3; destruct (negb (t1 =? 0)); [by apply counts_upd|apply counts_refl]).
  destruct (t1 =? 1); [eapply counts_trans; [exact C3|]; eapply t1_counts; [by apply Hcl|exact H]|by injection H as <-].
Qed.

(** What [dhcp_release] does to the addresses: only those of a client that is bound or
    renewing are taken away. *)
Definition supplied (s : dhcp_state) : bool := bool_decide (s = DHCP_STATE_BOUND) || bool_decide (s = DHCP_STATE_RENEWING).
Lemma release_addresses w nif d w' r :
  client w nif = Some d -> nif <> NULL -> dhcp_release netif_output custom_free fuel linkoutput rand callback tcp_netif_ip_addr_changed w nif = Some (w', r) ->
  forall n, netif_of w' n = if supplied (dh_state (dh w d)) && (n =? nif) then configured IPADDR_ANY IPADDR_ANY IPADDR_ANY (netif_of w nif) else netif_of w n.
Proof.
  intros Hc Hn H n. apply client_data in Hc as [Hd Hd0]. unfold dhcp_release in H. cbv zeta in H. rewrite Hd, (proj2 (Z.eqb_neq _ _) Hd0) in H.
  unfold dhcp_supplied_address in H. rewrite Hd, (proj2 (Z.eqb_neq _ _) Hd0), (proj2 (Z.eqb_neq _ _) Hn) in H. cbn [negb andb] in H. cbv zeta in H.
  fold (supplied (dh_state (dh w d))) in H. assert (Es : w_netifs (dhcp_set_state w d DHCP_STATE_OFF) = w_netifs w) by apply (set_state_quiet d w DHCP_STATE_OFF).
  unfold state_is in H. fold (supplied (dh_state (dh w d))) in H. destruct (supplied _); cbn [negb andb] in *.
  - bind H E. destruct p as [w2 e]. bind H E3. bind H E4. injection H as <- _. eapply set_addr_same in E4; [|done].
    assert (E23 : w_netifs w0 = w_netifs w).
    { eapply create_quiet in E as [E _]; [|done]. etransitivity; [|etransitivity; [exact (q_netifs _ _ _ _ E)|exact Es]].
      destruct (e =? ERR_OK); [|by injection E3 as <-]. eapply send_own_quiet in E3; [|done|done]. apply (q_netifs _ _ _ _ E3). }
    destruct E4 as (_ & _ & _ & Hnif). rewrite Hnif. unfold netif_of. by rewrite E23.
  - injection H as <- _. unfold netif_of. simpl. by rewrite Es.
Qed.

Lemma discovering_anew x y :
  core y = core (discovering x) -> lease x = (0, 0) -> dh_state y = DHCP_STATE_SELECTING /\ lease y = (0, 0) /\ dh_offered_ip_addr y = 0.
Proof.
  intros E Hx. split_and!.
  - apply (f_equal dh_state) in E. change (dh_state (core ?x)) with (dh_state x) in E. rewrite E. unfold discovering. by rewrite state_timed, state_enter.
  - rewrite <- (lease_core y), E, lease_core. unfold discovering. by rewrite lease_timed, lease_enter.
  - apply (f_equal dh_offered_ip_addr) in E. change (dh_offered_ip_addr (core ?x)) with (dh_offered_ip_addr x) in E. rewrite E. unfold discovering, timed, enter.
    by destruct (decide _), (_ <? _).
Qed.
(** The tick that ends the lease. *)
Lemma coarse_expires w nif d w' T :
  coarse w nif = Some w' -> netif_dhcp_data w nif = d -> d <> NULL -> nif <> NULL -> lease (dh w d) = (T, T - 1) -> 1 <= T < 65536 -> dh_state (dh w d) <> DHCP_STATE_OFF ->
  dh_state (dh w' d) = DHCP_STATE_SELECTING /\ lease (dh w' d) = (0, 0) /\ dh_offered_ip_addr (dh w' d) = 0 /\
  forall n, netif_of w' n = if supplied (dh_state (dh w d)) && (n =? nif) then configured IPADDR_ANY IPADDR_ANY IPADDR_ANY (netif_of w nif) else netif_of w n.
Proof.
  intros H Hd Hd0 Hn Hl Ht Hs. unfold coarse_netif in H. cbv zeta in H. rewrite Hd, (proj2 (Z.eqb_neq _ _) Hd0) in H. unfold state_is in H. rewrite bool_decide_eq_false_2 in H by done. cbn [orb] in H.
  pose proof (f_equal fst Hl) as H0. pose proof (f_equal snd Hl) as H1. simpl in H0, H1. rewrite H0, (proj2 (Z.eqb_neq T 0)) in H by lia. cbn [negb andb] in H.
  set (w1 := upd_dh w d _) in H. assert (E1 : dh w1 d = with_lease_used T (dh w d)) by (unfold w1; rewrite dh_upd, H1, u16_small by lia; do 2 f_equal; lia).
  rewrite E1 in H. cbn [with_lease_used dh_lease_used] in H. rewrite Z.eqb_refl in H. bind H E. destruct p as [w2 r]. apply fmap_fst in H as (r2 & H).
  assert (Hc1 : client w1 nif = Some d) by (by apply client_of). pose proof (release_addresses _ _ _ _ _ Hc1 Hn E) as Ha. eapply release_calm in E; [|done|done].
  eapply discover_quiet in H; [|done|by rewrite (calm_client _ _ _ _ _ E)]. destruct (c_client _ _ _ _ E) as [Er _]. destruct (q_client _ _ _ _ H) as [Ed _]. cbv beta in Er, Ed.
  fold (discovering (dh w2 d)) in Ed. rewrite core_discovering, Er, <- core_discovering in Ed. set (x := forget_offer _) in Ed. assert (Hx : lease x = (0, 0)) by reflexivity. clearbody x.
  destruct (discovering_anew _ _ Ed Hx) as (R1 & R2 & R3). split_and!; [exact R1|exact R2|exact R3|].
  intros n. unfold netif_of at 1. rewrite (q_netifs _ _ _ _ H). fold (netif_of w2 n). rewrite Ha, E1. reflexivity.
Qed.

(** Ticks of the coarse timer for an interface; between them anything may happen that does
    not start or end a lease. *)
Inductive ticks (nif d : Z) : nat -> W -> W -> Prop :=
| ticks_0 w : ticks nif d 0 w w
| ticks_coarse n w w1 w2 : ticks nif d n w w1 -> coarse w1 nif = Some w2 -> ticks nif d (S n) w w2
| ticks_other n w w1 w2 :
    ticks nif d n w w1 -> netif_dhcp_data w2 nif = netif_dhcp_data w1 nif -> lease (dh w2 d) = lease (dh w1 d) -> dh_state (dh w2 d) <> DHCP_STATE_OFF ->
    ticks nif d n w w2.

Lemma ticks_count nif d n w w' T u :
  ticks nif d n w w' -> netif_dhcp_data w nif = d -> d <> NULL -> lease (dh w d) = (T, u) -> 0 <= u -> T < 65536 -> u + Z.of_nat n < T -> dh_state (dh w d) <> DHCP_STATE_OFF ->
  lease (dh w' d) = (T, u + Z.of_nat n) /\ dh_state (dh w' d) <> DHCP_STATE_OFF /\ netif_dhcp_data w' nif = d.
Proof.
  intros H Hd Hd0 Hl Hu HT Hn Hs. induction H as [w|n w w1 w2 H IH Hc|n w w1 w2 H IH Hdata Hlease Hoff].
  - by rewrite Z.add_0_r.
  - destruct IH as (I1 & I2 & I3); auto; [lia|]. replace (u + Z.of_nat (S n)) with (u + Z.of_nat n + 1) by lia. eapply coarse_counts; [exact Hc|done|done|exact I1|lia|lia|done].
  - destruct IH as (I1 & I2 & I3); auto. rewrite Hlease, Hdata. done.
Qed.

(** An acknowledged lease, in the states in which the address is not probed first. *)
Lemma ack_sets w nif d w' :
  client w nif = Some d -> nif <> NULL -> u8 (rx_value w DHCP_OPTION_IDX_MSG_TYPE) = DHCP_ACK ->
  dh_state (dh w d) ∈ [DHCP_STATE_REBOOTING; DHCP_STATE_REBINDING; DHCP_STATE_RENEWING] ->
  dhcp_handle_msg netif_output custom_free fuel linkoutput rand callback tcp_netif_ip_addr_changed hostname w nif d = Some w' ->
  let x := take_lease (dhcp_rx (dhv w)) (ld32 (wmem w) (dh_msg_in (dh w d) + DHCP_YIADDR_OFS)) (dh w d) in
  core (dh w' d) = core (enter DHCP_STATE_BOUND (bind_timers x)) /\
  (forall n, netif_of w' n = if n =? nif then configured (dh_offered_ip_addr x) (bind_mask x) (bind_gw x) (netif_of w nif) else netif_of w n) /\
  (forall d', d' <> d -> dhcp_clients (dhv w') !! d' = dhcp_clients (dhv w) !! d').
Proof.
  intros Hc Hn Ht Hs H x. unfold dhcp_handle_msg in H. cbv zeta in H. rewrite Ht, Z.eqb_refl in H. unfold state_is in H.
  assert (Hr : bool_decide (dh_state (dh w d) = DHCP_STATE_REQUESTING) = false) by (apply bool_decide_eq_false_2; intros E; rewrite E in Hs; rewrite !elem_of_cons, elem_of_nil in Hs; by destruct_or! Hs).
  rewrite Hr in H. destruct (_ || _) eqn:Eo.
  2:{ exfalso. apply orb_false_iff in Eo as [[Eo1 Eo2]%orb_false_iff Eo3]. apply bool_decide_eq_false in Eo1, Eo2, Eo3. rewrite !elem_of_cons, elem_of_nil in Hs. by destruct_or! Hs. }
  bind H Ea. rename w0 into w1. apply (ack_calm _ _ d) in Ea as [Ea En]; [|done]. pose proof (calm_client _ _ _ _ nif Ea) as Ec. rewrite Hc in Ec.
  apply (bind_calm netif_output _ _ _ _ _ _ Henv _ _ d) in H as [Hb Hre]; [|done|done]. destruct (c_client _ _ _ _ Ea) as [E1 _]. destruct (c_client _ _ _ _ Hb) as [E2 _].
  assert (F : forall {A} (g : dhcp -> A), (forall y, g (core y) = g y) -> g (dh w1 d) = g x).
  { intros A g Hg. rewrite <- Hg, E1, Hg. done. }
  split_and!.
  - rewrite E2, core_enter, core_bind, E1. by rewrite <- core_bind, <- core_enter.
  - destruct Hre as (_ & _ & _ & Hnif). intros n. rewrite Hnif. rewrite (F _ dh_offered_ip_addr), (F _ bind_mask), (F _ bind_gw) by done.
    set (w2 := dhcp_set_state _ _ _). assert (E : forall m, netif_of w2 m = netif_of w m).
    { intros m. unfold netif_of. rewrite <- En. unfold w2. by rewrite (q_netifs _ _ _ _ (set_state_quiet d (upd_dh w1 d bind_timers) DHCP_STATE_BOUND)). }
    by rewrite !E.
  - intros d' Hd'. rewrite (c_other _ _ _ _ Hb), (c_other _ _ _ _ Ea) by done. done.
Qed.
End Lease.

(** C13: In every state that the module reaches from no clients on, through messages of any
    content, timer ticks, changes of the link, answers to ARP probes and calls of the
    application that keep to the contract below: the reference count of the shared PCB is the
    number of clients that use it, the PCB exists exactly when there is one, a client that is
    not off has it, an interface's client exists and is its own, no message is left behind in
    a client, its counters are in their ranges and its lease has not run out unnoticed.  The
    contract ([dhcp_next], [allowed]): a client is started or informed while fewer than 255
    use the PCB, with memory of the heap, or of the caller of [dhcp_inform], that is no
    client's; [dhcp_renew] is called for a client that has been started and not stopped;
    [dhcp_cleanup] only behind [dhcp_stop]; [dhcp_set_struct] only for an interface without a
    client and a structure of no other; no interface is [NULL].  Without it the invariant
    does fail: a renewal of a stopped client ([renew_without_pcb]) and a cleanup of a
    running one ([cleanup_keeps_reference]). *)
Theorem dhcp_safe {Y} netif_output custom_free fuel linkoutput rand callback tcp_changed hostname dhcp_recv_fn dhcp_local value (w0 w : world (ext Y)) :
  dhcp_env netif_output rand callback tcp_changed -> dhcp_local <> NULL -> no_clients w0 ->
  rtc (dhcp_next netif_output custom_free fuel linkoutput rand callback tcp_changed hostname dhcp_recv_fn dhcp_local value) w0 w -> dhcp_inv w.
Proof. intros He Hl H0 H. apply no_clients_inv in H0. induction H as [|w1 w2 w3 Hs _ IH]; [done|]. apply IH. by eapply next_inv. Qed.

(** C12: The state machine of the client is [edge]: whatever a reply, a timer, the link, ARP
    or the application does, the state of the interface's client goes along one of its
    edges, with its counters in their ranges, and the clients of other interfaces and the
    assignment of clients to interfaces stay as they were. *)
Theorem dhcp_moves {Y} netif_output custom_free fuel linkoutput rand callback tcp_changed hostname dhcp_recv_fn value e nif d (w w' : world (ext Y)) :
  dhcp_env netif_output rand callback tcp_changed -> dhcp_inv w ->
  dhcp_step netif_output custom_free fuel linkoutput rand callback tcp_changed hostname dhcp_recv_fn value e nif w w' ->
  nif <> NULL -> allowed e nif w -> netif_dhcp_data w nif = d -> d <> NULL ->
  edge e (dh_state (dh w d)) (dh_state (dh w' d)) /\ wf (dh w' d) /\
  (forall d', d' <> d -> dhcp_clients (dhv w') !! d' = dhcp_clients (dhv w) !! d') /\ (forall n, netif_dhcp_data w' n = netif_dhcp_data w n).
Proof.
  intros He Hi Hs Hn Ha Hd Hd0. pose proof (di_attached w Hi nif ltac:(by rewrite Hd)) as Hm. rewrite Hd in Hm. destruct (inv_dh w d Hi Hm) as [(Hidle & Hw & _) _].
  destruct (decide (e = Ev_start)) as [->|H1].
  - inversion Hs as [| | | | |? ? ? r Hst| | |]; subst. destruct Ha as [Hu Hf]. eapply start_correct in Hst as [Hi' Hc]; [|exact linkoutput|exact hostname|exact He|done|done|done]. destruct (Hc _ eq_refl Hd0) as (C1 & C2 & C3).
    assert (Hdata : forall n, netif_dhcp_data w' n = netif_dhcp_data w n) by (intros n; unfold netif_dhcp_data; by rewrite C3).
    split_and!; auto. pose proof (di_attached w' Hi' nif ltac:(by rewrite Hdata)) as Hm'. rewrite Hdata in Hm'. apply (inv_dh w' _ Hi' Hm').
  - destruct (decide (e = Ev_stop)) as [->|H2].
    + inversion Hs; subst. destruct (stop_correct w nif _ eq_refl Hd0 Hn Hm) as (E1 & E2 & E3 & _). split_and!.
      * rewrite E1. change (dh_state (with_pcb_allocated 0 ?x)) with (dh_state x). rewrite state_enter. constructor.
      * rewrite E1. destruct (proj2 (tame_enter DHCP_STATE_OFF _) Hw). by constructor.
      * intros d' Hd'. rewrite E2. by rewrite lookup_insert_ne.
      * intros n. unfold netif_dhcp_data. by rewrite E3.
    + eapply running_calm in Hs as [Hc _ Ho _ _ Hinf]; [|done..]. destruct Hc as (C1 & _ & _ & C4).
      split_and!; auto. intros n. unfold netif_dhcp_data. by rewrite Hinf.
Qed.

(** C14: A lease of [T] minutes lasts [T] ticks of the coarse timer, neither more nor fewer:
    before, each tick counts it on by one, through renewing and rebinding and whatever else
    happens that is not a new lease; the tick that completes it takes the client back to
    [SELECTING] with nothing of the lease left.  The address goes with it when the client was
    bound or renewing, and stays with the interface in every other state. *)
Theorem lease_ends {Y} netif_output custom_free fuel linkoutput rand callback tcp_changed hostname nif d T u n (w w1 w' : world (ext Y)) :
  dhcp_env netif_output rand callback tcp_changed ->
  netif_dhcp_data w nif = d -> d <> NULL -> nif <> NULL -> wf (dh w d) -> dh_state (dh w d) <> DHCP_STATE_OFF -> lease (dh w d) = (T, u) -> u + Z.of_nat n < T ->
  ticks netif_output custom_free fuel linkoutput rand callback tcp_changed hostname nif d n w w1 ->
  coarse_netif netif_output custom_free fuel linkoutput rand callback tcp_changed hostname w1 nif = Some w' ->
  lease (dh w1 d) = (T, u + Z.of_nat n) /\
  if u + Z.of_nat n + 1 <? T then lease (dh w' d) = (T, u + Z.of_nat n + 1) /\ dh_state (dh w' d) <> DHCP_STATE_OFF
  else dh_state (dh w' d) = DHCP_STATE_SELECTING /\ lease (dh w' d) = (0, 0) /\ dh_offered_ip_addr (dh w' d) = 0 /\
    forall k, netif_of w' k = if supplied (dh_state (dh w1 d)) && (k =? nif) then configured IPADDR_ANY IPADDR_ANY IPADDR_ANY (netif_of w1 nif) else netif_of w1 k.
Proof.
  intros He Hd Hd0 Hn Hw Hs Hl Hlt Ht Hc. pose proof (f_equal fst Hl) as H0. pose proof (f_equal snd Hl) as H1. simpl in H0, H1. destruct Hw as [_ _ Hr0 _ _ _ _ Hu].
  destruct (ticks_count _ _ _ _ _ _ _ _ He nif d n w w1 T u Ht) as (L1 & L2 & L3); auto; [lia|lia|]. split; [done|]. destruct (Z.ltb_spec (u + Z.of_nat n + 1) T).
  - eapply coarse_counts in Hc as (C1 & C2 & _); [|done|done|done|exact L1|lia|lia|done]. done.
  - eapply (coarse_expires _ _ _ _ _ _ _ _ He w1 nif d w' T); [exact Hc|done|done|done| |lia|done]. rewrite L1. f_equal. lia.
Qed.

(** Seconds in minutes, rounded, at least one and at most what 16 bits hold. *)
Definition minutes (secs : Z) : Z := Z.max 1 (Z.min 65535 ((secs + 30) / 60)).
Lemma lease_ticks_minutes s : 0 <= s < 2 ^ 32 - 30 -> lease_ticks s = minutes s.
Proof.
  intros Hs. unfold lease_ticks, minutes, DHCP_COARSE_TIMER_SECS. cbv zeta. change (60 / 2) with 30. rewrite u32_small by lia.
  assert (0 <= (s + 30) / 60) by (apply Z.div_pos; lia). 
  destruct (Z.ltb_spec 65535 ((s + 30) / 60)); rewrite u16_small by lia; [change (65535 =? 0) with false; cbv iota|destruct (Z.eqb_spec ((s + 30) / 60) 0)]; lia.
Qed.

(** The timers of a lease whose three times do not overflow: renewing is given up when it
    would not come before rebinding. *)
Lemma bind_timers_spec x :
  0 <= dh_offered_t0_lease x < 2 ^ 32 - 30 -> 0 <= dh_offered_t1_renew x < 2 ^ 32 - 30 -> 0 <= dh_offered_t2_rebind x < 2 ^ 32 - 30 ->
  let t1 := minutes (dh_offered_t1_renew x) in let t2 := minutes (dh_offered_t2_rebind x) in
  lease (bind_timers x) = (minutes (dh_offered_t0_lease x), 0) /\ dh_t1_renew_time (bind_timers x) = t1 /\ dh_t2_rebind_time (bind_timers x) = t2 /\
  dh_t1_timeout (bind_timers x) = (if t2 <=? t1 then 0 else t1) /\ dh_t2_timeout (bind_timers x) = t2.
Proof.
  intros H0 H1 H2. cbv zeta. rewrite <- !lease_ticks_minutes by done.
  assert (E : bind_timers x = let y := with_t2_rebind_time (lease_ticks (dh_offered_t2_rebind x)) (with_t2_timeout (lease_ticks (dh_offered_t2_rebind x))
      (with_t1_renew_time (lease_ticks (dh_offered_t1_renew x)) (with_t1_timeout (lease_ticks (dh_offered_t1_renew x))
        (with_t0_timeout (lease_ticks (dh_offered_t0_lease x)) (with_lease_used 0 x))))) in
    if (dh_t2_timeout y <=? dh_t1_timeout y) && (0 <? dh_t2_timeout y) then with_t1_timeout 0 y else y).
  { unfold bind_timers, bind_t0, bind_t1, bind_t2. cbn [with_lease_used dh_offered_t0_lease]. rewrite (proj2 (Z.eqb_neq (dh_offered_t0_lease x) _)) by lia.
    cbn [negb with_t0_timeout dh_offered_t1_renew]. rewrite (proj2 (Z.eqb_neq (dh_offered_t1_renew x) _)) by lia.
    cbn [negb with_t1_timeout with_t1_renew_time dh_offered_t2_rebind]. by rewrite (proj2 (Z.eqb_neq (dh_offered_t2_rebind x) _)) by lia. }
  assert (Hpos : (0 <? lease_ticks (dh_offered_t2_rebind x)) = true) by (rewrite lease_ticks_minutes by done; unfold minutes; apply Z.ltb_lt; lia).
  rewrite E. cbv zeta. cbn [with_t2_rebind_time with_t2_timeout dh_t2_timeout]. rewrite Hpos, andb_true_r. cbn. by destruct (_ <=? _).
Qed.

(** What a reply says of the lease, with what stands for the options it does not have: the
    time offered before, a half and seven eighths of it, the mask of the class of the address,
    and the first address of the network as the router. *)
Section Reply.
Context {Y : Type}.
Implicit Types (w : world (ext Y)) (x : dhcp).
Definition rx_or w (idx : nat) (v : Z) : Z := if rx_given_at w idx then rx_value w idx else v.
Definition reply_lease w x : Z := rx_or w DHCP_OPTION_IDX_LEASE_TIME (dh_offered_t0_lease x).
Definition reply_t1 w x : Z := rx_or w DHCP_OPTION_IDX_T1 (reply_lease w x / 2).
Definition reply_t2 w x : Z := rx_or w DHCP_OPTION_IDX_T2 (reply_lease w x * 7 / 8).
Definition class_mask (addr : Z) : Z :=
  let first_octet := Z.land addr 0xff in
  if first_octet <=? 127 then PP_HTONL 0xff000000 else if 192 <=? first_octet then PP_HTONL 0xffffff00 else PP_HTONL 0xffff0000.
Definition reply_addr w x : Z := ld32 (wmem w) (dh_msg_in x + DHCP_YIADDR_OFS).
Definition reply_mask w x : Z :=
  if rx_given_at w DHCP_OPTION_IDX_SUBNET_MASK then lwip_htonl (rx_value w DHCP_OPTION_IDX_SUBNET_MASK) else class_mask (reply_addr w x).
Definition reply_router w x : Z :=
  let gw := lwip_htonl (rx_or w DHCP_OPTION_IDX_ROUTER 0) in
  if gw =? IPADDR_ANY then Z.lor (Z.land (reply_addr w x) (reply_mask w x)) (PP_HTONL 1) else gw.

Lemma take_lease_offers w x : let y := take_lease (dhcp_rx (dhv w)) (reply_addr w x) x in
  (rx_given_at w DHCP_OPTION_IDX_T2 = true \/ 0 <= reply_lease w x * 7 < 2 ^ 32) ->
  dh_offered_t0_lease y = reply_lease w x /\ dh_offered_t1_renew y = reply_t1 w x /\ dh_offered_t2_rebind y = reply_t2 w x /\
  dh_offered_ip_addr y = reply_addr w x /\ bind_mask y = reply_mask w x /\ bind_gw y = reply_router w x.
Proof.
  cbv zeta. intros Hv. unfold take_lease, reply_router, reply_mask, reply_t1, reply_t2, reply_lease, rx_or, rx_given_at, rx_value in *. cbv zeta. set (given := dhcp_option_given _) in *.
  destruct (given DHCP_OPTION_IDX_LEASE_TIME), (given DHCP_OPTION_IDX_T2);
    cbn [with_offered_t0_lease with_offered_sn_mask with_offered_gw_addr with_offered_t1_renew dh_offered_t0_lease]; rewrite ?(u32_small (_ * 7)) by (destruct Hv; [done|lia]);
    destruct (given DHCP_OPTION_IDX_SUBNET_MASK), (given DHCP_OPTION_IDX_ROUTER); repeat split; reflexivity.
Qed.
End Reply.

(** C15: An acknowledgement that reaches a client which renews, rebinds or reboots: the client
    is bound, the lease and its timers start anew, in minutes rounded and between 1 and
    65535, and the interface has the address of the message with its mask and router.  The
    lease is the one the message names, or else the one offered before; without a time for
    renewing or rebinding they come after a half and seven eighths of it, and renewing is
    given up when it would not come before rebinding; without a mask the one of the class
    of the address is taken, without a router (or with 0.0.0.0) the first address of the
    network.  Every other interface and every other client stays as it was.  The three times
    are below 2^32 - 30 seconds, and the seven eighths are computed from a lease below
    2^32 / 7: a longer one wraps around ([long_lease_wraps]), and one that does not end (all
    ones) leaves the time-out of the one before ([infinite_lease_ends]). *)
Theorem lease_taken {Y} netif_output custom_free fuel linkoutput rand callback tcp_changed hostname nif d (w w' : world (ext Y)) :
  dhcp_env netif_output rand callback tcp_changed -> client w nif = Some d -> nif <> NULL ->
  let x := dh w d in dh_state x ∈ [DHCP_STATE_REBOOTING; DHCP_STATE_REBINDING; DHCP_STATE_RENEWING] ->
  u8 (rx_value w DHCP_OPTION_IDX_MSG_TYPE) = DHCP_ACK ->
  let L := reply_lease w x in let T1 := reply_t1 w x in let T2 := reply_t2 w x in
  0 <= L < 2 ^ 32 - 30 -> 0 <= T1 < 2 ^ 32 - 30 -> 0 <= T2 < 2 ^ 32 - 30 -> (rx_given_at w DHCP_OPTION_IDX_T2 = true \/ 0 <= L * 7 < 2 ^ 32) ->
  dhcp_handle_msg netif_output custom_free fuel linkoutput rand callback tcp_changed hostname w nif d = Some w' ->
  dh_state (dh w' d) = DHCP_STATE_BOUND /\ lease (dh w' d) = (minutes L, 0) /\
  dh_t1_renew_time (dh w' d) = minutes T1 /\ dh_t2_rebind_time (dh w' d) = minutes T2 /\
  dh_t1_timeout (dh w' d) = (if minutes T2 <=? minutes T1 then 0 else minutes T1) /\ dh_t2_timeout (dh w' d) = minutes T2 /\
  (forall n, netif_of w' n = if n =? nif then configured (reply_addr w x) (reply_mask w x) (reply_router w x) (netif_of w nif) else netif_of w n) /\
  (forall d', d' <> d -> dhcp_clients (dhv w') !! d' = dhcp_clients (dhv w) !! d').
Proof.
  intros He Hc Hn x0 Hs Ht L T1 T2 HL H1L H2L Hv H. eapply ack_sets in H as (H1 & H2 & H3); [|done..].
  destruct (take_lease_offers w x0 Hv) as (O0 & O1 & O2 & O3 & O4 & O5). fold (reply_addr w x0) in H1, H2. fold x0 in H1, H2. set (x := take_lease _ _ _) in *.
  destruct (bind_timers_spec x) as (B0 & B1 & B2 & B3 & B4); [by rewrite O0|by rewrite O1|by rewrite O2|]. rewrite O0 in B0. rewrite O1 in B1, B3. rewrite O2 in B2, B3, B4.
  assert (F : forall {A} (g : dhcp -> A), (forall y, g (core y) = g y) -> (forall s y, g (enter s y) = g y) -> g (dh w' d) = g (bind_timers x)).
  { intros A g Hg Hge. rewrite <- Hg, H1, Hg. apply Hge. }
  assert (Hstate : dh_state (dh w' d) = DHCP_STATE_BOUND) by (apply (f_equal dh_state) in H1; change (dh_state (core ?x)) with (dh_state x) in H1; by rewrite H1, state_enter).
  split_and!; [done| | | | | | |done].
  - rewrite (F _ lease), B0; [done|done|apply lease_enter].
  - rewrite (F _ dh_t1_renew_time), B1; [done|done|]. intros s y. unfold enter. by destruct (decide _).
  - rewrite (F _ dh_t2_rebind_time), B2; [done|done|]. intros s y. unfold enter. by destruct (decide _).
  - rewrite (F _ dh_t1_timeout), B3; [done|done|]. intros s y. unfold enter. by destruct (decide _).
  - rewrite (F _ dh_t2_timeout), B4; [done|done|]. intros s y. unfold enter. by destruct (decide _).
  - intros n. rewrite H2, O3, O4, O5. done.
Qed.

(** ** Examples *)

(** The board of [netif_world0] with the variables of DHCP and DNS: no client yet. *)
Definition dhcp_world0 : world (ext unit) :=
  mk_world (mk_ap (replicate ARP_TABLE_SIZE entry0) 0,
            (mk_np (fun _ => mk_info (116, 52) 0 0 0 NULL NULL NULL NULL) (fun _ => []) 1, (mk_dhv NULL 0 0 rx0 ∅, (dns_zero, tt))))
    (w_ps netif_world0) (w_netifs world0) 7 NULL (mk_ipg 4000 4000 0 0 0 0) [] 0 [] ∅ 0xc000 (fun _ _ => 0).
#[local] Abbreviation BW := (world (ext unit)).
#[local] Abbreviation no_free := (fun (s : pstate) (_ : Z) => s).
#[local] Abbreviation seven := (fun w : BW => (w, 7)).
#[local] Abbreviation no_callback := (fun (_ : Z) (w : BW) (_ : Z) => Some w).
#[local] Abbreviation no_tcp := (fun (w : BW) (_ _ : Z) => Some w).
#[local] Abbreviation no_name := (fun _ : Z => NULL).

Lemma board_env : dhcp_env (Y := unit) sink seven no_callback no_tcp.
Proof. constructor; try done; [by intros w nif p dest w' r [= <- <-]|by intros c w nif w' [= <-]|by intros w old new w' [= <-]]. Qed.
Lemma board_bare : no_clients dhcp_world0.
Proof. by split_and!. Qed.

(** The client is started. *)
Definition board_start : option (BW * Z) := dhcp_start sink no_free 60 seven 5 dhcp_world0 4000.
Definition started : BW := default dhcp_world0 (fst <$> board_start).
Lemma board_starts : exists r, board_start = Some (started, r).
Proof.
  destruct (returned board_start) as [[w r] E]; [vm_compute; reflexivity|]. exists r. unfold started. by rewrite E.
Qed.

(** A reply of the server for address 192.168.0.9, in a pbuf at 1000. *)
Definition reply_bytes (x : dhcp) (type : Z) : list Z :=
  [2; 1; 6; 0; Z.land (Z.shiftr (dh_xid x) 24) 255; Z.land (Z.shiftr (dh_xid x) 16) 255; Z.land (Z.shiftr (dh_xid x) 8) 255; Z.land (dh_xid x) 255;
   0; 0; 0; 0; 0; 0; 0; 0; 192; 168; 0; 9; 0; 0; 0; 0; 0; 0; 0; 0; 2; 0; 0; 0; 0; 1] ++ replicate 206 0 ++
  concat (opt_bytes <$> [Opt_message_type type; Opt_server_id 0xc0a80001; Opt_lease_time 3600; Opt_router 0xc0a80001 []; Opt_subnet_mask 0xffffff00; Opt_dns [0x08080808]]) ++
  [DHCP_OPTION_END].
Definition with_reply (w : BW) (d type : Z) : BW :=
  let bs := reply_bytes (dh w d) type in
  let n := Z.of_nat (length bs) in
  set_wps w (mk_ps (<[1000 := mk_pbuf 0 1100 n n PBUF_RAM 0 1]> (∅ : gmap Z pbuf)) (write_bytes (wmem w) 1100 bs) (ps_heap (w_ps w)) (ps_pools (w_ps w)) 0).
Definition answered (w : BW) (type : Z) : option BW :=
  dhcp_recv sink no_free 60 link0 seven no_callback no_tcp no_name 9000 (with_reply w (netif_dhcp_data w 4000) type) 0 0 1000 0 67.
Definition fine (w : BW) : option BW := dhcp_fine_tmr sink no_free 60 link0 seven no_callback no_tcp no_name w.
Definition coarse (w : BW) : option BW := dhcp_coarse_tmr sink no_free 60 link0 seven no_callback no_tcp no_name w.
Definition summary (w : BW) : dhcp_state * (Z * Z) * (Z * Z * Z) :=
  let n := netif_of w 4000 in
  (dh_state (dh w (netif_dhcp_data w 4000)), lease (dh w (netif_dhcp_data w 4000)), (netif_ip_addr n, netif_netmask n, netif_gw n)).


(** From the start to the address: discover, offer, request, acknowledgement, two probes of
    half a second without an answer, and the lease of an hour. *)
Definition bound_board : option BW := w ← answered started DHCP_OFFER; w ← answered w DHCP_ACK; w ← fine w; fine w.
Lemma board_gets_lease : summary <$> bound_board = Some (DHCP_STATE_BOUND, (60, 0), (0x0900a8c0, 0x00ffffff, 0x0100a8c0)).
Proof. vm_compute. reflexivity. Qed.

(** The hour without a server: after 30 minutes the client renews, after 53 it rebinds, and
    after 60 it looks for a server again, with the address still in use: [dhcp_release]
    takes an address away only in the states that [dhcp_supplied_address] names, and
    [DHCP_STATE_REBINDING] is not among them. *)
Fixpoint coarse_ticks (n : nat) (w : BW) : option BW :=
  match n with O => Some w | S n => w ← coarse w; coarse_ticks n w end.
Definition after (n : nat) : option (dhcp_state * (Z * Z) * (Z * Z * Z)) := w ← bound_board; summary <$> coarse_ticks n w.
Lemma expired_address_kept :
  (fun s => s.1.1) <$> after 30 = Some DHCP_STATE_RENEWING /\ (fun s => s.1.1) <$> after 59 = Some DHCP_STATE_REBINDING /\
  after 60 = Some (DHCP_STATE_SELECTING, (0, 0), (0x0900a8c0, 0x00ffffff, 0x0100a8c0)).
Proof. vm_compute. split_and!; reflexivity. Qed.

(** A renewed lease without an end keeps the end of the old one. *)
Lemma infinite_lease_ends x : dh_offered_t0_lease x = 0xffffffff -> dh_t0_timeout (bind_timers x) = dh_t0_timeout x.
Proof.
  intros E. unfold bind_timers. cbv zeta. set (y := bind_t0 (with_lease_used 0 x)).
  assert (Hy : dh_t0_timeout y = dh_t0_timeout x) by (unfold y, bind_t0; cbn [with_lease_used dh_offered_t0_lease]; by rewrite E).
  assert (H1 : dh_t0_timeout (bind_t1 y) = dh_t0_timeout y) by (unfold bind_t1; by destruct (negb _)).
  assert (H2 : dh_t0_timeout (bind_t2 (bind_t1 y)) = dh_t0_timeout (bind_t1 y)) by (unfold bind_t2; by destruct (negb _)).
  destruct (_ && _); cbn [with_t1_timeout dh_t0_timeout]; by rewrite H2, H1.
Qed.
(** The additions and products of the times wrap around: a lease of 136 years lasts a minute,
    and one of 40 years is rebound, after 16, before it is renewed, after 20. *)
Lemma long_lease_wraps :
  lease_ticks 0xffffffe2 = 1 /\
  let x := take_lease (mk_rx [0; 5; 0; 0x4b2d0000; 0; 0; 0; 0; 0; 0] [false; true; false; true; false; false; false; false; false; false]) 0 dhcp0 in
  dh_offered_t2_rebind x < dh_offered_t1_renew x.
Proof. vm_compute. done. Qed.

(** A client that is told to renew behind [dhcp_stop] leaves the state of a stopped one
    although it has no PCB; ... *)
Lemma renew_without_pcb :
  (fun '(w, _) => let x := dh w (netif_dhcp_data w 4000) in (dh_state x, dh_pcb_allocated x, dhcp_pcb (dhv w))) <$>
    dhcp_renew sink no_free 60 seven no_name (dhcp_stop started 4000) 4000 = Some (DHCP_STATE_RENEWING, 0, NULL).
Proof. vm_compute. reflexivity. Qed.
(** ... and a running one that is cleaned up stays in the reference count. *)
Lemma cleanup_keeps_reference :
  let w := dhcp_cleanup started 4000 in users (dhcp_clients (dhv w)) = 0 /\ dhcp_pcb_refcount (dhv w) = 1 /\ dhcp_pcb (dhv w) <> NULL.
Proof. vm_compute. split; [reflexivity|]. split; [reflexivity|discriminate]. Qed.

Lemma dhcp_safe_witness : exists w r, board_start = Some (w, r) /\ dhcp_inv w.
Proof.
  destruct board_starts as [r E]. exists started, r. split; [exact E|].
  apply (dhcp_safe (Y := unit) sink no_free 60 link0 seven no_callback no_tcp no_name 5 8000 9000 dhcp_world0 started); [apply board_env|done|apply board_bare|].
  apply rtc_once. apply (next_event _ _ _ _ _ _ _ _ _ _ _ Ev_start 4000); [by eapply step_start|done|]. split; [by vm_compute|]. intros h d _ _. by right.
Defined.

Lemma dhcp_moves_witness :
  exists w', fine_netif sink no_free 60 link0 seven no_callback no_tcp no_name started 4000 = Some w' /\
    edge Ev_fine (dh_state (dh started (netif_dhcp_data started 4000))) (dh_state (dh w' (netif_dhcp_data started 4000))).
Proof.
  destruct (returned (fine_netif sink no_free 60 link0 seven no_callback no_tcp no_name started 4000)) as [w' E]; [vm_compute; reflexivity|].
  exists w'. split; [exact E|]. eapply (dhcp_moves (Y := unit) sink no_free 60 link0 seven no_callback no_tcp no_name 5 9000 Ev_fine 4000 _ started w').
  - apply board_env.
  - destruct board_starts as [r Es]. eapply (event_inv (Y := unit) sink no_free 60 link0 seven no_callback no_tcp no_name 5 9000 board_env Ev_start 4000 dhcp_world0);
      [by eapply step_start|done| |by apply no_clients_inv, board_bare]. split; [by vm_compute|]. intros h d _ _. by right.
  - by constructor.
  - done.
  - done.
  - reflexivity.
  - vm_compute. discriminate.
Defined.

(** The last minute of the lease of the board. *)
Definition last_minute : BW := let w := default started bound_board in upd_dh w (netif_dhcp_data w 4000) (with_lease_used 59).
Lemma lease_ends_witness :
  exists w', coarse_netif sink no_free 60 link0 seven no_callback no_tcp no_name last_minute 4000 = Some w' /\
    dh_state (dh w' (netif_dhcp_data last_minute 4000)) = DHCP_STATE_SELECTING /\ netif_ip_addr (netif_of w' 4000) = IPADDR_ANY.
Proof.
  destruct (returned (coarse_netif sink no_free 60 link0 seven no_callback no_tcp no_name last_minute 4000)) as [w' E]; [vm_compute; reflexivity|].
  exists w'. split; [exact E|].
  destruct (lease_ends (Y := unit) sink no_free 60 link0 seven no_callback no_tcp no_name 4000 (netif_dhcp_data last_minute 4000) 60 59 0 last_minute last_minute w') as [_ H].
  - apply board_env.
  - reflexivity.
  - vm_compute. discriminate.
  - done.
  - constructor; vm_compute; intuition discriminate.
  - vm_compute. discriminate.
  - vm_compute. reflexivity.
  - reflexivity.
  - apply ticks_0.
  - exact E.
  - change (59 + Z.of_nat 0 + 1 <? 60) with false in H. cbv iota in H. destruct H as (H1 & _ & _ & H2). split; [exact H1|]. rewrite (H2 4000).
    assert (Hs : supplied (dh_state (dh last_minute (netif_dhcp_data last_minute 4000))) = true) by (vm_compute; reflexivity). rewrite Hs. reflexivity.
Defined.

(** The board renews, and the options of an acknowledgement have been parsed. *)
Definition renewing : BW :=
  let w := default started bound_board in
  upd_dhv (upd_dh w (netif_dhcp_data w 4000) (fun x => with_msg_in 1100 (with_state DHCP_STATE_RENEWING x)))
    (set_rx (mk_rx [0; 5; 0xc0a80001; 3600; 900; 0; 0xffffff00; 0; 0; 0] [false; true; true; true; true; false; true; false; false; false])).
Lemma lease_taken_witness :
  let d := netif_dhcp_data renewing 4000 in
  exists w', dhcp_handle_msg sink no_free 60 link0 seven no_callback no_tcp no_name renewing 4000 d = Some w' /\
    dh_state (dh w' d) = DHCP_STATE_BOUND /\ lease (dh w' d) = (60, 0) /\ dh_t1_timeout (dh w' d) = 15 /\ dh_t2_timeout (dh w' d) = 53 /\
    netif_gw (netif_of w' 4000) = 0x0100a8c0.
Proof.
  cbv zeta. destruct (returned (dhcp_handle_msg sink no_free 60 link0 seven no_callback no_tcp no_name renewing 4000 (netif_dhcp_data renewing 4000))) as [w' E]; [vm_compute; reflexivity|].
  exists w'. split; [exact E|].
  assert (EL : reply_lease renewing (dh renewing (netif_dhcp_data renewing 4000)) = 3600) by (vm_compute; reflexivity).
  assert (E1 : reply_t1 renewing (dh renewing (netif_dhcp_data renewing 4000)) = 900) by (vm_compute; reflexivity).
  assert (E2 : reply_t2 renewing (dh renewing (netif_dhcp_data renewing 4000)) = 3150) by (vm_compute; reflexivity).
  destruct (lease_taken (Y := unit) sink no_free 60 link0 seven no_callback no_tcp no_name 4000 (netif_dhcp_data renewing 4000) renewing w' board_env) as (H1 & H2 & _ & _ & H3 & H4 & H5 & _).
  - vm_compute. reflexivity.
  - done.
  - assert (Hs : dh_state (dh renewing (netif_dhcp_data renewing 4000)) = DHCP_STATE_RENEWING) by (vm_compute; reflexivity). rewrite Hs. in_list.
  - vm_compute. reflexivity.
  - rewrite EL. lia.
  - rewrite E1. lia.
  - rewrite E2. lia.
  - right. rewrite EL. lia.
  - exact E.
  - rewrite EL in H2. rewrite E1, E2 in H3. rewrite E2 in H4. split; [exact H1|]. split; [exact H2|]. split; [exact H3|]. split; [exact H4|].
    rewrite (H5 4000). vm_compute. reflexivity.
Defined.
