(* ===== verification/AppTimers.v ===== *)
(** * The timers of applications

    An application keeps its timers in the list of [Timeouts], whose elements come from the
    pools of the stack.  Which handlers are pending, and how setting and cancelling change
    that. *)

From Stdlib Require Import ZArith Lia.
From stdpp Require Import base tactics numbers list option gmap.
From S2P Require Import Prelude.
From S2P Require Import Mem.
From S2P Require Import Memp.
From S2P Require Import Pbuf.
From S2P Require Import Timeouts.
From S2P Require Import Etharp.
From S2P Require Import World.

Definition ERR_TIMEOUT : Z := -3.

(** The variables of [core/timeouts.c] are a part of the external state. *)
Class timer_store (X : Type) := {
  timers_get : X -> tstate unit;
  timers_put : X -> tstate unit -> X;
  timers_get_put : forall x t, timers_get (timers_put x t) = t
}.

Section Timers.
Context {X : Type} `{!timer_store X}.
Implicit Types w : world X.

(** The timers, with the pools of the stack. *)
Definition with_timers w (f : tstate unit -> tstate unit) : world X :=
  let t := f (Timeouts.set_pools (timers_get (w_ext w)) (ps_pools (w_ps w))) in
  set_wps (set_ext w (timers_put (w_ext w) t)) (Pbuf.set_pools (w_ps w) (Timeouts.pools t)).
(** Setting and cancelling a timer of the application. *)
Definition start_timer w (msecs fn : Z) : world X := with_timers w (sys_timeout msecs (h_user fn) NULL).
Definition stop_timer w (fn : Z) : world X := with_timers w (sys_untimeout (h_user fn) NULL).

(** The handlers that will be called, the next one first. *)
Definition handlers {A} (st : tstate A) : list (handler * Z) := map (fun t => (t_h t, t_arg t)) (next_timeout st).
Definition pending w : list (handler * Z) := handlers (timers_get (w_ext w)).

Lemma insert_handlers first msecs new l :
  l <> [] -> map (fun t => (t_h t, t_arg t)) (timeout_insert first msecs new l) ≡ₚ (t_h new, t_arg new) :: map (fun t => (t_h t, t_arg t)) l.
Proof.
  revert new. induction l as [|t r IH]; intros new Hl; [done|]. cbn [timeout_insert]. cbv zeta. destruct r as [|n r].
  - destruct (_ <? _); simpl; apply Permutation_swap.
  - destruct (_ <? _); [apply Permutation_swap|]. cbn [map]. rewrite IH by done. apply Permutation_swap.
Qed.
(** A timer is set when the pool has an element for it. *)
Lemma timeout_handlers {A} (st : tstate A) msecs h arg :
  handlers (sys_timeout msecs h arg st) ≡ₚ (if (memp_malloc (pools st) MEMP_SYS_TIMEOUT).2 =? NULL then [] else [(h, arg)]) ++ handlers st.
Proof.
  unfold sys_timeout. destruct (memp_malloc _ _) as [ps t]. cbn [snd]. cbv zeta. destruct (t =? NULL); [done|]. unfold handlers, set_pools. simpl.
  destruct (next_timeout st) as [|n r]; [done|]. destruct (_ <? _); [done|]. exact (insert_handlers _ _ _ (n :: r) ltac:(done)).
Qed.
Lemma remove_handlers h arg l :
  match timeout_remove h arg l with
  | None => (h, arg) ∉ map (fun t => (t_h t, t_arg t)) l
  | Some (_, l') => map (fun t => (t_h t, t_arg t)) l ≡ₚ (h, arg) :: map (fun t => (t_h t, t_arg t)) l'
  end.
Proof.
  induction l as [|t r IH]; cbn [timeout_remove]; [apply not_elem_of_nil|]. destruct (bool_decide_reflect (t_h t = h)) as [Hh|Hh]; cbn [andb].
  - destruct (Z.eqb_spec (t_arg t) arg) as [Ha|Ha]; [subst; by destruct r|]. destruct (timeout_remove h arg r) as [[a l']|]; cbn [map].
    + rewrite IH. apply Permutation_swap.
    + rewrite not_elem_of_cons. split; [congruence|done].
  - destruct (timeout_remove h arg r) as [[a l']|]; cbn [map]; [rewrite IH; apply Permutation_swap|]. rewrite not_elem_of_cons. split; [congruence|done].
Qed.
(** One timer is cancelled, when there is one. *)
Lemma untimeout_handlers {A} (st : tstate A) h arg :
  if decide ((h, arg) ∈ handlers st) then handlers st ≡ₚ (h, arg) :: handlers (sys_untimeout h arg st) else handlers (sys_untimeout h arg st) = handlers st.
Proof.
  pose proof (remove_handlers h arg (next_timeout st)) as H. fold (handlers st) in H.
  assert (E : sys_untimeout h arg st = match timeout_remove h arg (next_timeout st) with
                | None => st | Some (a, l) => set_pools (set_list st l) (memp_free (pools st) MEMP_SYS_TIMEOUT a) end) by (unfold sys_untimeout; by destruct (next_timeout st)).
  rewrite E. destruct (timeout_remove h arg (next_timeout st)) as [[a l']|]; [|by destruct (decide ((h, arg) ∈ handlers st))].
  rewrite decide_True; [exact H|]. rewrite H. left.
Qed.

(** The timers of one application: those with a handler among [fs]. *)
Definition mine (fs : list Z) (x : handler * Z) : option Z :=
  match x.1 with h_user f => if decide (f ∈ fs) then Some f else None | _ => None end.
Definition timers_of (fs : list Z) w : list Z :=
  omap (mine fs) (pending w).

Lemma mine_user fs f a l : f ∈ fs -> omap (mine fs) ((h_user f, a) :: l) = f :: omap (mine fs) l.
Proof. intros H. simpl. unfold mine at 1. simpl. by rewrite decide_True. Qed.

Lemma pending_with w f : pending (with_timers w f) = handlers (f (Timeouts.set_pools (timers_get (w_ext w)) (ps_pools (w_ps w)))).
Proof. unfold pending, with_timers. simpl. by rewrite timers_get_put. Qed.
Lemma start_timers (fs : list Z) w msecs f :
  f ∈ fs -> timers_of fs (start_timer w msecs f) ≡ₚ (if (memp_malloc (ps_pools (w_ps w)) MEMP_SYS_TIMEOUT).2 =? NULL then [] else [f]) ++ timers_of fs w.
Proof.
  intros Hf. unfold timers_of, start_timer. rewrite pending_with. rewrite (timeout_handlers _ msecs (h_user f) NULL). cbn [Timeouts.set_pools pools].
  rewrite omap_app. destruct (_ =? NULL); [done|]. by rewrite mine_user.
Qed.
Lemma stop_timers (fs : list Z) w f :
  f ∈ fs -> Forall (fun x => x.2 = NULL) (filter (fun x => x.1 = h_user f) (pending w)) ->
  if decide (f ∈ timers_of fs w) then timers_of fs w ≡ₚ f :: timers_of fs (stop_timer w f) else timers_of fs (stop_timer w f) = timers_of fs w.
Proof.
  intros Hf Ha. unfold timers_of, stop_timer. rewrite pending_with. set (st := Timeouts.set_pools _ _). assert (E : handlers st = pending w) by done.
  pose proof (untimeout_handlers st (h_user f) NULL) as H. rewrite E in H.
  assert (Hin : (h_user f, NULL) ∈ pending w <-> f ∈ omap (mine fs) (pending w)).
  { rewrite list_elem_of_omap. split.
    - intros Hx. exists (h_user f, NULL). split; [done|]. unfold mine. cbn [fst]. by rewrite decide_True.
    - intros ([h a] & Hx & Hy). unfold mine in Hy. cbn [fst] in Hy. destruct h as [| | |g]; try done. destruct (decide (g ∈ fs)); [|done]. injection Hy as ->.
      rewrite Forall_forall in Ha. specialize (Ha (h_user f, a)). cbn [snd] in Ha. rewrite <- Ha; [done|]. by apply list_elem_of_filter. }
  destruct (decide ((h_user f, NULL) ∈ pending w)) as [D|D]; destruct (decide (f ∈ omap _ (pending w))) as [D'|D']; [|tauto|tauto|by rewrite H].
  by rewrite H, mine_user.
Qed.
End Timers.
