(* ===== verification/Tftp.v ===== *)
(** * [apps/tftp/tftp_server.c]: the TFTP server

    One transfer at a time, with the file functions of the application and a timer of
    [AppTimers]. *)

From Stdlib Require Import ZArith Lia Ascii String.
From stdpp Require Import base tactics numbers list option gmap.
From S2P Require Import Prelude.
From S2P Require Import Def.
From S2P Require Import Ip4Addr.
From S2P Require Import Alloc.
From S2P Require Import Mem.
From S2P Require Import Memp.
From S2P Require Import Pbuf.
From S2P Require Import PbufChain.
From S2P Require Import Timeouts.
From S2P Require Import Etharp.
From S2P Require Import World.
From S2P Require Import AppTimers.
From S2P Require Import Ip4Frag.
From S2P Require Import Ip4.
From S2P Require Import Icmp.
From S2P Require Import Ip4Reass.
From S2P Require Import Udp.
From S2P Require Import Dns.

Definition TFTP_MAX_PAYLOAD_SIZE : Z := 512.
Definition TFTP_HEADER_LENGTH : Z := 4.
Definition TFTP_RRQ : Z := 1.
Definition TFTP_WRQ : Z := 2.
Definition TFTP_DATA : Z := 3.
Definition TFTP_ACK : Z := 4.
Definition TFTP_ERROR : Z := 5.
Definition TFTP_PORT : Z := 69.
Definition TFTP_TIMEOUT_MSECS : Z := 10000.
Definition TFTP_MAX_RETRIES : Z := 5.
Definition TFTP_TIMER_MSECS : Z := 50.
Definition TFTP_MAX_FILENAME_LEN : Z := 512.
Definition TFTP_MAX_MODE_LEN : Z := 7.

(** [enum tftp_error] *)
Definition TFTP_ERROR_FILE_NOT_FOUND : Z := 1.
Definition TFTP_ERROR_ACCESS_VIOLATION : Z := 2.
Definition TFTP_ERROR_ILLEGAL_OPERATION : Z := 4.
Definition TFTP_ERROR_UNKNOWN_TRFR_ID : Z := 5.

(** [struct tftp_state]; pointers are addresses. *)
Record tftp_state := mk_tftp {
  tf_ctx : Z; tf_handle : Z; tf_last_data : Z; tf_upcb : Z; tf_addr : Z; tf_port : Z; tf_timer : Z; tf_last_pkt : Z;
  tf_blknum : Z; tf_retries : Z; tf_mode_write : Z }.
Definition tf_set_peer addr port x := mk_tftp (tf_ctx x) (tf_handle x) (tf_last_data x) (tf_upcb x) addr port (tf_timer x) (tf_last_pkt x) (tf_blknum x) (tf_retries x) (tf_mode_write x).
Definition tf_set_handle v x := mk_tftp (tf_ctx x) v (tf_last_data x) (tf_upcb x) (tf_addr x) (tf_port x) (tf_timer x) (tf_last_pkt x) (tf_blknum x) (tf_retries x) (tf_mode_write x).
Definition tf_set_last_data v x := mk_tftp (tf_ctx x) (tf_handle x) v (tf_upcb x) (tf_addr x) (tf_port x) (tf_timer x) (tf_last_pkt x) (tf_blknum x) (tf_retries x) (tf_mode_write x).
Definition tf_set_timer v x := mk_tftp (tf_ctx x) (tf_handle x) (tf_last_data x) (tf_upcb x) (tf_addr x) (tf_port x) v (tf_last_pkt x) (tf_blknum x) (tf_retries x) (tf_mode_write x).
Definition tf_set_last_pkt v x := mk_tftp (tf_ctx x) (tf_handle x) (tf_last_data x) (tf_upcb x) (tf_addr x) (tf_port x) (tf_timer x) v (tf_blknum x) (tf_retries x) (tf_mode_write x).
Definition tf_set_blknum v x := mk_tftp (tf_ctx x) (tf_handle x) (tf_last_data x) (tf_upcb x) (tf_addr x) (tf_port x) (tf_timer x) (tf_last_pkt x) v (tf_retries x) (tf_mode_write x).
Definition tf_set_retries v x := mk_tftp (tf_ctx x) (tf_handle x) (tf_last_data x) (tf_upcb x) (tf_addr x) (tf_port x) (tf_timer x) (tf_last_pkt x) (tf_blknum x) v (tf_mode_write x).
Definition tf_set_mode_write v x := mk_tftp (tf_ctx x) (tf_handle x) (tf_last_data x) (tf_upcb x) (tf_addr x) (tf_port x) (tf_timer x) (tf_last_pkt x) (tf_blknum x) (tf_retries x) v.

(** The variable [tftp_state] is a part of the external state of UDP. *)
Class tftp_store (X : Type) `{!timer_store X} := {
  tftp_get : X -> tftp_state;
  tftp_put : X -> tftp_state -> X;
  tftp_get_put : forall x v, tftp_get (tftp_put x v) = v;
  tftp_get_timers : forall x t, tftp_get (timers_put x t) = tftp_get x;
  timers_get_tftp : forall x v, timers_get (tftp_put x v) = timers_get x
}.

(** The bytes of a string constant. *)
Definition chars (s : string) : list Z := map (fun c => Z.of_nat (nat_of_ascii c)) (list_ascii_of_string s).

Section Tftp.
Context {X : Type} `{!timer_store X, !tftp_store X}.
Context (netif_output : world X -> Z -> Z -> Z -> option (world X * Z)).
Context (custom_free : pstate -> Z -> pstate) (fuel : nat).
(** The functions of a [struct tftp_context]. *)
Context (ctx_open : Z -> world X -> Z -> Z -> Z -> world X * Z) (ctx_close : Z -> world X -> Z -> world X).
Context (ctx_read : Z -> world X -> Z -> Z -> Z -> world X * Z) (ctx_write : Z -> world X -> Z -> Z -> world X * Z).
(** The addresses of [recv] and [tftp_tmr], and of the local variables [tftp_null],
    [filename] and [mode]. *)
Context (recv_fn tmr_fn tftp_null filename mode : Z).
Implicit Types w : world X.

Definition tf w : tftp_state := tftp_get (w_ext w).
Definition upd_tf w (f : tftp_state -> tftp_state) : world X := set_ext w (tftp_put (w_ext w) (f (tf w))).

Definition start_tmr w : world X := start_timer w TFTP_TIMER_MSECS tmr_fn.

(** [close_handle()] *)
Definition close_handle w : option (world X) :=
  let w := upd_tf w (tf_set_peer IPADDR_ANY 0) in
  w ← (if negb (tf_last_data (tf w) =? NULL)
       then w ← wfree custom_free fuel w (tf_last_data (tf w)); Some (upd_tf w (tf_set_last_data NULL))
       else Some w);
  let w := stop_timer w tmr_fn in
  Some (if negb (tf_handle (tf w) =? NULL)
        then upd_tf (ctx_close (tf_ctx (tf w)) w (tf_handle (tf w))) (tf_set_handle NULL)
        else w).

(** A pbuf that was filled in is sent and freed. *)
Definition send_filled w (p addr port : Z) : option (world X) :=
  '(w, _) ← udp_sendto netif_output custom_free fuel w (tf_upcb (tf w)) p (Some addr) port;
  wfree custom_free fuel w p.

(** [send_error(addr, port, code, str)] *)
Definition send_error w (addr port code : Z) (str : string) : option (world X) :=
  let str_length := Z.of_nat (String.length str) in
  '(st, p) ← pbuf_alloc custom_free fuel (w_ps w) PBUF_TRANSPORT (u16 (TFTP_HEADER_LENGTH + str_length + 1)) PBUF_RAM;
  let w := set_wps w st in
  if p =? NULL then Some w
  else
    let a := payload w p in
    let m := st16 (wmem w) a (PP_HTONS TFTP_ERROR) in
    let m := st16 m (a + 2) (lwip_htons code) in
    let m := write_bytes m (a + 4) (chars str ++ [0]) in
    send_filled (set_wmem w m) p addr port.

(** [send_ack(blknum)] *)
Definition send_ack w (blknum : Z) : option (world X) :=
  '(st, p) ← pbuf_alloc custom_free fuel (w_ps w) PBUF_TRANSPORT TFTP_HEADER_LENGTH PBUF_RAM;
  let w := set_wps w st in
  if p =? NULL then Some w
  else
    let a := payload w p in
    let m := st16 (wmem w) a (PP_HTONS TFTP_ACK) in
    let m := st16 m (a + 2) (lwip_htons blknum) in
    let w := set_wmem w m in
    send_filled w p (tf_addr (tf w)) (tf_port (tf w)).

(** [resend_data()] *)
Definition resend_data w : option (world X) :=
  let last_data := tf_last_data (tf w) in
  '(st, p) ← pbuf_alloc custom_free fuel (w_ps w) PBUF_TRANSPORT (pb_len (pb (w_ps w) last_data)) PBUF_RAM;
  let w := set_wps w st in
  if p =? NULL then Some w
  else
    '(st, err) ← pbuf_copy fuel (w_ps w) p last_data;
    let w := set_wps w st in
    if negb (err =? ERR_OK) then wfree custom_free fuel w p
    else send_filled w p (tf_addr (tf w)) (tf_port (tf w)).

(** [send_data()] *)
Definition send_data w : option (world X) :=
  w ← (if negb (tf_last_data (tf w) =? NULL) then wfree custom_free fuel w (tf_last_data (tf w)) else Some w);
  '(st, p) ← pbuf_alloc custom_free fuel (w_ps w) PBUF_TRANSPORT (TFTP_HEADER_LENGTH + TFTP_MAX_PAYLOAD_SIZE) PBUF_RAM;
  let w := upd_tf (set_wps w st) (tf_set_last_data p) in
  if p =? NULL then Some w
  else
    let a := payload w p in
    let m := st16 (wmem w) a (PP_HTONS TFTP_DATA) in
    let m := st16 m (a + 2) (lwip_htons (tf_blknum (tf w))) in
    let w := set_wmem w m in
    let '(w, ret) := ctx_read (tf_ctx (tf w)) w (tf_handle (tf w)) (a + 4) TFTP_MAX_PAYLOAD_SIZE in
    if ret <? 0 then
      w ← send_error w (tf_addr (tf w)) (tf_port (tf w)) TFTP_ERROR_ACCESS_VIOLATION "Error occured while reading the file.";
      close_handle w
    else
      st ← pbuf_realloc custom_free fuel (w_ps w) (tf_last_data (tf w)) (u16 (TFTP_HEADER_LENGTH + ret));
      resend_data (set_wps w st).

(** The cases of [recv]: a request, data, an acknowledgement. *)
Definition recv_request w (p addr port opcode : Z) : option (world X) :=
  let write := opcode =? PP_HTONS TFTP_WRQ in
  let refuse w code str := send_error w addr port code str in
  if negb (tf_handle (tf w) =? NULL) then refuse w TFTP_ERROR_ACCESS_VIOLATION "Only one connection at a time is supported"%string
  else
    let w := start_tmr w in
    let w := set_wmem w (upd (wmem w) tftp_null 0) in
    filename_end_offset ← pbuf_memfind fuel (w_ps w) p tftp_null 1 2;
    if TFTP_MAX_FILENAME_LEN <? u16 (filename_end_offset - 1) then refuse w TFTP_ERROR_ACCESS_VIOLATION "Filename too long/not NULL terminated"%string
    else
      '(st, _) ← pbuf_copy_partial fuel (w_ps w) p filename (u16 (filename_end_offset - 1)) 2;
      mode_end_offset ← pbuf_memfind fuel st p tftp_null 1 (u16 (filename_end_offset + 1));
      let w := set_wps w st in
      if TFTP_MAX_MODE_LEN <? u16 (mode_end_offset - filename_end_offset) then refuse w TFTP_ERROR_ACCESS_VIOLATION "Mode too long/not NULL terminated"%string
      else
        '(st, _) ← pbuf_copy_partial fuel (w_ps w) p mode (u16 (mode_end_offset - filename_end_offset)) (u16 (filename_end_offset + 1));
        let w := set_wps w st in
        let '(w, handle) := ctx_open (tf_ctx (tf w)) w filename mode (if write then 1 else 0) in
        let w := upd_tf (upd_tf w (tf_set_handle handle)) (tf_set_blknum 1) in
        if handle =? NULL then refuse w TFTP_ERROR_FILE_NOT_FOUND "Unable to open requested file."%string
        else
          let w := upd_tf w (tf_set_peer addr port) in
          if write then send_ack (upd_tf w (tf_set_mode_write 1)) 0 else send_data (upd_tf w (tf_set_mode_write 0)).

Definition recv_data w (p addr port : Z) : option (world X) :=
  if tf_handle (tf w) =? NULL then send_error w addr port TFTP_ERROR_ACCESS_VIOLATION "No connection"
  else if negb (tf_mode_write (tf w) =? 1) then send_error w addr port TFTP_ERROR_ACCESS_VIOLATION "Not a write connection"
  else
    let blknum := lwip_htons (ld16 (wmem w) (payload w p + 2)) in
    let w := set_wps w (fst (pbuf_header (w_ps w) p (- TFTP_HEADER_LENGTH))) in
    let '(w, ret) := ctx_write (tf_ctx (tf w)) w (tf_handle (tf w)) p in
    w ← (if ret <? 0 then
           w ← send_error w addr port TFTP_ERROR_ACCESS_VIOLATION "error writing file";
           close_handle w
         else send_ack w blknum);
    if pb_tot_len (pb (w_ps w) p) <? TFTP_MAX_PAYLOAD_SIZE then close_handle w else Some w.

Definition recv_ack w (p addr port : Z) : option (world X) :=
  if tf_handle (tf w) =? NULL then send_error w addr port TFTP_ERROR_ACCESS_VIOLATION "No connection"
  else if negb (tf_mode_write (tf w) =? 0) then send_error w addr port TFTP_ERROR_ACCESS_VIOLATION "Not a read connection"
  else
    let blknum := lwip_htons (ld16 (wmem w) (payload w p + 2)) in
    if negb (blknum =? tf_blknum (tf w)) then send_error w addr port TFTP_ERROR_UNKNOWN_TRFR_ID "Wrong block number"
    else
      let lastpkt := if negb (tf_last_data (tf w) =? NULL)
                     then negb (pb_tot_len (pb (w_ps w) (tf_last_data (tf w))) =? TFTP_MAX_PAYLOAD_SIZE + TFTP_HEADER_LENGTH) else false in
      if negb lastpkt then send_data (upd_tf w (fun x => tf_set_blknum (u16 (tf_blknum x + 1)) x)) else close_handle w.

(** [recv(arg, upcb, p, addr, port)] *)
Definition recv w (arg upcb p addr port : Z) : option (world X) :=
  if (negb (tf_port (tf w) =? 0) && negb (port =? tf_port (tf w))) ||
     (negb (ip4_addr_isany (tf_addr (tf w))) && negb (tf_addr (tf w) =? addr)) then
    w ← send_error w addr port TFTP_ERROR_ACCESS_VIOLATION "Only one connection at a time is supported";
    wfree custom_free fuel w p
  else
    let opcode := ld16 (wmem w) (payload w p) in
    let w := upd_tf w (fun x => tf_set_retries 0 (tf_set_last_pkt (tf_timer x) x)) in
    w ← (if (opcode =? PP_HTONS TFTP_RRQ) || (opcode =? PP_HTONS TFTP_WRQ) then recv_request w p addr port opcode
         else if opcode =? PP_HTONS TFTP_DATA then recv_data w p addr port
         else if opcode =? PP_HTONS TFTP_ACK then recv_ack w p addr port
         else send_error w addr port TFTP_ERROR_ILLEGAL_OPERATION "Unknown operation");
    wfree custom_free fuel w p.

(** [tftp_tmr(arg)] *)
Definition tftp_tmr w : option (world X) :=
  let w := upd_tf w (fun x => tf_set_timer (s32 (tf_timer x + 1)) x) in
  if tf_handle (tf w) =? NULL then Some w
  else
    let w := start_tmr w in
    if TFTP_TIMEOUT_MSECS / TFTP_TIMER_MSECS <? s32 (tf_timer (tf w) - tf_last_pkt (tf w)) then
      if negb (tf_last_data (tf w) =? NULL) && (tf_retries (tf w) <? TFTP_MAX_RETRIES) then
        w ← resend_data w;
        Some (upd_tf w (fun x => tf_set_retries (u8 (tf_retries x + 1)) x))
      else close_handle w
    else Some w.

(** [tftp_init(ctx)] *)
Definition tftp_init w (ctx : Z) : option (world X * Z) :=
  let '(w, pcb) := udp_new_ip_type w 46 in
  if pcb =? NULL then Some (w, ERR_MEM)
  else
    '(w, ret) ← udp_bind w pcb (Some IPADDR_ANY) TFTP_PORT;
    if negb (ret =? ERR_OK) then Some (udp_remove w pcb, ret)
    else
      let w := upd_tf w (fun x => mk_tftp ctx NULL NULL pcb (tf_addr x) 0 0 (tf_last_pkt x) (tf_blknum x) (tf_retries x) (tf_mode_write x)) in
      Some (udp_recv w pcb recv_fn NULL, ERR_OK).
End Tftp.
