(* ===== verification/TftpProps.v ===== *)
(** * Properties of the TFTP server

    What the application's file functions see, and the end of a transfer. *)

From Stdlib Require Import ZArith Lia.
From stdpp Require Import base tactics numbers list option gmap.
From S2P Require Import Prelude.
From S2P Require Import Def.
From S2P Require Import Ip4Addr.
From S2P Require Import Alloc.
From S2P Require Import Mem.
From S2P Require Import Memp.
From S2P Require Import Pbuf.
From S2P Require Import PbufChain.
From S2P Require Import PbufAlloc.
From S2P Require Import Timeouts.
From S2P Require Import Etharp.
From S2P Require Import World.
From S2P Require Import AppTimers.
From S2P Require Import Ip4Frag.
From S2P Require Import Ip4.
From S2P Require Import Icmp.
From S2P Require Import Ip4Reass.
From S2P Require Import Udp.
From S2P Require Import Dns.
From S2P Require Import DnsTable.
From S2P Require Import Tftp.

(** ** The file functions *)

(** A call of a function of [struct tftp_context], with the handle it returns or gets. *)
Inductive fcall := F_open (h : Z) (write : bool) | F_read (h : Z) | F_write (h : Z) | F_close (h : Z).
(** The file that is open, and whether it is written. *)
Definition file_state := option (Z * bool).
(** The calls that make sense one after the other. *)
Definition fstep (s : file_state) (c : fcall) : option file_state :=
  match c, s with
  | F_open h write, None => Some (if h =? NULL then None else Some (h, write))
  | F_read h, Some (h', false) => if h =? h' then Some s else None
  | F_write h, Some (h', true) => if h =? h' then Some s else None
  | F_close h, Some (h', _) => if h =? h' then Some None else None
  | _, _ => None
  end.
Definition frun (l : list fcall) : option file_state := foldl (fun os c => s ← os; fstep s c) (Some None) l.
Lemma frun_snoc l c : frun (l ++ [c]) = s ← frun l; fstep s c.
Proof. unfold frun. by rewrite foldl_app. Qed.

Section Props.
Context {X : Type} `{!timer_store X, !tftp_store X}.
Context (netif_output : world X -> Z -> Z -> Z -> option (world X * Z)).
Context (custom_free : pstate -> Z -> pstate) (fuel : nat).
Context (ctx_open : Z -> world X -> Z -> Z -> Z -> world X * Z) (ctx_close : Z -> world X -> Z -> world X).
Context (ctx_read : Z -> world X -> Z -> Z -> Z -> world X * Z) (ctx_write : Z -> world X -> Z -> Z -> world X * Z).
Context (recv_fn tmr_fn tftp_null filename mode : Z).
(** The calls the application has seen. *)
Context (flog : X -> list fcall).
Implicit Types w : world X.

Definition calls w : list fcall := flog (w_ext w).
(** The state of the server and the calls, and what leaves both alone. *)
Definition view w : tftp_state * list fcall := (tf w, calls w).
Definition same_view (v : tftp_state * list fcall) w : Prop := view w = v.

(** The interface and the file functions leave the server's state alone; the latter are
    seen in the log, which nothing else writes. *)
Record tftp_env : Prop := {
  te_output : forall v, output_keeps netif_output (same_view v);
  te_put : forall x v, flog (tftp_put x v) = flog x;
  te_timers : forall x t, flog (timers_put x t) = flog x;
  te_open : forall c w f m wr, view (ctx_open c w f m wr).1 = (tf w, calls w ++ [F_open (ctx_open c w f m wr).2 (negb (wr =? 0))]);
  te_close : forall c w h, view (ctx_close c w h) = (tf w, calls w ++ [F_close h]);
  te_read : forall c w h b n, view (ctx_read c w h b n).1 = (tf w, calls w ++ [F_read h]);
  te_write : forall c w h p, view (ctx_write c w h p).1 = (tf w, calls w ++ [F_write h])
}.
Context (He : tftp_env).

#[local] Instance view_keeps v : udp_keeps (same_view v) := ext_keeps (fun x => (tftp_get x, flog x) = v).

Lemma view_upd w f : view (upd_tf w f) = (f (tf w), calls w).
Proof. unfold view, calls, tf, upd_tf. simpl. by rewrite tftp_get_put, (te_put He). Qed.
Lemma view_timers w f : view (with_timers w f) = view w.
Proof. unfold view, calls, tf, with_timers. simpl. by rewrite tftp_get_timers, (te_timers He). Qed.
Lemma view_wps w st : view (set_wps w st) = view w.
Proof. done. Qed.
Lemma tf_view w v : view w = v -> tf w = v.1.
Proof. by intros <-. Qed.
Lemma wfree_view w p w' : wfree custom_free fuel w p = Some w' -> view w' = view w.
Proof. intros H. exact (wfree_keeps _ _ (same_view (view w)) _ _ _ H eq_refl). Qed.
Lemma sendto_view w pcb p dst port w' e : udp_sendto netif_output custom_free fuel w pcb p dst port = Some (w', e) -> view w' = view w.
Proof.
  intros H. eapply (udp_sendto_keeps_bind _ _ _ (same_view (view w)) (te_output He _)); [exact H|done|].
  intros w1 w2 r _ Hb _ H1. unfold same_view, view, calls, tf, auto_bind in *. destruct (_ =? 0); [|by injection Hb as <- _].
  by rewrite (udp_bind_ext _ _ _ _ _ _ Hb).
Qed.
Lemma send_filled_view w p addr port w' : send_filled netif_output custom_free fuel w p addr port = Some w' -> view w' = view w.
Proof.
  unfold send_filled. destruct (udp_sendto _ _ _ _ _ _ _ _) as [[w1 e]|] eqn:E; [|done]. cbn [mbind option_bind]. intros H.
  rewrite (wfree_view _ _ _ H). by eapply sendto_view.
Qed.
Lemma send_error_view w addr port code str w' : send_error netif_output custom_free fuel w addr port code str = Some w' -> view w' = view w.
Proof.
  unfold send_error. destruct (pbuf_alloc _ _ _ _ _ _) as [[st p]|]; [|done]. cbn [mbind option_bind]. destruct (p =? NULL); [by intros [= <-]|].
  cbv zeta. intros H. by rewrite (send_filled_view _ _ _ _ _ H).
Qed.
Lemma send_ack_view w b w' : send_ack netif_output custom_free fuel w b = Some w' -> view w' = view w.
Proof.
  unfold send_ack. destruct (pbuf_alloc _ _ _ _ _ _) as [[st p]|]; [|done]. cbn [mbind option_bind]. destruct (p =? NULL); [by intros [= <-]|].
  cbv zeta. intros H. by rewrite (send_filled_view _ _ _ _ _ H).
Qed.
Lemma resend_view w w' : resend_data netif_output custom_free fuel w = Some w' -> view w' = view w.
Proof.
  unfold resend_data. cbv zeta. destruct (pbuf_alloc _ _ _ _ _ _) as [[st p]|]; [|done]. cbn [mbind option_bind]. destruct (p =? NULL); [by intros [= <-]|].
  destruct (pbuf_copy _ _ _ _) as [[st2 e]|]; [|done]. cbn [mbind option_bind]. destruct (negb _); intros H; [by rewrite (wfree_view _ _ _ H)|by rewrite (send_filled_view _ _ _ _ _ H)].
Qed.

(** [close_handle] *)
Definition closed (x : tftp_state) : tftp_state := tf_set_handle NULL (tf_set_last_data NULL (tf_set_peer IPADDR_ANY 0 x)).
Lemma close_view w w' :
  close_handle custom_free fuel ctx_close tmr_fn w = Some w' ->
  view w' = (closed (tf w), if tf_handle (tf w) =? NULL then calls w else calls w ++ [F_close (tf_handle (tf w))]).
Proof.
  unfold close_handle. cbv zeta. set (w1 := upd_tf w _). assert (E1 : view w1 = (tf_set_peer IPADDR_ANY 0 (tf w), calls w)) by apply view_upd.
  intros H. destruct (if negb (_ =? NULL) then _ else _) as [w2|] eqn:E; [|done]. cbn [mbind option_bind] in H. injection H as <-.
  assert (E2 : view w2 = (tf_set_last_data NULL (tf_set_peer IPADDR_ANY 0 (tf w)), calls w)).
  { destruct (Z.eqb_spec (tf_last_data (tf w1)) NULL) as [E0|E0]; cbn [negb] in E.
    - injection E as <-. rewrite E1. f_equal. rewrite (tf_view _ _ E1) in E0. simpl in E0. destruct (tf w). simpl in *. by rewrite E0.
    - destruct (wfree _ _ _ _) as [w3|] eqn:E3; [|done]. injection E as <-. apply wfree_view in E3. rewrite E1 in E3. rewrite view_upd.
      unfold view in E3. injection E3 as -> ->. done. }
  set (w3 := stop_timer w2 _). assert (E3 : view w3 = view w2) by apply view_timers. rewrite E2 in E3. unfold view in E3. injection E3 as E3 E4. rewrite E3. simpl.
  destruct (tf_handle (tf w) =? NULL) eqn:Eh; cbn [negb].
  - unfold view. rewrite E3, E4. apply Z.eqb_eq in Eh. f_equal. unfold closed. destruct (tf w). simpl in *. by rewrite Eh.
  - rewrite view_upd. unfold calls. pose proof (te_close He (tf_ctx (tf w)) w3 (tf_handle (tf w))) as Hc. unfold view in Hc. injection Hc as Hc1 Hc2.
    fold (calls (ctx_close (tf_ctx (tf w)) w3 (tf_handle (tf w)))). rewrite Hc1, Hc2, E3, E4. done.
Qed.

(** The outcomes of [send_data] for an open file. *)
Lemma send_data_view w w' :
  send_data netif_output custom_free fuel ctx_close ctx_read tmr_fn w = Some w' -> tf_handle (tf w) <> NULL ->
  let h := tf_handle (tf w) in
  view w' = (tf_set_last_data NULL (tf w), calls w) \/ (exists p, view w' = (tf_set_last_data p (tf w), calls w ++ [F_read h])) \/
  view w' = (closed (tf w), (calls w ++ [F_read h]) ++ [F_close h]).
Proof.
  intros H Hh h. unfold send_data in H. destruct (if negb (_ =? NULL) then _ else _) as [w1|] eqn:E; [|done]. cbn [mbind option_bind] in H.
  assert (E1 : view w1 = view w) by (destruct (negb _); [by eapply wfree_view|by injection E as <-]). clear E. unfold view in E1. injection E1 as E1 C1.
  destruct (pbuf_alloc _ _ _ _ _ _) as [[st p]|]; [|done]. cbn [mbind option_bind] in H. cbv zeta in H.
  set (w2 := upd_tf (set_wps w1 st) (tf_set_last_data p)) in H. assert (E2 : view w2 = (tf_set_last_data p (tf w), calls w)) by (unfold w2; rewrite view_upd; fold (tf w1) (calls w1); by rewrite <- E1, <- C1).
  destruct (Z.eqb_spec p NULL) as [->|Hp]; [injection H as <-; by left|]. right. set (w3 := set_wmem w2 _) in H. assert (E3 : view w3 = view w2) by done. rewrite E2 in E3.
  unfold view in E3. injection E3 as E3 C3. pose proof (te_read He (tf_ctx (tf w3)) w3 (tf_handle (tf w3)) (payload w2 p + 4) TFTP_MAX_PAYLOAD_SIZE) as Hr.
  destruct (ctx_read _ _ _ _ _) as [w4 ret]. cbn [fst] in Hr. rewrite E3, C3 in Hr. simpl in Hr. unfold view in Hr. injection Hr as E4 C4. fold h in C4.
  destruct (ret <? 0).
  - destruct (send_error _ _ _ _ _ _ _ _) as [w5|] eqn:E5; [|done]. cbn [mbind option_bind] in H. apply send_error_view in E5. unfold view in E5. injection E5 as E5 C5.
    apply close_view in H. right. rewrite H, E5, E4, C5, C4. simpl. by rewrite (proj2 (Z.eqb_neq _ _) Hh).
  - destruct (pbuf_realloc _ _ _ _ _) as [st2|]; [|done]. cbn [mbind option_bind] in H. apply resend_view in H. left. exists p. rewrite H. unfold view. rewrite <- E4, <- C4. done.
Qed.

(** ** The invariant *)

Record tftp_inv w : Prop := {
  ti_files : frun (calls w) = Some (if tf_handle (tf w) =? NULL then None else Some (tf_handle (tf w), tf_mode_write (tf w) =? 1));
  ti_mode : tf_handle (tf w) <> NULL -> tf_mode_write (tf w) = 0 \/ tf_mode_write (tf w) = 1;
  ti_closed : tf_handle (tf w) = NULL -> tf_last_data (tf w) = NULL /\ tf_port (tf w) = 0 /\ tf_addr (tf w) = IPADDR_ANY;
  ti_write : tf_mode_write (tf w) = 1 -> tf_last_data (tf w) = NULL;
  ti_blknum : 0 <= tf_blknum (tf w) < 65536;
  ti_retries : 0 <= tf_retries (tf w) <= TFTP_MAX_RETRIES
}.

Lemma inv_view w w' : view w' = view w -> tftp_inv w -> tftp_inv w'.
Proof. intros E []. unfold view in E. injection E as E C. constructor; by rewrite ?E, ?C. Qed.
(** A step that is seen in the log: the state of the file behind it. *)
Lemma inv_of x l w : view w = (x, l) ->
  frun l = Some (if tf_handle x =? NULL then None else Some (tf_handle x, tf_mode_write x =? 1)) ->
  (tf_handle x <> NULL -> tf_mode_write x = 0 \/ tf_mode_write x = 1) -> (tf_handle x = NULL -> tf_last_data x = NULL /\ tf_port x = 0 /\ tf_addr x = IPADDR_ANY) ->
  (tf_mode_write x = 1 -> tf_last_data x = NULL) -> 0 <= tf_blknum x < 65536 -> 0 <= tf_retries x <= TFTP_MAX_RETRIES -> tftp_inv w.
Proof. intros E. unfold view in E. injection E as <- <-. by constructor. Qed.

Lemma close_inv w w' : close_handle custom_free fuel ctx_close tmr_fn w = Some w' -> tftp_inv w -> tftp_inv w' /\ tf_handle (tf w') = NULL.
Proof.
  intros H []. apply close_view in H. split; [|by rewrite (tf_view _ _ H)]. eapply inv_of; [exact H|..]; simpl; auto.
  destruct (tf_handle (tf w) =? NULL) eqn:E; [done|]. rewrite frun_snoc, ti_files0. simpl. by rewrite Z.eqb_refl.
Qed.

Lemma send_data_inv w w' :
  send_data netif_output custom_free fuel ctx_close ctx_read tmr_fn w = Some w' -> tf_handle (tf w) <> NULL -> tf_mode_write (tf w) = 0 -> tftp_inv w -> tftp_inv w'.
Proof.
  intros H Hh Hm []. rewrite (proj2 (Z.eqb_neq _ _) Hh), Hm in ti_files0. simpl in ti_files0.
  assert (Hr : frun (calls w ++ [F_read (tf_handle (tf w))]) = Some (Some (tf_handle (tf w), false))) by (rewrite frun_snoc, ti_files0; simpl; by rewrite Z.eqb_refl).
  apply send_data_view in H as [H|[[p H]|H]]; [| | |done]; (eapply inv_of; [exact H|..]); simpl; rewrite ?(proj2 (Z.eqb_neq _ _) Hh), ?Hm; auto; try congruence; try done.
  rewrite frun_snoc, Hr. simpl. by rewrite Z.eqb_refl.
Qed.

Lemma send_error_inv w addr port code str w' : send_error netif_output custom_free fuel w addr port code str = Some w' -> tftp_inv w -> tftp_inv w'.
Proof. intros H. by apply inv_view, (send_error_view _ _ _ _ _ _ H). Qed.

(** The parts of [recv]. *)
Lemma request_inv w p addr port opcode w' :
  recv_request netif_output custom_free fuel ctx_open ctx_close ctx_read tmr_fn tftp_null filename mode w p addr port opcode = Some w' -> tftp_inv w -> tftp_inv w'.
Proof.
  intros H Hi. unfold recv_request in H. cbv zeta in H. destruct (Z.eqb_spec (tf_handle (tf w)) NULL) as [Hh|Hh]; cbn [negb] in H; [|by eapply send_error_inv].
  set (w1 := set_wmem (start_tmr tmr_fn w) _) in H. assert (E1 : view w1 = view w) by (apply (view_timers w)). assert (H1 : tftp_inv w1) by (by apply (inv_view w)).
  destruct (pbuf_memfind _ _ _ _ _ _) as [e1|]; [|done]. cbn [mbind option_bind] in H. destruct (_ <? _); [by eapply send_error_inv|].
  destruct (pbuf_copy_partial _ _ _ _ _ _) as [[st n]|]; [|done]. cbn [mbind option_bind] in H. destruct (pbuf_memfind _ _ _ _ _ _) as [e2|]; [|done]. cbn [mbind option_bind] in H.
  destruct (_ <? _); [eapply send_error_inv; [exact H|]; by apply (inv_view w1)|].
  destruct (pbuf_copy_partial _ _ _ _ _ _) as [[st2 n2]|]; [|done]. cbn [mbind option_bind] in H. set (w2 := set_wps _ st2) in H. assert (E2 : view w2 = view w) by (by rewrite <- E1).
  set (wr := opcode =? PP_HTONS TFTP_WRQ) in *. pose proof (te_open He (tf_ctx (tf w2)) w2 filename mode (if wr then 1 else 0)) as Ho. destruct (ctx_open _ _ _ _ _) as [w3 h].
  cbn [fst snd] in Ho. unfold view in E2, Ho. injection E2 as E2 C2. injection Ho as E3 C3. rewrite E2 in E3. rewrite C2 in C3. replace (negb ((if wr then 1 else 0) =? 0)) with wr in C3 by (by destruct wr).
  set (w4 := upd_tf (upd_tf w3 _) _) in H. assert (E4 : view w4 = (tf_set_blknum 1 (tf_set_handle h (tf w)), calls w ++ [F_open h wr])).
  { unfold w4. rewrite view_upd. pose proof (view_upd w3 (tf_set_handle h)) as E. unfold view in E. injection E as -> ->. by rewrite E3, C3. }
  destruct Hi. rewrite Hh, Z.eqb_refl in ti_files0. destruct (ti_closed0 Hh) as (Hl & Hp & Ha).
  assert (Hf : frun (calls w ++ [F_open h wr]) = Some (if h =? NULL then None else Some (h, wr))) by (rewrite frun_snoc, ti_files0; done).
  destruct (Z.eqb_spec h NULL) as [->|Hn].
  - eapply send_error_inv; [exact H|]. eapply inv_of; [exact E4|..]; simpl; auto; done.
  - destruct wr.
    + apply send_ack_view in H. rewrite view_upd in H. pose proof (view_upd w4 (tf_set_peer addr port)) as E5. unfold view in E4, E5. injection E4 as E4 C4. injection E5 as E5 C5.
      rewrite E5, C5, E4, C4 in H. eapply inv_of; [exact H|..]; simpl; auto; try done. by rewrite (proj2 (Z.eqb_neq _ _) Hn).
    + pose proof (view_upd w4 (tf_set_peer addr port)) as E5. unfold view in E4, E5. injection E4 as E4 C4. injection E5 as E5 C5.
      set (w5 := upd_tf w4 _) in *. pose proof (view_upd w5 (tf_set_mode_write 0)) as E6. rewrite E5, C5, E4, C4 in E6. pose proof (tf_view _ _ E6) as E6'. simpl in E6'.
      apply send_data_inv in H; [done| | |]; [by rewrite E6'|by rewrite E6'|]. eapply inv_of; [exact E6|..]; simpl; auto; try done. by rewrite (proj2 (Z.eqb_neq _ _) Hn).
Qed.

Lemma data_inv w p addr port w' :
  recv_data netif_output custom_free fuel ctx_close ctx_write tmr_fn w p addr port = Some w' -> tftp_inv w -> tftp_inv w'.
Proof.
  intros H Hi. unfold recv_data in H. destruct (Z.eqb_spec (tf_handle (tf w)) NULL) as [Hh|Hh]; [by eapply send_error_inv|].
  destruct (Z.eqb_spec (tf_mode_write (tf w)) 1) as [Hm|Hm]; cbn [negb] in H; [|by eapply send_error_inv]. cbv zeta in H.
  set (w1 := set_wps w _) in H. assert (E1 : tf w1 = tf w /\ calls w1 = calls w) by done. destruct E1 as [E1 C1].
  pose proof (te_write He (tf_ctx (tf w1)) w1 (tf_handle (tf w1)) p) as Hw. destruct (ctx_write _ _ _ _) as [w2 ret]. cbn [fst] in Hw.
  assert (H2 : tftp_inv w2).
  { rewrite E1, C1 in Hw. destruct Hi. eapply inv_of; [exact Hw|..]; auto. rewrite frun_snoc, ti_files0, (proj2 (Z.eqb_neq _ _) Hh), Hm. simpl. by rewrite Z.eqb_refl. }
  destruct (if ret <? 0 then _ else _) as [w3|] eqn:E3; [|done]. cbn [mbind option_bind] in H.
  assert (H3 : tftp_inv w3).
  { destruct (ret <? 0); [|by apply (inv_view w2); [eapply send_ack_view|]]. destruct (send_error _ _ _ _ _ _ _ _) as [w4|] eqn:E4; [|done]. cbn [mbind option_bind] in E3.
    eapply close_inv; [exact E3|]. by eapply send_error_inv. }
  clear E3. destruct (_ <? _); [eapply close_inv; [exact H|done]|by injection H as <-].
Qed.

Lemma ack_inv w p addr port w' :
  recv_ack netif_output custom_free fuel ctx_close ctx_read tmr_fn w p addr port = Some w' -> tftp_inv w -> tftp_inv w'.
Proof.
  intros H Hi. unfold recv_ack in H. destruct (Z.eqb_spec (tf_handle (tf w)) NULL) as [Hh|Hh]; [by eapply send_error_inv|].
  destruct (Z.eqb_spec (tf_mode_write (tf w)) 0) as [Hm|Hm]; cbn [negb] in H; [|by eapply send_error_inv]. cbv zeta in H.
  destruct (negb (_ =? tf_blknum _)); [by eapply send_error_inv|]. destruct (negb (if _ : bool then _ else _)); [|eapply close_inv; [exact H|done]].
  pose proof (view_upd w (fun x => tf_set_blknum (u16 (tf_blknum x + 1)) x)) as E. pose proof (tf_view _ _ E) as E'. simpl in E'.
  apply send_data_inv in H; [done| | |]; [by rewrite E'|by rewrite E'|]. destruct Hi. eapply inv_of; [exact E|..]; simpl; auto. apply u16_range.
Qed.

Lemma recv_inv w arg upcb p addr port w' :
  recv netif_output custom_free fuel ctx_open ctx_close ctx_read ctx_write tmr_fn tftp_null filename mode w arg upcb p addr port = Some w' -> tftp_inv w -> tftp_inv w'.
Proof.
  intros H Hi. unfold recv in H. destruct (_ || _).
  - destruct (send_error _ _ _ _ _ _ _ _) as [w1|] eqn:E; [|done]. cbn [mbind option_bind] in H. apply (inv_view w1); [by eapply wfree_view|by eapply send_error_inv].
  - cbv zeta in H. set (w1 := upd_tf w _) in H. assert (H1 : tftp_inv w1).
    { pose proof (view_upd w (fun x => tf_set_retries 0 (tf_set_last_pkt (tf_timer x) x))) as E. destruct Hi. eapply inv_of; [exact E|..]; simpl; auto. unfold TFTP_MAX_RETRIES. lia. }
    destruct (if _ || _ then _ else _) as [w2|] eqn:E; [|done]. cbn [mbind option_bind] in H. apply (inv_view w2); [by eapply wfree_view|]. clear H.
    destruct (_ || _); [by eapply request_inv|]. destruct (_ =? PP_HTONS TFTP_DATA); [by eapply data_inv|].
    destruct (_ =? PP_HTONS TFTP_ACK); [by eapply ack_inv|by eapply send_error_inv].
Qed.

(** The timer: what a tick does to the server. *)
Definition ticked (x : tftp_state) : tftp_state := tf_set_timer (s32 (tf_timer x + 1)) x.
Definition due_now (x : tftp_state) : bool := TFTP_TIMEOUT_MSECS / TFTP_TIMER_MSECS <? s32 (tf_timer x - tf_last_pkt x).
Definition resends (x : tftp_state) : bool := negb (tf_last_data x =? NULL) && (tf_retries x <? TFTP_MAX_RETRIES).
Lemma tmr_view w w' :
  tftp_tmr netif_output custom_free fuel ctx_close tmr_fn w = Some w' ->
  let x := ticked (tf w) in
  view w' = if tf_handle x =? NULL then (x, calls w)
            else if due_now x then
              if resends x then (tf_set_retries (u8 (tf_retries x + 1)) x, calls w) else (closed x, calls w ++ [F_close (tf_handle x)])
            else (x, calls w).
Proof.
  intros H x. unfold tftp_tmr in H. cbv zeta in H. set (w1 := upd_tf w _) in H. assert (E1 : view w1 = (x, calls w)) by apply view_upd.
  pose proof (tf_view _ _ E1) as T1. simpl in T1. rewrite T1 in H. destruct (tf_handle x =? NULL) eqn:Eh; [by injection H as <-|].
  set (w2 := start_tmr tmr_fn w1) in H. assert (E2 : view w2 = (x, calls w)) by (rewrite <- E1; apply view_timers). pose proof (tf_view _ _ E2) as T2. simpl in T2. rewrite T2 in H.
  fold (due_now x) in H. fold (resends x) in H. destruct (due_now x); [|by injection H as <-]. unfold view in E2. injection E2 as _ C2. destruct (resends x).
  - destruct (resend_data _ _ _ w2) as [w3|] eqn:E3; [|done]. cbn [mbind option_bind] in H. injection H as <-. apply resend_view in E3. rewrite view_upd.
    unfold view in E3. injection E3 as -> ->. by rewrite T2, C2.
  - apply close_view in H. rewrite H, T2, Eh, C2. done.
Qed.
Lemma tftp_tmr_inv w w' : tftp_tmr netif_output custom_free fuel ctx_close tmr_fn w = Some w' -> tftp_inv w -> tftp_inv w'.
Proof.
  intros H []. apply tmr_view in H. cbv zeta in H. change (tf_handle (ticked (tf w))) with (tf_handle (tf w)) in H. destruct (tf_handle (tf w) =? NULL) eqn:Eh.
  - eapply inv_of; [exact H|..]; simpl; auto. by rewrite Eh.
  - assert (Hc : frun (calls w ++ [F_close (tf_handle (tf w))]) = Some None) by (rewrite frun_snoc, ti_files0; simpl; by rewrite Z.eqb_refl).
    destruct (due_now _); [|eapply inv_of; [exact H|..]; simpl; auto; by rewrite Eh]. destruct (resends (ticked (tf w))) eqn:Er; [|eapply inv_of; [exact H|..]; simpl; auto].
    eapply inv_of; [exact H|..]; simpl; auto; [by rewrite Eh|]. apply andb_prop in Er as [_ Er%Z.ltb_lt]. simpl in Er. unfold TFTP_MAX_RETRIES in *. rewrite u8_small; lia.
Qed.

(** The steps of the server once it runs. *)
Inductive tftp_step : world X -> world X -> Prop :=
| tftp_recv_step w arg upcb p addr port w' :
    recv netif_output custom_free fuel ctx_open ctx_close ctx_read ctx_write tmr_fn tftp_null filename mode w arg upcb p addr port = Some w' -> tftp_step w w'
| tftp_tmr_step w w' : tftp_tmr netif_output custom_free fuel ctx_close tmr_fn w = Some w' -> tftp_step w w'
| tftp_other_step w w' : view w' = view w -> tftp_step w w'.

(** [tftp_init] with the static variable as the program starts with it. *)
Definition tftp0 : tftp_state := mk_tftp 0 0 0 0 0 0 0 0 0 0 0.
Lemma init_inv w ctx w' : tftp_init recv_fn w ctx = Some (w', ERR_OK) -> tf w = tftp0 -> calls w = [] -> tftp_inv w'.
Proof.
  intros H Ht Hc. unfold tftp_init in H. assert (Hn : view (udp_new_ip_type w 46).1 = view w).
  { unfold udp_new_ip_type, udp_new. destruct (memp_malloc _ _). cbv zeta. by destruct (negb _). }
  destruct (udp_new_ip_type w 46) as [w1 pcb]. cbn [fst] in Hn. destruct (pcb =? NULL); [done|].
  destruct (udp_bind w1 pcb _ _) as [[w2 r]|] eqn:E; [|done]. cbn [mbind option_bind] in H. destruct (Z.eqb_spec r ERR_OK) as [->|Hr]; cbn [negb] in H; [|injection H as _ ?; congruence].
  cbv zeta in H. injection H as <-. assert (E2 : view w2 = view w1) by (unfold view, tf, calls; by rewrite (udp_bind_ext _ _ _ _ _ _ E)). rewrite Hn in E2. unfold view in E2. injection E2 as T2 C2.
  match goal with |- tftp_inv (udp_recv (upd_tf w2 ?f) _ _ _) => pose proof (view_upd w2 f) as E3; set (w3 := upd_tf w2 f) in * end.
  apply (inv_view w3); [done|]. eapply inv_of; [exact E3|..]; simpl; rewrite ?T2, ?C2, ?Ht, ?Hc; try done.
Qed.

(** ** The end of a transfer *)

(** Ticks without a packet. *)
Fixpoint tftp_ticks (n : nat) w : option (world X) :=
  match n with
  | O => Some w
  | S n => w ← tftp_ticks n w; tftp_tmr netif_output custom_free fuel ctx_close tmr_fn w
  end.
(** The tick that closes the file: the time-out of ten seconds, and five retransmissions
    when there is a block to send. *)
Definition last_tick (x : tftp_state) : Z := if tf_last_data x =? NULL then 201 else 206.

Definition after_ticks (n : Z) (x : tftp_state) : tftp_state :=
  tf_set_retries (if tf_last_data x =? NULL then 0 else Z.max 0 (n - 200)) (tf_set_timer (tf_timer x + n) x).

Lemma ticks_view n w w' :
  tftp_ticks n w = Some w' -> tf_handle (tf w) <> NULL -> tf_retries (tf w) = 0 -> tf_last_pkt (tf w) = tf_timer (tf w) ->
  0 <= tf_timer (tf w) < 2147483648 - 300 -> Z.of_nat n < last_tick (tf w) -> view w' = (after_ticks (Z.of_nat n) (tf w), calls w).
Proof.
  intros H Hh Hr Hp Ht. revert w' H. induction n as [|n IH]; intros w' H Hn.
  - injection H as <-. unfold view, after_ticks. f_equal. destruct (tf w). simpl in *. rewrite Hr, Z.add_0_r. by destruct (_ =? NULL).
  - cbn [tftp_ticks] in H. destruct (tftp_ticks n w) as [w1|] eqn:E; [|done]. cbn [mbind option_bind] in H. specialize (IH w1 eq_refl ltac:(lia)).
    unfold view in IH. injection IH as T1 C1. apply tmr_view in H. cbv zeta in H. rewrite T1, C1 in H. rewrite H. clear H.
    unfold last_tick in Hn. unfold after_ticks. set (x := tf w) in *. simpl. rewrite (proj2 (Z.eqb_neq _ _) Hh). unfold due_now, resends. simpl. rewrite Hp.
    assert (Hn6 : Z.of_nat n < 206) by (destruct (tf_last_data x =? NULL); lia). rewrite (s32_small (tf_timer x + Z.of_nat n + 1)), s32_small by lia. change (TFTP_TIMEOUT_MSECS / TFTP_TIMER_MSECS) with 200. unfold TFTP_MAX_RETRIES.
    destruct (Z.ltb_spec 200 (tf_timer x + Z.of_nat n + 1 - tf_timer x)) as [Hd|Hd]; destruct (tf_last_data x =? NULL) eqn:El; cbn [negb andb]; try lia;
      unfold ticked, tf_set_retries, tf_set_timer; simpl.
    + rewrite (proj2 (Z.ltb_lt (Z.max 0 (Z.of_nat n - 200)) 5)) by lia. rewrite ?s32_small, u8_small by lia. do 2 f_equal; lia.
    + rewrite ?s32_small by lia. do 2 f_equal; lia.
    + rewrite ?s32_small by lia. do 2 f_equal; lia.
Qed.
Lemma ticks_end w w' :
  tftp_ticks (Z.to_nat (last_tick (tf w))) w = Some w' -> tf_handle (tf w) <> NULL -> tf_retries (tf w) = 0 -> tf_last_pkt (tf w) = tf_timer (tf w) ->
  0 <= tf_timer (tf w) < 2147483648 - 300 -> tf_handle (tf w') = NULL /\ tf_port (tf w') = 0 /\ tf_last_data (tf w') = NULL /\ calls w' = calls w ++ [F_close (tf_handle (tf w))].
Proof.
  intros H Hh Hr Hp Ht. assert (Hl : 201 <= last_tick (tf w) <= 206) by (unfold last_tick; destruct (_ =? NULL); lia).
  replace (Z.to_nat (last_tick (tf w))) with (S (Z.to_nat (last_tick (tf w) - 1))) in H by lia. cbn [tftp_ticks] in H. destruct (tftp_ticks _ w) as [w1|] eqn:E; [|done].
  cbn [mbind option_bind] in H. apply ticks_view in E; auto; [|lia]. rewrite Z2Nat.id in E by lia. unfold view in E. injection E as T1 C1. apply tmr_view in H. cbv zeta in H. rewrite T1, C1 in H.
  unfold after_ticks, due_now, resends, ticked in H. simpl in H. rewrite (proj2 (Z.eqb_neq _ _) Hh), Hp in H. rewrite (s32_small (tf_timer (tf w) + (last_tick (tf w) - 1) + 1)), s32_small in H by lia.
  change (TFTP_TIMEOUT_MSECS / TFTP_TIMER_MSECS) with 200 in H. rewrite (proj2 (Z.ltb_lt 200 _)) in H by lia. unfold TFTP_MAX_RETRIES, last_tick in H.
  destruct (tf_last_data (tf w) =? NULL); simpl in H; unfold view in H; injection H as T2 C2; rewrite T2, C2; done.
Qed.
(** A tick of an open transfer that has been waiting for [n] of them: nothing but the timer
    up to tick 200, then the block is sent again. *)
Lemma tick_resends n w w1 :
  tftp_ticks n w = Some w1 -> tf_handle (tf w) <> NULL -> tf_retries (tf w) = 0 -> tf_last_pkt (tf w) = tf_timer (tf w) ->
  0 <= tf_timer (tf w) < 2147483648 - 300 -> tf_last_data (tf w) <> NULL -> Z.of_nat n < 205 ->
  let w2 := start_tmr tmr_fn (upd_tf w1 (tf_set_timer (tf_timer (tf w) + Z.of_nat n + 1))) in
  tftp_ticks (S n) w =
    if Z.of_nat n <? 200 then Some w2
    else w3 ← resend_data netif_output custom_free fuel w2; Some (upd_tf w3 (fun x => tf_set_retries (u8 (tf_retries x + 1)) x)).
Proof.
  intros E Hh Hr Hp Ht Hl Hn. cbv zeta. assert (Hlt : Z.of_nat n < last_tick (tf w)) by (unfold last_tick; rewrite (proj2 (Z.eqb_neq _ _) Hl); lia).
  pose proof (ticks_view n w w1 E Hh Hr Hp Ht Hlt) as V. unfold view in V. injection V as T1 _.
  cbn [tftp_ticks]. rewrite E. cbn [mbind option_bind]. unfold tftp_tmr. cbv zeta.
  assert (Eu : upd_tf w1 (fun x => tf_set_timer (s32 (tf_timer x + 1)) x) = upd_tf w1 (tf_set_timer (tf_timer (tf w) + Z.of_nat n + 1))).
  { unfold upd_tf. do 2 f_equal. fold (tf w1). rewrite T1. unfold after_ticks. cbn. rewrite s32_small by lia. done. }
  rewrite Eu. set (w2 := upd_tf w1 _). assert (T2 : tf w2 = tf_set_timer (tf_timer (tf w) + Z.of_nat n + 1) (after_ticks (Z.of_nat n) (tf w))).
  { unfold w2, upd_tf, tf at 1. cbn. rewrite tftp_get_put. fold (tf w1). by rewrite T1. }
  assert (T3 : tf (start_tmr tmr_fn w2) = tf w2) by (unfold start_tmr, start_timer, with_timers, tf; simpl; by rewrite tftp_get_timers).
  rewrite T3, T2. unfold after_ticks. cbn. rewrite (proj2 (Z.eqb_neq _ _) Hh), (proj2 (Z.eqb_neq _ _) Hl), Hp. cbn [negb andb].
  rewrite s32_small by lia. change (TFTP_TIMEOUT_MSECS / TFTP_TIMER_MSECS) with 200. unfold TFTP_MAX_RETRIES.
  destruct (Z.ltb_spec (Z.of_nat n) 200) as [H|H]; [by rewrite (proj2 (Z.ltb_ge 200 _)) by lia|].
  rewrite (proj2 (Z.ltb_lt 200 _)), (proj2 (Z.ltb_lt _ 5)) by lia. done.
Qed.
(** Without a block a tick needs no memory. *)
Lemma tmr_no_block w : tf_last_data (tf w) = NULL -> exists w', tftp_tmr netif_output custom_free fuel ctx_close tmr_fn w = Some w'.
Proof.
  intros Hl. unfold tftp_tmr. cbv zeta. set (w1 := upd_tf w _). assert (T1 : tf w1 = ticked (tf w)) by (unfold w1, upd_tf, tf; simpl; by rewrite tftp_get_put).
  destruct (tf_handle (tf w1) =? NULL); [eauto|]. set (w2 := start_tmr tmr_fn w1). assert (T2 : tf w2 = tf w1) by (unfold w2, start_tmr, start_timer, with_timers, tf; simpl; by rewrite tftp_get_timers).
  destruct (_ <? _); [|eauto]. rewrite T2, T1. change (tf_last_data (ticked (tf w))) with (tf_last_data (tf w)). rewrite Hl. change (NULL =? NULL) with true. cbn [negb andb].
  unfold close_handle. cbv zeta. assert (T3 : tf (upd_tf w2 (tf_set_peer IPADDR_ANY 0)) = tf_set_peer IPADDR_ANY 0 (tf w2)) by (unfold upd_tf, tf; simpl; by rewrite tftp_get_put).
  rewrite T3, T2, T1. cbn [tf_set_peer ticked tf_set_timer tf_last_data]. rewrite Hl. change (NULL =? NULL) with true. cbn [negb mbind option_bind]. eauto.
Qed.
End Props.

(** C18: Whatever datagrams arrive and however often the timer runs, once [tftp_init] has
    succeeded: the application sees its file functions called in order, a file is opened only
    when none is, and it is read, or written, with the handle it returned and with none
    other, until it is closed once; between transfers the server holds no pbuf and no peer; a
    write transfer never holds a block; the block number fits in 16 bits and the number of
    retries is at most [TFTP_MAX_RETRIES]. *)
Theorem tftp_safe {X} `{!timer_store X, !tftp_store X} netif_output custom_free fuel ctx_open ctx_close ctx_read ctx_write recv_fn tmr_fn tftp_null filename mode flog (w0 w1 w2 : world X) ctx :
  tftp_env netif_output ctx_open ctx_close ctx_read ctx_write flog -> tf w0 = tftp0 -> calls flog w0 = [] ->
  tftp_init recv_fn w0 ctx = Some (w1, ERR_OK) ->
  rtc (tftp_step netif_output custom_free fuel ctx_open ctx_close ctx_read ctx_write tmr_fn tftp_null filename mode flog) w1 w2 -> tftp_inv flog w2.
Proof.
  intros He Ht Hc Hi Hs. assert (H1 : tftp_inv flog w1) by (by eapply init_inv). clear Hi. induction Hs as [|w1 w2 w3 H _ IH]; [done|]. apply IH.
  inversion H; subst; [by eapply recv_inv|by eapply tftp_tmr_inv|by eapply inv_view].
Qed.

(** C19: A client that falls silent, for an open file whose counters the last datagram has
    reset and a timer below 2^31 - 300 ticks.  A transfer lasts until tick 201 of the timer,
    ten seconds later, when there is no block to send again, and until tick 206 when there is
    one; at that tick the file is closed, once, and peer and block are forgotten, and before
    the file stays open with no call of the application.  With a block, the ticks up to 200
    do nothing but count and restart the timer, and each of the five ticks 201 to 205 calls
    [resend_data], which sends the block again if there is memory for a copy, and counts a
    retry also when there is none.  Without a block the ticks return whatever the heap and
    the pools are. *)
Theorem transfer_ends {X} `{!timer_store X, !tftp_store X} netif_output custom_free fuel ctx_open ctx_close ctx_read ctx_write tmr_fn flog (w : world X) :
  tftp_env netif_output ctx_open ctx_close ctx_read ctx_write flog ->
  let x := tf w in let ticks n := tftp_ticks netif_output custom_free fuel ctx_close tmr_fn n w in
  tf_handle x <> NULL -> tf_retries x = 0 -> tf_last_pkt x = tf_timer x -> 0 <= tf_timer x < 2147483648 - 300 ->
  (forall n w', Z.of_nat n < last_tick x -> ticks n = Some w' ->
     tf_handle (tf w') = tf_handle x /\ calls flog w' = calls flog w /\ tf_retries (tf w') = if tf_last_data x =? NULL then 0 else Z.max 0 (Z.of_nat n - 200)) /\
  (forall w', ticks (Z.to_nat (last_tick x)) = Some w' ->
     tf_handle (tf w') = NULL /\ tf_port (tf w') = 0 /\ tf_last_data (tf w') = NULL /\ calls flog w' = calls flog w ++ [F_close (tf_handle x)]) /\
  (tf_last_data x <> NULL -> forall n w1, Z.of_nat n < 205 -> ticks n = Some w1 ->
     let w2 := start_tmr tmr_fn (upd_tf w1 (tf_set_timer (tf_timer x + Z.of_nat n + 1))) in
     ticks (S n) =
       if Z.of_nat n <? 200 then Some w2
       else w3 ← resend_data netif_output custom_free fuel w2; Some (upd_tf w3 (fun x => tf_set_retries (u8 (tf_retries x + 1)) x))) /\
  (tf_last_data x = NULL -> forall n, is_Some (ticks n)).
Proof.
  intros He x ticks Hh Hr Hp Ht. split_and!.
  - intros n w' Hn E. eapply ticks_view in E; [|done..]. unfold view in E. injection E as -> ->. done.
  - intros w' E. by eapply ticks_end.
  - intros Hl n w1 Hn E. by eapply tick_resends.
  - intros Hl n. enough (exists w', ticks n = Some w' /\ tf_last_data (tf w') = NULL) as (w' & E & _) by (by exists w'). induction n as [|n (w1 & E & H1)]; [by exists w|].
    destruct (tmr_no_block netif_output custom_free fuel ctx_close tmr_fn w1 H1) as [w2 E2]. exists w2. split; [unfold ticks in *; cbn [tftp_ticks]; by rewrite E|].
    eapply tmr_view in E2; [|done]. cbv zeta in E2. apply tf_view in E2. destruct (_ =? NULL); [by rewrite E2|]. destruct (due_now _); [|by rewrite E2]. destruct (resends _) ; by rewrite E2.
Qed.
