(* ===== verification/TftpSend.v ===== *)
(** * The blocks that the TFTP server sends

    A block that is sent again is the block that was sent: the datagram holds the bytes of
    [last_data], and a new block holds its number and what the file function read. *)

From Stdlib Require Import ZArith Lia.
From stdpp Require Import base tactics numbers list option gmap.
From S2P Require Import Prelude.
From S2P Require Import Def.
From S2P Require Import Ip4Addr.
From S2P Require Import Alloc.
From S2P Require Import Mem.
From S2P Require Import Memp.
From S2P Require Import Pbuf.
From S2P Require Import PbufChain.
From S2P Require Import PbufAlloc.
From S2P Require Import Timeouts.
From S2P Require Import Etharp.
From S2P Require Import World.
From S2P Require Import AppTimers.
From S2P Require Import Ip4Frag.
From S2P Require Import Ip4.
From S2P Require Import Icmp.
From S2P Require Import Ip4Reass.
From S2P Require Import Udp.
From S2P Require Import Tftp.

(** ** A pbuf for a datagram *)

Section Fresh.
Context (hb : Z) (dp dq : memp_desc).

(** Two held regions that are not the same one. *)
Lemma held_separate st O x y : st_owns hb dp dq st O -> x ∈ O -> y ∈ O -> x.2.1 <> y.2.1 -> separate x.2 y.2.
Proof.
  intros Ho Hx Hy Hne. destruct (st_owns_separate _ _ _ _ _ Ho) as [Hs _].
  destruct (all_separate_in _ x.2 y.2 Hs) as [E|E]; [by apply list_elem_of_fmap_2|by apply list_elem_of_fmap_2|by rewrite E in Hne|done].
Qed.

(** A new RAM pbuf has room for the headers and is apart from a pbuf that was held. *)
Record new_pbuf (st st' : pstate) (O : holding) (p n : Z) : Prop := {
  np_room : room st' p [] 28;
  np_len : pb_len (pb st' p) = n;
  np_others : forall k y m, (k, (y, m)) ∈ O -> pb st' y = pb st y;
  np_data : data st' = data st;
  np_apart : forall k y m, (k, (y, m)) ∈ O -> separate (y, m) (pb_payload (pb st' p) - 28, n + 28);
  np_owns : exists r, held_as st' p r /\ st_owns hb dp dq st' (r :: O) /\ cut_room st' p r;
  np_ref : pb_ref (pb st' p) = 1;
  np_type : pb_type (pb st' p) = PBUF_RAM
}.

Lemma alloc_datagram custom_free fuel st O n :
  st_owns hb dp dq st O -> 0 <= n < 65000 -> (Z.to_nat n + 3 < fuel)%nat ->
  exists st' p, pbuf_alloc custom_free fuel st PBUF_TRANSPORT n PBUF_RAM = Some (st', p) /\
    ((p = NULL /\ unchanged hb dp dq st st' O) \/ (p <> NULL /\ new_pbuf st st' O p n)).
Proof.
  intros Ho Hn Hf. destruct (alloc_correct hb dp dq custom_free fuel st O PBUF_TRANSPORT n PBUF_RAM Ho ltac:(lia) Hf) as (st' & p & E & H). exists st', p. split; [done|].
  destruct H as [H|(Hp & l & R & Ha)]; [by left|]. right. split; [done|]. destruct Ha as [A1 A2 [A3 A4] A5 A6 A7 A8 A9 A10 _ A11 _].
  specialize (A11 ltac:(done)). subst l. cbn [plen] in A4. rewrite Z.add_0_r in A4. destruct (A10 (or_introl eq_refl)) as [A12 A13]. clear A10. inversion A5 as [|? [kr [pr nr]] ? R' Hr HR']; subst. inversion HR'; subst.
  inversion A12 as [|? ? ? ? [R1 R2] _]; subst. inversion A7 as [|? ? (T1 & T2 & T3) _]; subst.
  change (pbuf_offset PBUF_TRANSPORT) with 56 in A13. destruct Hr as (K1 & K2 & K3). rewrite T1 in K1. cbn [kind_of fst snd] in K1, K2, R1, R2. subst kr pr. set (r := (KHeap, (p, nr))) in *.
  assert (Hsep : forall k y m, (k, (y, m)) ∈ O -> y <> p).
  { intros k y m Hin ->. pose proof (so_pos _ _ _ _ _ A6) as Hpos. rewrite Forall_forall in Hpos. pose proof (Hpos _ (list_elem_of_here r O)) as P1.
    pose proof (Hpos (k, (p, m)) ltac:(by right)) as P2. simpl in P1, P2. destruct (st_owns_separate _ _ _ _ _ A6) as [Hall _]. cbn [app map all_separate] in Hall. destruct Hall as [Hall _].
    rewrite Forall_forall in Hall. specialize (Hall (p, m) ltac:(apply (list_elem_of_fmap_2 snd _ _ Hin))). unfold separate in Hall. simpl in Hall. lia. }
  pose proof (heap_owns_inside' _ _ (proj2 (so_heap _ _ _ _ _ A6))) as Hins. rewrite Forall_forall in Hins.
  assert (Hrin : inside r.2 (ram (ps_heap st'), END)) by (apply Hins, elem_of_held; by left).
  constructor; auto.
  - constructor; [done|done| |cbn [plen]; lia|constructor]. unfold header_fits. rewrite T1. simpl. apply Z.leb_le. lia.
  - intros k y m Hin. apply A9. rewrite list_elem_of_singleton. by eapply Hsep.
  - intros k y m Hin. destruct (held_separate st' (r :: O) (k, (y, m)) r A6) as [E1|E1]; [by right|by left|cbn [fst snd r]; by eapply Hsep| |];
      unfold r in E1; cbn [fst snd] in E1; unfold separate; simpl; lia.
  - exists r. split; [split_and!; [by rewrite T1|done|done]|]. split; [done|]. intros _. unfold r in *. cbn [fst snd] in *. split_and!; [lia|lia|]. destruct Hrin as [H1 H2]. unfold END, r in *. simpl in *. lia.
Qed.
End Fresh.

(** ** The datagram *)

Section Send.
Context {X : Type} `{!timer_store X, !tftp_store X}.
Context (netif_output : world X -> Z -> Z -> Z -> option (world X * Z)).
Context (custom_free : pstate -> Z -> pstate) (fuel : nat).
Implicit Types w : world X.

(** The socket of the server and the way to the client. *)
Record reaches w (addr port nif : Z) (n : Z) : Prop := {
  rc_pcb : tf_upcb (tf w) <> NULL;
  rc_local : u_local_ip (udp_at w (tf_upcb (tf w))) = IPADDR_ANY;
  rc_bound : 0 < u_local_port (udp_at w (tf_upcb (tf w))) < 65536;
  rc_ttl : 0 <= u_ttl (udp_at w (tf_upcb (tf w))) < 256;
  rc_port : 0 <= port < 65536;
  rc_uni : ip4_addr_ismulticast addr = false;
  rc_route : (ip4_route w addr).2 = nif /\ nif <> NULL;
  rc_id : 0 <= ip_id w < 65536;
  rc_mtu : netif_mtu (netif_of w nif) = 0 \/ n + 28 <= netif_mtu (netif_of w nif)
}.
(** The bytes of a datagram with the data [bs]. *)
Definition datagram w (addr port nif : Z) (bs : list Z) : list Z :=
  let u := udp_at w (tf_upcb (tf w)) in let n := Z.of_nat (length bs) in
  ip_header (u_tos u) (n + 28) (ip_id w) (u_ttl u) IP_PROTO_UDP (netif_ip_addr (netif_of w nif)) addr ++ udp_header (u_local_port u) port (n + 8) ++ bs.
(** What is done with a datagram: the interface gets it, then it is freed. *)
Definition handed w' (nif p addr : Z) : option (world X) :=
  '(w2, _) ← netif_output w' nif p addr; wfree custom_free fuel (stats_inc S_udp F_xmit w2) p.

Lemma route_keeps w addr : let w1 := (ip4_route w addr).1 in
  w_ps w1 = w_ps w /\ w_ext w1 = w_ext w /\ w_netifs w1 = w_netifs w /\ ip_id w1 = ip_id w /\ udp_pcb_at w1 = udp_pcb_at w.
Proof. destruct (ip4_route_state w addr) as [-> | ->]; done. Qed.

Lemma route_ps w st addr : (ip4_route (set_wps w st) addr).2 = (ip4_route w addr).2.
Proof.
  unfold ip4_route. change (w_netifs (set_wps w st)) with (w_netifs w). change (ip4_default_multicast_netif (set_wps w st)) with (ip4_default_multicast_netif w).
  destruct (_ && _); [done|]. cbv zeta. change (netif_of (set_wps w st)) with (netif_of w). destruct (route_search _ _ _); [done|]. by destruct (_ || _).
Qed.

Lemma send_filled_bytes w p addr port nif :
  reaches w addr port nif (pb_len (pb (w_ps w) p)) -> room (w_ps w) p [] 28 ->
  exists w', send_filled netif_output custom_free fuel w p addr port = handed w' nif p addr /\
    content (w_ps w') [p] = datagram w addr port nif (content (w_ps w) [p]).
Proof.
  intros [R1 R2 R3 R4 R5 R6 [R7 R8] R9 R10] Hr. unfold send_filled, udp_sendto. rewrite (proj2 (Z.eqb_neq _ _) R1), R6. cbn [andb]. cbv zeta.
  pose proof (route_keeps w addr) as (K1 & K2 & K3 & K4 & K5). destruct (ip4_route w addr) as [w1 nif1]. cbn [fst snd] in *. subst nif1. rewrite (proj2 (Z.eqb_neq _ _) R8).
  unfold udp_sendto_if. rewrite (proj2 (Z.eqb_neq _ _) R1). cbv zeta. assert (Ht : tf w1 = tf w) by (unfold tf; by rewrite K2).
  assert (Hu : udp_at w1 (tf_upcb (tf w)) = udp_at w (tf_upcb (tf w))) by (unfold udp_at; by rewrite K5). rewrite Hu, R2. change (ip4_addr_isany IPADDR_ANY) with true. cbn [orb].
  assert (Hnif : netif_of w1 nif = netif_of w nif) by (unfold netif_of; by rewrite K3).
  destruct (sendto_if_src_bytes netif_output custom_free fuel w1 (tf_upcb (tf w)) p [] addr port nif (netif_ip_addr (netif_of w1 nif))) as (w' & E & _ & _ & Hc).
  - done.
  - by rewrite Hu.
  - done.
  - unfold udp_ttl. by rewrite R6, Hu.
  - by rewrite K4.
  - by rewrite K1.
  - rewrite K1, Hnif. cbn [plen]. rewrite Z.add_0_r. done.
  - exists w'. split.
    + rewrite E. unfold handed. destruct (netif_output w' nif p addr) as [[w2 e]|]; done.
    + rewrite Hc, K1, K4, Hu, Hnif. unfold datagram, udp_ttl. rewrite R6. assert (El : Z.of_nat (length (content (w_ps w) [p])) = plen (w_ps w) [p]); [|by rewrite El].
      rewrite length_content; [|apply Hr]. pose proof (rm_sizes _ _ _ _ Hr) as [H0 _]. cbn [plen] in *. lia.
Qed.

(** ** Blocks *)

Context (hb : Z) (dp dq : memp_desc).

(** The pbuf [q] with the last block is held. *)
Record holds_block (st : pstate) (O : holding) (q : Z) : Prop := {
  hk_chain : pchain st q [q];
  hk_sizes : sizes st [q];
  hk_short : pb_len (pb st q) <= 516;
  hk_region : exists k m, (k, (q, m)) ∈ O /\ inside (payload_region st q) (q, m)
}.

Lemma resend_bytes w O nif :
  let x := tf w in let q := tf_last_data x in
  st_owns hb dp dq (w_ps w) O -> holds_block (w_ps w) O q -> reaches w (tf_addr x) (tf_port x) nif (pb_len (pb (w_ps w) q)) -> (519 < fuel)%nat ->
  (exists st', resend_data netif_output custom_free fuel w = Some (set_wps w st') /\ unchanged hb dp dq (w_ps w) st' O) \/
  (exists w' p, resend_data netif_output custom_free fuel w = handed w' nif p (tf_addr x) /\
    content (w_ps w') [p] = datagram w (tf_addr x) (tf_port x) nif (content (w_ps w) [q])).
Proof.
  intros x q Ho [H1 H2 H3 (k & m & H4 & H5)] Hr Hf. pose proof H2 as (L0 & L1 & L2 & _). cbn [plen] in L1. unfold resend_data. cbv zeta. fold x q.
  destruct (alloc_datagram hb dp dq custom_free fuel (w_ps w) O (pb_len (pb (w_ps w) q)) Ho) as (st' & p & E & [[-> Hu]|[Hp Hn]]); [lia|lia| |]; rewrite E; cbn [mbind option_bind].
  - left. exists st'. split; [done|done].
  - right. rewrite (proj2 (Z.eqb_neq _ _) Hp). destruct Hn as [N1 N2 N3 N4 N5 N6 N7 N8]. change (w_ps (set_wps w st')) with st'. pose proof (N3 _ _ _ H4) as Nq. pose proof (N5 _ _ _ H4) as Ns.
    assert (Hq0 : q <> NULL) by apply H1. assert (Hc : pchain st' q [q]) by (apply (pchain_ext (w_ps w)); [intros z ->%list_elem_of_singleton; by rewrite Nq|done]).
    assert (Hs : sizes st' [q]) by (apply (sizes_ext (w_ps w)); [intros z ->%list_elem_of_singleton; by rewrite Nq|done]).
    destruct H5 as [I1 I2]. unfold payload_region in I1, I2. cbn [fst snd] in I1, I2.
    destruct (copy_correct fuel st' p q [p] [q]) as (m' & Ec & Hm & Hct); [|apply N1|done|simpl; lia|].
    { constructor.
      - exists p, []. split_and!; [done|apply N1|lia|]. pose proof (rm_sizes _ _ _ _ N1) as [? _]. lia.
      - exists q, []. split_and!; [done|done|lia|]. rewrite Nq. lia.
      - split; [apply N1|done].
      - split; constructor.
      - split; [constructor|done].
      - constructor; [|constructor]. constructor; [|constructor]. unfold payload_region. rewrite Nq, N2. unfold separate in *. cbn [fst snd] in *. lia.
      - cbn [plen]. rewrite Nq, N2. lia. }
    rewrite Ec. cbn [mbind option_bind]. cbv zeta. cbn [negb]. change (negb (ERR_OK =? ERR_OK)) with false. cbv iota.
    set (w2 := set_wps (set_wps w st') (set_data st' m')).
    assert (Hroom : room (w_ps w2) p [] 28).
    { destruct N1 as [r1 r2 r3 r4 r5]. constructor; [apply (pchain_ext st'); [done|done]|apply (sizes_ext st'); [done|done]|exact r3|exact r4|exact r5]. }
    destruct (send_filled_bytes w2 p (tf_addr x) (tf_port x) nif) as (w' & E2 & Hb); [|exact Hroom|].
    + change (pb_len (pb (w_ps w2) p)) with (pb_len (pb st' p)). rewrite N2. destruct Hr as [a1 a2 a3 a4 a5 a6 a7 a8 a9]. constructor; auto. unfold w2. by rewrite !route_ps.
    + exists w', p. split; [exact E2|]. rewrite Hb. change (content (w_ps w2) [p]) with (content (set_data st' m') [p]). rewrite Hct.
      assert (Eq : content st' [q] = content (w_ps w) [q]) by (apply content_ext; intros z ->%list_elem_of_singleton; unfold payload_bytes; by rewrite Nq, N4).
      rewrite Eq, drop_ge, app_nil_r; [done|]. rewrite length_content by apply N1. rewrite length_content by done. cbn [plen]. rewrite N2. lia.
Qed.

(** [pbuf_realloc] on a single RAM pbuf: what is left of it is held, and covers its bytes. *)
Lemma realloc_single q r O n st :
  pchain st q [q] -> sizes st [q] -> held_as st q r -> cut_room st q r -> pb_type (pb st q) = PBUF_RAM -> st_owns hb dp dq st (r :: O) ->
  0 <= n <= pb_len (pb st q) -> (1 < fuel)%nat ->
  exists st' m, pbuf_realloc custom_free fuel st q n = Some st' /\ st_owns hb dp dq st' ((KHeap, (q, m)) :: O) /\ data st' = data st /\
    pb st' q = with_next (with_tot_len (with_len (pb st q) n) n) NULL /\ inside (pb_payload (pb st q), n) (q, m).
Proof.
  intros Hc Hs Hh Hcut Ht Ho Hn Hf. destruct Hs as (L0 & L1 & L2 & _). cbn [plen] in L1. destruct Hc as (_ & Hq & Hnext). cbn [pchain] in Hnext.
  destruct Hh as (K1 & K2 & K3). destruct r as [k [a m]]. cbn [fst snd] in K1, K2. rewrite Ht in K1. cbn [kind_of] in K1. subst k a.
  destruct (Hcut Ht) as (C1 & C2 & C3). cbn [fst snd] in C2, C3. unfold pbuf_realloc. destruct (Z.leb_spec (pb_tot_len (pb st q)) n) as [E|E].
  - exists st, m. split_and!; [done|done|done| |split; simpl; lia]. assert (n = pb_len (pb st q)) as -> by lia. destruct (pb st q). simpl in *. unfold with_next, with_tot_len, with_len. simpl. f_equal; [done|lia].
  - destruct fuel as [|f]; [lia|]. cbn [loop]. rewrite (proj2 (Z.ltb_ge (pb_len (pb st q)) n)) by lia. rewrite bool_decide_eq_true_2 by done.
    rewrite (proj2 (Z.eqb_neq n (pb_len (pb st q)))) by lia. rewrite K3, Z.eqb_refl. cbn [negb andb]. rewrite (u16_small (pb_payload (pb st q) - q)), u16_small by lia.
    destruct (heap_shrink hb dp dq st O q m (pb_payload (pb st q) - q + n) Ho) as (h & -> & Ho'); [lia|lia|]. rewrite !upd_upd. set (st1 := set_pb (set_heap st h) q _).
    assert (E1 : pb st1 q = with_tot_len (with_len (pb st q) n) n) by (unfold st1; by rewrite pb_set_pb, Z.eqb_refl).
    rewrite E1. cbn [with_tot_len with_len pb_next]. rewrite Hnext. change (NULL =? NULL) with true. cbn [negb]. eexists _, _. split; [reflexivity|]. split_and!.
    + apply (st_owns_ext hb dp dq (set_heap st h)); [done|done| |exact Ho']. intros y Hy. pose proof (so_flags _ _ _ _ _ Ho' y Hy) as Hfl. rewrite pb_upd_pb, E1. unfold st1. rewrite pb_set_pb.
      by destruct (Z.eqb_spec y q) as [->|].
    + done.
    + by rewrite pb_upd_eq, E1.
    + split; simpl; lia.
Qed.

(** The block of the transfer before the next one is read: none, or one that is held. *)
Definition old_block (st : pstate) (q : Z) (O' O : holding) : Prop :=
  (q = NULL /\ O' = O) \/ (exists r, pchain st q [q] /\ pb_ref (pb st q) = 1 /\ held_as st q r /\ O' = r :: O).
Definition block_bytes (blknum : Z) (bs : list Z) : list Z := be16 TFTP_DATA ++ be16 blknum ++ bs.

(** The read function of the application: it fills the buffer and knows where it is. *)
Record file_reader (ctx_read : Z -> world X -> Z -> Z -> Z -> world X * Z) (next : X -> list Z) : Prop := {
  fr_len : forall x, (length (next x) <= 512)%nat;
  fr_tftp : forall x v, next (tftp_put x v) = next x;
  fr_read : forall c w h buf, exists x', tftp_get x' = tf w /\
    ctx_read c w h buf TFTP_MAX_PAYLOAD_SIZE = (set_ext (set_wmem w (write_bytes (wmem w) buf (next (w_ext w)))) x', Z.of_nat (length (next (w_ext w))))
}.

(** The memory with a block: its header and its data. *)
Lemma block_written m a blknum bs :
  0 <= blknum < 65536 ->
  bytes_at (write_bytes (st16 (st16 m a (PP_HTONS TFTP_DATA)) (a + 2) (lwip_htons blknum)) (a + 4) bs) a (4 + length bs) = block_bytes blknum bs.
Proof.
  intros Hb. set (m1 := st16 (st16 m a _) _ _). assert (E1 : bytes_at m1 a 4 = be16 TFTP_DATA ++ be16 blknum).
  { unfold m1, be16, TFTP_DATA, PP_HTONS. at_mem. by rewrite htons_mod, htons_div by done. }
  rewrite bytes_at_app. change (Z.of_nat 4) with 4. rewrite bytes_at_write_eq, bytes_at_write_out, E1 by lia. unfold block_bytes. by rewrite <- app_assoc.
Qed.

(** What the way of a datagram depends on. *)
Definition same_net w w' : Prop :=
  w_netifs w' = w_netifs w /\ ip_id w' = ip_id w /\ ip4_default_multicast_netif w' = ip4_default_multicast_netif w /\ udp_pcb_at w' = udp_pcb_at w.
Lemma route_same w w' addr : same_net w w' -> (ip4_route w' addr).2 = (ip4_route w addr).2.
Proof.
  intros (E1 & _ & E2 & _). unfold ip4_route, netif_of. rewrite E1, E2. destruct (_ && _); [done|]. cbv zeta. destruct (route_search _ _ _); [done|]. by destruct (_ || _).
Qed.
Lemma reaches_same w w' addr port nif n : same_net w w' -> tf_upcb (tf w') = tf_upcb (tf w) -> reaches w addr port nif n -> reaches w' addr port nif n.
Proof.
  intros Hs Ht [a1 a2 a3 a4 a5 a6 a7 a8 a9]. pose proof (route_same _ _ addr Hs) as Hr. destruct Hs as (E1 & E2 & E3 & E4).
  constructor; unfold udp_at, netif_of in *; rewrite ?Ht, ?E4, ?E2, ?E1, ?Hr; auto.
Qed.

Section Block.
Context (ctx_read : Z -> world X -> Z -> Z -> Z -> world X * Z) (next : X -> list Z) (ctx_close : Z -> world X -> Z -> world X) (tmr_fn : Z).
Context (Hread : file_reader ctx_read next).

Lemma free_old w O' O :
  st_owns hb dp dq (w_ps w) O' -> old_block (w_ps w) (tf_last_data (tf w)) O' O -> (2 < fuel)%nat ->
  exists st, (if negb (tf_last_data (tf w) =? NULL) then wfree custom_free fuel w (tf_last_data (tf w)) else Some w) = Some (set_wps w st) /\ st_owns hb dp dq st O.
Proof.
  intros Ho [[-> ->]|(r & Hc & Hr & Hh & ->)] Hf; [exists (w_ps w); split; [by destruct w|done]|]. assert (Hq : tf_last_data (tf w) <> NULL) by apply Hc.
  rewrite (proj2 (Z.eqb_neq _ _) Hq). cbn [negb]. unfold wfree.
  destruct (free_correct hb dp dq custom_free fuel (w_ps w) (tf_last_data (tf w)) [tf_last_data (tf w)] [] [r] O) as (st & -> & Ho1 & _); [done|simpl; lia|by constructor|by constructor; [|constructor]|done|done|].
  by exists st.
Qed.

Lemma send_data_block w O' O :
  let x := tf w in let bs := next (w_ext w) in
  st_owns hb dp dq (w_ps w) O' -> old_block (w_ps w) (tf_last_data x) O' O -> 0 <= tf_blknum x < 65536 -> (519 < fuel)%nat ->
  (exists st', send_data netif_output custom_free fuel ctx_close ctx_read tmr_fn w = Some (upd_tf (set_wps w st') (tf_set_last_data NULL)) /\ st_owns hb dp dq st' O) \/
  (exists w2 q m, send_data netif_output custom_free fuel ctx_close ctx_read tmr_fn w = resend_data netif_output custom_free fuel w2 /\
    tf w2 = tf_set_last_data q x /\ same_net w w2 /\ content (w_ps w2) [q] = block_bytes (tf_blknum x) bs /\
    st_owns hb dp dq (w_ps w2) ((KHeap, (q, m)) :: O) /\ holds_block (w_ps w2) ((KHeap, (q, m)) :: O) q).
Proof.
  intros x bs Ho Hold Hb Hf. unfold send_data. destruct (free_old w O' O Ho Hold ltac:(lia)) as (st1 & -> & Ho1). cbn [mbind option_bind]. change (w_ps (set_wps w st1)) with st1.
  change (TFTP_HEADER_LENGTH + TFTP_MAX_PAYLOAD_SIZE) with 516.
  destruct (alloc_datagram hb dp dq custom_free fuel st1 O 516 Ho1) as (st2 & q & -> & [[-> Hu]|[Hq [N1 N2 N3 N4 N5 (r & N6 & N7 & N8) N9 N10]]]); [lia|lia| |]; cbn [mbind option_bind]; cbv zeta.
  { left. exists st2. split; [done|apply Hu]. }
  right. rewrite (proj2 (Z.eqb_neq _ _) Hq). set (w1 := upd_tf (set_wps (set_wps w st1) st2) (tf_set_last_data q)). assert (T1 : tf w1 = tf_set_last_data q x) by (unfold w1, upd_tf, tf; simpl; by rewrite tftp_get_put).
  set (w3 := set_wmem w1 _). change (tf w3) with (tf w1). rewrite T1. destruct (fr_read _ _ Hread (tf_ctx (tf_set_last_data q x)) w3 (tf_handle (tf_set_last_data q x)) (payload w1 q + 4)) as (x' & Hx & ->).
  assert (En : next (w_ext w3) = bs) by (unfold w3, w1; simpl; by rewrite (fr_tftp _ _ Hread)). rewrite En. pose proof (fr_len _ _ Hread (w_ext w)) as Hbs. fold bs in Hbs.
  rewrite (proj2 (Z.ltb_ge _ 0)) by lia. set (w4 := set_ext _ x'). assert (T4 : tf w4 = tf_set_last_data q x) by (unfold w4, tf; simpl; rewrite Hx; exact T1). rewrite T4.
  cbn [tf_set_last_data tf_last_data]. unfold TFTP_HEADER_LENGTH. rewrite u16_small by lia. assert (Hpb : forall y, pb (w_ps w4) y = pb st2 y) by done.
  destruct (realloc_single q r O (4 + Z.of_nat (length bs)) (w_ps w4)) as (st5 & m & -> & O5 & D5 & P5 & I5); try done; [apply (pchain_ext st2); [done|apply N1]|apply (sizes_ext st2); [done|apply N1]| | |lia|].
  - apply (st_owns_ext hb dp dq st2); [done|done|apply (so_flags _ _ _ _ _ N7)|done].
  - rewrite Hpb, N2. lia.
  - cbn [mbind option_bind]. exists (set_wps w4 st5), q, m. rewrite Hpb in P5. split; [done|]. split; [exact T4|]. split; [done|]. cbn [set_wps w_ps].
    assert (El : pb_len (pb st5 q) = 4 + Z.of_nat (length bs)) by (by rewrite P5). split; [|split; [exact O5|]].
    + unfold content, payload_bytes. rewrite app_nil_r, El, D5, P5. cbn [with_next with_tot_len with_len pb_payload]. replace (Z.to_nat (4 + Z.of_nat (length bs))) with (4 + length bs)%nat by lia.
      change (data (w_ps w4)) with (write_bytes (st16 (st16 (wmem w1) (payload w1 q) (PP_HTONS TFTP_DATA)) (payload w1 q + 2) (lwip_htons (tf_blknum (tf w1)))) (payload w1 q + 4) bs).
      rewrite T1. by apply block_written.
    + constructor; [cbn [pchain]; rewrite P5; done| |lia|exists KHeap, m; split; [by left|]; unfold payload_region; rewrite P5; exact I5].
      cbn [sizes plen]. rewrite P5. cbn [with_next with_tot_len with_len pb_len pb_tot_len]. lia.
Qed.
End Block.
End Send.

(** The next block of a read transfer.  For any state of the heap and the pools, with or
    without an earlier block: if there is memory for it, [send_data] leaves a pbuf in
    [last_data] that is held, of four bytes of header, the number of the block and what the
    file function read, and hands the interface a datagram to the client with exactly these
    bytes, unless the copy gets no memory; without memory for the block nothing is sent and
    the earlier one is given back. *)
Theorem block_sent {X} `{!timer_store X, !tftp_store X} netif_output custom_free fuel hb dp dq ctx_read next ctx_close tmr_fn (w : world X) O' O nif :
  let x := tf w in let block := block_bytes (tf_blknum x) (next (w_ext w)) in
  file_reader ctx_read next -> st_owns hb dp dq (w_ps w) O' -> old_block (w_ps w) (tf_last_data x) O' O -> 0 <= tf_blknum x < 65536 -> (519 < fuel)%nat ->
  reaches w (tf_addr x) (tf_port x) nif 516 ->
  let out := send_data netif_output custom_free fuel ctx_close ctx_read tmr_fn w in
  (exists st', out = Some (upd_tf (set_wps w st') (tf_set_last_data NULL)) /\ st_owns hb dp dq st' O) \/
  (exists w2 q m, tf w2 = tf_set_last_data q x /\ st_owns hb dp dq (w_ps w2) ((KHeap, (q, m)) :: O) /\ content (w_ps w2) [q] = block /\
    ((exists st', out = Some (set_wps w2 st') /\ unchanged hb dp dq (w_ps w2) st' ((KHeap, (q, m)) :: O)) \/
     (exists w' p, out = handed netif_output custom_free fuel w' nif p (tf_addr x) /\ content (w_ps w') [p] = datagram w (tf_addr x) (tf_port x) nif block))).
Proof.
  intros x block Hread Ho Hold Hb Hf Hr out. destruct (send_data_block netif_output custom_free fuel hb dp dq ctx_read next ctx_close tmr_fn Hread w O' O Ho Hold Hb Hf) as [H|(w2 & q & m & E & Ht & Hs & Hc & Ho2 & Hk)]; [by left|].
  right. exists w2, q, m. fold x in Ht. fold x block in Hc. split_and!; [done|done|done|]. assert (Eo : out = resend_data netif_output custom_free fuel w2) by exact E. clearbody out. subst out.
  pose proof (resend_bytes netif_output custom_free fuel hb dp dq w2 ((KHeap, (q, m)) :: O) nif) as H. cbv zeta in H. rewrite Ht in H. cbn [tf_set_last_data tf_last_data tf_addr tf_port] in H.
  destruct H as [H|(w' & p & H1 & H2)]; [done|done| |done|by left|].
  - apply (reaches_same w); [done|by rewrite Ht|]. destruct Hr as [a1 a2 a3 a4 a5 a6 a7 a8 a9]. constructor; auto. pose proof (hk_short _ _ _ Hk). lia.
  - right. exists w', p. split; [done|]. rewrite H2, Hc. unfold datagram. destruct Hs as (E1 & E2 & E3 & E4). unfold udp_at, netif_of. rewrite Ht, E1, E2, E4. done.
Qed.
