(* ===== verification/TftpExample.v ===== *)
(** * The TFTP server on a board

    A file of 600 bytes is read and a file is written; the theorems applied to this board,
    and what the server does with a mode it documents, with a block that comes twice and with
    requests that it refuses. *)

From Stdlib Require Import ZArith Lia String.
From stdpp Require Import base tactics numbers list option gmap.
From S2P Require Import Prelude.
From S2P Require Import Def.
From S2P Require Import Ip4Addr.
From S2P Require Import Alloc.
From S2P Require Import Mem.
From S2P Require Import Memp.
From S2P Require Import Pbuf.
From S2P Require Import PbufChain.
From S2P Require Import PbufAlloc.
From S2P Require Import Timeouts.
From S2P Require Import Etharp.
From S2P Require Import World.
From S2P Require Import AppTimers.
From S2P Require Import Ip4Frag.
From S2P Require Import Ip4.
From S2P Require Import Icmp.
From S2P Require Import Ip4Reass.
From S2P Require Import Udp.
From S2P Require Import Dns.
From S2P Require Import DnsTable.
From S2P Require Import Tftp.
From S2P Require Import TftpProps.
From S2P Require Import TftpSend.

(** The server's state, the timers, the calls of the file functions and the packets that
    were sent. *)
Definition tx : Type := tftp_state * (tstate unit * (list fcall * list (list Z))).
#[export] Instance tx_timers : timer_store tx.
Proof. refine {| timers_get x := x.2.1; timers_put x t := (x.1, (t, x.2.2)) |}; done. Defined.
#[export] Instance tx_store : tftp_store tx.
Proof. refine {| tftp_get x := x.1; tftp_put x v := (v, x.2) |}; done. Defined.
Abbreviation TW := (world tx).
Definition tx_calls (x : tx) : list fcall := x.2.2.1.
Definition tx_log (c : fcall) (w : TW) : TW := let x := w_ext w in set_ext w (x.1, (x.2.1, (x.2.2.1 ++ [c], x.2.2.2))).
(** The interface keeps the bytes it is given. *)
Definition tx_output (w : TW) (nif p dest : Z) : option (TW * Z) :=
  let x := w_ext w in Some (set_ext w (x.1, (x.2.1, (x.2.2.1, x.2.2.2 ++ [content (w_ps w) [p]]))), ERR_OK).

(** The file: 600 bytes, read in blocks of 512; what is read next follows from the calls. *)
Definition file : list Z := map (fun i => Z.of_nat i mod 256) (seq 0 600).
Definition reads (l : list fcall) : nat := length (filter (fun c => match c with F_read _ => true | _ => false end = true) l).
Definition next_bytes (x : tx) : list Z := take 512 (drop (512 * reads (tx_calls x)) file).
Definition tx_open (c : Z) (w : TW) (f m wr : Z) : TW * Z := (tx_log (F_open 77 (negb (wr =? 0))) w, 77).
Definition tx_close (c : Z) (w : TW) (h : Z) : TW := tx_log (F_close h) w.
Definition tx_read (c : Z) (w : TW) (h buf n : Z) : TW * Z :=
  let bs := next_bytes (w_ext w) in (tx_log (F_read h) (set_wmem w (write_bytes (wmem w) buf bs)), Z.of_nat (length bs)).
Definition tx_write (c : Z) (w : TW) (h p : Z) : TW * Z := (tx_log (F_write h) w, 0).

Lemma tx_env : tftp_env tx_output tx_open tx_close tx_read tx_write tx_calls.
Proof. constructor; try done. intros v w nif p dest w' r. unfold tx_output. by intros [= <- _] H. Qed.
Lemma tx_reader : file_reader tx_read next_bytes.
Proof. constructor; [|done|intros c w h buf; eexists; split; [|reflexivity]; done]. intros x. unfold next_bytes. rewrite length_take. lia. Qed.

(** The board after [lwip_init]. *)
Definition timeo_desc : memp_desc := mk_desc 16 8 538010000.
Definition tftp_st0 : pstate :=
  Pbuf.set_pools st0 (<[0%nat := memp_init_pool net_desc zero_pool]> (<[7%nat := memp_init_pool timeo_desc zero_pool]> (ps_pools st0))).
Definition tftp_world0 : TW :=
  mk_world (tftp0, (mk_ts [] 0 false false 1000 [] tt, ([], []))) tftp_st0 (w_netifs world0) 7 NULL (mk_ipg 4000 4000 0 0 0 0) [] 0 [] ∅ 0xc000 (fun _ _ => 0).
#[local] Abbreviation no_free := (fun (s : pstate) (_ : Z) => s).
Definition tx_init : option (TW * Z) := tftp_init 5 tftp_world0 9.
Definition listening : TW := default tftp_world0 (fst <$> tx_init).

(** A datagram of the client 192.168.0.9, port 2000, in a pbuf at 1000 that the driver
    holds too. *)
Definition with_packet (w : TW) (bs : list Z) : TW :=
  let n := Z.of_nat (length bs) in set_wps w (set_pb (set_data (w_ps w) (write_bytes (wmem w) 1100 bs)) 1000 (mk_pbuf 0 1100 n n PBUF_RAM 0 2)).
Definition arrives (bs : list Z) (w : TW) : option TW :=
  recv tx_output no_free 700 tx_open tx_close tx_read tx_write 6 3000 4000 5000 (with_packet w bs) 0 (tf_upcb (tf w)) 1000 0x0900a8c0 2000.
Definition request (opcode : Z) (name mode : string) : list Z := be16 opcode ++ chars name ++ [0] ++ chars mode ++ [0].
Definition ack (n : Z) : list Z := be16 TFTP_ACK ++ be16 n.
Definition sent (w : TW) : list (list Z) := drop 28 <$> (w_ext w).2.2.2.
Definition seen (w : TW) : list fcall := tx_calls (w_ext w).

(** The file in two blocks: each is sent when the one before is acknowledged, and the file is
    closed with the last acknowledgement. *)
Lemma read_transfer :
  (fun w => (sent w, seen w)) <$> (w ← arrives (request TFTP_RRQ "f" "octet") listening; w ← arrives (ack 1) w; arrives (ack 2) w) =
  Some ([block_bytes 1 (take 512 file); block_bytes 2 (drop 512 file)], [F_open 77 false; F_read 77; F_read 77; F_close 77]).
Proof. vm_compute. reflexivity. Qed.
(** The mode of seven characters and less: [netascii], which the documentation of [open]
    names, is refused. *)
Lemma netascii_refused :
  (fun w => (sent w, seen w)) <$> arrives (request TFTP_RRQ "f" "netascii") listening =
  Some ([be16 TFTP_ERROR ++ be16 TFTP_ERROR_ACCESS_VIOLATION ++ chars "Mode too long/not NULL terminated" ++ [0]], []).
Proof. vm_compute. reflexivity. Qed.
(** A block of a write transfer that comes twice, its acknowledgement being lost, is written
    twice: the block number of the data is not compared. *)
Definition full_block (n : Z) : list Z := block_bytes n (replicate 512 65).
Lemma block_written_twice :
  (fun w => (sent w, seen w)) <$> (w ← arrives (request TFTP_WRQ "f" "octet") listening; w ← arrives (full_block 1) w; arrives (full_block 1) w) =
  Some ([ack 0; ack 1; ack 1], [F_open 77 true; F_write 77; F_write 77]).
Proof. vm_compute. reflexivity. Qed.
(** A request that is refused leaves a timer behind: after two of them a transfer has three,
    and its ten seconds pass in three and a third. *)
Lemma refused_leave_timers :
  (fun w => length (next_timeout (w_ext w).2.1)) <$>
    (w ← arrives (request TFTP_RRQ "f" "netascii") listening; w ← arrives (request TFTP_RRQ "f" "netascii") w; arrives (request TFTP_RRQ "f" "octet") w) = Some 3%nat.
Proof. vm_compute. reflexivity. Qed.

Lemma listening_ok : tftp_init 5 tftp_world0 9 = Some (listening, ERR_OK).
Proof.
  assert (H : snd <$> tx_init = Some ERR_OK) by (vm_compute; reflexivity). change (tx_init = Some (listening, ERR_OK)). unfold listening.
  destruct tx_init as [[w r]|]; [|done]. simpl in *. congruence.
Qed.
#[local] Abbreviation step := (tftp_step tx_output no_free 700 tx_open tx_close tx_read tx_write 6 3000 4000 5000 tx_calls).
Lemma arrives_steps bs w w' : arrives bs w = Some w' -> rtc step w w'.
Proof.
  intros E. eapply rtc_l; [|apply rtc_once; exact (tftp_recv_step _ _ _ _ _ _ _ _ _ _ _ _ _ _ _ _ _ _ _ E)]. by apply tftp_other_step.
Qed.
Lemma tftp_safe_witness : exists w, arrives (request TFTP_RRQ "f" "octet") listening = Some w /\ tftp_inv tx_calls w.
Proof.
  destruct (returned (arrives (request TFTP_RRQ "f" "octet") listening)) as [w E]; [vm_compute; reflexivity|]. exists w. split; [exact E|].
  apply (tftp_safe tx_output no_free 700 tx_open tx_close tx_read tx_write 5 6 3000 4000 5000 tx_calls tftp_world0 listening w 9 tx_env eq_refl eq_refl listening_ok).
  exact (arrives_steps _ _ _ E).
Defined.

(** The client of a transfer falls silent. *)
Definition reading : TW := upd_tf listening (fun x => mk_tftp 9 77 NULL (tf_upcb x) 0x0900a8c0 2000 0 0 1 0 0).
Definition writing : TW := upd_tf reading (tf_set_mode_write 1).
#[local] Abbreviation wait n w := (tftp_ticks tx_output no_free 700 tx_close 6 n w).
Definition requested : TW := default listening (arrives (request TFTP_RRQ "f" "octet") listening).
Lemma transfer_ends_witness :
  (exists w, wait 201%nat writing = Some w /\ tf_handle (tf w) = NULL /\ calls tx_calls w = [F_close 77]) /\
  exists w1, wait 200%nat requested = Some w1 /\
    wait 201%nat requested = (w3 ← resend_data tx_output no_free 700 (start_tmr 6 (upd_tf w1 (tf_set_timer (tf_timer (tf requested) + Z.of_nat 200 + 1))));
                              Some (upd_tf w3 (fun x => tf_set_retries (u8 (tf_retries x + 1)) x))).
Proof.
  split.
  - destruct (transfer_ends tx_output no_free 700 tx_open tx_close tx_read tx_write 6 tx_calls writing tx_env) as (_ & H2 & _ & H3); [done|done|done|by split|].
    destruct (H3 eq_refl 201%nat) as [w E]. exists w. split; [exact E|]. destruct (H2 w E) as (H & _ & _ & ->). split; [exact H|]. reflexivity.
  - destruct (returned (wait 200%nat requested)) as [w1 E]; [vm_compute; reflexivity|]. exists w1. split; [exact E|].
    assert (E1 : tf_handle (tf requested) = 77) by (vm_compute; reflexivity). assert (E2 : tf_timer (tf requested) = 0) by (vm_compute; reflexivity).
    destruct (transfer_ends tx_output no_free 700 tx_open tx_close tx_read tx_write 6 tx_calls requested tx_env) as (_ & _ & H & _).
    + rewrite E1. discriminate.
    + vm_compute. reflexivity.
    + vm_compute. reflexivity.
    + rewrite E2. lia.
    + refine (H _ 200%nat w1 _ E); [vm_compute; discriminate|lia].
Defined.
(** With a block that is sent again five times, 50 milliseconds apart. *)
Lemma silent_reader :
  (w ← arrives (request TFTP_RRQ "f" "octet") listening; (fun w => (tf_handle (tf w), length (sent w))) <$> wait 200%nat w) = Some (77, 1%nat) /\
  (w ← arrives (request TFTP_RRQ "f" "octet") listening; (fun w => (tf_handle (tf w), length (sent w))) <$> wait 205%nat w) = Some (77, 6%nat) /\
  (w ← arrives (request TFTP_RRQ "f" "octet") listening; (fun w => (tf_handle (tf w), length (sent w))) <$> wait 206%nat w) = Some (0, 6%nat).
Proof. vm_compute. done. Qed.

Lemma reading_owns : st_owns (ram heap0) dp0 dq0 (w_ps reading) [].
Proof.
  destruct st0_owns as [S1 [p [S2 S2']] [q [S3 S3']] S4 S5 S6 S7]. constructor.
  - exact S1.
  - exists p. split; [|exact S2']. rewrite <- S2. vm_compute. reflexivity.
  - exists q. split; [|exact S3']. rewrite <- S3. vm_compute. reflexivity.
  - exact S4.
  - exact S5.
  - exact S6.
  - exact S7.
Qed.
Lemma block_sent_witness :
  exists w2 q, tf w2 = tf_set_last_data q (tf reading) /\ content (w_ps w2) [q] = block_bytes 1 (take 512 file).
Proof.
  destruct (block_sent tx_output no_free 700 (ram heap0) dp0 dq0 tx_read next_bytes tx_close 6 reading [] [] 4000) as [(st & E & _)|(w2 & q & m & H1 & _ & H2 & _)].
  - apply tx_reader.
  - apply reading_owns.
  - by left.
  - vm_compute. split; congruence.
  - lia.
  - constructor; try (vm_compute; split; congruence); try (vm_compute; congruence); try (vm_compute; reflexivity). right. vm_compute. congruence.
  - assert (H : (fun w => tf_last_data (tf w) =? NULL) <$> send_data tx_output no_free 700 tx_close tx_read 6 reading = Some false) by (vm_compute; reflexivity).
    rewrite E in H. vm_compute in H. discriminate H.
  - exists w2, q. split; [exact H1|]. rewrite H2. reflexivity.
Defined.
