(* ===== verification/Sntp.v ===== *)
(** * [apps/sntp/sntp.c]: the SNTP client

    One server ([SNTP_MAX_SERVERS] is 1), by address or by name, with the checks of
    [SNTP_CHECK_RESPONSE] 2; [sntp_try_next_server] is then [sntp_retry].  The clock of the
    program ([settimeofday], [gettimeofday]) is a parameter. *)

From Stdlib Require Import ZArith Lia.
From stdpp Require Import base tactics numbers list option gmap.
From S2P Require Import Prelude.
From S2P Require Import Def.
From S2P Require Import Ip4Addr.
From S2P Require Import Alloc.
From S2P Require Import Mem.
From S2P Require Import Memp.
From S2P Require Import Pbuf.
From S2P Require Import PbufChain.
From S2P Require Import PbufAlloc.
From S2P Require Import Timeouts.
From S2P Require Import Etharp.
From S2P Require Import World.
From S2P Require Import AppTimers.
From S2P Require Import Ip4Frag.
From S2P Require Import Ip4.
From S2P Require Import Icmp.
From S2P Require Import Ip4Reass.
From S2P Require Import Udp.
From S2P Require Import Dns.

Definition SNTP_MAX_SERVERS : Z := 1.
Definition SNTP_PORT : Z := 123.
Definition SNTP_RECV_TIMEOUT : Z := 3000.
Definition SNTP_UPDATE_DELAY : Z := 600000.
Definition SNTP_RETRY_TIMEOUT : Z := SNTP_RECV_TIMEOUT.
Definition SNTP_RETRY_TIMEOUT_MAX : Z := SNTP_RETRY_TIMEOUT * 10.
Definition SNTP_OPMODE_POLL : Z := 0.
Definition SNTP_OPMODE_LISTENONLY : Z := 1.
Definition SNTP_ERR_KOD : Z := 1.
Definition SNTP_MSG_LEN : Z := 48.
Definition SNTP_OFFSET_LI_VN_MODE : Z := 0.
Definition SNTP_LI_NO_WARNING : Z := 0.
Definition SNTP_VERSION : Z := Z.shiftl 4 3.
Definition SNTP_MODE_MASK : Z := 7.
Definition SNTP_MODE_CLIENT : Z := 3.
Definition SNTP_MODE_SERVER : Z := 4.
Definition SNTP_MODE_BROADCAST : Z := 5.
Definition SNTP_OFFSET_STRATUM : Z := 1.
Definition SNTP_STRATUM_KOD : Z := 0.
Definition SNTP_OFFSET_ORIGINATE_TIME : Z := 24.
Definition SNTP_OFFSET_TRANSMIT_TIME : Z := 40.
Definition DIFF_SEC_1900_1970 : Z := 2208988800.
Definition DIFF_SEC_1970_2036 : Z := 2085978496.

(** The static variables; [sntp_servers] has one element. *)
Record sntp_vars := mk_sntp {
  sn_opmode : Z; sn_pcb : Z; sn_name : Z; sn_addr : Z; sn_retry_timeout : Z; sn_last_server_address : Z; sn_last_timestamp_sent : Z * Z }.
Definition sn_set_opmode v x := mk_sntp v (sn_pcb x) (sn_name x) (sn_addr x) (sn_retry_timeout x) (sn_last_server_address x) (sn_last_timestamp_sent x).
Definition sn_set_pcb v x := mk_sntp (sn_opmode x) v (sn_name x) (sn_addr x) (sn_retry_timeout x) (sn_last_server_address x) (sn_last_timestamp_sent x).
Definition sn_set_name v x := mk_sntp (sn_opmode x) (sn_pcb x) v (sn_addr x) (sn_retry_timeout x) (sn_last_server_address x) (sn_last_timestamp_sent x).
Definition sn_set_addr v x := mk_sntp (sn_opmode x) (sn_pcb x) (sn_name x) v (sn_retry_timeout x) (sn_last_server_address x) (sn_last_timestamp_sent x).
Definition sn_set_retry v x := mk_sntp (sn_opmode x) (sn_pcb x) (sn_name x) (sn_addr x) v (sn_last_server_address x) (sn_last_timestamp_sent x).
Definition sn_set_last v x := mk_sntp (sn_opmode x) (sn_pcb x) (sn_name x) (sn_addr x) (sn_retry_timeout x) v (sn_last_timestamp_sent x).
Definition sn_set_sent v x := mk_sntp (sn_opmode x) (sn_pcb x) (sn_name x) (sn_addr x) (sn_retry_timeout x) (sn_last_server_address x) v.

(** They are a part of the external state of UDP. *)
Class sntp_store (X : Type) `{!timer_store X} := {
  sntp_get : X -> sntp_vars;
  sntp_put : X -> sntp_vars -> X;
  sntp_get_put : forall x v, sntp_get (sntp_put x v) = v;
  sntp_get_timers : forall x t, sntp_get (timers_put x t) = sntp_get x;
  timers_get_sntp : forall x v, timers_get (sntp_put x v) = timers_get x
}.

Section Sntp.
Context {X : Type} `{!timer_store X, !sntp_store X, !dns_store X}.
Context (netif_output : world X -> Z -> Z -> Z -> option (world X * Z)).
Context (custom_free : pstate -> Z -> pstate) (fuel : nat).
(** What DNS needs. *)
Context (rand : world X -> world X * Z) (found_fn : Z -> world X -> Z -> option Z -> Z -> option (world X)) (dns_recv_fn dns_table_at dns_locals : Z).
(** The clock: seconds since 1970 and microseconds. *)
Context (settimeofday : world X -> Z -> Z -> world X) (gettimeofday : world X -> Z * Z).
(** The addresses of [sntp_recv], [sntp_request], [sntp_retry] and [sntp_dns_found], and of
    a function's local variables. *)
Context (recv_fn request_fn retry_fn found locals : Z).
Implicit Types w : world X.

Definition sn w : sntp_vars := sntp_get (w_ext w).
Definition upd_sn w (f : sntp_vars -> sntp_vars) : world X := set_ext w (sntp_put (w_ext w) (f (sn w))).
Definition SNTP_RESET_RETRY_TIMEOUT w : world X := upd_sn w (sn_set_retry SNTP_RETRY_TIMEOUT).

(** [sntp_process(receive_timestamp)] *)
Definition sntp_time (rx_secs : Z) : Z :=
  let is_1900_based := negb (Z.land rx_secs 0x80000000 =? 0) in
  if is_1900_based then u32 (rx_secs - DIFF_SEC_1900_1970) else u32 (rx_secs + DIFF_SEC_1970_2036).
Definition sntp_process w (receive_timestamp : Z * Z) : world X :=
  let t := sntp_time (lwip_htonl (fst receive_timestamp)) in
  let us := lwip_htonl (snd receive_timestamp) / 4295 in
  settimeofday w t us.

(** [sntp_initialize_request(req)] *)
Definition sntp_initialize_request w (req : Z) : world X :=
  let m := write_bytes (wmem w) req (replicate (Z.to_nat SNTP_MSG_LEN) 0) in
  let m := upd m req (Z.lor (Z.lor SNTP_LI_NO_WARNING SNTP_VERSION) SNTP_MODE_CLIENT) in
  let '(sntp_time_sec, sntp_time_us) := gettimeofday (set_wmem w m) in
  let sent0 := lwip_htonl (u32 (sntp_time_sec + DIFF_SEC_1900_1970)) in
  let sent1 := lwip_htonl (u32 sntp_time_us) in
  let m := st32 m (req + SNTP_OFFSET_TRANSMIT_TIME) sent0 in
  let m := st32 m (req + SNTP_OFFSET_TRANSMIT_TIME + 4) sent1 in
  upd_sn (set_wmem w m) (sn_set_sent (sent0, sent1)).

(** [sntp_retry(arg)] *)
Definition sntp_retry w : world X :=
  let w := start_timer w (sn_retry_timeout (sn w)) request_fn in
  let new_retry_timeout := u32 (Z.shiftl (sn_retry_timeout (sn w)) 1) in
  if (new_retry_timeout <=? SNTP_RETRY_TIMEOUT_MAX) && (sn_retry_timeout (sn w) <? new_retry_timeout)
  then upd_sn w (sn_set_retry new_retry_timeout) else w.

(** [sntp_recv(arg, pcb, p, addr, port)]: [err], with the timestamp copied for [ERR_OK]. *)
Definition sntp_check w (p addr port : Z) : option (world X * Z) :=
  let mode := locals in let stratum := locals + 1 in let originate_timestamp := locals + 4 in let receive_timestamp := locals + 12 in
  let poll := sn_opmode (sn w) =? SNTP_OPMODE_POLL in
  if (negb poll || (addr =? sn_last_server_address (sn w))) && (port =? SNTP_PORT) then
    if pb_tot_len (pb (w_ps w) p) =? SNTP_MSG_LEN then
      '(st, _) ← pbuf_copy_partial fuel (w_ps w) p mode 1 SNTP_OFFSET_LI_VN_MODE;
      let w := set_wps w st in
      let w := set_wmem w (upd (wmem w) mode (Z.land (wmem w mode) SNTP_MODE_MASK)) in
      if (poll && (wmem w mode =? SNTP_MODE_SERVER)) || ((sn_opmode (sn w) =? SNTP_OPMODE_LISTENONLY) && (wmem w mode =? SNTP_MODE_BROADCAST)) then
        '(st, _) ← pbuf_copy_partial fuel (w_ps w) p stratum 1 SNTP_OFFSET_STRATUM;
        let w := set_wps w st in
        if wmem w stratum =? SNTP_STRATUM_KOD then Some (w, SNTP_ERR_KOD)
        else
          '(st, _) ← pbuf_copy_partial fuel (w_ps w) p originate_timestamp 8 SNTP_OFFSET_ORIGINATE_TIME;
          let w := set_wps w st in
          if negb (ld32 (wmem w) originate_timestamp =? fst (sn_last_timestamp_sent (sn w))) ||
             negb (ld32 (wmem w) (originate_timestamp + 4) =? snd (sn_last_timestamp_sent (sn w)))
          then Some (w, ERR_ARG)
          else
            '(st, _) ← pbuf_copy_partial fuel (w_ps w) p receive_timestamp 8 SNTP_OFFSET_TRANSMIT_TIME;
            Some (set_wps w st, ERR_OK)
      else Some (w, ERR_TIMEOUT)
    else Some (w, ERR_ARG)
  else Some (w, ERR_TIMEOUT).

Definition sntp_recv w (arg pcb p addr port : Z) : option (world X) :=
  let w := stop_timer w retry_fn in
  let w := stop_timer w request_fn in
  '(w, err) ← sntp_check w p addr port;
  w ← wfree custom_free fuel w p;
  let poll w := sn_opmode (sn w) =? SNTP_OPMODE_POLL in
  Some (if err =? ERR_OK then
          let w := sntp_process w (ld32 (wmem w) (locals + 12), ld32 (wmem w) (locals + 16)) in
          if poll w then start_timer (SNTP_RESET_RETRY_TIMEOUT w) SNTP_UPDATE_DELAY request_fn else w
        else if negb (err =? ERR_TIMEOUT) then if poll w then sntp_retry w else w
        else w).

(** [sntp_send_request(server_addr)] *)
Definition sntp_send_request w (server_addr : Z) : option (world X) :=
  '(st, p) ← pbuf_alloc custom_free fuel (w_ps w) PBUF_TRANSPORT SNTP_MSG_LEN PBUF_RAM;
  let w := set_wps w st in
  if negb (p =? NULL) then
    let w := sntp_initialize_request w (payload w p) in
    '(w, _) ← udp_sendto netif_output custom_free fuel w (sn_pcb (sn w)) p (Some server_addr) SNTP_PORT;
    w ← wfree custom_free fuel w p;
    let w := start_timer w SNTP_RECV_TIMEOUT retry_fn in
    Some (upd_sn w (sn_set_last server_addr))
  else Some (start_timer w SNTP_RETRY_TIMEOUT request_fn).

(** [sntp_dns_found(hostname, ipaddr, arg)] *)
Definition sntp_dns_found w (hostname : Z) (ipaddr : option Z) (arg : Z) : option (world X) :=
  match ipaddr with Some a => sntp_send_request w a | None => Some (sntp_retry w) end.

(** [sntp_request(arg)]: the local variable [sntp_server_address] is at [locals]. *)
Definition sntp_request w : option (world X) :=
  let finish w err a := if err =? ERR_OK then sntp_send_request w a else Some (start_timer w SNTP_RETRY_TIMEOUT retry_fn) in
  if negb (sn_name (sn w) =? NULL) then
    let w := upd_sn w (sn_set_addr 0) in
    '(w, err) ← dns_gethostbyname netif_output custom_free fuel rand found_fn dns_recv_fn dns_table_at dns_locals w (sn_name (sn w)) locals found NULL;
    if err =? ERR_INPROGRESS then Some w
    else
      let w := if err =? ERR_OK then upd_sn w (sn_set_addr (ld32 (wmem w) locals)) else w in
      finish w err (ld32 (wmem w) locals)
  else
    let a := sn_addr (sn w) in
    finish w (if ip4_addr_isany a then ERR_ARG else ERR_OK) a.

(** [sntp_init], [sntp_stop], [sntp_enabled] *)
Definition sntp_init w : option (world X) :=
  if negb (sn_pcb (sn w) =? NULL) then Some w
  else
    let '(w, pcb) := udp_new_ip_type w 46 in
    let w := upd_sn w (sn_set_pcb pcb) in
    if pcb =? NULL then Some w
    else
      let w := udp_recv w pcb recv_fn NULL in
      if sn_opmode (sn w) =? SNTP_OPMODE_POLL then sntp_request (SNTP_RESET_RETRY_TIMEOUT w)
      else if sn_opmode (sn w) =? SNTP_OPMODE_LISTENONLY then
        '(w, _) ← udp_bind w pcb (Some IPADDR_ANY) SNTP_PORT; Some w
      else Some w.
Definition sntp_stop w : world X :=
  if sn_pcb (sn w) =? NULL then w
  else
    let w := stop_timer w request_fn in
    let w := stop_timer w retry_fn in
    upd_sn (udp_remove w (sn_pcb (sn w))) (sn_set_pcb NULL).
Definition sntp_enabled w : Z := if negb (sn_pcb (sn w) =? NULL) then 1 else 0.

(** [sntp_setoperatingmode], [sntp_getoperatingmode], [sntp_setserver], [sntp_getserver],
    [sntp_setservername], [sntp_getservername] *)
Definition sntp_setoperatingmode w (operating_mode : Z) : world X := upd_sn w (sn_set_opmode operating_mode).
Definition sntp_getoperatingmode w : Z := sn_opmode (sn w).
Definition sntp_setserver w (idx : Z) (server : option Z) : world X :=
  if idx <? SNTP_MAX_SERVERS then upd_sn w (fun x => sn_set_name NULL (sn_set_addr (default 0 server) x)) else w.
Definition sntp_getserver w (idx : Z) : Z := if idx <? SNTP_MAX_SERVERS then sn_addr (sn w) else IPADDR_ANY.
Definition sntp_setservername w (idx server : Z) : world X := if idx <? SNTP_MAX_SERVERS then upd_sn w (sn_set_name server) else w.
Definition sntp_getservername w (idx : Z) : Z := if idx <? SNTP_MAX_SERVERS then sn_name (sn w) else NULL.
End Sntp.
