(* ===== verification/SntpProps.v ===== *)
(** * Properties of the SNTP client

    What a datagram does to the client, as a function of its bytes; the time that is set; the
    timers. *)

From Stdlib Require Import ZArith Lia.
From stdpp Require Import base tactics numbers list option gmap.
From S2P Require Import Prelude.
From S2P Require Import Def.
From S2P Require Import Ip4Addr.
From S2P Require Import Alloc.
From S2P Require Import Mem.
From S2P Require Import Memp.
From S2P Require Import Pbuf.
From S2P Require Import PbufChain.
From S2P Require Import PbufAlloc.
From S2P Require Import Chksum.
From S2P Require Import Timeouts.
From S2P Require Import Etharp.
From S2P Require Import World.
From S2P Require Import AppTimers.
From S2P Require Import Ip4Frag.
From S2P Require Import Ip4.
From S2P Require Import Icmp.
From S2P Require Import Ip4Reass.
From S2P Require Import Udp.
From S2P Require Import Dns.
From S2P Require Import Sntp.

(** ** What a datagram says *)

(** The 32 bits at an offset, in network byte order. *)
Definition be32_at (bs : list Z) (off : nat) : Z :=
  nth off bs 0 * 16777216 + nth (off + 1) bs 0 * 65536 + nth (off + 2) bs 0 * 256 + nth (off + 3) bs 0.

Inductive verdict := V_ignore | V_error | V_kod | V_time (secs frac : Z).
(** [s] and [u] are the two words of the time that the last request carried. *)
Definition judge (x : sntp_vars) (s u addr port : Z) (bs : list Z) : verdict :=
  let poll := sn_opmode x =? SNTP_OPMODE_POLL in
  let mode := Z.land (nth 0 bs 0) 7 in
  if (poll && negb (addr =? sn_last_server_address x)) || negb (port =? SNTP_PORT) then V_ignore
  else if negb (length bs =? 48)%nat then V_error
  else if (poll && (mode =? SNTP_MODE_SERVER)) || ((sn_opmode x =? SNTP_OPMODE_LISTENONLY) && (mode =? SNTP_MODE_BROADCAST)) then
    if nth 1 bs 0 =? 0 then V_kod
    else if (be32_at bs 24 =? s) && (be32_at bs 28 =? u) then V_time (be32_at bs 40) (be32_at bs 44) else V_error
  else V_ignore.
Definition code (v : verdict) : Z :=
  match v with V_ignore => ERR_TIMEOUT | V_error => ERR_ARG | V_kod => SNTP_ERR_KOD | V_time _ _ => ERR_OK end.

(** ** The time *)


(** Seconds since 1970 and microseconds of a timestamp of NTP. *)
Definition unix_secs (ntp : Z) : Z := (ntp - DIFF_SEC_1900_1970) mod 2 ^ 32.
Definition micros (frac : Z) : Z := frac / 4295.

Lemma sntp_time_unix n : 0 <= n < 2 ^ 32 -> sntp_time n = unix_secs n.
Proof.
  intros Hn. unfold sntp_time, unix_secs, u32. destruct (negb _); [done|]. unfold DIFF_SEC_1970_2036, DIFF_SEC_1900_1970.
  replace (n + 2085978496) with (n - 2208988800 + 1 * 2 ^ 32) by lia. by rewrite Z.mod_add by lia.
Qed.
(** Any time until 2106 is recovered from its timestamp. *)
Lemma unix_secs_of t : 0 <= t < 2 ^ 32 -> unix_secs ((t + DIFF_SEC_1900_1970) mod 2 ^ 32) = t.
Proof. intros Ht. unfold unix_secs. rewrite Zminus_mod_idemp_l. replace (t + _ - _) with t by lia. by apply Z.mod_small. Qed.
(** The microseconds are below a million, and at most nine too few. *)
Lemma micros_bounds f : 0 <= f < 2 ^ 32 -> 0 <= micros f < 1000000 /\ micros f * 2 ^ 32 <= f * 1000000 < (micros f + 9) * 2 ^ 32.
Proof. intros Hf. unfold micros. Z.div_mod_to_equations. lia. Qed.

(** ** Reading the datagram *)

Section Check.
Context {X : Type} `{!timer_store X, !sntp_store X}.
Context (custom_free : pstate -> Z -> pstate) (fuel : nat) (locals : Z).
Implicit Types w : world X.

(** Memory that differs in the local variables only. *)
Definition agrees (m m' : memory) : Prop := forall a, a < locals \/ locals + 20 <= a -> m' a = m a.
(** The datagram, apart from the local variables. *)
Record readable w (p : Z) (l : list Z) : Prop := {
  rd_chain : pchain (w_ps w) p (p :: l);
  rd_sizes : sizes (w_ps w) (p :: l);
  rd_fuel : (length (p :: l) < fuel)%nat;
  rd_locals : 0 < locals;
  rd_apart : Forall (separate (locals, 20)) (payloads (w_ps w) (p :: l));
  rd_bytes : mem_ok (wmem w)
}.

Lemma agrees_content w p l m : readable w p l -> agrees (wmem w) m -> content (set_data (w_ps w) m) (p :: l) = content (w_ps w) (p :: l).
Proof.
  intros [_ _ _ _ Ha _] Hm. apply content_ext. intros y Hy. unfold payload_bytes. rewrite pb_set_data. apply bytes_at_ext. intros a Hr. apply Hm.
  rewrite Forall_forall in Ha. specialize (Ha (payload_region (w_ps w) y) ltac:(by apply list_elem_of_fmap_2)). unfold separate, payload_region in Ha. cbn [fst snd] in Ha. lia.
Qed.
Lemma copy_local w p l m dst n off :
  readable w p l -> agrees (wmem w) m -> locals <= dst -> 0 <= n -> dst + n <= locals + 20 -> 0 <= off < 65536 ->
  let bs := content (w_ps w) (p :: l) in
  exists k, pbuf_copy_partial fuel (set_data (w_ps w) m) p dst n off = Some (set_data (w_ps w) (write_bytes m dst (slice bs off n)), k) /\
    agrees (wmem w) (write_bytes m dst (slice bs off n)).
Proof.
  intros Hr Hm H1 H2 H3 H4 bs. pose proof (agrees_content w p l m Hr Hm) as Hc. destruct Hr as [R1 R2 R3 R4 R5 R6]. eexists. split.
  - rewrite (copy_partial_correct fuel (set_data (w_ps w) m) p (p :: l)); [by rewrite Hc|by apply (pchain_ext (w_ps w))|done|by apply (sizes_ext (w_ps w))|done|unfold NULL; lia|lia|lia|].
    eapply Forall_impl; [exact R5|]. intros [a k]. unfold separate. cbn [fst snd]. lia.
  - intros a Ha. rewrite write_bytes_out; [by apply Hm|]. unfold slice. rewrite length_take. lia.
Qed.

Lemma slice_nth bs off n : 0 <= off -> off + Z.of_nat n <= Z.of_nat (length bs) -> slice bs off (Z.of_nat n) = map (fun i => nth (Z.to_nat off + i) bs 0) (seq 0 n).
Proof.
  intros Ho Hn. unfold slice. rewrite Nat2Z.id. apply list_eq. intros i. rewrite list_lookup_fmap. destruct (decide (i < n)%nat) as [Hi|Hi].
  - rewrite lookup_take, decide_True, lookup_drop by lia. rewrite lookup_seq_lt by lia. cbn [fmap option_fmap option_map]. rewrite (nth_lookup_Some bs _ 0 (bs !!! (Z.to_nat off + i)%nat)).
    + apply list_lookup_lookup_total_lt. lia.
    + apply list_lookup_lookup_total_lt. lia.
  - rewrite lookup_take, decide_False by lia. by rewrite lookup_seq_ge by lia.
Qed.
Lemma slice_one bs off : 0 <= off -> off + 1 <= Z.of_nat (length bs) -> slice bs off 1 = [nth (Z.to_nat off) bs 0].
Proof. intros. change (slice bs off 1) with (slice bs off (Z.of_nat 1)). rewrite slice_nth by lia. cbn [seq map]. by rewrite Nat.add_0_r. Qed.
(** Two words that were copied. *)
Lemma copied_words m a bs off :
  Forall is_byte bs -> (off + 8 <= length bs)%nat ->
  let m' := write_bytes m a (slice bs (Z.of_nat off) 8) in
  ld32 m' a = lwip_htonl (be32_at bs off) /\ ld32 m' (a + 4) = lwip_htonl (be32_at bs (off + 4)).
Proof.
  intros Hb Hl m'. assert (Hn : forall i, (i < 8)%nat -> is_byte (nth (off + i) bs 0)).
  { intros i Hi. rewrite Forall_forall in Hb. apply Hb. apply list_elem_of_In, nth_In. lia. }
  unfold m'. change (slice bs (Z.of_nat off) 8) with (slice bs (Z.of_nat off) (Z.of_nat 8)). rewrite slice_nth by lia. rewrite Nat2Z.id. cbn [seq map]. rewrite Nat.add_0_r. unfold be32_at. pose proof (Hn 0%nat ltac:(lia)) as Hn0. rewrite Nat.add_0_r in Hn0.
  rewrite <- !Nat.add_assoc. cbn [Nat.add]. rewrite !lwip_htonl_bytes by (apply Hn0 || apply Hn; lia). unfold ld32. at_mem. lia.
Qed.

Lemma be32_range bs off : Forall is_byte bs -> (off + 4 <= length bs)%nat -> 0 <= be32_at bs off < 2 ^ 32.
Proof.
  intros Hb Hl. assert (Hn : forall i, (i < 4)%nat -> is_byte (nth (off + i) bs 0)).
  { intros i Hi. rewrite Forall_forall in Hb. apply Hb. apply list_elem_of_In, nth_In. lia. }
  pose proof (Hn 0%nat ltac:(lia)) as H0. rewrite Nat.add_0_r in H0. pose proof (Hn 1%nat ltac:(lia)). pose proof (Hn 2%nat ltac:(lia)). pose proof (Hn 3%nat ltac:(lia)). unfold be32_at, is_byte in *. lia.
Qed.
Lemma judge_range x s u addr port bs secs frac : Forall is_byte bs -> judge x s u addr port bs = V_time secs frac -> 0 <= secs < 2 ^ 32 /\ 0 <= frac < 2 ^ 32.
Proof.
  intros Hb H. unfold judge in H. cbv zeta in H. destruct (_ && _ || _); [done|]. destruct (Nat.eqb_spec (length bs) 48) as [E|E]; cbn [negb] in H; [|done]. destruct (_ && _ || _); [|done].
  destruct (_ =? 0); [done|]. destruct (_ && _); [|done]. injection H as <- <-. split; apply be32_range; auto; lia.
Qed.
Lemma htonl_eqb a b : 0 <= a < 2 ^ 32 -> 0 <= b < 2 ^ 32 -> (lwip_htonl a =? lwip_htonl b) = (a =? b).
Proof.
  intros Ha Hb. destruct (Z.eqb_spec a b) as [->|E]; [apply Z.eqb_refl|]. apply Z.eqb_neq. intros H. apply E. by rewrite <- (lwip_htonl_inv a), H, lwip_htonl_inv.
Qed.

Lemma check_judged w p l addr port s u :
  let x := sn w in let bs := content (w_ps w) (p :: l) in
  readable w p l -> sn_last_timestamp_sent x = (lwip_htonl s, lwip_htonl u) -> 0 <= s < 2 ^ 32 -> 0 <= u < 2 ^ 32 ->
  exists m, sntp_check fuel locals w p addr port = Some (set_wmem w m, code (judge x s u addr port bs)) /\ agrees (wmem w) m /\
    forall secs frac, judge x s u addr port bs = V_time secs frac -> ld32 m (locals + 12) = lwip_htonl secs /\ ld32 m (locals + 16) = lwip_htonl frac.
Proof.
  intros x bs Hr Hsent Hs Hu. assert (Hlen : Z.of_nat (length bs) = pb_tot_len (pb (w_ps w) p)).
  { unfold bs. rewrite length_content by apply Hr. destruct Hr as [_ R2 _ _ _ _]. pose proof (sizes_nonneg _ _ R2) as [? _]. rewrite (sizes_head _ _ _ R2). lia. }
  assert (Hby : Forall is_byte bs) by (apply content_ok, Hr).
  unfold sntp_check, judge. cbv zeta. fold x. rewrite <- Hlen. change SNTP_MSG_LEN with 48.
  replace ((negb (sn_opmode x =? SNTP_OPMODE_POLL) || (addr =? sn_last_server_address x)) && (port =? SNTP_PORT))
    with (negb ((sn_opmode x =? SNTP_OPMODE_POLL) && negb (addr =? sn_last_server_address x) || negb (port =? SNTP_PORT)))
    by (by destruct (sn_opmode x =? _), (addr =? _), (port =? _)).
  destruct (_ && _ || _); cbn [negb]; [exists (wmem w); split; [by destruct w as [? [] ? ? ? ? ? ? ? ? ? ?]|by split]|].
  destruct (Z.eqb_spec (Z.of_nat (length bs)) 48) as [E48|E48]; [|rewrite (proj2 (Nat.eqb_neq _ _)) by lia; exists (wmem w); split; [by destruct w as [? [] ? ? ? ? ? ? ? ? ? ?]|by split]].
  rewrite (proj2 (Nat.eqb_eq _ _)) by lia. cbn [negb].
  assert (Hset : forall m, set_wps w (set_data (w_ps w) m) = set_wmem w m) by done.
  assert (Hw0 : w_ps w = set_data (w_ps w) (wmem w)) by (by destruct w as [? [] ? ? ? ? ? ? ? ? ? ?]).
  destruct (copy_local w p l (wmem w) locals 1 0 Hr) as (k1 & E1 & A1); [done|lia|lia|lia|lia|]. rewrite <- Hw0 in E1. fold bs in E1, A1. rewrite slice_one in E1, A1 by lia. change SNTP_OFFSET_LI_VN_MODE with 0. rewrite E1. cbn [mbind option_bind].
  change (Z.to_nat 0) with 0%nat in *. rewrite Hset. set (m1 := write_bytes _ _ _) in *. change (wmem (set_wmem w m1)) with m1.
  assert (V1 : m1 locals = nth 0 bs 0) by (unfold m1; cbn [write_bytes]; apply upd_eq). rewrite V1. set (mode := Z.land (nth 0 bs 0) SNTP_MODE_MASK). set (m2 := upd m1 locals mode).
  change (set_wmem (set_wmem w m1) m2) with (set_wmem w m2). change (wmem (set_wmem w m2)) with m2. change (sn (set_wmem w m2)) with x. assert (V2 : m2 locals = mode) by apply upd_eq. rewrite V2.
  assert (A2 : agrees (wmem w) m2) by (intros a Ha; unfold m2; rewrite upd_ne by lia; by apply A1). change (Z.land (nth 0 bs 0) 7) with mode.
  destruct (_ && _ || _); [|exists m2; split; [done|by split]].
  destruct (copy_local w p l m2 (locals + 1) 1 1 Hr A2) as (k2 & E2 & A3); [lia|lia|lia|lia|]. fold bs in E2, A3. rewrite slice_one in E2, A3 by lia. change (w_ps (set_wmem w m2)) with (set_data (w_ps w) m2). change SNTP_OFFSET_STRATUM with 1. rewrite E2. cbn [mbind option_bind].
  change (Z.to_nat 1) with 1%nat in *. set (m3 := write_bytes m2 _ _) in *. change (set_wps (set_wmem w m2) (set_data (w_ps w) m3)) with (set_wmem w m3).
  change (wmem (set_wmem w m3)) with m3. assert (V3 : m3 (locals + 1) = nth 1 bs 0) by (unfold m3; cbn [write_bytes]; apply upd_eq). rewrite V3. change SNTP_STRATUM_KOD with 0.
  destruct (nth 1 bs 0 =? 0); [exists m3; split; [done|by split]|].
  destruct (copy_local w p l m3 (locals + 4) 8 24 Hr A3) as (k3 & E3 & A4); [lia|lia|lia|lia|]. fold bs in E3, A4. change (w_ps (set_wmem w m3)) with (set_data (w_ps w) m3). change SNTP_OFFSET_ORIGINATE_TIME with 24. rewrite E3. cbn [mbind option_bind].
  destruct (copied_words m3 (locals + 4) bs 24 Hby ltac:(lia)) as [W1 W2]. change (Z.of_nat 24) with 24 in *. set (m4 := write_bytes m3 _ _) in *.
  change (set_wps (set_wmem w m3) (set_data (w_ps w) m4)) with (set_wmem w m4). change (wmem (set_wmem w m4)) with m4. change (sn (set_wmem w m4)) with x. rewrite W1, W2, Hsent. cbn [fst snd].
  assert (Hbe : forall off, (off + 4 <= length bs)%nat -> 0 <= be32_at bs off < 2 ^ 32) by (intros; by apply be32_range). rewrite !htonl_eqb by (done || apply Hbe; lia).
  change (24 + 4)%nat with 28%nat. rewrite <- negb_andb. destruct (_ && _); cbn [negb]; [|exists m4; split; [done|by split]].
  destruct (copy_local w p l m4 (locals + 12) 8 40 Hr A4) as (k4 & E4 & A5); [lia|lia|lia|lia|]. fold bs in E4, A5. change (w_ps (set_wmem w m4)) with (set_data (w_ps w) m4). change SNTP_OFFSET_TRANSMIT_TIME with 40. rewrite E4. cbn [mbind option_bind].
  destruct (copied_words m4 (locals + 12) bs 40 Hby ltac:(lia)) as [W3 W4]. change (Z.of_nat 40) with 40 in *. set (m5 := write_bytes m4 _ _) in *. exists m5.
  split; [done|]. split; [done|]. intros secs frac [= <- <-]. replace (locals + 16) with (locals + 12 + 4) by lia. done.
Qed.
End Check.

(** ** The reaction *)

Section React.
Context {X : Type} `{!timer_store X, !sntp_store X}.
Context (settimeofday : world X -> Z -> Z -> world X) (request_fn retry_fn : Z).
Implicit Types w : world X.

Definition polls w : bool := sn_opmode (sn w) =? SNTP_OPMODE_POLL.
Definition react (v : verdict) w : world X :=
  match v with
  | V_ignore => w
  | V_error | V_kod => if polls w then sntp_retry request_fn w else w
  | V_time secs frac =>
      let w := settimeofday w (unix_secs secs) (micros frac) in
      if polls w then start_timer (SNTP_RESET_RETRY_TIMEOUT w) SNTP_UPDATE_DELAY request_fn else w
  end.
Definition stopped w : world X := stop_timer (stop_timer w retry_fn) request_fn.

Lemma sn_timers w f : sn (with_timers w f) = sn w.
Proof. unfold sn, with_timers. simpl. apply sntp_get_timers. Qed.
Lemma sn_stopped w : sn (stopped w) = sn w.
Proof. unfold stopped, stop_timer. by rewrite !sn_timers. Qed.
(** Cancelling a timer gives an element back to its own pool. *)
Lemma free_other ps k a j : 0 <= k -> j <> Z.to_nat k -> memp_free ps k a !! j = ps !! j.
Proof.
  intros Hk Hj. unfold memp_free. destruct (_ <=? k); [done|]. destruct (a =? NULL); [done|]. destruct (ps !! Z.to_nat k) eqn:E; [|done]. by rewrite list_lookup_insert_ne.
Qed.
Lemma stop_pools w f j : j <> 7%nat -> ps_pools (w_ps (stop_timer w f)) !! j = ps_pools (w_ps w) !! j.
Proof.
  intros Hj. unfold stop_timer, with_timers. cbn [set_wps w_ps Pbuf.set_pools ps_pools]. unfold sys_untimeout. cbn [Timeouts.set_pools next_timeout].
  destruct (next_timeout _); [done|]. destruct (timeout_remove _ _ _) as [[a r]|]; [|done]. by apply free_other.
Qed.
Lemma stopped_owns hb dp dq w O : st_owns hb dp dq (w_ps w) O -> st_owns hb dp dq (w_ps (stopped w)) O.
Proof.
  intros [S1 S2 S3 S4 S5 S6 S7]. assert (Hp : forall j, j <> 7%nat -> ps_pools (w_ps (stopped w)) !! j = ps_pools (w_ps w) !! j) by (intros j Hj; unfold stopped; by rewrite !stop_pools).
  constructor; auto; by rewrite Hp.
Qed.

(** ** The timers *)

(** The client's timers: at most one request, at most one retry. *)
Definition one_each w : Prop :=
  NoDup (timers_of [request_fn; retry_fn] w) /\ Forall (fun x => x.2 = NULL) (pending w).
Lemma pending_null w f : Forall (fun x => x.2 = NULL) (pending w) -> Forall (fun x => x.2 = NULL) (pending (stop_timer w f)).
Proof.
  intros H. unfold stop_timer. rewrite pending_with. set (st := Timeouts.set_pools _ _). change (pending w) with (handlers st) in H. pose proof (untimeout_handlers st (h_user f) NULL) as Hu.
  destruct (decide ((h_user f, NULL) ∈ handlers st)); [|by rewrite Hu]. rewrite Hu in H. by apply Forall_cons_1 in H as [_ ?].
Qed.
Lemma stop_removes (fs : list Z) w f : f ∈ fs -> NoDup (timers_of fs w) -> Forall (fun x => x.2 = NULL) (pending w) ->
  NoDup (timers_of fs (stop_timer w f)) /\ forall g, g ∈ timers_of fs (stop_timer w f) <-> g ∈ timers_of fs w /\ g <> f.
Proof.
  intros Hf Hn Ha. pose proof (stop_timers fs w f Hf) as H. specialize (H ltac:(apply Forall_forall; intros y [_ Hy]%list_elem_of_filter; rewrite Forall_forall in Ha; exact (Ha y Hy))). destruct (decide (f ∈ timers_of fs w)) as [D|D].
  - rewrite H in Hn. apply NoDup_cons in Hn as [H1 H2]. split; [done|]. intros g. rewrite H, elem_of_cons. split; [intros Hg; split; [by right|by intros ->]|tauto].
  - rewrite H. split; [done|]. intros g. split; [intros Hg; split; [done|by intros ->]|tauto].
Qed.
(** A datagram cancels them all. *)
Lemma stopped_none w : one_each w -> timers_of [request_fn; retry_fn] (stopped w) = [].
Proof.
  intros [Hn Ha]. set (fs := [request_fn; retry_fn]) in *. unfold stopped. destruct (stop_removes fs w retry_fn) as [N1 H1]; [right; left|done|done|].
  destruct (stop_removes fs (stop_timer w retry_fn) request_fn) as [N2 H2]; [left|done|by apply pending_null|]. apply elem_of_nil_inv. intros g [H3 H4]%H2.
  apply H1 in H3 as [H5 H6]. apply list_elem_of_omap in H5 as ([h a] & _ & Hg). unfold mine in Hg. cbn [fst] in Hg.
  destruct h as [| | |k]; try done. destruct (decide (k ∈ fs)) as [D|D]; [|done]. injection Hg as ->. unfold fs in D. rewrite !elem_of_cons in D. destruct D as [D|[D|D]]; [done|done|by apply elem_of_nil in D].
Qed.
(** What is set afterwards: one request, unless the datagram is ignored or the pool of timers is
    empty. *)
Lemma react_timers v w :
  polls w = true -> (forall w t us, sn (settimeofday w t us) = sn w /\ pending (settimeofday w t us) = pending w /\ ps_pools (w_ps (settimeofday w t us)) = ps_pools (w_ps w)) ->
  timers_of [request_fn; retry_fn] (react v w) ≡ₚ
    (match v with V_ignore => [] | _ => if (memp_malloc (ps_pools (w_ps w)) MEMP_SYS_TIMEOUT).2 =? NULL then [] else [request_fn] end) ++ timers_of [request_fn; retry_fn] w.
Proof.
  intros Hp Hc. assert (Hup : forall w f, timers_of [request_fn; retry_fn] (upd_sn w f) = timers_of [request_fn; retry_fn] w) by (intros; unfold timers_of, pending, upd_sn; simpl; by rewrite timers_get_sntp).
  assert (Hretry : timers_of [request_fn; retry_fn] (sntp_retry request_fn w) ≡ₚ
    (if (memp_malloc (ps_pools (w_ps w)) MEMP_SYS_TIMEOUT).2 =? NULL then [] else [request_fn]) ++ timers_of [request_fn; retry_fn] w).
  { unfold sntp_retry. cbv zeta. destruct (_ && _); rewrite ?Hup; apply start_timers; left. }
  destruct v as [| | |secs frac]; cbn [react]; rewrite ?Hp; [done|done|done|]. destruct (Hc w (unix_secs secs) (micros frac)) as (C1 & C2 & C3). set (w1 := settimeofday _ _ _) in *.
  unfold polls in *. rewrite C1, Hp. rewrite start_timers by left. unfold SNTP_RESET_RETRY_TIMEOUT. rewrite Hup. change (w_ps (upd_sn w1 _)) with (w_ps w1). rewrite C3. unfold timers_of. by rewrite C2.
Qed.

(** The time between requests doubles until the next double would be over the limit. *)
Lemma retry_doubles w :
  SNTP_RETRY_TIMEOUT <= sn_retry_timeout (sn w) <= SNTP_RETRY_TIMEOUT_MAX ->
  let r := sn_retry_timeout (sn w) in let r' := sn_retry_timeout (sn (sntp_retry request_fn w)) in
  r' = (if 2 * r <=? SNTP_RETRY_TIMEOUT_MAX then 2 * r else r) /\ SNTP_RETRY_TIMEOUT <= r' <= SNTP_RETRY_TIMEOUT_MAX.
Proof.
  unfold SNTP_RETRY_TIMEOUT_MAX, SNTP_RETRY_TIMEOUT, SNTP_RECV_TIMEOUT. intros Hr. cbv zeta. unfold sntp_retry. cbv zeta. unfold start_timer. rewrite sn_timers. set (r := sn_retry_timeout (sn w)) in *.
  rewrite Z.shiftl_mul_pow2, u32_small by lia. change (2 ^ 1) with 2. unfold SNTP_RETRY_TIMEOUT_MAX, SNTP_RETRY_TIMEOUT, SNTP_RECV_TIMEOUT. change (3000 * 10) with 30000.
  destruct (Z.leb_spec (r * 2) 30000); destruct (Z.leb_spec (2 * r) 30000); try lia; destruct (Z.ltb_spec r (r * 2)); try lia; cbn [andb].
  - unfold upd_sn, sn. simpl. rewrite sntp_get_put. simpl. lia.
  - rewrite sn_timers. lia.
Qed.
End React.

(** C20: A datagram at the socket of the client.  Whatever it holds and however it is divided
    into pbufs, [sntp_recv] returns, cancels the client's timers, frees the datagram, and
    reacts as [judge] says of its bytes: the clock is set, to the time of 1970 that the
    timestamp means and to its microseconds, exactly when the datagram comes from the server
    and its port, has the length of a message and the mode of an answer, is not a
    kiss-of-death and carries the time of the last request; the next request is then due in
    ten minutes; after an error or a kiss-of-death the request is repeated.  A datagram that
    is ignored, from another address say, leaves the client without a timer. *)
Theorem sntp_response {X} `{!timer_store X, !sntp_store X} custom_free fuel settimeofday request_fn retry_fn locals hb dp dq (w : world X) arg pcb p l R O addr port s u :
  let x := sn w in let bs := content (w_ps w) (p :: l) in
  readable fuel locals w p l -> sn_last_timestamp_sent x = (lwip_htonl s, lwip_htonl u) -> 0 <= s < 2 ^ 32 -> 0 <= u < 2 ^ 32 ->
  (length (p :: l) + 1 < fuel)%nat -> Forall (fun y => pb_ref (pb (w_ps w) y) = 1) (p :: l) -> Forall2 (held_as (w_ps w)) (p :: l) R -> st_owns hb dp dq (w_ps w) (R ++ O) ->
  exists st', sntp_recv custom_free fuel settimeofday request_fn retry_fn locals w arg pcb p addr port =
      Some (react settimeofday request_fn (judge x s u addr port bs) (set_wps (stopped request_fn retry_fn w) st')) /\
    st_owns hb dp dq st' O /\ agrees locals (wmem w) (data st') /\
    (one_each request_fn retry_fn w -> timers_of [request_fn; retry_fn] (set_wps (stopped request_fn retry_fn w) st') = []).
Proof.
  intros x bs Hr Hsent Hs Hu Hf Href Hheld Ho. unfold sntp_recv. cbv zeta. fold (stopped request_fn retry_fn w). set (w1 := stopped request_fn retry_fn w).
  assert (Hx : sn w1 = x) by apply sn_stopped. assert (Hr1 : readable fuel locals w1 p l) by (destruct Hr as [R1 R2 R3 R4 R5 R6]; constructor; [by apply (pchain_ext (w_ps w))|by apply (sizes_ext (w_ps w))|done..]).
  destruct (check_judged fuel locals w1 p l addr port s u Hr1) as (m & E & Hm & Ht); [by rewrite Hx|done|done|]. assert (Hbs : content (w_ps w1) (p :: l) = bs) by (by apply content_ext).
  rewrite Hx, Hbs in E, Ht. rewrite E. cbn [mbind option_bind]. set (v := judge x s u addr port bs) in *.
  destruct (free_correct hb dp dq custom_free fuel (w_ps (set_wmem w1 m)) p (p :: l) [] R O) as (st' & Efr & Ho' & [Hd _] & _); [| | | | |done|].
  - rewrite app_nil_r. apply (pchain_ext (w_ps w)); [done|apply Hr].
  - done.
  - exact Href.
  - exact Hheld.
  - apply (st_owns_ext hb dp dq (w_ps w1)); [done|done| |by apply stopped_owns]. intros y Hy. by apply (so_flags _ _ _ _ _ Ho).
  - unfold wfree. rewrite Efr. cbn [mbind option_bind]. assert (Hd' : data st' = m) by exact Hd. exists st'. split; [|split_and!; [done|by rewrite Hd'|exact (stopped_none settimeofday request_fn retry_fn w)]]. set (w2 := set_wps (set_wmem w1 m) st').
    change (set_wps w1 st') with w2. assert (Hm2 : wmem w2 = m) by exact Hd'. assert (H2 : polls w2 = (sn_opmode (sn w2) =? SNTP_OPMODE_POLL)) by done. destruct v as [| | |secs frac] eqn:Ev; cbn [code react]; [done|by rewrite H2|by rewrite H2|].
    destruct (Ht secs frac eq_refl) as [T1 T2]. change (ERR_OK =? ERR_OK) with true. cbv iota. unfold sntp_process. cbn [fst snd]. rewrite Hm2, T1, T2.
    assert (Hrange : 0 <= secs < 2 ^ 32 /\ 0 <= frac < 2 ^ 32) by (by eapply judge_range; [|exact Ev]; apply content_ok, Hr). rewrite !lwip_htonl_inv, sntp_time_unix by apply Hrange. done.
Qed.
