(* ===== verification/SntpExample.v ===== *)
(** * The SNTP client on a board

    A request and its answer; the theorem applied to this board; what a stray datagram and a
    stop in the wrong moment do. *)

From Stdlib Require Import ZArith Lia.
From stdpp Require Import base tactics numbers list option gmap.
From S2P Require Import Prelude.
From S2P Require Import Def.
From S2P Require Import Ip4Addr.
From S2P Require Import Alloc.
From S2P Require Import Mem.
From S2P Require Import Memp.
From S2P Require Import Pbuf.
From S2P Require Import PbufChain.
From S2P Require Import PbufAlloc.
From S2P Require Import Chksum.
From S2P Require Import Timeouts.
From S2P Require Import Etharp.
From S2P Require Import World.
From S2P Require Import AppTimers.
From S2P Require Import Ip4Frag.
From S2P Require Import Ip4.
From S2P Require Import Icmp.
From S2P Require Import Ip4Reass.
From S2P Require Import Udp.
From S2P Require Import Dns.
From S2P Require Import DnsTable.
From S2P Require Import Tftp.
From S2P Require Import TftpSend.
From S2P Require Import Sntp.
From S2P Require Import SntpProps.

(** The variables of SNTP, the timers, those of DNS, the times that were set and the packets
    that were sent. *)
Definition sx : Type := sntp_vars * (tstate unit * (dns_vars * (list (Z * Z) * list (list Z)))).
#[export] Instance sx_timers : timer_store sx.
Proof. refine {| timers_get x := x.2.1; timers_put x t := (x.1, (t, x.2.2)) |}; done. Defined.
#[export] Instance sx_store : sntp_store sx.
Proof. refine {| sntp_get x := x.1; sntp_put x v := (v, x.2) |}; done. Defined.
#[export] Instance sx_dns : dns_store sx.
Proof. refine {| dns_get x := x.2.2.1; dns_put x v := (x.1, (x.2.1, (v, x.2.2.2))) |}; done. Defined.
Abbreviation SW := (world sx).
Definition sx_output (w : SW) (nif p dest : Z) : option (SW * Z) :=
  let x := w_ext w in Some (set_ext w (x.1, (x.2.1, (x.2.2.1, (x.2.2.2.1, x.2.2.2.2 ++ [content (w_ps w) [p]])))), ERR_OK).
Definition sx_set (w : SW) (t us : Z) : SW :=
  let x := w_ext w in set_ext w (x.1, (x.2.1, (x.2.2.1, (x.2.2.2.1 ++ [(t, us)], x.2.2.2.2)))).
Definition sx_get (w : SW) : Z * Z := (1700000000, 250000).
Definition clock (w : SW) : list (Z * Z) := (w_ext w).2.2.2.1.
Definition sent (w : SW) : list (list Z) := drop 28 <$> (w_ext w).2.2.2.2.
Definition alarm (w : SW) : list (Z * Z) := omap (fun t => match t_h t with h_user f => Some (f, t_time t) | _ => None end) (next_timeout (timers_get (w_ext w))).

Definition timeo_desc : memp_desc := mk_desc 16 8 538010000.
Definition sx_st0 : pstate :=
  Pbuf.set_pools st0 (<[0%nat := memp_init_pool net_desc zero_pool]> (<[7%nat := memp_init_pool timeo_desc zero_pool]> (ps_pools st0))).
Definition sntp_world0 : SW :=
  mk_world (mk_sntp 0 0 0 0 0 0 (0, 0), (mk_ts [] 0 false false 1000 [] tt, (dns_zero, ([], [])))) sx_st0 (w_netifs world0) 7 NULL (mk_ipg 4000 4000 0 0 0 0) [] 0 [] ∅ 0xc000 (fun _ _ => 0).
#[local] Abbreviation no_free := (fun (s : pstate) (_ : Z) => s).
#[local] Abbreviation some_port := (fun w : SW => (w, 5007)).
#[local] Abbreviation no_found := (fun (_ : Z) (w : SW) (_ : Z) (_ : option Z) (_ : Z) => Some w).
(** The handlers: 5 is [sntp_recv], 6 [sntp_request], 8 [sntp_retry], 9 [sntp_dns_found]. *)
Definition polling : option SW :=
  sntp_init sx_output no_free 60 some_port no_found 700000 800000 900000 sx_get 5 6 8 9 3000 (sntp_setserver sntp_world0 0 (Some 0x0400a8c0)).
Definition with_packet (w : SW) (bs : list Z) : SW :=
  let n := Z.of_nat (length bs) in set_wps w (set_pb (set_data (w_ps w) (write_bytes (wmem w) 1100 bs)) 1000 (mk_pbuf 0 1100 n n PBUF_RAM 0 2)).
Definition arrives (addr : Z) (bs : list Z) (w : SW) : option SW :=
  sntp_recv no_free 60 sx_set 6 8 3000 (with_packet w bs) 0 (sn_pcb (sn w)) 1000 addr SNTP_PORT.
Definition be32 (v : Z) : list Z := [v / 16777216; v / 65536 mod 256; v / 256 mod 256; v mod 256].
(** An answer of the server: mode 4, the time of the request, and the time to set. *)
Definition answer (s u secs frac : Z) : list Z :=
  [36; 2; 0; 0] ++ replicate 20 0 ++ be32 s ++ be32 u ++ replicate 8 0 ++ be32 secs ++ be32 frac.
Definition request_time : Z := 1700000000 + DIFF_SEC_1900_1970.

(** The request, and its answer with the time half a second after 2027-01-15 08:00:00: the next
    request is due in ten minutes. *)
Lemma request_sent :
  (fun w => (sent w, alarm w)) <$> polling = Some ([35 :: replicate 39 0 ++ be32 request_time ++ be32 250000], [(8, SNTP_RECV_TIMEOUT)]).
Proof. vm_compute. reflexivity. Qed.
Lemma answer_taken :
  (fun w => (clock w, alarm w)) <$> (w ← polling; arrives 0x0400a8c0 (answer request_time 250000 (1800000000 + DIFF_SEC_1900_1970) 0x80000000) w) =
  Some ([(1800000000, 499996)], [(6, SNTP_UPDATE_DELAY)]).
Proof. vm_compute. reflexivity. Qed.
(** A datagram from another address, before the answer: no timer is left, and no request will
    be sent any more. *)
Lemma stray_silences :
  (fun w => (clock w, alarm w, sntp_enabled w)) <$> (w ← polling; arrives 0x0500a8c0 [] w) = Some ([], [], 1).
Proof. vm_compute. reflexivity. Qed.

(** The name of the server is being looked up when the client is stopped: the answer of DNS
    starts it again, without a socket. *)
Definition asking : option SW :=
  let w := set_wmem sntp_world0 (write_bytes (wmem sntp_world0) 6000 [97; 46; 98; 99; 0]) in
  let w := dns_setserver w 0 (Some 0x0500a8c0) in
  sntp_init sx_output no_free 300 some_port no_found 700000 800000 900000 sx_get 5 6 8 9 3000 (sntp_setservername w 0 6000).
Lemma stop_while_asking :
  alarm <$> asking = Some [] /\
  (fun w => (sntp_enabled w, alarm w)) <$> (w ← asking; sntp_dns_found sx_output no_free 300 sx_get 6 8 (sntp_stop 6 8 w) 6000 (Some 0x0400a8c0) NULL) = Some (0, [(8, SNTP_RECV_TIMEOUT)]).
Proof. vm_compute. split; reflexivity. Qed.

(** A pbuf with the answer. *)
Definition answer_alloc : option (pstate * Z) := pbuf_alloc no_free 60 st0 PBUF_TRANSPORT 48 PBUF_RAM.
Definition answer_bytes : list Z := answer 7 8 (1800000000 + DIFF_SEC_1900_1970) 0x80000000.
Definition answered (st : pstate) (p : Z) : SW :=
  set_wps (upd_sn sntp_world0 (fun _ => mk_sntp 0 0 0 0x0400a8c0 3000 0x0400a8c0 (lwip_htonl 7, lwip_htonl 8)))
    (set_data st (write_bytes (data st) (pb_payload (pb st p)) answer_bytes)).
Lemma sntp_response_witness :
  exists st p st', sntp_recv no_free 60 sx_set 6 8 3000 (answered st p) 0 0 p 0x0400a8c0 SNTP_PORT =
    Some (react sx_set 6 (V_time (1800000000 + DIFF_SEC_1900_1970) 0x80000000) (set_wps (stopped 6 8 (answered st p)) st')).
Proof.
  destruct (alloc_datagram (ram heap0) dp0 dq0 no_free 60 st0 [] 48 st0_owns) as (st & p & E & H); [lia|lia|].
  destruct H as [[-> _]|[Hp [N1 N2 N3 N4 N5 (r & N6 & N7 & N8) N9 N10]]].
  { assert (Hc : snd <$> answer_alloc = Some NULL) by (unfold answer_alloc; rewrite E; reflexivity). vm_compute in Hc. discriminate Hc. }
  exists st, p. assert (Hbs : content (w_ps (answered st p)) [p] = answer_bytes).
  { cbn [content]. rewrite app_nil_r. unfold payload_bytes, answered. cbn [w_ps set_wps data set_data]. rewrite pb_set_data, N2. exact (bytes_at_write_eq (data st) (pb_payload (pb st p)) answer_bytes). }
  assert (Hdisj : 600000 < pb_payload (pb st p)) by (assert (Hc : (fun x => 600000 <? pb_payload (pb x.1 x.2)) <$> answer_alloc = Some true) by (vm_compute; reflexivity);
    unfold answer_alloc in Hc; rewrite E in Hc; injection Hc as Hc; by apply Z.ltb_lt).
  destruct (sntp_response no_free 60 sx_set 6 8 3000 (ram heap0) dp0 dq0 (answered st p) 0 0 p [] [r] [] 0x0400a8c0 SNTP_PORT 7 8) as (st' & H & _).
  - destruct N1 as [M1 M2 _ _ _]. constructor; [by apply (pchain_ext st)|by apply (sizes_ext st)|simpl; lia|lia| |].
    + constructor; [|constructor]. unfold separate, payload_region. cbn [fst snd]. left. change (pb (w_ps (answered st p)) p) with (pb st p). lia.
    + unfold wmem, answered. cbn [w_ps set_wps set_data data]. apply write_bytes_ok; [intros a; rewrite N4; simpl; lia|]. unfold answer_bytes. vm_compute. repeat constructor; congruence.
  - reflexivity.
  - lia.
  - lia.
  - simpl. lia.
  - by constructor.
  - by constructor.
  - apply (st_owns_ext (ram heap0) dp0 dq0 st); [done|done|exact (so_flags _ _ _ _ _ N7)|exact N7].
  - exists st'. rewrite Hbs in H. exact H.
Defined.
