(* ===== verification/Netbios.v ===== *)
(** * [apps/netbiosns/netbiosns.c]: the NetBIOS name responder

    The decoding of names, and the answer to a query for the board's own name. *)

From Stdlib Require Import ZArith Lia Ascii String.
From stdpp Require Import base tactics numbers list option gmap.
From S2P Require Import Prelude.
From S2P Require Import Def.
From S2P Require Import Ip4Addr.
From S2P Require Import Alloc.
From S2P Require Import Mem.
From S2P Require Import Memp.
From S2P Require Import Pbuf.
From S2P Require Import PbufChain.
From S2P Require Import Etharp.
From S2P Require Import World.
From S2P Require Import Ip4Frag.
From S2P Require Import Ip4.
From S2P Require Import Icmp.
From S2P Require Import Ip4Reass.
From S2P Require Import Udp.

Definition NETBIOS_PORT : Z := 137.
Definition NETBIOS_NAME_LEN : Z := 16.
Definition NETBIOS_NAME_TTL : Z := 300000.
Definition NETB_HFLAG_RESPONSE : Z := 0x8000.
Definition NETB_HFLAG_OPCODE : Z := 0x7800.
Definition NETB_HFLAG_OPCODE_NAME_QUERY : Z := 0.
Definition NETB_HFLAG_AUTHORATIVE : Z := 0x0400.
Definition NETB_HFLAG_RECURS_DESIRED : Z := 0x0100.
Definition NETB_NFLAG_NODETYPE_BNODE : Z := 0.
(** The sizes of [struct netbios_hdr], of [encname] and of [struct netbios_resp], and the
    offsets of the fields behind the name. *)
Definition SIZEOF_NETBIOS_HDR : Z := 12.
Definition SIZEOF_ENCNAME : Z := NETBIOS_NAME_LEN * 2 + 1.
Definition SIZEOF_NETBIOS_RESP : Z := 62.
Definition NETB_OFS_TYPE : Z := SIZEOF_NETBIOS_HDR + 1 + SIZEOF_ENCNAME.

(** [netbiosns_name_decode(name_enc, name_dec, name_dec_len)]; a [char] is unsigned. *)
Definition not_letter (c : Z) : bool := (c <? 65) || (90 <? c).
Definition decode_pair (name_dec : Z) (s : memory * Z * Z) : (memory * Z * Z) + (memory * Z) :=
  let '(m, pname, idx) := s in
  let cname := m pname in
  if (cname =? 0) || (cname =? 46) then inr (m, 0)
  else if not_letter cname then inr (m, -1)
  else
    let cnbname := u8 (Z.shiftl (cname - 65) 4) in
    let cname := m (pname + 1) in
    if (cname =? 0) || (cname =? 46) then inr (m, -1)
    else if not_letter cname then inr (m, -1)
    else
      let cnbname := Z.lor cnbname (cname - 65) in
      inl (if idx <? NETBIOS_NAME_LEN then (upd m (name_dec + idx) (if negb (cnbname =? 32) then cnbname else 0), pname + 2, idx + 1)
           else (m, pname + 2, idx)).
Definition netbiosns_name_decode (fuel : nat) (m : memory) (name_enc name_dec : Z) : option (memory * Z) :=
  loop fuel (decode_pair name_dec) (m, name_enc, 0).

(** The variable [netbiosns_pcb] is a part of the external state of UDP. *)
Class netbios_store (X : Type) := {
  nbpcb_get : X -> Z;
  nbpcb_put : X -> Z -> X;
  nbpcb_get_put : forall x v, nbpcb_get (nbpcb_put x v) = v
}.

Section Netbios.
Context {X : Type} `{!netbios_store X}.
Context (netif_output : world X -> Z -> Z -> Z -> option (world X * Z)).
Context (custom_free : pstate -> Z -> pstate) (fuel : nat).
(** The addresses of [netbiosns_recv], of [netbiosns_local_name] and of the local variable
    [netbios_name]. *)
Context (recv_fn local_name netbios_name : Z).
Implicit Types w : world X.

(** The response to the message at [hdr], in the memory at [resp]. *)
Definition netbios_response (m : memory) (resp hdr ip : Z) : memory :=
  let m := st16 m resp (ld16 m hdr) in
  let m := st16 m (resp + 2) (PP_HTONS (Z.lor (Z.lor (Z.lor NETB_HFLAG_RESPONSE NETB_HFLAG_OPCODE_NAME_QUERY) NETB_HFLAG_AUTHORATIVE) NETB_HFLAG_RECURS_DESIRED)) in
  let m := st16 m (resp + 4) 0 in
  let m := st16 m (resp + 6) (PP_HTONS 1) in
  let m := st16 m (resp + 8) 0 in
  let m := st16 m (resp + 10) 0 in
  let m := write_bytes m (resp + 13) (bytes_at m (hdr + 13) (Z.to_nat SIZEOF_ENCNAME)) in
  let m := upd m (resp + 12) (m (hdr + 12)) in
  let m := st16 m (resp + NETB_OFS_TYPE) (ld16 m (hdr + NETB_OFS_TYPE)) in
  let m := st16 m (resp + NETB_OFS_TYPE + 2) (ld16 m (hdr + NETB_OFS_TYPE + 2)) in
  let m := st32 m (resp + NETB_OFS_TYPE + 4) (PP_HTONL NETBIOS_NAME_TTL) in
  let m := st16 m (resp + NETB_OFS_TYPE + 8) (PP_HTONS 6) in
  let m := st16 m (resp + NETB_OFS_TYPE + 10) (PP_HTONS NETB_NFLAG_NODETYPE_BNODE) in
  st32 m (resp + NETB_OFS_TYPE + 12) ip.

(** [netbiosns_recv(arg, upcb, p, addr, port)] *)
Definition is_query (m : memory) (hdr : Z) : bool :=
  (Z.land (ld16 m (hdr + 2)) (PP_HTONS NETB_HFLAG_OPCODE) =? PP_HTONS NETB_HFLAG_OPCODE_NAME_QUERY) &&
  (Z.land (ld16 m (hdr + 2)) (PP_HTONS NETB_HFLAG_RESPONSE) =? 0) && (ld16 m (hdr + 4) =? PP_HTONS 1).
Definition netbiosns_recv w (arg upcb p addr port : Z) : option (world X) :=
  if p =? NULL then Some w
  else
    let hdr := payload w p in
    w ← (if negb (netif_default (w_netifs w) =? NULL) && is_query (wmem w) hdr then
           '(m, _) ← netbiosns_name_decode fuel (wmem w) (hdr + SIZEOF_NETBIOS_HDR + 1) netbios_name;
           r ← lwip_strnicmp fuel m netbios_name local_name NETBIOS_NAME_LEN;
           let w := set_wmem w m in
           if r =? 0 then
             '(st, q) ← pbuf_alloc custom_free fuel (w_ps w) PBUF_TRANSPORT SIZEOF_NETBIOS_RESP PBUF_RAM;
             let w := set_wps w st in
             if negb (q =? NULL) then
               let w := set_wmem w (netbios_response (wmem w) (payload w q) hdr (netif_ip_addr (netif_of w (netif_default (w_netifs w))))) in
               '(w, _) ← udp_sendto netif_output custom_free fuel w upcb q (Some addr) port;
               wfree custom_free fuel w q
             else Some w
           else Some w
         else Some w);
    wfree custom_free fuel w p.

(** [netbiosns_init], [netbiosns_set_name], [netbiosns_stop]; [SOF_BROADCAST] is not looked at. *)
Definition netbiosns_init w : option (world X) :=
  let '(w, pcb) := udp_new_ip_type w 46 in
  let w := set_ext w (nbpcb_put (w_ext w) pcb) in
  if negb (pcb =? NULL) then
    '(w, _) ← udp_bind w pcb (Some IPADDR_ANY) NETBIOS_PORT;
    Some (udp_recv w pcb recv_fn pcb)
  else Some w.
Definition netbiosns_set_name w (hostname : Z) : option (world X) :=
  copy_len ← strlen fuel (wmem w) hostname;
  let copy_len := if NETBIOS_NAME_LEN <=? copy_len then NETBIOS_NAME_LEN - 1 else copy_len in
  Some (set_wmem w (memcpy (wmem w) local_name hostname (copy_len + 1))).
Definition netbiosns_stop w : world X :=
  let pcb := nbpcb_get (w_ext w) in
  if negb (pcb =? NULL) then let w := udp_remove w pcb in set_ext w (nbpcb_put (w_ext w) NULL) else w.
End Netbios.

(** ** Names *)

(** The first-level encoding of RFC 1001: two letters for each character. *)
Definition nb_letters (c : Z) : list Z := [65 + c / 16; 65 + c mod 16].
Definition nb_encode (name : list Z) : list Z := concat (map nb_letters name).
(** What is decoded: blanks, which fill a name up, become 0, which ends it. *)
Definition nb_decoded (name : list Z) : list Z := map (fun c => if c =? 32 then 0 else c) (take 16 name).

Lemma pair_joined c : is_byte c -> Z.lor (u8 (Z.shiftl (65 + c / 16 - 65) 4)) (65 + c mod 16 - 65) = c.
Proof.
  intros Hc. unfold is_byte in Hc. replace (65 + c / 16 - 65) with (c / 16) by lia. replace (65 + c mod 16 - 65) with (c mod 16) by lia.
  rewrite Z.shiftl_mul_pow2 by lia. rewrite u8_small by dm. rewrite lor_mul_add by dm. dm.
Qed.

Lemma decode_step_pair dec m a idx c rest :
  is_byte c -> bytes_at m a (2 + rest) = nb_letters c ++ bytes_at m (a + 2) rest ->
  decode_pair dec (m, a, idx) = inl (if idx <? 16 then (upd m (dec + idx) (if c =? 32 then 0 else c), a + 2, idx + 1) else (m, a + 2, idx)).
Proof.
  intros Hc Hb. cbn [bytes_at Nat.add nb_letters app] in Hb. injection Hb as H1 H2. unfold is_byte in Hc. assert (0 <= c / 16 < 16) by dm. assert (0 <= c mod 16 < 16) by dm.
  unfold decode_pair. rewrite H1, H2. unfold not_letter.
  rewrite (proj2 (Z.eqb_neq (65 + c / 16) 0)), (proj2 (Z.eqb_neq (65 + c / 16) 46)), (proj2 (Z.ltb_ge (65 + c / 16) 65)), (proj2 (Z.ltb_ge 90 (65 + c / 16))) by lia. cbn [orb].
  rewrite (proj2 (Z.eqb_neq (65 + c mod 16) 0)), (proj2 (Z.eqb_neq (65 + c mod 16) 46)), (proj2 (Z.ltb_ge (65 + c mod 16) 65)), (proj2 (Z.ltb_ge 90 (65 + c mod 16))) by lia. cbn [orb]. cbv zeta.
  rewrite pair_joined by done. change NETBIOS_NAME_LEN with 16. by destruct (c =? 32).
Qed.

(** Decoding undoes the encoding: it returns 0, and the first 16 characters are at [dec]. *)
Lemma decode_loop dec name m a idx fuel :
  Forall is_byte name -> bytes_at m a (2 * length name + 1) = nb_encode name ++ [0] -> 0 <= idx <= 16 -> (length name < fuel)%nat ->
  (dec + 16 <= a \/ a + 2 * Z.of_nat (length name) + 1 <= dec) ->
  let out := map (fun c => if c =? 32 then 0 else c) (take (Z.to_nat (16 - idx)) name) in
  loop fuel (decode_pair dec) (m, a, idx) = Some (write_bytes m (dec + idx) out, 0).
Proof.
  revert m a idx fuel. induction name as [|c name IH]; intros m a idx f Hn Hb Hi Hf Hs out; (destruct f as [|f]; [simpl in Hf; lia|]); cbn [loop].
  - cbn [length Nat.mul Nat.add bytes_at nb_encode map concat app] in Hb. injection Hb as Hb. unfold decode_pair. rewrite Hb. cbn [Z.eqb orb]. unfold out. rewrite take_nil. done.
  - apply Forall_cons_1 in Hn as [Hc Hn]. cbn [length] in *. replace (2 * S (length name) + 1)%nat with (2 + (2 * length name + 1))%nat in Hb by lia.
    unfold nb_encode in Hb. cbn [map concat] in Hb. fold (nb_encode name) in Hb. rewrite <- app_assoc in Hb. pose proof Hb as Hb'. rewrite bytes_at_app in Hb'. apply app_inj_1 in Hb' as [Hb1 Hb2]; [|done]. change (Z.of_nat 2) with 2 in Hb2.
    rewrite (decode_step_pair dec m a idx c (2 * length name + 1) Hc) by (by rewrite Hb, <- Hb2).
    destruct (Z.ltb_spec idx 16) as [Hlt|Hge].
    + rewrite IH; auto; [|rewrite <- Hb2; apply bytes_at_ext; intros x Hx; apply upd_ne; lia|lia|simpl in Hf; lia|lia].
      unfold out. replace (Z.to_nat (16 - idx)) with (S (Z.to_nat (16 - (idx + 1)))) by lia. cbn [take map write_bytes]. by rewrite Z.add_assoc.
    + rewrite IH; auto; [|simpl in Hf; lia|lia]. unfold out. replace (Z.to_nat (16 - idx)) with 0%nat by lia. done.
Qed.
Lemma name_decode_encode fuel m enc dec name :
  Forall is_byte name -> bytes_at m enc (2 * length name + 1) = nb_encode name ++ [0] -> (length name < fuel)%nat ->
  (dec + 16 <= enc \/ enc + 2 * Z.of_nat (length name) + 1 <= dec) ->
  netbiosns_name_decode fuel m enc dec = Some (write_bytes m dec (nb_decoded name), 0).
Proof. intros. unfold netbiosns_name_decode. rewrite (decode_loop dec name) by (done || lia). by rewrite Z.add_0_r. Qed.

(** ** Examples *)

Definition nx : Type := Z * list (list Z).
#[export] Instance nx_store : netbios_store nx.
Proof. refine {| nbpcb_get x := x.1; nbpcb_put x v := (v, x.2) |}; done. Defined.
#[local] Abbreviation NW := (world nx).
Definition nx_output (w : NW) (nif p dest : Z) : option (NW * Z) := Some (set_ext w ((w_ext w).1, (w_ext w).2 ++ [content (w_ps w) [p]]), ERR_OK).
(** The name "t41" is at 6000; the name of the responder is at 7000, the local variable at 3000. *)
Definition netbios_world0 : NW :=
  mk_world (NULL, []) (set_data net_st (write_bytes (data net_st) 6000 [116; 52; 49; 0])) (w_netifs world0) 7 NULL (mk_ipg 4000 4000 0 0 0 0) [] 0 [] ∅ 0xc000 (fun _ _ => 0).
Definition named : option NW := w ← netbiosns_set_name 60 7000 netbios_world0 6000; netbiosns_init 5 w.
Definition nb_query (id : Z) (enc : list Z) : list Z := be16 id ++ [1; 16; 0; 1; 0; 0; 0; 0; 0; 0; 32] ++ enc ++ [0; 0; 32; 0; 1].
Definition nb_asked (bs : list Z) (w : NW) : option NW :=
  let n := Z.of_nat (length bs) in
  let w := set_wps w (set_pb (set_data (w_ps w) (write_bytes (wmem w) 1100 bs)) 1000 (mk_pbuf 0 1100 n n PBUF_RAM 0 2)) in
  netbiosns_recv nx_output (fun s _ => s) 100 7000 3000 w 0 (nbpcb_get (w_ext w)) 1000 0x0900a8c0 137.
Definition answers (w : NW) : list (list Z) := drop 28 <$> (w_ext w).2.
(** "T41" filled up with blanks. *)
Definition board_name : list Z := [84; 52; 49] ++ replicate 13 32.
Definition nb_answer (id : Z) (enc : list Z) : list Z :=
  be16 id ++ [0x85; 0; 0; 0; 0; 1; 0; 0; 0; 0; 32] ++ enc ++ [0; 0; 32; 0; 1; 0; 4; 0x93; 0xe0; 0; 6; 0; 0; 192; 168; 0; 1].
Lemma name_answered : answers <$> (w ← named; nb_asked (nb_query 7 (nb_encode board_name)) w) = Some [nb_answer 7 (nb_encode board_name)].
Proof. vm_compute. reflexivity. Qed.
Lemma other_name_ignored : answers <$> (w ← named; nb_asked (nb_query 7 (nb_encode (replicate 16 65))) w) = Some [].
Proof. vm_compute. reflexivity. Qed.
(** The result of the decoding is not looked at: a name that is none is compared as what the
    stack holds, here the name of the query before. *)
Lemma illegal_name_answered :
  answers <$> (w ← named; w ← nb_asked (nb_query 7 (nb_encode board_name)) w; nb_asked (nb_query 8 (replicate 32 33)) w) =
  Some [nb_answer 7 (nb_encode board_name); nb_answer 8 (replicate 32 33)].
Proof. vm_compute. reflexivity. Qed.
(** The length of a datagram is not looked at: the first 12 bytes of a query, with the rest of
    it still in the memory behind, are answered. *)
Definition nb_asked_short (bs : list Z) (w : NW) : option NW :=
  let w := set_wps w (set_pb (set_data (w_ps w) (write_bytes (wmem w) 1100 bs)) 1000 (mk_pbuf 0 1100 12 12 PBUF_RAM 0 2)) in
  netbiosns_recv nx_output (fun s _ => s) 100 7000 3000 w 0 (nbpcb_get (w_ext w)) 1000 0x0900a8c0 137.
Lemma short_query_answered : answers <$> (w ← named; nb_asked_short (nb_query 7 (nb_encode board_name)) w) = Some [nb_answer 7 (nb_encode board_name)].
Proof. vm_compute. reflexivity. Qed.
