(* ===== verification/MqttReq.v ===== *)
(** * The pending requests of [apps/mqtt/mqtt.c]

    Requests that wait for an answer of the server are in a linked list through the request
    objects of a client, each with the time after the one before it at which it is given up.
    The operations on the list, and the list of identifiers and times that they stand for. *)

From Stdlib Require Import ZArith Lia.
From stdpp Require Import base tactics numbers list option gmap.
From S2P Require Import Prelude.
From S2P Require Import Pbuf.

Definition MQTT_REQ_MAX_IN_FLIGHT : Z := 4.
Definition MQTT_REQ_TIMEOUT : Z := 30.

(** [struct mqtt_request_t]; the objects are at their addresses. *)
Record mqtt_request_t := mk_req { rq_next : Z; rq_cb : Z; rq_arg : Z; rq_pkt_id : Z; rq_timeout_diff : Z }.
Definition request_zero : mqtt_request_t := mk_req 0 0 0 0 0.
Abbreviation requests := (gmap Z mqtt_request_t).
Definition SIZEOF_MQTT_REQUEST : Z := 16.
Definition rq_of (q : requests) (r : Z) : mqtt_request_t := default request_zero (q !! r).
Definition upd_rq (q : requests) (r : Z) (f : mqtt_request_t -> mqtt_request_t) : requests := <[r := f (rq_of q r)]> q.
Definition rq_set_next v x := mk_req v (rq_cb x) (rq_arg x) (rq_pkt_id x) (rq_timeout_diff x).
Definition rq_set_diff v x := mk_req (rq_next x) (rq_cb x) (rq_arg x) (rq_pkt_id x) v.

(** [&r_objs[0]], [&r_objs[1]], ... *)
Definition request_objs (r_objs : Z) : list Z := map (fun n => r_objs + SIZEOF_MQTT_REQUEST * n) [0; 1; 2; 3].

(** [mqtt_create_request(r_objs, pkt_id, cb, arg)]: an object that points to itself is not in
    use. *)
Definition mqtt_create_request (q : requests) (r_objs pkt_id cb arg : Z) : requests * Z :=
  match List.find (fun r => rq_next (rq_of q r) =? r) (request_objs r_objs) with
  | Some r => (upd_rq q r (fun x => mk_req NULL cb arg pkt_id (rq_timeout_diff x)), r)
  | None => (q, NULL)
  end.

(** [mqtt_append_request(tail, r)]; the result has the new [*tail]. *)
Definition append_walk (fuel : nat) (q : requests) (tail : Z) : option (Z * Z) :=
  loop fuel (fun '(iter, head, time_before) =>
    if iter =? NULL then inr (head, time_before)
    else inl (rq_next (rq_of q iter), iter, s16 (time_before + rq_timeout_diff (rq_of q iter)))) (tail, NULL, 0).
Definition mqtt_append_request (fuel : nat) (q : requests) (tail r : Z) : option (requests * Z) :=
  '(head, time_before) ← append_walk fuel q tail;
  let q := upd_rq q r (rq_set_diff (u16 (MQTT_REQ_TIMEOUT - time_before))) in
  Some (if head =? NULL then (q, r) else (upd_rq q head (rq_set_next r), tail)).

(** [mqtt_delete_request(r)] *)
Definition mqtt_delete_request (q : requests) (r : Z) : requests :=
  if negb (r =? NULL) then upd_rq q r (rq_set_next r) else q.

(** [mqtt_take_request(tail, pkt_id)]: the new [*tail] and the request. *)
Definition take_walk (fuel : nat) (q : requests) (tail pkt_id : Z) : option (Z * Z) :=
  loop fuel (fun '(iter, prev) =>
    if iter =? NULL then inr (iter, prev)
    else if rq_pkt_id (rq_of q iter) =? pkt_id then inr (iter, prev)
    else inl (rq_next (rq_of q iter), iter)) (tail, NULL).
Definition mqtt_take_request (fuel : nat) (q : requests) (tail pkt_id : Z) : option (requests * Z * Z) :=
  '(iter, prev) ← take_walk fuel q tail pkt_id;
  Some (if negb (iter =? NULL) then
          let next := rq_next (rq_of q iter) in
          let '(q, tail) := if prev =? NULL then (q, next) else (upd_rq q prev (rq_set_next next), tail) in
          let q := if negb (next =? NULL) then upd_rq q next (fun x => rq_set_diff (u16 (rq_timeout_diff x + rq_timeout_diff (rq_of q iter))) x) else q in
          (upd_rq q iter (rq_set_next NULL), tail, iter)
        else (q, tail, iter)).

(** [mqtt_clear_requests(tail)]; [*tail] is [NULL] afterwards. *)
Definition mqtt_clear_requests (fuel : nat) (q : requests) (tail : Z) : option requests :=
  loop fuel (fun '(q, iter) => if iter =? NULL then inr q else inl (mqtt_delete_request q iter, rq_next (rq_of q iter))) (q, tail).

(** [mqtt_init_requests(r_objs)] *)
Definition mqtt_init_requests (q : requests) (r_objs : Z) : requests :=
  foldl (fun q r => upd_rq q r (rq_set_next r)) q (request_objs r_objs).

(** ** The list that the objects stand for *)

(** The objects from [a] on are those of [l], and then comes [b]. *)
Fixpoint linked (q : requests) (a : Z) (l : list Z) (b : Z) : Prop :=
  match l with
  | [] => a = b
  | r :: l => a = r /\ r <> NULL /\ linked q (rq_next (rq_of q r)) l b
  end.
(** The identifiers of the requests, with the times that are left for them when [t] is left
    for the one before. *)
Fixpoint dues (q : requests) (t : Z) (l : list Z) : list (Z * Z) :=
  match l with
  | [] => []
  | r :: l => let t := t + rq_timeout_diff (rq_of q r) in (rq_pkt_id (rq_of q r), t) :: dues q t l
  end.
Fixpoint total (q : requests) (l : list Z) : Z :=
  match l with [] => 0 | r :: l => rq_timeout_diff (rq_of q r) + total q l end.

(** The objects of a client: those in the list [l], which has no more than 30 seconds to go,
    those that have been taken out of it or are about to be put into it, [out], and the free
    ones, which point to themselves. *)
Record requests_ok (q : requests) (r_objs tail : Z) (l out : list Z) : Prop := {
  ro_objs : 0 < r_objs;
  ro_linked : linked q tail l NULL;
  ro_nodup : NoDup (l ++ out);
  ro_in : Forall (fun r => r ∈ request_objs r_objs) (l ++ out);
  ro_diffs : Forall (fun r => 0 <= rq_timeout_diff (rq_of q r)) l;
  ro_total : total q l <= MQTT_REQ_TIMEOUT;
  ro_out : Forall (fun r => rq_next (rq_of q r) = NULL) out;
  ro_free : forall r, r ∈ request_objs r_objs -> r ∉ l ++ out -> rq_next (rq_of q r) = r
}.

Lemma rq_upd q r f s : rq_of (upd_rq q r f) s = if decide (r = s) then f (rq_of q r) else rq_of q s.
Proof. unfold upd_rq. unfold rq_of at 1. destruct (decide (r = s)) as [->|H]; [by rewrite lookup_insert_eq|by rewrite lookup_insert_ne]. Qed.
Lemma rq_upd_ne q r f s : r <> s -> rq_of (upd_rq q r f) s = rq_of q s.
Proof. intros. by rewrite rq_upd, decide_False. Qed.
Lemma rq_upd_eq q r f : rq_of (upd_rq q r f) r = f (rq_of q r).
Proof. by rewrite rq_upd, decide_True. Qed.

Lemma obj_pos r_objs r : 0 < r_objs -> r ∈ request_objs r_objs -> r <> NULL.
Proof. unfold request_objs, SIZEOF_MQTT_REQUEST, NULL. simpl. intros H Hr. repeat (rewrite ?elem_of_cons, ?elem_of_nil in Hr). lia. Qed.

(** What the views of the list depend on. *)
Lemma linked_ext q q' a l b : (forall r, r ∈ l -> rq_next (rq_of q' r) = rq_next (rq_of q r)) -> linked q a l b -> linked q' a l b.
Proof.
  revert a. induction l as [|r l IH]; intros a H Hl; [done|]. destruct Hl as (-> & Hr & Hl). split_and!; try done. rewrite (H r) by left.
  apply IH; [|done]. intros s Hs. apply H. by right.
Qed.
Lemma dues_ext q q' t l : (forall r, r ∈ l -> rq_pkt_id (rq_of q' r) = rq_pkt_id (rq_of q r) /\ rq_timeout_diff (rq_of q' r) = rq_timeout_diff (rq_of q r)) -> dues q' t l = dues q t l.
Proof.
  revert t. induction l as [|r l IH]; intros t H; [done|]. cbn [dues]. destruct (H r) as [-> ->]; [left|]. f_equal. apply IH. intros s Hs. apply H. by right.
Qed.
Lemma time_ext q q' l : (forall r, r ∈ l -> rq_timeout_diff (rq_of q' r) = rq_timeout_diff (rq_of q r)) -> total q' l = total q l.
Proof. induction l as [|r l IH]; intros H; [done|]. cbn [total]. rewrite (H r) by left. f_equal. apply IH. intros s Hs. apply H. by right. Qed.
Lemma dues_app q t l l' : dues q t (l ++ l') = dues q t l ++ dues q (t + total q l) l'.
Proof.
  revert t. induction l as [|r l IH]; intros t; cbn [app dues total]; [by rewrite Z.add_0_r|]. cbv zeta. rewrite IH. do 3 f_equal. lia.
Qed.
Lemma time_app q l l' : total q (l ++ l') = total q l + total q l'.
Proof. induction l as [|r l IH]; cbn [app total]; [lia|]. rewrite IH. lia. Qed.
Lemma time_nonneg q l : Forall (fun r => 0 <= rq_timeout_diff (rq_of q r)) l -> 0 <= total q l.
Proof. induction 1; cbn [total]; lia. Qed.
Lemma linked_app q a l l' b : linked q a (l ++ l') b <-> exists c, linked q a l c /\ linked q c l' b.
Proof.
  revert a. induction l as [|r l IH]; intros a; cbn [app linked].
  - split; [intros H; by exists a|by intros (c & -> & H)].
  - rewrite IH. split; [intros (-> & Hr & c & H1 & H2); by exists c|intros (c & (-> & Hr & H1) & H2)]. split_and!; [done|done|by exists c].
Qed.
(** The object behind the last one of a list. *)
Lemma linked_snoc q a l r b : linked q a (l ++ [r]) b <-> linked q a l r /\ r <> NULL /\ rq_next (rq_of q r) = b.
Proof. rewrite linked_app. cbn [linked]. split; [intros (c & H1 & <- & Hr & H2); by split_and!|intros (H1 & Hr & H2); by exists r]. Qed.

(** Objects outside of the list do not matter. *)
Lemma list_frame q q1 tail l k :
  (forall s, s ∈ l -> rq_of q1 s = rq_of q s) -> linked q tail l NULL -> Forall (fun r => 0 <= rq_timeout_diff (rq_of q r)) l -> total q l <= k ->
  linked q1 tail l NULL /\ Forall (fun r => 0 <= rq_timeout_diff (rq_of q1 r)) l /\ total q1 l <= k /\ dues q1 0 l = dues q 0 l.
Proof.
  intros H Hl Hd Ht. split_and!.
  - eapply linked_ext; [|exact Hl]. intros s Hs. by rewrite H.
  - rewrite Forall_forall in *. intros s Hs. rewrite H by done. auto.
  - by rewrite (time_ext q q1) by (intros s Hs; by rewrite H).
  - apply dues_ext. intros s Hs. by rewrite H.
Qed.

(** ** Append *)

Lemma last_cons_default (r d : Z) l : List.last (r :: l) d = List.last l r.
Proof. revert r d. induction l as [|x l IH]; intros r d; [done|]. change (List.last (x :: l) d = List.last (x :: l) r). by rewrite !IH. Qed.
Lemma append_walk_ok q l a fuel head t :
  linked q a l NULL -> Forall (fun r => 0 <= rq_timeout_diff (rq_of q r)) l -> 0 <= t -> t + total q l <= MQTT_REQ_TIMEOUT -> (length l < fuel)%nat ->
  loop fuel (fun '(iter, head, time_before) =>
    if iter =? NULL then inr (head, time_before)
    else inl (rq_next (rq_of q iter), iter, s16 (time_before + rq_timeout_diff (rq_of q iter)))) (a, head, t) = Some (List.last l head, t + total q l).
Proof.
  revert a fuel head t. induction l as [|r l IH]; intros a [|fuel] head t Hl Hd Ht Hs Hf; try (simpl in Hf; lia); cbn [loop].
  - rewrite Hl. cbn. by rewrite Z.add_0_r.
  - destruct Hl as (-> & Hr & Hl). apply Forall_cons_1 in Hd as [Hd1 Hd]. rewrite (proj2 (Z.eqb_neq r NULL)) by done. cbn [total] in Hs. pose proof (time_nonneg _ _ Hd).
    unfold MQTT_REQ_TIMEOUT in *. rewrite s16_small by lia. rewrite IH; [|done|done|lia|unfold MQTT_REQ_TIMEOUT; lia|simpl in Hf; lia]. f_equal. f_equal; [by rewrite last_cons_default|cbn [total]; lia].
Qed.

(** The request [r] is put behind the others. *)
Lemma append_ok q r_objs tail l out r fuel :
  requests_ok q r_objs tail l (r :: out) -> (length l < fuel)%nat ->
  exists q' tail', mqtt_append_request fuel q tail r = Some (q', tail') /\ requests_ok q' r_objs tail' (l ++ [r]) out /\
    dues q' 0 (l ++ [r]) = dues q 0 l ++ [(rq_pkt_id (rq_of q r), MQTT_REQ_TIMEOUT)].
Proof.
  intros [Hp Hl Hn Hi Hd Ht Hout Hfree] Hf. apply Forall_cons_1 in Hout as [Hrn Hout]. unfold mqtt_append_request, append_walk. rewrite (append_walk_ok q l) by (done || lia). cbn [mbind option_bind]. cbv zeta. rewrite Z.add_0_l.
  pose proof (time_nonneg _ _ Hd) as Hpos. rewrite u16_small by (unfold MQTT_REQ_TIMEOUT in *; lia). set (q1 := upd_rq q r _).
  assert (Hrl : r ∉ l) by (intros H; apply NoDup_app in Hn as (_ & Hn & _); apply (Hn r H); left).
  assert (Hr0 : r <> NULL) by (apply Forall_app in Hi as [_ Hi]; apply Forall_cons_1 in Hi as [Hi _]; by eapply obj_pos).
  assert (H1 : forall s, s ∈ l -> rq_of q1 s = rq_of q s) by (intros s Hs; apply rq_upd_ne; by intros ->).
  assert (Hr1 : rq_of q1 r = rq_set_diff (MQTT_REQ_TIMEOUT - total q l) (rq_of q r)) by apply rq_upd_eq.
  (* the objects that keep all but their place in the list *)
  assert (Hgen : forall q' tail', (forall s, rq_timeout_diff (rq_of q' s) = rq_timeout_diff (rq_of q1 s)) -> (forall s, rq_pkt_id (rq_of q' s) = rq_pkt_id (rq_of q1 s)) ->
            linked q' tail' (l ++ [r]) NULL -> (forall s, s ∉ l ++ [r] -> rq_next (rq_of q' s) = rq_next (rq_of q s)) ->
            requests_ok q' r_objs tail' (l ++ [r]) out /\ dues q' 0 (l ++ [r]) = dues q 0 l ++ [(rq_pkt_id (rq_of q r), MQTT_REQ_TIMEOUT)]).
  { intros q' tail' Hdf Hid Hlk Hfr. assert (Et : total q' l = total q l) by (apply time_ext; intros s Hs; by rewrite Hdf, H1).
    assert (Er : rq_timeout_diff (rq_of q' r) = MQTT_REQ_TIMEOUT - total q l) by (by rewrite Hdf, Hr1).
    assert (Ea : (l ++ [r]) ++ out = l ++ r :: out) by (by rewrite <- app_assoc). split.
    - split; rewrite ?Ea; auto.
      + apply Forall_app. split; [|apply Forall_singleton; lia]. rewrite Forall_forall in *. intros s Hs. rewrite Hdf, H1 by done. by apply Hd.
      + rewrite time_app. cbn [total]. lia.
      + rewrite Forall_forall in *. intros s Hs. rewrite Hfr; [by apply Hout|]. rewrite <- Ea in Hn. apply NoDup_app in Hn as (_ & Hn & _). intros H. by apply (Hn s H).
      + intros s Hs Hns. rewrite Hfr; [by apply Hfree|]. rewrite <- Ea, not_elem_of_app in Hns. tauto.
    - rewrite dues_app. f_equal; [apply dues_ext; intros s Hs; by rewrite Hid, Hdf, H1|]. cbn [dues]. rewrite Et, Er, Hid, Hr1. cbn. do 3 f_equal. lia. }
  destruct l as [|x l _] using rev_ind.
  - exists q1, r. cbn [List.last]. change (NULL =? NULL) with true. split; [done|]. apply Hgen; [done|done| |].
    + cbn. split_and!; [done|done|]. by rewrite Hr1.
    + intros s Hs. unfold q1. rewrite rq_upd_ne; [done|]. intros ->. apply Hs. left.
  - rewrite List.last_last. apply linked_snoc in Hl as (Hl & Hx & Hxn). rewrite (proj2 (Z.eqb_neq x NULL)) by done.
    assert (Hxr : x <> r) by (intros ->; apply Hrl; apply elem_of_app; right; apply list_elem_of_singleton; done).
    apply NoDup_app in Hn as (Hn & _ & _). apply NoDup_app in Hn as (_ & Hxl & _). eexists _, _. split; [done|]. apply Hgen.
    + intros s. rewrite rq_upd. by destruct (decide _) as [->|].
    + intros s. rewrite rq_upd. by destruct (decide _) as [->|].
    + rewrite linked_snoc. rewrite linked_snoc. rewrite rq_upd_eq, rq_upd_ne, Hr1 by done. split_and!; try done.
      eapply linked_ext; [|exact Hl]. intros s Hs. rewrite rq_upd_ne by (intros ->; apply (Hxl s Hs); by left). by rewrite H1 by (apply elem_of_app; by left).
    + intros s Hs. rewrite !not_elem_of_app, !not_elem_of_cons in Hs. unfold q1. rewrite !rq_upd_ne by (intros ->; tauto). done.
Qed.

(** ** Create and delete *)

Lemma linked_next_ne q a l r : linked q a l NULL -> NoDup l -> r ∈ l -> rq_next (rq_of q r) <> r.
Proof.
  revert a. induction l as [|x l IH]; intros a H Hn Hr; [by apply not_elem_of_nil in Hr|]. destruct H as (-> & Hx & Hl). apply NoDup_cons in Hn as [Hxl Hn].
  apply elem_of_cons in Hr as [->|Hr]; [|by eapply IH]. destruct l as [|y l]; cbn in Hl; [congruence|]. destruct Hl as (-> & _). intros ->. apply Hxl. left.
Qed.
Lemma objs_nodup r_objs : NoDup (request_objs r_objs).
Proof. unfold request_objs, SIZEOF_MQTT_REQUEST. cbn [map]. repeat (apply NoDup_cons; split; [rewrite ?not_elem_of_cons; split_and?; try lia; apply not_elem_of_nil|]). constructor. Qed.

(** There are four objects; one that points to itself is in nobody's hands. *)
Lemma create_ok q r_objs tail l out pkt_id cb arg :
  requests_ok q r_objs tail l out ->
  let '(q', r) := mqtt_create_request q r_objs pkt_id cb arg in
  if decide (length (l ++ out) = 4%nat) then r = NULL /\ q' = q
  else r <> NULL /\ requests_ok q' r_objs tail l (r :: out) /\ dues q' 0 l = dues q 0 l /\ rq_pkt_id (rq_of q' r) = pkt_id.
Proof.
  intros [Hp Hl Hn Hi Hd Ht Hout Hfree]. unfold mqtt_create_request. destruct (List.find _ _) as [r|] eqn:E.
  - apply List.find_some in E as [Hr Er]. apply list_elem_of_In in Hr. apply Z.eqb_eq in Er. assert (Hr0 : r <> NULL) by by eapply obj_pos.
    assert (Hx : r ∉ l ++ out).
    { rewrite elem_of_app. intros [H|H]; [|rewrite Forall_forall in Hout; specialize (Hout r H); congruence]. apply (linked_next_ne q tail l r); auto. by apply NoDup_app in Hn as (Hn & _). }
    assert (Hle : (length (r :: l ++ out) <= 4)%nat).
    { apply (submseteq_length (r :: l ++ out) (request_objs r_objs)). apply NoDup_submseteq; [by apply NoDup_cons|]. intros x Hxx. apply elem_of_cons in Hxx as [->|Hxx]; [done|]. rewrite Forall_forall in Hi. by apply Hi. }
    rewrite decide_False by (simpl in Hle; lia). set (q1 := upd_rq _ _ _). assert (Hne : forall s, s ∈ l ++ out -> rq_of q1 s = rq_of q s) by (intros s Hs; apply rq_upd_ne; by intros ->).
    assert (Hnl : forall s, s ∈ l -> rq_of q1 s = rq_of q s) by (intros s Hs; apply Hne, elem_of_app; by left).
    destruct (list_frame q q1 tail l _ Hnl Hl Hd Ht) as (Hl' & Hd' & Ht' & Hdu). split_and!; [done| |done|unfold q1; by rewrite rq_upd_eq]. split; auto.
    + rewrite <- Permutation_middle. by apply NoDup_cons.
    + rewrite <- Permutation_middle. by apply Forall_cons.
    + apply Forall_cons. split; [unfold q1; by rewrite rq_upd_eq|]. rewrite Forall_forall in *. intros s Hs. rewrite Hne by (apply elem_of_app; by right). by apply Hout.
    + intros s Hs Hns. rewrite not_elem_of_app, not_elem_of_cons in Hns. unfold q1. rewrite rq_upd_ne by (intros ->; tauto). apply Hfree; [done|]. rewrite not_elem_of_app. tauto.
  - rewrite decide_True; [done|]. apply (Nat.le_antisymm _ 4).
    + apply (submseteq_length _ (request_objs r_objs)). apply NoDup_submseteq; [done|]. intros x Hx. rewrite Forall_forall in Hi. by apply Hi.
    + apply (submseteq_length (request_objs r_objs)). apply NoDup_submseteq; [apply objs_nodup|]. intros x Hx. destruct (decide (x ∈ l ++ out)) as [|Hno]; [done|].
      pose proof (Hfree x Hx Hno) as H. apply list_elem_of_In in Hx. apply (List.find_none _ _ E) in Hx. cbn in Hx. rewrite H in Hx. by rewrite Z.eqb_refl in Hx.
Qed.

Lemma delete_ok q r_objs tail l out r :
  requests_ok q r_objs tail l (r :: out) -> requests_ok (mqtt_delete_request q r) r_objs tail l out /\ dues (mqtt_delete_request q r) 0 l = dues q 0 l.
Proof.
  intros [Hp Hl Hn Hi Hd Ht Hout Hfree]. rewrite <- Permutation_middle in Hn, Hi. apply NoDup_cons in Hn as [Hx Hn]. apply Forall_cons in Hi as [Hr Hi]. apply Forall_cons in Hout as [Hrn Hout].
  unfold mqtt_delete_request. rewrite (proj2 (Z.eqb_neq r NULL)) by (by eapply obj_pos). cbn [negb]. set (q1 := upd_rq _ _ _).
  assert (Hne : forall s, s ∈ l ++ out -> rq_of q1 s = rq_of q s) by (intros s Hs; apply rq_upd_ne; by intros ->).
  assert (Hnl : forall s, s ∈ l -> rq_of q1 s = rq_of q s) by (intros s Hs; apply Hne, elem_of_app; by left).
  destruct (list_frame q q1 tail l _ Hnl Hl Hd Ht) as (Hl' & Hd' & Ht' & Hdu). split; [|done]. split; auto.
  - rewrite Forall_forall in *. intros s Hs. rewrite Hne by (apply elem_of_app; by right). by apply Hout.
  - intros s Hs Hns. destruct (decide (r = s)) as [->|Hne2]; [unfold q1; by rewrite rq_upd_eq|]. unfold q1. rewrite rq_upd_ne by done. apply Hfree; [done|].
    rewrite <- Permutation_middle. rewrite not_elem_of_cons. naive_solver.
Qed.

(** ** Take and clear *)

(** The first entry with an identifier, and the others. *)
Fixpoint remove_id (id : Z) (d : list (Z * Z)) : list (Z * Z) :=
  match d with [] => [] | x :: d => if x.1 =? id then d else x :: remove_id id d end.
Definition has_id (q : requests) (id r : Z) : bool := rq_pkt_id (rq_of q r) =? id.

Lemma take_walk_ok q l a fuel prev id :
  linked q a l NULL -> (length l < fuel)%nat ->
  exists iter pr,
    loop fuel (fun '(iter, prev) =>
      if iter =? NULL then inr (iter, prev)
      else if rq_pkt_id (rq_of q iter) =? id then inr (iter, prev)
      else inl (rq_next (rq_of q iter), iter)) (a, prev) = Some (iter, pr) /\
    if decide (Exists (fun r => has_id q id r = true) l)
    then exists l1 l2, l = l1 ++ iter :: l2 /\ pr = List.last l1 prev /\ has_id q id iter = true /\ Forall (fun r => has_id q id r = false) l1
    else iter = NULL.
Proof.
  revert a fuel prev. induction l as [|r l IH]; intros a [|fuel] prev Hl Hf; try (simpl in Hf; lia); cbn [loop].
  - rewrite Hl. exists NULL, prev. split; [done|]. rewrite decide_False; [done|]. by intros H%Exists_nil.
  - destruct Hl as (-> & Hr & Hl). rewrite (proj2 (Z.eqb_neq r NULL)) by done. destruct (rq_pkt_id (rq_of q r) =? id) eqn:E.
    + exists r, prev. split; [done|]. rewrite decide_True by (by left). exists [], l. split_and!; [done|done|done|constructor].
    + destruct (IH _ fuel r Hl ltac:(simpl in Hf; lia)) as (iter & pr & -> & H). exists iter, pr. split; [done|].
      destruct (decide (Exists _ l)) as [D|D].
      * rewrite decide_True by (by right). destruct H as (l1 & l2 & -> & -> & H1 & H2). exists (r :: l1), l2. split_and!; [done|by rewrite last_cons_default|done|by constructor].
      * rewrite decide_False; [done|]. rewrite Exists_cons. unfold has_id at 1. rewrite E. intros [?|?]; [congruence|tauto].
Qed.

Lemma remove_none q t l id : ~ Exists (fun r => has_id q id r = true) l -> remove_id id (dues q t l) = dues q t l.
Proof.
  revert t. induction l as [|r l IH]; intros t H; [done|]. rewrite Exists_cons in H. cbn [dues remove_id fst]. fold (has_id q id r).
  destruct (has_id q id r); [tauto|]. f_equal. apply IH. tauto.
Qed.
Lemma remove_first q t l1 r l2 id :
  Forall (fun s => has_id q id s = false) l1 -> has_id q id r = true ->
  remove_id id (dues q t (l1 ++ r :: l2)) = dues q t l1 ++ dues q (t + total q l1 + rq_timeout_diff (rq_of q r)) l2.
Proof.
  intros H1 Hr. revert t. induction H1 as [|x l1 Hx H1 IH]; intros t; cbn [app dues remove_id fst total].
  - fold (has_id q id r). rewrite Hr. cbn [app]. do 2 f_equal. lia.
  - fold (has_id q id x). rewrite Hx. f_equal. rewrite IH. do 2 f_equal. lia.
Qed.

(** The object [r] between [l1] and [l2] is unchained. *)
Lemma unchain_ok q tail l1 l2 r :
  linked q tail l1 r -> linked q (rq_next (rq_of q r)) l2 NULL -> NoDup (l1 ++ l2) ->
  let '(q', tail') := if List.last l1 NULL =? NULL then (q, rq_next (rq_of q r)) else (upd_rq q (List.last l1 NULL) (rq_set_next (rq_next (rq_of q r))), tail) in
  linked q' tail' (l1 ++ l2) NULL /\ (forall s, s ∉ l1 -> rq_of q' s = rq_of q s) /\
  (forall s, rq_pkt_id (rq_of q' s) = rq_pkt_id (rq_of q s) /\ rq_timeout_diff (rq_of q' s) = rq_timeout_diff (rq_of q s)).
Proof.
  intros H1 H2 Hn. destruct l1 as [|x l1 _] using rev_ind; [done|]. rewrite List.last_last. apply linked_snoc in H1 as (H1 & Hx & Hr). rewrite (proj2 (Z.eqb_neq x NULL)) by done.
  assert (Hs : forall s, s ∈ l1 \/ s ∈ l2 -> x <> s).
  { rewrite <- app_assoc in Hn. cbn [app] in Hn. rewrite <- Permutation_middle in Hn. apply NoDup_cons in Hn as [Hn _]. rewrite elem_of_app in Hn. by intros s ? <-. }
  split_and!.
  - apply linked_app. exists (rq_next (rq_of q r)). rewrite linked_snoc, rq_upd_eq. split_and!; [|done|done|].
    + eapply linked_ext; [|exact H1]. intros s ?. by rewrite rq_upd_ne by auto.
    + eapply linked_ext; [|exact H2]. intros s ?. by rewrite rq_upd_ne by auto.
  - intros s Hns. apply rq_upd_ne. intros ->. apply Hns, elem_of_app. right. left.
  - intros s. rewrite rq_upd. by destruct (decide _) as [->|].
Qed.
(** The first object of [l2] gets [d] seconds more. *)
Lemma add_diff_ok q a l2 d :
  linked q a l2 NULL -> NoDup l2 -> Forall (fun r => 0 <= rq_timeout_diff (rq_of q r)) l2 -> 0 <= d -> total q l2 + d < 65536 ->
  let q' := if negb (a =? NULL) then upd_rq q a (fun x => rq_set_diff (u16 (rq_timeout_diff x + d)) x) else q in
  (forall s, s ∉ l2 -> rq_of q' s = rq_of q s) /\ (forall s, rq_next (rq_of q' s) = rq_next (rq_of q s)) /\
  (forall t, dues q' t l2 = dues q (t + d) l2) /\ total q' l2 <= total q l2 + d /\ Forall (fun r => 0 <= rq_timeout_diff (rq_of q' r)) l2.
Proof.
  intros Hl Hn Hd Hp Ht. destruct l2 as [|r l2]; [cbn in Hl; rewrite Hl; cbn; split_and!; auto; lia|]. destruct Hl as (-> & Hr & Hl). rewrite (proj2 (Z.eqb_neq r NULL)) by done. cbn [negb]. cbv zeta.
  apply Forall_cons in Hd as [Hd1 Hd]. apply NoDup_cons in Hn as [Hrl Hn]. cbn [total] in *. pose proof (time_nonneg _ _ Hd).
  assert (Hs : forall f s, s ∈ l2 -> rq_of (upd_rq q r f) s = rq_of q s) by (intros f s ?; apply rq_upd_ne; by intros ->). split_and!.
  - intros s Hns. apply rq_upd_ne. intros ->. apply Hns. left.
  - intros s. rewrite rq_upd. by destruct (decide _) as [->|].
  - intros t. cbn [dues]. rewrite rq_upd_eq. cbn. rewrite u16_small by lia. replace (t + (rq_timeout_diff (rq_of q r) + d)) with (t + d + rq_timeout_diff (rq_of q r)) by lia. f_equal.
    apply dues_ext. intros s ?. by rewrite Hs.
  - rewrite rq_upd_eq. cbn. rewrite u16_small by lia. rewrite (time_ext q) by (intros s ?; by rewrite Hs). lia.
  - apply Forall_cons. rewrite rq_upd_eq. cbn. rewrite u16_small by lia. split; [lia|]. rewrite Forall_forall in *. intros s ?. rewrite Hs by done. auto.
Qed.

(** The time of the request that is taken is added to that of the one behind it. *)
Lemma take_ok q r_objs tail l out id fuel :
  requests_ok q r_objs tail l out -> (length l < fuel)%nat ->
  exists q' tail' r l', mqtt_take_request fuel q tail id = Some (q', tail', r) /\ dues q' 0 l' = remove_id id (dues q 0 l) /\
    if decide (Exists (fun r => has_id q id r = true) l)
    then r ∈ l /\ has_id q id r = true /\ requests_ok q' r_objs tail' l' (r :: out) /\ length l = S (length l')
    else r = NULL /\ q' = q /\ tail' = tail /\ l' = l.
Proof.
  intros Hok Hf. destruct Hok as [Hp Hl Hn Hi Hd Ht Hout Hfree]. unfold mqtt_take_request, take_walk. destruct (take_walk_ok q l tail fuel NULL id Hl Hf) as (r & pr & -> & H). cbn [mbind option_bind].
  destruct (decide (Exists _ l)) as [D|D]; [|subst r; exists q, tail, NULL, l; split_and!; [done|symmetry; by apply remove_none|done..]].
  destruct H as (l1 & l2 & -> & -> & Hid & H1). rewrite linked_app in Hl. destruct Hl as (c & Hl1 & -> & Hr0 & Hl2). rewrite (proj2 (Z.eqb_neq r NULL)) by done. cbn [negb]. cbv zeta.
  rewrite <- app_assoc in Hn, Hi. cbn [app] in Hn, Hi. rewrite <- Permutation_middle in Hn, Hi. apply NoDup_cons in Hn as [Hr Hn]. apply Forall_cons in Hi as [Hri Hi].
  assert (Hn2 : NoDup (l1 ++ l2)) by (rewrite app_assoc in Hn; by apply NoDup_app in Hn as (Hn & _)).
  pose proof (unchain_ok q tail l1 l2 r Hl1 Hl2 Hn2) as Hu. destruct (if List.last l1 NULL =? NULL then _ else _) as [qa tail']. destruct Hu as (Hla & Hfa & Hsa).
  rewrite !not_elem_of_app in Hr. destruct Hr as (Hr1 & Hr2 & Hr3). apply Forall_app in Hd as [Hd1 Hd2]. apply Forall_cons in Hd2 as [Hdr Hd2]. rewrite time_app in Ht. cbn [total] in Ht.
  pose proof (time_nonneg _ _ Hd1). pose proof (time_nonneg _ _ Hd2). apply NoDup_app in Hn2 as (Hn1 & Hd12 & Hn2).
  assert (Hfr : forall s, s ∈ l2 -> rq_of qa s = rq_of q s) by (intros s Hs; apply Hfa; intros Hx; by apply (Hd12 s)).
  destruct (add_diff_ok qa (rq_next (rq_of q r)) l2 (rq_timeout_diff (rq_of qa r))) as (Hb1 & Hb2 & Hb3 & Hb4 & Hb5).
  { eapply linked_ext; [|exact Hl2]. intros s Hs. by rewrite Hfr. }
  { done. } { rewrite Forall_forall in *. intros s Hs. rewrite Hfr by done. auto. } { by rewrite (proj2 (Hsa r)). }
  { rewrite (proj2 (Hsa r)), (time_ext q qa) by (intros s Hs; by rewrite Hfr). unfold MQTT_REQ_TIMEOUT in *. lia. }
  set (qb := if negb _ then _ else _) in *. clearbody qb. eexists _, tail', r, (l1 ++ l2). split; [done|].
  set (qc := upd_rq qb r (rq_set_next NULL)).
  assert (Hc : forall s, s <> r -> rq_of qc s = rq_of qb s) by (intros s ?; by apply rq_upd_ne).
  assert (Hc1 : forall s, s ∈ l1 -> rq_pkt_id (rq_of qc s) = rq_pkt_id (rq_of q s) /\ rq_timeout_diff (rq_of qc s) = rq_timeout_diff (rq_of q s)).
  { intros s Hs. rewrite Hc by (by intros ->). rewrite Hb1 by auto. apply Hsa. }
  assert (Hc2 : forall s, s ∈ l2 -> rq_of qc s = rq_of qb s) by (intros s Hs; apply Hc; by intros ->).
  assert (Et1 : total qc l1 = total q l1) by (apply time_ext; intros s Hs; apply (Hc1 s Hs)).
  assert (Et2 : total qc l2 = total qb l2) by (apply time_ext; intros s Hs; by rewrite Hc2).
  rewrite (proj2 (Hsa r)) in Hb3, Hb4. rewrite (time_ext q qa) in Hb4 by (intros s Hs; by rewrite Hfr). split.
  - rewrite remove_first by done. rewrite dues_app, Et1. f_equal; [by apply dues_ext|]. rewrite (dues_ext qb qc) by (intros s Hs; by rewrite Hc2). rewrite Hb3. apply dues_ext. intros s Hs. by rewrite Hfr.
  - rewrite !length_app. cbn [length]. split_and!; [apply elem_of_app; right; left|done| |lia]. split; auto.
    + eapply linked_ext; [|exact Hla]. intros s Hs. rewrite Hc; [apply Hb2|]. intros ->. apply elem_of_app in Hs. tauto.
    + rewrite <- Permutation_middle. rewrite <- app_assoc. apply NoDup_cons. rewrite !not_elem_of_app. tauto.
    + rewrite <- Permutation_middle. rewrite <- app_assoc. by apply Forall_cons.
    + apply Forall_app. rewrite !Forall_forall in *. split; intros s Hs; [rewrite (proj2 (Hc1 s Hs))|rewrite Hc2 by done]; auto.
    + rewrite time_app. lia.
    + apply Forall_cons. split; [unfold qc; by rewrite rq_upd_eq|]. rewrite Forall_forall in *. intros s Hs. rewrite Hc by (by intros ->). rewrite Hb2, Hfa by (intros Hx; apply NoDup_app in Hn as (_ & Hn & _); apply (Hn s Hx), elem_of_app; by right). auto.
    + intros s Hs Hns. rewrite !not_elem_of_app, not_elem_of_cons in Hns. rewrite Hc by tauto. rewrite Hb2, Hfa by tauto. apply Hfree; [done|]. rewrite !not_elem_of_app, not_elem_of_cons. tauto.
Qed.

(** The first object leaves the list and is freed. *)
Lemma pop_ok q r_objs r l out :
  requests_ok q r_objs r (r :: l) out ->
  requests_ok (mqtt_delete_request q r) r_objs (rq_next (rq_of q r)) l out /\ dues (mqtt_delete_request q r) 0 l = dues q 0 l.
Proof.
  intros [Hp (_ & Hr & Hl) Hn Hi Hd Ht Hout Hfree]. unfold mqtt_delete_request. rewrite (proj2 (Z.eqb_neq r NULL)) by done. cbn [negb]. set (q1 := upd_rq q r (rq_set_next r)).
  cbn [app] in Hn, Hi, Hfree. apply NoDup_cons in Hn as [Hrn Hn]. apply Forall_cons in Hi as [Hri Hi]. apply Forall_cons in Hd as [Hd1 Hd]. cbn [total] in Ht.
  assert (Hs : forall s, s ∈ l ++ out -> rq_of q1 s = rq_of q s) by (intros s ?; apply rq_upd_ne; by intros ->).
  assert (Hsl : forall s, s ∈ l -> rq_of q1 s = rq_of q s) by (intros s ?; apply Hs, elem_of_app; by left).
  destruct (list_frame q q1 (rq_next (rq_of q r)) l MQTT_REQ_TIMEOUT Hsl Hl Hd ltac:(lia)) as (Hl' & Hd' & Ht' & Hdu). split; [|done]. split; auto.
  - rewrite Forall_forall in *. intros s ?. rewrite Hs by (apply elem_of_app; by right). auto.
  - intros s Hso Hns. destruct (decide (r = s)) as [->|Hne]; [unfold q1; by rewrite rq_upd_eq|]. unfold q1. rewrite rq_upd_ne by done. apply Hfree; [done|]. rewrite not_elem_of_cons. naive_solver.
Qed.
(** Clearing frees the objects of the list. *)
Lemma clear_ok q r_objs tail l out fuel :
  requests_ok q r_objs tail l out -> (length l < fuel)%nat -> exists q', mqtt_clear_requests fuel q tail = Some q' /\ requests_ok q' r_objs NULL [] out.
Proof.
  unfold mqtt_clear_requests. revert q tail fuel. induction l as [|r l IH]; intros q tail [|fuel] Hok Hf; try (simpl in Hf; lia); cbn [loop].
  - destruct Hok as [Hp Hl Hn Hi Hd Ht Hout Hfree]. cbn in Hl. subst tail. eexists. split; [done|]. by split.
  - destruct (ro_linked _ _ _ _ _ Hok) as (-> & Hr & _). rewrite (proj2 (Z.eqb_neq r NULL)) by done. apply pop_ok in Hok as [Hok _]. apply (IH _ _ fuel Hok). simpl in Hf. lia.
Qed.

(** ** The requests of a client *)

Lemma requests_at_most q r_objs tail l out : requests_ok q r_objs tail l out -> (length (l ++ out) <= 4)%nat.
Proof.
  intros H. apply (submseteq_length (l ++ out) (request_objs r_objs)). apply NoDup_submseteq; [apply (ro_nodup _ _ _ _ _ H)|]. intros x Hx.
  pose proof (ro_in _ _ _ _ _ H) as Hi. rewrite Forall_forall in Hi. auto.
Qed.
Lemma init_ok q r_objs : 0 < r_objs -> requests_ok (mqtt_init_requests q r_objs) r_objs NULL [] [].
Proof.
  intros Hp. split; try done; try constructor; try (unfold MQTT_REQ_TIMEOUT; cbn; lia). intros r Hr _. unfold mqtt_init_requests. pose proof (objs_nodup r_objs) as Hn.
  revert q Hn Hr. generalize (request_objs r_objs). intros l. induction l as [|x l IH] using rev_ind; intros q Hn Hr; [by apply not_elem_of_nil in Hr|].
  rewrite foldl_app. cbn [foldl]. rewrite rq_upd. destruct (decide (x = r)) as [->|Hne]; [done|]. apply NoDup_app in Hn as (Hn & _). apply IH; [done|].
  apply elem_of_app in Hr as [Hr|Hr]; [done|]. apply list_elem_of_singleton in Hr. congruence.
Qed.
Lemma ids_of_dues q t l : (dues q t l).*1 = (fun r => rq_pkt_id (rq_of q r)) <$> l.
Proof. revert t. induction l as [|r l IH]; intros t; [done|]. cbn. f_equal. apply IH. Qed.
Lemma has_id_exists q id l t : Exists (fun r => has_id q id r = true) l <-> id ∈ (dues q t l).*1.
Proof.
  rewrite ids_of_dues, list_elem_of_fmap, Exists_exists. unfold has_id. split; intros (r & H1 & H2); exists r; [apply Z.eqb_eq in H2|split; [|apply Z.eqb_eq]]; naive_solver.
Qed.

(** C22: The request objects of a client behave as a list of at most four pairs of a packet
    identifier and the seconds that are left for the answer: a new request is put at the
    end with 30 seconds, or refused when there are four; an answer takes out the first
    request with its identifier and leaves the time of every other one alone; clearing
    leaves none. In each case the objects are partitioned into those of the list and the free
    ones. *)
Theorem requests_refine q r_objs tail l fuel (H : requests_ok q r_objs tail l []) (Hf : (4 < fuel)%nat) :
  (forall id cb arg, let '(q1, r) := mqtt_create_request q r_objs id cb arg in
     if decide (length l = 4%nat) then r = NULL /\ q1 = q
     else exists q2 tail2, mqtt_append_request fuel q1 tail r = Some (q2, tail2) /\ requests_ok q2 r_objs tail2 (l ++ [r]) [] /\
            dues q2 0 (l ++ [r]) = dues q 0 l ++ [(id, MQTT_REQ_TIMEOUT)]) /\
  (forall id, exists q1 tail1 r l1, mqtt_take_request fuel q tail id = Some (q1, tail1, r) /\
     requests_ok (mqtt_delete_request q1 r) r_objs tail1 l1 [] /\ dues (mqtt_delete_request q1 r) 0 l1 = remove_id id (dues q 0 l) /\
     (r <> NULL <-> id ∈ (dues q 0 l).*1)) /\
  (exists q1, mqtt_clear_requests fuel q tail = Some q1 /\ requests_ok q1 r_objs NULL [] []).
Proof.
  pose proof (requests_at_most _ _ _ _ _ H) as Hle. rewrite app_nil_r in Hle. split_and!.
  - intros id cb arg. pose proof (create_ok q r_objs tail l [] id cb arg H) as Hc. destruct (mqtt_create_request _ _ _ _ _) as [q1 r]. rewrite app_nil_r in Hc.
    destruct (decide _); [done|]. destruct Hc as (_ & Hok & Hd & <-). destruct (append_ok _ _ _ _ _ _ fuel Hok ltac:(lia)) as (q2 & tail2 & Ha & Hok2 & Hd2). exists q2, tail2. by rewrite Hd2, Hd.
  - intros id. destruct (take_ok _ _ _ _ _ id fuel H ltac:(lia)) as (q1 & tail1 & r & l1 & Ht & Hd & Hc). exists q1, tail1, r, l1. split; [done|]. rewrite <- has_id_exists.
    destruct (decide _) as [D|D].
    + destruct Hc as (Hr & _ & Hok & _). destruct (delete_ok _ _ _ _ _ _ Hok) as [Hok2 ->]. split_and!; [done|done|]. split; [done|]. intros _. pose proof (ro_in _ _ _ _ _ H) as Hi. rewrite app_nil_r, Forall_forall in Hi. eapply obj_pos; [apply (ro_objs _ _ _ _ _ H)|auto].
    + destruct Hc as (-> & -> & -> & ->). done.
  - apply (clear_ok q r_objs tail l [] fuel H). lia.
Qed.
(** Two requests that wait, and the answer to the first one. *)
Definition two_requests : option (requests * Z) :=
  let q := mqtt_init_requests ∅ 2028 in
  let '(q, r) := mqtt_create_request q 2028 7 0 0 in
  '(q, tail) ← mqtt_append_request 5 q NULL r;
  let '(q, r) := mqtt_create_request q 2028 8 0 0 in mqtt_append_request 5 q tail r.
