(* ===== verification/Mqtt.v ===== *)
(** * [apps/mqtt/mqtt.c]: the MQTT client

    A client of TCP: messages go out through a ring buffer, come in through a buffer for
    headers, and wait for their answers in the list of [MqttReq].  The buffers of a client
    are in the byte memory, its other members in a record. *)

From Stdlib Require Import ZArith Lia.
From stdpp Require Import base tactics numbers list option gmap.
From S2P Require Import Prelude.
From S2P Require Import Def.
From S2P Require Import Ip4Addr.
From S2P Require Import Alloc.
From S2P Require Import Mem.
From S2P Require Import Memp.
From S2P Require Import Pbuf.
From S2P Require Import Timeouts.
From S2P Require Import Etharp.
From S2P Require Import World.
From S2P Require Import AppTimers.
From S2P Require Import Ip4Frag.
From S2P Require Import Ip4.
From S2P Require Import Icmp.
From S2P Require Import Udp.
From S2P Require Import Tcp.
From S2P Require Import TcpOut.
From S2P Require Import TcpCore.
From S2P Require Import MqttReq.

Definition MQTT_OUTPUT_RINGBUF_SIZE : Z := 256.
Definition MQTT_VAR_HEADER_BUFFER_LEN : Z := 128.
Definition MQTT_CYCLIC_TIMER_INTERVAL : Z := 5.
Definition MQTT_CONNECT_TIMOUT : Z := 100.
Definition MQTT_RINGBUF_IDX_MASK : Z := MQTT_OUTPUT_RINGBUF_SIZE - 1.

(** The connection states; the first one is 0. *)
Inductive conn_state := TCP_DISCONNECTED | TCP_CONNECTING | MQTT_CONNECTING | MQTT_CONNECTED.
#[export] Instance conn_state_eq_dec : EqDecision conn_state.
Proof. solve_decision. Defined.

(** [enum mqtt_message_type] *)
Definition MQTT_MSG_TYPE_CONNECT : Z := 1.
Definition MQTT_MSG_TYPE_CONNACK : Z := 2.
Definition MQTT_MSG_TYPE_PUBLISH : Z := 3.
Definition MQTT_MSG_TYPE_PUBACK : Z := 4.
Definition MQTT_MSG_TYPE_PUBREC : Z := 5.
Definition MQTT_MSG_TYPE_PUBREL : Z := 6.
Definition MQTT_MSG_TYPE_PUBCOMP : Z := 7.
Definition MQTT_MSG_TYPE_SUBSCRIBE : Z := 8.
Definition MQTT_MSG_TYPE_SUBACK : Z := 9.
Definition MQTT_MSG_TYPE_UNSUBSCRIBE : Z := 10.
Definition MQTT_MSG_TYPE_UNSUBACK : Z := 11.
Definition MQTT_MSG_TYPE_PINGREQ : Z := 12.
Definition MQTT_MSG_TYPE_PINGRESP : Z := 13.
Definition MQTT_CTL_PACKET_TYPE (b : Z) : Z := Z.shiftr (Z.land b 0xf0) 4.
Definition MQTT_CTL_PACKET_QOS (b : Z) : Z := Z.shiftr (Z.land b 0x6) 1.
(** [enum mqtt_connect_flag] *)
Definition MQTT_CONNECT_FLAG_WILL_RETAIN : Z := Z.shiftl 1 5.
Definition MQTT_CONNECT_FLAG_WILL : Z := Z.shiftl 1 2.
Definition MQTT_CONNECT_FLAG_CLEAN_SESSION : Z := Z.shiftl 1 1.
(** [mqtt_connection_status_t] *)
Definition MQTT_CONNECT_ACCEPTED : Z := 0.
Definition MQTT_CONNECT_DISCONNECTED : Z := 256.
Definition MQTT_CONNECT_TIMEOUT : Z := 257.
Definition MQTT_DATA_FLAG_LAST : Z := 1.

(** [struct mqtt_connect_client_info_t]; pointers are addresses. *)
Record mqtt_connect_client_info_t := mk_client_info {
  ci_client_id : Z; ci_client_user : Z; ci_client_pass : Z; ci_keep_alive : Z;
  ci_will_topic : Z; ci_will_msg : Z; ci_will_qos : Z; ci_will_retain : Z }.

(** [struct mqtt_client_t] without its arrays; [mc_put] and [mc_get] are the indices of the
    ring buffer [output]. *)
Record mqtt_client_t := mk_client {
  mc_cyclic_tick : Z; mc_keep_alive : Z; mc_server_watchdog : Z; mc_pkt_id_seq : Z; mc_inpub_pkt_id : Z;
  mc_conn_state : conn_state; mc_conn : Z; mc_connect_arg : Z; mc_connect_cb : Z; mc_pend_req_queue : Z;
  mc_inpub_arg : Z; mc_data_cb : Z; mc_pub_cb : Z; mc_msg_idx : Z; mc_put : Z; mc_get : Z }.
Definition client_zero : mqtt_client_t := mk_client 0 0 0 0 0 TCP_DISCONNECTED 0 0 0 0 0 0 0 0 0 0.
Ltac mc_with f v c :=
  let b := constr:(mk_client (mc_cyclic_tick c) (mc_keep_alive c) (mc_server_watchdog c) (mc_pkt_id_seq c) (mc_inpub_pkt_id c)
    (mc_conn_state c) (mc_conn c) (mc_connect_arg c) (mc_connect_cb c) (mc_pend_req_queue c)
    (mc_inpub_arg c) (mc_data_cb c) (mc_pub_cb c) (mc_msg_idx c) (mc_put c) (mc_get c)) in
  match b with context C [f c] => let r := context C [v] in exact r end.
Definition mc_set_tick (v : Z) (c : mqtt_client_t) : mqtt_client_t := ltac:(mc_with mc_cyclic_tick v c).
Definition mc_set_keep_alive (v : Z) (c : mqtt_client_t) : mqtt_client_t := ltac:(mc_with mc_keep_alive v c).
Definition mc_set_watchdog (v : Z) (c : mqtt_client_t) : mqtt_client_t := ltac:(mc_with mc_server_watchdog v c).
Definition mc_set_pkt_id_seq (v : Z) (c : mqtt_client_t) : mqtt_client_t := ltac:(mc_with mc_pkt_id_seq v c).
Definition mc_set_inpub_pkt_id (v : Z) (c : mqtt_client_t) : mqtt_client_t := ltac:(mc_with mc_inpub_pkt_id v c).
Definition mc_set_state (v : conn_state) (c : mqtt_client_t) : mqtt_client_t := ltac:(mc_with mc_conn_state v c).
Definition mc_set_conn (v : Z) (c : mqtt_client_t) : mqtt_client_t := ltac:(mc_with mc_conn v c).
Definition mc_set_connect_arg (v : Z) (c : mqtt_client_t) : mqtt_client_t := ltac:(mc_with mc_connect_arg v c).
Definition mc_set_connect_cb (v : Z) (c : mqtt_client_t) : mqtt_client_t := ltac:(mc_with mc_connect_cb v c).
Definition mc_set_queue (v : Z) (c : mqtt_client_t) : mqtt_client_t := ltac:(mc_with mc_pend_req_queue v c).
Definition mc_set_inpub_arg (v : Z) (c : mqtt_client_t) : mqtt_client_t := ltac:(mc_with mc_inpub_arg v c).
Definition mc_set_data_cb (v : Z) (c : mqtt_client_t) : mqtt_client_t := ltac:(mc_with mc_data_cb v c).
Definition mc_set_pub_cb (v : Z) (c : mqtt_client_t) : mqtt_client_t := ltac:(mc_with mc_pub_cb v c).
Definition mc_set_msg_idx (v : Z) (c : mqtt_client_t) : mqtt_client_t := ltac:(mc_with mc_msg_idx v c).
Definition mc_set_put (v : Z) (c : mqtt_client_t) : mqtt_client_t := ltac:(mc_with mc_put v c).
Definition mc_set_get (v : Z) (c : mqtt_client_t) : mqtt_client_t := ltac:(mc_with mc_get v c).

(** The arrays of the client at an address, and its size. *)
Definition SIZEOF_MQTT_CLIENT : Z := 496.
Definition req_list (client : Z) : Z := client + 28.
Definition rx_buffer (client : Z) : Z := client + 108.
Definition output_buf (client : Z) : Z := client + 240.

(** The clients and the request objects are a part of the external state of TCP. *)
Record mqtt_vars := mk_mqtt { client_at : gmap Z mqtt_client_t; request_at : requests }.
Class mqtt_store (X : Type) `{!timer_store X, !tcp_store X} := {
  mqtt_get : X -> mqtt_vars;
  mqtt_put : X -> mqtt_vars -> X;
  mqtt_get_put : forall x v, mqtt_get (mqtt_put x v) = v;
  mqtt_get_timers : forall x t, mqtt_get (timers_put x t) = mqtt_get x;
  mqtt_get_tcp : forall x t, mqtt_get (tcp_put x t) = mqtt_get x
}.

(** The functions of the application, given by their addresses. *)
Record mqtt_callbacks {X : Type} := mk_mcb {
  m_connect : Z -> world X -> Z -> Z -> Z -> option (world X);
  m_request : Z -> world X -> Z -> Z -> option (world X);
  m_data : Z -> world X -> Z -> Z -> Z -> Z -> option (world X);
  m_pub : Z -> world X -> Z -> Z -> Z -> option (world X)
}.
Arguments mqtt_callbacks : clear implicits.
Arguments mk_mcb {_}.

(** [mqtt_ringbuf_len(rb)], [mqtt_ringbuf_free(rb)], [mqtt_ringbuf_linear_read_length(rb)] *)
Definition mqtt_ringbuf_len (c : mqtt_client_t) : Z := u16 (mc_put c - mc_get c).
Definition mqtt_ringbuf_free (c : mqtt_client_t) : Z := MQTT_OUTPUT_RINGBUF_SIZE - mqtt_ringbuf_len c.
Definition mqtt_ringbuf_linear_read_length (c : mqtt_client_t) : Z :=
  Z.min (mqtt_ringbuf_len c) (MQTT_OUTPUT_RINGBUF_SIZE - Z.land (mc_get c) MQTT_RINGBUF_IDX_MASK).
(** [mqtt_ringbuf_get_ptr(rb)], [mqtt_ringbuf_advance_get_idx(rb, len)] *)
Definition mqtt_ringbuf_get_ptr (client : Z) (c : mqtt_client_t) : Z := output_buf client + Z.land (mc_get c) MQTT_RINGBUF_IDX_MASK.
Definition mqtt_ringbuf_advance_get_idx (len : Z) (c : mqtt_client_t) : mqtt_client_t := mc_set_get (u16 (mc_get c + len)) c.

(** [mqtt_output_check_space(rb, r_length)]; [length_size] bytes hold the remaining length,
    at most three for a [u16_t]. *)
Fixpoint length_size (n : nat) (total_len r_length : Z) : Z :=
  match n with
  | O => total_len
  | S n => let total_len := u16 (total_len + 1) in
           let r_length := Z.shiftr r_length 7 in
           if 0 <? r_length then length_size n total_len r_length else total_len
  end.
Definition mqtt_output_check_space (c : mqtt_client_t) (r_length : Z) : bool :=
  length_size 3 (u16 (1 + r_length)) r_length <=? mqtt_ringbuf_free c.

Section Mqtt.
Context {X : Type} `{!timer_store X, !tcp_store X, !mqtt_store X}.
Context (netif_output : world X -> Z -> Z -> Z -> option (world X * Z)).
Context (custom_free : pstate -> Z -> pstate) (fuel : nat).
Context (tcp_timer_needed : world X -> world X) (cb : tcp_callbacks X).
Context (tcp_recv_null_fn : Z) (mcb : mqtt_callbacks X).
(** The addresses of [mqtt_cyclic_timer] and of the functions that are passed to TCP. *)
Context (cyclic_fn recv_fn sent_fn err_fn poll_fn connect_fn : Z).
Implicit Types w : world X.

Definition mq w : mqtt_vars := mqtt_get (w_ext w).
Definition set_mq w (v : mqtt_vars) : world X := set_ext w (mqtt_put (w_ext w) v).
Definition mc w (client : Z) : mqtt_client_t := default client_zero (client_at (mq w) !! client).
Definition upd_mc w (client : Z) (f : mqtt_client_t -> mqtt_client_t) : world X :=
  set_mq w (mk_mqtt (<[client := f (mc w client)]> (client_at (mq w))) (request_at (mq w))).
Definition reqs w : requests := request_at (mq w).
Definition set_reqs w (q : requests) : world X := set_mq w (mk_mqtt (client_at (mq w)) q).

(** [msg_generate_packet_id(client)] *)
Definition msg_generate_packet_id w (client : Z) : world X * Z :=
  let w := upd_mc w client (fun c => mc_set_pkt_id_seq (u16 (mc_pkt_id_seq c + 1)) c) in
  let w := if mc_pkt_id_seq (mc w client) =? 0 then upd_mc w client (fun c => mc_set_pkt_id_seq (u16 (mc_pkt_id_seq c + 1)) c) else w in
  (w, mc_pkt_id_seq (mc w client)).

(** [mqtt_ringbuf_put(rb, item)] and the functions that append to the output *)
Definition mqtt_ringbuf_put w (client item : Z) : world X :=
  let w := set_wmem w (upd (wmem w) (output_buf client + Z.land (mc_put (mc w client)) MQTT_RINGBUF_IDX_MASK) (u8 item)) in
  upd_mc w client (fun c => mc_set_put (u16 (mc_put c + 1)) c).
Definition mqtt_output_append_u8 w (client value : Z) : world X := mqtt_ringbuf_put w client value.
Definition mqtt_output_append_u16 w (client value : Z) : world X :=
  mqtt_ringbuf_put (mqtt_ringbuf_put w client (Z.shiftr value 8)) client (Z.land value 0xff).
Fixpoint mqtt_output_append_buf w (client data : Z) (length : nat) : world X :=
  match length with
  | O => w
  | S n => mqtt_output_append_buf (mqtt_ringbuf_put w client (wmem w data)) client (data + 1) n
  end.
Definition mqtt_output_append_string w (client str length : Z) : world X :=
  mqtt_output_append_buf (mqtt_output_append_u16 w client length) client str (Z.to_nat length).
(** The constant string of the CONNECT message. *)
Definition append_protocol w (client : Z) : world X :=
  foldl (fun w c => mqtt_ringbuf_put w client c) (mqtt_output_append_u16 w client 4) [77; 81; 84; 84].
Fixpoint append_length (n : nat) w (client r_length : Z) : world X :=
  match n with
  | O => w
  | S n =>
      let w := mqtt_output_append_u8 w client (Z.lor (Z.land r_length 0x7f) (if 128 <=? r_length then 0x80 else 0)) in
      let r_length := Z.shiftr r_length 7 in
      if 0 <? r_length then append_length n w client r_length else w
  end.
Definition mqtt_output_append_fixed_header w (client msg_type dup qos retain r_length : Z) : world X :=
  let w := mqtt_output_append_u8 w client
    (Z.lor (Z.lor (Z.lor (Z.shiftl (Z.land msg_type 0x0f) 4) (Z.shiftl (Z.land dup 1) 3)) (Z.shiftl (Z.land qos 3) 1)) (Z.land retain 1)) in
  append_length 3 w client r_length.

(** [mqtt_output_send(rb, tpcb)]; without a connection there is no result. *)
Definition mqtt_output_send w (client tpcb : Z) : option (world X) :=
  if tpcb =? NULL then None
  else
    let ringbuf_lin_len := mqtt_ringbuf_linear_read_length (mc w client) in
    let send_len := t_snd_buf (pcb_of w tpcb) in
    if (send_len =? 0) || (ringbuf_lin_len =? 0) then Some w
    else
      let '(send_len, wrap) := if ringbuf_lin_len <? send_len then (ringbuf_lin_len, ringbuf_lin_len <? mqtt_ringbuf_len (mc w client)) else (send_len, false) in
      '(w, err) ← tcp_write custom_free fuel w tpcb (mqtt_ringbuf_get_ptr client (mc w client)) send_len
                    (Z.lor TCP_WRITE_FLAG_COPY (if wrap then TCP_WRITE_FLAG_MORE else 0));
      '(w, err, send_len) ←
        (if (err =? ERR_OK) && wrap then
           let w := upd_mc w client (mqtt_ringbuf_advance_get_idx send_len) in
           let send_len := Z.min (t_snd_buf (pcb_of w tpcb)) (mqtt_ringbuf_linear_read_length (mc w client)) in
           '(w, err) ← tcp_write custom_free fuel w tpcb (mqtt_ringbuf_get_ptr client (mc w client)) send_len TCP_WRITE_FLAG_COPY;
           Some (w, err, send_len)
         else Some (w, err, send_len));
      if err =? ERR_OK then
        let w := upd_mc w client (mqtt_ringbuf_advance_get_idx send_len) in
        '(w, _) ← tcp_output netif_output custom_free fuel w tpcb; Some w
      else Some w.

(** [mqtt_request_time_elapsed(tail, t)] on the queue of a client. *)
Definition elapsed_step (client : Z) : world X * Z * Z -> (world X * Z * Z) + option (world X) := fun '(w, t, r) =>
  if (0 <? t) && negb (r =? NULL) then
    let rq := rq_of (reqs w) r in
    if rq_timeout_diff rq <=? t then
      let t := u8 (t - u8 (rq_timeout_diff rq)) in
      let w := upd_mc w client (mc_set_queue (rq_next rq)) in
      match (if negb (rq_cb rq =? NULL) then m_request mcb (rq_cb rq) w (rq_arg rq) ERR_TIMEOUT else Some w) with
      | Some w => let w := set_reqs w (mqtt_delete_request (reqs w) r) in inl (w, t, mc_pend_req_queue (mc w client))
      | None => inr None
      end
    else inl (set_reqs w (upd_rq (reqs w) r (rq_set_diff (u16 (rq_timeout_diff rq - t)))), 0, r)
  else inr (Some w).
Definition mqtt_request_time_elapsed w (client t : Z) : option (world X) :=
  loop fuel (elapsed_step client) (w, t, mc_pend_req_queue (mc w client)) ≫= id.

(** [mqtt_close(client, reason)] *)
Definition close_conn w (client : Z) : option (world X) :=
  let conn := mc_conn (mc w client) in
  if negb (conn =? NULL) then
    let w := tcp_sent (TcpCore.tcp_err (tcp_recv w conn NULL) conn NULL) conn NULL in
    '(w, res) ← tcp_close netif_output custom_free fuel tcp_timer_needed w conn;
    w ← (if negb (res =? ERR_OK) then tcp_abort netif_output custom_free fuel cb w conn else Some w);
    Some (upd_mc w client (mc_set_conn NULL))
  else Some w.
Definition mqtt_close w (client reason : Z) : option (world X) :=
  w ← close_conn w client;
  q ← mqtt_clear_requests fuel (reqs w) (mc_pend_req_queue (mc w client));
  let w := upd_mc (set_reqs w q) client (mc_set_queue NULL) in
  let w := with_timers w (sys_untimeout (h_user cyclic_fn) client) in
  if bool_decide (mc_conn_state (mc w client) <> TCP_DISCONNECTED) then
    let w := upd_mc w client (mc_set_state TCP_DISCONNECTED) in
    let c := mc w client in
    if negb (mc_connect_cb c =? NULL) then m_connect mcb (mc_connect_cb c) w client (mc_connect_arg c) reason else Some w
  else Some w.

(** [mqtt_cyclic_timer(arg)] *)
Definition start_cyclic w (client : Z) : world X := with_timers w (sys_timeout (MQTT_CYCLIC_TIMER_INTERVAL * 1000) (h_user cyclic_fn) client).
Definition cyclic_keep_alive w (client : Z) : option (world X * bool) :=
  let w := upd_mc w client (fun c => mc_set_watchdog (u16 (mc_server_watchdog c + 1)) c) in
  let keep_alive := mc_keep_alive (mc w client) in
  '(w, restart_timer) ←
    (if keep_alive + keep_alive / 2 <? mc_server_watchdog (mc w client) * MQTT_CYCLIC_TIMER_INTERVAL
     then w ← mqtt_close w client MQTT_CONNECT_TIMEOUT; Some (w, false)
     else Some (w, true));
  Some (if mc_keep_alive (mc w client) <=? mc_cyclic_tick (mc w client) * MQTT_CYCLIC_TIMER_INTERVAL then
          if mqtt_output_check_space (mc w client) 0
          then upd_mc (mqtt_output_append_fixed_header w client MQTT_MSG_TYPE_PINGREQ 0 0 0 0) client (mc_set_tick 0)
          else w
        else upd_mc w client (fun c => mc_set_tick (u16 (mc_cyclic_tick c + 1)) c), restart_timer).
Definition mqtt_cyclic_timer w (client : Z) : option (world X) :=
  '(w, restart_timer) ←
    match mc_conn_state (mc w client) with
    | MQTT_CONNECTING =>
        let w := upd_mc w client (fun c => mc_set_tick (u16 (mc_cyclic_tick c + 1)) c) in
        if MQTT_CONNECT_TIMOUT <=? mc_cyclic_tick (mc w client) * MQTT_CYCLIC_TIMER_INTERVAL
        then w ← mqtt_close w client MQTT_CONNECT_TIMEOUT; Some (w, false)
        else Some (w, true)
    | MQTT_CONNECTED =>
        w ← mqtt_request_time_elapsed w client MQTT_CYCLIC_TIMER_INTERVAL;
        if 0 <? mc_keep_alive (mc w client) then cyclic_keep_alive w client else Some (w, true)
    | _ => Some (w, false)
    end;
  Some (if (restart_timer : bool) then start_cyclic w client else w).

(** [pub_ack_rec_rel_response(client, msg, pkt_id, qos)] *)
Definition pub_ack_rec_rel_response w (client msg pkt_id qos : Z) : option (world X * Z) :=
  if mqtt_output_check_space (mc w client) 2 then
    let w := mqtt_output_append_fixed_header w client msg 0 qos 0 2 in
    let w := mqtt_output_append_u16 w client pkt_id in
    w ← mqtt_output_send w client (mc_conn (mc w client));
    Some (w, ERR_OK)
  else Some (w, ERR_MEM).

(** [mqtt_incomming_suback(r, result)] *)
Definition mqtt_incomming_suback w (r result : Z) : option (world X) :=
  let rq := rq_of (reqs w) r in
  if negb (rq_cb rq =? NULL) then m_request mcb (rq_cb rq) w (rq_arg rq) (if result <? 3 then ERR_OK else ERR_ABRT) else Some w.

(** The cases of [mqtt_message_received]; [inr] is the jump to [out_disconnect]. *)
Definition received_connack w (client var_hdr_payload : Z) : option (world X * Z) :=
  if bool_decide (mc_conn_state (mc w client) = MQTT_CONNECTING) then
    let res := wmem w (var_hdr_payload + 1) in
    if res =? MQTT_CONNECT_ACCEPTED then
      let w := upd_mc w client (fun c => mc_set_state MQTT_CONNECTED (mc_set_tick 0 c)) in
      let c := mc w client in
      w ← (if negb (mc_connect_cb c =? NULL) then m_connect mcb (mc_connect_cb c) w client (mc_connect_arg c) res else Some w);
      Some (w, res)
    else Some (w, res)
  else Some (w, MQTT_CONNECT_ACCEPTED).
(** The first part of a PUBLISH message, with the topic: the offset of the payload and its
    length in the buffer. *)
Definition publish_topic w (client var_hdr_payload qos length remaining_length : Z) : option (world X * option (Z * Z)) :=
  let topic_len := u16 (Z.shiftl (wmem w var_hdr_payload) 8 + wmem w (var_hdr_payload + 1)) in
  let topic := var_hdr_payload + 2 in
  let after_topic := u16 (2 + topic_len) in
  if length <? after_topic + (if negb (qos =? 0) then 2 else 1) then Some (w, None)
  else
    let '(w, after_topic) :=
      if 0 <? qos then
        (upd_mc w client (mc_set_inpub_pkt_id (u16 (Z.shiftl (wmem w (var_hdr_payload + after_topic)) 8 + wmem w (var_hdr_payload + after_topic + 1)))),
         u16 (after_topic + 2))
      else (upd_mc w client (mc_set_inpub_pkt_id 0), after_topic) in
    let bkp := wmem w (topic + topic_len) in
    let w := set_wmem w (upd (wmem w) (topic + topic_len) 0) in
    let payload_length := u16 (length - after_topic) in
    let c := mc w client in
    w ← (if negb (mc_pub_cb c =? NULL) then m_pub mcb (mc_pub_cb c) w (mc_inpub_arg c) topic (u32 (remaining_length + payload_length)) else Some w);
    Some (set_wmem w (upd (wmem w) (topic + topic_len) bkp), Some (after_topic, payload_length)).
Definition received_publish w (client var_hdr_payload length remaining_length : Z) : option (world X * Z) :=
  let qos := MQTT_CTL_PACKET_QOS (wmem w (rx_buffer client)) in
  '(w, part) ← (if mc_msg_idx (mc w client) <=? MQTT_VAR_HEADER_BUFFER_LEN
                then publish_topic w client var_hdr_payload qos length remaining_length
                else Some (w, Some (0, length)));
  match part with
  | None => Some (w, MQTT_CONNECT_DISCONNECTED)
  | Some (payload_offset, payload_length) =>
      if (0 <? payload_length) || (remaining_length =? 0) then
        let c := mc w client in
        if mc_data_cb c =? NULL then None
        else
          w ← m_data mcb (mc_data_cb c) w (mc_inpub_arg c) (var_hdr_payload + payload_offset) payload_length
                (if remaining_length =? 0 then MQTT_DATA_FLAG_LAST else 0);
          w ← (if (remaining_length =? 0) && (0 <? qos) then
                 fst <$> pub_ack_rec_rel_response w client (if qos =? 1 then MQTT_MSG_TYPE_PUBACK else MQTT_MSG_TYPE_PUBREC) (mc_inpub_pkt_id (mc w client)) 0
               else Some w);
          Some (w, MQTT_CONNECT_ACCEPTED)
      else Some (w, MQTT_CONNECT_ACCEPTED)
  end.
Definition received_answer w (client pkt_type pkt_id var_hdr_payload length : Z) : option (world X * Z) :=
  '(q, tail, r) ← mqtt_take_request fuel (reqs w) (mc_pend_req_queue (mc w client)) pkt_id;
  let w := upd_mc (set_reqs w q) client (mc_set_queue tail) in
  if negb (r =? NULL) then
    if (pkt_type =? MQTT_MSG_TYPE_SUBACK) && (length <? 3) then Some (w, MQTT_CONNECT_DISCONNECTED)
    else
      let rq := rq_of (reqs w) r in
      w ← (if pkt_type =? MQTT_MSG_TYPE_SUBACK then mqtt_incomming_suback w r (wmem w (var_hdr_payload + 2))
           else if negb (rq_cb rq =? NULL) then m_request mcb (rq_cb rq) w (rq_arg rq) ERR_OK else Some w);
      Some (set_reqs w (mqtt_delete_request (reqs w) r), MQTT_CONNECT_ACCEPTED)
  else Some (w, MQTT_CONNECT_ACCEPTED).

(** [mqtt_message_received(client, fixed_hdr_idx, length, remaining_length)] *)
Definition mqtt_message_received w (client fixed_hdr_idx length remaining_length : Z) : option (world X * Z) :=
  let var_hdr_payload := rx_buffer client + fixed_hdr_idx in
  let pkt_type := MQTT_CTL_PACKET_TYPE (wmem w (rx_buffer client)) in
  if pkt_type =? MQTT_MSG_TYPE_CONNACK then received_connack w client var_hdr_payload
  else if pkt_type =? MQTT_MSG_TYPE_PINGRESP then Some (w, MQTT_CONNECT_ACCEPTED)
  else if pkt_type =? MQTT_MSG_TYPE_PUBLISH then received_publish w client var_hdr_payload length remaining_length
  else
    let pkt_id := Z.lor (u16 (Z.shiftl (wmem w var_hdr_payload) 8)) (wmem w (var_hdr_payload + 1)) in
    if pkt_id =? 0 then Some (w, MQTT_CONNECT_DISCONNECTED)
    else if pkt_type =? MQTT_MSG_TYPE_PUBREC then
      '(w, _) ← pub_ack_rec_rel_response w client MQTT_MSG_TYPE_PUBREL pkt_id 1; Some (w, MQTT_CONNECT_ACCEPTED)
    else if pkt_type =? MQTT_MSG_TYPE_PUBREL then
      '(w, _) ← pub_ack_rec_rel_response w client MQTT_MSG_TYPE_PUBCOMP pkt_id 0; Some (w, MQTT_CONNECT_ACCEPTED)
    else if (pkt_type =? MQTT_MSG_TYPE_SUBACK) || (pkt_type =? MQTT_MSG_TYPE_UNSUBACK) ||
            (pkt_type =? MQTT_MSG_TYPE_PUBCOMP) || (pkt_type =? MQTT_MSG_TYPE_PUBACK) then
      received_answer w client pkt_type pkt_id var_hdr_payload length
    else Some (w, MQTT_CONNECT_DISCONNECTED).

(** [mqtt_parse_incoming(client, p)]: the variables of the loop are [in_offset],
    [msg_rem_len], [fixed_hdr_idx] and [b]. *)
Definition parse_vars : Type := world X * Z * Z * Z * Z.
(** A byte of the fixed header, from the buffer or from the data. *)
Definition parse_header (client p : Z) (s : parse_vars) : parse_vars + option (world X * Z) :=
  let '(w, in_offset, msg_rem_len, fixed_hdr_idx, b) := s in
  match (if fixed_hdr_idx <? mc_msg_idx (mc w client) then Some (w, in_offset, wmem w (rx_buffer client + fixed_hdr_idx))
         else
           b ← pbuf_get_at fuel (w_ps w) p in_offset;
           let w := set_wmem w (upd (wmem w) (rx_buffer client + mc_msg_idx (mc w client)) b) in
           Some (upd_mc w client (fun c => mc_set_msg_idx (u32 (mc_msg_idx c + 1)) c), u16 (in_offset + 1), b)) with
  | None => inr None
  | Some (w, in_offset, b) =>
      let fixed_hdr_idx := u8 (fixed_hdr_idx + 1) in
      if 2 <=? fixed_hdr_idx then
        let msg_rem_len := Z.lor msg_rem_len (u32 (Z.shiftl (Z.land b 0x7f) ((fixed_hdr_idx - 2) * 7))) in
        if Z.land b 0x80 =? 0 then
          if msg_rem_len =? 0 then
            match mqtt_message_received w client fixed_hdr_idx 0 0 with
            | None => inr None
            | Some (w, _) => inl (upd_mc w client (mc_set_msg_idx 0), in_offset, msg_rem_len, 0, b)
            end
          else inl (w, in_offset, u32 (msg_rem_len + fixed_hdr_idx - mc_msg_idx (mc w client)), fixed_hdr_idx, b)
        else inl (w, in_offset, msg_rem_len, fixed_hdr_idx, b)
      else inl (w, in_offset, msg_rem_len, fixed_hdr_idx, b)
  end.
(** A part of the rest of a message. *)
Definition parse_body (client p : Z) (s : parse_vars) : parse_vars + option (world X * Z) :=
  let '(w, in_offset, msg_rem_len, fixed_hdr_idx, b) := s in
  let cpy_start := u16 (u32 (mc_msg_idx (mc w client) - fixed_hdr_idx) mod u32 (MQTT_VAR_HEADER_BUFFER_LEN - fixed_hdr_idx) + fixed_hdr_idx) in
  let cpy_len := u16 (Z.min (u16 (pb_tot_len (pb (w_ps w) p) - in_offset)) msg_rem_len) in
  let buffer_space := u16 (MQTT_VAR_HEADER_BUFFER_LEN - cpy_start) in
  let cpy_len := if buffer_space <? cpy_len then buffer_space else cpy_len in
  match pbuf_copy_partial fuel (w_ps w) p (rx_buffer client + cpy_start) cpy_len in_offset with
  | None => inr None
  | Some (st, _) =>
      let w := upd_mc (set_wps w st) client (fun c => mc_set_msg_idx (u32 (mc_msg_idx c + cpy_len)) c) in
      let in_offset := u16 (in_offset + cpy_len) in
      let msg_rem_len := u32 (msg_rem_len - cpy_len) in
      if (msg_rem_len =? 0) || (cpy_len =? buffer_space) then
        match mqtt_message_received w client fixed_hdr_idx (u16 (cpy_start + cpy_len - fixed_hdr_idx)) msg_rem_len with
        | None => inr None
        | Some (w, res) =>
            if negb (res =? MQTT_CONNECT_ACCEPTED) then inr (Some (w, res))
            else if msg_rem_len =? 0 then inl (upd_mc w client (mc_set_msg_idx 0), in_offset, msg_rem_len, 0, b)
            else inl (w, in_offset, msg_rem_len, fixed_hdr_idx, b)
        end
      else inl (w, in_offset, msg_rem_len, fixed_hdr_idx, b)
  end.
Definition parse_step (client p : Z) (s : parse_vars) : parse_vars + option (world X * Z) :=
  let '(w, in_offset, msg_rem_len, fixed_hdr_idx, b) := s in
  if in_offset <? pb_tot_len (pb (w_ps w) p) then
    if (fixed_hdr_idx <? 2) || negb (Z.land b 0x80 =? 0) then parse_header client p s else parse_body client p s
  else inr (Some (w, MQTT_CONNECT_ACCEPTED)).
Definition mqtt_parse_incoming w (client p : Z) : option (world X * Z) :=
  loop fuel (parse_step client p) (w, 0, 0, 0, 0) ≫= id.

(** [mqtt_tcp_recv_cb(arg, pcb, p, err)] *)
Definition mqtt_tcp_recv_cb w (client pcb p err : Z) : option (world X * Z) :=
  if p =? NULL then w ← mqtt_close w client MQTT_CONNECT_DISCONNECTED; Some (w, ERR_OK)
  else if negb (err =? ERR_OK) then w ← wfree custom_free fuel w p; Some (w, err)
  else
    w ← tcp_recved netif_output custom_free fuel w pcb (pb_tot_len (pb (w_ps w) p));
    '(w, res) ← mqtt_parse_incoming w client p;
    w ← wfree custom_free fuel w p;
    w ← (if negb (res =? MQTT_CONNECT_ACCEPTED) then mqtt_close w client res else Some w);
    Some (if negb (mc_keep_alive (mc w client) =? 0) then upd_mc w client (mc_set_watchdog 0) else w, ERR_OK).

(** [mqtt_tcp_sent_cb(arg, tpcb, len)] *)
Definition sent_step (client : Z) w : world X + option (world X) :=
  match mqtt_take_request fuel (reqs w) (mc_pend_req_queue (mc w client)) 0 with
  | None => inr None
  | Some (q, tail, r) =>
      let w := upd_mc (set_reqs w q) client (mc_set_queue tail) in
      if negb (r =? NULL) then
        let rq := rq_of (reqs w) r in
        match (if negb (rq_cb rq =? NULL) then m_request mcb (rq_cb rq) w (rq_arg rq) ERR_OK else Some w) with
        | None => inr None
        | Some w => inl (set_reqs w (mqtt_delete_request (reqs w) r))
        end
      else inr (Some w)
  end.
Definition mqtt_tcp_sent_cb w (client tpcb len : Z) : option (world X * Z) :=
  if bool_decide (mc_conn_state (mc w client) = MQTT_CONNECTED) then
    let w := upd_mc w client (fun c => mc_set_watchdog 0 (mc_set_tick 0 c)) in
    w ← (loop fuel (sent_step client) w ≫= id);
    w ← mqtt_output_send w client (mc_conn (mc w client));
    Some (w, ERR_OK)
  else Some (w, ERR_OK).

(** [mqtt_tcp_err_cb(arg, err)], [mqtt_tcp_poll_cb(arg, tpcb)] *)
Definition mqtt_tcp_err_cb w (client err : Z) : option (world X) :=
  mqtt_close (upd_mc w client (mc_set_conn NULL)) client MQTT_CONNECT_DISCONNECTED.
Definition mqtt_tcp_poll_cb w (client tpcb : Z) : option (world X * Z) :=
  if bool_decide (mc_conn_state (mc w client) = MQTT_CONNECTED) then w ← mqtt_output_send w client tpcb; Some (w, ERR_OK)
  else Some (w, ERR_OK).

(** [mqtt_tcp_connect_cb(arg, tpcb, err)] *)
Definition mqtt_tcp_connect_cb w (client tpcb err : Z) : option (world X * Z) :=
  if negb (err =? ERR_OK) then Some (w, err)
  else
    let w := upd_mc w client (mc_set_msg_idx 0) in
    let w := tcp_poll (tcp_sent (tcp_recv w tpcb recv_fn) tpcb sent_fn) tpcb poll_fn 2 in
    let w := upd_mc w client (mc_set_state MQTT_CONNECTING) in
    let w := start_cyclic w client in
    let w := upd_mc w client (mc_set_tick 0) in
    w ← mqtt_output_send w client (mc_conn (mc w client));
    Some (w, ERR_OK).

(** [mqtt_publish(client, topic, payload, payload_length, qos, retain, cb, arg)]; the message
    is put into the output by [append_publish]. *)
Definition append_publish w (client topic topic_len payload payload_length qos retain pkt_id remaining_length : Z) : world X :=
  let w := mqtt_output_append_fixed_header w client MQTT_MSG_TYPE_PUBLISH 0 qos retain remaining_length in
  let w := mqtt_output_append_string w client topic topic_len in
  let w := if 0 <? qos then mqtt_output_append_u16 w client pkt_id else w in
  if negb (payload =? NULL) && (0 <? payload_length) then mqtt_output_append_buf w client payload (Z.to_nat payload_length) else w.
(** A request for the message, when there is space for both: [append] writes the message. *)
Definition send_request w (client pkt_id cbf arg remaining_length : Z) (append : world X -> world X) : option (world X * Z) :=
  let '(q, r) := mqtt_create_request (reqs w) (req_list client) pkt_id cbf arg in
  let w := set_reqs w q in
  if r =? NULL then Some (w, ERR_MEM)
  else if negb (mqtt_output_check_space (mc w client) remaining_length) then Some (set_reqs w (mqtt_delete_request (reqs w) r), ERR_MEM)
  else
    let w := append w in
    '(q, tail) ← mqtt_append_request fuel (reqs w) (mc_pend_req_queue (mc w client)) r;
    let w := upd_mc (set_reqs w q) client (mc_set_queue tail) in
    w ← mqtt_output_send w client (mc_conn (mc w client));
    Some (w, ERR_OK).
Definition mqtt_publish w (client topic payload payload_length qos retain cbf arg : Z) : option (world X * Z) :=
  if bool_decide (mc_conn_state (mc w client) = TCP_DISCONNECTED) then Some (w, ERR_CONN)
  else
    topic_strlen ← strlen fuel (wmem w) topic;
    if 0xFFFF - 2 <? topic_strlen then Some (w, ERR_ARG)
    else
      let topic_len := u16 topic_strlen in
      let total_len := 2 + topic_len + payload_length in
      if 0xFFFF <? total_len then Some (w, ERR_ARG)
      else
        let remaining_length := if 0 <? qos then u16 (total_len + 2) else u16 total_len in
        let '(w, pkt_id) := if 0 <? qos then msg_generate_packet_id w client else (w, 0) in
        send_request w client pkt_id cbf arg remaining_length
          (fun w => append_publish w client topic topic_len payload payload_length qos retain pkt_id remaining_length).

(** [mqtt_sub_unsub(client, topic, qos, cb, arg, sub)] *)
Definition append_sub_unsub w (client topic topic_len qos pkt_id : Z) (sub : bool) (remaining_length : Z) : world X :=
  let w := mqtt_output_append_fixed_header w client (if sub then MQTT_MSG_TYPE_SUBSCRIBE else MQTT_MSG_TYPE_UNSUBSCRIBE) 0 1 0 remaining_length in
  let w := mqtt_output_append_u16 w client pkt_id in
  let w := mqtt_output_append_string w client topic topic_len in
  if sub then mqtt_output_append_u8 w client (Z.min qos 2) else w.
Definition mqtt_sub_unsub w (client topic qos cbf arg : Z) (sub : bool) : option (world X * Z) :=
  topic_strlen ← strlen fuel (wmem w) topic;
  if 0xFFFF - 2 <? topic_strlen then Some (w, ERR_ARG)
  else
    let topic_len := u16 topic_strlen in
    let total_len := topic_len + 2 + 2 + (if sub then 1 else 0) in
    if 0xFFFF <? total_len then Some (w, ERR_ARG)
    else
      let remaining_length := u16 total_len in
      if bool_decide (mc_conn_state (mc w client) = TCP_DISCONNECTED) then Some (w, ERR_CONN)
      else
        let '(w, pkt_id) := msg_generate_packet_id w client in
        send_request w client pkt_id cbf arg remaining_length
          (fun w => append_sub_unsub w client topic topic_len qos pkt_id sub remaining_length).

(** [mqtt_set_inpub_callback(client, pub_cb, data_cb, arg)] *)
Definition mqtt_set_inpub_callback w (client pub_cb data_cb arg : Z) : world X :=
  upd_mc w client (fun c => mc_set_inpub_arg arg (mc_set_pub_cb pub_cb (mc_set_data_cb data_cb c))).

(** All members zero, as [memset] leaves them. *)
Definition wipe_client w (client : Z) : world X :=
  let w := upd_mc w client (fun _ => client_zero) in
  let w := set_reqs w (foldl (fun q r => upd_rq q r (fun _ => request_zero)) (reqs w) (request_objs (req_list client))) in
  set_wmem w (write_bytes (wmem w) (rx_buffer client) (replicate (Z.to_nat (client + SIZEOF_MQTT_CLIENT - rx_buffer client)) 0)).
(** [mqtt_client_new()] *)
Definition mqtt_client_new w : option (world X * Z) :=
  '(h, client) ← mem_malloc (ps_heap (w_ps w)) SIZEOF_MQTT_CLIENT;
  let w := set_wps w (set_heap (w_ps w) h) in
  Some (if negb (client =? NULL) then wipe_client w client else w, client).

(** [mqtt_client_connect(client, ip_addr, port, cb, arg, client_info)]: the flags, the
    remaining length and the lengths of the will, or an error. *)
Definition will_lengths w (ci : mqtt_connect_client_info_t) (remaining_length : Z) : option (Z + Z * Z * Z * Z) :=
  if negb (ci_will_topic ci =? NULL) && negb (ci_will_msg ci =? NULL) then
    let flags := Z.lor MQTT_CONNECT_FLAG_WILL (u8 (Z.shiftl (Z.land (ci_will_qos ci) 3) 3)) in
    let flags := if negb (ci_will_retain ci =? 0) then Z.lor flags MQTT_CONNECT_FLAG_WILL_RETAIN else flags in
    len ← strlen fuel (wmem w) (ci_will_topic ci);
    if 0xFF <? len then Some (inl ERR_VAL)
    else if len <=? 0 then Some (inl ERR_VAL)
    else
      let will_topic_len := u8 len in
      len ← strlen fuel (wmem w) (ci_will_msg ci);
      if 0xFF <? len then Some (inl ERR_VAL)
      else
        let will_msg_len := u8 len in
        let len := remaining_length + 2 + will_topic_len + 2 + will_msg_len in
        if 0xFFFF <? len then Some (inl ERR_VAL) else Some (inr (flags, u16 len, will_topic_len, will_msg_len))
  else Some (inr (0, remaining_length, 0, 0)).
Definition append_connect w (client : Z) (ci : mqtt_connect_client_info_t) (flags remaining_length client_id_length will_topic_len will_msg_len : Z) : world X :=
  let w := mqtt_output_append_fixed_header w client MQTT_MSG_TYPE_CONNECT 0 0 0 remaining_length in
  let w := append_protocol w client in
  let w := mqtt_output_append_u8 w client 4 in
  let w := mqtt_output_append_u8 w client flags in
  let w := mqtt_output_append_u16 w client (ci_keep_alive ci) in
  let w := mqtt_output_append_string w client (ci_client_id ci) client_id_length in
  if negb (Z.land flags MQTT_CONNECT_FLAG_WILL =? 0) then
    mqtt_output_append_string (mqtt_output_append_string w client (ci_will_topic ci) will_topic_len) client (ci_will_msg ci) will_msg_len
  else w.
(** The TCP connection: [tcp_fail] aborts it. *)
Definition tcp_fail w (client err : Z) : option (world X * Z) :=
  w ← tcp_abort netif_output custom_free fuel cb w (mc_conn (mc w client));
  Some (upd_mc w client (mc_set_conn NULL), err).
Definition mqtt_client_connect w (client ip_addr port cbf arg : Z) (ci : mqtt_connect_client_info_t) : option (world X * Z) :=
  if bool_decide (mc_conn_state (mc w client) <> TCP_DISCONNECTED) then Some (w, ERR_ISCONN)
  else
    let w := wipe_client w client in
    let w := upd_mc w client (fun c => mc_set_keep_alive (ci_keep_alive ci) (mc_set_connect_cb cbf (mc_set_connect_arg arg c))) in
    let w := set_reqs w (mqtt_init_requests (reqs w) (req_list client)) in
    will ← will_lengths w ci (2 + 4 + 1 + 1 + 2);
    match will with
    | inl err => Some (w, err)
    | inr (flags, remaining_length, will_topic_len, will_msg_len) =>
        let flags := Z.lor flags MQTT_CONNECT_FLAG_CLEAN_SESSION in
        len ← strlen fuel (wmem w) (ci_client_id ci);
        if 0xFFFF <? len then Some (w, ERR_VAL)
        else
          let client_id_length := u16 len in
          let len := remaining_length + 2 + client_id_length in
          if 0xFFFF <? len then Some (w, ERR_VAL)
          else
            let remaining_length := u16 len in
            if negb (mqtt_output_check_space (mc w client) remaining_length) then Some (w, ERR_MEM)
            else
              '(w, conn) ← tcp_new netif_output custom_free fuel cb tcp_recv_null_fn w;
              let w := upd_mc w client (mc_set_conn conn) in
              if conn =? NULL then Some (w, ERR_MEM)
              else
                let w := tcp_arg w conn client in
                '(w, err) ← tcp_bind tcp_timer_needed w conn (Some IPADDR_ANY) 0;
                if negb (err =? ERR_OK) then tcp_fail w client err
                else
                  '(w, err) ← tcp_connect netif_output custom_free fuel tcp_timer_needed w conn (Some ip_addr) port connect_fn;
                  if negb (err =? ERR_OK) then tcp_fail w client err
                  else
                    let w := TcpCore.tcp_err w conn err_fn in
                    let w := upd_mc w client (mc_set_state TCP_CONNECTING) in
                    Some (append_connect w client ci flags remaining_length client_id_length will_topic_len will_msg_len, ERR_OK)
    end.

(** [mqtt_disconnect(client)], [mqtt_client_is_connected(client)] *)
Definition mqtt_disconnect w (client : Z) : option (world X) :=
  if bool_decide (mc_conn_state (mc w client) <> TCP_DISCONNECTED) then
    mqtt_close (upd_mc w client (mc_set_state TCP_DISCONNECTED)) client 0
  else Some w.
Definition mqtt_client_is_connected w (client : Z) : bool := bool_decide (mc_conn_state (mc w client) = MQTT_CONNECTED).
End Mqtt.
