(* ===== verification/MqttProps.v ===== *)
(** * Properties of the MQTT client

    The requests that are given up when time passes, the bytes of the messages that are put
    into the ring buffer, and the messages that are put together from segments. *)

From Stdlib Require Import ZArith Lia.
From stdpp Require Import base tactics numbers list option gmap.
From S2P Require Import Prelude.
From S2P Require Import Def.
From S2P Require Import Ip4Addr.
From S2P Require Import Alloc.
From S2P Require Import Mem.
From S2P Require Import Memp.
From S2P Require Import Pbuf.
From S2P Require Import PbufChain.
From S2P Require Import Timeouts.
From S2P Require Import Etharp.
From S2P Require Import World.
From S2P Require Import AppTimers.
From S2P Require Import Ip4Frag.
From S2P Require Import Ip4.
From S2P Require Import Icmp.
From S2P Require Import Udp.
From S2P Require Import Tcp.
From S2P Require Import TcpOut.
From S2P Require Import TcpCore.
From S2P Require Import MqttReq.
From S2P Require Import Mqtt.

Section Store.
Context {X : Type} `{!timer_store X, !tcp_store X, !mqtt_store X}.
Implicit Types w : world X.

Lemma mq_set w v : mq (set_mq w v) = v.
Proof. unfold mq, set_mq. simpl. apply mqtt_get_put. Qed.
Lemma mc_upd w c f : mc (upd_mc w c f) c = f (mc w c).
Proof. unfold upd_mc. unfold mc at 1. rewrite mq_set. cbn [client_at]. by rewrite lookup_insert_eq. Qed.
Lemma reqs_upd w c f : reqs (upd_mc w c f) = reqs w.
Proof. unfold reqs, upd_mc. by rewrite mq_set. Qed.
Lemma reqs_set w q : reqs (set_reqs w q) = q.
Proof. unfold reqs, set_reqs. by rewrite mq_set. Qed.
Lemma mc_set_reqs w q c : mc (set_reqs w q) c = mc w c.
Proof. unfold mc, set_reqs. by rewrite mq_set. Qed.
Lemma wmem_upd w c f : wmem (upd_mc w c f) = wmem w.
Proof. done. Qed.
Lemma mc_wmem w m c : mc (set_wmem w m) c = mc w c.
Proof. done. Qed.
Lemma reqs_mq w w' : mq w' = mq w -> reqs w' = reqs w.
Proof. unfold reqs. by intros ->. Qed.
Lemma mc_mq w w' c : mq w' = mq w -> mc w' c = mc w c.
Proof. unfold mc. by intros ->. Qed.
End Store.

(** ** Requests that are given up *)

Lemma dues_shift q a t l : dues q (a + t) l = map (fun x => (x.1, x.2 + a)) (dues q t l).
Proof. revert t. induction l as [|r l IH]; intros t; [done|]. cbn. rewrite <- Z.add_assoc, IH. f_equal. f_equal. lia. Qed.
Lemma dues_nonneg q t l : Forall (fun r => 0 <= rq_timeout_diff (rq_of q r)) l -> Forall (fun x => t <= x.2) (dues q t l).
Proof.
  intros H. revert t. induction H as [|r l Hr H IH]; intros t; cbn; constructor; [cbn; lia|]. eapply Forall_impl; [apply IH|]. cbn. intros; lia.
Qed.

Section Elapsed.
Context {X : Type} `{!timer_store X, !tcp_store X, !mqtt_store X}.
Context (fuel : nat) (mcb : mqtt_callbacks X).
(** The calls of request functions that the application has seen: function, argument and
    error. *)
Context (calls : world X -> list (Z * Z * Z)).
Implicit Types w : world X.

(** Request functions that leave the client alone; only they are seen in the log. *)
Record request_env : Prop := {
  re_call : forall f w arg e, exists w', m_request mcb f w arg e = Some w' /\ mq w' = mq w /\ calls w' = calls w ++ [(f, arg, e)];
  re_set : forall w v, calls (set_mq w v) = calls w
}.
Context (He : request_env).

Definition timed_out (q : requests) (r : Z) : list (Z * Z * Z) :=
  if negb (rq_cb (rq_of q r) =? NULL) then [(rq_cb (rq_of q r), rq_arg (rq_of q r), ERR_TIMEOUT)] else [].
(** The requests of [l] when [t] seconds pass: those that are given up, [fired], and those
    that stay. *)
Definition elapsed (q q' : requests) (t : Z) (fired rest : list Z) : Prop :=
  let d := dues q 0 (fired ++ rest) in
  Forall (fun x => x.2 <= t) (take (length fired) d) /\ Forall (fun x => t <= x.2) (drop (length fired) d) /\
  dues q' 0 rest = map (fun x => (x.1, x.2 - t)) (drop (length fired) d).

Lemma elapsed_step_call w client r l t :
  requests_ok (reqs w) (req_list client) (mc_pend_req_queue (mc w client)) (r :: l) [] -> 0 < t < 256 -> rq_timeout_diff (rq_of (reqs w) r) <= t ->
  exists w', elapsed_step mcb client (w, t, r) = inl (w', t - rq_timeout_diff (rq_of (reqs w) r), mc_pend_req_queue (mc w' client)) /\
    requests_ok (reqs w') (req_list client) (mc_pend_req_queue (mc w' client)) l [] /\ dues (reqs w') 0 l = dues (reqs w) 0 l /\
    (forall s, s ∈ l -> rq_of (reqs w') s = rq_of (reqs w) s) /\ calls w' = calls w ++ timed_out (reqs w) r.
Proof.
  intros Hok Ht Hd. destruct (ro_linked _ _ _ _ _ Hok) as (Hq & Hr & _). rewrite Hq in Hok. pose proof (ro_nodup _ _ _ _ _ Hok) as Hn. rewrite app_nil_r in Hn. apply NoDup_cons in Hn as [Hrl _].
  pose proof (ro_diffs _ _ _ _ _ Hok) as Hdf. apply Forall_cons in Hdf as [Hd0 _]. apply pop_ok in Hok as [Hok Hdu]. unfold elapsed_step.
  rewrite (proj2 (Z.ltb_lt 0 t)), (proj2 (Z.eqb_neq r NULL)), (proj2 (Z.leb_le _ _) Hd) by (done || lia). cbn [andb negb]. cbv zeta. rewrite (u8_small (rq_timeout_diff _)), (u8_small (t - _)) by lia.
  set (w1 := upd_mc w client _).
  assert (Hw : exists w2, (if negb (rq_cb (rq_of (reqs w) r) =? NULL) then m_request mcb (rq_cb (rq_of (reqs w) r)) w1 (rq_arg (rq_of (reqs w) r)) ERR_TIMEOUT else Some w1) = Some w2 /\
            mq w2 = mq w1 /\ calls w2 = calls w ++ timed_out (reqs w) r).
  { assert (Hc : calls w1 = calls w) by apply (re_set He). unfold timed_out. destruct (negb _).
    - destruct (re_call He (rq_cb (rq_of (reqs w) r)) w1 (rq_arg (rq_of (reqs w) r)) ERR_TIMEOUT) as (w2 & H1 & H2 & H3). exists w2. by rewrite H3, Hc.
    - exists w1. by rewrite app_nil_r. }
  destruct Hw as (w2 & -> & Hmq & Hcalls). pose proof (reqs_mq _ _ Hmq) as Hrq. unfold w1 in Hrq at 1. rewrite reqs_upd in Hrq.
  eexists. split; [done|]. rewrite reqs_set, mc_set_reqs, (mc_mq _ _ client Hmq), Hrq. unfold w1. rewrite mc_upd. cbn [mc_pend_req_queue mc_set_queue]. split_and!; [done|done| |].
  - intros s Hs. unfold mqtt_delete_request. destruct (negb _); [|done]. apply rq_upd_ne. by intros ->.
  - unfold set_reqs. by rewrite (re_set He).
Qed.
(** The first request waits on. *)
Lemma reduce_ok q r_objs r l t :
  requests_ok q r_objs r (r :: l) [] -> 0 < t < rq_timeout_diff (rq_of q r) ->
  let q' := upd_rq q r (rq_set_diff (u16 (rq_timeout_diff (rq_of q r) - t))) in
  requests_ok q' r_objs r (r :: l) [] /\ dues q' 0 (r :: l) = map (fun x => (x.1, x.2 - t)) (dues q 0 (r :: l)).
Proof.
  intros [Hp Hl Hn Hi Hd Ht Hout Hfree] Hlt q'. apply Forall_cons in Hd as [Hd0 Hd]. cbn [total] in Ht. pose proof (time_nonneg _ _ Hd). unfold MQTT_REQ_TIMEOUT in Ht.
  assert (Hr : rq_of q' r = rq_set_diff (rq_timeout_diff (rq_of q r) - t) (rq_of q r)) by (unfold q'; by rewrite rq_upd_eq, u16_small by lia).
  assert (Hs : forall s, s ∈ l -> rq_of q' s = rq_of q s).
  { intros s Hs. apply rq_upd_ne. intros ->. rewrite app_nil_r in Hn. by apply NoDup_cons in Hn as [Hn _]. }
  assert (Hnx : forall s, rq_next (rq_of q' s) = rq_next (rq_of q s)) by (intros s; unfold q'; rewrite rq_upd; by destruct (decide _) as [->|]). split; [split; auto|].
  - eapply linked_ext; [|exact Hl]. auto.
  - apply Forall_cons. rewrite Hr. cbn. split; [lia|]. rewrite Forall_forall in *. intros s ?. rewrite Hs by done. auto.
  - cbn [total]. rewrite Hr. cbn. rewrite (time_ext q) by (intros s ?; by rewrite Hs). unfold MQTT_REQ_TIMEOUT. lia.
  - intros s ? ?. rewrite Hnx. auto.
  - cbn [dues map]. rewrite Hr. cbn. f_equal. rewrite (dues_ext q q') by (intros s ?; by rewrite Hs).
    replace (0 + (rq_timeout_diff (rq_of q r) - t)) with (- t + (0 + rq_timeout_diff (rq_of q r))) by lia. rewrite (dues_shift q (- t)).
    apply map_ext. intros [i x]. done.
Qed.
(** One request is given up, and then others. *)
Lemma elapsed_cons q q1 q' t r fired rest :
  0 <= rq_timeout_diff (rq_of q r) <= t -> dues q1 0 (fired ++ rest) = dues q 0 (fired ++ rest) ->
  elapsed q1 q' (t - rq_timeout_diff (rq_of q r)) fired rest -> elapsed q q' t (r :: fired) rest.
Proof.
  intros Ht Hd (H1 & H2 & H3). rewrite Hd in H1, H2, H3. unfold elapsed. cbv zeta. change ((r :: fired) ++ rest) with (r :: (fired ++ rest)). cbn [dues length firstn skipn]. set (d := rq_timeout_diff (rq_of q r)) in *.
  replace (dues q (0 + d) (fired ++ rest)) with (map (fun x => (x.1, x.2 + d)) (dues q 0 (fired ++ rest))) by (rewrite <- dues_shift; f_equal; lia).
  rewrite firstn_map, skipn_map. split_and!.
  - constructor; [cbn; lia|]. apply Forall_map. eapply Forall_impl; [exact H1|]. cbn. intros; lia.
  - apply Forall_map. eapply Forall_impl; [exact H2|]. cbn. intros; lia.
  - rewrite H3, map_map. apply map_ext. intros [i x]. cbn. f_equal. lia.
Qed.

(** When [t] seconds pass for a connected client, the requests at the front of its list
    are given up: all of them whose time is over before, and one whose time is over just
    then; their functions are called with [ERR_TIMEOUT] in the order of the list, their
    objects are free again, and every other request has [t] seconds less to wait. *)
Theorem requests_time_out w client l t (Hok : requests_ok (reqs w) (req_list client) (mc_pend_req_queue (mc w client)) l [])
    (Ht : 0 <= t < 256) (Hf : (5 < fuel)%nat) :
  exists w' fired rest, mqtt_request_time_elapsed fuel mcb w client t = Some w' /\ l = fired ++ rest /\
    requests_ok (reqs w') (req_list client) (mc_pend_req_queue (mc w' client)) rest [] /\
    elapsed (reqs w) (reqs w') t fired rest /\ calls w' = calls w ++ concat (map (timed_out (reqs w)) fired).
Proof.
  pose proof (requests_at_most _ _ _ _ _ Hok) as Hle. rewrite app_nil_r in Hle. unfold mqtt_request_time_elapsed. assert (Hfl : (S (length l) < fuel)%nat) by lia. clear Hf Hle.
  revert w t fuel Hok Ht Hfl. induction l as [|r l IH]; intros w t [|f] Hok Ht Hfl; try (simpl in Hfl; lia).
  - exists w, [], []. rewrite (ro_linked _ _ _ _ _ Hok). cbn [loop]. unfold elapsed_step at 1. rewrite andb_false_r. split_and!; [done|done|by rewrite (ro_linked _ _ _ _ _ Hok) in Hok |by split_and!|by rewrite app_nil_r].
  - destruct (ro_linked _ _ _ _ _ Hok) as (Hq & Hr & _). rewrite Hq. pose proof (ro_diffs _ _ _ _ _ Hok) as Hdf. cbn [loop].
    destruct (Z.ltb_spec 0 t) as [Hp|H0]; [destruct (Z.leb_spec (rq_timeout_diff (rq_of (reqs w) r)) t) as [Hd|Hd]|].
    + destruct (elapsed_step_call w client r l t Hok ltac:(lia) Hd) as (w1 & -> & Hok1 & Hdu & Hsame & Hc). apply Forall_cons in Hdf as [Hdf _].
      assert (Ht' : 0 <= t - rq_timeout_diff (rq_of (reqs w) r) < 256) by lia. destruct (IH w1 _ f Hok1 Ht' ltac:(simpl in Hfl; lia)) as (w' & fired & rest & Hrun & -> & Hok' & Hel & Hc').
      exists w', (r :: fired), rest. split_and!; [done|done|done|by eapply elapsed_cons|]. rewrite Hc', Hc, <- app_assoc. cbn [map concat]. do 3 f_equal.
      apply map_ext_Forall. apply Forall_forall. intros s Hs. unfold timed_out. by rewrite Hsame by (apply elem_of_app; by left).
    + unfold elapsed_step at 1. rewrite (proj2 (Z.ltb_lt 0 t)), (proj2 (Z.eqb_neq r NULL)), (proj2 (Z.leb_gt _ _) Hd) by (done || lia). cbn [andb negb]. cbv zeta.
      destruct f as [|f]; [simpl in Hfl; lia|]. cbn [loop]. unfold elapsed_step at 1. cbn [Z.ltb Z.compare andb]. rewrite Hq in Hok. destruct (reduce_ok _ _ _ _ t Hok ltac:(lia)) as [Hok' Hdu].
      eexists _, [], (r :: l). split_and!; [done|done| | |].
      * by rewrite reqs_set, mc_set_reqs, Hq.
      * unfold elapsed. rewrite reqs_set. cbn [app length take drop]. split_and!; [constructor| |done]. cbn [dues]. constructor; [cbn; lia|]. apply Forall_cons in Hdf as [_ Hdf]. eapply Forall_impl; [by apply dues_nonneg|]. cbn. intros; lia.
      * unfold set_reqs. by rewrite (re_set He), app_nil_r.
    + unfold elapsed_step at 1. rewrite (proj2 (Z.ltb_ge 0 t)) by done. cbn [andb]. exists w, [], (r :: l). split_and!; [done|done|done| |by rewrite app_nil_r].
      unfold elapsed. cbn [app length take drop]. replace t with 0 by lia. split_and!; [constructor|by apply dues_nonneg|]. symmetry. etrans; [|apply map_id]. apply map_ext. intros [i x]. cbn. f_equal. lia.
Qed.
End Elapsed.

(** ** The ring buffer *)

(** The number of bytes in use fits into the buffer, and the indices into 16 bits. *)
Definition ring_ok (c : mqtt_client_t) : Prop :=
  0 <= mc_put c < 65536 /\ 0 <= mc_get c < 65536 /\ mqtt_ringbuf_len c <= MQTT_OUTPUT_RINGBUF_SIZE.
(** The address of the byte with an index. *)
Definition ring_addr (client i : Z) : Z := output_buf client + Z.land i MQTT_RINGBUF_IDX_MASK.
Lemma ring_addr_mod client i : ring_addr client i = output_buf client + i mod 256.
Proof. unfold ring_addr. change MQTT_RINGBUF_IDX_MASK with (Z.ones 8). by rewrite Z.land_ones. Qed.

Section Ring.
Context {X : Type} `{!timer_store X, !tcp_store X, !mqtt_store X}.
Implicit Types w : world X.

(** The bytes that wait to be sent. *)
Definition ring_content w (client : Z) : list Z :=
  map (fun i => wmem w (ring_addr client (mc_get (mc w client) + Z.of_nat i))) (seq 0 (Z.to_nat (mqtt_ringbuf_len (mc w client)))).
(** Bytes put one after the other. *)
Definition puts w (client : Z) (bs : list Z) : world X := foldl (fun w b => mqtt_ringbuf_put w client b) w bs.

Lemma put_content w client b :
  ring_ok (mc w client) -> mqtt_ringbuf_len (mc w client) < 256 ->
  let w' := mqtt_ringbuf_put w client b in
  ring_content w' client = ring_content w client ++ [u8 b] /\ ring_ok (mc w' client) /\ mqtt_ringbuf_len (mc w' client) = mqtt_ringbuf_len (mc w client) + 1 /\
  mc w' client = mc_set_put (mc_put (mc w' client)) (mc w client) /\ reqs w' = reqs w /\
  (forall x, x < output_buf client \/ output_buf client + 256 <= x -> wmem w' x = wmem w x).
Proof.
  intros (Hp & Hg & _) Hl. unfold mqtt_ringbuf_put. set (m := upd _ _ _). set (w1 := set_wmem w m). cbv zeta.
  assert (Hlen : mqtt_ringbuf_len (mc (upd_mc w1 client (fun c => mc_set_put (u16 (mc_put c + 1)) c)) client) = mqtt_ringbuf_len (mc w client) + 1).
  { rewrite mc_upd. unfold w1. rewrite mc_wmem. unfold mqtt_ringbuf_len in *. cbn [mc_put mc_get mc_set_put]. unfold u16 in *. rewrite Zminus_mod_idemp_l. dm. }
  split_and!.
  - unfold ring_content. rewrite Hlen. pose proof (u16_range (mc_put (mc w client) - mc_get (mc w client))) as Hr. fold (mqtt_ringbuf_len (mc w client)) in Hr.
    replace (Z.to_nat (mqtt_ringbuf_len (mc w client) + 1)) with (S (Z.to_nat (mqtt_ringbuf_len (mc w client)))) by lia. rewrite seq_S, map_app. cbn [map]. rewrite Nat.add_0_l. rewrite mc_upd. unfold w1. rewrite mc_wmem. cbn [mc_get mc_set_put].
    rewrite Z2Nat.id by lia. change (wmem (upd_mc _ _ _)) with m.
    assert (He : ring_addr client (mc_get (mc w client) + mqtt_ringbuf_len (mc w client)) = ring_addr client (mc_put (mc w client))).
    { rewrite !ring_addr_mod. unfold mqtt_ringbuf_len, u16. f_equal. dm. }
    f_equal.
    + apply map_ext_in. intros i Hi%List.in_seq. unfold m. apply upd_ne. fold (ring_addr client (mc_put (mc w client))). rewrite <- He. rewrite !ring_addr_mod. dm.
    + rewrite He. unfold m. fold (ring_addr client (mc_put (mc w client))). by rewrite upd_eq.
  - rewrite mc_upd. unfold ring_ok. cbn [mc_put mc_get mc_set_put]. rewrite mc_upd in Hlen. unfold w1 in *. rewrite mc_wmem in *. rewrite Hlen. unfold MQTT_OUTPUT_RINGBUF_SIZE. pose proof (u16_range (mc_put (mc w client) + 1)). lia.
  - exact Hlen.
  - rewrite mc_upd. unfold w1. rewrite mc_wmem. done.
  - by rewrite reqs_upd.
  - intros x Hx. rewrite wmem_upd. change (m x = wmem w x). unfold m. apply upd_ne. fold (ring_addr client (mc_put (mc w client))). rewrite ring_addr_mod. dm.
Qed.

(** What putting bytes changes. *)
Record put_bytes w w' (client : Z) (bs : list Z) : Prop := {
  pu_content : ring_content w' client = ring_content w client ++ map u8 bs;
  pu_ring : ring_ok (mc w' client);
  pu_len : mqtt_ringbuf_len (mc w' client) = mqtt_ringbuf_len (mc w client) + Z.of_nat (length bs);
  pu_client : mc w' client = mc_set_put (mc_put (mc w' client)) (mc w client);
  pu_reqs : reqs w' = reqs w;
  pu_mem : forall x, x < output_buf client \/ output_buf client + 256 <= x -> wmem w' x = wmem w x
}.
Lemma puts_ok w client bs :
  ring_ok (mc w client) -> mqtt_ringbuf_len (mc w client) + Z.of_nat (length bs) <= 256 -> put_bytes w (puts w client bs) client bs.
Proof.
  revert w. induction bs as [|b bs IH]; intros w Hok Hl; cbn [puts foldl length] in *.
  - split; [by rewrite app_nil_r|done|cbn; lia|by destruct (mc w client)|done|done].
  - assert (Hl1 : mqtt_ringbuf_len (mc w client) < 256) by lia. destruct (put_content w client b Hok Hl1) as (H1 & H2 & H3 & H4 & H5 & H6). assert (Hl2 : mqtt_ringbuf_len (mc (mqtt_ringbuf_put w client b) client) + Z.of_nat (length bs) <= 256) by lia. destruct (IH _ H2 Hl2) as [I1 I2 I3 I4 I5 I6]. split.
    + unfold puts in I1. rewrite I1, H1, <- app_assoc. done.
    + exact I2.
    + unfold puts in I3. rewrite I3, H3. cbn [length]. lia.
    + unfold puts in I4. rewrite I4. rewrite H4. done.
    + unfold puts in I5. by rewrite I5.
    + intros x Hx. unfold puts in I6. by rewrite I6, H6.
Qed.
Lemma puts_app w client bs bs' : puts w client (bs ++ bs') = puts (puts w client bs) client bs'.
Proof. apply foldl_app. Qed.

(** The functions that append to the output. *)
Lemma append_u16_puts w client v : 0 <= v < 65536 -> mqtt_output_append_u16 w client v = puts w client (be16 v).
Proof.
  intros Hv. unfold mqtt_output_append_u16, puts, be16. cbn [foldl]. rewrite Z.shiftr_div_pow2 by lia. change 0xff with (Z.ones 8). by rewrite Z.land_ones by lia.
Qed.
(** A byte string that lies outside of the buffer. *)
Definition apart (client a : Z) (n : Z) : Prop := a + n <= output_buf client \/ output_buf client + 256 <= a.
Lemma put_mem w client b x : x < output_buf client \/ output_buf client + 256 <= x -> wmem (mqtt_ringbuf_put w client b) x = wmem w x.
Proof.
  intros Hx. unfold mqtt_ringbuf_put. rewrite wmem_upd. change (upd (wmem w) (ring_addr client (mc_put (mc w client))) (u8 b) x = wmem w x). apply upd_ne. rewrite ring_addr_mod. dm.
Qed.
Lemma puts_mem w client bs x : x < output_buf client \/ output_buf client + 256 <= x -> wmem (puts w client bs) x = wmem w x.
Proof. revert w. induction bs as [|b bs IH]; intros w Hx; [done|]. cbn [puts foldl]. fold (puts (mqtt_ringbuf_put w client b) client bs). by rewrite IH, put_mem. Qed.
Lemma append_buf_puts w client data n : apart client data (Z.of_nat n) -> mqtt_output_append_buf w client data n = puts w client (bytes_at (wmem w) data n).
Proof.
  unfold apart. revert w data. induction n as [|n IH]; intros w data Ha; [done|]. cbn [mqtt_output_append_buf bytes_at puts foldl]. rewrite IH by lia. unfold puts. f_equal.
  apply bytes_at_ext. intros x Hx. apply put_mem. lia.
Qed.
Lemma append_string_puts w client str n :
  0 <= n < 65536 -> apart client str n -> mqtt_output_append_string w client str n = puts w client (be16 n ++ bytes_at (wmem w) str (Z.to_nat n)).
Proof.
  intros Hn Ha. unfold mqtt_output_append_string. rewrite append_u16_puts by done. rewrite append_buf_puts by (unfold apart in *; lia). rewrite puts_app. f_equal.
  apply bytes_at_ext. intros x Hx. apply puts_mem. unfold apart in Ha. lia.
Qed.

(** The fixed header: the type with its flags, and the remaining length in groups of 7 bits. *)
Fixpoint length_bytes (n : nat) (r : Z) : list Z :=
  match n with O => [] | S n => if r <? 128 then [r] else (r mod 128 + 128) :: length_bytes n (r / 128) end.
Definition control_byte (msg_type dup qos retain : Z) : Z := msg_type mod 16 * 16 + dup mod 2 * 8 + qos mod 4 * 2 + retain mod 2.
Definition fixed_header (msg_type dup qos retain r : Z) : list Z := control_byte msg_type dup qos retain :: length_bytes 3 r.

Lemma append_length_puts n w client r : 0 <= r -> append_length n w client r = puts w client (length_bytes n r).
Proof.
  revert w r. induction n as [|n IH]; intros w r Hr; [done|]. cbn [append_length length_bytes]. cbv zeta. change 0x7f with (Z.ones 7). rewrite Z.land_ones, Z.shiftr_div_pow2 by lia. change (2 ^ 7) with 128.
  unfold mqtt_output_append_u8. destruct (Z.ltb_spec r 128) as [H|H].
  - rewrite (proj2 (Z.leb_gt 128 r)), (Z.mod_small r 128), Z.lor_0_r, Z.div_small by lia. done.
  - rewrite (proj2 (Z.leb_le 128 r)), (proj2 (Z.ltb_lt 0 (r / 128))) by dm. rewrite IH by dm. unfold puts. cbn [foldl]. do 2 f_equal.
    rewrite Z.lor_comm, Z.add_comm. apply (lor_mul_add 1 (r mod 128) 7); dm.
Qed.
Lemma fixed_header_puts w client msg_type dup qos retain r :
  0 <= r -> mqtt_output_append_fixed_header w client msg_type dup qos retain r = puts w client (fixed_header msg_type dup qos retain r).
Proof.
  intros Hr. unfold mqtt_output_append_fixed_header. cbv zeta. rewrite append_length_puts by done. unfold puts, fixed_header, mqtt_output_append_u8. cbn [foldl]. do 2 f_equal.
  change 0x0f with (Z.ones 4). change 3 with (Z.ones 2) at 2. change 1 with (Z.ones 1) at 1 3. rewrite !Z.land_ones by lia. change (2 ^ 1) with 2. change (2 ^ 2) with 4. change (2 ^ 4) with 16. unfold control_byte.
  rewrite !Z.shiftl_mul_pow2 by lia. rewrite (lor_mul_add (msg_type mod 16) (dup mod 2 * 2 ^ 3) 4) by dm.
  replace (msg_type mod 16 * 2 ^ 4 + dup mod 2 * 2 ^ 3) with ((msg_type mod 16 * 2 + dup mod 2) * 2 ^ 3) by lia. rewrite (lor_mul_add _ (qos mod 4 * 2 ^ 1) 3) by dm.
  replace ((msg_type mod 16 * 2 + dup mod 2) * 2 ^ 3 + qos mod 4 * 2 ^ 1) with (((msg_type mod 16 * 2 + dup mod 2) * 4 + qos mod 4) * 2 ^ 1) by lia. rewrite (lor_mul_add _ (retain mod 2) 1) by dm. lia.
Qed.
End Ring.

(** The length that the bytes of a fixed header stand for, by groups of 7 bits, and the rest. *)
Fixpoint length_value (bs : list Z) : option (Z * list Z) :=
  match bs with
  | [] => None
  | b :: bs => if b <? 128 then Some (b, bs) else '(v, rest) ← length_value bs; Some (b - 128 + 128 * v, rest)
  end.
Lemma length_roundtrip r rest : 0 <= r < 2 ^ 21 -> length_value (length_bytes 3 r ++ rest) = Some (r, rest).
Proof.
  intros Hr. cbn [length_bytes]. destruct (Z.ltb_spec r 128) as [H|H]; [cbn; by rewrite (proj2 (Z.ltb_lt r 128))|]. cbn [List.app length_value]. rewrite (proj2 (Z.ltb_ge (r mod 128 + 128) 128)) by dm.
  destruct (Z.ltb_spec (r / 128) 128) as [H2|H2]; cbn [List.app length_value].
  - rewrite (proj2 (Z.ltb_lt (r / 128) 128)) by done. cbn [mbind option_bind]. do 2 f_equal. dm.
  - rewrite (proj2 (Z.ltb_ge ((r / 128) mod 128 + 128) 128)) by dm. rewrite (proj2 (Z.ltb_lt (r / 128 / 128) 128)) by dm. cbn [List.app length_value]. rewrite (proj2 (Z.ltb_lt (r / 128 / 128) 128)) by dm.
    cbn [mbind option_bind]. do 2 f_equal. dm.
Qed.
Lemma length_bytes_size r : 0 <= r <= 65531 -> length_size 3 (u16 (1 + r)) r = 1 + r + Z.of_nat (length (length_bytes 3 r)).
Proof.
  intros Hr. cbn [length_size length_bytes]. rewrite !Z.shiftr_div_pow2 by lia. change (2 ^ 7) with 128. rewrite (u16_small (1 + r)) by lia.
  destruct (Z.ltb_spec r 128) as [H|H]; [rewrite (proj2 (Z.ltb_ge 0 (r / 128))) by dm; rewrite u16_small by lia; done|]. rewrite (proj2 (Z.ltb_lt 0 (r / 128))) by dm.
  destruct (Z.ltb_spec (r / 128) 128) as [H2|H2]; [rewrite (proj2 (Z.ltb_ge 0 (r / 128 / 128))) by dm; rewrite !u16_small by (rewrite ?u16_small; lia); cbn; lia|]. rewrite (proj2 (Z.ltb_lt 0 (r / 128 / 128))) by dm.
  rewrite (proj2 (Z.ltb_lt (r / 128 / 128) 128)) by dm. rewrite (proj2 (Z.ltb_ge 0 (r / 128 / 128 / 128))) by dm. rewrite !u16_small by (rewrite ?u16_small; rewrite ?u16_small; lia). cbn. lia.
Qed.

(** ** Messages to the server *)

Section Messages.
Context {X : Type} `{!timer_store X, !tcp_store X, !mqtt_store X}.
Context (netif_output : world X -> Z -> Z -> Z -> option (world X * Z)).
Context (custom_free : pstate -> Z -> pstate) (fuel : nat).
Implicit Types w : world X.

Lemma ring_content_ext w w' client :
  wmem w' = wmem w -> mc_get (mc w' client) = mc_get (mc w client) -> mc_put (mc w' client) = mc_put (mc w client) -> ring_content w' client = ring_content w client.
Proof. intros Hm Hg Hp. unfold ring_content, mqtt_ringbuf_len. by rewrite Hm, Hg, Hp. Qed.

(** A message was put into the output and a request waits for its answer; or there was no
    room for one of them and nothing has changed. *)
Definition queued w w2 (client : Z) (l l2 : list Z) (id : Z) (bs : list Z) : Prop :=
  ring_content w2 client = ring_content w client ++ bs /\ ring_ok (mc w2 client) /\ mc_conn (mc w2 client) = mc_conn (mc w client) /\
  requests_ok (reqs w2) (req_list client) (mc_pend_req_queue (mc w2 client)) l2 [] /\ dues (reqs w2) 0 l2 = dues (reqs w) 0 l ++ [(id, MQTT_REQ_TIMEOUT)].
Definition refused w w2 (client : Z) (l : list Z) : Prop :=
  ring_content w2 client = ring_content w client /\ requests_ok (reqs w2) (req_list client) (mc_pend_req_queue (mc w2 client)) l [] /\ dues (reqs w2) 0 l = dues (reqs w) 0 l.
Definition has_room w (client : Z) (l bs : list Z) : bool := (length l <? 4)%nat && (Z.of_nat (length bs) <=? mqtt_ringbuf_free (mc w client)).

Lemma send_request_ok w client id cbf arg r append bs l :
  requests_ok (reqs w) (req_list client) (mc_pend_req_queue (mc w client)) l [] -> (4 < fuel)%nat -> ring_ok (mc w client) ->
  0 <= r <= 65531 -> Z.of_nat (length bs) = 1 + Z.of_nat (length (length_bytes 3 r)) + r -> Forall is_byte bs ->
  (forall w', mc w' client = mc w client -> wmem w' = wmem w -> append w' = puts w' client bs) ->
  if has_room w client l bs then
    exists w2 l2, send_request netif_output custom_free fuel w client id cbf arg r append =
        (w3 ← mqtt_output_send netif_output custom_free fuel w2 client (mc_conn (mc w client)); Some (w3, ERR_OK)) /\ queued w w2 client l l2 id bs
  else exists w2, send_request netif_output custom_free fuel w client id cbf arg r append = Some (w2, ERR_MEM) /\ refused w w2 client l.
Proof.
  intros Hq Hf Hr Hr1 Hb Hby Ha. unfold send_request. pose proof (create_ok (reqs w) _ _ l [] id cbf arg Hq) as Hc. destruct (mqtt_create_request _ _ _ _ _) as [q x]. rewrite app_nil_r in Hc.
  pose proof (requests_at_most _ _ _ _ _ Hq) as Hle. rewrite app_nil_r in Hle. unfold has_room, mqtt_output_check_space. rewrite mc_set_reqs, length_bytes_size by done. replace (1 + r + _) with (Z.of_nat (length bs)) by lia.
  destruct (decide _) as [D|D].
  { destruct Hc as [-> ->]. rewrite D. cbn [Nat.ltb Nat.leb andb]. eexists. split; [done|]. unfold refused. rewrite mc_set_reqs, reqs_set. split; [by apply ring_content_ext; rewrite ?mc_set_reqs|done]. }
  rewrite (proj2 (Nat.ltb_lt (length l) 4)) by lia. destruct Hc as (Hx & Hok & Hd & Hid). rewrite (proj2 (Z.eqb_neq x NULL)) by done. cbn [andb]. destruct (Z.leb_spec (Z.of_nat (length bs)) (mqtt_ringbuf_free (mc w client))) as [Hs|Hs]; cbn [negb].
  - rewrite Ha by (done || by rewrite mc_set_reqs). assert (Hr0 : ring_ok (mc (set_reqs w q) client)) by by rewrite mc_set_reqs.
    assert (Hl0 : mqtt_ringbuf_len (mc (set_reqs w q) client) + Z.of_nat (length bs) <= 256) by (rewrite mc_set_reqs; unfold mqtt_ringbuf_free, MQTT_OUTPUT_RINGBUF_SIZE in Hs; lia).
    destruct (puts_ok _ client bs Hr0 Hl0) as [P1 P2 P3 P4 P5 P6]. rewrite P5, reqs_set. rewrite mc_set_reqs in P4. assert (Eq : mc_pend_req_queue (mc (puts (set_reqs w q) client bs) client) = mc_pend_req_queue (mc w client)) by by rewrite P4.
    destruct (append_ok _ _ _ _ _ _ fuel Hok ltac:(lia)) as (q2 & tail2 & Happ & Hok2 & Hd2). rewrite Eq, Happ. cbn [mbind option_bind]. eexists _, (l ++ [x]). rewrite mc_upd, mc_set_reqs. cbn [mc_conn mc_set_queue].
    assert (Ec : mc_conn (mc (puts (set_reqs w q) client bs) client) = mc_conn (mc w client)) by by rewrite P4. rewrite Ec. split; [done|]. unfold queued. rewrite mc_upd, mc_set_reqs, reqs_upd, reqs_set. cbn [mc_conn mc_pend_req_queue mc_set_queue].
    split_and!; [|done|done|done|by rewrite Hd2, Hd, Hid].
    assert (Em : map u8 bs = bs) by (etrans; [|apply map_id]; apply map_ext_Forall; eapply Forall_impl; [exact Hby|]; intros z Hz; by apply u8_small).
    rewrite Em, (ring_content_ext w (set_reqs w q)) in P1 by (by rewrite ?mc_set_reqs). rewrite <- P1.
    apply ring_content_ext; [done|by rewrite mc_upd, mc_set_reqs..].
  - apply delete_ok in Hok as [Hok Hd']. eexists. split; [done|]. unfold refused. rewrite !reqs_set, !mc_set_reqs. split_and!; [apply ring_content_ext; by rewrite ?mc_set_reqs|done|by rewrite Hd'].
Qed.

(** A PUBLISH message, and a SUBSCRIBE or UNSUBSCRIBE message, as MQTT 3.1.1 has them. *)
Definition publish_packet (qos retain id : Z) (topic payload : list Z) : list Z :=
  fixed_header MQTT_MSG_TYPE_PUBLISH 0 qos retain (2 + Z.of_nat (length topic) + Z.of_nat (length payload) + (if 0 <? qos then 2 else 0)) ++
  be16 (Z.of_nat (length topic)) ++ topic ++ (if 0 <? qos then be16 id else []) ++ payload.
Definition subscribe_packet (sub : bool) (qos id : Z) (topic : list Z) : list Z :=
  fixed_header (if sub then MQTT_MSG_TYPE_SUBSCRIBE else MQTT_MSG_TYPE_UNSUBSCRIBE) 0 1 0 (Z.of_nat (length topic) + 2 + 2 + (if sub then 1 else 0)) ++
  be16 id ++ be16 (Z.of_nat (length topic)) ++ topic ++ (if sub then [Z.min qos 2] else []).
(** The identifier after [v]: 0 is left out. *)
Definition next_id (v : Z) : Z := if u16 (v + 1) =? 0 then 1 else u16 (v + 1).

Lemma length_bytes_byte n r : 0 <= r -> Forall is_byte (length_bytes n r).
Proof. revert r. induction n as [|n IH]; intros r Hr; cbn; [constructor|]. destruct (Z.ltb_spec r 128); constructor; unfold is_byte; try dm; [constructor|]. apply IH. dm. Qed.
Lemma fixed_header_byte t d q r n : 0 <= n -> Forall is_byte (fixed_header t d q r n).
Proof. intros. constructor; [unfold is_byte, control_byte; dm|by apply length_bytes_byte]. Qed.
Lemma be16_byte v : 0 <= v < 65536 -> Forall is_byte (be16 v).
Proof. intros. unfold be16. repeat constructor; unfold is_byte; dm. Qed.
Lemma generate_id w client : 0 <= mc_pkt_id_seq (mc w client) < 65536 ->
  let '(w', id) := msg_generate_packet_id w client in
  id = next_id (mc_pkt_id_seq (mc w client)) /\ 0 < id < 65536 /\ mc w' client = mc_set_pkt_id_seq id (mc w client) /\ wmem w' = wmem w /\ reqs w' = reqs w.
Proof.
  intros Hv. unfold msg_generate_packet_id, next_id. cbv zeta. rewrite mc_upd. cbn [mc_pkt_id_seq mc_set_pkt_id_seq]. pose proof (u16_range (mc_pkt_id_seq (mc w client) + 1)).
  destruct (Z.eqb_spec (u16 (mc_pkt_id_seq (mc w client) + 1)) 0) as [E|E].
  - rewrite !mc_upd. cbn [mc_pkt_id_seq mc_set_pkt_id_seq]. rewrite E. change (u16 (0 + 1)) with 1. rewrite !reqs_upd. split_and!; try done; lia.
  - rewrite mc_upd. cbn [mc_pkt_id_seq mc_set_pkt_id_seq]. rewrite reqs_upd. split_and!; try done; lia.
Qed.

Lemma bytes_puts w client bs a n : apart client a (Z.of_nat n) -> bytes_at (wmem (puts w client bs)) a n = bytes_at (wmem w) a n.
Proof. intros Ha. apply bytes_at_ext. intros x Hx. apply puts_mem. unfold apart in Ha. lia. Qed.
(** A string of the application that lies outside of the buffer. *)
Definition given_string w (client a : Z) (s : list Z) : Prop :=
  bytes_at (wmem w) a (length s) = s /\ apart client a (Z.of_nat (length s)) /\ Forall is_byte s.

Lemma append_publish_puts w client topic ts payload ps qos retain id r :
  given_string w client topic ts -> given_string w client payload ps -> payload <> NULL \/ ps = [] -> 0 <= id < 65536 ->
  2 + Z.of_nat (length ts) + Z.of_nat (length ps) <= 65000 -> r = 2 + Z.of_nat (length ts) + Z.of_nat (length ps) + (if 0 <? qos then 2 else 0) ->
  append_publish w client topic (Z.of_nat (length ts)) payload (Z.of_nat (length ps)) qos retain id r = puts w client (publish_packet qos retain id ts ps).
Proof.
  intros (Ht & Hta & _) (Hp & Hpa & _) Hn Hid Hl ->. unfold append_publish, publish_packet. rewrite fixed_header_puts by (destruct (0 <? qos); lia). rewrite append_string_puts by (done || lia). rewrite Nat2Z.id, bytes_puts, Ht by done.
  rewrite !puts_app. set (w1 := puts (puts (puts w _ _) _ _) _ _).
  assert (Hw : (if 0 <? qos then mqtt_output_append_u16 w1 client id else w1) = puts w1 client (if 0 <? qos then be16 id else [])) by (destruct (0 <? qos); [by apply append_u16_puts|done]).
  rewrite Hw. set (w2 := puts w1 client _). destruct ps as [|b ps]; [cbn; by rewrite andb_false_r|]. destruct Hn as [Hn|]; [|done].
  rewrite (proj2 (Z.eqb_neq payload NULL)), (proj2 (Z.ltb_lt 0 _)) by (done || (cbn; lia)). cbn [negb andb]. rewrite Nat2Z.id, append_buf_puts by done. f_equal. unfold w2, w1. by rewrite !bytes_puts.
Qed.
Lemma append_sub_puts w client topic ts qos id sub r :
  given_string w client topic ts -> 0 <= id < 65536 -> Z.of_nat (length ts) <= 65000 -> r = Z.of_nat (length ts) + 2 + 2 + (if (sub : bool) then 1 else 0) ->
  append_sub_unsub w client topic (Z.of_nat (length ts)) qos id sub r = puts w client (subscribe_packet sub qos id ts).
Proof.
  intros (Ht & Hta & _) Hid Hl ->. unfold append_sub_unsub, subscribe_packet. rewrite fixed_header_puts by (destruct sub; lia). rewrite append_u16_puts by done. rewrite append_string_puts by (done || lia). rewrite Nat2Z.id, !bytes_puts, Ht by done.
  rewrite !puts_app. by destruct sub.
Qed.
Lemma publish_byte qos retain id ts ps :
  0 <= id < 65536 -> 2 + Z.of_nat (length ts) + Z.of_nat (length ps) <= 65000 -> Forall is_byte ts -> Forall is_byte ps -> Forall is_byte (publish_packet qos retain id ts ps).
Proof.
  intros. unfold publish_packet. rewrite !Forall_app. split_and!; try done; [apply fixed_header_byte; destruct (0 <? qos); lia|apply be16_byte; lia|]. destruct (0 <? qos); [by apply be16_byte|constructor].
Qed.
Lemma subscribe_byte sub qos id ts : 0 <= qos -> 0 <= id < 65536 -> Z.of_nat (length ts) <= 65000 -> Forall is_byte ts -> Forall is_byte (subscribe_packet sub qos id ts).
Proof.
  intros. unfold subscribe_packet. rewrite !Forall_app. split_and!; try done; [apply fixed_header_byte; destruct sub; lia|by apply be16_byte|apply be16_byte; lia|]. destruct sub; repeat constructor; unfold is_byte; lia.
Qed.

(** A client that is connected or about to be, with the requests [l]. *)
Record ready w (client : Z) (l : list Z) : Prop := {
  rd_state : mc_conn_state (mc w client) <> TCP_DISCONNECTED;
  rd_requests : requests_ok (reqs w) (req_list client) (mc_pend_req_queue (mc w client)) l [];
  rd_ring : ring_ok (mc w client);
  rd_seq : 0 <= mc_pkt_id_seq (mc w client) < 65536
}.
(** What [run] does with a message: when there is room it is put into the output, with a
    request for its answer, and [mqtt_output_send] is called; else [ERR_MEM] is returned. *)
Definition sends w (client : Z) (l : list Z) (id : Z) (bs : list Z) (run : option (world X * Z)) : Prop :=
  if has_room w client l bs then
    exists w2 l2, run = (w3 ← mqtt_output_send netif_output custom_free fuel w2 client (mc_conn (mc w client)); Some (w3, ERR_OK)) /\ queued w w2 client l l2 id bs
  else exists w2, run = Some (w2, ERR_MEM) /\ refused w w2 client l.

(** A request with a new identifier. *)
Lemma sends_with_id w w' client l id cbf arg r append bs :
  ready w client l -> mc w' client = mc_set_pkt_id_seq id (mc w client) \/ mc w' client = mc w client -> wmem w' = wmem w -> reqs w' = reqs w -> (4 < fuel)%nat ->
  0 <= r <= 65531 -> Z.of_nat (length bs) = 1 + Z.of_nat (length (length_bytes 3 r)) + r -> Forall is_byte bs ->
  (forall w2, wmem w2 = wmem w -> append w2 = puts w2 client bs) ->
  sends w client l id bs (send_request netif_output custom_free fuel w' client id cbf arg r append).
Proof.
  intros [Hs Hq Hr Hv] Hc Hm Hrq Hf Hr1 Hb Hby Ha.
  assert (E : mc_put (mc w' client) = mc_put (mc w client) /\ mc_get (mc w' client) = mc_get (mc w client) /\ mc_conn (mc w' client) = mc_conn (mc w client) /\ mc_pend_req_queue (mc w' client) = mc_pend_req_queue (mc w client)) by (by destruct Hc as [-> | ->]).
  destruct E as (E1 & E2 & E3 & E4). assert (El : mqtt_ringbuf_len (mc w' client) = mqtt_ringbuf_len (mc w client)) by (unfold mqtt_ringbuf_len; by rewrite E1, E2).
  pose proof (send_request_ok w' client id cbf arg r append bs l) as H. rewrite Hrq, E3, E4 in H. unfold ring_ok in H. rewrite E1, E2, El in H. specialize (H Hq Hf Hr Hr1 Hb Hby).
  unfold sends, has_room, mqtt_ringbuf_free, queued, refused in *. rewrite El, Hrq, E3, (ring_content_ext w w') in H by done. apply H. intros w2 _ Hw2. apply Ha. by rewrite Hw2.
Qed.

(** C23: [mqtt_publish] on a client that is not disconnected, for a topic and a payload of
    together at most 65000 bytes: when one of the four requests is free and the ring buffer has
    room for the whole message, exactly the bytes of the PUBLISH message of MQTT 3.1.1
    are put behind those that wait to be sent, a request with the identifier of the message
    (0 for QoS 0, else the next one) waits 30 seconds for the answer, and the output is sent;
    otherwise the result is [ERR_MEM] and neither the output nor the requests have
    changed. *)
Theorem publish_queued w client l topic ts payload ps qos retain cbf arg
    (Hr : ready w client l) (Ht : cstr (wmem w) topic ts) (Hts : given_string w client topic ts) (Hps : given_string w client payload ps)
    (Hn : payload <> NULL \/ ps = []) (Hl : 2 + Z.of_nat (length ts) + Z.of_nat (length ps) <= 65000) (Hf : (4 < fuel)%nat) (Hf2 : (length ts < fuel)%nat) :
  let id := if 0 <? qos then next_id (mc_pkt_id_seq (mc w client)) else 0 in
  sends w client l id (publish_packet qos retain id ts ps)
    (mqtt_publish netif_output custom_free fuel w client topic payload (Z.of_nat (length ps)) qos retain cbf arg).
Proof.
  intros id. unfold mqtt_publish. rewrite bool_decide_false by apply (rd_state _ _ _ Hr). rewrite (strlen_eq _ _ ts) by done. cbn [mbind option_bind].
  rewrite (u16_small (Z.of_nat (length ts))) by lia. rewrite (proj2 (Z.ltb_ge (0xFFFF - 2) _)), (proj2 (Z.ltb_ge 0xFFFF _)) by lia. cbv zeta.
  set (r := if 0 <? qos then u16 _ else _). assert (Er : r = 2 + Z.of_nat (length ts) + Z.of_nat (length ps) + (if 0 <? qos then 2 else 0)) by (unfold r; destruct (0 <? qos); rewrite u16_small by lia; lia).
  destruct (if 0 <? qos then msg_generate_packet_id w client else (w, 0)) as [w' id'] eqn:Eg.
  assert (Hg : id' = id /\ 0 <= id < 65536 /\ (mc w' client = mc_set_pkt_id_seq id (mc w client) \/ mc w' client = mc w client) /\ wmem w' = wmem w /\ reqs w' = reqs w).
  { unfold id. destruct (0 <? qos); [|injection Eg as <- <-; split_and!; try lia; auto]. pose proof (generate_id w client (rd_seq _ _ _ Hr)) as Hg. rewrite Eg in Hg. destruct Hg as (-> & Hi & Hc & Hm & Hq). rewrite Hc. split_and!; auto; lia. }
  destruct Hg as (-> & Hid & Hc & Hm & Hq). apply (sends_with_id w w'); auto.
  - rewrite Er. destruct (0 <? qos); lia.
  - unfold publish_packet, fixed_header. rewrite <- Er. rewrite !length_app. cbn [length be16]. rewrite Er. destruct (0 <? qos); cbn [length be16]; lia.
  - apply publish_byte; try done; [apply Hts|apply Hps].
  - intros w2 Hw2. apply append_publish_puts; auto; unfold given_string; rewrite Hw2; done.
Qed.
Lemma subscribe_queued w client l topic ts qos cbf arg sub :
  ready w client l -> cstr (wmem w) topic ts -> given_string w client topic ts -> Z.of_nat (length ts) <= 65000 -> 0 <= qos -> (4 < fuel)%nat -> (length ts < fuel)%nat ->
  let id := next_id (mc_pkt_id_seq (mc w client)) in
  sends w client l id (subscribe_packet sub qos id ts) (mqtt_sub_unsub netif_output custom_free fuel w client topic qos cbf arg sub).
Proof.
  intros Hr Ht Hts Hl Hq0 Hf Hf2 id. unfold mqtt_sub_unsub. rewrite (strlen_eq _ _ ts) by done. cbn [mbind option_bind]. rewrite (u16_small (Z.of_nat (length ts))) by lia.
  rewrite (proj2 (Z.ltb_ge (0xFFFF - 2) _)), (proj2 (Z.ltb_ge 0xFFFF _)) by (destruct sub; lia). rewrite bool_decide_false by apply (rd_state _ _ _ Hr). cbv zeta.
  set (r := u16 _). assert (Er : r = Z.of_nat (length ts) + 2 + 2 + (if sub then 1 else 0)) by (unfold r; rewrite u16_small by (destruct sub; lia); done).
  pose proof (generate_id w client (rd_seq _ _ _ Hr)) as Hg. destruct (msg_generate_packet_id w client) as [w' id']. destruct Hg as (-> & Hi & Hc & Hm & Hq). apply (sends_with_id w w'); auto.
  - rewrite Er. destruct sub; lia.
  - unfold subscribe_packet, fixed_header. rewrite <- Er. rewrite !length_app. cbn [length be16]. rewrite Er. destruct sub; cbn [length]; lia.
  - apply subscribe_byte; try done; [lia|apply Hts].
  - intros w2 Hw2. apply append_sub_puts; auto; [unfold given_string; by rewrite Hw2|lia].
Qed.
End Messages.
