(* ===== verification/MqttParse.v ===== *)
(** * Messages from the server

    [mqtt_parse_incoming] puts a message that fits into the buffer of the client together from
    any segments it arrives in. *)

From Stdlib Require Import ZArith Lia.
From stdpp Require Import base tactics numbers list option gmap.
From S2P Require Import Prelude.
From S2P Require Import Def.
From S2P Require Import Ip4Addr.
From S2P Require Import Alloc.
From S2P Require Import Mem.
From S2P Require Import Memp.
From S2P Require Import Pbuf.
From S2P Require Import PbufChain.
From S2P Require Import Timeouts.
From S2P Require Import Etharp.
From S2P Require Import World.
From S2P Require Import AppTimers.
From S2P Require Import Ip4Frag.
From S2P Require Import Ip4.
From S2P Require Import Icmp.
From S2P Require Import Udp.
From S2P Require Import Tcp.
From S2P Require Import TcpOut.
From S2P Require Import TcpCore.
From S2P Require Import MqttReq.
From S2P Require Import Mqtt.
From S2P Require Import MqttProps.

Lemma land_0x80 n : 0 < n < 128 -> Z.land n 0x80 = 0.
Proof.
  intros Hn. apply Z.bits_inj'. intros k Hk. rewrite Z.land_spec, Z.bits_0. change 0x80 with (2 ^ 7). rewrite Z.pow2_bits_eqb by lia. destruct (Z.eqb_spec 7 k) as [<-|]; [|apply andb_false_r].
  rewrite (Z.bits_above_log2 n); [done|lia|]. apply Z.log2_lt_pow2; lia.
Qed.
Lemma content_bytes st l : mem_ok (data st) -> Forall is_byte (content st l).
Proof. intros H. induction l; cbn; [constructor|]. apply Forall_app. split; [by apply bytes_at_ok|done]. Qed.

Section Parse.
Context {X : Type} `{!timer_store X, !tcp_store X, !mqtt_store X}.
Context (netif_output : world X -> Z -> Z -> Z -> option (world X * Z)).
Context (custom_free : pstate -> Z -> pstate) (fuel : nat) (mcb : mqtt_callbacks X).
Implicit Types w : world X.

(** The pbufs [l] from [p] on hold the bytes [cs], apart from the buffer of the client. *)
Record incoming w (client p : Z) (l : list Z) (cs : list Z) : Prop := {
  ic_chain : pchain (w_ps w) p l;
  ic_some : l <> [];
  ic_sizes : sizes (w_ps w) l;
  ic_fuel : (length l < fuel)%nat;
  ic_mem : mem_ok (wmem w);
  ic_client : 0 < client;
  ic_content : content (w_ps w) l = cs;
  ic_apart : Forall (separate (rx_buffer client, MQTT_VAR_HEADER_BUFFER_LEN)) (payloads (w_ps w) l)
}.
(** The buffer holds the first bytes of a message. *)
Definition holds w (client : Z) (bs : list Z) : Prop :=
  mc_msg_idx (mc w client) = Z.of_nat (length bs) /\ bytes_at (wmem w) (rx_buffer client) (length bs) = bs.
(** Nothing but the buffer and its index has changed. *)
Record filled w w' (client : Z) : Prop := {
  fi_client : mc w' client = mc_set_msg_idx (mc_msg_idx (mc w' client)) (mc w client);
  fi_reqs : reqs w' = reqs w;
  fi_pbufs : pbufs (w_ps w') = pbufs (w_ps w);
  fi_mem : forall x, x < rx_buffer client \/ rx_buffer client + MQTT_VAR_HEADER_BUFFER_LEN <= x -> wmem w' x = wmem w x
}.

(** Bytes behind those that the buffer holds. *)
Definition fill w (client : Z) (bs out : list Z) : world X :=
  upd_mc (set_wmem w (write_bytes (wmem w) (rx_buffer client + Z.of_nat (length bs)) out)) client (mc_set_msg_idx (Z.of_nat (length (bs ++ out)))).
Lemma fill_buffer_ok w client p l cs bs out :
  incoming w client p l cs -> holds w client bs -> Forall is_byte out -> (length (bs ++ out) <= 128)%nat ->
  incoming (fill w client bs out) client p l cs /\ holds (fill w client bs out) client (bs ++ out) /\ filled w (fill w client bs out) client.
Proof.
  intros Hi [Hh1 Hh2] Ho Hl. rewrite length_app in Hl. destruct Hi as [H1 H2 H3 H4 H5 H6 H7 H8]. split_and!.
  - split; auto.
    + by apply (pchain_ext (w_ps w)).
    + by apply (sizes_ext (w_ps w)).
    + by apply write_bytes_ok.
    + rewrite <- H7. apply content_write_out. eapply Forall_impl; [exact H8|]. intros [a n]. unfold separate, MQTT_VAR_HEADER_BUFFER_LEN. simpl. lia.
  - unfold holds. split; [unfold fill; by rewrite mc_upd|]. rewrite length_app, bytes_at_app. f_equal; [|apply bytes_at_write_eq]. etrans; [|exact Hh2]. apply bytes_at_write_out. lia.
  - split; [unfold fill; by rewrite !mc_upd|unfold fill; by rewrite reqs_upd|done|]. intros x Hx. apply write_bytes_out. unfold MQTT_VAR_HEADER_BUFFER_LEN in Hx. lia.
Qed.
Lemma filled_refl w client : filled w w client.
Proof. split; try done. by destruct (mc w client). Qed.
Lemma filled_trans w w1 w2 client : filled w w1 client -> filled w1 w2 client -> filled w w2 client.
Proof.
  intros [A1 A2 A3 A4] [B1 B2 B3 B4]. split; [by rewrite B1, A1|congruence|congruence|]. intros x Hx. by rewrite B4, A4.
Qed.

Lemma incoming_len w client p l cs : incoming w client p l cs -> pb_tot_len (pb (w_ps w) p) = Z.of_nat (length cs) /\ Z.of_nat (length cs) < 65536.
Proof.
  intros [H1 H2 H3 H4 H5 H6 H7 H8]. destruct l as [|x l]; [done|]. destruct H1 as (-> & _). pose proof (sizes_lt _ _ H3). pose proof (proj1 (sizes_nonneg _ _ H3)).
  rewrite (sizes_head _ _ _ H3), <- H7, length_content by done. lia.
Qed.
Lemma incoming_get w client p l cs off b : incoming w client p l cs -> cs !! off = Some b -> pbuf_get_at fuel (w_ps w) p (Z.of_nat off) = Some b /\ is_byte b.
Proof.
  intros Hi Hb. pose proof (incoming_len _ _ _ _ _ Hi) as [_ Hl]. pose proof (lookup_lt_Some _ _ _ Hb). destruct Hi as [H1 H2 H3 H4 H5 H6 H7 H8].
  rewrite (get_correct fuel (w_ps w) p l) by (done || lia). rewrite Nat2Z.id, H7, Hb. split; [done|].
  pose proof (content_bytes (w_ps w) l H5) as Ha. rewrite H7, Forall_lookup in Ha. by eapply Ha.
Qed.

Lemma upd_mc_ext w client f g : f (mc w client) = g (mc w client) -> upd_mc w client f = upd_mc w client g.
Proof. intros H. unfold upd_mc. by rewrite H. Qed.

Lemma mc_wps w st client : mc (set_wps w st) client = mc w client.
Proof. done. Qed.

(** The position of the parser: of the bytes [cs] of the pbufs, [off] have been read, the
    buffer holds [pre], and the message goes on with [rest]. *)
Record at_pos w (client p : Z) (l cs : list Z) (off : nat) (pre rest : list Z) : Prop := {
  ap_in : incoming w client p l cs;
  ap_holds : holds w client pre;
  ap_size : (length (pre ++ rest) <= 128)%nat;
  ap_bytes : drop off cs `prefix_of` rest \/ rest `prefix_of` drop off cs;
  ap_off : (off <= length cs)%nat
}.

(** The next byte of the fixed header comes from the buffer or from the pbufs. *)
Definition fetch w (client p in_offset idx : Z) : option (world X * Z * Z) :=
  if idx <? mc_msg_idx (mc w client) then Some (w, in_offset, wmem w (rx_buffer client + idx))
  else
    b ← pbuf_get_at fuel (w_ps w) p in_offset;
    let w := set_wmem w (upd (wmem w) (rx_buffer client + mc_msg_idx (mc w client)) b) in
    Some (upd_mc w client (fun c => mc_set_msg_idx (u32 (mc_msg_idx c + 1)) c), u16 (in_offset + 1), b).
Lemma fetch_ok w client p l cs off pre rest (i : nat) b :
  at_pos w client p l cs off pre rest -> (off < length cs)%nat -> (i <= length pre)%nat -> (pre ++ rest) !! i = Some b ->
  exists w' off' pre' rest', fetch w client p (Z.of_nat off) (Z.of_nat i) = Some (w', Z.of_nat off', b) /\
    at_pos w' client p l cs off' pre' rest' /\ filled w w' client /\ pre' ++ rest' = pre ++ rest /\ (i < length pre')%nat /\
    (off' + length pre = off + length pre')%nat /\ (length pre' <= Nat.max (length pre) (S i))%nat.
Proof.
  intros [Hi Hh Hs Hb Ho] Hof Hip Hl. pose proof (incoming_len _ _ _ _ _ Hi) as [_ Hlen]. unfold fetch. rewrite (proj1 Hh). destruct (Z.ltb_spec (Z.of_nat i) (Z.of_nat (length pre))) as [H|H].
  - exists w, off, pre, rest. rewrite lookup_app_l in Hl by lia. destruct Hh as [Hh1 Hh2]. rewrite <- Hh2, bytes_at_lookup in Hl by lia. injection Hl as <-. split_and!; [done|by split|apply filled_refl|done|lia|done|lia].
  - assert (i = length pre) as -> by lia. rewrite lookup_app_r, Nat.sub_diag in Hl by lia. destruct rest as [|b' rest]; [done|]. injection Hl as ->.
    assert (Hc : cs !! off = Some b).
    { rewrite <- (Nat.add_0_r off), <- lookup_drop. destruct (drop off cs) as [|x d] eqn:E; [apply (f_equal length) in E; rewrite length_drop in E; simpl in E; lia|]. destruct Hb as [[k Hk]|[k Hk]]; injection Hk as -> _; done. }
    destruct (incoming_get _ _ _ _ _ _ _ Hi Hc) as [-> Hbyte]. cbn [mbind option_bind]. rewrite u16_small by lia.
    assert (Hsz : (length (pre ++ [b]) <= 128)%nat) by (rewrite length_app in *; simpl in *; lia).
    assert (Hby : Forall is_byte [b]) by by apply Forall_singleton.
    destruct (fill_buffer_ok w client p l cs pre [b] Hi Hh Hby Hsz) as (F1 & F2 & F3).
    exists (fill w client pre [b]), (S off), (pre ++ [b]), rest. rewrite <- app_assoc. split_and!; try done.
    + replace (Z.of_nat (S off)) with (Z.of_nat off + 1) by lia. do 3 f_equal. unfold fill. cbn [write_bytes]. apply upd_mc_ext. rewrite mc_wmem, (proj1 Hh). f_equal. rewrite length_app. cbn. rewrite length_app in Hsz. simpl in Hsz. rewrite u32_small by lia. lia.
    + split; [done|done|by rewrite <- app_assoc| |lia]. assert (Hd : drop off cs = b :: drop (S off) cs) by by apply drop_S.
      rewrite Hd in Hb. destruct Hb as [Hb|Hb]; apply prefix_cons_inv_2 in Hb; auto.
    + rewrite length_app. simpl. lia.
    + rewrite length_app. simpl. lia.
    + rewrite length_app. simpl. lia.
Qed.

(** The rest of the message is copied, as far as it has arrived. *)
Lemma body_ok w client p l cs off pre rest b :
  at_pos w client p l cs off pre rest -> (2 <= length pre)%nat -> rest <> [] -> (off < length cs)%nat ->
  let out := take (length rest) (drop off cs) in
  let w1 := fill w client pre out in
  parse_body netif_output custom_free fuel mcb client p (w, Z.of_nat off, Z.of_nat (length rest), 2, b) =
    (if (length rest <=? length cs - off)%nat then
       match mqtt_message_received netif_output custom_free fuel mcb w1 client 2 (Z.of_nat (length (pre ++ rest)) - 2) 0 with
       | None => inr None
       | Some (w2, res) => if negb (res =? MQTT_CONNECT_ACCEPTED) then inr (Some (w2, res))
                           else inl (upd_mc w2 client (mc_set_msg_idx 0), Z.of_nat (off + length rest), 0, 0, b)
       end
     else inl (w1, Z.of_nat (length cs), Z.of_nat (length rest - (length cs - off)), 2, b)).
Proof.
  intros [Hi Hh Hs Hb Ho] Hp Hr Hof out w1. pose proof (incoming_len _ _ _ _ _ Hi) as [Htot Hlen]. assert (Hr1 : (0 < length rest)%nat) by (destruct rest; [done|simpl; lia]). rewrite length_app in *.
  set (n := Nat.min (length rest) (length cs - off)). assert (Hout : length out = n) by (unfold out; rewrite length_take, length_drop; lia).
  unfold parse_body. rewrite Htot, (proj1 Hh). rewrite (u32_small (Z.of_nat (length pre) - 2)), (u32_small (MQTT_VAR_HEADER_BUFFER_LEN - 2)) by (unfold MQTT_VAR_HEADER_BUFFER_LEN; lia).
  rewrite Z.mod_small by (unfold MQTT_VAR_HEADER_BUFFER_LEN; lia). replace (Z.of_nat (length pre) - 2 + 2) with (Z.of_nat (length pre)) by lia. unfold MQTT_VAR_HEADER_BUFFER_LEN. rewrite !(u16_small (Z.of_nat (length pre))) by lia.
  rewrite (u16_small (Z.of_nat (length cs) - Z.of_nat off)), (u16_small (Z.min _ _)), (u16_small (128 - _)) by lia. replace (Z.min _ _) with (Z.of_nat n) by lia.
  rewrite (proj2 (Z.ltb_ge (128 - _) (Z.of_nat n))) by lia. cbv zeta.
  assert (Hcopy : pbuf_copy_partial fuel (w_ps w) p (rx_buffer client + Z.of_nat (length pre)) (Z.of_nat n) (Z.of_nat off) =
            Some (set_data (w_ps w) (write_bytes (wmem w) (rx_buffer client + Z.of_nat (length pre)) out), Z.of_nat n)).
  { destruct Hi as [H1 H2 H3 H4 H5 H6 H7 H8]. rewrite (copy_partial_correct fuel (w_ps w) p l) by (done || lia || (unfold rx_buffer, NULL; lia) ||
      (eapply Forall_impl; [exact H8|]; intros [a k]; unfold separate, MQTT_VAR_HEADER_BUFFER_LEN; simpl; lia)).
    unfold slice. rewrite !Nat2Z.id, H7. replace (take n (drop off cs)) with out by (unfold out, n; rewrite <- (length_drop cs off), <- take_take; f_equal; rewrite take_ge by lia; done). rewrite Hout. done. }
  rewrite Hcopy. assert (Hw : upd_mc (set_wps w (set_data (w_ps w) (write_bytes (wmem w) (rx_buffer client + Z.of_nat (length pre)) out))) client
            (fun c => mc_set_msg_idx (u32 (mc_msg_idx c + Z.of_nat n)) c) = w1).
  { unfold w1, fill. apply upd_mc_ext. cbv beta. rewrite ?mc_wps, ?mc_wmem, (proj1 Hh). f_equal. rewrite length_app, Hout, u32_small by lia. lia. }
  rewrite Hw. rewrite (u16_small (Z.of_nat off + _)), (u32_small (Z.of_nat (length rest) - _)) by lia. destruct (Nat.leb_spec (length rest) (length cs - off)) as [H|H].
  - replace n with (length rest) by lia. rewrite Z.sub_diag. cbn [Z.eqb orb]. rewrite u16_small by lia. replace (Z.of_nat (length pre) + Z.of_nat (length rest) - 2) with (Z.of_nat (length pre + length rest) - 2) by lia.
    destruct (mqtt_message_received _ _ _ _ _ _ _ _ _) as [[w2 res]|]; [|done]. destruct (negb _); [done|]. by rewrite Nat2Z.inj_add.
  - replace n with (length cs - off)%nat by lia. rewrite (proj2 (Z.eqb_neq (_ - _) 0)), (proj2 (Z.eqb_neq _ (128 - _))) by lia. cbn [orb].
    replace (Z.of_nat off + Z.of_nat (length cs - off)) with (Z.of_nat (length cs)) by lia. by rewrite <- Nat2Z.inj_sub by lia.
Qed.

(** The parser from a position on, at the start of a message. *)
Definition parse_from (f : nat) w (client p : Z) (off : nat) (b : Z) : option (world X * Z) :=
  loop f (parse_step netif_output custom_free fuel mcb client p) (w, Z.of_nat off, 0, 0, b) ≫= id.

Lemma step_end w client p l cs rem idx b : incoming w client p l cs ->
  parse_step netif_output custom_free fuel mcb client p (w, Z.of_nat (length cs), rem, idx, b) = inr (Some (w, MQTT_CONNECT_ACCEPTED)).
Proof. intros Hi. unfold parse_step. by rewrite (proj1 (incoming_len _ _ _ _ _ Hi)), Z.ltb_irrefl. Qed.
(** What [parse_header] does with the byte. *)
Definition use_byte (client : Z) (s : parse_vars) : parse_vars + option (world X * Z) :=
  let '(w, in_offset, msg_rem_len, fixed_hdr_idx, b) := s in
  if 2 <=? fixed_hdr_idx then
    let msg_rem_len := Z.lor msg_rem_len (u32 (Z.shiftl (Z.land b 0x7f) ((fixed_hdr_idx - 2) * 7))) in
    if Z.land b 0x80 =? 0 then
      if msg_rem_len =? 0 then
        match mqtt_message_received netif_output custom_free fuel mcb w client fixed_hdr_idx 0 0 with
        | None => inr None
        | Some (w, _) => inl (upd_mc w client (mc_set_msg_idx 0), in_offset, msg_rem_len, 0, b)
        end
      else inl (w, in_offset, u32 (msg_rem_len + fixed_hdr_idx - mc_msg_idx (mc w client)), fixed_hdr_idx, b)
    else inl (w, in_offset, msg_rem_len, fixed_hdr_idx, b)
  else inl (w, in_offset, msg_rem_len, fixed_hdr_idx, b).
Lemma parse_header_fetch w client p off rem idx b w' off' b' :
  fetch w client p off idx = Some (w', off', b') ->
  parse_header netif_output custom_free fuel mcb client p (w, off, rem, idx, b) = use_byte client (w', off', rem, u8 (idx + 1), b').
Proof. intros H. unfold parse_header. fold (fetch w client p off idx). by rewrite H. Qed.
(** The control byte. *)
Lemma step_first w client p l cs off pre rest ctl b :
  at_pos w client p l cs off pre rest -> (off < length cs)%nat -> head (pre ++ rest) = Some ctl ->
  exists w' off' pre' rest', parse_step netif_output custom_free fuel mcb client p (w, Z.of_nat off, 0, 0, b) = inl (w', Z.of_nat off', 0, 1, ctl) /\
    at_pos w' client p l cs off' pre' rest' /\ filled w w' client /\ pre' ++ rest' = pre ++ rest /\ (0 < length pre')%nat /\ (off' + length pre = off + length pre')%nat /\ (length pre' <= Nat.max (length pre) 1)%nat.
Proof.
  intros Hp Ho Hc. destruct (fetch_ok w client p l cs off pre rest 0 ctl Hp Ho) as (w' & off' & pre' & rest' & Hf & Hp' & Hfi & He & Hi & Hn & Hmx); [lia|by rewrite <- head_lookup|].
  exists w', off', pre', rest'. split_and!; auto. unfold parse_step. rewrite (proj1 (incoming_len _ _ _ _ _ (ap_in _ _ _ _ _ _ _ _ Hp))), (proj2 (Z.ltb_lt _ _)) by lia. cbn [Z.ltb Z.compare orb].
  by rewrite (parse_header_fetch _ _ _ _ _ _ _ _ _ _ Hf).
Qed.
(** The byte with the length. *)
Lemma step_second w client p l cs off pre rest n b :
  at_pos w client p l cs off pre rest -> (off < length cs)%nat -> (1 <= length pre)%nat -> (pre ++ rest) !! 1%nat = Some (Z.of_nat n) -> (0 < n)%nat ->
  length (pre ++ rest) = (2 + n)%nat ->
  exists w' off' pre' rest', parse_step netif_output custom_free fuel mcb client p (w, Z.of_nat off, 0, 1, b) = inl (w', Z.of_nat off', Z.of_nat (length rest'), 2, Z.of_nat n) /\
    at_pos w' client p l cs off' pre' rest' /\ filled w w' client /\ pre' ++ rest' = pre ++ rest /\ (1 < length pre')%nat /\ (off' + length pre = off + length pre')%nat /\ (length pre' <= Nat.max (length pre) 2)%nat.
Proof.
  intros Hp Ho H1 Hc Hn0 Hlen. destruct (fetch_ok w client p l cs off pre rest 1 _ Hp Ho H1 Hc) as (w' & off' & pre' & rest' & Hf & Hp' & Hfi & He & Hi & Hn & Hb).
  exists w', off', pre', rest'. split_and!; auto. pose proof (ap_size _ _ _ _ _ _ _ _ Hp') as Hsz. rewrite He, Hlen in Hsz. pose proof Hlen as Hlen'. rewrite <- He, length_app in Hlen'.
  unfold parse_step. rewrite (proj1 (incoming_len _ _ _ _ _ (ap_in _ _ _ _ _ _ _ _ Hp))), (proj2 (Z.ltb_lt _ _)) by lia. cbn [Z.ltb Z.compare orb].
  change (1 <? 2) with true. cbn [orb]. rewrite (parse_header_fetch _ _ _ _ _ _ _ _ _ _ Hf). unfold use_byte. change (u8 (Z.of_nat 1 + 1)) with 2. cbn [Z.leb Z.compare Z.sub Z.mul Z.opp Z.add Z.pos_sub].
  cbv zeta. rewrite Z.shiftl_0_r, Z.lor_0_l. change 0x7f with (Z.ones 7). rewrite Z.land_ones, Z.mod_small by (change (2 ^ 7) with 128; lia).
  rewrite land_0x80 by lia. cbn [Z.eqb]. rewrite (u32_small (Z.of_nat n)), (proj2 (Z.eqb_neq (Z.of_nat n) 0)) by lia. rewrite (proj1 (ap_holds _ _ _ _ _ _ _ _ Hp')), u32_small by lia. do 4 f_equal. lia.
Qed.
(** The rest. *)
Lemma step_third w client p l cs off pre rest b :
  at_pos w client p l cs off pre rest -> (2 <= length pre)%nat -> rest <> [] -> (off < length cs)%nat -> 0 < b < 128 ->
  parse_step netif_output custom_free fuel mcb client p (w, Z.of_nat off, Z.of_nat (length rest), 2, b) =
  parse_body netif_output custom_free fuel mcb client p (w, Z.of_nat off, Z.of_nat (length rest), 2, b).
Proof.
  intros Hp H2 Hr Ho Hb. unfold parse_step. rewrite (proj1 (incoming_len _ _ _ _ _ (ap_in _ _ _ _ _ _ _ _ Hp))), (proj2 (Z.ltb_lt _ _)) by lia.
  change (2 <? 2) with false. cbn [orb]. by rewrite land_0x80.
Qed.

Lemma prefix_same_length (a b c : list Z) : a `prefix_of` c -> b `prefix_of` c -> length a = length b -> a = b.
Proof. intros [x ->] [y H] Hl. apply app_inj_1 in H as [H _]; done. Qed.
(** What has been read is in the buffer. *)
Lemma read_all w client p l cs off pre rest pre' rest' off' :
  at_pos w client p l cs off pre rest -> pre' ++ rest' = pre ++ rest -> (off' + length pre = off + length pre')%nat -> off' = length cs -> (length cs - off <= length rest)%nat ->
  pre' = pre ++ drop off cs.
Proof.
  intros [_ _ _ Hb Ho] He Hn -> Hle. apply (prefix_same_length _ _ (pre ++ rest)).
  - exists rest'. done.
  - apply prefix_app. destruct Hb as [Hb|[k Hb]]; [done|]. exists []. rewrite app_nil_r. assert (k = []) as ->; [|by rewrite app_nil_r in Hb]. apply (f_equal length) in Hb. rewrite length_app, length_drop in Hb. destruct k; [done|]. simpl in Hb. lia.
  - rewrite length_app, length_drop. lia.
Qed.

(** C21: A message that fits into the buffer of a client (a type, its length and at most 126
    bytes behind them) is put together from any segments it arrives in. When the rest of it is
    in the pbufs, [mqtt_message_received] is called once, with exactly the bytes of the
    message in the buffer, and the parser goes on behind it with an empty buffer; else what
    has arrived is kept in the buffer for the next segment, and nothing but the buffer has
    changed. *)
Theorem message_assembled w client p l cs off pre rest ctl body b f
    (Hp : at_pos w client p l cs off pre rest) (Hm : pre ++ rest = ctl :: Z.of_nat (length body) :: body) (Hb : body <> []) (Hr : rest <> [])
    (Ho : (off < length cs)%nat) :
  exists w1, filled w w1 client /\ incoming w1 client p l cs /\
    if decide (length rest <= length cs - off)%nat then
      holds w1 client (ctl :: Z.of_nat (length body) :: body) /\
      parse_from (S (S (S f))) w client p off b =
        '(w2, res) ← mqtt_message_received netif_output custom_free fuel mcb w1 client 2 (Z.of_nat (length body)) 0;
        if negb (res =? MQTT_CONNECT_ACCEPTED) then Some (w2, res)
        else parse_from f (upd_mc w2 client (mc_set_msg_idx 0)) client p (off + length rest) (Z.of_nat (length body))
    else holds w1 client (pre ++ drop off cs) /\ parse_from (S (S (S (S f)))) w client p off b = Some (w1, MQTT_CONNECT_ACCEPTED).
Proof.
  assert (Hlen : length (pre ++ rest) = (2 + length body)%nat) by by rewrite Hm. assert (Hb0 : (0 < length body)%nat) by (destruct body; [done|simpl; lia]). assert (Hr0 : (0 < length rest)%nat) by (destruct rest; [done|simpl; lia]).
  destruct (step_first w client p l cs off pre rest ctl b Hp Ho) as (w1 & o1 & p1 & r1 & S1 & P1 & F1 & E1 & G1 & N1 & M1); [by rewrite Hm|]. unfold parse_from. cbn [loop]. rewrite S1. pose proof Hlen as Hlen0. rewrite length_app in Hlen0.
  pose proof Hlen as Hl1. rewrite <- E1, length_app in Hl1. pose proof (ap_off _ _ _ _ _ _ _ _ P1) as O1. destruct (decide (o1 = length cs)) as [D1|D1].
  { exists w1. split_and!; [done|apply (ap_in _ _ _ _ _ _ _ _ P1)|]. rewrite decide_False by lia. rewrite D1, (step_end _ _ _ _ _ _ _ _ (ap_in _ _ _ _ _ _ _ _ P1)). split; [|done].
    rewrite <- (read_all w client p l cs off pre rest p1 r1 o1) by (done || lia). apply (ap_holds _ _ _ _ _ _ _ _ P1). }
  destruct (step_second w1 client p l cs o1 p1 r1 (length body) ctl P1) as (w2 & o2 & p2 & r2 & S2 & P2 & F2 & E2 & G2 & N2 & M2); [lia|lia|by rewrite E1, Hm|done|by rewrite E1|]. rewrite S2. rewrite E1 in E2.
  pose proof Hlen as Hl2. rewrite <- E2, length_app in Hl2. pose proof (ap_off _ _ _ _ _ _ _ _ P2) as O2. pose proof (filled_trans _ _ _ _ F1 F2) as F. destruct (decide (o2 = length cs)) as [D2|D2].
  { exists w2. split_and!; [done|apply (ap_in _ _ _ _ _ _ _ _ P2)|]. rewrite decide_False by lia. rewrite D2, (step_end _ _ _ _ _ _ _ _ (ap_in _ _ _ _ _ _ _ _ P2)). split; [|done].
    rewrite <- (read_all w client p l cs off pre rest p2 r2 o2) by (done || lia). apply (ap_holds _ _ _ _ _ _ _ _ P2). }
  assert (Hr2 : r2 <> []) by (intros ->; simpl in Hl2; lia). assert (Ho2 : (o2 < length cs)%nat) by lia. pose proof (ap_size _ _ _ _ _ _ _ _ P2) as Hsz. rewrite E2, Hlen in Hsz.
  rewrite !(step_third w2 client p l cs o2 p2 r2 (Z.of_nat (length body)) P2), !(body_ok w2 client p l cs o2 p2 r2 _ P2) by (done || lia). cbv zeta. set (out := take (length r2) (drop o2 cs)).
  assert (Hout : (length (p2 ++ out) <= 128)%nat) by (rewrite length_app; unfold out; rewrite length_take; lia).
  assert (Hby : Forall is_byte out) by (apply Forall_take, Forall_drop; rewrite <- (ic_content _ _ _ _ _ (ap_in _ _ _ _ _ _ _ _ P2)); apply content_bytes, (ic_mem _ _ _ _ _ (ap_in _ _ _ _ _ _ _ _ P2))).
  destruct (fill_buffer_ok w2 client p l cs p2 out (ap_in _ _ _ _ _ _ _ _ P2) (ap_holds _ _ _ _ _ _ _ _ P2) Hby Hout) as (I3 & H3 & F3).
  exists (fill w2 client p2 out). split_and!; [by eapply filled_trans|done|]. rewrite E2, Hlen. replace (Z.of_nat (2 + length body) - 2) with (Z.of_nat (length body)) by lia.
  destruct (decide (length rest <= length cs - off)%nat) as [D|D].
  - rewrite (proj2 (Nat.leb_le _ _)) by lia. split.
    + replace (ctl :: Z.of_nat (length body) :: body) with (p2 ++ out); [done|]. rewrite <- Hm, <- E2. f_equal. unfold out. destruct (ap_bytes _ _ _ _ _ _ _ _ P2) as [[k Hk]|[k Hk]]; rewrite Hk; [|by rewrite take_app_length].
      assert (k = []) as ->; [|by rewrite !app_nil_r, take_ge]. apply (f_equal length) in Hk. rewrite length_app, length_drop in Hk. destruct k; [done|]. simpl in Hk. lia.
    + destruct (mqtt_message_received _ _ _ _ _ _ _ _ _) as [[w3 res]|]; [|done]. cbn [mbind option_bind]. destruct (negb _); [done|]. by replace (o2 + length r2)%nat with (off + length rest)%nat by lia.
  - rewrite (proj2 (Nat.leb_gt _ _)) by lia. rewrite (step_end _ _ _ _ _ _ _ _ I3). split; [|done]. replace (pre ++ drop off cs) with (p2 ++ out); [done|].
    unfold out. rewrite take_ge by (rewrite length_drop; lia). apply (prefix_same_length _ _ (pre ++ rest)).
    + rewrite <- E2. apply prefix_app. destruct (ap_bytes _ _ _ _ _ _ _ _ P2) as [|Hpf]; [done|]. apply prefix_length in Hpf. rewrite length_drop in Hpf. lia.
    + apply prefix_app. destruct (ap_bytes _ _ _ _ _ _ _ _ Hp) as [|Hpf]; [done|]. apply prefix_length in Hpf. rewrite length_drop in Hpf. lia.
    + rewrite !length_app, !length_drop. lia.
Qed.
End Parse.
