(* ===== verification/MqttExample.v ===== *)
(** * An MQTT client on a board

    A board with a client is connected by a wire to a board that plays the server; the
    witnesses of the theorems about the client, and what it does with some messages it does
    not expect. *)

From Stdlib Require Import ZArith Lia.
From stdpp Require Import base tactics numbers list option gmap.
From S2P Require Import Prelude.
From S2P Require Import Def.
From S2P Require Import Ip4Addr.
From S2P Require Import Alloc.
From S2P Require Import Mem.
From S2P Require Import Memp.
From S2P Require Import Pbuf.
From S2P Require Import PbufChain.
From S2P Require Import Timeouts.
From S2P Require Import Etharp.
From S2P Require Import World.
From S2P Require Import AppTimers.
From S2P Require Import Ip4Frag.
From S2P Require Import Ip4.
From S2P Require Import Icmp.
From S2P Require Import Udp.
From S2P Require Import Tcp.
From S2P Require Import TcpOut.
From S2P Require Import TcpCore.
From S2P Require Import TcpIn.
From S2P Require Import TcpExample.
From S2P Require Import MqttReq.
From S2P Require Import Mqtt.
From S2P Require Import MqttProps.
From S2P Require Import MqttParse.

(** The variables of TCP, the timers, the client, the calls of the application and the
    packets on the wire. *)
Definition mx : Type := tcp_vars * (tstate unit * (mqtt_vars * (list (list Z) * list (list Z)))).
#[export] Instance mx_tcp : tcp_store mx.
Proof. refine {| tcp_get x := x.1; tcp_put x v := (v, x.2) |}; done. Defined.
#[export] Instance mx_timers : timer_store mx.
Proof. refine {| timers_get x := x.2.1; timers_put x t := (x.1, (t, x.2.2)) |}; done. Defined.
#[export] Instance mx_mqtt : mqtt_store mx.
Proof. refine {| mqtt_get x := x.2.2.1; mqtt_put x v := (x.1, (x.2.1, (v, x.2.2.2))) |}; done. Defined.
Abbreviation MW := (world mx).
Definition noted (w : MW) (e : list Z) : MW :=
  let x := w_ext w in set_ext w (x.1, (x.2.1, (x.2.2.1, (x.2.2.2.1 ++ [e], x.2.2.2.2)))).
Definition mx_wire (w : MW) (nif p dest : Z) : option (MW * Z) :=
  let x := w_ext w in Some (set_ext w (x.1, (x.2.1, (x.2.2.1, (x.2.2.2.1, x.2.2.2.2 ++ [chain_bytes (w_ps w) p])))), ERR_OK).
Definition seen (w : MW) : list (list Z) := (w_ext w).2.2.2.1.
Definition on_wire (w : MW) : list (list Z) := (w_ext w).2.2.2.2.
Definition taken (w : MW) : MW := let x := w_ext w in set_ext w (x.1, (x.2.1, (x.2.2.1, (x.2.2.2.1, [])))).

(** The application notes its calls: [1; status], [2; argument; error], [3; length; topic]
    and [4; flags; data]. The request function 54 disconnects. *)
Definition topic_bytes (m : memory) (a : Z) : list Z := bytes_at m a (Z.to_nat (default 0 (strlen 200 m a))).
Definition null_cb : tcp_callbacks mx :=
  mk_cb (fun _ w _ _ _ => Some (w, ERR_OK)) (fun _ w _ _ _ _ => Some (w, ERR_OK)) (fun _ w _ _ _ => Some (w, ERR_OK))
    (fun _ w _ _ _ => Some (w, ERR_OK)) (fun _ w _ _ => Some (w, ERR_OK)) (fun _ w _ _ => Some w).
Definition quiet_app : mqtt_callbacks mx :=
  mk_mcb (fun _ w _ _ status => Some (noted w [1; status])) (fun _ w arg err => Some (noted w [2; arg; err]))
    (fun _ w _ a n flags => Some (noted w (4 :: flags :: bytes_at (wmem w) a (Z.to_nat n)))) (fun _ w _ topic n => Some (noted w (3 :: n :: topic_bytes (wmem w) topic))).
Definition mqtt_app : mqtt_callbacks mx :=
  mk_mcb (m_connect quiet_app)
    (fun f w arg err => if f =? 54 then mqtt_disconnect mx_wire no_custom 300 id null_cb quiet_app 9 (noted w [2; arg; err]) arg else Some (noted w [2; arg; err]))
    (m_data quiet_app) (m_pub quiet_app).
(** 9 is [mqtt_cyclic_timer], 10 to 14 are the functions that are passed to TCP. *)
Definition client_cb : tcp_callbacks mx :=
  mk_cb (cb_accept null_cb)
    (fun f w arg pcb p err => if f =? 10 then mqtt_tcp_recv_cb mx_wire no_custom 300 id null_cb mqtt_app 9 w arg pcb p err else Some (w, ERR_OK))
    (fun f w arg pcb n => if f =? 11 then mqtt_tcp_sent_cb mx_wire no_custom 300 mqtt_app w arg pcb n else Some (w, ERR_OK))
    (fun f w arg pcb err => if f =? 14 then mqtt_tcp_connect_cb mx_wire no_custom 300 9 10 11 13 w arg pcb err else Some (w, ERR_OK))
    (fun f w arg pcb => if f =? 13 then mqtt_tcp_poll_cb mx_wire no_custom 300 w arg pcb else Some (w, ERR_OK))
    (fun f w arg err => if f =? 12 then mqtt_tcp_err_cb mx_wire no_custom 300 id null_cb mqtt_app 9 w arg err else Some w).

(** The boards; the strings of the application are at 6000, 6100 and 6200. *)
Definition mqtt_board (ip : Z) : MW :=
  let pools := <[7%nat := memp_init_pool (mk_desc 16 8 538010000) (mk_pool 0 ∅ (mk_stats 0 0 0 0 0))]> tcp_pools in
  let m := write_bytes (write_bytes (write_bytes (fun _ => 0) 6000 [116; 52; 49; 0]) 6100 [97; 47; 98; 0]) 6200 [104; 105] in
  mk_world (no_pcbs, (mk_ts [] 0 false false 1000 [] tt, (mk_mqtt ∅ ∅, ([], [])))) (mk_ps ∅ m heap0 pools 0)
    (mk_netifs (fun _ => mk_netif ip 0x00ffffff 0xfe00a8c0 1500 [2; 0; 0; 0; 0; 1] 6 0x3f) [4000] 4000) 7 NULL (mk_ipg 0 0 0 0 0 0) [] 0 [] ∅ 0xc000
    (fun _ _ => 0).
Definition delivered (w : MW) (bs : list Z) : option (MW * Z) :=
  '(st, p) ← pbuf_alloc no_custom 300 (w_ps w) PBUF_RAW (Z.of_nat (length bs)) PBUF_RAM;
  let hdr := pb_payload (pb st p) in
  let w := set_wps w (set_data st (write_bytes (data st) hdr bs)) in
  let w := set_ip_data w (mk_ipg 4000 4000 hdr 20 (ld32 (wmem w) (hdr + 12)) (ld32 (wmem w) (hdr + 16))) in
  Some (set_wps w (fst (pbuf_header (w_ps w) p (-20))), p).
(** All packets on the wire of [from] arrive at [to]. *)
Definition carry (cb : tcp_callbacks mx) (from to : MW) : option (MW * MW) :=
  to ← foldl (fun ow bs => w ← ow; '(w, p) ← delivered w bs; tcp_input mx_wire no_custom 300 id cb 901 902 w p 4000) (Some to) (on_wire from);
  Some (taken from, to).
Definition client_info : mqtt_connect_client_info_t := mk_client_info 6000 NULL NULL 60 NULL NULL 0 0.
Definition the_client : Z := default 0 (snd <$> mqtt_client_new (mqtt_board addrA)).
Definition started : option (MW * MW) :=
  '(a, client) ← mqtt_client_new (mqtt_board addrA);
  '(a, _) ← mqtt_client_connect mx_wire no_custom 300 id client_cb 901 12 14 a client addrB 1883 50 0 client_info;
  '(b, pcb) ← tcp_new mx_wire no_custom 300 null_cb 901 (mqtt_board addrB);
  '(b, _) ← tcp_bind id b pcb None 1883;
  let '(b, lpcb, _) := tcp_listen_with_backlog_and_err id 902 b pcb in
  Some (a, tcp_accept b lpcb 6).
Definition client_state (w : MW) : conn_state := mc_conn_state (mc w the_client).
Definition sent_data (w : MW) : list (list Z) := List.filter (fun l => negb (Nat.eqb (length l) 0)) (map (drop 40) (on_wire w)).
(** The handshake of TCP, up to the CONNECT message. *)
Definition shaken : option (MW * MW) :=
  '(a, b) ← started;
  '(a, b) ← carry null_cb a b;
  '(b, a) ← carry client_cb b a; Some (a, b).
(** The server sends bytes in one segment, after the client has acknowledged those before. *)
Definition server_sends (bs : list Z) (ab : MW * MW) : option (MW * MW) :=
  let '(a, b) := ab in
  a ← tcp_fasttmr mx_wire no_custom 300 id client_cb 901 a;
  '(a, b) ← carry null_cb a b;
  let b := taken b in
  let pcb := hd NULL (tcp_active_pcbs (tcp b)) in
  let b := set_wmem b (write_bytes (wmem b) 7000 bs) in
  '(b, _) ← tcp_write no_custom 300 b pcb 7000 (Z.of_nat (length bs)) TCP_WRITE_FLAG_COPY;
  '(b, _) ← tcp_output mx_wire no_custom 300 b pcb;
  '(b, a) ← carry client_cb b a; Some (a, b).
Definition accepted : option (MW * MW) := ab ← shaken; server_sends [0x20; 2; 0; 0] ab.
Definition with_callbacks (ab : MW * MW) : MW * MW := (mqtt_set_inpub_callback ab.1 the_client 52 53 0, ab.2).
Definition publishes (qos : Z) (cbf : Z) (ab : MW * MW) : option (MW * MW) :=
  '(a, _) ← mqtt_publish mx_wire no_custom 300 ab.1 the_client 6100 6200 2 qos 0 cbf the_client; Some (a, ab.2).

(** ** A session *)

Definition report (ab : MW * MW) : conn_state * list (list Z) * list (list Z) := (client_state ab.1, seen ab.1, sent_data ab.1).
(** CONNECT with the identifier "t41" and 60 seconds, and the answer of the server. *)
Lemma connect_sent : report <$> shaken = Some (MQTT_CONNECTING, [], [[0x10; 15; 0; 4; 77; 81; 84; 84; 4; 2; 0; 60; 0; 3; 116; 52; 49]]).
Proof. vm_compute. reflexivity. Qed.
Lemma connect_accepted : report <$> accepted = Some (MQTT_CONNECTED, [[1; 0]], []).
Proof. vm_compute. reflexivity. Qed.
(** "hi" is published as "a/b" with QoS 1, and acknowledged. *)
Lemma publish_acknowledged :
  report <$> (ab ← accepted; publishes 1 51 ab) = Some (MQTT_CONNECTED, [[1; 0]], [[0x32; 9; 0; 3; 97; 47; 98; 0; 1; 104; 105]]) /\
  report <$> (ab ← accepted; ab ← publishes 1 51 ab; server_sends [0x40; 2; 0; 1] ab) = Some (MQTT_CONNECTED, [[1; 0]; [2; the_client; ERR_OK]], []).
Proof. split; vm_compute; reflexivity. Qed.
(** "xy" is published by the server, in one segment or in two. *)
Lemma publish_received :
  report <$> (ab ← accepted; server_sends [0x30; 7; 0; 3; 97; 47; 98; 120; 121] (with_callbacks ab)) = Some (MQTT_CONNECTED, [[1; 0]; [3; 2; 97; 47; 98]; [4; 1; 120; 121]], []) /\
  report <$> (ab ← accepted; ab ← server_sends [0x30; 7; 0; 3; 97] (with_callbacks ab); server_sends [47; 98; 120; 121] ab) =
    Some (MQTT_CONNECTED, [[1; 0]; [3; 2; 97; 47; 98]; [4; 1; 120; 121]], []).
Proof. split; vm_compute; reflexivity. Qed.

(** ** Surprises *)

(** An empty message with QoS 0 (as it deletes a retained one) ends the connection. *)
Lemma empty_message_disconnects :
  report <$> (ab ← accepted; server_sends [0x30; 5; 0; 3; 97; 47; 98] (with_callbacks ab)) = Some (TCP_DISCONNECTED, [[1; 0]; [1; MQTT_CONNECT_DISCONNECTED]], []).
Proof. vm_compute. reflexivity. Qed.
(** A message before [mqtt_set_inpub_callback]: the function that is called is [NULL]. *)
Lemma message_without_callback : (ab ← accepted; server_sends [0x30; 7; 0; 3; 97; 47; 98; 120; 121] ab) = None.
Proof. vm_compute. reflexivity. Qed.
(** The function of a request with QoS 0 disconnects: the output is sent on the connection
    [NULL]. *)
Lemma disconnect_in_callback : (ab ← accepted; ab ← publishes 0 54 ab; server_sends [0xd0; 0] ab) = None.
Proof. vm_compute. reflexivity. Qed.
(** A length that goes on and on is written behind the 128 bytes of the buffer. *)
Lemma long_header_overruns : (fun ab => mc_msg_idx (mc ab.1 the_client)) <$> (ab ← accepted; server_sends (replicate 200 0x80) ab) = Some 200.
Proof. vm_compute. reflexivity. Qed.
(** The length of a topic wraps around in [after_topic]: the message is taken, with a topic
    that ends behind the buffer and a payload that is a part of the length. *)
Lemma long_topic_accepted :
  (fun ab => (client_state ab.1, List.last (seen ab.1) [])) <$> (ab ← accepted; server_sends [0x30; 4; 0xff; 0xff; 1; 2] (with_callbacks ab)) =
  Some (MQTT_CONNECTED, [4; MQTT_DATA_FLAG_LAST; 0xff; 1; 2]).
Proof. vm_compute. reflexivity. Qed.
(** Two requests of the same second: the second one is given up five seconds after the
    first. *)
Fixpoint ticks (n : nat) (w : MW) : option MW :=
  match n with O => Some w | S n => w ← mqtt_cyclic_timer mx_wire no_custom 300 id client_cb mqtt_app 9 w the_client; ticks n w end.
Lemma second_request_late :
  (fun w => seen w) <$> (ab ← accepted; ab ← publishes 1 51 ab; ab ← publishes 1 51 ab; ticks 6 ab.1) = Some [[1; 0]; [2; the_client; ERR_TIMEOUT]] /\
  (fun w => seen w) <$> (ab ← accepted; ab ← publishes 1 51 ab; ab ← publishes 1 51 ab; ticks 7 ab.1) = Some [[1; 0]; [2; the_client; ERR_TIMEOUT]; [2; the_client; ERR_TIMEOUT]].
Proof. split; vm_compute; reflexivity. Qed.
(** The size of a message of 65535 bytes wraps around: it fits into the empty buffer. *)
Lemma long_message_fits : mqtt_output_check_space client_zero 65535 = true.
Proof. reflexivity. Qed.

(** ** Witnesses *)

Lemma two_requests_ok : exists q tail, two_requests = Some (q, tail) /\ requests_ok q 2028 tail [2028; 2044] [] /\ dues q 0 [2028; 2044] = [(7, 30); (8, 30)].
Proof.
  exists (default (∅, 0) two_requests).1, (default (∅, 0) two_requests).2. split; [vm_compute; reflexivity|]. split; [|vm_compute; reflexivity].
  split; [lia|split_and!; vm_compute; done|apply (bool_decide_unpack _); vm_compute; exact I|apply (bool_decide_unpack _); vm_compute; exact I|repeat constructor; vm_compute; done|vm_compute; done|constructor|].
  match goal with |- forall r, _ -> @?P r => apply (proj1 (Forall_forall P _)) end. apply (bool_decide_unpack _); vm_compute; exact I.
Defined.
Lemma requests_refine_witness : exists q tail q1 tail1 r l1, two_requests = Some (q, tail) /\
  mqtt_take_request 5 q tail 7 = Some (q1, tail1, r) /\ dues (mqtt_delete_request q1 r) 0 l1 = [(8, 30)].
Proof.
  destruct two_requests_ok as (q & tail & E & Hok & Hd). destruct (requests_refine q 2028 tail [2028; 2044] 5 Hok ltac:(lia)) as (_ & H & _).
  destruct (H 7) as (q1 & tail1 & r & l1 & H1 & _ & H2 & _). exists q, tail, q1, tail1, r, l1. split; [done|]. split; [done|]. by rewrite H2, Hd.
Defined.

(** A client at 2000 that is connected, with requests; the application notes function,
    argument and error. *)
Definition with_client (c : mqtt_client_t) (q : requests) : MW := set_mq (mqtt_board addrA) (mk_mqtt {[2000 := c]} q).
Definition log_app : mqtt_callbacks mx := mk_mcb (m_connect mqtt_app) (fun f w arg err => Some (noted w [f; arg; err])) (m_data mqtt_app) (m_pub mqtt_app).
Definition request_calls (w : MW) : list (Z * Z * Z) := omap (fun e => match e with [f; arg; err] => Some (f, arg, err) | _ => None end) (seen w).
Lemma log_env : request_env log_app request_calls.
Proof.
  split; [|done]. intros f w arg e. eexists. split; [done|]. split; [done|]. unfold request_calls, noted, seen. cbn [w_ext set_ext fst snd]. by rewrite omap_app.
Qed.
Lemma requests_time_out_witness : exists q tail w' fired rest, two_requests = Some (q, tail) /\
  let w := with_client (mk_client 0 60 0 0 0 MQTT_CONNECTED 1 0 50 tail 0 53 52 0 0 0) q in
  mqtt_request_time_elapsed 6 log_app w 2000 5 = Some w' /\ dues (reqs w') 0 rest = [(7, 25); (8, 25)] /\ request_calls w' = concat (map (timed_out q) fired).
Proof.
  destruct two_requests_ok as (q & tail & E & Hok & Hd). set (w := with_client (mk_client 0 60 0 0 0 MQTT_CONNECTED 1 0 50 tail 0 53 52 0 0 0) q).
  destruct (requests_time_out 6 log_app request_calls log_env w 2000 [2028; 2044] 5 Hok ltac:(lia) ltac:(lia)) as (w' & fired & rest & H1 & H2 & _ & (H3 & H4 & H5) & H6).
  change (reqs w) with q in *. rewrite <- H2, Hd in H3, H5. exists q, tail, w', fired, rest. split; [done|]. split; [done|]. split; [|by rewrite H6].
  rewrite H5. destruct fired as [|x fired]; [done|]. cbn in H3. apply Forall_cons in H3 as [H3 _]. simpl in H3. lia.
Defined.

Definition idle : MW := with_client (mk_client 0 60 0 0 0 MQTT_CONNECTED 1 0 50 0 0 53 52 0 0 0) (mqtt_init_requests ∅ 2028).
Lemma publish_queued_witness : exists w2 l2,
  mqtt_publish mx_wire no_custom 10 idle 2000 6100 6200 2 1 0 51 0 = (w3 ← mqtt_output_send mx_wire no_custom 10 w2 2000 1; Some (w3, ERR_OK)) /\
  queued idle w2 2000 [] l2 1 [0x32; 9; 0; 3; 97; 47; 98; 0; 1; 104; 105].
Proof.
  assert (Hr : ready idle 2000 []) by (split; [done|by apply (init_ok ∅ 2028)|split_and!; vm_compute; done|vm_compute; done]).
  assert (Ht : given_string idle 2000 6100 [97; 47; 98]) by (split_and!; [vm_compute; done|unfold apart, output_buf; simpl; lia|repeat constructor; unfold is_byte; lia]).
  assert (Hp : given_string idle 2000 6200 [104; 105]) by (split_and!; [vm_compute; done|unfold apart, output_buf; simpl; lia|repeat constructor; unfold is_byte; lia]).
  assert (Hc : cstr (wmem idle) 6100 [97; 47; 98]) by (split_and!; [vm_compute; done|vm_compute; done|repeat constructor; lia]).
  exact (publish_queued mx_wire no_custom 10 idle 2000 [] 6100 [97; 47; 98] 6200 [104; 105] 1 0 51 0 Hr Hc Ht Hp (or_introl (ltac:(done) : 6200 <> NULL)) ltac:(simpl; lia) ltac:(lia) ltac:(simpl; lia)).
Defined.

(** The second segment of the answer [0x40; 2; 0; 7] arrives. *)
Definition half_answer : MW :=
  let w := with_client (mk_client 0 60 0 0 0 MQTT_CONNECTED 1 0 50 0 0 53 52 2 0 0) (mqtt_init_requests ∅ 2028) in
  set_wps w (set_pb (set_data (w_ps w) (write_bytes (write_bytes (wmem w) (rx_buffer 2000) [0x40; 2]) 1100 [0; 7])) 1000 (mk_pbuf 0 1100 2 2 PBUF_RAM 0 1)).
Lemma message_assembled_witness : exists w1, filled half_answer w1 2000 /\ holds w1 2000 [0x40; 2; 0; 7] /\
  parse_from mx_wire no_custom 10 mqtt_app 4 half_answer 2000 1000 0 0 =
    '(w2, res) ← mqtt_message_received mx_wire no_custom 10 mqtt_app w1 2000 2 2 0;
    if negb (res =? MQTT_CONNECT_ACCEPTED) then Some (w2, res) else parse_from mx_wire no_custom 10 mqtt_app 1 (upd_mc w2 2000 (mc_set_msg_idx 0)) 2000 1000 2 2.
Proof.
  assert (Hm : mem_ok (wmem (mqtt_board addrA))) by (unfold mqtt_board; cbn [wmem w_ps data]; repeat apply write_bytes_ok; repeat constructor; unfold is_byte; try lia; intros x; unfold is_byte; lia).
  assert (Hi : incoming 10 half_answer 2000 1000 [1000] [0; 7]).
  { split; [split_and!; vm_compute; done|done|split_and!; vm_compute; done|simpl; lia| |lia|vm_compute; done|apply Forall_singleton; right; vm_compute; done].
    change (mem_ok (write_bytes (write_bytes (wmem (mqtt_board addrA)) (rx_buffer 2000) [0x40; 2]) 1100 [0; 7])).
    apply write_bytes_ok; [apply write_bytes_ok; [exact Hm|]|]; repeat constructor; unfold is_byte; lia. }
  assert (Hp : at_pos 10 half_answer 2000 1000 [1000] [0; 7] 0 [0x40; 2] [0; 7]) by (split; [done|split; vm_compute; done|simpl; lia|by left|simpl; lia]).
  destruct (message_assembled mx_wire no_custom 10 mqtt_app half_answer 2000 1000 [1000] [0; 7] 0 [0x40; 2] [0; 7] 0x40 [0; 7] 0 1 Hp eq_refl ltac:(done) ltac:(done) ltac:(simpl; lia)) as (w1 & F & _ & H).
  exists w1. split; [exact F|]. exact H.
Defined.
